(* ===== verification/_CoqProject ===== *)
-Q . S2P
Prelude.v
Words.v
Savevm.v
Pl192.v
Uart.v
NorFlash.v
I2cBus.v
I2cCtl.v
Spi.v
TcpUsb.v
Synopsys.v
UsbTransfers.v
QemuTimer.v
SocTimers.v
Host.v
Memory.v
ArmCpu.v
ArmAlu.v
ArmNeon.v
ArmNeonWide.v
ArmMmu.v
ArmTlb.v
ArmVirt.v
ArmStore.v
ArmExcp.v
ArmCp15.v
ArmState.v
Cdma.v
H2fmi.v
FlashPath.v
IphoneEngines.v
SocRegs.v
Interrupts.v
TcpUsbBus.v
Iop.v
Skin.v
