(* ===== verification/Prelude.v ===== *)
(** * A verification development for the iDevice emulator

    The program is a QEMU 0.15 with two machines of its own: the first iPhone
    (processor S5L8900) and the first iPad (processor S5L8930).  What is
    verified here is the code of those machines, that is their devices under
    [src/Main/linux/hw/], and the stock code of QEMU they are built on as far as
    their behaviour depends on it: the physical address space, the ARM
    processor with its address translation and exceptions, the I2C and SMBus
    layers, interrupt lines, timers, and the encoding of saved device state.

    ** How code is rendered

    A device's state is a [Record] with the fields of its C structure.  A
    function of the code is a Gallina function of the same name in the monad
    [dev St Ev] of this file: it reads and changes the state, emits the events
    the rest of the machine sees (levels of interrupt lines, requests to the
    host, bytes sent), and ends in [Done], in [HwError] where the code calls
    [hw_error] or [abort], or in [Undef] where the behaviour of the C program is
    undefined (an index out of an array, a null pointer, a signed overflow).
    Theorems that say a handler is [Done] therefore say that it is memory safe.
    Integers are [Z] with the wrap-around of their C type written out ([u8],
    [u16], [u32], [u64], [sgn]); bit operations are those of [Z]; arrays are
    lists with [aget] and [aset], which fail out of range.  A [switch] is
    [switch] with a list of labels.  Messages on [stderr] are left out.

    ** Parts and files

    - Prelude.v: record update, the monad, machine integers, [switch], arrays,
      the weakest precondition [wp] and [keeps] with their rules, tactics.
      Words.v: words by their bits, masks and fields as arithmetic.
    - Savevm.v ([savevm.c], [hw/hw.h]): the encoding of values in the state
      stream, used by every [_save]/[_load] pair.
    - Pl192.v ([hw/pl192.c]): the vectored interrupt controllers; a chain is a
      list, in which the pointers of the code are indices.  Interrupts.v
      ([hw/s5l8900.c], [hw/s5l8930.c], [hw/s5l8930_iop.c], [hw/irq.c]): how
      the chips chain them and number their lines.  Iop.v
      ([hw/s5l8930_iop.c]): the I/O processor, which has a chain of its own.
    - Uart.v ([hw/s5l8900_uart.c]): serial ports.
    - NorFlash.v ([hw/pflash_spi.c]): the NOR flash with its SPI and CFI
      sides.  Spi.v ([hw/s5l8900_spi.c], [hw/s5l8930_spi.c]): the SPI
      ports; the S5L8930 port has a NOR flash in its state.
    - I2cBus.v ([hw/i2c.c], [hw/smbus.c], [hw/pcf50633.c],
      [hw/s5l8930_i2cchg.c]): the bus against the class [I2CSlave], SMBus
      devices as an instance of it, and the two chips as SMBus devices.  I2cCtl.v
      ([hw/s5l8900_i2c.c], [hw/s5l8930_i2c.c]): the masters of that bus.
    - TcpUsb.v ([hw/tcp_usb.c]): the transport of USB packets over a socket,
      against the classes [Os] (socket calls) and [TcpClient] (the device behind
      a connection).  Synopsys.v and UsbTransfers.v ([hw/usb_synopsys.c]): the
      USB controller in device mode, an instance of [TcpClient]; the second file
      has its transfers and the proof that it keeps the contract.  TcpUsbBus.v
      ([hw/tcp_usb_bus.c]): the other end, a device on the USB bus of a host.
    - QemuTimer.v ([qemu-timer.c]): clocks and timers, with the callbacks as
      an interface ([TimerWorld], [Callbacks]).  SocTimers.v ([hw/s5l8900.c],
      [hw/s5l8930.c]): the timer blocks of both chips on top of it.
    - Memory.v ([exec.c], [cpu-common.h]): the physical address space: the page
      table, I/O zones and pages shared by several, mapping of regions, blocks of
      RAM with their dirty map, and every access, against the class [IoDevices]
      (the handlers of devices).
    - ArmCpu.v ([target-arm/cpu.h], [target-arm/helper.c],
      [target-arm/op_helper.c]): the state of the processor, its register banks
      and status register.  ArmAlu.v (the same files, [op_addsub.h],
      [host-utils.h]): arithmetic with flags, shifts, saturation, and arithmetic
      on the halfwords and bytes of a word.  ArmNeon.v and ArmNeonWide.v
      ([target-arm/neon_helper.c]): the integer instructions of the vector unit,
      on elements of one width and between widths.  ArmMmu.v ([target-arm/helper.c]): translation tables
      in physical memory and the protection unit.  ArmTlb.v ([exec.c],
      [softmmu_template.h], [softmmu_header.h]): the translation buffer and the
      loads that go through it.  ArmVirt.v: what this buffer promises.
      ArmStore.v (the same files, [cpu-all.h]): stores through it, and the
      protection of translated code, against the class [CodeCache].
      ArmExcp.v ([target-arm/helper.c], [hw/arm_pic.c], [cpu-exec.c]):
      exceptions, interrupt lines and the processor loop, against the class
      [ArmServices] (blocks of translated code, semihosting).  ArmCp15.v
      ([target-arm/helper.c]): the processor models and their reset, coprocessor
      15, handlers of other coprocessors, system registers of microcontrollers.
      ArmState.v ([target-arm/machine.c], [target-arm/helper.c], [exec.c]): the
      state stream of the processor, and the status register of its floating
      point unit.
    - Host.v: guest memory and OpenSSL as classes.  Cdma.v ([hw/s5l8930.c]):
      the DMA controller with its AES engine.  H2fmi.v
      ([hw/s5l8930_h2fmi.c]): the NAND flash controller over the class
      [BlockLayer].  FlashPath.v: both together, the FIFO register of the flash
      controller mapped into the memory the DMA controller reads.
    - IphoneEngines.v ([hw/iphone2g.c]): AES and SHA-1 engines of the iPhone.
    - SocRegs.v ([hw/s5l8900.c], [hw/s5l8930.c], [hw/iphone2g.c]): clock,
      power, GPIO, identification and USB PHY registers, buttons.
    - Skin.v ([skin/skin_button.c], [skin/skin_image.c], [skin/skinning.c]): the
      buttons around the emulated screen, against the keyboard handler they send
      scan codes to; the buttons of SocRegs.v are such a handler.

    ** What the theorems show

    - Interrupts: the priority sorter finds the winner of the programmed
      levels; lines and register writes keep the chain well formed and defined;
      the CPU lines are raised exactly when they should; acknowledging and
      finishing restores the running priority; in a calm chain a device's line
      reaches the CPU with its vector, and releasing it calms the chain again.
    - Serial ports: received bytes come out once, in order; no access leaves the
      ring.
    - NOR flash: SPI reads return the storage, the CFI program sequence clears
      exactly the bits it should, every access keeps the state well formed; a read
      through the SPI port is a read of the chip.
    - I2C: a device's event machine implements SMBus transactions; a start
      condition finds the addressed slave; a transfer programmed into either
      controller is one transaction of the addressed chip.
    - USB: the transport turns a byte stream into whole requests and sends whole
      responses however reads and writes are split; the controller's registers
      stay in bounds, its line follows the two-level interrupt tree, IN and OUT
      transfers move the right bytes and refused tokens change nothing they must
      not; the bridge completes packets one at a time.
    - Timers: the sorted list is a map of expiry times; the main loop ends and
      fires what is due; deadlines are bounded; the scaling multiplication is
      exact; a periodic timer keeps firing.
    - Flash and ciphers: a page read delivers page, spare area and ECC status; a
      DMA transfer deciphers the FIFO into the buffers of its descriptors; the
      two compose from NAND image to guest memory; register accesses stay in
      bounds; the engines compute the library's function of the programmed
      buffer and forget the key.
    - Physical memory: a mapped region leads every address to its device with
      the distance from its start; RAM that is written is read back through every
      mapping of it, across pages; allocations are disjoint.
    - Processor: a write of the status register replaces the masked bits and
      moves no register to another bank; the walk through the tables is a
      reference translation over decoded entries; a load through the buffer reads
      the RAM at the translated address, whatever the buffer holds, or reports
      the fault; a store does the same, and the cache of translated code hears of
      every one that could change code; invalidating an address makes the buffer coherent with tables
      changed for its page, however large; an exception with its return restores
      the state; the interrupt that is due is taken before the next block.  A
      register of coprocessor 15 returns what was written to it, its writes keep
      the buffer coherent with the translation they establish, and reset leads to
      the same state from everywhere.  Sums, shifts, saturation and parallel
      arithmetic are those of the architecture over unbounded integers.
    - Vectors: every element of the result is the exact value of the elements it
      comes from, clamped or cut to its width; the saturation flag says whether
      one was clamped; the model is undefined exactly where the C code overflows
      an [int].  Interleaving registers and taking them apart undo each other.
    - Skin: a button drives its pin of the phone exactly while the mouse is held
      on it; a redrawn switch shows the state of its hardware; what is painted is
      the intersection of picture and area.
    - State: saved devices and processors load back; the status register of the
      floating point unit reads back and sets the library it controls.

    The lemmas of the [...Demo] modules evaluate concrete runs; they are the
    witnesses of the theorems and the record of the places where the code does
    not do what it means to.

    ** Fuel

    - [pl192_update] recurses along the chain and back through raise and lower;
      [update_fuel] is twice the number of controllers plus two.  That this is
      enough follows from the theorems, which show [Done] ([undef] is the end of
      the fuel).
    - [run_expired], the main loop over one clock, returns [true] when it ended
      by itself; [run_timers_terminates] gives a sufficient fuel, one more than
      the timers that were armed.  Without the condition that callbacks arm only
      for later, the loop of the code need not end either.
    - [gather] and [scatter] follow a chain of descriptors in guest memory, which
      the guest can make circular: the code would not return.  The theorems have
      fuel for the length of the chain.

    - [io_read] and [io_write] have two turns more than there are shared pages,
      each of which leads to a device; the loops over an access one turn per
      byte.  [widen] has 32 turns, one per bit of an address.  A load or
      store takes two turns, one to fill the buffer, and one across two pages
      four.  [cpu_loop]
      counts blocks, which the guest decides.
    - Leading zeros are counted, and polynomials multiplied, with one turn per bit
      of an element, after which nothing is left to shift.

    ** Not modelled

    - The block layer ([block.c]), the sockets of the operating system, OpenSSL
      and blocks of translated code are interfaces: classes with the laws that
      are used, each with an instance.  The DMA and cipher engines take guest
      memory as a class, too, and not as Memory.v has it.
    - Of [exec.c] the translated code it keeps (a parameter where stores depend
      on it), watchpoints and the logging of dirty pages for displays; of the
      processor its floating point helpers, those of vectors included, and iWMMXt.
    - Constructing the machines, the displays, the firmware configuration
      ([iemu.c]): calls into the stock emulator, image drawing and XML parsing.
      Of the skin ([skin/]) its pixels, files, sliding keyboard, rotation, zoom
      and remote control.  [hw/iphone2g_radio.c] and
      [hw/s5l8900_usb_otg.c] are not built.
    - The rest of QEMU: translators ([tcg/], [target-*/translate.c]), other
      processors, user-mode emulation,
      network, user interface, sound, migration, the devices of other machines.
    - Of [qemu-timer.c] the [-icount] mode and the host's alarm signal; of
      [savevm.c] buffering and the sections of the file. *)

From Stdlib Require Export ZArith Lia Bool.
From stdpp Require Export base tactics numbers list.
Open Scope Z_scope.

(** ** Record update

    [s <| f := v |>] is the record [s] with field [f] replaced by [v], and
    [s <| f ::= g |>] the record whose field [f] is [g (f s)].  A record type
    provides its eta expansion once ([Eta]); the setter of a field is then
    computed from it by abstracting the projection. *)
Class Eta (R : Type) := eta : R -> R.

Class Setter {R T : Type} (proj : R -> T) := upd : (T -> T) -> R -> R.
Arguments upd {R T} proj {Setter} f s : simpl never.

Ltac solve_setter :=
  match goal with
  | |- @Setter ?R ?T ?proj =>
      let e := constr:(_ : Eta R) in
      let b := eval hnf in e in
      match eval pattern proj in b with
      | ?setter _ =>
          let s := constr:(fun (f : T -> T) => setter (fun r : R => f (proj r))) in
          let s := eval cbv beta in s in
          exact s
      end
  end.

#[export] Hint Extern 1 (Setter _) => solve_setter : typeclass_instances.

Declare Scope device_scope.
Delimit Scope device_scope with device.

Notation "s <| f := v |>" := (upd f (fun _ => v) s)
  (at level 1, f at next level, left associativity) : device_scope.
Notation "s <| f ::= g |>" := (upd f g s)
  (at level 1, f at next level, left associativity) : device_scope.

(** ** Outcomes of device code

    A handler finishes with a value, with the process aborted by [hw_error]
    (or [exit]), or in undefined behaviour of C: an array access out of its
    bounds, a null or dangling pointer, a read of an indeterminate value. *)
Inductive outcome (A : Type) : Type :=
  | Done (a : A)
  | HwError
  | Undef.
Arguments Done {A} a.
Arguments HwError {A}.
Arguments Undef {A}.

(** ** Device code as state transformers that emit events

    [St] is the state of the device, [Ev] what it makes visible outside of
    itself (interrupt lines, timers, characters, memory), in order. *)
Definition dev (St Ev A : Type) : Type := St -> outcome (A * St * list Ev).

Section Monad.
Context {St Ev : Type}.

Definition ret {A} (a : A) : dev St Ev A := fun s => Done (a, s, []).

Definition bind {A B} (m : dev St Ev A) (k : A -> dev St Ev B) : dev St Ev B :=
  fun s =>
    match m s with
    | Done (a, s1, e1) =>
        match k a s1 with
        | Done (b, s2, e2) => Done (b, s2, e1 ++ e2)
        | HwError => HwError
        | Undef => Undef
        end
    | HwError => HwError
    | Undef => Undef
    end.

Definition gets {A} (f : St -> A) : dev St Ev A := fun s => Done (f s, s, []).
Definition modify (f : St -> St) : dev St Ev unit := fun s => Done (tt, f s, []).
Definition emit (e : Ev) : dev St Ev unit := fun s => Done (tt, s, [e]).
Definition hw_error {A} : dev St Ev A := fun _ => HwError.
Definition undef {A} : dev St Ev A := fun _ => Undef.

(** The value of an expression whose evaluation can be undefined. *)
Definition lift {A} (o : option A) : dev St Ev A :=
  match o with Some a => ret a | None => undef end.

Definition when (b : bool) (m : dev St Ev unit) : dev St Ev unit :=
  if b then m else ret tt.

(** [for (i = lo; i < lo + n; i++) body(i)] with a bound computed once. *)
Fixpoint for_up (lo : Z) (n : nat) (body : Z -> dev St Ev unit) : dev St Ev unit :=
  match n with
  | O => ret tt
  | S n' => bind (body lo) (fun _ => for_up (lo + 1) n' body)
  end.
End Monad.

(** Running an operation of a component on the part of the state that holds it. *)
Definition zoom {S T E E' A : Type} (get : S -> T) (put : T -> S -> S) (inj : E -> E')
    (m : dev T E A) : dev S E' A := fun s =>
  match m (get s) with
  | Done (a, t, es) => Done (a, put t s, map inj es)
  | HwError => HwError
  | Undef => Undef
  end.

Arguments dev St%_type Ev%_type A%_type.

Notation "x <- m ;; k" := (bind m (fun x => k))
  (at level 100, m at next level, right associativity) : device_scope.
Notation "'let*' p := m 'in' k" := (bind m (fun x => match x with p => k end))
  (at level 100, p pattern, m at level 99, k at level 100, right associativity) : device_scope.
Notation "m ;;; k" := (bind m (fun _ : unit => k))
  (at level 100, right associativity) : device_scope.
Open Scope device_scope.

(** ** Machine words

    A [w]-bit unsigned value is a [Z] in [[0, 2^w)]; [wrap w] is the conversion
    C makes when a value is stored in an unsigned variable of [w] bits. *)
Definition fits (w z : Z) : Prop := 0 <= z < 2 ^ w.
Definition wrap (w z : Z) : Z := z mod 2 ^ w.
Abbreviation u8 := (wrap 8).
Abbreviation u16 := (wrap 16).
Abbreviation u32 := (wrap 32).
Abbreviation u64 := (wrap 64).

(** [1 << n] and [x & (1 << n)] as a test. *)
Definition bit (n : Z) : Z := Z.shiftl 1 n.
Definition test (x m : Z) : bool := negb (Z.land x m =? 0).

(** The signed reading of a [w]-bit value (two's complement). *)
Definition sgn (w z : Z) : Z := if wrap w z <? 2 ^ (w - 1) then wrap w z else wrap w z - 2 ^ w.

Infix ".&" := Z.land (at level 40, left associativity) : device_scope.
Infix ".&~" := Z.ldiff (at level 40, left associativity) : device_scope.
Infix ".^" := Z.lxor (at level 45, left associativity) : device_scope.
Infix ".|" := Z.lor (at level 45, left associativity) : device_scope.
Infix "<<" := Z.shiftl (at level 32, left associativity) : device_scope.
Infix ">>" := Z.shiftr (at level 32, left associativity) : device_scope.

#[global] Instance fits_dec w z : Decision (fits w z).
Proof. unfold fits. apply _. Defined.

(** ** The [switch] statement on a register offset

    The first label that matches selects its body.  A label is a test: a single
    constant, one of several, or a GNU range [lo ... hi]. *)
Definition label := Z -> bool.
Definition on (c : Z) : label := fun x => x =? c.
Definition on_any (cs : list Z) : label := fun x => existsb (Z.eqb x) cs.
Definition on_range (lo hi : Z) : label := fun x => (lo <=? x) && (x <=? hi).

Fixpoint switch {A} (x : Z) (cases : list (label * A)) (default : A) : A :=
  match cases with
  | [] => default
  | (l, body) :: rest => if l x then body else switch x rest default
  end.

(** ** Arrays

    A C array is a list of its exact length.  Reading or writing outside of it
    is undefined behaviour. *)
Definition aget {A} (l : list A) (i : Z) : option A :=
  if i <? 0 then None else l !! Z.to_nat i.
Definition aset {A} (i : Z) (v : A) (l : list A) : option (list A) :=
  if (0 <=? i) && (i <? Z.of_nat (length l)) then Some (<[Z.to_nat i := v]> l) else None.
Definition zeros (n : nat) : list Z := replicate n 0.
Definition zlen {A} (l : list A) : Z := Z.of_nat (length l).

(** A run of [n] elements of an array from index [i] on, and its replacement. *)
Definition slice {A} (i n : Z) (l : list A) : option (list A) :=
  if (0 <=? i) && (0 <=? n) && (i + n <=? Z.of_nat (length l))
  then Some (take (Z.to_nat n) (drop (Z.to_nat i) l)) else None.
Definition splice {A} (i : Z) (d l : list A) : option (list A) :=
  if (0 <=? i) && (i + Z.of_nat (length d) <=? Z.of_nat (length l))
  then Some (take (Z.to_nat i) l ++ d ++ drop (Z.to_nat i + length d) l) else None.

(** Little-endian bytes of a value and back. *)
Fixpoint le_bytes (n : nat) (v : Z) : list Z :=
  match n with
  | O => []
  | S n' => u8 v :: le_bytes n' (v >> 8)
  end.
Fixpoint le_value (l : list Z) : Z :=
  match l with
  | [] => 0
  | b :: r => b .| (le_value r << 8)
  end.

(** ** Weakest preconditions

    [wp m Q s]: running [m] in [s] never meets undefined behaviour, and when it
    finishes, [Q] holds of its value, the final state and the events.  An abort
    by [hw_error] satisfies every [Q]: it is the program's own guard. *)
Definition wp {St Ev A} (m : dev St Ev A) (Q : A -> St -> list Ev -> Prop) (s : St) : Prop :=
  match m s with
  | Done (a, s', es) => Q a s' es
  | HwError => True
  | Undef => False
  end.

(** [m] preserves [I] and has no undefined behaviour from a state in [I]. *)
Definition keeps {St Ev A} (I : St -> Prop) (m : dev St Ev A) : Prop :=
  forall s, I s -> wp m (fun _ s' _ => I s') s.

(** [m] always finishes: it neither aborts nor meets undefined behaviour. *)
Definition finishes {St Ev A} (m : dev St Ev A) (s : St) : Prop :=
  exists a s' es, m s = Done (a, s', es).

Section Wp.
Context {St Ev : Type}.
Implicit Types s : St.

Lemma wp_ret {A} (a : A) (Q : A -> St -> list Ev -> Prop) s : Q a s [] -> wp (ret a) Q s.
Proof. exact id. Qed.

Lemma wp_bind {A B} (m : dev St Ev A) (k : A -> dev St Ev B) Q s :
  wp m (fun a s1 e1 => wp (k a) (fun b s2 e2 => Q b s2 (e1 ++ e2)) s1) s -> wp (bind m k) Q s.
Proof.
  unfold wp, bind. destruct (m s) as [[[a s1] e1]| |]; [|done|done].
  by destruct (k a s1) as [[[b s2] e2]| |].
Qed.

Lemma wp_gets {A} (f : St -> A) (Q : A -> St -> list Ev -> Prop) s :
  Q (f s) s [] -> wp (gets f) Q s.
Proof. exact id. Qed.

Lemma wp_modify (f : St -> St) (Q : unit -> St -> list Ev -> Prop) s :
  Q tt (f s) [] -> wp (modify f) Q s.
Proof. exact id. Qed.

Lemma wp_emit (e : Ev) (Q : unit -> St -> list Ev -> Prop) s :
  Q tt s [e] -> wp (emit e) Q s.
Proof. exact id. Qed.

Lemma wp_hw_error {A} (Q : A -> St -> list Ev -> Prop) s : wp hw_error Q s.
Proof. exact I. Qed.

Lemma wp_lift {A} (o : option A) (Q : A -> St -> list Ev -> Prop) s a :
  o = Some a -> Q a s [] -> wp (lift o) Q s.
Proof. intros ->. exact id. Qed.

Lemma wp_when b (m : dev St Ev unit) (Q : unit -> St -> list Ev -> Prop) s :
  (b = true -> wp m Q s) -> (b = false -> Q tt s []) -> wp (when b m) Q s.
Proof. destruct b; cbn; auto. Qed.

Lemma wp_if {A} b (m1 m2 : dev St Ev A) Q s :
  (b = true -> wp m1 Q s) -> (b = false -> wp m2 Q s) -> wp (if b then m1 else m2) Q s.
Proof. destruct b; auto. Qed.

Lemma wp_switch_nil {A} x (d : dev St Ev A) Q s : wp d Q s -> wp (switch x [] d) Q s.
Proof. exact id. Qed.

Lemma wp_switch_cons {A} x (l : label) m cs (d : dev St Ev A) Q s :
  (l x = true -> wp m Q s) -> (l x = false -> wp (switch x cs d) Q s) ->
  wp (switch x ((l, m) :: cs) d) Q s.
Proof. cbn. destruct (l x); auto. Qed.

Lemma wp_mono {A} (m : dev St Ev A) (Q Q' : A -> St -> list Ev -> Prop) s :
  wp m Q s -> (forall a s' es, Q a s' es -> Q' a s' es) -> wp m Q' s.
Proof. unfold wp. destruct (m s) as [[[a s1] e1]| |]; auto. Qed.

Lemma wp_keeps {A} I (m : dev St Ev A) (Q : A -> St -> list Ev -> Prop) s :
  keeps I m -> I s -> (forall a s' es, I s' -> Q a s' es) -> wp m Q s.
Proof. intros H HI HQ. eapply wp_mono; [by apply H|]. auto. Qed.

Lemma keeps_if {A} (I : St -> Prop) (b : bool) (m1 m2 : dev St Ev A) :
  keeps I m1 -> keeps I m2 -> keeps I (if b then m1 else m2).
Proof. by destruct b. Qed.

Lemma wp_Done {A} (m : dev St Ev A) Q s a s' es :
  wp m Q s -> m s = Done (a, s', es) -> Q a s' es.
Proof. unfold wp. by intros H E; rewrite E in H. Qed.

Lemma wp_not_undef {A} (m : dev St Ev A) Q s : wp m Q s -> m s <> Undef.
Proof. unfold wp. by intros H E; rewrite E in H. Qed.

Lemma keeps_for_up I lo n (body : Z -> dev St Ev unit) :
  (forall i, lo <= i < lo + Z.of_nat n -> keeps I (body i)) -> keeps I (for_up lo n body).
Proof.
  revert lo. induction n as [|n IH]; intros lo H s Hs; cbn [for_up]; [done|].
  apply wp_bind. eapply wp_keeps; [apply H; lia|done|].
  intros _ s1 e1 H1. eapply wp_keeps; [apply IH|done|auto]. intros i Hi. apply H. lia.
Qed.

Lemma bind_Done {A B} (m : dev St Ev A) (k : A -> dev St Ev B) s a s1 e1 :
  m s = Done (a, s1, e1) ->
  bind m k s =
  match k a s1 with
  | Done (b, s2, e2) => Done (b, s2, e1 ++ e2)
  | HwError => HwError
  | Undef => Undef
  end.
Proof. unfold bind. by intros ->. Qed.

(** Evaluation of one step of a program on a given state. *)
Lemma bind_ret {A B} (a : A) (k : A -> dev St Ev B) s : bind (ret a) k s = k a s.
Proof. unfold bind, ret. by destruct (k a s) as [[[]]| |]. Qed.

Lemma bind_gets {A B} (f : St -> A) (k : A -> dev St Ev B) s : bind (gets f) k s = k (f s) s.
Proof. unfold bind, gets. by destruct (k (f s) s) as [[[]]| |]. Qed.

Lemma bind_modify {B} (f : St -> St) (k : unit -> dev St Ev B) s :
  bind (modify f) k s = k tt (f s).
Proof. unfold bind, modify. by destruct (k tt (f s)) as [[[]]| |]. Qed.

Lemma bind_lift {A B} (o : option A) (k : A -> dev St Ev B) s a :
  o = Some a -> bind (lift o) k s = k a s.
Proof. intros ->. apply bind_ret. Qed.

Lemma bind_silent {A B} (m : dev St Ev A) (k : A -> dev St Ev B) s a s1 :
  m s = Done (a, s1, []) -> bind m k s = k a s1.
Proof. unfold bind. intros ->. by destruct (k a s1) as [[[]]| |]. Qed.

Lemma bind_assoc {A B C} (m : dev St Ev A) (k : A -> dev St Ev B) (l : B -> dev St Ev C) s :
  bind (bind m k) l s = bind m (fun a => bind (k a) l) s.
Proof.
  unfold bind. destruct (m s) as [[[a s1] e1]| |]; [|done|done].
  destruct (k a s1) as [[[b s2] e2]| |]; [|done|done].
  destruct (l b s2) as [[[c s3] e3]| |]; [|done|done]. by rewrite app_assoc.
Qed.

Lemma bind_ret_tt (m : dev St Ev unit) s : bind m (fun _ => ret tt) s = m s.
Proof. unfold bind, ret. destruct (m s) as [[[[] s1] e1]| |]; [|done|done]. by rewrite app_nil_r. Qed.

Lemma bind_ext {A B} (m : dev St Ev A) (k k' : A -> dev St Ev B) s :
  (forall a s', k a s' = k' a s') -> bind m k s = bind m k' s.
Proof. intros H. unfold bind. destruct (m s) as [[[a s1] e1]| |]; [|done|done]. by rewrite H. Qed.

Lemma finishes_bind {A B} (m : dev St Ev A) (k : A -> dev St Ev B) s a s1 e1 :
  m s = Done (a, s1, e1) -> finishes (k a) s1 -> finishes (bind m k) s.
Proof. intros E (b & s2 & e2 & E2). unfold finishes, bind. rewrite E, E2. eauto. Qed.
End Wp.

(** One structural step of a weakest precondition; leaves the tests as
    hypotheses and never unfolds a device's own operation. *)
Ltac wp_step :=
  match goal with
  | |- wp (bind _ _) _ _ => apply wp_bind
  | |- wp (ret _) _ _ => apply wp_ret
  | |- wp (gets _) _ _ => apply wp_gets
  | |- wp (modify _) _ _ => apply wp_modify
  | |- wp (emit _) _ _ => apply wp_emit
  | |- wp hw_error _ _ => apply wp_hw_error
  | |- wp (when _ _) _ _ => apply wp_when; intro
  | |- wp (if _ then _ else _) _ _ => apply wp_if; intro
  | |- wp (switch _ [] _) _ _ => apply wp_switch_nil
  | |- wp (switch _ (_ :: _) _) _ _ => apply wp_switch_cons; intro
  | |- wp (match ?x with _ => _ end) _ _ => destruct x eqn:?
  end; cbv beta.
Ltac wp_steps := repeat wp_step.

Lemma zoom_Done {S T E E' A : Type} (get : S -> T) put (inj : E -> E') (m : dev T E A) s a t es :
  m (get s) = Done (a, t, es) -> zoom get put inj m s = Done (a, put t s, map inj es).
Proof. unfold zoom. by intros ->. Qed.

Lemma zoom_silent {S T E E' A : Type} (get : S -> T) put (inj : E -> E') (m : dev T E A) s a t :
  m (get s) = Done (a, t, []) -> zoom get put inj m s = Done (a, put t s, []).
Proof. unfold zoom. by intros ->. Qed.

(** Running a program on a given state, as far as no test is met. *)
Ltac run :=
  repeat first
    [ rewrite bind_assoc | rewrite bind_ret | rewrite bind_gets | rewrite bind_modify
    | erewrite bind_lift by reflexivity ]; cbv beta.

(** The switch in the goal selects its [n]th case. *)
Ltac pick n :=
  match goal with
  | |- context [switch ?x ?l ?d] =>
      change (switch x l d) with (snd (nth n l (on 0, d))); cbn [nth snd]
  end.

(** Case analysis on every comparison of integers in sight. *)
Ltac zcase :=
  match goal with
  | |- context [Z.leb ?a ?b] => destruct (Z.leb_spec a b)
  | |- context [Z.ltb ?a ?b] => destruct (Z.ltb_spec a b)
  | |- context [Z.eqb ?a ?b] => destruct (Z.eqb_spec a b)
  | _ : context [Z.leb ?a ?b] |- _ => destruct (Z.leb_spec a b)
  | _ : context [Z.ltb ?a ?b] |- _ => destruct (Z.ltb_spec a b)
  | _ : context [Z.eqb ?a ?b] |- _ => destruct (Z.eqb_spec a b)
  end.
Ltac zcases := repeat (zcase; cbv iota in *; try lia); try lia.

(** ** Word lemmas *)
Create HintDb width discriminated.

Lemma fits_wrap w z : 0 <= w -> fits w (wrap w z).
Proof. intros. apply Z.mod_pos_bound. lia. Qed.

Lemma wrap_fits w z : fits w z -> wrap w z = z.
Proof. apply Z.mod_small. Qed.

Lemma wrap_wrap w v z : 0 <= w <= v -> wrap w (wrap v z) = wrap w z.
Proof.
  intros. unfold wrap. rewrite <- !Z.land_ones by lia. rewrite <- Z.land_assoc. f_equal.
  apply Z.bits_inj'. intros i Hi. rewrite Z.land_spec, !Z.testbit_ones by lia.
  destruct (Z.ltb_spec i w), (Z.ltb_spec i v), (Z.leb_spec 0 i); try reflexivity; lia.
Qed.

Lemma fits_bits w z : 0 <= w -> fits w z <-> 0 <= z /\ forall i, w <= i -> Z.testbit z i = false.
Proof.
  intros Hw. split.
  - intros Hz. split; [apply Hz|]. intros i Hi.
    rewrite <- (wrap_fits w z Hz). unfold wrap. by rewrite Z.mod_pow2_bits_high by lia.
  - intros [H0 Hb]. rewrite <- (Z.mod_small z (2 ^ w)); [by apply Z.mod_pos_bound; lia|].
    split; [done|]. destruct (Z.eq_dec z 0) as [->|]; [lia|].
    apply Z.log2_lt_pow2; [lia|]. destruct (Z.lt_ge_cases (Z.log2 z) w) as [|Hge]; [done|].
    specialize (Hb (Z.log2 z) Hge). rewrite Z.bit_log2 in Hb by lia. done.
Qed.

Lemma fits_land w a b : 0 <= w -> fits w a -> 0 <= b -> fits w (a .& b).
Proof.
  intros Hw Ha Hb. rewrite fits_bits in * by done. destruct Ha as [Ha Hi]. split.
  - apply Z.land_nonneg. by left.
  - intros i Hwi. by rewrite Z.land_spec, Hi.
Qed.

Lemma fits_land_const w a c : 0 <= w -> fits w c -> 0 <= a -> fits w (a .& c).
Proof. intros. rewrite Z.land_comm. by apply fits_land. Qed.

Lemma fits_ldiff w a b : 0 <= w -> fits w a -> fits w (a .&~ b).
Proof.
  intros Hw Ha. rewrite fits_bits in * by done. destruct Ha as [Ha Hi]. split.
  - apply Z.ldiff_nonneg. by left.
  - intros i Hwi. by rewrite Z.ldiff_spec, Hi.
Qed.

Lemma fits_lor w a b : 0 <= w -> fits w a -> fits w b -> fits w (a .| b).
Proof.
  intros Hw Ha Hb. rewrite fits_bits in * by done. destruct Ha, Hb. split.
  - by apply Z.lor_nonneg.
  - intros i Hwi. rewrite Z.lor_spec. by apply orb_false_intro; auto.
Qed.

Lemma fits_lxor w a b : 0 <= w -> fits w a -> fits w b -> fits w (a .^ b).
Proof.
  intros Hw Ha Hb. rewrite fits_bits in * by done. destruct Ha as [? Ha], Hb as [? Hb]. split.
  - apply Z.lxor_nonneg. tauto.
  - intros i Hwi. rewrite Z.lxor_spec. by rewrite Ha, Hb.
Qed.

Lemma fits_shiftr w a n : 0 <= n -> fits w a -> fits w (a >> n).
Proof.
  unfold fits. intros Hn [H0 H1]. rewrite Z.shiftr_div_pow2 by done. split.
  - apply Z.div_pos; lia.
  - apply Z.div_lt_upper_bound; [lia|]. nia.
Qed.

Lemma fits_nonneg w a : fits w a -> 0 <= a.
Proof. unfold fits. lia. Qed.

Lemma fits_weaken v w a : 0 <= v <= w -> fits v a -> fits w a.
Proof. unfold fits. intros ? [? ?]. split; [done|]. pose proof (Z.pow_le_mono_r 2 v w). lia. Qed.

Lemma fits_bit w n : 0 <= n < w -> fits w (bit n).
Proof.
  intros. unfold fits, bit. rewrite Z.shiftl_1_l. split; [lia|]. apply Z.pow_lt_mono_r; lia.
Qed.

#[export] Hint Resolve fits_wrap fits_land fits_ldiff fits_lor fits_lxor fits_shiftr fits_nonneg
  : width.
#[export] Hint Extern 2 (0 <= _) => lia : width.
#[export] Hint Extern 1 (0 <= ?a) =>
  match goal with H : fits _ a |- _ => apply (fits_nonneg _ _ H) end : width.
#[export] Hint Extern 2 (0 <= _ <= _) => lia : width.
#[export] Hint Extern 1 (fits _ _) => (unfold fits; lia) : width.
#[export] Hint Extern 3 (fits _ ?c) =>
  (is_const c; by (vm_compute; split; [intro; discriminate|reflexivity])) : width.
#[export] Hint Extern 2 (fits _ (bit _)) => (apply fits_bit; lia) : width.

Lemma mbind_Some_eq {A B} (o : option A) (f : A -> option B) a : o = Some a -> o ≫= f = f a.
Proof. by intros ->. Qed.

(** ** Array lemmas *)
Section Arrays.
Context {A : Type}.
Implicit Types l : list A.

Lemma aget_Some l i : 0 <= i < zlen l -> exists v, aget l i = Some v.
Proof.
  unfold aget, zlen. intros H. destruct (Z.ltb_spec i 0); [lia|].
  destruct (lookup_lt_is_Some_2 l (Z.to_nat i)) as [v Hv]; [lia|eauto].
Qed.

Lemma aget_bounds l i v : aget l i = Some v -> 0 <= i < zlen l.
Proof.
  unfold aget, zlen. destruct (Z.ltb_spec i 0); [done|]. intros Hv.
  apply lookup_lt_Some in Hv. lia.
Qed.

Lemma aget_None l i : zlen l <= i -> aget l i = None.
Proof.
  intros H. destruct (aget l i) eqn:E; [|done]. apply aget_bounds in E. lia.
Qed.

Lemma aset_Some l i v : 0 <= i < zlen l -> aset i v l = Some (<[Z.to_nat i := v]> l).
Proof.
  unfold aset, zlen. intros. destruct (Z.leb_spec 0 i); [|lia].
  destruct (Z.ltb_spec i (Z.of_nat (length l))); [done|lia].
Qed.

Lemma aset_None l i v : zlen l <= i -> aset i v l = None.
Proof.
  unfold aset, zlen. intros. destruct (Z.leb_spec 0 i); [|done].
  by destruct (Z.ltb_spec i (Z.of_nat (length l))); [lia|].
Qed.

Lemma aset_length l i v l' : aset i v l = Some l' -> length l' = length l.
Proof.
  unfold aset. destruct (_ && _); [|done]. intros [= <-]. apply length_insert.
Qed.

Lemma aget_aset_eq l i v l' : aset i v l = Some l' -> aget l' i = Some v.
Proof.
  unfold aset, aget. destruct (Z.leb_spec 0 i); [|done].
  destruct (Z.ltb_spec i (Z.of_nat (length l))); [|done]. intros [= <-].
  destruct (Z.ltb_spec i 0); [lia|]. apply list_lookup_insert_eq. lia.
Qed.

Lemma aget_aset_ne l i j v l' : i <> j -> aset i v l = Some l' -> aget l' j = aget l j.
Proof.
  unfold aset, aget. intros Hij. destruct (Z.leb_spec 0 i); [|done].
  destruct (Z.ltb_spec i (Z.of_nat (length l))); [|done]. intros [= <-].
  destruct (Z.ltb_spec j 0); [done|]. apply list_lookup_insert_ne. lia.
Qed.

Lemma Forall_aset (P : A -> Prop) l i v l' :
  Forall P l -> P v -> aset i v l = Some l' -> Forall P l'.
Proof.
  unfold aset. destruct (_ && _); [|done]. intros Hl Hv [= <-]. by apply Forall_insert.
Qed.

Lemma Forall_aget (P : A -> Prop) l i v : Forall P l -> aget l i = Some v -> P v.
Proof.
  unfold aget. destruct (i <? 0); [done|]. intros Hl Hv. by eapply Forall_lookup_1.
Qed.
Lemma slice_Some l i n :
  0 <= i -> 0 <= n -> i + n <= zlen l -> slice i n l = Some (take (Z.to_nat n) (drop (Z.to_nat i) l)).
Proof. unfold slice, zlen. intros. zcases. done. Qed.

Lemma slice_length l i n d : slice i n l = Some d -> zlen d = n.
Proof.
  unfold slice, zlen. zcases; try done. intros [= <-]. rewrite length_take, length_drop. lia.
Qed.

Lemma splice_Some l i d :
  0 <= i -> i + zlen d <= zlen l ->
  splice i d l = Some (take (Z.to_nat i) l ++ d ++ drop (Z.to_nat i + length d) l).
Proof. unfold splice, zlen. intros. zcases. done. Qed.

Lemma splice_length l i d l' : splice i d l = Some l' -> length l' = length l.
Proof.
  unfold splice. zcases; try done. intros [= <-].
  rewrite !length_app, length_take, length_drop. lia.
Qed.

Lemma slice_splice l i d l' : splice i d l = Some l' -> slice i (zlen d) l' = Some d.
Proof.
  intros H. pose proof (splice_length _ _ _ _ H) as HL. revert H.
  unfold splice, slice, zlen in *. zcases; try done. intros [= <-]. f_equal.
  rewrite drop_app_length' by (rewrite length_take; lia).
  by rewrite take_app_length' by lia.
Qed.

(** Appending to the filled prefix of a buffer. *)
Lemma splice_prefix l i d l' :
  splice i d l = Some l' -> take (Z.to_nat i + length d) l' = take (Z.to_nat i) l ++ d.
Proof.
  unfold splice. zcases; try done. intros [= <-].
  rewrite app_assoc, take_app_length'; [done|]. rewrite length_app, length_take. lia.
Qed.

Lemma Forall_slice (P : A -> Prop) l i n d : Forall P l -> slice i n l = Some d -> Forall P d.
Proof.
  unfold slice. destruct (_ && _); [|done]. intros H [= <-]. by apply Forall_take, Forall_drop.
Qed.

Lemma Forall_splice (P : A -> Prop) l i d l' :
  Forall P l -> Forall P d -> splice i d l = Some l' -> Forall P l'.
Proof.
  unfold splice. destruct (_ && _); [|done]. intros H Hd [= <-].
  apply Forall_app; split; [by apply Forall_take|]. apply Forall_app; split; [done|by apply Forall_drop].
Qed.
End Arrays.

Lemma testbit_bit n k : 0 <= n -> 0 <= k -> Z.testbit (bit n) k = (n =? k).
Proof. intros. unfold bit. rewrite Z.shiftl_1_l. by apply Z.pow2_bits_eqb. Qed.

Lemma test_true_bit x n : 0 <= n -> test x (bit n) = Z.testbit x n.
Proof.
  intros Hn. unfold test, bit. rewrite Z.shiftl_1_l.
  assert (Z.land x (2 ^ n) = if Z.testbit x n then 2 ^ n else 0) as ->.
  { apply Z.bits_inj'. intros i Hi. rewrite Z.land_spec, Z.pow2_bits_eqb by done.
    destruct (Z.eqb_spec n i) as [->|Hne].
    - destruct (Z.testbit x i); cbn; [by rewrite Z.pow2_bits_true|by rewrite Z.bits_0].
    - rewrite andb_false_r. destruct (Z.testbit x n); [|by rewrite Z.bits_0].
      rewrite Z.pow2_bits_false by lia. done. }
  destruct (Z.testbit x n); [|done]. destruct (Z.eqb_spec (2 ^ n) 0); [lia|done].
Qed.

Lemma testbit_wrap w x i :
  0 <= w -> 0 <= i -> Z.testbit (wrap w x) i = (i <? w) && Z.testbit x i.
Proof.
  intros. unfold wrap. destruct (Z.ltb_spec i w).
  - by rewrite Z.mod_pow2_bits_low by lia.
  - by rewrite Z.mod_pow2_bits_high by lia.
Qed.

(** A byte of [x] moved to bit [n] on. *)
Lemma testbit_byte_shl x n i :
  0 <= n -> 0 <= i ->
  Z.testbit (u8 x << n) i = (n <=? i) && (i <? n + 8) && Z.testbit x (i - n).
Proof.
  intros. rewrite Z.shiftl_spec by done. destruct (Z.leb_spec n i).
  - rewrite testbit_wrap by lia. do 2 f_equal. destruct (Z.ltb_spec (i - n) 8), (Z.ltb_spec i (n + 8)); lia.
  - by rewrite Z.testbit_neg_r by lia.
Qed.

Lemma testbit_byte_shr x n i :
  0 <= n -> 0 <= i ->
  Z.testbit (u8 (x >> n) << n) i = (n <=? i) && (i <? n + 8) && Z.testbit x i.
Proof.
  intros. rewrite testbit_byte_shl by done. destruct (Z.leb_spec n i); [|done].
  rewrite Z.shiftr_spec by lia. do 2 f_equal. lia.
Qed.

(** ** Little-endian round trips *)
Lemma length_le_bytes n v : length (le_bytes n v) = n.
Proof. revert v. induction n; intros; cbn; auto. Qed.

Lemma le_bytes_fit n v : Forall (fits 8) (le_bytes n v).
Proof. revert v. induction n; intros v; cbn; constructor; auto with width. Qed.

Lemma le_value_bytes n v : le_value (le_bytes n v) = wrap (8 * Z.of_nat n) v.
Proof.
  revert v. induction n as [|n IH]; intros v; [by cbn; unfold wrap; rewrite Z.mod_1_r|].
  cbn [le_bytes le_value]. rewrite IH. apply Z.bits_inj'. intros i Hi.
  rewrite Z.lor_spec, Z.shiftl_spec by done. unfold wrap.
  destruct (Z.lt_ge_cases i 8).
  - rewrite !Z.mod_pow2_bits_low by lia. rewrite (Z.testbit_neg_r _ (i - 8)) by lia. apply orb_false_r.
  - rewrite (Z.mod_pow2_bits_high _ 8) by lia. rewrite orb_false_l.
    destruct (Z.lt_ge_cases (i - 8) (8 * Z.of_nat n)).
    + rewrite !Z.mod_pow2_bits_low by lia. rewrite Z.shiftr_spec by lia. f_equal. lia.
    + by rewrite !Z.mod_pow2_bits_high by lia.
Qed.

Lemma fits_shiftl w a n : 0 <= n -> 0 <= w -> fits w a -> fits (w + n) (a << n).
Proof.
  unfold fits. intros Hn Hw [H0 H1]. rewrite Z.shiftl_mul_pow2 by done. split; [nia|].
  rewrite Z.pow_add_r by lia. nia.
Qed.

Lemma le_value_fits bs : Forall (fits 8) bs -> fits (8 * zlen bs) (le_value bs).
Proof.
  induction 1 as [|b bs Hb _ IH]; [done|]. cbn [le_value].
  assert (8 * zlen (b :: bs) = 8 * zlen bs + 8) as -> by (unfold zlen; cbn [length]; lia).
  apply fits_lor; [unfold zlen; lia| |apply fits_shiftl; [lia|unfold zlen; lia|done]].
  apply (fits_weaken 8); [unfold zlen; lia|done].
Qed.

Lemma le_bytes_value bs : Forall (fits 8) bs -> le_bytes (length bs) (le_value bs) = bs.
Proof.
  induction 1 as [|b bs Hb Hbs IH]; [done|]. cbn [length le_bytes le_value]. f_equal.
  - apply Z.bits_inj'. intros i Hi. rewrite testbit_wrap, Z.lor_spec, Z.shiftl_spec by lia.
    apply fits_bits in Hb; [|lia]. destruct Hb as [_ Hb]. destruct (Z.ltb_spec i 8).
    + rewrite (Z.testbit_neg_r _ (i - 8)) by lia. by rewrite orb_false_r.
    + by rewrite Hb by lia.
  - assert ((b .| (le_value bs << 8)) >> 8 = le_value bs) as ->; [|done].
    rewrite Z.shiftr_lor, Z.shiftr_shiftl_r, Z.sub_diag, Z.shiftr_0_r by lia.
    apply fits_bits in Hb; [|lia]. destruct Hb as [_ Hb]. apply Z.bits_inj'. intros i Hi. rewrite Z.lor_spec, Z.shiftr_spec, Hb by lia. done.
Qed.

Lemma le_value_bytes_u32 v : fits 32 v -> le_value (le_bytes 4 v) = v.
Proof. intros. rewrite le_value_bytes. by apply wrap_fits. Qed.

Lemma reverse_zip_with {A B C} (f : A -> B -> C) l k :
  length l = length k -> reverse (zip_with f l k) = zip_with f (reverse l) (reverse k).
Proof.
  revert k. induction l as [|x l IH]; intros [|y k] H; try done. injection H as H.
  cbn [zip_with]. rewrite !reverse_cons, IH by done.
  by rewrite zip_with_app by (by rewrite !length_reverse).
Qed.

(** Masking the bytes of a value masks the value. *)
Lemma le_value_land bs v :
  Forall (fits 8) bs -> le_value (zip_with Z.land bs (le_bytes (length bs) v)) = le_value bs .& v.
Proof.
  intros H. revert v. induction H as [|b bs Hb Hbs IH]; intros v; [done|].
  cbn [length le_bytes zip_with le_value]. rewrite IH. apply Z.bits_inj'. intros i Hi.
  rewrite !Z.land_spec, !Z.lor_spec, !Z.land_spec, !Z.shiftl_spec, testbit_wrap by lia.
  apply fits_bits in Hb; [|lia]. destruct Hb as [_ Hb].
  destruct (Z.ltb_spec i 8).
  - rewrite !(Z.testbit_neg_r _ (i - 8)) by lia. by rewrite !orb_false_r.
  - rewrite Hb, Z.land_spec, Z.shiftr_spec by lia. cbn. do 2 f_equal. lia.
Qed.

Lemma le_value_4 b0 b1 b2 b3 :
  b0 .| (b1 << 8) .| (b2 << 16) .| (b3 << 24) = le_value [b0; b1; b2; b3].
Proof.
  cbn [le_value]. rewrite Z.shiftl_0_l, Z.lor_0_r, !Z.shiftl_lor, !Z.shiftl_shiftl by lia.
  by rewrite !Z.lor_assoc.
Qed.

Lemma le_value_2 b0 b1 : b0 .| (b1 << 8) = le_value [b0; b1].
Proof. cbn [le_value]. by rewrite Z.shiftl_0_l, Z.lor_0_r. Qed.
