(* ===== verification/Words.v ===== *)
(** * Words: machine words by their bits

    Equality of 32-bit words bit by bit, bits of masked and shifted words at
    constant places, masks that take groups of bits as a whole. *)
From S2P Require Import Prelude.

Lemma bits32 (P : Z -> Prop) : Forall P (seqZ 0 32) -> forall i, 0 <= i < 32 -> P i.
Proof. intros H i Hi. rewrite Forall_forall in H. apply H, elem_of_seqZ. lia. Qed.

Lemma word_eq a b : fits 32 a -> fits 32 b -> (forall i, 0 <= i < 32 -> Z.testbit a i = Z.testbit b i) -> a = b.
Proof.
  intros Ha Hb H. apply fits_bits in Ha, Hb; [|lia..]. apply Z.bits_inj'. intros i Hi.
  destruct (Z.lt_ge_cases i 32); [apply H; lia|]. by rewrite (proj2 Ha), (proj2 Hb).
Qed.

Lemma land_zero_bit u m i : u .& m = 0 -> Z.testbit m i = true -> Z.testbit u i = false.
Proof. intros E Hm. assert (Z.testbit (u .& m) i = false) as H by by rewrite E, Z.bits_0. rewrite Z.land_spec, Hm in H. by destruct (Z.testbit u i). Qed.
Lemma land_full_bit u m i : u .& m = m -> Z.testbit m i = true -> Z.testbit u i = true.
Proof. intros E Hm. rewrite <- E, Z.land_spec in Hm. by apply andb_true_iff in Hm as []. Qed.
Lemma fits_high w x i : fits w x -> 0 <= w <= i -> Z.testbit x i = false.
Proof. intros H Hi. apply fits_bits in H; [|lia]. apply H. lia. Qed.

(** For every bit of a word separately. *)
Ltac each_bit :=
  let l := eval vm_compute in (seqZ 0 32) in
  apply bits32; change (seqZ 0 32) with l; repeat (apply Forall_cons; split); [..|by apply Forall_nil].

(** Bits of constants, at constant places. *)
Ltac bit_eval :=
  rewrite ?Z.lor_spec, ?Z.land_spec, ?Z.ldiff_spec, ?Z.lxor_spec;
  repeat first
    [ rewrite testbit_wrap by lia
    | rewrite Z.shiftl_spec by lia
    | rewrite Z.shiftr_spec by lia
    | rewrite Z.lor_spec | rewrite Z.land_spec | rewrite Z.ldiff_spec | rewrite Z.lxor_spec ];
  repeat match goal with
  | |- context [?a - ?b] => let v := eval vm_compute in (a - b) in
      lazymatch v with Z0 => idtac | Zpos _ => idtac | Zneg _ => idtac end; change (a - b) with v
  | |- context [?a + ?b] => let v := eval vm_compute in (a + b) in
      lazymatch v with Z0 => idtac | Zpos _ => idtac | Zneg _ => idtac end; change (a + b) with v
  | |- context [?a <? ?b] => let v := eval vm_compute in (a <? b) in
      lazymatch v with true => idtac | false => idtac end; change (a <? b) with v
  | |- context [Z.testbit ?x (Z.neg ?p)] => change (Z.testbit x (Z.neg p)) with false
  | |- context [Z.testbit ?x ?i] => let v := eval vm_compute in (Z.testbit x i) in
      lazymatch v with true => idtac | false => idtac end; change (Z.testbit x i) with v
  end;
  rewrite ?andb_true_r, ?andb_false_r, ?orb_false_r, ?orb_true_r, ?orb_false_l, ?andb_true_l, ?andb_false_l.

(** Masks that take a group of bits as a whole. *)
Definition whole (mask g : Z) : Prop := mask .& g = 0 \/ mask .& g = g.

Lemma whole_test mask g i :
  whole mask g -> 0 <= mask -> 0 <= g -> 0 <= i -> Z.testbit g i = true -> Z.testbit mask i = test mask g.
Proof.
  unfold whole, test. intros H Hm Hg Hi Hb. destruct (Z.eqb_spec (mask .& g) 0) as [E|E]; cbn [negb].
  - by eapply land_zero_bit.
  - destruct H as [|H]; [done|]. eapply land_full_bit; [|done]. rewrite Z.land_comm. by rewrite Z.land_comm.
Qed.

(** ** Bits as arithmetic *)

Lemma shiftr_div x n : 0 <= n -> x >> n = x / 2 ^ n.
Proof. apply Z.shiftr_div_pow2. Qed.

Lemma test_odd x n : 0 <= n -> test x (1 << n) = Z.odd (x / 2 ^ n).
Proof.
  intros. change (1 << n) with (bit n). rewrite test_true_bit by done.
  rewrite <- Z.bit0_odd, <- shiftr_div, Z.shiftr_spec by lia. done.
Qed.

Lemma land_ones x n : 0 <= n -> x .& (2 ^ n - 1) = x mod 2 ^ n.
Proof. intros. rewrite <- Z.land_ones by done. f_equal. rewrite Z.ones_equiv. lia. Qed.

Lemma lor_add a b k : 0 <= k -> 0 <= b < 2 ^ k -> (a * 2 ^ k) .| b = a * 2 ^ k + b.
Proof.
  intros Hk Hb. rewrite <- Z.shiftl_mul_pow2 by done.
  assert ((a << k) .& b = 0) as H0.
  { apply Z.bits_inj'. intros i Hi. rewrite Z.land_spec, Z.bits_0, Z.shiftl_spec by done.
    destruct (Z.lt_ge_cases i k); [by rewrite Z.testbit_neg_r by lia|].
    assert (fits k b) as Hf by (unfold fits; lia). rewrite (fits_high k b i) by (done || lia). apply andb_false_r. }
  rewrite <- Z.lxor_lor by done. symmetry. by apply Z.add_nocarry_lxor.
Qed.

(** The high bits of a word. *)
Lemma high_bits w d k : 0 <= k <= w -> fits w d -> d .& (2 ^ w - 2 ^ k) = d / 2 ^ k * 2 ^ k.
Proof.
  intros Hk Hd. rewrite <- shiftr_div by lia. rewrite <- Z.shiftl_mul_pow2 by lia.
  assert (2 ^ w - 2 ^ k = Z.ones (w - k) << k) as ->.
  { rewrite Z.ones_equiv, Z.shiftl_mul_pow2 by lia. rewrite <- Z.sub_1_r, Z.mul_sub_distr_r, <- Z.pow_add_r by lia.
    replace (w - k + k) with w by lia. lia. }
  apply Z.bits_inj'. intros i Hi. rewrite Z.land_spec, !Z.shiftl_spec by lia.
  destruct (Z.lt_ge_cases i k).
  - rewrite !(Z.testbit_neg_r _ (i - k)) by lia. apply andb_false_r.
  - rewrite Z.shiftr_spec by lia. replace (i - k + k) with i by lia.
    rewrite Z.testbit_ones_nonneg by lia. destruct (Z.ltb_spec (i - k) (w - k)); [apply andb_true_r|].
    rewrite (fits_high w d i) by (done || destruct Hd; lia). done.
Qed.

(** A frame and an offset: [(d & ~m) | (a & m)] with [m = 2^k - 1]. *)
Lemma join_bits d a k :
  0 <= k <= 32 -> fits 32 d ->
  (d .& (2 ^ 32 - 2 ^ k)) .| (a .& (2 ^ k - 1)) = d / 2 ^ k * 2 ^ k + a mod 2 ^ k.
Proof.
  intros Hk Hd. rewrite high_bits, land_ones by (done || lia). apply lor_add; [lia|].
  apply Z.mod_pos_bound. lia.
Qed.

(** An index of [n] bits, scaled by four, at the end of a table address. *)
Lemma index_bits a k n :
  0 <= k -> 0 <= n -> (a >> k) .& (2 ^ (n + 2) - 4) = 4 * ((a / 2 ^ (k + 2)) mod 2 ^ n).
Proof.
  intros Hk Hn. assert (2 ^ (n + 2) - 4 = Z.ones n << 2) as ->.
  { rewrite Z.ones_equiv, Z.shiftl_mul_pow2, Z.pow_add_r by lia. lia. }
  rewrite Z.mul_comm. change 4 with (2 ^ 2). rewrite <- Z.shiftl_mul_pow2 by lia.
  rewrite <- Z.land_ones by lia. rewrite <- shiftr_div by lia.
  apply Z.bits_inj'. intros i Hi. rewrite Z.land_spec, !Z.shiftl_spec by lia.
  destruct (Z.lt_ge_cases i 2); [rewrite !(Z.testbit_neg_r _ (i - 2)) by lia; apply andb_false_r|].
  rewrite Z.land_spec, !Z.shiftr_spec by lia. rewrite andb_comm. rewrite andb_comm. do 2 f_equal. lia.
Qed.

(** Three bits from two places. *)
Lemma three_bits d m n : 0 <= m -> 0 <= n ->
  ((d >> m) .& 3) .| ((d >> n) .& 4) = 4 * ((d / 2 ^ (n + 2)) mod 2) + (d / 2 ^ m) mod 4.
Proof.
  intros Hm Hn. change 3 with (2 ^ 2 - 1). rewrite land_ones, shiftr_div by lia.
  change 4 with (2 ^ (1 + 2) - 4) at 1. rewrite index_bits by lia. rewrite Z.lor_comm.
  rewrite (Z.mul_comm 4). change 4 with (2 ^ 2). rewrite lor_add; [by rewrite (Z.mul_comm (2 ^ 2))|lia|]. by apply Z.mod_pos_bound.
Qed.
