(* ===== verification/Savevm.v ===== *)
(** * Savevm: the byte stream a device's state is saved to and loaded from

    Models the value encoding of [savevm.c] and the typed wrappers of [hw/hw.h]
    that the device files use.  A [QEMUFile] is the list of bytes still to be
    read; at its end [qemu_get_byte] yields zeroes, as the code does.  Buffering
    ([qemu_fflush], [qemu_fill_buffer]) and the abort on mixing reads with
    writes are not modelled: a stream is either written or read. *)
From S2P Require Import Prelude.

Definition stream := list Z.

(** Nothing is emitted while loading. *)
Definition loader := dev stream Empty_set.

Definition qemu_put_byte (v : Z) : stream := [u8 v].
Definition qemu_get_byte : loader Z := fun f =>
  match f with
  | [] => Done (0, [], [])
  | b :: r => Done (b, r, [])
  end.

Definition qemu_put_be32 (v : Z) : stream :=
  qemu_put_byte (v >> 24) ++ qemu_put_byte (v >> 16) ++ qemu_put_byte (v >> 8) ++ qemu_put_byte v.
Definition qemu_get_be32 : loader Z :=
  b3 <- qemu_get_byte ;; b2 <- qemu_get_byte ;; b1 <- qemu_get_byte ;; b0 <- qemu_get_byte ;;
  ret (u32 (b3 << 24) .| (b2 << 16) .| (b1 << 8) .| b0).

Definition qemu_put_be64 (v : Z) : stream := qemu_put_be32 (v >> 32) ++ qemu_put_be32 v.
Definition qemu_get_be64 : loader Z :=
  hi <- qemu_get_be32 ;; lo <- qemu_get_be32 ;; ret (u64 (hi << 32) .| lo).

(** [qemu_put_8s], [qemu_get_8s]: one byte. *)
Definition qemu_put_8s (v : Z) : stream := qemu_put_byte v.
Definition qemu_get_8s : loader Z := qemu_get_byte.

(** [qemu_put_sbe32s], [qemu_get_sbe32s]: the same four bytes, read as signed. *)
Definition qemu_put_sbe32s (v : Z) : stream := qemu_put_be32 (u32 v).
Definition qemu_get_sbe32s : loader Z := v <- qemu_get_be32 ;; ret (sgn 32 v).

(** [n] values read one after the other by the same reader. *)
Fixpoint get_many {A} (n : nat) (g : loader A) : loader (list A) :=
  match n with
  | O => ret []
  | S n' => x <- g ;; xs <- get_many n' g ;; ret (x :: xs)
  end.

(** Two values one after the other. *)
Definition get_pair {A B} (g1 : loader A) (g2 : loader B) : loader (A * B) := a <- g1 ;; b <- g2 ;; ret (a, b).

(** What a device returns for a version it does not know. *)
Definition EINVAL := 22.

(** ** Round trips *)
Lemma get_put_byte v r : fits 8 v -> qemu_get_byte (qemu_put_byte v ++ r) = Done (v, r, []).
Proof. intros H. cbn. by rewrite wrap_fits. Qed.

Lemma be32_bytes v :
  fits 32 v ->
  u32 (u8 (v >> 24) << 24) .| (u8 (v >> 16) << 16) .| (u8 (v >> 8) << 8) .| u8 v = v.
Proof.
  intros Hv. apply Z.bits_inj'. intros i Hi.
  apply fits_bits in Hv; [|lia]. destruct Hv as [_ Hv].
  rewrite <- (Z.shiftl_0_r (u8 v)), !Z.lor_spec.
  rewrite testbit_wrap, !testbit_byte_shr, testbit_byte_shl by lia. rewrite Z.sub_0_r.
  destruct (Z.lt_ge_cases i 32) as [Hi32|Hi32]; [|rewrite Hv by done].
  all: destruct (Z.testbit v i); rewrite ?andb_false_r; lia.
Qed.

Lemma get_put_be32 v r : fits 32 v -> qemu_get_be32 (qemu_put_be32 v ++ r) = Done (v, r, []).
Proof. intros H. cbn. by rewrite be32_bytes. Qed.

Lemma get_put_sbe32s v r :
  - 2 ^ 31 <= v < 2 ^ 31 -> qemu_get_sbe32s (qemu_put_sbe32s v ++ r) = Done (v, r, []).
Proof.
  intros H. unfold qemu_get_sbe32s, qemu_put_sbe32s.
  erewrite bind_Done by (apply get_put_be32; auto with width). cbn. do 3 f_equal.
  unfold sgn. rewrite wrap_wrap by lia. unfold wrap.
  destruct (Z.ltb_spec (v mod 2 ^ 32) (2 ^ (32 - 1))); Z.div_mod_to_equations; lia.
Qed.

Lemma qemu_put_be32_wrap v : qemu_put_be32 (u32 v) = qemu_put_be32 v.
Proof.
  unfold qemu_put_be32, qemu_put_byte. cbn [app].
  assert (forall n, 0 <= n <= 24 -> u8 (u32 v >> n) = u8 (v >> n)) as H.
  { intros n Hn. apply Z.bits_inj'. intros i Hi. rewrite !testbit_wrap, !Z.shiftr_spec by lia.
    rewrite testbit_wrap by lia. destruct (Z.ltb_spec i 8), (Z.ltb_spec (i + n) 32); try done; lia. }
  pose proof (H 0 ltac:(lia)) as H0. rewrite !Z.shiftr_0_r in H0. by rewrite !H, H0 by lia.
Qed.

Lemma get_put_be64 v r : fits 64 v -> qemu_get_be64 (qemu_put_be64 v ++ r) = Done (v, r, []).
Proof.
  intros Hv. unfold qemu_get_be64, qemu_put_be64. rewrite <- app_assoc.
  assert (fits 32 (v >> 32)) as Hhi.
  { split; [apply Z.shiftr_nonneg, Hv|]. rewrite Z.shiftr_div_pow2 by lia.
    apply Z.div_lt_upper_bound; [lia|]. destruct Hv as [_ Hv]. rewrite <- Z.pow_add_r; lia. }
  erewrite bind_Done by (by apply get_put_be32). rewrite <- (qemu_put_be32_wrap v).
  erewrite bind_Done by (apply get_put_be32; auto with width). cbn. do 3 f_equal.
  apply Z.bits_inj'. intros i Hi. rewrite Z.lor_spec, !testbit_wrap by lia.
  rewrite Z.shiftl_spec by lia. destruct (Z.lt_ge_cases i 32).
  - rewrite Z.testbit_neg_r by lia. destruct (Z.ltb_spec i 32); [|lia]. by rewrite andb_false_r.
  - rewrite Z.shiftr_spec by lia. replace (i - 32 + 32) with i by lia.
    destruct (Z.ltb_spec i 32); [lia|]. apply fits_bits in Hv; [|lia]. destruct Hv as [_ Hv].
    destruct (Z.ltb_spec i 64); [by rewrite orb_false_r|]. by rewrite Hv.
Qed.

(** Running a sequence of readers over the concatenation of what their writers
    produced. *)
Lemma loader_step {A B} (g : loader A) (k : A -> loader B) w r a res :
  g (w ++ r) = Done (a, r, []) -> k a r = res -> bind g k (w ++ r) = res.
Proof.
  intros E <-. erewrite bind_Done by done. by destruct (k a r) as [[[]]| |].
Qed.

Lemma get_many_put {A} (put : A -> stream) (g : loader A) l r :
  Forall (fun x => forall r', g (put x ++ r') = Done (x, r', [])) l ->
  get_many (length l) g (flat_map put l ++ r) = Done (l, r, []).
Proof.
  induction 1 as [|x l Hx _ IH]; [done|]. cbn [length get_many flat_map].
  rewrite <- app_assoc. eapply loader_step; [apply Hx|]. by erewrite bind_Done by done.
Qed.

(** [get] reads what [put] wrote for [x], and nothing more. *)
Definition reads {A} (put : A -> stream) (get : loader A) (x : A) : Prop :=
  forall r, get (put x ++ r) = Done (x, r, []).

Lemma reads_pairs {A B} (p1 : A -> stream) (p2 : B -> stream) g1 g2 l1 l2 :
  Forall (reads p1 g1) l1 -> Forall (reads p2 g2) l2 ->
  Forall (reads (fun '(a, b) => p1 a ++ p2 b) (get_pair g1 g2)) (zip l1 l2).
Proof.
  intros F1. revert l2. induction F1 as [|x l1 Hx _ IH]; intros l2 F2; [constructor|].
  destruct F2 as [|y l2 Hy F2]; [constructor|]. cbn [zip zip_with]. constructor; [|by apply IH].
  intros r'. unfold get_pair. rewrite <- app_assoc.
  eapply loader_step; [apply Hx|]. eapply loader_step; [apply Hy|]. done.
Qed.

Lemma get_put_pairs {A B} n l1 l2 (p1 : A -> stream) (p2 : B -> stream) g1 g2 r :
  length l1 = n -> length l2 = n -> Forall (reads p1 g1) l1 -> Forall (reads p2 g2) l2 ->
  get_many n (get_pair g1 g2)
    (flat_map (fun '(a, b) => p1 a ++ p2 b) (zip l1 l2) ++ r) = Done (zip l1 l2, r, []).
Proof.
  intros H1 H2 F1 F2. assert (length (zip l1 l2) = n) as Hz by (rewrite length_zip_with; lia).
  rewrite <- Hz at 1. by apply get_many_put, reads_pairs.
Qed.

Lemma Forall_be32 l : Forall (fits 32) l -> Forall (reads qemu_put_be32 qemu_get_be32) l.
Proof. intros H. eapply Forall_impl; [exact H|]. intros x Hx r. by apply get_put_be32. Qed.
Lemma Forall_8s l : Forall (fits 8) l -> Forall (reads qemu_put_8s qemu_get_8s) l.
Proof. intros H. eapply Forall_impl; [exact H|]. intros x Hx r. by apply get_put_byte. Qed.
Lemma Forall_be64 l : Forall (fits 64) l -> Forall (reads qemu_put_be64 qemu_get_be64) l.
Proof. intros H. eapply Forall_impl; [exact H|]. intros x Hx r. by apply get_put_be64. Qed.
Lemma get_words n l r : length l = n -> Forall (fits 32) l ->
  get_many n qemu_get_be32 (flat_map qemu_put_be32 l ++ r) = Done (l, r, []).
Proof. intros <- H. by apply get_many_put, Forall_be32. Qed.
