(* ===== verification/Pl192.v ===== *)
(** * Pl192: the vectored interrupt controllers ([hw/pl192.c])

    The controllers of a machine form a store, a list in which a pointer of the
    C code ([daisy], [daisy_callback]) is an index; the daisy chain, the
    callbacks and every update through them act on that shared store.  The two
    parent lines of a controller are what it emits. *)
From S2P Require Import Prelude Savevm.

Definition PL192_INT_SOURCES := 32.
Definition PL192_DAISY_IRQ := PL192_INT_SOURCES.
Definition PL192_NO_IRQ := PL192_INT_SOURCES + 1.
Definition PL192_PRIO_LEVELS := 16.

Definition PL192_IRQSTATUS := 0x00.
Definition PL192_FIQSTATUS := 0x04.
Definition PL192_RAWINTR := 0x08.
Definition PL192_INTSELECT := 0x0C.
Definition PL192_INTENABLE := 0x10.
Definition PL192_INTENCLEAR := 0x14.
Definition PL192_SOFTINT := 0x18.
Definition PL192_SOFTINTCLEAR := 0x1C.
Definition PL192_PROTECTION := 0x20.
Definition PL192_SWPRIORITYMASK := 0x24.
Definition PL192_PRIORITYDAISY := 0x28.
Definition PL192_VECTADDR := 0xF00.
Definition PL190_ITCR := 0x300.
Definition PL190_VECTADDR := 0x30.
Definition PL190_DEFVECTADDR := 0x34.

Record pl192_state := mk_pl192 {
  instance : Z;
  irq_status : Z; fiq_status : Z; rawintr : Z; intselect : Z; intenable : Z;
  softint : Z; protection : Z; sw_priority_mask : Z;
  vect_addr : list Z; vect_priority : list Z;
  address : Z;
  current : Z; current_highest : Z;
  stack_i : Z; priority_stack : list Z; irq_stack : list Z; priority : Z;
  daisy_vectaddr : Z; daisy_priority : Z; daisy_callback : option nat; daisy_input : Z;
  (** whether the parent lines are connected (non-null [qemu_irq]) *)
  irq : bool; fiq : bool;
  daisy : option nat
}.

#[export] Instance eta_pl192 : Eta pl192_state := fun s =>
  mk_pl192 (instance s) (irq_status s) (fiq_status s) (rawintr s) (intselect s) (intenable s)
    (softint s) (protection s) (sw_priority_mask s) (vect_addr s) (vect_priority s) (address s)
    (current s) (current_highest s) (stack_i s) (priority_stack s) (irq_stack s) (priority s)
    (daisy_vectaddr s) (daisy_priority s) (daisy_callback s) (daisy_input s) (irq s) (fiq s)
    (daisy s).

(** What a controller drives: the CPU lines connected to it. *)
Inductive vic_event :=
  | VicIrq (k : nat) (level : bool)
  | VicFiq (k : nat) (level : bool).

Abbreviation vics := (list pl192_state).
Definition vicM := dev vics vic_event.

(** [s->...] through a pointer to controller [k]; a dangling pointer is
    undefined behaviour. *)
Definition vic_at (k : nat) : vicM pl192_state := fun v =>
  match v !! k with Some s => Done (s, v, []) | None => Undef end.
Definition vic_upd (k : nat) (f : pl192_state -> pl192_state) : vicM unit := fun v =>
  match v !! k with Some s => Done (tt, <[k := f s]> v, []) | None => Undef end.

Definition pl192_id : list Z := [0x92; 0x11; 0x04; 0x00; 0x0D; 0xF0; 0x05; 0xB1].

(** ** The priority sorter *)

(** The loop [for (i = PL192_INT_SOURCES - 1; i >= 0; i--)], sources [i-1] down to 0. *)
Fixpoint place_sources (s : pl192_state) (i : nat) (prio_irq : list Z) : option (list Z) :=
  match i with
  | O => Some prio_irq
  | S i' =>
      if test (irq_status s) (bit (Z.of_nat i'))
      then p ← aget (vect_priority s) (Z.of_nat i');
           a ← aset p (Z.of_nat i') prio_irq;
           place_sources s i' a
      else place_sources s i' prio_irq
  end.

(** The loop over the levels, [n] of them from level [i] on. *)
Fixpoint first_level (s : pl192_state) (prio_irq : list Z) (i : Z) (n : nat) : option Z :=
  match n with
  | O => Some PL192_NO_IRQ
  | S n' =>
      p ← aget prio_irq i;
      if test (sw_priority_mask s) (bit i) && (p <=? PL192_DAISY_IRQ)
      then Some p
      else first_level s prio_irq (i + 1) n'
  end.

Definition pl192_priority_sorter (s : pl192_state) : option Z :=
  let prio_irq := replicate 16 PL192_NO_IRQ in
  prio_irq ← (if negb (daisy_input s =? 0)
              then aset (daisy_priority s) PL192_DAISY_IRQ prio_irq
              else Some prio_irq);
  prio_irq ← place_sources s 32 prio_irq;
  first_level s prio_irq 0 16.

(** ** Raising, lowering and updating

    The three functions call each other along the daisy chain; [fuel] bounds
    the depth of those calls, and running out of it is an endless recursion of
    the code ([Undef]).  [update_fuel] shows how much a chain needs. *)
Fixpoint pl192_raise (fuel : nat) (k : nat) (is_fiq : bool) {struct fuel} : vicM unit :=
  match fuel with
  | O => undef
  | S fuel =>
      s <- vic_at k ;;
      if is_fiq then
        if fiq s then emit (VicFiq k true)
        else match daisy s with
             | Some d => pl192_raise fuel d is_fiq
             | None => ret tt
             end
      else
        if irq s then emit (VicIrq k true)
        else match daisy s with
             | Some d =>
                 vic_upd d (fun t => t <| daisy_vectaddr := address s |>
                                       <| daisy_callback := Some k |>
                                       <| daisy_input := 1 |>) ;;;
                 pl192_update fuel d
             | None => hw_error
             end
  end
with pl192_lower (fuel : nat) (k : nat) (is_fiq : bool) {struct fuel} : vicM unit :=
  match fuel with
  | O => undef
  | S fuel =>
      s <- vic_at k ;;
      when (is_fiq && fiq s) (emit (VicFiq k false)) ;;;
      when (negb is_fiq && irq s) (emit (VicIrq k false)) ;;;
      match daisy s with
      | Some d =>
          if negb is_fiq then
            vic_upd d (fun t => t <| daisy_input := 0 |>) ;;;
            pl192_update fuel d
          else pl192_lower fuel d is_fiq
      | None => ret tt
      end
  end
with pl192_update (fuel : nat) (k : nat) {struct fuel} : vicM unit :=
  match fuel with
  | O => undef
  | S fuel =>
      vic_upd k (fun s => s
        <| irq_status := ((rawintr s .| softint s) .& intenable s) .&~ intselect s |>
        <| fiq_status := ((rawintr s .| softint s) .& intenable s) .& intselect s |>) ;;;
      s <- vic_at k ;;
      (if negb (fiq_status s =? 0) then pl192_raise fuel k true else pl192_lower fuel k true) ;;;
      s <- vic_at k ;;
      if negb (irq_status s =? 0) || negb (daisy_input s =? 0) then
        h <- lift (pl192_priority_sorter s) ;;
        vic_upd k (fun s => s <| current_highest := h |>) ;;;
        a <- (if h <? PL192_INT_SOURCES then lift (aget (vect_addr s) h)
              else ret (daisy_vectaddr s)) ;;
        vic_upd k (fun s => s <| address := a |>) ;;;
        when (negb (h =? current s))
          (p <- (if h <? PL192_INT_SOURCES then lift (aget (vect_priority s) h)
                 else ret 0) ;;
           if (h <? PL192_INT_SOURCES) && (priority s <=? p) then ret tt
           else if (h =? PL192_DAISY_IRQ) && (priority s <=? daisy_priority s) then ret tt
           else if h <=? PL192_DAISY_IRQ then pl192_raise fuel k false
           else pl192_lower fuel k false)
      else
        vic_upd k (fun s => s <| current_highest := PL192_NO_IRQ |>) ;;;
        pl192_lower fuel k false
  end.

(** The depth of calls a chain of [n] controllers can need. *)
Definition update_fuel (v : vics) : nat := (2 * length v + 2)%nat.

(** A call of [pl192_update] from the outside. *)
Definition vic_update (k : nat) : vicM unit := fun v => pl192_update (update_fuel v) k v.

(** ** Acknowledging and finishing an interrupt *)
Definition pl192_mask_priority (k : nat) : vicM unit :=
  s <- vic_at k ;;
  when (PL192_INT_SOURCES <=? stack_i s) hw_error ;;;
  p <- (if current s =? PL192_DAISY_IRQ then ret (daisy_priority s)
        else lift (aget (vect_priority s) (current s))) ;;
  ps <- lift (aset (stack_i s + 1) p (priority_stack s)) ;;
  qs <- lift (aset (stack_i s + 1) (u8 (current s)) (irq_stack s)) ;;
  vic_upd k (fun s => s <| stack_i ::= Z.succ |> <| priority := p |>
                        <| priority_stack := ps |> <| irq_stack := qs |>).

Definition pl192_unmask_priority (k : nat) : vicM unit :=
  s <- vic_at k ;;
  when (stack_i s <? 1) hw_error ;;;
  p <- lift (aget (priority_stack s) (stack_i s - 1)) ;;
  c <- lift (aget (irq_stack s) (stack_i s - 1)) ;;
  vic_upd k (fun s => s <| stack_i ::= Z.pred |> <| priority := p |> <| current := c |>).

(** [pl192_mask_priority(s->daisy_callback)] and its inverse. *)
Definition on_callback (k : nat) (f : nat -> vicM unit) : vicM unit :=
  s <- vic_at k ;; c <- lift (daisy_callback s) ;; f c.

Definition pl192_irq_ack (k : nat) : vicM Z :=
  s <- vic_at k ;;
  let is_daisy := current_highest s =? PL192_DAISY_IRQ in
  let res := address s in
  vic_upd k (fun s => s <| current := current_highest s |>) ;;;
  pl192_mask_priority k ;;;
  when is_daisy (on_callback k pl192_mask_priority) ;;;
  vic_update k ;;;
  ret res.

Definition pl192_irq_fin (k : nat) : vicM unit :=
  s <- vic_at k ;;
  let is_daisy := current s =? PL192_DAISY_IRQ in
  pl192_unmask_priority k ;;;
  when is_daisy (on_callback k pl192_unmask_priority) ;;;
  vic_update k.

(** ** The register file *)
Definition pl192_read (k : nat) (offset : Z) : vicM Z :=
  let get (f : pl192_state -> Z) := s <- vic_at k ;; ret (f s) in
  if negb (offset .& 3 =? 0) then ret 0 else
  if (0xfe0 <=? offset) && (offset <? 0x1000)
  then lift (aget pl192_id ((offset - 0xfe0) >> 2)) else
  if (0x100 <=? offset) && (offset <? 0x180)
  then s <- vic_at k ;; lift (aget (vect_addr s) ((offset - 0x100) >> 2)) else
  if (0x200 <=? offset) && (offset <? 0x280)
  then s <- vic_at k ;; lift (aget (vect_priority s) ((offset - 0x200) >> 2)) else
  switch offset
    [ (on PL192_IRQSTATUS, get irq_status);
      (on PL192_FIQSTATUS, get fiq_status);
      (on PL192_RAWINTR, get rawintr);
      (on PL192_INTSELECT, get intselect);
      (on PL192_INTENABLE, get intenable);
      (on PL192_SOFTINT, get softint);
      (on PL192_PROTECTION, get protection);
      (on PL192_SWPRIORITYMASK, get sw_priority_mask);
      (on PL192_PRIORITYDAISY, get daisy_priority);
      (on PL192_INTENCLEAR, ret 0);
      (* case PL192_SOFTINTCLEAR has no return: it falls through *)
      (on_any [PL192_SOFTINTCLEAR; PL192_VECTADDR], pl192_irq_ack k);
      (on_any [PL190_ITCR; PL190_VECTADDR; PL190_DEFVECTADDR], ret 0) ]
    (ret 0).

Definition pl192_write (k : nat) (offset value : Z) : vicM unit :=
  let set f := vic_upd k f ;;; vic_update k in
  if negb (offset .& 3 =? 0) then hw_error else
  if (0xfe0 <=? offset) && (offset <? 0x1000) then hw_error else
  if (0x100 <=? offset) && (offset <? 0x180) then
    s <- vic_at k ;;
    a <- lift (aset ((offset - 0x100) >> 2) value (vect_addr s)) ;;
    set (fun s => s <| vect_addr := a |>) else
  if (0x200 <=? offset) && (offset <? 0x280) then
    s <- vic_at k ;;
    a <- lift (aset ((offset - 0x200) >> 2) (value .& 0xf) (vect_priority s)) ;;
    set (fun s => s <| vect_priority := a |>) else
  switch offset
    [ (on PL192_IRQSTATUS, ret tt);
      (on_any [PL192_FIQSTATUS; PL192_RAWINTR], hw_error);
      (on PL192_INTSELECT, set (fun s => s <| intselect := value |>));
      (on PL192_INTENABLE, set (fun s => s <| intenable ::= fun x => x .| value |>));
      (on PL192_INTENCLEAR, set (fun s => s <| intenable ::= fun x => x .&~ value |>));
      (on PL192_SOFTINT, set (fun s => s <| softint ::= fun x => x .| value |>));
      (on PL192_SOFTINTCLEAR, set (fun s => s <| softint ::= fun x => x .&~ value |>));
      (on PL192_PROTECTION, set (fun s => s <| protection := value .& 1 |>));
      (on PL192_SWPRIORITYMASK, set (fun s => s <| sw_priority_mask := value .& 0xffff |>));
      (on PL192_PRIORITYDAISY, set (fun s => s <| daisy_priority := value .& 0xf |>));
      (on PL192_VECTADDR, pl192_irq_fin k);
      (on_any [PL190_ITCR; PL190_VECTADDR; PL190_DEFVECTADDR], ret tt) ]
    (ret tt).

(** An input line [n] of controller [k] changes its level. *)
Definition pl192_irq_handler (k : nat) (n : Z) (level : Z) : vicM unit :=
  (if negb (level =? 0)
   then vic_upd k (fun s => s <| rawintr ::= fun x => x .| bit n |>)
   else vic_upd k (fun s => s <| rawintr ::= fun x => x .&~ bit n |>)) ;;;
  vic_update k.

(** ** Reset, creation and chaining *)
Definition pl192_reset (s : pl192_state) : pl192_state :=
  s <| vect_priority := replicate 32 0xf |>
    <| sw_priority_mask := 0xffff |>
    <| daisy_priority := 0xf |>
    <| current := PL192_NO_IRQ |>
    <| current_highest := PL192_NO_IRQ |>
    <| stack_i := 0 |>
    <| priority_stack ::= <[0%nat := 0x10]> |>
    <| irq_stack ::= <[0%nat := PL192_NO_IRQ]> |>
    <| priority := 0x10 |>.

(** [qemu_mallocz] of the device, its [instance] property set. *)
Definition pl192_alloc (instance : Z) : pl192_state :=
  mk_pl192 instance 0 0 0 0 0 0 0 0 (zeros 32) (zeros 32) 0 0 0 0 (zeros 17) (zeros 17) 0
    0 0 None 0 false false None.

Definition pl192_init1 (s : pl192_state) : pl192_state := pl192_reset s.

(** [pl192_init(base, instance, ...)]: the variable arguments are the parent
    lines, IRQ first, FIQ second. *)
Definition pl192_init (instance : Z) (n_irqs : nat) : pl192_state :=
  (pl192_init1 (pl192_alloc instance)) <| irq := (1 <=? n_irqs)%nat |> <| fiq := (2 <=? n_irqs)%nat |>.

(** [pl192_chain(first, next)]: [next] hangs off [first]. *)
Definition pl192_chain (first next : nat) : vicM unit :=
  vic_upd next (fun s => s <| daisy := Some first |>).

(** ** Saving and loading *)
Definition pl192_save (s : pl192_state) : stream :=
  qemu_put_be32 (irq_status s) ++ qemu_put_be32 (fiq_status s) ++ qemu_put_be32 (rawintr s) ++
  qemu_put_be32 (intselect s) ++ qemu_put_be32 (intenable s) ++ qemu_put_be32 (softint s) ++
  qemu_put_be32 (protection s) ++ qemu_put_be32 (sw_priority_mask s) ++
  flat_map (fun '(a, p) => qemu_put_be32 a ++ qemu_put_be32 p)
    (zip (vect_addr s) (vect_priority s)) ++
  qemu_put_be32 (address s) ++ qemu_put_be32 (current s) ++ qemu_put_be32 (current_highest s) ++
  qemu_put_sbe32s (stack_i s) ++
  flat_map (fun '(p, i) => qemu_put_be32 p ++ qemu_put_8s i)
    (zip (priority_stack s) (irq_stack s)) ++
  qemu_put_be32 (priority s) ++ qemu_put_be32 (daisy_vectaddr s) ++
  qemu_put_be32 (daisy_priority s) ++ qemu_put_8s (daisy_input s).

(** [pl192_load(f, s, version_id)]: its return value and the loaded state. *)
Definition pl192_load (s : pl192_state) (version_id : Z) : loader (Z * pl192_state) :=
  if negb (version_id =? 1) then ret (- EINVAL, s) else
  a0 <- qemu_get_be32 ;; a1 <- qemu_get_be32 ;; a2 <- qemu_get_be32 ;; a3 <- qemu_get_be32 ;;
  a4 <- qemu_get_be32 ;; a5 <- qemu_get_be32 ;; a6 <- qemu_get_be32 ;; a7 <- qemu_get_be32 ;;
  vs <- get_many 32 (get_pair qemu_get_be32 qemu_get_be32) ;;
  b0 <- qemu_get_be32 ;; b1 <- qemu_get_be32 ;; b2 <- qemu_get_be32 ;; b3 <- qemu_get_sbe32s ;;
  st <- get_many 17 (get_pair qemu_get_be32 qemu_get_8s) ;;
  c0 <- qemu_get_be32 ;; c1 <- qemu_get_be32 ;; c2 <- qemu_get_be32 ;; c3 <- qemu_get_8s ;;
  ret (0, s <| irq_status := a0 |> <| fiq_status := a1 |> <| rawintr := a2 |>
            <| intselect := a3 |> <| intenable := a4 |> <| softint := a5 |>
            <| protection := a6 |> <| sw_priority_mask := a7 |>
            <| vect_addr := vs.*1 |> <| vect_priority := vs.*2 |>
            <| address := b0 |> <| current := b1 |> <| current_highest := b2 |>
            <| stack_i := b3 |>
            <| priority_stack := st.*1 |> <| irq_stack := st.*2 |>
            <| priority := c0 |> <| daisy_vectaddr := c1 |> <| daisy_priority := c2 |>
            <| daisy_input := c3 |>).

(** ** Well-formed controllers

    [vic_ok n k] is the type invariant of controller [k] of a store of [n]: the
    width of every register, the length of every array, a daisy link that goes
    to a smaller index (so the chain is acyclic), a callback in the store. *)
Record vic_ok (n k : nat) (s : pl192_state) : Prop := {
  ok_irq_status : fits 32 (irq_status s);
  ok_fiq_status : fits 32 (fiq_status s);
  ok_rawintr : fits 32 (rawintr s);
  ok_intselect : fits 32 (intselect s);
  ok_intenable : fits 32 (intenable s);
  ok_softint : fits 32 (softint s);
  ok_protection : fits 32 (protection s);
  ok_mask : fits 32 (sw_priority_mask s);
  ok_vect_addr : length (vect_addr s) = 32%nat /\ Forall (fits 32) (vect_addr s);
  ok_vect_priority : length (vect_priority s) = 32%nat /\ Forall (fits 4) (vect_priority s);
  ok_address : fits 32 (address s);
  ok_current : fits 8 (current s);
  ok_current_highest : 0 <= current_highest s <= PL192_NO_IRQ;
  ok_stack_i : 0 <= stack_i s <= PL192_PRIO_LEVELS;
  ok_priority_stack : length (priority_stack s) = 17%nat /\ Forall (fits 32) (priority_stack s);
  ok_irq_stack : length (irq_stack s) = 17%nat /\ Forall (fits 8) (irq_stack s);
  ok_priority : fits 32 (priority s);
  ok_daisy_vectaddr : fits 32 (daisy_vectaddr s);
  ok_daisy_priority : fits 4 (daisy_priority s);
  ok_daisy_input : fits 8 (daisy_input s);
  ok_daisy : match daisy s with Some d => (d < k)%nat | None => True end;
  ok_callback : match daisy_callback s with Some c => (c < n)%nat | None => True end
}.

Definition vics_ok (n : nat) (v : vics) : Prop :=
  length v = n /\ forall k s, v !! k = Some s -> vic_ok n k s.

(** ** The sorter against its specification

    A source competes when it is pending, the daisy input (numbered 32) when it
    is asserted; it can win only when its level is not masked.  The winner has
    the smallest level, and among equals the smallest number. *)
Definition competes (s : pl192_state) (i : Z) : Prop :=
  (0 <= i < PL192_INT_SOURCES /\ Z.testbit (irq_status s) i = true)
  \/ (i = PL192_DAISY_IRQ /\ daisy_input s <> 0).
Definition level_of (s : pl192_state) (i : Z) : option Z :=
  if i =? PL192_DAISY_IRQ then Some (daisy_priority s) else aget (vect_priority s) i.
Definition ready (s : pl192_state) (i p : Z) : Prop :=
  competes s i /\ level_of s i = Some p /\ Z.testbit (sw_priority_mask s) p = true.

Section Sorter.
Context (n k : nat) (s : pl192_state) (Hok : vic_ok n k s).

Lemma level_range i : 0 <= i < 32 -> exists p, aget (vect_priority s) i = Some p /\ 0 <= p < 16.
Proof.
  destruct Hok as [_ _ _ _ _ _ _ _ _ [Hl Hf] _ _ _ _ _ _ _ _ _ _ _ _]. intros Hi.
  destruct (aget_Some (vect_priority s) i) as [p Hp]; [unfold zlen; lia|].
  exists p. split; [done|]. by apply (Forall_aget _ _ _ _ Hf Hp).
Qed.

(** The slot of level [p] after placing the sources below [i]: the smallest
    pending source of that level, or what was there before. *)
Definition slot_ok (i : nat) (old new p : Z) : Prop :=
  (new = old /\ forall j, 0 <= j < Z.of_nat i -> Z.testbit (irq_status s) j = true ->
                          aget (vect_priority s) j <> Some p)
  \/ (0 <= new < Z.of_nat i /\ Z.testbit (irq_status s) new = true /\
      aget (vect_priority s) new = Some p /\
      forall j, 0 <= j < new -> Z.testbit (irq_status s) j = true ->
                aget (vect_priority s) j <> Some p).

Lemma place_sources_spec i arr :
  (i <= 32)%nat -> length arr = 16%nat ->
  exists a', place_sources s i arr = Some a' /\ length a' = 16%nat /\
    forall p, 0 <= p < 16 -> exists old new, aget arr p = Some old /\ aget a' p = Some new /\
                               slot_ok i old new p.
Proof.
  revert arr. induction i as [|i IH]; intros arr Hi Hlen.
  { exists arr. split_and!; [done|done|]. intros p Hp.
    destruct (aget_Some arr p) as [x Hx]; [unfold zlen; lia|].
    exists x, x. split_and!; [done|done|]. left. split; [done|]. intros; lia. }
  cbn [place_sources]. rewrite test_true_bit by lia.
  destruct (Z.testbit (irq_status s) (Z.of_nat i)) eqn:Epend.
  - destruct (level_range (Z.of_nat i)) as (p0 & Hp0 & Hr0); [lia|]. rewrite Hp0. cbn.
    rewrite aset_Some by (unfold zlen; lia). cbn.
    destruct (IH (<[Z.to_nat p0:=Z.of_nat i]> arr)) as (a' & Ha' & Hl' & Hs);
      [lia|by rewrite length_insert|].
    exists a'. split_and!; [done|done|]. intros p Hp.
    destruct (aget_Some arr p) as [x Hx]; [unfold zlen; lia|].
    destruct (Hs p Hp) as (old & new & Hold & Hnew & Hok').
    exists x, new. split_and!; [done|done|].
    destruct (Z.eq_dec p p0) as [->|Hne].
    + rewrite (aget_aset_eq arr p0 (Z.of_nat i)) in Hold
        by (apply aset_Some; unfold zlen; lia).
      injection Hold as <-. right. destruct Hok' as [[-> Hno]|(? & ? & ? & ?)].
      * split_and!; [lia|lia|done|done|]. intros j Hj. apply Hno. lia.
      * split_and!; [lia|lia|done|done|done].
    + rewrite (aget_aset_ne arr p0 p (Z.of_nat i)) in Hold
        by (done || apply aset_Some; unfold zlen; lia).
      simplify_eq. destruct Hok' as [[-> Hno]|(? & ? & ? & ?)].
      * left. split; [done|]. intros j Hj Hpj. destruct (Z.eq_dec j (Z.of_nat i)) as [->|].
        -- congruence.
        -- apply Hno; [lia|done].
      * right. split_and!; [lia|lia|done|done|done].
  - destruct (IH arr) as (a' & Ha' & Hl' & Hs); [lia|done|].
    exists a'. split_and!; [done|done|]. intros p Hp.
    destruct (Hs p Hp) as (old & new & Hold & Hnew & Hok'). exists old, new.
    split_and!; [done|done|]. destruct Hok' as [[-> Hno]|(? & ? & ? & ?)].
    + left. split; [done|]. intros j Hj Hpj. destruct (Z.eq_dec j (Z.of_nat i)) as [->|].
      * congruence.
      * apply Hno; [lia|done].
    + right. split_and!; [lia|lia|done|done|done].
Qed.
(** The slot array holds, per level, the smallest competitor of that level. *)
Definition slots_ok (a : list Z) : Prop :=
  length a = 16%nat /\
  forall p, 0 <= p < 16 -> exists x, aget a p = Some x /\
    (x <= PL192_DAISY_IRQ -> competes s x /\ level_of s x = Some p) /\
    (forall j, competes s j -> level_of s j = Some p -> x <= j).

Definition daisy_slot (p : Z) : Z :=
  if negb (daisy_input s =? 0) && (p =? daisy_priority s) then PL192_DAISY_IRQ else PL192_NO_IRQ.

Lemma daisy_slot_spec :
  exists a0, (if negb (daisy_input s =? 0)
              then aset (daisy_priority s) PL192_DAISY_IRQ (replicate 16 PL192_NO_IRQ)
              else Some (replicate 16 PL192_NO_IRQ)) = Some a0
          /\ length a0 = 16%nat /\ forall p, 0 <= p < 16 -> aget a0 p = Some (daisy_slot p).
Proof.
  pose proof (ok_daisy_priority _ _ _ Hok) as Hdp. unfold fits in Hdp.
  assert (forall p, 0 <= p < 16 -> aget (replicate 16 PL192_NO_IRQ) p = Some PL192_NO_IRQ) as Hrep.
  { intros p Hp. unfold aget. destruct (Z.ltb_spec p 0); [lia|].
    apply lookup_replicate_2. lia. }
  unfold daisy_slot. destruct (Z.eqb_spec (daisy_input s) 0) as [Hd|Hd]; cbn [negb andb].
  { eexists. split_and!; [done|done|done]. }
  set (l := replicate 16 PL192_NO_IRQ) in *.
  assert (aset (daisy_priority s) PL192_DAISY_IRQ l
          = Some (<[Z.to_nat (daisy_priority s) := PL192_DAISY_IRQ]> l)) as Hset
    by (apply aset_Some; unfold zlen, l; rewrite length_replicate; lia).
  eexists. split_and!; [apply Hset|by rewrite length_insert|]. intros p Hp.
  destruct (Z.eqb_spec p (daisy_priority s)) as [->|Hne].
  - apply (aget_aset_eq _ _ _ _ Hset).
  - rewrite (aget_aset_ne _ _ _ _ _ (not_eq_sym Hne) Hset). auto.
Qed.

Lemma level_of_source j : 0 <= j < 32 -> level_of s j = aget (vect_priority s) j.
Proof.
  intros. unfold level_of. destruct (Z.eqb_spec j PL192_DAISY_IRQ) as [->|]; [|done].
  unfold PL192_DAISY_IRQ, PL192_INT_SOURCES in *. lia.
Qed.

Lemma slot_final p x :
  slot_ok 32 (daisy_slot p) x p ->
  (x <= PL192_DAISY_IRQ -> competes s x /\ level_of s x = Some p) /\
  (forall j, competes s j -> level_of s j = Some p -> x <= j).
Proof.
  unfold daisy_slot, competes, PL192_NO_IRQ, PL192_DAISY_IRQ, PL192_INT_SOURCES.
  intros [[-> Hno]|(Hr & Hb & Hlv & Hmin)].
  - assert (forall j, 0 <= j < 32 -> Z.testbit (irq_status s) j = true ->
                      level_of s j <> Some p) as Hno'.
    { intros j Hj Hbj. rewrite level_of_source by done. auto. }
    destruct (Z.eqb_spec (daisy_input s) 0) as [Hd|Hd]; cbn [negb andb].
    { split; [lia|]. intros j [[? ?]|[-> ?]]; [|done]. intros Hl. by destruct (Hno' j). }
    destruct (Z.eqb_spec p (daisy_priority s)) as [->|Hne].
    + split; [by intros; split; [right|]|].
      intros j [[? ?]|[-> ?]] Hl; [by destruct (Hno' j)|reflexivity].
    + split; [lia|]. intros j [[? ?]|[-> ?]]; [intros Hl; by destruct (Hno' j)|].
      unfold level_of. cbn. congruence.
  - split; [intros; split; [left; split; [lia|done]|by rewrite level_of_source by lia]|].
    intros j [[? ?]|[-> ?]] Hl; [|cbn in *; lia]. rewrite level_of_source in Hl by done.
    destruct (Z.lt_ge_cases j x); [|lia]. exfalso; by apply (Hmin j); [lia|..].
Qed.

Lemma slots_spec :
  exists a0 a, (if negb (daisy_input s =? 0)
           then aset (daisy_priority s) PL192_DAISY_IRQ (replicate 16 PL192_NO_IRQ)
           else Some (replicate 16 PL192_NO_IRQ)) = Some a0
            /\ place_sources s 32 a0 = Some a /\ slots_ok a.
Proof.
  destruct daisy_slot_spec as (a0 & Ha0 & Hl0 & Hd).
  destruct (place_sources_spec 32 a0) as (a & Ha & Hl & Hs); [lia|done|].
  exists a0, a. split_and!; [done|done|]. split; [done|]. intros p Hp.
  destruct (Hs p Hp) as (old & new & Hold & Hnew & Hok').
  rewrite Hd in Hold by done. injection Hold as <-. exists new. split; [done|].
  by apply slot_final.
Qed.

Lemma first_level_spec a i m :
  slots_ok a -> 0 <= i -> i + Z.of_nat m = 16 ->
  exists h, first_level s a i m = Some h /\
    ((h = PL192_NO_IRQ /\ forall j p, ready s j p -> p < i \/ 16 <= p)
     \/ (exists p, ready s h p /\ i <= p < 16 /\ forall j q, ready s j q -> q < i \/ 16 <= q \/ p < q \/ (p = q /\ h <= j))).
Proof.
  intros [Hl Ha]. revert i. induction m as [|m IH]; intros i Hi Hn.
  { exists PL192_NO_IRQ. split; [done|]. left. split; [done|]. lia. }
  cbn [first_level]. destruct (Ha i) as (x & Hx & Hle & Hmin); [lia|]. rewrite Hx. cbn.
  rewrite test_true_bit by lia.
  destruct (Z.testbit (sw_priority_mask s) i) eqn:Em; cbn [andb];
    [destruct (Z.leb_spec x PL192_DAISY_IRQ) as [Hx32|Hx32]|].
  - exists x. split; [done|]. right. exists i. destruct (Hle Hx32) as [Hc Hlv].
    split_and!; [done|lia|lia|]. intros j q (Hcj & Hlj & Hmj).
    destruct (Z.lt_trichotomy q i) as [|[->|]]; [lia| |lia]. right; right; right.
    split; [done|]. by apply Hmin.
  - destruct (IH (i + 1)) as (h & Hh & Hcase); [lia|lia|]. exists h. split; [done|].
    assert (forall j, ~ ready s j i) as Hnone.
    { intros j (Hcj & Hlj & _). specialize (Hmin j Hcj Hlj).
      destruct Hcj as [[? _]|[-> _]]; unfold PL192_DAISY_IRQ, PL192_INT_SOURCES in *; lia. }
    destruct Hcase as [[-> Hno]|(p & Hrd & Hp & Hbest)].
    + left. split; [done|]. intros j p Hr. destruct (Z.eq_dec p i) as [->|]; [by destruct (Hnone j)|].
      specialize (Hno j p Hr). lia.
    + right. exists p. split_and!; [done|lia|lia|]. intros j q Hr.
      destruct (Z.eq_dec q i) as [->|]; [by destruct (Hnone j)|]. specialize (Hbest j q Hr). lia.
  - destruct (IH (i + 1)) as (h & Hh & Hcase); [lia|lia|]. exists h. split; [done|].
    assert (forall j, ~ ready s j i) as Hnone by (intros j (_ & _ & Hm); congruence).
    destruct Hcase as [[-> Hno]|(p & Hrd & Hp & Hbest)].
    + left. split; [done|]. intros j p Hr. destruct (Z.eq_dec p i) as [->|]; [by destruct (Hnone j)|].
      specialize (Hno j p Hr). lia.
    + right. exists p. split_and!; [done|lia|lia|]. intros j q Hr.
      destruct (Z.eq_dec q i) as [->|]; [by destruct (Hnone j)|]. specialize (Hbest j q Hr). lia.
Qed.

(** Every competitor has a level. *)
Lemma competes_level i : competes s i -> exists p, level_of s i = Some p /\ 0 <= p < 16.
Proof.
  intros [[Hi _]|[-> _]].
  - rewrite level_of_source by done. by apply level_range.
  - pose proof (ok_daisy_priority _ _ _ Hok). unfold level_of. cbn. eauto.
Qed.

Lemma sorter_correct :
  exists h, pl192_priority_sorter s = Some h /\
    ((h = PL192_NO_IRQ /\ forall j p, ~ ready s j p)
     \/ (exists p, ready s h p /\ forall j q, ready s j q -> p < q \/ (p = q /\ h <= j))).
Proof.
  destruct slots_spec as (a0 & a & Ha0 & Ha & Hs). unfold pl192_priority_sorter.
  rewrite (mbind_Some_eq _ _ _ Ha0), (mbind_Some_eq _ _ _ Ha).
  destruct (first_level_spec a 0 16 Hs) as (h & Hh & Hcase); [lia|lia|].
  exists h. split; [exact Hh|].
  assert (forall j p, ready s j p -> 0 <= p < 16) as Hrng.
  { intros j p (Hc & Hlv & _). destruct (competes_level j Hc) as (p' & Hp' & ?). by simplify_eq. }
  destruct Hcase as [[-> Hno]|(p & Hrd & Hp & Hbest)].
  - left. split; [done|]. intros j p Hr. specialize (Hno j p Hr). specialize (Hrng j p Hr). lia.
  - right. exists p. split; [done|]. intros j q Hr. specialize (Hbest j q Hr).
    specialize (Hrng j q Hr). lia.
Qed.

Lemma sorter_range h : pl192_priority_sorter s = Some h -> 0 <= h <= PL192_NO_IRQ.
Proof.
  destruct sorter_correct as (h' & Hh' & Hcase). rewrite Hh'. intros [= <-].
  unfold PL192_NO_IRQ, PL192_INT_SOURCES in *.
  destruct Hcase as [[-> _]|(p & (Hc & _) & _)]; [lia|].
  destruct Hc as [[? _]|[-> _]]; unfold PL192_DAISY_IRQ, PL192_INT_SOURCES in *; lia.
Qed.
End Sorter.

(** ** Every update of a well-formed store is defined and keeps it well formed *)
Section Keeps.
Context (n : nat).

Lemma vics_ok_lookup v k s : vics_ok n v -> v !! k = Some s -> vic_ok n k s.
Proof. intros [_ H]. apply H. Qed.

Lemma vics_ok_insert v k s : vics_ok n v -> vic_ok n k s -> vics_ok n (<[k := s]> v).
Proof.
  intros [Hl H] Hs. split; [by rewrite length_insert|]. intros j t Ht.
  apply list_lookup_insert_Some in Ht as [(-> & <- & _)|[_ Ht]]; auto.
Qed.

Lemma wp_vic_at k (Q : pl192_state -> vics -> list vic_event -> Prop) v :
  vics_ok n v -> (k < n)%nat ->
  (forall s, v !! k = Some s -> vic_ok n k s -> Q s v []) -> wp (vic_at k) Q v.
Proof.
  intros Hv Hk HQ. destruct (lookup_lt_is_Some_2 v k) as [s Hs]; [by destruct Hv as [-> _]|].
  unfold wp, vic_at. rewrite Hs. apply HQ; [done|]. by eapply vics_ok_lookup.
Qed.

Lemma wp_vic_upd k f (Q : unit -> vics -> list vic_event -> Prop) v :
  vics_ok n v -> (k < n)%nat -> (forall s, vic_ok n k s -> vic_ok n k (f s)) ->
  (forall v', vics_ok n v' -> Q tt v' []) -> wp (vic_upd k f) Q v.
Proof.
  intros Hv Hk Hf HQ. destruct (lookup_lt_is_Some_2 v k) as [s Hs]; [by destruct Hv as [-> _]|].
  unfold wp, vic_upd. rewrite Hs. apply HQ, vics_ok_insert; [done|].
  apply Hf. by eapply vics_ok_lookup.
Qed.
End Keeps.

(** A field update keeps the type of the other fields. *)
Ltac solve_vic_ok :=
  let s := fresh in let H := fresh in
  intros s H; destruct H; constructor; unfold upd; cbn in *; auto with width;
  unfold PL192_NO_IRQ, PL192_DAISY_IRQ, PL192_INT_SOURCES, PL192_PRIO_LEVELS in *; try lia.

(** Steps of a handler over a well-formed store. *)
Ltac vic_step :=
  first
    [ wp_step
    | match goal with
      | |- wp (vic_at _) _ _ => eapply wp_vic_at; [eassumption|try lia|intros ? ? ?; cbv beta]
      | |- wp (vic_upd _ _) _ _ =>
          eapply wp_vic_upd; [eassumption|try lia|try solve [solve_vic_ok]|intros ? ?; cbv beta]
      end ].

Section UpdateKeeps.
Context (n : nat).

Lemma vic_value_range k s h : vic_ok n k s -> h < PL192_INT_SOURCES -> 0 <= h ->
  (exists a, aget (vect_addr s) h = Some a /\ fits 32 a) /\
  (exists p, aget (vect_priority s) h = Some p).
Proof.
  intros [] H0 H1. unfold PL192_INT_SOURCES in *. split.
  - destruct (aget_Some (vect_addr s) h) as [a Ha]; [unfold zlen; lia|].
    exists a. split; [done|]. by eapply Forall_aget; [apply ok_vect_addr0|].
  - apply aget_Some. unfold zlen. lia.
Qed.

Lemma chain_keeps fuel :
  (forall k b, (k < n)%nat -> (2 * k + 1 <= fuel)%nat -> keeps (vics_ok n) (pl192_raise fuel k b)) /\
  (forall k b, (k < n)%nat -> (2 * k + 1 <= fuel)%nat -> keeps (vics_ok n) (pl192_lower fuel k b)) /\
  (forall k, (k < n)%nat -> (2 * k + 2 <= fuel)%nat -> keeps (vics_ok n) (pl192_update fuel k)).
Proof.
  induction fuel as [|fuel (IHr & IHl & IHu)]; [split_and!; intros; lia|].
  split_and!; intros k.
  - intros b Hk Hf v Hv. cbn [pl192_raise]. repeat vic_step; try done.
    all: match goal with H : vic_ok _ _ ?s, E : daisy ?s = Some _ |- _ =>
           pose proof (ok_daisy _ _ _ H) as Hd; rewrite E in Hd end.
    + eapply wp_keeps; [apply IHr; lia|done|done].
    + lia.
    + intros t Ht. destruct Ht, H0. constructor; unfold upd; cbn; auto with width.
    + eapply wp_keeps; [apply IHu; lia|done|done].
  - intros b Hk Hf v Hv. cbn [pl192_lower]. repeat vic_step; try done.
    all: match goal with H : vic_ok _ _ ?s, E : daisy ?s = Some _ |- _ =>
           pose proof (ok_daisy _ _ _ H) as Hd; rewrite E in Hd end.
    all: try lia.
    all: try (eapply wp_keeps; [apply IHl; lia|done|done]).
    all: try (eapply wp_keeps; [apply IHu; lia|done|done]).
  - intros Hk Hf v Hv. cbn [pl192_update]. do 2 vic_step. vic_step. vic_step.
    apply wp_bind. eapply wp_keeps; [|eassumption|intros _ v2 e2 Hv2].
    { apply keeps_if; [apply IHr|apply IHl]; lia. }
    vic_step. vic_step. vic_step.
    + vic_step.
      destruct (sorter_correct n k s0) as (h & Hh & _); [done|].
      pose proof (sorter_range n k s0 ltac:(done) h Hh) as Hrng.
      eapply wp_lift; [exact Hh|]. do 2 vic_step.
      apply wp_bind.
      assert (exists a, (if h <? PL192_INT_SOURCES then lift (aget (vect_addr s0) h)
                    else ret (daisy_vectaddr s0) : vicM Z) = ret a /\ fits 32 a) as (a & Ha & Hfa).
      { destruct (Z.ltb_spec h PL192_INT_SOURCES).
        - destruct (vic_value_range k s0 h) as [(a & -> & ?) _]; [done|done|lia|]. by exists a.
        - eexists. split; [done|]. eapply ok_daisy_vectaddr; eassumption. }
      rewrite Ha. apply wp_ret. do 2 vic_step.
      vic_step; [|done]. apply wp_bind.
      assert (exists p, (if h <? PL192_INT_SOURCES then lift (aget (vect_priority s0) h)
                    else ret 0 : vicM Z) = ret p) as (p & Hp).
      { destruct (Z.ltb_spec h PL192_INT_SOURCES); [|by eexists].
        destruct (vic_value_range k s0 h) as [_ (p & ->)]; [done|done|lia|]. by exists p. }
      rewrite Hp. apply wp_ret.
      repeat vic_step; try done.
      * eapply wp_keeps; [apply IHr; lia|done|done].
      * eapply wp_keeps; [apply IHl; lia|done|done].
    + repeat vic_step.
      eapply wp_keeps; [apply IHl; lia|done|done].
Qed.

Lemma vic_update_keeps k : (k < n)%nat -> keeps (vics_ok n) (vic_update k).
Proof.
  intros Hk v Hv. unfold vic_update. destruct (chain_keeps (update_fuel v)) as (_ & _ & H).
  apply H; [done| |done]. unfold update_fuel. destruct Hv as [-> _]. lia.
Qed.
End UpdateKeeps.

(** ** Register accesses and input lines *)
Lemma chip_id_defined offset :
  0xfe0 <= offset < 0x1000 -> exists x, aget pl192_id ((offset - 0xfe0) >> 2) = Some x.
Proof.
  intros H. apply aget_Some. rewrite Z.shiftr_div_pow2 by lia. unfold zlen. cbn.
  split; [apply Z.div_pos; lia|]. apply Z.div_lt_upper_bound; lia.
Qed.

(** The word offset of a 32-entry register bank. *)
Lemma bank_index base offset :
  base <= offset < base + 0x80 -> 0 <= (offset - base) >> 2 < 32.
Proof.
  intros H. rewrite Z.shiftr_div_pow2 by lia. split; [apply Z.div_pos; lia|].
  apply Z.div_lt_upper_bound; lia.
Qed.

Ltac vic_finish :=
  repeat first
    [ done
    | match goal with
      | |- wp (vic_update ?k) _ _ =>
          eapply wp_keeps; [eapply vic_update_keeps; eassumption|eassumption|by auto]
      | H : (_ && _)%bool = true |- _ => apply andb_prop in H as [? ?]
      end
    | vic_step ].

Section Accesses.
Context (n k : nat) (Hk : (k < n)%nat).

Lemma set_vect_addr_ok s i a : vic_ok n k s -> fits 32 a -> 0 <= i < 32 ->
  exists l, aset i a (vect_addr s) = Some l /\ length l = 32%nat /\ Forall (fits 32) l.
Proof.
  intros Hs Ha Hi. destruct (ok_vect_addr _ _ _ Hs) as [Hl Hf].
  eexists. split; [apply aset_Some; unfold zlen; lia|].
  split; [by rewrite length_insert|by apply Forall_insert].
Qed.

Lemma set_vect_priority_ok s i a : vic_ok n k s -> fits 4 a -> 0 <= i < 32 ->
  exists l, aset i a (vect_priority s) = Some l /\ length l = 32%nat /\ Forall (fits 4) l.
Proof.
  intros Hs Ha Hi. destruct (ok_vect_priority _ _ _ Hs) as [Hl Hf].
  eexists. split; [apply aset_Some; unfold zlen; lia|].
  split; [by rewrite length_insert|by apply Forall_insert].
Qed.

(** C2: A change of an input line, and a write of any 32-bit value to any
    register other than VECTADDR, is defined on every well-formed set of
    chained controllers and leaves it well formed: no array is indexed out of
    its bounds, the mutual recursion along the daisy chain ends, and every
    field keeps its width. *)
Theorem line_and_write_keep_ok line level offset value :
  0 <= line < 32 -> fits 32 value -> 0 <= offset < 0x1000 -> offset <> PL192_VECTADDR ->
  keeps (vics_ok n) (pl192_irq_handler k line level) /\
  keeps (vics_ok n) (pl192_write k offset value).
Proof.
  intros Hline Hval Hoff Hva. pose proof (fits_bit 32 line Hline) as Hbit. split; intros v Hv.
  - unfold pl192_irq_handler. vic_finish.
  - unfold pl192_write. cbv zeta. vic_finish.
    + destruct (set_vect_addr_ok s ((offset - 0x100) >> 2) value) as (l & Hl & Hlen & Hall);
        [done|done|apply bank_index; lia|].
      eapply wp_lift; [exact Hl|]. vic_finish.
    + destruct (set_vect_priority_ok s ((offset - 0x200) >> 2) (value .& 15))
        as (l & Hl & Hlen & Hall); [done|apply fits_land_const; auto with width|apply bank_index; lia|].
      eapply wp_lift; [exact Hl|]. vic_finish.
    + assert (fits 4 (value .& 15)) by (apply fits_land_const; auto with width). solve_vic_ok.
    + exfalso. apply Hva. unfold on in *. lia.
Qed.
End Accesses.

(** ** A controller wired to the CPU

    For a controller whose two lines are connected and that hangs off no other,
    an update is a function of its registers alone. *)
Definition recompute (s : pl192_state) : pl192_state :=
  s <| irq_status := ((rawintr s .| softint s) .& intenable s) .&~ intselect s |>
    <| fiq_status := ((rawintr s .| softint s) .& intenable s) .& intselect s |>.

Definition is_root (s : pl192_state) : Prop := irq s = true /\ fiq s = true /\ daisy s = None.

(** The winner: an unmasked competitor of the smallest level, and among those
    the smallest number. *)
Definition winner (s : pl192_state) (h p : Z) : Prop :=
  ready s h p /\ forall j q, ready s j q -> p < q \/ (p = q /\ h <= j).

(** [s'] differs from [s] in what an update computes only. *)
Definition same_but_update (s s' : pl192_state) : Prop :=
  exists h a, s' = (recompute s) <| current_highest := h |> <| address := a |>.

Lemma vic_at_eq k v s : v !! k = Some s -> vic_at k v = Done (s, v, []).
Proof. unfold vic_at. by intros ->. Qed.

Lemma vic_upd_eq k f v s : v !! k = Some s -> vic_upd k f v = Done (tt, <[k := f s]> v, []).
Proof. unfold vic_upd. by intros ->. Qed.

Lemma bind_vic_at {A} k (m : pl192_state -> vicM A) v s :
  v !! k = Some s -> bind (vic_at k) m v = m s v.
Proof.
  intros H. rewrite (bind_Done _ _ _ _ _ _ (vic_at_eq k v s H)).
  by destruct (m s v) as [[[]]| |].
Qed.

Lemma bind_vic_upd {A} k f (m : unit -> vicM A) v s :
  v !! k = Some s -> bind (vic_upd k f) m v = m tt (<[k := f s]> v).
Proof.
  intros H. rewrite (bind_Done _ _ _ _ _ _ (vic_upd_eq k f v s H)).
  by destruct (m tt _) as [[[]]| |].
Qed.

Lemma raise_root fuel k b v s :
  v !! k = Some s -> is_root s ->
  pl192_raise (S fuel) k b v = Done (tt, v, [if b then VicFiq k true else VicIrq k true]).
Proof.
  intros Hs (Hi & Hf & Hd). cbn [pl192_raise]. rewrite (bind_vic_at _ _ _ _ Hs), Hi, Hf.
  by destruct b.
Qed.

Lemma lower_root fuel k b v s :
  v !! k = Some s -> is_root s ->
  pl192_lower (S fuel) k b v = Done (tt, v, [if b then VicFiq k false else VicIrq k false]).
Proof.
  intros Hs (Hi & Hf & Hd). cbn [pl192_lower]. rewrite (bind_vic_at _ _ _ _ Hs), Hi, Hf, Hd.
  by destruct b.
Qed.

(** What an update of a root controller does to its lines. *)
Definition root_lines (k : nat) (s : pl192_state) (h p : Z) : list vic_event :=
  VicFiq k (negb (fiq_status s =? 0)) ::
  (if negb (irq_status s =? 0) || negb (daisy_input s =? 0)
   then if h =? current s then []
        else if h =? PL192_NO_IRQ then [VicIrq k false]
        else if priority s <=? p then [] else [VicIrq k true]
   else [VicIrq k false]).

Lemma recompute_ok n k s : vic_ok n k s -> vic_ok n k (recompute s).
Proof. revert s. unfold recompute. solve_vic_ok. Qed.

Lemma list_insert_id_eq (v : vics) k s : v !! k = Some s -> <[k := s]> v = v.
Proof. apply list_insert_id. Qed.

(** The second half of an update, from the chosen [h] on. *)
Definition settle (fuel k : nat) (h : Z) : vicM unit :=
  s <- vic_at k ;;
  when (negb (h =? current s))
    (p <- (if h <? PL192_INT_SOURCES then lift (aget (vect_priority s) h) else ret 0) ;;
     if (h <? PL192_INT_SOURCES) && (priority s <=? p) then ret tt
     else if (h =? PL192_DAISY_IRQ) && (priority s <=? daisy_priority s) then ret tt
     else if h <=? PL192_DAISY_IRQ then pl192_raise fuel k false
     else pl192_lower fuel k false).

Lemma settle_root n k s fuel h p v :
  v !! k = Some s -> vic_ok n k s -> is_root s ->
  (h = PL192_NO_IRQ \/ (0 <= h <= PL192_DAISY_IRQ /\ level_of s h = Some p)) ->
  settle (S fuel) k h v =
  Done (tt, v, if h =? current s then []
               else if h =? PL192_NO_IRQ then [VicIrq k false]
               else if priority s <=? p then [] else [VicIrq k true]).
Proof.
  intros Hs Hok Hr Hh. unfold settle. rewrite (bind_vic_at _ _ _ _ Hs).
  destruct (h =? current s); [done|]. cbn [negb when].
  unfold PL192_NO_IRQ, PL192_DAISY_IRQ, PL192_INT_SOURCES in *.
  destruct Hh as [->|[Hr1 Hlv]].
  { change (32 + 1 <? 32) with false. cbv iota. rewrite bind_ret. cbn [andb].
    change (32 + 1 =? 32) with false. change (32 + 1 <=? 32) with false.
    cbn [andb]. cbv iota. by rewrite (lower_root _ _ _ _ _ Hs Hr). }
  replace (h =? 32 + 1) with false by lia. unfold level_of in Hlv.
  unfold PL192_DAISY_IRQ, PL192_INT_SOURCES in *.
  destruct (Z.ltb_spec h 32); cbv iota.
  - replace (h =? 32) with false in * by lia. rewrite Hlv. cbn [lift]. rewrite bind_ret. cbn [andb].
    destruct (priority s <=? p); [done|]. replace (h <=? 32) with true by lia.
    cbv iota. by rewrite (raise_root _ _ _ _ _ Hs Hr).
  - replace (h =? 32) with true in * by lia. injection Hlv as ->. rewrite bind_ret. cbn [andb].
    destruct (priority s <=? p); [done|]. replace (h <=? 32) with true by lia.
    cbv iota. by rewrite (raise_root _ _ _ _ _ Hs Hr).
Qed.

Lemma root_update n k s v :
  v !! k = Some s -> vic_ok n k s -> is_root s ->
  exists s' h p, vic_update k v = Done (tt, <[k := s']> v, root_lines k (recompute s) h p) /\
    same_but_update s s' /\ current_highest s' = h /\
    (negb (irq_status (recompute s) =? 0) || negb (daisy_input s =? 0) = true ->
     (h = PL192_NO_IRQ /\ forall j q, ~ ready (recompute s) j q) \/ winner (recompute s) h p) /\
    (h < PL192_INT_SOURCES -> aget (vect_addr s) h = Some (address s')) /\
    (negb (irq_status (recompute s) =? 0) || negb (daisy_input s =? 0) = false -> h = PL192_NO_IRQ).
Proof.
  intros Hs Hok Hr. set (s1 := recompute s). set (v1 := <[k := s1]> v).
  assert (v1 !! k = Some s1) as Hs1 by (apply list_lookup_insert_eq; eapply lookup_lt_Some; eauto).
  assert (vic_ok n k s1) as Hok1 by by apply recompute_ok.
  assert (is_root s1) as Hr1 by done.
  unfold vic_update, update_fuel. rewrite Nat.add_comm. cbn [Nat.add].
  set (fuel := (2 * length v)%nat). cbn [pl192_update].
  rewrite (bind_vic_upd _ _ _ _ _ Hs). fold (recompute s). fold s1. fold v1.
  rewrite (bind_vic_at _ _ _ _ Hs1).
  set (rest := fun _ : unit => bind (vic_at k) _).
  assert ((if negb (fiq_status s1 =? 0) then pl192_raise (S fuel) k true
           else pl192_lower (S fuel) k true) v1
          = Done (tt, v1, [VicFiq k (negb (fiq_status s1 =? 0))])) as Hfiq.
  { destruct (negb (fiq_status s1 =? 0)); [exact (raise_root fuel k true _ _ Hs1 Hr1)
                                          |exact (lower_root fuel k true _ _ Hs1 Hr1)]. }
  rewrite (bind_Done _ _ _ _ _ _ Hfiq). subst rest. cbv beta. rewrite (bind_vic_at _ _ _ _ Hs1).
  unfold root_lines. change (daisy_input s) with (daisy_input s1).
  destruct (negb (irq_status s1 =? 0) || negb (daisy_input s1 =? 0)) eqn:Ep.
  - destruct (sorter_correct n k s1 Hok1) as (h & Hh & Hbest).
    pose proof (sorter_range n k s1 Hok1 h Hh) as Hrng. rewrite Hh. cbn [lift]. cbv iota. rewrite bind_ret.
    rewrite (bind_vic_upd _ _ _ _ _ Hs1).
    set (s2 := s1 <| current_highest := h |>).
    assert (exists a, (if h <? PL192_INT_SOURCES then lift (aget (vect_addr s1) h)
                  else ret (daisy_vectaddr s1) : vicM Z) = ret a /\
                  (h < PL192_INT_SOURCES -> aget (vect_addr s) h = Some a) /\ fits 32 a)
      as (a & Ha & Hav & Hfa).
    { destruct (Z.ltb_spec h PL192_INT_SOURCES); [|eexists; split_and!; [done|lia|eapply ok_daisy_vectaddr; eassumption]].
      destruct (vic_value_range n k s1 h) as [(a & Hva & ?) _]; [done|done|lia|].
      rewrite Hva. by exists a. }
    rewrite Ha, bind_ret.
    assert (<[k := s2]> v1 !! k = Some s2) as Hs2
      by (apply list_lookup_insert_eq; eapply lookup_lt_Some; eauto).
    rewrite (bind_vic_upd _ _ _ _ _ Hs2). set (s3 := s2 <| address := a |>).
    set (v3 := <[k := s3]> _).
    assert (v3 !! k = Some s3) as Hs3
      by (apply list_lookup_insert_eq; eapply lookup_lt_Some; eauto).
    assert (vic_ok n k s3) as Hok3.
    { destruct Hok1. constructor; unfold upd; cbn; auto with width. }
    assert (exists p, (h = PL192_NO_IRQ \/ (0 <= h <= PL192_DAISY_IRQ /\ level_of s3 h = Some p)) /\
              ((h = PL192_NO_IRQ /\ forall j q, ~ ready s1 j q) \/ winner s1 h p)) as (p & Hp & Hw).
    { destruct Hbest as [[-> Hno]|(p & Hrd & Hmin)].
      - exists 0. split; left; auto.
      - exists p. split; [right|by right; split]. destruct Hrd as (Hc & Hlv & _). split; [|exact Hlv].
        unfold PL192_DAISY_IRQ, PL192_INT_SOURCES. destruct Hc as [[? _]|[-> _]];
          unfold PL192_DAISY_IRQ, PL192_INT_SOURCES in *; lia. }
    pose proof (settle_root n k s3 fuel h p v3 Hs3 Hok3 Hr1 Hp) as Hset.
    unfold settle in Hset. rewrite (bind_vic_at _ _ _ _ Hs3) in Hset.
    exists s3, h, p. split_and!; [|by exists h, a|done|done|exact Hav|done].
    change (current s1) with (current s3). change (vect_priority s1) with (vect_priority s3).
    change (priority s1) with (priority s3). change (daisy_priority s1) with (daisy_priority s3).
    rewrite Hset. unfold v3, v1. rewrite !list_insert_insert_eq. done.
  - rewrite (bind_vic_upd _ _ _ _ _ Hs1). set (s2 := s1 <| current_highest := PL192_NO_IRQ |>).
    assert (<[k := s2]> v1 !! k = Some s2) as Hs2
      by (apply list_lookup_insert_eq; eapply lookup_lt_Some; eauto).
    rewrite (lower_root _ _ _ _ _ Hs2 Hr1). exists s2, PL192_NO_IRQ, 0.
    unfold v1. rewrite list_insert_insert_eq.
    split_and!; [done| |done|done|unfold PL192_NO_IRQ; lia|done].
    by exists PL192_NO_IRQ, (address s1).
Qed.

(** *** Acknowledging and finishing on a root controller *)

(** The top of the two stacks mirrors the running priority and interrupt. *)
Definition stack_top (s : pl192_state) : Prop :=
  aget (priority_stack s) (stack_i s) = Some (priority s) /\
  aget (irq_stack s) (stack_i s) = Some (current s).

Lemma same_but_update_fields s s' :
  same_but_update s s' ->
  current s' = current s /\ priority s' = priority s /\ stack_i s' = stack_i s /\
  priority_stack s' = priority_stack s /\ irq_stack s' = irq_stack s /\
  vect_priority s' = vect_priority s /\ daisy_callback s' = daisy_callback s /\
  (is_root s -> is_root s').
Proof. intros (h & a & ->). done. Qed.

Lemma same_but_update_ok n k s s' :
  vic_ok n k s -> same_but_update s s' -> 0 <= current_highest s' <= PL192_NO_IRQ ->
  fits 32 (address s') -> vic_ok n k s'.
Proof.
  intros Hok (h & a & ->) Hh Ha. apply recompute_ok in Hok. destruct Hok.
  constructor; unfold upd; cbn in *; auto.
Qed.

Lemma mask_source n k s v i p :
  v !! k = Some s -> vic_ok n k s -> stack_i s < PL192_PRIO_LEVELS ->
  current s = i -> 0 <= i < PL192_INT_SOURCES -> aget (vect_priority s) i = Some p ->
  exists ps qs, aset (stack_i s + 1) p (priority_stack s) = Some ps /\
    aset (stack_i s + 1) (u8 i) (irq_stack s) = Some qs /\
    pl192_mask_priority k v = Done (tt, <[k := s <| stack_i ::= Z.succ |> <| priority := p |>
                                   <| priority_stack := ps |> <| irq_stack := qs |>]> v, []).
Proof.
  intros Hs Hok Hst Hi Hr Hp. unfold PL192_PRIO_LEVELS, PL192_INT_SOURCES in *.
  destruct (ok_priority_stack _ _ _ Hok) as [Hlp _], (ok_irq_stack _ _ _ Hok) as [Hlq _].
  pose proof (ok_stack_i _ _ _ Hok) as Hsi.
  do 2 eexists. split_and!; [apply aset_Some; unfold zlen; lia..|].
  unfold pl192_mask_priority. rewrite (bind_vic_at _ _ _ _ Hs). unfold PL192_INT_SOURCES.
  replace (32 <=? stack_i s) with false by lia. cbn [when]. rewrite bind_ret.
  replace (current s =? PL192_DAISY_IRQ) with false by (unfold PL192_DAISY_IRQ, PL192_INT_SOURCES; lia).
  rewrite Hi, Hp. cbn [lift]. rewrite bind_ret.
  rewrite (aset_Some (priority_stack s)) by (unfold zlen; lia). cbn [lift]. rewrite bind_ret.
  rewrite (aset_Some (irq_stack s)) by (unfold zlen; lia). cbn [lift]. rewrite bind_ret.
  by rewrite (vic_upd_eq _ _ _ _ Hs).
Qed.

(** One level of the stack, pushed and popped. *)
Lemma unmask_after_push n k s v :
  v !! k = Some s -> vic_ok n k s -> 1 <= stack_i s ->
  exists p c, aget (priority_stack s) (stack_i s - 1) = Some p /\
    aget (irq_stack s) (stack_i s - 1) = Some c /\
    pl192_unmask_priority k v
    = Done (tt, <[k := s <| stack_i ::= Z.pred |> <| priority := p |> <| current := c |>]> v, []).
Proof.
  intros Hs Hok Hst. pose proof (ok_stack_i _ _ _ Hok) as Hsi. unfold PL192_PRIO_LEVELS in *.
  destruct (ok_priority_stack _ _ _ Hok) as [Hlp _], (ok_irq_stack _ _ _ Hok) as [Hlq _].
  destruct (aget_Some (priority_stack s) (stack_i s - 1)) as [p Hp]; [unfold zlen; lia|].
  destruct (aget_Some (irq_stack s) (stack_i s - 1)) as [c Hc]; [unfold zlen; lia|].
  exists p, c. split_and!; [done|done|].
  unfold pl192_unmask_priority. rewrite (bind_vic_at _ _ _ _ Hs).
  replace (stack_i s <? 1) with false by lia. cbn [when]. rewrite bind_ret, Hp. cbn [lift].
  rewrite bind_ret, Hc. cbn [lift]. rewrite bind_ret.
  by rewrite (vic_upd_eq _ _ _ _ Hs).
Qed.

Lemma root_update_ok n k s v :
  v !! k = Some s -> vics_ok n v -> is_root s ->
  exists s' es, vic_update k v = Done (tt, <[k := s']> v, es) /\ same_but_update s s' /\
    vics_ok n (<[k := s']> v).
Proof.
  intros Hs Hok Hr.
  destruct (root_update n k s v Hs (vics_ok_lookup _ _ _ _ Hok Hs) Hr)
    as (s' & h & p & E & Hsame & _).
  exists s', (root_lines k (recompute s) h p). split_and!; [done|done|].
  assert (k < n)%nat as Hk by (destruct Hok as [<- _]; by eapply lookup_lt_Some).
  exact (wp_Done _ _ _ _ _ _ (vic_update_keeps n k Hk v Hok) E).
Qed.

Lemma lookup_upd_eq (v : vics) k s s' : v !! k = Some s -> <[k := s']> v !! k = Some s'.
Proof. intros H. apply list_lookup_insert_eq. by eapply lookup_lt_Some. Qed.

(** Pushing a level keeps the controller well formed and leaves the previous
    running interrupt just below the top. *)
Definition pushed (s : pl192_state) (p : Z) (ps qs : list Z) : pl192_state :=
  s <| stack_i ::= Z.succ |> <| priority := p |> <| priority_stack := ps |> <| irq_stack := qs |>.

Lemma vic_ok_stacks n k s p ps qs :
  vic_ok n k s -> fits 32 p -> length ps = 17%nat -> Forall (fits 32) ps ->
  length qs = 17%nat -> Forall (fits 8) qs ->
  vic_ok n k (s <| priority := p |> <| priority_stack := ps |> <| irq_stack := qs |>).
Proof.
  intros Hok Hp Hl1 Hf1 Hl2 Hf2.
  assert (vic_ok n k (s <| priority := p |>)) as Hok1
    by (destruct Hok; constructor; unfold upd; cbn; auto).
  revert Hok1. generalize (s <| priority := p |>) as t. intros t Hok1.
  destruct Hok1; constructor; unfold upd; cbn; auto.
Qed.

Lemma pushed_ok n k s c p ps qs :
  vic_ok n k s -> stack_i s < PL192_PRIO_LEVELS -> fits 32 p ->
  aset (stack_i s + 1) p (priority_stack s) = Some ps ->
  aset (stack_i s + 1) (u8 c) (irq_stack s) = Some qs ->
  vic_ok n k (pushed s p ps qs) /\
  aget ps (stack_i s) = aget (priority_stack s) (stack_i s) /\
  aget qs (stack_i s) = aget (irq_stack s) (stack_i s).
Proof.
  intros Hok Hst Hp Hps Hqs. split_and!.
  - destruct (ok_priority_stack _ _ _ Hok) as [Hl1 Hf1], (ok_irq_stack _ _ _ Hok) as [Hl2 Hf2].
    rewrite <- (aset_length _ _ _ _ Hps) in Hl1. rewrite <- (aset_length _ _ _ _ Hqs) in Hl2.
    assert (Forall (fits 32) ps) by by eapply Forall_aset.
    assert (Forall (fits 8) qs) by (eapply Forall_aset; [done| |done]; auto with width).
    unfold pushed. clear Hps Hqs Hf1 Hf2.
    assert (vic_ok n k (s <| stack_i ::= Z.succ |>)) as Hok1.
    { clear - Hok Hst. unfold PL192_PRIO_LEVELS in *. revert s Hok Hst.
      intros s [] Hst. constructor; unfold upd; cbn; auto. unfold PL192_PRIO_LEVELS in *. lia. }
    by apply vic_ok_stacks.
  - eapply aget_aset_ne; [|done]. lia.
  - eapply aget_aset_ne; [|done]. lia.
Qed.

(** C4: On a controller wired to the CPU, acknowledging a pending source of its
    own (a read of VECTADDR) returns its vector address, makes it the running
    interrupt at its own level and pushes the previous one; finishing it (a
    write of VECTADDR) gives back the running interrupt, the priority and the
    depth from before, whatever updates ran in between. *)
Theorem ack_fin_restores n k s v :
  v !! k = Some s -> vics_ok n v -> is_root s -> stack_top s ->
  0 <= current_highest s < PL192_INT_SOURCES -> stack_i s < PL192_PRIO_LEVELS ->
  exists v1 e1 s1 v2 e2 s2,
    pl192_read k PL192_VECTADDR v = Done (address s, v1, e1) /\ v1 !! k = Some s1 /\
    current s1 = current_highest s /\
    aget (vect_priority s) (current_highest s) = Some (priority s1) /\ stack_i s1 = stack_i s + 1 /\
    pl192_write k PL192_VECTADDR 0 v1 = Done (tt, v2, e2) /\ v2 !! k = Some s2 /\
    current s2 = current s /\ priority s2 = priority s /\ stack_i s2 = stack_i s /\ stack_top s2.
Proof.
  intros Hs Hok Hr Htop Hh Hst.
  assert (k < n)%nat as Hk by (destruct Hok as [<- _]; by eapply lookup_lt_Some).
  pose proof (vics_ok_lookup _ _ _ _ Hok Hs) as Hoks.
  destruct (vic_value_range n k s (current_highest s)) as [_ [p Hp]]; [done|lia|lia|].
  (* the running interrupt is set, then the level is pushed *)
  set (sa := s <| current := current_highest s |>). set (va := <[k := sa]> v).
  assert (va !! k = Some sa) as Hsa by by eapply lookup_upd_eq.
  assert (vic_ok n k sa) as Hoka.
  { unfold PL192_INT_SOURCES in Hh. destruct Hoks. constructor; unfold sa, upd; cbn; auto with width. }
  destruct (mask_source n k sa va (current_highest s) p) as (ps & qs & Hps & Hqs & Hmask);
    [done|done|done|done|done|done|].
  assert (fits 32 p) as Hfp.
  { apply fits_weaken with 4; [lia|]. eapply Forall_aget; [apply Hoks|done]. }
  destruct (pushed_ok n k sa _ p ps qs Hoka Hst Hfp Hps Hqs) as (Hokb & Hpp & Hqq).
  fold (pushed sa p ps qs) in Hmask. set (sb := pushed sa p ps qs) in *.
  set (vb := <[k := sb]> va) in Hmask.
  assert (vb !! k = Some sb) as Hsb by by eapply lookup_upd_eq.
  assert (vics_ok n vb) as Hvb by (apply vics_ok_insert; [by apply vics_ok_insert|done]).
  destruct (root_update_ok n k sb vb Hsb Hvb Hr) as (s1 & e1 & Hu1 & Hsame1 & Hv1).
  set (v1 := <[k := s1]> vb) in *.
  assert (v1 !! k = Some s1) as Hs1 by by eapply lookup_upd_eq.
  apply same_but_update_fields in Hsame1 as (Hc1 & Hp1 & Hi1 & Hps1 & Hqs1 & _ & _ & Hr1).
  (* finishing: the level is popped *)
  destruct (unmask_after_push n k s1 v1 Hs1 (vics_ok_lookup _ _ _ _ Hv1 Hs1))
    as (p2 & c2 & Hp2 & Hc2 & Hunmask).
  { rewrite Hi1. pose proof (ok_stack_i _ _ _ Hoks).
    change (stack_i sb) with (Z.succ (stack_i s)). lia. }
  assert (stack_i s1 = stack_i s + 1) as Hi1' by (rewrite Hi1; reflexivity).
  rewrite Hi1', Hps1 in Hp2. rewrite Hi1', Hqs1 in Hc2.
  replace (stack_i s + 1 - 1) with (stack_i s) in Hp2, Hc2 by lia.
  destruct Htop as [Htp Htq].
  change (stack_i sa) with (stack_i s) in *. change (priority_stack sa) with (priority_stack s) in *.
  change (irq_stack sa) with (irq_stack s) in *.
  change (priority_stack sb) with ps in Hp2. change (irq_stack sb) with qs in Hc2.
  rewrite Hpp in Hp2. rewrite Hqq in Hc2. simplify_eq.
  set (s2 := s1 <| stack_i ::= Z.pred |> <| priority := priority s |> <| current := current s |>)
    in Hunmask.
  set (v2 := <[k := s2]> v1) in Hunmask.
  assert (v2 !! k = Some s2) as Hs2 by by eapply lookup_upd_eq.
  assert (vics_ok n v2) as Hv2.
  { apply vics_ok_insert; [done|]. pose proof (vics_ok_lookup _ _ _ _ Hv1 Hs1) as Ho1.
    pose proof (ok_stack_i _ _ _ Hoks). pose proof (ok_priority _ _ _ Hoks).
    pose proof (ok_current _ _ _ Hoks).
    destruct Ho1. constructor; unfold s2, upd; cbn; auto with width. }
  destruct (root_update_ok n k s2 v2 Hs2 Hv2 (Hr1 Hr)) as (s3 & e3 & Hu3 & Hsame3 & Hv3).
  apply same_but_update_fields in Hsame3 as (Hc3 & Hp3 & Hi3 & Hps3 & Hqs3 & _).
  exists v1, ([] ++ e1 ++ []), s1, (<[k := s3]> v2), ([] ++ e3), s3.
  assert (stack_i s3 = stack_i s) as Hi3' by (rewrite Hi3; change (stack_i s2) with (Z.pred (stack_i s1)); lia).
  split_and!.
  - change (pl192_read k PL192_VECTADDR) with (pl192_irq_ack k). unfold pl192_irq_ack.
    rewrite (bind_vic_at _ _ _ _ Hs), (bind_vic_upd _ _ _ _ _ Hs). fold sa va.
    rewrite (bind_Done _ _ _ _ _ _ Hmask).
    replace (current_highest s =? PL192_DAISY_IRQ) with false
      by (unfold PL192_DAISY_IRQ, PL192_INT_SOURCES in *; lia).
    cbn [when]. rewrite bind_ret. by rewrite (bind_Done _ _ _ _ _ _ Hu1).
  - done.
  - by rewrite Hc1.
  - by rewrite Hp1.
  - done.
  - change (pl192_write k PL192_VECTADDR 0) with (pl192_irq_fin k). unfold pl192_irq_fin.
    rewrite (bind_vic_at _ _ _ _ Hs1), (bind_Done _ _ _ _ _ _ Hunmask), Hc1.
    change (current sb) with (current_highest s).
    replace (current_highest s =? PL192_DAISY_IRQ) with false
      by (unfold PL192_DAISY_IRQ, PL192_INT_SOURCES in *; lia).
    cbn [when]. rewrite bind_ret. by rewrite Hu3.
  - by eapply lookup_upd_eq.
  - by rewrite Hc3.
  - by rewrite Hp3.
  - done.
  - unfold stack_top. rewrite Hps3, Hqs3, Hi3', Hp3, Hc3.
    change (priority_stack s2) with (priority_stack s1). change (irq_stack s2) with (irq_stack s1).
    rewrite Hps1, Hqs1. change (priority_stack sb) with ps. change (irq_stack sb) with qs.
    by rewrite Hpp, Hqq.
Qed.

Lemma winner_unique s h p h' p' : winner s h p -> winner s h' p' -> h = h' /\ p = p'.
Proof.
  intros [Hr Hb] [Hr' Hb']. pose proof (Hb _ _ Hr'). pose proof (Hb' _ _ Hr). lia.
Qed.

Lemma winner_number s h p : winner s h p -> 0 <= h <= PL192_DAISY_IRQ.
Proof.
  intros [(Hc & _) _]. unfold PL192_DAISY_IRQ, PL192_INT_SOURCES.
  destruct Hc as [[? _]|[-> _]]; unfold PL192_DAISY_IRQ, PL192_INT_SOURCES in *; lia.
Qed.

Lemma winner_pending s h p :
  winner s h p -> negb (irq_status s =? 0) || negb (daisy_input s =? 0) = true.
Proof.
  intros [([[_ Hb]|[_ Hd]] & _) _].
  - destruct (Z.eqb_spec (irq_status s) 0) as [E|]; [|done]. by rewrite E, Z.bits_0 in Hb.
  - destruct (Z.eqb_spec (daisy_input s) 0); [done|]. by destruct (negb _).
Qed.

(** ** The properties of the sorter, of the CPU line and of saving *)

(** C1: The priority sorter picks the interrupt the hardware manual asks for.
    On every well-formed controller it is defined, and it returns either "none"
    when no unmasked source (or daisy input) competes, or the competitor of the
    smallest priority value and, among equals, of the smallest number. *)
Theorem priority_sorter_picks_winner n k s :
  vic_ok n k s ->
  exists h, pl192_priority_sorter s = Some h /\
    ((h = PL192_NO_IRQ /\ forall j p, ~ ready s j p) \/ exists p, winner s h p).
Proof.
  intros Hok. destruct (sorter_correct n k s Hok) as (h & Hh & Hcase). exists h. split; [done|].
  destruct Hcase as [?|(p & ? & ?)]; [by left|]. right. by exists p.
Qed.


(** Loading what was saved restores the controller: every field that
    [pl192_save] writes comes back with its value and the stream is consumed to
    its end; the wiring ([irq], [fiq], [daisy]), the [instance] and, although it
    is run-time state, [daisy_callback] stay those of the loading device.  Any
    other version is refused without touching the device. *)
Theorem pl192_load_save n k s s0 version r :
  vic_ok n k s ->
  pl192_load s0 version (pl192_save s ++ r) =
  if version =? 1
  then Done ((0, s <| instance := instance s0 |> <| daisy_callback := daisy_callback s0 |>
                   <| irq := irq s0 |> <| fiq := fiq s0 |> <| daisy := daisy s0 |>), r, [])
  else Done ((- EINVAL, s0), pl192_save s ++ r, []).
Proof.
  intros Hok. unfold pl192_load. destruct (version =? 1); [|done]. cbn [negb].
  pose proof (ok_stack_i _ _ _ Hok). pose proof (ok_current_highest _ _ _ Hok).
  unfold PL192_PRIO_LEVELS, PL192_NO_IRQ, PL192_INT_SOURCES in *.
  destruct (ok_vect_addr _ _ _ Hok), (ok_vect_priority _ _ _ Hok), (ok_priority_stack _ _ _ Hok),
    (ok_irq_stack _ _ _ Hok).
  assert (fits 32 (current s)) by (apply fits_weaken with 8; [lia|apply Hok]).
  assert (fits 32 (daisy_priority s)) by (apply fits_weaken with 4; [lia|apply Hok]).
  unfold pl192_save. rewrite <- !app_assoc.
  do 8 (eapply loader_step; [apply get_put_be32; apply Hok|]).
  eapply loader_step; [apply get_put_pairs; [done|done|by apply Forall_be32|apply Forall_be32]|].
  { eapply Forall_impl; [eassumption|]. intros x Hx. by apply fits_weaken with 4. }
  do 3 (eapply loader_step; [apply get_put_be32; first [apply Hok|done|unfold fits; lia]|]).
  eapply loader_step; [apply get_put_sbe32s; lia|].
  eapply loader_step; [apply get_put_pairs; [done|done|by apply Forall_be32|by apply Forall_8s]|].
  do 3 (eapply loader_step; [apply get_put_be32; first [apply Hok|done]|]).
  eapply loader_step; [apply get_put_byte; apply Hok|].
  rewrite !fst_zip, !snd_zip by lia. by destruct s.
Qed.

(** ** Witnesses *)

(** One controller wired to the CPU with source 5 enabled and asserted, as an
    update leaves it. *)
Definition vic_demo : pl192_state :=
  (pl192_init 0 2) <| intenable := 0x20 |> <| rawintr := 0x20 |> <| irq_status := 0x20 |>
                   <| current_highest := 5 |>.

Lemma vic_demo_ok : vic_ok 1 0 vic_demo.
Proof. by constructor; try (split; [reflexivity|]; repeat constructor); repeat constructor. Qed.

Lemma vics_demo_ok : vics_ok 1 [vic_demo].
Proof.
  split; [done|]. intros [|k] s; cbn; [|done]. intros [= <-]. exact vic_demo_ok.
Qed.

Lemma priority_sorter_witness :
  vic_ok 1 0 vic_demo /\ pl192_priority_sorter vic_demo = Some 5 /\ exists p, winner vic_demo 5 p.
Proof.
  pose proof vic_demo_ok as Hok.
  destruct (priority_sorter_picks_winner 1 0 vic_demo Hok) as (h & Hh & Hc).
  assert (pl192_priority_sorter vic_demo = Some 5) as E by reflexivity.
  rewrite E in Hh. injection Hh as <-. split_and!; [done|done|].
  destruct Hc as [[? _]|?]; [discriminate|done].
Defined.

Lemma line_and_write_witness :
  keeps (vics_ok 1) (pl192_irq_handler 0 5 1) /\
  keeps (vics_ok 1) (pl192_write 0 PL192_INTENABLE 0xffffffff) /\ vics_ok 1 [vic_demo].
Proof.
  destruct (line_and_write_keep_ok 1 0 (Nat.lt_0_succ 0) 5 1 PL192_INTENABLE 0xffffffff)
    as [? ?]; [lia|vm_compute; split; congruence..|discriminate|].
  split_and!; [done|done|exact vics_demo_ok].
Defined.


Lemma ack_fin_witness :
  exists v1 e1 v2 e2 s2,
    pl192_read 0 PL192_VECTADDR [vic_demo] = Done (0, v1, e1) /\
    pl192_write 0 PL192_VECTADDR 0 v1 = Done (tt, v2, e2) /\ v2 !! 0%nat = Some s2 /\
    current s2 = PL192_NO_IRQ /\ priority s2 = 0x10 /\ stack_i s2 = 0.
Proof.
  destruct (ack_fin_restores 1 0 vic_demo [vic_demo])
    as (v1 & e1 & s1 & v2 & e2 & s2 & Hr & _ & _ & _ & _ & Hw & Hs2 & Hc & Hp & Hi & _);
    [reflexivity|exact vics_demo_ok|done|done|done|done|].
  exists v1, e1, v2, e2, s2. split_and!; [exact Hr|exact Hw|exact Hs2|exact Hc|exact Hp|exact Hi].
Defined.

Lemma pl192_load_save_witness :
  pl192_load (pl192_init 0 2) 1 (pl192_save vic_demo) = Done ((0, vic_demo), [], []).
Proof.
  pose proof (pl192_load_save 1 0 vic_demo (pl192_init 0 2) 1 [] vic_demo_ok) as H.
  rewrite app_nil_r in H. refine (eq_trans H _). vm_compute. reflexivity.
Defined.

(** ** Findings *)

(** A read of the write-only SOFTINTCLEAR falls through to VECTADDR: it
    acknowledges the pending interrupt. *)
Lemma softintclear_read_acknowledges k :
  pl192_read k PL192_SOFTINTCLEAR = pl192_read k PL192_VECTADDR.
Proof. reflexivity. Qed.

(** A read of VECTADDR while nothing is pending reads [vect_priority] at
    PL192_NO_IRQ, past its end. *)
Lemma spurious_acknowledge_undefined :
  vics_ok 1 [pl192_init 0 2] /\ pl192_read 0 PL192_VECTADDR [pl192_init 0 2] = Undef.
Proof.
  split; [|vm_compute; reflexivity]. split; [done|]. intros [|k] s; cbn; [|done]. intros [= <-].
  by constructor; try (split; [reflexivity|]; repeat constructor); repeat constructor.
Qed.

(** The depth guard compares with the number of sources (32), not with the
    number of levels (16): the seventeenth acknowledge in a row writes past the
    end of the stacks. *)
Fixpoint acknowledge_times (n : nat) : vicM unit :=
  match n with
  | O => ret tt
  | S n' => _ <- pl192_read 0 PL192_VECTADDR ;; acknowledge_times n'
  end.

Lemma seventeen_acknowledges_undefined :
  finishes (acknowledge_times 16) [vic_demo] /\ acknowledge_times 17 [vic_demo] = Undef.
Proof. split; [do 3 eexists; vm_compute; reflexivity|vm_compute; reflexivity]. Qed.

(** Two chained controllers with source 5 of the second one pending: the
    acknowledge of the daisy input masks the priority of the second one by its
    [current], which is still PL192_NO_IRQ, and reads past [vect_priority]. *)
Definition vic_chain_demo : outcome (unit * vics * list vic_event) :=
  (pl192_chain 0 1 ;;; pl192_write 1 PL192_INTENABLE 0x20 ;;; pl192_irq_handler 1 5 1)
    [pl192_init 0 2; pl192_init 1 0].

Lemma daisy_acknowledge_undefined :
  exists v es, vic_chain_demo = Done (tt, v, es) /\ VicIrq 0 true ∈ es /\
    pl192_read 0 PL192_VECTADDR v = Undef.
Proof.
  eexists _, _. split; [vm_compute; reflexivity|]. split; [repeat constructor|].
  vm_compute. reflexivity.
Qed.
