(* ===== verification/Uart.v ===== *)
(** * Uart: the serial ports ([hw/s5l8900_uart.c])

    The receive queue is a ring of [QUEUE_SIZE] bytes of which a port uses
    [size - 1]; the port emits its interrupt level and the characters it sends.
    The first part translates the code, the second shows that the ring behaves
    as a bounded first-in first-out queue for the guest that reads it. *)
From S2P Require Import Prelude.

Definition QUEUE_SIZE := 257.

Definition INT_RXD := bit 0.
Definition INT_ERROR := bit 1.
Definition INT_TXD := bit 2.
Definition INT_MODEM := bit 3.

Definition TRSTATUS_TRANSMITTER_READY := bit 2.
Definition TRSTATUS_BUFFER_EMPTY := bit 1.
Definition TRSTATUS_DATA_READY := bit 0.

Definition UFSTAT_RX_FIFO_FULL := bit 8.

Definition UFCON_FIFO_ENABLED := bit 0.
Definition UFCON_TX_LEVEL_SHIFT := 8.
Definition UFCON_TX_LEVEL := 7 << UFCON_TX_LEVEL_SHIFT.

Definition UFSTAT_TX_COUNT_SHIT := 16.
Definition UFSTAT_TX_COUNT := 0xFF << UFSTAT_TX_COUNT_SHIT.

Definition QI (x : Z) : Z := u32 (x + 1) mod QUEUE_SIZE.

Record UartQueue := mk_queue { queue : list Z; q_s : Z; q_t : Z; size : Z }.

Record S5L8900UartState := mk_uart {
  rx : UartQueue;
  ulcon : Z; ucon : Z; ufcon : Z; umcon : Z; utrstat : Z; uerstat : Z; ufstat : Z; umstat : Z;
  utxh : Z; urxh : Z; ubrdiv : Z; udivslot : Z; uintp : Z; uintsp : Z; uintm : Z;
  instance : Z
}.

#[export] Instance eta_queue : Eta UartQueue := fun q =>
  mk_queue (queue q) (q_s q) (q_t q) (size q).
#[export] Instance eta_uart : Eta S5L8900UartState := fun s =>
  mk_uart (rx s) (ulcon s) (ucon s) (ufcon s) (umcon s) (utrstat s) (uerstat s) (ufstat s)
    (umstat s) (utxh s) (urxh s) (ubrdiv s) (udivslot s) (uintp s) (uintsp s) (uintm s)
    (instance s).

(** The interrupt line and the character device of a port. *)
Inductive uart_event :=
  | UartIrq (level : bool)
  | UartChar (ch : Z).

Abbreviation uartM := (dev S5L8900UartState uart_event).

(** ** The receive queue *)
Definition queue_elem_count (q : UartQueue) : Z :=
  if q_s q <=? q_t q then q_t q - q_s q else QUEUE_SIZE - q_s q + q_t q.

(** [size] is unsigned, the result is returned as an [int]. *)
Definition queue_empty_count (q : UartQueue) : Z := sgn 32 (size q - queue_elem_count q - 1).

Definition queue_empty (q : UartQueue) : bool := queue_elem_count q =? 0.

Definition queue_push (q : UartQueue) (x : Z) : option UartQueue :=
  a ← aset (q_t q) x (queue q); Some (q <| queue := a |> <| q_t := QI (q_t q) |>).

Definition queue_get (q : UartQueue) : option (Z * UartQueue) :=
  x ← aget (queue q) (q_s q); Some (x, q <| q_s := QI (q_s q) |>).

Definition queue_reset (q : UartQueue) : UartQueue := q <| q_s := 0 |> <| q_t := 0 |>.

(** ** The port *)

(** C's [a && b]: the bit masks are only tested for being non-zero. *)
Definition logand (a b : Z) : Z := if negb (a =? 0) && negb (b =? 0) then 1 else 0.

Definition s5l8900_uart_update : uartM unit :=
  s <- gets id ;;
  when (negb (logand (ufcon s) UFCON_FIFO_ENABLED =? 0) &&
        (logand (ufstat s) UFSTAT_TX_COUNT >> UFSTAT_TX_COUNT_SHIT
         <=? (logand (ufcon s) UFCON_TX_LEVEL >> UFCON_TX_LEVEL_SHIFT) * 2))
    (modify (fun s => s <| uintsp ::= fun x => x .| INT_TXD |>)) ;;;
  modify (fun s => s <| uintp := uintsp s .&~ uintm s |>) ;;;
  s <- gets id ;;
  emit (UartIrq (negb (uintp s =? 0))).

Definition s5l8900_uart_mm_read (offset : Z) : uartM Z :=
  switch offset
    [ (on 0x00, gets ulcon);
      (on 0x04, gets ucon);
      (on 0x08, gets ufcon);
      (on 0x0C, gets umcon);
      (on 0x10, gets utrstat);
      (on 0x14, emit (UartIrq false) ;;;
                res <- gets uerstat ;;
                modify (fun s => s <| uerstat := 0 |>) ;;;
                ret res);
      (on 0x18, modify (fun s => s <| ufstat := queue_elem_count (rx s) .& 0xff |>) ;;;
                s <- gets id ;;
                when (queue_empty_count (rx s) =? 0)
                  (modify (fun s => s <| ufstat ::= fun x => x .| UFSTAT_RX_FIFO_FULL |>)) ;;;
                gets ufstat);
      (on 0x20, gets utxh);
      (on 0x1C, ret 1);
      (on 0x24,
         s <- gets id ;;
         if test (ufcon s) 1 then
           if negb (queue_empty (rx s)) then
             let* (res, q) := lift (queue_get (rx s)) in
             modify (fun s => s <| rx := q |>) ;;;
             (if queue_empty q
              then modify (fun s => s <| utrstat ::= fun x => x .&~ TRSTATUS_DATA_READY |>)
              else modify (fun s => s <| utrstat ::= fun x => x .| TRSTATUS_DATA_READY |>)) ;;;
             ret res
           else
             modify (fun s => s <| uintsp ::= fun x => x .| INT_ERROR |>) ;;;
             s5l8900_uart_update ;;;
             ret 0
         else
           modify (fun s => s <| utrstat ::= fun x => x .&~ TRSTATUS_DATA_READY |>) ;;;
           gets urxh);
      (on 0x28, gets ubrdiv);
      (on 0x2C, gets udivslot);
      (on 0x30, gets uintp);
      (on 0x34, gets uintsp);
      (on 0x38, gets uintm) ]
    hw_error.

Definition s5l8900_uart_mm_write (offset val : Z) : uartM unit :=
  switch offset
    [ (on 0x00, modify (fun s => s <| ulcon := val |>));
      (on 0x04, modify (fun s => s <| ucon := val |>));
      (on 0x08, modify (fun s => s <| ufcon := val |>) ;;;
                when (test val 2) (modify (fun s => s <| rx ::= queue_reset |>)) ;;;
                modify (fun s => s <| ufcon ::= fun x => x .&~ 6 |>));
      (on_any [0x10; 0x14], ret tt);
      (on 0x0C, modify (fun s => s <| umcon := val |>));
      (on 0x20,
         modify (fun s => s <| utrstat ::= fun x =>
           x .&~ (TRSTATUS_TRANSMITTER_READY .| TRSTATUS_BUFFER_EMPTY) |>) ;;;
         emit (UartChar (u8 val)) ;;;
         modify (fun s => s <| utrstat ::= fun x =>
           x .| (TRSTATUS_TRANSMITTER_READY .| TRSTATUS_BUFFER_EMPTY) |>) ;;;
         modify (fun s => s <| uintsp ::= fun x => x .| INT_TXD |>));
      (on 0x28, modify (fun s => s <| ubrdiv := val |>));
      (on 0x2C, modify (fun s => s <| udivslot := val |>));
      (on 0x30, modify (fun s => s <| uintp ::= fun x => x .&~ val |>) ;;;
                modify (fun s => s <| uintsp ::= fun x => x .&~ val |>));
      (on 0x34, modify (fun s => s <| uintsp := val |>));
      (on 0x38, modify (fun s => s <| uintm := val |>)) ]
    hw_error.

Definition s5l8900_uart_can_receive (s : S5L8900UartState) : Z := queue_empty_count (rx s).

Definition s5l8900_uart_trigger_level : uartM unit :=
  s <- gets id ;;
  when (negb (queue_empty (rx s))) (modify (fun s => s <| uintsp ::= fun x => x .| INT_RXD |>)).

(** [queue_push(&s->rx, buf[i])]. *)
Definition push_from (buf : list Z) (i : Z) : uartM unit :=
  b <- lift (aget buf i) ;;
  s <- gets id ;;
  q <- lift (queue_push (rx s) b) ;;
  modify (fun s => s <| rx := q |>).

(** [for (i = 0; i < queue_empty_count(&s->rx); i++)]: the bound is evaluated
    again on each turn. *)
Fixpoint push_while_space (fuel : nat) (buf : list Z) (i : Z) : uartM unit :=
  match fuel with
  | O => undef
  | S fuel =>
      s <- gets id ;;
      if i <? queue_empty_count (rx s)
      then push_from buf i ;;; push_while_space fuel buf (i + 1)
      else ret tt
  end.

Definition s5l8900_uart_receive (buf : list Z) : uartM unit :=
  s <- gets id ;;
  (if test (ufcon s) 1 then
     (if queue_empty_count (rx s) <? zlen buf then
        push_while_space (S (length buf)) buf 0 ;;;
        modify (fun s => s <| uintp ::= fun x => x .| INT_ERROR |>) ;;;
        modify (fun s => s <| utrstat ::= fun x => x .| TRSTATUS_DATA_READY |>)
      else
        for_up 0 (length buf) (push_from buf) ;;;
        modify (fun s => s <| utrstat ::= fun x => x .| TRSTATUS_DATA_READY |>)) ;;;
     s5l8900_uart_trigger_level
   else
     b <- lift (aget buf 0) ;;
     modify (fun s => s <| urxh := b |>) ;;;
     modify (fun s => s <| uintsp ::= fun x => x .| INT_RXD |>) ;;;
     modify (fun s => s <| utrstat ::= fun x => x .| TRSTATUS_DATA_READY |>)) ;;;
  s5l8900_uart_update.

Definition s5l8900_uart_reset (s : S5L8900UartState) : S5L8900UartState :=
  s <| ulcon := 0 |> <| ucon := 0 |> <| ufcon := 0 |> <| umcon := 0 |> <| utrstat := 0x6 |>
    <| uerstat := 0 |> <| ufstat := 0 |> <| umstat := 0 |> <| ubrdiv := 0 |> <| udivslot := 0 |>
    <| uintp := 0 |> <| uintsp := 0 |> <| uintm := 0 |> <| rx ::= queue_reset |>.

(** [qemu_mallocz] of the device with its two properties set, then its init. *)
Definition s5l8900_uart_init (instance queue_size : Z) : S5L8900UartState :=
  s5l8900_uart_reset
    (mk_uart (mk_queue (zeros 257) 0 0 queue_size) 0 0 0 0 0 0 0 0 0 0 0 0 0 0 0 instance).

(** ** The ring is a bounded queue *)

(** The bytes waiting to be read, oldest first. *)
Definition ring_index (q : UartQueue) (i : nat) : nat :=
  Z.to_nat ((q_s q + Z.of_nat i) mod QUEUE_SIZE).
Definition contents (q : UartQueue) : list Z :=
  map (fun i => default 0 (queue q !! ring_index q i)) (seq 0 (Z.to_nat (queue_elem_count q))).

Record queue_ok (q : UartQueue) : Prop := {
  qok_len : length (queue q) = 257%nat;
  qok_bytes : Forall (fits 8) (queue q);
  qok_s : 0 <= q_s q < QUEUE_SIZE;
  qok_t : 0 <= q_t q < QUEUE_SIZE;
  qok_size : queue_elem_count q < size q <= QUEUE_SIZE
}.

Lemma QI_cases x : 0 <= x < QUEUE_SIZE -> QI x = if x =? 256 then 0 else x + 1.
Proof.
  unfold QI, QUEUE_SIZE. intros H. rewrite wrap_fits by (unfold fits; lia).
  destruct (Z.eqb_spec x 256) as [->|]; [done|]. apply Z.mod_small. lia.
Qed.

Lemma elem_count_range q : queue_ok q -> 0 <= queue_elem_count q < QUEUE_SIZE.
Proof.
  intros []. unfold queue_elem_count, QUEUE_SIZE in *. destruct (Z.leb_spec (q_s q) (q_t q)); lia.
Qed.

Lemma empty_count_eq q : queue_ok q -> queue_empty_count q = size q - queue_elem_count q - 1.
Proof.
  intros Hq. pose proof (elem_count_range q Hq). destruct Hq. unfold queue_empty_count, sgn.
  unfold QUEUE_SIZE in *. rewrite wrap_fits by (unfold fits; lia).
  destruct (Z.ltb_spec (size q - queue_elem_count q - 1) (2 ^ (32 - 1))); lia.
Qed.

Lemma length_contents q : queue_ok q -> zlen (contents q) = queue_elem_count q.
Proof.
  intros Hq. unfold zlen, contents. rewrite length_map, length_seq.
  pose proof (elem_count_range q Hq). lia.
Qed.

Lemma queue_empty_contents q : queue_ok q -> queue_empty q = true <-> contents q = [].
Proof.
  intros Hq. pose proof (length_contents q Hq) as H. unfold queue_empty. rewrite <- H. unfold zlen.
  destruct (contents q) as [|x l]; [done|]. split; [|done]. cbn [length]. intros E%Z.eqb_eq. exfalso. lia.
Qed.

(** One position of the ring, [i] elements after the oldest. *)
Lemma ring_index_lt q i : queue_ok q -> (ring_index q i < 257)%nat.
Proof.
  intros _. unfold ring_index, QUEUE_SIZE.
  pose proof (Z.mod_pos_bound (q_s q + Z.of_nat i) 257 ltac:(lia)). lia.
Qed.

Lemma ring_index_cases q i :
  queue_ok q -> (i < 257)%nat ->
  Z.of_nat (ring_index q i) =
  if q_s q + Z.of_nat i <? 257 then q_s q + Z.of_nat i else q_s q + Z.of_nat i - 257.
Proof.
  intros [] Hi. unfold ring_index, QUEUE_SIZE in *. rewrite Z2Nat.id by (apply Z.mod_pos_bound; lia).
  destruct (Z.ltb_spec (q_s q + Z.of_nat i) 257); [by apply Z.mod_small; lia|].
  symmetry. apply Z.mod_unique_pos with 1; lia.
Qed.

Lemma queue_push_spec q x :
  queue_ok q -> fits 8 x -> queue_elem_count q + 1 < size q ->
  exists q', queue_push q x = Some q' /\ queue_ok q' /\ size q' = size q /\
    contents q' = contents q ++ [x].
Proof.
  intros Hq Hx Hsp. pose proof Hq as [Hlen Hb Hs Ht Hz]. pose proof (elem_count_range q Hq) as Hr.
  unfold queue_push. rewrite aset_Some by (unfold zlen, QUEUE_SIZE in *; lia). cbn [mbind option_bind].
  set (q' := _ <| q_t := _ |>). exists q'. split; [done|].
  assert (queue_elem_count q' = queue_elem_count q + 1) as Hc.
  { unfold q', queue_elem_count, upd. cbn. rewrite QI_cases by done.
    unfold queue_elem_count, QUEUE_SIZE in *.
    zcases. }
  split; [|split; [done|]].
  { constructor.
    - unfold q', upd. cbn. by rewrite length_insert.
    - unfold q', upd. cbn. by apply Forall_insert.
    - done.
    - unfold q', upd. cbn. rewrite QI_cases by done. unfold QUEUE_SIZE in *.
      destruct (Z.eqb_spec (q_t q) 256); lia.
    - rewrite Hc. change (size q') with (size q). lia. }
  unfold contents. rewrite Hc, Z2Nat.inj_add, seq_app by lia. rewrite map_app. f_equal.
  - apply map_ext_in. intros i Hi. apply in_seq in Hi. change (ring_index q' i) with (ring_index q i).
    unfold q', upd. cbn. rewrite list_lookup_insert_ne; [done|]. intros E.
    pose proof (ring_index_cases q i Hq) as Hix. apply (f_equal Z.of_nat) in E.
    rewrite Z2Nat.id in E by lia. unfold queue_elem_count, QUEUE_SIZE in *.
    rewrite Hix in E by zcases. zcases.
  - change (Z.to_nat 1) with 1%nat. cbn [seq map]. change (ring_index q' _) with (ring_index q (Z.to_nat (queue_elem_count q))).
    assert (ring_index q (Z.to_nat (queue_elem_count q)) = Z.to_nat (q_t q)) as ->.
    { apply Nat2Z.inj. unfold QUEUE_SIZE in *. rewrite ring_index_cases, !Z2Nat.id by (done || lia).
      unfold queue_elem_count, QUEUE_SIZE in *.
      zcases. }
    unfold q', upd. cbn. rewrite list_lookup_insert_eq; [done|]. unfold QUEUE_SIZE in *. lia.
Qed.

Lemma queue_get_spec q x l :
  queue_ok q -> contents q = x :: l ->
  exists q', queue_get q = Some (x, q') /\ queue_ok q' /\ size q' = size q /\ contents q' = l.
Proof.
  intros Hq Hc. pose proof Hq as [Hlen Hb Hs Ht Hz]. pose proof (elem_count_range q Hq) as Hr.
  pose proof (length_contents q Hq) as Hn. rewrite Hc in Hn. unfold zlen in Hn. cbn in Hn.
  destruct (aget_Some (queue q) (q_s q)) as [y Hy]; [unfold zlen, QUEUE_SIZE in *; lia|].
  unfold queue_get. rewrite Hy. cbn [mbind option_bind]. set (q' := q <| q_s := _ |>).
  assert (queue_elem_count q' = queue_elem_count q - 1) as Hc'.
  { unfold q', queue_elem_count, upd. cbn. rewrite QI_cases by done.
    unfold queue_elem_count, QUEUE_SIZE in *.
    zcases. }
  assert (0 <= q_s q' < QUEUE_SIZE) as Hs'.
  { unfold q', upd. cbn. rewrite QI_cases by done. unfold QUEUE_SIZE in *.
    destruct (Z.eqb_spec (q_s q) 256); lia. }
  assert (queue_ok q') as Hq'.
  { constructor; [done|done|done|done|]. rewrite Hc'. change (size q') with (size q). lia. }
  unfold contents in Hc. replace (Z.to_nat (queue_elem_count q))
    with (S (Z.to_nat (queue_elem_count q'))) in Hc by lia.
  cbn [seq map] in Hc. injection Hc as Hx Hl.
  assert (y = x) as ->.
  { rewrite <- Hx. unfold aget in Hy. destruct (Z.ltb_spec (q_s q) 0); [done|].
    assert (ring_index q 0 = Z.to_nat (q_s q)) as ->; [|by rewrite Hy].
    apply Nat2Z.inj. unfold QUEUE_SIZE in *. rewrite ring_index_cases, Z2Nat.id by (done || lia).
    destruct (Z.ltb_spec (q_s q + Z.of_nat 0) 257); lia. }
  exists q'. split_and!; [done|done|done|]. rewrite <- Hl. unfold contents.
  rewrite <- seq_shift, map_map. apply map_ext_in. intros i Hi. apply in_seq in Hi.
  assert (ring_index q' i = ring_index q (S i)) as ->; [|done].
  apply Nat2Z.inj. unfold QUEUE_SIZE in *. rewrite !ring_index_cases by (done || lia).
  unfold q', upd. cbn [q_s]. rewrite QI_cases by done.
  zcases.
Qed.

(** ** The port *)
Record uart_ok (s : S5L8900UartState) : Prop := {
  uok_rx : queue_ok (rx s);
  uok_ulcon : fits 32 (ulcon s); uok_ucon : fits 32 (ucon s); uok_ufcon : fits 32 (ufcon s);
  uok_umcon : fits 32 (umcon s); uok_utrstat : fits 32 (utrstat s);
  uok_uerstat : fits 32 (uerstat s); uok_ufstat : fits 32 (ufstat s);
  uok_umstat : fits 32 (umstat s); uok_utxh : fits 32 (utxh s); uok_urxh : fits 32 (urxh s);
  uok_ubrdiv : fits 32 (ubrdiv s); uok_udivslot : fits 32 (udivslot s);
  uok_uintp : fits 32 (uintp s); uok_uintsp : fits 32 (uintsp s); uok_uintm : fits 32 (uintm s)
}.

Ltac uart_ok_tac :=
  match goal with H : uart_ok ?s |- uart_ok _ => destruct H end;
  constructor; unfold upd; cbn; auto with width.

Lemma uart_update_spec s :
  uart_ok s ->
  exists s', s5l8900_uart_update s = Done (tt, s', [UartIrq (negb (uintp s' =? 0))]) /\
    uart_ok s' /\ rx s' = rx s /\ utrstat s' = utrstat s /\ ufcon s' = ufcon s /\
    uintp s' = uintsp s' .&~ uintm s' /\ uintm s' = uintm s /\
    uintsp s' = (if ufcon s =? 0 then uintsp s else uintsp s .| INT_TXD).
Proof.
  intros Hs. unfold s5l8900_uart_update, logand. cbn.
  destruct (Z.eqb_spec (ufcon s) 0) as [E|E]; cbn.
  - eexists. split_and!; [reflexivity|uart_ok_tac|done..].
  - destruct (Z.eqb_spec (ufstat s) 0); cbn;
      (eexists; split_and!; [reflexivity|uart_ok_tac|done..]).
Qed.

Lemma push_from_spec s buf i b :
  uart_ok s -> aget buf i = Some b -> fits 8 b -> 0 < queue_empty_count (rx s) ->
  exists q, push_from buf i s = Done (tt, s <| rx := q |>, []) /\ queue_ok q /\
    size q = size (rx s) /\ contents q = contents (rx s) ++ [b].
Proof.
  intros Hs Hb Hf Hsp. pose proof (uok_rx _ Hs) as Hq. rewrite empty_count_eq in Hsp by done.
  destruct (queue_push_spec (rx s) b) as (q & Hp & Hq' & Hz & Hc); [done|done|lia|].
  exists q. split_and!; [|done|done|done]. unfold push_from. rewrite Hb. cbn. by rewrite Hp.
Qed.

(** Pushing a stretch of the buffer that fits. *)
Lemma push_all_spec buf n lo s :
  uart_ok s -> Forall (fits 8) buf -> 0 <= lo -> lo + Z.of_nat n <= zlen buf ->
  Z.of_nat n <= queue_empty_count (rx s) ->
  exists q, for_up lo n (push_from buf) s = Done (tt, s <| rx := q |>, []) /\ queue_ok q /\
    contents q = contents (rx s) ++ take n (drop (Z.to_nat lo) buf).
Proof.
  revert lo s. induction n as [|n IH]; intros lo s Hs Hbuf Hlo Hlen Hsp.
  { exists (rx s). cbn [for_up]. split_and!; [by destruct s|apply Hs|by rewrite app_nil_r]. }
  destruct (aget_Some buf lo) as [b Hb]; [lia|].
  destruct (push_from_spec s buf lo b) as (q & Hp & Hq & Hz & Hc);
    [done|done|by eapply Forall_aget|lia|].
  pose proof (empty_count_eq _ (uok_rx _ Hs)) as He. pose proof (empty_count_eq q Hq) as He'.
  pose proof (length_contents q Hq) as Hn. pose proof (length_contents _ (uok_rx _ Hs)) as Hn0.
  rewrite Hc in Hn. unfold zlen in Hn, Hn0. rewrite length_app in Hn. cbn in Hn.
  destruct (IH (lo + 1) (s <| rx := q |>)) as (q' & Hp' & Hq' & Hc');
    [uart_ok_tac|done|lia|lia|change (rx (s <| rx := q |>)) with q; lia|].
  exists q'. cbn [for_up]. rewrite (bind_Done _ _ _ _ _ _ Hp). cbv beta. rewrite Hp'.
  split_and!; [done|done|]. rewrite Hc'. change (rx (s <| rx := q |>)) with q. rewrite Hc.
  rewrite <- app_assoc. f_equal. unfold aget in Hb. destruct (Z.ltb_spec lo 0); [done|].
  rewrite (drop_S _ _ _ Hb). cbn. by rewrite Z.add_1_r, Z2Nat.inj_succ.
Qed.

(** Reading the receive register with the FIFO enabled. *)
Lemma read_urxh_spec s x l :
  uart_ok s -> test (ufcon s) 1 = true -> contents (rx s) = x :: l ->
  exists s', s5l8900_uart_mm_read 0x24 s = Done (x, s', []) /\ uart_ok s' /\
    ufcon s' = ufcon s /\ contents (rx s') = l /\
    test (utrstat s') TRSTATUS_DATA_READY = negb (bool_decide (l = [])).
Proof.
  intros Hs Hf Hc. destruct (queue_get_spec (rx s) x l (uok_rx _ Hs) Hc) as (q & Hg & Hq & Hz & Hl).
  assert (queue_empty (rx s) = false) as He.
  { destruct (queue_empty (rx s)) eqn:E; [|done]. apply queue_empty_contents in E; [|apply Hs].
    by rewrite E in Hc. }
  assert (queue_empty q = bool_decide (l = [])) as Heq.
  { destruct (queue_empty q) eqn:E; symmetry.
    - apply bool_decide_eq_true. rewrite <- Hl. by apply queue_empty_contents.
    - apply bool_decide_eq_false. rewrite <- Hl. intros E'. apply queue_empty_contents in E'; [|done].
      congruence. }
  change (s5l8900_uart_mm_read 0x24 s) with
    ((s <- gets id ;;
      if test (ufcon s) 1 then
        if negb (queue_empty (rx s)) then
          let* (res, q) := lift (queue_get (rx s)) in
          modify (fun s => s <| rx := q |>) ;;;
          (if queue_empty q
           then modify (fun s => s <| utrstat ::= fun x => x .&~ TRSTATUS_DATA_READY |>)
           else modify (fun s => s <| utrstat ::= fun x => x .| TRSTATUS_DATA_READY |>)) ;;;
          ret res
        else
          modify (fun s => s <| uintsp ::= fun x => x .| INT_ERROR |>) ;;;
          s5l8900_uart_update ;;;
          ret 0
      else
        modify (fun s => s <| utrstat ::= fun x => x .&~ TRSTATUS_DATA_READY |>) ;;;
        gets urxh : uartM Z) s).
  unfold bind at 1, gets at 1, id. rewrite Hf, He. cbn. rewrite Hg. cbn. rewrite Heq.
  unfold TRSTATUS_DATA_READY. destruct (bool_decide (l = [])); cbn; eexists; split_and!;
    [reflexivity|uart_ok_tac|done|done| |reflexivity|uart_ok_tac|done|done|];
    rewrite test_true_bit by lia; unfold upd; cbn;
    rewrite <- Z.bit0_odd, ?Z.ldiff_spec, ?Z.lor_spec; change (Z.testbit (bit 0) 0) with true;
    by rewrite ?andb_false_r, ?orb_true_r.
Qed.

Fixpoint read_times (n : nat) (offset : Z) : uartM (list Z) :=
  match n with
  | O => ret []
  | S n' => x <- s5l8900_uart_mm_read offset ;; r <- read_times n' offset ;; ret (x :: r)
  end.

Lemma read_contents s :
  uart_ok s -> test (ufcon s) 1 = true -> contents (rx s) <> [] ->
  exists s', read_times (length (contents (rx s))) 0x24 s = Done (contents (rx s), s', []) /\
    contents (rx s') = [] /\ test (utrstat s') TRSTATUS_DATA_READY = false.
Proof.
  remember (contents (rx s)) as l eqn:Hc. revert s Hc.
  induction l as [|x l IH]; intros s Hc Hs Hf Hne; [done|].
  destruct (read_urxh_spec s x l) as (s1 & Hr & Hs1 & Hf1 & Hc1 & Hd); [done|done|done|].
  cbn [read_times length]. rewrite (bind_Done _ _ _ _ _ _ Hr).
  destruct l as [|y l].
  { exists s1. cbn. split_and!; [done|done|exact Hd]. }
  destruct (IH s1) as (s2 & Hr2 & Hc2 & Hd2); [done|done|by rewrite Hf1|done|].
  exists s2. rewrite (bind_Done _ _ _ _ _ _ Hr2). cbn. done.
Qed.

(** C6: With the FIFO enabled, what the character device hands over is what the
    guest reads, in order.  A buffer that fits in the free space is accepted
    whole and appended to the bytes already waiting; DATA_READY is then set and
    the interrupt line follows [uintp]; reading URXH once per waiting byte
    returns exactly those bytes, oldest first, and ends with an empty queue and
    DATA_READY clear. *)
Theorem uart_receive_then_read s buf :
  uart_ok s -> test (ufcon s) 1 = true -> Forall (fits 8) buf -> buf <> [] ->
  zlen buf <= s5l8900_uart_can_receive s ->
  exists s1 s2,
    s5l8900_uart_receive buf s = Done (tt, s1, [UartIrq (negb (uintp s1 =? 0))]) /\ uart_ok s1 /\
    contents (rx s1) = contents (rx s) ++ buf /\
    test (utrstat s1) TRSTATUS_DATA_READY = true /\
    test (uintsp s1) INT_RXD = true /\ uintp s1 = uintsp s1 .&~ uintm s1 /\
    read_times (length (contents (rx s1))) 0x24 s1 = Done (contents (rx s) ++ buf, s2, []) /\
    contents (rx s2) = [] /\ test (utrstat s2) TRSTATUS_DATA_READY = false.
Proof.
  intros Hs Hf Hbuf Hne Hsp. unfold s5l8900_uart_can_receive in Hsp.
  destruct (push_all_spec buf (length buf) 0 s) as (q & Hp & Hq & Hc); [done|done|lia|unfold zlen; lia|
    unfold zlen in *; lia|].
  cbn [Z.to_nat drop] in Hc. rewrite firstn_all in Hc.
  assert (queue_empty q = false) as He.
  { destruct (queue_empty q) eqn:E; [|done]. apply queue_empty_contents in E; [|done].
    rewrite Hc in E. by apply app_eq_nil in E as [_ ?]. }
  set (sa := s <| rx := q |> <| utrstat ::= fun x => x .| TRSTATUS_DATA_READY |>
               <| uintsp ::= fun x => x .| INT_RXD |>).
  assert (uart_ok sa) as Hsa by (unfold sa; uart_ok_tac).
  destruct (uart_update_spec sa Hsa) as (s1 & Hu & Hs1 & Hrx & Htr & Hfc & Hip & Him & His).
  assert (s5l8900_uart_receive buf s = Done (tt, s1, [UartIrq (negb (uintp s1 =? 0))])) as Hr.
  { unfold s5l8900_uart_receive. unfold bind at 1, gets at 1, id. rewrite Hf.
    replace (queue_empty_count (rx s) <? zlen buf) with false by lia.
    rewrite (bind_Done _ _ _ tt sa []); [by rewrite Hu|].
    rewrite (bind_Done _ _ _ tt (s <| rx := q |> <| utrstat ::= fun x => x .| TRSTATUS_DATA_READY |>) []).
    - unfold s5l8900_uart_trigger_level. unfold bind at 1, gets at 1, id.
      change (rx (_ <| utrstat ::= _ |>)) with q. by rewrite He.
    - by rewrite (bind_Done _ _ _ _ _ _ Hp). }
  assert (contents (rx s1) = contents (rx s) ++ buf) as Hc1 by by rewrite Hrx.
  destruct (read_contents s1) as (s2 & Hr2 & Hc2 & Hd2); [done|by rewrite Hfc|rewrite Hc1|].
  { intros E. by apply app_eq_nil in E as [_ ?]. }
  exists s1, s2. rewrite <- Hc1. split_and!; try done.
  - rewrite Htr. unfold TRSTATUS_DATA_READY. rewrite test_true_bit by lia.
    change (utrstat sa) with (utrstat s .| bit 0). rewrite Z.lor_spec. apply orb_true_r.
  - unfold INT_RXD. rewrite test_true_bit by lia. rewrite His.
    change (uintsp sa) with (uintsp s .| bit 0).
    destruct (ufcon sa =? 0); rewrite !Z.lor_spec; change (Z.testbit (bit 0) 0) with true;
      by rewrite orb_true_r.
Qed.

Lemma queue_reset_ok q : queue_ok q -> 1 <= size q -> queue_ok (queue_reset q).
Proof.
  intros [] H. constructor; unfold queue_reset, queue_elem_count, upd, QUEUE_SIZE in *; cbn; try done; lia.
Qed.

Lemma push_while_space_keeps buf fuel i s :
  uart_ok s -> Forall (fits 8) buf -> 0 <= i -> i + queue_empty_count (rx s) <= zlen buf ->
  queue_empty_count (rx s) - i < Z.of_nat fuel -> (0 < fuel)%nat ->
  wp (push_while_space fuel buf i) (fun _ s' _ => uart_ok s') s.
Proof.
  revert i s. induction fuel as [|fuel IH]; intros i s Hs Hbuf Hi Hlen Hfuel Hpos; [lia|].
  cbn [push_while_space]. wp_step. wp_step. wp_step; [|wp_steps; done].
  destruct (aget_Some buf i) as [b Hb]; [unfold id in *; lia|].
  destruct (push_from_spec s buf i b) as (q & Hp & Hq & Hz & Hc);
    [done|done|by eapply Forall_aget|unfold id in *; lia|].
  pose proof (empty_count_eq _ (uok_rx _ Hs)). pose proof (empty_count_eq q Hq).
  pose proof (length_contents q Hq) as Hn. pose proof (length_contents _ (uok_rx _ Hs)) as Hn0.
  rewrite Hc in Hn. unfold zlen in Hn, Hn0. rewrite length_app in Hn. cbn in Hn. unfold id in *.
  wp_step. unfold wp at 1. rewrite Hp.
  apply IH; [uart_ok_tac|done|lia|..]; change (rx (s <| rx := q |>)) with q; lia.
Qed.

(** Every access to the port and every non-empty buffer handed to it is
    defined on a well-formed port and leaves it well formed: the ring indexes
    stay inside the ring, the queue never holds more than [size - 1] bytes, and
    the overflow loop, whose bound shrinks while it runs, ends. *)
Theorem uart_keeps_ok offset val buf :
  fits 32 val -> Forall (fits 8) buf -> buf <> [] ->
  keeps uart_ok (s5l8900_uart_mm_read offset) /\ keeps uart_ok (s5l8900_uart_mm_write offset val) /\
  keeps uart_ok (s5l8900_uart_receive buf).
Proof.
  intros Hval Hbuf Hne.
  assert (forall s, uart_ok s -> fits 32 (queue_elem_count (rx s) .& 0xff)) as Hcount.
  { intros s Hs. apply fits_land_const; [lia|unfold fits; lia|].
    apply elem_count_range, Hs. }
  assert (keeps uart_ok s5l8900_uart_update) as Hupd.
  { intros s Hs. destruct (uart_update_spec s Hs) as (s' & Hu & Hs' & _). unfold wp. by rewrite Hu. }
  split_and!; intros s Hs; specialize (Hcount s Hs).
  - unfold s5l8900_uart_mm_read. wp_steps; try done; try by uart_ok_tac.
    + destruct (contents (rx s)) as [|x l] eqn:Hc.
      { apply queue_empty_contents in Hc; [|apply Hs]. unfold id in *. by rewrite Hc in *. }
      destruct (queue_get_spec (rx s) x l (uok_rx _ Hs) Hc) as (q & Hg & Hq & _).
      eapply wp_lift; [exact Hg|]. cbv beta iota. wp_steps; uart_ok_tac.
    + eapply wp_keeps; [exact Hupd|uart_ok_tac|]. intros. by wp_steps.
  - unfold s5l8900_uart_mm_write. pose proof (qok_size _ (uok_rx _ Hs)).
    pose proof (elem_count_range _ (uok_rx _ Hs)).
    assert (queue_ok (queue_reset (rx s))) by (apply queue_reset_ok; [apply Hs|lia]).
    wp_steps; try done; uart_ok_tac.
  - assert (0 < length buf)%nat by (destruct buf; [done|cbn; lia]).
    unfold s5l8900_uart_receive, s5l8900_uart_trigger_level. wp_steps; unfold id in *.
    + eapply wp_mono; [apply push_while_space_keeps; try done; unfold zlen in *; lia|].
      cbv beta. intros _ s1 e1 Hs1. wp_steps; (eapply wp_keeps; [exact Hupd|uart_ok_tac|done]).
    + destruct (push_all_spec buf (length buf) 0 s) as (q & Hp & Hq & _);
        [done|done|lia|unfold zlen; lia|unfold zlen in *; lia|].
      unfold wp at 1. rewrite Hp. wp_steps; (eapply wp_keeps; [exact Hupd|uart_ok_tac|done]).
    + destruct (aget_Some buf 0) as [b Hb]; [unfold zlen; lia|].
      assert (fits 32 b) by (apply fits_weaken with 8; [lia|by eapply Forall_aget]).
      eapply wp_lift; [exact Hb|]. wp_steps. eapply wp_keeps; [exact Hupd|uart_ok_tac|done].
Qed.

(** ** Witnesses and findings *)

(** A port with room for eight bytes and its FIFO on. *)
Definition uart_demo : S5L8900UartState := (s5l8900_uart_init 0 9) <| ufcon := 1 |>.

Lemma uart_demo_ok : uart_ok uart_demo.
Proof.
  constructor; try (vm_compute; split; [intro; discriminate|reflexivity]).
  constructor; try (vm_compute; split; [intro; discriminate|reflexivity]).
  - reflexivity.
  - by apply Forall_replicate.
  - by vm_compute.
Qed.

Lemma uart_receive_witness :
  exists s1 s2,
    s5l8900_uart_receive [0x68; 0x69] uart_demo = Done (tt, s1, [UartIrq true]) /\
    read_times 2 0x24 s1 = Done ([0x68; 0x69], s2, []).
Proof.
  destruct (uart_receive_then_read uart_demo [0x68; 0x69])
    as (s1 & s2 & Hr & _ & Hc & _ & _ & _ & Hrd & _);
    [exact uart_demo_ok|reflexivity|repeat constructor; by vm_compute|discriminate|by vm_compute|].
  exists s1, s2. split; [|rewrite Hc in Hrd; exact Hrd].
  refine (eq_trans Hr _). vm_compute in Hr. injection Hr as <-. reflexivity.
Defined.

Lemma uart_keeps_witness :
  uart_ok uart_demo /\ keeps uart_ok (s5l8900_uart_mm_read 0x24) /\
  keeps uart_ok (s5l8900_uart_mm_write 0x08 0x7) /\ keeps uart_ok (s5l8900_uart_receive (zeros 20)).
Proof.
  split; [exact uart_demo_ok|].
  destruct (uart_keeps_ok 0x24 0 [0]) as (? & _ & _);
    [by vm_compute|by repeat constructor|done|].
  destruct (uart_keeps_ok 0x08 0x7 (zeros 20)) as (_ & ? & ?);
    [by vm_compute|by apply Forall_replicate|done|]. done.
Defined.

(** A buffer one byte too long for the eight free places leaves only four of
    its bytes in the queue, and the error flag it raises in [uintp] is
    overwritten by the update that follows. *)
Lemma uart_overflow_keeps_half :
  exists s e, s5l8900_uart_receive (replicate 9 0x41) uart_demo = Done (tt, s, e) /\
    queue_elem_count (rx s) = 4 /\ test (uintp s) INT_ERROR = false.
Proof. eexists _, _. split; [vm_compute; reflexivity|by vm_compute]. Qed.

(** The masks of the transmit test are applied with a logical [&&]: any
    non-zero UFCON, even with the FIFO bit clear, raises INT_TXD. *)
Lemma uart_txd_without_fifo :
  exists s, s5l8900_uart_update (uart_demo <| ufcon := 0x80 |>) = Done (tt, s, [UartIrq true]) /\
    test (uintsp s) INT_TXD = true.
Proof. eexists. split; [vm_compute; reflexivity|by vm_compute]. Qed.
