(* ===== verification/NorFlash.v ===== *)
(** * NorFlash: the NOR flash chip ([hw/pflash_spi.c])

    One chip has two faces over the same storage: the SPI command interface
    ([pflash_cmd_set], [pflash_cmd_parse], ...) that the SPI ports talk to, and
    the memory-mapped CFI interface ([pflash_read], [pflash_write]) whose
    unlock and command cycles are a state machine in [wcycle] and [cmd].  The
    chip emits its disk writes, its timer and its remappings; [goto] targets of
    [pflash_write] are definitions of their own. *)
From S2P Require Import Prelude.

Definition NOR_SPI_READ := 0x03.
Definition NOR_SPI_WREN := 0x06.
Definition NOR_SPI_WRDI := 0x04.
Definition NOR_SPI_PRGM := 0x02.
Definition NOR_SPI_RDSR := 0x05.
Definition NOR_SPI_WRSR := 0x01.
Definition NOR_SPI_EWSR := 0x50.
Definition NOR_SPI_AIPG := 0xAD.
Definition NOR_SPI_ERSE_4KB := 0x20.
Definition NOR_SPI_JEDECID := 0x9F.
Definition NOR_SPI_RSRT := 0x00.

Record pflash_t := mk_pflash {
  (** a block device is attached *)
  bs : bool;
  base : Z; sector_len : Z; chip_len : Z; mappings : Z; width : Z; wcycle : Z; bypass : bool;
  cmd : Z; status : Z; ident : list Z; unlock_addr : list Z; cfi_len : Z; cfi_table : list Z;
  off : Z; fl_mem : Z; rom_mode : bool; storage : list Z;
  rxLen : Z; wordRx : Z
}.

#[export] Instance eta_pflash : Eta pflash_t := fun s =>
  mk_pflash (bs s) (base s) (sector_len s) (chip_len s) (mappings s) (width s) (wcycle s) (bypass s)
    (cmd s) (status s) (ident s) (unlock_addr s) (cfi_len s) (cfi_table s) (off s) (fl_mem s)
    (rom_mode s) (storage s) (rxLen s) (wordRx s).

Inductive nor_event :=
  | NorMap (address size phys_offset : Z)      (* cpu_register_physical_memory *)
  | NorDisk (sector : Z) (data : list Z)       (* bdrv_write *)
  | NorTimer (delay_ns : Z).                   (* qemu_mod_timer, from now *)

Abbreviation norM := (dev pflash_t nor_event).

(** [n] bytes of an array from index [i] on; writing a constant there. *)
Definition aslice {A} (l : list A) (i n : Z) : option (list A) :=
  if (0 <=? i) && (0 <=? n) && (i + n <=? zlen l)
  then Some (take (Z.to_nat n) (drop (Z.to_nat i) l)) else None.
Definition afill {A} (l : list A) (i n : Z) (v : A) : option (list A) :=
  if (0 <=? i) && (0 <=? n) && (i + n <=? zlen l)
  then Some (take (Z.to_nat i) l ++ replicate (Z.to_nat n) v ++ drop (Z.to_nat (i + n)) l)
  else None.

(** ** The SPI command interface *)
Definition pflash_cmd_set (c : list Z) : norM unit :=
  c0 <- lift (aget c 0) ;;
  modify (fun s => s <| cmd := u8 c0 |>) ;;;
  s <- gets id ;;
  switch (cmd s)
    [ (on NOR_SPI_READ,
         c1 <- lift (aget c 1) ;; c2 <- lift (aget c 2) ;; c3 <- lift (aget c 3) ;;
         modify (fun s => s <| wordRx := u32 (c1 << 16) .| u32 (c2 << 8) .| c3 |>)) ]
    (ret tt).

Definition pflash_set_rxlen (n : Z) : norM unit := modify (fun s => s <| rxLen := n |>).

Definition pflash_cmd_len : norM Z :=
  s <- gets id ;;
  switch (cmd s)
    [ (on NOR_SPI_JEDECID,
         modify (fun s => s <| rxLen := u32 (3 - wordRx s) |>) ;;;
         gets rxLen);
      (on NOR_SPI_RSRT, ret 0);
      (on NOR_SPI_RDSR, ret 1);
      (on NOR_SPI_READ, if 0x1f <=? rxLen s then ret 0x1f else ret (rxLen s)) ]
    (ret 0).

Definition pflash_cmd_parse : norM Z :=
  s <- gets id ;;
  switch (cmd s)
    [ (on NOR_SPI_RSRT, modify (fun s => s <| cmd := 0 |> <| wordRx := 0 |>) ;;; ret 0);
      (on NOR_SPI_RDSR, ret 0);
      (on NOR_SPI_JEDECID,
         v <- lift (aget (ident s) (wordRx s)) ;;
         modify (fun s => s <| wordRx ::= fun x => u32 (x + 1) |>) ;;;
         ret v);
      (on NOR_SPI_READ,
         if rxLen s =? 0 then ret 0 else
         modify (fun s => s <| rxLen ::= fun x => u32 (x - 1) |>) ;;;
         v <- lift (aget (storage s) (wordRx s)) ;;
         modify (fun s => s <| wordRx ::= fun x => u32 (x + 1) |>) ;;;
         ret v) ]
    (modify (fun s => s <| cmd := 0 |> <| wordRx := 0 |>) ;;; ret 0).

(** ** The memory-mapped interface *)
Definition IO_MEM_ROMD := 1.

Definition pflash_register_memory (mode : bool) : norM unit :=
  s <- gets id ;;
  let phys_offset := if mode then fl_mem s .| (off s .| IO_MEM_ROMD) else fl_mem s in
  modify (fun s => s <| rom_mode := mode |>) ;;;
  for_up 0 (Z.to_nat (mappings s)) (fun i =>
    emit (NorMap (base s + i * chip_len s) (chip_len s) phys_offset)).

Definition pflash_timer : norM unit :=
  modify (fun s => s <| status ::= fun x => x .^ 0x80 |>) ;;;
  s <- gets id ;;
  (if bypass s then modify (fun s => s <| wcycle := 2 |>)
   else pflash_register_memory true ;;; modify (fun s => s <| wcycle := 0 |>)) ;;;
  modify (fun s => s <| cmd := 0 |>).

(** The offset of a register access in units of the chip's width. *)
Definition scale_offset (w boff : Z) : Z :=
  if w =? 2 then boff >> 1 else if w =? 4 then boff >> 2 else boff.

(** [flash_read]: [n] bytes of the storage, most significant first when [be]. *)
Definition flash_read (offset n : Z) (be : bool) : norM Z :=
  s <- gets id ;;
  let p i := lift (aget (storage s) i) in
  switch n
    [ (on 1, p offset);
      (on 2, b0 <- p offset ;; b1 <- p (offset + 1) ;;
             ret (if be then (b0 << 8) .| b1 else b0 .| (b1 << 8)));
      (on 4, b0 <- p offset ;; b1 <- p (offset + 1) ;; b2 <- p (offset + 2) ;; b3 <- p (offset + 3) ;;
             ret (if be then (b0 << 24) .| (b1 << 16) .| (b2 << 8) .| b3
                  else b0 .| (b1 << 8) .| (b2 << 16) .| (b3 << 24))) ]
    (ret 0xffffffff).

Definition pflash_read (offset n : Z) (be : bool) : norM Z :=
  s <- gets id ;;
  when (rom_mode s && (wcycle s =? 0)) (pflash_register_memory true) ;;;
  let offset := offset .& u32 (chip_len s - 1) in
  let boff := scale_offset (width s) (offset .& 0xFF) in
  switch (cmd s)
    [ (on_any [0x80; 0x00], flash_read offset n be);
      (on 0x90,
         switch boff
           [ (on_any [0x00; 0x01], lift (aget (ident s) (boff .& 1)));
             (on 0x02, ret 0);
             (on_any [0x0E; 0x0F],
                v <- lift (aget (ident s) (2 + (boff .& 1))) ;;
                if v =? 0xff then flash_read offset n be else ret v) ]
           (flash_read offset n be));
      (on_any [0xA0; 0x10; 0x30],
         modify (fun s => s <| status ::= fun x => x .^ 0x40 |>) ;;;
         ret (status s));
      (on 0x98, if cfi_len s <? boff then ret 0 else lift (aget (cfi_table s) boff)) ]
    (modify (fun s => s <| wcycle := 0 |> <| cmd := 0 |>) ;;;
     flash_read offset n be).

Definition pflash_update (offset size : Z) : norM unit :=
  s <- gets id ;;
  when (bs s)
    (let first := offset >> 9 in
     let last := (offset + size + 511) >> 9 in
     d <- lift (aslice (storage s) (first << 9) ((last - first) << 9)) ;;
     emit (NorDisk first d)).

Definition reset_flash : norM unit :=
  modify (fun s => s <| bypass := false |> <| wcycle := 0 |> <| cmd := 0 |>).
Definition do_bypass : norM unit := modify (fun s => s <| wcycle := 2 |> <| cmd := 0 |>).
Definition next_cycle : norM unit := modify (fun s => s <| wcycle ::= Z.succ |>).
Definition enter_CFI_mode : norM unit := modify (fun s => s <| wcycle := 7 |> <| cmd := 0x98 |>).

(** [check_unlock0] and [check_unlock1]: the two cycles that open a command. *)
Definition check_unlock0 (boff c : Z) : norM unit :=
  if (boff =? 0x55) && (c =? 0x98) then enter_CFI_mode else
  s <- gets id ;;
  u <- lift (aget (unlock_addr s) 0) ;;
  if negb (boff =? u) || negb (c =? 0xAA) then reset_flash else next_cycle.
Definition check_unlock1 (boff c : Z) : norM unit :=
  s <- gets id ;;
  u <- lift (aget (unlock_addr s) 1) ;;
  if negb (boff =? u) || negb (c =? 0x55) then reset_flash else next_cycle.

(** [p[i] &= v]: programming only clears bits. *)
Definition program_byte (i v : Z) : norM unit :=
  s <- gets id ;;
  b <- lift (aget (storage s) i) ;;
  a <- lift (aset i (b .& u8 v) (storage s)) ;;
  modify (fun s => s <| storage := a |>).

(** Case 0xA0 of cycle 3: the data cycle of a program command. *)
Definition program_data (offset value n : Z) (be : bool) : norM unit :=
  switch n
    [ (on 1, program_byte offset value ;;; pflash_update offset 1);
      (on 2, (if be then program_byte offset (value >> 8) ;;; program_byte (offset + 1) value
              else program_byte offset value ;;; program_byte (offset + 1) (value >> 8)) ;;;
             pflash_update offset 2);
      (on 4, (if be then program_byte offset (value >> 24) ;;; program_byte (offset + 1) (value >> 16) ;;;
                         program_byte (offset + 2) (value >> 8) ;;; program_byte (offset + 3) value
              else program_byte offset value ;;; program_byte (offset + 1) (value >> 8) ;;;
                   program_byte (offset + 2) (value >> 16) ;;; program_byte (offset + 3) (value >> 24)) ;;;
             pflash_update offset 4) ]
    (ret tt) ;;;
  modify (fun s => s <| status := u8 (Z.lnot (value .& 0x80)) |>) ;;;
  s <- gets id ;;
  if bypass s then do_bypass else reset_flash.

(** Cycle 2: the command byte. *)
Definition command_cycle (boff c : Z) : norM unit :=
  s <- gets id ;;
  u <- lift (aget (unlock_addr s) 0) ;;
  if negb (bypass s) && negb (boff =? u) then reset_flash else
  switch c
    [ (on 0x20, modify (fun s => s <| bypass := true |>) ;;; do_bypass);
      (on_any [0x80; 0x90; 0xA0], modify (fun s => s <| cmd := c |>) ;;; next_cycle) ]
    reset_flash.

Definition get_ticks_per_sec := 1000000000.

(** Cycle 5: the erase commands. *)
Definition erase_cycle (offset boff c : Z) : norM unit :=
  s <- gets id ;;
  switch c
    [ (on 0x10,
         u <- lift (aget (unlock_addr s) 0) ;;
         if negb (boff =? u) then reset_flash else
         p <- lift (afill (storage s) 0 (chip_len s) 0xFF) ;;
         modify (fun s => s <| storage := p |> <| status := 0 |>) ;;;
         pflash_update 0 (chip_len s) ;;;
         emit (NorTimer (get_ticks_per_sec * 5)) ;;;
         modify (fun s => s <| cmd := c |>) ;;;
         next_cycle);
      (on 0x30,
         let offset := offset .&~ u32 (sector_len s - 1) in
         p <- lift (afill (storage s) offset (sector_len s) 0xFF) ;;
         modify (fun s => s <| storage := p |>) ;;;
         pflash_update offset (sector_len s) ;;;
         modify (fun s => s <| status := 0 |>) ;;;
         emit (NorTimer (get_ticks_per_sec / 2)) ;;;
         modify (fun s => s <| cmd := c |>) ;;;
         next_cycle) ]
    reset_flash.

Definition pflash_write (offset value n : Z) (be : bool) : norM unit :=
  s <- gets id ;;
  let c := u8 value in
  if negb (cmd s =? 0xA0) && (c =? 0xF0) then reset_flash else
  let offset := offset .& u32 (chip_len s - 1) in
  let boff := scale_offset (width s) (offset .& u32 (sector_len s - 1)) in
  switch (wcycle s)
    [ (on 0, when (rom_mode s) (pflash_register_memory false) ;;; check_unlock0 boff c);
      (on 1, check_unlock1 boff c);
      (on 2, command_cycle boff c);
      (on 3,
         switch (cmd s)
           [ (on 0x80, check_unlock0 boff c);
             (on 0xA0, program_data offset value n be);
             (on 0x90,
                if bypass s && (c =? 0x00) then reset_flash
                else if (boff =? 0x55) && (c =? 0x98) then enter_CFI_mode
                else reset_flash) ]
           reset_flash);
      (on 4, switch (cmd s) [ (on 0xA0, ret tt); (on 0x80, check_unlock1 boff c) ] reset_flash);
      (on 5, erase_cycle offset boff c);
      (on 6, switch (cmd s) [ (on_any [0x10; 0x30], ret tt) ] reset_flash);
      (on 7, reset_flash) ]
    reset_flash.

(** ** Creation

    [content] is what the block device holds, when one is attached; the storage
    is the RAM block the caller allocated.  A failed initial read makes the
    function return no chip. *)
Definition pflash_spi_register (ram : list Z) (ram_off : Z) (content : option (option (list Z)))
    (sector_len nb_blocs nb_mappings width id0 id1 id2 : Z) : option pflash_t :=
  let chip_len := u32 (sector_len * nb_blocs) in
  let chip storage attached :=
    mk_pflash attached 0 sector_len chip_len nb_mappings width 0 false 0 0 [id0; id1; id2] [0; 0]
      0 (zeros 0x52) ram_off 0 false storage 0 0 in
  match content with
  | None => Some (chip ram false)
  | Some None => None
  | Some (Some disk) => Some (chip (disk ++ drop (length disk) ram) true)
  end.

(** ** Reading over SPI *)
Fixpoint parse_times (n : nat) : norM (list Z) :=
  match n with
  | O => ret []
  | S n' => x <- pflash_cmd_parse ;; r <- parse_times n' ;; ret (x :: r)
  end.

Lemma parse_one s b :
  cmd s = NOR_SPI_READ -> 0 < rxLen s < 2 ^ 32 -> 0 <= wordRx s < 2 ^ 32 - 1 ->
  aget (storage s) (wordRx s) = Some b ->
  pflash_cmd_parse s = Done (b, s <| rxLen := rxLen s - 1 |> <| wordRx := wordRx s + 1 |>, []).
Proof.
  intros Hc Hr Hw Hb. unfold pflash_cmd_parse, bind at 1, gets at 1, id. rewrite Hc.
  change (switch NOR_SPI_READ ?l ?d) with (snd (nth 3 l (on 0, d))). cbn [nth snd].
  replace (rxLen s =? 0) with false by lia. rewrite Hb. cbn.
  unfold upd. cbn. rewrite !wrap_fits by (unfold fits; lia). done.
Qed.

Lemma parse_read n s :
  cmd s = NOR_SPI_READ -> rxLen s = Z.of_nat n -> Z.of_nat n < 2 ^ 32 -> 0 <= wordRx s ->
  wordRx s + Z.of_nat n <= zlen (storage s) -> zlen (storage s) < 2 ^ 32 ->
  parse_times n s = Done (take n (drop (Z.to_nat (wordRx s)) (storage s)),
                          s <| rxLen := 0 |> <| wordRx := wordRx s + Z.of_nat n |>, []).
Proof.
  revert s. induction n as [|n IH]; intros s Hc Hr Hn Hw Hlen H32.
  { cbn [parse_times]. unfold ret. do 3 f_equal. destruct s; cbn in *.
    unfold upd. cbn. f_equal; lia. }
  destruct (aget_Some (storage s) (wordRx s)) as [b Hb]; [lia|].
  cbn [parse_times]. rewrite (bind_Done _ _ _ _ _ _ (parse_one s b Hc ltac:(lia) ltac:(lia) Hb)).
  set (s1 := s <| rxLen := _ |> <| wordRx := _ |>).
  assert (wordRx s1 = wordRx s + 1) as Hw1 by done.
  assert (storage s1 = storage s) as Hs1 by done.
  assert (rxLen s1 = rxLen s - 1) as Hr1 by done.
  pose proof (IH s1 Hc) as IH1. rewrite Hw1, Hs1, Hr1 in IH1. specialize (IH1 ltac:(lia)).
  rewrite (bind_Done _ _ _ _ _ _ (IH1 ltac:(lia) ltac:(lia) ltac:(lia) ltac:(lia))). cbn [ret].
  unfold ret. rewrite app_nil_r. unfold aget in Hb. destruct (Z.ltb_spec (wordRx s) 0); [done|].
  rewrite (drop_S _ _ _ Hb). cbn [take]. rewrite Z.add_1_r, Z2Nat.inj_succ by lia.
  unfold s1, upd. cbn. do 4 f_equal. lia.
Qed.

(** The READ command takes its address most significant byte first. *)
Lemma cmd_set_read s a1 a2 a3 rest (a := le_value [a3; a2; a1]) :
  fits 8 a1 -> fits 8 a2 -> fits 8 a3 ->
  pflash_cmd_set (NOR_SPI_READ :: a1 :: a2 :: a3 :: rest) s
    = Done (tt, s <| cmd := NOR_SPI_READ |> <| wordRx := a |>, []) /\ 0 <= a.
Proof.
  intros H1 H2 H3. split.
  - unfold pflash_cmd_set. run. unfold id.
    change (cmd (s <| cmd := u8 NOR_SPI_READ |>)) with NOR_SPI_READ. pick 0%nat. run.
    unfold modify. rewrite !wrap_fits.
    + unfold a. do 3 f_equal. cbn [le_value]. rewrite Z.shiftl_0_l, Z.lor_0_r.
      rewrite !Z.shiftl_lor, !Z.shiftl_shiftl by lia. unfold upd. cbn. f_equal.
      change (8 + 8) with 16. rewrite (Z.lor_comm _ a3). f_equal. apply Z.lor_comm.
    + by vm_compute.
    + rewrite Z.shiftl_mul_pow2 by lia. unfold fits in *. lia.
    + rewrite Z.shiftl_mul_pow2 by lia. unfold fits in *. lia.
  - unfold a. cbn [le_value]. rewrite Z.shiftl_0_l, Z.lor_0_r. unfold fits in *.
    repeat (apply Z.lor_nonneg; split; [lia|]; apply Z.shiftl_nonneg). lia.
Qed.

(** C8: A READ command returns the flash contents.  After the four command
    bytes (opcode and a 24-bit address, most significant byte first) and a
    receive length [n], the chip returns the [n] bytes from that address on,
    then zeroes, and its storage is untouched. *)
Theorem spi_read_returns_storage s a1 a2 a3 n :
  fits 8 a1 -> fits 8 a2 -> fits 8 a3 ->
  let a := le_value [a3; a2; a1] in
  a + Z.of_nat n <= zlen (storage s) -> zlen (storage s) < 2 ^ 32 ->
  exists s', (pflash_cmd_set [NOR_SPI_READ; a1; a2; a3] ;;; pflash_set_rxlen (Z.of_nat n) ;;;
              d <- parse_times n ;; z <- pflash_cmd_parse ;; ret (d, z)) s
             = Done ((take n (drop (Z.to_nat a) (storage s)), 0), s', []) /\
             storage s' = storage s.
Proof.
  intros H1 H2 H3 a Ha H32.
  set (s1 := s <| cmd := 3 |> <| wordRx := a |> <| rxLen := Z.of_nat n |>).
  destruct (cmd_set_read s a1 a2 a3 [] H1 H2 H3) as [Hcs Ha0]. fold a in Hcs, Ha0.
  assert ((pflash_cmd_set [NOR_SPI_READ; a1; a2; a3] ;;; pflash_set_rxlen (Z.of_nat n)) s
          = Done (tt, s1, [])) as Hset by by rewrite (bind_silent _ _ _ _ _ Hcs).
  pose proof (parse_read n s1 eq_refl eq_refl) as Hp.
  change (wordRx s1) with a in Hp. change (storage s1) with (storage s) in Hp.
  specialize (Hp ltac:(lia) Ha0 Ha H32). eexists. split.
  - rewrite <- bind_assoc, (bind_silent _ _ _ _ _ Hset), (bind_silent _ _ _ _ _ Hp).
    unfold pflash_cmd_parse. run. unfold id. set (s2 := s1 <| rxLen := 0 |> <| wordRx := _ |>).
    change (cmd s2) with NOR_SPI_READ.
    change (switch NOR_SPI_READ ?l ?d) with (snd (nth 3 l (on 0, d))). cbn [nth snd].
    change (rxLen s2 =? 0) with true. cbv iota. run. reflexivity.
  - done.
Qed.

(** ** Programming over the memory-mapped interface *)

(** The bytes of a value in the order of their addresses. *)
Definition word_bytes (n : nat) (be : bool) (v : Z) : list Z :=
  if be then reverse (le_bytes n v) else le_bytes n v.
Definition word_value (be : bool) (l : list Z) : Z := le_value (if be then reverse l else l).

(** The storage after clearing bits at [o]. *)
Definition masked_at (st : list Z) (o : nat) (ms : list Z) : list Z :=
  take o st ++ zip_with Z.land (take (length ms) (drop o st)) ms ++ drop (o + length ms) st.

Fixpoint program_list (o : Z) (ms : list Z) : norM unit :=
  match ms with
  | [] => ret tt
  | m :: ms' => program_byte o m ;;; program_list (o + 1) ms'
  end.

Lemma length_masked_at st o ms : (o + length ms <= length st)%nat -> length (masked_at st o ms) = length st.
Proof.
  intros H. unfold masked_at. rewrite !length_app, length_zip_with, !length_take, !length_drop. lia.
Qed.

Lemma masked_at_cons st o m ms b :
  st !! o = Some b -> (o + S (length ms) <= length st)%nat ->
  masked_at (<[o := b .& m]> st) (S o) ms = masked_at st o (m :: ms).
Proof.
  intros Hb Hlen. pose proof (lookup_lt_Some _ _ _ Hb). unfold masked_at. cbn [length].
  rewrite (drop_S _ _ _ Hb). cbn [take zip_with].
  rewrite (take_S_r _ _ (b .& m)) by (apply list_lookup_insert_eq; lia).
  rewrite take_insert_ge, !drop_insert_lt by lia. rewrite <- app_assoc. cbn.
  do 3 f_equal. f_equal. lia.
Qed.

Lemma program_list_spec ms o s :
  Forall (fits 8) ms -> 0 <= o -> o + Z.of_nat (length ms) <= zlen (storage s) ->
  program_list o ms s = Done (tt, s <| storage := masked_at (storage s) (Z.to_nat o) ms |>, []).
Proof.
  intros Hms. revert o s. induction Hms as [|m ms Hm Hms IH]; intros o s Ho Hlen.
  { cbn [program_list]. unfold ret, masked_at. cbn [length]. do 3 f_equal.
    rewrite Nat.add_0_r, take_0. cbn [zip_with app]. rewrite take_drop. by destruct s. }
  cbn [program_list length] in *. destruct (aget_Some (storage s) o) as [b Hb]; [lia|].
  set (s1 := s <| storage := <[Z.to_nat o := b .& m]> (storage s) |>).
  assert (program_byte o m s = Done (tt, s1, [])) as Hp.
  { unfold program_byte. run. unfold id. rewrite (bind_lift _ _ _ _ Hb).
    rewrite (bind_lift _ _ _ (<[Z.to_nat o := b .& u8 m]> (storage s)))
      by (apply aset_Some; lia). by rewrite (wrap_fits 8 m Hm). }
  rewrite (bind_silent _ _ _ _ _ Hp). unfold zlen in *.
  assert (storage s1 = <[Z.to_nat o := b .& m]> (storage s)) as Hs1 by done.
  rewrite IH; [|lia|rewrite Hs1, length_insert; lia].
  rewrite Hs1, Z.add_1_r, Z2Nat.inj_succ by lia.
  unfold aget in Hb. destruct (Z.ltb_spec o 0); [done|].
  rewrite masked_at_cons by (done || lia). done.
Qed.

Lemma flash_read_spec s o n be :
  (n = 1%nat \/ n = 2%nat \/ n = 4%nat) -> 0 <= o -> o + Z.of_nat n <= zlen (storage s) ->
  flash_read o (Z.of_nat n) be s
  = Done (word_value be (take n (drop (Z.to_nat o) (storage s))), s, []).
Proof.
  intros Hn Ho Hlen. unfold flash_read. run. unfold id, zlen in *.
  assert (forall i, o <= i < o + Z.of_nat n -> exists b, aget (storage s) i = Some b /\
            storage s !! Z.to_nat i = Some b) as Hget.
  { intros i Hi. destruct (aget_Some (storage s) i) as [b Hb]; [unfold zlen; lia|].
    exists b. split; [done|]. unfold aget in Hb. by destruct (Z.ltb_spec i 0); [lia|]. }
  destruct (Hget o) as (b0 & E0 & L0); [lia|]. rewrite (drop_S _ _ _ L0).
  destruct Hn as [->|[->| ->]].
  { change (switch (Z.of_nat 1) ?l ?d) with (snd (nth 0 l (on 0, d))). cbn [nth snd take].
    rewrite E0. unfold word_value, lift, ret. rewrite take_0. destruct be; cbn [reverse le_value];
      [change (reverse [b0]) with [b0]; cbn [le_value]|]; by rewrite Z.shiftl_0_l, Z.lor_0_r. }
  { destruct (Hget (o + 1)) as (b1 & E1 & L1); [lia|].
    rewrite Z.add_1_r, Z2Nat.inj_succ in L1 by lia. rewrite (drop_S _ _ _ L1).
    change (switch (Z.of_nat 2) ?l ?d) with (snd (nth 1 l (on 0, d))). cbn [nth snd take].
    rewrite (bind_lift _ _ _ _ E0), (bind_lift _ _ _ _ E1). unfold word_value, ret.
    rewrite take_0. destruct be.
    - change (reverse [b0; b1]) with [b1; b0]. by rewrite <- le_value_2, Z.lor_comm.
    - by rewrite <- le_value_2. }
  destruct (Hget (o + 1)) as (b1 & E1 & L1); [lia|]. destruct (Hget (o + 2)) as (b2 & E2 & L2); [lia|].
  destruct (Hget (o + 3)) as (b3 & E3 & L3); [lia|].
  replace (Z.to_nat (o + 1)) with (S (Z.to_nat o)) in L1 by lia.
  replace (Z.to_nat (o + 2)) with (S (S (Z.to_nat o))) in L2 by lia.
  replace (Z.to_nat (o + 3)) with (S (S (S (Z.to_nat o)))) in L3 by lia.
  rewrite (drop_S _ _ _ L1), (drop_S _ _ _ L2), (drop_S _ _ _ L3).
  change (switch (Z.of_nat 4) ?l ?d) with (snd (nth 2 l (on 0, d))). cbn [nth snd take].
  rewrite (bind_lift _ _ _ _ E0), (bind_lift _ _ _ _ E1), (bind_lift _ _ _ _ E2),
    (bind_lift _ _ _ _ E3). unfold word_value, ret. rewrite take_0. destruct be.
  - change (reverse [b0; b1; b2; b3]) with [b3; b2; b1; b0]. rewrite <- le_value_4.
    do 3 f_equal. rewrite (Z.lor_comm _ b3), (Z.lor_comm (_ .| _) (b2 << 8)), (Z.lor_comm (b0 << 24)).
    by rewrite !Z.lor_assoc.
  - by rewrite <- le_value_4.
Qed.

Lemma for_up_emit n lo (f : Z -> nor_event) (s : pflash_t) :
  exists es, for_up lo n (fun i => emit (f i)) s = Done (tt, s, es).
Proof.
  revert lo. induction n as [|n IH]; intros lo; [by exists []|]. cbn [for_up].
  destruct (IH (lo + 1)) as [es Hes]. eexists. erewrite bind_Done by reflexivity. cbv beta. by rewrite Hes.
Qed.

Lemma register_memory_done b s :
  exists es, pflash_register_memory b s = Done (tt, s <| rom_mode := b |>, es).
Proof. unfold pflash_register_memory. run. apply for_up_emit. Qed.

Lemma pflash_update_done o n s :
  0 <= o -> 0 <= n -> o + n <= zlen (storage s) -> (512 | zlen (storage s)) ->
  exists es, pflash_update o n s = Done (tt, s, es).
Proof.
  intros Ho Hn Hlen [q Hq]. unfold pflash_update. run. unfold id. destruct (bs s); cbn [when]; [|by eexists].
  rewrite !Z.shiftr_div_pow2, !Z.shiftl_mul_pow2 by lia. change (2 ^ 9) with 512.
  unfold aslice. set (a := o / 512) in *. set (b := (o + n + 511) / 512) in *.
  assert (0 <= a <= b /\ b * 512 <= zlen (storage s)) as [? ?].
  { assert (0 <= a) by (apply Z.div_pos; lia).
    assert (a <= b) by (apply Z.div_le_mono; lia).
    assert (b < q + 1) by (apply Z.div_lt_upper_bound; lia). lia. }
  replace (0 <=? a * 512) with true by lia. replace (0 <=? (b - a) * 512) with true by lia.
  replace (a * 512 + (b - a) * 512 <=? zlen (storage s)) with true by lia. cbn [andb].
  run. by eexists.
Qed.

Lemma program_byte_u8 o m : program_byte o (u8 m) = program_byte o m.
Proof. unfold program_byte. by rewrite wrap_wrap by lia. Qed.

Lemma program_data_spec s o v n be :
  (n = 1%nat \/ n = 2%nat \/ n = 4%nat) -> 0 <= o -> o + Z.of_nat n <= zlen (storage s) ->
  (512 | zlen (storage s)) ->
  exists es, program_data o v (Z.of_nat n) be s
    = Done (tt, let s' := s <| storage := masked_at (storage s) (Z.to_nat o) (word_bytes n be v) |>
                            <| status := u8 (Z.lnot (v .& 0x80)) |> in
                if bypass s then s' <| wcycle := 2 |> <| cmd := 0 |>
                else s' <| bypass := false |> <| wcycle := 0 |> <| cmd := 0 |>, es).
Proof.
  intros Hn Ho Hlen H512.
  set (s1 := s <| storage := masked_at (storage s) (Z.to_nat o) (word_bytes n be v) |>).
  assert (length (word_bytes n be v) = n) as Hwl.
  { unfold word_bytes. destruct be; rewrite ?length_reverse; apply length_le_bytes. }
  assert (Forall (fits 8) (word_bytes n be v)) as Hwf.
  { unfold word_bytes. destruct be; [apply Forall_reverse|]; apply le_bytes_fit. }
  pose proof (program_list_spec (word_bytes n be v) o s Hwf Ho ltac:(lia)) as Hpl. fold s1 in Hpl.
  destruct (pflash_update_done o (Z.of_nat n) s1) as (es & Hu).
  { lia. } { lia. }
  { change (storage s1) with (masked_at (storage s) (Z.to_nat o) (word_bytes n be v)).
    unfold zlen in *. rewrite length_masked_at; lia. }
  { change (storage s1) with (masked_at (storage s) (Z.to_nat o) (word_bytes n be v)).
    unfold zlen in *. rewrite length_masked_at; [done|lia]. }
  exists es. unfold program_data.
  match goal with |- (?m ;;; ?k) s = _ => assert (m s = Done (tt, s1, es)) as Hm end.
  { assert (forall m : norM unit, m s = Done (tt, s1, []) ->
              (m ;;; pflash_update o (Z.of_nat n)) s = Done (tt, s1, es)) as Hseq
      by (intros m Hm; by rewrite (bind_silent _ _ _ _ _ Hm)).
    destruct Hn as [->|[->| ->]].
    - change (switch (Z.of_nat 1) ?l ?d) with (snd (nth 0 l (on 0, d))). cbn [nth snd].
      apply Hseq. rewrite <- Hpl, <- program_byte_u8, <- bind_ret_tt. by destruct be.
    - change (switch (Z.of_nat 2) ?l ?d) with (snd (nth 1 l (on 0, d))). cbn [nth snd].
      apply Hseq. rewrite <- Hpl.
      destruct be; cbn [program_list word_bytes le_bytes]; [change (reverse [?a; ?b]) with [b; a]|];
        cbn [program_list]; rewrite !program_byte_u8; apply bind_ext; intros _ s2;
        by rewrite bind_ret_tt.
    - change (switch (Z.of_nat 4) ?l ?d) with (snd (nth 2 l (on 0, d))). cbn [nth snd].
      apply Hseq. rewrite <- Hpl.
      destruct be; cbn [program_list word_bytes le_bytes];
        [change (reverse [?a; ?b; ?c; ?d]) with [d; c; b; a]|];
        cbn [program_list]; rewrite !program_byte_u8, !Z.shiftr_shiftr by lia;
        rewrite <- !Z.add_assoc; do 3 (apply bind_ext; intros _ ?); by rewrite bind_ret_tt. }
  rewrite (bind_Done _ _ _ _ _ _ Hm). run. unfold id. change (bypass (s1 <| status := _ |>)) with (bypass s).
  unfold reset_flash, do_bypass, modify. destruct (bypass s); by rewrite app_nil_r.
Qed.

(** [o] addresses the unlock register [u] of the chip. *)
Definition hits (s : pflash_t) (o u : Z) : Prop :=
  scale_offset (width s) ((o .& u32 (chip_len s - 1)) .& u32 (sector_len s - 1)) = u.

Definition program_sequence (o0 o1 o v n : Z) (be : bool) : norM unit :=
  pflash_write o0 0xAA n be ;;; pflash_write o1 0x55 n be ;;; pflash_write o0 0xA0 n be ;;;
  pflash_write o v n be.

(** One cycle of [pflash_write] that is not the reset command. *)
Lemma write_cycle s o v n be k m :
  u8 v <> 0xF0 \/ cmd s = 0xA0 -> wcycle s = k ->
  (let o' := o .& u32 (chip_len s - 1) in
   let b := scale_offset (width s) (o' .& u32 (sector_len s - 1)) in
   switch k
    [ (on 0, when (rom_mode s) (pflash_register_memory false) ;;; check_unlock0 b (u8 v));
      (on 1, check_unlock1 b (u8 v));
      (on 2, command_cycle b (u8 v));
      (on 3,
         switch (cmd s)
           [ (on 0x80, check_unlock0 b (u8 v));
             (on 0xA0, program_data o' v n be);
             (on 0x90,
                if bypass s && (u8 v =? 0x00) then reset_flash
                else if (b =? 0x55) && (u8 v =? 0x98) then enter_CFI_mode
                else reset_flash) ]
           reset_flash) ] undef : norM unit) = m ->
  0 <= k < 4 ->
  pflash_write o v n be s = m s.
Proof.
  intros Hc Hk <- Hr. unfold pflash_write. run. unfold id. rewrite Hk.
  replace (negb (cmd s =? 0xA0) && (u8 v =? 0xF0)) with false
    by (destruct Hc as [?| ->]; [destruct (Z.eqb_spec (u8 v) 0xF0); [done|by rewrite andb_false_r]|done]).
  cbv zeta. unfold switch, on.
  assert (k = 0 \/ k = 1 \/ k = 2 \/ k = 3) as [->|[->|[->| ->]]] by lia; reflexivity.
Qed.

(** C9: Programming clears bits and nothing else.  On a chip in read mode, the
    command sequence (unlock, unlock, 0xA0, data) at any in-range address and
    of any access width and byte order is accepted: the storage changes in the
    addressed bytes only, a read of the same access then returns the old value
    AND the data, and the chip is back in read mode. *)
Theorem program_sequence_clears_bits s o0 o1 u0 u1 o v n be :
  wcycle s = 0 -> cmd s = 0 -> bypass s = false -> unlock_addr s = [u0; u1] ->
  hits s o0 u0 -> hits s o1 u1 ->
  (n = 1%nat \/ n = 2%nat \/ n = 4%nat) -> 0 <= o -> o .& u32 (chip_len s - 1) = o ->
  o + Z.of_nat n <= zlen (storage s) -> (512 | zlen (storage s)) -> Forall (fits 8) (storage s) ->
  exists s' es,
    program_sequence o0 o1 o v (Z.of_nat n) be s = Done (tt, s', es) /\
    storage s' = masked_at (storage s) (Z.to_nat o) (word_bytes n be v) /\
    pflash_read o (Z.of_nat n) be s'
      = Done (word_value be (take n (drop (Z.to_nat o) (storage s))) .& v, s', []) /\
    wcycle s' = 0 /\ cmd s' = 0 /\ bypass s' = false.
Proof.
  intros Hw Hc Hb Hu H0 H1 Hn Ho Hmask Hlen H512 Hbytes. unfold hits in *.
  (* cycle 0 *)
  set (sa := s <| rom_mode := false |> <| wcycle := 1 |>).
  assert (exists es, pflash_write o0 0xAA (Z.of_nat n) be s = Done (tt, sa, es)) as [ea Ea].
  { rewrite (write_cycle s o0 0xAA (Z.of_nat n) be 0 _ ltac:(by left) Hw eq_refl ltac:(lia)).
    cbn [switch on Z.eqb]. rewrite H0.
    assert (forall s', rom_mode s' = false -> unlock_addr s' = [u0; u1] ->
              check_unlock0 u0 (u8 0xAA) s' = Done (tt, s' <| wcycle ::= Z.succ |>, [])) as Hck.
    { intros s' _ Hu'. unfold check_unlock0. change (u8 0xAA =? 0x98) with false.
      rewrite andb_false_r. run. unfold id. rewrite Hu'. run. by rewrite Z.eqb_refl. }
    destruct (rom_mode s) eqn:Hrom; cbn [when].
    - destruct (register_memory_done false s) as [es Hes]. eexists.
      rewrite (bind_Done _ _ _ _ _ _ Hes), Hck by done. unfold sa, upd. cbn. by rewrite Hw.
    - eexists. run. rewrite Hck by done. unfold sa, upd. cbn. by rewrite Hw, Hrom. }
  (* cycle 1 *)
  set (sb := sa <| wcycle := 2 |>).
  assert (pflash_write o1 0x55 (Z.of_nat n) be sa = Done (tt, sb, [])) as Eb.
  { rewrite (write_cycle sa o1 0x55 (Z.of_nat n) be 1 _ ltac:(by left) eq_refl eq_refl ltac:(lia)).
    change (scale_offset _ _) with
      (scale_offset (width s) ((o1 .& u32 (chip_len s - 1)) .& u32 (sector_len s - 1))).
    rewrite H1. change (switch 1 ?l ?d) with (snd (nth 1 l (on 0, d))). cbn [nth snd].
    unfold check_unlock1. run. unfold id. change (unlock_addr sa) with (unlock_addr s). rewrite Hu. run.
    by rewrite Z.eqb_refl. }
  (* cycle 2 *)
  set (sc := sb <| cmd := 0xA0 |> <| wcycle := 3 |>).
  assert (pflash_write o0 0xA0 (Z.of_nat n) be sb = Done (tt, sc, [])) as Ec.
  { rewrite (write_cycle sb o0 0xA0 (Z.of_nat n) be 2 _ ltac:(by left) eq_refl eq_refl ltac:(lia)).
    change (scale_offset _ _) with
      (scale_offset (width s) ((o0 .& u32 (chip_len s - 1)) .& u32 (sector_len s - 1))).
    rewrite H0. change (switch 2 ?l ?d) with (snd (nth 2 l (on 0, d))). cbn [nth snd].
    unfold command_cycle. run. unfold id. change (unlock_addr sb) with (unlock_addr s). rewrite Hu. run.
    change (bypass sb) with (bypass s). rewrite Hb, Z.eqb_refl. cbn [negb andb].
    change (switch (u8 0xA0) ?l ?d) with (snd (nth 1 l (on 0, d))). cbn [nth snd]. by run. }
  (* the data cycle *)
  destruct (program_data_spec sc o v n be Hn Ho Hlen H512) as [ed Ed].
  cbv zeta in Ed. change (bypass sc) with (bypass s) in Ed. rewrite Hb in Ed. cbv iota in Ed. set (sd := _ <| cmd := 0 |>) in Ed.
  assert (pflash_write o v (Z.of_nat n) be sc = Done (tt, sd, ed)) as Ed'.
  { rewrite (write_cycle sc o v (Z.of_nat n) be 3 _ ltac:(by right) eq_refl eq_refl ltac:(lia)).
    change (o .& u32 (chip_len sc - 1)) with (o .& u32 (chip_len s - 1)). rewrite Hmask. exact Ed. }
  exists sd. eexists. split_and!; [|done| |done|done|done].
  { unfold program_sequence. rewrite (bind_Done _ _ _ _ _ _ Ea), (bind_silent _ _ _ _ _ Eb),
      (bind_silent _ _ _ _ _ Ec), Ed'. reflexivity. }
  unfold pflash_read. run. unfold id. change (rom_mode sd) with false. cbn [andb when]. run.
  change (o .& u32 (chip_len sd - 1)) with (o .& u32 (chip_len s - 1)). rewrite Hmask.
  change (cmd sd) with 0. change (switch 0 ?l ?d) with (snd (nth 0 l (on 0, d))). cbn [nth snd].
  assert (storage sd = masked_at (storage s) (Z.to_nat o) (word_bytes n be v)) as Hsd by done.
  assert (length (word_bytes n be v) = n) as Hwl.
  { unfold word_bytes. destruct be; rewrite ?length_reverse; apply length_le_bytes. }
  unfold zlen in *.
  rewrite flash_read_spec; [|done|done|unfold zlen; rewrite Hsd, length_masked_at; lia].
  do 3 f_equal. rewrite Hsd. unfold masked_at. rewrite Hwl.
  rewrite drop_app_length' by (rewrite length_take; lia).
  set (l := take n (drop (Z.to_nat o) (storage s))).
  assert (length l = n) as Hl by (unfold l; rewrite length_take, length_drop; lia).
  rewrite take_app_length' by (rewrite length_zip_with; lia).
  assert (Forall (fits 8) l) as Hlf by by apply Forall_take, Forall_drop.
  unfold word_value, word_bytes. rewrite <- Hl. destruct be.
  - rewrite reverse_zip_with, reverse_involutive by (rewrite length_reverse, length_le_bytes; done).
    rewrite <- (length_reverse l). apply le_value_land. by apply Forall_reverse.
  - by apply le_value_land.
Qed.

(** ** The states of the chip *)

(** The command that each cycle of the memory-mapped interface can be in. *)
Definition cycle_ok (s : pflash_t) : Prop :=
  (wcycle s ∈ [0; 1; 2] /\ cmd s = 0) \/ (wcycle s = 3 /\ cmd s ∈ [0x80; 0x90; 0xA0]) \/
  (wcycle s ∈ [4; 5] /\ cmd s = 0x80) \/ (wcycle s = 6 /\ cmd s ∈ [0x10; 0x30]) \/
  (wcycle s = 7 /\ cmd s = 0x98).

Record pflash_ok (s : pflash_t) : Prop := {
  pok_cycle : cycle_ok s;
  pok_storage : zlen (storage s) = chip_len s /\ Forall (fits 8) (storage s);
  pok_chip : exists c, 9 <= c < 31 /\ chip_len s = 2 ^ c /\
             exists k, 0 <= k <= c /\ sector_len s = 2 ^ k;
  pok_unlock : length (unlock_addr s) = 2%nat;
  pok_ident : length (ident s) = 3%nat;
  pok_cfi : length (cfi_table s) = 0x52%nat /\ 0 <= cfi_len s < 0x52
}.

(** The fields an operation leaves alone keep their type. *)
Lemma pflash_ok_cycle s s' :
  pflash_ok s -> cycle_ok s' -> zlen (storage s') = chip_len s' -> Forall (fits 8) (storage s') ->
  chip_len s' = chip_len s -> sector_len s' = sector_len s -> unlock_addr s' = unlock_addr s ->
  ident s' = ident s -> cfi_table s' = cfi_table s -> cfi_len s' = cfi_len s -> pflash_ok s'.
Proof.
  intros [] Hc Hl Hf E1 E2 E3 E4 E5 E6. constructor; rewrite ?E1, ?E2, ?E3, ?E4, ?E5, ?E6; auto.
  by rewrite <- E1.
Qed.

Ltac cycle_tac :=
  unfold cycle_ok, upd; cbn; rewrite ?elem_of_cons;
  intuition (subst; (congruence || lia || auto)).

Ltac pok_tac :=
  match goal with H : pflash_ok ?s |- pflash_ok _ =>
    eapply (pflash_ok_cycle s); [exact H| |try exact (proj1 (pok_storage _ H))
      |try exact (proj2 (pok_storage _ H))|try reflexivity..] end.

Lemma reset_flash_keeps : keeps pflash_ok reset_flash.
Proof. intros s Hs. unfold reset_flash. wp_steps. pok_tac. left. cbn. split; [by left|done]. Qed.

Lemma do_bypass_keeps : keeps pflash_ok do_bypass.
Proof. intros s Hs. unfold do_bypass. wp_steps. pok_tac. left. cbn. split; [by right; right; left|done]. Qed.

Lemma enter_CFI_keeps : keeps pflash_ok enter_CFI_mode.
Proof. intros s Hs. unfold enter_CFI_mode. wp_steps. pok_tac. do 4 right. done. Qed.

(** Advancing is allowed where the next cycle takes the command. *)
Lemma next_cycle_ok s :
  pflash_ok s -> (wcycle s ∈ [0; 1] /\ cmd s = 0) \/ (wcycle s = 2 /\ cmd s ∈ [0x80; 0x90; 0xA0])
                 \/ (wcycle s ∈ [3; 4] /\ cmd s = 0x80) \/ (wcycle s = 5 /\ cmd s ∈ [0x10; 0x30]) ->
  wp next_cycle (fun _ s' _ => pflash_ok s') s.
Proof.
  intros Hs Hc. unfold next_cycle. wp_steps. pok_tac. unfold cycle_ok, upd. cbn.
  rewrite !elem_of_cons, ?elem_of_nil in *.
  destruct Hc as [[Hw Hc]|[[Hw Hc]|[[Hw Hc]|[Hw Hc]]]]; rewrite ?Hw; intuition (subst; auto);
    match goal with H : wcycle s = _ |- _ => rewrite H end; auto 10.
Qed.

Lemma unlock_ok s i : pflash_ok s -> 0 <= i < 2 -> exists u, aget (unlock_addr s) i = Some u.
Proof. intros Hs Hi. apply aget_Some. unfold zlen. rewrite (pok_unlock _ Hs). lia. Qed.

Lemma register_memory_keeps b : keeps pflash_ok (pflash_register_memory b).
Proof.
  intros s Hs. destruct (register_memory_done b s) as [es E]. unfold wp. rewrite E. pok_tac.
  exact (pok_cycle _ Hs).
Qed.

(** An aligned offset reduced to the chip. *)
Lemma mask_pow2 c x : 0 <= c <= 31 -> x .& u32 (2 ^ c - 1) = x mod 2 ^ c.
Proof.
  intros Hc. pose proof (Z.pow_pos_nonneg 2 c ltac:(lia) ltac:(lia)).
  pose proof (Z.pow_le_mono_r 2 c 31 ltac:(lia) ltac:(lia)).
  rewrite wrap_fits by (unfold fits; lia).
  replace (2 ^ c - 1) with (Z.ones c) by (rewrite Z.ones_equiv; lia). by rewrite Z.land_ones by lia.
Qed.

Lemma chip_offset s o n :
  pflash_ok s -> (n = 1%nat \/ n = 2%nat \/ n = 4%nat) -> (Z.of_nat n | o) ->
  0 <= o .& u32 (chip_len s - 1) /\ o .& u32 (chip_len s - 1) + Z.of_nat n <= chip_len s.
Proof.
  intros Hs Hn Hd. destruct (pok_chip _ Hs) as (c & Hc & -> & _). rewrite mask_pow2 by lia.
  pose proof (Z.mod_pos_bound o (2 ^ c) ltac:(lia)). split; [lia|].
  assert ((Z.of_nat n | 2 ^ c)) as Hnc.
  { apply Z.divide_trans with (2 ^ 2).
    - destruct Hn as [->|[->| ->]]; [exists 4|exists 2|exists 1]; lia.
    - exists (2 ^ (c - 2)). rewrite <- Z.pow_add_r by lia. f_equal. lia. }
  assert ((Z.of_nat n | o mod 2 ^ c)) as [q Hq].
  { rewrite Z.mod_eq by lia. apply Z.divide_sub_r; [done|]. by apply Z.divide_mul_l. }
  destruct Hnc as [r Hr]. nia.
Qed.

Lemma storage_512 s : pflash_ok s -> (512 | zlen (storage s)).
Proof.
  intros Hs. rewrite (proj1 (pok_storage _ Hs)). destruct (pok_chip _ Hs) as (c & Hc & -> & _).
  exists (2 ^ (c - 9)). change 512 with (2 ^ 9). rewrite <- Z.pow_add_r by lia. f_equal. lia.
Qed.

Lemma masked_at_bytes st o ms : Forall (fits 8) st -> Forall (fits 8) ms -> Forall (fits 8) (masked_at st o ms).
Proof.
  intros Hst Hms. unfold masked_at. apply Forall_app_2; [by apply Forall_take|].
  apply Forall_app_2; [|by apply Forall_drop].
  apply Forall_lookup. intros i x Hx. apply lookup_zip_with_Some in Hx as (a & b & -> & Ha & Hb).
  pose proof (Forall_lookup_1 _ _ _ _ Hms Hb).
  assert (fits 8 a) by (eapply Forall_lookup_1; [apply Forall_take, Forall_drop, Hst|exact Ha]).
  auto with width.
Qed.

Lemma afill_ok st o n : 0 <= o -> 0 <= n -> o + n <= zlen st -> Forall (fits 8) st ->
  exists st', afill st o n 0xFF = Some st' /\ zlen st' = zlen st /\ Forall (fits 8) st'.
Proof.
  intros Ho Hn Hlen Hst. unfold afill. replace (0 <=? o) with true by lia.
  replace (0 <=? n) with true by lia. replace (o + n <=? zlen st) with true by lia. cbn [andb].
  eexists. split_and!; [done| |].
  - unfold zlen in *. rewrite !length_app, length_take, length_replicate, length_drop. lia.
  - apply Forall_app_2; [by apply Forall_take|]. apply Forall_app_2; [|by apply Forall_drop].
    apply Forall_replicate. by vm_compute.
Qed.

Lemma program_data_keeps o v n be s :
  pflash_ok s -> (n = 1%nat \/ n = 2%nat \/ n = 4%nat) -> 0 <= o -> o + Z.of_nat n <= chip_len s ->
  wp (program_data o v (Z.of_nat n) be) (fun _ s' _ => pflash_ok s') s.
Proof.
  intros Hs Hn Ho Hlen. destruct (pok_storage _ Hs) as [Hz Hf].
  destruct (program_data_spec s o v n be) as [es E]; [done|done|lia|by apply storage_512|].
  unfold wp. rewrite E. cbv zeta.
  assert (length (word_bytes n be v) = n) as Hwl.
  { unfold word_bytes. destruct be; rewrite ?length_reverse; apply length_le_bytes. }
  assert (Forall (fits 8) (masked_at (storage s) (Z.to_nat o) (word_bytes n be v))) as Hmf.
  { apply masked_at_bytes; [done|]. unfold word_bytes. destruct be; [apply Forall_reverse|]; apply le_bytes_fit. }
  assert (zlen (masked_at (storage s) (Z.to_nat o) (word_bytes n be v)) = chip_len s) as Hml.
  { unfold zlen in *. rewrite length_masked_at; lia. }
  set (s1 := s <| storage := _ |> <| status := _ |>).
  assert (pflash_ok s1) as Hs1 by (pok_tac; [exact (pok_cycle _ Hs)|done|done]).
  clearbody s1. destruct (bypass s).
  - pok_tac. left. cbn. split; [by right; right; left|done].
  - pok_tac. left. cbn. split; [by left|done].
Qed.

Lemma erase_cycle_keeps o b c s :
  pflash_ok s -> wcycle s = 5 -> 0 <= o < chip_len s ->
  wp (erase_cycle o b c) (fun _ s' _ => pflash_ok s') s.
Proof.
  intros Hs Hw Ho. destruct (pok_storage _ Hs) as [Hz Hf]. pose proof (storage_512 _ Hs) as H512.
  unfold erase_cycle. wp_steps; unfold id in *.
  - destruct (unlock_ok s 0 Hs) as [u Hu]; [lia|]. eapply wp_lift; [exact Hu|].
    wp_steps; [by apply reset_flash_keeps|].
    destruct (afill_ok (storage s) 0 (chip_len s)) as (st & Hst & Hl & Hsf); [lia|lia|lia|done|].
    eapply wp_lift; [exact Hst|]. wp_steps.
    destruct (pflash_update_done 0 (chip_len s) (s <| storage := st |> <| status := 0 |>)) as [es E];
      [lia|lia|unfold upd; cbn; lia|unfold upd; cbn; by rewrite Hl|].
    unfold wp at 1. rewrite E. wp_steps. unfold next_cycle. wp_steps.
    unfold on in *. pok_tac; unfold upd; cbn; [|by rewrite Hl|done].
    unfold cycle_ok. cbn. rewrite Hw. do 3 right. left. split; [done|]. rewrite elem_of_cons. left. lia.
  - destruct (pok_chip _ Hs) as (cc & Hcc & Hchip & k & Hk & Hsec).
    assert (Hso : o .&~ u32 (sector_len s - 1) = o / 2 ^ k * 2 ^ k).
    { rewrite Hsec, wrap_fits.
      - replace (2 ^ k - 1) with (Z.ones k) by (rewrite Z.ones_equiv; lia).
        by rewrite Z.ldiff_ones_r, Z.shiftr_div_pow2, Z.shiftl_mul_pow2 by lia.
      - pose proof (Z.pow_pos_nonneg 2 k ltac:(lia) ltac:(lia)).
        pose proof (Z.pow_le_mono_r 2 k 31 ltac:(lia) ltac:(lia)). unfold fits. lia. }
    assert (0 <= o / 2 ^ k * 2 ^ k /\ o / 2 ^ k * 2 ^ k + 2 ^ k <= chip_len s) as [Hlo Hhi].
    { pose proof (Z.pow_pos_nonneg 2 k ltac:(lia) ltac:(lia)). split.
      - apply Z.mul_nonneg_nonneg; [apply Z.div_pos; lia|lia].
      - rewrite Hchip in *. replace (2 ^ cc) with (2 ^ (cc - k) * 2 ^ k) in *
          by (rewrite <- Z.pow_add_r by lia; f_equal; lia).
        assert (o / 2 ^ k < 2 ^ (cc - k)) by (apply Z.div_lt_upper_bound; lia). nia. }
    rewrite Hso. pose proof (Z.pow_nonneg 2 k ltac:(lia)).
    destruct (afill_ok (storage s) (o / 2 ^ k * 2 ^ k) (sector_len s)) as (st & Hst & Hl & Hsf);
      [lia|lia|lia|done|].
    eapply wp_lift; [exact Hst|]. wp_steps.
    destruct (pflash_update_done (o / 2 ^ k * 2 ^ k) (sector_len s) (s <| storage := st |>)) as [es E];
      [lia|lia|unfold upd; cbn; lia|unfold upd; cbn; by rewrite Hl|].
    unfold wp at 1. rewrite E. unfold next_cycle. wp_steps.
    unfold on in *. pok_tac; unfold upd; cbn; [|by rewrite Hl|done].
    unfold cycle_ok. cbn. rewrite Hw. do 3 right. left. split; [done|].
    rewrite !elem_of_cons. right. left. lia.
  - by apply reset_flash_keeps.
Qed.

Lemma check_unlock0_keeps b c s :
  pflash_ok s -> (wcycle s = 0 /\ cmd s = 0) \/ (wcycle s = 3 /\ cmd s = 0x80) ->
  wp (check_unlock0 b c) (fun _ s' _ => pflash_ok s') s.
Proof.
  intros Hs Hc. unfold check_unlock0. wp_steps; [by apply enter_CFI_keeps|].
  destruct (unlock_ok s 0 Hs) as [u Hu]; [lia|]. eapply wp_lift; [exact Hu|].
  wp_steps; [by apply reset_flash_keeps|]. apply next_cycle_ok; [done|].
  destruct Hc as [[-> ->]|[-> ->]]; [left|right; right; left]; by split; [left|].
Qed.

Lemma check_unlock1_keeps b c s :
  pflash_ok s -> (wcycle s = 1 /\ cmd s = 0) \/ (wcycle s = 4 /\ cmd s = 0x80) ->
  wp (check_unlock1 b c) (fun _ s' _ => pflash_ok s') s.
Proof.
  intros Hs Hc. unfold check_unlock1. wp_steps.
  destruct (unlock_ok s 1 Hs) as [u Hu]; [lia|]. eapply wp_lift; [exact Hu|].
  wp_steps; [by apply reset_flash_keeps|]. apply next_cycle_ok; [done|].
  destruct Hc as [[-> ->]|[-> ->]]; [left|right; right; left]; by split; [right; left|].
Qed.

Lemma command_cycle_keeps b c s :
  pflash_ok s -> wcycle s = 2 -> wp (command_cycle b c) (fun _ s' _ => pflash_ok s') s.
Proof.
  intros Hs Hw. unfold command_cycle. wp_steps.
  destruct (unlock_ok s 0 Hs) as [u Hu]; [lia|]. eapply wp_lift; [exact Hu|].
  wp_steps; try by apply reset_flash_keeps.
  - apply do_bypass_keeps. pok_tac. exact (pok_cycle _ Hs).
  - unfold next_cycle. wp_steps. pok_tac. right. left. unfold upd. cbn. rewrite Hw.
    split; [done|]. unfold on_any in *. rewrite !elem_of_cons. cbn in *. lia.
Qed.

(** The memory-mapped interface never leaves its state machine.  In a
    chip of power-of-two geometry, a write of any value at any aligned address
    and of any access width, and the expiry of the erase timer, are defined and
    keep the chip well formed: storage, sectors and tables are indexed in
    bounds, and the pair of cycle and pending command stays one of the listed
    ones, so the branches the code marks as "should never happen" never run. *)
Theorem flash_write_keeps_ok o v n be :
  (n = 1%nat \/ n = 2%nat \/ n = 4%nat) -> (Z.of_nat n | o) ->
  keeps pflash_ok (pflash_write o v (Z.of_nat n) be) /\ keeps pflash_ok pflash_timer.
Proof.
  intros Hn Ho. split; intros s Hs.
  - unfold pflash_write. destruct (chip_offset s o n Hs Hn Ho) as [Hlo Hhi].
    pose proof (pok_cycle _ Hs) as Hcy. unfold cycle_ok in Hcy.
    rewrite !elem_of_cons, !elem_of_nil in Hcy.
    wp_steps; unfold id, on, on_any in *; try by apply reset_flash_keeps.
    + destruct (register_memory_done false s) as [es E]. unfold wp at 1. rewrite E.
      apply check_unlock0_keeps; [pok_tac; exact (pok_cycle _ Hs)|left; unfold upd; cbn; lia].
    + apply check_unlock0_keeps; [done|]. left. lia.
    + apply check_unlock1_keeps; [done|]. left. lia.
    + apply command_cycle_keeps; [done|lia].
    + apply check_unlock0_keeps; [done|]. right. lia.
    + apply program_data_keeps; [done|done|lia|lia].
    + by apply enter_CFI_keeps.
    + done.
    + apply check_unlock1_keeps; [done|]. right. lia.
    + apply erase_cycle_keeps; [done|lia|]. destruct Hn as [->|[->| ->]]; lia.
    + done.
  - unfold pflash_timer. wp_steps; unfold id in *.
    + pok_tac. left. unfold upd. cbn. split; [by right; right; left|done].
    + destruct (register_memory_done true (s <| status ::= fun x => x .^ 0x80 |>)) as [es E].
      unfold wp at 1. rewrite E. wp_steps. pok_tac. left. unfold upd. cbn. split; [by left|done].
Qed.


(** ** Witnesses and findings *)

(** A chip of two 512-byte sectors without a block device, erased. *)
Definition nor_demo : pflash_t :=
  mk_pflash false 0 512 1024 1 1 0 false 0 0 [0xBF; 0x41; 0x25] [0; 0] 0 (zeros 0x52) 0 0 false
    (replicate 1024 0xFF) 0 0.

Lemma nor_demo_ok : pflash_ok nor_demo.
Proof.
  constructor; try reflexivity.
  - left. split; [left|reflexivity].
  - split; [reflexivity|]. apply Forall_replicate. by vm_compute.
  - exists 10. split; [lia|]. split; [reflexivity|]. exists 9. split; [lia|reflexivity].
  - split; [reflexivity|]. unfold nor_demo. cbn. lia.
Qed.

Lemma spi_read_witness :
  exists s', (pflash_cmd_set [NOR_SPI_READ; 0; 1; 2] ;;; pflash_set_rxlen 3 ;;;
              d <- parse_times 3 ;; z <- pflash_cmd_parse ;; ret (d, z)) nor_demo
             = Done (([0xFF; 0xFF; 0xFF], 0), s', []) /\ storage s' = storage nor_demo.
Proof.
  destruct (spi_read_returns_storage nor_demo 0 1 2 3) as (s' & E & Hst);
    [by vm_compute..|]. exists s'. split; [exact E|exact Hst].
Defined.

Lemma program_sequence_witness :
  exists s' es, program_sequence 0 0 4 0x1234 2 false nor_demo = Done (tt, s', es) /\
    pflash_read 4 2 false s' = Done (0x1234, s', []).
Proof.
  destruct (program_sequence_clears_bits nor_demo 0 0 0 0 4 0x1234 2 false)
    as (s' & es & E & _ & Er & _);
    [reflexivity|reflexivity|reflexivity|reflexivity|reflexivity|reflexivity|right; by left|lia
    |reflexivity|by vm_compute|by exists 2|apply nor_demo_ok|].
  exists s', es. split; [exact E|]. refine (eq_trans Er _). reflexivity.
Defined.

Lemma flash_write_witness :
  pflash_ok nor_demo /\ keeps pflash_ok (pflash_write 512 0x30 1 false) /\ keeps pflash_ok pflash_timer.
Proof.
  split; [exact nor_demo_ok|].
  destruct (flash_write_keeps_ok 512 0x30 1 false) as [H1 H2];
    [by left|by exists 512|]. split; [exact H1|exact H2].
Defined.

(** In autoselect mode a read of ID register 0x0F indexes [ident] with 3, past
    its three entries. *)
Lemma flash_id_read_out_of_bounds :
  pflash_read 0x0F 1 false (nor_demo <| cmd := 0x90 |> <| wcycle := 3 |>) = Undef.
Proof. reflexivity. Qed.

(** The JEDEC identification is indexed by [wordRx], which a new JEDECID
    command does not reset: after a READ the index is the last address read,
    and the fourth identification byte is past the table. *)
Lemma jedec_id_out_of_bounds :
  (pflash_cmd_set [NOR_SPI_JEDECID] ;;; parse_times 4) nor_demo = Undef.
Proof. reflexivity. Qed.
