(* ===== verification/I2cBus.v ===== *)
(** * I2cBus: the I2C bus, SMBus devices and the power and charger chips
    ([hw/i2c.c], [hw/smbus.c], [hw/pcf50633.c], [hw/s5l8930_i2cchg.c])

    A bus is a list of slaves with the one being addressed; what it needs of a
    slave is the class [I2CSlave].  An SMBus device is a slave: its state
    machine turns the bus events into the transactions of its [SMBusDeviceInfo],
    the table of callbacks a chip provides. *)
From S2P Require Import Prelude.

Inductive i2c_event := I2C_START_RECV | I2C_START_SEND | I2C_FINISH | I2C_NACK.

(** Nothing on these buses drives a line of the machine. *)
Abbreviation busM S := (dev S Empty_set).

(** What the bus asks of a slave: the entries of [I2CSlaveInfo] and the
    address the slave answers to. *)
Class I2CSlave (S : Type) := {
  address : S -> Z;
  set_address : Z -> S -> S;
  slave_event : i2c_event -> busM S unit;
  slave_recv : busM S Z;
  slave_send : Z -> busM S Z
}.

(** ** The bus *)
Section Bus.
Context {S : Type} `{I2CSlave S}.

Record i2c_bus := mk_bus { current_dev : option nat; children : list S; saved_address : Z }.

#[export] Instance eta_bus : Eta i2c_bus := fun b =>
  mk_bus (current_dev b) (children b) (saved_address b).

(** A call through the slave pointer [i]. *)
Definition on_slave {A} (i : nat) (m : busM S A) : busM i2c_bus A := fun b =>
  match children b !! i with
  | None => Undef
  | Some s =>
      match m s with
      | Done (a, s', e) => Done (a, b <| children := <[i := s']> (children b) |>, e)
      | HwError => HwError
      | Undef => Undef
      end
  end.

Definition i2c_bus_pre_save : busM i2c_bus unit :=
  b <- gets id ;;
  a <- match current_dev b with
       | Some i => on_slave i (gets address)
       | None => ret 0xff
       end ;;
  modify (fun b => b <| saved_address := a |>).

Definition i2c_bus_post_load : busM i2c_bus Z := modify (fun b => b <| current_dev := None |>) ;;; ret 0.

Definition i2c_slave_post_load (i : nat) : busM i2c_bus Z :=
  b <- gets id ;;
  a <- on_slave i (gets address) ;;
  when (saved_address b =? a) (modify (fun b => b <| current_dev := Some i |>)) ;;;
  ret 0.

Definition i2c_init_bus : i2c_bus := mk_bus None [] 0.

Definition i2c_set_slave_address (i : nat) (a : Z) : busM i2c_bus unit :=
  on_slave i (modify (set_address (u8 a))).

(** [qdev] links a new child at the head of the list. *)
Definition i2c_create_slave (s : S) (a : Z) (b : i2c_bus) : i2c_bus :=
  b <| children ::= fun l => set_address (u8 a) s :: l |>
    <| current_dev ::= fmap Datatypes.S |>.

Definition i2c_bus_busy (b : i2c_bus) : bool := bool_decide (is_Some (current_dev b)).

(** The first child that answers to [a]. *)
Fixpoint find_slave (a : Z) (l : list S) : option nat :=
  match l with
  | [] => None
  | s :: r => if address s =? a then Some 0%nat else Datatypes.S <$> find_slave a r
  end.

Definition i2c_start_transfer (a : Z) (recv : bool) : busM i2c_bus Z :=
  b <- gets id ;;
  match find_slave (if test a 1 then a .&~ 1 else a) (children b) with
  | None => ret 1
  | Some i =>
      modify (fun b => b <| current_dev := Some i |>) ;;;
      on_slave i (slave_event (if recv then I2C_START_RECV else I2C_START_SEND)) ;;;
      ret 0
  end.

Definition i2c_end_transfer : busM i2c_bus unit :=
  b <- gets id ;;
  match current_dev b with
  | None => ret tt
  | Some i =>
      on_slave i (slave_event I2C_FINISH) ;;;
      modify (fun b => b <| current_dev := None |>)
  end.

Definition i2c_send (data : Z) : busM i2c_bus Z :=
  b <- gets id ;;
  match current_dev b with
  | None => ret (- 1)
  | Some i => on_slave i (slave_send data)
  end.

Definition i2c_recv : busM i2c_bus Z :=
  b <- gets id ;;
  match current_dev b with
  | None => ret (- 1)
  | Some i => on_slave i slave_recv
  end.

Definition i2c_nack : busM i2c_bus unit :=
  b <- gets id ;;
  match current_dev b with
  | None => ret tt
  | Some i => on_slave i (slave_event I2C_NACK)
  end.

(** *** Master commands of [smbus.c] *)
Definition smbus_quick_command (addr : Z) (read : bool) : busM i2c_bus unit :=
  _ <- i2c_start_transfer addr read ;; i2c_end_transfer.

Definition smbus_receive_byte (addr : Z) : busM i2c_bus Z :=
  _ <- i2c_start_transfer addr true ;;
  data <- i2c_recv ;;
  i2c_nack ;;;
  i2c_end_transfer ;;;
  ret (u8 data).

Definition smbus_send_byte (addr data : Z) : busM i2c_bus unit :=
  _ <- i2c_start_transfer addr false ;; _ <- i2c_send data ;; i2c_end_transfer.

Definition smbus_read_byte (addr command : Z) : busM i2c_bus Z :=
  _ <- i2c_start_transfer addr false ;;
  _ <- i2c_send command ;;
  _ <- i2c_start_transfer addr true ;;
  data <- i2c_recv ;;
  i2c_nack ;;;
  i2c_end_transfer ;;;
  ret (u8 data).

Definition smbus_write_byte (addr command data : Z) : busM i2c_bus unit :=
  _ <- i2c_start_transfer addr false ;;
  _ <- i2c_send command ;;
  _ <- i2c_send data ;;
  i2c_end_transfer.

Definition smbus_read_word (addr command : Z) : busM i2c_bus Z :=
  _ <- i2c_start_transfer addr false ;;
  _ <- i2c_send command ;;
  _ <- i2c_start_transfer addr true ;;
  lo <- i2c_recv ;;
  hi <- i2c_recv ;;
  i2c_nack ;;;
  i2c_end_transfer ;;;
  ret (u16 (u16 lo .| (hi << 8))).

Definition smbus_write_word (addr command data : Z) : busM i2c_bus unit :=
  _ <- i2c_start_transfer addr false ;;
  _ <- i2c_send command ;;
  _ <- i2c_send (data .& 0xff) ;;
  _ <- i2c_send (u8 (data >> 8)) ;;
  i2c_end_transfer.

Fixpoint recv_bytes (n : nat) : busM i2c_bus (list Z) :=
  match n with
  | O => ret []
  | Datatypes.S n' => x <- i2c_recv ;; r <- recv_bytes n' ;; ret (u8 x :: r)
  end.
Fixpoint send_bytes (l : list Z) : busM i2c_bus unit :=
  match l with
  | [] => ret tt
  | x :: r => _ <- i2c_send x ;; send_bytes r
  end.

(** The caller's buffer is the list of bytes returned. *)
Definition smbus_read_block (addr command : Z) : busM i2c_bus (list Z) :=
  _ <- i2c_start_transfer addr false ;;
  _ <- i2c_send command ;;
  _ <- i2c_start_transfer addr true ;;
  len <- i2c_recv ;;
  data <- recv_bytes (if 32 <? len then 0 else Z.to_nat len) ;;
  i2c_nack ;;;
  i2c_end_transfer ;;;
  ret data.

Definition smbus_write_block (addr command : Z) (data : list Z) (len : Z) : busM i2c_bus unit :=
  let len := if 32 <? len then 32 else len in
  _ <- i2c_start_transfer addr false ;;
  _ <- i2c_send command ;;
  _ <- i2c_send (u8 len) ;;
  send_bytes (take (Z.to_nat len) data) ;;;
  i2c_end_transfer.
End Bus.
Arguments i2c_bus S : clear implicits.

(** ** SMBus devices *)

(** The callbacks of a chip over its own state [A]; a null one is [None]. *)
Record SMBusDeviceInfo (A : Type) := mk_smbus_info {
  quick_cmd : option (Z -> A -> A);
  send_byte : option (Z -> A -> A);
  receive_byte : option (A -> Z * A);
  write_data : option (Z -> list Z -> A -> A);
  read_data : option (Z -> Z -> A -> Z * A)
}.
Arguments mk_smbus_info {A}.
Arguments quick_cmd {A}.
Arguments send_byte {A}.
Arguments receive_byte {A}.
Arguments write_data {A}.
Arguments read_data {A}.

Inductive smbus_mode :=
  SMBUS_IDLE | SMBUS_WRITE_DATA | SMBUS_RECV_BYTE | SMBUS_READ_DATA | SMBUS_DONE | SMBUS_CONFUSED.

Section Smbus.
Context {A : Type}.

Record SMBusDevice := mk_smbus {
  i2c_address : Z; info : SMBusDeviceInfo A;
  mode : smbus_mode; data_len : Z; data_buf : list Z; command : Z;
  chip : A
}.

#[export] Instance eta_smbus : Eta SMBusDevice := fun d =>
  mk_smbus (i2c_address d) (info d) (mode d) (data_len d) (data_buf d) (command d) (chip d).

Abbreviation smbusM := (busM SMBusDevice).

Definition smbus_do_quick_cmd (recv : Z) : smbusM unit :=
  d <- gets id ;;
  match quick_cmd (info d) with
  | Some f => modify (fun d => d <| chip ::= f recv |>)
  | None => ret tt
  end.

Definition smbus_do_write : smbusM unit :=
  d <- gets id ;;
  if data_len d =? 0 then smbus_do_quick_cmd 0
  else if data_len d =? 1 then
    match send_byte (info d) with
    | Some f => x <- lift (aget (data_buf d) 0) ;; modify (fun d => d <| chip ::= f x |>)
    | None => ret tt
    end
  else
    c <- lift (aget (data_buf d) 0) ;;
    modify (fun d => d <| command := c |>) ;;;
    match write_data (info d) with
    | Some f =>
        modify (fun d => d <| chip ::= f c (take (Z.to_nat (data_len d - 1)) (drop 1 (data_buf d))) |>)
    | None => ret tt
    end.

Definition set_mode (m : smbus_mode) : smbusM unit := modify (fun d => d <| mode := m |>).

Definition smbus_i2c_event (e : i2c_event) : smbusM unit :=
  d <- gets id ;;
  match e with
  | I2C_START_SEND =>
      match mode d with
      | SMBUS_IDLE => set_mode SMBUS_WRITE_DATA
      | _ => set_mode SMBUS_CONFUSED
      end
  | I2C_START_RECV =>
      match mode d with
      | SMBUS_IDLE => set_mode SMBUS_RECV_BYTE
      | SMBUS_WRITE_DATA =>
          if data_len d =? 0 then set_mode SMBUS_CONFUSED
          else
            (if 1 <? data_len d then smbus_do_write
             else c <- lift (aget (data_buf d) 0) ;; modify (fun d => d <| command := c |>)) ;;;
            modify (fun d => d <| data_len := 0 |> <| mode := SMBUS_READ_DATA |>)
      | _ => set_mode SMBUS_CONFUSED
      end
  | I2C_FINISH =>
      match mode d with
      | SMBUS_WRITE_DATA => smbus_do_write
      | SMBUS_RECV_BYTE => smbus_do_quick_cmd 1
      | _ => ret tt
      end ;;;
      modify (fun d => d <| mode := SMBUS_IDLE |> <| data_len := 0 |>)
  | I2C_NACK =>
      match mode d with
      | SMBUS_DONE => ret tt
      | SMBUS_READ_DATA => set_mode SMBUS_DONE
      | _ => set_mode SMBUS_CONFUSED
      end
  end.

Definition smbus_i2c_recv : smbusM Z :=
  d <- gets id ;;
  match mode d with
  | SMBUS_RECV_BYTE =>
      x <- match receive_byte (info d) with
           | Some f => modify (fun d => d <| chip := snd (f (chip d)) |>) ;;; ret (u8 (fst (f (chip d))))
           | None => ret 0
           end ;;
      set_mode SMBUS_DONE ;;;
      ret x
  | SMBUS_READ_DATA =>
      match read_data (info d) with
      | Some f =>
          modify (fun d => d <| chip := snd (f (command d) (data_len d) (chip d)) |>
                             <| data_len ::= Z.succ |>) ;;;
          ret (u8 (fst (f (command d) (data_len d) (chip d))))
      | None => ret 0
      end
  | _ => set_mode SMBUS_CONFUSED ;;; ret 0
  end.

Definition smbus_i2c_send (data : Z) : smbusM Z :=
  d <- gets id ;;
  match mode d with
  | SMBUS_WRITE_DATA =>
      b <- lift (aset (data_len d) (u8 data) (data_buf d)) ;;
      modify (fun d => d <| data_buf := b |> <| data_len ::= Z.succ |>) ;;;
      ret 0
  | _ => ret 0
  end.

(** [smbus_register_device]: the slave table of every SMBus device. *)
#[export] Instance smbus_register_device : I2CSlave SMBusDevice := {
  address := i2c_address;
  set_address a d := d <| i2c_address := a |>;
  slave_event := smbus_i2c_event;
  slave_recv := smbus_i2c_recv;
  slave_send := smbus_i2c_send
}.

Definition smbus_device_new (t : SMBusDeviceInfo A) (c : A) : SMBusDevice :=
  mk_smbus 0 t SMBUS_IDLE 0 (zeros 34) 0 c.
End Smbus.
Arguments SMBusDevice A : clear implicits.

(** ** The chips: the power unit and the charger keep the last byte sent *)
Definition pcf50633State := Z.
Definition pcf50633_write_data (cmd : Z) (buf : list Z) (s : pcf50633State) : pcf50633State := s.
Definition pcf50633_read_data (cmd n : Z) (s : pcf50633State) : Z * pcf50633State := (0, s).
Definition pcf50633_quick_cmd (read : Z) (s : pcf50633State) : pcf50633State := s.
Definition pcf50633_send_byte (val : Z) (s : pcf50633State) : pcf50633State := val.
Definition pcf50633_receive_byte (s : pcf50633State) : Z * pcf50633State := (0xff, s).
Definition pcf50633_info : SMBusDeviceInfo pcf50633State :=
  mk_smbus_info (Some pcf50633_quick_cmd) (Some pcf50633_send_byte) (Some pcf50633_receive_byte)
    (Some pcf50633_write_data) (Some pcf50633_read_data).
Definition pcf50633_init (addr : Z) (b : i2c_bus (SMBusDevice pcf50633State)) :=
  i2c_create_slave (smbus_device_new pcf50633_info 0) addr b.

Definition ipadchgState := Z.
Definition ipadchg_write_data (cmd : Z) (buf : list Z) (s : ipadchgState) : ipadchgState := s.
Definition ipadchg_read_data (cmd n : Z) (s : ipadchgState) : Z * ipadchgState := (0, s).
Definition ipadchg_quick_cmd (read : Z) (s : ipadchgState) : ipadchgState := s.
Definition ipadchg_send_byte (val : Z) (s : ipadchgState) : ipadchgState := val.
Definition ipadchg_receive_byte (s : ipadchgState) : Z * ipadchgState := (0xff, s).
Definition ipadchg_info : SMBusDeviceInfo ipadchgState :=
  mk_smbus_info (Some ipadchg_quick_cmd) (Some ipadchg_send_byte) (Some ipadchg_receive_byte)
    (Some ipadchg_write_data) (Some ipadchg_read_data).
Definition ipadchg_init (addr : Z) (b : i2c_bus (SMBusDevice ipadchgState)) :=
  i2c_create_slave (smbus_device_new ipadchg_info 0) addr b.

(** The addresses the machines give them. *)
Definition PCF50633_ADDR_GET := 0xe6.
Definition PCF50633_ADDR := 0x74.
Definition S5L8930_CHG_ADDR := 0x08.

(** ** The SMBus transactions

    A master command of [smbus.c] run against an idle SMBus device through the
    bus is exactly one transaction of the chip's callbacks: the byte-level
    state machine refines the transaction-level interface. *)
Section Transactions.
Context {A : Type}.
Implicit Types (d : SMBusDevice A) (b : i2c_bus (SMBusDevice A)).

(** A device between two transactions. *)
Definition idle (d : SMBusDevice A) : Prop :=
  mode d = SMBUS_IDLE /\ data_len d = 0 /\ length (data_buf d) = 34%nat.

(** [d] is the [i]th child of [b] and the one that answers to [a]. *)
Definition answers (b : i2c_bus (SMBusDevice A)) (a : Z) (i : nat) (d : SMBusDevice A) : Prop :=
  children b !! i = Some d /\ find_slave (if test a 1 then a .&~ 1 else a) (children b) = Some i.

Lemma find_slave_insert a (l : list (SMBusDevice A)) i d d' :
  l !! i = Some d -> i2c_address d' = i2c_address d ->
  find_slave a (<[i := d']> l) = find_slave a l.
Proof.
  revert i. induction l as [|x l IH]; intros [|i] Hi Ha; try done.
  - injection Hi as ->. cbn. by rewrite Ha.
  - cbn. destruct (i2c_address x =? a); [done|]. f_equal. by apply IH.
Qed.

(** Rules for one call of the bus on the addressed device. *)
Lemma on_slave_eq {B : Type} b i d (m : busM (SMBusDevice A) B) r d' :
  children b !! i = Some d -> m d = Done (r, d', []) ->
  on_slave i m b = Done (r, b <| children := <[i := d']> (children b) |>, []).
Proof. intros Hi Hm. unfold on_slave. by rewrite Hi, Hm. Qed.

(** The bus while [i] is addressed, with that child's state. *)
Definition busy (b : i2c_bus (SMBusDevice A)) (i : nat) (d : SMBusDevice A) : i2c_bus (SMBusDevice A) :=
  b <| current_dev := Some i |> <| children := <[i := d]> (children b) |>.

Lemma start_eq b a i d0 d (recv : bool) d' :
  answers b a i d0 -> i2c_address d = i2c_address d0 ->
  smbus_i2c_event (if recv then I2C_START_RECV else I2C_START_SEND) d = Done (tt, d', []) ->
  i2c_start_transfer a recv (busy b i d) = Done (0, busy b i d', []).
Proof.
  intros [Hi Hf] Ha He. unfold i2c_start_transfer. run. unfold id.
  assert (children (busy b i d) !! i = Some d) as Hl
    by (apply list_lookup_insert_eq; by eapply lookup_lt_Some).
  unfold busy at 1, upd at 1. cbn [children].
  rewrite (find_slave_insert _ _ _ _ _ Hi Ha), Hf. run.
  rewrite (bind_silent _ _ _ _ _ (on_slave_eq (busy b i d) i d _ _ _ Hl He)).
  unfold ret. do 3 f_equal. unfold busy, upd. cbn. by rewrite list_insert_insert_eq.
Qed.

Lemma start_first_eq b a i d (recv : bool) d' :
  answers b a i d ->
  smbus_i2c_event (if recv then I2C_START_RECV else I2C_START_SEND) d = Done (tt, d', []) ->
  i2c_start_transfer a recv b = Done (0, busy b i d', []).
Proof.
  intros [Hi Hf] He. unfold i2c_start_transfer. run. unfold id. rewrite Hf. run.
  assert (children (b <| current_dev := Some i |>) !! i = Some d) as Hl by done.
  by rewrite (bind_silent _ _ _ _ _ (on_slave_eq _ i d _ _ _ Hl He)).
Qed.

Lemma busy_call {B : Type} b i d0 d (m : busM (SMBusDevice A) B) r d' :
  children b !! i = Some d0 -> m d = Done (r, d', []) ->
  on_slave i m (busy b i d) = Done (r, busy b i d', []).
Proof.
  intros Hi Hm. assert (children (busy b i d) !! i = Some d) as Hl
    by (apply list_lookup_insert_eq; by eapply lookup_lt_Some).
  rewrite (on_slave_eq _ i d _ _ _ Hl Hm). do 3 f_equal. unfold busy, upd. cbn.
  by rewrite list_insert_insert_eq.
Qed.

Lemma send_eq b i d0 d x r d' :
  children b !! i = Some d0 -> smbus_i2c_send x d = Done (r, d', []) ->
  i2c_send x (busy b i d) = Done (r, busy b i d', []).
Proof. intros Hi He. unfold i2c_send. run. exact (busy_call b i d0 d (smbus_i2c_send x) r d' Hi He). Qed.

Lemma recv_eq b i d0 d r d' :
  children b !! i = Some d0 -> smbus_i2c_recv d = Done (r, d', []) ->
  i2c_recv (busy b i d) = Done (r, busy b i d', []).
Proof. intros Hi He. unfold i2c_recv. run. exact (busy_call b i d0 d smbus_i2c_recv r d' Hi He). Qed.

Lemma nack_eq b i d0 d d' :
  children b !! i = Some d0 -> smbus_i2c_event I2C_NACK d = Done (tt, d', []) ->
  i2c_nack (busy b i d) = Done (tt, busy b i d', []).
Proof. intros Hi He. unfold i2c_nack. run. exact (busy_call b i d0 d (smbus_i2c_event I2C_NACK) tt d' Hi He). Qed.

(** The bus after the transaction, the device in state [d]. *)
Definition released (b : i2c_bus (SMBusDevice A)) (i : nat) (d : SMBusDevice A) : i2c_bus (SMBusDevice A) :=
  b <| children := <[i := d]> (children b) |> <| current_dev := None |>.

Lemma end_eq b i d0 d d' :
  children b !! i = Some d0 -> smbus_i2c_event I2C_FINISH d = Done (tt, d', []) ->
  i2c_end_transfer (busy b i d) = Done (tt, released b i d', []).
Proof.
  intros Hi He. unfold i2c_end_transfer. run. unfold id. change (current_dev (busy b i d)) with (Some i). cbv iota.
  change (@slave_event _ _ I2C_FINISH) with (@smbus_i2c_event A I2C_FINISH).
  by rewrite (bind_silent _ _ _ _ _ (busy_call b i d0 d (smbus_i2c_event I2C_FINISH) tt d' Hi He)).
Qed.


(** *** The states of a device during a transaction *)

(** What a transaction does not change. *)
Definition same_device d d' : Prop := i2c_address d' = i2c_address d /\ info d' = info d.

(** [l] has been written since the start condition. *)
Definition writing d (l : list Z) : Prop :=
  mode d = SMBUS_WRITE_DATA /\ data_len d = zlen l /\ length (data_buf d) = 34%nat /\
  take (length l) (data_buf d) = l.

(** Reading after command [c], [n] bytes so far. *)
Definition reading d (c n : Z) : Prop :=
  mode d = SMBUS_READ_DATA /\ command d = c /\ data_len d = n /\ length (data_buf d) = 34%nat.

(** What the chip makes of the bytes of a write. *)
Definition deliver (t : SMBusDeviceInfo A) (l : list Z) (x : A) : A :=
  match l with
  | [] => match quick_cmd t with Some f => f 0 x | None => x end
  | [b] => match send_byte t with Some f => f b x | None => x end
  | c :: r => match write_data t with Some f => f c r x | None => x end
  end.

Lemma start_writing d : idle d ->
  exists d', smbus_i2c_event I2C_START_SEND d = Done (tt, d', []) /\ writing d' [] /\
    same_device d d' /\ chip d' = chip d.
Proof.
  intros (Hm & Hl & Hb). unfold smbus_i2c_event. run. unfold id. rewrite Hm.
  eexists. split; [reflexivity|]. by repeat split.
Qed.

Lemma send_writing d l x : writing d l -> (length l < 34)%nat ->
  exists d', smbus_i2c_send x d = Done (0, d', []) /\ writing d' (l ++ [u8 x]) /\
    same_device d d' /\ chip d' = chip d.
Proof.
  intros (Hm & Hl & Hb & Ht) Hlt. unfold smbus_i2c_send. run. unfold id. rewrite Hm.
  rewrite (bind_lift _ _ _ (<[length l := u8 x]> (data_buf d))).
  2: { rewrite aset_Some by (unfold zlen in *; lia). do 2 f_equal. unfold zlen in *. lia. }
  run. eexists. split; [reflexivity|]. split; [|by repeat split].
  unfold writing, upd. cbn. rewrite length_insert. split_and!; [done| |done|].
  - unfold zlen in *. rewrite length_app. cbn. lia.
  - rewrite length_app. cbn. rewrite Nat.add_1_r.
    rewrite (take_S_r _ _ (u8 x)) by (apply list_lookup_insert_eq; lia).
    rewrite take_insert_ge by lia. by rewrite Ht.
Qed.

Lemma writing_get d l i x : writing d l -> l !! i = Some x -> aget (data_buf d) (Z.of_nat i) = Some x.
Proof.
  intros (_ & _ & _ & Ht) Hi. unfold aget. destruct (Z.ltb_spec (Z.of_nat i) 0); [lia|].
  rewrite Nat2Z.id. rewrite <- Ht in Hi. by apply lookup_take_Some in Hi as [? _].
Qed.

Lemma do_write_spec d l : writing d l ->
  exists d', smbus_do_write d = Done (tt, d', []) /\ chip d' = deliver (info d) l (chip d) /\
    same_device d d' /\ length (data_buf d') = 34%nat.
Proof.
  intros Hw. pose proof Hw as (Hm & Hl & Hb & Ht). unfold smbus_do_write. run. unfold id. rewrite Hl.
  unfold smbus_do_quick_cmd, zlen in *. destruct l as [|c [|x r]].
  - change (Z.of_nat (length []) =? 0) with true. cbv iota. run. unfold deliver, id.
    destruct (quick_cmd (info d)); eexists; split; [reflexivity|by repeat split
      |reflexivity|by repeat split].
  - change (Z.of_nat (length [c]) =? 0) with false. change (Z.of_nat (length [c]) =? 1) with true.
    cbv iota. pose proof (writing_get d _ 0 c Hw eq_refl) as Hg. change (Z.of_nat 0) with 0 in Hg.
    unfold deliver. destruct (send_byte (info d)).
    + rewrite (bind_lift _ _ _ _ Hg). eexists. split; [reflexivity|by repeat split].
    + eexists. split; [reflexivity|by repeat split].
  - rewrite (proj2 (Z.eqb_neq (Z.of_nat (length (c :: x :: r))) 0)) by (cbn [length]; lia).
    rewrite (proj2 (Z.eqb_neq (Z.of_nat (length (c :: x :: r))) 1)) by (cbn [length]; lia).
    pose proof (writing_get d _ 0 c Hw eq_refl) as Hg. change (Z.of_nat 0) with 0 in Hg.
    cbv iota. rewrite (bind_lift _ _ _ _ Hg). run.
    assert (take (Z.to_nat (data_len d - 1)) (drop 1 (data_buf d)) = x :: r) as Htk.
    { rewrite Hl. replace (Z.to_nat (Z.of_nat (length (c :: x :: r)) - 1)) with (length (x :: r)) by (cbn [length]; lia).
      destruct (data_buf d) as [|y buf]; [done|]. cbn in Ht. injection Ht as -> Ht. exact Ht. }
    unfold deliver. destruct (write_data (info d)); eexists; (split; [reflexivity|]); [|by repeat split].
    repeat split; try done. unfold upd. cbn [chip data_len data_buf]. by rewrite Htk.
Qed.

Lemma finish_writing d l : writing d l ->
  exists d', smbus_i2c_event I2C_FINISH d = Done (tt, d', []) /\ idle d' /\
    chip d' = deliver (info d) l (chip d) /\ same_device d d'.
Proof.
  intros Hw. destruct (do_write_spec d l Hw) as (d' & E & Hc & Hs & Hb). destruct Hw as (Hm & _).
  unfold smbus_i2c_event. run. unfold id. rewrite Hm, (bind_silent _ _ _ _ _ E).
  eexists. split; [reflexivity|]. by repeat split; destruct Hs.
Qed.

Lemma restart_reading d c : writing d [c] ->
  exists d', smbus_i2c_event I2C_START_RECV d = Done (tt, d', []) /\ reading d' c 0 /\
    chip d' = chip d /\ same_device d d'.
Proof.
  intros Hw. pose proof Hw as (Hm & Hl & Hb & _). unfold smbus_i2c_event. run. unfold id.
  rewrite Hm, Hl. change (zlen [c] =? 0) with false. change (1 <? zlen [c]) with false. cbv iota.
  rewrite bind_assoc, (bind_lift _ _ _ _ (writing_get d _ 0 c Hw eq_refl)). run.
  eexists. split; [reflexivity|]. by repeat split.
Qed.

Lemma recv_reading d c n f : reading d c n -> read_data (info d) = Some f ->
  exists d', smbus_i2c_recv d = Done (u8 (fst (f c n (chip d))), d', []) /\ reading d' c (n + 1) /\
    chip d' = snd (f c n (chip d)) /\ same_device d d'.
Proof.
  intros (Hm & Hc & Hn & Hb) Hf. unfold smbus_i2c_recv. run. unfold id. rewrite Hm, Hf. run.
  rewrite Hc, Hn. eexists. split; [reflexivity|]. repeat split; try done. unfold upd. cbn. lia.
Qed.

Lemma nack_reading d c n : reading d c n ->
  exists d', smbus_i2c_event I2C_NACK d = Done (tt, d', []) /\ mode d' = SMBUS_DONE /\
    length (data_buf d') = 34%nat /\ chip d' = chip d /\ same_device d d'.
Proof.
  intros (Hm & _ & _ & Hb). unfold smbus_i2c_event. run. unfold id. rewrite Hm.
  eexists. split; [reflexivity|]. by repeat split.
Qed.

Lemma finish_done d : mode d = SMBUS_DONE -> length (data_buf d) = 34%nat ->
  exists d', smbus_i2c_event I2C_FINISH d = Done (tt, d', []) /\ idle d' /\ chip d' = chip d /\
    same_device d d'.
Proof.
  intros Hm Hb. unfold smbus_i2c_event. run. unfold id. rewrite Hm. run.
  eexists. split; [reflexivity|]. by repeat split.
Qed.

Lemma same_device_trans d d' d'' : same_device d d' -> same_device d' d'' -> same_device d d''.
Proof. intros [? ?] [? ?]. split; congruence. Qed.

(** *** The transactions of a chip *)
Inductive transaction :=
  | TQuick (read : bool) | TReceiveByte | TSendByte (x : Z) | TWriteByte (c x : Z)
  | TWriteWord (c w : Z) | TWriteBlock (c : Z) (l : list Z) | TReadByte (c : Z) | TReadWord (c : Z).

(** What a chip with all five callbacks makes of a transaction. *)
Context (qc : Z -> A -> A) (sb : Z -> A -> A) (rb : A -> Z * A) (wd : Z -> list Z -> A -> A)
        (rd : Z -> Z -> A -> Z * A).
Definition full_info : SMBusDeviceInfo A := mk_smbus_info (Some qc) (Some sb) (Some rb) (Some wd) (Some rd).

Definition chip_transaction (t : transaction) (x : A) : Z * A :=
  match t with
  | TQuick r => (0, qc (if r then 1 else 0) x)
  | TReceiveByte => (u8 (fst (rb x)), snd (rb x))
  | TSendByte b => (0, sb b x)
  | TWriteByte c b => (0, wd c [b] x)
  | TWriteWord c w => (0, wd c [u8 w; u8 (w >> 8)] x)
  | TWriteBlock c l => (0, wd c (zlen l :: l) x)
  | TReadByte c => (u8 (fst (rd c 0 x)), snd (rd c 0 x))
  | TReadWord c =>
      let (lo, x1) := rd c 0 x in let (hi, x2) := rd c 1 x1 in (u8 lo .| (u8 hi << 8), x2)
  end.

(** The values a transaction can carry. *)
Definition transaction_ok (t : transaction) : Prop :=
  match t with
  | TQuick _ | TReceiveByte => True
  | TSendByte x => fits 8 x
  | TWriteByte c x => fits 8 c /\ fits 8 x
  | TWriteWord c w => fits 8 c /\ fits 16 w
  | TWriteBlock c l => fits 8 c /\ Forall (fits 8) l /\ zlen l <= 32
  | TReadByte c | TReadWord c => fits 8 c
  end.

(** The master command for it. *)
Definition master (addr : Z) (t : transaction) : busM (i2c_bus (SMBusDevice A)) Z :=
  match t with
  | TQuick r => smbus_quick_command addr r ;;; ret 0
  | TReceiveByte => smbus_receive_byte addr
  | TSendByte x => smbus_send_byte addr x ;;; ret 0
  | TWriteByte c x => smbus_write_byte addr c x ;;; ret 0
  | TWriteWord c w => smbus_write_word addr c w ;;; ret 0
  | TWriteBlock c l => smbus_write_block addr c l (zlen l) ;;; ret 0
  | TReadByte c => smbus_read_byte addr c
  | TReadWord c => smbus_read_word addr c
  end.

Lemma send_bytes_eq b i d0 d l ms :
  children b !! i = Some d0 -> writing d l -> (length l + length ms <= 34)%nat ->
  exists d', send_bytes ms (busy b i d) = Done (tt, busy b i d', []) /\ writing d' (l ++ map u8 ms) /\
    same_device d d' /\ chip d' = chip d.
Proof.
  intros Hi. revert d l. induction ms as [|m ms IH]; intros d l Hw Hlen.
  { exists d. cbn [map]. rewrite app_nil_r. split; [done|]. split; [exact Hw|]. by repeat split. }
  destruct (send_writing d l m Hw) as (d1 & E1 & Hw1 & Hs1 & Hc1); [cbn in Hlen; lia|].
  destruct (IH d1 (l ++ [u8 m]) Hw1) as (d2 & E2 & Hw2 & Hs2 & Hc2).
  { rewrite length_app. cbn in *. lia. }
  exists d2. cbn [send_bytes]. rewrite (bind_silent _ _ _ _ _ (send_eq b i d0 d m 0 d1 Hi E1)).
  rewrite E2. split; [done|]. rewrite <- app_assoc in Hw2.
  split; [exact Hw2|]. split; [by eapply same_device_trans|by rewrite Hc2].
Qed.

(** A write of the bytes [ms] between a start and a stop. *)
Lemma write_transfer b i d addr ms :
  answers b addr i d -> idle d -> (length ms <= 34)%nat ->
  exists d', (_ <- i2c_start_transfer addr false ;; send_bytes ms ;;; i2c_end_transfer) b
             = Done (tt, released b i d', []) /\ idle d' /\
    chip d' = deliver (info d) (map u8 ms) (chip d) /\ same_device d d'.
Proof.
  intros Ha Hidle Hlen. pose proof Ha as [Hi _].
  destruct (start_writing d Hidle) as (d1 & E1 & Hw1 & Hs1 & Hc1).
  destruct (send_bytes_eq b i d d1 [] ms Hi Hw1) as (d2 & E2 & Hw2 & Hs2 & Hc2); [done|].
  destruct (finish_writing d2 _ Hw2) as (d3 & E3 & Hid & Hc3 & Hs3).
  exists d3. rewrite (bind_silent _ _ _ _ _ (start_first_eq b addr i d false d1 Ha E1)).
  rewrite (bind_silent _ _ _ _ _ E2), (end_eq b i d d2 d3 Hi E3).
  split; [done|]. split; [done|]. split.
  - destruct Hs1 as [_ Ei1], Hs2 as [_ Ei2]. by rewrite Hc3, Hc2, Hc1, Ei2, Ei1.
  - exact (same_device_trans _ _ _ Hs1 (same_device_trans _ _ _ Hs2 Hs3)).
Qed.

Lemma send_bytes_cons {B : Type} m ms (k : unit -> busM (i2c_bus (SMBusDevice A)) B) b :
  bind (send_bytes (m :: ms)) k b = (_ <- i2c_send m ;; bind (send_bytes ms) k) b.
Proof. cbn [send_bytes]. by rewrite bind_assoc. Qed.

(** Writes as the bytes between their start and stop conditions. *)
Definition transaction_bytes (t : transaction) : option (list Z) :=
  match t with
  | TQuick false => Some []
  | TSendByte x => Some [x]
  | TWriteByte c x => Some [c; x]
  | TWriteWord c w => Some [c; w .& 0xff; u8 (w >> 8)]
  | TWriteBlock c l => Some (c :: u8 (zlen l) :: l)
  | _ => None
  end.

Lemma master_write addr t ms b :
  transaction_ok t -> transaction_bytes t = Some ms ->
  master addr t b = (_ <- i2c_start_transfer addr false ;; send_bytes ms ;;; i2c_end_transfer ;;; ret 0) b.
Proof.
  intros Hok Ht. destruct t; try destruct read; try discriminate Ht; injection Ht as <-;
    unfold master, smbus_quick_command, smbus_send_byte, smbus_write_byte, smbus_write_word,
      smbus_write_block; rewrite ?bind_assoc.
  - apply bind_ext. intros _ s. cbn [send_bytes]. by run.
  - apply bind_ext. intros _ s. rewrite send_bytes_cons, bind_assoc. apply bind_ext. intros _ s'.
    cbn [send_bytes]. by run.
  - apply bind_ext. intros _ s. rewrite send_bytes_cons, bind_assoc. apply bind_ext. intros _ s'.
    rewrite send_bytes_cons, bind_assoc. apply bind_ext. intros _ s''. cbn [send_bytes]. by run.
  - apply bind_ext. intros _ s. rewrite send_bytes_cons, bind_assoc. apply bind_ext. intros _ s'.
    rewrite send_bytes_cons, bind_assoc. apply bind_ext. intros _ s''.
    rewrite send_bytes_cons, bind_assoc. apply bind_ext. intros _ s3. cbn [send_bytes]. by run.
  - destruct Hok as (_ & _ & Hl). replace (32 <? zlen l) with false by lia.
    apply bind_ext. intros _ s. rewrite send_bytes_cons, bind_assoc. apply bind_ext. intros _ s'.
    rewrite send_bytes_cons, bind_assoc. apply bind_ext. intros _ s''.
    rewrite bind_assoc. unfold zlen. rewrite Nat2Z.id, firstn_all. done.
Qed.

(** *** The reading transactions *)
Lemma start_receiving d : idle d ->
  exists d', smbus_i2c_event I2C_START_RECV d = Done (tt, d', []) /\ mode d' = SMBUS_RECV_BYTE /\
    length (data_buf d') = 34%nat /\ same_device d d' /\ chip d' = chip d.
Proof.
  intros (Hm & Hl & Hb). unfold smbus_i2c_event. run. unfold id. rewrite Hm.
  eexists. split; [reflexivity|]. by repeat split.
Qed.

Lemma quick_read_transfer b addr i d :
  answers b addr i d -> idle d -> info d = full_info ->
  exists d', (smbus_quick_command addr true ;;; ret 0) b = Done (0, released b i d', []) /\
    chip d' = qc 1 (chip d) /\ idle d' /\ same_device d d'.
Proof.
  intros Ha Hidle Hfull. pose proof Ha as [Hi _].
  destruct (start_receiving d Hidle) as (d1 & E1 & Hm1 & Hb1 & Hs1 & Hc1).
  assert (exists d2, smbus_i2c_event I2C_FINISH d1 = Done (tt, d2, []) /\ idle d2 /\
            chip d2 = qc 1 (chip d1) /\ same_device d1 d2) as (d2 & E2 & Hid & Hc2 & Hs2).
  { unfold smbus_i2c_event, smbus_do_quick_cmd. run. unfold id. rewrite Hm1. run.
    destruct Hs1 as [_ Hi1]. rewrite Hi1, Hfull. cbn [quick_cmd full_info]. run.
    eexists. split; [reflexivity|]. by repeat split. }
  exists d2. unfold smbus_quick_command.
  rewrite bind_assoc, (bind_silent _ _ _ _ _ (start_first_eq b addr i d true d1 Ha E1)).
  rewrite (bind_silent _ _ _ _ _ (end_eq b i d d1 d2 Hi E2)).
  split; [done|]. split; [by rewrite Hc2, Hc1|]. split; [done|exact (same_device_trans _ _ _ Hs1 Hs2)].
Qed.

Lemma recv_receiving d1 :
  mode d1 = SMBUS_RECV_BYTE -> length (data_buf d1) = 34%nat -> info d1 = full_info ->
  exists d2, smbus_i2c_recv d1 = Done (u8 (fst (rb (chip d1))), d2, []) /\
    mode d2 = SMBUS_DONE /\ length (data_buf d2) = 34%nat /\
    chip d2 = snd (rb (chip d1)) /\ same_device d1 d2.
Proof.
  intros Hm Hb Hi. unfold smbus_i2c_recv. run. unfold id. rewrite Hm, Hi.
  cbn [receive_byte full_info]. run. eexists. split; [reflexivity|]. by repeat split.
Qed.

Lemma receive_byte_transfer b addr i d :
  answers b addr i d -> idle d -> info d = full_info ->
  exists d', smbus_receive_byte addr b = Done (u8 (fst (rb (chip d))), released b i d', []) /\
    chip d' = snd (rb (chip d)) /\ idle d' /\ same_device d d'.
Proof.
  intros Ha Hidle Hfull. pose proof Ha as [Hi _].
  destruct (start_receiving d Hidle) as (d1 & E1 & Hm1 & Hb1 & Hs1 & Hc1).
  destruct (recv_receiving d1) as (d2 & E2 & Hm2 & Hb2 & Hc2 & Hs2);
    [done|done|destruct Hs1 as [_ ->]; done|].
  assert (smbus_i2c_event I2C_NACK d2 = Done (tt, d2, [])) as E3.
  { unfold smbus_i2c_event. run. unfold id. by rewrite Hm2. }
  destruct (finish_done d2 Hm2 Hb2) as (d4 & E4 & Hid & Hc4 & Hs4).
  exists d4. unfold smbus_receive_byte.
  rewrite (bind_silent _ _ _ _ _ (start_first_eq b addr i d true d1 Ha E1)),
    (bind_silent _ _ _ _ _ (recv_eq b i d d1 _ d2 Hi E2)),
    (bind_silent _ _ _ _ _ (nack_eq b i d d2 d2 Hi E3)),
    (bind_silent _ _ _ _ _ (end_eq b i d d2 d4 Hi E4)).
  unfold ret. rewrite wrap_wrap, Hc1 by lia.
  split; [done|]. split; [by rewrite Hc4, Hc2, Hc1|]. split; [done|].
  exact (same_device_trans _ _ _ Hs1 (same_device_trans _ _ _ Hs2 Hs4)).
Qed.

(** The common start of the two reads: command byte, repeated start. *)
Lemma read_start b addr i d c :
  answers b addr i d -> idle d -> fits 8 c ->
  exists d', reading d' c 0 /\ chip d' = chip d /\ same_device d d' /\
    forall B (k : Z -> busM (i2c_bus (SMBusDevice A)) B),
      (_ <- i2c_start_transfer addr false ;; _ <- i2c_send c ;; x <- i2c_start_transfer addr true ;; k x) b
      = k 0 (busy b i d').
Proof.
  intros Ha Hidle Hc. pose proof Ha as [Hi _].
  destruct (start_writing d Hidle) as (d1 & E1 & Hw1 & Hs1 & Hc1).
  destruct (send_writing d1 [] c Hw1) as (d2 & E2 & Hw2 & Hs2 & Hc2); [cbn; lia|].
  rewrite wrap_fits in Hw2 by done.
  destruct (restart_reading d2 c Hw2) as (d3 & E3 & Hr3 & Hc3 & Hs3).
  pose proof (same_device_trans _ _ _ Hs1 Hs2) as Hs12.
  exists d3. split; [done|]. split; [by rewrite Hc3, Hc2, Hc1|].
  split; [exact (same_device_trans _ _ _ Hs12 Hs3)|]. intros B k.
  rewrite (bind_silent _ _ _ _ _ (start_first_eq b addr i d false d1 Ha E1)),
    (bind_silent _ _ _ _ _ (send_eq b i d d1 c _ d2 Hi E2)),
    (bind_silent _ _ _ _ _ (start_eq b addr i d d2 true d3 Ha (proj1 Hs12) E3)). done.
Qed.

Lemma read_byte_transfer b addr i d c :
  answers b addr i d -> idle d -> info d = full_info -> fits 8 c ->
  exists d', smbus_read_byte addr c b = Done (u8 (fst (rd c 0 (chip d))), released b i d', []) /\
    chip d' = snd (rd c 0 (chip d)) /\ idle d' /\ same_device d d'.
Proof.
  intros Ha Hidle Hfull Hc. pose proof Ha as [Hi _].
  destruct (read_start b addr i d c Ha Hidle Hc) as (d1 & Hr1 & Hc1 & Hs1 & E1).
  assert (read_data (info d1) = Some rd) as Hrd by (destruct Hs1 as [_ ->]; by rewrite Hfull).
  destruct (recv_reading d1 c 0 rd Hr1 Hrd) as (d2 & E2 & Hr2 & Hc2 & Hs2).
  destruct (nack_reading d2 c _ Hr2) as (d3 & E3 & Hm3 & Hb3 & Hc3 & Hs3).
  destruct (finish_done d3 Hm3 Hb3) as (d4 & E4 & Hid & Hc4 & Hs4).
  exists d4. unfold smbus_read_byte. rewrite E1,
    (bind_silent _ _ _ _ _ (recv_eq b i d d1 _ d2 Hi E2)),
    (bind_silent _ _ _ _ _ (nack_eq b i d d2 d3 Hi E3)),
    (bind_silent _ _ _ _ _ (end_eq b i d d3 d4 Hi E4)).
  unfold ret. rewrite wrap_wrap, Hc1 by lia.
  split; [done|]. split; [by rewrite Hc4, Hc3, Hc2, Hc1|]. split; [done|].
  exact (same_device_trans _ _ _ (same_device_trans _ _ _ Hs1 Hs2) (same_device_trans _ _ _ Hs3 Hs4)).
Qed.

Lemma read_word_transfer b addr i d c :
  answers b addr i d -> idle d -> info d = full_info -> fits 8 c ->
  exists d', smbus_read_word addr c b
      = Done (fst (chip_transaction (TReadWord c) (chip d)), released b i d', []) /\
    chip d' = snd (chip_transaction (TReadWord c) (chip d)) /\ idle d' /\ same_device d d'.
Proof.
  intros Ha Hidle Hfull Hc. pose proof Ha as [Hi _].
  destruct (read_start b addr i d c Ha Hidle Hc) as (d1 & Hr1 & Hc1 & Hs1 & E1).
  assert (read_data (info d1) = Some rd) as Hrd by (destruct Hs1 as [_ ->]; by rewrite Hfull).
  destruct (recv_reading d1 c 0 rd Hr1 Hrd) as (d2 & E2 & Hr2 & Hc2 & Hs2).
  assert (read_data (info d2) = Some rd) as Hrd2 by (destruct Hs2 as [_ ->]; done).
  destruct (recv_reading d2 c _ rd Hr2 Hrd2) as (d3 & E3 & Hr3 & Hc3 & Hs3).
  destruct (nack_reading d3 c _ Hr3) as (d4 & E4 & Hm4 & Hb4 & Hc4 & Hs4).
  destruct (finish_done d4 Hm4 Hb4) as (d5 & E5 & Hid & Hc5 & Hs5).
  exists d5. unfold smbus_read_word. rewrite E1,
    (bind_silent _ _ _ _ _ (recv_eq b i d d1 _ d2 Hi E2)),
    (bind_silent _ _ _ _ _ (recv_eq b i d d2 _ d3 Hi E3)),
    (bind_silent _ _ _ _ _ (nack_eq b i d d3 d4 Hi E4)),
    (bind_silent _ _ _ _ _ (end_eq b i d d4 d5 Hi E5)).
  cbn [chip_transaction]. rewrite Hc1 in Hc2 |- *. rewrite Hc2 in Hc3 |- *.
  destruct (rd c 0 (chip d)) as [lo x1] eqn:El. cbn [fst snd] in *.
  destruct (rd c (0 + 1) x1) as [hi x2] eqn:Eh. change (0 + 1) with 1 in Eh. rewrite Eh.
  cbn [fst snd] in *. unfold ret. split.
  - do 3 f_equal. rewrite wrap_fits; [rewrite wrap_fits; [done|]|].
    + apply fits_weaken with 8; [lia|]. auto with width.
    + apply fits_lor; [lia|auto with width|]. pose proof (fits_wrap 8 hi ltac:(lia)).
      unfold fits in *. rewrite Z.shiftl_mul_pow2 by lia. lia.
  - split; [by rewrite Hc5, Hc4, Hc3|]. split; [done|].
    exact (same_device_trans _ _ _ (same_device_trans _ _ _ Hs1 Hs2)
             (same_device_trans _ _ _ Hs3 (same_device_trans _ _ _ Hs4 Hs5))).
Qed.

End Transactions.

(** ** Addressing *)

(** The address a start condition looks for is even. *)
Lemma start_address_even a : Z.testbit (if test a 1 then a .&~ 1 else a) 0 = false.
Proof.
  change 1 with (bit 0). rewrite test_true_bit by lia. destruct (Z.testbit a 0) eqn:E; [|done].
  rewrite Z.ldiff_spec. apply andb_false_r.
Qed.

Lemma find_slave_spec {S} `{I2CSlave S} a (l : list S) :
  match find_slave a l with
  | Some i => exists s, l !! i = Some s /\ address s = a /\ forall j t, (j < i)%nat -> l !! j = Some t -> address t <> a
  | None => forall j t, l !! j = Some t -> address t <> a
  end.
Proof.
  induction l as [|x l IH]; cbn; [by intros []|].
  destruct (Z.eqb_spec (address x) a) as [Ha|Ha].
  { exists x. split_and!; [done|done|]. intros; lia. }
  destruct (find_slave a l) as [i|]; cbn.
  - destruct IH as (s & Hs & Has & Hj). exists s. split_and!; [done|done|].
    intros [|j] t Hlt Ht; cbn in Ht; [by injection Ht as <-|]. apply (Hj j); [lia|done].
  - intros [|j] t Ht; cbn in Ht; [by injection Ht as <-|]. by apply (IH j).
Qed.

(** A start condition addresses the first child of the bus whose address
    is the requested one with its low bit cleared; when there is none it
    returns 1 and changes nothing.  In particular a child with an odd address
    is never addressed. *)
Theorem start_transfer_addresses {A} (b : i2c_bus (SMBusDevice A)) a recv :
  let a' := if test a 1 then a .&~ 1 else a in
  ((forall j t, children b !! j = Some t -> i2c_address t <> a') ->
   i2c_start_transfer a recv b = Done (1, b, [])) /\
  (forall r b' es i, i2c_start_transfer a recv b = Done (r, b', es) -> current_dev b' = Some i ->
   current_dev b <> Some i ->
   exists t, children b !! i = Some t /\ i2c_address t = a' /\ Z.testbit (i2c_address t) 0 = false /\
     forall j u, (j < i)%nat -> children b !! j = Some u -> i2c_address u <> a').
Proof.
  intros a'. pose proof (find_slave_spec a' (children b)) as Hf.
  unfold i2c_start_transfer. rewrite !bind_gets. unfold id. fold a'. split.
  - intros Hno. destruct (find_slave a' (children b)) as [i|]; [|done].
    destruct Hf as (s & Hs & Ha & _). by destruct (Hno i s Hs).
  - intros r b' es i.
    destruct (find_slave a' (children b)) as [k|].
    + destruct Hf as (s & Hs & Ha & Hfirst). rewrite bind_modify.
      unfold bind, on_slave. cbn [children upd]. unfold upd at 1 2. cbn [children].
      rewrite Hs. destruct (slave_event _ s) as [[[[] s'] e']| |]; [|discriminate..].
      unfold ret. intros [= <- <- <-]. unfold upd. cbn. intros [= ->] _.
      exists s. split_and!; [done|done| |done]. change (i2c_address s) with (address s).
      rewrite Ha. apply start_address_even.
    + unfold ret. intros [= <- <- <-] Hc Hn. congruence.
Qed.

(** ** Witnesses and findings *)

(** The first bus of the S5L8930: the charger linked before the power unit. *)
Definition i2c0_8930 : i2c_bus (SMBusDevice Z) :=
  ipadchg_init S5L8930_CHG_ADDR (pcf50633_init PCF50633_ADDR i2c_init_bus).


Lemma start_transfer_witness :
  i2c_start_transfer 0x50 true i2c0_8930 = Done (1, i2c0_8930, []) /\
  exists t b', i2c_start_transfer 0x75 false i2c0_8930 = Done (0, b', []) /\
    children i2c0_8930 !! 1%nat = Some t /\ i2c_address t = 0x74.
Proof.
  destruct (start_transfer_addresses i2c0_8930 0x50 true) as [Hno _].
  destruct (start_transfer_addresses i2c0_8930 0x75 false) as [_ Hyes].
  split.
  - apply Hno. intros [|[|j]] t; cbn; [| |done]; by intros [= <-].
  - destruct (Hyes 0 _ [] 1%nat eq_refl eq_refl) as (t & Ht & Ha & _); [discriminate|].
    exists t. eexists. split; [reflexivity|]. split; [exact Ht|]. exact Ha.
Defined.

(** The S5L8900 gives its power unit the address 0xe6 >> 1 = 0x73, which is
    odd: no start condition ever reaches it. *)
Lemma power_unit_unreachable a recv :
  i2c_start_transfer a recv (pcf50633_init (PCF50633_ADDR_GET >> 1) i2c_init_bus)
  = Done (1, pcf50633_init (PCF50633_ADDR_GET >> 1) i2c_init_bus, []).
Proof.
  unfold i2c_start_transfer. rewrite bind_gets. unfold id.
  pose proof (start_address_even a) as He. set (a' := if test a 1 then _ else _) in *.
  assert (find_slave a' (children (pcf50633_init (PCF50633_ADDR_GET >> 1) i2c_init_bus))
          = if 0x73 =? a' then Some 0%nat else None) as -> by reflexivity.
  destruct (Z.eqb_spec 0x73 a') as [<-|]; [discriminate He|reflexivity].
Qed.

(** A write of more than 34 bytes runs past [data_buf]. *)
Lemma smbus_send_overflow :
  send_bytes (zeros 35) (busy i2c0_8930 1 ((smbus_device_new pcf50633_info 0) <| mode := SMBUS_WRITE_DATA |>))
  = Undef.
Proof. vm_compute. reflexivity. Qed.
