(* ===== verification/I2cCtl.v ===== *)
(** * I2cCtl: the I2C controllers ([hw/s5l8900_i2c.c], [hw/s5l8930_i2c.c])

    Each controller is a master of one bus of SMBus chips; the module of a
    controller has its registers, its handlers, and the theorem that a transfer
    programmed through its registers is a transaction of the addressed chip. *)
From S2P Require Import Prelude Savevm I2cBus.

Abbreviation chip_bus := (i2c_bus (SMBusDevice Z)).

(** The interrupt line of a controller. *)
Inductive i2c_line := I2cIrq (level : bool).

(** The modes in bits 6 and 7 of the status register. *)
Definition SR_MODE := 0x0.
Definition ST_MODE := 0x1.
Definition MR_MODE := 0x2.
Definition MT_MODE := 0x3.

Module S5L8900I2C.

Definition I2CCON := 0x00.
Definition I2CSTAT := 0x04.
Definition I2CADD := 0x08.
Definition I2CDS := 0x0c.
Definition I2CLC := 0x10.
Definition IICREG20 := 0x20.

Definition S5L8900_IICCON_ACKEN := bit 7.
Definition S5L8900_IICCON_IRQEN := bit 5.
Definition S5L8900_IICCON_IRQPEND := bit 4.
Definition S5L8900_IICSTAT_START := bit 5.
Definition S5L8900_IICSTAT_TXRXEN := bit 4.
Definition S5L8900_IICSTAT_LASTBIT := bit 0.

Record S5L8900I2CState := mk_i2c {
  bus : chip_bus;
  control : Z; status : Z; address : Z; datashift : Z; line_ctrl : Z; iicreg20 : Z; active : Z;
  ibmr : Z; data : Z
}.

#[export] Instance eta_i2c : Eta S5L8900I2CState := fun s =>
  mk_i2c (bus s) (control s) (status s) (address s) (datashift s) (line_ctrl s) (iicreg20 s)
    (active s) (ibmr s) (data s).

Abbreviation ctlM := (dev S5L8900I2CState i2c_line).

(** A call on [s->bus]. *)
Definition on_bus {A} (m : busM chip_bus A) : ctlM A :=
  zoom bus (fun b s => s <| bus := b |>) (fun e : Empty_set => match e with end) m.

(** The level it computes is not driven: the line is commented out. *)
Definition s5l8900_i2c_update : ctlM unit := ret tt.

Definition s5l8900_i2c_receive : ctlM Z :=
  r <- on_bus i2c_recv ;; s5l8900_i2c_update ;;; ret r.

Definition s5l8900_i2c_send (x : Z) : ctlM Z :=
  s <- gets id ;;
  when (negb (test (status s) S5L8900_IICSTAT_LASTBIT))
    (modify (fun s => s <| status ::= fun v => v .| S5L8900_IICCON_ACKEN |>
                        <| data := x |>
                        <| iicreg20 ::= fun v => v .| 0x100 |>) ;;;
     _ <- on_bus (i2c_send x) ;; ret tt) ;;;
  s5l8900_i2c_update ;;;
  ret 1.

Definition s5l8900_i2c_read (offset : Z) : ctlM Z :=
  switch offset
    [ (on I2CCON, gets control);
      (on I2CSTAT, gets status);
      (on I2CADD, gets address);
      (on I2CDS,
         modify (fun s => s <| iicreg20 ::= fun v => v .| 0x100 |>) ;;;
         r <- s5l8900_i2c_receive ;;
         modify (fun s => s <| data := u8 r |>) ;;;
         gets data);
      (on I2CLC, gets line_ctrl);
      (on IICREG20,
         r <- gets iicreg20 ;;
         modify (fun s => s <| iicreg20 ::= fun v => v .&~ 0x100 |>) ;;;
         modify (fun s => s <| iicreg20 ::= fun v => v .&~ 0x2000 |>) ;;;
         ret r) ]
    (ret 0).

(** The START and STOP conditions of the two master modes. *)
Definition master_condition (value : Z) (recv : bool) : ctlM unit :=
  if test value S5L8900_IICSTAT_START then
    modify (fun s => s <| status ::= fun v => v .&~ S5L8900_IICSTAT_LASTBIT |>
                       <| iicreg20 ::= fun v => v .| 0x100 |> <| active := 1 |>) ;;;
    s <- gets id ;;
    _ <- on_bus (i2c_start_transfer (data s >> 1) recv) ;;
    ret tt
  else
    on_bus i2c_end_transfer ;;;
    modify (fun s => s <| active := 0 |> <| status ::= fun v => v .| S5L8900_IICSTAT_TXRXEN |>).

(** After the status register has been updated: the mode's action. *)
Definition status_action (value : Z) : ctlM unit :=
  s <- gets id ;;
  when (test value S5L8900_IICSTAT_TXRXEN)
    (switch ((status s >> 6) .& 0x3)
       [ (on_any [SR_MODE; ST_MODE],
            r <- s5l8900_i2c_receive ;; modify (fun s => s <| data := u8 r |>));
         (on MR_MODE, master_condition value true);
         (on MT_MODE, master_condition value false) ]
       (ret tt)) ;;;
  s5l8900_i2c_update.

Definition write_status (value : Z) : ctlM unit :=
  s <- gets id ;;
  if (active s =? 0) && negb (status s >> 6 =? value >> 6) then
    modify (fun s => s <| status := value .& 0xff |>) ;;; status_action value
  else if negb (active s =? 0) && negb (status s >> 6 =? value >> 6) then
    on_bus i2c_end_transfer ;;;
    modify (fun s => s <| active := 0 |>
                       <| status := (value .& 0xff) .| S5L8900_IICSTAT_TXRXEN |>)
  else status_action value.

Definition s5l8900_i2c_write (offset value : Z) : ctlM unit :=
  emit (I2cIrq false) ;;;
  switch offset
    [ (on I2CCON,
         s <- gets id ;;
         when (negb (value .&~ S5L8900_IICCON_ACKEN =? 0))
           (modify (fun s => s <| iicreg20 ::= fun v => v .| 0x100 |>)) ;;;
         when (test value 0x10 && (status s =? 0x90))
           (modify (fun s => s <| iicreg20 ::= fun v => v .| 0x2000 |>)) ;;;
         modify (fun s => s <| control := value .& 0xff |>) ;;;
         when (test value S5L8900_IICCON_IRQEN) s5l8900_i2c_update);
      (on I2CSTAT, write_status value);
      (on I2CADD, modify (fun s => s <| address := value .& 0xff |>));
      (on I2CDS, _ <- s5l8900_i2c_send (value .& 0xff) ;; ret tt);
      (on I2CLC, modify (fun s => s <| line_ctrl := value .& 0xff |>)) ]
    (ret tt).

Definition s5l8900_i2c_save (s : S5L8900I2CState) : stream :=
  qemu_put_8s (control s) ++ qemu_put_8s (status s) ++ qemu_put_8s (address s) ++
  qemu_put_8s (datashift s) ++ qemu_put_8s (line_ctrl s) ++ qemu_put_8s (ibmr s) ++
  qemu_put_8s (data s).

Definition s5l8900_i2c_load (s : S5L8900I2CState) (version_id : Z) : loader (Z * S5L8900I2CState) :=
  if negb (version_id =? 1) then ret (- EINVAL, s) else
  a <- qemu_get_8s ;; b <- qemu_get_8s ;; c <- qemu_get_8s ;; d <- qemu_get_8s ;;
  e <- qemu_get_8s ;; f <- qemu_get_8s ;; g <- qemu_get_8s ;;
  ret (0, s <| control := a |> <| status := b |> <| address := c |> <| datashift := d |>
            <| line_ctrl := e |> <| ibmr := f |> <| data := g |>).

Definition s5l8900_i2c_init (b : chip_bus) : S5L8900I2CState := mk_i2c b 0 0 0 0 0 0 0 0 0.

(** *** Transfers *)

Lemma on_bus_eq {A} (m : busM chip_bus A) s a b :
  m (bus s) = Done (a, b, []) -> on_bus m s = Done (a, s <| bus := b |>, []).
Proof. intros H. unfold on_bus. by rewrite (zoom_silent _ _ _ _ _ _ _ H). Qed.

(** One write of the data register. *)
Lemma write_data_register s x r b :
  test (status s) S5L8900_IICSTAT_LASTBIT = false -> fits 8 x -> i2c_send x (bus s) = Done (r, b, []) ->
  exists s', s5l8900_i2c_write I2CDS x s = Done (tt, s', [I2cIrq false]) /\ bus s' = b /\
    status s' = status s .| 0x80 /\ data s' = x /\ active s' = active s.
Proof.
  intros Ht Hx Hs. assert (x .& 0xff = x) as Hm.
  { change 0xff with (Z.ones 8). rewrite Z.land_ones by lia. by apply wrap_fits. }
  unfold s5l8900_i2c_write. erewrite bind_Done by reflexivity. pick 3%nat. rewrite Hm.
  unfold s5l8900_i2c_send, s5l8900_i2c_update. run. unfold id. rewrite Ht. cbn [negb when]. run.
  set (s1 := s <| status := _ |> <| data := x |> <| iicreg20 ::= _ |>).
  rewrite (bind_silent _ _ s1 r (s1 <| bus := b |>)) by by apply on_bus_eq.
  run. eexists. split; [reflexivity|]. done.
Qed.

(** A start condition written to the status register, while no transfer runs. *)
Lemma write_start s v recv b (st := if status s >> 6 =? v >> 6 then status s else v .& 0xff) :
  active s = 0 -> test v S5L8900_IICSTAT_TXRXEN = true -> test v S5L8900_IICSTAT_START = true ->
  (st >> 6) .& 3 = (if recv : bool then MR_MODE else MT_MODE) ->
  i2c_start_transfer (data s >> 1) recv (bus s) = Done (0, b, []) ->
  exists s', s5l8900_i2c_write I2CSTAT v s = Done (tt, s', [I2cIrq false]) /\ bus s' = b /\
    status s' = st .&~ 1 /\ data s' = data s /\ active s' = 1.
Proof.
  intros Ha Htx Hst Hmode Hb. unfold s5l8900_i2c_write. erewrite bind_Done by reflexivity. pick 1%nat.
  assert (forall s1, bus s1 = bus s -> data s1 = data s -> status s1 = st ->
            exists s', status_action v s1 = Done (tt, s', []) /\ bus s' = b /\
              status s' = st .&~ 1 /\ data s' = data s /\ active s' = 1) as Hact.
  { intros s1 Hb1 Hd1 Hs1. unfold status_action, s5l8900_i2c_update. run. unfold id.
    rewrite Htx, Hs1, Hmode. cbn [when].
    assert (exists s', master_condition v recv s1 = Done (tt, s', []) /\ bus s' = b /\
              status s' = st .&~ 1 /\ data s' = data s /\ active s' = 1) as (s' & E & Hrest).
    { unfold master_condition. rewrite Hst. run. unfold id.
      set (s2 := s1 <| status ::= _ |> <| iicreg20 ::= _ |> <| active := 1 |>).
      rewrite (bind_silent _ _ s2 0 (s2 <| bus := b |>)).
      - eexists. split; [reflexivity|]. split_and!; [done| |done|done]. unfold s2, upd. cbn. by rewrite Hs1.
      - apply on_bus_eq. change (data s2) with (data s1). change (bus s2) with (bus s1).
        by rewrite Hb1, Hd1. }
    exists s'. split; [|done].
    destruct recv; [pick 1%nat|pick 2%nat]; by rewrite (bind_silent _ _ _ _ _ E). }
  unfold write_status. run. unfold id. rewrite Ha. change (0 =? 0) with true. cbn [andb negb].
  subst st. destruct (status s >> 6 =? v >> 6) eqn:E; cbn [negb].
  - destruct (Hact s) as (s' & Es & Hrest); [done|done|done|]. exists s'. by rewrite Es.
  - run. destruct (Hact (s <| status := v .& 0xff |>)) as (s' & Es & Hrest); [done|done|done|].
    exists s'. by rewrite Es.
Qed.

(** A read of the data register during a transfer. *)
Lemma read_data_register s r b :
  i2c_recv (bus s) = Done (r, b, []) ->
  exists s', s5l8900_i2c_read I2CDS s = Done (u8 r, s', []) /\ bus s' = b /\
    status s' = status s /\ active s' = active s.
Proof.
  intros Hr. unfold s5l8900_i2c_read. pick 3%nat. unfold s5l8900_i2c_receive, s5l8900_i2c_update. run.
  set (s1 := s <| iicreg20 ::= _ |>).
  rewrite (bind_silent _ _ s1 r (s1 <| bus := b |>)) by by apply on_bus_eq. run.
  eexists. split; [reflexivity|]. done.
Qed.

(** A stop condition in the mode of the running transfer. *)
Lemma write_stop s v (recv : bool) b :
  active s = 1 -> test v S5L8900_IICSTAT_TXRXEN = true -> test v S5L8900_IICSTAT_START = false ->
  status s >> 6 = v >> 6 -> (status s >> 6) .& 3 = (if recv then MR_MODE else MT_MODE) ->
  i2c_end_transfer (bus s) = Done (tt, b, []) ->
  exists s', s5l8900_i2c_write I2CSTAT v s = Done (tt, s', [I2cIrq false]) /\ bus s' = b /\
    status s' = status s .| 0x10 /\ data s' = data s /\ active s' = 0.
Proof.
  intros Ha Htx Hst Hsame Hmode Hb. unfold s5l8900_i2c_write. erewrite bind_Done by reflexivity.
  pick 1%nat. unfold write_status, status_action, s5l8900_i2c_update. run. unfold id.
  rewrite Ha, Hsame, Z.eqb_refl. change (1 =? 0) with false. cbn [andb negb]. run. unfold id.
  rewrite Htx. cbn [when]. rewrite Hmode.
  assert (master_condition v recv s
          = Done (tt, s <| bus := b |> <| active := 0 |> <| status ::= fun x => x .| 0x10 |>, [])) as E.
  { unfold master_condition. rewrite Hst.
    rewrite (bind_silent _ _ s tt (s <| bus := b |>)) by by apply on_bus_eq. reflexivity. }
  eexists. split.
  - destruct recv; [pick 1%nat|pick 2%nat]; rewrite (bind_silent _ _ _ _ _ E); reflexivity.
  - done.
Qed.

(** The controller between transfers: the status of a reset or of a finished
    transfer, no transfer running, the bus free. *)
Definition rested (s : S5L8900I2CState) : Prop :=
  status s ∈ [0x00; 0x90; 0xB0; 0xF0] /\ active s = 0 /\ current_dev (bus s) = None.

Lemma bus_free_send x b : current_dev b = None -> (i2c_send x : busM chip_bus Z) b = Done (- 1, b, []).
Proof. intros H. unfold i2c_send. run. unfold id. by rewrite H. Qed.

Section Transfers.
Context (qc : Z -> Z -> Z) (sb : Z -> Z -> Z) (rb : Z -> Z * Z) (wd : Z -> list Z -> Z -> Z)
        (rd : Z -> Z -> Z -> Z * Z).
Abbreviation full := (full_info qc sb rb wd rd).

(** C14: The register sequence the S5L8900's drivers use transfers one byte.
    From rest: the address and a start in master-transmit mode, a data byte and
    a stop are one send-byte transaction of the addressed chip; the address and
    a start in master-receive mode, a read of the data register and a stop
    return what the chip's receive callback gives.  Both end at rest. *)
Theorem i2c8900_transfer s i d a x :
  rested s -> answers (bus s) a i d -> idle d -> info d = full -> fits 7 a -> fits 8 x ->
  (exists s' d' es, (s5l8900_i2c_write I2CDS (a << 1) ;;; s5l8900_i2c_write I2CSTAT 0xF0 ;;;
                     s5l8900_i2c_write I2CDS x ;;; s5l8900_i2c_write I2CSTAT 0xD0) s
       = Done (tt, s', es) /\ bus s' = released (bus s) i d' /\ chip d' = sb x (chip d) /\
       idle d' /\ rested s') /\
  (exists s' d' es, (s5l8900_i2c_write I2CDS ((a << 1) .| 1) ;;; s5l8900_i2c_write I2CSTAT 0xB0 ;;;
                     r <- s5l8900_i2c_read I2CDS ;; s5l8900_i2c_write I2CSTAT 0x90 ;;; ret r) s
       = Done (u8 (fst (rb (chip d))), s', es) /\ bus s' = released (bus s) i d' /\
       chip d' = snd (rb (chip d)) /\ idle d' /\ rested s').
Proof.
  intros (Hst & Hact & Hfree) Ha Hidle Hfull Hfa Hfx. pose proof Ha as [Hi _].
  assert (fits 8 (a << 1)) as Hfa1 by (unfold fits in *; rewrite Z.shiftl_mul_pow2; lia).
  assert (fits 8 ((a << 1) .| 1)) as Hfa2 by auto with width.
  assert (test (status s) S5L8900_IICSTAT_LASTBIT = false) as Hlb.
  { rewrite !elem_of_cons, elem_of_nil in Hst.
    by destruct Hst as [->|[->|[->|[->|[]]]]]. }
  split.
  - destruct (start_writing d Hidle) as (d1 & E1 & Hw1 & Hs1 & Hc1).
    destruct (send_writing d1 [] x Hw1) as (d2 & E2 & Hw2 & Hs2 & Hc2); [cbn; lia|].
    destruct (finish_writing d2 _ Hw2) as (d3 & E3 & Hid & Hc3 & Hs3).
    rewrite wrap_fits in Hc3 by done.
    destruct (write_data_register s (a << 1) (- 1) (bus s)) as (s1 & W1 & B1 & T1 & D1 & A1);
      [done|done|by apply bus_free_send|].
    destruct (write_start s1 0xF0 false (busy (bus s) i d1)) as (s2 & W2 & B2 & T2 & D2 & A2).
    { by rewrite A1. } { done. } { done. }
    { rewrite T1. rewrite !elem_of_cons, elem_of_nil in Hst.
      by destruct Hst as [->|[->|[->|[->|[]]]]]. }
    { rewrite D1, B1, Z.shiftr_shiftl_l, Z.shiftl_0_r by lia. by apply start_first_eq with d. }
    assert (status s2 = 0xF0) as T2'.
    { rewrite T2, T1. rewrite !elem_of_cons, elem_of_nil in Hst.
      by destruct Hst as [->|[->|[->|[->|[]]]]]. }
    destruct (write_data_register s2 x 0 (busy (bus s) i d2)) as (s3 & W3 & B3 & T3 & D3 & A3);
      [by rewrite T2'|done|rewrite B2; by apply send_eq with d|].
    destruct (write_stop s3 0xD0 false (released (bus s) i d3)) as (s4 & W4 & B4 & T4 & D4 & A4).
    { by rewrite A3. } { done. } { done. } { by rewrite T3, T2'. } { by rewrite T3, T2'. }
    { rewrite B3. by apply end_eq with d. }
    exists s4, d3. eexists. split.
    { rewrite (bind_Done _ _ _ _ _ _ W1), (bind_Done _ _ _ _ _ _ W2), (bind_Done _ _ _ _ _ _ W3), W4.
      reflexivity. }
    split; [done|]. split.
    { rewrite Hc3, Hc2, Hc1. destruct Hs1 as [_ Ei1], Hs2 as [_ Ei2]. by rewrite Ei2, Ei1, Hfull. }
    split; [done|]. split; [|split; [done|by rewrite B4]].
    rewrite T4, T3, T2'. rewrite !elem_of_cons. by right; right; right; left.
  - destruct (start_receiving d Hidle) as (d1 & E1 & Hm1 & Hb1 & Hs1 & Hc1).
    destruct (recv_receiving qc sb rb wd rd d1) as (d2 & E2 & Hm2 & Hb2 & Hc2 & Hs2);
      [done|done|destruct Hs1 as [_ Hi1]; by rewrite Hi1, Hfull|].
    destruct (finish_done d2 Hm2 Hb2) as (d3 & E3 & Hid & Hc3 & Hs3).
    destruct (write_data_register s ((a << 1) .| 1) (- 1) (bus s)) as (s1 & W1 & B1 & T1 & D1 & A1);
      [done|done|by apply bus_free_send|].
    destruct (write_start s1 0xB0 true (busy (bus s) i d1)) as (s2 & W2 & B2 & T2 & D2 & A2).
    { by rewrite A1. } { done. } { done. }
    { rewrite T1. rewrite !elem_of_cons, elem_of_nil in Hst.
      by destruct Hst as [->|[->|[->|[->|[]]]]]. }
    { rewrite D1, B1. rewrite Z.shiftr_lor, Z.shiftr_shiftl_l, Z.shiftl_0_r by lia.
      change (1 >> 1) with 0. rewrite Z.lor_0_r. by apply start_first_eq with d. }
    assert (status s2 ∈ [0x80; 0x90; 0xB0]) as T2'.
    { rewrite T2, T1. rewrite !elem_of_cons, elem_of_nil in *.
      destruct Hst as [->|[->|[->|[->|[]]]]]; vm_compute; auto. }
    rewrite !elem_of_cons, elem_of_nil in T2'.
    destruct (read_data_register s2 (u8 (fst (rb (chip d)))) (busy (bus s) i d2))
      as (s3 & W3 & B3 & T3 & A3); [rewrite B2, <- Hc1; by apply recv_eq with d|].
    rewrite wrap_wrap in W3 by lia.
    destruct (write_stop s3 0x90 true (released (bus s) i d3)) as (s4 & W4 & B4 & T4 & D4 & A4).
    { by rewrite A3. } { done. } { done. }
    { rewrite T3. by destruct T2' as [->|[->|[->|[]]]]. }
    { rewrite T3. by destruct T2' as [->|[->|[->|[]]]]. }
    { rewrite B3. by apply end_eq with d. }
    exists s4, d3. eexists. split.
    { rewrite (bind_Done _ _ _ _ _ _ W1), (bind_Done _ _ _ _ _ _ W2), (bind_Done _ _ _ _ _ _ W3),
        (bind_Done _ _ _ _ _ _ W4). reflexivity. }
    split; [done|]. split; [by rewrite Hc3, Hc2, Hc1|]. split; [done|].
    split; [|split; [done|by rewrite B4]].
    rewrite T4, T3, !elem_of_cons, elem_of_nil.
    destruct T2' as [->|[->|[->|[]]]]; vm_compute; auto.
Qed.
End Transfers.

End S5L8900I2C.

Module S5L8930I2C.

Definition I2CADD := 0x00.
Definition I2CSTAT := 0x0c.
Definition I2CEP := 0x10.
Definition I2CBL := 0x18.
Definition I2CDS := 0x20.
Definition I2CCON := 0x24.
Definition IICREG8 := 0x8.
Definition IICREG14 := 0x14.

Record S5L8930I2CState := mk_i2c {
  bus : chip_bus;
  control : Z; status : Z; epr : Z; address : Z; datashift : Z; line_ctrl : Z; iicreg20 : Z;
  i2cnum : Z; active : Z; ibmr : Z; data : Z
}.

#[export] Instance eta_i2c : Eta S5L8930I2CState := fun s =>
  mk_i2c (bus s) (control s) (status s) (epr s) (address s) (datashift s) (line_ctrl s)
    (iicreg20 s) (i2cnum s) (active s) (ibmr s) (data s).

Abbreviation ctlM := (dev S5L8930I2CState i2c_line).

Definition on_bus {A} (m : busM chip_bus A) : ctlM A :=
  zoom bus (fun b s => s <| bus := b |>) (fun e : Empty_set => match e with end) m.

Definition s5l8930_i2c_update : ctlM unit :=
  modify (fun s => s <| status := 1 |>) ;;; emit (I2cIrq true).

Definition s5l8930_i2c_receive : ctlM Z :=
  r <- on_bus i2c_recv ;; s5l8930_i2c_update ;;; ret r.

(** The argument is ignored: [s->data] is sent. *)
Definition s5l8930_i2c_send (x : Z) : ctlM Z :=
  s <- gets id ;;
  _ <- on_bus (i2c_send (data s)) ;;
  s5l8930_i2c_update ;;;
  ret 1.

Definition s5l8930_i2c_read (offset : Z) : ctlM Z :=
  emit (I2cIrq false) ;;;
  switch offset
    [ (on I2CCON, gets control);
      (on I2CSTAT, gets status);
      (on I2CADD, gets address);
      (on I2CDS, gets data);
      (on I2CEP, gets epr);
      (on IICREG14, ret 0) ]
    (ret 0).

Definition s5l8930_i2c_write (offset value : Z) : ctlM unit :=
  switch offset
    [ (on I2CCON,
         s <- gets id ;;
         (if test value 1 then
            _ <- on_bus (i2c_start_transfer (address s) false) ;;
            _ <- s5l8930_i2c_send (data s) ;;
            ret tt
          else
            _ <- on_bus (i2c_start_transfer (address s) true) ;;
            r <- s5l8930_i2c_receive ;;
            modify (fun s => s <| data := u8 r |>)) ;;;
         on_bus i2c_end_transfer);
      (on I2CSTAT, emit (I2cIrq false) ;;; modify (fun s => s <| status := 0 |>));
      (on I2CADD, modify (fun s => s <| address := value .& 0xff |>));
      (on I2CDS, modify (fun s => s <| data := u8 value |>));
      (on_any [IICREG14; I2CEP], ret tt) ]
    (ret tt).

Definition s5l8930_i2c_save (s : S5L8930I2CState) : stream :=
  qemu_put_8s (control s) ++ qemu_put_8s (status s) ++ qemu_put_8s (address s) ++
  qemu_put_8s (datashift s) ++ qemu_put_8s (line_ctrl s) ++ qemu_put_8s (ibmr s) ++
  qemu_put_8s (data s).

Definition s5l8930_i2c_load (s : S5L8930I2CState) (version_id : Z) : loader (Z * S5L8930I2CState) :=
  if negb (version_id =? 1) then ret (- EINVAL, s) else
  a <- qemu_get_8s ;; b <- qemu_get_8s ;; c <- qemu_get_8s ;; d <- qemu_get_8s ;;
  e <- qemu_get_8s ;; f <- qemu_get_8s ;; g <- qemu_get_8s ;;
  ret (0, s <| control := a |> <| status := b |> <| address := c |> <| datashift := d |>
            <| line_ctrl := e |> <| ibmr := f |> <| data := g |>).

(** [seti2cnum] sets the number the next controller is created with. *)
Definition s5l8930_i2c_init (b : chip_bus) (num : Z) : S5L8930I2CState :=
  mk_i2c b 0 0 0 0 0 0 0 num 0 0 0.

(** *** Transfers *)
Section Transfers.
Context (qc : Z -> Z -> Z) (sb : Z -> Z -> Z) (rb : Z -> Z * Z) (wd : Z -> list Z -> Z -> Z)
        (rd : Z -> Z -> Z -> Z * Z).
Abbreviation full := (full_info qc sb rb wd rd).

Lemma on_bus8930_eq {A} (m : busM chip_bus A) s a b :
  m (bus s) = Done (a, b, []) -> on_bus m s = Done (a, s <| bus := b |>, []).
Proof. intros H. unfold on_bus. by rewrite (zoom_silent _ _ _ _ _ _ _ H). Qed.

(** Through the registers of the S5L8930 controller, an address, a data
    byte and a write of 1 to I2CCON make one send-byte transaction of the chip
    at that address; an address and a write of 0 make one receive-byte
    transaction whose byte the data register then holds.  Either way the
    transfer ends with the status set and the interrupt raised, the chip idle
    and the bus free. *)
Theorem i2c8930_transfer s i d a x :
  answers (bus s) a i d -> idle d -> info d = full -> fits 8 a -> fits 8 x ->
  (exists s' d', (s5l8930_i2c_write I2CADD a ;;; s5l8930_i2c_write I2CDS x ;;;
                  s5l8930_i2c_write I2CCON 1) s = Done (tt, s', [I2cIrq true]) /\
     bus s' = released (bus s) i d' /\ chip d' = sb x (chip d) /\ idle d' /\ status s' = 1) /\
  (exists s' d', (s5l8930_i2c_write I2CADD a ;;; s5l8930_i2c_write I2CCON 0 ;;;
                  s5l8930_i2c_read I2CDS) s
       = Done (u8 (fst (rb (chip d))), s', [I2cIrq true; I2cIrq false]) /\
     bus s' = released (bus s) i d' /\ chip d' = snd (rb (chip d)) /\ idle d' /\ status s' = 1).
Proof.
  intros Ha Hidle Hfull Hfa Hfx. pose proof Ha as [Hi _].
  assert (a .& 0xff = a) as Hma.
  { change 0xff with (Z.ones 8). rewrite Z.land_ones by lia. by apply wrap_fits. }
  assert (u8 x = x) as Hmx by by apply wrap_fits. split.
  - destruct (start_writing d Hidle) as (d1 & E1 & Hw1 & Hs1 & Hc1).
    destruct (send_writing d1 [] x Hw1) as (d2 & E2 & Hw2 & Hs2 & Hc2); [cbn; lia|].
    destruct (finish_writing d2 _ Hw2) as (d3 & E3 & Hid & Hc3 & Hs3). rewrite Hmx in Hc3.
    set (s1 := s <| address := a |> <| data := x |>).
    assert (on_bus (i2c_start_transfer a false) s1 = Done (0, s1 <| bus := busy (bus s) i d1 |>, [])) as B1
      by (apply on_bus8930_eq; exact (start_first_eq (bus s) a i d false d1 Ha E1)).
    set (s2 := s1 <| bus := busy (bus s) i d1 |>) in *.
    assert (on_bus (i2c_send x) s2 = Done (0, s2 <| bus := busy (bus s) i d2 |>, [])) as B2
      by (apply on_bus8930_eq; exact (send_eq (bus s) i d d1 x 0 d2 Hi E2)).
    set (s3 := s2 <| bus := busy (bus s) i d2 |> <| status := 1 |>).
    assert (on_bus i2c_end_transfer s3 = Done (tt, s3 <| bus := released (bus s) i d3 |>, [])) as B3
      by (apply on_bus8930_eq; exact (end_eq (bus s) i d d2 d3 Hi E3)).
    eexists _, d3. split.
    + change (s5l8930_i2c_write I2CADD a) with (modify (fun s => s <| address := a .& 0xff |>) : ctlM unit).
      change (s5l8930_i2c_write I2CDS x) with (modify (fun s => s <| data := u8 x |>) : ctlM unit).
      rewrite Hma, Hmx. run. fold s1.
      unfold s5l8930_i2c_write. pick 0%nat. run. unfold id. change (test 1 1) with true. cbv iota.
      change (address s1) with a. change (data s1) with x.
      rewrite bind_assoc, (bind_silent _ _ _ _ _ B1). unfold s5l8930_i2c_send, s5l8930_i2c_update.
      run. unfold id. change (data s2) with x. rewrite (bind_silent _ _ _ _ _ B2). run. fold s3.
      erewrite bind_Done by reflexivity. run. by rewrite B3.
    + split; [done|]. split; [|done]. rewrite Hc3, Hc2, Hc1.
      destruct Hs1 as [_ Ei1], Hs2 as [_ Ei2]. by rewrite Ei2, Ei1, Hfull.
  - destruct (start_receiving d Hidle) as (d1 & E1 & Hm1 & Hb1 & Hs1 & Hc1).
    destruct (recv_receiving qc sb rb wd rd d1) as (d2 & E2 & Hm2 & Hb2 & Hc2 & Hs2);
      [done|done|destruct Hs1 as [_ Hi1]; by rewrite Hi1, Hfull|].
    destruct (finish_done d2 Hm2 Hb2) as (d3 & E3 & Hid & Hc3 & Hs3).
    set (s1 := s <| address := a |>).
    assert (on_bus (i2c_start_transfer a true) s1 = Done (0, s1 <| bus := busy (bus s) i d1 |>, [])) as B1
      by (apply on_bus8930_eq; exact (start_first_eq (bus s) a i d true d1 Ha E1)).
    set (s2 := s1 <| bus := busy (bus s) i d1 |>) in *.
    assert (on_bus i2c_recv s2 = Done (u8 (fst (rb (chip d))), s2 <| bus := busy (bus s) i d2 |>, [])) as B2
      by (apply on_bus8930_eq; rewrite <- Hc1; exact (recv_eq (bus s) i d d1 _ d2 Hi E2)).
    set (s3 := s2 <| bus := busy (bus s) i d2 |> <| status := 1 |> <| data := u8 (fst (rb (chip d))) |>).
    assert (on_bus i2c_end_transfer s3 = Done (tt, s3 <| bus := released (bus s) i d3 |>, [])) as B3
      by (apply on_bus8930_eq; exact (end_eq (bus s) i d d2 d3 Hi E3)).
    eexists _, d3. split.
    + change (s5l8930_i2c_write I2CADD a) with (modify (fun s => s <| address := a .& 0xff |>) : ctlM unit).
      rewrite Hma. run. fold s1.
      assert (s5l8930_i2c_write I2CCON 0 s1 = Done (tt, s3 <| bus := released (bus s) i d3 |>, [I2cIrq true]))
        as Ew.
      { unfold s5l8930_i2c_write. pick 0%nat. run. unfold id. change (test 0 1) with false. cbv iota.
        change (address s1) with a.
        rewrite bind_assoc, (bind_silent _ _ _ _ _ B1).
        unfold s5l8930_i2c_receive, s5l8930_i2c_update.
        rewrite !bind_assoc, (bind_silent _ _ _ _ _ B2). run.
        erewrite bind_Done by reflexivity. run. rewrite wrap_wrap by lia. fold s3. by rewrite B3. }
      rewrite (bind_Done _ _ _ _ _ _ Ew). reflexivity.
    + split; [done|]. split; [by rewrite Hc3, Hc2, Hc1|]. split; [exact Hid|done].
Qed.
End Transfers.

End S5L8930I2C.

#[export] Existing Instances S5L8900I2C.eta_i2c S5L8930I2C.eta_i2c.

(** ** Saving and loading *)

(** A controller of either kind that loads what one saved has its seven
    saved registers; its bus and the run-time registers that are not in the
    stream (for the S5L8900 [iicreg20] and [active], for the S5L8930 [epr],
    [iicreg20], [i2cnum] and [active]) stay those of the loading controller. *)
Theorem i2c_load_save (s s0 : S5L8900I2C.S5L8900I2CState) (t t0 : S5L8930I2C.S5L8930I2CState) r :
  Forall (fits 8) (map (fun f => f s)
    [S5L8900I2C.control; S5L8900I2C.status; S5L8900I2C.address; S5L8900I2C.datashift;
     S5L8900I2C.line_ctrl; S5L8900I2C.ibmr; S5L8900I2C.data]) ->
  Forall (fits 8) (map (fun f => f t)
    [S5L8930I2C.control; S5L8930I2C.status; S5L8930I2C.address; S5L8930I2C.datashift;
     S5L8930I2C.line_ctrl; S5L8930I2C.ibmr; S5L8930I2C.data]) ->
  S5L8900I2C.s5l8900_i2c_load s0 1 (S5L8900I2C.s5l8900_i2c_save s ++ r)
    = Done ((0, s <| S5L8900I2C.bus := S5L8900I2C.bus s0 |>
                  <| S5L8900I2C.iicreg20 := S5L8900I2C.iicreg20 s0 |>
                  <| S5L8900I2C.active := S5L8900I2C.active s0 |>), r, []) /\
  S5L8930I2C.s5l8930_i2c_load t0 1 (S5L8930I2C.s5l8930_i2c_save t ++ r)
    = Done ((0, t <| S5L8930I2C.bus := S5L8930I2C.bus t0 |>
                  <| S5L8930I2C.epr := S5L8930I2C.epr t0 |>
                  <| S5L8930I2C.iicreg20 := S5L8930I2C.iicreg20 t0 |>
                  <| S5L8930I2C.i2cnum := S5L8930I2C.i2cnum t0 |>
                  <| S5L8930I2C.active := S5L8930I2C.active t0 |>), r, []).
Proof.
  intros Hs Ht. cbn [map] in Hs, Ht. rewrite !Forall_cons, Forall_nil in Hs, Ht. split.
  - unfold S5L8900I2C.s5l8900_i2c_load, S5L8900I2C.s5l8900_i2c_save. cbn [negb Z.eqb Pos.eqb].
    rewrite <- !app_assoc. do 7 (eapply loader_step; [apply get_put_byte; tauto|]). by destruct s, s0.
  - unfold S5L8930I2C.s5l8930_i2c_load, S5L8930I2C.s5l8930_i2c_save. cbn [negb Z.eqb Pos.eqb].
    rewrite <- !app_assoc. do 7 (eapply loader_step; [apply get_put_byte; tauto|]). by destruct t, t0.
Qed.

(** ** Witnesses *)
Definition i2c8930_demo : S5L8930I2C.S5L8930I2CState := S5L8930I2C.s5l8930_i2c_init i2c0_8930 0.

Definition power_unit : SMBusDevice Z := (smbus_device_new pcf50633_info 0) <| i2c_address := 0x74 |>.

Lemma i2c8930_transfer_witness :
  exists s' d', (S5L8930I2C.s5l8930_i2c_write S5L8930I2C.I2CADD 0x74 ;;;
                 S5L8930I2C.s5l8930_i2c_write S5L8930I2C.I2CDS 0x21 ;;;
                 S5L8930I2C.s5l8930_i2c_write S5L8930I2C.I2CCON 1) i2c8930_demo
    = Done (tt, s', [I2cIrq true]) /\ S5L8930I2C.bus s' = released i2c0_8930 1 d' /\ chip d' = 0x21.
Proof.
  destruct (S5L8930I2C.i2c8930_transfer pcf50633_quick_cmd pcf50633_send_byte pcf50633_receive_byte
    pcf50633_write_data pcf50633_read_data i2c8930_demo 1 power_unit 0x74 0x21)
    as [(s' & d' & E & Hb & Hc & _) _]; [by split|by split|reflexivity|by vm_compute|by vm_compute|].
  exists s', d'. split; [exact E|]. split; [exact Hb|exact Hc].
Defined.

(** A bus of the S5L8900 with the power unit at an even address. *)
Definition i2c8900_demo : S5L8900I2C.S5L8900I2CState :=
  S5L8900I2C.s5l8900_i2c_init (pcf50633_init 0x74 i2c_init_bus).

Lemma i2c8900_transfer_witness :
  exists s' d' es, (S5L8900I2C.s5l8900_i2c_write S5L8900I2C.I2CDS (0x74 << 1) ;;;
                    S5L8900I2C.s5l8900_i2c_write S5L8900I2C.I2CSTAT 0xF0 ;;;
                    S5L8900I2C.s5l8900_i2c_write S5L8900I2C.I2CDS 0x21 ;;;
                    S5L8900I2C.s5l8900_i2c_write S5L8900I2C.I2CSTAT 0xD0) i2c8900_demo
    = Done (tt, s', es) /\ chip d' = 0x21 /\ S5L8900I2C.rested s'.
Proof.
  destruct (S5L8900I2C.i2c8900_transfer pcf50633_quick_cmd pcf50633_send_byte pcf50633_receive_byte
    pcf50633_write_data pcf50633_read_data i2c8900_demo 0 power_unit 0x74 0x21)
    as [(s' & d' & es & E & _ & Hc & _ & Hr) _];
    [split; [by left|done]|by split|by split|reflexivity|by vm_compute|by vm_compute|].
  exists s', d', es. split; [exact E|]. split; [exact Hc|exact Hr].
Defined.

Lemma i2c_load_save_witness :
  S5L8900I2C.s5l8900_i2c_load i2c8900_demo 1 (S5L8900I2C.s5l8900_i2c_save i2c8900_demo)
    = Done ((0, i2c8900_demo), [], []) /\
  S5L8930I2C.s5l8930_i2c_load i2c8930_demo 1 (S5L8930I2C.s5l8930_i2c_save i2c8930_demo)
    = Done ((0, i2c8930_demo), [], []).
Proof.
  destruct (i2c_load_save i2c8900_demo i2c8900_demo i2c8930_demo i2c8930_demo []) as [H1 H2];
    [repeat constructor; by vm_compute|repeat constructor; by vm_compute|].
  rewrite !app_nil_r in *. split; [exact H1|exact H2].
Defined.
