(* ===== verification/Spi.v ===== *)
(** * Spi: the SPI ports ([hw/s5l8900_spi.c], [hw/s5l8930_spi.c])

    The S5L8900 port answers the panel identification commands itself; the
    first port of the S5L8930 has the NOR chip of [NorFlash] behind it, which is
    part of its state here, and a timer for the end of a FIFO. *)
From S2P Require Import Prelude NorFlash.

Definition SPI_CONTROL := 0.
Definition SPI_SETUP := 0x4.
Definition SPI_STATUS := 0x8.
Definition SPI_PIN := 0xc.
Definition SPI_TXDATA := 0x10.
Definition SPI_RXDATA := 0x20.
Definition SPI_CLKDIV := 0x30.
Definition SPI_CNT := 0x34.
Definition SPI_IDD := 0x38.

(** The interrupt line and the FIFO timer of a port, and what its NOR chip
    makes visible. *)
Inductive spi_event :=
  | SpiIrq (level : bool)
  | SpiTimer (delay_ns : Z)
  | SpiNor (e : nor_event).

Module S5L8900SPI.

Record S5L8900SPIState := mk_spi {
  cmd : Z; base : Z; ctrl : Z; setup : Z; status : Z; pin : Z; tx_data : Z; rx_data : Z;
  clkdiv : Z; cnt : Z; idd : Z
}.

#[export] Instance eta_spi : Eta S5L8900SPIState := fun s =>
  mk_spi (cmd s) (base s) (ctrl s) (setup s) (status s) (pin s) (tx_data s) (rx_data s) (clkdiv s)
    (cnt s) (idd s).

Abbreviation spiM := (dev S5L8900SPIState spi_event).

Definition s5l8900_spi_mm_read (offset : Z) : spiM Z :=
  switch offset
    [ (on SPI_CONTROL, gets ctrl);
      (on SPI_SETUP, gets setup);
      (on SPI_STATUS, gets status);
      (on SPI_PIN, gets pin);
      (on SPI_TXDATA, gets tx_data);
      (on SPI_RXDATA,
         s <- gets id ;;
         ret (switch (cmd s) [ (on 0x95, 1); (on 0xDA, 0x71); (on 0xDB, 0xC2); (on 0xDC, 0x00) ] 0));
      (on SPI_CLKDIV, gets clkdiv);
      (on SPI_CNT, gets cnt);
      (on SPI_IDD, gets idd) ]
    hw_error.

Definition s5l8900_spi_mm_write (offset val : Z) : spiM unit :=
  switch offset
    [ (on SPI_CONTROL,
         when (test val 0x1)
           (modify (fun s => s <| status ::= fun x => x .| 0xff2 |>) ;;;
            modify (fun s => s <| cmd := tx_data s |>) ;;;
            emit (SpiIrq true)));
      (on SPI_SETUP, modify (fun s => s <| setup := val |>));
      (on SPI_STATUS, emit (SpiIrq false) ;;; modify (fun s => s <| status := 0 |>));
      (on SPI_PIN, modify (fun s => s <| pin := val |>));
      (on SPI_TXDATA, modify (fun s => s <| tx_data := val |>));
      (on SPI_RXDATA, modify (fun s => s <| rx_data := val |>));
      (on SPI_CLKDIV, modify (fun s => s <| clkdiv := val |>));
      (on SPI_CNT, modify (fun s => s <| cnt := val |>));
      (on SPI_IDD, modify (fun s => s <| idd := val |>)) ]
    hw_error.

Definition s5l8900_spi_reset (s : S5L8900SPIState) : S5L8900SPIState :=
  mk_spi 0 (base s) 0 0 0 0 0 0 0 0 0.

(** [set_spi_base] gives the next port its number. *)
Definition s5l8900_spi_init (base_addr : Z) : S5L8900SPIState :=
  s5l8900_spi_reset (mk_spi 0 base_addr 0 0 0 0 0 0 0 0 0).

End S5L8900SPI.

Module S5L8930SPI.

Record S5L8930SPIState := mk_spi {
  cmd : Z; base : Z; ctrl : Z; setup : Z; status : Z; pin : Z; tx_data : list Z; rx_data : Z;
  clkdiv : Z; cnt : Z; idd : Z;
  txBuffer : Z; rxBuffer : Z; rxFifoCnt : Z;
  (** the timer and the chip exist on the first port only *)
  timer : bool; pflash : option pflash_t
}.

#[export] Instance eta_spi : Eta S5L8930SPIState := fun s =>
  mk_spi (cmd s) (base s) (ctrl s) (setup s) (status s) (pin s) (tx_data s) (rx_data s) (clkdiv s)
    (cnt s) (idd s) (txBuffer s) (rxBuffer s) (rxFifoCnt s) (timer s) (pflash s).

Abbreviation spiM := (dev S5L8930SPIState spi_event).

(** A call on [s->pflash]; the ports without a chip pass a null pointer. *)
Definition on_pflash {A} (m : norM A) : spiM A :=
  s <- gets id ;;
  p <- lift (pflash s) ;;
  zoom (fun _ => p) (fun p s => s <| pflash := Some p |>) SpiNor m.

Definition spi_timer : spiM unit :=
  s <- gets id ;;
  when (rxFifoCnt s =? 0x1e)
    (modify (fun s => s <| rxFifoCnt := 0 |> <| status ::= fun x => x .| 1 |>) ;;;
     emit (SpiIrq false) ;;;
     emit (SpiIrq true)).

Definition RX_BUFFER_LEFT (x : Z) : Z := (x >> 11) .& 0x1f.
Definition TX_BUFFER_LEFT (x : Z) : Z := (x >> 6) .& 0x1f.

Definition s5l8930_spi_mm_read (offset : Z) : spiM Z :=
  switch offset
    [ (on SPI_CONTROL, gets ctrl);
      (on SPI_SETUP, gets setup);
      (on SPI_STATUS, emit (SpiIrq false) ;;; gets status);
      (on SPI_PIN, gets pin);
      (on SPI_TXDATA, s <- gets id ;; lift (aget (tx_data s) 0));
      (on SPI_RXDATA,
         x <- on_pflash pflash_cmd_parse ;;
         modify (fun s => s <| rx_data := x |>) ;;;
         n <- on_pflash pflash_cmd_len ;;
         modify (fun s => s <| status ::= fun v => v .| u32 (n << 11) |>) ;;;
         s <- gets id ;;
         (if rxFifoCnt s =? 0x1e
          then emit (SpiIrq false) ;;;
               (if timer s then emit (SpiTimer (get_ticks_per_sec / 1000)) else undef)
          else modify (fun s => s <| rxFifoCnt ::= fun x => u32 (x + 1) |>)) ;;;
         gets rx_data);
      (on SPI_CLKDIV, gets clkdiv);
      (on SPI_CNT, gets cnt);
      (on SPI_IDD, gets idd) ]
    (ret 0).

Definition s5l8930_spi_mm_write (offset val : Z) : spiM unit :=
  switch offset
    [ (on SPI_CONTROL,
         when (test val 0x1)
           (s <- gets id ;;
            (if test (setup s) 0x200000 then
               modify (fun s => s <| status := 0x400002 |>) ;;;
               c <- lift (aget (tx_data s) 0) ;;
               modify (fun s => s <| cmd := c |>) ;;;
               on_pflash (pflash_cmd_set (tx_data s))
             else
               modify (fun s => s <| rxFifoCnt := 0 |>) ;;;
               modify (fun s => s <| status ::= fun v => v .| 1 |>) ;;;
               n <- on_pflash pflash_cmd_len ;;
               modify (fun s => s <| status ::= fun v => v .| u32 (n << 11) |>)) ;;;
            emit (SpiIrq true)));
      (on SPI_SETUP, modify (fun s => s <| setup := val |>));
      (on SPI_STATUS,
         emit (SpiIrq false) ;;;
         modify (fun s => s <| status := 0 |> <| txBuffer := 0 |>));
      (on SPI_PIN, modify (fun s => s <| pin := val |>));
      (on SPI_TXDATA,
         s <- gets id ;;
         a <- lift (aset (txBuffer s) val (tx_data s)) ;;
         modify (fun s => s <| tx_data := a |> <| txBuffer ::= fun x => u32 (x + 1) |>));
      (on SPI_RXDATA, modify (fun s => s <| rx_data := val |>));
      (on SPI_CLKDIV, modify (fun s => s <| clkdiv := val |>));
      (on SPI_CNT, on_pflash (pflash_set_rxlen val) ;;; modify (fun s => s <| cnt := val |>));
      (on SPI_IDD, modify (fun s => s <| idd := val |>)) ]
    (ret tt).

(** [s5l8930_spi_init1]: the first port ([intnum] still 0) registers the chip
    over the [-pflash] drive, or exits when there is none. *)
Definition s5l8930_spi_init1 (intnum : Z) (ram : list Z) (ram_off : Z)
    (drive : option (option (list Z))) : outcome S5L8930SPIState :=
  let port t p := mk_spi 0 0 0 0 0 0 (zeros 10) 0 0 0 0 0 0 0 t p in
  if intnum =? 0 then
    match drive with
    | None => HwError
    | Some content =>
        Done (port true (pflash_spi_register ram ram_off (Some content) 4096 256 1 2 0x1f 0x45 0x02))
    end
  else Done (port false None).

(** ** A NOR read through the port *)
Fixpoint read_rxdata (n : nat) : spiM (list Z) :=
  match n with
  | O => ret []
  | S n' => x <- s5l8930_spi_mm_read SPI_RXDATA ;; r <- read_rxdata n' ;; ret (x :: r)
  end.

(** The register accesses of a driver that reads [n] bytes at a 24-bit address. *)
Definition nor_read_sequence (a1 a2 a3 : Z) (n : nat) : spiM (list Z) :=
  s5l8930_spi_mm_write SPI_STATUS 0xffffffff ;;;
  s5l8930_spi_mm_write SPI_TXDATA NOR_SPI_READ ;;;
  s5l8930_spi_mm_write SPI_TXDATA a1 ;;;
  s5l8930_spi_mm_write SPI_TXDATA a2 ;;;
  s5l8930_spi_mm_write SPI_TXDATA a3 ;;;
  s5l8930_spi_mm_write SPI_SETUP 0x200000 ;;;
  s5l8930_spi_mm_write SPI_CONTROL 1 ;;;
  s5l8930_spi_mm_write SPI_SETUP 0 ;;;
  s5l8930_spi_mm_write SPI_CNT (Z.of_nat n) ;;;
  s5l8930_spi_mm_write SPI_CONTROL 1 ;;;
  read_rxdata n.

Lemma on_pflash_eq {A} (m : norM A) s p a p' :
  pflash s = Some p -> m p = Done (a, p', []) -> on_pflash m s = Done (a, s <| pflash := Some p' |>, []).
Proof.
  intros Hp Hm. unfold on_pflash. run. unfold id. rewrite Hp. run. unfold zoom. by rewrite Hm.
Qed.

Lemma cmd_len_read p :
  NorFlash.cmd p = NOR_SPI_READ ->
  pflash_cmd_len p = Done (if 0x1f <=? rxLen p then 0x1f else rxLen p, p, []).
Proof.
  intros Hc. unfold pflash_cmd_len. run. unfold id. rewrite Hc. pick 3%nat.
  by destruct (0x1f <=? rxLen p).
Qed.

Lemma read_rxdata_one s p b :
  pflash s = Some p -> timer s = true -> NorFlash.cmd p = NOR_SPI_READ -> 0 < rxLen p < 2 ^ 32 ->
  0 <= wordRx p < 2 ^ 32 - 1 -> aget (storage p) (wordRx p) = Some b ->
  exists s' es, s5l8930_spi_mm_read SPI_RXDATA s = Done (b, s', es) /\ timer s' = true /\
    pflash s' = Some (p <| rxLen := rxLen p - 1 |> <| wordRx := wordRx p + 1 |>).
Proof.
  intros Hp Ht Hc Hr Hw Hb. set (p' := p <| rxLen := _ |> <| wordRx := _ |>).
  unfold s5l8930_spi_mm_read. pick 5%nat.
  rewrite (bind_silent _ _ _ _ _ (on_pflash_eq _ s p b p' Hp (parse_one p b Hc Hr Hw Hb))). run.
  set (s1 := s <| pflash := Some p' |> <| rx_data := b |>).
  rewrite (bind_silent _ _ _ _ _ (on_pflash_eq _ s1 p' _ p' eq_refl (cmd_len_read p' Hc))). run. unfold id.
  set (s2 := _ <| status ::= _ |>). change (rxFifoCnt s2) with (rxFifoCnt s).
  change (timer s2) with (timer s). rewrite Ht. destruct (rxFifoCnt s =? 0x1e); do 2 eexists.
  - split; [reflexivity|]. split; [exact Ht|done].
  - split; [reflexivity|]. split; [exact Ht|done].
Qed.

Lemma read_rxdata_all n s p :
  pflash s = Some p -> timer s = true -> NorFlash.cmd p = NOR_SPI_READ -> rxLen p = Z.of_nat n ->
  Z.of_nat n < 2 ^ 32 -> 0 <= wordRx p -> wordRx p + Z.of_nat n <= zlen (storage p) ->
  zlen (storage p) < 2 ^ 32 ->
  exists s' es p', read_rxdata n s
      = Done (take n (drop (Z.to_nat (wordRx p)) (storage p)), s', es) /\
    pflash s' = Some p' /\ storage p' = storage p.
Proof.
  revert s p. induction n as [|n IH]; intros s p Hp Ht Hc Hr Hn Hw Hlen H32.
  { by exists s, [], p. }
  destruct (aget_Some (storage p) (wordRx p)) as [b Hb]; [lia|].
  destruct (read_rxdata_one s p b) as (s1 & e1 & E1 & Ht1 & Hp1); [done|done|done|lia|lia|done|].
  set (p1 := p <| rxLen := _ |> <| wordRx := _ |>) in Hp1.
  destruct (IH s1 p1) as (s2 & e2 & p2 & E2 & Hp2 & Hst); [done|done|done|
    change (rxLen p1) with (rxLen p - 1); lia|lia|change (wordRx p1) with (wordRx p + 1); lia|
    change (wordRx p1) with (wordRx p + 1); change (storage p1) with (storage p); lia|done|].
  exists s2. eexists _, p2. cbn [read_rxdata].
  rewrite (bind_Done _ _ _ _ _ _ E1), (bind_Done _ _ _ _ _ _ E2). split; [|done].
  unfold ret. do 3 f_equal. change (storage p1) with (storage p). change (wordRx p1) with (wordRx p + 1).
  unfold aget in Hb. destruct (Z.ltb_spec (wordRx p) 0); [done|].
  rewrite (drop_S _ _ _ Hb), Z.add_1_r, Z2Nat.inj_succ by lia. done.
Qed.

Lemma write_txdata v s l :
  aset (txBuffer s) v (tx_data s) = Some l ->
  s5l8930_spi_mm_write SPI_TXDATA v s
    = Done (tt, s <| tx_data := l |> <| txBuffer := u32 (txBuffer s + 1) |>, []).
Proof. intros H. unfold s5l8930_spi_mm_write. pick 4%nat. run. unfold id. by rewrite (bind_lift _ _ _ _ H). Qed.

(** A driver reads the NOR chip through the first SPI port.  From any
    state of the port and the chip, the register sequence (clear the status,
    queue the READ opcode and the 24-bit address, start a transmit, set the
    count, start a receive, read the data register [n] times) is defined and
    returns the [n] bytes of the chip's storage at that address; the storage is
    unchanged. *)
Theorem nor_read_through_port s p a1 a2 a3 n :
  pflash s = Some p -> timer s = true -> length (tx_data s) = 10%nat ->
  fits 8 a1 -> fits 8 a2 -> fits 8 a3 ->
  let a := le_value [a3; a2; a1] in
  a + Z.of_nat n <= zlen (storage p) -> zlen (storage p) < 2 ^ 32 ->
  exists s' es p', nor_read_sequence a1 a2 a3 n s
      = Done (take n (drop (Z.to_nat a) (storage p)), s', es) /\
    pflash s' = Some p' /\ storage p' = storage p.
Proof.
  intros Hp Ht Htx H1 H2 H3 a Ha H32.
  destruct (cmd_set_read p a1 a2 a3 (drop 4 (tx_data s)) H1 H2 H3) as [Hcs Ha0]. fold a in Hcs, Ha0.
  set (p1 := p <| NorFlash.cmd := _ |> <| wordRx := a |>) in Hcs.
  destruct (tx_data s) as [|t0 [|t1 [|t2 [|t3 rest]]]] eqn:Et; [cbn in Htx; lia..|].
  cbn [length] in Htx. cbn [drop] in Hcs.
  (* the status is cleared and the four command bytes are queued *)
  set (s0 := s <| status := 0 |> <| txBuffer := 0 |>).
  set (s4 := s0 <| tx_data := NOR_SPI_READ :: a1 :: a2 :: a3 :: rest |> <| txBuffer := 4 |>).
  assert (forall k : unit -> spiM (list Z),
    (s5l8930_spi_mm_write SPI_TXDATA NOR_SPI_READ ;;; s5l8930_spi_mm_write SPI_TXDATA a1 ;;;
     s5l8930_spi_mm_write SPI_TXDATA a2 ;;; x <- s5l8930_spi_mm_write SPI_TXDATA a3 ;; k x) s0
    = k tt s4) as Hq.
  { intros k.
    assert (aset (txBuffer s0) NOR_SPI_READ (tx_data s0) = Some (NOR_SPI_READ :: t1 :: t2 :: t3 :: rest)) as A0.
    { change (txBuffer s0) with 0. change (tx_data s0) with (tx_data s).
      rewrite Et. rewrite aset_Some by (unfold zlen; cbn [length]; lia). reflexivity. }
    rewrite (bind_silent _ _ _ _ _ (write_txdata NOR_SPI_READ s0 _ A0)).
    set (s1 := s0 <| tx_data := _ |> <| txBuffer := _ |>).
    assert (aset (txBuffer s1) a1 (tx_data s1) = Some (NOR_SPI_READ :: a1 :: t2 :: t3 :: rest)) as A1.
    { change (txBuffer s1) with 1. change (tx_data s1) with (NOR_SPI_READ :: t1 :: t2 :: t3 :: rest).
      rewrite aset_Some by (unfold zlen; cbn [length]; lia). reflexivity. }
    rewrite (bind_silent _ _ _ _ _ (write_txdata a1 s1 _ A1)).
    set (s2 := s1 <| tx_data := _ |> <| txBuffer := _ |>).
    assert (aset (txBuffer s2) a2 (tx_data s2) = Some (NOR_SPI_READ :: a1 :: a2 :: t3 :: rest)) as A2.
    { change (txBuffer s2) with 2. change (tx_data s2) with (NOR_SPI_READ :: a1 :: t2 :: t3 :: rest).
      rewrite aset_Some by (unfold zlen; cbn [length]; lia). reflexivity. }
    rewrite (bind_silent _ _ _ _ _ (write_txdata a2 s2 _ A2)).
    set (s3 := s2 <| tx_data := _ |> <| txBuffer := _ |>).
    assert (aset (txBuffer s3) a3 (tx_data s3) = Some (NOR_SPI_READ :: a1 :: a2 :: a3 :: rest)) as A3.
    { change (txBuffer s3) with 3. change (tx_data s3) with (NOR_SPI_READ :: a1 :: a2 :: t3 :: rest).
      rewrite aset_Some by (unfold zlen; cbn [length]; lia). reflexivity. }
    rewrite (bind_silent _ _ _ _ _ (write_txdata a3 s3 _ A3)).
    reflexivity. }
  (* the command reaches the chip *)
  set (s5 := s4 <| setup := 0x200000 |> <| status := 0x400002 |> <| cmd := NOR_SPI_READ |>).
  assert ((s5l8930_spi_mm_write SPI_SETUP 0x200000 ;;; s5l8930_spi_mm_write SPI_CONTROL 1) s4
          = Done (tt, s5 <| pflash := Some p1 |>, [SpiIrq true])) as Htxcmd.
  { unfold s5l8930_spi_mm_write. pick 1%nat. run. pick 0%nat. change (test 1 0x1) with true. cbn [when].
    run. unfold id. change (test (setup (s4 <| setup := 0x200000 |>)) 0x200000) with true. cbv iota. run.
    change (tx_data (s4 <| setup := 0x200000 |>)) with (NOR_SPI_READ :: a1 :: a2 :: a3 :: rest). run.
    fold s5. by rewrite (bind_silent _ _ _ _ _ (on_pflash_eq _ s5 p tt p1 Hp Hcs)). }
  (* the count, and the receive start *)
  set (p2 := p1 <| rxLen := Z.of_nat n |>).
  set (s6 := s5 <| pflash := Some p1 |> <| setup := 0 |> <| pflash := Some p2 |> <| cnt := Z.of_nat n |>
                <| rxFifoCnt := 0 |> <| status ::= fun v => v .| 1 |>).
  assert (exists s7, (s5l8930_spi_mm_write SPI_SETUP 0 ;;; s5l8930_spi_mm_write SPI_CNT (Z.of_nat n) ;;;
            s5l8930_spi_mm_write SPI_CONTROL 1) (s5 <| pflash := Some p1 |>)
          = Done (tt, s7, [SpiIrq true]) /\ pflash s7 = Some p2 /\ timer s7 = true) as (s7 & Hrx & Hp7 & Ht7).
  { unfold s5l8930_spi_mm_write. pick 1%nat. run. pick 7%nat. run.
    set (sr := s5 <| pflash := Some p1 |> <| setup := 0 |>).
    assert (on_pflash (pflash_set_rxlen (Z.of_nat n)) sr = Done (tt, sr <| pflash := Some p2 |>, []))
      as Hlen by (by apply on_pflash_eq with p1).
    rewrite (bind_silent _ _ _ _ _ Hlen). subst sr.
    run. pick 0%nat. change (test 1 0x1) with true. cbn [when]. run. unfold id.
    match goal with |- context [test (setup ?s) 0x200000] =>
      change (test (setup s) 0x200000) with false end. cbv iota. run. fold s6.
    rewrite (bind_silent _ _ _ _ _ (on_pflash_eq _ s6 p2 _ p2 eq_refl (cmd_len_read p2 eq_refl))). run.
    eexists. split; [reflexivity|]. split; [done|exact Ht]. }
  destruct (read_rxdata_all n s7 p2 Hp7 Ht7 eq_refl eq_refl) as (s8 & es & p8 & Er & Hp8 & Hst8);
    [change (storage p2) with (storage p) in *; unfold zlen in *; lia|exact Ha0|exact Ha|exact H32|].
  exists s8. eexists _, p8. split; [|done]. unfold nor_read_sequence.
  rewrite (bind_Done (s5l8930_spi_mm_write SPI_STATUS 0xffffffff) _ s tt s0 [SpiIrq false]) by reflexivity.
  rewrite Hq, <- bind_assoc, (bind_Done _ _ _ _ _ _ Htxcmd).
  rewrite <- !bind_assoc. rewrite <- bind_assoc in Hrx.
  rewrite (bind_Done _ _ _ _ _ _ Hrx), Er. reflexivity.
Qed.

End S5L8930SPI.

#[export] Existing Instances S5L8900SPI.eta_spi S5L8930SPI.eta_spi.

(** ** Witnesses and findings *)

(** The first port of the S5L8930 over a small chip. *)
Definition spi_demo : S5L8930SPI.S5L8930SPIState :=
  S5L8930SPI.mk_spi 0 0 0 0 0 0 (zeros 10) 0 0 0 0 0 0 0 true (Some nor_demo).

Lemma nor_read_witness :
  exists s' es, S5L8930SPI.nor_read_sequence 0 0 8 3 spi_demo = Done ([0xFF; 0xFF; 0xFF], s', es).
Proof.
  destruct (S5L8930SPI.nor_read_through_port spi_demo nor_demo 0 0 8 3)
    as (s' & es & p' & E & _); [done|done|done|by vm_compute..|].
  exists s', es. exact E.
Defined.

(** Eleven bytes queued without clearing the status run past [tx_data]. *)
Lemma spi_tx_overflow :
  for_up 0 11 (fun i => S5L8930SPI.s5l8930_spi_mm_write SPI_TXDATA i) spi_demo = Undef.
Proof. vm_compute. reflexivity. Qed.

(** The FIFO level is or-ed into the status and never cleared by a read: with
    two bytes and then one byte left the guest sees three. *)
Lemma spi_fifo_level_accumulates :
  exists s es, (_ <- S5L8930SPI.s5l8930_spi_mm_read SPI_RXDATA ;; S5L8930SPI.s5l8930_spi_mm_read SPI_RXDATA)
                 (spi_demo <| S5L8930SPI.pflash :=
                    Some (nor_demo <| NorFlash.cmd := NOR_SPI_READ |> <| rxLen := 3 |>) |>)
    = Done (0xFF, s, es) /\ S5L8930SPI.RX_BUFFER_LEFT (S5L8930SPI.status s) = 3.
Proof. eexists _, _. split; vm_compute; reflexivity. Qed.

(** A port other than the first has no chip: starting a transmit on it
    dereferences a null pointer. *)
Lemma spi_second_port_null :
  exists s, S5L8930SPI.s5l8930_spi_init1 1 [] 0 (Some (Some [])) = Done s /\
    (S5L8930SPI.s5l8930_spi_mm_write SPI_SETUP 0x200000 ;;;
     S5L8930SPI.s5l8930_spi_mm_write SPI_CONTROL 1) s = Undef.
Proof. eexists. split; reflexivity. Qed.
