(* ===== verification/TcpUsb.v ===== *)
(** * TcpUsb: USB transfers over a TCP connection ([hw/tcp_usb.c], [hw/tcp_usb.h])

    A connection is a state machine driven by the readiness of a non-blocking
    socket.  In the device role it reads a request, calls the device's callback
    and writes the response; in the host role it writes a request and reads the
    response.  Either may stop after any number of bytes and resume later.

    The operating system's socket calls are the interface [Os], the device
    behind the connection is the interface [TcpClient]. *)
From Stdlib Require String.
From S2P Require Import Prelude.

Definition tcp_usb_setup := bit 0.
Definition tcp_usb_reset := bit 1.
Definition tcp_usb_enumdone := bit 2.

Definition USB_DIR_IN := 0x80.

Inductive tcp_usb_state_enum_t :=
  | tcp_usb_idle
  | tcp_usb_read_request
  | tcp_usb_write_response
  | tcp_usb_write_request
  | tcp_usb_read_response.

(** The packed header: three bytes and a signed 16-bit length. *)
Record tcp_usb_header_t := mk_hdr { addr : Z; ep : Z; flags : Z; length_ : Z }.

#[export] Instance eta_hdr : Eta tcp_usb_header_t := fun h =>
  mk_hdr (addr h) (ep h) (flags h) (length_ h).

Definition sizeof_header := 5.

(** The representation of a header in memory and on the wire. *)
Definition hdr_bytes (h : tcp_usb_header_t) : list Z :=
  addr h :: ep h :: flags h :: le_bytes 2 (length_ h).
Definition hdr_of (bs : list Z) : option tcp_usb_header_t :=
  match bs with
  | [a; e; f; l0; l1] => Some (mk_hdr a e f (sgn 16 (le_value [l0; l1])))
  | _ => None
  end.

Definition is_in (h : tcp_usb_header_t) : bool := test (ep h) USB_DIR_IN.

(** A pointer to an object the connection owns or was lent. *)
Inductive ptr := Null | Dangling | Valid (object : list Z).
Definition deref (p : ptr) : option (list Z) :=
  match p with Valid o => Some o | _ => None end.

(** What the connection needs of the operating system and of the C library:
    [read] and [write] on a socket, the contents of a fresh allocation, and the
    calls that create, connect, bind and accept a socket.  A descriptor of -1
    is [None]. *)
Class Os (Sk : Type) := {
  recv : Sk -> Z -> Z * list Z * Sk;
  send : Sk -> list Z -> Z * Sk;
  malloc : Z -> list Z;
  gethostbyname : String.string -> option (list Z);
  open_socket : option Sk;
  connect : Sk -> list Z -> Z -> Sk * bool;
  bind_listen : Sk -> Z -> Sk * bool;
  accept : option Sk -> option Sk
}.

(** The callbacks a connection is set up with. *)
Class TcpClient (C E : Type) := {
  data_callback : tcp_usb_header_t -> ptr -> dev C E (Z * tcp_usb_header_t * ptr);
  closed_callback : dev C E unit
}.

(** What a connection makes visible: the registration of its socket with the
    main loop, the closing of the socket, the transfers handed to the data
    callback with what it left in them, and the client's own events. *)
Inductive tcp_event (E : Type) :=
  | TcpFdHandlers (registered : bool)
  | TcpClose
  | TcpCalled (request : tcp_usb_header_t * ptr) (result : Z) (response : tcp_usb_header_t * ptr)
  | TcpClientEv (e : E).
Arguments TcpFdHandlers {E}.
Arguments TcpClose {E}.
Arguments TcpCalled {E}.
Arguments TcpClientEv {E}.

Record tcp_usb_state_t (Sk C : Type) := mk_tcp {
  socket : option Sk;
  closed : bool;
  state : tcp_usb_state_enum_t;
  header : ptr;
  buffer : ptr;
  amount_done : Z;
  has_closed_callback : bool;
  has_data_callback : bool;
  (** the object behind [callback_arg] *)
  client : C
}.
Arguments mk_tcp {Sk C}.
Arguments socket {Sk C}.
Arguments closed {Sk C}.
Arguments state {Sk C}.
Arguments header {Sk C}.
Arguments buffer {Sk C}.
Arguments amount_done {Sk C}.
Arguments has_closed_callback {Sk C}.
Arguments has_data_callback {Sk C}.
Arguments client {Sk C}.

#[export] Instance eta_tcp Sk C : Eta (tcp_usb_state_t Sk C) := fun s =>
  mk_tcp (socket s) (closed s) (state s) (header s) (buffer s) (amount_done s)
    (has_closed_callback s) (has_data_callback s) (client s).

Definition EWOULDBLOCK := 11.
Definition EIO := 5.
Definition EBUSY := 16.

(** How a stage of a transfer ends: the function returns, the stage had been
    completed by an earlier call, or this call completed it. *)
Inductive progress := Return | Already | Completed.

Section Connection.
Context {Sk C E : Type} `{Os Sk} `{TcpClient C E}.

Abbreviation tcpM := (dev (tcp_usb_state_t Sk C) (tcp_event E)).

Definition call_client {A} (m : dev C E A) : tcpM A :=
  zoom client (fun c s => s <| client := c |>) TcpClientEv m.

Definition tcp_usb_init (has_cb has_closed : bool) (arg : C) (s : tcp_usb_state_t Sk C)
    : tcp_usb_state_t Sk C :=
  mk_tcp None true tcp_usb_idle (header s) (buffer s) 0 has_closed has_cb arg.

Definition tcp_usb_cleanup : tcpM unit :=
  s <- gets id ;;
  match socket s with
  | Some _ =>
      emit TcpClose ;;;
      emit (TcpFdHandlers false) ;;;
      modify (fun s => s <| socket := None |>)
  | None => ret tt
  end.

Definition tcp_usb_closed : tcpM bool := gets closed.

Definition tcp_usb_do_closed : tcpM unit :=
  s <- gets id ;;
  if closed s then ret tt else
  modify (fun s => s <| closed := true |>) ;;;
  emit (TcpFdHandlers false) ;;;
  when (has_closed_callback s) (call_client closed_callback).

(** [read] and [write] on the connection's socket; on the descriptor -1 they
    fail with -1. *)
Definition sys_read (n : Z) : tcpM (Z * list Z) :=
  s <- gets id ;;
  match socket s with
  | None => ret (-1, [])
  | Some k =>
      let '(r, bs, k') := recv k n in
      modify (fun s => s <| socket := Some k' |>) ;;; ret (r, bs)
  end.

Definition sys_write (bs : list Z) : tcpM Z :=
  s <- gets id ;;
  match socket s with
  | None => ret (-1)
  | Some k =>
      let '(r, k') := send k bs in
      modify (fun s => s <| socket := Some k' |>) ;;; ret r
  end.

Definition free_header : tcpM unit :=
  s <- gets id ;;
  match header s with
  | Dangling => undef
  | _ => modify (fun s => s <| header := Dangling |>)
  end.

(** [if(state->buffer) free(state->buffer)] *)
Definition free_buffer : tcpM unit :=
  s <- gets id ;;
  match buffer s with
  | Dangling => undef
  | Null => ret tt
  | Valid _ => modify (fun s => s <| buffer := Dangling |>)
  end.

Definition the_header : tcpM tcp_usb_header_t :=
  s <- gets id ;; lift (deref (header s) ≫= hdr_of).

(** The tests that follow every [read] and [write]: end of file, nothing to do
    now, an error, and the account of what was moved. *)
Definition account (r : Z) (can : bool) (on_eof : tcpM unit) (total : tcpM Z) : tcpM progress :=
  if (r =? 0) && can then on_eof ;;; ret Return
  else if (r =? EWOULDBLOCK) || (r =? 0) || (r =? -1) then ret Return
  else if r <? 0 then ret Return
  else
    modify (fun s => s <| amount_done ::= fun x => x + r |>) ;;;
    t <- total ;;
    s <- gets id ;;
    ret (if amount_done s <? t then Return else Completed).

Definition header_size : tcpM Z := ret sizeof_header.
Definition transfer_size : tcpM Z := h <- the_header ;; ret (sizeof_header + length_ h).

Definition read_header (can : bool) (on_eof : tcpM unit) : tcpM progress :=
  s <- gets id ;;
  if amount_done s <? sizeof_header then
    let* (r, bs) := sys_read (sizeof_header - amount_done s) in
    o <- lift (deref (header s) ≫= splice (amount_done s) bs) ;;
    modify (fun s => s <| header := Valid o |>) ;;;
    account r can on_eof header_size
  else ret Already.

Definition read_data (can : bool) (on_eof : tcpM unit) : tcpM progress :=
  s <- gets id ;;
  h <- the_header ;;
  let done := amount_done s - sizeof_header in
  let* (r, bs) := sys_read (length_ h - done) in
  o <- lift (deref (buffer s) ≫= splice done bs) ;;
  modify (fun s => s <| buffer := Valid o |>) ;;;
  account r can on_eof transfer_size.

Definition write_header (can : bool) (on_eof : tcpM unit) : tcpM progress :=
  s <- gets id ;;
  if amount_done s <? sizeof_header then
    bs <- lift (deref (header s) ≫= slice (amount_done s) (sizeof_header - amount_done s)) ;;
    r <- sys_write bs ;;
    account r can on_eof header_size
  else ret Already.

Definition write_data (can : bool) (on_eof : tcpM unit) : tcpM progress :=
  s <- gets id ;;
  h <- the_header ;;
  let done := amount_done s - sizeof_header in
  bs <- lift (deref (buffer s) ≫= slice done (length_ h - done)) ;;
  r <- sys_write bs ;;
  account r can on_eof transfer_size.

(** [_can_read] or [_can_write] after a stage: cleared once something moved. *)
Definition after (p : progress) (can : bool) : bool :=
  match p with Completed => false | _ => can end.

(** A stage of the function followed by the rest of it. *)
Definition stage (m : tcpM progress) (can : bool) (k : progress -> bool -> tcpM unit) : tcpM unit :=
  p <- m ;;
  match p with Return => ret tt | _ => k p (after p can) end.

Definition write_response (can : bool) : tcpM unit :=
  let on_eof := free_header ;;; free_buffer ;;; tcp_usb_do_closed in
  let finish :=
    free_header ;;; free_buffer ;;; modify (fun s => s <| state := tcp_usb_idle |>) in
  stage (write_header can on_eof) can (fun _ can =>
    h <- the_header ;;
    if is_in h && (0 <? length_ h)
    then stage (write_data can on_eof) can (fun _ _ => finish)
    else finish).

(** The data callback on the transfer the connection holds. *)
Definition run_data_callback : tcpM Z :=
  s <- gets id ;;
  h <- the_header ;;
  let* (r, h', b') := call_client (data_callback h (buffer s)) in
  emit (TcpCalled (h, buffer s) r (h', b')) ;;;
  modify (fun s => s <| header := Valid (hdr_bytes h') |> <| buffer := b' |>) ;;;
  ret r.

Definition deliver_request (can_write : bool) : tcpM unit :=
  s <- gets id ;;
  if has_data_callback s then
    modify (fun s => s <| state := tcp_usb_write_response |> <| amount_done := 0 |>) ;;;
    r <- run_data_callback ;;
    h <- the_header ;;
    modify (fun s => s <| header := Valid (hdr_bytes (h <| length_ := sgn 16 r |>)) |>) ;;;
    write_response can_write
  else modify (fun s => s <| state := tcp_usb_idle |>).

(** [state->buffer] once the header of a request is there. *)
Definition allocate_buffer : tcpM unit :=
  h <- the_header ;;
  modify (fun s => s <| buffer := if 0 <? length_ h then Valid (malloc (length_ h)) else Null |>).

Definition read_request (can_read can_write : bool) : tcpM unit :=
  stage (read_header can_read (free_header ;;; tcp_usb_do_closed)) can_read (fun p can_read =>
    (match p with Completed => allocate_buffer | _ => ret tt end) ;;;
    h <- the_header ;;
    if negb (is_in h) && (0 <? length_ h)
    then stage (read_data can_read (free_header ;;; free_buffer ;;; tcp_usb_do_closed)) can_read
           (fun _ _ => deliver_request can_write)
    else deliver_request can_write).

Definition read_response (can_read : bool) : tcpM unit :=
  let finish :=
    modify (fun s => s <| state := tcp_usb_idle |>) ;;;
    s <- gets id ;;
    if has_data_callback s then (_ <- run_data_callback ;; ret tt)
    else modify (fun s => s <| state := tcp_usb_idle |>) in
  stage (read_header can_read tcp_usb_do_closed) can_read (fun _ can_read =>
    h <- the_header ;;
    if is_in h && (0 <? length_ h)
    then stage (read_data can_read tcp_usb_do_closed) can_read (fun _ _ => finish)
    else finish).

Definition write_request (can_read can_write : bool) : tcpM unit :=
  let finish :=
    modify (fun s => s <| state := tcp_usb_read_response |> <| amount_done := 0 |>) ;;;
    read_response can_read in
  stage (write_header can_write tcp_usb_do_closed) can_write (fun _ can_write =>
    h <- the_header ;;
    if negb (is_in h) && (0 <? length_ h)
    then stage (write_data can_write tcp_usb_do_closed) can_write (fun _ _ => finish)
    else finish).

Definition tcp_usb_callback (can_read can_write : bool) : tcpM unit :=
  s <- gets id ;;
  if closed s then ret tt else
  match state s with
  | tcp_usb_idle =>
      if negb can_read then ret tt else
      modify (fun s => s <| header := Valid (malloc sizeof_header) |>) ;;;
      modify (fun s => s <| amount_done := 0 |> <| state := tcp_usb_read_request |>) ;;;
      read_request can_read can_write
  | tcp_usb_read_request => read_request can_read can_write
  | tcp_usb_write_response => write_response can_write
  | tcp_usb_write_request => write_request can_read can_write
  | tcp_usb_read_response => read_response can_read
  end.

Definition tcp_usb_read_callback : tcpM unit := tcp_usb_callback true false.
Definition tcp_usb_write_callback : tcpM unit := tcp_usb_callback false true.

(** The result of a failed resolution is dereferenced. *)
Definition tcp_usb_connect (host : String.string) (port : Z) : tcpM Z :=
  modify (fun s => s <| socket := open_socket |>) ;;;
  a <- lift (gethostbyname host) ;;
  match open_socket with
  | None => ret (- EIO)
  | Some k =>
      let '(k, connected) := connect k a (u16 port) in
      modify (fun s => s <| socket := Some k |>) ;;;
      if connected then
        modify (fun s => s <| closed := false |>) ;;;
        emit (TcpFdHandlers true) ;;;
        ret 0
      else ret (- EIO)
  end.

Definition tcp_usb_request (h : tcp_usb_header_t) (data : ptr) : tcpM Z :=
  s <- gets id ;;
  match state s with
  | tcp_usb_idle =>
      modify (fun s => s <| state := tcp_usb_write_request |> <| amount_done := 0 |>) ;;;
      modify (fun s => s <| buffer := data |> <| header := Valid (hdr_bytes h) |>) ;;;
      tcp_usb_callback false true ;;;
      ret 0
  | _ => ret (- EBUSY)
  end.

Definition tcp_usb_accept (host : option Sk) : tcpM Z :=
  match accept host with
  | None => modify (fun s => s <| socket := None |>) ;;; ret (- EIO)
  | Some k =>
      modify (fun s => s <| socket := Some k |> <| closed := false |>) ;;;
      emit (TcpFdHandlers true) ;;;
      ret 0
  end.

(** The listening socket of the host side. *)
Definition tcp_usb_host_init : option Sk := None.
Definition tcp_usb_host_cleanup (host : option Sk) : option Sk * list (tcp_event E) :=
  match host with Some _ => (None, [TcpClose]) | None => (None, []) end.
Definition tcp_usb_host_okay (host : option Sk) : Z := 0.
Definition tcp_usb_host (port : Z) : Z * option Sk :=
  match open_socket with
  | None => (- EIO, None)
  | Some k =>
      let '(k, bound) := bind_listen k (u16 port) in
      (if bound then 0 else - EIO, Some k)
  end.

End Connection.

(** ** Headers on the wire *)
Definition hdr_ok (h : tcp_usb_header_t) : Prop :=
  fits 8 (addr h) /\ fits 8 (ep h) /\ fits 8 (flags h) /\ - 2 ^ 15 <= length_ h < 2 ^ 15.

Lemma le_value_two l0 l1 : fits 8 l0 -> fits 8 l1 -> le_value [l0; l1] = l0 + 256 * l1.
Proof.
  intros H0 H1. cbn [le_value]. rewrite Z.shiftl_0_l, Z.lor_0_r.
  assert (Hno : l0 .& (l1 << 8) = 0).
  { apply Z.bits_inj'. intros i Hi. rewrite Z.land_spec, Z.bits_0, Z.shiftl_spec by done.
    destruct (Z.ltb_spec i 8); [by rewrite (Z.testbit_neg_r l1), andb_false_r by lia|].
    apply fits_bits in H0; [|lia]. destruct H0 as [_ ->]; [done|lia]. }
  rewrite <- Z.lxor_lor, <- Z.add_nocarry_lxor by done. rewrite Z.shiftl_mul_pow2; lia.
Qed.

Lemma hdr_of_bytes h : hdr_ok h -> hdr_of (hdr_bytes h) = Some h.
Proof.
  destruct h as [a e f l]. intros (Ha & He & Hf & Hl). cbn in *.
  change (Some (mk_hdr a e f (sgn 16 (le_value (le_bytes 2 l)))) = Some (mk_hdr a e f l)).
  do 2 f_equal.
  rewrite le_value_bytes. unfold sgn. rewrite !wrap_wrap by lia. unfold wrap.
  change (8 * Z.of_nat 2) with 16. change (2 ^ 16) with 65536. change (2 ^ (16 - 1)) with 32768.
  zcases; Z.to_euclidean_division_equations; lia.
Qed.

Lemma hdr_bytes_of bs :
  zlen bs = 5 -> Forall (fits 8) bs -> exists h, hdr_of bs = Some h /\ hdr_bytes h = bs /\ hdr_ok h.
Proof.
  unfold zlen. destruct bs as [|a [|e [|f [|l0 [|l1 [|]]]]]]; try done; try (cbn; lia). intros _ Hb.
  rewrite !Forall_cons in Hb. destruct Hb as (Ha & He & Hf & H0 & H1 & _).
  eexists. split; [reflexivity|]. set (v := le_value [l0; l1]).
  assert (Hv : v = l0 + 256 * l1) by (by apply le_value_two). unfold fits in *.
  change (2 ^ 8) with 256 in *.
  assert (Hs : sgn 16 v = if v <? 32768 then v else v - 65536).
  { unfold sgn, wrap. change (2 ^ 16) with 65536. change (2 ^ (16 - 1)) with 32768.
    rewrite Z.mod_small by lia. done. }
  split.
  - unfold hdr_bytes. cbn [addr ep flags length_ le_bytes]. repeat f_equal.
    + rewrite Hs. unfold wrap. zcases; Z.to_euclidean_division_equations; lia.
    + rewrite Hs. unfold wrap. rewrite Z.shiftr_div_pow2 by lia. change (2 ^ 8) with 256.
      zcases; Z.to_euclidean_division_equations; lia.
  - unfold hdr_ok, fits. cbn [addr ep flags length_]. rewrite Hs.
    change (2 ^ 8) with 256. change (2 ^ 15) with 32768. zcases; lia.
Qed.

Lemma hdr_bytes_fit h : hdr_ok h -> zlen (hdr_bytes h) = 5 /\ Forall (fits 8) (hdr_bytes h).
Proof.
  intros (Ha & He & Hf & Hl). split; [done|]. unfold hdr_bytes.
  rewrite !Forall_cons. auto using le_bytes_fit.
Qed.

(** ** What the connection relies on

    The kernel delivers the incoming byte stream in order and in pieces no
    longer than asked for, and takes any part of what is written. *)
Class OsLaws (Sk : Type) `{Os Sk} := {
  incoming : Sk -> list Z;
  outgoing : Sk -> list Z;
  recv_spec k n r bs k' :
    0 <= n -> recv k n = (r, bs, k') ->
    zlen bs <= n /\ Forall (fits 8) bs /\ (r = zlen bs \/ r = -1 /\ bs = []) /\
    incoming k = bs ++ incoming k' /\ outgoing k' = outgoing k;
  send_spec k bs r k' :
    send k bs = (r, k') ->
    incoming k' = incoming k /\
    (0 <= r <= zlen bs /\ outgoing k' = outgoing k ++ take (Z.to_nat r) bs \/
     r = -1 /\ outgoing k' = outgoing k);
  malloc_spec n : 0 <= n -> zlen (malloc n) = n /\ Forall (fits 8) (malloc n)
}.

(** No call moves exactly [EWOULDBLOCK] (eleven) bytes, which the code takes for
    a failure. *)
Class NeverEleven (Sk : Type) `{Os Sk} := {
  recv_not_eleven k n r bs k' : recv k n = (r, bs, k') -> r <> EWOULDBLOCK;
  send_not_eleven k bs r k' : send k bs = (r, k') -> r <> EWOULDBLOCK
}.

Definition contents (p : ptr) : list Z := match p with Valid o => o | _ => [] end.

(** The buffer the connection allocates for a request. *)
Definition buffer_for (h : tcp_usb_header_t) (b : ptr) : Prop :=
  if 0 <? length_ h then exists o, b = Valid o /\ zlen o = length_ h else b = Null.

(** The device behind the connection: it keeps the endpoint of the request,
    returns a length the buffer holds, and frees nothing. *)
Class TcpClientLaws (C E : Type) `{TcpClient C E} := {
  data_callback_spec h b c :
    hdr_ok h -> buffer_for h b ->
    wp (data_callback h b) (fun '(r, h', b') _ _ =>
      hdr_ok h' /\ - 2 ^ 15 <= r < 2 ^ 15 /\ b' <> Dangling /\
      (is_in h' = true -> r <= zlen (contents b'))) c;
  closed_callback_spec c : wp closed_callback (fun _ _ _ => True) c
}.

(** A transfer on the wire: its header, and its data when it carries any. *)
Abbreviation transfer := (tcp_usb_header_t * ptr)%type.

Definition wire (carries : bool) (x : transfer) : list Z :=
  hdr_bytes x.1 ++
  (if carries && (0 <? length_ x.1) then take (Z.to_nat (length_ x.1)) (contents x.2) else []).
Definition request_wire (x : transfer) : list Z := wire (negb (is_in x.1)) x.
Definition response_wire (x : transfer) : list Z := wire (is_in x.1) x.

(** The calls of the data callback among the events: the request it was given
    and the response it left. *)
Fixpoint calls {E} (es : list (tcp_event E)) : list (transfer * transfer) :=
  match es with
  | [] => []
  | TcpCalled q r (h, b) :: es => (q, (h <| length_ := sgn 16 r |>, b)) :: calls es
  | _ :: es => calls es
  end.
Definition requests (log : list (transfer * transfer)) : list Z := concat (map (fun x => request_wire x.1) log).
Definition responses (log : list (transfer * transfer)) : list Z := concat (map (fun x => response_wire x.2) log).

Lemma calls_app {E} (e1 e2 : list (tcp_event E)) : calls (e1 ++ e2) = calls e1 ++ calls e2.
Proof. induction e1 as [|[| |q r [h b]|] e1 IH]; cbn; by rewrite ?IH. Qed.

Lemma calls_client {E} (es : list E) : calls (map TcpClientEv es) = [].
Proof. induction es; by cbn. Qed.

Lemma requests_app l1 l2 : requests (l1 ++ l2) = requests l1 ++ requests l2.
Proof. unfold requests. by rewrite map_app, concat_app. Qed.
Lemma responses_app l1 l2 : responses (l1 ++ l2) = responses l1 ++ responses l2.
Proof. unfold responses. by rewrite map_app, concat_app. Qed.

Lemma requests_one l q x : requests (l ++ [(q, x)]) = requests l ++ request_wire q.
Proof. rewrite requests_app. unfold requests at 2. cbn. by rewrite app_nil_r. Qed.
Lemma responses_one l q x : responses (l ++ [(q, x)]) = responses l ++ response_wire x.
Proof. rewrite responses_app. unfold responses at 2. cbn. by rewrite app_nil_r. Qed.

Lemma take_slice {A} (l d : list A) i n r :
  slice i n l = Some d -> 0 <= r <= n ->
  take (Z.to_nat (i + r)) l = take (Z.to_nat i) l ++ take (Z.to_nat r) d.
Proof.
  unfold slice. zcases; try done. intros [= <-] Hr. rewrite take_take, Z2Nat.inj_add by lia.
  rewrite <- take_take_drop. do 3 f_equal. lia.
Qed.

Lemma slice_app_l {A} (l x d : list A) i n : slice i n l = Some d -> slice i n (l ++ x) = Some d.
Proof.
  unfold slice. rewrite length_app. zcases; try done. intros [= <-].
  rewrite drop_app_le by lia. rewrite take_app_le; [done|]. rewrite length_drop. lia.
Qed.

Lemma slice_shift {A} (p l d : list A) i n m :
  slice i n l = Some d -> i + n <= m -> slice (zlen p + i) n (p ++ take (Z.to_nat m) l) = Some d.
Proof.
  unfold slice, zlen. rewrite length_app, length_take. zcases; try done. intros [= <-] Hm.
  f_equal. rewrite drop_app_ge by lia.
  replace (Z.to_nat (Z.of_nat (length p) + i) - length p)%nat with (Z.to_nat i) by lia.
  rewrite !take_drop_commute, take_take. do 2 f_equal. lia.
Qed.

(** ** The framing theorem for the device role *)
Section Device.
Context {Sk C E : Type} `{Os Sk} `{TcpClient C E}.
Context `{!OsLaws Sk} `{!NeverEleven Sk} `{!TcpClientLaws C E}.

Abbreviation st := (tcp_usb_state_t Sk C).
Abbreviation tcpM := (dev st (tcp_event E)).
Implicit Types (s : st) (Q : progress -> st -> list (tcp_event E) -> Prop).

Lemma wp_do_closed s :
  wp tcp_usb_do_closed (fun _ s' es =>
    closed s' = true /\ socket s' = socket s /\ has_data_callback s' = has_data_callback s /\
    calls es = []) s.
Proof.
  unfold tcp_usb_do_closed. apply wp_bind, wp_gets. cbn [id]. destruct (closed s) eqn:Hc.
  { by apply wp_ret. }
  apply wp_bind, wp_modify, wp_bind, wp_emit, wp_when; intros Hcb; [|done].
  unfold call_client, zoom, wp. pose proof (closed_callback_spec (client s)) as Hw. unfold wp in Hw.
  change (client (s <| closed := true |>)) with (client s).
  destruct (closed_callback (client s)) as [[[a c'] es]| |]; [|done|done].
  repeat split; try done. cbn. apply calls_client.
Qed.

(** [read] and [write] through the connection's socket. *)
Lemma wp_sys_read n s k (Q : Z * list Z -> st -> list (tcp_event E) -> Prop) :
  0 <= n -> socket s = Some k ->
  (forall r bs k', zlen bs <= n -> Forall (fits 8) bs -> (r = zlen bs \/ r = -1 /\ bs = []) ->
     r <> EWOULDBLOCK -> incoming k = bs ++ incoming k' -> outgoing k' = outgoing k ->
     Q (r, bs) (s <| socket := Some k' |>) []) ->
  wp (sys_read n) Q s.
Proof.
  intros Hn Hs HQ. unfold sys_read. apply wp_bind, wp_gets. cbn [id]. rewrite Hs.
  destruct (recv k n) as [[r bs] k'] eqn:Er. pose proof (recv_spec _ _ _ _ _ Hn Er).
  pose proof (recv_not_eleven _ _ _ _ _ Er). apply wp_bind, wp_modify, wp_ret. apply HQ; tauto.
Qed.

Lemma wp_sys_write bs s k (Q : Z -> st -> list (tcp_event E) -> Prop) :
  socket s = Some k ->
  (forall r k', r <> EWOULDBLOCK -> incoming k' = incoming k ->
     (0 <= r <= zlen bs /\ outgoing k' = outgoing k ++ take (Z.to_nat r) bs \/
      r = -1 /\ outgoing k' = outgoing k) ->
     Q r (s <| socket := Some k' |>) []) ->
  wp (sys_write bs) Q s.
Proof.
  intros Hs HQ. unfold sys_write. apply wp_bind, wp_gets. cbn [id]. rewrite Hs.
  destruct (send k bs) as [r k'] eqn:Er. pose proof (send_spec _ _ _ _ Er).
  pose proof (send_not_eleven _ _ _ _ Er). apply wp_bind, wp_modify, wp_ret. apply HQ; tauto.
Qed.

Lemma wp_account r can on_eof total t s Q :
  r <> EWOULDBLOCK -> -1 <= r ->
  (forall a, total (s <| amount_done := a |>) = Done (t, s <| amount_done := a |>, [])) ->
  (can = true -> r = 0 -> wp on_eof (fun _ s' es => Q Return s' es) s) ->
  (r <= 0 -> Q Return s []) ->
  (0 < r -> amount_done s + r < t -> Q Return (s <| amount_done ::= fun x => x + r |>) []) ->
  (0 < r -> t <= amount_done s + r -> Q Completed (s <| amount_done ::= fun x => x + r |>) []) ->
  wp (account r can on_eof total) Q s.
Proof.
  intros H11 Hr Ht Heof Hagain Hpart Hall. unfold account, EWOULDBLOCK in *.
  destruct (Z.eqb_spec r 0) as [->|Hr0].
  { destruct can; cbn.
    - apply wp_bind. eapply wp_mono; [by apply Heof|]. intros a s' es HQ. apply wp_ret.
      by rewrite app_nil_r.
    - apply wp_ret. apply Hagain. lia. }
  destruct (Z.eqb_spec r 11); [done|]. cbn. destruct (Z.eqb_spec r (-1)) as [->|]; cbn.
  { apply wp_ret, Hagain. lia. }
  destruct (Z.ltb_spec r 0); [lia|]. apply wp_bind, wp_modify, wp_bind.
  assert (Et := Ht (amount_done s + r)). change (s <| amount_done := amount_done s + r |>)
    with (s <| amount_done ::= fun x => x + r |>) in Et.
  unfold wp at 1. rewrite Et. apply wp_bind, wp_gets, wp_ret. cbn [id app].
  change (amount_done (s <| amount_done ::= _ |>)) with (amount_done s + r).
  destruct (Z.ltb_spec (amount_done s + r) t); [apply Hpart|apply Hall]; lia.
Qed.

(** A [write] of the part [bs] of [W] that starts where [amount_done] is: what
    went out is a longer part of [W], the whole of it up to [t] or less. *)
Lemma wp_send can on_eof total t bs k O W s Q :
  socket s = Some k ->
  (forall s' a, header s' = header s ->
     total (s' <| amount_done := a |>) = Done (t, s' <| amount_done := a |>, [])) ->
  0 <= amount_done s < t -> amount_done s + zlen bs = t ->
  slice (amount_done s) (zlen bs) W = Some bs ->
  outgoing k = O ++ take (Z.to_nat (amount_done s)) W ->
  (forall k', incoming k' = incoming k -> outgoing k' = outgoing k ->
     wp on_eof (fun _ s' es => Q Return s' es) (s <| socket := Some k' |>)) ->
  (forall k' a, amount_done s <= a < t -> incoming k' = incoming k ->
     outgoing k' = O ++ take (Z.to_nat a) W ->
     Q Return (s <| socket := Some k' |> <| amount_done := a |>) []) ->
  (forall k', incoming k' = incoming k -> outgoing k' = O ++ take (Z.to_nat t) W ->
     Q Completed (s <| socket := Some k' |> <| amount_done := t |>) []) ->
  wp (r <- sys_write bs ;; account r can on_eof total) Q s.
Proof.
  intros Hs Ht Ha Hbs HW Ho Heof Hpart Hall. apply wp_bind.
  eapply wp_sys_write; [done|]. intros r k' H11 Hin Hr.
  assert (Hout : 0 <= r -> r <= zlen bs /\ outgoing k' = O ++ take (Z.to_nat (amount_done s + r)) W).
  { intros Hr0. destruct Hr as [[? ->]|[-> _]]; [|lia]. split; [lia|].
    rewrite (take_slice _ _ _ _ _ HW) by lia. by rewrite Ho, <- app_assoc. }
  assert (Hsame : r <= 0 -> outgoing k' = outgoing k).
  { intros Hr0. destruct Hr as [[? ->]|[-> ->]]; [|done]. replace r with 0 by lia. apply app_nil_r. }
  assert (-1 <= r) by lia. apply wp_account with (t := t); try done; cbn [app].
  - intros a. by apply (Ht (s <| socket := Some k' |>)).
  - intros _ Hr0. apply Heof; [done|]. apply Hsame. lia.
  - intros Hr0. destruct s. apply (Hpart k' amount_done0); cbn in *; [lia|done|]. rewrite (Hsame Hr0). exact Ho.
  - intros Hr0 Hlt. destruct Hout as [? Hout]; [lia|]. apply (Hpart k'); [|done|done].
    split; [change (amount_done s <= amount_done s + r); lia|exact Hlt].
  - intros Hr0 Hge. destruct Hout as [? Hout]; [lia|]. change (amount_done (s <| socket := Some k' |>)) with (amount_done s) in Hge.
    assert (Et : amount_done s + r = t) by lia. rewrite Et in Hout.
    specialize (Hall k' Hin Hout). rewrite <- Et in Hall. exact Hall.
Qed.

(** What a [read] into the object [o] from offset [a] on leaves in [o']. *)
Definition received (k k' : Sk) (a : Z) (bs o o' : list Z) : Prop :=
  zlen o' = zlen o /\ take (Z.to_nat (a + zlen bs)) o' = take (Z.to_nat a) o ++ bs /\
  incoming k = bs ++ incoming k' /\ outgoing k' = outgoing k /\
  Forall (fits 8) bs /\ (Forall (fits 8) o -> Forall (fits 8) o').

Lemma received_splice k k' a bs o :
  0 <= a -> a + zlen bs <= zlen o -> Forall (fits 8) bs ->
  incoming k = bs ++ incoming k' -> outgoing k' = outgoing k ->
  exists o', splice a bs o = Some o' /\ received k k' a bs o o'.
Proof.
  intros Ha Hlen Hbs Hin Hout. destruct (splice a bs o) as [o'|] eqn:Eo.
  2: { rewrite splice_Some in Eo by done. done. }
  exists o'. split; [done|]. pose proof (splice_length _ _ _ _ Eo). pose proof (splice_prefix _ _ _ _ Eo) as Hp.
  repeat split; try done.
  - unfold zlen in *. lia.
  - rewrite <- Hp. f_equal. unfold zlen. lia.
  - intros Ho. exact (Forall_splice _ _ _ _ _ Ho Hbs Eo).
Qed.

Lemma wp_read_header can on_eof s k o Q :
  socket s = Some k -> header s = Valid o -> zlen o = 5 -> 0 <= amount_done s < 5 ->
  (forall k' o', received k k' (amount_done s) [] o o' ->
     wp on_eof (fun _ s' es => Q Return s' es) (s <| socket := Some k' |> <| header := Valid o' |>)) ->
  (forall k' o' bs, received k k' (amount_done s) bs o o' -> amount_done s + zlen bs < 5 ->
     Q Return (s <| socket := Some k' |> <| header := Valid o' |>
                 <| amount_done := amount_done s + zlen bs |>) []) ->
  (forall k' o' bs, received k k' (amount_done s) bs o o' -> amount_done s + zlen bs = 5 ->
     Q Completed (s <| socket := Some k' |> <| header := Valid o' |> <| amount_done := 5 |>) []) ->
  wp (read_header can on_eof) Q s.
Proof.
  intros Hs Hh Ho Ha Heof Hpart Hall. unfold read_header. apply wp_bind, wp_gets. cbn [id].
  unfold sizeof_header. destruct (Z.ltb_spec (amount_done s) 5); [|lia].
  apply wp_bind. eapply wp_sys_read; [lia|done|]. intros r bs k' Hlen Hbs Hr H11 Hin Hout.
  destruct (received_splice k k' (amount_done s) bs o) as (o' & Eo & Hrec); try done; [lia|lia|].
  change (header (s <| socket := Some k' |>)) with (header s). apply wp_bind.
  eapply wp_lift; [by rewrite Hh|]. apply wp_bind, wp_modify. cbn [app].
  assert (Hz : r <= 0 -> bs = []).
  { destruct Hr as [->|[-> ->]]; [|done]. unfold zlen. destruct bs; cbn; [done|lia]. }
  assert (0 <= zlen bs) by (unfold zlen; lia).
  apply wp_account with (t := 5); try done; cbn [app].
  - lia.
  - intros _ Hr0. apply Heof. rewrite <- Hz by lia. done.
  - intros Hr0. destruct s; cbn in *. specialize (Hpart k' o' []). cbn in Hpart.
    rewrite Z.add_0_r in Hpart. apply Hpart; [|lia]. rewrite <- Hz by lia. done.
  - intros Hr0 Hlt. destruct Hr as [->|[-> _]]; [|lia]. by apply (Hpart k' o' bs).
  - intros Hr0 Hge. destruct Hr as [->|[-> _]]; [|lia]. change (5 <= amount_done s + zlen bs) in Hge.
    assert (E5 : amount_done s + zlen bs = 5) by lia. specialize (Hall k' o' bs Hrec E5).
    destruct s; cbn in *. unfold upd in *; cbn in *. by rewrite E5.
Qed.

Lemma wp_read_data can on_eof s k h b Q :
  socket s = Some k -> (deref (header s) ≫= hdr_of) = Some h -> buffer s = Valid b ->
  length_ h <= zlen b -> 5 <= amount_done s < 5 + length_ h ->
  (forall k' b', received k k' (amount_done s - 5) [] b b' ->
     wp on_eof (fun _ s' es => Q Return s' es) (s <| socket := Some k' |> <| buffer := Valid b' |>)) ->
  (forall k' b' bs, received k k' (amount_done s - 5) bs b b' -> amount_done s + zlen bs < 5 + length_ h ->
     Q Return (s <| socket := Some k' |> <| buffer := Valid b' |>
                 <| amount_done := amount_done s + zlen bs |>) []) ->
  (forall k' b' bs, received k k' (amount_done s - 5) bs b b' -> amount_done s + zlen bs = 5 + length_ h ->
     Q Completed (s <| socket := Some k' |> <| buffer := Valid b' |>
                    <| amount_done := 5 + length_ h |>) []) ->
  wp (read_data can on_eof) Q s.
Proof.
  intros Hs Hh Hb Hlb Ha Heof Hpart Hall. unfold read_data. apply wp_bind, wp_gets.
  apply wp_bind. unfold the_header at 1. apply wp_bind, wp_gets. eapply wp_lift; [done|].
  cbn [id]. unfold sizeof_header. apply wp_bind.
  eapply wp_sys_read; [lia|done|]. intros r bs k' Hlen Hbs Hr H11 Hin Hout.
  destruct (received_splice k k' (amount_done s - 5) bs b) as (b' & Eb & Hrec); try done; [lia|lia|].
  change (buffer (s <| socket := Some k' |>)) with (buffer s). apply wp_bind.
  eapply wp_lift; [by rewrite Hb|]. apply wp_bind, wp_modify. cbn [app].
  assert (Hz : r <= 0 -> bs = []).
  { destruct Hr as [->|[-> ->]]; [|done]. unfold zlen. destruct bs; cbn; [done|lia]. }
  assert (0 <= zlen bs) by (unfold zlen; lia).
  apply wp_account with (t := 5 + length_ h); try done; cbn [app].
  - lia.
  - intros a. unfold transfer_size, the_header. run. by erewrite bind_lift by exact Hh.
  - intros _ Hr0. apply Heof. rewrite <- Hz by lia. done.
  - intros Hr0. destruct s; cbn in *. specialize (Hpart k' b' []). cbn in Hpart.
    rewrite Z.add_0_r in Hpart. apply Hpart; [|lia]. rewrite <- Hz by lia. done.
  - intros Hr0 Hlt. destruct Hr as [->|[-> _]]; [|lia]. by apply (Hpart k' b' bs).
  - intros Hr0 Hge. destruct Hr as [->|[-> _]]; [|lia].
    change (5 + length_ h <= amount_done s + zlen bs) in Hge.
    assert (E5 : amount_done s + zlen bs = 5 + length_ h) by lia. specialize (Hall k' b' bs Hrec E5).
    destruct s; cbn in *. unfold upd in *; cbn in *. by rewrite E5.
Qed.

(** *** The invariant of the device role

    [k0] is the socket when it was connected; [log] the transfers handed to the
    data callback since.  [rx] has been taken from the incoming stream and [tx]
    put on the outgoing one. *)
Variable k0 : Sk.

Definition receiving (log : list (transfer * transfer)) (rx : list Z) s : Prop :=
  exists o, header s = Valid o /\ zlen o = 5 /\ Forall (fits 8) o /\
    (0 <= amount_done s < 5 /\ rx = requests log ++ take (Z.to_nat (amount_done s)) o \/
     exists h b, hdr_of o = Some h /\ is_in h = false /\ buffer s = Valid b /\ zlen b = length_ h /\
       5 <= amount_done s < 5 + length_ h /\
       rx = requests log ++ o ++ take (Z.to_nat (amount_done s - 5)) b).

Definition answering (log : list (transfer * transfer)) (rx tx : list Z) s : Prop :=
  exists log' q h b, log = log' ++ [(q, (h, b))] /\
    header s = Valid (hdr_bytes h) /\ hdr_ok h /\ buffer s = b /\ b <> Dangling /\
    (is_in h = true -> length_ h <= zlen (contents b)) /\
    0 <= amount_done s < zlen (response_wire (h, b)) /\
    rx = requests log /\
    tx = responses log' ++ take (Z.to_nat (amount_done s)) (response_wire (h, b)).

Definition phase (log : list (transfer * transfer)) (rx tx : list Z) s : Prop :=
  if closed s then (exists p, rx = requests log ++ p) /\ (exists q, responses log = tx ++ q)
  else
    match state s with
    | tcp_usb_idle => rx = requests log /\ tx = responses log
    | tcp_usb_read_request => receiving log rx s /\ tx = responses log
    | tcp_usb_write_response => answering log rx tx s
    | _ => False
    end.

Definition framed (log : list (transfer * transfer)) s : Prop :=
  has_data_callback s = true /\
  exists k rx tx, socket s = Some k /\ incoming k0 = rx ++ incoming k /\
    outgoing k = outgoing k0 ++ tx /\ phase log rx tx s.

Abbreviation post log := (fun (_ : unit) (s' : st) (es : list (tcp_event E)) => framed (log ++ calls es) s').

Lemma wp_closing log s k rx tx p q :
  socket s = Some k -> incoming k0 = rx ++ incoming k -> outgoing k = outgoing k0 ++ tx ->
  rx = requests log ++ p -> responses log = tx ++ q -> has_data_callback s = true ->
  wp tcp_usb_do_closed (post log) s.
Proof.
  intros Hs Hin Hout Hrx Htx Hcb. eapply wp_mono; [apply wp_do_closed|].
  intros _ s' es (Hc & Hs' & Hcb' & ->). rewrite app_nil_r. split; [by rewrite Hcb'|].
  exists k, rx, tx. rewrite Hs'. repeat split; try done. unfold phase. rewrite Hc. eauto.
Qed.

Lemma wp_free_header {A} (m : tcpM A) s (Q : A -> st -> list (tcp_event E) -> Prop) :
  header s <> Dangling -> wp m Q (s <| header := Dangling |>) -> wp (free_header ;;; m) Q s.
Proof.
  intros Hh Hm. apply wp_bind. unfold free_header. apply wp_bind, wp_gets. cbn [id].
  by destruct (header s); [apply wp_modify|done|apply wp_modify].
Qed.

Lemma wp_free_buffer {A} (m : tcpM A) s (Q : A -> st -> list (tcp_event E) -> Prop) :
  buffer s <> Dangling -> (forall b, wp m Q (s <| buffer := b |>)) -> wp (free_buffer ;;; m) Q s.
Proof.
  intros Hh Hm. apply wp_bind. unfold free_buffer. apply wp_bind, wp_gets. cbn [id].
  destruct (buffer s) eqn:Eb; [|done|apply wp_modify, Hm].
  apply wp_ret. specialize (Hm Null). destruct s; cbn in *. by rewrite Eb.
Qed.

(** *** Writing the response *)
Lemma zlen_wire c x :
  (c = true -> length_ x.1 <= zlen (contents x.2)) ->
  zlen (wire c x) = 5 + (if c && (0 <? length_ x.1) then length_ x.1 else 0).
Proof.
  intros Hc. unfold wire, zlen in *. rewrite length_app. cbn [length hdr_bytes le_bytes].
  destruct c; cbn [andb]; [|cbn; lia]. specialize (Hc eq_refl).
  destruct (Z.ltb_spec 0 (length_ x.1)); [rewrite length_take|cbn]; lia.
Qed.

Lemma wp_response_finish log s k :
  socket s = Some k -> incoming k0 = requests log ++ incoming k ->
  outgoing k = outgoing k0 ++ responses log -> has_data_callback s = true -> closed s = false ->
  header s <> Dangling -> buffer s <> Dangling ->
  wp (free_header ;;; free_buffer ;;; modify (fun s => s <| state := tcp_usb_idle |>)) (post log) s.
Proof.
  intros Hs Hin Hout Hcb Hcl Hh Hb. apply wp_free_header; [done|]. apply wp_free_buffer; [done|].
  intros b. apply wp_modify. cbn [calls]. rewrite app_nil_r. split; [done|].
  exists k, (requests log), (responses log). repeat split; try done. unfold phase.
  unfold upd; cbn. rewrite Hcl. done.
Qed.

Lemma wp_response_closing log s k rx tx p q :
  socket s = Some k -> incoming k0 = rx ++ incoming k -> outgoing k = outgoing k0 ++ tx ->
  rx = requests log ++ p -> responses log = tx ++ q -> has_data_callback s = true ->
  header s <> Dangling -> buffer s <> Dangling ->
  wp (free_header ;;; free_buffer ;;; tcp_usb_do_closed) (post log) s.
Proof.
  intros Hs Hin Hout Hrx Htx Hcb Hh Hb. apply wp_free_header; [done|]. apply wp_free_buffer; [done|].
  intros b. eapply wp_closing with (k := k); done.
Qed.

Lemma wp_stage (m : tcpM progress) can k (Q : unit -> st -> list (tcp_event E) -> Prop) s :
  wp m (fun p s1 e1 =>
    match p with
    | Return => Q tt s1 e1
    | _ => wp (k p (after p can)) (fun a s2 e2 => Q a s2 (e1 ++ e2)) s1
    end) s ->
  wp (stage m can k) Q s.
Proof.
  intros Hw. unfold stage. apply wp_bind. eapply wp_mono; [exact Hw|].
  intros [] s1 e1 HQ; [|exact HQ|exact HQ]. apply wp_ret. by rewrite app_nil_r.
Qed.

Lemma wp_write_header can on_eof s k O o x Q :
  socket s = Some k -> header s = Valid o -> zlen o = 5 -> 0 <= amount_done s < 5 ->
  outgoing k = O ++ take (Z.to_nat (amount_done s)) (o ++ x) ->
  (forall k', incoming k' = incoming k -> outgoing k' = outgoing k ->
     wp on_eof (fun _ s' es => Q Return s' es) (s <| socket := Some k' |>)) ->
  (forall k' a, 0 <= a < 5 -> incoming k' = incoming k ->
     outgoing k' = O ++ take (Z.to_nat a) (o ++ x) ->
     Q Return (s <| socket := Some k' |> <| amount_done := a |>) []) ->
  (forall k', incoming k' = incoming k -> outgoing k' = O ++ take (Z.to_nat 5) (o ++ x) ->
     Q Completed (s <| socket := Some k' |> <| amount_done := 5 |>) []) ->
  wp (write_header can on_eof) Q s.
Proof.
  intros Hs Hh Ho Ha Hk Heof Hpart Hall. unfold write_header. apply wp_bind, wp_gets. cbn [id].
  unfold sizeof_header. destruct (Z.ltb_spec (amount_done s) 5); [|lia]. cbn [app].
  pose proof (slice_Some o (amount_done s) (5 - amount_done s)) as Hsl.
  assert (Hlen : zlen (take (Z.to_nat (5 - amount_done s)) (drop (Z.to_nat (amount_done s)) o))
                 = 5 - amount_done s) by (eapply slice_length, Hsl; lia).
  apply wp_bind. eapply wp_lift; [rewrite Hh; apply Hsl; lia|]. cbn [app].
  eapply wp_send with (t := 5); try done.
  - lia.
  - rewrite Hlen. apply slice_app_l, Hsl; lia.
  - intros k' a Hra. apply Hpart. lia.
Qed.

Lemma wp_write_data can on_eof s k O o h b Q :
  let W := o ++ take (Z.to_nat (length_ h)) b in
  socket s = Some k -> header s = Valid o -> hdr_of o = Some h -> zlen o = 5 ->
  buffer s = Valid b -> length_ h <= zlen b -> 5 <= amount_done s < 5 + length_ h ->
  outgoing k = O ++ take (Z.to_nat (amount_done s)) W ->
  (forall k', incoming k' = incoming k -> outgoing k' = outgoing k ->
     wp on_eof (fun _ s' es => Q Return s' es) (s <| socket := Some k' |>)) ->
  (forall k' a, 5 <= a < 5 + length_ h -> incoming k' = incoming k ->
     outgoing k' = O ++ take (Z.to_nat a) W ->
     Q Return (s <| socket := Some k' |> <| amount_done := a |>) []) ->
  (forall k', incoming k' = incoming k -> outgoing k' = O ++ W ->
     Q Completed (s <| socket := Some k' |> <| amount_done := 5 + length_ h |>) []) ->
  wp (write_data can on_eof) Q s.
Proof.
  intros W Hs Hh Hoh Ho Hb Hlb Ha Hk Heof Hpart Hall. unfold write_data. apply wp_bind, wp_gets.
  apply wp_bind. unfold the_header at 1. apply wp_bind, wp_gets. eapply wp_lift.
  { cbn [id]. by rewrite Hh. }
  cbn [id app]. unfold sizeof_header.
  pose proof (slice_Some b (amount_done s - 5) (length_ h - (amount_done s - 5))) as Hsl.
  set (bs := take (Z.to_nat (length_ h - (amount_done s - 5))) (drop (Z.to_nat (amount_done s - 5)) b)) in *.
  assert (Hlen : zlen bs = length_ h - (amount_done s - 5)) by (eapply slice_length, Hsl; lia).
  apply wp_bind. eapply wp_lift; [rewrite Hb; apply Hsl; lia|]. cbn [app].
  eapply wp_send with (t := 5 + length_ h); try done.
  - intros s' a Es. unfold transfer_size, the_header. run.
    erewrite bind_lift; [reflexivity|].
    transitivity (deref (header s') ≫= hdr_of); [reflexivity|]. by rewrite Es, Hh.
  - lia.
  - lia.
  - rewrite Hlen. replace (amount_done s) with (zlen o + (amount_done s - 5)) at 1 by lia.
    apply slice_shift; [apply Hsl; lia|lia].
  - intros k' a Hra. apply Hpart. lia.
  - intros k' Hin Hout. apply Hall; [done|]. rewrite Hout, take_ge; [done|].
    unfold W, zlen in *. rewrite length_app, length_take. lia.
Qed.

(** The connection holds the response [(h, b)] to [q], and has sent [a] bytes. *)
Definition responds log q h b k s : Prop :=
  (socket s = Some k /\ closed s = false /\ state s = tcp_usb_write_response /\
   has_data_callback s = true) /\
  incoming k0 = requests (log ++ [(q, (h, b))]) ++ incoming k /\
  (header s = Valid (hdr_bytes h) /\ hdr_ok h /\ buffer s = b /\ b <> Dangling /\
   (is_in h = true -> length_ h <= zlen (contents b))).
Definition sent log h b k a : Prop :=
  outgoing k = (outgoing k0 ++ responses log) ++ take (Z.to_nat a) (response_wire (h, b)).

Lemma responds_move log q h b k k' a s :
  responds log q h b k s -> incoming k' = incoming k ->
  responds log q h b k' (s <| socket := Some k' |>) /\
  responds log q h b k' (s <| socket := Some k' |> <| amount_done := a |>).
Proof.
  intros ((Hs & Hcl & Hst & Hcb) & Hin & Hbuf) Hi. unfold responds. rewrite Hi. done.
Qed.

Lemma responds_framed log q h b k s :
  responds log q h b k s -> sent log h b k (amount_done s) ->
  0 <= amount_done s < zlen (response_wire (h, b)) -> framed ((log ++ [(q, (h, b))]) ++ []) s.
Proof.
  intros ((Hs & Hcl & Hst & Hcb) & Hin & Hbuf) Hsent Ha. rewrite app_nil_r. split; [done|].
  eexists k, _, _. split; [done|]. split; [exact Hin|].
  split; [by rewrite Hsent, <- app_assoc|]. unfold phase. rewrite Hcl, Hst.
  exists log, q, h, b. split; [done|]. tauto.
Qed.

Lemma wp_responds_closing log q h b k a s :
  responds log q h b k s -> sent log h b k a ->
  wp (free_header ;;; free_buffer ;;; tcp_usb_do_closed) (post (log ++ [(q, (h, b))])) s.
Proof.
  intros ((Hs & Hcl & Hst & Hcb) & Hin & Hh & Hok & Hb & Hnd & Hlen) Hsent.
  eapply (wp_response_closing _ _ k (requests (log ++ [(q, (h, b))]))
    (responses log ++ take (Z.to_nat a) (response_wire (h, b))) []
    (drop (Z.to_nat a) (response_wire (h, b)))); try done.
  - by rewrite Hsent, <- app_assoc.
  - by rewrite app_nil_r.
  - by rewrite responses_one, <- app_assoc, take_drop.
  - by rewrite Hh.
  - by rewrite Hb.
Qed.

Lemma wp_responds_finish log q h b k a s :
  responds log q h b k s -> sent log h b k a -> zlen (response_wire (h, b)) <= a ->
  wp (free_header ;;; free_buffer ;;; modify (fun s => s <| state := tcp_usb_idle |>))
    (post (log ++ [(q, (h, b))])) s.
Proof.
  intros ((Hs & Hcl & Hst & Hcb) & Hin & Hh & Hok & Hb & Hnd & Hlen) Hsent Ha.
  eapply wp_response_finish; try done.
  - rewrite Hsent, responses_one, <- app_assoc. do 2 f_equal. apply take_ge. unfold zlen in Ha. lia.
  - by rewrite Hh.
  - by rewrite Hb.
Qed.

Lemma response_wire_size log q h b k s :
  responds log q h b k s ->
  zlen (response_wire (h, b)) = 5 + (if is_in h && (0 <? length_ h) then length_ h else 0).
Proof. intros (_ & _ & _ & _ & _ & _ & Hlen). by apply zlen_wire. Qed.

Abbreviation closing := (free_header ;;; free_buffer ;;; tcp_usb_do_closed).
Abbreviation finishing := (free_header ;;; free_buffer ;;; modify (fun s => s <| state := tcp_usb_idle |>)).

Lemma wp_responds_data can log q h b k s :
  responds log q h b k s -> sent log h b k (amount_done s) ->
  is_in h && (0 <? length_ h) = true -> 5 <= amount_done s < zlen (response_wire (h, b)) ->
  wp (stage (write_data can closing) can (fun _ _ => finishing)) (post (log ++ [(q, (h, b))])) s.
Proof.
  intros Hr Hsent Hd Ha. pose proof (response_wire_size _ _ _ _ _ _ Hr) as Hw. rewrite Hd in Hw.
  destruct (Hr) as ((Hs & _) & _ & Hh & Hok & Hb & _ & Hlen).
  apply andb_prop in Hd as [Hin Hpos]. apply Z.ltb_lt in Hpos. specialize (Hlen Hin).
  destruct b as [| |o]; [change (length_ h <= 0) in Hlen; lia|change (length_ h <= 0) in Hlen; lia|].
  assert (HW : response_wire (h, Valid o) = hdr_bytes h ++ take (Z.to_nat (length_ h)) o).
  { unfold response_wire, wire. cbn [fst snd contents]. rewrite Hin.
    by destruct (Z.ltb_spec 0 (length_ h)); [|lia]. }
  apply wp_stage. eapply wp_write_data with (k := k) (o := hdr_bytes h) (b := o) (h := h);
    try done; [by apply hdr_of_bytes|lia|unfold sent in Hsent; rewrite HW in Hsent; exact Hsent| | |].
  - intros k' Hi Ho. apply (wp_responds_closing _ _ _ _ k' (amount_done s)).
    + by eapply responds_move.
    + by unfold sent; rewrite Ho.
  - intros k' a Hra Hi Ho. apply (responds_framed _ _ _ _ k').
    + by eapply responds_move.
    + unfold sent. rewrite HW. exact Ho.
    + rewrite Hw. exact (conj (Z.le_trans 0 5 a ltac:(lia) (proj1 Hra)) (proj2 Hra)).
  - intros k' Hi Ho. apply (wp_responds_finish _ _ _ _ k' (5 + length_ h)).
    + by eapply responds_move.
    + unfold sent. rewrite Ho, <- HW. f_equal. symmetry. apply take_ge. unfold zlen in Hw. lia.
    + lia.
Qed.

Lemma wp_write_response can log q h b k s :
  responds log q h b k s -> sent log h b k (amount_done s) ->
  0 <= amount_done s < zlen (response_wire (h, b)) ->
  wp (write_response can) (post (log ++ [(q, (h, b))])) s.
Proof.
  intros Hr Hsent Ha. pose proof (response_wire_size _ _ _ _ _ _ Hr) as Hw.
  assert (Hrest : forall can k1 s1, responds log q h b k1 s1 -> sent log h b k1 (amount_done s1) ->
    5 <= amount_done s1 <= zlen (response_wire (h, b)) ->
    (amount_done s1 = 5 \/ amount_done s1 < zlen (response_wire (h, b))) ->
    wp (h <- the_header ;; if is_in h && (0 <? length_ h)
        then stage (write_data can closing) can (fun _ _ => finishing) else finishing)
      (post (log ++ [(q, (h, b))])) s1).
  { clear - OsLaws0 NeverEleven0 TcpClientLaws0 Hw. intros can k1 s1 Hr Hsent Ha Ha5.
    apply wp_bind. unfold the_header. apply wp_bind, wp_gets.
    eapply wp_lift; [cbn [id]; destruct (Hr) as (_ & _ & -> & Hok & _); by apply hdr_of_bytes|].
    cbn [app]. apply wp_if; intros Hd; rewrite Hd in Hw.
    - eapply wp_responds_data; try done. apply andb_prop in Hd as [_ Hd]. lia.
    - eapply wp_responds_finish; try done. lia. }
  unfold write_response. apply wp_stage. destruct (Z.lt_ge_cases (amount_done s) 5) as [Hlt|Hge].
  - destruct (Hr) as ((Hs & _) & _ & Hh & Hok & _).
    eapply wp_write_header with (k := k) (o := hdr_bytes h); try done; [lia| | |].
    + intros k' Hi Ho. apply (wp_responds_closing _ _ _ _ k' (amount_done s)).
      * by eapply responds_move.
      * by unfold sent; rewrite Ho.
    + intros k' a Hra Hi Ho. apply (responds_framed _ _ _ _ k'); [by eapply responds_move|exact Ho|].
      rewrite Hw. change (amount_done (_ <| amount_done := a |>)) with a. zcases; destruct (is_in h); cbn; lia.
    + intros k' Hi Ho. apply (Hrest _ k'); [by eapply responds_move|exact Ho| |by left].
      rewrite Hw. change (amount_done (_ <| amount_done := 5 |>)) with 5. zcases; destruct (is_in h); cbn; lia.
  - unfold write_header. apply wp_bind, wp_gets. cbn [id]. unfold sizeof_header.
    destruct (Z.ltb_spec (amount_done s) 5); [lia|]. apply wp_ret. apply (Hrest _ k); try done; lia.
Qed.

(** *** Reading the request *)
Definition requested log h b k s : Prop :=
  (socket s = Some k /\ closed s = false /\ has_data_callback s = true) /\
  incoming k0 = (requests log ++ request_wire (h, b)) ++ incoming k /\
  outgoing k = outgoing k0 ++ responses log /\
  (header s = Valid (hdr_bytes h) /\ hdr_ok h /\ buffer s = b /\ buffer_for h b).

Lemma sgn_small r : - 2 ^ 15 <= r < 2 ^ 15 -> sgn 16 r = r.
Proof.
  change (2 ^ 15) with 32768. intros Hr. unfold sgn, wrap. change (2 ^ 16) with 65536.
  change (2 ^ (16 - 1)) with 32768. zcases; Z.to_euclidean_division_equations; lia.
Qed.

Lemma wp_deliver can log h b k s :
  requested log h b k s -> wp (deliver_request can) (post log) s.
Proof.
  intros ((Hs & Hcl & Hcb) & Hin & Hout & Hh & Hok & Hb & Hfor). unfold deliver_request.
  apply wp_bind, wp_gets. cbn [id]. rewrite Hcb. apply wp_bind, wp_modify. cbn [app].
  set (s1 := s <| state := _ |> <| amount_done := _ |>).
  assert (Hh1 : deref (header s1) ≫= hdr_of = Some h)
    by (change (header s1) with (header s); rewrite Hh; by apply hdr_of_bytes).
  assert (Hb1 : buffer s1 = b) by exact Hb. assert (Hc1 : client s1 = client s) by done.
  apply wp_bind. unfold run_data_callback. apply wp_bind, wp_gets. apply wp_bind.
  unfold the_header. apply wp_bind, wp_gets.
  eapply wp_lift; [exact Hh1|].
  apply wp_bind. cbn [id app]. rewrite Hb1. unfold call_client, zoom, wp at 1. rewrite Hc1.
  pose proof (data_callback_spec h b (client s) Hok Hfor) as Hcall. unfold wp in Hcall.
  destruct (data_callback h b (client s)) as [[[[[r h'] b'] c'] es]| |]; [|done|done].
  destruct Hcall as (Hok' & Hr & Hnd & Hlen).
  apply wp_bind, wp_emit, wp_bind, wp_modify, wp_ret. apply wp_bind. apply wp_bind, wp_gets.
  eapply wp_lift; [exact (hdr_of_bytes h' Hok')|].
  apply wp_bind, wp_modify. cbn [app].
  set (h2 := h' <| length_ := sgn 16 r |>).
  assert (Hl2 : length_ h2 = r) by exact (sgn_small r Hr).
  assert (Hok2 : hdr_ok h2).
  { destruct Hok' as (? & ? & ? & _). unfold hdr_ok. rewrite Hl2. done. }
  assert (Hlen2 : is_in h2 = true -> length_ h2 <= zlen (contents b')) by (rewrite Hl2; exact Hlen).
  assert (Hsize := zlen_wire (is_in h2) (h2, b') Hlen2). cbn [fst snd] in Hsize.
  eapply wp_mono; [eapply (wp_write_response _ log (h, b) h2 b' k)|].
  - split; [done|]. split; [by rewrite Hin, requests_one|]. done.
  - unfold sent. change (Z.to_nat (amount_done _)) with 0%nat. by rewrite take_0, app_nil_r.
  - unfold response_wire. cbn [fst]. rewrite Hsize. change (amount_done _) with 0.
    zcases; destruct (is_in h2); cbn; lia.
  - intros ? s' es'. cbv beta. rewrite !calls_app, calls_client. cbn [calls app]. by rewrite <- app_assoc.
Qed.

Lemma wp_request_data cw can log h b k s o :
  socket s = Some k -> closed s = false -> state s = tcp_usb_read_request ->
  has_data_callback s = true -> outgoing k = outgoing k0 ++ responses log ->
  header s = Valid o -> zlen o = 5 -> Forall (fits 8) o -> hdr_of o = Some h -> is_in h = false ->
  buffer s = Valid b -> zlen b = length_ h -> 5 <= amount_done s < 5 + length_ h ->
  incoming k0 = (requests log ++ o ++ take (Z.to_nat (amount_done s - 5)) b) ++ incoming k ->
  wp (stage (read_data can closing) can (fun _ _ => deliver_request cw)) (post log) s.
Proof.
  intros Hs Hcl Hst Hcb Hout Hh Ho Hof Hoh Hdir Hb Hlb Ha Hin.
  destruct (hdr_bytes_of o Ho Hof) as (h' & Hoh' & Hbytes & Hok).
  assert (h' = h) as -> by congruence.
  assert (Hmore : forall k' bs b', received k k' (amount_done s - 5) bs b b' ->
    incoming k0 = (requests log ++ o ++ take (Z.to_nat (amount_done s + zlen bs - 5)) b') ++ incoming k').
  { intros k' bs b' (_ & Htake & Hi & _). rewrite Hin, Hi.
    replace (amount_done s + zlen bs - 5) with (amount_done s - 5 + zlen bs) by lia.
    by rewrite Htake, !app_assoc. }
  apply wp_stage. eapply wp_read_data with (k := k) (h := h) (b := b); try done; [by rewrite Hh|lia| | |].
  - intros k' b' Hrec. specialize (Hmore k' [] b' Hrec).
    destruct Hrec as (_ & _ & _ & Ho' & _). apply wp_free_header.
    { change (header s <> Dangling). by rewrite Hh. }
    apply wp_free_buffer; [done|]. intros b2. eapply wp_closing with (k := k'); try done.
    + by rewrite Ho'.
    + symmetry. apply app_nil_r.
  - intros k' b' bs Hrec Hlt. specialize (Hmore k' bs b' Hrec).
    destruct Hrec as (Hlen & _ & _ & Ho' & _). cbn [calls]. rewrite app_nil_r. split; [done|].
    eexists k', _, (responses log). split; [done|]. split; [exact Hmore|].
    split; [by rewrite Ho'|]. unfold phase, upd. cbn [closed state]. rewrite Hcl, Hst.
    split; [|done]. exists o. repeat (split; [done|]). right. exists h, b'.
    repeat (split; [done || lia|]). split; [|done]. cbn [amount_done]. unfold zlen in *. lia.
  - intros k' b' bs Hrec Hall. specialize (Hmore k' bs b' Hrec). rewrite Hall in Hmore.
    destruct Hrec as (Hlen & _ & _ & Ho' & _). cbn [app].
    apply (wp_deliver _ _ h (Valid b') k'). split; [done|]. split.
    { rewrite Hmore. do 2 f_equal. unfold request_wire, wire. cbn [fst snd contents].
      rewrite Hdir, Hbytes. destruct (Z.ltb_spec 0 (length_ h)); [|lia]. cbn.
      do 3 f_equal. lia. }
    split; [by rewrite Ho'|]. rewrite Hbytes. repeat (split; [done|]). unfold buffer_for.
    destruct (Z.ltb_spec 0 (length_ h)); [|lia]. exists b'. split; [done|lia].
Qed.

(** The rest of a request once its header is complete. *)
Lemma wp_request_body cr cw log h k s o :
  socket s = Some k -> closed s = false -> state s = tcp_usb_read_request ->
  has_data_callback s = true -> outgoing k = outgoing k0 ++ responses log ->
  header s = Valid o -> zlen o = 5 -> Forall (fits 8) o -> hdr_of o = Some h -> amount_done s = 5 ->
  buffer_for h (buffer s) -> incoming k0 = (requests log ++ o) ++ incoming k ->
  wp (h <- the_header ;;
      if negb (is_in h) && (0 <? length_ h)
      then stage (read_data cr closing) cr (fun _ _ => deliver_request cw)
      else deliver_request cw) (post log) s.
Proof.
  intros Hs Hcl Hst Hcb Hout Hh Ho Hof Hoh Ha Hfor Hin.
  destruct (hdr_bytes_of o Ho Hof) as (h' & Hoh' & Hbytes & Hok).
  assert (h' = h) as -> by congruence.
  apply wp_bind. unfold the_header. apply wp_bind, wp_gets.
  eapply wp_lift; [cbn [id]; rewrite Hh; exact Hoh|]. cbn [app].
  apply wp_if; intros Hd.
  - apply andb_prop in Hd as [Hdir Hpos]. apply negb_true_iff in Hdir.
    unfold buffer_for in Hfor. rewrite Hpos in Hfor. destruct Hfor as (b & Hb & Hlb).
    eapply wp_request_data with (k := k); try done; [lia|].
    rewrite Ha. cbn. by rewrite app_nil_r, Hin.
  - apply (wp_deliver _ _ h (buffer s) k). split; [done|]. split; [|by rewrite Hh, Hbytes].
    rewrite Hin. do 2 f_equal. unfold request_wire, wire. cbn [fst snd]. by rewrite Hd, Hbytes, app_nil_r.
Qed.

Lemma wp_read_request cr cw log k rx s :
  socket s = Some k -> closed s = false -> state s = tcp_usb_read_request ->
  has_data_callback s = true -> outgoing k = outgoing k0 ++ responses log ->
  receiving log rx s -> incoming k0 = rx ++ incoming k ->
  wp (read_request cr cw) (post log) s.
Proof.
  intros Hs Hcl Hst Hcb Hout (o & Hh & Ho & Hof & Hphase) Hin. unfold read_request. apply wp_stage.
  destruct Hphase as [[Ha ->]|(h & b & Hoh & Hdir & Hb & Hlb & Ha & ->)].
  - assert (Hmore : forall k' bs o', received k k' (amount_done s) bs o o' ->
      incoming k0 = (requests log ++ take (Z.to_nat (amount_done s + zlen bs)) o') ++ incoming k').
    { intros k' bs o' (_ & Htake & Hi & _). by rewrite Hin, Hi, Htake, !app_assoc. }
    eapply wp_read_header with (k := k); try done.
    + intros k' o' Hrec. specialize (Hmore k' [] o' Hrec). destruct Hrec as (_ & _ & _ & Ho' & _).
      apply wp_free_header; [done|]. eapply wp_closing with (k := k'); try done.
      * by rewrite Ho'.
      * symmetry. apply app_nil_r.
    + intros k' o' bs Hrec Hlt. specialize (Hmore k' bs o' Hrec).
      destruct Hrec as (Hlen & _ & _ & Ho' & _ & Hof'). cbn [calls]. rewrite app_nil_r. split; [done|].
      eexists k', _, (responses log). split; [done|]. split; [exact Hmore|].
      split; [by rewrite Ho'|]. unfold phase, upd. cbn [closed state]. rewrite Hcl, Hst.
      split; [|done]. exists o'. split; [done|]. split; [lia|]. split; [auto|]. left.
      split; [|done]. cbn [amount_done]. unfold zlen in *. lia.
    + intros k' o' bs Hrec Hall. specialize (Hmore k' bs o' Hrec). rewrite Hall in Hmore.
      destruct Hrec as (Hlen & _ & _ & Ho' & _ & Hof'). rewrite Ho in Hlen. specialize (Hof' Hof).
      destruct (hdr_bytes_of o' Hlen Hof') as (h & Hoh & Hbytes & Hok). cbn [app].
      apply wp_bind. unfold allocate_buffer. apply wp_bind. unfold the_header at 1.
      apply wp_bind, wp_gets. eapply wp_lift; [exact Hoh|]. apply wp_modify. cbn [app].
      eapply (wp_request_body _ _ _ h k'); try done.
      * by rewrite Ho'.
      * unfold buffer_for, upd. cbn [buffer]. destruct (Z.ltb_spec 0 (length_ h)); [|done].
        eexists. split; [done|]. apply malloc_spec. lia.
      * rewrite Hmore. do 2 f_equal. apply take_ge. unfold zlen in Hlen. lia.
  - unfold read_header. apply wp_bind, wp_gets. cbn [id]. unfold sizeof_header.
    destruct (Z.ltb_spec (amount_done s) 5); [lia|]. apply wp_ret. cbn [app].
    apply wp_bind, wp_ret, wp_bind. unfold the_header. apply wp_bind, wp_gets.
    eapply wp_lift; [cbn [id]; rewrite Hh; exact Hoh|]. cbn [app]. rewrite Hdir.
    destruct (Z.ltb_spec 0 (length_ h)); [|lia]. cbn [negb andb].
    by eapply wp_request_data with (k := k).
Qed.

Lemma wp_callback cr cw log s : framed log s -> wp (tcp_usb_callback cr cw) (post log) s.
Proof.
  intros (Hcb & k & rx & tx & Hs & Hin & Hout & Hph).
  assert (Hstay : framed (log ++ calls (@nil (tcp_event E))) s).
  { cbn [calls]. rewrite app_nil_r. split; [done|]. by exists k, rx, tx. }
  unfold tcp_usb_callback. apply wp_bind, wp_gets. cbn [id app].
  unfold phase in Hph. destruct (closed s) eqn:Hcl; [by apply wp_ret|].
  destruct (state s) eqn:Hst; [| | |done|done].
  - destruct Hph as [-> ->]. destruct cr; cbn [negb]; [|by apply wp_ret].
    apply wp_bind, wp_modify, wp_bind, wp_modify. cbn [app].
    destruct (malloc_spec sizeof_header) as [Hlen Hfit]; [done|].
    eapply wp_read_request with (k := k); try done. exists (malloc sizeof_header).
    split; [done|]. split; [done|]. split; [done|]. left. split; [by cbn|]. symmetry. apply app_nil_r.
  - destruct Hph as [Hrec ->]. by eapply wp_read_request with (k := k).
  - destruct Hph as (log' & q & h & b & -> & Hh & Hok & Hb & Hnd & Hlen & Ha & -> & ->).
    apply wp_write_response with (h := h) (b := b) (k := k); [|by unfold sent; rewrite Hout, app_assoc|done].
    split; [done|]. by split.
Qed.
End Device.

(** ** A served connection *)
Section Serve.
Context {Sk C E : Type} `{Os Sk} `{TcpClient C E}.

(** The main loop calls back when the socket is readable or writable. *)
Fixpoint serve (ready : list bool) : dev (tcp_usb_state_t Sk C) (tcp_event E) unit :=
  match ready with
  | [] => ret tt
  | readable :: ready =>
      (if readable then tcp_usb_read_callback else tcp_usb_write_callback) ;;; serve ready
  end.

(** A connection as [tcp_usb_connect] leaves it, with a data callback. *)
Definition connected (k : Sk) (s : tcp_usb_state_t Sk C) : Prop :=
  socket s = Some k /\ closed s = false /\ state s = tcp_usb_idle /\ has_data_callback s = true.

Context `{!OsLaws Sk} `{!NeverEleven Sk} `{!TcpClientLaws C E}.

Lemma wp_serve k0 ready log s :
  framed k0 log s -> wp (serve ready) (fun _ s' es => framed k0 (log ++ calls es) s') s.
Proof.
  revert log s. induction ready as [|r ready IH]; intros log s Hs; cbn [serve].
  - apply wp_ret. cbn. by rewrite app_nil_r.
  - apply wp_bind. eapply wp_mono; [destruct r; by apply wp_callback|].
    intros ? s1 e1 H1'. eapply wp_mono; [exact (IH _ _ H1')|].
    intros ? s2 e2 H2. by rewrite calls_app, app_assoc.
Qed.
End Serve.


(** ** A concrete kernel and client *)
Module Scripted.
(** The bytes to come and the bytes sent; a call moves at most [chunk] bytes. *)
Record sock := mk_sock { inq : list Z; outq : list Z }.

#[export] Instance script_os (chunk : nat) : Os sock := {
  recv k n :=
    let m := Nat.min (Z.to_nat n) chunk in
    let bs := map (wrap 8) (take m (inq k)) in
    (if decide (bs = []) then -1 else zlen bs, bs, mk_sock (drop m (inq k)) (outq k));
  send k bs := let d := take chunk bs in (zlen d, mk_sock (inq k) (outq k ++ d));
  malloc n := zeros (Z.to_nat n);
  gethostbyname _ := None;
  open_socket := None;
  connect k _ _ := (k, true);
  bind_listen k _ := (k, true);
  accept _ := None
}.

(** A client that answers every byte of the buffer with its complement. *)
#[export] Instance mirror : TcpClient unit Empty_set := {
  data_callback h b :=
    ret (zlen (contents b), h,
         match b with Valid o => Valid (map (fun x => 255 - x) o) | _ => b end);
  closed_callback := ret tt
}.

Definition start (inq : list Z) : tcp_usb_state_t sock unit :=
  mk_tcp (Some (mk_sock inq [])) false tcp_usb_idle Dangling Dangling 0 false true tt.

#[export] Instance script_laws chunk : @OsLaws sock (script_os chunk).
Proof.
  refine (@Build_OsLaws sock (script_os chunk) (fun k => map (wrap 8) (inq k)) outq _ _ _).
  - intros k n r bs k' Hn [= <- <- <-]. unfold zlen. rewrite length_map, length_take.
    repeat split; [lia| | |].
    + apply Forall_map, Forall_true. intros x. by apply fits_wrap.
    + destruct (decide _) as [E|E]; [by right|by left].
    + cbn. by rewrite <- map_app, take_drop.
  - intros k bs r k' [= <- <-]. split; [done|]. left. unfold zlen. rewrite length_take. split; [lia|].
    cbn. f_equal. rewrite Nat2Z.id.
    destruct (Nat.le_ge_cases chunk (length bs)); [by rewrite Nat.min_l|].
    by rewrite Nat.min_r, !take_ge by lia.
  - intros n Hn. unfold zlen, malloc, script_os, zeros. rewrite length_replicate. split; [lia|].
    apply Forall_replicate. by split.
Qed.

Lemma script_never_eleven chunk : (chunk <= 10)%nat -> @NeverEleven sock (script_os chunk).
Proof.
  intros Hc. constructor.
  - intros k n r bs k' [= <- <- <-]. unfold EWOULDBLOCK, zlen. rewrite length_map, length_take.
    destruct (decide _); lia.
  - intros k bs r k' [= <- <-]. unfold EWOULDBLOCK, zlen. rewrite length_take. lia.
Qed.

#[export] Instance mirror_laws : TcpClientLaws unit Empty_set.
Proof.
  constructor; [|done]. intros h b c Hok Hb. destruct (Hok) as (_ & _ & _ & Hl). unfold wp. cbn.
  unfold buffer_for in Hb. change (2 ^ 15) with 32768 in *. destruct (Z.ltb_spec 0 (length_ h)) as [Hpos|Hpos].
  - destruct Hb as (o & -> & Ho). cbn [contents]. unfold zlen in *. rewrite length_map.
    split; [done|]. split; [lia|]. split; [done|lia].
  - subst b. by split.
Qed.

(** A mirrored OUT transfer of two bytes and a mirrored IN transfer of three,
    in pieces of four bytes. *)
Definition two_transfers : list Z :=
  hdr_bytes (mk_hdr 0 1 0 2) ++ [17; 18] ++ hdr_bytes (mk_hdr 0 0x81 0 3).

Definition readiness : list bool :=
  replicate 4 true ++ replicate 9 false.

#[local] Instance os4 : Os sock := script_os 4.
#[local] Instance os4_laws : OsLaws sock := script_laws 4.
#[local] Instance os4_never_eleven : NeverEleven sock.
Proof. apply script_never_eleven. lia. Qed.


(** A request whose eleven data bytes arrive at once is never served: the count
    that [read] returns is taken for [EWOULDBLOCK].  Ten or twelve are served. *)
Definition out_request (n : nat) : list Z := hdr_bytes (mk_hdr 0 1 0 (Z.of_nat n)) ++ replicate n 7.
Definition served (n : nat) : option (option (list Z) * nat) :=
  match @serve _ _ _ (script_os 64) _ (replicate 40 true) (start (out_request n)) with
  | Done (_, s, es) => Some (inq <$> socket s, length (calls es))
  | _ => None
  end.
Lemma eleven_bytes_lost :
  served 10 = Some (Some [], 1%nat) /\ served 11 = Some (Some [], 0%nat) /\
  served 12 = Some (Some [], 1%nat).
Proof. repeat split; vm_compute; reflexivity. Qed.

(** In the host role the length in the response header is not checked against
    the packet that was lent for the data. *)
Definition response_overflow : outcome _ :=
  @bind _ _ _ _
    (@tcp_usb_request sock unit Empty_set (script_os 64) mirror (mk_hdr 0 0x81 0 2) (Valid [0; 0]))
    (fun _ => @serve _ _ _ (script_os 64) _ (replicate 4 true))
    (start (hdr_bytes (mk_hdr 0 0x81 0 6) ++ replicate 6 7)).
Lemma response_overflow_undefined : response_overflow = Undef.
Proof. vm_compute. reflexivity. Qed.
End Scripted.
