(* ===== verification/Synopsys.v ===== *)
(** * Synopsys: the USB device controller ([hw/usb_synopsys.c])

    A DesignWare core in device mode: eight IN and eight OUT endpoints, a FIFO
    memory they share, and a two-level interrupt tree.  The host is at the other
    end of a [TcpUsb] connection, whose data callback is
    [synopsys_usb_tcp_callback]. *)
From Stdlib Require String.
From S2P Require Import Prelude TcpUsb.

Definition USB_NUM_ENDPOINTS := 8.
Definition USB_NUM_FIFOS := 16.

Definition GOTGCTL := 0x0.
Definition GOTGINT := 0x4.
Definition GAHBCFG := 0x8.
Definition GUSBCFG := 0xC.
Definition GRSTCTL := 0x10.
Definition GINTSTS := 0x14.
Definition GINTMSK := 0x18.
Definition GRXSTSR := 0x1C.
Definition GRXSTSP := 0x20.
Definition GRXFSIZ := 0x24.
Definition GNPTXFSIZ := 0x28.
Definition GNPTXFSTS := 0x2C.
Definition GHWCFG1 := 0x44.
Definition GHWCFG2 := 0x48.
Definition GHWCFG3 := 0x4C.
Definition GHWCFG4 := 0x50.
Definition DIEPTXF (x : Z) : Z := 0x100 + 4 * x.
Definition DCFG := 0x800.
Definition DCTL := 0x804.
Definition DSTS := 0x808.
Definition DIEPMSK := 0x810.
Definition DOEPMSK := 0x814.
Definition DAINTSTS := 0x818.
Definition DAINTMSK := 0x81C.
Definition USB_INREGS := 0x900.
Definition USB_OUTREGS := 0xB00.
Definition USB_EPREGS_SIZE := 0x200.
Definition USB_FIFO_START := 0x1000.
Definition USB_FIFO_SIZE := 0x100 * (USB_NUM_FIFOS + 1).
Definition USB_FIFO_END := USB_FIFO_START + USB_FIFO_SIZE.
Definition PCGCCTL := 0xE00.

Definition GRSTCTL_AHBIDLE := bit 31.
Definition GRSTCTL_CORESOFTRESET := 0x1.

Definition GINTMSK_OTG := bit 2.
Definition GINTMSK_GINNAKEFF := bit 6.
Definition GINTMSK_GOUTNAKEFF := bit 7.
Definition GINTMSK_RESET := bit 12.
Definition GINTMSK_ENUMDONE := bit 13.
Definition GINTMSK_INEP := bit 18.
Definition GINTMSK_OEP := bit 19.

Definition DAINT_OUT_SHIFT := 16.
Definition DAINT_IN_SHIFT := 0.

Definition DCTL_SGOUTNAK := bit 9.
Definition DCTL_SGNPINNAK := bit 7.

Definition DCFG_DEVICEADDR_SHIFT := 4.
Definition DCFG_DEVICEADDRMSK := 0x7F << DCFG_DEVICEADDR_SHIFT.
Definition DEPTSIZ_XFERSIZ_MASK := 0x1FFFF.

Definition USB_EPCON_ENABLE := bit 31.
Definition USB_EPCON_DISABLE := bit 30.
Definition USB_EPCON_SETNAK := bit 27.
Definition USB_EPCON_STALL := bit 21.
Definition USB_EPCON_NAKSTS := bit 17.

Definition USB_EPINT_INEPNakEff := 0x40.
Definition USB_EPINT_XferCompl := 0x1.
Definition USB_EPINT_SetUp := 0x8.
Definition USB_EPINT_EPDisbld := 0x2.

Definition USB_RET_NAK := -2.
Definition USB_RET_STALL := -3.

Record synopsys_usb_ep_state := mk_ep {
  control : Z; tx_size : Z; fifo : Z; interrupt_status : Z; dma_address : Z; dma_buffer : Z
}.

#[export] Instance eta_ep : Eta synopsys_usb_ep_state := fun e =>
  mk_ep (control e) (tx_size e) (fifo e) (interrupt_status e) (dma_address e) (dma_buffer e).

Record synopsys_usb_state := mk_usb {
  server_host : option String.string; server_port : Z;
  pcgcctl : Z;
  ghwcfg1 : Z; ghwcfg2 : Z; ghwcfg3 : Z; ghwcfg4 : Z;
  gahbcfg : Z; gusbcfg : Z;
  grxfsiz : Z; gnptxfsiz : Z;
  gotgctl : Z; gotgint : Z; grstctl : Z; gintmsk : Z; gintsts : Z;
  dptxfsiz : list Z;
  dctl : Z; dcfg : Z; dsts : Z;
  daintmsk : Z; daintsts : Z; diepmsk : Z; doepmsk : Z;
  in_eps : list synopsys_usb_ep_state;
  out_eps : list synopsys_usb_ep_state;
  fifos : list Z
}.

#[export] Instance eta_usb : Eta synopsys_usb_state := fun s =>
  mk_usb (server_host s) (server_port s) (pcgcctl s) (ghwcfg1 s) (ghwcfg2 s) (ghwcfg3 s) (ghwcfg4 s)
    (gahbcfg s) (gusbcfg s) (grxfsiz s) (gnptxfsiz s) (gotgctl s) (gotgint s) (grstctl s) (gintmsk s)
    (gintsts s) (dptxfsiz s) (dctl s) (dcfg s) (dsts s) (daintmsk s) (daintsts s) (diepmsk s)
    (doepmsk s) (in_eps s) (out_eps s) (fifos s).

(** The interrupt line, writes to guest memory, and the calls that restart the
    connection to the host. *)
Inductive usb_event :=
  | UsbIrq (level : bool)
  | UsbDmaWrite (addr : Z) (data : list Z)
  | UsbTcpCleanup
  | UsbTcpInit
  | UsbTcpConnect (host : String.string) (port : Z).

Abbreviation usbM := (dev synopsys_usb_state usb_event).

(** What the controller needs of the machine around it: the contents of guest
    memory when a transfer reads it ([cpu_physical_memory_read]), and the result
    of the connection to the host ([tcp_usb_connect]). *)
Class UsbMachine := {
  guest_memory : Z -> Z -> list Z;
  connect_result : String.string -> Z -> Z
}.

(** The two endpoint arrays; the code has every endpoint function twice. *)
Inductive direction := IN | OUT.
Definition eps_of (d : direction) (s : synopsys_usb_state) : list synopsys_usb_ep_state :=
  match d with IN => in_eps s | OUT => out_eps s end.
Definition set_eps (d : direction) (l : list synopsys_usb_ep_state) (s : synopsys_usb_state) :=
  match d with IN => s <| in_eps := l |> | OUT => s <| out_eps := l |> end.

Definition get_ep (d : direction) (i : Z) : usbM synopsys_usb_ep_state :=
  s <- gets id ;; lift (aget (eps_of d s) i).
Definition upd_ep (d : direction) (i : Z) (f : synopsys_usb_ep_state -> synopsys_usb_ep_state)
    : usbM unit :=
  s <- gets id ;;
  e <- lift (aget (eps_of d s) i) ;;
  l <- lift (aset i (f e) (eps_of d s)) ;;
  modify (set_eps d l).

Definition synopsys_usb_tx_fifo_start (s : synopsys_usb_state) (fifo : Z) : option Z :=
  if fifo =? 0 then Some (gnptxfsiz s >> 16)
  else v ← aget (dptxfsiz s) (fifo - 1); Some (v >> 16).
Definition synopsys_usb_tx_fifo_size (s : synopsys_usb_state) (fifo : Z) : option Z :=
  if fifo =? 0 then Some (gnptxfsiz s .& 0xFFFF)
  else v ← aget (dptxfsiz s) (fifo - 1); Some (v .& 0xFFFF).

(** One direction of one endpoint in the interrupt scan. *)
Definition scan_ep (d : direction) (shift msk_irq : Z) (msk : synopsys_usb_state -> Z) (i : Z)
    : usbM unit :=
  e <- get_ep d i ;;
  s <- gets id ;;
  when (test (interrupt_status e) (msk s))
    (modify (fun s => s <| daintsts ::= fun x => x .| bit (i + shift) |>) ;;;
     when (test (daintmsk s) (bit (i + shift)))
       (modify (fun s => s <| gintsts ::= fun x => x .| msk_irq |>))).

Definition scan_eps (i : Z) : usbM unit :=
  scan_ep OUT DAINT_OUT_SHIFT GINTMSK_OEP doepmsk i ;;;
  scan_ep IN DAINT_IN_SHIFT GINTMSK_INEP diepmsk i.

Definition synopsys_usb_update_irq : usbM unit :=
  modify (fun s => s <| daintsts := 0 |>
                     <| gintsts ::= fun x => x .&~ (GINTMSK_OEP .| GINTMSK_INEP .| GINTMSK_OTG) |>) ;;;
  s <- gets id ;;
  when (negb (gotgint s =? 0)) (modify (fun s => s <| gintsts ::= fun x => x .| GINTMSK_OTG |>)) ;;;
  for_up 0 8 scan_eps ;;;
  s <- gets id ;;
  emit (UsbIrq ((pcgcctl s .& 3 =? 0) && test (gintmsk s) (gintsts s))).

Definition synopsys_usb_update_ep (e : synopsys_usb_ep_state) : synopsys_usb_ep_state :=
  let e :=
    if test (control e) USB_EPCON_SETNAK then
      e <| control := (control e .| USB_EPCON_NAKSTS) .&~ USB_EPCON_SETNAK |>
        <| interrupt_status ::= fun x => x .| USB_EPINT_INEPNakEff |>
    else e in
  if test (control e) USB_EPCON_DISABLE then
    e <| interrupt_status ::= fun x => x .| USB_EPINT_EPDisbld |>
      <| control ::= fun x => x .&~ (USB_EPCON_DISABLE .| USB_EPCON_ENABLE) |>
  else e.

Definition synopsys_usb_update_in_ep (i : Z) : usbM unit := upd_ep IN i synopsys_usb_update_ep.
Definition synopsys_usb_update_out_ep (i : Z) : usbM unit := upd_ep OUT i synopsys_usb_update_ep.

(** The registers of one endpoint. *)
Definition ep_read (d : direction) (i addr : Z) : usbM Z :=
  if USB_NUM_ENDPOINTS <=? i then hw_error else
  e <- get_ep d i ;;
  switch addr
    [ (on 0x00, ret (control e));
      (on 0x08, ret (interrupt_status e));
      (on 0x10, ret (tx_size e));
      (on 0x14, ret (dma_address e));
      (on 0x1C, ret (dma_buffer e)) ]
    hw_error.
Definition synopsys_usb_in_ep_read := ep_read IN.
Definition synopsys_usb_out_ep_read := ep_read OUT.

Definition ep_write (d : direction) (i addr val : Z) : usbM unit :=
  if USB_NUM_ENDPOINTS <=? i then hw_error else
  switch addr
    [ (on 0x00, upd_ep d i (fun e => e <| control := val |>) ;;;
                match d with
                | IN => synopsys_usb_update_in_ep i
                | OUT => synopsys_usb_update_out_ep i
                end);
      (on 0x08, upd_ep d i (fun e => e <| interrupt_status ::= fun x => x .&~ val |>) ;;;
                synopsys_usb_update_irq);
      (on 0x10, upd_ep d i (fun e => e <| tx_size := val |>));
      (on 0x14, upd_ep d i (fun e => e <| dma_address := val |>));
      (on 0x1C, upd_ep d i (fun e => e <| dma_buffer := val |>)) ]
    hw_error.
Definition synopsys_usb_in_ep_write := ep_write IN.
Definition synopsys_usb_out_ep_write := ep_write OUT.

Definition synopsys_usb_read (addr : Z) : usbM Z :=
  switch addr
    [ (on PCGCCTL, gets pcgcctl);
      (on GOTGCTL, gets gotgctl);
      (on GOTGINT, gets gotgint);
      (on GRSTCTL, gets grstctl);
      (on GHWCFG1, gets ghwcfg1);
      (on GHWCFG2, gets ghwcfg2);
      (on GHWCFG3, gets ghwcfg3);
      (on GHWCFG4, gets ghwcfg4);
      (on GAHBCFG, gets gahbcfg);
      (on GUSBCFG, gets gusbcfg);
      (on GINTMSK, gets gintmsk);
      (on GINTSTS, gets gintsts);
      (on DIEPMSK, gets diepmsk);
      (on DOEPMSK, gets doepmsk);
      (on DAINTMSK, gets daintmsk);
      (on DAINTSTS, gets daintsts);
      (on DCTL, gets dctl);
      (on DCFG, gets dcfg);
      (on DSTS, gets dsts);
      (on_any [GRXSTSR; GRXSTSP], ret 0);
      (on GNPTXFSTS, ret 0xFFFFFFFF);
      (on GRXFSIZ, gets grxfsiz);
      (on GNPTXFSIZ, gets gnptxfsiz);
      (on_range (DIEPTXF 1) (DIEPTXF (USB_NUM_FIFOS + 1)),
         s <- gets id ;; lift (aget (dptxfsiz s) ((addr - DIEPTXF 1) >> 2)));
      (on_range USB_INREGS (USB_INREGS + USB_EPREGS_SIZE - 4),
         let a := addr - USB_INREGS in synopsys_usb_in_ep_read (a >> 5) (a .& 0x1f));
      (on_range USB_OUTREGS (USB_OUTREGS + USB_EPREGS_SIZE - 4),
         let a := addr - USB_OUTREGS in synopsys_usb_out_ep_read (a >> 5) (a .& 0x1f));
      (on_range USB_FIFO_START (USB_FIFO_END - 4),
         s <- gets id ;;
         w <- lift (slice (addr - USB_FIFO_START) 4 (fifos s)) ;;
         ret (le_value w)) ]
    hw_error.

(** [DCTL]: setting a global NAK takes effect at once and does not stick. *)
Definition write_dctl (val : Z) : usbM unit :=
  s <- gets id ;;
  let set_np := negb (val .& DCTL_SGNPINNAK =? dctl s .& DCTL_SGNPINNAK) && test val DCTL_SGNPINNAK in
  when set_np (modify (fun s => s <| gintsts ::= fun x => x .| GINTMSK_GINNAKEFF |>)) ;;;
  let val := if set_np then val .&~ DCTL_SGNPINNAK else val in
  let set_out := negb (val .& DCTL_SGOUTNAK =? dctl s .& DCTL_SGOUTNAK) && test val DCTL_SGOUTNAK in
  when set_out (modify (fun s => s <| gintsts ::= fun x => x .| GINTMSK_GOUTNAKEFF |>)) ;;;
  let val := if set_out then val .&~ DCTL_SGOUTNAK else val in
  modify (fun s => s <| dctl := val |>) ;;;
  synopsys_usb_update_irq.

Section Machine.
Context `{UsbMachine}.

(** The core soft reset of [GRSTCTL], which also reconnects to the host. *)
Definition core_soft_reset : usbM unit :=
  modify (fun s => s <| grstctl := GRSTCTL_CORESOFTRESET |>) ;;;
  s <- gets id ;;
  match server_host s with
  | Some host =>
      emit UsbTcpCleanup ;;;
      emit UsbTcpInit ;;;
      emit (UsbTcpConnect host (server_port s)) ;;;
      if connect_result host (server_port s) <? 0 then hw_error else ret tt
  | None => ret tt
  end ;;;
  modify (fun s => s <| grstctl ::= fun x => (x .&~ GRSTCTL_CORESOFTRESET) .| GRSTCTL_AHBIDLE |>
                     <| gintsts ::= fun x => x .| GINTMSK_RESET |>) ;;;
  synopsys_usb_update_irq.

Definition synopsys_usb_write (addr val : Z) : usbM unit :=
  switch addr
    [ (on PCGCCTL, modify (fun s => s <| pcgcctl := val |>) ;;; synopsys_usb_update_irq);
      (on GOTGCTL, modify (fun s => s <| gotgctl := val |>));
      (on GOTGINT, modify (fun s => s <| gotgint ::= fun x => x .&~ val |>) ;;; synopsys_usb_update_irq);
      (on GRSTCTL,
         if test val GRSTCTL_CORESOFTRESET then core_soft_reset
         else when (val =? 0) (modify (fun s => s <| grstctl := val |>)));
      (on GINTMSK, modify (fun s => s <| gintmsk := val |>) ;;; synopsys_usb_update_irq);
      (on GINTSTS, modify (fun s => s <| gintsts ::= fun x => x .&~ val |>) ;;; synopsys_usb_update_irq);
      (on DOEPMSK, modify (fun s => s <| doepmsk := val |>) ;;; synopsys_usb_update_irq);
      (on DIEPMSK, modify (fun s => s <| diepmsk := val |>) ;;; synopsys_usb_update_irq);
      (on DAINTMSK, modify (fun s => s <| daintmsk := val |>) ;;; synopsys_usb_update_irq);
      (on DAINTSTS, modify (fun s => s <| daintsts ::= fun x => x .&~ val |>) ;;; synopsys_usb_update_irq);
      (on GAHBCFG, modify (fun s => s <| gahbcfg := val |>));
      (on GUSBCFG, modify (fun s => s <| gusbcfg := val |>));
      (on DCTL, write_dctl val);
      (on DCFG, modify (fun s => s <| dcfg := val |>));
      (on GRXFSIZ, modify (fun s => s <| grxfsiz := val |>));
      (on GNPTXFSIZ, modify (fun s => s <| gnptxfsiz := val |>));
      (on_range (DIEPTXF 1) (DIEPTXF (USB_NUM_FIFOS + 1)),
         s <- gets id ;;
         l <- lift (aset ((addr - DIEPTXF 1) >> 2) val (dptxfsiz s)) ;;
         modify (fun s => s <| dptxfsiz := l |>));
      (on_range USB_INREGS (USB_INREGS + USB_EPREGS_SIZE - 4),
         let a := addr - USB_INREGS in synopsys_usb_in_ep_write (a >> 5) (a .& 0x1f) val);
      (on_range USB_OUTREGS (USB_OUTREGS + USB_EPREGS_SIZE - 4),
         let a := addr - USB_OUTREGS in synopsys_usb_out_ep_write (a >> 5) (a .& 0x1f) val);
      (on_range USB_FIFO_START (USB_FIFO_END - 4),
         s <- gets id ;;
         l <- lift (splice (addr - USB_FIFO_START) (le_bytes 4 val) (fifos s)) ;;
         modify (fun s => s <| fifos := l |>)) ]
    hw_error.

(** *** Transfers from the host *)

(** [sizeof(state->fifos)] *)
Definition sizeof_fifos := 0x1100.

(** [amtDone], before it is limited by a FIFO: the length of the request is
    converted to [size_t]. *)
Definition amount (e : synopsys_usb_ep_state) (h : tcp_usb_header_t) : Z :=
  Z.min (tx_size e .& DEPTSIZ_XFERSIZ_MASK) (u64 (length_ h)).

(** [eps->tx_size] after [n] of its bytes are done. *)
Definition remaining (x n : Z) : Z :=
  (x .&~ DEPTSIZ_XFERSIZ_MASK) .| (((x .& DEPTSIZ_XFERSIZ_MASK) - n) .& DEPTSIZ_XFERSIZ_MASK).

(** The data of an IN transfer: fetched into the FIFO by DMA if the endpoint has
    an address, and copied to the request's buffer. *)
Definition in_data (ep n start : Z) (buffer : ptr) : usbM ptr :=
  if 0 <? n then
    e <- get_ep IN ep ;;
    when (negb (dma_address e =? 0))
      (s <- gets id ;;
       l <- lift (splice start (guest_memory (dma_address e) n) (fifos s)) ;;
       modify (fun s => s <| fifos := l |>) ;;;
       upd_ep IN ep (fun e => e <| dma_address ::= fun a => u32 (a + n) |>)) ;;;
    s <- gets id ;;
    d <- lift (slice start n (fifos s)) ;;
    b <- lift (deref buffer ≫= splice 0 d) ;;
    ret (Valid b)
  else ret buffer.

Definition in_transfer (ep : Z) (h : tcp_usb_header_t) (buffer : ptr) : usbM (Z * ptr) :=
  upd_ep IN ep (fun e => e <| control ::= fun c => c .&~ USB_EPCON_ENABLE |>) ;;;
  e <- get_ep IN ep ;;
  if USB_NUM_FIFOS <=? fifo e then hw_error else
  s <- gets id ;;
  txfz <- lift (synopsys_usb_tx_fifo_size s (fifo e)) ;;
  let n := Z.min (amount e h) txfz in
  txfs <- lift (synopsys_usb_tx_fifo_start s (fifo e)) ;;
  if sizeof_fifos <? txfs + txfz then hw_error else
  b <- in_data ep n txfs buffer ;;
  upd_ep IN ep (fun e => e <| tx_size ::= fun x => remaining x n |>
                           <| interrupt_status ::= fun x => x .| USB_EPINT_XferCompl |>) ;;;
  ret (n, b).

(** The data of an OUT transfer: copied to the start of the FIFO memory, and to
    guest memory if the endpoint has a DMA address. *)
Definition out_data (ep n : Z) (buffer : ptr) : usbM unit :=
  when (0 <? n)
    (d <- lift (deref buffer ≫= slice 0 n) ;;
     s <- gets id ;;
     l <- lift (splice 0 d (fifos s)) ;;
     modify (fun s => s <| fifos := l |>) ;;;
     e <- get_ep OUT ep ;;
     when (negb (dma_address e =? 0))
       (emit (UsbDmaWrite (dma_address e) d) ;;;
        upd_ep OUT ep (fun e => e <| dma_address ::= fun a => u32 (a + n) |>))).

Definition out_transfer (ep : Z) (h : tcp_usb_header_t) (buffer : ptr) : usbM (Z * ptr) :=
  upd_ep OUT ep (fun e => e <| control ::= fun c => c .&~ USB_EPCON_ENABLE |>) ;;;
  e <- get_ep OUT ep ;;
  s <- gets id ;;
  let n := Z.min (amount e h) (grxfsiz s) in
  if sizeof_fifos <? grxfsiz s then hw_error else
  out_data ep n buffer ;;;
  upd_ep OUT ep (fun e => e <| interrupt_status ::= fun x =>
    x .| (if test (flags h) tcp_usb_setup then USB_EPINT_SetUp else USB_EPINT_XferCompl) |>) ;;;
  upd_ep OUT ep (fun e => e <| tx_size ::= fun x => remaining x n |>) ;;;
  ret (n, buffer).

(** A token for an endpoint: a pending stall is reported once, an endpoint that
    was not enabled answers NAK. *)
Definition token (d : direction) (ep : Z) (transfer : usbM (Z * ptr)) (buffer : ptr)
    : usbM (Z * ptr) :=
  e <- get_ep d ep ;;
  if test (control e) USB_EPCON_STALL then
    upd_ep d ep (fun e => e <| control ::= fun c => c .&~ USB_EPCON_STALL |>) ;;;
    ret (USB_RET_STALL, buffer)
  else if test (control e) USB_EPCON_ENABLE then transfer
  else ret (USB_RET_NAK, buffer).

Definition synopsys_usb_tcp_callback (h : tcp_usb_header_t) (buffer : ptr)
    : usbM (Z * tcp_usb_header_t * ptr) :=
  s <- gets id ;;
  let h := h <| addr := u8 ((dcfg s .& DCFG_DEVICEADDRMSK) >> DCFG_DEVICEADDR_SHIFT) |> in
  if test (flags h) tcp_usb_reset then
    modify (fun s => s <| gintsts ::= fun x => x .| GINTMSK_RESET |>) ;;;
    synopsys_usb_update_irq ;;;
    ret (0, h, buffer)
  else
    when (test (flags h) tcp_usb_enumdone)
      (modify (fun s => s <| gintsts ::= fun x => x .| GINTMSK_ENUMDONE |>)) ;;;
    let ep := ep h .& 0x7f in
    let* (r, b) :=
      if is_in h then token IN ep (in_transfer ep h buffer) buffer
      else token OUT ep (out_transfer ep h buffer) buffer in
    synopsys_usb_update_irq ;;;
    ret (r, h, b).

(** The controller is the device behind its connection; it registers no closed
    callback. *)
#[export] Instance synopsys_client : TcpClient synopsys_usb_state usb_event := {
  data_callback := synopsys_usb_tcp_callback;
  closed_callback := ret tt
}.
End Machine.

(** *** Reset and creation *)
Definition reset_ep (e : synopsys_usb_ep_state) : synopsys_usb_ep_state :=
  mk_ep 0 0 0 (interrupt_status e) 0 (dma_buffer e).

Definition synopsys_usb_initial_reset : usbM unit :=
  modify (fun s =>
    mk_usb (server_host s) (server_port s) 3 (ghwcfg1 s) (ghwcfg2 s) (ghwcfg3 s) (ghwcfg4 s)
      0 0 0x100 ((0x100 << 16) .| 0x100) 0 0 (grstctl s) 0 0
      ((fun i => u32 ((0x200 + 0x100 * Z.of_nat i) << 16) .| 0x100) <$> seq 0 16)
      0 0 0 0 0 0 0 (reset_ep <$> in_eps s) (reset_ep <$> out_eps s) (fifos s)) ;;;
  synopsys_usb_update_irq.

(** A fresh, zeroed device with its properties. *)
Definition usb_device (host : option String.string) (port c1 c2 c3 c4 : Z) : synopsys_usb_state :=
  mk_usb host port 0 c1 c2 c3 c4 0 0 0 0 0 0 0 0 0 (zeros 16) 0 0 0 0 0 0 0
    (replicate 8 (mk_ep 0 0 0 0 0 0)) (replicate 8 (mk_ep 0 0 0 0 0 0)) (zeros 0x1100).

Definition synopsys_usb_init : usbM unit := emit UsbTcpInit ;;; synopsys_usb_initial_reset.

(** [register_synopsys_usb] takes the board's configuration words and does not
    use them. *)
Definition register_synopsys_usb (host : option String.string) (port : Z) (hwcfg : list Z)
    : outcome (unit * synopsys_usb_state * list usb_event) :=
  synopsys_usb_init (usb_device host port 0xdeadbeef 0xdeadbeef 0xdeadbeef 0xdeadbeef).

(** ** Well-formed controllers *)
Record ep_ok (e : synopsys_usb_ep_state) : Prop := {
  ok_control : fits 32 (control e); ok_tx_size : fits 32 (tx_size e); ok_fifo : fits 32 (fifo e);
  ok_interrupt : fits 32 (interrupt_status e);
  ok_dma_address : fits 32 (dma_address e); ok_dma_buffer : fits 32 (dma_buffer e)
}.

Record usb_ok (s : synopsys_usb_state) : Prop := {
  ok_config : Forall (fits 32) [server_port s; pcgcctl s; ghwcfg1 s; ghwcfg2 s; ghwcfg3 s; ghwcfg4 s;
    gahbcfg s; gusbcfg s; grxfsiz s; gnptxfsiz s; gotgctl s; gotgint s; grstctl s; gintmsk s;
    dctl s; dcfg s; dsts s; daintmsk s; diepmsk s; doepmsk s];
  ok_gintsts : fits 32 (gintsts s);
  ok_daintsts : fits 32 (daintsts s);
  ok_dptxfsiz : length (dptxfsiz s) = 16%nat /\ Forall (fits 32) (dptxfsiz s);
  ok_in : length (in_eps s) = 8%nat /\ Forall ep_ok (in_eps s);
  ok_out : length (out_eps s) = 8%nat /\ Forall ep_ok (out_eps s);
  ok_fifos : length (fifos s) = 4352%nat /\ Forall (fits 8) (fifos s)
}.

(** ** The interrupt tree *)

(** An endpoint has an unmasked interrupt. *)
Definition pending (d : direction) (s : synopsys_usb_state) (i : Z) : bool :=
  match aget (eps_of d s) i with
  | Some e => test (interrupt_status e) (match d with IN => diepmsk s | OUT => doepmsk s end)
  | None => false
  end.
Definition daint_bit (d : direction) (i : Z) : Z :=
  bit (i + match d with IN => DAINT_IN_SHIFT | OUT => DAINT_OUT_SHIFT end).
Definition gint_bit (d : direction) : Z := match d with IN => GINTMSK_INEP | OUT => GINTMSK_OEP end.

Fixpoint lor_range (f : Z -> Z) (lo : Z) (n : nat) : Z :=
  match n with O => 0 | S n' => f lo .| lor_range f (lo + 1) n' end.

Lemma testbit_lor_range f lo n k :
  Z.testbit (lor_range f lo n) k = true <-> exists i, lo <= i < lo + Z.of_nat n /\ Z.testbit (f i) k = true.
Proof.
  revert lo. induction n as [|n IH]; intros lo; cbn [lor_range].
  - rewrite Z.bits_0. split; [done|]. intros (i & Hi & _). lia.
  - rewrite Z.lor_spec, orb_true_iff, IH. split.
    + intros [Hb|(i & Hi & Hb)]; [exists lo|exists i]; (split; [lia|done]).
    + intros (i & Hi & Hb). destruct (Z.eq_dec i lo) as [->|]; [by left|]. right. exists i. split; [lia|done].
Qed.

Definition daint_of (d : direction) (s : synopsys_usb_state) (i : Z) : Z :=
  if pending d s i then daint_bit d i else 0.
Definition gint_of (d : direction) (s : synopsys_usb_state) (i : Z) : Z :=
  if pending d s i && test (daintmsk s) (daint_bit d i) then gint_bit d else 0.

(** The interrupt status words after an update, and the level of the line. *)
Definition daint_settled (s : synopsys_usb_state) : Z :=
  lor_range (fun i => daint_of OUT s i .| daint_of IN s i) 0 8.
Definition gint_settled (s : synopsys_usb_state) : Z :=
  ((gintsts s .&~ (GINTMSK_OEP .| GINTMSK_INEP .| GINTMSK_OTG))
   .| (if gotgint s =? 0 then 0 else GINTMSK_OTG))
  .| lor_range (fun i => gint_of OUT s i .| gint_of IN s i) 0 8.
Definition irq_settled (s : synopsys_usb_state) : synopsys_usb_state :=
  s <| daintsts := daint_settled s |> <| gintsts := gint_settled s |>.
Definition irq_level (s : synopsys_usb_state) : bool :=
  (pcgcctl s .& 3 =? 0) && test (gintmsk s) (gint_settled s).

Lemma scan_ep_run d s dn gn i e :
  aget (eps_of d s) i = Some e ->
  scan_ep d (match d with IN => DAINT_IN_SHIFT | OUT => DAINT_OUT_SHIFT end) (gint_bit d)
    (match d with IN => diepmsk | OUT => doepmsk end) i
    (s <| daintsts := dn |> <| gintsts := gn |>)
  = Done (tt, s <| daintsts := dn .| daint_of d s i |> <| gintsts := gn .| gint_of d s i |>, []).
Proof.
  intros He. unfold scan_ep, get_ep. run.
  assert (He' : aget (eps_of d (id (s <| daintsts := dn |> <| gintsts := gn |>))) i = Some e)
    by (by destruct d).
  rewrite (bind_lift _ _ _ e He'). run. unfold daint_of, gint_of, pending, daint_bit. rewrite He.
  assert (Hm : (match d with IN => diepmsk | OUT => doepmsk end)
                 (id (s <| daintsts := dn |> <| gintsts := gn |>))
               = match d with IN => diepmsk s | OUT => doepmsk s end) by (by destruct d).
  rewrite Hm. change (daintmsk (id _)) with (daintmsk s).
  destruct (test (interrupt_status e) _); cbn [when andb]; [|by rewrite !Z.lor_0_r].
  run. destruct (test (daintmsk s) _); cbn [when]; [done|by rewrite Z.lor_0_r].
Qed.

Lemma scan_eps_run s : length (in_eps s) = 8%nat -> length (out_eps s) = 8%nat ->
  forall n lo dn gn, 0 <= lo -> lo + Z.of_nat n <= 8 ->
  for_up lo n scan_eps (s <| daintsts := dn |> <| gintsts := gn |>) =
  Done (tt, s <| daintsts := dn .| lor_range (fun i => daint_of OUT s i .| daint_of IN s i) lo n |>
              <| gintsts := gn .| lor_range (fun i => gint_of OUT s i .| gint_of IN s i) lo n |>, []).
Proof.
  intros Hin Hout. induction n as [|n IH]; intros lo dn gn Hlo Hn; cbn [for_up lor_range].
  - by rewrite !Z.lor_0_r.
  - destruct (aget_Some (out_eps s) lo) as [eo Ho]; [unfold zlen; lia|].
    destruct (aget_Some (in_eps s) lo) as [ei Hi]; [unfold zlen; lia|].
    unfold scan_eps at 1. rewrite bind_assoc.
    rewrite (bind_silent _ _ _ _ _ (scan_ep_run OUT s dn gn lo eo Ho)).
    rewrite (bind_silent _ _ _ _ _ (scan_ep_run IN s _ _ lo ei Hi)).
    rewrite IH by lia. by rewrite !Z.lor_assoc.
Qed.

Lemma update_irq_run s :
  usb_ok s -> synopsys_usb_update_irq s = Done (tt, irq_settled s, [UsbIrq (irq_level s)]).
Proof.
  intros [_ _ _ _ [Hin _] [Hout _] _]. unfold synopsys_usb_update_irq. run.
  change (gotgint (id _)) with (gotgint s).
  assert (E : when (negb (gotgint s =? 0))
      (modify (Ev := usb_event) (fun s => s <| gintsts ::= fun x => x .| GINTMSK_OTG |>))
    (s <| daintsts := 0 |> <| gintsts ::= fun x => x .&~ (GINTMSK_OEP .| GINTMSK_INEP .| GINTMSK_OTG) |>)
    = Done (tt, s <| daintsts := 0 |> <| gintsts :=
        (gintsts s .&~ (GINTMSK_OEP .| GINTMSK_INEP .| GINTMSK_OTG))
        .| (if gotgint s =? 0 then 0 else GINTMSK_OTG) |>, [])).
  { destruct (gotgint s =? 0); cbn [negb when]; [by rewrite Z.lor_0_r|done]. }
  rewrite (bind_silent _ _ _ _ _ E). clear E.
  rewrite (bind_silent _ _ _ _ _ (scan_eps_run s Hin Hout 8 0 _ _ ltac:(lia) ltac:(lia))).
  run. done.
Qed.

Lemma test_exists x m :
  0 <= x -> test x m = true <-> exists k, 0 <= k /\ Z.testbit x k = true /\ Z.testbit m k = true.
Proof.
  intros Hx. unfold test. rewrite negb_true_iff, Z.eqb_neq. split.
  - intros Hne. assert (0 <= x .& m) by (apply Z.land_nonneg; by left).
    exists (Z.log2 (x .& m)). split; [apply Z.log2_nonneg|].
    assert (Hb : Z.testbit (x .& m) (Z.log2 (x .& m)) = true) by (apply Z.bit_log2; lia).
    by rewrite Z.land_spec, andb_true_iff in Hb.
  - intros (k & Hk & Hx' & Hm) E. assert (Z.testbit (x .& m) k = true) as Hb by (by rewrite Z.land_spec, Hx', Hm).
    by rewrite E, Z.bits_0 in Hb.
Qed.

(** What asserts bit [k] of the top-level interrupt status: the two endpoint
    interrupts and the OTG one follow their sources, the others are latched. *)
Definition cause (s : synopsys_usb_state) (k : Z) : Prop :=
  if k =? 19 then exists i, 0 <= i < 8 /\ pending OUT s i = true /\ Z.testbit (daintmsk s) (i + 16) = true
  else if k =? 18 then exists i, 0 <= i < 8 /\ pending IN s i = true /\ Z.testbit (daintmsk s) i = true
  else if k =? 2 then gotgint s <> 0
  else Z.testbit (gintsts s) k = true.

Lemma testbit_gint d s i k :
  0 <= i < 8 -> 0 <= k ->
  Z.testbit (gint_of d s i) k = true <->
  k = match d with IN => 18 | OUT => 19 end /\ pending d s i = true /\
  Z.testbit (daintmsk s) (i + match d with IN => 0 | OUT => 16 end) = true.
Proof.
  intros Hi Hk. unfold gint_of, daint_bit.
  rewrite test_true_bit by (destruct d; unfold DAINT_IN_SHIFT, DAINT_OUT_SHIFT; lia).
  change DAINT_IN_SHIFT with 0. change DAINT_OUT_SHIFT with 16.
  destruct (pending d s i); cbn [andb].
  - destruct (Z.testbit (daintmsk s) _); [|rewrite Z.bits_0; naive_solver].
    destruct d; cbn [gint_bit]; unfold GINTMSK_INEP, GINTMSK_OEP;
      rewrite testbit_bit, Z.eqb_eq by lia; naive_solver.
  - rewrite Z.bits_0. naive_solver.
Qed.

Lemma testbit_gint_settled s k :
  0 <= k -> Z.testbit (gint_settled s) k = true <-> cause s k.
Proof.
  intros Hk. unfold gint_settled, cause. rewrite !Z.lor_spec, Z.ldiff_spec, !Z.lor_spec.
  unfold GINTMSK_OEP, GINTMSK_INEP, GINTMSK_OTG. rewrite !testbit_bit by lia.
  rewrite !orb_true_iff, testbit_lor_range, andb_true_iff, negb_true_iff, !orb_false_iff, !Z.eqb_neq.
  assert (Hotg : Z.testbit (if gotgint s =? 0 then 0 else bit 2) k = true <-> k = 2 /\ gotgint s <> 0).
  { destruct (Z.eqb_spec (gotgint s) 0); [rewrite Z.bits_0; naive_solver|].
    rewrite testbit_bit, Z.eqb_eq by lia. naive_solver. }
  rewrite Hotg.
  assert (Hr : (exists i, 0 <= i < 0 + Z.of_nat 8 /\ Z.testbit (gint_of OUT s i .| gint_of IN s i) k = true)
     <-> exists i, 0 <= i < 8 /\
       ((k = 19 /\ pending OUT s i = true /\ Z.testbit (daintmsk s) (i + 16) = true) \/
        (k = 18 /\ pending IN s i = true /\ Z.testbit (daintmsk s) (i + 0) = true))).
  { apply exist_proper. intros i. change (0 + Z.of_nat 8) with 8.
    split; intros [Hi Hb]; (split; [done|]); rewrite Z.lor_spec, orb_true_iff in *.
    - by rewrite (testbit_gint OUT), (testbit_gint IN) in Hb by lia.
    - by rewrite (testbit_gint OUT), (testbit_gint IN) by lia. }
  rewrite Hr. clear Hr Hotg. setoid_rewrite Z.add_0_r.
  destruct (Z.eqb_spec k 19) as [->|H19]; [|destruct (Z.eqb_spec k 18) as [->|H18];
    [|destruct (Z.eqb_spec k 2) as [->|H2]]]; split.
  all: try (intros [[Hl|[? _]]|(i & Hi & [[? Hp]|[? Hp]])]; try lia; try (by exists i); tauto).
  all: try (intros (i & Hi & Hp); right; exists i; tauto).
  - intros [[Hl|[_ Hl]]|(i & Hi & [[? Hp]|[? Hp]])]; try lia; tauto.
  - tauto.
  - intros Hl. left. left. split; [done|lia].
Qed.

Lemma testbit_daint_settled d s i :
  0 <= i < 8 ->
  Z.testbit (daint_settled s) (i + match d with IN => 0 | OUT => 16 end) = pending d s i.
Proof.
  intros Hi. apply eq_bool_prop_intro. rewrite !Is_true_true. unfold daint_settled.
  rewrite testbit_lor_range. change (0 + Z.of_nat 8) with 8.
  assert (Hone : forall d' j k, 0 <= j < 8 -> 0 <= k ->
    Z.testbit (daint_of d' s j) k = true <->
    k = j + match d' with IN => 0 | OUT => 16 end /\ pending d' s j = true).
  { intros d' j k Hj Hk. unfold daint_of, daint_bit. change DAINT_IN_SHIFT with 0.
    change DAINT_OUT_SHIFT with 16. destruct (pending d' s j); [|rewrite Z.bits_0; naive_solver].
    rewrite testbit_bit, Z.eqb_eq by (destruct d'; lia). naive_solver. }
  split.
  - intros (j & Hj & Hb). rewrite Z.lor_spec, orb_true_iff, !Hone in Hb by (destruct d; lia).
    destruct Hb as [[Ej Hp]|[Ej Hp]], d; try lia; by assert (i = j) as -> by lia.
  - intros Hp. exists i. split; [done|]. rewrite Z.lor_spec, orb_true_iff, !Hone by (destruct d; lia).
    destruct d; auto.
Qed.

(** C18: An interrupt update of a well-formed controller always finishes; it
    drives the line high exactly when the clock is not gated and some unmasked
    top-level bit has a cause: an endpoint of that direction with an unmasked
    interrupt and an unmasked summary bit, the OTG status, or a latched event;
    the per-endpoint summary shows the pending endpoints, and nothing else of the
    state changes. *)
Theorem usb_irq_level_iff s :
  usb_ok s ->
  exists s' level,
    synopsys_usb_update_irq s = Done (tt, s', [UsbIrq level]) /\
    (level = true <->
     pcgcctl s .& 3 = 0 /\ exists k, 0 <= k /\ Z.testbit (gintmsk s) k = true /\ cause s k) /\
    (forall i, 0 <= i < 8 ->
       Z.testbit (daintsts s') i = pending IN s i /\
       Z.testbit (daintsts s') (i + 16) = pending OUT s i) /\
    (forall k, 0 <= k -> Z.testbit (gintsts s') k = true <-> cause s k) /\
    s' = s <| daintsts := daintsts s' |> <| gintsts := gintsts s' |>.
Proof.
  intros Hok. exists (irq_settled s), (irq_level s). split; [by apply update_irq_run|]. split; [|split; [|split]].
  - unfold irq_level. rewrite andb_true_iff, Z.eqb_eq, test_exists.
    2: { pose proof (ok_config s Hok) as Hc. rewrite !Forall_cons in Hc. unfold fits in Hc. lia. }
    apply and_iff_compat_l, exist_proper. intros k. split; intros (Hk & Hm & Hc).
    + by rewrite testbit_gint_settled in Hc.
    + by rewrite testbit_gint_settled.
  - intros i Hi. split; [|exact (testbit_daint_settled OUT s i Hi)].
    pose proof (testbit_daint_settled IN s i Hi) as Hb. by rewrite Z.add_0_r in Hb.
  - intros k Hk. exact (testbit_gint_settled s k Hk).
  - done.
Qed.

(** ** The register file keeps the controller well formed *)
Lemma fits_lor_range w f lo n : 0 <= w -> (forall i, lo <= i < lo + Z.of_nat n -> fits w (f i)) -> fits w (lor_range f lo n).
Proof.
  intros Hw. revert lo. induction n as [|n IH]; intros lo Hf; cbn [lor_range]; [unfold fits; lia|].
  apply fits_lor; [done|apply Hf; lia|]. apply IH. intros i Hi. apply Hf. lia.
Qed.

Lemma fits_daint_of d s i : 0 <= i < 8 -> fits 32 (daint_of d s i).
Proof.
  intros Hi. unfold daint_of, daint_bit. destruct (pending d s i); [|unfold fits; lia].
  apply fits_bit. destruct d; unfold DAINT_IN_SHIFT, DAINT_OUT_SHIFT; lia.
Qed.

Lemma fits_gint_of d s i : fits 32 (gint_of d s i).
Proof.
  unfold gint_of. destruct (_ && _); [|unfold fits; lia].
  destruct d; unfold gint_bit, GINTMSK_INEP, GINTMSK_OEP; apply fits_bit; lia.
Qed.

Lemma irq_settled_ok s : usb_ok s -> usb_ok (irq_settled s).
Proof.
  intros []. constructor; try done.
  - change (fits 32 (gint_settled s)). unfold gint_settled. apply fits_lor; [lia| |].
    + apply fits_lor; [lia|auto with width|]. destruct (gotgint s =? 0); [unfold fits; lia|].
      apply fits_bit; lia.
    + apply fits_lor_range; [lia|]. intros i Hi. apply fits_lor; [lia|apply fits_gint_of..].
  - change (fits 32 (daint_settled s)). apply fits_lor_range; [lia|]. intros i Hi.
    apply fits_lor; [lia|apply fits_daint_of; lia..].
Qed.

Lemma update_irq_keeps : keeps usb_ok synopsys_usb_update_irq.
Proof. intros s Hs. unfold wp. rewrite update_irq_run by done. by apply irq_settled_ok. Qed.

(** A field of the configuration or of the status words is written. *)
Ltac usb_base t := lazymatch t with upd _ _ ?s => usb_base s | _ => t end.
Ltac Forall_split H := repeat (apply Forall_cons_1 in H as [? H]).
Ltac usb_field := cbv beta;
  match goal with
  | |- usb_ok ?t =>
      let s := usb_base t in let Hs := constr:(ltac:(assumption) : usb_ok s) in
      let H := fresh in pose proof Hs as H; destruct H as [?Hcfg ? ? [? ?] [? ?] [? ?] [? ?]];
      Forall_split Hcfg;
      constructor; unfold upd; cbn;
      [ repeat (apply Forall_cons_2; [first [assumption | auto with width]|]); apply Forall_nil_2 |..];
      split_and?; first [assumption | auto with width]
  end.

Lemma eps_ok d s : usb_ok s -> length (eps_of d s) = 8%nat /\ Forall ep_ok (eps_of d s).
Proof. intros []. by destruct d. Qed.

Lemma set_eps_ok d l s : usb_ok s -> length l = 8%nat -> Forall ep_ok l -> usb_ok (set_eps d l s).
Proof. intros [] Hl Hf. destruct d; by constructor. Qed.

Lemma wp_get_ep d i s (Q : synopsys_usb_ep_state -> synopsys_usb_state -> list usb_event -> Prop) :
  usb_ok s -> 0 <= i < 8 ->
  (forall e, aget (eps_of d s) i = Some e -> ep_ok e -> Q e s []) -> wp (get_ep d i) Q s.
Proof.
  intros Hs Hi HQ. destruct (eps_ok d s Hs) as [Hl Hf]. unfold get_ep. apply wp_bind, wp_gets.
  destruct (aget_Some (eps_of d s) i) as [e He]; [unfold zlen; lia|].
  eapply wp_lift; [exact He|]. apply HQ; [done|]. by eapply Forall_aget.
Qed.

(** The array after an update of one endpoint. *)
Lemma upd_ep_run d i f s e :
  usb_ok s -> aget (eps_of d s) i = Some e ->
  upd_ep d i f s = Done (tt, set_eps d (<[Z.to_nat i := f e]> (eps_of d s)) s, []).
Proof.
  intros Hs He. unfold upd_ep. run. change (eps_of d (id s)) with (eps_of d s).
  rewrite (bind_lift _ _ _ e He), aset_Some by (by apply aget_bounds in He).
  by run.
Qed.

Lemma upd_ep_ok d i f s e :
  usb_ok s -> aget (eps_of d s) i = Some e -> ep_ok (f e) ->
  usb_ok (set_eps d (<[Z.to_nat i := f e]> (eps_of d s)) s).
Proof.
  intros Hs He Hf. destruct (eps_ok d s Hs) as [Hl Hall]. apply set_eps_ok; [done| |].
  - by rewrite length_insert.
  - by apply Forall_insert.
Qed.

Lemma upd_ep_keeps d i f :
  0 <= i < 8 -> (forall e, ep_ok e -> ep_ok (f e)) -> keeps usb_ok (upd_ep d i f).
Proof.
  intros Hi Hf s Hs. destruct (eps_ok d s Hs) as [Hl Hall].
  destruct (aget_Some (eps_of d s) i) as [e He]; [unfold zlen; lia|].
  unfold wp. rewrite (upd_ep_run d i f s e Hs He). apply upd_ep_ok; [done|done|].
  eapply Hf, Forall_aget; done.
Qed.

Ltac ep_field := intros ? []; constructor; unfold upd; cbn; auto with width.

Lemma update_ep_ok e : ep_ok e -> ep_ok (synopsys_usb_update_ep e).
Proof.
  intros He. unfold synopsys_usb_update_ep.
  set (e1 := if test (control e) USB_EPCON_SETNAK then _ else e).
  assert (H1 : ep_ok e1).
  { unfold e1. destruct (test _ _); [|done]. destruct He. constructor; unfold upd; cbn; auto with width. }
  clearbody e1. destruct (test (control e1) _); [|done].
  destruct H1. constructor; unfold upd; cbn; auto with width.
Qed.

Lemma ep_write_keeps d i addr val :
  fits 32 val -> 0 <= i -> keeps usb_ok (ep_write d i addr val).
Proof.
  intros Hv Hi s Hs. unfold ep_write, USB_NUM_ENDPOINTS. apply wp_if; intros Hn; [apply wp_hw_error|].
  apply Z.leb_gt in Hn. assert (Hi8 : 0 <= i < 8) by lia.
  assert (Hset : forall f, (forall e, ep_ok e -> ep_ok (f e)) -> keeps usb_ok (upd_ep d i f))
    by (intros; by apply upd_ep_keeps).
  assert (Hthen : forall (m k : usbM unit), keeps usb_ok m -> keeps usb_ok k ->
    wp (m ;;; k) (fun _ s' _ => usb_ok s') s).
  { intros m k Hm Hk. apply wp_bind. eapply wp_keeps; [exact Hm|done|]. intros ? s1 e1 H1.
    eapply wp_mono; [by apply Hk|done]. }
  repeat (apply wp_switch_cons; intros _).
  - apply Hthen; [apply Hset; ep_field|]. destruct d; apply upd_ep_keeps; auto using update_ep_ok.
  - apply Hthen; [apply Hset; ep_field|apply update_irq_keeps].
  - apply Hset; [ep_field|done].
  - apply Hset; [ep_field|done].
  - apply Hset; [ep_field|done].
  - apply wp_hw_error.
Qed.

Lemma ep_read_wp d i addr s :
  usb_ok s -> 0 <= i -> wp (ep_read d i addr) (fun v s' es => fits 32 v /\ s' = s /\ es = []) s.
Proof.
  intros Hs Hi. unfold ep_read, USB_NUM_ENDPOINTS. apply wp_if; intros Hn; [apply wp_hw_error|].
  apply Z.leb_gt in Hn. apply wp_bind. apply wp_get_ep; [done|lia|]. intros e He [].
  repeat (apply wp_switch_cons; intros _); try (by apply wp_ret). apply wp_hw_error.
Qed.

Section Registers.
Context `{UsbMachine}.

Lemma write_dctl_keeps val : fits 32 val -> keeps usb_ok (write_dctl val).
Proof.
  intros Hv s Hs. unfold write_dctl. apply wp_bind, wp_gets. cbn [id].
  set (b1 := negb _ && _). apply wp_bind. cbn [app].
  assert (Hw : forall b m s, usb_ok s -> fits 32 m ->
    wp (when b (modify (Ev := usb_event) (fun s => s <| gintsts ::= fun x => x .| m |>)))
      (fun _ s' _ => usb_ok s') s).
  { clear. intros b m s Hs Hm. apply wp_when; intros _; [apply wp_modify; usb_field|done]. }
  eapply wp_mono; [apply Hw; [done|apply fits_bit; lia]|]. intros ? s1 e1 H1.
  set (v1 := if b1 then _ else val). assert (Hv1 : fits 32 v1) by (unfold v1; destruct b1; auto with width).
  clearbody v1. set (b2 := negb _ && _). apply wp_bind.
  eapply wp_mono; [apply Hw; [done|apply fits_bit; lia]|]. intros ? s2 e2 H2.
  apply wp_bind, wp_modify. eapply wp_keeps; [apply update_irq_keeps| |done].
  assert (fits 32 (if b2 then v1 .&~ DCTL_SGOUTNAK else v1)) by (destruct b2; auto with width).
  usb_field.
Qed.

Lemma core_soft_reset_keeps : keeps usb_ok core_soft_reset.
Proof.
  intros s Hs. unfold core_soft_reset. apply wp_bind, wp_modify. apply wp_bind, wp_gets. cbn [id].
  set (s1 := s <| grstctl := _ |>). assert (H1 : usb_ok s1) by (unfold s1; usb_field). clearbody s1.
  apply wp_bind. assert (Hm : forall s Q, usb_ok s -> (forall u s' es, usb_ok s' -> Q u s' es) ->
    wp (modify (fun s => s <| grstctl ::= fun x => (x .&~ GRSTCTL_CORESOFTRESET) .| GRSTCTL_AHBIDLE |>
                     <| gintsts ::= fun x => x .| GINTMSK_RESET |>) ;;;
        synopsys_usb_update_irq) Q s).
  { intros s2 Q H2 HQ. apply wp_bind, wp_modify. eapply wp_keeps; [apply update_irq_keeps| |].
    - assert (fits 32 GRSTCTL_AHBIDLE) by (apply fits_bit; lia).
      assert (fits 32 GINTMSK_RESET) by (apply fits_bit; lia). usb_field.
    - intros. by apply HQ. }
  destruct (server_host s1).
  - apply wp_bind, wp_emit, wp_bind, wp_emit, wp_bind, wp_emit.
    apply wp_if; intros _; [apply wp_hw_error|]. apply wp_ret. by apply Hm.
  - apply wp_ret. by apply Hm.
Qed.

(** The register of a seventeenth transmit FIFO, which the address decoder
    admits and the state has no room for. *)
Definition DIEPTXF_END := DIEPTXF (USB_NUM_FIFOS + 1).

Lemma range_bounds lo hi x : on_range lo hi x = true -> lo <= x <= hi.
Proof. unfold on_range. rewrite andb_true_iff, !Z.leb_le. done. Qed.

Lemma shr5 a : 0 <= a -> 0 <= a >> 5.
Proof. intros. by apply Z.shiftr_nonneg. Qed.

Lemma dieptxf_index addr :
  DIEPTXF 1 <= addr <= DIEPTXF (USB_NUM_FIFOS + 1) -> addr <> DIEPTXF_END ->
  0 <= (addr - DIEPTXF 1) >> 2 < 16.
Proof.
  unfold DIEPTXF_END, DIEPTXF, USB_NUM_FIFOS. intros. rewrite Z.shiftr_div_pow2 by lia.
  change (2 ^ 2) with 4. Z.to_euclidean_division_equations. lia.
Qed.

Lemma usb_read_wp addr s :
  usb_ok s -> addr <> DIEPTXF_END ->
  wp (synopsys_usb_read addr) (fun v s' es => fits 32 v /\ s' = s /\ es = []) s.
Proof.
  intros Hs Ha. pose proof (ok_config s Hs) as Hc. rewrite !Forall_cons in Hc. decompose [and] Hc. clear Hc.
  destruct (Hs) as [_ ? ? [Hdl Hdf] _ _ [Hfl Hff]]. unfold synopsys_usb_read.
  repeat (apply wp_switch_cons; intros Hl; [try (by apply wp_gets)|clear Hl]); [..|apply wp_hw_error].
  - apply wp_bind, wp_gets. cbn [id]. apply range_bounds in Hl.
    destruct (aget_Some (dptxfsiz s) ((addr - DIEPTXF 1) >> 2)) as [v Hv].
    { unfold zlen. rewrite Hdl. by apply dieptxf_index. }
    eapply wp_lift; [exact Hv|]. split; [by eapply Forall_aget|done].
  - apply range_bounds in Hl. apply ep_read_wp; [done|]. apply shr5. lia.
  - apply range_bounds in Hl. apply ep_read_wp; [done|]. apply shr5. lia.
  - apply wp_bind, wp_gets. cbn [id]. apply range_bounds in Hl.
    unfold USB_FIFO_END, USB_FIFO_SIZE, USB_FIFO_START, USB_NUM_FIFOS in Hl.
    apply wp_bind. assert (Hsl : slice (addr - USB_FIFO_START) 4 (fifos s) <> None).
    { unfold USB_FIFO_START. rewrite slice_Some; [done|lia|lia|]. unfold zlen. rewrite Hfl. lia. }
    destruct (slice _ _ _) as [w|] eqn:Ew; [|done]. eapply wp_lift; [done|]. apply wp_ret.
    split; [|done]. pose proof (slice_length _ _ _ _ Ew) as Hlen.
    pose proof (Forall_slice _ _ _ _ _ Hff Ew) as Hw. clear - Hlen Hw.
    destruct w as [|b0 [|b1 [|b2 [|b3 [|]]]]]; unfold zlen in Hlen; cbn in Hlen; try lia.
    rewrite <- le_value_4. rewrite !Forall_cons in Hw. decompose [and] Hw. unfold fits in *.
    change (2 ^ 8) with 256 in *.
    assert (Hs : forall b n, 0 <= b < 256 -> 0 <= n <= 24 -> fits 32 (b << n)).
    { intros b n Hb Hn. unfold fits. rewrite Z.shiftl_mul_pow2 by lia.
      pose proof (Z.pow_le_mono_r 2 n 24). change (2 ^ 24) with 16777216 in *.
      pose proof (Z.pow_pos_nonneg 2 n). change (2 ^ 32) with 4294967296. nia. }
    repeat apply fits_lor; try lia; try (apply Hs; lia). unfold fits. lia.
Qed.

End Registers.
