(* ===== verification/UsbTransfers.v ===== *)
(** * UsbTransfers: tokens, transfers and creation of the USB controller

    The functional specification of [Synopsys.synopsys_usb_tcp_callback] on
    every branch, the contract it keeps towards its [TcpUsb] connection, and
    concrete runs. *)
From Stdlib Require String.
From S2P Require Import Prelude TcpUsb Synopsys.

(** ** Transfers *)

(** Endpoint [i] of the direction is replaced by [e]. *)
Definition with_ep (d : direction) (i : Z) (e : synopsys_usb_ep_state) (s : synopsys_usb_state) :=
  set_eps d (<[Z.to_nat i := e]> (eps_of d s)) s.

Lemma aget_insert {A} (l : list A) i x e : aget l i = Some e -> aget (<[Z.to_nat i := x]> l) i = Some x.
Proof.
  intros H. pose proof (aget_bounds _ _ _ H) as Hi. unfold aget, zlen in *.
  destruct (Z.ltb_spec i 0); [lia|]. apply list_lookup_insert_eq. lia.
Qed.

Lemma get_ep_run d i s e : aget (eps_of d s) i = Some e -> get_ep d i s = Done (e, s, []).
Proof. intros He. unfold get_ep. run. change (eps_of d (id s)) with (eps_of d s). by rewrite He. Qed.

Lemma eps_with_ep d i e0 e s : aget (eps_of d s) i = Some e0 -> aget (eps_of d (with_ep d i e s)) i = Some e.
Proof. intros He. destruct d; by apply aget_insert with (e := e0). Qed.

Lemma with_ep_twice d i e1 e2 s : with_ep d i e2 (with_ep d i e1 s) = with_ep d i e2 s.
Proof. unfold with_ep. destruct d; cbn; unfold upd; cbn; by rewrite list_insert_insert_eq. Qed.

Lemma fifos_with_ep d i e l s : (with_ep d i e s) <| fifos := l |> = with_ep d i e (s <| fifos := l |>).
Proof. by destruct d. Qed.

Section Transfers.
Context `{UsbMachine}.

(** What the transfers need of guest memory: as many bytes as asked for. *)
Class UsbMachineLaws := {
  guest_memory_spec a n : 0 <= n -> zlen (guest_memory a n) = n /\ Forall (fits 8) (guest_memory a n)
}.

(** An endpoint after [n] bytes were transferred, with DMA if it has an address. *)
Definition ep_done (irq n : Z) (e : synopsys_usb_ep_state) : synopsys_usb_ep_state :=
  mk_ep (control e .&~ USB_EPCON_ENABLE) (remaining (tx_size e) n) (fifo e) (interrupt_status e .| irq)
    (if (0 <? n) && negb (dma_address e =? 0) then u32 (dma_address e + n) else dma_address e)
    (dma_buffer e).

(** The first [n] bytes of the buffer are the first [n] bytes of the FIFO. *)
Definition fifo_filled (d l : list Z) : list Z := d ++ drop (length d) l.

Lemma upd_ep_with d i f s e :
  aget (eps_of d s) i = Some e -> upd_ep d i f s = Done (tt, with_ep d i (f e) s, []).
Proof.
  intros He. unfold upd_ep. run. change (eps_of d (id s)) with (eps_of d s).
  rewrite (bind_lift _ _ _ e He), aset_Some by (by apply aget_bounds in He). by run.
Qed.

(** The events of a run, then its rest. *)
Lemma bind_events {A B} (m : usbM A) (k : A -> usbM B) s a s1 e1 b s2 e2 :
  m s = Done (a, s1, e1) -> k a s1 = Done (b, s2, e2) -> bind m k s = Done (b, s2, e1 ++ e2).
Proof. intros Em Ek. unfold bind. by rewrite Em, Ek. Qed.

Lemma deref_slice b n :
  0 <= n <= zlen (contents b) -> 0 < n -> deref b ≫= slice 0 n = Some (take (Z.to_nat n) (contents b)).
Proof.
  intros Hn Hpos. destruct b as [| |o]; cbn [contents] in *; [unfold zlen in Hn; cbn in Hn; lia..|].
  cbn [deref]. change (Some o ≫= slice 0 n) with (slice 0 n o). by rewrite slice_Some by lia.
Qed.

Lemma zlen_take {A} (l : list A) n : 0 <= n <= zlen l -> zlen (take (Z.to_nat n) l) = n.
Proof. unfold zlen. rewrite length_take. lia. Qed.

Lemma out_data_run i b s e n :
  aget (out_eps s) i = Some e -> 0 <= n <= zlen (contents b) -> n <= zlen (fifos s) ->
  out_data i n b s =
  Done (tt,
        with_ep OUT i (e <| dma_address := dma_address (ep_done 0 n e) |>) s
          <| fifos := fifo_filled (take (Z.to_nat n) (contents b)) (fifos s) |>,
        if (0 <? n) && negb (dma_address e =? 0)
        then [UsbDmaWrite (dma_address e) (take (Z.to_nat n) (contents b))] else []).
Proof.
  intros He Hn Hf. unfold out_data, ep_done. cbn [dma_address].
  assert (Hsame : with_ep OUT i e s <| fifos := fifos s |> = s).
  { unfold with_ep, set_eps. cbn [eps_of]. rewrite list_insert_id; [by destruct s|].
    unfold aget in He. by destruct (i <? 0). }
  assert (Hdma : e <| dma_address := dma_address e |> = e) by (by destruct e).
  destruct (Z.ltb_spec 0 n); cbn [when andb].
  2: { replace n with 0 by lia. change (fifo_filled _ (fifos s)) with (fifos s).
       by rewrite Hdma, Hsame. }
  rewrite (bind_lift _ _ _ _ (deref_slice b n Hn ltac:(done))). run. cbn [id].
  pose proof (zlen_take _ _ Hn) as Hz.
  rewrite (bind_lift _ _ _ (fifo_filled (take (Z.to_nat n) (contents b)) (fifos s)))
    by (by rewrite splice_Some by lia).
  run. set (s1 := s <| fifos := _ |>). assert (He1 : aget (eps_of OUT s1) i = Some e) by exact He.
  rewrite (bind_silent _ _ _ _ _ (get_ep_run OUT i s1 e He1)).
  destruct (Z.eqb_spec (dma_address e) 0); cbn [negb when].
  - rewrite Hdma. unfold with_ep, set_eps. cbn [eps_of]. rewrite list_insert_id; [done|].
    unfold aget in He. by destruct (i <? 0).
  - eapply (bind_events _ _ _ _ _ [_] _ _ []); [done|]. by rewrite (upd_ep_with _ _ _ _ _ He1).
Qed.

Lemma out_transfer_run i h b s e n :
  aget (out_eps s) i = Some e -> grxfsiz s <= sizeof_fifos -> zlen (fifos s) = sizeof_fifos ->
  n = Z.min (amount e h) (grxfsiz s) -> 0 <= n <= zlen (contents b) ->
  out_transfer i h b s =
  Done ((n, b),
        with_ep OUT i
          (ep_done (if test (flags h) tcp_usb_setup then USB_EPINT_SetUp else USB_EPINT_XferCompl) n e) s
          <| fifos := fifo_filled (take (Z.to_nat n) (contents b)) (fifos s) |>,
        if (0 <? n) && negb (dma_address e =? 0)
        then [UsbDmaWrite (dma_address e) (take (Z.to_nat n) (contents b))] else []).
Proof.
  intros He Hrx Hlen Hn Hno. unfold out_transfer.
  set (irq := if test (flags h) tcp_usb_setup then _ else _).
  rewrite (bind_silent _ _ _ _ _ (upd_ep_with OUT i _ s e He)).
  set (e1 := e <| control ::= _ |>). set (s1 := with_ep OUT i e1 s).
  assert (He1 : aget (eps_of OUT s1) i = Some e1) by (by eapply eps_with_ep).
  rewrite (bind_silent _ _ _ _ _ (get_ep_run OUT i s1 e1 He1)). run. cbn [id].
  change (grxfsiz s1) with (grxfsiz s). change (amount e1 h) with (amount e h). rewrite <- Hn.
  destruct (Z.ltb_spec sizeof_fifos (grxfsiz s)); [lia|].
  rewrite <- (app_nil_r (if _ && _ then _ else _)).
  eapply bind_events; [apply (out_data_run i b s1 e1 n); [done|done|change (fifos s1) with (fifos s); lia]|].
  set (s2 := with_ep OUT i _ s1 <| fifos := _ |>).
  assert (He2 : aget (eps_of OUT s2) i = Some (e1 <| dma_address := dma_address (ep_done 0 n e1) |>))
    by (exact (eps_with_ep OUT i e1 _ s1 He1)).
  rewrite (bind_silent _ _ _ _ _ (upd_ep_with _ _ _ _ _ He2)).
  set (s3 := with_ep OUT i _ s2). rewrite (bind_silent _ _ _ _ _ (upd_ep_with OUT i _ s3 _ (eps_with_ep _ _ _ _ _ He2))).
  unfold ret, s3, s2. rewrite !with_ep_twice. unfold s1. by rewrite fifos_with_ep, !with_ep_twice.
Qed.

Context `{!UsbMachineLaws}.

Definition uses_dma (n : Z) (e : synopsys_usb_ep_state) : bool := (0 <? n) && negb (dma_address e =? 0).

(** The FIFO memory once the data of an IN transfer is there, the data, and the
    buffer it is copied to. *)
Definition fifo_fetched (st n : Z) (e : synopsys_usb_ep_state) (l : list Z) : list Z :=
  if uses_dma n e
  then take (Z.to_nat st) l ++ guest_memory (dma_address e) n ++ drop (Z.to_nat st + Z.to_nat n) l
  else l.
Definition in_bytes (st n : Z) (e : synopsys_usb_ep_state) (l : list Z) : list Z :=
  if dma_address e =? 0 then take (Z.to_nat n) (drop (Z.to_nat st) l) else guest_memory (dma_address e) n.
Definition in_buffer (st n : Z) (e : synopsys_usb_ep_state) (l : list Z) (b : ptr) : ptr :=
  if 0 <? n then Valid (in_bytes st n e l ++ drop (Z.to_nat n) (contents b)) else b.

Lemma in_bytes_length st n e l : 0 <= st -> 0 <= n -> st + n <= zlen l -> zlen (in_bytes st n e l) = n.
Proof.
  intros. unfold in_bytes. destruct (_ =? 0); [|by apply guest_memory_spec].
  unfold zlen in *. rewrite length_take, length_drop. lia.
Qed.

Lemma with_ep_self d i e s : aget (eps_of d s) i = Some e -> with_ep d i e s = s.
Proof.
  intros He. unfold with_ep. rewrite list_insert_id; [destruct s; by destruct d|].
  unfold aget in He. by destruct (i <? 0).
Qed.

Lemma in_data_run i b s e n st :
  aget (in_eps s) i = Some e -> 0 <= n <= zlen (contents b) -> 0 <= st -> st + n <= zlen (fifos s) ->
  in_data i n st b s =
  Done (in_buffer st n e (fifos s) b,
        with_ep IN i (e <| dma_address := dma_address (ep_done 0 n e) |>)
          (s <| fifos := fifo_fetched st n e (fifos s) |>), []).
Proof.
  intros He Hn Hst Hf. unfold in_data, in_buffer, fifo_fetched, uses_dma, ep_done. cbn [dma_address].
  assert (Hsame : s <| fifos := fifos s |> = s) by (by destruct s).
  assert (Hdma : e <| dma_address := dma_address e |> = e) by (by destruct e).
  destruct (Z.ltb_spec 0 n); cbn [andb]; [|by rewrite Hdma, Hsame, with_ep_self].
  rewrite (bind_silent _ _ _ _ _ (get_ep_run IN i s e He)).
  assert (Hcopy : forall s' d, slice st n (fifos s') = Some d -> zlen d = n ->
    (s0 <- gets id ;; d <- lift (slice st n (fifos s0)) ;;
     b <- lift (deref b ≫= splice 0 d) ;; ret (Valid b)) s' =
    Done (Valid (d ++ drop (Z.to_nat n) (contents b)), s', [] : list usb_event)).
  { intros s' d Hd Hz. run. cbn [id]. rewrite (bind_lift _ _ _ d Hd).
    destruct b as [| |o]; cbn [contents] in *; [unfold zlen in *; cbn in *; lia..|].
    change (deref (Valid o) ≫= splice 0 d) with (splice 0 d o). rewrite splice_Some by lia.
    run. unfold ret. do 4 f_equal. change (take (Z.to_nat 0) o) with (@nil Z). cbn [app Z.to_nat].
    do 2 f_equal. unfold zlen in Hz. lia. }
  unfold in_bytes. destruct (Z.eqb_spec (dma_address e) 0) as [E0|E0]; cbn [negb when].
  - rewrite bind_ret, Hdma, Hsame, with_ep_self by done.
    assert (Hd := slice_Some (fifos s) st n Hst ltac:(lia) Hf).
    rewrite (Hcopy s _ Hd (slice_length _ _ _ _ Hd)). done.
  - destruct (guest_memory_spec (dma_address e) n) as [Hz _]; [lia|].
    run. cbn [id].
    set (l := take (Z.to_nat st) (fifos s) ++ guest_memory (dma_address e) n
              ++ drop (Z.to_nat st + Z.to_nat n) (fifos s)).
    assert (Hl : splice st (guest_memory (dma_address e) n) (fifos s) = Some l).
    { rewrite splice_Some by lia. unfold l, zlen in *. do 4 f_equal. lia. }
    rewrite (bind_lift _ _ _ l Hl). run.
    set (s1 := s <| fifos := l |>). assert (He1 : aget (eps_of IN s1) i = Some e) by exact He.
    rewrite (bind_silent _ _ _ _ _ (upd_ep_with _ _ _ _ _ He1)).
    assert (Hd : slice st n l = Some (guest_memory (dma_address e) n))
      by (rewrite <- Hz at 1; exact (slice_splice _ _ _ _ Hl)).
    rewrite (Hcopy (with_ep IN i _ s1) _ Hd Hz). done.
Qed.

Lemma in_transfer_run i h b s e st sz n :
  aget (in_eps s) i = Some e -> 0 <= fifo e < 16 ->
  synopsys_usb_tx_fifo_start s (fifo e) = Some st -> synopsys_usb_tx_fifo_size s (fifo e) = Some sz ->
  0 <= st -> st + sz <= sizeof_fifos -> zlen (fifos s) = sizeof_fifos ->
  n = Z.min (amount e h) sz -> 0 <= n <= zlen (contents b) ->
  in_transfer i h b s =
  Done ((n, in_buffer st n e (fifos s) b),
        with_ep IN i (ep_done USB_EPINT_XferCompl n e) (s <| fifos := fifo_fetched st n e (fifos s) |>), []).
Proof.
  intros He Hfi Hstart Hsize Hst Hend Hlen Hn Hno. unfold in_transfer.
  rewrite (bind_silent _ _ _ _ _ (upd_ep_with IN i _ s e He)).
  set (e1 := e <| control ::= _ |>). set (s1 := with_ep IN i e1 s).
  assert (He1 : aget (eps_of IN s1) i = Some e1) by (by eapply eps_with_ep).
  rewrite (bind_silent _ _ _ _ _ (get_ep_run IN i s1 e1 He1)). run. cbn [id].
  change (fifo e1) with (fifo e). change (amount e1 h) with (amount e h).
  unfold USB_NUM_FIFOS. destruct (Z.leb_spec 16 (fifo e)); [lia|].
  rewrite bind_gets. cbn [id]. rewrite (bind_lift _ _ _ sz) by exact Hsize. rewrite <- Hn.
  rewrite (bind_lift _ _ _ st) by exact Hstart.
  destruct (Z.ltb_spec sizeof_fifos (st + sz)); [lia|].
  rewrite (bind_silent _ _ _ _ _ (in_data_run i b s1 e1 n st He1 Hno Hst ltac:(change (fifos s1) with (fifos s); lia))).
  set (s1' := s1 <| fifos := _ |>). assert (He1' : aget (eps_of IN s1') i = Some e1) by exact He1.
  rewrite (bind_silent _ _ _ _ _ (upd_ep_with _ _ _ _ _ (eps_with_ep _ _ _ _ _ He1'))).
  unfold ret, s1'. rewrite with_ep_twice. unfold s1. by rewrite fifos_with_ep, with_ep_twice.
Qed.
End Transfers.

(** ** Tokens from the host *)
Section Tokens.
Context `{UsbMachine}.

Definition device_address (s : synopsys_usb_state) : Z :=
  u8 ((dcfg s .& DCFG_DEVICEADDRMSK) >> DCFG_DEVICEADDR_SHIFT).
Definition direction_of (h : tcp_usb_header_t) : direction := if is_in h then IN else OUT.
Definition endpoint_of (h : tcp_usb_header_t) : Z := ep h .& 0x7f.

(** The end of enumeration is latched before the token is looked at. *)
Definition noted (h : tcp_usb_header_t) (s : synopsys_usb_state) : synopsys_usb_state :=
  if test (flags h) tcp_usb_enumdone then s <| gintsts ::= fun x => x .| GINTMSK_ENUMDONE |> else s.

Lemma noted_ok h s : usb_ok s -> usb_ok (noted h s).
Proof.
  intros Hs. unfold noted. destruct (test _ _); [|done].
  assert (fits 32 GINTMSK_ENUMDONE) by (apply fits_bit; lia). usb_field.
Qed.

Lemma bind_abort {A B} (m : usbM A) (k : A -> usbM B) s : m s = HwError -> bind m k s = HwError.
Proof. unfold bind. by intros ->. Qed.

Lemma note_run h s :
  when (test (flags h) tcp_usb_enumdone)
    (modify (Ev := usb_event) (fun s => s <| gintsts ::= fun x => x .| GINTMSK_ENUMDONE |>)) s
  = Done (tt, noted h s, []).
Proof. unfold noted. destruct (test (flags h) tcp_usb_enumdone); reflexivity. Qed.

(** A callback that is not a reset runs the token of its endpoint, then updates
    the interrupts. *)
Lemma callback_token h b s n b' s1 es :
  test (flags h) tcp_usb_reset = false ->
  let h' := h <| addr := device_address s |> in
  let i := endpoint_of h in
  token (direction_of h) i
    (match direction_of h with IN => in_transfer i h' b | OUT => out_transfer i h' b end) b (noted h s)
  = Done ((n, b'), s1, es) ->
  usb_ok s1 ->
  synopsys_usb_tcp_callback h b s =
  Done ((n, h', b'), irq_settled s1, es ++ [UsbIrq (irq_level s1)]).
Proof.
  intros Hreset h' i Htok Hok. unfold synopsys_usb_tcp_callback. run. cbn [id].
  change (flags (h <| addr := _ |>)) with (flags h). rewrite Hreset.
  rewrite (bind_silent _ _ _ _ _ (note_run h s)). change (is_in (h <| addr := _ |>)) with (is_in h).
  change (ep (h <| addr := _ |>) .& 0x7f) with (endpoint_of h).
  unfold direction_of in Htok. fold h'. fold i.
  assert (Hrest : (synopsys_usb_update_irq ;;; ret (n, h', b')) s1 =
                  Done ((n, h', b'), irq_settled s1, [UsbIrq (irq_level s1)])).
  { apply (bind_events _ _ _ tt (irq_settled s1) [UsbIrq (irq_level s1)] _ _ []); [by apply update_irq_run|done]. }
  destruct (is_in h); (eapply bind_events; [exact Htok|exact Hrest]).
Qed.

Lemma callback_abort h b s :
  test (flags h) tcp_usb_reset = false ->
  let h' := h <| addr := device_address s |> in
  let i := endpoint_of h in
  token (direction_of h) i
    (match direction_of h with IN => in_transfer i h' b | OUT => out_transfer i h' b end) b (noted h s)
  = HwError ->
  synopsys_usb_tcp_callback h b s = HwError.
Proof.
  intros Hreset h' i Htok. unfold synopsys_usb_tcp_callback. run. cbn [id].
  change (flags (h <| addr := _ |>)) with (flags h). rewrite Hreset, (bind_silent _ _ _ _ _ (note_run h s)).
  change (is_in (h <| addr := _ |>)) with (is_in h).
  unfold direction_of in Htok. destruct (is_in h); (apply bind_abort; exact Htok).
Qed.

Lemma fits_remaining x n : fits 32 x -> fits 32 (remaining x n).
Proof.
  intros Hx. unfold remaining. apply fits_lor; [lia|auto with width|].
  apply fits_bits; [lia|]. split; [apply Z.land_nonneg; right; done|].
  intros k Hk. rewrite Z.land_spec. apply andb_false_intro2.
  assert (Hm : fits 32 DEPTSIZ_XFERSIZ_MASK) by done. apply fits_bits in Hm; [|lia]. by apply Hm.
Qed.

Lemma ep_done_ok irq n e : fits 32 irq -> ep_ok e -> ep_ok (ep_done irq n e).
Proof.
  intros Hirq []. constructor; cbn; auto using fits_remaining with width. destruct (_ && _); auto with width.
Qed.

Lemma with_ep_ok d i e e0 s : usb_ok s -> aget (eps_of d s) i = Some e0 -> ep_ok e -> usb_ok (with_ep d i e s).
Proof. intros Hs He Hok. unfold with_ep. exact (upd_ep_ok d i (fun _ => e) s e0 Hs He Hok). Qed.

Lemma fifos_ok l s : usb_ok s -> length l = 4352%nat -> Forall (fits 8) l -> usb_ok (s <| fifos := l |>).
Proof. intros [] Hl Hf. by constructor. Qed.

Lemma zlen_fifos s : usb_ok s -> zlen (fifos s) = sizeof_fifos.
Proof. intros Hs. unfold zlen. by destruct (ok_fifos s Hs) as [-> _]. Qed.

Lemma noted_same h s :
  in_eps (noted h s) = in_eps s /\ out_eps (noted h s) = out_eps s /\ fifos (noted h s) = fifos s /\
  grxfsiz (noted h s) = grxfsiz s /\
  synopsys_usb_tx_fifo_start (noted h s) = synopsys_usb_tx_fifo_start s /\
  synopsys_usb_tx_fifo_size (noted h s) = synopsys_usb_tx_fifo_size s.
Proof. unfold noted. by destruct (test _ _). Qed.

(** The state after an OUT transfer of [n] bytes. *)
Definition out_complete (h : tcp_usb_header_t) (n : Z) (e : synopsys_usb_ep_state) (b : ptr)
    (s : synopsys_usb_state) : synopsys_usb_state :=
  with_ep OUT (endpoint_of h)
    (ep_done (if test (flags h) tcp_usb_setup then USB_EPINT_SetUp else USB_EPINT_XferCompl) n e)
    ((noted h s) <| fifos := fifo_filled (take (Z.to_nat n) (contents b)) (fifos s) |>).

Lemma out_token_run s h b e :
  let n := Z.min (amount e h) (grxfsiz s) in
  usb_ok s -> test (flags h) tcp_usb_reset = false -> is_in h = false ->
  aget (out_eps s) (endpoint_of h) = Some e ->
  test (control e) USB_EPCON_STALL = false -> test (control e) USB_EPCON_ENABLE = true ->
  grxfsiz s <= sizeof_fifos -> n <= zlen (contents b) -> Forall (fits 8) (contents b) ->
  let s1 := out_complete h n e b s in
  usb_ok s1 /\
  synopsys_usb_tcp_callback h b s =
  Done ((n, h <| addr := device_address s |>, b), irq_settled s1,
        (if uses_dma n e then [UsbDmaWrite (dma_address e) (take (Z.to_nat n) (contents b))] else [])
        ++ [UsbIrq (irq_level s1)]).
Proof.
  intros n Hs Hreset Hdir He Hstall Hen Hrx Hnb Hbytes s1.
  assert (Hn0 : 0 <= n).
  { unfold n, amount. pose proof (Z.mod_pos_bound (length_ h) (2 ^ 64)) as Hm.
    assert (0 <= tx_size e .& DEPTSIZ_XFERSIZ_MASK) by (apply Z.land_nonneg; right; done).
    pose proof (ok_config s Hs) as Hc. Forall_split Hc. unfold fits, wrap in *. lia. }
  destruct (noted_same h s) as (_ & Hout & Hfif & Hgrx & _ & _).
  pose proof (noted_ok h s Hs) as Hok'.
  assert (He' : aget (out_eps (noted h s)) (endpoint_of h) = Some e) by (by rewrite Hout).
  assert (Hs1 : usb_ok s1).
  { apply with_ep_ok with (e0 := e); [|exact He'|].
    - destruct (ok_fifos s Hs) as [Hl Hf]. apply fifos_ok; [done| |].
      + unfold fifo_filled. rewrite length_app, length_drop.
        pose proof (zlen_take (contents b) n ltac:(lia)). unfold zlen, sizeof_fifos in *. lia.
      + apply Forall_app. split; [by apply Forall_take|by apply Forall_drop].
    - destruct (ok_out s Hs) as [_ Heps]. pose proof (Forall_aget _ _ _ _ Heps He).
      apply ep_done_ok; [|done]. destruct (test (flags h) tcp_usb_setup); by split. }
  split; [done|]. apply callback_token; [done| |done].
  unfold direction_of. rewrite Hdir. unfold token.
  rewrite (bind_silent _ _ _ _ _ (get_ep_run OUT _ _ e He')), Hstall, Hen.
  rewrite (out_transfer_run (endpoint_of h) (h <| addr := device_address s |>) b (noted h s) e n); try done.
  - rewrite Hfif. reflexivity.
  - by rewrite Hgrx.
  - by apply zlen_fifos.
  - unfold n. by rewrite Hgrx.
Qed.

Context `{!UsbMachineLaws}.

Lemma fifo_fetched_ok st n e l :
  0 <= st -> 0 <= n -> st + n <= zlen l -> Forall (fits 8) l ->
  length (fifo_fetched st n e l) = length l /\ Forall (fits 8) (fifo_fetched st n e l).
Proof.
  intros Hst Hn Hl Hf. unfold fifo_fetched. destruct (uses_dma n e); [|done].
  destruct (guest_memory_spec (dma_address e) n Hn) as [Hz Hb]. unfold zlen in *. split.
  - rewrite !length_app, length_take, length_drop. lia.
  - apply Forall_app. split; [by apply Forall_take|]. apply Forall_app. split; [done|by apply Forall_drop].
Qed.

(** The state after an IN transfer of [n] bytes through the FIFO at [st]. *)
Definition in_complete (h : tcp_usb_header_t) (st n : Z) (e : synopsys_usb_ep_state)
    (s : synopsys_usb_state) : synopsys_usb_state :=
  with_ep IN (endpoint_of h) (ep_done USB_EPINT_XferCompl n e)
    ((noted h s) <| fifos := fifo_fetched st n e (fifos s) |>).

Lemma fifo_start_nonneg s f st : usb_ok s -> synopsys_usb_tx_fifo_start s f = Some st -> 0 <= st.
Proof.
  intros Hs. unfold synopsys_usb_tx_fifo_start. pose proof (ok_config s Hs) as Hc. Forall_split Hc.
  destruct (f =? 0); [intros [= <-]; apply Z.shiftr_nonneg; unfold fits in *; lia|].
  destruct (aget (dptxfsiz s) (f - 1)) as [v|] eqn:Ev; [|done]. intros [= <-].
  apply Z.shiftr_nonneg. destruct (ok_dptxfsiz s Hs) as [_ Hf].
  pose proof (Forall_aget _ _ _ _ Hf Ev) as Hv. unfold fits in Hv. lia.
Qed.

Lemma fifo_size_nonneg s f sz : synopsys_usb_tx_fifo_size s f = Some sz -> 0 <= sz.
Proof.
  unfold synopsys_usb_tx_fifo_size. destruct (f =? 0); [intros [= <-]; apply Z.land_nonneg; by right|].
  destruct (aget (dptxfsiz s) (f - 1)) as [v|]; [|done]. intros [= <-]. apply Z.land_nonneg. by right.
Qed.

Lemma amount_nonneg e h : 0 <= amount e h.
Proof.
  unfold amount. pose proof (Z.mod_pos_bound (length_ h) (2 ^ 64)) as Hm.
  assert (0 <= tx_size e .& DEPTSIZ_XFERSIZ_MASK) by (apply Z.land_nonneg; right; done).
  unfold wrap. lia.
Qed.

Lemma in_token_run s h b e st sz :
  let n := Z.min (amount e h) sz in
  usb_ok s -> test (flags h) tcp_usb_reset = false -> is_in h = true ->
  aget (in_eps s) (endpoint_of h) = Some e ->
  test (control e) USB_EPCON_STALL = false -> test (control e) USB_EPCON_ENABLE = true ->
  fifo e < USB_NUM_FIFOS ->
  synopsys_usb_tx_fifo_start s (fifo e) = Some st ->
  synopsys_usb_tx_fifo_size s (fifo e) = Some sz -> st + sz <= sizeof_fifos ->
  n <= zlen (contents b) ->
  let s1 := in_complete h st n e s in
  usb_ok s1 /\
  synopsys_usb_tcp_callback h b s =
  Done ((n, h <| addr := device_address s |>, in_buffer st n e (fifos s) b),
        irq_settled s1, [UsbIrq (irq_level s1)]).
Proof.
  intros n Hs Hreset Hdir He Hstall Hen Hfi Hstart Hsize Hend Hnb s1.
  pose proof (fifo_start_nonneg _ _ _ Hs Hstart) as Hst. pose proof (fifo_size_nonneg _ _ _ Hsize) as Hsz.
  pose proof (amount_nonneg e h) as Ham. assert (Hn : 0 <= n <= sz) by (unfold n; lia).
  destruct (noted_same h s) as (Hin & _ & Hfif & _ & Hst' & Hsz').
  pose proof (noted_ok h s Hs) as Hok'. pose proof (zlen_fifos s Hs) as Hzf.
  assert (He' : aget (in_eps (noted h s)) (endpoint_of h) = Some e) by (by rewrite Hin).
  destruct (ok_in s Hs) as [_ Heps]. pose proof (Forall_aget _ _ _ _ Heps He) as Heok.
  assert (Hs1 : usb_ok s1).
  { destruct (ok_fifos s Hs) as [Hl Hf].
    destruct (fifo_fetched_ok st n e (fifos s)) as [Hl' Hf']; [done|lia|lia|done|].
    apply with_ep_ok with (e0 := e); [|exact He'|by apply ep_done_ok; auto with width].
    apply fifos_ok; [done|congruence|done]. }
  split; [done|]. apply (callback_token _ _ _ _ _ _ []); [done| |done].
  unfold direction_of. rewrite Hdir. unfold token.
  rewrite (bind_silent _ _ _ _ _ (get_ep_run IN _ _ e He')), Hstall, Hen.
  rewrite (in_transfer_run (endpoint_of h) (h <| addr := device_address s |>) b (noted h s) e st sz n);
    rewrite ?Hfif, ?Hst', ?Hsz'; try done; [|lia].
  destruct Heok. unfold fits, USB_NUM_FIFOS in *. lia.
Qed.

(** An OUT or SETUP token for an enabled endpoint moves
    [n = min (transfer size, length, receive FIFO)] bytes: they are the head of
    the FIFO memory and, when the endpoint has a DMA address, are written to
    guest memory at it; the endpoint is disabled, its transfer size and DMA
    address advance, its SETUP or completion interrupt is set, and the
    interrupt line is updated.  The answer is [n] with the device's address. *)
Theorem usb_out_transfer s h b e :
  let n := Z.min (amount e h) (grxfsiz s) in
  usb_ok s -> test (flags h) tcp_usb_reset = false -> is_in h = false ->
  aget (out_eps s) (endpoint_of h) = Some e ->
  test (control e) USB_EPCON_STALL = false -> test (control e) USB_EPCON_ENABLE = true ->
  grxfsiz s <= sizeof_fifos -> n <= zlen (contents b) -> Forall (fits 8) (contents b) ->
  exists s',
    synopsys_usb_tcp_callback h b s =
    Done ((n, h <| addr := device_address s |>, b), irq_settled s',
          (if uses_dma n e then [UsbDmaWrite (dma_address e) (take (Z.to_nat n) (contents b))] else [])
          ++ [UsbIrq (irq_level s')]) /\
    usb_ok s' /\ take (Z.to_nat n) (fifos s') = take (Z.to_nat n) (contents b) /\
    s' = with_ep OUT (endpoint_of h)
           (ep_done (if test (flags h) tcp_usb_setup then USB_EPINT_SetUp else USB_EPINT_XferCompl) n e)
           ((noted h s) <| fifos := fifos s' |>).
Proof.
  intros n Hs Hreset Hdir He Hstall Hen Hrx Hnb Hbytes. exists (out_complete h n e b s).
  destruct (out_token_run s h b e) as [Hok Hrun]; try done. split; [exact Hrun|]. split; [done|].
  assert (Hn0 : 0 <= n).
  { unfold n. pose proof (amount_nonneg e h). pose proof (ok_config s Hs) as Hc. Forall_split Hc.
    unfold fits in *. lia. }
  split; [|done]. pose proof (zlen_take (contents b) n ltac:(lia)) as Hz.
  change (fifos (out_complete h n e b s)) with (fifo_filled (take (Z.to_nat n) (contents b)) (fifos s)).
  unfold fifo_filled. apply take_app_length'. unfold zlen in Hz. lia.
Qed.

(** An IN token for an enabled endpoint answers with
    [n = min (transfer size, length, transmit FIFO)] bytes at the head of the
    buffer: the guest memory at the DMA address of the endpoint if it has one,
    else the endpoint's part of the FIFO memory; the rest of the buffer is kept,
    the endpoint is disabled and completed, and the interrupt line updated. *)
Theorem usb_in_transfer s h b e st sz :
  let n := Z.min (amount e h) sz in
  usb_ok s -> test (flags h) tcp_usb_reset = false -> is_in h = true ->
  aget (in_eps s) (endpoint_of h) = Some e ->
  test (control e) USB_EPCON_STALL = false -> test (control e) USB_EPCON_ENABLE = true ->
  fifo e < USB_NUM_FIFOS ->
  synopsys_usb_tx_fifo_start s (fifo e) = Some st ->
  synopsys_usb_tx_fifo_size s (fifo e) = Some sz -> st + sz <= sizeof_fifos ->
  0 < n <= zlen (contents b) ->
  exists s' d,
    synopsys_usb_tcp_callback h b s =
    Done ((n, h <| addr := device_address s |>, Valid (d ++ drop (Z.to_nat n) (contents b))),
          irq_settled s', [UsbIrq (irq_level s')]) /\
    zlen d = n /\
    d = (if dma_address e =? 0 then take (Z.to_nat n) (drop (Z.to_nat st) (fifos s))
         else guest_memory (dma_address e) n) /\
    usb_ok s' /\ take (Z.to_nat n) (drop (Z.to_nat st) (fifos s')) = d /\
    s' = with_ep IN (endpoint_of h) (ep_done USB_EPINT_XferCompl n e) ((noted h s) <| fifos := fifos s' |>).
Proof.
  intros n Hs Hreset Hdir He Hstall Hen Hfi Hstart Hsize Hend Hnb.
  exists (in_complete h st n e s), (in_bytes st n e (fifos s)).
  destruct (in_token_run s h b e st sz) as [Hok Hrun]; try done; [lia|].
  pose proof (fifo_start_nonneg _ _ _ Hs Hstart) as Hst. pose proof (zlen_fifos s Hs) as Hzf.
  assert (Hnsz : n <= sz) by (unfold n; lia).
  pose proof (in_bytes_length st n e (fifos s) Hst ltac:(lia) ltac:(lia)) as Hz.
  fold n in Hrun. unfold in_buffer in Hrun. destruct (Z.ltb_spec 0 n); [|lia].
  split; [exact Hrun|]. split; [done|]. split; [done|]. split; [done|]. split; [|done].
  change (fifos (in_complete h st n e s)) with (fifo_fetched st n e (fifos s)).
  unfold fifo_fetched, uses_dma, in_bytes. unfold in_bytes in Hz. destruct (Z.ltb_spec 0 n); [|lia].
  destruct (dma_address e =? 0); cbn [negb andb]; [done|].
  rewrite drop_app_length' by (rewrite length_take; unfold zlen in *; lia).
  apply take_app_length'. unfold zlen in Hz. lia.
Qed.

Lemma reset_token_run s h b :
  usb_ok s -> test (flags h) tcp_usb_reset = true ->
  let s1 := s <| gintsts ::= fun x => x .| GINTMSK_RESET |> in
  usb_ok s1 /\
  synopsys_usb_tcp_callback h b s =
  Done ((0, h <| addr := device_address s |>, b), irq_settled s1, [UsbIrq (irq_level s1)]).
Proof.
  intros Hs Hreset s1. assert (Hs1 : usb_ok s1).
  { unfold s1. assert (fits 32 GINTMSK_RESET) by (apply fits_bit; lia). usb_field. }
  split; [done|]. unfold synopsys_usb_tcp_callback. run. cbn [id].
  change (flags (h <| addr := _ |>)) with (flags h). rewrite Hreset. run.
  apply (bind_events _ _ _ tt (irq_settled s1) [UsbIrq (irq_level s1)] _ _ []);
    [by apply update_irq_run|done].
Qed.

Lemma noted_ep h s d i e : aget (eps_of d s) i = Some e -> aget (eps_of d (noted h s)) i = Some e.
Proof. destruct (noted_same h s) as (Hi & Ho & _). destruct d; cbn; congruence. Qed.

Lemma stall_token_run s h b e :
  usb_ok s -> test (flags h) tcp_usb_reset = false ->
  aget (eps_of (direction_of h) s) (endpoint_of h) = Some e ->
  test (control e) USB_EPCON_STALL = true ->
  let s1 := with_ep (direction_of h) (endpoint_of h)
              (e <| control ::= fun c => c .&~ USB_EPCON_STALL |>) (noted h s) in
  usb_ok s1 /\
  synopsys_usb_tcp_callback h b s =
  Done ((USB_RET_STALL, h <| addr := device_address s |>, b), irq_settled s1, [UsbIrq (irq_level s1)]).
Proof.
  intros Hs Hreset He Hstall s1. pose proof (noted_ep h s _ _ _ He) as He'.
  destruct (eps_ok (direction_of h) s Hs) as [_ Hf]. destruct (Forall_aget _ _ _ _ Hf He).
  assert (Hs1 : usb_ok s1).
  { apply with_ep_ok with (e0 := e); [by apply noted_ok|done|].
    constructor; unfold upd; cbn; auto with width. }
  split; [done|]. apply (callback_token _ _ _ _ _ _ []); [done| |done].
  unfold token. rewrite (bind_silent _ _ _ _ _ (get_ep_run _ _ _ e He')), Hstall.
  by rewrite (bind_silent _ _ _ _ _ (upd_ep_with _ _ _ _ _ He')).
Qed.

Lemma nak_token_run s h b e :
  usb_ok s -> test (flags h) tcp_usb_reset = false ->
  aget (eps_of (direction_of h) s) (endpoint_of h) = Some e ->
  test (control e) USB_EPCON_STALL = false -> test (control e) USB_EPCON_ENABLE = false ->
  synopsys_usb_tcp_callback h b s =
  Done ((USB_RET_NAK, h <| addr := device_address s |>, b), irq_settled (noted h s),
        [UsbIrq (irq_level (noted h s))]).
Proof.
  intros Hs Hreset He Hstall Hen. pose proof (noted_ep h s _ _ _ He) as He'.
  apply (callback_token _ _ _ _ _ _ []); [done| |by apply noted_ok].
  unfold token. by rewrite (bind_silent _ _ _ _ _ (get_ep_run _ _ _ e He')), Hstall, Hen.
Qed.

(** C22: Tokens that transfer nothing.  A bus reset latches the reset event; a
    stalled endpoint answers STALL and forgets the stall; an endpoint that is
    not enabled answers NAK; the buffer is untouched, no DMA happens, and apart
    from the latched events and the stall bit only the interrupt words and the
    line are updated. *)
Theorem usb_token_refused s h b :
  usb_ok s ->
  let h' := h <| addr := device_address s |> in
  (test (flags h) tcp_usb_reset = true ->
   let s1 := s <| gintsts ::= fun x => x .| GINTMSK_RESET |> in
   synopsys_usb_tcp_callback h b s = Done ((0, h', b), irq_settled s1, [UsbIrq (irq_level s1)])) /\
  (forall e, test (flags h) tcp_usb_reset = false ->
   aget (eps_of (direction_of h) s) (endpoint_of h) = Some e ->
   (test (control e) USB_EPCON_STALL = true ->
    let s1 := with_ep (direction_of h) (endpoint_of h)
                (e <| control ::= fun c => c .&~ USB_EPCON_STALL |>) (noted h s) in
    synopsys_usb_tcp_callback h b s =
    Done ((USB_RET_STALL, h', b), irq_settled s1, [UsbIrq (irq_level s1)])) /\
   (test (control e) USB_EPCON_STALL = false -> test (control e) USB_EPCON_ENABLE = false ->
    let s1 := noted h s in
    synopsys_usb_tcp_callback h b s =
    Done ((USB_RET_NAK, h', b), irq_settled s1, [UsbIrq (irq_level s1)]))).
Proof.
  intros Hs h'. split; [intros Hreset; by apply reset_token_run|].
  intros e Hreset He. split; [intros Hstall; by apply stall_token_run|].
  intros Hstall Hen. by eapply nak_token_run.
Qed.

Lemma buffer_amount e h b :
  buffer_for h b -> 0 <= length_ h < 2 ^ 15 -> amount e h <= zlen (contents b).
Proof.
  unfold buffer_for, amount, wrap. intros Hb Hl. rewrite Z.mod_small by lia.
  destruct (Z.ltb_spec 0 (length_ h)).
  - destruct Hb as (o & -> & Ho). cbn [contents]. lia.
  - subst b. unfold zlen. cbn. lia.
Qed.

Lemma amount_max e h : amount e h < 2 ^ 17.
Proof.
  unfold amount. change DEPTSIZ_XFERSIZ_MASK with (Z.ones 17). rewrite Z.land_ones by lia.
  pose proof (Z.mod_pos_bound (tx_size e) (2 ^ 17)). lia.
Qed.

Lemma out_token_abort s h b e :
  test (flags h) tcp_usb_reset = false -> is_in h = false ->
  aget (out_eps s) (endpoint_of h) = Some e ->
  test (control e) USB_EPCON_STALL = false -> test (control e) USB_EPCON_ENABLE = true ->
  sizeof_fifos < grxfsiz s -> synopsys_usb_tcp_callback h b s = HwError.
Proof.
  intros Hreset Hdir He Hstall Hen Hrx. destruct (noted_same h s) as (_ & Hout & _ & Hgrx & _).
  assert (He' : aget (eps_of OUT (noted h s)) (endpoint_of h) = Some e) by (cbn; by rewrite Hout).
  apply callback_abort; [done|]. unfold direction_of. rewrite Hdir. unfold token.
  rewrite (bind_silent _ _ _ _ _ (get_ep_run OUT _ _ e He')), Hstall, Hen. unfold out_transfer.
  rewrite (bind_silent _ _ _ _ _ (upd_ep_with _ _ _ _ _ He')).
  rewrite (bind_silent _ _ _ _ _ (get_ep_run OUT _ _ _ (eps_with_ep _ _ _ _ _ He'))). run. cbn [id].
  change (grxfsiz (with_ep OUT _ _ (noted h s))) with (grxfsiz (noted h s)). rewrite Hgrx.
  by destruct (Z.ltb_spec sizeof_fifos (grxfsiz s)); [|lia].
Qed.

Lemma in_token_abort s h b e :
  test (flags h) tcp_usb_reset = false -> is_in h = true ->
  aget (in_eps s) (endpoint_of h) = Some e ->
  test (control e) USB_EPCON_STALL = false -> test (control e) USB_EPCON_ENABLE = true ->
  (USB_NUM_FIFOS <= fifo e \/
   exists st sz, synopsys_usb_tx_fifo_start s (fifo e) = Some st /\
     synopsys_usb_tx_fifo_size s (fifo e) = Some sz /\ sizeof_fifos < st + sz) ->
  synopsys_usb_tcp_callback h b s = HwError.
Proof.
  intros Hreset Hdir He Hstall Hen Hbad. destruct (noted_same h s) as (Hin & _ & _ & _ & Hst & Hsz).
  assert (He' : aget (eps_of IN (noted h s)) (endpoint_of h) = Some e) by (cbn; by rewrite Hin).
  apply callback_abort; [done|]. unfold direction_of. rewrite Hdir. unfold token.
  rewrite (bind_silent _ _ _ _ _ (get_ep_run IN _ _ e He')), Hstall, Hen. unfold in_transfer.
  rewrite (bind_silent _ _ _ _ _ (upd_ep_with _ _ _ _ _ He')).
  rewrite (bind_silent _ _ _ _ _ (get_ep_run IN _ _ _ (eps_with_ep _ _ _ _ _ He'))). run. cbn [id].
  change (fifo (e <| control ::= _ |>)) with (fifo e).
  destruct (Z.leb_spec USB_NUM_FIFOS (fifo e)); [done|].
  destruct Hbad as [?|(st & sz & Est & Esz & Hbig)]; [lia|]. rewrite <- Hst in Est. rewrite <- Hsz in Esz.
  rewrite bind_gets. cbn [id]. rewrite (bind_lift _ _ _ sz) by exact Esz.
  rewrite (bind_lift _ _ _ st) by exact Est. by destruct (Z.ltb_spec sizeof_fifos (st + sz)); [|lia].
Qed.

Lemma tx_fifo_defined s f :
  usb_ok s -> 0 <= f < USB_NUM_FIFOS ->
  exists st sz, synopsys_usb_tx_fifo_start s f = Some st /\ synopsys_usb_tx_fifo_size s f = Some sz.
Proof.
  intros Hs Hf. unfold synopsys_usb_tx_fifo_start, synopsys_usb_tx_fifo_size, USB_NUM_FIFOS in *.
  destruct (Z.eqb_spec f 0); [by eexists _, _|]. destruct (ok_dptxfsiz s Hs) as [Hl _].
  destruct (aget_Some (dptxfsiz s) (f - 1)) as [v ->]; [unfold zlen; lia|]. by eexists _, _.
Qed.

(** What a client promises of a transfer it was given. *)
Definition token_post (h : tcp_usb_header_t) : Z * tcp_usb_header_t * ptr -> synopsys_usb_state -> list usb_event -> Prop :=
  fun '(r, h', b') s' _ =>
    usb_ok s' /\ hdr_ok h' /\ ep h' = ep h /\ USB_RET_STALL <= r <= length_ h /\ b' <> Dangling /\
    (is_in h' = true -> r <= zlen (contents b')).

Lemma token_post_answer h s n b' s1 :
  hdr_ok h -> usb_ok s1 -> USB_RET_STALL <= n <= length_ h -> b' <> Dangling ->
  (is_in h = true -> n <= zlen (contents b')) -> forall es,
  token_post h (n, h <| addr := device_address s |>, b') (irq_settled s1) es.
Proof.
  intros (Ha & He & Hf & Hl) Hs1 Hn Hb Hi es. split; [by apply irq_settled_ok|]. split; [|done].
  split; [|done]. by apply fits_wrap.
Qed.

(** C23: The controller is a lawful client of its connection for every transfer
    with a length that is not negative and an endpoint it has: the callback is
    defined or refused with [hw_error], keeps the controller well formed, keeps
    the endpoint of the header, answers within the length asked for, frees
    nothing, and never claims more IN data than the buffer holds. *)
Theorem usb_client_contract s h b :
  usb_ok s -> hdr_ok h -> 0 <= length_ h -> endpoint_of h < USB_NUM_ENDPOINTS ->
  buffer_for h b -> Forall (fits 8) (contents b) ->
  wp (data_callback h b) (token_post h) s.
Proof.
  intros Hs Hh Hl Hep Hbuf Hbytes. change (wp (synopsys_usb_tcp_callback h b) (token_post h) s).
  assert (Hnd : b <> Dangling).
  { unfold buffer_for in Hbuf. destruct (0 <? length_ h); [by destruct Hbuf as (o & -> & _)|by subst]. }
  assert (Hl15 : length_ h < 2 ^ 15) by apply Hh.
  unfold wp. destruct (test (flags h) tcp_usb_reset) eqn:Hreset.
  { destruct (reset_token_run s h b Hs Hreset) as [Hs1 ->]. apply token_post_answer; try done.
    intros _. unfold zlen. lia. }
  assert (Hi : 0 <= endpoint_of h < 8).
  { split; [apply Z.land_nonneg; by right|exact Hep]. }
  destruct (eps_ok (direction_of h) s Hs) as [Hlen Hf].
  destruct (aget_Some (eps_of (direction_of h) s) (endpoint_of h)) as [e He]; [unfold zlen; lia|].
  pose proof (amount_nonneg e h) as Ham. pose proof (buffer_amount e h b Hbuf ltac:(lia)) as Hamb.
  assert (Haml : amount e h <= length_ h) by (unfold amount, wrap; rewrite Z.mod_small; lia).
  destruct (test (control e) USB_EPCON_STALL) eqn:Hstall.
  { destruct (stall_token_run s h b e Hs Hreset He Hstall) as [Hs1 ->].
    apply token_post_answer; try done; unfold USB_RET_STALL, zlen; [lia|]. intros _. lia. }
  destruct (test (control e) USB_EPCON_ENABLE) eqn:Hen.
  2: { rewrite (nak_token_run s h b e Hs Hreset He Hstall Hen).
       apply token_post_answer; try done; [by apply noted_ok|unfold USB_RET_STALL, USB_RET_NAK; lia|].
       intros _. unfold USB_RET_NAK, zlen. lia. }
  unfold direction_of in *. destruct (is_in h) eqn:Hdir.
  - destruct (Z.leb_spec USB_NUM_FIFOS (fifo e)) as [Hbig|Hfi].
    { by rewrite (in_token_abort s h b e Hreset Hdir He Hstall Hen (or_introl Hbig)). }
    destruct (tx_fifo_defined s (fifo e) Hs) as (st & sz & Est & Esz).
    { split; [|done]. pose proof (Forall_aget _ _ _ _ Hf He) as [? _ Hff _ _ _]. apply Hff. }
    destruct (Z.le_gt_cases (st + sz) sizeof_fifos) as [Hend|Hend].
    + pose proof (fifo_size_nonneg _ _ _ Esz).
      destruct (in_token_run s h b e st sz) as [Hs1 ->]; try done; [lia|].
      apply token_post_answer; try done; unfold USB_RET_STALL.
      * lia.
      * unfold in_buffer. by destruct (0 <? _).
      * intros _. unfold in_buffer. destruct (Z.ltb_spec 0 (Z.min (amount e h) sz)); [|unfold zlen; lia].
        cbn [contents]. pose proof (fifo_start_nonneg _ _ _ Hs Est). pose proof (zlen_fifos s Hs).
        pose proof (in_bytes_length st (Z.min (amount e h) sz) e (fifos s)) as Hz.
        unfold zlen in *. rewrite length_app. lia.
    + rewrite (in_token_abort s h b e Hreset Hdir He Hstall Hen); [done|]. right. eauto 6.
  - destruct (Z.le_gt_cases (grxfsiz s) sizeof_fifos) as [Hrx|Hrx].
    + assert (0 <= grxfsiz s).
      { pose proof (ok_config s Hs) as Hc. Forall_split Hc. unfold fits in *. lia. }
      destruct (out_token_run s h b e) as [Hs1 ->]; try done; [lia|].
      apply token_post_answer; try done; unfold USB_RET_STALL; [lia|congruence].
    + by rewrite (out_token_abort s h b e).
Qed.
End Tokens.

(** ** Creation *)
Lemma initial_ok s :
  usb_ok s -> usb_ok (mk_usb (server_host s) (server_port s) 3 (ghwcfg1 s) (ghwcfg2 s) (ghwcfg3 s) (ghwcfg4 s)
      0 0 0x100 ((0x100 << 16) .| 0x100) 0 0 (grstctl s) 0 0
      ((fun i => u32 ((0x200 + 0x100 * Z.of_nat i) << 16) .| 0x100) <$> seq 0 16)
      0 0 0 0 0 0 0 (reset_ep <$> in_eps s) (reset_ep <$> out_eps s) (fifos s)).
Proof.
  intros [Hc ? ? [? ?] [Hil Hif] [Hol Hof] ?]. Forall_split Hc.
  assert (Hreset : forall l, Forall ep_ok l -> Forall ep_ok (reset_ep <$> l)).
  { intros l Hl. apply Forall_fmap. eapply Forall_impl; [exact Hl|]. intros e [].
    constructor; cbn; auto with width. }
  constructor; cbn [server_port pcgcctl ghwcfg1 ghwcfg2 ghwcfg3 ghwcfg4 gahbcfg gusbcfg grxfsiz gnptxfsiz
    gotgctl gotgint grstctl gintmsk dctl dcfg dsts daintmsk diepmsk doepmsk gintsts daintsts dptxfsiz
    in_eps out_eps fifos]; try done.
  - repeat (apply Forall_cons_2; [first [assumption|done]|]). apply Forall_nil_2.
  - split; [done|]. apply Forall_fmap, Forall_true. intros i. apply fits_lor; [lia|auto with width|done].
  - rewrite length_fmap. auto.
  - rewrite length_fmap. auto.
Qed.

Lemma usb_device_ok host port c1 c2 c3 c4 :
  fits 32 port -> fits 32 c1 -> fits 32 c2 -> fits 32 c3 -> fits 32 c4 ->
  usb_ok (usb_device host port c1 c2 c3 c4).
Proof.
  intros. assert (Hep : ep_ok (mk_ep 0 0 0 0 0 0)) by (by constructor).
  constructor; unfold usb_device; cbn -[zeros replicate];
    [repeat (apply Forall_cons_2; [first [assumption|done]|]); apply Forall_nil_2 |done|done|..];
    (split; [by rewrite ?length_replicate|by apply Forall_replicate]).
Qed.

(** A controller is created well formed and quiet, with its clock gated and
    no pending interrupt, whatever the board; the board's configuration words
    have no influence on it. *)
Theorem usb_created host port hwcfg :
  fits 32 port ->
  exists s, register_synopsys_usb host port hwcfg = Done (tt, s, [UsbTcpInit; UsbIrq false]) /\
    usb_ok s /\ pcgcctl s = 3 /\ gintsts s = 0 /\ daintsts s = 0 /\
    ghwcfg1 s = 0xdeadbeef /\ register_synopsys_usb host port [] = register_synopsys_usb host port hwcfg.
Proof.
  intros Hp. assert (Hd := usb_device_ok host port 0xdeadbeef 0xdeadbeef 0xdeadbeef 0xdeadbeef Hp
    ltac:(done) ltac:(done) ltac:(done) ltac:(done)).
  unfold register_synopsys_usb. set (d := usb_device _ _ _ _ _ _) in *.
  pose proof (initial_ok d Hd) as Hok. set (s0 := mk_usb _ _ _ _ _ _ _ _ _ _ _ _ _ _ _ _ _ _ _ _ _ _ _ _ _ _ _) in Hok.
  exists (irq_settled s0). split.
  - unfold synopsys_usb_init. apply (bind_events _ _ _ tt d [UsbTcpInit] _ _ [UsbIrq false]); [done|].
    unfold synopsys_usb_initial_reset. rewrite bind_modify. fold s0. by rewrite update_irq_run.
  - split; [by apply irq_settled_ok|]. repeat split.
Qed.

(** ** Concrete runs *)
#[export] Instance ep_ok_dec e : Decision (ep_ok e).
Proof.
  refine (cast_if (decide (fits 32 (control e) /\ fits 32 (tx_size e) /\ fits 32 (fifo e) /\
    fits 32 (interrupt_status e) /\ fits 32 (dma_address e) /\ fits 32 (dma_buffer e))));
    abstract (first [by constructor; tauto | by intros []; tauto]).
Defined.

#[export] Instance usb_ok_dec s : Decision (usb_ok s).
Proof.
  refine (cast_if (decide (
    Forall (fits 32) [server_port s; pcgcctl s; ghwcfg1 s; ghwcfg2 s; ghwcfg3 s; ghwcfg4 s;
      gahbcfg s; gusbcfg s; grxfsiz s; gnptxfsiz s; gotgctl s; gotgint s; grstctl s; gintmsk s;
      dctl s; dcfg s; dsts s; daintmsk s; diepmsk s; doepmsk s] /\
    fits 32 (gintsts s) /\ fits 32 (daintsts s) /\
    (length (dptxfsiz s) = 16%nat /\ Forall (fits 32) (dptxfsiz s)) /\
    (length (in_eps s) = 8%nat /\ Forall ep_ok (in_eps s)) /\
    (length (out_eps s) = 8%nat /\ Forall ep_ok (out_eps s)) /\
    (length (fifos s) = 4352%nat /\ Forall (fits 8) (fifos s)))));
    abstract (first [by constructor; tauto | by intros []; tauto]).
Defined.

Module Board.
(** Guest memory whose byte at an address is the low byte of the address. *)
#[export] Instance machine : UsbMachine := {
  guest_memory a n := (fun i => u8 (a + i)) <$> seqZ 0 n;
  connect_result _ _ := 0
}.
#[export] Instance machine_laws : UsbMachineLaws.
Proof.
  constructor. intros a n Hn. unfold guest_memory, machine, zlen. split.
  - rewrite length_fmap, length_seqZ. lia.
  - apply Forall_fmap, Forall_true. intros i. by apply fits_wrap.
Qed.

Definition after {A} (m : usbM A) (s : synopsys_usb_state) : synopsys_usb_state :=
  match m s with Done (_, s', _) => s' | _ => s end.

Definition OEP (i r : Z) : Z := USB_OUTREGS + 0x20 * i + r.
Definition IEP (i r : Z) : Z := USB_INREGS + 0x20 * i + r.

(** The guest unmasks everything and arms OUT endpoint 2 and IN endpoint 1. *)
Definition setup : usbM unit :=
  synopsys_usb_init ;;;
  synopsys_usb_write PCGCCTL 0 ;;;
  synopsys_usb_write GINTMSK 0xFFFFFFFF ;;;
  synopsys_usb_write DOEPMSK 0xFFFFFFFF ;;;
  synopsys_usb_write DIEPMSK 0xFFFFFFFF ;;;
  synopsys_usb_write DAINTMSK 0xFFFFFFFF ;;;
  synopsys_usb_write (OEP 2 0x10) 64 ;;;
  synopsys_usb_write (OEP 2 0x14) 0x1000 ;;;
  synopsys_usb_write (OEP 2 0x00) (USB_EPCON_ENABLE .| 0x8000) ;;;
  synopsys_usb_write (IEP 1 0x10) 4 ;;;
  synopsys_usb_write (IEP 1 0x14) 0x2000 ;;;
  synopsys_usb_write (IEP 1 0x00) USB_EPCON_ENABLE ;;;
  synopsys_usb_write (IEP 3 0x00) USB_EPCON_STALL.
Definition armed : synopsys_usb_state := after setup (usb_device None 7642 0 0 0 0).

Lemma armed_ok : usb_ok armed.
Proof. apply (bool_decide_unpack _). vm_compute. exact I. Qed.

Lemma usb_irq_level_witness :
  exists s' level, synopsys_usb_update_irq armed = Done (tt, s', [UsbIrq level]) /\
    (level = true <->
     pcgcctl armed .& 3 = 0 /\ exists k, 0 <= k /\ Z.testbit (gintmsk armed) k = true /\ cause armed k).
Proof.
  destruct (usb_irq_level_iff armed armed_ok) as (s' & l & E & Hl & _). exists s', l. by split.
Defined.


(** A SETUP packet for OUT endpoint 2, which has a DMA address. *)
Definition setup_header : tcp_usb_header_t := mk_hdr 0 2 tcp_usb_setup 8.
Definition setup_packet : list Z := [0x80; 6; 0; 1; 0; 0; 18; 0].
Definition ep2 : synopsys_usb_ep_state := mk_ep (USB_EPCON_ENABLE .| 0x8000) 64 0 0 0x1000 0.
Lemma setup_amount : Z.min (amount ep2 setup_header) (grxfsiz armed) = 8.
Proof. vm_compute. reflexivity. Qed.

Lemma usb_out_witness :
  exists s', synopsys_usb_tcp_callback setup_header (Valid setup_packet) armed =
    Done ((8, setup_header <| addr := device_address armed |>, Valid setup_packet), irq_settled s',
          [UsbDmaWrite 0x1000 setup_packet; UsbIrq (irq_level s')]) /\
    usb_ok s' /\ take 8 (fifos s') = setup_packet.
Proof.
  pose proof (usb_out_transfer armed setup_header (Valid setup_packet) ep2) as Hw. cbv zeta in Hw.
  rewrite setup_amount in Hw. destruct Hw as (s' & E & Hok & Ht & _);
    [exact armed_ok|done|done|vm_compute; reflexivity|done|done|by vm_compute|by vm_compute
    |repeat constructor; done|].
  exists s'. split; [exact E|]. split; [exact Hok|exact Ht].
Defined.

(** An IN token for endpoint 1, whose data is in guest memory at [0x2000]. *)
Definition in_header : tcp_usb_header_t := mk_hdr 0 0x81 0 6.
Definition ep1 : synopsys_usb_ep_state := mk_ep USB_EPCON_ENABLE 4 0 0 0x2000 0.
Lemma in_amount : Z.min (amount ep1 in_header) 0x100 = 4.
Proof. vm_compute. reflexivity. Qed.

Lemma usb_in_witness :
  exists s' d, synopsys_usb_tcp_callback in_header (Valid [9; 9; 9; 9; 9; 9]) armed =
    Done ((4, in_header <| addr := device_address armed |>, Valid (d ++ [9; 9])), irq_settled s',
          [UsbIrq (irq_level s')]) /\ d = [0; 1; 2; 3] /\ usb_ok s'.
Proof.
  pose proof (usb_in_transfer armed in_header (Valid [9; 9; 9; 9; 9; 9]) ep1 0x100 0x100) as Hw.
  cbv zeta in Hw. rewrite in_amount in Hw. destruct Hw as (s' & d & E & _ & Hd & Hok & _);
    [exact armed_ok|done|done|vm_compute; reflexivity|done|done|done|vm_compute; reflexivity
    |vm_compute; reflexivity|by vm_compute|by vm_compute|].
  exists s', d. split; [exact E|]. split; [exact Hd|exact Hok].
Defined.

(** IN endpoint 3 is stalled, OUT endpoint 3 is not enabled. *)
Definition stalled_header : tcp_usb_header_t := mk_hdr 0 0x83 0 0.
Definition idle_header : tcp_usb_header_t := mk_hdr 0 3 0 0.
Definition ep3 : synopsys_usb_ep_state := mk_ep USB_EPCON_STALL 0 0 0 0 0.
Definition ep3_out : synopsys_usb_ep_state := mk_ep 0 0 0 0 0 0.

Lemma usb_token_refused_witness :
  (exists s', synopsys_usb_tcp_callback stalled_header Null armed =
     Done ((USB_RET_STALL, stalled_header <| addr := device_address armed |>, Null), irq_settled s',
           [UsbIrq (irq_level s')])) /\
  exists s', synopsys_usb_tcp_callback idle_header Null armed =
  Done ((USB_RET_NAK, idle_header <| addr := device_address armed |>, Null), irq_settled s',
        [UsbIrq (irq_level s')]).
Proof.
  assert (H3 : aget (eps_of (direction_of stalled_header) armed) (endpoint_of stalled_header) = Some ep3)
    by (vm_compute; reflexivity).
  assert (H4 : aget (eps_of (direction_of idle_header) armed) (endpoint_of idle_header) = Some ep3_out)
    by (vm_compute; reflexivity).
  split; eexists.
  - exact (proj1 (proj2 (usb_token_refused armed stalled_header Null armed_ok) ep3 eq_refl H3) eq_refl).
  - exact (proj2 (proj2 (usb_token_refused armed idle_header Null armed_ok) ep3_out eq_refl H4)
             eq_refl eq_refl).
Defined.

Lemma usb_client_contract_witness :
  wp (data_callback in_header (Valid [9; 9; 9; 9; 9; 9])) (token_post in_header) armed.
Proof.
  apply usb_client_contract; [exact armed_ok|by split|done|done| |repeat constructor; done].
  by eexists.
Defined.

Lemma usb_created_witness :
  exists s, register_synopsys_usb None 7642 [0; 1; 2; 3] = Done (tt, s, [UsbTcpInit; UsbIrq false]) /\
    usb_ok s.
Proof.
  destruct (usb_created None 7642 [0; 1; 2; 3]) as (s & E & Hok & _); [done|]. by exists s.
Defined.

(** An endpoint number the header can hold but the controller does not have, a
    negative length, and the register of a seventeenth transmit FIFO. *)
Lemma usb_endpoint_out_of_bounds :
  synopsys_usb_tcp_callback (mk_hdr 0 8 0 0) Null armed = Undef.
Proof. vm_compute. reflexivity. Qed.
Lemma usb_negative_length_undefined :
  synopsys_usb_tcp_callback (mk_hdr 0 0x81 0 (-1)) Null armed = Undef.
Proof. vm_compute. reflexivity. Qed.
Lemma usb_fifo_register_out_of_bounds :
  synopsys_usb_read DIEPTXF_END armed = Undef /\ synopsys_usb_write DIEPTXF_END 0 armed = Undef.
Proof. split; vm_compute; reflexivity. Qed.
End Board.
