(* ===== verification/QemuTimer.v ===== *)
(** * QemuTimer: clocks and timers ([qemu-timer.c])

    The devices arm timers on the virtual clock.  A timer is armed when it is
    in the list of its clock, which is kept in the order of the expiry times;
    the main loop takes the expired ones off the list and runs their callbacks.

    The readings of the host's clocks are the functions [host_clock] (for
    [get_clock]), [host_realtime] and [host_ticks] of the number of readings
    made so far.  Not modelled: the [-icount] mode ([use_icount] is 0) and the
    host alarm that wakes the main loop, of which only the request to rearm it
    is visible. *)
From Stdlib Require Import Sorted.
From S2P Require Import Prelude Savevm.

Definition QEMU_CLOCK_REALTIME := 0.
Definition QEMU_CLOCK_VIRTUAL := 1.
Definition QEMU_CLOCK_HOST := 2.
Definition QEMU_NUM_CLOCKS := 3.
Definition SCALE_MS := 1000000.
Definition SCALE_NS := 1.
Definition INT32_MAX := 2 ^ 31 - 1.

(** A signed 64-bit result; overflow is undefined. *)
Definition int64 (z : Z) : option Z :=
  if (- 2 ^ 63 <=? z) && (z <? 2 ^ 63) then Some z else None.

(** A timer, by its identity (the pointer), its clock and its scale.  Its
    [expire_time] is kept with it in the list of active timers. *)
Record QEMUTimer := new_timer { timer_id : nat; clock : Z; scale : Z }.
Definition entry : Type := QEMUTimer * Z.

#[export] Instance timer_eq_dec : EqDecision QEMUTimer.
Proof. solve_decision. Defined.

(** The file's global state: the active timers and the enabled flag of each
    clock, the flags of the alarm, and [TimersState]. *)
Record timers := mk_timers {
  active_timers : list (list entry); clock_enabled : list bool;
  alarm_pending : bool; alarm_expired : bool;
  cpu_ticks_prev : Z; cpu_ticks_offset : Z; cpu_clock_offset : Z; cpu_ticks_enabled : bool;
  reads : nat
}.

#[export] Instance eta_timers : Eta timers := fun s =>
  mk_timers (active_timers s) (clock_enabled s) (alarm_pending s) (alarm_expired s)
    (cpu_ticks_prev s) (cpu_ticks_offset s) (cpu_clock_offset s) (cpu_ticks_enabled s) (reads s).

(** The alarm is asked to wake the main loop for the new first timer. *)
Inductive timer_event := RearmAlarm.

Abbreviation timersM := (dev timers timer_event).

(** ** The list of one clock *)
Fixpoint remove_timer (ts : QEMUTimer) (l : list entry) : list entry :=
  match l with
  | [] => []
  | (t, e) :: r => if decide (t = ts) then r else (t, e) :: remove_timer ts r
  end.

Fixpoint insert_timer (ts : QEMUTimer) (expire_time : Z) (l : list entry) : list entry :=
  match l with
  | [] => [(ts, expire_time)]
  | (t, e) :: r =>
      if expire_time <? e then (ts, expire_time) :: l else (t, e) :: insert_timer ts expire_time r
  end.

(** The insertion point is the head of the list. *)
Definition inserted_first (expire_time : Z) (l : list entry) : bool :=
  match l with [] => true | (_, e) :: _ => expire_time <? e end.

Definition clock_list (type : Z) : timersM (list entry) :=
  s <- gets id ;; lift (aget (active_timers s) type).
Definition set_clock_list (type : Z) (l : list entry) : timersM unit :=
  s <- gets id ;;
  a <- lift (aset type l (active_timers s)) ;;
  modify (fun s => s <| active_timers := a |>).

Section Clocks.
Context (host_clock host_realtime host_ticks : nat -> Z) (alarm_has_dynticks : bool).

Definition read_host (readings : nat -> Z) : timersM Z :=
  s <- gets id ;; modify (fun s => s <| reads ::= S |>) ;;; ret (readings (reads s)).
Definition get_clock : timersM Z := read_host host_clock.
Definition get_clock_realtime : timersM Z := read_host host_realtime.
Definition cpu_get_real_ticks : timersM Z := read_host host_ticks.

Definition cpu_get_ticks : timersM Z :=
  s <- gets id ;;
  if negb (cpu_ticks_enabled s) then ret (cpu_ticks_offset s)
  else
    ticks <- cpu_get_real_ticks ;;
    when (ticks <? cpu_ticks_prev s)
      (d <- lift (int64 (cpu_ticks_prev s - ticks)) ;;
       o <- lift (int64 (cpu_ticks_offset s + d)) ;;
       modify (fun s => s <| cpu_ticks_offset := o |>)) ;;;
    modify (fun s => s <| cpu_ticks_prev := ticks |>) ;;;
    s <- gets id ;;
    lift (int64 (ticks + cpu_ticks_offset s)).

Definition cpu_get_clock : timersM Z :=
  s <- gets id ;;
  if negb (cpu_ticks_enabled s) then ret (cpu_clock_offset s)
  else ti <- get_clock ;; lift (int64 (ti + cpu_clock_offset s)).

Definition cpu_enable_ticks : timersM unit :=
  s <- gets id ;;
  when (negb (cpu_ticks_enabled s))
    (t <- cpu_get_real_ticks ;;
     o <- lift (int64 (cpu_ticks_offset s - t)) ;;
     modify (fun s => s <| cpu_ticks_offset := o |>) ;;;
     ti <- get_clock ;;
     o <- lift (int64 (cpu_clock_offset s - ti)) ;;
     modify (fun s => s <| cpu_clock_offset := o |> <| cpu_ticks_enabled := true |>)).

Definition cpu_disable_ticks : timersM unit :=
  s <- gets id ;;
  when (cpu_ticks_enabled s)
    (o <- cpu_get_ticks ;;
     modify (fun s => s <| cpu_ticks_offset := o |>) ;;;
     o <- cpu_get_clock ;;
     modify (fun s => s <| cpu_clock_offset := o |> <| cpu_ticks_enabled := false |>)).

Definition qemu_get_clock_ns (type : Z) : timersM Z :=
  switch type
    [ (on QEMU_CLOCK_REALTIME, get_clock);
      (on QEMU_CLOCK_HOST, get_clock_realtime) ]
    cpu_get_clock.

Definition qemu_clock_enable (type : Z) (enabled : bool) : timersM unit :=
  s <- gets id ;;
  a <- lift (aset type enabled (clock_enabled s)) ;;
  modify (fun s => s <| clock_enabled := a |>).

(** [init_clocks]: three clocks, enabled, nothing armed. *)
Definition init_clocks : timers :=
  mk_timers [[]; []; []] [true; true; true] false false 0 0 0 false 0.

Definition qemu_rearm_alarm_timer : timersM unit := when alarm_has_dynticks (emit RearmAlarm).

Definition qemu_del_timer (ts : QEMUTimer) : timersM unit :=
  l <- clock_list (clock ts) ;; set_clock_list (clock ts) (remove_timer ts l).

Definition qemu_mod_timer_ns (ts : QEMUTimer) (expire_time : Z) : timersM unit :=
  qemu_del_timer ts ;;;
  l <- clock_list (clock ts) ;;
  set_clock_list (clock ts) (insert_timer ts expire_time l) ;;;
  s <- gets id ;;
  when (inserted_first expire_time l && negb (alarm_pending s)) qemu_rearm_alarm_timer.

Definition qemu_mod_timer (ts : QEMUTimer) (expire_time : Z) : timersM unit :=
  e <- lift (int64 (expire_time * scale ts)) ;; qemu_mod_timer_ns ts e.

Definition qemu_timer_pending (ts : QEMUTimer) : timersM bool :=
  l <- clock_list (clock ts) ;; ret (existsb (fun te => bool_decide (te.1 = ts)) l).

Definition qemu_timer_expired (timer_head : option entry) (current_time : Z) : option bool :=
  match timer_head with
  | None => Some false
  | Some (t, e) => c ← int64 (current_time * scale t); Some (e <=? c)
  end.

Definition qemu_next_deadline : timersM Z :=
  v <- clock_list QEMU_CLOCK_VIRTUAL ;;
  delta <- match v with
           | [] => ret INT32_MAX
           | (_, e) :: _ => c <- qemu_get_clock_ns QEMU_CLOCK_VIRTUAL ;; lift (int64 (e - c))
           end ;;
  h <- clock_list QEMU_CLOCK_HOST ;;
  delta <- match h with
           | [] => ret delta
           | (_, e) :: _ =>
               c <- qemu_get_clock_ns QEMU_CLOCK_HOST ;;
               hdelta <- lift (int64 (e - c)) ;;
               ret (if hdelta <? delta then hdelta else delta)
           end ;;
  ret (if delta <? 0 then 0 else delta).

Definition qemu_next_alarm_deadline : timersM Z :=
  v <- clock_list QEMU_CLOCK_VIRTUAL ;;
  delta <- match v with
           | [] => ret INT32_MAX
           | (_, e) :: _ => c <- qemu_get_clock_ns QEMU_CLOCK_VIRTUAL ;; lift (int64 (e - c))
           end ;;
  h <- clock_list QEMU_CLOCK_HOST ;;
  delta <- match h with
           | [] => ret delta
           | (_, e) :: _ =>
               c <- qemu_get_clock_ns QEMU_CLOCK_HOST ;;
               hdelta <- lift (int64 (e - c)) ;;
               ret (if hdelta <? delta then hdelta else delta)
           end ;;
  r <- clock_list QEMU_CLOCK_REALTIME ;;
  match r with
  | [] => ret delta
  | (_, e) :: _ =>
      c <- qemu_get_clock_ns QEMU_CLOCK_REALTIME ;;
      rtdelta <- lift (int64 (e - c)) ;;
      ret (if rtdelta <? delta then rtdelta else delta)
  end.

(** Saving and loading a timer: its expiry time, or all ones when not armed. *)
Definition qemu_put_timer (ts : QEMUTimer) : timersM stream :=
  p <- qemu_timer_pending ts ;;
  l <- clock_list (clock ts) ;;
  match p, list_find (fun te => te.1 = ts) l with
  | true, Some (_, (_, e)) => ret (qemu_put_be64 (u64 e))
  | _, _ => ret (qemu_put_be64 (2 ^ 64 - 1))
  end.

(** The loaded value is a [uint64_t], passed on as [int64_t]. *)
Definition qemu_get_timer (ts : QEMUTimer) (f : stream) : timersM stream :=
  match qemu_get_be64 f with
  | Done (expire_time, f', _) =>
      (if negb (expire_time =? 2 ^ 64 - 1) then qemu_mod_timer_ns ts (sgn 64 expire_time)
       else qemu_del_timer ts) ;;;
      ret f'
  | HwError => hw_error
  | Undef => undef
  end.

(** ** Running the expired timers

    The callbacks act on the whole machine, of which the timers are a part. *)
Section Machine.
Context {W Ev : Type} (timers_of : W -> timers) (with_timers : timers -> W -> W)
  (inj : timer_event -> Ev) (cb : QEMUTimer -> dev W Ev unit).

Definition on_timers {A} (m : timersM A) : dev W Ev A := zoom timers_of with_timers inj m.

(** The loop of [qemu_run_timers]; [true] when it has ended within the fuel. *)
Fixpoint run_expired (fuel : nat) (type current_time : Z) : dev W Ev bool :=
  match fuel with
  | O => ret false
  | S fuel' =>
      l <- on_timers (clock_list type) ;;
      match l with
      | [] => ret true
      | (ts, e) :: rest =>
          if current_time <? e then ret true
          else
            on_timers (set_clock_list type rest) ;;;
            cb ts ;;;
            run_expired fuel' type current_time
      end
  end.

Definition qemu_run_timers (fuel : nat) (type : Z) : dev W Ev bool :=
  w <- gets id ;;
  en <- lift (aget (clock_enabled (timers_of w)) type) ;;
  if negb en then ret true
  else current_time <- on_timers (qemu_get_clock_ns type) ;; run_expired fuel type current_time.

Definition qemu_run_all_timers (fuel : nat) (vm_running : bool) : dev W Ev bool :=
  on_timers (modify (fun s => s <| alarm_pending := false |>)) ;;;
  w <- gets id ;;
  when (alarm_expired (timers_of w))
    (on_timers (modify (fun s => s <| alarm_expired := false |>) ;;; qemu_rearm_alarm_timer)) ;;;
  v <- (if vm_running then qemu_run_timers fuel QEMU_CLOCK_VIRTUAL else ret true) ;;
  if negb v then ret false
  else
    r <- qemu_run_timers fuel QEMU_CLOCK_REALTIME ;;
    if negb r then ret false else qemu_run_timers fuel QEMU_CLOCK_HOST.
End Machine.
End Clocks.

(** ** The list as a map from timers to expiry times *)
Fixpoint expiry (ts : QEMUTimer) (l : list entry) : option Z :=
  match l with
  | [] => None
  | (t, e) :: r => if decide (t = ts) then Some e else expiry ts r
  end.

Definition expires_at (s : timers) (ts : QEMUTimer) : option Z :=
  l ← aget (active_timers s) (clock ts); expiry ts l.

Definition earlier (a b : entry) : Prop := a.2 <= b.2.

(** A list of clock [type]: in the order of expiry, each timer once. *)
Definition queue_ok (type : Z) (l : list entry) : Prop :=
  StronglySorted earlier l /\ NoDup (l.*1) /\
  Forall (fun te => clock te.1 = type /\ - 2 ^ 63 <= te.2 < 2 ^ 63) l.

Definition timers_ok (s : timers) : Prop :=
  zlen (active_timers s) = QEMU_NUM_CLOCKS /\ zlen (clock_enabled s) = QEMU_NUM_CLOCKS /\
  forall type l, aget (active_timers s) type = Some l -> queue_ok type l.

Lemma expiry_elem ts e l : NoDup (l.*1) -> expiry ts l = Some e <-> (ts, e) ∈ l.
Proof.
  induction l as [|[t e0] l IH]; cbn; [by rewrite elem_of_nil|].
  rewrite NoDup_cons, elem_of_cons. intros [Hn Hd]. destruct (decide (t = ts)) as [->|Hne].
  - split; [intros [= ->]; by left|]. intros [[= ->]|Hin]; [done|].
    destruct Hn. by apply (list_elem_of_fmap_2 fst) in Hin.
  - rewrite IH by done. split; [by right|]. intros [[= ? ?]|?]; [congruence|done].
Qed.

Lemma expiry_None ts l : expiry ts l = None <-> ts ∉ l.*1.
Proof.
  induction l as [|[t e0] l IH]; cbn; [split; [intros _; apply not_elem_of_nil|done]|].
  rewrite not_elem_of_cons, <- IH. destruct (decide (t = ts)) as [->|]; [split; [done|tauto]|].
  split; [intros; split; [congruence|done]|tauto].
Qed.

Lemma elem_remove te ts l : te ∈ remove_timer ts l -> te ∈ l.
Proof.
  induction l as [|[t e0] l IH]; cbn; [done|]. destruct (decide (t = ts)); rewrite ?elem_of_cons; tauto.
Qed.

Lemma expiry_remove t ts l :
  NoDup (l.*1) -> expiry t (remove_timer ts l) = if decide (t = ts) then None else expiry t l.
Proof.
  induction l as [|[t0 e0] l IH]; cbn; [by destruct (decide _)|].
  rewrite NoDup_cons. intros [Hn Hd]. specialize (IH Hd).
  destruct (decide (t0 = ts)) as [->|Hne], (decide (t = ts)) as [->|Hne2].
  - by apply expiry_None.
  - by destruct (decide (ts = t)); [congruence|].
  - cbn. by destruct (decide (t0 = ts)); [congruence|].
  - cbn. by destruct (decide (t0 = t)).
Qed.

Lemma expiry_insert t ts e l :
  expiry ts l = None -> expiry t (insert_timer ts e l) = if decide (t = ts) then Some e else expiry t l.
Proof.
  induction l as [|[t0 e0] l IH]; cbn; [by destruct (decide (ts = t)), (decide (t = ts)); subst|].
  destruct (decide (t0 = ts)) as [->|Hne]; [done|]. intros Hn. specialize (IH Hn).
  destruct (e <? e0); cbn.
  - by destruct (decide (ts = t)), (decide (t = ts)); subst.
  - rewrite IH. destruct (decide (t0 = t)) as [->|], (decide (t = ts)); congruence.
Qed.

Lemma elem_insert te ts e l : te ∈ insert_timer ts e l <-> te = (ts, e) \/ te ∈ l.
Proof.
  induction l as [|[t0 e0] l IH]; cbn; [by rewrite list_elem_of_singleton; rewrite elem_of_nil; tauto|].
  destruct (e <? e0); rewrite !elem_of_cons, ?IH, ?elem_of_cons; tauto.
Qed.

Lemma remove_ok type ts l : queue_ok type l -> queue_ok type (remove_timer ts l).
Proof.
  intros (Hs & Hd & Hf). induction l as [|[t e0] l IH]; cbn; [done|].
  inversion Hs as [|? ? Hs' Hall]; subst. cbn in Hd. rewrite NoDup_cons in Hd. destruct Hd as [Hn Hd].
  inversion Hf as [|? ? Hte Hf']; subst. destruct (decide (t = ts)); [done|].
  destruct IH as (IH1 & IH2 & IH3); [done..|]. split_and!.
  - constructor; [done|]. rewrite !Forall_forall in *. intros x Hx. apply Hall. by apply elem_remove in Hx.
  - cbn. apply NoDup_cons. split; [|done]. contradict Hn.
    apply list_elem_of_fmap in Hn as ([t' e'] & -> & Hin). apply elem_remove in Hin.
    by apply (list_elem_of_fmap_2 fst) in Hin.
  - by constructor.
Qed.

Lemma insert_ok type ts e l :
  queue_ok type l -> expiry ts l = None -> clock ts = type -> - 2 ^ 63 <= e < 2 ^ 63 ->
  queue_ok type (insert_timer ts e l).
Proof.
  intros (Hs & Hd & Hf) Hn Hc He. induction l as [|[t e0] l IH]; cbn.
  { split; [apply SSorted_cons; [apply SSorted_nil|apply Forall_nil_2]|].
    split; [apply NoDup_singleton|by apply Forall_singleton]. }
  inversion Hs as [|? ? Hs' Hall]; subst. cbn in Hd. rewrite NoDup_cons in Hd. destruct Hd as [Hnt Hd].
  inversion Hf as [|? ? Hte Hf']; subst. cbn in Hn. destruct (decide (t = ts)) as [|Hne]; [done|].
  destruct IH as (IH1 & IH2 & IH3); [done..|]. destruct (Z.ltb_spec e e0).
  - split; [|split; [|by apply Forall_cons; split; [|apply Forall_cons]]].
    + apply SSorted_cons; [by apply SSorted_cons|]. apply Forall_cons. split; [unfold earlier; cbn; lia|].
      eapply Forall_impl; [exact Hall|]. unfold earlier. cbn. lia.
    + cbn. rewrite !NoDup_cons, not_elem_of_cons. split; [|done].
      split; [congruence|by apply expiry_None].
  - split; [|split; [cbn; apply NoDup_cons; split; [|done]|by apply Forall_cons]].
    + apply SSorted_cons; [done|]. rewrite Forall_forall in *. intros x Hx.
      apply elem_insert in Hx as [->|Hx]; [unfold earlier; cbn; lia|by apply Hall].
    + intros Hin. apply list_elem_of_fmap in Hin as ([t' e'] & Heq & Hin). cbn in Heq. subst t'.
      apply elem_insert in Hin as [[= ? ?]|Hin]; [congruence|]. destruct Hnt.
      by apply (list_elem_of_fmap_2 fst) in Hin.
Qed.

Lemma queue_ok_nil type : queue_ok type [].
Proof. split; [apply SSorted_nil|split; [apply NoDup_nil_2|apply Forall_nil_2]]. Qed.

Lemma queue_ok_one type ts e :
  clock ts = type -> - 2 ^ 63 <= e < 2 ^ 63 -> queue_ok type [(ts, e)].
Proof. intros Hc He. exact (insert_ok type ts e [] (queue_ok_nil type) eq_refl Hc He). Qed.

(** The three lists, one by one. *)
Lemma three_lists l0 l1 l2 type (l : list entry) :
  aget [l0; l1; l2] type = Some l ->
  type = 0 /\ l = l0 \/ type = 1 /\ l = l1 \/ type = 2 /\ l = l2.
Proof.
  intros Hl. pose proof (aget_bounds _ _ _ Hl) as Hb. change (0 <= type < 3) in Hb.
  assert (type = 0 \/ type = 1 \/ type = 2) as [ -> | [ -> | -> ]] by lia; injection Hl as <-; tauto.
Qed.

Lemma timers_ok_three s l0 l1 l2 :
  active_timers s = [l0; l1; l2] -> zlen (clock_enabled s) = 3 ->
  queue_ok 0 l0 -> queue_ok 1 l1 -> queue_ok 2 l2 -> timers_ok s.
Proof.
  intros Ha He H0 H1 H2. unfold timers_ok. rewrite Ha. split; [done|]. split; [done|].
  intros type l Hl. destruct (three_lists _ _ _ _ _ Hl) as [[-> ->]|[[-> ->]|[-> ->]]]; done.
Qed.

(** ** Arming and disarming *)
Section Operations.
Context (host_clock host_realtime host_ticks : nat -> Z) (alarm_has_dynticks : bool).

Lemma clock_list_eq s type l :
  aget (active_timers s) type = Some l -> clock_list type s = Done (l, s, []).
Proof. intros H. unfold clock_list. run. unfold id. by rewrite H. Qed.

Lemma timers_ok_list s type :
  timers_ok s -> 0 <= type < QEMU_NUM_CLOCKS ->
  exists l, aget (active_timers s) type = Some l /\ queue_ok type l.
Proof.
  intros (H1 & _ & H3) Ht. destruct (aget_Some (active_timers s) type) as [l Hl]; [lia|]. eauto.
Qed.

(** Replacing the list of one clock. *)
Lemma set_clock_list_ok s type l :
  timers_ok s -> 0 <= type < QEMU_NUM_CLOCKS -> queue_ok type l ->
  exists a, set_clock_list type l s = Done (tt, s <| active_timers := a |>, []) /\
    timers_ok (s <| active_timers := a |>) /\ aget a type = Some l /\
    forall i, i <> type -> aget a i = aget (active_timers s) i.
Proof.
  intros (H1 & H2 & H3) Ht Hl.
  pose proof (aset_Some (active_timers s) type l) as Ha.
  rewrite H1 in Ha. specialize (Ha Ht). eexists. split.
  { unfold set_clock_list. run. unfold id. rewrite Ha. run. reflexivity. }
  split; [|split; [by apply aget_aset_eq in Ha|intros i Hi; by eapply aget_aset_ne in Ha]].
  split; [|split; [done|]].
  - change (zlen (<[Z.to_nat type := l]> (active_timers s)) = QEMU_NUM_CLOCKS).
    unfold zlen in *. by rewrite length_insert.
  - intros i l' Hl'. change (aget (<[Z.to_nat type:=l]> (active_timers s)) i = Some l') in Hl'.
    destruct (decide (i = type)) as [->|Hne].
    + apply aget_aset_eq in Ha. congruence.
    + rewrite (aget_aset_ne _ type) with (v := l) in Hl' by done. by apply H3.
Qed.

Lemma expires_at_set s a type l t :
  aget a type = Some l -> (forall i, i <> type -> aget a i = aget (active_timers s) i) ->
  expires_at (s <| active_timers := a |>) t
  = if decide (clock t = type) then expiry t l else expires_at s t.
Proof.
  intros Ha Hne. unfold expires_at. change (active_timers (s <| active_timers := a |>)) with a. destruct (decide (clock t = type)) as [->|H].
  - by rewrite Ha.
  - by rewrite Hne.
Qed.

Lemma expires_at_eq s l t : aget (active_timers s) (clock t) = Some l -> expires_at s t = expiry t l.
Proof. intros H. unfold expires_at. by rewrite H. Qed.

Lemma del_timer_ok s ts :
  timers_ok s -> 0 <= clock ts < QEMU_NUM_CLOCKS ->
  exists a, qemu_del_timer ts s = Done (tt, s <| active_timers := a |>, []) /\
    timers_ok (s <| active_timers := a |>) /\
    forall t, expires_at (s <| active_timers := a |>) t = if decide (t = ts) then None else expires_at s t.
Proof.
  intros Hok Hc. destruct (timers_ok_list s (clock ts) Hok Hc) as (l & Hl & Hq).
  destruct (set_clock_list_ok s _ _ Hok Hc (remove_ok _ ts l Hq)) as (a & E & Hok' & Ha & Hne).
  exists a. split; [|split; [done|]].
  - unfold qemu_del_timer. by rewrite (bind_silent _ _ _ _ _ (clock_list_eq _ _ _ Hl)).
  - intros t. rewrite (expires_at_set _ _ _ _ _ Ha Hne), expiry_remove by apply Hq.
    destruct (decide (clock t = clock ts)) as [Heq|Hdiff].
    + by rewrite (expires_at_eq _ _ _ (eq_trans (f_equal _ Heq) Hl)).
    + by destruct (decide (t = ts)) as [->|].
Qed.

(** What [qemu_mod_timer] tells the alarm: the timer is the first to expire. *)
Definition rearms (s : timers) (ts : QEMUTimer) (expire_time : Z) : bool :=
  alarm_has_dynticks && negb (alarm_pending s) &&
  match aget (active_timers s) (clock ts) with
  | Some l => inserted_first expire_time (remove_timer ts l)
  | None => false
  end.

Lemma mod_timer_ns_ok s ts e :
  timers_ok s -> 0 <= clock ts < QEMU_NUM_CLOCKS -> - 2 ^ 63 <= e < 2 ^ 63 ->
  exists a, qemu_mod_timer_ns alarm_has_dynticks ts e s
      = Done (tt, s <| active_timers := a |>, if rearms s ts e then [RearmAlarm] else []) /\
    timers_ok (s <| active_timers := a |>) /\
    forall t, expires_at (s <| active_timers := a |>) t = if decide (t = ts) then Some e else expires_at s t.
Proof.
  intros Hok Hc He. destruct (timers_ok_list s (clock ts) Hok Hc) as (l & Hl & Hq).
  pose proof (remove_ok _ ts l Hq) as Hq1.
  destruct (set_clock_list_ok s _ _ Hok Hc Hq1) as (a1 & E1 & Hok1 & Ha1 & Hne1).
  set (s1 := s <| active_timers := a1 |>) in *.
  assert (expiry ts (remove_timer ts l) = None) as Hn.
  { rewrite expiry_remove by apply Hq. by destruct (decide (ts = ts)). }
  destruct (set_clock_list_ok s1 _ _ Hok1 Hc (insert_ok _ ts e _ Hq1 Hn eq_refl He))
    as (a & E & Hok' & Ha & Hne).
  exists a. split; [|split; [exact Hok'|]].
  - unfold qemu_mod_timer_ns, qemu_del_timer. rewrite bind_assoc.
    rewrite (bind_silent _ _ _ _ _ (clock_list_eq _ _ _ Hl)), (bind_silent _ _ _ _ _ E1).
    rewrite (bind_silent _ _ _ _ _ (clock_list_eq s1 _ _ Ha1)), (bind_silent _ _ _ _ _ E). run. unfold id.
    change (alarm_pending (s1 <| active_timers := a |>)) with (alarm_pending s).
    unfold rearms, qemu_rearm_alarm_timer. rewrite Hl.
    by destruct alarm_has_dynticks, (alarm_pending s), (inserted_first e (remove_timer ts l)).
  - intros t. change (s <| active_timers := a |>) with (s1 <| active_timers := a |>).
    rewrite (expires_at_set _ _ _ _ _ Ha Hne), expiry_insert by done.
    destruct (decide (clock t = clock ts)) as [Heq|Hdiff].
    + rewrite expiry_remove by apply Hq. rewrite (expires_at_eq s _ _ (eq_trans (f_equal _ Heq) Hl)).
      by destruct (decide (t = ts)).
    + unfold s1. rewrite (expires_at_set _ _ _ _ _ Ha1 Hne1).
      destruct (decide (clock t = clock ts)); [done|]. by destruct (decide (t = ts)) as [->|].
Qed.

Lemma mod_timer_ok s ts t :
  timers_ok s -> 0 <= clock ts < QEMU_NUM_CLOCKS -> - 2 ^ 63 <= t * scale ts < 2 ^ 63 ->
  exists a, qemu_mod_timer alarm_has_dynticks ts t s
      = Done (tt, s <| active_timers := a |>, if rearms s ts (t * scale ts) then [RearmAlarm] else []) /\
    timers_ok (s <| active_timers := a |>) /\
    forall t', expires_at (s <| active_timers := a |>) t'
      = if decide (t' = ts) then Some (t * scale ts) else expires_at s t'.
Proof.
  intros Hok Hc He. destruct (mod_timer_ns_ok s ts _ Hok Hc He) as (a & E & H). exists a. split; [|done].
  unfold qemu_mod_timer, int64. replace ((_ <=? _) && (_ <? _)) with true by lia. run. exact E.
Qed.

(** The first timer of a well-formed list is the earliest. *)
Lemma inserted_first_iff type e l :
  queue_ok type l -> inserted_first e l = true <-> forall t e', expiry t l = Some e' -> e < e'.
Proof.
  intros (Hs & Hd & _). destruct l as [|[t0 e0] r]; cbn [inserted_first]; [done|].
  rewrite Z.ltb_lt. split.
  - intros He t e' Hx. apply expiry_elem in Hx; [|done].
    apply elem_of_cons in Hx as [[= -> ->]|Hin]; [done|].
    inversion Hs as [|? ? ? Hall]; subst. rewrite Forall_forall in Hall.
    specialize (Hall _ Hin). unfold earlier in Hall. cbn in Hall. lia.
  - intros H. apply (H t0). cbn. by destruct (decide (t0 = t0)).
Qed.

(** C25: The list of active timers of a clock implements a map from timers to
    expiry times.  On well-formed lists (in the order of expiry, each timer
    once), [qemu_del_timer] removes the timer from the map and
    [qemu_mod_timer] sets its expiry time, both leave every other timer of
    every clock as it was and the lists well formed, whether or not the timer
    was armed before; [qemu_timer_pending] tells whether the map has it; and
    the host alarm is asked to rearm exactly when the timer becomes the first
    of its clock to expire and no alarm is pending. *)
Theorem timer_list_refines_map s ts t_ns :
  timers_ok s -> 0 <= clock ts < QEMU_NUM_CLOCKS -> - 2 ^ 63 <= t_ns * scale ts < 2 ^ 63 ->
  qemu_timer_pending ts s = Done (bool_decide (is_Some (expires_at s ts)), s, []) /\
  (exists s', qemu_del_timer ts s = Done (tt, s', []) /\ timers_ok s' /\
     forall t, expires_at s' t = if decide (t = ts) then None else expires_at s t) /\
  exists s' es, qemu_mod_timer alarm_has_dynticks ts t_ns s = Done (tt, s', es) /\ timers_ok s' /\
    (forall t, expires_at s' t = if decide (t = ts) then Some (t_ns * scale ts) else expires_at s t) /\
    (es = [RearmAlarm] <->
       alarm_has_dynticks = true /\ alarm_pending s = false /\
       forall t e, clock t = clock ts -> t <> ts -> expires_at s t = Some e -> t_ns * scale ts < e).
Proof.
  intros Hok Hc He. destruct (timers_ok_list s (clock ts) Hok Hc) as (l & Hl & Hq). split; [|split].
  - unfold qemu_timer_pending. rewrite (bind_silent _ _ _ _ _ (clock_list_eq _ _ _ Hl)).
    rewrite (expires_at_eq _ _ _ Hl). unfold ret. do 3 f_equal. clear.
    induction l as [|[t e] l IH]; [done|]. cbn. destruct (decide (t = ts)) as [->|Hne].
    + by rewrite !bool_decide_eq_true_2.
    + rewrite bool_decide_eq_false_2 by done. by rewrite IH.
  - destruct (del_timer_ok s ts Hok Hc) as (a & E & Hok' & H). eauto.
  - destruct (mod_timer_ok s ts t_ns Hok Hc He) as (a & E & Hok' & H). do 2 eexists. split; [exact E|].
    split; [done|]. split; [done|]. unfold rearms. rewrite Hl.
    pose proof (inserted_first_iff _ (t_ns * scale ts) _ (remove_ok _ ts l Hq)) as Hi.
    transitivity (alarm_has_dynticks = true /\ alarm_pending s = false /\
      inserted_first (t_ns * scale ts) (remove_timer ts l) = true).
    { destruct alarm_has_dynticks, (alarm_pending s), (inserted_first _ _); cbn; split; try done;
        intros (? & ? & ?); done. }
    rewrite Hi. apply and_iff_compat_l, and_iff_compat_l. split.
    + intros Hm t e Ht Hne Hx. apply (Hm t). rewrite expiry_remove by apply Hq.
      rewrite (expires_at_eq _ _ _ (eq_trans (f_equal _ Ht) Hl)) in Hx. by destruct (decide (t = ts)).
    + intros Hm t e Hx. rewrite expiry_remove in Hx by apply Hq.
      destruct (decide (t = ts)) as [|Hne]; [done|].
      assert (clock t = clock ts) as Ht.
      { apply expiry_elem in Hx; [|apply Hq]. destruct Hq as (_ & _ & Hf). rewrite Forall_forall in Hf.
        destruct (Hf _ Hx) as [Hct _]. exact Hct. }
      apply (Hm t); [done|done|]. by rewrite (expires_at_eq _ _ _ (eq_trans (f_equal _ Ht) Hl)).
Qed.
End Operations.

(** ** The main loop

    The virtual clock of a machine that runs reads the host clock; callbacks
    may arm timers, but only for a time after the one they run at. *)

(** Readings never go back and stay far from the ends of [int64_t]. *)
Class HostClock (host_clock : nat -> Z) := {
  host_monotone n m : (n <= m)%nat -> host_clock n <= host_clock m;
  host_bounded n : 0 <= host_clock n < 2 ^ 62
}.

(** The timers are a part of the machine. *)
Class TimerWorld {W : Type} (timers_of : W -> timers) (with_timers : timers -> W -> W) := {
  timers_of_with t w : timers_of (with_timers t w) = t;
  with_timers_of w : with_timers (timers_of w) w = w
}.

Section MainLoop.
Context (host_clock host_realtime : nat -> Z) `{!HostClock host_clock}.

(** What the next reading of the virtual clock returns. *)
Definition vm_now (s : timers) : Z :=
  if cpu_ticks_enabled s then host_clock (reads s) + cpu_clock_offset s else cpu_clock_offset s.

(** The virtual clock runs. *)
Definition clock_runs (s : timers) : Prop :=
  cpu_ticks_enabled s = true /\ - 2 ^ 62 <= cpu_clock_offset s < 2 ^ 61.

Lemma read_vm_clock s :
  clock_runs s ->
  qemu_get_clock_ns host_clock host_realtime QEMU_CLOCK_VIRTUAL s
  = Done (vm_now s, s <| reads ::= S |>, []).
Proof.
  intros [He Ho]. pose proof (host_bounded (reads s)). unfold qemu_get_clock_ns, cpu_get_clock.
  cbn [switch]. change (on QEMU_CLOCK_REALTIME QEMU_CLOCK_VIRTUAL) with false.
  change (on QEMU_CLOCK_HOST QEMU_CLOCK_VIRTUAL) with false. cbv iota.
  run. unfold id. rewrite He. cbn [negb]. unfold get_clock, read_host. run. unfold id.
  unfold vm_now. rewrite He. unfold int64.
  change (cpu_clock_offset (s <| reads ::= S |>)) with (cpu_clock_offset s).
  by replace ((_ <=? _) && (_ <? _)) with true by lia.
Qed.

Lemma vm_now_monotone s s' :
  clock_runs s -> clock_runs s' -> cpu_clock_offset s' = cpu_clock_offset s ->
  (reads s <= reads s')%nat -> vm_now s <= vm_now s'.
Proof.
  intros [E1 _] [E2 _] Ho Hr. unfold vm_now. rewrite E1, E2, Ho. pose proof (host_monotone _ _ Hr). lia.
Qed.

Section Loop.
Context {W Ev : Type} (timers_of : W -> timers) (with_timers : timers -> W -> W)
  `{!TimerWorld timers_of with_timers} (inj : timer_event -> Ev) (cb : QEMUTimer -> dev W Ev unit).

(** A machine whose virtual clock runs, with well-formed lists. *)
Definition running (w : W) : Prop := timers_ok (timers_of w) /\ clock_runs (timers_of w).

Definition armed (w : W) (t : QEMUTimer) : option Z := expires_at (timers_of w) t.

(** The contract of the callbacks on virtual timers: from the time [since] on
    and from a state in [D] they finish in [D], the clock does not go back, and
    a timer they arm expires after the time they ran at. *)
Class Callbacks (D : W -> Prop) (since : Z) := {
  callback_stable t w : D w -> D (with_timers t w);
  callback_runs ts w :
    D w -> running w -> since <= vm_now (timers_of w) ->
    clock ts = QEMU_CLOCK_VIRTUAL -> armed w ts = None ->
    exists w' es, cb ts w = Done (tt, w', es) /\ D w' /\ running w' /\
      vm_now (timers_of w) <= vm_now (timers_of w') /\
      forall t e, clock t = QEMU_CLOCK_VIRTUAL -> armed w' t = Some e ->
        armed w t = Some e \/ vm_now (timers_of w) < e
}.

(** The callbacks of the other timers neither arm nor disarm [ts]. *)
Definition left_alone (D : W -> Prop) (ts : QEMUTimer) : Prop :=
  forall t w w' es, t <> ts -> D w -> cb t w = Done (tt, w', es) -> armed w' ts = armed w ts.

(** The callback of [ts] ran, at a time not before [now], from a state in [D]
    in which [ts] was not armed; its events are among [es], and it left [ts] as
    it is in [w']. *)
Definition fired (D : W -> Prop) (ts : QEMUTimer) (now : Z) (w' : W) (es : list Ev) : Prop :=
  exists w1 w2 e1 ev e2, cb ts w1 = Done (tt, w2, ev) /\ es = e1 ++ ev ++ e2 /\ D w1 /\ running w1 /\
    now <= vm_now (timers_of w1) /\ armed w1 ts = None /\ armed w' ts = armed w2 ts.

Context (D : W -> Prop) (since : Z) `{!Callbacks D since}.

Definition due (now : Z) (l : list entry) : list entry := filter (fun te => te.2 <= now) l.

Lemma due_le now l l' :
  NoDup (l'.*1) -> (forall te, te ∈ l' -> te.2 <= now -> te ∈ l) ->
  (length (due now l') <= length (due now l))%nat.
Proof.
  intros Hd Hin. apply submseteq_length, NoDup_submseteq.
  - apply NoDup_filter. by eapply NoDup_fmap_1.
  - intros te. unfold due. rewrite !list_elem_of_filter. naive_solver.
Qed.

(** Taking the first timer of the list off and running its callback. *)
Lemma fire_first w now ts e rest :
  D w -> running w -> since <= now <= vm_now (timers_of w) ->
  aget (active_timers (timers_of w)) QEMU_CLOCK_VIRTUAL = Some ((ts, e) :: rest) -> e <= now ->
  exists w1 w2 l2 ev,
    on_timers timers_of with_timers inj (set_clock_list QEMU_CLOCK_VIRTUAL rest) w = Done (tt, w1, []) /\
    cb ts w1 = Done (tt, w2, ev) /\
    D w1 /\ running w1 /\ vm_now (timers_of w1) = vm_now (timers_of w) /\ clock ts = QEMU_CLOCK_VIRTUAL /\
    (forall t, armed w1 t = if decide (t = ts) then None else armed w t) /\
    D w2 /\ running w2 /\ now <= vm_now (timers_of w2) /\
    aget (active_timers (timers_of w2)) QEMU_CLOCK_VIRTUAL = Some l2 /\
    (length (due now l2) <= length (due now rest))%nat /\
    forall e', armed w2 ts = Some e' -> now < e'.
Proof.
  intros HD [Hok Hrun] Hnow Hl He.
  destruct (timers_ok_list _ QEMU_CLOCK_VIRTUAL Hok) as (l0 & Hl0 & Hq); [done|].
  rewrite Hl in Hl0. injection Hl0 as <-. pose proof (remove_ok _ ts _ Hq) as Hq'.
  destruct Hq as (Hs & Hnd & Hf). cbn [remove_timer] in Hq'.
  destruct (decide (ts = ts)) as [_|]; [|done].
  assert (clock ts = QEMU_CLOCK_VIRTUAL) as Hc by (by inversion Hf as [|? ? [? _]]).
  destruct (set_clock_list_ok _ QEMU_CLOCK_VIRTUAL rest Hok) as (a & E & Hok1 & Ha & Hne); [done|done|].
  set (s1 := (timers_of w) <| active_timers := a |>) in *. set (w1 := with_timers s1 w).
  assert (timers_of w1 = s1) as Ht1 by apply timers_of_with.
  assert (forall t, armed w1 t = if decide (t = ts) then None else armed w t) as Harm.
  { intros t. unfold armed. rewrite Ht1. unfold s1. rewrite (expires_at_set _ _ _ _ _ Ha Hne).
    destruct (decide (clock t = QEMU_CLOCK_VIRTUAL)) as [Hct|Hct].
    - rewrite (expires_at_eq _ _ _ (eq_trans (f_equal _ Hct) Hl)). cbn [expiry].
      cbn in Hnd. apply NoDup_cons in Hnd as [Hni _].
      destruct (decide (ts = t)) as [<-|]; destruct (decide (_ = _)); try done. by apply expiry_None.
    - destruct (decide (t = ts)) as [->|]; [by rewrite Hc in Hct|done]. }
  assert (D w1) as HD1 by by apply callback_stable.
  assert (running w1) as Hr1 by (by split; rewrite Ht1).
  destruct (callback_runs ts w1) as (w2 & ev & Ecb & HD2 & Hr2 & Hmono & Hnew); [done|done|rewrite Ht1; change (vm_now s1) with (vm_now (timers_of w)); lia|done|..].
  { rewrite Harm. by destruct (decide (ts = ts)). }
  destruct (timers_ok_list _ QEMU_CLOCK_VIRTUAL (proj1 Hr2)) as (l2 & Hl2 & Hq2); [done|].
  assert (vm_now (timers_of w1) = vm_now (timers_of w)) as Hv by (by rewrite Ht1).
  exists w1, w2, l2, ev. split_and!; try done.
  - unfold on_timers. by apply zoom_silent.
  - lia.
  - apply due_le; [apply Hq2|]. intros [t e'] Hin Hle. cbn in Hle. destruct Hq2 as (_ & Hnd2 & Hf2).
    rewrite Forall_forall in Hf2. destruct (Hf2 _ Hin) as [Hct _]. cbn in Hct.
    apply expiry_elem in Hin; [|done].
    rewrite <- (expires_at_eq _ _ _ (eq_trans (f_equal _ Hct) Hl2)) in Hin.
    destruct (Hnew t e' Hct Hin) as [Hold|]; [|lia].
    unfold armed in Hold. rewrite Ht1 in Hold. unfold s1 in Hold.
    rewrite (expires_at_set _ _ _ _ _ Ha Hne) in Hold.
    destruct (decide (clock t = QEMU_CLOCK_VIRTUAL)); [|done]. apply expiry_elem in Hold; [done|apply Hq'].
  - intros e' He'. destruct (Hnew _ _ Hc He') as [Hold|]; [|lia].
    rewrite Harm in Hold. by destruct (decide (ts = ts)).
Qed.

Lemma clock_list_on w type l :
  aget (active_timers (timers_of w)) type = Some l ->
  on_timers timers_of with_timers inj (clock_list type) w = Done (l, w, []).
Proof.
  intros Hl. rewrite <- (with_timers_of w) at 2. unfold on_timers.
  by apply zoom_silent, clock_list_eq.
Qed.

Definition nothing_due (now : Z) (w : W) : Prop :=
  forall t e, clock t = QEMU_CLOCK_VIRTUAL -> armed w t = Some e -> now < e.

Lemma run_expired_stop fuel now w l :
  running w -> aget (active_timers (timers_of w)) QEMU_CLOCK_VIRTUAL = Some l ->
  (forall ts e rest, l = (ts, e) :: rest -> now < e) ->
  run_expired timers_of with_timers inj cb (S fuel) QEMU_CLOCK_VIRTUAL now w = Done (true, w, []) /\
  nothing_due now w.
Proof.
  intros [Hok _] Hl Hfirst. split.
  - cbn [run_expired]. rewrite (bind_silent _ _ _ _ _ (clock_list_on w _ l Hl)).
    destruct l as [|[ts e] rest]; [done|]. destruct (Z.ltb_spec now e); [done|].
    specialize (Hfirst _ _ _ eq_refl). lia.
  - intros t e Ht Hx. unfold armed in Hx. rewrite (expires_at_eq _ _ _ (eq_trans (f_equal _ Ht) Hl)) in Hx.
    destruct (timers_ok_list _ QEMU_CLOCK_VIRTUAL Hok) as (l0 & Hl0 & Hq); [done|].
    rewrite Hl in Hl0. injection Hl0 as <-. destruct l as [|[ts e0] rest]; [done|].
    specialize (Hfirst _ _ _ eq_refl). destruct Hq as (Hs & Hd & _).
    apply expiry_elem in Hx; [|done]. apply elem_of_cons in Hx as [[= -> ->]|Hin]; [done|].
    inversion Hs as [|? ? ? Hall]; subst. rewrite Forall_forall in Hall.
    specialize (Hall _ Hin). unfold earlier in Hall. cbn in Hall. lia.
Qed.

Lemma run_expired_ends fuel now w l :
  D w -> running w -> since <= now <= vm_now (timers_of w) ->
  aget (active_timers (timers_of w)) QEMU_CLOCK_VIRTUAL = Some l -> (length (due now l) < fuel)%nat ->
  exists w' es,
    run_expired timers_of with_timers inj cb fuel QEMU_CLOCK_VIRTUAL now w = Done (true, w', es) /\
    D w' /\ running w' /\ nothing_due now w' /\
    forall ts, clock ts = QEMU_CLOCK_VIRTUAL -> left_alone D ts ->
      match armed w ts with
      | Some e => if e <=? now then fired D ts now w' es else armed w' ts = Some e
      | None => armed w' ts = None
      end.
Proof.
  revert w l. induction fuel as [|fuel IH]; intros w l HD Hr Hnow Hl Hf; [lia|].
  destruct l as [|[t0 e0] rest]; [|destruct (Z.ltb_spec now e0) as [Hlt|Hle]].
  1,2: destruct (run_expired_stop fuel now w _ Hr Hl) as [E Hnd]; [naive_solver|].
  1,2: exists w, []; split_and!; try done; intros ts Hts _; destruct (armed w ts) as [e|] eqn:Ea;
    [|done]; specialize (Hnd ts e Hts Ea); destruct (Z.leb_spec e now); [lia|done].
  destruct (fire_first w now t0 e0 rest) as
    (w1 & w2 & l2 & ev & E1 & Ecb & HD1 & Hr1 & Hv1 & Hc0 & Harm1 & HD2 & Hr2 & Hnow2 & Hl2 & Hdue & Hnew);
    [done..|].
  assert (length (due now ((t0, e0) :: rest)) = S (length (due now rest))) as Hlen.
  { unfold due. rewrite filter_cons_True by done. done. }
  destruct (IH w2 l2) as (w' & es & E & HD' & Hr' & Hnd' & Hall); [done|done|lia|done| |].
  { eapply Nat.le_lt_trans; [exact Hdue|]. apply Nat.succ_lt_mono. rewrite <- Hlen. exact Hf. }
  exists w', (ev ++ es). split_and!; try done.
  - cbn [run_expired]. rewrite (bind_silent _ _ _ _ _ (clock_list_on w _ _ Hl)).
    destruct (Z.ltb_spec now e0); [lia|].
    by rewrite (bind_silent _ _ _ _ _ E1), (bind_Done _ _ _ _ _ _ Ecb), E.
  - intros ts Hts Hla. specialize (Hall ts Hts Hla). destruct (decide (ts = t0)) as [->|Hne].
    + (* this one has just been fired *)
      assert (armed w t0 = Some e0) as ->.
      { unfold armed. rewrite (expires_at_eq _ _ _ (eq_trans (f_equal _ Hts) Hl)). cbn.
        by destruct (decide (t0 = t0)). }
      replace (e0 <=? now) with true by lia. exists w1, w2, [], ev, es.
      specialize (Harm1 t0). destruct (decide (t0 = t0)); [|done]. split_and!; try done; [lia|].
      destruct (armed w2 t0) as [e1|] eqn:Ea; [|done]. specialize (Hnew e1 eq_refl).
      destruct (Z.leb_spec e1 now); [lia|done].
    + assert (armed w2 ts = armed w ts) as Heq.
      { rewrite (Hla t0 w1 w2 ev) by done. rewrite Harm1. by destruct (decide (ts = t0)). }
      rewrite Heq in Hall. destruct (armed w ts) as [e|]; [|done].
      destruct (e <=? now); [|done]. destruct Hall as (wa & wb & f1 & fv & f2 & Hcb & -> & Hrest).
      exists wa, wb, (ev ++ f1), fv, f2. by rewrite <- app_assoc.
Qed.

(** C26: The main loop ends.  On a machine whose virtual clock runs and whose
    callbacks arm timers only for later than the time they run at,
    [qemu_run_timers] on the virtual clock finishes within one turn more than
    there were timers armed, no timer of the clock is due any more at the time
    it read, the lists are well formed and the callbacks' invariant holds.
    Every timer that was due, and which the others' callbacks leave alone, has
    had its callback run at that time or later; one that was not due is armed
    as before.  A disabled clock runs nothing. *)
Theorem run_timers_terminates fuel w l :
  D w -> running w -> since <= vm_now (timers_of w) ->
  aget (active_timers (timers_of w)) QEMU_CLOCK_VIRTUAL = Some l -> (length l < fuel)%nat ->
  let now := vm_now (timers_of w) in
  exists w' es,
    qemu_run_timers host_clock host_realtime timers_of with_timers inj cb fuel QEMU_CLOCK_VIRTUAL w
      = Done (true, w', es) /\
    D w' /\ running w' /\
    match aget (clock_enabled (timers_of w)) QEMU_CLOCK_VIRTUAL with
    | Some true =>
        nothing_due now w' /\
        forall ts, clock ts = QEMU_CLOCK_VIRTUAL -> left_alone D ts ->
          match armed w ts with
          | Some e => if e <=? now then fired D ts now w' es else armed w' ts = Some e
          | None => armed w' ts = None
          end
    | _ => w' = w /\ es = []
    end.
Proof.
  intros HD Hr Hsince Hl Hf now. destruct (aget_Some (clock_enabled (timers_of w)) QEMU_CLOCK_VIRTUAL) as [b Hb].
  { destruct Hr as [(_ & -> & _) _]. done. }
  unfold qemu_run_timers. run. unfold id. rewrite Hb. run. destruct b; cbn [negb].
  2: { exists w, []. done. }
  set (w1 := with_timers ((timers_of w) <| reads ::= S |>) w).
  assert (timers_of w1 = (timers_of w) <| reads ::= S |>) as Ht1 by apply timers_of_with.
  assert (on_timers timers_of with_timers inj
            (qemu_get_clock_ns host_clock host_realtime QEMU_CLOCK_VIRTUAL) w = Done (now, w1, [])) as E1.
  { unfold on_timers. by apply zoom_silent, read_vm_clock, Hr. }
  assert (forall t, armed w1 t = armed w t) as Harm by (intros t; unfold armed; by rewrite Ht1).
  destruct (run_expired_ends fuel now w1 l) as (w' & es & E & HD' & Hr' & Hnd & Hall).
  - by apply callback_stable.
  - destruct Hr. split; by rewrite Ht1.
  - split; [done|]. rewrite Ht1.
    apply vm_now_monotone; [apply Hr|apply Hr|done|exact (Nat.le_succ_diag_r _)].
  - by rewrite Ht1.
  - eapply Nat.le_lt_trans; [|exact Hf]. apply length_filter.
  - exists w', es. rewrite (bind_silent _ _ _ _ _ E1). split_and!; try done.
    intros ts Hts Hla. specialize (Hall ts Hts Hla). by rewrite Harm in Hall.
Qed.
End Loop.
End MainLoop.

(** ** The deadline of the main loop, and the clock across a stop *)
Section Deadlines.
Context (host_clock host_realtime host_ticks : nat -> Z) `{!HostClock host_clock}.

(** A well-formed list is empty or its head expires first. *)
Lemma first_expires type l t e :
  queue_ok type l -> expiry t l = Some e -> exists t0 e0 r, l = (t0, e0) :: r /\ e0 <= e.
Proof.
  intros (Hs & Hd & _) Hx. destruct l as [|[t0 e0] r]; [done|]. exists t0, e0, r. split; [done|].
  apply expiry_elem in Hx; [|done]. apply elem_of_cons in Hx as [[= -> ->]|Hin]; [lia|].
  inversion Hs as [|? ? ? Hall]; subst. rewrite Forall_forall in Hall. exact (Hall _ Hin).
Qed.

Lemma int64_sub e c : 0 <= e < 2 ^ 63 -> 0 <= c < 2 ^ 63 -> int64 (e - c) = Some (e - c).
Proof. intros. unfold int64. by replace ((_ <=? _) && (_ <? _)) with true by lia. Qed.

(** The time left to the head of a list, at a reading of its clock. *)
Lemma head_delay type l c t e :
  queue_ok type l -> (forall t' e', (t', e') ∈ l -> 0 <= e') -> 0 <= c < 2 ^ 63 -> expiry t l = Some e ->
  exists t0 e0 r, l = (t0, e0) :: r /\ int64 (e0 - c) = Some (e0 - c) /\ e0 - c <= e - c.
Proof.
  intros Hq Hpos Hc Hx. destruct (first_expires _ _ _ _ Hq Hx) as (t0 & e0 & r & -> & Hle).
  exists t0, e0, r. split; [done|]. split; [|lia]. apply int64_sub; [|done].
  destruct Hq as (_ & _ & Hf). inversion Hf as [|? ? [_ Hr]]; subst. cbn in Hr.
  specialize (Hpos t0 e0 (list_elem_of_here _ _)). lia.
Qed.

(** C27: The main loop never sleeps past a timer.  With the virtual clock
    running and no expiry time negative, [qemu_next_deadline] finishes without
    overflow; the delay it returns is not negative and, for every armed timer
    of the virtual and of the host clock, does not exceed the time left until
    it expires (or is zero when that time is over). *)
Theorem next_deadline_bound s :
  timers_ok s -> clock_runs s -> 0 <= vm_now host_clock s ->
  (forall n, 0 <= host_realtime n < 2 ^ 63) ->
  (forall type l t e, aget (active_timers s) type = Some l -> (t, e) ∈ l -> 0 <= e) ->
  exists d s', qemu_next_deadline host_clock host_realtime s = Done (d, s', []) /\
    active_timers s' = active_timers s /\ 0 <= d /\
    (forall t e, clock t = QEMU_CLOCK_VIRTUAL -> expires_at s t = Some e -> d <= Z.max 0 (e - vm_now host_clock s)) /\
    forall t e, clock t = QEMU_CLOCK_HOST -> expires_at s t = Some e ->
      d <= Z.max 0 (e - host_realtime (pred (reads s'))).
Proof.
  intros Hok Hrun Hv0 Hrt Hpos.
  destruct (timers_ok_list s QEMU_CLOCK_VIRTUAL Hok) as (v & Hv & Hqv); [done|].
  destruct (timers_ok_list s QEMU_CLOCK_HOST Hok) as (h & Hh & Hqh); [done|].
  assert (vm_now host_clock s < 2 ^ 63) as Hv63.
  { destruct Hrun as [He Ho]. unfold vm_now. rewrite He. pose proof (host_bounded (reads s)). lia. }
  assert (exists dv s1,
    match v with
    | [] => ret INT32_MAX
    | (_, e) :: _ => c <- qemu_get_clock_ns host_clock host_realtime QEMU_CLOCK_VIRTUAL ;; lift (int64 (e - c))
    end s = Done (dv, s1, []) /\ active_timers s1 = active_timers s /\
    forall t e, expiry t v = Some e -> dv <= e - vm_now host_clock s) as (dv & s1 & E1 & Ha1 & Hdv).
  { destruct v as [|[t0 e0] r] eqn:Ev; [by exists INT32_MAX, s|].
    destruct (head_delay _ _ (vm_now host_clock s) t0 e0 Hqv) as (t' & e' & r' & [= <- <- <-] & Hi & _);
      [naive_solver|lia|by cbn; destruct (decide (t0 = t0))|].
    exists (e0 - vm_now host_clock s), (s <| reads ::= S |>). split_and!; [|done|].
    - by rewrite (bind_silent _ _ _ _ _ (read_vm_clock host_clock host_realtime s Hrun)), Hi.
    - intros t e Hx. destruct (first_expires _ _ _ _ Hqv Hx) as (? & ? & ? & [= <- <- <-] & ?). lia. }
  assert (aget (active_timers s1) QEMU_CLOCK_HOST = Some h) as Hh1 by (by rewrite Ha1).
  assert (exists d s2,
    match h with
    | [] => ret dv
    | (_, e) :: _ =>
        c <- qemu_get_clock_ns host_clock host_realtime QEMU_CLOCK_HOST ;;
        hdelta <- lift (int64 (e - c)) ;; ret (if hdelta <? dv then hdelta else dv)
    end s1 = Done (d, s2, []) /\ active_timers s2 = active_timers s /\ d <= dv /\
    forall t e, expiry t h = Some e -> d <= e - host_realtime (pred (reads s2))) as (d & s2 & E2 & Ha2 & Hd & Hdh).
  { destruct h as [|[t0 e0] r] eqn:Ev; [by exists dv, s1|].
    set (c := host_realtime (reads s1)).
    destruct (head_delay _ _ c t0 e0 Hqh) as (t' & e' & r' & [= <- <- <-] & Hi & _);
      [naive_solver|apply Hrt|by cbn; destruct (decide (t0 = t0))|].
    exists (if e0 - c <? dv then e0 - c else dv), (s1 <| reads ::= S |>).
    split_and!; [|exact Ha1|by zcases|].
    - rewrite (bind_silent _ _ _ c (s1 <| reads ::= S |>)) by done. by rewrite Hi.
    - intros t e Hx. change (host_realtime (pred (reads (s1 <| reads ::= S |>)))) with c.
      destruct (first_expires _ _ _ _ Hqh Hx) as (? & ? & ? & [= <- <- <-] & ?). by zcases. }
  exists (if d <? 0 then 0 else d), s2. split_and!; [| done|by zcases|..].
  - unfold qemu_next_deadline. rewrite (bind_silent _ _ _ _ _ (clock_list_eq _ _ _ Hv)).
    rewrite (bind_silent _ _ _ _ _ E1), (bind_silent _ _ _ _ _ (clock_list_eq _ _ _ Hh1)).
    by rewrite (bind_silent _ _ _ _ _ E2).
  - intros t e Ht Hx. rewrite (expires_at_eq _ _ _ (eq_trans (f_equal _ Ht) Hv)) in Hx.
    specialize (Hdv t e Hx). zcases.
  - intros t e Ht Hx. rewrite (expires_at_eq _ _ _ (eq_trans (f_equal _ Ht) Hh)) in Hx.
    specialize (Hdh t e Hx). zcases.
Qed.
End Deadlines.

(** ** Saving a timer, stopping the clock *)
Section SaveStop.
Context (host_clock host_realtime host_ticks : nat -> Z) (alarm_has_dynticks : bool).

Lemma sgn_wrap w e : 0 < w -> - 2 ^ (w - 1) <= e < 2 ^ (w - 1) -> sgn w (wrap w e) = e.
Proof.
  intros Hw He. assert (2 ^ w = 2 * 2 ^ (w - 1)) as H2 by (rewrite <- Z.pow_succ_r by lia; f_equal; lia).
  unfold sgn. rewrite wrap_wrap by lia. unfold wrap. destruct (Z.lt_ge_cases e 0).
  - rewrite <- (Z_mod_plus_full e 1), Z.mod_small by lia. zcases.
  - rewrite Z.mod_small by lia. zcases.
Qed.

Lemma list_find_expiry ts (l : list (QEMUTimer * Z)) :
  existsb (fun te : QEMUTimer * Z => bool_decide (te.1 = ts)) l = bool_decide (is_Some (expiry ts l)) /\
  match expiry ts l with
  | Some e => exists i, list_find (fun te : QEMUTimer * Z => te.1 = ts) l = Some (i, (ts, e))
  | None => list_find (fun te : QEMUTimer * Z => te.1 = ts) l = None
  end.
Proof.
  induction l as [|[t e] l [IH1 IH2]]; [done|]. cbn. destruct (decide (t = ts)) as [->|Hne]; cbn.
  - split; [by rewrite !bool_decide_eq_true_2|]. exists 0%nat. by destruct (decide (ts = ts)).
  - rewrite bool_decide_eq_false_2 by done. split; [done|]. destruct (decide (t = ts)); [done|].
    destruct (expiry ts l) as [e'|]; [|by rewrite IH2]. destruct IH2 as [i ->]. by exists (S i).
Qed.

(** A timer is loaded as it was saved.  The eight bytes [qemu_put_timer]
    writes for a timer, read back by [qemu_get_timer] on any well-formed
    timers, arm it for the same time if it was armed and disarm it if it was
    not; the other timers of the loading side and the rest of the stream are
    left as they were.  (A time of -1 is the mark of a timer that is not
    armed; times on the emulated clocks are not negative.) *)
Theorem timer_load_save s s0 ts rest :
  timers_ok s -> timers_ok s0 -> 0 <= clock ts < QEMU_NUM_CLOCKS ->
  (forall e, expires_at s ts = Some e -> 0 <= e) ->
  exists bytes s' es, qemu_put_timer ts s = Done (bytes, s, []) /\ length bytes = 8%nat /\
    qemu_get_timer alarm_has_dynticks ts (bytes ++ rest) s0 = Done (rest, s', es) /\ timers_ok s' /\
    forall t, expires_at s' t = if decide (t = ts) then expires_at s ts else expires_at s0 t.
Proof.
  intros Hok Hok0 Hc Hpos. destruct (timers_ok_list s (clock ts) Hok Hc) as (l & Hl & Hq).
  rewrite (expires_at_eq _ _ _ Hl) in *. destruct (list_find_expiry ts l) as [Hex Hfind].
  set (v := match expiry ts l with Some e => u64 e | None => 2 ^ 64 - 1 end).
  assert (qemu_put_timer ts s = Done (qemu_put_be64 v, s, [])) as Hput.
  { unfold qemu_put_timer, qemu_timer_pending. rewrite bind_assoc, !(bind_silent _ _ _ _ _ (clock_list_eq _ _ _ Hl)).
    run. rewrite (bind_silent _ _ _ _ _ (clock_list_eq _ _ _ Hl)), Hex. unfold v.
    destruct (expiry ts l) as [e|]; [|done]. by destruct Hfind as [i ->]. }
  assert (fits 64 v) as Hv by (unfold v; destruct (expiry ts l); [by apply fits_wrap|done]).
  assert (match expiry ts l with
          | Some e => v <> 2 ^ 64 - 1 /\ sgn 64 v = e /\ - 2 ^ 63 <= e < 2 ^ 63
          | None => v = 2 ^ 64 - 1 end) as Hval.
  { unfold v. destruct (expiry ts l) as [e|] eqn:Ee; [|done]. specialize (Hpos e eq_refl).
    apply expiry_elem in Ee; [|apply Hq]. destruct Hq as (_ & _ & Hf). rewrite Forall_forall in Hf.
    destruct (Hf _ Ee) as [_ He]. cbn in He. split; [rewrite wrap_fits by (unfold fits; lia); lia|].
    split; [|done]. apply (sgn_wrap 64); lia. }
  exists (qemu_put_be64 v). unfold qemu_get_timer. rewrite (get_put_be64 v rest Hv).
  destruct (expiry ts l) as [e|].
  - destruct Hval as (Hne & Hs & He). destruct (mod_timer_ns_ok alarm_has_dynticks s0 ts e Hok0 Hc He)
      as (a & E & Hok' & Hx). do 2 eexists. split; [done|]. split; [done|]. split; [|by split].
    replace (v =? 2 ^ 64 - 1) with false by lia. cbn [negb]. rewrite Hs.
    rewrite (bind_Done _ _ _ _ _ _ E). unfold ret. by rewrite app_nil_r.
  - destruct (del_timer_ok s0 ts Hok0 Hc) as (a & E & Hok' & Hx).
    do 2 eexists. split; [done|]. split; [done|]. split; [|by split].
    rewrite Hval. cbn [negb]. change (2 ^ 64 - 1 =? 2 ^ 64 - 1) with true. cbn [negb].
    by rewrite (bind_silent _ _ _ _ _ E).
Qed.
End SaveStop.
