(* ===== verification/SocTimers.v ===== *)
(** * SocTimers: the timer blocks of the two processors

    [hw/s5l8900.c] has a periodic timer, [hw/s5l8930.c] two one-shot timers;
    both run on the virtual clock of [QemuTimer].  The state of a block here is
    its registers with the timers of the emulator, which it arms and disarms;
    what it makes visible are its interrupt lines and the requests to the
    host's alarm. *)
From S2P Require Import Prelude Savevm QemuTimer.

Inductive timer_block_event :=
  | TmIrq (line : nat) (level : bool)
  | TmAlarm (e : timer_event).

(** [muldiv64] of [qemu-common.h]: (a*b)/c with a 96-bit intermediate. *)
Definition muldiv64 (a b c : Z) : Z :=
  let low := u32 a in
  let high := u32 (a >> 32) in
  let rl := u64 (low * b) in
  let rh := u64 (high * b) in
  let rh := u64 (rh + (rl >> 32)) in
  let rhigh := u32 (rh / c) in
  let rlow := u32 (u64 (u64 ((rh mod c) << 32) + (rl .& 0xffffffff)) / c) in
  rlow .| (rhigh << 32).

Definition get_ticks_per_sec : Z := 1000000000.

Module S5L8900Timer.

Definition TIMER_IRQSTAT := 0x10000.
Definition TIMER_IRQLATCH := 0xF8.
Definition TIMER_TICKSHIGH := 0x80.
Definition TIMER_TICKSLOW := 0x84.
Definition TIMER_STATE_START := 1.
Definition TIMER_4 := 0xA0.
Definition TIMER_CONFIG := 0.
Definition TIMER_STATE := 0x4.
Definition TIMER_COUNT_BUFFER := 0x8.
Definition TIMER_COUNT_BUFFER2 := 0xC.

Record s5l8900_timer_s := mk_block {
  ticks_high : Z; ticks_low : Z; status : Z; config : Z; bcount1 : Z; bcount2 : Z; prescaler : Z;
  irqstat : Z; st_timer : QEMUTimer; bcreload : Z; freq_out : Z; tick_interval : Z; last_tick : Z;
  next_planned_tick : Z; base_time : Z;
  tm : timers
}.

#[export] Instance eta_block : Eta s5l8900_timer_s := fun s =>
  mk_block (ticks_high s) (ticks_low s) (status s) (config s) (bcount1 s) (bcount2 s) (prescaler s)
    (irqstat s) (st_timer s) (bcreload s) (freq_out s) (tick_interval s) (last_tick s)
    (next_planned_tick s) (base_time s) (tm s).

Abbreviation blockM := (dev s5l8900_timer_s timer_block_event).

(** A call of the timer functions of the emulator. *)
Definition on_tm {A} (m : timersM A) : blockM A := zoom tm (fun t s => s <| tm := t |>) TmAlarm m.

Section Block.
Context (host_clock host_realtime : nat -> Z) (alarm_has_dynticks : bool).

Definition vm_clock_ns : blockM Z := on_tm (qemu_get_clock_ns host_clock host_realtime QEMU_CLOCK_VIRTUAL).
Definition mod_timer (t : QEMUTimer) (e : Z) : blockM unit := on_tm (qemu_mod_timer alarm_has_dynticks t e).

Definition s5l8900_st_update : blockM unit :=
  modify (fun s =>
    let f := u32 (1000000000 / 100) in
    s <| freq_out := f |>
      <| tick_interval := muldiv64 (if bcount1 s <? 1000 then 1000 else bcount1 s) get_ticks_per_sec f |>
      <| next_planned_tick := 0 |>).

(** A zero [tick_interval] divides by zero.  The expiry time is passed as the
    [int64_t] of an unsigned sum. *)
Definition s5l8900_st_set_timer : blockM unit :=
  now <- vm_clock_ns ;;
  s <- gets id ;;
  let last := u64 (now - base_time s) in
  if tick_interval s =? 0 then undef
  else
    modify (fun s => s <| next_planned_tick := u64 (last + u64 (tick_interval s - last mod tick_interval s)) |>) ;;;
    s <- gets id ;;
    mod_timer (st_timer s) (sgn 64 (u64 (next_planned_tick s + base_time s))) ;;;
    modify (fun s => s <| last_tick := last |>).

Definition s5l8900_st_tick : blockM unit :=
  s <- gets id ;;
  if test (status s) TIMER_STATE_START then emit (TmIrq 0 true) ;;; s5l8900_st_set_timer
  else
    modify (fun s => s <| next_planned_tick := 0 |> <| last_tick := 0 |>) ;;;
    on_tm (qemu_del_timer (st_timer s)).

Definition s5l8900_timer1_read (addr : Z) : blockM Z :=
  switch addr
    [ (on TIMER_TICKSHIGH,
         now <- vm_clock_ns ;;
         let ticks := u64 now in
         modify (fun s => s <| ticks_high := u32 (ticks >> 32) |> <| ticks_low := ticks .& 0xFFFFFFFF |>) ;;;
         gets ticks_high);
      (on TIMER_TICKSLOW, gets ticks_low);
      (on TIMER_IRQSTAT, gets irqstat);
      (on TIMER_IRQLATCH, ret 0xffffffff) ]
    (ret 0).

Definition s5l8900_timer1_write (addr value : Z) : blockM unit :=
  switch addr
    [ (on TIMER_IRQSTAT, modify (fun s => s <| irqstat := value |>));
      (on TIMER_IRQLATCH, emit (TmIrq 0 false));
      (on (TIMER_4 + TIMER_CONFIG), s5l8900_st_update ;;; modify (fun s => s <| config := value |>));
      (on (TIMER_4 + TIMER_STATE),
         s <- gets id ;;
         (if (status s .& TIMER_STATE_START) <? (value .& TIMER_STATE_START) then
            now <- vm_clock_ns ;;
            modify (fun s => s <| base_time := u64 now |>) ;;;
            s5l8900_st_update ;;;
            s5l8900_st_set_timer
          else
            when ((value .& TIMER_STATE_START) <? (status s .& TIMER_STATE_START))
              (on_tm (qemu_del_timer (st_timer s)))) ;;;
         modify (fun s => s <| status := value |>));
      (on (TIMER_4 + TIMER_COUNT_BUFFER), modify (fun s => s <| bcreload := value |> <| bcount1 := value |>));
      (on (TIMER_4 + TIMER_COUNT_BUFFER2), modify (fun s => s <| bcount2 := value |>)) ]
    (ret tt).

(** [s5l8900_timer_init]: [id] is the identity of the timer it creates. *)
Definition s5l8900_timer_init (id : nat) (t : timers) : outcome (s5l8900_timer_s * list timer_block_event) :=
  let s := mk_block 0 0 0 0 0 0 0 0 (new_timer id QEMU_CLOCK_VIRTUAL SCALE_NS) 0 0 0 0 0 0 t in
  match (now <- vm_clock_ns ;; modify (fun s => s <| base_time := u64 now |>)) s with
  | Done (_, s', es) => Done (s', es)
  | HwError => HwError
  | Undef => Undef
  end.
End Block.
End S5L8900Timer.

Module S5L8930Timer.

Definition TIMER_TICKSHIGH := 0x4.
Definition TIMER_TICKSLOW := 0x0.
Definition TIMER_REGISTER := 0x8.
Definition TIMER_REGISTER2 := 0xc.
Definition TIMER_REGISTER_TICK := 0x10.
Definition TIMER_REGISTER_TICK2 := 0x14.
Definition TIMER_STATE_START := 1.
Definition TIMER_STATE_MANUALUPDATE := 2.
Definition POWER_ID := 0x4000.

Record s5l8930_timer_s := mk_block {
  ticks_high : Z; ticks_low : Z; status : Z; config : Z; timer : Z; prescaler : Z; irqstat : Z;
  st_timer : QEMUTimer; st_timer2 : QEMUTimer; tick_interval : Z; tick_interval2 : Z;
  (** [irq2] has been set by [setTimerIRQ2] *)
  irq2 : bool;
  timer2 : Z; status2 : Z; val3030 : Z;
  tm : timers
}.

#[export] Instance eta_block : Eta s5l8930_timer_s := fun s =>
  mk_block (ticks_high s) (ticks_low s) (status s) (config s) (timer s) (prescaler s) (irqstat s)
    (st_timer s) (st_timer2 s) (tick_interval s) (tick_interval2 s) (irq2 s) (timer2 s) (status2 s)
    (val3030 s) (tm s).

Abbreviation blockM := (dev s5l8930_timer_s timer_block_event).

Definition on_tm {A} (m : timersM A) : blockM A := zoom tm (fun t s => s <| tm := t |>) TmAlarm m.

(** Setting the second line; an unconnected [qemu_irq] is a null pointer, which
    [qemu_set_irq] ignores. *)
Definition set_irq2 (level : bool) : blockM unit :=
  s <- gets id ;; when (irq2 s) (emit (TmIrq 1 level)).

Definition setTimerIRQ2 : blockM unit := modify (fun s => s <| irq2 := true |>).

Section Block.
Context (host_clock host_realtime : nat -> Z) (alarm_has_dynticks : bool).

Definition vm_clock_ns : blockM Z := on_tm (qemu_get_clock_ns host_clock host_realtime QEMU_CLOCK_VIRTUAL).

(** The count is multiplied in 32 bits. *)
Definition interval (count : Z) : Z := u32 ((if count =? 0 then 1000 else count) * 1000) / 24.

Definition s5l8930_st_set_timer : blockM unit :=
  now <- vm_clock_ns ;;
  modify (fun s => s <| tick_interval := interval (timer s) |>) ;;;
  s <- gets id ;;
  on_tm (qemu_mod_timer alarm_has_dynticks (st_timer s) (sgn 64 (u64 (u64 now + tick_interval s)))).

Definition s5l8930_st_tick : blockM unit :=
  s <- gets id ;; when (test (status s) TIMER_STATE_START) (emit (TmIrq 0 true)).

Definition s5l8930_st_set_timer2 : blockM unit :=
  now <- vm_clock_ns ;;
  modify (fun s => s <| tick_interval2 := interval (timer2 s) |>) ;;;
  s <- gets id ;;
  on_tm (qemu_mod_timer alarm_has_dynticks (st_timer2 s) (sgn 64 (u64 (u64 now + tick_interval2 s)))).

Definition s5l8930_st_tick2 : blockM unit :=
  s <- gets id ;; when (test (status2 s) TIMER_STATE_START) (set_irq2 true).

(** [(qemu_get_clock_ns(vm_clock) / 1000) * 24], in [int64_t]. *)
Definition clock_ticks : blockM Z :=
  now <- vm_clock_ns ;; t <- lift (int64 (Z.quot now 1000 * 24)) ;; ret (u64 t).

Definition s5l8930_timer1_read (addr : Z) : blockM Z :=
  switch addr
    [ (on TIMER_TICKSHIGH,
         ticks <- clock_ticks ;;
         modify (fun s => s <| ticks_high := u32 (ticks >> 32) |> <| ticks_low := ticks .& 0xFFFFFFFF |>) ;;;
         gets ticks_high);
      (on TIMER_TICKSLOW,
         ticks <- clock_ticks ;;
         modify (fun s => s <| ticks_low := ticks .& 0xFFFFFFFF |>) ;;;
         gets ticks_low);
      (on POWER_ID, ret 0x2020001);
      (on TIMER_REGISTER, gets timer);
      (on TIMER_REGISTER_TICK, gets status);
      (on TIMER_REGISTER2, gets timer2);
      (on TIMER_REGISTER_TICK2, gets status2);
      (on 0x3030, gets val3030) ]
    (ret 0).

Definition s5l8930_timer1_write (addr value : Z) : blockM unit :=
  switch addr
    [ (on 0x3030, modify (fun s => s <| val3030 := value |>));
      (on TIMER_REGISTER_TICK,
         s <- gets id ;;
         on_tm (qemu_del_timer (st_timer s)) ;;;
         when (test value TIMER_STATE_MANUALUPDATE) (emit (TmIrq 0 false)) ;;;
         when (test value TIMER_STATE_START) s5l8930_st_set_timer ;;;
         when (negb (test value TIMER_STATE_START) || test value TIMER_STATE_MANUALUPDATE)
           (emit (TmIrq 0 false)) ;;;
         modify (fun s => s <| status := value |>));
      (on TIMER_REGISTER,
         modify (fun s => s <| timer := value |>) ;;;
         if value =? 0xffffffff then modify (fun s => s <| timer := 0 |>)
         else s <- gets id ;; when (test (status s) TIMER_STATE_START) s5l8930_st_set_timer);
      (on TIMER_REGISTER_TICK2,
         s <- gets id ;;
         on_tm (qemu_del_timer (st_timer2 s)) ;;;
         when (negb (test value TIMER_STATE_START) || test value TIMER_STATE_MANUALUPDATE)
           (set_irq2 false) ;;;
         modify (fun s => s <| status2 := value |>));
      (on TIMER_REGISTER2,
         modify (fun s => s <| timer2 := value |>) ;;;
         if value =? 0xffffffff then modify (fun s => s <| timer2 := 0 |>)
         else s <- gets id ;; when (test (status2 s) TIMER_STATE_START) s5l8930_st_set_timer2) ]
    (ret tt).

(** [s5l8930_timer_init]: [id] and [id + 1] are the timers it creates. *)
Definition s5l8930_timer_init (id : nat) (t : timers) : s5l8930_timer_s :=
  mk_block 0 0 0 0 0 0 0 (new_timer id QEMU_CLOCK_VIRTUAL SCALE_NS)
    (new_timer (S id) QEMU_CLOCK_VIRTUAL SCALE_NS) 0 0 false 0 0 0 t.
End Block.
End S5L8930Timer.

#[export] Existing Instances S5L8900Timer.eta_block S5L8930Timer.eta_block.

(** ** [muldiv64] *)
Lemma lor_shift_add w hi lo : 0 <= w -> 0 <= lo < 2 ^ w -> lo .| (hi << w) = hi * 2 ^ w + lo.
Proof.
  intros Hw Hlo. rewrite Z.shiftl_mul_pow2 by done. rewrite Z.lor_comm, <- Z.add_lor_land.
  assert (hi * 2 ^ w .& lo = 0) as ->; [|lia].
  apply Z.bits_inj'. intros i Hi. rewrite Z.land_spec, Z.bits_0.
  destruct (Z.lt_ge_cases i w); [by rewrite Z.mul_pow2_bits_low|].
  rewrite <- (Z.mod_small lo (2 ^ w)), Z.mod_pow2_bits_high by lia. apply andb_false_r.
Qed.

Lemma u64_split a : fits 64 a -> a = u32 (a >> 32) * 2 ^ 32 + u32 a /\ fits 32 (a >> 32).
Proof.
  unfold fits. intros Ha. rewrite Z.shiftr_div_pow2 by lia.
  assert (0 <= a / 2 ^ 32 < 2 ^ 32) as Hh.
  { split; [apply Z.div_pos; lia|apply Z.div_lt_upper_bound; lia]. }
  split; [|done]. rewrite wrap_fits by done. unfold wrap.
  pose proof (Z.div_mod a (2 ^ 32) ltac:(lia)). lia.
Qed.

Lemma land_ones32 x : 0 <= x -> x .& 0xffffffff = x mod 2 ^ 32.
Proof. intros. change 0xffffffff with (Z.ones 32). by rewrite Z.land_ones by lia. Qed.

(** C29: [muldiv64] is multiplication and division over the integers.  For
    every 64-bit [a] and 32-bit [b] and [c] with [c] not zero, the pieces it
    computes in 64-bit words make up the quotient of the full product, reduced
    to 64 bits; no bit of the 96-bit product is lost on the way. *)
Theorem muldiv64_exact a b c :
  fits 64 a -> fits 32 b -> fits 32 c -> c <> 0 -> muldiv64 a b c = u64 (a * b / c).
Proof.
  intros Ha Hb Hc Hc0. destruct (u64_split a Ha) as [Hsplit Hhi]. unfold muldiv64.
  set (low := u32 a) in *. set (high := u32 (a >> 32)) in *.
  assert (fits 32 low) as Hlow by (by apply fits_wrap). assert (fits 32 high) as Hhigh by (by apply fits_wrap).
  unfold fits in *. rewrite (wrap_fits 64 (low * b)), (wrap_fits 64 (high * b)) by (unfold fits; nia).
  rewrite !Z.shiftr_div_pow2, land_ones32 by nia.
  assert (0 <= low * b / 2 ^ 32 < 2 ^ 32) as Hcarry.
  { split; [apply Z.div_pos; nia|apply Z.div_lt_upper_bound; nia]. }
  pose proof (Z.div_mod (low * b) (2 ^ 32) ltac:(lia)) as Hlb.
  pose proof (Z.mod_pos_bound (low * b) (2 ^ 32) ltac:(lia)) as Hr.
  set (carry := low * b / 2 ^ 32) in *. set (rlo := (low * b) mod 2 ^ 32) in *.
  rewrite (wrap_fits 64 (high * b + carry)) by (unfold fits; nia).
  set (rh := high * b + carry) in *.
  pose proof (Z.div_mod rh c Hc0) as Hrh. pose proof (Z.mod_pos_bound rh c ltac:(lia)) as Hm.
  rewrite Z.shiftl_mul_pow2 by lia. set (q := rh / c) in *. set (m := rh mod c) in *.
  rewrite (wrap_fits 64 (m * 2 ^ 32)), (wrap_fits 64 (m * 2 ^ 32 + rlo)) by (unfold fits; nia).
  set (d := (m * 2 ^ 32 + rlo) / c).
  assert (0 <= d < 2 ^ 32) as Hd.
  { split; [apply Z.div_pos; nia|apply Z.div_lt_upper_bound; nia]. }
  rewrite (wrap_fits 32 d) by done. rewrite lor_shift_add by lia.
  assert (a * b / c = q * 2 ^ 32 + d) as ->.
  { replace (a * b) with (m * 2 ^ 32 + rlo + q * 2 ^ 32 * c) by (rewrite Hsplit; unfold rh in *; nia).
    rewrite Z.div_add by done. unfold d. lia. }
  unfold wrap. pose proof (Z.div_mod q (2 ^ 32) ltac:(lia)) as Hq.
  pose proof (Z.mod_pos_bound q (2 ^ 32) ltac:(lia)).
  replace (q * 2 ^ 32 + d) with (q mod 2 ^ 32 * 2 ^ 32 + d + q / 2 ^ 32 * 2 ^ 64) by lia.
  rewrite Z.mod_add by lia. symmetry. apply Z.mod_small. lia.
Qed.

(** ** The periodic timer of the S5L8900 *)
Module Periodic.
Import S5L8900Timer.

Section Tick.
Context (host_clock host_realtime : nat -> Z) (alarm_has_dynticks : bool) `{!HostClock host_clock}.

(** The block counts: it is started, its interval is [i], it has been started
    at [b]. *)
Definition counting (ts : QEMUTimer) (i b : Z) (s : s5l8900_timer_s) : Prop :=
  test (status s) TIMER_STATE_START = true /\ tick_interval s = i /\ base_time s = b /\ st_timer s = ts.

(** The first multiple of [i] after [b] that is later than [now]. *)
Definition next_tick (i b now : Z) : Z := now + (i - (now - b) mod i).

Lemma next_tick_spec i b now :
  0 < i -> now < next_tick i b now <= now + i /\ (next_tick i b now - b) mod i = 0.
Proof.
  intros Hi. unfold next_tick. pose proof (Z.mod_pos_bound (now - b) i Hi). split; [lia|].
  replace (now + (i - (now - b) mod i) - b) with (((now - b) / i + 1) * i).
  - apply Z.mod_mul. lia.
  - pose proof (Z.div_mod (now - b) i). lia.
Qed.

Lemma vm_now_bound s : clock_runs s -> vm_now host_clock s < 2 ^ 62 + 2 ^ 61.
Proof. intros [He Ho]. unfold vm_now. rewrite He. pose proof (host_bounded (reads s)). lia. Qed.

(** The timer is armed for the next tick after the time it reads. *)
Lemma set_timer_run s i b :
  timers_ok (tm s) -> clock_runs (tm s) -> tick_interval s = i -> base_time s = b ->
  clock (st_timer s) = QEMU_CLOCK_VIRTUAL -> scale (st_timer s) = SCALE_NS ->
  0 < i < 2 ^ 60 -> 0 <= b <= vm_now host_clock (tm s) ->
  let now := vm_now host_clock (tm s) in
  exists s' es, s5l8900_st_set_timer host_clock host_realtime alarm_has_dynticks s
      = Done (tt, s', map TmAlarm es) /\
    timers_ok (tm s') /\ clock_runs (tm s') /\ now <= vm_now host_clock (tm s') /\
    clock_enabled (tm s') = clock_enabled (tm s) /\
    status s' = status s /\ tick_interval s' = i /\ base_time s' = b /\ st_timer s' = st_timer s /\
    last_tick s' = now - b /\
    forall t, expires_at (tm s') t = if decide (t = st_timer s) then Some (next_tick i b now) else expires_at (tm s) t.
Proof.
  intros Hok Hrun Hi Hb Hc Hsc Hi0 Hb0 now. pose proof (vm_now_bound _ Hrun) as Hmax.
  destruct (next_tick_spec i b now ltac:(lia)) as [Hnt _]. set (e := next_tick i b now) in *.
  pose proof (zoom_silent tm (fun t s => s <| tm := t |>) TmAlarm _ s _ _
    (read_vm_clock host_clock host_realtime (tm s) Hrun)) as E1. cbv beta in E1.
  set (t1 := (tm s) <| reads ::= S |>) in *. set (s1 := s <| tm := t1 |>) in *.
  assert (u64 (now - base_time s) = now - b) as Hlast by (rewrite Hb; apply wrap_fits; unfold fits; lia).
  pose proof (Z.mod_pos_bound (now - b) i ltac:(lia)) as Hm.
  assert (- 2 ^ 63 <= e * scale (st_timer s) < 2 ^ 63) as He by (rewrite Hsc; unfold SCALE_NS; lia).
  destruct (mod_timer_ok alarm_has_dynticks t1 (st_timer s) e) as (a & Emod & Hok' & Hx);
    [exact Hok|by rewrite Hc|exact He|].
  set (s2 := s1 <| next_planned_tick := e - b |>).
  exists (s2 <| tm := t1 <| active_timers := a |> |> <| last_tick := now - b |>),
    (if rearms alarm_has_dynticks t1 (st_timer s) (e * scale (st_timer s)) then [RearmAlarm] else []). split.
  { unfold s5l8900_st_set_timer, vm_clock_ns, on_tm. rewrite (bind_silent _ _ _ _ _ E1). run. unfold id.
    change (base_time s1) with (base_time s). change (tick_interval s1) with (tick_interval s).
    fold now. rewrite Hlast, Hi. replace (i =? 0) with false by lia. cbv iota. run. unfold id.
    change (tick_interval s1) with (tick_interval s). rewrite Hi.
    rewrite (wrap_fits 64 (i - _)), (wrap_fits 64 (now - b + _)) by (unfold fits; lia).
    replace (now - b + (i - (now - b) mod i)) with (e - b) by (unfold e, next_tick; lia).
    fold s2. change (base_time s2) with (base_time s). change (next_planned_tick s2) with (e - b).
    change (st_timer s2) with (st_timer s). rewrite Hb. replace (e - b + b) with e by lia.
    rewrite (sgn_wrap 64) by lia. unfold mod_timer, on_tm.
    rewrite (bind_Done _ _ _ _ _ _ (zoom_Done tm (fun t s => s <| tm := t |>) TmAlarm _ s2 _ _ _ Emod)).
    unfold modify. by rewrite app_nil_r. }
  split_and!; try done.
  - apply vm_now_monotone; [done|done|done|done|exact (Nat.le_succ_diag_r (reads (tm s)))].
  - intros t. rewrite Hsc in Hx. unfold SCALE_NS in Hx. rewrite Z.mul_1_r in Hx. exact (Hx t).
Qed.

(** A tick of a counting block raises the line and arms the timer again. *)
Lemma tick_run s ts i b :
  timers_ok (tm s) -> clock_runs (tm s) -> counting ts i b s ->
  clock ts = QEMU_CLOCK_VIRTUAL -> scale ts = SCALE_NS ->
  0 < i < 2 ^ 60 -> 0 <= b <= vm_now host_clock (tm s) ->
  let now := vm_now host_clock (tm s) in
  exists s' es, s5l8900_st_tick host_clock host_realtime alarm_has_dynticks s = Done (tt, s', TmIrq 0 true :: es) /\
    timers_ok (tm s') /\ clock_runs (tm s') /\ now <= vm_now host_clock (tm s') /\ counting ts i b s' /\
    forall t, expires_at (tm s') t = if decide (t = ts) then Some (next_tick i b now) else expires_at (tm s) t.
Proof.
  intros Hok Hrun (Hst & Hi & Hb & Hts) Hc Hsc Hi0 Hb0 now.
  destruct (set_timer_run s i b) as (s' & es & E & Hok' & Hrun' & Hmono & _ & H1 & H2 & H3 & H4 & _ & Hx);
    [done|done|done|done|by rewrite Hts|by rewrite Hts|done|done|].
  exists s', (map TmAlarm es). rewrite Hts in *. split_and!; try done; [|by unfold counting; rewrite H1].
  unfold s5l8900_st_tick. run. unfold id. rewrite Hst. cbv iota.
  rewrite (bind_Done _ _ s tt s [TmIrq 0 true]) by done. by rewrite E.
Qed.
End Tick.

(** The block in a machine: [rest] is the state of everything else, [other] the
    callbacks of the other timers. *)
Section Machine.
Context (host_clock host_realtime : nat -> Z) (alarm_has_dynticks : bool) `{!HostClock host_clock}.
Context {Rest Ev : Type} (inj : timer_block_event -> Ev).

Definition machine : Type := s5l8900_timer_s * Rest.
Definition machine_timers (w : machine) : timers := tm w.1.
Definition machine_with_timers (t : timers) (w : machine) : machine := (w.1 <| tm := t |>, w.2).

#[export] Instance machine_world : TimerWorld machine_timers machine_with_timers.
Proof. split; [done|]. intros [[] r]. reflexivity. Qed.

Context (other : QEMUTimer -> dev machine Ev unit) (ts : QEMUTimer) (i b : Z).

Definition dispatch (t : QEMUTimer) : dev machine Ev unit :=
  if decide (t = ts)
  then zoom fst (fun s w => (s, w.2)) inj (s5l8900_st_tick host_clock host_realtime alarm_has_dynticks)
  else other t.

Definition counting_machine (w : machine) : Prop := counting ts i b w.1.

Context {Hcb : Callbacks host_clock machine_timers machine_with_timers other counting_machine b}
  (Hother : left_alone machine_timers other counting_machine ts)
  (Hts : clock ts = QEMU_CLOCK_VIRTUAL) (Hscale : scale ts = SCALE_NS)
  (Hi : 0 < i < 2 ^ 60) (Hb : 0 <= b).

Lemma dispatch_tick w :
  counting_machine w -> running machine_timers w -> b <= vm_now host_clock (machine_timers w) ->
  let now := vm_now host_clock (machine_timers w) in
  exists w' es, dispatch ts w = Done (tt, w', inj (TmIrq 0 true) :: es) /\ counting_machine w' /\
    running machine_timers w' /\ now <= vm_now host_clock (machine_timers w') /\
    forall t, armed machine_timers w' t
      = if decide (t = ts) then Some (next_tick i b now) else armed machine_timers w t.
Proof.
  intros HD [Hok Hrun] Hnow now.
  destruct (tick_run host_clock host_realtime alarm_has_dynticks w.1 ts i b)
    as (s' & es & E & Hok' & Hrun' & Hmono & Hc' & Hx); [done..|].
  exists (s', w.2), (map inj es). split; [|by split_and!].
  unfold dispatch. destruct (decide (ts = ts)); [|done].
  exact (zoom_Done fst (fun s w => (s, w.2)) inj _ w _ _ _ E).
Qed.

#[export] Instance dispatch_callbacks :
  Callbacks host_clock machine_timers machine_with_timers dispatch counting_machine b.
Proof.
  split; [by intros t w|]. intros t w HD Hr Hnow Hc Ha. destruct (decide (t = ts)) as [->|Hne].
  - destruct (dispatch_tick w HD Hr Hnow) as (w' & es & E & HD' & Hr' & Hmono & Hx).
    exists w', (inj (TmIrq 0 true) :: es). split_and!; try done. intros t' e Ht' He. rewrite Hx in He.
    destruct (decide (t' = ts)); [|by left]. injection He as <-. right.
    apply next_tick_spec. lia.
  - unfold dispatch. destruct (decide (t = ts)); [done|]. destruct Hcb as [_ Hruns]. by apply Hruns.
Qed.

Lemma dispatch_left_alone : left_alone machine_timers dispatch counting_machine ts.
Proof.
  intros t w w' es Hne HD E. unfold dispatch in E. destruct (decide (t = ts)); [done|].
  by eapply Hother.
Qed.

(** C30: The periodic timer of the S5L8900 does not stop.  While the block is
    started, with an interval that is not zero and the emulator's clock
    running, and whatever the other timers of the machine do (as long as they
    keep the contract of callbacks and leave this one alone), each run of the
    main loop at or after the time the timer is armed for finishes, raises the
    timer's interrupt line, and leaves the timer armed again: for the first
    whole multiple of the interval after the start that is later than the time
    the tick ran at, so at most one interval later. *)
Theorem periodic_timer_fires fuel w l e :
  counting_machine w -> running machine_timers w -> b <= vm_now host_clock (machine_timers w) ->
  aget (clock_enabled (machine_timers w)) QEMU_CLOCK_VIRTUAL = Some true ->
  aget (active_timers (machine_timers w)) QEMU_CLOCK_VIRTUAL = Some l -> (length l < fuel)%nat ->
  armed machine_timers w ts = Some e -> e <= vm_now host_clock (machine_timers w) ->
  exists w' es t e',
    qemu_run_timers host_clock host_realtime machine_timers machine_with_timers (fun x => inj (TmAlarm x))
      dispatch fuel QEMU_CLOCK_VIRTUAL w = Done (true, w', es) /\
    inj (TmIrq 0 true) ∈ es /\ counting_machine w' /\ running machine_timers w' /\
    vm_now host_clock (machine_timers w) <= t /\
    armed machine_timers w' ts = Some e' /\ t < e' <= t + i /\ (e' - b) mod i = 0.
Proof.
  intros HD Hr Hnow Hen Hl Hf Ha He.
  destruct (run_timers_terminates host_clock host_realtime machine_timers machine_with_timers
    (fun x => inj (TmAlarm x)) dispatch counting_machine b fuel w l HD Hr Hnow Hl Hf)
    as (w' & es & E & HD' & Hr' & Hres).
  rewrite Hen in Hres. destruct Hres as [_ Hall]. specialize (Hall ts Hts dispatch_left_alone).
  rewrite Ha in Hall. replace (e <=? _) with true in Hall by lia.
  destruct Hall as (w1 & w2 & e1 & ev & e2 & Ecb & -> & HD1 & Hr1 & Hnow1 & _ & Harm).
  destruct (dispatch_tick w1) as (w2' & es2 & E2 & _ & _ & _ & Hx); [done|done|lia|].
  rewrite Ecb in E2. injection E2 as <- ->. rewrite Hx in Harm. destruct (decide (ts = ts)); [|done].
  destruct (next_tick_spec i b (vm_now host_clock (machine_timers w1))) as [Hn Hm]; [lia|].
  exists w', (e1 ++ (inj (TmIrq 0 true) :: es2) ++ e2), (vm_now host_clock (machine_timers w1)),
    (next_tick i b (vm_now host_clock (machine_timers w1))).
  split_and!; try done; [|lia..].
  apply elem_of_app. right. by left.
Qed.
End Machine.
End Periodic.

(** ** Starting and stopping the timer blocks *)
Section Programming.
Context (host_clock host_realtime : nat -> Z) (alarm_has_dynticks : bool) `{!HostClock host_clock}.

Lemma land_1 x : x .& 1 = if test x 1 then 1 else 0.
Proof.
  unfold test. change 1 with (Z.ones 1) at 1 2. rewrite !Z.land_ones by lia. change (2 ^ 1) with 2.
  pose proof (Z.mod_pos_bound x 2 ltac:(lia)). destruct (Z.eqb_spec (x mod 2) 0) as [->|]; [done|]. cbn. lia.
Qed.

Import S5L8900Timer Periodic.

(** The interval is a hundred nanoseconds per count, a thousand counts at least. *)
Lemma update_interval n :
  fits 32 n -> muldiv64 (if n <? 1000 then 1000 else n) get_ticks_per_sec (u32 (1000000000 / 100))
               = 100 * Z.max 1000 n.
Proof.
  intros Hn. change (u32 (1000000000 / 100)) with 10000000. unfold get_ticks_per_sec.
  replace (if n <? 1000 then 1000 else n) with (Z.max 1000 n) by zcases.
  rewrite muldiv64_exact by (unfold fits in *; lia).
  replace (Z.max 1000 n * 1000000000) with (100 * Z.max 1000 n * 10000000) by lia.
  rewrite Z.div_mul by lia. apply wrap_fits. unfold fits in *. lia.
Qed.

(** Starting and stopping the S5L8900 timer.  Writing the state register
    of a stopped block with the start bit sets the start time and the interval
    (100 ns per count of the buffer, at least 1000 counts) and arms the timer
    for the first whole multiple of the interval later than the time read
    last; writing a started block without it disarms the timer and leaves every
    other timer alone; otherwise only the register changes.  No write of this
    register moves the interrupt line. *)
Theorem timer_start_stop s v :
  timers_ok (tm s) -> clock_runs (tm s) -> 0 <= vm_now host_clock (tm s) ->
  clock (st_timer s) = QEMU_CLOCK_VIRTUAL -> scale (st_timer s) = SCALE_NS -> fits 32 (bcount1 s) ->
  let i := 100 * Z.max 1000 (bcount1 s) in
  let b := vm_now host_clock (tm s) in
  exists s' es,
    s5l8900_timer1_write host_clock host_realtime alarm_has_dynticks (TIMER_4 + TIMER_STATE) v s
      = Done (tt, s', map TmAlarm es) /\ status s' = v /\ timers_ok (tm s') /\
    match test (status s) TIMER_STATE_START, test v TIMER_STATE_START with
    | false, true =>
        counting (st_timer s) i b s' /\
        exists t, b <= t /\ forall t', expires_at (tm s') t'
          = if decide (t' = st_timer s) then Some (next_tick i b t) else expires_at (tm s) t'
    | true, false =>
        forall t', expires_at (tm s') t' = if decide (t' = st_timer s) then None else expires_at (tm s) t'
    | _, _ => s' = s <| status := v |>
    end.
Proof.
  intros Hok Hrun Hnow Hc Hsc Hn i b. unfold s5l8900_timer1_write. pick 3%nat. run. unfold id.
  rewrite !land_1. unfold TIMER_STATE_START in *.
  destruct (test (status s) 1) eqn:Es, (test v 1) eqn:Ev; cbv iota.
  1, 4: exists (s <| status := v |>), []; done.
  - (* stop *)
    destruct (del_timer_ok (tm s) (st_timer s)) as (a & E & Hok' & Hx); [done|by rewrite Hc|].
    pose proof (zoom_Done tm (fun t s => s <| tm := t |>) TmAlarm _ s _ _ _ E) as Ez. cbv beta in Ez.
    exists (s <| tm := (tm s) <| active_timers := a |> |> <| status := v |>), []. split; [|by split_and!].
    change (1 <? 0) with false. change (0 <? 1) with true. cbv iota. cbn [when].
    unfold on_tm. by rewrite (bind_Done _ _ _ _ _ _ Ez).
  - (* start *)
    pose proof (zoom_Done tm (fun t s => s <| tm := t |>) TmAlarm _ s _ _ _
      (read_vm_clock host_clock host_realtime (tm s) Hrun)) as E1. cbv beta in E1.
    pose proof (vm_now_bound _ _ Hrun) as Hmax. pose proof (update_interval _ Hn) as Hint.
    fold b in E1, Hnow. set (t1 := (tm s) <| reads ::= S |>) in *.
    set (s2 := s <| tm := t1 |> <| base_time := b |> <| freq_out := u32 (1000000000 / 100) |>
                 <| tick_interval := i |> <| next_planned_tick := 0 |>).
    assert (b <= vm_now host_clock t1) as Hmono.
    { apply vm_now_monotone; [done|done|done|done|exact (Nat.le_succ_diag_r (reads (tm s)))]. }
    destruct (set_timer_run host_clock host_realtime alarm_has_dynticks s2 i b)
      as (s3 & es & E3 & Hok3 & Hrun3 & _ & _ & Hs3 & Hi3 & Hb3 & Ht3 & _ & Hx3);
      [done|done|done|done|done|done|unfold fits in Hn; lia|done|].
    exists (s3 <| status := v |>), es. split_and!; [|done|done|done|].
    + change (0 <? 1) with true. cbv iota. unfold vm_clock_ns, on_tm. rewrite bind_assoc.
      rewrite (bind_silent _ _ _ _ _ E1), bind_assoc. rewrite bind_modify, bind_assoc.
      unfold s5l8900_st_update. rewrite bind_modify. cbv zeta.
      match goal with |- bind _ _ ?x = _ => change x with
        (s <| tm := t1 |> <| base_time := u64 b |> <| freq_out := u32 (1000000000 / 100) |>
           <| tick_interval := muldiv64 (if bcount1 s <? 1000 then 1000 else bcount1 s) get_ticks_per_sec
                                 (u32 (1000000000 / 100)) |> <| next_planned_tick := 0 |>) end.
      rewrite Hint, (wrap_fits 64 b) by (unfold fits; lia). fold i s2. rewrite (bind_Done _ _ _ _ _ _ E3).
      unfold modify. by rewrite app_nil_r.
    + exists (vm_now host_clock t1). split; [done|]. exact Hx3.
Qed.
End Programming.

(** ** The one-shot timers of the S5L8930 *)
Section OneShot.
Context (host_clock host_realtime : nat -> Z) (alarm_has_dynticks : bool) `{!HostClock host_clock}.
Import S5L8930Timer.

(** A block whose first timer can be armed. *)
Definition usable (s : s5l8930_timer_s) : Prop :=
  timers_ok (tm s) /\ clock_runs (tm s) /\ 0 <= vm_now host_clock (tm s) /\
  clock (st_timer s) = QEMU_CLOCK_VIRTUAL /\ scale (st_timer s) = SCALE_NS.

Lemma interval_bound c : fits 32 (interval c).
Proof.
  unfold interval. pose proof (fits_wrap 32 ((if c =? 0 then 1000 else c) * 1000) ltac:(lia)) as H.
  unfold fits in *. Z.div_mod_to_equations; lia.
Qed.

Lemma set_timer_8930 s :
  usable s ->
  exists s' es, s5l8930_st_set_timer host_clock host_realtime alarm_has_dynticks s
      = Done (tt, s', map TmAlarm es) /\ usable s' /\
    vm_now host_clock (tm s) <= vm_now host_clock (tm s') /\
    timer s' = timer s /\ status s' = status s /\ st_timer s' = st_timer s /\
    forall t, expires_at (tm s') t
      = if decide (t = st_timer s) then Some (vm_now host_clock (tm s) + interval (timer s)) else expires_at (tm s) t.
Proof.
  intros (Hok & Hrun & Hnow & Hc & Hsc). set (now := vm_now host_clock (tm s)) in *.
  pose proof (Periodic.vm_now_bound _ _ Hrun) as Hmax. fold now in Hmax.
  pose proof (interval_bound (timer s)) as Hi. unfold fits in Hi.
  pose proof (zoom_Done tm (fun t s => s <| tm := t |>) TmAlarm _ s _ _ _
    (read_vm_clock host_clock host_realtime (tm s) Hrun)) as E1. cbv beta in E1. fold now in E1.
  set (t1 := (tm s) <| reads ::= S |>) in *.
  set (s2 := s <| tm := t1 |> <| tick_interval := interval (timer s) |>).
  set (e := now + interval (timer s)).
  assert (- 2 ^ 63 <= e * scale (st_timer s) < 2 ^ 63) as He by (rewrite Hsc; unfold SCALE_NS, e; lia).
  destruct (mod_timer_ok alarm_has_dynticks t1 (st_timer s) e) as (a & Emod & Hok' & Hx);
    [exact Hok|by rewrite Hc|exact He|].
  assert (now <= vm_now host_clock t1) as Hmono.
  { apply vm_now_monotone; [done|done|done|done|exact (Nat.le_succ_diag_r (reads (tm s)))]. }
  exists (s2 <| tm := t1 <| active_timers := a |> |>). eexists. split; [|split_and!; try done].
  - unfold s5l8930_st_set_timer, vm_clock_ns, on_tm. rewrite (bind_silent _ _ _ _ _ E1). run. unfold id.
    fold s2. change (tick_interval (_ <| tick_interval := _ |>)) with (interval (timer s)).
    change (tick_interval s2) with (interval (timer s)). change (st_timer s2) with (st_timer s).
    rewrite (wrap_fits 64 now), wrap_fits by (unfold fits; lia). fold e.
    rewrite <- (wrap_fits 64 e), (sgn_wrap 64) by (unfold fits, e; lia).
    exact (zoom_Done tm (fun t s => s <| tm := t |>) TmAlarm _ s2 _ _ _ Emod).
  - split_and!; try done. change (0 <= vm_now host_clock t1). lia.
  - intros t. rewrite Hsc in Hx. unfold SCALE_NS in Hx. rewrite Z.mul_1_r in Hx. exact (Hx t).
Qed.

Lemma del_timer_8930 s :
  usable s ->
  exists s', on_tm (qemu_del_timer (st_timer s)) s = Done (tt, s', []) /\ usable s' /\
    vm_now host_clock (tm s') = vm_now host_clock (tm s) /\
    timer s' = timer s /\ status s' = status s /\ st_timer s' = st_timer s /\
    forall t, expires_at (tm s') t = if decide (t = st_timer s) then None else expires_at (tm s) t.
Proof.
  intros (Hok & Hrun & Hnow & Hc & Hsc).
  destruct (del_timer_ok (tm s) (st_timer s)) as (a & E & Hok' & Hx); [done|by rewrite Hc|].
  exists (s <| tm := (tm s) <| active_timers := a |> |>). split; [|by split_and!].
  exact (zoom_Done tm (fun t s => s <| tm := t |>) TmAlarm _ s _ _ _ E).
Qed.

(** Writing the count of the first timer. *)
Lemma write_count s c :
  usable s -> c <> 0xffffffff ->
  exists s' es, s5l8930_timer1_write host_clock host_realtime alarm_has_dynticks TIMER_REGISTER c s
      = Done (tt, s', map TmAlarm es) /\ usable s' /\
    vm_now host_clock (tm s) <= vm_now host_clock (tm s') /\ timer s' = c /\ st_timer s' = st_timer s /\
    forall t, t <> st_timer s -> expires_at (tm s') t = expires_at (tm s) t.
Proof.
  intros Hu Hc. set (s1 := s <| timer := c |>).
  assert (forall (k : unit -> blockM unit),
    (x <- s5l8930_timer1_write host_clock host_realtime alarm_has_dynticks TIMER_REGISTER c ;; k x) s
    = (x <- when (test (status s) TIMER_STATE_START)
              (s5l8930_st_set_timer host_clock host_realtime alarm_has_dynticks) ;; k x) s1) as E.
  { intros k. unfold s5l8930_timer1_write. pick 2%nat. rewrite bind_assoc, bind_modify.
    replace (c =? 0xffffffff) with false by lia. cbv iota. by rewrite bind_assoc, bind_gets. }
  specialize (E (fun _ => ret tt)). cbv beta in E. rewrite !bind_ret_tt in E. rewrite E.
  destruct (test (status s) TIMER_STATE_START); cbn [when].
  - destruct (set_timer_8930 s1) as (s' & es & E' & Hu' & Hm & Ht & _ & Hst & Hx); [exact Hu|].
    exists s', es. split_and!; try done. intros t Hne. rewrite Hx.
    destruct (decide (t = st_timer s1)) as [Heq|]; [by destruct Hne|done].
  - exists s1, []. done.
Qed.

(** The first timer of the S5L8930 counts down once.  Writing a count (at
    24 MHz, and small enough for the multiplication by 1000 not to wrap) and
    then the start bit arms the timer for count/24 microseconds, rounded down
    to a nanosecond, after the time of the last clock reading, whatever was
    armed or running before; other timers are left alone and the line is not
    raised.  When the timer expires its callback raises the line and arms
    nothing.  Writing the control register without the start bit, at any time,
    lowers the line and disarms the timer. *)
Theorem oneshot_timer s c v v0 :
  usable s -> 0 < c -> c * 1000 < 2 ^ 32 ->
  test v TIMER_STATE_START = true -> test v0 TIMER_STATE_START = false ->
  let write := s5l8930_timer1_write host_clock host_realtime alarm_has_dynticks in
  (exists s' es t, (write TIMER_REGISTER c ;;; write TIMER_REGISTER_TICK v) s = Done (tt, s', es) /\
     usable s' /\ TmIrq 0 true ∉ es /\ vm_now host_clock (tm s) <= t /\
     (forall t', expires_at (tm s') t'
        = if decide (t' = st_timer s) then Some (t + c * 1000 / 24) else expires_at (tm s) t') /\
     s5l8930_st_tick s' = Done (tt, s', [TmIrq 0 true])) /\
  exists s' es, write TIMER_REGISTER_TICK v0 s = Done (tt, s', es) /\ last es = Some (TmIrq 0 false) /\
    forall t', expires_at (tm s') t' = if decide (t' = st_timer s) then None else expires_at (tm s) t'.
Proof.
  intros Hu Hc0 Hc Hv Hv0 write. split.
  - destruct (write_count s c Hu) as (s1 & es1 & E1 & Hu1 & Hm1 & Ht1 & Hst1 & Hx1); [lia|].
    destruct (del_timer_8930 s1 Hu1) as (s2 & E2 & Hu2 & Hm2 & Ht2 & _ & Hst2 & Hx2).
    destruct (set_timer_8930 s2 Hu2) as (s3 & es3 & E3 & Hu3 & Hm3 & Ht3 & _ & Hst3 & Hx3).
    set (m := test v TIMER_STATE_MANUALUPDATE).
    set (low := if m then [TmIrq 0 false] else []).
    exists (s3 <| status := v |>), (map TmAlarm es1 ++ low ++ map TmAlarm es3 ++ low),
      (vm_now host_clock (tm s2)). split_and!; [|exact Hu3| |lia| |].
    + rewrite (bind_Done _ _ _ _ _ _ E1). unfold write, s5l8930_timer1_write. pick 1%nat. run. unfold id.
      rewrite (bind_silent _ _ _ _ _ E2), Hv. fold m. cbn [negb orb when].
      destruct m; cbn [when]; unfold low.
      * rewrite (bind_Done _ _ s2 tt s2 [TmIrq 0 false]), (bind_Done _ _ _ _ _ _ E3) by done.
        rewrite (bind_Done _ _ s3 tt s3 [TmIrq 0 false]) by done. unfold modify. by rewrite app_nil_r.
      * rewrite bind_ret, (bind_Done _ _ _ _ _ _ E3), bind_ret. unfold modify. by rewrite !app_nil_r.
    + assert (forall es, TmIrq 0 true ∉ map TmAlarm es) as Hal.
      { intros es Hin. apply list_elem_of_fmap in Hin as (? & ? & _). done. }
      assert (TmIrq 0 true ∉ low) as Hlow.
      { unfold low. destruct m; [|apply not_elem_of_nil].
        rewrite list_elem_of_singleton. done. }
      rewrite !elem_of_app. naive_solver.
    + intros t'. change (expires_at (tm (s3 <| status := v |>)) t') with (expires_at (tm s3) t').
      rewrite Hx3, Hx2, Hst2, Hst1. destruct (decide (t' = st_timer s)) as [->|Hne]; [|by apply Hx1].
      do 2 f_equal. rewrite Ht2, Ht1. unfold interval. replace (c =? 0) with false by lia.
      rewrite wrap_fits by (unfold fits; lia). done.
    + unfold s5l8930_st_tick. run. unfold id. change (status (s3 <| status := v |>)) with v. by rewrite Hv.
  - destruct (del_timer_8930 s Hu) as (s2 & E2 & Hu2 & Hm2 & Ht2 & _ & Hst2 & Hx2).
    set (low := if test v0 TIMER_STATE_MANUALUPDATE then [TmIrq 0 false] else []).
    exists (s2 <| status := v0 |>), (low ++ [TmIrq 0 false]). split_and!; [|by apply last_snoc|exact Hx2].
    unfold write, s5l8930_timer1_write. pick 1%nat. run. unfold id.
    rewrite (bind_silent _ _ _ _ _ E2), Hv0. cbn [negb orb when].
    rewrite (bind_Done _ _ s2 tt s2 low) by (unfold low; by destruct (test v0 TIMER_STATE_MANUALUPDATE)).
    rewrite bind_ret, (bind_Done _ _ s2 tt s2 [TmIrq 0 false]) by done. done.
Qed.
End OneShot.

(** ** Witnesses and findings *)
Module TimerDemo.
Import S5L8900Timer Periodic.

(** A host clock that advances by a tenth of a millisecond per reading, for
    four hundred years. *)
Definition host_demo (n : nat) : Z := Z.min (Z.of_nat n * 100000) (2 ^ 61).

#[export] Instance host_demo_clock : HostClock host_demo.
Proof. unfold host_demo. split; intros; lia. Qed.

Definition t1 := new_timer 1 QEMU_CLOCK_VIRTUAL SCALE_NS.
Definition t2 := new_timer 2 QEMU_CLOCK_VIRTUAL SCALE_NS.

(** The clock runs; the other timer is armed for 50 microseconds. *)
Definition timers_demo : timers :=
  mk_timers [[]; [(t2, 50000)]; []] [true; true; true] false false 0 0 0 true 1.

Lemma timers_demo_ok : timers_ok timers_demo /\ clock_runs timers_demo.
Proof.
  split; [|done]. by apply (timers_ok_three _ [] [(t2, 50000)] []);
    [done|done|apply queue_ok_nil|apply queue_ok_one|apply queue_ok_nil].
Qed.

Lemma init_clocks_ok : timers_ok init_clocks.
Proof. by apply (timers_ok_three _ [] [] []); [done|done|apply queue_ok_nil..]. Qed.

Lemma timer_list_witness :
  exists s' es, qemu_mod_timer true t1 40000 timers_demo = Done (tt, s', es) /\
    expires_at s' t1 = Some 40000 /\ es = [RearmAlarm].
Proof.
  destruct (timer_list_refines_map true timers_demo t1 40000) as (_ & _ & s' & es & E & _ & Hx & Hes);
    [apply timers_demo_ok|done|done|].
  exists s', es. split; [exact E|]. split; [exact (Hx t1)|].
  vm_compute in E. by injection E as <- <-.
Defined.

Lemma next_deadline_witness :
  exists d s', qemu_next_deadline host_demo host_demo
                 (timers_demo <| reads := 0%nat |>) = Done (d, s', []) /\ 0 <= d <= 50000.
Proof.
  destruct (next_deadline_bound host_demo host_demo (timers_demo <| reads := 0%nat |>))
    as (d & s' & E & _ & H0 & Hv & _).
  - exact (proj1 timers_demo_ok).
  - exact (proj2 timers_demo_ok).
  - done.
  - intros n. pose proof (host_bounded n). lia.
  - intros type l t e Hl Hin. destruct (three_lists _ _ _ _ _ Hl) as [[-> ->]|[[-> ->]|[-> ->]]].
    1, 3: by apply elem_of_nil in Hin.
    apply list_elem_of_singleton in Hin. by injection Hin as -> ->.
  - exists d, s'. split; [exact E|]. specialize (Hv t2 50000 eq_refl eq_refl).
    change (vm_now host_demo (timers_demo <| reads := 0%nat |>)) with 0 in Hv. lia.
Defined.

Lemma timer_load_save_witness :
  exists bytes s' es, qemu_put_timer t2 timers_demo = Done (bytes, timers_demo, []) /\
    qemu_get_timer true t2 (bytes ++ [7]) init_clocks = Done ([7], s', es) /\ expires_at s' t2 = Some 50000.
Proof.
  destruct (timer_load_save true timers_demo init_clocks t2 [7])
    as (bytes & s' & es & E1 & _ & E2 & _ & Hx).
  - apply timers_demo_ok.
  - apply init_clocks_ok.
  - done.
  - intros e He. by injection He as <-.
  - exists bytes, s', es. split; [exact E1|]. split; [exact E2|]. exact (Hx t2).
Defined.

Lemma muldiv64_witness : muldiv64 (2 ^ 63 + 5) 1000000000 4000000000 = 2305843009213693953.
Proof. rewrite muldiv64_exact; [vm_compute; reflexivity|done..]. Defined.

(** A started S5L8900 block with an interval of 100 microseconds, both timers
    armed and due; the callback of the other timer reports on a line of its
    own. *)
Definition demo_block : s5l8900_timer_s :=
  mk_block 0 0 1 0 0 0 0 0 t1 0 10000000 100000 0 100000 0
    (timers_demo <| active_timers := [[]; [(t2, 50000); (t1, 100000)]; []] |>).
Definition demo_machine : machine (Rest := unit) := (demo_block, tt).
Definition demo_other (t : QEMUTimer) : dev (machine (Rest := unit)) timer_block_event unit :=
  emit (TmIrq (timer_id t) true).

Lemma demo_running : running machine_timers demo_machine.
Proof.
  split; [|done]. apply (timers_ok_three _ [] [(t2, 50000); (t1, 100000)] []);
    [done|done|apply queue_ok_nil| |apply queue_ok_nil].
  exact (insert_ok 1 t1 100000 [(t2, 50000)] (queue_ok_one 1 t2 50000 eq_refl ltac:(lia)) eq_refl eq_refl
    ltac:(lia)).
Qed.

#[export] Instance demo_other_callbacks :
  Callbacks host_demo machine_timers machine_with_timers demo_other (counting_machine t1 100000 0) 0.
Proof.
  split; [by intros t w|]. intros t w HD Hr _ _ _. exists w, [TmIrq (timer_id t) true].
  split_and!; try done. by left.
Qed.

Lemma demo_other_leaves : left_alone machine_timers demo_other (counting_machine t1 100000 0) t1.
Proof. intros t w w' es _ _ [= <- _]. done. Qed.

Lemma run_timers_witness :
  exists w' es,
    qemu_run_timers host_demo host_demo machine_timers machine_with_timers TmAlarm demo_other 3
      QEMU_CLOCK_VIRTUAL demo_machine = Done (true, w', es) /\
    nothing_due machine_timers 100000 w' /\ es = [TmIrq 2 true; TmIrq 1 true].
Proof.
  destruct (run_timers_terminates host_demo host_demo machine_timers machine_with_timers TmAlarm
    demo_other (counting_machine t1 100000 0) 0 3 demo_machine [(t2, 50000); (t1, 100000)])
    as (w' & es & E & _ & _ & Hn & _); [done|apply demo_running|done|done|cbn; lia|].
  exists w', es. split; [exact E|]. split; [exact Hn|]. vm_compute in E. by injection E as _ <-.
Defined.

Lemma periodic_timer_witness :
  exists w' es e',
    qemu_run_timers host_demo host_demo machine_timers machine_with_timers TmAlarm
      (dispatch host_demo host_demo false id demo_other t1) 3 QEMU_CLOCK_VIRTUAL demo_machine
      = Done (true, w', es) /\
    TmIrq 0 true ∈ es /\ armed machine_timers w' t1 = Some e' /\ 100000 < e'.
Proof.
  destruct (periodic_timer_fires host_demo host_demo false id demo_other t1 100000 0
    demo_other_leaves eq_refl eq_refl ltac:(lia) ltac:(lia) 3 demo_machine
    [(t2, 50000); (t1, 100000)] 100000)
    as (w' & es & t & e' & E & Hin & _ & _ & Ht & Ha & He & _);
    [done|apply demo_running|done|done|done|cbn; lia|done|done|].
  exists w', es, e'. split; [exact E|]. split; [exact Hin|]. split; [exact Ha|].
  change (vm_now host_demo (machine_timers demo_machine)) with 100000 in Ht. lia.
Defined.

Lemma timer_start_witness :
  exists s' es,
    s5l8900_timer1_write host_demo host_demo true (TIMER_4 + TIMER_STATE) 1
      (demo_block <| status := 0 |> <| bcount1 := 2000 |> <| tm := timers_demo |>)
      = Done (tt, s', map TmAlarm es) /\
    counting t1 200000 100000 s' /\ exists e, expires_at (tm s') t1 = Some e /\ e <= 600000.
Proof.
  destruct (timer_start_stop host_demo host_demo true
    (demo_block <| status := 0 |> <| bcount1 := 2000 |> <| tm := timers_demo |>) 1)
    as (s' & es & E & _ & _ & Hc & t & _ & Hx); [apply timers_demo_ok..|done|done|done|done|].
  exists s', es. split; [exact E|]. split; [exact Hc|].
  vm_compute in E. injection E as <- _. eexists. split; [reflexivity|]. done.
Defined.

Lemma oneshot_witness :
  let s := S5L8930Timer.s5l8930_timer_init 1 timers_demo in
  exists s' es, (S5L8930Timer.s5l8930_timer1_write host_demo host_demo false S5L8930Timer.TIMER_REGISTER 2400 ;;;
                 S5L8930Timer.s5l8930_timer1_write host_demo host_demo false S5L8930Timer.TIMER_REGISTER_TICK 1) s
      = Done (tt, s', es) /\
    S5L8930Timer.s5l8930_st_tick s' = Done (tt, s', [TmIrq 0 true]) /\
    expires_at (S5L8930Timer.tm s') t1 = Some 200000.
Proof.
  intros s. destruct (oneshot_timer host_demo host_demo false s 2400 1 0) as [(s' & es & t & E & _ & _ & _ & Hx & Ht) _];
    [|done|done|done|done|].
  - split; [apply timers_demo_ok|]. split; [apply timers_demo_ok|]. done.
  - exists s', es. split; [exact E|]. split; [exact Ht|]. vm_compute in E. by injection E as <- _.
Defined.

(** The comment of [qemu_next_deadline] promises a limit of 2^32, which holds
    only while no timer is armed. *)
Lemma next_deadline_unlimited :
  exists s', qemu_next_deadline host_demo host_demo
    (timers_demo <| reads := 0%nat |> <| active_timers := [[]; [(t2, 2 ^ 40)]; []] |>)
    = Done (2 ^ 40, s', []).
Proof. eexists. vm_compute. reflexivity. Qed.

(** A count whose product with 1000 wraps in 32 bits: instead of 0.18 seconds
    the timer of the S5L8930 waits for 29 nanoseconds. *)
Lemma s5l8930_count_wraps : S5L8930Timer.interval 4294968 = 29.
Proof. reflexivity. Qed.
End TimerDemo.
