(* ===== verification/Host.v ===== *)
(** * Host: what the devices use of the machine around them

    Guest memory, with the registers mapped into it, and the cryptographic
    library (OpenSSL) are code outside of the program's own devices: they are
    interfaces here, with the laws the devices rely on. *)
From S2P Require Import Prelude.

(** [cpu_physical_memory_read] and [cpu_physical_memory_write]. *)
Class GuestMemory (M : Type) := {
  phys_read : Z -> Z -> M -> list Z * M;
  phys_write : Z -> list Z -> M -> M
}.

(** OpenSSL's AES, and whether [fopen] of a file in [/tmp/aes] succeeds.
    [AES_set_decrypt_key] gets the old key schedule, which it leaves alone for a
    bit count it does not know; [AES_cbc_encrypt] returns what it writes to the
    output buffer and the chaining value it leaves in the IV. *)
Class CryptoHost (K : Type) := {
  AES_no_key : K;
  AES_set_decrypt_key : list Z -> Z -> K -> K;
  AES_cbc_encrypt : list Z -> K -> list Z -> Z -> list Z * list Z;
  aes_dump_opens : bool
}.

Definition AES_DECRYPT := 0.

Section Cbc.
Context {K : Type} `{CryptoHost K}.

(** Decryption writes as many bytes as it reads. *)
Class CbcLength := {
  cbc_decrypt_length d key iv : length (AES_cbc_encrypt d key iv AES_DECRYPT).1 = length d
}.

(** [out[0 ...] = AES_cbc_encrypt(in, n bytes)] in a buffer [out]. *)
Definition cbc_into (out inp : list Z) (n : Z) (key : K) (iv : list Z) (enc : Z) : option (list Z * list Z) :=
  b ← slice 0 n inp;
  let (o, iv') := AES_cbc_encrypt b key iv enc in
  out' ← splice 0 o out; Some (out', iv').

Lemma cbc_into_eq inp n key iv enc :
  zlen inp = n -> zlen (AES_cbc_encrypt inp key iv enc).1 = n ->
  cbc_into (zeros (Z.to_nat n)) inp n key iv enc = Some (AES_cbc_encrypt inp key iv enc).
Proof.
  intros Hi Ho. unfold cbc_into. rewrite slice_Some by (unfold zlen in *; lia). rewrite drop_0.
  rewrite take_ge by (unfold zlen in Hi; lia). cbn [mbind option_bind].
  destruct (AES_cbc_encrypt inp key iv enc) as [o iv']. cbn [fst] in Ho.
  rewrite splice_Some by (unfold zlen, zeros in *; rewrite ?length_replicate; lia).
  rewrite drop_ge by (unfold zlen, zeros in *; rewrite length_replicate; lia).
  change (Z.to_nat 0) with 0%nat. rewrite take_0. cbn [app mbind option_bind]. by rewrite app_nil_r.
Qed.

End Cbc.

(** OpenSSL's SHA-1 of a byte string: twenty bytes. *)
Class ShaLibrary := {
  SHA1 : list Z -> list Z;
  SHA1_length d : length (SHA1 d) = 20%nat;
  SHA1_fits d : Forall (fits 8) (SHA1 d)
}.
