(* ===== verification/Memory.v ===== *)
(** * Memory: the physical address space ([exec.c], [cpu-common.h], [cpu-all.h])

    A radix tree maps every page of a kilobyte to RAM or to an I/O zone; a page
    that several regions share is a subpage with a zone for each byte.  Devices
    register zones and map them; reads and writes of any length are split at
    pages, go to the RAM blocks, or call the handlers of the zone with the
    offset of the access.

    The constants are those of the ARM target.  Devices are the interface
    [IoDevices]: a handler acts on the whole state, since it may access memory
    itself.  The CPUs' caches of the map ([tlb_flush]), translated code
    ([tb_invalidate_phys_page_range]) and clients of the map are events. *)
From stdpp Require Import strings.
From S2P Require Import Prelude.

Definition TARGET_PAGE_BITS := 10.
Definition TARGET_PAGE_SIZE := 1 << TARGET_PAGE_BITS.
Definition TARGET_PHYS_ADDR_SPACE_BITS := 32.
Definition L2_BITS := 10.
Definition L2_SIZE := 1 << L2_BITS.
Definition P_L1_BITS_REM := (TARGET_PHYS_ADDR_SPACE_BITS - TARGET_PAGE_BITS) mod L2_BITS.
Definition P_L1_BITS := if P_L1_BITS_REM <? 4 then P_L1_BITS_REM + L2_BITS else P_L1_BITS_REM.
Definition P_L1_SIZE := 1 << P_L1_BITS.
Definition P_L1_SHIFT := TARGET_PHYS_ADDR_SPACE_BITS - TARGET_PAGE_BITS - P_L1_BITS.
Definition IO_MEM_SHIFT := 3.
Definition IO_MEM_RAM := 0 << IO_MEM_SHIFT.
Definition IO_MEM_ROM := 1 << IO_MEM_SHIFT.
Definition IO_MEM_UNASSIGNED := 2 << IO_MEM_SHIFT.
Definition IO_MEM_NOTDIRTY := 3 << IO_MEM_SHIFT.
Definition IO_MEM_ROMD := 1.
Definition IO_MEM_SUBPAGE := 2.
Definition IO_MEM_NB_ENTRIES := 1 << (TARGET_PAGE_BITS - IO_MEM_SHIFT).
Definition CODE_DIRTY_FLAG := 0x02.

(** [x & ~TARGET_PAGE_MASK] and [x & TARGET_PAGE_MASK] on 64-bit values. *)
Definition page_offset (x : Z) : Z := x .& (TARGET_PAGE_SIZE - 1).
Definition page_base (x : Z) : Z := x .&~ (TARGET_PAGE_SIZE - 1).
Definition TARGET_PAGE_ALIGN (x : Z) : Z := page_base (u64 (x + TARGET_PAGE_SIZE - 1)).

(** ** The page table *)

Record PhysPageDesc := mk_desc { phys_offset : Z; region_offset : Z }.
#[export] Instance eta_desc : Eta PhysPageDesc := fun d => mk_desc (phys_offset d) (region_offset d).

(** A slot of the tree: empty, a table of slots, or a table of descriptors. *)
Inductive slot := Null | Table (l : list slot) | Leaf (l : list PhysPageDesc).

(** The index into the level [i] tables. *)
Definition level_index (index : Z) (i : nat) : Z := (index >> (Z.of_nat i * L2_BITS)) .& (L2_SIZE - 1).

(** [phys_page_find]: the descriptor below a slot with [i] levels of tables. *)
Fixpoint slot_find (i : nat) (index : Z) (lp : slot) : option PhysPageDesc :=
  match i, lp with
  | O, Leaf l => aget l (index .& (L2_SIZE - 1))
  | S i', Table l => p ← aget l (level_index index i); slot_find i' index p
  | _, _ => None
  end.

(** The new descriptors count from the index that was asked for. *)
Definition fresh_leaf (index : Z) : list PhysPageDesc :=
  map (fun i => mk_desc IO_MEM_UNASSIGNED (u64 (u32 ((index + i) << TARGET_PAGE_BITS))))
    (seqZ 0 L2_SIZE).

(** [phys_page_find_alloc] with [alloc]: the slot in which the path exists, with
    the descriptor changed by [f]. *)
Fixpoint slot_update (i : nat) (index : Z) (f : PhysPageDesc -> PhysPageDesc) (lp : slot) : option slot :=
  match i with
  | O =>
      l ← match lp with Null => Some (fresh_leaf index) | Leaf l => Some l | Table _ => None end;
      d ← aget l (index .& (L2_SIZE - 1));
      l ← aset (index .& (L2_SIZE - 1)) (f d) l; Some (Leaf l)
  | S i' =>
      l ← match lp with Null => Some (replicate (Z.to_nat L2_SIZE) Null) | Table l => Some l | Leaf _ => None end;
      p ← aget l (level_index index i);
      p ← slot_update i' index f p;
      l ← aset (level_index index i) p l; Some (Table l)
  end.

(** The levels between the root and the descriptors; none for this target. *)
Definition levels : nat := Z.to_nat (P_L1_SHIFT / L2_BITS - 1).
Definition l1_index (index : Z) : Z := (index >> P_L1_SHIFT) .& (P_L1_SIZE - 1).

Definition phys_page_find (index : Z) (map : list slot) : option PhysPageDesc :=
  lp ← aget map (l1_index index); slot_find levels index lp.
Definition phys_page_update (index : Z) (f : PhysPageDesc -> PhysPageDesc) (map : list slot) : option (list slot) :=
  lp ← aget map (l1_index index);
  lp ← slot_update levels index f lp;
  aset (l1_index index) lp map.

(** ** The state *)

(** A handler with its opaque argument: of a device, of a subpage, of nothing,
    or one that swaps bytes around another. *)
Inductive io_fn (F : Type) :=
  | Unassigned
  | Device (f : F)
  | Subpage (k : nat)
  | SwapEndian (f : io_fn F).
Arguments Unassigned {F}.
Arguments Device {F} f.
Arguments Subpage {F} k.
Arguments SwapEndian {F} f.

Inductive device_endian := DEVICE_NATIVE_ENDIAN | DEVICE_BIG_ENDIAN | DEVICE_LITTLE_ENDIAN.

(** The three handlers of a zone, by width; no handler is a null pointer. *)
Record io_zone F := mk_zone { io_mem_read : list (option (io_fn F)); io_mem_write : list (option (io_fn F)); io_mem_used : bool }.
Arguments mk_zone {F}.
Arguments io_mem_read {F}.
Arguments io_mem_write {F}.
Arguments io_mem_used {F}.
#[export] Instance eta_zone F : Eta (io_zone F) := fun z => mk_zone (io_mem_read z) (io_mem_write z) (io_mem_used z).

Record subpage_t := mk_subpage { base : Z; sub_io_index : list Z; sub_region_offset : list Z }.
#[export] Instance eta_subpage : Eta subpage_t := fun s => mk_subpage (base s) (sub_io_index s) (sub_region_offset s).

Record RAMBlock := mk_block { host : list Z; offset : Z; blength : Z; idstr : string }.
#[export] Instance eta_ramblock : Eta RAMBlock := fun b => mk_block (host b) (offset b) (blength b) (idstr b).

Inductive mem_event (E : Type) :=
  | MemNotify (start size phys : Z)
  | MemTlbFlush
  | MemInvalidate (first last : Z)
  | MemDevice (e : E).
Arguments MemNotify {E}.
Arguments MemTlbFlush {E}.
Arguments MemInvalidate {E}.
Arguments MemDevice {E}.

(** [world] is the state of the devices. *)
Record memory_state F W := mk_memory {
  l1_phys_map : list slot; io_mem : list (io_zone F); subpages : list subpage_t;
  blocks : list RAMBlock; phys_dirty : list Z; world : W
}.
Arguments mk_memory {F W}.
Arguments l1_phys_map {F W}.
Arguments io_mem {F W}.
Arguments subpages {F W}.
Arguments blocks {F W}.
Arguments phys_dirty {F W}.
Arguments world {F W}.
#[export] Instance eta_memory F W : Eta (memory_state F W) := fun s =>
  mk_memory (l1_phys_map s) (io_mem s) (subpages s) (blocks s) (phys_dirty s) (world s).

(** The handlers of the devices. *)
Class IoDevices (F W E : Type) := {
  device_read : F -> Z -> dev (memory_state F W) (mem_event E) Z;
  device_write : F -> Z -> Z -> dev (memory_state F W) (mem_event E) unit
}.

Section Memory.
Context {F W E : Type} `{IoDevices F W E}.
Abbreviation memM := (dev (memory_state F W) (mem_event E)).

(** ** I/O zones *)

Definition bswap16 (v : Z) : Z := ((v << 8) .& 0xff00) .| ((v >> 8) .& 0xff).
Definition bswap32 (v : Z) : Z :=
  (((v << 24) .& 0xff000000) .| ((v << 8) .& 0xff0000)) .| (((v >> 8) .& 0xff00) .| ((v >> 24) .& 0xff)).
(** The swap of a handler by width: bytes, words, double words. *)
Definition bswap (len : nat) (v : Z) : Z :=
  match len with 1%nat => bswap16 (u16 v) | 2%nat => bswap32 v | _ => v end.

(** [io_mem_read[idx][len](io_mem_opaque[idx], addr)]; a subpage looks its own
    zone up and calls it.  Subpages only ever hold zones of other kinds, or
    another subpage for bytes that were one before: fuel follows the chain. *)
Fixpoint io_read (fuel : nat) (idx : Z) (len : nat) (addr : Z) : memM Z :=
  match fuel with
  | O => undef
  | S fuel' =>
      z <- (s <- gets id ;; lift (aget (io_mem s) idx)) ;;
      fn <- lift (o ← io_mem_read z !! len; o) ;;
      (fix call (fn : io_fn F) : memM Z :=
         match fn with
         | Unassigned => ret 0
         | Device f => device_read f addr
         | SwapEndian fn => v <- call fn ;; ret (bswap len v)
         | Subpage k =>
             m <- (s <- gets id ;; lift (subpages s !! k)) ;;
             o <- lift (aget (sub_region_offset m) (page_offset addr)) ;;
             i <- lift (aget (sub_io_index m) (page_offset addr)) ;;
             io_read fuel' i len (u32 (addr + o))
         end) fn
  end.

Fixpoint io_write (fuel : nat) (idx : Z) (len : nat) (addr val : Z) : memM unit :=
  match fuel with
  | O => undef
  | S fuel' =>
      z <- (s <- gets id ;; lift (aget (io_mem s) idx)) ;;
      fn <- lift (o ← io_mem_write z !! len; o) ;;
      (fix call (fn : io_fn F) (val : Z) : memM unit :=
         match fn with
         | Unassigned => ret tt
         | Device f => device_write f addr val
         | SwapEndian fn => call fn (bswap len val)
         | Subpage k =>
             m <- (s <- gets id ;; lift (subpages s !! k)) ;;
             o <- lift (aget (sub_region_offset m) (page_offset addr)) ;;
             i <- lift (aget (sub_io_index m) (page_offset addr)) ;;
             io_write fuel' i len (u32 (addr + o)) val
         end) fn val
  end.

(** A zone and a subpage in it: two calls, unless subpages nest. *)
Definition io_fuel (s : memory_state F W) : nat := S (S (length (subpages s))).

(** The first zone that is not used; [None] is the answer -1. *)
Fixpoint free_zone (l : list (io_zone F)) (i : Z) : option Z :=
  match l with
  | [] => None
  | z :: r => if io_mem_used z then free_zone r (i + 1) else Some i
  end.
Definition get_free_io_mem_idx : memM (option Z) :=
  s <- gets id ;;
  match free_zone (io_mem s) 0 with
  | None => ret None
  | Some i =>
      z <- lift (aget (io_mem s) i) ;;
      l <- lift (aset i (z <| io_mem_used := true |>) (io_mem s)) ;;
      modify (fun s => s <| io_mem := l |>) ;;;
      ret (Some i)
  end.

Definition upd_zone (i : Z) (f : io_zone F -> io_zone F) : memM unit :=
  s <- gets id ;;
  z <- lift (aget (io_mem s) i) ;;
  l <- lift (aset i (f z) (io_mem s)) ;;
  modify (fun s => s <| io_mem := l |>).

(** A handler that is left out is unassigned; big-endian devices are swapped on
    this little-endian target. *)
Definition zone_fns (endian : device_endian) (fns : list (option (io_fn F))) : list (option (io_fn F)) :=
  map (fun o => let f := default Unassigned o in
                Some (match endian with DEVICE_BIG_ENDIAN => SwapEndian f | _ => f end)) fns.

Definition cpu_register_io_memory_fixed (io_index : Z) (mem_read mem_write : list (option (io_fn F)))
    (endian : device_endian) : memM Z :=
  i <- (if io_index <=? 0 then get_free_io_mem_idx
        else let i := io_index >> IO_MEM_SHIFT in
             ret (if IO_MEM_NB_ENTRIES <=? i then None else Some i)) ;;
  match i with
  | None => ret (-1)
  | Some i =>
      upd_zone i (fun z => z <| io_mem_read := zone_fns endian mem_read |>
                             <| io_mem_write := zone_fns endian mem_write |>) ;;;
      ret (i << IO_MEM_SHIFT)
  end.

Definition cpu_register_io_memory (mem_read mem_write : list (option (io_fn F))) (endian : device_endian) : memM Z :=
  cpu_register_io_memory_fixed 0 mem_read mem_write endian.

Definition unassigned_mem : list (option (io_fn F)) := replicate 3 (Some Unassigned).
Definition error_mem_read : list (option (io_fn F)) := replicate 3 None.

Definition cpu_unregister_io_memory (io_table_address : Z) : memM unit :=
  upd_zone (io_table_address >> IO_MEM_SHIFT) (fun z =>
    z <| io_mem_read := unassigned_mem |> <| io_mem_write := unassigned_mem |> <| io_mem_used := false |>).

(** The zones of the emulator itself; those of the CPUs' caches are given. *)
Definition io_mem_init (notdirty_mem_write watch_mem_read watch_mem_write : list (option (io_fn F))) : memM unit :=
  _ <- cpu_register_io_memory_fixed IO_MEM_ROM error_mem_read unassigned_mem DEVICE_NATIVE_ENDIAN ;;
  _ <- cpu_register_io_memory_fixed IO_MEM_UNASSIGNED unassigned_mem unassigned_mem DEVICE_NATIVE_ENDIAN ;;
  _ <- cpu_register_io_memory_fixed IO_MEM_NOTDIRTY error_mem_read notdirty_mem_write DEVICE_NATIVE_ENDIAN ;;
  for_up 0 5 (fun i => upd_zone i (fun z => z <| io_mem_used := true |>)) ;;;
  _ <- cpu_register_io_memory watch_mem_read watch_mem_write DEVICE_NATIVE_ENDIAN ;;
  ret tt.

(** ** Mapping regions *)

Definition find_page (index : Z) : memM (option PhysPageDesc) := gets (fun s => phys_page_find index (l1_phys_map s)).
Definition update_page (index : Z) (f : PhysPageDesc -> PhysPageDesc) : memM unit :=
  s <- gets id ;;
  m <- lift (phys_page_update index f (l1_phys_map s)) ;;
  modify (fun s => s <| l1_phys_map := m |>).

(** The byte [idx] of a subpage gets a zone. *)
Definition subpage_set (k : nat) (zone region idx : Z) : memM unit :=
  s <- gets id ;;
  m <- lift (subpages s !! k) ;;
  a <- lift (aset idx zone (sub_io_index m)) ;;
  b <- lift (aset idx region (sub_region_offset m)) ;;
  modify (fun s => s <| subpages ::= <[k := m <| sub_io_index := a |> <| sub_region_offset := b |>]> |>).

(** The bytes [start] to [end] of a subpage get a zone; RAM cannot share a page. *)
Definition subpage_register (k : nat) (start end_ memory region : Z) : memM Z :=
  if (TARGET_PAGE_SIZE <=? start) || (TARGET_PAGE_SIZE <=? end_) then ret (-1)
  else
    let memory := if page_offset memory =? IO_MEM_RAM then IO_MEM_UNASSIGNED else memory in
    let zone := (memory >> IO_MEM_SHIFT) .& (IO_MEM_NB_ENTRIES - 1) in
    for_up start (Z.to_nat (end_ - start + 1)) (subpage_set k zone region) ;;;
    ret 0.

(** A new subpage and its zone; the page's descriptor points to the zone. *)
Definition subpage_init (index base orig_memory region : Z) : memM nat :=
  s <- gets id ;;
  let k := length (subpages s) in
  let z := zeros (Z.to_nat TARGET_PAGE_SIZE) in
  modify (fun s => s <| subpages ::= fun l => l ++ [mk_subpage base z z] |>) ;;;
  let fns := replicate 3 (Some (Subpage k)) in
  subpage_memory <- cpu_register_io_memory fns fns DEVICE_NATIVE_ENDIAN ;;
  update_page index (fun d => d <| phys_offset := u64 (subpage_memory .| IO_MEM_SUBPAGE) |>) ;;;
  _ <- subpage_register k 0 (TARGET_PAGE_SIZE - 1) orig_memory region ;;
  ret k.

(** [CHECK_SUBPAGE]: the part of the page at [addr] that the region covers. *)
Definition check_subpage (addr start_addr orig_size : Z) : Z * Z * bool :=
  let (start2, need) := if start_addr <? addr then (0, false)
                        else (page_offset start_addr, 0 <? page_offset start_addr) in
  if TARGET_PAGE_SIZE <=? u64 (u64 (start_addr + orig_size) - addr) then (start2, TARGET_PAGE_SIZE - 1, need)
  else
    let end2 := page_offset (u64 (start_addr + orig_size - 1)) in
    (start2, end2, need || (end2 <? TARGET_PAGE_SIZE - 1)).

(** RAM, ROM and ROM devices take a page of [phys_offset] with every page. *)
Definition consumes_ram (phys : Z) : bool := (page_offset phys <=? IO_MEM_ROM) || test phys IO_MEM_ROMD.

(** The subpage behind the zone of a page's descriptor. *)
Definition subpage_of (orig_memory : Z) : memM nat :=
  z <- (s <- gets id ;; lift (aget (io_mem s) (page_offset orig_memory >> IO_MEM_SHIFT))) ;;
  match io_mem_read z !! 0%nat with Some (Some (Subpage k)) => ret k | _ => undef end.

(** One turn of the loop of [cpu_register_physical_memory_offset]: the page at
    [addr]; the result is the [phys_offset] for the next page. *)
Definition register_page (start_addr orig_size addr phys region : Z) : memM Z :=
  let index := addr >> TARGET_PAGE_BITS in
  let '(start2, end2, need_subpage) := check_subpage addr start_addr orig_size in
  let next := if consumes_ram phys then u64 (phys + TARGET_PAGE_SIZE) else phys in
  let fresh :=
    update_page index (fun d => d <| phys_offset := phys |> <| region_offset := region |>) ;;;
    if consumes_ram phys then ret next
    else
      when need_subpage
        (k <- subpage_init index (page_base addr) IO_MEM_UNASSIGNED (page_base addr) ;;
         _ <- subpage_register k start2 end2 phys region ;;
         update_page index (fun d => d <| region_offset := 0 |>)) ;;;
      ret phys in
  p <- find_page index ;;
  match p with
  | Some d =>
      if phys_offset d =? IO_MEM_UNASSIGNED then fresh
      else if need_subpage then
        k <- (if test (phys_offset d) IO_MEM_SUBPAGE then subpage_of (phys_offset d)
              else subpage_init index (page_base addr) (phys_offset d) (region_offset d)) ;;
        _ <- subpage_register k start2 end2 phys region ;;
        update_page index (fun d => d <| region_offset := 0 |>) ;;;
        ret phys
      else update_page index (fun d => d <| phys_offset := phys |>) ;;; ret next
  | None => fresh
  end.

Fixpoint register_pages (n : nat) (start_addr orig_size addr phys region : Z) : memM unit :=
  match n with
  | O => ret tt
  | S n' =>
      phys <- register_page start_addr orig_size addr phys region ;;
      register_pages n' start_addr orig_size (u32 (addr + TARGET_PAGE_SIZE)) phys (u64 (region + TARGET_PAGE_SIZE))
  end.

(** The end address is a physical address: 32 bits of it count. *)
Definition cpu_register_physical_memory_offset (start_addr size phys region : Z) : memM unit :=
  emit (MemNotify start_addr size phys) ;;;
  let region := page_base (if phys =? IO_MEM_UNASSIGNED then start_addr else region) in
  let n := u32 (TARGET_PAGE_ALIGN size) / TARGET_PAGE_SIZE in
  register_pages (Z.to_nat n) start_addr size start_addr phys region ;;;
  emit MemTlbFlush.
Definition cpu_register_physical_memory (start_addr size phys : Z) : memM unit :=
  cpu_register_physical_memory_offset start_addr size phys 0.
Definition cpu_get_physical_page_desc (addr : Z) : memM Z :=
  p <- find_page (addr >> TARGET_PAGE_BITS) ;;
  ret (match p with None => IO_MEM_UNASSIGNED | Some d => phys_offset d end).

(** ** RAM blocks *)

Definition block_end (b : RAMBlock) : Z := u64 (offset b + blength b).
Definition ULONG_MAX := 2 ^ 64 - 1.

(** The start of the next block at or after [e]. *)
Definition next_offset (e : Z) (l : list RAMBlock) : Z :=
  fold_left (fun next b => if e <=? offset b then Z.min next (offset b) else next) l ULONG_MAX.
(** The smallest gap behind a block that is large enough. *)
Definition find_ram_offset (size : Z) (l : list RAMBlock) : Z :=
  (fold_left (fun '(off, mingap) b =>
     let gap := u64 (next_offset (block_end b) l - block_end b) in
     if (size <=? gap) && (gap <? mingap) then (block_end b, gap) else (off, mingap))
    l (0, ULONG_MAX)).1.
Definition last_ram_offset (l : list RAMBlock) : Z := fold_left (fun m b => Z.max m (block_end b)) l 0.

(** [host]: the memory of the block.  Bytes that [realloc] adds to the dirty map
    are those of the new block. *)
Definition qemu_ram_alloc_from_ptr (name : string) (size : Z) (host : list Z) : memM Z :=
  let size := TARGET_PAGE_ALIGN size in
  s <- gets id ;;
  if existsb (fun b => bool_decide (idstr b = name)) (blocks s) then hw_error
  else
    let off := find_ram_offset size (blocks s) in
    let l := mk_block host off size name :: blocks s in
    let n := Z.to_nat (last_ram_offset l >> TARGET_PAGE_BITS) in
    d <- lift (splice (off >> TARGET_PAGE_BITS) (replicate (Z.to_nat (size >> TARGET_PAGE_BITS)) 0xff)
                 (take n (phys_dirty s ++ zeros n))) ;;
    modify (fun s => s <| blocks := l |> <| phys_dirty := d |>) ;;;
    ret off.

(** [qemu_get_ram_ptr]: the block of a RAM address, which moves to the front. *)
Fixpoint take_block (addr : Z) (l : list RAMBlock) : option (RAMBlock * list RAMBlock) :=
  match l with
  | [] => None
  | b :: r =>
      if u64 (addr - offset b) <? blength b then Some (b, r)
      else '(c, r') ← take_block addr r; Some (c, b :: r')
  end.
Definition qemu_get_ram_ptr (addr : Z) : memM RAMBlock :=
  s <- gets id ;;
  match take_block addr (blocks s) with
  | None => hw_error
  | Some (b, r) => modify (fun s => s <| blocks := b :: r |>) ;;; ret b
  end.

(** [memcpy] from and to such a pointer moved on by [skip] bytes. *)
Definition ram_load (addr skip n : Z) : memM (list Z) :=
  b <- qemu_get_ram_ptr addr ;;
  lift (slice (u64 (addr - offset b) + skip) n (host b)).
Definition ram_store (addr : Z) (d : list Z) : memM unit :=
  b <- qemu_get_ram_ptr addr ;;
  h <- lift (splice (u64 (addr - offset b)) d (host b)) ;;
  modify (fun s => s <| blocks ::= fun l => (b <| host := h |>) :: tail l |>).

(** The dirty map: translated code on a clean page is thrown away. *)
Definition dirty_ram (addr1 l : Z) : memM unit :=
  s <- gets id ;;
  f <- lift (aget (phys_dirty s) (addr1 >> TARGET_PAGE_BITS)) ;;
  when (negb (f =? 0xff))
    (emit (MemInvalidate addr1 (u64 (addr1 + l))) ;;;
     d <- lift (aset (addr1 >> TARGET_PAGE_BITS) (f .| (0xff .&~ CODE_DIRTY_FLAG)) (phys_dirty s)) ;;
     modify (fun s => s <| phys_dirty := d |>)).

(** ** Accesses *)

(** The width of the next access to an I/O page: as wide as the offset allows. *)
Definition access_width (l addr1 : Z) : nat :=
  if (4 <=? l) && (addr1 .& 3 =? 0) then 2%nat
  else if (2 <=? l) && (addr1 .& 1 =? 0) then 1%nat else 0%nat.
Definition width_bytes (w : nat) : nat := Nat.pow 2 w.

(** What an address is for the reading and the writing side. *)
Definition page_of (addr : Z) : memM (Z * Z) :=
  p <- find_page (addr >> TARGET_PAGE_BITS) ;;
  ret (match p with
       | None => (IO_MEM_UNASSIGNED, addr)
       | Some d => (phys_offset d, u32 (page_offset addr + region_offset d))
       end).
Definition zone_of (pd : Z) : Z := (pd >> IO_MEM_SHIFT) .& (IO_MEM_NB_ENTRIES - 1).
Definition reads_io (pd : Z) : bool := (IO_MEM_ROM <? page_offset pd) && negb (test pd IO_MEM_ROMD).
Definition writes_io (pd : Z) : bool := negb (page_offset pd =? IO_MEM_RAM).

(** One turn of the loop of [cpu_physical_memory_rw]; the bytes are those moved. *)
Definition read_some (addr len : Z) : memM (list Z) :=
  let l := Z.min len (u32 (page_base addr + TARGET_PAGE_SIZE - addr)) in
  let* (pd, addr1) := page_of addr in
  if reads_io pd then
    let w := access_width l addr1 in
    fuel <- gets io_fuel ;;
    v <- io_read fuel (zone_of pd) w addr1 ;;
    ret (le_bytes (width_bytes w) v)
  else ram_load (page_base pd) (page_offset addr) l.
Definition write_some (addr : Z) (buf : list Z) : memM nat :=
  let l := Z.min (zlen buf) (u32 (page_base addr + TARGET_PAGE_SIZE - addr)) in
  let* (pd, addr1) := page_of addr in
  if writes_io pd then
    let w := access_width l addr1 in
    fuel <- gets io_fuel ;;
    io_write fuel (zone_of pd) w addr1 (le_value (take (width_bytes w) buf)) ;;;
    ret (width_bytes w)
  else
    let addr1 := u64 (page_base pd + page_offset addr) in
    ram_store addr1 (take (Z.to_nat l) buf) ;;;
    dirty_ram addr1 l ;;;
    ret (Z.to_nat l).

(** Every turn moves a byte at least: [len] turns are enough. *)
Fixpoint read_loop (fuel : nat) (addr len : Z) : memM (list Z) :=
  match fuel with
  | O => ret []
  | S fuel' =>
      if len <=? 0 then ret []
      else
        d <- read_some addr len ;;
        r <- read_loop fuel' (u32 (addr + zlen d)) (len - zlen d) ;;
        ret (d ++ r)
  end.
Fixpoint write_loop (fuel : nat) (addr : Z) (buf : list Z) : memM unit :=
  match fuel, buf with
  | S fuel', _ :: _ => n <- write_some addr buf ;; write_loop fuel' (u32 (addr + Z.of_nat n)) (drop n buf)
  | _, _ => ret tt
  end.
Definition cpu_physical_memory_read (addr len : Z) : memM (list Z) := read_loop (Z.to_nat len) addr len.
Definition cpu_physical_memory_write (addr : Z) (buf : list Z) : memM unit := write_loop (length buf) addr buf.

(** For loading ROMs: RAM and ROM alike, and nothing else. *)
Fixpoint write_rom_loop (fuel : nat) (addr : Z) (buf : list Z) : memM unit :=
  match fuel, buf with
  | S fuel', _ :: _ =>
      let l := Z.min (zlen buf) (u32 (page_base addr + TARGET_PAGE_SIZE - addr)) in
      pd <- cpu_get_physical_page_desc addr ;;
      when ((page_offset pd =? IO_MEM_RAM) || (page_offset pd =? IO_MEM_ROM) || test pd IO_MEM_ROMD)
        (ram_store (u64 (page_base pd + page_offset addr)) (take (Z.to_nat l) buf)) ;;;
      write_rom_loop fuel' (u32 (addr + l)) (drop (Z.to_nat l) buf)
  | _, _ => ret tt
  end.
Definition cpu_physical_memory_write_rom (addr : Z) (buf : list Z) : memM unit :=
  write_rom_loop (length buf) addr buf.

(** Aligned accesses of one width.  The byte of [ldub_phys] goes through the
    general access. *)
Definition ld_phys (w : nat) (addr : Z) : memM Z :=
  let* (pd, addr1) := page_of addr in
  if reads_io pd then fuel <- gets io_fuel ;; io_read fuel (zone_of pd) w addr1
  else d <- ram_load (page_base pd) (page_offset addr) (Z.of_nat (width_bytes w)) ;; ret (le_value d).
Definition ldub_phys (addr : Z) : memM Z := d <- cpu_physical_memory_read addr 1 ;; ret (le_value d).
Definition lduw_phys (addr : Z) : memM Z := ld_phys 1 addr.
Definition ldl_phys (addr : Z) : memM Z := ld_phys 2 addr.
Definition st_phys (w : nat) (addr val : Z) : memM unit :=
  let* (pd, addr1) := page_of addr in
  if writes_io pd then fuel <- gets io_fuel ;; io_write fuel (zone_of pd) w addr1 val
  else
    let addr1 := u64 (page_base pd + page_offset addr) in
    ram_store addr1 (le_bytes (width_bytes w) val) ;;;
    dirty_ram addr1 (Z.of_nat (width_bytes w)).
Definition stb_phys (addr val : Z) : memM unit := cpu_physical_memory_write addr [u8 val].
Definition stw_phys (addr val : Z) : memM unit := st_phys 1 addr val.
Definition stl_phys (addr val : Z) : memM unit := st_phys 2 addr val.

(** ** The page table is a map *)

(** What a descriptor says: an unassigned one is as good as none. *)
Definition assigned (o : option PhysPageDesc) : option PhysPageDesc :=
  d ← o; if phys_offset d =? IO_MEM_UNASSIGNED then None else Some d.

Fixpoint slot_ok (i : nat) (lp : slot) : Prop :=
  match lp, i with
  | Null, _ => True
  | Leaf l, O => zlen l = L2_SIZE
  | Table l, S i' => zlen l = L2_SIZE /\ Forall (slot_ok i') l
  | _, _ => False
  end.

(** The part of an index that [i] levels of tables look at. *)
Definition low (i : nat) (x : Z) : Z := x mod (2 ^ (Z.of_nat (S i) * L2_BITS)).

Lemma land_mod x n : 0 <= n -> x .& (2 ^ n - 1) = x mod 2 ^ n.
Proof. intros. rewrite <- Z.land_ones by done. f_equal. rewrite Z.ones_equiv. lia. Qed.

Lemma level_index_eq x i : level_index x i = (x / 2 ^ (Z.of_nat i * L2_BITS)) mod 2 ^ L2_BITS.
Proof.
  unfold level_index. rewrite Z.shiftr_div_pow2 by (unfold L2_BITS; lia).
  change (L2_SIZE - 1) with (2 ^ 10 - 1). by rewrite land_mod.
Qed.

Lemma low_S i x : low (S i) x = low i x + 2 ^ (Z.of_nat (S i) * L2_BITS) * level_index x (S i).
Proof.
  unfold low. rewrite level_index_eq.
  replace (2 ^ (Z.of_nat (S (S i)) * L2_BITS)) with (2 ^ (Z.of_nat (S i) * L2_BITS) * 2 ^ L2_BITS).
  - apply Z.rem_mul_r; [apply Z.pow_nonzero|apply Z.pow_pos_nonneg]; unfold L2_BITS; lia.
  - rewrite <- Z.pow_add_r by (unfold L2_BITS; lia). f_equal. lia.
Qed.

Lemma level_index_bound x i : 0 <= level_index x i < L2_SIZE.
Proof. rewrite level_index_eq. apply Z.mod_pos_bound. by unfold L2_BITS. Qed.

Lemma low_bound i x : 0 <= low i x < 2 ^ (Z.of_nat (S i) * L2_BITS).
Proof. apply Z.mod_pos_bound. unfold L2_BITS. lia. Qed.

Lemma low_S_iff i x y : low (S i) x = low (S i) y <-> low i x = low i y /\ level_index x (S i) = level_index y (S i).
Proof.
  rewrite !low_S. pose proof (low_bound i x). pose proof (low_bound i y). split; [|by intros [-> ->]].
  intros Heq. assert (level_index x (S i) = level_index y (S i)) as El by nia. rewrite El in Heq. lia.
Qed.

Lemma low_O x : x .& (L2_SIZE - 1) = low 0 x.
Proof. change (L2_SIZE - 1) with (2 ^ 10 - 1). by rewrite land_mod. Qed.

Lemma fresh_leaf_get index i : 0 <= i < L2_SIZE -> exists d, aget (fresh_leaf index) i = Some d /\ phys_offset d = IO_MEM_UNASSIGNED.
Proof.
  intros Hi. unfold fresh_leaf, aget. destruct (Z.ltb_spec i 0); [lia|]. rewrite list_lookup_fmap.
  rewrite lookup_seqZ_lt by lia. eexists. by split.
Qed.

Lemma fresh_leaf_length index : zlen (fresh_leaf index) = L2_SIZE.
Proof. unfold zlen, fresh_leaf. by rewrite length_map, length_seqZ. Qed.

(** What updating the descriptor of [x] does to the one of [y]. *)
Definition updated (f : PhysPageDesc -> PhysPageDesc) (same : Prop) (old new : option PhysPageDesc) : Prop :=
  (same -> exists d, new = Some (f d) /\ (forall d0, old = Some d0 -> d = d0) /\
                     (old = None -> phys_offset d = IO_MEM_UNASSIGNED)) /\
  (~ same -> assigned new = assigned old).

Lemma find_leaf y lp : slot_find 0 y lp = match lp with Leaf l => aget l (low 0 y) | _ => None end.
Proof. destruct lp; [done..|]. cbn [slot_find]. by rewrite low_O. Qed.

Lemma leaf_update x f lp :
  slot_ok 0 lp -> exists lp', slot_update 0 x f lp = Some lp' /\ slot_ok 0 lp' /\
    forall y, updated f (low 0 y = low 0 x) (slot_find 0 y lp) (slot_find 0 y lp').
Proof.
  intros Hok. cbn [slot_update]. rewrite low_O.
  set (l := match lp with Null => fresh_leaf x | Leaf l => l | Table _ => [] end).
  assert (match lp with Null => Some (fresh_leaf x) | Leaf l => Some l | Table _ => None end = Some l) as ->
    by by destruct lp.
  assert (zlen l = L2_SIZE) as Hl by (destruct lp; [apply fresh_leaf_length|done|done]).
  cbn [mbind option_bind].
  destruct (aget_Some l (low 0 x)) as [d Hd]; [rewrite Hl; apply low_bound|]. rewrite Hd. cbn [mbind option_bind].
  rewrite aset_Some by (rewrite Hl; apply low_bound). set (l' := <[_ := _]> l).
  assert (aset (low 0 x) (f d) l = Some l') as Hset by (apply aset_Some; rewrite Hl; apply low_bound).
  cbn [mbind option_bind]. exists (Leaf l'). split; [done|]. split.
  { cbn. unfold zlen. rewrite (aset_length _ _ _ _ Hset). exact Hl. }
  intros y. rewrite !find_leaf. split.
  - intros ->. exists d. split; [by apply (aget_aset_eq l)|].
    destruct lp as [|?|l0]; [|done|]; (split; [|intros En]).
    + done.
    + destruct (fresh_leaf_get x (low 0 x)) as (e & He & Hp); [apply low_bound|]. unfold l in Hd. rewrite Hd in He.
      by injection He as ->.
    + intros d0 H0. unfold l in Hd. rewrite Hd in H0. by injection H0.
    + unfold l in Hd. by rewrite Hd in En.
  - intros Hne. rewrite (aget_aset_ne _ _ _ _ _ (not_eq_sym Hne) Hset).
    destruct lp as [|?|l0]; [|done|done].
    destruct (fresh_leaf_get x (low 0 y)) as (e & He & Hp); [apply low_bound|]. unfold l. rewrite He. cbn. by rewrite Hp.
Qed.

(** The tree implements a map from page indices: an update changes the entry of
    its index and no other. *)
Lemma slot_update_spec i x f lp :
  slot_ok i lp -> exists lp', slot_update i x f lp = Some lp' /\ slot_ok i lp' /\
    forall y, updated f (low i y = low i x) (slot_find i y lp) (slot_find i y lp').
Proof.
  revert lp. induction i as [|i IH]; intros lp Hok; [by apply leaf_update|].
  cbn [slot_update slot_find].
  set (l := match lp with Null => replicate (Z.to_nat L2_SIZE) Null | Table l => l | Leaf _ => [] end).
  assert (match lp with Null => Some (replicate (Z.to_nat L2_SIZE) Null) | Table l => Some l | Leaf _ => None end = Some l)
    as -> by by destruct lp.
  assert (zlen l = L2_SIZE /\ Forall (slot_ok i) l) as [Hl Hall].
  { destruct lp; cbn [slot_ok] in Hok; [|done|done]. split; [by unfold l, zlen; rewrite length_replicate|].
    apply Forall_replicate. by destruct i. }
  assert (forall y, match lp with Table l => p ← aget l (level_index y (S i)); slot_find i y p | _ => None end
                    = p ← aget l (level_index y (S i)); slot_find i y p) as Hfind.
  { intros y. destruct lp; [|done|by cbn in Hok]. unfold l, aget.
    destruct (_ <? _); [done|]. destruct (_ !! _) as [p|] eqn:Eq; [|done].
    apply lookup_replicate in Eq as [-> _]. by destruct i. }
  assert (forall y, exists p, aget l (level_index y (S i)) = Some p /\ slot_ok i p) as Hget.
  { intros y. destruct (aget_Some l (level_index y (S i))) as [p Hp]; [rewrite Hl; apply level_index_bound|].
    exists p. split; [done|]. by apply (Forall_aget _ l (level_index y (S i))). }
  destruct (Hget x) as (p & Hp & Hpok). destruct (IH p Hpok) as (p' & Eq & Hp'ok & Hspec).
  assert (aset (level_index x (S i)) p' l = Some (<[Z.to_nat (level_index x (S i)) := p']> l)) as Hset
    by (apply aset_Some; rewrite Hl; apply level_index_bound).
  cbn [mbind option_bind]. rewrite Hp. cbn [mbind option_bind]. rewrite Eq. cbn [mbind option_bind].
  rewrite Hset. cbn [mbind option_bind]. eexists. split; [done|]. split.
  { split; [unfold zlen; rewrite (aset_length _ _ _ _ Hset); exact Hl|]. exact (Forall_aset _ _ _ _ _ Hall Hp'ok Hset). }
  intros y. rewrite Hfind. unfold updated. rewrite low_S_iff. destruct (decide (level_index y (S i) = level_index x (S i))) as [El|El].
  - rewrite El, (aget_aset_eq _ _ _ _ Hset), Hp. cbn [mbind option_bind]. destruct (Hspec y) as [H1 H2]. split.
    + intros [Hy _]. by apply H1.
    + intros Hn. apply H2. intros Hy. by apply Hn.
  - rewrite (aget_aset_ne _ _ _ _ _ (not_eq_sym El) Hset). split; [by intros [_ ?]|done].
Qed.

Definition map_ok (m : list slot) : Prop := zlen m = P_L1_SIZE /\ Forall (slot_ok levels) m.

(** Page indices of the address space. *)
Definition page_index (x : Z) : Prop := 0 <= x < 2 ^ (TARGET_PHYS_ADDR_SPACE_BITS - TARGET_PAGE_BITS).

Lemma page_index_split x : page_index x -> x = low levels x + 2 ^ P_L1_SHIFT * l1_index x /\ 0 <= l1_index x < P_L1_SIZE.
Proof.
  unfold page_index. intros Hx. unfold l1_index. change (P_L1_SIZE - 1) with (2 ^ 12 - 1).
  rewrite land_mod, Z.shiftr_div_pow2 by done. unfold low. change (Z.of_nat (S levels) * L2_BITS) with P_L1_SHIFT.
  change (2 ^ (TARGET_PHYS_ADDR_SPACE_BITS - TARGET_PAGE_BITS)) with (2 ^ P_L1_SHIFT * 2 ^ 12) in Hx.
  assert (0 < 2 ^ P_L1_SHIFT) by done. change P_L1_SIZE with (2 ^ 12).
  assert (0 <= x / 2 ^ P_L1_SHIFT < 2 ^ 12) as Hd.
  { split; [apply Z.div_pos; lia|]. apply Z.div_lt_upper_bound; lia. }
  rewrite (Z.mod_small (x / _)) by done. split; [|done].
  pose proof (Z.div_mod x (2 ^ P_L1_SHIFT)). lia.
Qed.

Lemma page_update_spec x f m :
  map_ok m -> page_index x -> exists m', phys_page_update x f m = Some m' /\ map_ok m' /\
    forall y, page_index y -> updated f (y = x) (phys_page_find y m) (phys_page_find y m').
Proof.
  intros [Hl Hall] Hx. destruct (page_index_split x Hx) as [Ex Bx]. unfold phys_page_update, phys_page_find.
  destruct (aget_Some m (l1_index x)) as [lp Hlp]; [by rewrite Hl|].
  destruct (slot_update_spec levels x f lp) as (lp' & Eq & Hok & Hspec); [by apply (Forall_aget _ m (l1_index x))|].
  rewrite Hlp. cbn [mbind option_bind]. rewrite Eq. cbn [mbind option_bind].
  assert (aset (l1_index x) lp' m = Some (<[Z.to_nat (l1_index x) := lp']> m)) as Hset by (apply aset_Some; by rewrite Hl).
  rewrite Hset. eexists. split; [done|]. split.
  { split; [unfold zlen; rewrite (aset_length _ _ _ _ Hset); exact Hl|]. exact (Forall_aset _ _ _ _ _ Hall Hok Hset). }
  intros y Hy. destruct (page_index_split y Hy) as [Ey By]. destruct (decide (l1_index y = l1_index x)) as [El|El].
  - rewrite El, (aget_aset_eq _ _ _ _ Hset), Hlp. cbn [mbind option_bind]. destruct (Hspec y) as [H1 H2]. split.
    + intros ->. by apply H1.
    + intros Hn. apply H2. intros Hlow. apply Hn. rewrite Ex, Ey. congruence.
  - rewrite (aget_aset_ne _ _ _ _ _ (not_eq_sym El) Hset). split; [by intros ->|done].
Qed.

(** ** Registering a region of a device *)

Definition page_target (s : memory_state F W) (x : Z) : option PhysPageDesc :=
  assigned (phys_page_find x (l1_phys_map s)).

Definition subpage_ok (m : subpage_t) : Prop :=
  zlen (sub_io_index m) = TARGET_PAGE_SIZE /\ zlen (sub_region_offset m) = TARGET_PAGE_SIZE.

(** The shape of the state.  The first zone is the emulator's, so no device or
    subpage is taken for RAM. *)
Definition memory_ok (s : memory_state F W) : Prop :=
  map_ok (l1_phys_map s) /\ zlen (io_mem s) = IO_MEM_NB_ENTRIES /\ Forall subpage_ok (subpages s) /\
  exists z, aget (io_mem s) 0 = Some z /\ io_mem_used z = true.

(** What is in use in [s] is there in [s'], and nothing but the map, unused
    zones and new subpages has changed. *)
Definition extends (s s' : memory_state F W) : Prop :=
  (forall i z, aget (io_mem s) i = Some z -> io_mem_used z = true -> aget (io_mem s') i = Some z) /\
  (forall k m, subpages s !! k = Some m -> subpages s' !! k = Some m) /\
  blocks s' = blocks s /\ phys_dirty s' = phys_dirty s /\ world s' = world s.

Lemma extends_refl s : extends s s.
Proof. by split_and!. Qed.
Lemma extends_trans s1 s2 s3 : extends s1 s2 -> extends s2 s3 -> extends s1 s3.
Proof.
  intros (Hz & Hk & Hb & Hd & Hw) (Hz' & Hk' & Hb' & Hd' & Hw'). split_and!; [|auto|congruence..].
  intros i z Hi Hu. by apply Hz', Hu; apply Hz.
Qed.

Lemma update_page_run s x f :
  memory_ok s -> page_index x ->
  exists m', update_page x f s = Done (tt, s <| l1_phys_map := m' |>, []) /\ memory_ok (s <| l1_phys_map := m' |>) /\
    forall y, page_index y -> updated f (y = x) (phys_page_find y (l1_phys_map s)) (phys_page_find y m').
Proof.
  intros (Hm & Hok) Hx. destruct (page_update_spec x f (l1_phys_map s) Hm Hx) as (m' & Eq & Hm' & Hspec).
  exists m'. split; [|by split]. unfold update_page. run. unfold id. rewrite Eq. by run.
Qed.

(** The loop that fills a part of a subpage. *)
Lemma subpage_fill k zone region n start s m :
  subpages s !! k = Some m -> subpage_ok m -> 0 <= start -> start + Z.of_nat n <= TARGET_PAGE_SIZE ->
  exists m', for_up start n (subpage_set k zone region) s
    = Done (tt, s <| subpages ::= <[k := m']> |>, []) /\ subpage_ok m' /\
    forall j, 0 <= j < TARGET_PAGE_SIZE ->
      aget (sub_io_index m') j = (if (start <=? j) && (j <? start + Z.of_nat n) then Some zone else aget (sub_io_index m) j) /\
      aget (sub_region_offset m') j = (if (start <=? j) && (j <? start + Z.of_nat n) then Some region else aget (sub_region_offset m) j).
Proof.
  revert start s m. induction n as [|n IH]; intros start s m Hk [Hi Hr] Hs Hn.
  { exists m. cbn [for_up]. split; [|split; [done|]].
    - assert (s <| subpages ::= <[k:=m]> |> = s) as ->; [|done]. destruct s as [l z p b d w]. unfold upd; cbn in *.
      by rewrite list_insert_id.
    - intros j Hj. replace ((start <=? j) && (j <? start + Z.of_nat 0)) with false; [done|]. symmetry. zcases; done. }
  cbn [for_up].
  assert (exists a, aset start zone (sub_io_index m) = Some a) as [a Ea] by (rewrite aset_Some by lia; eauto).
  assert (exists b, aset start region (sub_region_offset m) = Some b) as [b Eb] by (rewrite aset_Some by lia; eauto).
  set (m1 := m <| sub_io_index := a |> <| sub_region_offset := b |>).
  set (s1 := s <| subpages ::= <[k:=m1]> |>).
  destruct (IH (start + 1) s1 m1) as (m' & Eq & Hok & Hspec).
  - apply list_lookup_insert_eq. by eapply lookup_lt_Some.
  - split; unfold zlen, m1; cbn -[TARGET_PAGE_SIZE].
    + change (sub_io_index _) with a. rewrite (aset_length _ _ _ _ Ea). exact Hi.
    + change (sub_region_offset _) with b. rewrite (aset_length _ _ _ _ Eb). exact Hr.
  - lia.
  - lia.
  - exists m'. split; [|split; [done|]].
    + unfold subpage_set at 1. run. unfold id. rewrite Hk. run. rewrite Ea. run. rewrite Eb. run. fold m1 s1. rewrite Eq. do 2 f_equal. f_equal.
      unfold s1, upd; cbn. f_equal. by rewrite list_insert_insert_eq.
    + intros j Hj. destruct (Hspec j Hj) as [-> ->]. change (sub_io_index m1) with a. change (sub_region_offset m1) with b.
      destruct (Z.eq_dec j start) as [->|Hne].
      * rewrite (aget_aset_eq _ _ _ _ Ea), (aget_aset_eq _ _ _ _ Eb).
        split; zcases; done.
      * rewrite (aget_aset_ne _ _ _ _ _ (not_eq_sym Hne) Ea), (aget_aset_ne _ _ _ _ _ (not_eq_sym Hne) Eb).
        split; zcases; done.
Qed.

Lemma free_zone_spec (l : list (io_zone F)) k i :
  free_zone l k = Some i -> exists z, k <= i /\ l !! Z.to_nat (i - k) = Some z /\ io_mem_used z = false.
Proof.
  revert k. induction l as [|z l IH]; intros k Hi; [done|]. cbn [free_zone] in Hi.
  destruct (io_mem_used z) eqn:Eu.
  - destruct (IH _ Hi) as (z' & Hk & Hz & Hu). exists z'. split; [lia|]. split; [|done].
    by replace (Z.to_nat (i - k)) with (S (Z.to_nat (i - (k + 1)))) by lia.
  - injection Hi as <-. exists z. split; [lia|]. by rewrite Z.sub_diag.
Qed.

(** A zone that is registered was not in use; all others stay. *)
Lemma register_io_run s rd wr endian i :
  memory_ok s -> free_zone (io_mem s) 0 = Some i ->
  exists l, cpu_register_io_memory rd wr endian s = Done (i << IO_MEM_SHIFT, s <| io_mem := l |>, []) /\
    memory_ok (s <| io_mem := l |>) /\ extends s (s <| io_mem := l |>) /\ 0 < i < IO_MEM_NB_ENTRIES /\
    aget l i = Some (mk_zone (zone_fns endian rd) (zone_fns endian wr) true).
Proof.
  intros (Hm & Hz & Hsub & z0 & H0 & Hu0) Hf. destruct (free_zone_spec _ _ _ Hf) as (z & Hi & Hzi & Hu).
  rewrite Z.sub_0_r in Hzi. assert (aget (io_mem s) i = Some z) as Hg by (unfold aget; zcases; done).
  pose proof (aget_bounds _ _ _ Hg) as Hb.
  assert (i <> 0) as Hi0 by (intros ->; rewrite H0 in Hg; injection Hg as ->; congruence).
  set (z1 := z <| io_mem_used := true |>). set (l1 := <[Z.to_nat i := z1]> (io_mem s)).
  assert (aset i z1 (io_mem s) = Some l1) as E1 by by apply aset_Some.
  assert (aget l1 i = Some z1) as G1 by by apply (aget_aset_eq (io_mem s)).
  set (z2 := z1 <| io_mem_read := zone_fns endian rd |> <| io_mem_write := zone_fns endian wr |>).
  set (l2 := <[Z.to_nat i := z2]> l1).
  assert (aset i z2 l1 = Some l2) as E2 by (apply aset_Some; unfold zlen, l1; by rewrite length_insert).
  assert (forall j, j <> i -> aget l2 j = aget (io_mem s) j) as Hne.
  { intros j Hj. rewrite (aget_aset_ne _ _ _ _ _ (not_eq_sym Hj) E2). exact (aget_aset_ne _ _ _ _ _ (not_eq_sym Hj) E1). }
  exists l2. split; [|split; [|split; [|split]]].
  - unfold cpu_register_io_memory, cpu_register_io_memory_fixed. cbn [Z.leb Z.compare].
    unfold get_free_io_mem_idx. run. unfold id. rewrite Hf. run. rewrite Hg. run. fold z1. rewrite E1. run.
    unfold upd_zone. run. unfold id. set (s1 := s <| io_mem := l1 |>). change (io_mem s1) with l1. rewrite G1. run.
    fold z2. rewrite E2. by run.
  - split; [done|]. split; [unfold zlen; change (io_mem _) with l2; unfold l2, l1; by rewrite !length_insert|].
    split; [done|]. exists z0. split; [|done]. change (io_mem _) with l2. by rewrite Hne.
  - split_and!; [|done..]. intros j zj Hj Hu'. change (io_mem _) with l2. rewrite Hne; [done|].
    intros ->. rewrite Hj in Hg. injection Hg as ->. congruence.
  - lia.
  - exact (aget_aset_eq _ _ _ _ E2).
Qed.

(** The map after an update that assigns a page. *)
Lemma updated_target s x (f : PhysPageDesc -> PhysPageDesc) m' :
  (forall y, page_index y -> updated f (y = x) (phys_page_find y (l1_phys_map s)) (phys_page_find y m')) ->
  page_index x -> (forall d, phys_offset (f d) <> IO_MEM_UNASSIGNED) ->
  (exists d, page_target (s <| l1_phys_map := m' |>) x = Some (f d) /\
     forall d0, phys_page_find x (l1_phys_map s) = Some d0 -> d = d0) /\
  forall y, page_index y -> y <> x -> page_target (s <| l1_phys_map := m' |>) y = page_target s y.
Proof.
  intros Hspec Hx Hf. unfold page_target. change (l1_phys_map _) with m' at 1. split.
  - destruct (Hspec x Hx) as [(d & Hd & Hd0 & _) _]; [done|]. exists d. split; [|done].
    rewrite Hd. cbn. destruct (Z.eqb_spec (phys_offset (f d)) IO_MEM_UNASSIGNED); [by destruct (Hf d)|done].
  - intros y Hy Hne. change (l1_phys_map (s <| l1_phys_map := m' |>)) with m'. by apply (Hspec y Hy).
Qed.

Definition next_phys (phys : Z) : Z := if consumes_ram phys then u64 (phys + TARGET_PAGE_SIZE) else phys.

(** On a page that is not assigned, whatever a descriptor says. *)
Lemma register_page_fresh s start size addr phys region :
  page_target s (addr >> TARGET_PAGE_BITS) = None ->
  register_page start size addr phys region s =
  (let index := addr >> TARGET_PAGE_BITS in
   update_page index (fun d => d <| phys_offset := phys |> <| region_offset := region |>) ;;;
   if consumes_ram phys then ret (next_phys phys)
   else
     when (check_subpage addr start size).2
       (k <- subpage_init index (page_base addr) IO_MEM_UNASSIGNED (page_base addr) ;;
        _ <- subpage_register k (check_subpage addr start size).1.1 (check_subpage addr start size).1.2 phys region ;;
        update_page index (fun d => d <| region_offset := 0 |>)) ;;;
     ret phys) s.
Proof.
  intros Ht. unfold register_page, next_phys. destruct (check_subpage addr start size) as [[start2 end2] need].
  cbn [fst snd]. unfold find_page. run. unfold page_target, assigned in Ht.
  destruct (phys_page_find _ _) as [d|]; [|by destruct (consumes_ram phys)].
  cbn in Ht. destruct (phys_offset d =? IO_MEM_UNASSIGNED); [|done]. by destruct (consumes_ram phys).
Qed.

(** A whole page. *)
Lemma register_page_full s start size addr phys region :
  memory_ok s -> page_index (addr >> TARGET_PAGE_BITS) -> page_target s (addr >> TARGET_PAGE_BITS) = None ->
  phys <> IO_MEM_UNASSIGNED -> consumes_ram phys || negb (check_subpage addr start size).2 = true ->
  exists s', register_page start size addr phys region s = Done (next_phys phys, s', []) /\ memory_ok s' /\
    extends s s' /\ io_mem s' = io_mem s /\ subpages s' = subpages s /\
    forall y, page_index y -> page_target s' y =
      if decide (y = addr >> TARGET_PAGE_BITS) then Some (mk_desc phys region) else page_target s y.
Proof.
  intros Hok Hx Ht Hphys Hfull. rewrite (register_page_fresh _ _ _ _ _ _ Ht). cbv zeta.
  destruct (update_page_run s _ (fun d => d <| phys_offset := phys |> <| region_offset := region |>) Hok Hx)
    as (m' & Eq & Hok' & Hspec).
  destruct (updated_target s _ _ m' Hspec Hx) as [(d & Hd & _) Hne]; [by intros []|].
  exists (s <| l1_phys_map := m' |>). split; [|split_and!; [done|done..|]].
  - rewrite (bind_silent _ _ _ _ _ Eq). unfold next_phys. destruct (consumes_ram phys); [done|].
    destruct (check_subpage addr start size) as [[? ?] []]; [done|]. cbn [snd when]. by run.
  - intros y Hy. destruct (decide _) as [->|Hy']; [|by apply Hne]. rewrite Hd. by destruct d.
Qed.

Lemma memory_ok_subpages s l : memory_ok s -> Forall subpage_ok l -> memory_ok (s <| subpages := l |>).
Proof. by intros (? & ? & _ & ?) ?. Qed.

(** [subpage_register] on a subpage. *)
Lemma subpage_register_run s k m start end_ memory region :
  memory_ok s -> subpages s !! k = Some m -> 0 <= start <= end_ -> end_ < TARGET_PAGE_SIZE ->
  let zone := zone_of (if page_offset memory =? IO_MEM_RAM then IO_MEM_UNASSIGNED else memory) in
  exists m', subpage_register k start end_ memory region s = Done (0, s <| subpages := <[k := m']> (subpages s) |>, []) /\
    memory_ok (s <| subpages := <[k := m']> (subpages s) |>) /\
    forall j, 0 <= j < TARGET_PAGE_SIZE ->
      aget (sub_io_index m') j = (if (start <=? j) && (j <=? end_) then Some zone else aget (sub_io_index m) j) /\
      aget (sub_region_offset m') j = (if (start <=? j) && (j <=? end_) then Some region else aget (sub_region_offset m) j).
Proof.
  intros Hok Hk Hs He zone. destruct Hok as (Hm & Hz & Hsub & H0).
  assert (subpage_ok m) as Hmok by by eapply Forall_lookup_1.
  destruct (subpage_fill k zone region (Z.to_nat (end_ - start + 1)) start s m) as (m' & Eq & Hok' & Hspec); [done..|lia|lia|].
  exists m'. split; [|split].
  - unfold subpage_register. replace ((TARGET_PAGE_SIZE <=? start) || (TARGET_PAGE_SIZE <=? end_)) with false
      by (symmetry; apply orb_false_iff; lia).
    change (((if page_offset memory =? IO_MEM_RAM then IO_MEM_UNASSIGNED else memory) >> IO_MEM_SHIFT) .& (IO_MEM_NB_ENTRIES - 1))
      with zone. cbv zeta. by rewrite (bind_silent _ _ _ _ _ Eq).
  - split; [done|]. split; [done|]. split; [|done]. change (subpages _) with (<[k:=m']> (subpages s)). by apply Forall_insert.
  - intros j Hj. replace (start + Z.of_nat (Z.to_nat (end_ - start + 1))) with (end_ + 1) in Hspec by lia.
    replace (j <=? end_) with (j <? end_ + 1); [by apply Hspec|]. destruct (Z.leb_spec j end_), (Z.ltb_spec j (end_ + 1)); lia.
Qed.

(** The zone of a subpage, and the descriptor that points to it. *)
Definition subpage_zone (k : nat) : io_zone F :=
  mk_zone (replicate 3 (Some (Subpage k))) (replicate 3 (Some (Subpage k))) true.
Definition subpage_phys (i : Z) : Z := (i << IO_MEM_SHIFT) .| IO_MEM_SUBPAGE.

(** The zone numbers are few: what is computed from one is checked for all. *)
Lemma for_zones (p : Z -> bool) i : forallb p (seqZ 0 IO_MEM_NB_ENTRIES) = true -> 0 <= i < IO_MEM_NB_ENTRIES -> p i = true.
Proof. intros Hp Hi. rewrite forallb_forall in Hp. apply Hp, list_elem_of_In, elem_of_seqZ. lia. Qed.

Lemma subpage_phys_zone i :
  0 < i < IO_MEM_NB_ENTRIES ->
  u64 (subpage_phys i) = subpage_phys i /\ zone_of (subpage_phys i) = i /\ reads_io (subpage_phys i) = true /\
  writes_io (subpage_phys i) = true /\ subpage_phys i <> IO_MEM_UNASSIGNED.
Proof.
  intros Hi. pose proof (for_zones (fun i => (i =? 0) || (u64 (subpage_phys i) =? subpage_phys i) && (zone_of (subpage_phys i) =? i)
    && reads_io (subpage_phys i) && writes_io (subpage_phys i) && negb (subpage_phys i =? IO_MEM_UNASSIGNED)) i) as Hp.
  specialize (Hp ltac:(vm_compute; reflexivity) ltac:(lia)). cbv beta in Hp.
  rewrite !orb_true_iff, !andb_true_iff, negb_true_iff, !Z.eqb_eq, Z.eqb_neq in Hp. destruct Hp as [|((((? & ?) & ?) & ?) & ?)]; [lia|done].
Qed.

(** A zone as it is registered for a device. *)
Lemma device_phys_zone i :
  2 < i < IO_MEM_NB_ENTRIES ->
  zone_of (i << IO_MEM_SHIFT) = i /\ consumes_ram (i << IO_MEM_SHIFT) = false /\ reads_io (i << IO_MEM_SHIFT) = true /\
  writes_io (i << IO_MEM_SHIFT) = true /\ (i << IO_MEM_SHIFT) <> IO_MEM_UNASSIGNED /\ page_offset (i << IO_MEM_SHIFT) <> IO_MEM_RAM.
Proof.
  intros Hi. set (z := i << IO_MEM_SHIFT).
  pose proof (for_zones (fun i => let z := i << IO_MEM_SHIFT in (i <=? 2) || (zone_of z =? i) && negb (consumes_ram z)
    && reads_io z && writes_io z && negb (z =? IO_MEM_UNASSIGNED) && negb (page_offset z =? IO_MEM_RAM)) i) as Hp.
  specialize (Hp ltac:(vm_compute; reflexivity) ltac:(lia)). cbv beta zeta in Hp. fold z in Hp.
  rewrite !orb_true_iff, !andb_true_iff, !negb_true_iff, Z.leb_le, !Z.eqb_eq, !Z.eqb_neq in Hp.
  destruct Hp as [|(((((? & ?) & ?) & ?) & ?) & ?)]; [lia|done].
Qed.

(** A new subpage, all of it unassigned. *)
Lemma subpage_init_run s x pbase region i d :
  memory_ok s -> page_index x -> free_zone (io_mem s) 0 = Some i -> phys_page_find x (l1_phys_map s) = Some d ->
  exists s' m, subpage_init x pbase IO_MEM_UNASSIGNED region s = Done (length (subpages s), s', []) /\
    memory_ok s' /\ extends s s' /\ aget (io_mem s') i = Some (subpage_zone (length (subpages s))) /\
    0 < i < IO_MEM_NB_ENTRIES /\
    subpages s' = subpages s ++ [m] /\
    (forall j, 0 <= j < TARGET_PAGE_SIZE -> aget (sub_io_index m) j = Some (zone_of IO_MEM_UNASSIGNED)) /\
    page_target s' x = Some (d <| phys_offset := subpage_phys i |>) /\
    forall y, page_index y -> y <> x -> page_target s' y = page_target s y.
Proof.
  intros Hok Hx Hf Hd. set (k := length (subpages s)). set (z := zeros (Z.to_nat TARGET_PAGE_SIZE)).
  set (m0 := mk_subpage pbase z z). set (s1 := s <| subpages := subpages s ++ [m0] |>).
  assert (memory_ok s1) as Hok1.
  { apply memory_ok_subpages; [done|]. apply Forall_app. split; [by destruct Hok as (_ & _ & ? & _)|].
    by apply Forall_singleton. }
  destruct (register_io_run s1 (replicate 3 (Some (Subpage k))) (replicate 3 (Some (Subpage k))) DEVICE_NATIVE_ENDIAN i)
    as (l & E1 & Hok2 & Hext & Hi & Hl); [done|done|].
  set (s2 := s1 <| io_mem := l |>) in *. destruct (subpage_phys_zone i Hi) as (Hu & _ & _ & _ & Hne).
  destruct (update_page_run s2 x (fun d => d <| phys_offset := u64 (subpage_phys i) |>) Hok2 Hx) as (m' & E2 & Hok3 & Hspec).
  destruct (updated_target s2 x _ m' Hspec Hx) as [(d' & Hd' & Hsame) Hother]; [by intros []; rewrite Hu|].
  set (s3 := s2 <| l1_phys_map := m' |>) in *. rewrite (Hsame d Hd), Hu in Hd'.
  assert (subpages s3 !! k = Some m0) as Hk3 by by apply list_lookup_middle.
  destruct (subpage_register_run s3 k m0 0 (TARGET_PAGE_SIZE - 1) IO_MEM_UNASSIGNED region Hok3 Hk3) as (m & E3 & Hok4 & Hm);
    [done..|].
  assert (<[k:=m]> (subpages s3) = subpages s ++ [m]) as Hsub.
  { change (subpages s3) with (subpages s ++ [m0]). unfold k. rewrite <- (Nat.add_0_r (length (subpages s))). by rewrite insert_app_r. }
  eexists _, m. split; [|split; [exact Hok4|split; [|split_and!; [exact Hl|lia..|exact Hsub| |exact Hd'|exact Hother]]]].
  - unfold subpage_init. run. unfold id. fold k z. change (s <| subpages ::= _ |>) with s1.
    rewrite (bind_silent _ _ _ _ _ E1), (bind_silent _ _ _ _ _ E2). by rewrite (bind_silent _ _ _ _ _ E3).
  - destruct Hext as (Hz & _ & _ & _ & _). split_and!; [exact Hz| |done..].
    intros j mj Hj. change (subpages _) with (<[k:=m]> (subpages s3)). rewrite Hsub. by apply lookup_app_l_Some.
  - intros j Hj. destruct (Hm j Hj) as [-> _]. zcases; done.
Qed.

(** The last page of a region that ends inside of it. *)
Lemma register_page_part s start size addr phys region e i :
  memory_ok s -> page_index (addr >> TARGET_PAGE_BITS) -> page_target s (addr >> TARGET_PAGE_BITS) = None ->
  phys <> IO_MEM_UNASSIGNED -> consumes_ram phys = false -> page_offset phys <> IO_MEM_RAM ->
  check_subpage addr start size = (0, e, true) -> 0 <= e < TARGET_PAGE_SIZE -> free_zone (io_mem s) 0 = Some i ->
  exists s' k m, register_page start size addr phys region s = Done (phys, s', []) /\ memory_ok s' /\ extends s s' /\
    0 < i < IO_MEM_NB_ENTRIES /\ aget (io_mem s') i = Some (subpage_zone k) /\ subpages s' !! k = Some m /\
    (forall j, 0 <= j < TARGET_PAGE_SIZE ->
       aget (sub_io_index m) j = Some (zone_of (if j <=? e then phys else IO_MEM_UNASSIGNED))) /\
    (forall j, 0 <= j <= e -> aget (sub_region_offset m) j = Some region) /\
    forall y, page_index y -> page_target s' y =
      if decide (y = addr >> TARGET_PAGE_BITS) then Some (mk_desc (subpage_phys i) 0) else page_target s y.
Proof.
  intros Hok Hx Ht Hphys Hc Hram Hsub He Hf. rewrite (register_page_fresh _ _ _ _ _ _ Ht). cbv zeta.
  rewrite Hc, Hsub. cbn [fst snd when]. set (x := addr >> TARGET_PAGE_BITS) in *.
  destruct (update_page_run s x (fun d => d <| phys_offset := phys |> <| region_offset := region |>) Hok Hx)
    as (m1 & E1 & Hok1 & Hspec1).
  destruct (updated_target s x _ m1 Hspec1 Hx) as [(d1 & Hd1 & _) Hne1]; [by intros []|].
  set (s1 := s <| l1_phys_map := m1 |>) in *.
  destruct (Hspec1 x Hx) as [(d2 & Hd2 & _) _]; [done|]. set (d := d2 <| phys_offset := phys |> <| region_offset := region |>) in *.
  destruct (subpage_init_run s1 x (page_base addr) (page_base addr) i d Hok1 Hx Hf Hd2)
    as (s2 & m & E2 & Hok2 & Hext2 & Hz2 & Hi & Hk2 & Hun & Ht2 & Hne2).
  set (k := length (subpages s1)) in *. assert (subpages s2 !! k = Some m) as Hkm by (rewrite Hk2; by apply list_lookup_middle).
  destruct (subpage_register_run s2 k m 0 e phys region Hok2 Hkm) as (m3 & E3 & Hok3 & Hm3); [lia|lia|].
  destruct (Z.eqb_spec (page_offset phys) IO_MEM_RAM) as [|_]; [done|].
  set (s3 := s2 <| subpages := <[k:=m3]> (subpages s2) |>) in *.
  destruct (subpage_phys_zone i Hi) as (_ & _ & _ & _ & Hsp).
  assert (exists d3, phys_page_find x (l1_phys_map s3) = Some d3 /\ phys_offset d3 = subpage_phys i) as (d3 & Hd3 & Hp3).
  { change (l1_phys_map s3) with (l1_phys_map s2). unfold page_target, assigned in Ht2.
    destruct (phys_page_find x (l1_phys_map s2)) as [d3|]; [|done]. cbn in Ht2. exists d3. split; [done|].
    destruct (phys_offset d3 =? IO_MEM_UNASSIGNED); [done|]. by injection Ht2 as ->. }
  destruct (page_update_spec x (fun d => d <| region_offset := 0 |>) (l1_phys_map s3)) as (m4 & E4 & Hm4 & Hspec4);
    [by destruct Hok3|done|].
  exists (s3 <| l1_phys_map := m4 |>), k, m3. split; [|split; [|split; [|split_and!; [exact (proj1 Hi)|exact (proj2 Hi)|exact Hz2| | | |]]]].
  - rewrite (bind_silent _ _ _ _ _ E1).
    rewrite (bind_silent _ _ s1 tt (s3 <| l1_phys_map := m4 |>)); [done|].
    rewrite (bind_silent _ _ _ _ _ E2), (bind_silent _ _ _ _ _ E3). unfold update_page. run. unfold id. rewrite E4. by run.
  - destruct Hok3 as (_ & Hrest). by split.
  - destruct Hext2 as (Hz & Hs & Hrest). split_and!; [exact Hz| |apply Hrest..].
    intros j mj Hj. change (subpages (s3 <| l1_phys_map := m4 |>)) with (<[k:=m3]> (subpages s2)).
    rewrite list_lookup_insert_ne; [by apply Hs|]. unfold k. apply lookup_lt_Some in Hj. change (subpages s1) with (subpages s). lia.
  - change (subpages _) with (<[k:=m3]> (subpages s2)). apply list_lookup_insert_eq. by eapply lookup_lt_Some.
  - intros j Hj. destruct (Hm3 j Hj) as [-> _]. replace (0 <=? j) with true by lia. cbn [andb].
    destruct (j <=? e); [done|]. by apply Hun.
  - intros j Hj. destruct (Hm3 j) as [_ ->]; [lia|]. replace ((0 <=? j) && (j <=? e)) with true by (symmetry; zcases; done). done.
  - intros y Hy. unfold page_target. change (l1_phys_map (s3 <| l1_phys_map := m4 |>)) with m4.
    destruct (Hspec4 y Hy) as [H1 H2]. destruct (decide (y = x)) as [->|Hyx].
    + destruct (H1 eq_refl) as (d4 & -> & Hd4 & _). rewrite (Hd4 d3 Hd3). cbn.
      change (phys_offset (d3 <| region_offset := 0 |>)) with (phys_offset d3). rewrite Hp3.
      destruct (Z.eqb_spec (subpage_phys i) IO_MEM_UNASSIGNED); [done|]. destruct d3; cbn in *; by subst.
    + rewrite (H2 Hyx). change (page_target s2 y = page_target s y). by rewrite Hne2, Hne1.
Qed.

(** ** Runs of pages *)

Lemma page_of_base x o : 0 <= o < TARGET_PAGE_SIZE -> (TARGET_PAGE_SIZE * x + o) >> TARGET_PAGE_BITS = x.
Proof.
  intros Ho. rewrite Z.shiftr_div_pow2 by done. change (2 ^ TARGET_PAGE_BITS) with TARGET_PAGE_SIZE.
  rewrite Z.mul_comm, Z.div_add_l by done. rewrite Z.div_small by done. lia.
Qed.
Lemma page_base_index x : (TARGET_PAGE_SIZE * x) >> TARGET_PAGE_BITS = x.
Proof. rewrite <- (page_of_base x 0) at 2; [|done]. by rewrite Z.add_0_r. Qed.

Lemma page_addr x : page_index x -> u32 (TARGET_PAGE_SIZE * x) = TARGET_PAGE_SIZE * x.
Proof.
  intros Hx. apply wrap_fits. unfold fits, page_index in *. change (2 ^ (_ - _)) with (2 ^ 22) in Hx.
  change TARGET_PAGE_SIZE with 1024. lia.
Qed.

(** The pages from [x] on are mapped, page [y] to [ph y] with offset [rg y]. *)
Lemma register_full_pages (ph rg : Z -> Z) start size n s x :
  memory_ok s -> 0 <= x -> x + Z.of_nat n <= 2 ^ (TARGET_PHYS_ADDR_SPACE_BITS - TARGET_PAGE_BITS) ->
  (forall y, x <= y < x + Z.of_nat n -> page_target s y = None /\
     next_phys (ph y) = ph (y + 1) /\ u64 (rg y + TARGET_PAGE_SIZE) = rg (y + 1) /\ ph y <> IO_MEM_UNASSIGNED /\
     consumes_ram (ph y) || negb (check_subpage (TARGET_PAGE_SIZE * y) start size).2 = true) ->
  exists s', (forall k, register_pages (n + k) start size (u32 (TARGET_PAGE_SIZE * x)) (ph x) (rg x) s =
      register_pages k start size (u32 (TARGET_PAGE_SIZE * (x + Z.of_nat n))) (ph (x + Z.of_nat n)) (rg (x + Z.of_nat n)) s') /\
    memory_ok s' /\ extends s s' /\ io_mem s' = io_mem s /\ subpages s' = subpages s /\
    forall y, page_index y -> page_target s' y =
      if decide (x <= y < x + Z.of_nat n) then Some (mk_desc (ph y) (rg y)) else page_target s y.
Proof.
  intros Hok Hx Hn Hpages. revert s x Hok Hx Hn Hpages. induction n as [|n IH]; intros s x Hok Hx Hn Hpages.
  { exists s. rewrite !Z.add_0_r. split; [done|]. split; [done|]. split; [apply extends_refl|]. split_and!; [done..|].
    intros y _. destruct (decide _); [lia|done]. }
  assert (page_index x) as Hpx by (unfold page_index; lia).
  destruct (Hpages x) as (Hfree & Hph & Hrg & Hun & Hfull); [lia|].
  destruct (register_page_full s start size (TARGET_PAGE_SIZE * x) (ph x) (rg x)) as (s1 & E1 & Hok1 & He1 & Hz1 & Hs1 & Ht1);
    rewrite ?page_base_index in *; [done..|].
  destruct (IH s1 (x + 1) Hok1) as (s2 & E2 & Hok2 & He2 & Hz2 & Hs2 & Ht2); [lia|lia| |].
  { intros y Hy. destruct (Hpages y) as (Hfy & Hrest); [lia|]. split; [|done]. rewrite Ht1 by (unfold page_index; lia).
    destruct (decide (y = x)); [lia|done]. }
  exists s2. split_and!; [|done|by apply (extends_trans _ s1)|congruence|congruence|].
  - intros k. change (S n + k)%nat with (S (n + k)). cbn [register_pages]. rewrite (page_addr x Hpx).
    rewrite (bind_silent _ _ _ _ _ E1). rewrite Hph, Hrg.
    replace (TARGET_PAGE_SIZE * x + TARGET_PAGE_SIZE) with (TARGET_PAGE_SIZE * (x + 1)) by lia. rewrite E2.
    by replace (x + 1 + Z.of_nat n) with (x + Z.of_nat (S n)) by lia.
  - intros y Hy. rewrite Ht2, Ht1 by done. destruct (decide (y = x)) as [->|].
    + destruct (decide (x + 1 <= x < _)); [lia|]. destruct (decide (x <= x < _)); [done|lia].
    + destruct (decide (x + 1 <= y < _)), (decide (x <= y < _)); try done; lia.
Qed.

(** ** Where an address leads *)

(** An access at [a] calls the handlers of zone [i] with the offset [o]. *)
Definition reaches (s : memory_state F W) (a i o : Z) : Prop :=
  exists d, page_target s (a >> TARGET_PAGE_BITS) = Some d /\ reads_io (phys_offset d) = true /\
    writes_io (phys_offset d) = true /\
    let a1 := u32 (page_offset a + region_offset d) in
    page_offset a1 = page_offset a /\
    ((zone_of (phys_offset d) = i /\ a1 = o) \/
     exists k m r, aget (io_mem s) (zone_of (phys_offset d)) = Some (subpage_zone k) /\ subpages s !! k = Some m /\
       aget (sub_io_index m) (page_offset a) = Some i /\ aget (sub_region_offset m) (page_offset a) = Some r /\
       u32 (a1 + r) = o).

Lemma reaches_extends s s' a i o :
  extends s s' -> page_target s' (a >> TARGET_PAGE_BITS) = page_target s (a >> TARGET_PAGE_BITS) ->
  reaches s a i o -> reaches s' a i o.
Proof.
  intros (Hz & Hk & _) Ht (d & Hd & Hr & Hw & Ha & Hcase). exists d. rewrite Ht. refine (conj Hd (conj Hr (conj Hw (conj Ha _)))).
  destruct Hcase as [?|(k & m & r & H1 & H2 & H3)]; [by left|]. right. exists k, m, r. split; [by apply Hz|]. split; [by apply Hk|done].
Qed.

Lemma page_offset_eq v : page_offset v = v mod TARGET_PAGE_SIZE.
Proof. unfold page_offset. change TARGET_PAGE_SIZE with (2 ^ 10). by rewrite land_mod. Qed.

Lemma page_offset_at x o : 0 <= o < TARGET_PAGE_SIZE -> page_offset (TARGET_PAGE_SIZE * x + o) = o.
Proof.
  intros Ho. rewrite page_offset_eq, Z.add_comm, (Z.mul_comm TARGET_PAGE_SIZE), Z.mod_add by done. by apply Z.mod_small.
Qed.

Lemma page_offset_bound v : 0 <= page_offset v < TARGET_PAGE_SIZE.
Proof. rewrite page_offset_eq. by apply Z.mod_pos_bound. Qed.

Lemma page_base_eq v : page_base v = TARGET_PAGE_SIZE * (v / TARGET_PAGE_SIZE).
Proof.
  unfold page_base. change (TARGET_PAGE_SIZE - 1) with (Z.ones 10).
  rewrite Z.ldiff_ones_r, Z.shiftl_mul_pow2, Z.shiftr_div_pow2 by done. apply Z.mul_comm.
Qed.

(** An address is its page and its offset. *)
Lemma page_split v : v = TARGET_PAGE_SIZE * (v >> TARGET_PAGE_BITS) + page_offset v.
Proof.
  rewrite page_offset_eq, Z.shiftr_div_pow2 by done. change (2 ^ TARGET_PAGE_BITS) with TARGET_PAGE_SIZE.
  by apply Z.div_mod.
Qed.

Section Region.
Context (x size : Z) (Hx : 0 <= x) (Hs : 0 < size) (Hend : TARGET_PAGE_SIZE * x + size <= 2 ^ 32).
Let q := size / TARGET_PAGE_SIZE.
Let r := size mod TARGET_PAGE_SIZE.

Lemma region_split : size = TARGET_PAGE_SIZE * q + r /\ 0 <= r < TARGET_PAGE_SIZE /\ 0 <= q.
Proof.
  split; [by apply Z.div_mod|]. split; [by apply Z.mod_pos_bound|]. apply Z.div_pos; [lia|done].
Qed.

Lemma check_start y : x <= y ->
  (if TARGET_PAGE_SIZE * x <? TARGET_PAGE_SIZE * y then (0, false)
   else (page_offset (TARGET_PAGE_SIZE * x), 0 <? page_offset (TARGET_PAGE_SIZE * x))) = (0, false).
Proof.
  intros Hy. destruct (Z.ltb_spec (TARGET_PAGE_SIZE * x) (TARGET_PAGE_SIZE * y)); [done|].
  assert (page_offset (TARGET_PAGE_SIZE * x) = 0) as ->; [|done].
  rewrite <- (page_offset_at x 0) by done. by rewrite Z.add_0_r.
Qed.

Lemma check_full y : x <= y -> TARGET_PAGE_SIZE * (y + 1) <= TARGET_PAGE_SIZE * x + size ->
  check_subpage (TARGET_PAGE_SIZE * y) (TARGET_PAGE_SIZE * x) size = (0, TARGET_PAGE_SIZE - 1, false).
Proof.
  intros Hy Hb. unfold check_subpage. rewrite (check_start y Hy). change TARGET_PAGE_SIZE with 1024 in *.
  rewrite (wrap_fits 64 (1024 * x + size)) by (unfold fits; lia). rewrite wrap_fits by (unfold fits; lia).
  by destruct (Z.leb_spec 1024 (1024 * x + size - 1024 * y)); [|lia].
Qed.

Lemma check_part : 0 < r ->
  check_subpage (TARGET_PAGE_SIZE * (x + q)) (TARGET_PAGE_SIZE * x) size = (0, r - 1, true).
Proof.
  intros Hr. destruct region_split as (Hsz & Hrb & Hq). unfold check_subpage. rewrite (check_start (x + q)) by lia.
  assert (page_offset (u64 (TARGET_PAGE_SIZE * x + size - 1)) = r - 1) as ->.
  { rewrite wrap_fits by (change TARGET_PAGE_SIZE with 1024 in *; unfold fits; lia).
    replace (TARGET_PAGE_SIZE * x + size - 1) with (TARGET_PAGE_SIZE * (x + q) + (r - 1)) by lia.
    apply page_offset_at. lia. }
  change TARGET_PAGE_SIZE with 1024 in *.
  rewrite (wrap_fits 64 (1024 * x + size)) by (unfold fits; lia). rewrite wrap_fits by (unfold fits; lia).
  destruct (Z.leb_spec 1024 (1024 * x + size - 1024 * (x + q))); [lia|]. destruct (Z.ltb_spec (r - 1) (1024 - 1)); [done|lia].
Qed.

(** The number of turns of the loop. *)
Lemma page_count : size <= 2 ^ 32 - TARGET_PAGE_SIZE ->
  TARGET_PAGE_ALIGN size = TARGET_PAGE_SIZE * (q + (if r =? 0 then 0 else 1)) /\
  Z.to_nat (u32 (TARGET_PAGE_ALIGN size) / TARGET_PAGE_SIZE) = (Z.to_nat q + (if (r =? 0)%Z then 0 else 1))%nat.
Proof.
  intros Hmax. destruct region_split as (Hsz & Hrb & Hq).
  assert (TARGET_PAGE_ALIGN size = TARGET_PAGE_SIZE * (q + (if r =? 0 then 0 else 1))) as Ha.
  { unfold TARGET_PAGE_ALIGN. rewrite page_base_eq. change TARGET_PAGE_SIZE with 1024 in *. f_equal.
    rewrite wrap_fits by (unfold fits; lia). rewrite Hsz at 1.
    replace (1024 * q + r + 1024 - 1) with ((r + 1023) + q * 1024) by lia. rewrite Z.div_add by done.
    destruct (Z.eqb_spec r 0) as [->|]; [change ((0 + 1023) / 1024) with 0; lia|].
    replace ((r + 1023) / 1024) with 1; [lia|]. apply Z.div_unique with (r - 1); lia. }
  split; [done|]. rewrite Ha.
  rewrite wrap_fits by (change TARGET_PAGE_SIZE with 1024 in *; unfold fits; destruct (Z.eqb_spec r 0); lia).
  rewrite Z.mul_comm, Z.div_mul by done. destruct (r =? 0); lia.
Qed.
End Region.

(** The pages a region touches. *)
Definition region_page (base size y : Z) : Prop := exists a, base <= a < base + size /\ a >> TARGET_PAGE_BITS = y.

Lemma region_page_iff x size y : 0 < size ->
  region_page (TARGET_PAGE_SIZE * x) size y <-> x <= y < x + (size + TARGET_PAGE_SIZE - 1) / TARGET_PAGE_SIZE.
Proof.
  intros Hs. assert (forall z, z < x + (size + TARGET_PAGE_SIZE - 1) / TARGET_PAGE_SIZE <-> TARGET_PAGE_SIZE * z < TARGET_PAGE_SIZE * x + size) as Hlt.
  { intros z. pose proof (Z.div_mod (size + TARGET_PAGE_SIZE - 1) TARGET_PAGE_SIZE ltac:(done)).
    pose proof (Z.mod_pos_bound (size + TARGET_PAGE_SIZE - 1) TARGET_PAGE_SIZE ltac:(done)).
    change TARGET_PAGE_SIZE with 1024 in *. lia. }
  rewrite Hlt. split.
  - intros (a & Ha & <-). pose proof (page_split a). pose proof (page_offset_bound a).
    change TARGET_PAGE_SIZE with 1024 in *. lia.
  - intros Hy. exists (TARGET_PAGE_SIZE * y). split; [|apply page_base_index]. change TARGET_PAGE_SIZE with 1024 in *. lia.
Qed.

(** The registers of a full page. *)
Lemma reaches_full s x y i :
  page_index y -> x <= y -> 0 <= x -> 2 < i < IO_MEM_NB_ENTRIES ->
  page_target s y = Some (mk_desc (i << IO_MEM_SHIFT) (TARGET_PAGE_SIZE * (y - x))) ->
  forall o, 0 <= o < TARGET_PAGE_SIZE -> reaches s (TARGET_PAGE_SIZE * y + o) i (TARGET_PAGE_SIZE * (y - x) + o).
Proof.
  intros Hy Hxy Hx0 Hi Ht o Ho. destruct (device_phys_zone i Hi) as (Hz & _ & Hr & Hw & _).
  exists (mk_desc (i << IO_MEM_SHIFT) (TARGET_PAGE_SIZE * (y - x))). rewrite page_of_base by done.
  refine (conj Ht (conj Hr (conj Hw _))). cbv zeta. cbn [phys_offset region_offset]. rewrite (page_offset_at y o Ho).
  assert (u32 (o + TARGET_PAGE_SIZE * (y - x)) = TARGET_PAGE_SIZE * (y - x) + o) as ->.
  { rewrite Z.add_comm. apply wrap_fits. unfold fits, page_index in *. change (2 ^ (_ - _)) with (2 ^ 22) in Hy.
    change TARGET_PAGE_SIZE with 1024 in *. lia. }
  rewrite (page_offset_at (y - x) o Ho). split; [done|]. by left.
Qed.

(** A byte of a subpage. *)
Lemma reaches_part s y z k m i rg o :
  page_index y -> 0 < z < IO_MEM_NB_ENTRIES -> page_target s y = Some (mk_desc (subpage_phys z) 0) ->
  aget (io_mem s) z = Some (subpage_zone k) -> subpages s !! k = Some m -> 0 <= o < TARGET_PAGE_SIZE ->
  aget (sub_io_index m) o = Some i -> aget (sub_region_offset m) o = Some rg ->
  reaches s (TARGET_PAGE_SIZE * y + o) i (u32 (o + rg)).
Proof.
  intros Hy Hz Ht Hzone Hk Ho Hi Hr. destruct (subpage_phys_zone z Hz) as (_ & Hzo & Hrd & Hwr & _).
  exists (mk_desc (subpage_phys z) 0). rewrite page_of_base by done. refine (conj Ht (conj Hrd (conj Hwr _))).
  cbv zeta. cbn [phys_offset region_offset]. rewrite (page_offset_at y o Ho), Z.add_0_r.
  rewrite (wrap_fits 32 o) by (unfold fits; change TARGET_PAGE_SIZE with 1024 in *; lia).
  assert (page_offset o = o) as -> by (rewrite page_offset_eq; by apply Z.mod_small). split; [done|].
  right. exists k, m, rg. rewrite Hzo. by split_and!.
Qed.

(** The loop over the pages of a region: whole ones and a shared last one. *)
Lemma region_run s i x size :
  let q := size / TARGET_PAGE_SIZE in let r := size mod TARGET_PAGE_SIZE in
  let phys := i << IO_MEM_SHIFT in
  memory_ok s -> 2 < i < IO_MEM_NB_ENTRIES -> 0 <= x -> 0 < size -> TARGET_PAGE_SIZE * x + size <= 2 ^ 32 ->
  (r = 0 \/ free_zone (io_mem s) 0 <> None) ->
  (forall y, x <= y < x + (q + (if r =? 0 then 0 else 1)) -> page_target s y = None) ->
  exists s', register_pages (Z.to_nat q + (if (r =? 0)%Z then 0 else 1))%nat (TARGET_PAGE_SIZE * x) size (TARGET_PAGE_SIZE * x) phys 0 s
      = Done (tt, s', []) /\ memory_ok s' /\ extends s s' /\
    (forall y, x <= y < x + q -> page_target s' y = Some (mk_desc phys (TARGET_PAGE_SIZE * (y - x)))) /\
    (0 < r -> exists z k m, page_target s' (x + q) = Some (mk_desc (subpage_phys z) 0) /\ 0 < z < IO_MEM_NB_ENTRIES /\
       aget (io_mem s') z = Some (subpage_zone k) /\ subpages s' !! k = Some m /\
       (forall j, 0 <= j < TARGET_PAGE_SIZE -> aget (sub_io_index m) j = Some (if j <? r then i else zone_of IO_MEM_UNASSIGNED)) /\
       forall j, 0 <= j < r -> aget (sub_region_offset m) j = Some (TARGET_PAGE_SIZE * q)) /\
    forall y, page_index y -> ~ (x <= y < x + (q + (if r =? 0 then 0 else 1))) -> page_target s' y = page_target s y.
Proof.
  intros q r phys Hok Hi Hx Hs Hend Hfz Hfree.
  destruct (region_split size Hs) as (Hsz & Hrb & Hq). fold q r in Hsz, Hrb, Hq.
  destruct (device_phys_zone i Hi) as (Hz & Hc & _ & _ & Hun & Hram). fold phys in Hz, Hc, Hun, Hram.
  assert (x + (q + (if r =? 0 then 0 else 1)) <= 2 ^ (TARGET_PHYS_ADDR_SPACE_BITS - TARGET_PAGE_BITS)) as Hlast.
  { change (2 ^ (_ - _)) with (2 ^ 22). change TARGET_PAGE_SIZE with 1024 in *. destruct (Z.eqb_spec r 0); lia. }
  assert (page_index x) as Hpx.
  { unfold page_index. change (2 ^ (_ - _)) with (2 ^ 22). change TARGET_PAGE_SIZE with 1024 in *. lia. }
  destruct (register_full_pages (fun _ => phys) (fun y => TARGET_PAGE_SIZE * (y - x)) (TARGET_PAGE_SIZE * x) size
    (Z.to_nat q) s x Hok Hx) as (s1 & E1 & Hok1 & He1 & Hz1 & Hs1 & Ht1).
  { destruct (r =? 0); lia. }
  { intros y Hy. split_and!; [apply Hfree; destruct (r =? 0); lia|unfold next_phys; by rewrite Hc| |done|].
    - rewrite wrap_fits; [lia|]. unfold fits. change (2 ^ (_ - _)) with (2 ^ 22) in Hlast. change TARGET_PAGE_SIZE with 1024 in *.
      destruct (r =? 0); lia.
    - rewrite check_full; [by rewrite orb_true_r|lia..|]. change TARGET_PAGE_SIZE with 1024 in *. lia. }
  rewrite Z2Nat.id in * by lia. rewrite Z.sub_diag, Z.mul_0_r in E1.
  assert (forall y, x <= y < x + q -> page_target s1 y = Some (mk_desc phys (TARGET_PAGE_SIZE * (y - x)))) as Hfull.
  { intros y Hy. rewrite Ht1 by (unfold page_index; destruct (r =? 0); lia). by rewrite decide_True. }
  destruct (Z.eqb_spec r 0) as [Hr|Hr].
  - exists s1. split_and!; [|done|done|done|lia|].
    + specialize (E1 0%nat). rewrite (page_addr x Hpx) in E1. by rewrite E1.
    + intros y Hy Hn. rewrite Ht1 by done. rewrite decide_False by lia. done.
  - specialize (E1 1%nat). rewrite (page_addr x Hpx) in E1. rewrite E1.
    destruct Hfz as [|Hfz]; [lia|]. destruct (free_zone (io_mem s) 0) as [z|] eqn:Ez; [|done].
    rewrite page_addr by (unfold page_index; lia).
    destruct (register_page_part s1 (TARGET_PAGE_SIZE * x) size (TARGET_PAGE_SIZE * (x + q)) phys
      (TARGET_PAGE_SIZE * (x + q - x)) (r - 1) z) as (s2 & k & m & E2 & Hok2 & He2 & Hzb & Hzone & Hk & Hidx & Hreg & Ht2);
      rewrite ?page_base_index in *; [done|unfold page_index; lia| |done..|apply check_part; lia|lia|by rewrite Hz1|].
    { rewrite Ht1 by (unfold page_index; lia). rewrite decide_False by lia. apply Hfree. lia. }
    exists s2. split_and!; [|done|by apply (extends_trans _ s1)| | |].
    + cbn [register_pages]. by rewrite (bind_silent _ _ _ _ _ E2).
    + intros y Hy. rewrite Ht2 by (unfold page_index; lia). rewrite decide_False by lia. by apply Hfull.
    + intros _. exists z, k, m. rewrite Ht2 by (unfold page_index; lia). rewrite decide_True by done.
      split_and!; [done|lia|lia|done|done| |].
      * intros j Hj. rewrite Hidx by done. destruct (Z.leb_spec j (r - 1)), (Z.ltb_spec j r); try lia; [by rewrite Hz|done].
      * intros j Hj. rewrite Hreg by lia. do 2 f_equal. lia.
    + intros y Hy Hn. rewrite Ht2 by done. rewrite decide_False by lia. rewrite Ht1 by done. rewrite decide_False by lia. done.
Qed.

(** C24.  A device's registers are where it was mapped.  Mapping a zone of a
    device at the start of a page, over pages that are not assigned, succeeds;
    from then on every address of the region, whether its last page is whole or
    shared, leads to that zone with the distance from the region's start; the
    rest of a shared last page stays unassigned; every other page, every zone in
    use and all of RAM are as before. *)
Theorem device_region_reached s i base size :
  memory_ok s -> 2 < i < IO_MEM_NB_ENTRIES -> 0 <= base -> page_offset base = 0 ->
  0 < size <= 2 ^ 32 - TARGET_PAGE_SIZE -> base + size <= 2 ^ 32 ->
  (page_offset size = 0 \/ free_zone (io_mem s) 0 <> None) ->
  (forall y, region_page base size y -> page_target s y = None) ->
  exists s', cpu_register_physical_memory base size (i << IO_MEM_SHIFT) s
      = Done (tt, s', [MemNotify base size (i << IO_MEM_SHIFT); MemTlbFlush]) /\
    memory_ok s' /\ extends s s' /\
    (forall o, 0 <= o < size -> reaches s' (base + o) i o) /\
    (forall o, size <= o < TARGET_PAGE_ALIGN size -> exists o', reaches s' (base + o) (zone_of IO_MEM_UNASSIGNED) o') /\
    forall y, page_index y -> ~ region_page base size y -> page_target s' y = page_target s y.
Proof.
  intros Hok Hi Hb Hpb [Hs Hmax] Hend Hfz Hfree.
  assert (exists x, base = TARGET_PAGE_SIZE * x) as [x ->].
  { exists (base >> TARGET_PAGE_BITS). pose proof (page_split base). lia. }
  assert (0 <= x) as Hx by (change TARGET_PAGE_SIZE with 1024 in *; lia).
  setoid_rewrite (region_page_iff x size) in Hfree; [|done..]. setoid_rewrite (region_page_iff x size); [|done].
  set (q := size / TARGET_PAGE_SIZE). set (r := size mod TARGET_PAGE_SIZE).
  destruct (region_split size Hs) as (Hsz & Hrb & Hq). fold q r in Hsz, Hrb, Hq.
  destruct (page_count size Hs Hmax) as [Halign Hcount]. fold q r in Halign, Hcount.
  assert ((size + TARGET_PAGE_SIZE - 1) / TARGET_PAGE_SIZE = q + (if r =? 0 then 0 else 1)) as Hpages.
  { unfold TARGET_PAGE_ALIGN in Halign. rewrite page_base_eq, wrap_fits in Halign
      by (change TARGET_PAGE_SIZE with 1024 in *; unfold fits; lia). change TARGET_PAGE_SIZE with 1024 in *. lia. }
  rewrite Hpages in *.
  assert (x + (q + (if r =? 0 then 0 else 1)) <= 2 ^ (TARGET_PHYS_ADDR_SPACE_BITS - TARGET_PAGE_BITS)) as Hlast.
  { change (2 ^ (_ - _)) with (2 ^ 22). change TARGET_PAGE_SIZE with 1024 in *. destruct (Z.eqb_spec r 0); lia. }
  destruct (region_run s i x size) as (s1 & E1 & Hok1 & He1 & Hfull & Hpart & Hother); fold q r; [done..| |done|].
  { destruct Hfz as [Hfz|?]; [left|by right]. by rewrite page_offset_eq in Hfz. }
  fold q r in E1, Hfull, Hpart, Hother. exists s1. split; [|split; [done|split; [done|split_and!; [| |done]]]].
  - unfold cpu_register_physical_memory, cpu_register_physical_memory_offset.
    destruct (device_phys_zone i Hi) as (_ & _ & _ & _ & Hun & _).
    rewrite (bind_Done _ _ s tt s [MemNotify (TARGET_PAGE_SIZE * x) size (i << IO_MEM_SHIFT)]) by done.
    destruct (Z.eqb_spec (i << IO_MEM_SHIFT) IO_MEM_UNASSIGNED); [done|]. change (page_base 0) with 0. cbv zeta.
    rewrite Hcount. by rewrite (bind_silent _ _ _ _ _ E1).
  - intros o Ho. destruct (decide (o < TARGET_PAGE_SIZE * q)) as [Hlt|Hge].
    + set (y := x + o / TARGET_PAGE_SIZE). pose proof (Z.div_mod o TARGET_PAGE_SIZE ltac:(done)) as Hd.
      pose proof (Z.mod_pos_bound o TARGET_PAGE_SIZE ltac:(done)) as Hm.
      assert (x <= y < x + q) as Hy by (change TARGET_PAGE_SIZE with 1024 in *; lia).
      replace (TARGET_PAGE_SIZE * x + o) with (TARGET_PAGE_SIZE * y + o mod TARGET_PAGE_SIZE) by lia.
      replace o with (TARGET_PAGE_SIZE * (y - x) + o mod TARGET_PAGE_SIZE) at 2 by lia.
      apply reaches_full; [unfold page_index; destruct (r =? 0); lia|lia|done|done|by apply Hfull|done].
    + destruct Hpart as (z & k & m & Ht & Hzb & Hz & Hk & Hidx & Hreg); [lia|].
      replace (TARGET_PAGE_SIZE * x + o) with (TARGET_PAGE_SIZE * (x + q) + (o - TARGET_PAGE_SIZE * q)) by lia.
      replace o with (u32 (o - TARGET_PAGE_SIZE * q + TARGET_PAGE_SIZE * q)) at 2
        by (rewrite wrap_fits; [lia|unfold fits; lia]).
      apply (reaches_part s1 (x + q) z k m i); [|done..|lia| |apply Hreg; lia].
      * unfold page_index. destruct (Z.eqb_spec r 0); lia.
      * rewrite Hidx by lia. by destruct (Z.ltb_spec (o - TARGET_PAGE_SIZE * q) r); [|lia].
  - intros o Ho. rewrite Halign in Ho. destruct (Z.eqb_spec r 0) as [|Hr]; [lia|].
    destruct Hpart as (z & k & m & Ht & Hzb & Hz & Hk & Hidx & Hreg); [lia|].
    set (o1 := o - TARGET_PAGE_SIZE * q). assert (0 <= o1 < TARGET_PAGE_SIZE) as Ho1 by lia.
    destruct (aget_Some (sub_region_offset m) o1) as [rg Hrg].
    { destruct Hok1 as (_ & _ & Hsub & _). destruct (Forall_lookup_1 _ _ _ _ Hsub Hk) as [_ ->]. lia. }
    exists (u32 (o1 + rg)). replace (TARGET_PAGE_SIZE * x + o) with (TARGET_PAGE_SIZE * (x + q) + o1) by lia.
    apply (reaches_part s1 (x + q) z k m); [unfold page_index; lia|done..| |done].
    rewrite Hidx by done. by destruct (Z.ltb_spec o1 r); [lia|].
Qed.

(** ** Accesses to devices *)

Lemma page_of_target s a d :
  page_target s (a >> TARGET_PAGE_BITS) = Some d ->
  page_of a s = Done ((phys_offset d, u32 (page_offset a + region_offset d)), s, []).
Proof.
  unfold page_target, assigned, page_of, find_page. intros Ht. run. destruct (phys_page_find _ _) as [d'|]; [|done].
  cbn in Ht. destruct (_ =? _); [done|]. by injection Ht as ->.
Qed.

(** The handlers of a zone that belongs to a device. *)
Definition device_zone (s : memory_state F W) (i : Z) (rd wr : nat -> F) : Prop :=
  exists z, aget (io_mem s) i = Some z /\ forall w, (w < 3)%nat ->
    io_mem_read z !! w = Some (Some (Device (rd w))) /\ io_mem_write z !! w = Some (Some (Device (wr w))).

(** One call of a handler of a device, and of a subpage. *)
Lemma io_device s i o w rd wr n :
  device_zone s i rd wr -> (w < 3)%nat ->
  io_read (S n) i w o s = device_read (rd w) o s /\ forall val, io_write (S n) i w o val s = device_write (wr w) o val s.
Proof.
  intros (z & Hz & Hfns) Hw3. destruct (Hfns w Hw3) as [Hrd Hwr].
  split; [|intros val]; cbn [io_read io_write]; run; unfold id; rewrite Hz; run;
    [rewrite Hrd|rewrite Hwr]; cbn [mbind option_bind]; by run.
Qed.

Lemma io_subpage s j k m i r w addr n :
  aget (io_mem s) j = Some (subpage_zone k) -> subpages s !! k = Some m ->
  aget (sub_io_index m) (page_offset addr) = Some i -> aget (sub_region_offset m) (page_offset addr) = Some r -> (w < 3)%nat ->
  io_read (S n) j w addr s = io_read n i w (u32 (addr + r)) s /\
  forall val, io_write (S n) j w addr val s = io_write n i w (u32 (addr + r)) val s.
Proof.
  intros Hz Hk Hi Hr Hw.
  split; [|intros val]; cbn [io_read io_write]; run; unfold id; rewrite Hz; run; cbn [io_mem_read io_mem_write subpage_zone];
    rewrite lookup_replicate_2 by done; cbn [mbind option_bind]; run; lazy beta fix match; run; unfold id; rewrite Hk; run;
    rewrite Hr; run; rewrite Hi; by run.
Qed.

Lemma reaches_read s a i o w rd wr n :
  reaches s a i o -> device_zone s i rd wr -> (w < 3)%nat ->
  exists pd a1, page_of a s = Done ((pd, a1), s, []) /\ reads_io pd = true /\ writes_io pd = true /\
    page_offset a1 = page_offset a /\ io_read (S (S n)) (zone_of pd) w a1 s = device_read (rd w) o s /\
    forall val, io_write (S (S n)) (zone_of pd) w a1 val s = device_write (wr w) o val s.
Proof.
  intros (d & Ht & Hr & Hw & Ha & Hcase) Hz Hw3.
  exists (phys_offset d), (u32 (page_offset a + region_offset d)). split; [by apply page_of_target|].
  split; [done|]. split; [done|]. split; [done|]. set (a1 := u32 _) in *.
  destruct Hcase as [[<- <-]|(k & m & r & Hzone & Hk & Hi & Hrg & <-)]; [by apply io_device|].
  rewrite <- Ha in Hi, Hrg. destruct (io_subpage s _ k m i r w a1 (S n) Hzone Hk Hi Hrg Hw3) as [-> Ew].
  destruct (io_device s i (u32 (a1 + r)) w rd wr n Hz Hw3) as [-> Ew2]. split; [done|]. intros val. by rewrite Ew, Ew2.
Qed.

Lemma land_low a b k : (k <= 10) -> 0 <= k -> page_offset a = page_offset b -> a .& (2 ^ k - 1) = b .& (2 ^ k - 1).
Proof.
  intros Hk Hk0 Hab. unfold page_offset in Hab. change (TARGET_PAGE_SIZE - 1) with (2 ^ 10 - 1) in Hab.
  assert (forall x, x .& (2 ^ k - 1) = (x .& (2 ^ 10 - 1)) .& (2 ^ k - 1)) as Hx.
  { intros x. rewrite <- Z.land_assoc. f_equal. change (2 ^ 10 - 1) with (Z.ones 10).
    replace (2 ^ k - 1) with (Z.ones k) by (rewrite Z.ones_equiv; lia). rewrite Z.land_comm.
    symmetry. rewrite Z.land_ones by lia. apply Z.mod_small. rewrite Z.ones_equiv.
    pose proof (Z.pow_le_mono_r 2 k 10). lia. }
  by rewrite Hx, Hab, <- Hx.
Qed.

(** The access of an aligned address has the width it was made with. *)
Lemma aligned_width a a1 w :
  (w < 3)%nat -> page_offset a1 = page_offset a -> a .& (Z.of_nat (width_bytes w) - 1) = 0 ->
  access_width (Z.of_nat (width_bytes w)) a1 = w.
Proof.
  intros Hw Ha Hal. pose proof (land_low a1 a 2 ltac:(lia) ltac:(lia) Ha) as H4.
  pose proof (land_low a1 a 1 ltac:(lia) ltac:(lia) Ha) as H2. change (2 ^ 2 - 1) with 3 in H4. change (2 ^ 1 - 1) with 1 in H2.
  destruct w as [|[|[|]]]; [| | |lia]; cbn [width_bytes Nat.pow Nat.mul Nat.add] in *; unfold access_width.
  - done.
  - change (Z.of_nat 2 - 1) with 1 in Hal. rewrite H2, Hal. done.
  - change (Z.of_nat 4 - 1) with 3 in Hal. by rewrite H4, Hal.
Qed.

(** An aligned access does not leave its page. *)
Lemma aligned_in_page a w :
  (w < 3)%nat -> fits 32 a -> a .& (Z.of_nat (width_bytes w) - 1) = 0 ->
  Z.of_nat (width_bytes w) <= u32 (page_base a + TARGET_PAGE_SIZE - a).
Proof.
  intros Hw Ha Hal. pose proof (page_split a) as Hs. pose proof (page_offset_bound a) as Ho.
  assert (page_offset a + Z.of_nat (width_bytes w) <= TARGET_PAGE_SIZE) as Hle.
  { assert (exists k, page_offset a = Z.of_nat (width_bytes w) * k) as [k Hk].
    { assert (0 <= Z.of_nat w <= 2) as Hw' by lia.
      assert (Z.of_nat (width_bytes w) = 2 ^ Z.of_nat w) as Hp by (destruct w as [|[|[|]]]; [done..|lia]). rewrite Hp in *.
      exists (page_offset a / 2 ^ Z.of_nat w). apply Z.div_exact; [by apply Z.pow_nonzero; lia|].
      rewrite land_mod in Hal by lia. rewrite page_offset_eq. change TARGET_PAGE_SIZE with (2 ^ 10).
      rewrite Z.mod_mod_divide; [done|]. exists (2 ^ (10 - Z.of_nat w)). rewrite <- Z.pow_add_r by lia. f_equal. lia. }
    change TARGET_PAGE_SIZE with 1024 in *. destruct w as [|[|[|]]]; [| | |lia]; cbn [width_bytes Nat.pow Nat.mul Nat.add] in *; lia. }
  rewrite page_base_eq. unfold fits in Ha. rewrite Z.shiftr_div_pow2 in Hs by done. change (2 ^ TARGET_PAGE_BITS) with TARGET_PAGE_SIZE in Hs.
  rewrite wrap_fits; unfold fits; change TARGET_PAGE_SIZE with 1024 in *; lia.
Qed.

(** Reading and writing an aligned value through the memory map is calling the
    device's handler of that width. *)
Lemma device_access s a i o w rd wr :
  reaches s a i o -> device_zone s i rd wr -> (w < 3)%nat -> fits 32 a -> a .& (Z.of_nat (width_bytes w) - 1) = 0 ->
  cpu_physical_memory_read a (Z.of_nat (width_bytes w)) s
    = (v <- device_read (rd w) o ;; ret (le_bytes (width_bytes w) v)) s /\
  (forall d, length d = width_bytes w -> cpu_physical_memory_write a d s = device_write (wr w) o (le_value d) s) /\
  ld_phys w a s = device_read (rd w) o s /\ forall val, st_phys w a val s = device_write (wr w) o val s.
Proof.
  intros Hre Hz Hw Ha Hal. pose proof (aligned_in_page a w Hw Ha Hal) as Hin.
  destruct (reaches_read s a i o w rd wr (length (subpages s)) Hre Hz Hw) as (pd & a1 & Epage & Hr & Hwr & Hoff & Erd & Ewr).
  pose proof (aligned_width a a1 w Hw Hoff Hal) as Hwidth.
  assert (exists n, width_bytes w = S n) as [n Hn] by (destruct w as [|[|[|]]]; [by eexists..|lia]).
  split; [|split; [|split]].
  - unfold cpu_physical_memory_read. rewrite Nat2Z.id. rewrite Hn at 1. cbn [read_loop].
    destruct (Z.leb_spec (Z.of_nat (width_bytes w)) 0); [lia|].
    unfold read_some. rewrite Z.min_l by done. run. rewrite (bind_silent _ _ _ _ _ Epage). rewrite Hr, Hwidth. run.
    change (io_fuel s) with (S (S (length (subpages s)))). unfold bind. rewrite Erd.
    destruct (device_read (rd w) o s) as [[[v s1] e1]| |]; [|done..]. cbn.
    assert (zlen (le_bytes (width_bytes w) v) = Z.of_nat (width_bytes w)) as -> by (unfold zlen; by rewrite length_le_bytes).
    rewrite Z.sub_diag. assert (forall f x, read_loop f x 0 s1 = Done ([], s1, [])) as -> by by intros [].
    cbn. by rewrite !app_nil_r.
  - intros d Hd. unfold cpu_physical_memory_write. destruct d as [|b d']; [by rewrite Hn in Hd|].
    set (d := b :: d') in *. assert (write_loop (length d) a d s = (n <- write_some a d ;; write_loop (length d') (u32 (a + Z.of_nat n)) (drop n d)) s)
      as -> by done.
    assert (write_some a d s = (device_write (wr w) o (le_value d) ;;; ret (width_bytes w)) s) as Ew.
    { unfold write_some. assert (zlen d = Z.of_nat (width_bytes w)) as -> by (unfold zlen; by rewrite Hd).
      rewrite Z.min_l by done. run. rewrite (bind_silent _ _ _ _ _ Epage). rewrite Hwr, Hwidth. run.
      change (io_fuel s) with (S (S (length (subpages s)))). rewrite take_ge by lia. unfold bind. by rewrite Ewr. }
    unfold bind at 1. rewrite Ew. unfold bind. destruct (device_write (wr w) o (le_value d) s) as [[[[] s1] e1]| |]; [|done..].
    cbn [ret]. rewrite drop_ge by lia. assert (forall f x, write_loop f x [] s1 = Done (tt, s1, [])) as -> by by intros [].
    by rewrite !app_nil_r.
  - unfold ld_phys. rewrite (bind_silent _ _ _ _ _ Epage). rewrite Hr. run. exact Erd.
  - intros val. unfold st_phys. rewrite (bind_silent _ _ _ _ _ Epage). rewrite Hwr. run. apply Ewr.
Qed.

(** ** RAM *)

Definition block_ok (b : RAMBlock) : Prop :=
  0 <= offset b /\ page_offset (offset b) = 0 /\ 0 < blength b /\ page_offset (blength b) = 0 /\
  offset b + blength b < 2 ^ 64 /\ zlen (host b) = blength b.
Definition holds (b : RAMBlock) (x : Z) : Prop := offset b <= x < offset b + blength b.
Definition disjoint (b c : RAMBlock) : Prop := forall x, holds b x -> holds c x -> False.

(** Blocks are whole pages, do not overlap, and the dirty map covers them. *)
Definition blocks_ok (l : list RAMBlock) (dirty : list Z) : Prop :=
  Forall block_ok l /\ ForallOrdPairs disjoint l /\
  Forall (fun b => offset b + blength b <= TARGET_PAGE_SIZE * zlen dirty) l.
Definition ram_ok (s : memory_state F W) : Prop := blocks_ok (blocks s) (phys_dirty s).

(** The byte at a RAM address. *)
Definition in_ram (s : memory_state F W) (x v : Z) : Prop :=
  exists b, b ∈ blocks s /\ holds b x /\ aget (host b) (x - offset b) = Some v.

Lemma disjoint_sym b c : disjoint b c -> disjoint c b.
Proof. intros Hd x H1 H2. by apply (Hd x). Qed.

Lemma pairs_perm (l l' : list RAMBlock) : l ≡ₚ l' -> ForallOrdPairs disjoint l -> ForallOrdPairs disjoint l'.
Proof.
  induction 1 as [|b l l' Hp IH|b c l|l1 l2 l3 _ IH1 _ IH2]; intros Hd; [done|..].
  - inversion_clear Hd as [|? ? Hb Hl]. constructor; [|by apply IH]. by rewrite <- Hp.
  - inversion_clear Hd as [|? ? Hb Hl]. inversion_clear Hl as [|? ? Hc Hl']. apply Forall_cons in Hb as [Hbc Hb].
    constructor; [|by constructor]. apply Forall_cons. split; [by apply disjoint_sym|done].
  - auto.
Qed.

Lemma blocks_perm l l' dirty : l ≡ₚ l' -> blocks_ok l dirty -> blocks_ok l' dirty.
Proof. intros Hp (H1 & H2 & H3). split; [by rewrite <- Hp|]. split; [by apply (pairs_perm l)|by rewrite <- Hp]. Qed.

#[global] Instance holds_dec b x : Decision (holds b x).
Proof. unfold holds. apply _. Defined.

Lemma holds_test b x : block_ok b -> 0 <= x < 2 ^ 64 -> (u64 (x - offset b) <? blength b) = bool_decide (holds b x).
Proof.
  intros (H0 & _ & Hl & _ & Hb & _) Hx. apply eq_bool_prop_intro. rewrite bool_decide_spec, Is_true_true, Z.ltb_lt.
  unfold holds. destruct (Z.le_gt_cases (offset b) x) as [Hle|Hgt].
  - rewrite wrap_fits by (unfold fits; lia). lia.
  - assert (u64 (x - offset b) = x - offset b + 2 ^ 64) as ->; [|lia].
    unfold wrap. symmetry. apply (Z.mod_unique _ _ (-1)); lia.
Qed.

(** The block of an address, with the other blocks. *)
Lemma take_block_spec x l b :
  Forall block_ok l -> 0 <= x < 2 ^ 64 -> b ∈ l -> holds b x -> ForallOrdPairs disjoint l ->
  exists r, take_block x l = Some (b, r) /\ l ≡ₚ b :: r.
Proof.
  intros Hok Hx Hb Hh. revert Hok. induction Hb as [b l|b c l Hb IH]; intros Hok Hd; apply Forall_cons in Hok as [Hc Hl]; cbn [take_block].
  - rewrite holds_test, bool_decide_true by done. by exists l.
  - inversion_clear Hd as [|? ? Hcd Hld]. rewrite holds_test by done. case_bool_decide as Hcx.
    { rewrite Forall_forall in Hcd. by destruct (Hcd b Hb x). }
    destruct (IH Hh Hl Hld) as (r & -> & Hp). cbn. exists (c :: r). split; [done|]. rewrite Hp. apply Permutation_swap.
Qed.

Lemma in_ram_unique s x v v' : ram_ok s -> in_ram s x v -> in_ram s x v' -> v = v'.
Proof.
  intros (_ & Hd & _) (b & Hb & Hbx & Hv) (c & Hc & Hcx & Hv').
  assert (b = c) as <-; [|congruence]. revert Hb Hc. clear Hv Hv'. induction Hd as [|d l Hdl Hl IH]; intros Hb Hc; [by apply elem_of_nil in Hb|].
  rewrite Forall_forall in Hdl.
  apply elem_of_cons in Hb as [->|Hb], Hc as [->|Hc]; [done| | |by apply IH].
  - by destruct (Hdl c Hc x).
  - by destruct (Hdl b Hb x).
Qed.

(** [qemu_get_ram_ptr] reorders the blocks. *)
Lemma get_ram_ptr_run s x b :
  ram_ok s -> 0 <= x -> b ∈ blocks s -> holds b x ->
  exists r, qemu_get_ram_ptr x s = Done (b, s <| blocks := b :: r |>, []) /\ blocks s ≡ₚ b :: r.
Proof.
  intros (Hok & Hd & Hdirty) Hx Hb Hh. assert (block_ok b) as (_ & _ & _ & _ & Hend & _) by (by rewrite Forall_forall in Hok; apply Hok).
  destruct (take_block_spec x (blocks s) b Hok) as (r & Et & Hp); [unfold holds in Hh; lia|done..|].
  exists r. split; [|done]. unfold qemu_get_ram_ptr. run. unfold id. rewrite Et. by run.
Qed.

(** A run of RAM addresses within a page lies in one block. *)
Lemma page_in_block b x n :
  block_ok b -> holds b x -> page_offset x + n <= TARGET_PAGE_SIZE -> x + n <= offset b + blength b.
Proof.
  intros (H0 & Ho & Hl & Hlo & _) Hx Hn. unfold holds in Hx.
  pose proof (page_split x). pose proof (page_split (offset b)). pose proof (page_split (blength b)).
  pose proof (page_offset_bound x). change TARGET_PAGE_SIZE with 1024 in *. lia.
Qed.

Definition same_but_order (s s' : memory_state F W) : Prop :=
  exists l, s' = s <| blocks := l |> /\ blocks s ≡ₚ l.

Lemma order_in_ram s s' x v : same_but_order s s' -> in_ram s' x v <-> in_ram s x v.
Proof.
  intros (l & -> & Hp). unfold in_ram. change (blocks (s <| blocks := l |>)) with l.
  split; intros (b & Hb & Hr); exists b; (split; [|done]); [by rewrite Hp|by rewrite <- Hp].
Qed.

Lemma order_ok s s' : same_but_order s s' -> ram_ok s -> ram_ok s'.
Proof. intros (l & -> & Hp). apply (blocks_perm _ _ _ Hp). Qed.

(** Reading a run within a page. *)
Lemma ram_load_run s x skip n :
  ram_ok s -> 0 <= x -> 0 <= skip -> 0 <= n -> page_offset x + skip + n <= TARGET_PAGE_SIZE -> (exists v, in_ram s x v) ->
  exists d s', ram_load x skip n s = Done (d, s', []) /\ same_but_order s s' /\ zlen d = n /\
    forall j v, aget d j = Some v -> in_ram s (x + skip + j) v.
Proof.
  intros Hok Hx Hskip Hn Hpage (v0 & b & Hb & Hh & Hv0).
  destruct (get_ram_ptr_run s x b Hok Hx Hb Hh) as (r & E1 & Hp).
  assert (block_ok b) as Hbok by (destruct Hok as (Hok & _); rewrite Forall_forall in Hok; by apply Hok).
  pose proof (page_in_block b x (skip + n) Hbok Hh ltac:(lia)) as Hin.
  destruct Hbok as (H0 & _ & _ & _ & Hend & Hlen). unfold holds in Hh.
  assert (slice (x - offset b + skip) n (host b) = Some (take (Z.to_nat n) (drop (Z.to_nat (x - offset b + skip)) (host b)))) as Es
    by (apply slice_Some; lia).
  eexists _, (s <| blocks := b :: r |>). split; [|split; [by exists (b :: r)|split; [by apply slice_length in Es|]]].
  - unfold ram_load. rewrite (bind_silent _ _ _ _ _ E1). rewrite (wrap_fits 64) by (unfold fits; lia). by rewrite Es.
  - intros j v Hj. pose proof (aget_bounds _ _ _ Hj) as Hjb. rewrite (slice_length _ _ _ _ Es) in Hjb. exists b. split; [done|]. split; [unfold holds; lia|].
    revert Hj. unfold aget. destruct (Z.ltb_spec j 0); [lia|]. rewrite lookup_take_lt by lia. rewrite lookup_drop.
    replace (Z.to_nat (x - offset b + skip) + Z.to_nat j)%nat with (Z.to_nat (x + skip + j - offset b)) by lia.
    by destruct (Z.ltb_spec (x + skip + j - offset b) 0); [lia|].
Qed.

Lemma aget_splice l x d l' j :
  splice (A := Z) x d l = Some l' -> 0 <= x -> 0 <= j ->
  aget l' j = if decide (x <= j < x + zlen d) then aget d (j - x) else aget l j.
Proof.
  intros Hs Hx Hj. assert (x + zlen d <= zlen l) as Hle by (revert Hs; unfold splice, zlen; zcases; done).
  rewrite splice_Some in Hs by done. injection Hs as <-. unfold aget, zlen in *.
  destruct (Z.ltb_spec j 0); [lia|]. destruct (decide _) as [Hin|Hout].
  - destruct (Z.ltb_spec (j - x) 0); [lia|]. rewrite lookup_app_r by (rewrite length_take; lia).
    rewrite length_take, lookup_app_l by lia. f_equal. lia.
  - destruct (Z.lt_ge_cases j x).
    + rewrite lookup_app_l by (rewrite length_take; lia). by rewrite lookup_take_lt by lia.
    + rewrite lookup_app_r by (rewrite length_take; lia). rewrite length_take, lookup_app_r by lia.
      rewrite lookup_drop. f_equal. lia.
Qed.

(** What a write of [d] at [x] makes of the RAM. *)
Definition written_at (s s' : memory_state F W) (x : Z) (d : list Z) : Prop :=
  forall y v, in_ram s' y v <-> if decide (x <= y < x + zlen d) then aget d (y - x) = Some v else in_ram s y v.

Lemma ram_store_run s x d :
  ram_ok s -> 0 <= x -> page_offset x + zlen d <= TARGET_PAGE_SIZE -> (exists v, in_ram s x v) ->
  exists l, ram_store x d s = Done (tt, s <| blocks := l |>, []) /\ ram_ok (s <| blocks := l |>) /\
    written_at s (s <| blocks := l |>) x d.
Proof.
  intros Hok Hx Hpage (v0 & b & Hb & Hh & Hv0).
  destruct (get_ram_ptr_run s x b Hok Hx Hb Hh) as (r & E1 & Hp).
  assert (block_ok b) as Hbok by (destruct Hok as (Hok & _); rewrite Forall_forall in Hok; by apply Hok).
  pose proof (page_in_block b x (zlen d) Hbok Hh Hpage) as Hin.
  pose proof (blocks_perm _ _ _ Hp Hok) as (Hall & Hdis & Hdirty).
  pose proof Hbok as (H0 & _ & _ & _ & Hend & Hlen). pose proof Hh as Hh'. unfold holds in Hh'.
  destruct (splice (x - offset b) d (host b)) as [h|] eqn:Es; [|by rewrite splice_Some in Es by lia].
  set (b' := b <| host := h |>). exists (b' :: r). split; [|split].
  - unfold ram_store. rewrite (bind_silent _ _ _ _ _ E1). rewrite (wrap_fits 64) by (unfold fits; lia). rewrite Es. by run.
  - apply Forall_cons in Hall as [_ Hall]. inversion_clear Hdis as [|? ? Hbr Hr]. apply Forall_cons in Hdirty as [Hbd Hdirty].
    change (blocks_ok (b' :: r) (phys_dirty s)). split; [|split].
    + constructor; [|done]. destruct Hbok as (?&?&?&?&?&?). split_and!; try done. unfold zlen. change (host b') with h.
      by rewrite (splice_length _ _ _ _ Es).
    + by constructor.
    + by constructor.
  - intros y v. unfold in_ram at 1. change (blocks (s <| blocks := b' :: r |>)) with (b' :: r). inversion_clear Hdis as [|? ? Hbr Hr].
    assert (forall c, c ∈ r -> ~ (holds b y /\ holds c y)) as Hno.
    { intros c Hc [Hby Hcy]. rewrite Forall_forall in Hbr. exact (Hbr c Hc y Hby Hcy). }
    assert (holds b y -> aget h (y - offset b) = if decide (x <= y < x + zlen d) then aget d (y - x) else aget (host b) (y - offset b)) as Hget.
    { unfold holds. intros Hy. rewrite (aget_splice _ _ _ _ _ Es) by lia.
      replace (y - offset b - (x - offset b)) with (y - x) by lia. repeat destruct (decide _); try done; lia. }
    assert (forall c, c ∈ blocks s <-> c = b \/ c ∈ r) as Hmem by (intros c; rewrite Hp; apply elem_of_cons).
    split.
    + intros (c & Hc & Hcy & Hv). apply elem_of_cons in Hc as [->|Hc].
      * change (holds b y) in Hcy. change (aget h (y - offset b) = Some v) in Hv. rewrite (Hget Hcy) in Hv.
        destruct (decide _); [done|]. exists b. by split.
      * rewrite decide_False; [exists c; split; [apply Hmem; by right|done]|]. intros Hy. apply (Hno c Hc).
        split; [unfold holds; lia|done].
    + intros Hv. destruct (decide (x <= y < x + zlen d)) as [Hy|Hy].
      * exists b'. split; [by left|]. assert (holds b y) as Hby by (unfold holds; lia). split; [done|].
        change (aget h (y - offset b) = Some v). by rewrite (Hget Hby).
      * destruct Hv as (c & Hc & Hcy & Hv). apply Hmem in Hc as [->|Hc].
        -- exists b'. split; [by left|]. split; [done|]. change (aget h (y - offset b) = Some v). by rewrite (Hget Hcy).
        -- exists c. split; [by right|done].
Qed.

(** The dirty map follows; what it throws away is all that is visible. *)
Lemma dirty_ram_run s x n :
  ram_ok s -> 0 <= x -> (exists v, in_ram s x v) ->
  exists d es, dirty_ram x n s = Done (tt, s <| phys_dirty := d |>, es) /\ length d = length (phys_dirty s).
Proof.
  intros (Hok & _ & Hdirty) Hx (v & b & Hb & Hh & _). rewrite Forall_forall in Hdirty. specialize (Hdirty b Hb). unfold holds in Hh.
  assert (0 <= x >> TARGET_PAGE_BITS < zlen (phys_dirty s)) as Hi.
  { pose proof (page_split x). pose proof (page_offset_bound x). change TARGET_PAGE_SIZE with 1024 in *. lia. }
  destruct (aget_Some _ _ Hi) as [f Hf]. unfold dirty_ram. run. unfold id. rewrite Hf. run.
  destruct (f =? 0xff); cbn [negb when].
  - exists (phys_dirty s), []. split; [|done]. by assert (s <| phys_dirty := phys_dirty s |> = s) as -> by by destruct s.
  - rewrite aset_Some by done. do 2 eexists. split; [reflexivity|]. apply length_insert.
Qed.

(** ** Regions of RAM *)

(** The addresses from [a] on are RAM from [off] on. *)
Definition ram_region (s : memory_state F W) (a n off : Z) : Prop :=
  0 <= a /\ a + n <= 2 ^ 32 /\ 0 <= off /\
  forall j, 0 <= j < n ->
    (exists d, page_target s ((a + j) >> TARGET_PAGE_BITS) = Some d /\ page_offset (phys_offset d) = IO_MEM_RAM /\
       test (phys_offset d) IO_MEM_ROMD = false /\
       page_base (phys_offset d) + page_offset (a + j) = off + j) /\ exists v, in_ram s (off + j) v.

Lemma ram_region_tail s a n off k : ram_region s a n off -> 0 <= k <= n -> ram_region s (a + k) (n - k) (off + k).
Proof.
  intros (Ha & Hb & Ho & Hr) Hk. split; [lia|]. split; [lia|]. split; [lia|]. intros j Hj.
  destruct (Hr (k + j)) as [(d & Hd) Hv]; [lia|]. rewrite !Z.add_assoc in *. split; [by exists d|done].
Qed.

Lemma ram_region_sub s a n off k m : ram_region s a n off -> 0 <= k -> 0 <= m -> k + m <= n -> ram_region s (a + k) m (off + k).
Proof.
  intros Hr Hk Hm Hn. destruct (ram_region_tail s a n off k Hr ltac:(lia)) as (Ha & Hb & Ho & Hbytes).
  split; [done|]. split; [lia|]. split; [done|]. intros j Hj. apply Hbytes. lia.
Qed.

(** The two sides of a page descriptor that is RAM. *)
Lemma ram_page_run s a n off :
  ram_region s a n off -> 0 < n -> exists pd a1, page_of a s = Done ((pd, a1), s, []) /\ reads_io pd = false /\
    writes_io pd = false /\ page_base pd + page_offset a = off /\ page_offset (page_base pd) = 0 /\ 0 <= page_base pd.
Proof.
  intros (Ha & _ & Hoff & Hr) Hn. destruct (Hr 0) as [(d & Hd & Hram & Hromd & Ho) _]; [lia|]. rewrite !Z.add_0_r in *.
  exists (phys_offset d), (u32 (page_offset a + region_offset d)). split; [by apply page_of_target|].
  unfold reads_io, writes_io. rewrite Hram, Hromd. split; [done|]. split; [done|]. split; [done|].
  assert (page_offset (page_base (phys_offset d)) = 0) as Hpb.
  { rewrite page_base_eq. rewrite <- (Z.add_0_r (TARGET_PAGE_SIZE * _)). by apply page_offset_at. }
  split; [done|]. pose proof (page_offset_bound a). pose proof (page_split (page_base (phys_offset d))) as Hs.
  rewrite Hpb in Hs. change TARGET_PAGE_SIZE with 1024 in *. lia.
Qed.

(** How far the page goes. *)
Lemma page_rest a n : 0 <= a -> 0 < n -> a + n <= 2 ^ 32 ->
  let l := Z.min n (u32 (page_base a + TARGET_PAGE_SIZE - a)) in
  0 < l <= n /\ page_offset a + l <= TARGET_PAGE_SIZE.
Proof.
  intros Ha Hn Hb l. pose proof (page_split a) as Hs. pose proof (page_offset_bound a) as Ho.
  rewrite Z.shiftr_div_pow2 in Hs by done. change (2 ^ TARGET_PAGE_BITS) with TARGET_PAGE_SIZE in Hs.
  unfold l. rewrite page_base_eq. rewrite wrap_fits; unfold fits; change TARGET_PAGE_SIZE with 1024 in *; lia.
Qed.

Lemma order_trans s1 s2 s3 : same_but_order s1 s2 -> same_but_order s2 s3 -> same_but_order s1 s3.
Proof. intros (l & -> & Hp) (l' & -> & Hp'). exists l'. split; [done|]. by rewrite Hp. Qed.
Lemma order_refl s : same_but_order s s.
Proof. exists (blocks s). split; [by destruct s|done]. Qed.

Lemma order_region s s' a n off : same_but_order s s' -> ram_region s a n off -> ram_region s' a n off.
Proof.
  intros Hso (Ha & Hb & Ho & Hr). split; [done|]. split; [done|]. split; [done|]. intros j Hj.
  destruct (Hr j Hj) as [Hd [v Hv]]. split; [|exists v; by rewrite (order_in_ram _ _ _ _ Hso)].
  destruct Hso as (l & -> & _). exact Hd.
Qed.

Lemma aget_app (l1 l2 : list Z) j :
  0 <= j -> aget (l1 ++ l2) j = if decide (j < zlen l1) then aget l1 j else aget l2 (j - zlen l1).
Proof.
  intros Hj. unfold aget, zlen. destruct (Z.ltb_spec j 0); [lia|]. destruct (decide _).
  - by rewrite lookup_app_l by lia.
  - destruct (Z.ltb_spec (j - Z.of_nat (length l1)) 0); [lia|]. rewrite lookup_app_r by lia. f_equal. lia.
Qed.

(** The first byte of a page of RAM is RAM. *)
Lemma ram_page_base s pd a off :
  ram_ok s -> page_base pd + page_offset a = off -> page_offset (page_base pd) = 0 -> 0 <= page_base pd ->
  (exists v, in_ram s off v) -> exists v, in_ram s (page_base pd) v.
Proof.
  intros Hok Hoff Hpb0 Hpb (v & b & Hb' & Hh & Hv).
  assert (block_ok b) as Hbok by (destruct Hok as (Hok & _); rewrite Forall_forall in Hok; by apply Hok).
  destruct Hbok as (B0 & B1 & B2 & B3 & B4 & B5). unfold holds in Hh.
  assert (holds b (page_base pd)) as Hhb.
  { unfold holds. pose proof (page_split (page_base pd)). pose proof (page_split (offset b)). pose proof (page_offset_bound a).
    change TARGET_PAGE_SIZE with 1024 in *. lia. }
  destruct (aget_Some (host b) (page_base pd - offset b)) as [w Hw]; [unfold holds in Hhb; lia|]. by exists w, b.
Qed.

(** Reading one word of RAM. *)
Lemma ld_phys_run w s a off :
  ram_ok s -> ram_region s a (Z.of_nat (width_bytes w)) off -> page_offset a + Z.of_nat (width_bytes w) <= TARGET_PAGE_SIZE ->
  exists d s', ld_phys w a s = Done (le_value d, s', []) /\ same_but_order s s' /\ zlen d = Z.of_nat (width_bytes w) /\
    forall j v, aget d j = Some v -> in_ram s (off + j) v.
Proof.
  intros Hok Hr Hpage. assert (0 < Z.of_nat (width_bytes w)) as Hw.
  { unfold width_bytes. rewrite Nat2Z.inj_pow. apply Z.pow_pos_nonneg; lia. }
  destruct (ram_page_run s a _ off Hr Hw) as (pd & a1 & Epage & Hrd & _ & Hoff & Hpb0 & Hpb).
  pose proof Hr as (_ & _ & _ & Hbytes). destruct (Hbytes 0) as [_ Hv0]; [lia|]. rewrite Z.add_0_r in Hv0.
  pose proof (ram_page_base s pd a off Hok Hoff Hpb0 Hpb Hv0) as Hv.
  destruct (ram_load_run s (page_base pd) (page_offset a) (Z.of_nat (width_bytes w))) as (d & s1 & E1 & Hso & Hd & Hb);
    [done|done|apply page_offset_bound|lia|lia|done|].
  exists d, s1. split; [|split; [done|split; [done|]]].
  - unfold ld_phys. rewrite (bind_silent _ _ _ _ _ Epage). rewrite Hrd. by rewrite (bind_silent _ _ _ _ _ E1).
  - intros j v Hj. rewrite <- Hoff. by apply Hb.
Qed.

(** Reading a region of RAM, whatever pages it crosses. *)
Lemma ram_read n s a off :
  ram_ok s -> ram_region s a n off -> 0 <= n ->
  exists d s', cpu_physical_memory_read a n s = Done (d, s', []) /\ same_but_order s s' /\ zlen d = n /\
    forall j v, aget d j = Some v -> in_ram s (off + j) v.
Proof.
  unfold cpu_physical_memory_read. intros Hok Hr Hn. assert (n <= Z.of_nat (Z.to_nat n)) as Hfuel by lia.
  revert Hfuel. generalize (Z.to_nat n) as fuel. intros fuel. revert n s a off Hok Hr Hn.
  induction fuel as [|fuel IH]; intros n s a off Hok Hr Hn Hf.
  { exists [], s. assert (n = 0) as -> by lia. split; [done|]. split; [apply order_refl|]. split; [done|].
    intros j v Hj. apply aget_bounds in Hj. unfold zlen in Hj. cbn in Hj. lia. }
  cbn [read_loop]. destruct (Z.leb_spec n 0) as [Hle|Hgt].
  { exists [], s. assert (n = 0) as -> by lia. split; [done|]. split; [apply order_refl|]. split; [done|].
    intros j v Hj. apply aget_bounds in Hj. unfold zlen in Hj. cbn in Hj. lia. }
  pose proof Hr as (Ha & Hb & Ho & Hbytes). destruct (page_rest a n Ha Hgt Hb) as [Hl Hpage]. set (l := Z.min n _) in *.
  destruct (ram_page_run s a n off Hr Hgt) as (pd & a1 & Epage & Hrd & _ & Hoff & Hpb0 & Hpb).
  destruct (Hbytes 0) as [_ Hv0]; [lia|]. rewrite Z.add_0_r in Hv0.
  pose proof (ram_page_base s pd a off Hok Hoff Hpb0 Hpb Hv0) as Hv.
  destruct (ram_load_run s (page_base pd) (page_offset a) l) as (d1 & s1 & E1 & Hso1 & Hd1 & Hv1);
    [done|done|apply page_offset_bound|lia|lia|done|].
  destruct (IH (n - l) s1 (a + l) (off + l)) as (d2 & s2 & E2 & Hso2 & Hd2 & Hv2).
  { by apply (order_ok _ _ Hso1). }
  { apply (order_region _ _ _ _ _ Hso1). apply ram_region_tail; [done|lia]. }
  { lia. }
  { lia. }
  exists (d1 ++ d2), s2. split; [|split; [by apply (order_trans _ s1)|split]].
  - assert (read_some a n s = Done (d1, s1, [])) as Eq.
    { unfold read_some. rewrite (bind_silent _ _ _ _ _ Epage). rewrite Hrd. exact E1. }
    rewrite (bind_silent _ _ _ _ _ Eq), Hd1. destruct (Z.eq_dec (n - l) 0) as [Hz|Hz].
    + rewrite Hz in *. assert (forall f x, read_loop f x 0 s1 = Done ([], s1, [])) as Hnil by by intros [].
      rewrite Hnil in E2. injection E2 as <- <-. rewrite (bind_silent _ _ _ _ _ (Hnil _ _)). by rewrite app_nil_r.
    + rewrite wrap_fits by (unfold fits; lia). by rewrite (bind_silent _ _ _ _ _ E2).
  - unfold zlen in *. rewrite length_app. lia.
  - intros j v Hj. pose proof (aget_bounds _ _ _ Hj) as Hjb. rewrite aget_app in Hj by lia. destruct (decide _).
    + rewrite <- Hoff. by apply Hv1.
    + rewrite <- (order_in_ram s s1) by done. rewrite Hd1 in *. replace (off + j) with (off + l + (j - l)) by lia. by apply Hv2.
Qed.

(** Only bytes of RAM and the dirty map differ. *)
Definition same_map (s s' : memory_state F W) : Prop :=
  l1_phys_map s' = l1_phys_map s /\ io_mem s' = io_mem s /\ subpages s' = subpages s /\ world s' = world s.

Lemma same_map_ok s s' : same_map s s' -> memory_ok s -> memory_ok s'.
Proof. intros (Hm & Hz & Hs & _) Hok. unfold memory_ok. by rewrite Hm, Hz, Hs. Qed.

Lemma written_region s s' x d a n off :
  same_map s s' -> written_at s s' x d -> ram_region s a n off -> ram_region s' a n off.
Proof.
  intros (Hm & _) Hw (Ha & Hb & Ho & Hr). split; [done|]. split; [done|]. split; [done|]. intros j Hj.
  destruct (Hr j Hj) as [Hd [v Hv]]. split; [unfold page_target in *; by rewrite Hm|].
  destruct (decide (x <= off + j < x + zlen d)) as [Hin|Hout].
  - destruct (aget_Some d (off + j - x)) as [w Hd']; [lia|]. exists w. apply Hw. by rewrite decide_True.
  - exists v. apply Hw. by rewrite decide_False.
Qed.

Lemma written_app s s1 s2 x d1 d2 :
  written_at s s1 x d1 -> written_at s1 s2 (x + zlen d1) d2 -> written_at s s2 x (d1 ++ d2).
Proof.
  intros H1 H2 y v. rewrite (H2 y v). assert (zlen (d1 ++ d2) = zlen d1 + zlen d2) as Hl by (unfold zlen; rewrite length_app; lia).
  rewrite Hl. assert (0 <= zlen d1) by (unfold zlen; lia). assert (0 <= zlen d2) by (unfold zlen; lia).
  destruct (decide (x + zlen d1 <= y < x + zlen d1 + zlen d2)) as [Hin|Hout].
  - rewrite decide_True by lia. rewrite aget_app by lia. rewrite decide_False by lia. by replace (y - x - zlen d1) with (y - (x + zlen d1)) by lia.
  - rewrite (H1 y v). destruct (decide (x <= y < x + zlen d1)).
    + rewrite decide_True by lia. rewrite aget_app by lia. by rewrite decide_True by lia.
    + by rewrite decide_False by lia.
Qed.

(** One turn of a write to RAM. *)
Lemma write_some_run s a d off :
  ram_ok s -> ram_region s a (zlen d) off -> 0 < zlen d ->
  exists l s' es, write_some a d s = Done (l, s', es) /\ (0 < l <= length d)%nat /\ ram_ok s' /\ same_map s s' /\
    written_at s s' off (take l d).
Proof.
  intros Hok Hr Hn. pose proof Hr as (Ha & Hb & Ho & Hbytes). destruct (page_rest a _ Ha Hn Hb) as [Hl Hpage].
  destruct (ram_page_run s a _ off Hr Hn) as (pd & a1 & Epage & _ & Hwr & Hoff & Hpb0 & Hpb).
  destruct (Hbytes 0) as [_ Hv]; [lia|]. rewrite Z.add_0_r in Hv.
  set (l := Z.min (zlen d) _) in *. set (d1 := take (Z.to_nat l) d).
  assert (zlen d1 = l) as Hd1 by (unfold zlen, d1 in *; rewrite length_take; lia).
  assert (page_offset off = page_offset a) as Hpo.
  { rewrite <- Hoff. pose proof (page_split (page_base pd)) as Hs. rewrite Hpb0, Z.add_0_r in Hs. rewrite Hs.
    apply page_offset_at, page_offset_bound. }
  destruct (ram_store_run s off d1 Hok Ho) as (bl & E1 & Hok1 & Hw1); [rewrite Hpo, Hd1; lia|done|].
  set (s1 := s <| blocks := bl |>) in *.
  assert (exists v, in_ram s1 off v) as Hv1.
  { destruct (aget_Some d1 0) as [w Hw]; [lia|]. exists w. apply Hw1. rewrite decide_True by lia. by rewrite Z.sub_diag. }
  destruct (dirty_ram_run s1 off l Hok1 Ho Hv1) as (dm & es & E2 & Hdm).
  exists (Z.to_nat l), (s1 <| phys_dirty := dm |>), es. split; [|split; [unfold zlen in *; lia|split; [|split; [done|exact Hw1]]]].
  - unfold write_some. rewrite (bind_silent _ _ _ _ _ Epage). rewrite Hwr. fold l. rewrite Hoff.
    assert (u64 off = off) as ->.
    { apply wrap_fits. unfold fits. destruct Hv as (v & b & Hb' & Hh & _). destruct Hok as (Hall & _). rewrite Forall_forall in Hall.
      destruct (Hall b Hb') as (_ & _ & _ & _ & Hend & _). unfold holds in Hh. lia. }
    cbv zeta. fold d1. rewrite (bind_silent _ _ _ _ _ E1). rewrite (bind_Done _ _ _ _ _ _ E2). cbn [ret]. by rewrite app_nil_r.
  - destruct Hok1 as (H1 & H2 & H3). split; [done|]. split; [done|].
    change (Forall (fun b => offset b + blength b <= TARGET_PAGE_SIZE * Z.of_nat (length dm)) (blocks s1)). by rewrite Hdm.
Qed.

(** Writing a region of RAM, whatever pages it crosses. *)
Lemma ram_write d s a off :
  ram_ok s -> ram_region s a (zlen d) off ->
  exists s' es, cpu_physical_memory_write a d s = Done (tt, s', es) /\ ram_ok s' /\ same_map s s' /\ written_at s s' off d.
Proof.
  unfold cpu_physical_memory_write. intros Hok Hr. assert (length d <= length d)%nat as Hfuel by done. revert Hfuel.
  generalize (length d) at 2 3 as fuel. intros fuel. revert d s a off Hok Hr. induction fuel as [|fuel IH]; intros d s a off Hok Hr Hf.
  { destruct d; [|cbn in Hf; lia]. exists s, []. split; [done|]. split; [done|]. split; [done|].
    intros y v. unfold zlen. cbn. rewrite decide_False by lia. done. }
  destruct d as [|x d'] eqn:Ed.
  { exists s, []. split; [done|]. split; [done|]. split; [done|]. intros y v. unfold zlen. cbn. rewrite decide_False by lia. done. }
  rewrite <- Ed in *. assert (0 < zlen d) as Hn by (unfold zlen; rewrite Ed; cbn; lia).
  destruct (write_some_run s a d off Hok Hr Hn) as (l & s1 & es1 & E1 & Hl & Hok1 & Hm1 & Hw1).
  assert (zlen (take l d) = Z.of_nat l) as Hlt by (unfold zlen; rewrite length_take; lia).
  assert (zlen (drop l d) = zlen d - Z.of_nat l) as Hld by (unfold zlen; rewrite length_drop; lia).
  destruct (IH (drop l d) s1 (a + Z.of_nat l) (off + Z.of_nat l)) as (s2 & es2 & E2 & Hok2 & Hm2 & Hw2); [done| |rewrite length_drop; lia|].
  { rewrite Hld. apply ram_region_tail; [by apply (written_region _ _ _ _ _ _ _ Hm1 Hw1)|unfold zlen; lia]. }
  exists s2, (es1 ++ es2). split; [|split; [done|split]].
  - assert (write_loop (S fuel) a d s = (n <- write_some a d ;; write_loop fuel (u32 (a + Z.of_nat n)) (drop n d)) s) as ->
      by by rewrite Ed.
    rewrite (bind_Done _ _ _ _ _ _ E1). destruct Hr as (Ha & Hb & _).
    destruct (Z.eq_dec (Z.of_nat l) (zlen d)) as [Hz|Hz].
    + rewrite drop_ge in * by (unfold zlen in Hz; lia). assert (forall x, write_loop fuel x [] s1 = Done (tt, s1, [])) as Hnil by by destruct fuel.
      rewrite Hnil in E2. injection E2 as <- <-. by rewrite Hnil.
    + rewrite wrap_fits by (unfold fits, zlen in *; lia). by rewrite E2.
  - destruct Hm1 as (?&?&?&?), Hm2 as (?&?&?&?). split_and!; congruence.
  - rewrite <- (take_drop l d). apply (written_app _ s1); [done|]. by rewrite Hlt.
Qed.

(** Two readings of the same bytes. *)
Lemma same_bytes s off (d e : list Z) :
  ram_ok s -> zlen d = zlen e -> (forall j v, aget d j = Some v -> in_ram s (off + j) v) ->
  (forall j v, aget e j = Some v -> in_ram s (off + j) v) -> d = e.
Proof.
  intros Hok Hl Hd He. apply list_eq_same_length with (length d); [unfold zlen in Hl; lia|done|].
  intros i v w Hi Hv Hw. apply (in_ram_unique s (off + Z.of_nat i)); [done| |].
  - apply Hd. unfold aget. destruct (Z.ltb_spec (Z.of_nat i) 0); [lia|]. by rewrite Nat2Z.id.
  - apply He. unfold aget. destruct (Z.ltb_spec (Z.of_nat i) 0); [lia|]. by rewrite Nat2Z.id.
Qed.

(** C15.  RAM keeps what is written to it.  A write of any bytes to a region of
    RAM, across any number of pages, finishes; afterwards the bytes are read
    back through every address range that is mapped to the same RAM; every
    region of other RAM addresses reads as before; the map and the devices have
    not noticed. *)
Theorem ram_write_read s a d off :
  ram_ok s -> ram_region s a (zlen d) off ->
  exists s1 es, cpu_physical_memory_write a d s = Done (tt, s1, es) /\ ram_ok s1 /\ same_map s s1 /\
    (forall b, ram_region s b (zlen d) off ->
       exists s2, cpu_physical_memory_read b (zlen d) s1 = Done (d, s2, []) /\ same_but_order s1 s2) /\
    forall b n off', ram_region s b n off' -> 0 <= n -> off' + n <= off \/ off + zlen d <= off' ->
      exists e s2 s3, cpu_physical_memory_read b n s = Done (e, s2, []) /\ cpu_physical_memory_read b n s1 = Done (e, s3, []).
Proof.
  intros Hok Hr. destruct (ram_write d s a off Hok Hr) as (s1 & es & E1 & Hok1 & Hm & Hw). exists s1, es.
  split; [done|]. split; [done|]. split; [done|]. split.
  - intros b Hb. destruct (ram_read (zlen d) s1 b off Hok1) as (e & s2 & E2 & Hso & Hl & He);
      [by apply (written_region s s1 off d)|unfold zlen; lia|]. exists s2. split; [|done].
    assert (d = e) as <-; [|done]. apply (same_bytes s1 off); [done|done| |done].
    intros j v Hj. pose proof (aget_bounds _ _ _ Hj). apply Hw. rewrite decide_True by lia. by replace (off + j - off) with j by lia.
  - intros b n off' Hb Hn Hdis. destruct (ram_read n s b off' Hok Hb Hn) as (e & s2 & E2 & _ & Hl & He).
    destruct (ram_read n s1 b off' Hok1) as (e' & s3 & E3 & _ & Hl' & He'); [by apply (written_region s s1 off d)|done|].
    exists e, s2, s3. split; [done|]. assert (e = e') as <-; [|done]. apply (same_bytes s1 off'); [done|lia| |done].
    intros j v Hj. pose proof (aget_bounds _ _ _ Hj). apply Hw. rewrite decide_False by lia. by apply He.
Qed.

(** ** Allocating RAM *)

Lemma next_offset_le e l b : b ∈ l -> e <= offset b -> next_offset e l <= offset b.
Proof.
  unfold next_offset. assert (forall l m, fold_left (fun next b => if e <=? offset b then Z.min next (offset b) else next) l m <= m) as Hmono.
  { clear l. intros l. induction l as [|c l IH]; intros m; cbn; [lia|]. destruct (e <=? offset c); [|apply IH].
    etransitivity; [apply IH|lia]. }
  intros Hb He. generalize ULONG_MAX as m. induction Hb as [b l|b c l Hb IH]; intros m; cbn [fold_left].
  - replace (e <=? offset b) with true by lia. etransitivity; [apply Hmono|lia].
  - apply IH. done.
Qed.

Lemma next_offset_none e l : (forall b, b ∈ l -> offset b < e) -> next_offset e l = ULONG_MAX.
Proof.
  unfold next_offset. generalize ULONG_MAX as m. induction l as [|b l IH]; intros m Hb; cbn; [done|].
  replace (e <=? offset b) with false; [|symmetry; apply Z.leb_gt, Hb; by left]. apply IH. intros c Hc. apply Hb. by right.
Qed.

Lemma next_offset_bound e l : e <= ULONG_MAX -> e <= next_offset e l <= ULONG_MAX.
Proof.
  unfold next_offset. generalize ULONG_MAX as m. induction l as [|b l IH]; intros m Hm; cbn; [lia|].
  destruct (Z.leb_spec e (offset b)); [|by apply IH]. destruct (IH (Z.min m (offset b))); lia.
Qed.

Lemma block_end_eq b : block_ok b -> block_end b = offset b + blength b.
Proof. intros (? & _ & ? & _ & ? & _). unfold block_end. apply wrap_fits. unfold fits. lia. Qed.

Definition gap_of (l : list RAMBlock) (b : RAMBlock) : Z := u64 (next_offset (block_end b) l - block_end b).

(** The search ends with a block that has the space, if there is one. *)
Lemma search_gap size l k acc :
  (acc = (0, ULONG_MAX) \/ exists b, b ∈ l /\ acc = (block_end b, gap_of l b) /\ size <= gap_of l b) ->
  (forall b, b ∈ k -> b ∈ l /\ gap_of l b < ULONG_MAX) ->
  (acc = (0, ULONG_MAX) -> exists b, b ∈ k /\ size <= gap_of l b) ->
  exists b, b ∈ l /\ (fold_left (fun '(off, mingap) b =>
     let gap := u64 (next_offset (block_end b) l - block_end b) in
     if (size <=? gap) && (gap <? mingap) then (block_end b, gap) else (off, mingap)) k acc).1 = block_end b /\ size <= gap_of l b.
Proof.
  revert acc. induction k as [|b k IH]; intros [off mg] Hacc Hk Hex; cbn [fold_left].
  - destruct Hacc as [Ha|(c & Hc & Ha & Hg)]; [|exists c; by rewrite Ha]. destruct (Hex Ha) as (c & Hc & _). by apply elem_of_nil in Hc.
  - destruct (Hk b) as [Hbl Hbm]; [by left|]. fold (gap_of l b). cbv zeta.
    destruct (Z.leb_spec size (gap_of l b)) as [Hsz|Hsz]; cbn [andb].
    + destruct (Z.ltb_spec (gap_of l b) mg) as [Hlt|Hge].
      * apply IH; [right; by exists b|by intros c Hc; apply Hk; right|]. intros [= _ Hg]. lia.
      * apply IH; [done|by intros c Hc; apply Hk; right|]. intros [= -> ->]. lia.
    + apply IH; [done|by intros c Hc; apply Hk; right|]. intros Ha. destruct (Hex Ha) as (c & Hc & Hg).
      apply elem_of_cons in Hc as [->|Hc]; [lia|by exists c].
Qed.

Lemma last_offset_spec l : Forall block_ok l ->
  (forall b, b ∈ l -> offset b + blength b <= last_ram_offset l) /\
  (last_ram_offset l = 0 \/ exists b, b ∈ l /\ last_ram_offset l = offset b + blength b).
Proof.
  intros Hok. unfold last_ram_offset.
  assert (forall k m, Forall block_ok k -> m <= fold_left (fun m b => Z.max m (block_end b)) k m /\
     (forall b, b ∈ k -> offset b + blength b <= fold_left (fun m b => Z.max m (block_end b)) k m) /\
     (fold_left (fun m b => Z.max m (block_end b)) k m = m \/
      exists b, b ∈ k /\ fold_left (fun m b => Z.max m (block_end b)) k m = offset b + blength b)) as Hgen.
  { intros k. induction k as [|b k IH]; intros m Hk; cbn [fold_left].
    { split; [lia|]. split; [|by left]. intros b Hb. by apply elem_of_nil in Hb. }
    apply Forall_cons in Hk as [Hb Hk]. rewrite (block_end_eq b Hb).
    destruct (IH (Z.max m (offset b + blength b)) Hk) as (H1 & H2 & H3). split; [lia|]. split.
    - intros c Hc. apply elem_of_cons in Hc as [->|Hc]; [lia|by apply H2].
    - destruct H3 as [->|(c & Hc & ->)]; [|right; exists c; split; [by right|done]].
      destruct (Z.max_spec m (offset b + blength b)) as [[_ ->]|[_ ->]]; [right; exists b; split; [by left|done]|by left]. }
  by destruct (Hgen l 0 Hok) as (_ & ? & ?).
Qed.

(** The space found is free. *)
Lemma find_ram_offset_free size l dirty :
  blocks_ok l dirty -> 0 < size -> last_ram_offset l + size < ULONG_MAX ->
  let off := find_ram_offset size l in
  page_offset off = 0 /\ 0 <= off /\ off + size < 2 ^ 64 /\ forall b x, b ∈ l -> holds b x -> off <= x < off + size -> False.
Proof.
  intros (Hok & Hd & _) Hs Hmax. cbv zeta. destruct l as [|b0 l0] eqn:El.
  { split; [done|]. split; [done|]. split; [unfold ULONG_MAX in *; cbn in *; lia|]. intros b x Hb. by apply elem_of_nil in Hb. }
  rewrite <- El in *. set (off := find_ram_offset size l). pose proof Hok as Hall. rewrite Forall_forall in Hall. destruct (last_offset_spec l Hok) as [Hmaxl Hwho].
  assert (forall b, b ∈ l -> gap_of l b = next_offset (block_end b) l - block_end b /\ gap_of l b < ULONG_MAX) as Hgap.
  { intros b Hb. pose proof (block_end_eq b (Hall b Hb)) as He. destruct (Hall b Hb) as (? & _ & ? & _ & Hend & _).
    pose proof (Hmaxl b Hb). destruct (next_offset_bound (block_end b) l); [unfold ULONG_MAX in *; lia|].
    unfold gap_of. rewrite wrap_fits; [split; [done|lia]|]. unfold fits, ULONG_MAX in *. lia. }
  destruct (search_gap size l l (0, ULONG_MAX)) as (b & Hb & Eoff & Hsz); [by left|by intros b Hb; split; [|apply Hgap]| |].
  { intros _. destruct Hwho as [Hz|(b & Hb & Hlast)].
    - destruct (Hall b0) as (? & _ & ? & _); [rewrite El; by left|]. specialize (Hmaxl b0). rewrite El in Hmaxl at 1.
      specialize (Hmaxl ltac:(by left)). lia.
    - exists b. split; [done|]. destruct (Hgap b Hb) as [-> _]. rewrite (block_end_eq b (Hall b Hb)), next_offset_none; [lia|].
      intros c Hc. specialize (Hmaxl c Hc). destruct (Hall c Hc) as (_ & _ & ? & _). lia. }
  change (off = block_end b) in Eoff. clearbody off. rewrite (block_end_eq b (Hall b Hb)) in Eoff.
  destruct (Hgap b Hb) as [Hg _]. rewrite (block_end_eq b (Hall b Hb)) in Hg.
  destruct (Hall b Hb) as (Hb0 & Hb1 & Hb2 & Hb3 & Hb4 & _).
  destruct (next_offset_bound (offset b + blength b) l) as [_ Hn]; [unfold ULONG_MAX; lia|].
  split; [|split; [lia|split; [unfold ULONG_MAX in *; lia|]]].
  - rewrite Eoff. pose proof (page_split (offset b)) as S1. pose proof (page_split (blength b)) as S2. rewrite Hb1 in S1. rewrite Hb3 in S2.
    rewrite S1, S2, !Z.add_0_r, <- Z.mul_add_distr_l. rewrite <- (Z.add_0_r (_ * _)). by apply page_offset_at.
  - intros c x Hc Hcx Hx. destruct (Z.le_gt_cases (offset b + blength b) (offset c)) as [Hge|Hlt].
    + pose proof (next_offset_le _ l c Hc Hge). unfold holds in Hcx. lia.
    + assert (b <> c) as Hbc by (intros ->; unfold holds in Hcx; lia).
      assert (disjoint b c) as Hdis; [|apply (Hdis (offset b + blength b - 1)); unfold holds in *; lia].
      clear - Hd Hb Hc Hbc. induction Hd as [|d l Hdl Hl IH]; [by apply elem_of_nil in Hb|]. rewrite Forall_forall in Hdl.
      apply elem_of_cons in Hb as [->|Hb], Hc as [->|Hc]; [done|by apply Hdl|by apply disjoint_sym, Hdl|by apply IH].
Qed.

Lemma page_offset_base v : page_offset (page_base v) = 0.
Proof. rewrite page_base_eq, <- (Z.add_0_r (_ * _)). by apply page_offset_at. Qed.

(** The dirty map after an allocation. *)
Lemma dirty_grows l dirty b off size :
  block_ok b -> Forall block_ok l -> offset b = off -> blength b = size ->
  exists d, splice (off >> TARGET_PAGE_BITS) (replicate (Z.to_nat (size >> TARGET_PAGE_BITS)) 0xff)
      (take (Z.to_nat (last_ram_offset (b :: l) >> TARGET_PAGE_BITS))
        (dirty ++ zeros (Z.to_nat (last_ram_offset (b :: l) >> TARGET_PAGE_BITS)))) = Some d /\
    Forall (fun c => offset c + blength c <= TARGET_PAGE_SIZE * zlen d) (b :: l).
Proof.
  intros Hb Hl Ho Hs. pose proof Hb as (Hb0 & Hb1 & Hb2 & Hb3 & _). rewrite Ho, Hs in *.
  assert (Forall block_ok (b :: l)) as Hall by by constructor.
  destruct (last_offset_spec (b :: l) Hall) as [Hmax Hwho]. set (last := last_ram_offset (b :: l)) in *.
  assert (page_offset last = 0) as Hp.
  { destruct Hwho as [->|(c & Hc & ->)]; [done|]. rewrite Forall_forall in Hall. destruct (Hall c Hc) as (_ & H1 & _ & H2 & _).
    rewrite page_offset_eq in *. rewrite Z.add_mod, H1, H2 by done. done. }
  pose proof (Hmax b ltac:(by left)) as Hbl. rewrite Ho, Hs in Hbl.
  pose proof (page_split last) as S. rewrite Hp in S. pose proof (page_split off) as So. rewrite Hb1 in So.
  pose proof (page_split size) as Ss. rewrite Hb3 in Ss. change TARGET_PAGE_SIZE with 1024 in S, So, Ss.
  assert (zlen (take (Z.to_nat (last >> TARGET_PAGE_BITS)) (dirty ++ zeros (Z.to_nat (last >> TARGET_PAGE_BITS)))) = last >> TARGET_PAGE_BITS) as Hlen.
  { unfold zlen, zeros. rewrite length_take, length_app, length_replicate. lia. }
  set (old := take _ _) in *. set (ff := replicate _ _).
  destruct (splice (off >> TARGET_PAGE_BITS) ff old) as [d|] eqn:Ed.
  - exists d. split; [done|]. rewrite Forall_forall. intros c Hc. pose proof (Hmax c Hc).
    assert (zlen d = last >> TARGET_PAGE_BITS) as -> by (rewrite <- Hlen; unfold zlen; by rewrite (splice_length _ _ _ _ Ed)).
    change TARGET_PAGE_SIZE with 1024. lia.
  - rewrite splice_Some in Ed; [done|lia|]. rewrite Hlen. unfold zlen, ff. rewrite length_replicate. lia.
Qed.

(** Blocks of RAM never overlap.  An allocation under a new name gets
    addresses, from a page boundary on, that no block has; they hold the given
    memory, every other RAM address what it held before, and the blocks still do
    not overlap.  A name that is taken aborts. *)
Theorem ram_alloc_disjoint s name size host :
  ram_ok s -> 0 < TARGET_PAGE_ALIGN size -> last_ram_offset (blocks s) + TARGET_PAGE_ALIGN size < ULONG_MAX ->
  zlen host = TARGET_PAGE_ALIGN size ->
  let n := TARGET_PAGE_ALIGN size in
  if existsb (fun b => bool_decide (idstr b = name)) (blocks s)
  then qemu_ram_alloc_from_ptr name size host s = HwError
  else exists off s', qemu_ram_alloc_from_ptr name size host s = Done (off, s', []) /\ ram_ok s' /\ same_map s s' /\
    0 <= off /\ page_offset off = 0 /\ (forall x v, off <= x < off + n -> ~ in_ram s x v) /\
    forall x v, in_ram s' x v <-> (off <= x < off + n /\ aget host (x - off) = Some v) \/ in_ram s x v.
Proof.
  intros Hok Hs Hmax Hh n. unfold qemu_ram_alloc_from_ptr. run. unfold id. fold n in Hs, Hmax, Hh |- *.
  destruct (existsb _ _) eqn:Ex; [done|].
  destruct (find_ram_offset_free n (blocks s) (phys_dirty s) Hok Hs Hmax) as (Hp & H0 & Hend & Hfree).
  set (off := find_ram_offset n (blocks s)) in *. set (b := mk_block host off n name).
  assert (block_ok b) as Hb.
  { change (0 <= off /\ page_offset off = 0 /\ 0 < n /\ page_offset n = 0 /\ off + n < 2 ^ 64 /\ zlen host = n).
    split_and!; try done. apply page_offset_base. }
  destruct Hok as (Hall & Hd & _).
  destruct (dirty_grows (blocks s) (phys_dirty s) b off n Hb Hall eq_refl eq_refl) as (d & Ed & Hcover).
  exists off, (s <| blocks := b :: blocks s |> <| phys_dirty := d |>). split; [|split_and!; try done].
  - rewrite Ed. by run.
  - split; [by constructor|]. split; [|exact Hcover]. constructor; [|done]. rewrite Forall_forall. intros c Hc x Hbx Hcx.
    by apply (Hfree c x Hc Hcx).
  - intros x v Hx (c & Hc & Hcx & _). by apply (Hfree c x Hc Hcx).
  - intros x v. unfold in_ram at 1. change (blocks (_ <| phys_dirty := d |>)) with (b :: blocks s). split.
    + intros (c & Hc & Hcx & Hv). apply elem_of_cons in Hc as [->|Hc]; [left; by split|right; by exists c].
    + intros [[Hx Hv]|(c & Hc & Hr)]; [exists b; split; [by left|by split]|exists c; split; [by right|done]].
Qed.

(** Mapping RAM: whole pages, also the last. *)
Lemma ram_region_mapped s base size off :
  memory_ok s -> 0 <= base -> page_offset base = 0 -> 0 < size <= 2 ^ 32 - TARGET_PAGE_SIZE -> base + size <= 2 ^ 32 ->
  page_offset off = 0 -> 0 <= off -> off + TARGET_PAGE_ALIGN size < 2 ^ 64 ->
  (forall y, region_page base size y -> page_target s y = None) -> (forall j, 0 <= j < size -> exists v, in_ram s (off + j) v) ->
  exists s', cpu_register_physical_memory base size off s = Done (tt, s', [MemNotify base size off; MemTlbFlush]) /\
    memory_ok s' /\ extends s s' /\ io_mem s' = io_mem s /\ ram_region s' base size off /\
    forall y, page_index y -> ~ region_page base size y -> page_target s' y = page_target s y.
Proof.
  intros Hok Hb Hpb [Hs Hmax] Hend Ho Ho0 Ho64 Hfree Hbytes.
  assert (exists x, base = TARGET_PAGE_SIZE * x) as [x ->].
  { exists (base >> TARGET_PAGE_BITS). pose proof (page_split base). lia. }
  assert (0 <= x) as Hx by (change TARGET_PAGE_SIZE with 1024 in *; lia).
  setoid_rewrite (region_page_iff x size) in Hfree; [|done..]. setoid_rewrite (region_page_iff x size); [|done].
  set (q := size / TARGET_PAGE_SIZE). set (r := size mod TARGET_PAGE_SIZE).
  destruct (region_split size Hs) as (Hsz & Hrb & Hq). fold q r in Hsz, Hrb, Hq.
  destruct (page_count size Hs Hmax) as [Halign Hcount]. fold q r in Halign, Hcount.
  set (n := q + (if r =? 0 then 0 else 1)) in *.
  assert (TARGET_PAGE_SIZE * (n - 1) < size <= TARGET_PAGE_SIZE * n) as Hn
    by (unfold n; change TARGET_PAGE_SIZE with 1024 in *; destruct (Z.eqb_spec r 0); lia).
  assert (0 <= n) as Hn0 by (change TARGET_PAGE_SIZE with 1024 in *; lia).
  assert ((size + TARGET_PAGE_SIZE - 1) / TARGET_PAGE_SIZE = n) as Hpages.
  { symmetry. apply Z.div_unique with (size + TARGET_PAGE_SIZE - 1 - TARGET_PAGE_SIZE * n); change TARGET_PAGE_SIZE with 1024 in *; lia. }
  setoid_rewrite Hpages in Hfree. setoid_rewrite Hpages.
  set (ph := fun y => off + TARGET_PAGE_SIZE * (y - x)).
  assert (forall y, page_offset (ph y) = 0) as Hph.
  { intros y. unfold ph. rewrite page_offset_eq in *. rewrite (Z.mul_comm TARGET_PAGE_SIZE), Z.mod_add by done. done. }
  destruct (register_full_pages ph (fun y => TARGET_PAGE_SIZE * (y - x)) (TARGET_PAGE_SIZE * x) size (Z.to_nat n) s x Hok Hx)
    as (s1 & E1 & Hok1 & He1 & Hz1 & Hs1 & Ht1).
  { change (2 ^ (_ - _)) with (2 ^ 22). change TARGET_PAGE_SIZE with 1024 in *. lia. }
  { intros y Hy. split_and!; [apply Hfree; lia| | | |].
    - unfold next_phys, consumes_ram. rewrite Hph. cbn [Z.leb orb]. change (0 <=? IO_MEM_ROM) with true. cbn [orb].
      rewrite wrap_fits; [unfold ph; lia|]. unfold fits, ph. change TARGET_PAGE_SIZE with 1024 in *. lia.
    - rewrite wrap_fits; [lia|]. unfold fits. change TARGET_PAGE_SIZE with 1024 in *. lia.
    - intros Hun. specialize (Hph y). rewrite Hun in Hph. done.
    - unfold consumes_ram. by rewrite Hph. }
  rewrite Z2Nat.id in Ht1 by lia. exists s1. split; [|split; [done|split; [done|split; [done|split]]]].
  - unfold cpu_register_physical_memory, cpu_register_physical_memory_offset.
    rewrite (bind_Done _ _ s tt s [MemNotify (TARGET_PAGE_SIZE * x) size off]) by done.
    destruct (Z.eqb_spec off IO_MEM_UNASSIGNED) as [Hun|_]; [by rewrite Hun in Ho|]. change (page_base 0) with 0. cbv zeta.
    rewrite Hcount. specialize (E1 0%nat). rewrite Nat.add_0_r in E1. rewrite page_addr in E1
      by (unfold page_index; change (2 ^ (_ - _)) with (2 ^ 22); change TARGET_PAGE_SIZE with 1024 in *; lia).
    unfold ph in E1 at 1. rewrite Z.sub_diag, Z.mul_0_r, Z.add_0_r in E1. cbn [register_pages] in E1.
    assert ((Z.to_nat q + (if (r =? 0)%Z then 0 else 1))%nat = Z.to_nat n) as -> by (unfold n; destruct (r =? 0); lia).
    by rewrite (bind_silent _ _ _ _ _ E1).
  - split; [done|]. split; [done|]. split; [done|]. intros j Hj. split.
    + assert (x <= (TARGET_PAGE_SIZE * x + j) >> TARGET_PAGE_BITS < x + n) as Hy.
      { pose proof (page_split (TARGET_PAGE_SIZE * x + j)). pose proof (page_offset_bound (TARGET_PAGE_SIZE * x + j)).
        change TARGET_PAGE_SIZE with 1024 in *. lia. }
      set (y := _ >> TARGET_PAGE_BITS) in *. exists (mk_desc (ph y) (TARGET_PAGE_SIZE * (y - x))). cbn [phys_offset].
      split; [|split; [apply Hph|split]].
      * rewrite Ht1 by (unfold page_index; change (2 ^ (_ - _)) with (2 ^ 22); change TARGET_PAGE_SIZE with 1024 in *; lia).
        by rewrite decide_True.
      * unfold test, IO_MEM_ROMD. specialize (Hph y). rewrite page_offset_eq in Hph. change 1 with (2 ^ 1 - 1).
        rewrite land_mod by done. change TARGET_PAGE_SIZE with 1024 in Hph. change (2 ^ 1) with 2.
        assert (ph y mod 2 = 0) as ->; [|done]. pose proof (Z.div_mod (ph y) 1024 ltac:(done)).
        rewrite Hph in *. replace (ph y) with ((512 * (ph y / 1024)) * 2) by lia. by rewrite Z.mod_mul.
      * pose proof (page_split (ph y)) as S1. rewrite Hph in S1. rewrite page_base_eq.
        rewrite Z.shiftr_div_pow2 in S1 by done. change (2 ^ TARGET_PAGE_BITS) with TARGET_PAGE_SIZE in S1.
        pose proof (page_split (TARGET_PAGE_SIZE * x + j)) as S2. fold y in S2. unfold ph in *. lia.
    + destruct (Hbytes j Hj) as (v & b & Hbb & Hr). exists v, b. split; [|done]. destruct He1 as (_ & _ & -> & _). done.
  - intros y Hy Hn'. rewrite Ht1 by done. by rewrite decide_False.
Qed.

(** A mapping elsewhere leaves a region of RAM alone. *)
Lemma region_untouched s s' base size off base' size' :
  ram_region s base size off -> extends s s' ->
  (forall y, page_index y -> ~ region_page base' size' y -> page_target s' y = page_target s y) ->
  (forall y, region_page base size y -> ~ region_page base' size' y) -> ram_region s' base size off.
Proof.
  intros (Ha & Hb & Ho & Hr) (_ & _ & Hbl & _) Hpages Hdis. split; [done|]. split; [done|]. split; [done|]. intros j Hj.
  destruct (Hr j Hj) as [(d & Hd & Hrest) (v & b & Hbb & Hv)]. split; [|exists v, b; by rewrite Hbl].
  exists d. split; [|done]. rewrite Hpages; [done| |].
  - unfold page_index. pose proof (page_split (base + j)). pose proof (page_offset_bound (base + j)).
    change (2 ^ (_ - _)) with (2 ^ 22). change TARGET_PAGE_SIZE with 1024 in *. lia.
  - apply Hdis. exists (base + j). split; [lia|done].
Qed.
End Memory.

(** ** A small machine *)
Module MemoryDemo.

(** Devices answer with their number and the offset, and remember what was
    written last. *)
#[export] Instance demo_devices : IoDevices Z (Z * Z * Z) Empty_set := {
  device_read f addr := ret (0x10000 * f + addr);
  device_write f addr val := modify (fun s => s <| world := (f, addr, val) |>)
}.
Abbreviation demo_state := (memory_state Z (Z * Z * Z)).
Abbreviation demoM := (dev demo_state (mem_event Empty_set)).

(** The state before anything is registered. *)
Definition blank : demo_state :=
  mk_memory (replicate (Z.to_nat P_L1_SIZE) Null)
    (replicate (Z.to_nat IO_MEM_NB_ENTRIES) (mk_zone [None; None; None] [None; None; None] false)) [] [] [] (0, 0, 0).
Definition state_after {A} (m : demoM A) (s : demo_state) : demo_state := match m s with Done (_, s', _) => s' | _ => s end.
Definition no_fns : list (option (io_fn Z)) := [None; None; None].
Definition device_fns (f : Z) : list (option (io_fn Z)) := [Some (Device f); Some (Device (f + 1)); Some (Device (f + 2))].
(** Its zones after [io_mem_init], and with a device with handlers 10, 11, 12. *)
Definition zones : list (io_zone Z) := Eval vm_compute in io_mem (state_after (io_mem_init no_fns no_fns no_fns) blank).
Definition started : demo_state := blank <| io_mem := zones |>.
Definition device_zones : list (io_zone Z) := Eval vm_compute in
  io_mem (state_after (cpu_register_io_memory (device_fns 10) (device_fns 10) DEVICE_LITTLE_ENDIAN) started).
Definition with_device : demo_state := blank <| io_mem := device_zones |>.

Lemma blank_map : map_ok (replicate (Z.to_nat P_L1_SIZE) Null).
Proof. split; [done|]. by apply Forall_replicate. Qed.

Lemma with_device_ok : memory_ok with_device.
Proof.
  split; [exact blank_map|]. split; [done|]. split; [done|]. eexists. split; [reflexivity|done].
Qed.

Lemma blank_pages y : page_target with_device y = None.
Proof.
  unfold page_target. change (l1_phys_map with_device) with (replicate (Z.to_nat P_L1_SIZE) Null).
  unfold phys_page_find, aget. destruct (_ <? 0); [done|]. destruct (_ !! _) as [lp|] eqn:E; [|done].
  by apply lookup_replicate in E as [-> _].
Qed.

(** The timer of the S5L8900: 0xFF bytes at 0x3E200000. *)
Lemma device_region_witness :
  exists s', cpu_register_physical_memory (E := Empty_set) 0x3e200000 0xff (6 << IO_MEM_SHIFT) with_device
      = Done (tt, s', [MemNotify 0x3e200000 0xff 48; MemTlbFlush]) /\
    cpu_physical_memory_read (E := Empty_set) 0x3e200084 4 s' = Done ([0x84; 0; 12; 0], s', []).
Proof.
  destruct (device_region_reached (E := Empty_set) with_device 6 0x3e200000 0xff) as (s' & E & _ & Hext & Hreach & _);
    [exact with_device_ok|done|done|done|done|done|right; by vm_compute|intros; apply blank_pages|].
  exists s'. split; [exact E|]. destruct Hext as (Hz & _).
  assert (device_zone s' 6 (fun w => 10 + Z.of_nat w) (fun w => 10 + Z.of_nat w)) as Hdev.
  { eexists. split; [apply Hz; [vm_compute; reflexivity|done]|]. intros [|[|[|w]]] Hw; [by split..|lia]. }
  assert (reaches s' 0x3e200084 6 0x84) as Hre by exact (Hreach 0x84 ltac:(lia)).
  assert (fits 32 0x3e200084) as Hfit by (vm_compute; split; [discriminate|reflexivity]).
  exact (proj1 (device_access (E := Empty_set) s' 0x3e200084 6 0x84 2 _ _ Hre Hdev ltac:(lia) Hfit eq_refl)).
Defined.

(** Four kilobytes of RAM at 0x100000, and once more at 0. *)
Definition ram_bytes : list Z := zeros 4096.
Lemma alloc_witness :
  exists s', qemu_ram_alloc_from_ptr (E := Empty_set) "ram" 4000 ram_bytes started = Done (0, s', []) /\ ram_ok s' /\
    forall x, 0 <= x < 4096 -> in_ram s' x 0.
Proof.
  pose proof (ram_alloc_disjoint (E := Empty_set) started "ram" 4000 ram_bytes) as Ht.
  destruct Ht as (off & s' & E & Hok & _ & _ & _ & _ & Hin); [by repeat constructor|done|done|done|].
  exists s'. assert (off = 0) as ->; [vm_compute in E; by injection E|]. split; [exact E|]. split; [exact Hok|].
  intros x Hx. apply Hin. left. split; [exact Hx|]. change ram_bytes with (replicate 4096 0). unfold aget.
  destruct (Z.ltb_spec (x - 0) 0); [lia|]. apply lookup_replicate_2. lia.
Defined.

Lemma started_ok : memory_ok started.
Proof. split; [exact blank_map|]. split; [done|]. split; [done|]. eexists. split; [reflexivity|done]. Qed.

(** Four bytes written across a page boundary at 0x1003fe are read back at 0x3fe. *)
Lemma ram_write_witness :
  exists s s1 es s2, cpu_physical_memory_write (E := Empty_set) 0x1003fe [1; 2; 3; 4] s = Done (tt, s1, es) /\
    cpu_physical_memory_read (E := Empty_set) 0x3fe 4 s1 = Done ([1; 2; 3; 4], s2, []).
Proof.
  destruct (ram_alloc_disjoint (E := Empty_set) started "ram" 4096 ram_bytes) as (off & s1 & E & Hok & Hm & Ho & Hpo & _ & Hin);
    [by repeat constructor|done|done|done|].
  assert (off = 0) as ->; [vm_compute in E; by injection E|].
  assert (forall j, 0 <= j < 4096 -> exists v, in_ram s1 (0 + j) v) as Hbytes.
  { intros j Hj. exists 0. apply Hin. left. split; [change (TARGET_PAGE_ALIGN 4096) with 4096; lia|]. unfold ram_bytes, zeros, aget.
    destruct (Z.ltb_spec (0 + j - 0) 0); [lia|]. apply lookup_replicate_2. lia. }
  assert (forall y, page_target s1 y = None) as Hfree.
  { intros y. destruct Hm as (Hm & _). unfold page_target. rewrite Hm. exact (blank_pages y). }
  destruct (ram_region_mapped (E := Empty_set) s1 0x100000 4096 0) as (s2 & _ & Hok2 & Hext2 & _ & Hr2 & Hother2);
    [by apply (same_map_ok _ _ Hm), started_ok|done|done|done|done|done|done|done|by intros|done|].
  assert (forall y, region_page 0 4096 y -> ~ region_page 0x100000 4096 y) as Hdis.
  { intros y H1 H2. change 0x100000 with (TARGET_PAGE_SIZE * 1024) in H2. change 0 with (TARGET_PAGE_SIZE * 0) in H1.
    rewrite region_page_iff in H1, H2 by done. change ((4096 + TARGET_PAGE_SIZE - 1) / TARGET_PAGE_SIZE) with 4 in *. lia. }
  destruct (ram_region_mapped (E := Empty_set) s2 0 4096 0) as (s3 & _ & Hok3 & Hext3 & _ & Hr3 & Hother3);
    [done|done|done|done|done|done|done|done| | |].
  { intros y Hy. rewrite Hother2; [apply Hfree| |by apply Hdis]. change 0 with (TARGET_PAGE_SIZE * 0) in Hy.
    rewrite region_page_iff in Hy by done. change ((4096 + TARGET_PAGE_SIZE - 1) / TARGET_PAGE_SIZE) with 4 in Hy.
    unfold page_index. change (2 ^ (_ - _)) with (2 ^ 22). lia. }
  { intros j Hj. destruct (Hbytes j Hj) as (v & b & Hb & Hv). exists v, b. destruct Hext2 as (_ & _ & -> & _). by split. }
  assert (ram_region s3 0x100000 4096 0) as Hr2'.
  { apply (region_untouched s2 s3 _ _ _ 0 4096 Hr2 Hext3 Hother3). intros y H1 H2. by apply (Hdis y). }
  assert (ram_ok s3) as Hok3'.
  { destruct Hext2 as (_ & _ & Hb2 & Hd2 & _), Hext3 as (_ & _ & Hb3 & Hd3 & _). unfold ram_ok. by rewrite Hb3, Hd3, Hb2, Hd2. }
  destruct (ram_write_read (E := Empty_set) s3 0x1003fe [1; 2; 3; 4] 0x3fe Hok3') as (s4 & es & Ew & _ & _ & Hread & _).
  { exact (ram_region_sub s3 0x100000 4096 0 0x3fe 4 Hr2' ltac:(lia) ltac:(lia) ltac:(lia)). }
  destruct (Hread 0x3fe) as (s5 & Er & _).
  { exact (ram_region_sub s3 0 4096 0 0x3fe 4 Hr3 ltac:(lia) ltac:(lia) ltac:(lia)). }
  by exists s3, s4, es, s5.
Defined.

(** The entries that are allocated together count their offsets from the page
    that was asked for, not from the first of the table. *)
Lemma fresh_offsets_shifted :
  exists m, phys_page_update 5 (fun d => d) (l1_phys_map blank) = Some m /\
    phys_page_find 6 m = Some (mk_desc IO_MEM_UNASSIGNED (11 * 1024)).
Proof. eexists. split; [vm_compute; reflexivity|vm_compute; reflexivity]. Qed.

(** The value of a program, when it finishes. *)
Definition value_after {A} (m : demoM A) (s : demo_state) : option A := match m s with Done (a, _, _) => Some a | _ => None end.

(** A device mapped over the second page of another gets the other's offset: its
    first register is accessed at 0x400. *)
Lemma remapped_offset_stale :
  value_after (cpu_register_physical_memory 0x1000 0x800 (6 << IO_MEM_SHIFT) ;;;
               cpu_register_physical_memory 0x1400 0x400 (6 << IO_MEM_SHIFT) ;;;
               cpu_physical_memory_read 0x1400 4) with_device = Some (le_bytes 4 (0x10000 * 12 + 0x400)).
Proof. vm_compute. reflexivity. Qed.

(** A region that starts inside of a page loses its end when it crosses into
    the next. *)
Lemma unaligned_region_cut :
  let cut := cpu_register_physical_memory 0x1200 0x400 (6 << IO_MEM_SHIFT) in
  value_after (cut ;;; cpu_physical_memory_read 0x13fc 4) with_device = Some (le_bytes 4 (0x10000 * 12 + 0x3fc)) /\
  value_after (cut ;;; cpu_physical_memory_read 0x1400 4) with_device = Some [0; 0; 0; 0].
Proof. split; vm_compute; reflexivity. Qed.

(** Without a free zone a shared page is mapped to the number -1, which reads as
    zone 127, whoever that belongs to. *)
Lemma no_zone_unchecked :
  value_after (cpu_register_physical_memory 0x1000 0xff (6 << IO_MEM_SHIFT) ;;; find_page 4)
    (with_device <| io_mem ::= map (fun z => z <| io_mem_used := true |>) |>) = Some (Some (mk_desc (2 ^ 64 - 1) 0)).
Proof. vm_compute. reflexivity. Qed.
End MemoryDemo.
