(* ===== verification/ArmCpu.v ===== *)
(** * ArmCpu: the state of the ARM processor ([target-arm/cpu.h],
    [target-arm/helper.c], [target-arm/op_helper.c])

    The registers with their banks, the status register whose flags the
    translator keeps apart, processor modes, the status register of the floating
    point unit, reset, and the coprocessor state that address translation reads.

    [r8]-[r12] exist twice and [r13], [r14] and the saved status six times; only
    those of the current mode are in [regs], and what a bank holds for the
    current mode is stale.  The register file of the architecture is [phys_value],
    which every operation here is specified by.

    Leaving translated code ([cpu_unlink_tb], [qemu_cpu_kick]) and throwing it
    away ([tb_flush]) are events. *)
From S2P Require Import Prelude Words.

(** ** Exceptions, modes, the status register *)
Definition EXCP_UDEF := 1.
Definition EXCP_SWI := 2.
Definition EXCP_PREFETCH_ABORT := 3.
Definition EXCP_DATA_ABORT := 4.
Definition EXCP_IRQ := 5.
Definition EXCP_FIQ := 6.
Definition EXCP_BKPT := 7.
Definition EXCP_EXCEPTION_EXIT := 8.

Definition ARM_CPU_MODE_USR := 0x10.
Definition ARM_CPU_MODE_FIQ := 0x11.
Definition ARM_CPU_MODE_IRQ := 0x12.
Definition ARM_CPU_MODE_SVC := 0x13.
Definition ARM_CPU_MODE_ABT := 0x17.
Definition ARM_CPU_MODE_UND := 0x1b.
Definition ARM_CPU_MODE_SYS := 0x1f.

Definition CPSR_M := 0x1f.
Definition CPSR_T := 1 << 5.
Definition CPSR_F := 1 << 6.
Definition CPSR_I := 1 << 7.
Definition CPSR_A := 1 << 8.
Definition CPSR_E := 1 << 9.
Definition CPSR_IT_2_7 := 0xfc00.
Definition CPSR_GE := 0xf << 16.
Definition CPSR_J := 1 << 24.
Definition CPSR_IT_0_1 := 3 << 25.
Definition CPSR_Q := 1 << 27.
Definition CPSR_V := 1 << 28.
Definition CPSR_C := 1 << 29.
Definition CPSR_Z := 1 << 30.
Definition CPSR_N := 1 << 31.
Definition CPSR_NZCV := CPSR_N .| CPSR_Z .| CPSR_C .| CPSR_V.
Definition CPSR_IT := CPSR_IT_0_1 .| CPSR_IT_2_7.
Definition CACHED_CPSR_BITS := CPSR_T .| CPSR_GE .| CPSR_IT .| CPSR_Q .| CPSR_NZCV.
Definition CPSR_EXEC := CPSR_T .| CPSR_IT .| CPSR_J.

Definition ARM_FEATURE_VFP := 0.
Definition ARM_FEATURE_AUXCR := 1.
Definition ARM_FEATURE_XSCALE := 2.
Definition ARM_FEATURE_IWMMXT := 3.
Definition ARM_FEATURE_V6 := 4.
Definition ARM_FEATURE_V6K := 5.
Definition ARM_FEATURE_V7 := 6.
Definition ARM_FEATURE_THUMB2 := 7.
Definition ARM_FEATURE_MPU := 8.
Definition ARM_FEATURE_VFP3 := 9.
Definition ARM_FEATURE_VFP_FP16 := 10.
Definition ARM_FEATURE_NEON := 11.
Definition ARM_FEATURE_DIV := 12.
Definition ARM_FEATURE_M := 13.
Definition ARM_FEATURE_OMAPCP := 14.
Definition ARM_FEATURE_THUMB2EE := 15.
Definition ARM_FEATURE_V7MP := 16.

Definition ARM_VFP_FPSID := 0.
Definition ARM_VFP_FPSCR := 1.
Definition ARM_VFP_MVFR1 := 6.
Definition ARM_VFP_MVFR0 := 7.
Definition ARM_VFP_FPEXC := 8.
Definition ARM_IWMMXT_wCID := 0.

Definition CPU_INTERRUPT_HARD := 0x02.
Definition CPU_INTERRUPT_EXITTB := 0x04.
Definition CPU_INTERRUPT_FIQ := 0x10.
Definition CPU_INTERRUPT_HALT := 0x20.
Definition CPU_INTERRUPT_DEBUG := 0x80.

Definition NB_MMU_MODES := 2.
Definition CPU_TLB_BITS := 8.
Definition CPU_TLB_SIZE := 1 << CPU_TLB_BITS.

(** ** The state *)

(** Coprocessor 15: identification, system control, translation tables, domains,
    faults, protection regions, process identifiers. *)
Record cp15_state := mk_cp15 {
  c0_cpuid : Z; c0_cachetype : Z; c0_ccsid : list Z; c0_clid : Z; c0_cssel : Z;
  c0_c1 : list Z; c0_c2 : list Z; c1_sys : Z; c1_coproc : Z; c1_xscaleauxcr : Z;
  c2_base0 : Z; c2_base1 : Z; c2_control : Z; c2_mask : Z; c2_base_mask : Z;
  c2_data : Z; c2_insn : Z; c3 : Z; c5_insn : Z; c5_data : Z; c6_region : list Z;
  c6_insn : Z; c6_data : Z; c7_par : Z; c9_insn : Z; c9_data : Z;
  c13_fcse : Z; c13_context : Z; c13_tls1 : Z; c13_tls2 : Z; c13_tls3 : Z;
  c15_cpar : Z; c15_ticonfig : Z; c15_i_max : Z; c15_i_min : Z; c15_threadid : Z
}.
#[export] Instance eta_cp15 : Eta cp15_state := fun s =>
  mk_cp15 (c0_cpuid s) (c0_cachetype s) (c0_ccsid s) (c0_clid s) (c0_cssel s)
    (c0_c1 s) (c0_c2 s) (c1_sys s) (c1_coproc s) (c1_xscaleauxcr s)
    (c2_base0 s) (c2_base1 s) (c2_control s) (c2_mask s) (c2_base_mask s)
    (c2_data s) (c2_insn s) (c3 s) (c5_insn s) (c5_data s) (c6_region s)
    (c6_insn s) (c6_data s) (c7_par s) (c9_insn s) (c9_data s)
    (c13_fcse s) (c13_context s) (c13_tls1 s) (c13_tls2 s) (c13_tls3 s)
    (c15_cpar s) (c15_ticonfig s) (c15_i_max s) (c15_i_min s) (c15_threadid s).

(** The microcontroller profile. *)
Record v7m_state := mk_v7m {
  other_sp : Z; vecbase : Z; basepri : Z; control : Z; current_sp : Z; exception : Z; pending_exception : Z
}.
#[export] Instance eta_v7m : Eta v7m_state := fun s =>
  mk_v7m (other_sp s) (vecbase s) (basepri s) (control s) (current_sp s) (exception s) (pending_exception s).

Record float_status := mk_float_status {
  float_rounding_mode : Z; float_exception_flags : Z;
  flush_to_zero : Z; flush_inputs_to_zero : Z; default_nan_mode : Z
}.
#[export] Instance eta_float_status : Eta float_status := fun s =>
  mk_float_status (float_rounding_mode s) (float_exception_flags s) (flush_to_zero s) (flush_inputs_to_zero s)
    (default_nan_mode s).

Record vfp_state := mk_vfp {
  vfp_regs : list Z; xregs : list Z; vec_len : Z; vec_stride : Z;
  fp_status : float_status; standard_fp_status : float_status
}.
#[export] Instance eta_vfp : Eta vfp_state := fun s =>
  mk_vfp (vfp_regs s) (xregs s) (vec_len s) (vec_stride s) (fp_status s) (standard_fp_status s).

Record iwmmxt_state := mk_iwmmxt { iwmmxt_regs : list Z; cregs : list Z }.
#[export] Instance eta_iwmmxt : Eta iwmmxt_state := fun s => mk_iwmmxt (iwmmxt_regs s) (cregs s).

(** A translated page: its virtual address for each kind of access, with flags
    in the low bits, or all ones; [addend] takes a virtual address to memory. *)
Record CPUTLBEntry := mk_tlb { addr_read : Z; addr_write : Z; addr_code : Z; addend : Z }.
#[export] Instance eta_tlb : Eta CPUTLBEntry := fun s =>
  mk_tlb (addr_read s) (addr_write s) (addr_code s) (addend s).

(** [tlb_table] and [iotlb] by [mmu_idx], then by page. *)
Record CPUARMState := mk_env {
  regs : list Z; uncached_cpsr : Z; spsr : Z;
  banked_spsr : list Z; banked_r13 : list Z; banked_r14 : list Z; usr_regs : list Z; fiq_regs : list Z;
  CF : Z; VF : Z; NF : Z; ZF : Z; QF : Z; GE : Z; thumb : Z; condexec_bits : Z;
  cp15 : cp15_state; v7m : v7m_state; teecr : Z; teehbr : Z; features : Z;
  vfp : vfp_state; iwmmxt : iwmmxt_state;
  halted : Z; interrupt_request : Z; exit_request : Z;
  tlb_table : list (list CPUTLBEntry); iotlb : list (list Z); tlb_flush_addr : Z; tlb_flush_mask : Z;
  exception_index : Z; cpu_index : Z
}.
#[export] Instance eta_env : Eta CPUARMState := fun s =>
  mk_env (regs s) (uncached_cpsr s) (spsr s)
    (banked_spsr s) (banked_r13 s) (banked_r14 s) (usr_regs s) (fiq_regs s)
    (CF s) (VF s) (NF s) (ZF s) (QF s) (GE s) (thumb s) (condexec_bits s)
    (cp15 s) (v7m s) (teecr s) (teehbr s) (features s) (vfp s) (iwmmxt s)
    (halted s) (interrupt_request s) (exit_request s)
    (tlb_table s) (iotlb s) (tlb_flush_addr s) (tlb_flush_mask s) (exception_index s) (cpu_index s).

(** A state as the list of its fields, with fixed names for the banks. *)
Ltac open_env env :=
  destruct env as [regs_ uncached_ spsr_ bspsr_ br13_ br14_ usr_ fiq_ ? ? ? ? ? ? ? ? ? ? ? ? ? ? ? ? ? ? ? ? ? ? ? ?];
  cbn [regs banked_spsr banked_r13 banked_r14 usr_regs fiq_regs] in *.

Inductive cpu_event := TbFlush | LeaveCode.

Abbreviation cpu := (dev CPUARMState cpu_event).

Definition arm_feature (env : CPUARMState) (feature : Z) : bool := test (features env) (1 << feature).
Definition IS_M (env : CPUARMState) : bool := arm_feature env ARM_FEATURE_M.
Definition cpu_mode (env : CPUARMState) : Z := uncached_cpsr env .& CPSR_M.

Definition get_reg (n : Z) : cpu Z := s <- gets regs ;; lift (aget s n).
Definition set_reg (n v : Z) : cpu unit :=
  r <- gets regs ;; r <- lift (aset n v r) ;; modify (fun s => s <| regs := r |>).

(** ** Banks *)

Definition bank_number (mode : Z) : option Z :=
  switch mode
    [ (on_any [ARM_CPU_MODE_USR; ARM_CPU_MODE_SYS], Some 0);
      (on ARM_CPU_MODE_SVC, Some 1);
      (on ARM_CPU_MODE_ABT, Some 2);
      (on ARM_CPU_MODE_UND, Some 3);
      (on ARM_CPU_MODE_IRQ, Some 4);
      (on ARM_CPU_MODE_FIQ, Some 5) ] None.
(** A mode that does not exist aborts. *)
Definition bank_of (mode : Z) : cpu Z :=
  match bank_number mode with Some i => ret i | None => hw_error end.

(** [memcpy] of the five registers from [r8] on. *)
Definition save_high (env : CPUARMState) : option (list Z) := slice 8 5 (regs env).
Definition load_high (l : list Z) : cpu unit :=
  r <- gets regs ;; l <- lift (slice 0 5 l) ;; r <- lift (splice 8 l r) ;; modify (fun s => s <| regs := r |>).

(** The body of [switch_mode], for two different modes. *)
Definition change_banks (old_mode mode : Z) : cpu unit :=
  (if old_mode =? ARM_CPU_MODE_FIQ then
     h <- (s <- gets id ;; lift (save_high s)) ;; modify (fun s => s <| fiq_regs := h |>) ;;;
     u <- gets usr_regs ;; load_high u
   else when (mode =? ARM_CPU_MODE_FIQ)
     (h <- (s <- gets id ;; lift (save_high s)) ;; modify (fun s => s <| usr_regs := h |>) ;;;
      u <- gets fiq_regs ;; load_high u)) ;;;
  i <- bank_of old_mode ;;
  r13 <- get_reg 13 ;; r14 <- get_reg 14 ;; s <- gets id ;;
  b13 <- lift (aset i r13 (banked_r13 s)) ;;
  b14 <- lift (aset i r14 (banked_r14 s)) ;;
  bs <- lift (aset i (spsr s) (banked_spsr s)) ;;
  modify (fun s => s <| banked_r13 := b13 |> <| banked_r14 := b14 |> <| banked_spsr := bs |>) ;;;
  i <- bank_of mode ;;
  r13 <- lift (aget b13 i) ;; r14 <- lift (aget b14 i) ;; sp <- lift (aget bs i) ;;
  set_reg 13 r13 ;;; set_reg 14 r14 ;;; modify (fun s => s <| spsr := sp |>).
Definition switch_mode (mode : Z) : cpu unit :=
  old_mode <- gets cpu_mode ;;
  if mode =? old_mode then ret tt else change_banks old_mode mode.

(** ** The status register *)

Definition cpsr_read (env : CPUARMState) : Z :=
  let z := if ZF env =? 0 then 1 else 0 in
  uncached_cpsr env .| (NF env .& 0x80000000) .| (z << 30) .|
  u32 (CF env << 29) .| ((VF env .& 0x80000000) >> 3) .| u32 (QF env << 27)
  .| u32 (thumb env << 5) .| ((condexec_bits env .& 3) << 25)
  .| ((condexec_bits env .& 0xfc) << 8)
  .| u32 (GE env << 16).

Definition bool_Z (b : bool) : Z := if b then 1 else 0.

Definition cpsr_write (val mask : Z) : cpu unit :=
  when (test mask CPSR_NZCV) (modify (fun s =>
    s <| ZF := CPSR_Z .&~ val |> <| NF := val |> <| CF := (val >> 29) .& 1 |>
      <| VF := u32 (val << 3) .& 0x80000000 |>)) ;;;
  when (test mask CPSR_Q) (modify (fun s => s <| QF := bool_Z (test val CPSR_Q) |>)) ;;;
  when (test mask CPSR_T) (modify (fun s => s <| thumb := bool_Z (test val CPSR_T) |>)) ;;;
  when (test mask CPSR_IT_0_1) (modify (fun s =>
    s <| condexec_bits ::= fun x => (x .&~ 3) .| ((val >> 25) .& 3) |>)) ;;;
  when (test mask CPSR_IT_2_7) (modify (fun s =>
    s <| condexec_bits ::= fun x => (x .& 3) .| ((val >> 8) .& 0xfc) |>)) ;;;
  when (test mask CPSR_GE) (modify (fun s => s <| GE := (val >> 16) .& 0xf |>)) ;;;
  u <- gets uncached_cpsr ;;
  when (test ((u .^ val) .& mask) CPSR_M) (switch_mode (val .& CPSR_M)) ;;;
  let mask := mask .&~ CACHED_CPSR_BITS in
  modify (fun s => s <| uncached_cpsr ::= fun u => (u .&~ mask) .| (val .& mask) |>).

(** The instructions that read and write it. *)
Definition helper_cpsr_read : cpu Z := s <- gets id ;; ret (cpsr_read s .&~ CPSR_EXEC).
Definition helper_cpsr_write (val mask : Z) : cpu unit := cpsr_write val mask.

(** ** Registers of other modes *)

Definition get_user_reg (regno : Z) : cpu Z :=
  s <- gets id ;;
  if regno =? 13 then lift (aget (banked_r13 s) 0)
  else if regno =? 14 then lift (aget (banked_r14 s) 0)
  else if (8 <=? regno) && (cpu_mode s =? ARM_CPU_MODE_FIQ) then lift (aget (usr_regs s) (regno - 8))
  else lift (aget (regs s) regno).
Definition set_user_reg (regno val : Z) : cpu unit :=
  s <- gets id ;;
  if regno =? 13 then l <- lift (aset 0 val (banked_r13 s)) ;; modify (fun s => s <| banked_r13 := l |>)
  else if regno =? 14 then l <- lift (aset 0 val (banked_r14 s)) ;; modify (fun s => s <| banked_r14 := l |>)
  else if (8 <=? regno) && (cpu_mode s =? ARM_CPU_MODE_FIQ) then
    l <- lift (aset (regno - 8) val (usr_regs s)) ;; modify (fun s => s <| usr_regs := l |>)
  else set_reg regno val.

Definition set_r13_banked (mode val : Z) : cpu unit :=
  s <- gets id ;;
  if cpu_mode s =? mode then set_reg 13 val
  else
    i <- bank_of mode ;;
    l <- lift (aset i val (banked_r13 s)) ;; modify (fun s => s <| banked_r13 := l |>).
Definition get_r13_banked (mode : Z) : cpu Z :=
  s <- gets id ;;
  if cpu_mode s =? mode then get_reg 13
  else i <- bank_of mode ;; lift (aget (banked_r13 s) i).

(** ** The register file of the architecture *)

(** A register of the processor: one of [r0]-[r7] and the program counter, one
    of the two sets of [r8]-[r12], or one of a bank. *)
Inductive phys_reg :=
  | Low (n : Z)
  | High (fiq : bool) (n : Z)
  | Sp (bank : Z)
  | Lr (bank : Z)
  | Saved (bank : Z).

Definition banks : list Z := [0; 1; 2; 3; 4; 5].
Definition phys_regs : list phys_reg :=
  map Low [0; 1; 2; 3; 4; 5; 6; 7; 15] ++ map (High false) [8; 9; 10; 11; 12] ++
  map (High true) [8; 9; 10; 11; 12] ++ map Sp banks ++ map Lr banks ++ map Saved banks.

(** Which of them register [n] is in a mode. *)
Definition reg_name (mode n : Z) : option phys_reg :=
  if (0 <=? n) && (n <=? 7) || (n =? 15) then Some (Low n)
  else if (8 <=? n) && (n <=? 12) then Some (High (mode =? ARM_CPU_MODE_FIQ) n)
  else if n =? 13 then Sp <$> bank_number mode
  else if n =? 14 then Lr <$> bank_number mode
  else None.

(** Its value, when the processor is in [mode]. *)
Definition value_in (mode : Z) (env : CPUARMState) (r : phys_reg) : option Z :=
  let current b := bool_decide (bank_number mode = Some b) in
  match r with
  | Low n => aget (regs env) n
  | High fiq n =>
      if Bool.eqb fiq (mode =? ARM_CPU_MODE_FIQ) then aget (regs env) n
      else aget (if fiq then fiq_regs env else usr_regs env) (n - 8)
  | Sp b => if current b then aget (regs env) 13 else aget (banked_r13 env) b
  | Lr b => if current b then aget (regs env) 14 else aget (banked_r14 env) b
  | Saved b => if current b then Some (spsr env) else aget (banked_spsr env) b
  end.
Definition phys_value (env : CPUARMState) : phys_reg -> option Z := value_in (cpu_mode env) env.

Definition modes : list Z :=
  [ARM_CPU_MODE_USR; ARM_CPU_MODE_FIQ; ARM_CPU_MODE_IRQ; ARM_CPU_MODE_SVC; ARM_CPU_MODE_ABT;
   ARM_CPU_MODE_UND; ARM_CPU_MODE_SYS].

(** The banks have their sizes. *)
Definition banks_ok (env : CPUARMState) : Prop :=
  zlen (regs env) = 16 /\ zlen (banked_spsr env) = 6 /\ zlen (banked_r13 env) = 6 /\
  zlen (banked_r14 env) = 6 /\ zlen (usr_regs env) = 5 /\ zlen (fiq_regs env) = 5.

(** Every word of the banks is one. *)
Definition words_ok (env : CPUARMState) : Prop :=
  Forall (fits 32) (spsr env :: regs env ++ banked_spsr env ++ banked_r13 env ++ banked_r14 env ++ usr_regs env ++ fiq_regs env).

(** [env'] differs from [env] at most in the banked registers. *)
Definition same_but_banks (env env' : CPUARMState) : Prop :=
  exists r sp b13 b14 bs u f,
    env' = env <| regs := r |> <| spsr := sp |> <| banked_r13 := b13 |> <| banked_r14 := b14 |>
             <| banked_spsr := bs |> <| usr_regs := u |> <| fiq_regs := f |>.

Lemma zlen_nil {A} (l : list A) : zlen l = 0 -> l = [].
Proof. by destruct l. Qed.
Lemma zlen_cons {A} (l : list A) n : zlen l = n -> 0 < n -> exists x l', l = x :: l' /\ zlen l' = n - 1.
Proof. unfold zlen. destruct l as [|x l']; cbn [length]; intros; [lia|]. exists x, l'. split; [done|lia]. Qed.

(** Case analysis on the members of a list. *)
Ltac cases_in H := repeat (apply elem_of_cons in H as [->|H]); [..|by apply not_elem_of_nil in H].

(** A list of known length is the list of its elements. *)
Ltac explode l :=
  match goal with
  | E : zlen l = 0 |- _ => apply zlen_nil in E; subst l
  | E : zlen l = ?n |- _ =>
      let x := fresh "x" in let l' := fresh "l" in let E' := fresh "E" in
      destruct (zlen_cons l n E ltac:(lia)) as (x & l' & -> & E'); clear E; let k := eval vm_compute in (n - 1) in change (zlen l' = k) in E'; explode l'
  end.

Lemma change_banks_run env old m :
  banks_ok env -> old ∈ modes -> m ∈ modes -> m <> old ->
  exists env', change_banks old m env = Done (tt, env', []) /\ same_but_banks env env' /\ banks_ok env' /\
    Forall (fun r => value_in m env' r = value_in old env r) phys_regs /\ (words_ok env -> words_ok env').
Proof.
  intros (H1 & H2 & H3 & H4 & H5 & H6) Ho Hm Hne.
  open_env env. explode regs_. explode bspsr_. explode br13_. explode br14_. explode usr_. explode fiq_.
  unfold modes in *. cases_in Ho. all: cases_in Hm.
  all: try done.
  all: eexists; split; [vm_compute; reflexivity|]; split; [by repeat eexists|split; [done|]];
    split; [repeat (apply Forall_cons; split; [reflexivity|]); by apply Forall_nil|].
  all: intros HF; unfold words_ok in HF; cbn [spsr regs banked_spsr banked_r13 banked_r14 usr_regs fiq_regs app] in HF; decompose_Forall_hyps.
  all: repeat (apply Forall_cons; split; [assumption|]); by apply Forall_nil.
Qed.

(** The flags that are kept apart are in their ranges, and their places in
    [uncached_cpsr] are empty. *)
Record flags_ok (env : CPUARMState) : Prop := {
  ok_uncached : fits 32 (uncached_cpsr env);
  ok_cached : uncached_cpsr env .& CACHED_CPSR_BITS = 0;
  ok_nf : 0 <= NF env; ok_vf : 0 <= VF env;
  ok_cf : fits 1 (CF env); ok_qf : fits 1 (QF env); ok_thumb : fits 1 (thumb env);
  ok_ge : fits 4 (GE env); ok_it : fits 8 (condexec_bits env)
}.

(** The status register bit by bit. *)
Definition flag_bit (env : CPUARMState) (i : Z) (other : bool) : bool :=
  switch i
    [ (on 31, Z.testbit (NF env) 31); (on 30, ZF env =? 0); (on 29, Z.testbit (CF env) 0);
      (on 28, Z.testbit (VF env) 31); (on 27, Z.testbit (QF env) 0);
      (on_range 25 26, Z.testbit (condexec_bits env) (i - 25));
      (on_range 16 19, Z.testbit (GE env) (i - 16));
      (on_range 10 15, Z.testbit (condexec_bits env) (i - 8));
      (on 5, Z.testbit (thumb env) 0) ] other.
Definition cpsr_bit (env : CPUARMState) (i : Z) : bool := flag_bit env i (Z.testbit (uncached_cpsr env) i).

(** The case of [flag_bit] for a constant bit. *)
Ltac pick_bit :=
  unfold cpsr_bit, flag_bit;
  repeat match goal with
  | |- context [switch ?i ?l ?d] =>
      let t := eval cbn [switch on on_range Z.eqb Pos.eqb Z.leb Z.compare Pos.compare Pos.compare_cont andb] in (switch i l d) in
      change (switch i l d) with t
  end.

Lemma cpsr_read_fits env : flags_ok env -> fits 32 (cpsr_read env).
Proof.
  intros []. unfold cpsr_read. cbv zeta.
  repeat apply fits_lor; auto with width; try lia.
  - apply fits_land_const; [lia|done|done].
  - by destruct (ZF env =? 0).
  - apply fits_shiftr; [lia|]. apply fits_land_const; [lia|done|done].
  - apply (fits_weaken 27); [lia|]. apply (fits_shiftl 2); [lia|lia|]. apply fits_land_const; [lia|done|apply ok_it0].
  - apply (fits_weaken 16); [lia|]. apply (fits_shiftl 8); [lia|lia|]. apply fits_land_const; [lia|done|apply ok_it0].
Qed.

Lemma cpsr_read_bit env i : flags_ok env -> 0 <= i < 32 -> Z.testbit (cpsr_read env) i = cpsr_bit env i.
Proof.
  intros []. revert i. each_bit.
  all: pick_bit.
  all: unfold cpsr_read; cbv zeta; assert (forall b, Z.testbit (if ZF env =? 0 then 1 else 0) b = (b =? 0) && (ZF env =? 0)) as Hz by (intros b; destruct (ZF env =? 0); [|by rewrite Z.bits_0, andb_false_r]; rewrite andb_true_r; change 1 with (2 ^ 0); destruct (Z.eqb_spec b 0) as [->|]; [done|]; apply Z.pow2_bits_false; lia).
  all: bit_eval; rewrite ?Hz.
  all: repeat match goal with
    | |- context [Z.testbit (uncached_cpsr ?e) ?k] => rewrite (land_zero_bit _ CACHED_CPSR_BITS k) by done
    | |- context [Z.testbit (?f ?e) ?k] => rewrite (fits_high _ (f e) k) by (eassumption || lia) end.
  all: cbn; rewrite ?orb_false_r, ?orb_false_l; try done.
Qed.

Lemma cpsr_mode e : flags_ok e -> cpsr_read e .& CPSR_M = cpu_mode e.
Proof.
  intros Hf. unfold cpu_mode. apply Z.bits_inj'. intros i Hi. rewrite !Z.land_spec.
  destruct (Z.lt_ge_cases i 5) as [Hlt|Hge].
  - f_equal. rewrite cpsr_read_bit by (done || lia). assert (i ∈ [0; 1; 2; 3; 4]) as Hin.
    { change (i ∈ seqZ 0 5). apply elem_of_seqZ. lia. }
    cases_in Hin; done.
  - assert (Z.testbit CPSR_M i = false) as ->; [apply (fits_high 5); [done|lia]|]. by rewrite !andb_false_r.
Qed.

(** ** Writing the status register *)

(** The processor as the code keeps it. *)
Record cpu_ok (env : CPUARMState) : Prop := {
  ok_flags : flags_ok env; ok_banks : banks_ok env; ok_words : words_ok env; ok_mode : cpu_mode env ∈ modes
}.

(** Masks that take the groups of bits the code treats together as a whole. *)
Definition mask_ok (mask : Z) : Prop :=
  fits 32 mask /\ whole mask CPSR_NZCV /\ whole mask CPSR_IT_0_1 /\ whole mask CPSR_IT_2_7 /\
  whole mask CPSR_GE /\ whole mask CPSR_M.

(** The flags [cpsr_write] sets before it looks at the mode. *)
Definition set_flags (val mask : Z) (s : CPUARMState) : CPUARMState :=
  let s := if test mask CPSR_NZCV then
      s <| ZF := CPSR_Z .&~ val |> <| NF := val |> <| CF := (val >> 29) .& 1 |>
        <| VF := u32 (val << 3) .& 0x80000000 |> else s in
  let s := if test mask CPSR_Q then s <| QF := bool_Z (test val CPSR_Q) |> else s in
  let s := if test mask CPSR_T then s <| thumb := bool_Z (test val CPSR_T) |> else s in
  let s := if test mask CPSR_IT_0_1 then s <| condexec_bits ::= fun x => (x .&~ 3) .| ((val >> 25) .& 3) |> else s in
  let s := if test mask CPSR_IT_2_7 then s <| condexec_bits ::= fun x => (x .& 3) .| ((val >> 8) .& 0xfc) |> else s in
  if test mask CPSR_GE then s <| GE := (val >> 16) .& 0xf |> else s.

Lemma bind_when {B} (b : bool) (f : CPUARMState -> CPUARMState) (k : unit -> cpu B) s :
  bind (when b (modify f)) k s = k tt (if b then f s else s).
Proof. destruct b; [apply bind_modify|apply bind_ret]. Qed.

(** What is left of it once the flags are set. *)
Definition write_rest (val mask : Z) : cpu unit :=
  u <- gets uncached_cpsr ;;
  when (test ((u .^ val) .& mask) CPSR_M) (switch_mode (val .& CPSR_M)) ;;;
  modify (fun s => s <| uncached_cpsr ::= fun u => (u .&~ (mask .&~ CACHED_CPSR_BITS)) .| (val .& (mask .&~ CACHED_CPSR_BITS)) |>).

Lemma cpsr_write_eq val mask env : cpsr_write val mask env = write_rest val mask (set_flags val mask env).
Proof. unfold cpsr_write. by rewrite !bind_when. Qed.

Ltac destruct_tests := repeat match goal with |- context [if test ?a ?b then _ else _] => destruct (test a b) end.

Lemma set_flags_banks val mask env : banks_ok env -> banks_ok (set_flags val mask env).
Proof. unfold set_flags. destruct env. by destruct_tests. Qed.
Lemma set_flags_words val mask env : words_ok env -> words_ok (set_flags val mask env).
Proof. unfold set_flags. destruct env. by destruct_tests. Qed.
Lemma set_flags_value val mask env m r : value_in m (set_flags val mask env) r = value_in m env r.
Proof. unfold set_flags. destruct env. by destruct_tests. Qed.
Lemma set_flags_uncached val mask env : uncached_cpsr (set_flags val mask env) = uncached_cpsr env.
Proof. unfold set_flags. by destruct_tests. Qed.

Lemma set_flags_fields val mask env :
  let s := set_flags val mask env in
  NF s = (if test mask CPSR_NZCV then val else NF env) /\
  ZF s = (if test mask CPSR_NZCV then CPSR_Z .&~ val else ZF env) /\
  CF s = (if test mask CPSR_NZCV then (val >> 29) .& 1 else CF env) /\
  VF s = (if test mask CPSR_NZCV then u32 (val << 3) .& 0x80000000 else VF env) /\
  QF s = (if test mask CPSR_Q then bool_Z (test val CPSR_Q) else QF env) /\
  thumb s = (if test mask CPSR_T then bool_Z (test val CPSR_T) else thumb env) /\
  GE s = (if test mask CPSR_GE then (val >> 16) .& 0xf else GE env) /\
  condexec_bits s =
    (let x := if test mask CPSR_IT_0_1 then (condexec_bits env .&~ 3) .| ((val >> 25) .& 3) else condexec_bits env in
     if test mask CPSR_IT_2_7 then (x .& 3) .| ((val >> 8) .& 0xfc) else x).
Proof. cbv zeta. unfold set_flags. by destruct_tests. Qed.

Lemma fits_bool b : fits 1 (bool_Z b).
Proof. by destruct b. Qed.

Lemma set_flags_ok val mask env : fits 32 val -> flags_ok env -> flags_ok (set_flags val mask env).
Proof.
  intros Hv []. assert (0 <= val) by apply Hv.
  destruct (set_flags_fields val mask env) as (E1 & E2 & E3 & E4 & E5 & E6 & E7 & E8).
  constructor; rewrite ?set_flags_uncached, ?E1, ?E3, ?E4, ?E5, ?E6, ?E7, ?E8; try done.
  all: cbv zeta; destruct_tests; try done; try apply fits_bool.
  all: try (apply Z.land_nonneg; lia).
  all: try (apply fits_land_const; [lia|done|by apply Z.shiftr_nonneg]).
  all: repeat apply fits_lor; try lia; try (by apply fits_ldiff); try (by apply fits_land).
  all: try (apply fits_land_const; [lia|done|by apply Z.shiftr_nonneg]).
  all: apply fits_land_const; [lia|done|]; apply Z.lor_nonneg; split;
    [apply Z.ldiff_nonneg; left; by eapply fits_nonneg|apply Z.land_nonneg; left; by apply Z.shiftr_nonneg].
Qed.


Lemma bool_bit v n : 0 <= n -> bool_Z (test v (1 << n)) = if Z.testbit v n then 1 else 0.
Proof. intros. change (1 << n) with (bit n). rewrite test_true_bit by done. by destruct (Z.testbit v n). Qed.

Lemma zero_flag v : (CPSR_Z .&~ v =? 0) = Z.testbit v 30.
Proof.
  assert (forall i, 0 <= i -> Z.testbit (CPSR_Z .&~ v) i = (30 =? i) && negb (Z.testbit v 30)) as H.
  { intros i Hi. rewrite Z.ldiff_spec. unfold CPSR_Z. rewrite (testbit_bit 30) by lia. by destruct (Z.eqb_spec 30 i) as [<-|]. }
  destruct (Z.testbit v 30); [|].
  - apply Z.eqb_eq, Z.bits_inj'. intros i Hi. by rewrite H, andb_false_r, Z.bits_0.
  - apply Z.eqb_neq. intros E. specialize (H 30 ltac:(lia)). by rewrite E, Z.bits_0 in H.
Qed.

(** The bits after [cpsr_write]: those of the mask are new. *)
Lemma written_bits val mask env u i :
  fits 32 val -> mask_ok mask -> flags_ok env ->
  u = (uncached_cpsr env .&~ (mask .&~ CACHED_CPSR_BITS)) .| (val .& (mask .&~ CACHED_CPSR_BITS)) -> 0 <= i < 32 ->
  cpsr_bit ((set_flags val mask env) <| uncached_cpsr := u |>) i =
  if Z.testbit mask i then Z.testbit val i else cpsr_bit env i.
Proof.
  intros Hv (Hm & G1 & G2 & G3 & G4 & _) HF Hu. destruct HF.
  destruct (set_flags_fields val mask env) as (E1 & E2 & E3 & E4 & E5 & E6 & E7 & E8).
  change (0 <= i < 32 -> flag_bit (set_flags val mask env) i (Z.testbit u i) = if Z.testbit mask i then Z.testbit val i else cpsr_bit env i).
  assert (0 <= mask) as Hm0 by apply Hm. revert i. each_bit.
  all: pick_bit; rewrite ?E1, ?E2, ?E3, ?E4, ?E5, ?E6, ?E7, ?E8; cbv zeta.
  all: try (change (test mask CPSR_T) with (test mask (bit 5)); rewrite test_true_bit by lia).
  all: try (change (test mask CPSR_Q) with (test mask (bit 27)); rewrite test_true_bit by lia).
  all: try first [ rewrite (whole_test mask CPSR_NZCV _ G1) by done | rewrite (whole_test mask CPSR_IT_0_1 _ G2) by done
    | rewrite (whole_test mask CPSR_IT_2_7 _ G3) by done | rewrite (whole_test mask CPSR_GE _ G4) by done ].
  all: repeat match goal with |- context [if ?b then _ else _] => destruct b eqn:? end.
  all: rewrite ?Hu; change CPSR_T with (1 << 5); change CPSR_Q with (1 << 27); rewrite ?bool_bit by lia.
  all: bit_eval; try done.
  all: try apply zero_flag; try (by destruct (Z.testbit val _)).
  all: repeat match goal with H : Z.testbit ?m _ = true |- context [Z.testbit ?m _] => rewrite !H; clear H | H : Z.testbit ?m _ = false |- context [Z.testbit ?m _] => rewrite !H; clear H end.
  all: by rewrite ?andb_true_r, ?andb_false_r, ?orb_false_r.
Qed.

Lemma same_but_banks_refl env : same_but_banks env env.
Proof. destruct env. by repeat eexists. Qed.

Lemma switch_mode_run env m :
  banks_ok env -> cpu_mode env ∈ modes -> m ∈ modes ->
  exists env', switch_mode m env = Done (tt, env', []) /\ same_but_banks env env' /\ banks_ok env' /\
    Forall (fun r => value_in m env' r = phys_value env r) phys_regs /\ (words_ok env -> words_ok env').
Proof.
  intros Hb Ho Hm. unfold switch_mode. rewrite bind_gets. destruct (Z.eqb_spec m (cpu_mode env)) as [->|Hne].
  - exists env. split; [done|]. split; [apply same_but_banks_refl|]. split; [done|]. split; [|done].
    by apply Forall_forall.
  - by apply change_banks_run.
Qed.

Lemma mode_bits u val mask :
  whole mask CPSR_M ->
  ((u .&~ (mask .&~ CACHED_CPSR_BITS)) .| (val .& (mask .&~ CACHED_CPSR_BITS))) .& CPSR_M =
  if test mask CPSR_M then val .& CPSR_M else u .& CPSR_M.
Proof.
  intros Hw. apply Z.bits_inj'. intros i Hi. rewrite Z.land_spec.
  destruct (Z.testbit CPSR_M i) eqn:Em.
  - assert (Z.testbit CACHED_CPSR_BITS i = false) as Ec.
    { apply (land_zero_bit _ CPSR_M); [done|exact Em]. }
    rewrite Z.lor_spec, Z.ldiff_spec, Z.land_spec, Z.ldiff_spec, Ec. cbn [negb]. rewrite !andb_true_r. unfold test.
    destruct Hw as [E|E]; rewrite E.
    + rewrite (land_zero_bit _ _ _ E Em). cbn. rewrite Z.land_spec, Em. by rewrite andb_false_r, orb_false_r.
    + rewrite (land_full_bit mask CPSR_M i E Em). change (negb (CPSR_M =? 0)) with true. cbv iota. rewrite Z.land_spec, Em.
      by rewrite andb_false_r, andb_true_r.
  - rewrite andb_false_r. destruct (test mask CPSR_M); by rewrite Z.land_spec, Em, andb_false_r.
Qed.

(** The code only compares what the mask has of the modes. *)
Lemma write_switch val mask s :
  whole mask CPSR_M ->
  when (test ((uncached_cpsr s .^ val) .& mask) CPSR_M) (switch_mode (val .& CPSR_M)) s =
  switch_mode (if test mask CPSR_M then val .& CPSR_M else cpu_mode s) s.
Proof.
  intros Hw. unfold test. rewrite <- Z.land_assoc.
  destruct Hw as [E|E]; rewrite E.
  - rewrite Z.land_0_r. cbn [Z.eqb negb when]. unfold switch_mode. rewrite bind_gets. by rewrite Z.eqb_refl.
  - change (negb (CPSR_M =? 0)) with true. cbv iota. unfold when, cpu_mode.
    destruct (Z.eqb_spec ((uncached_cpsr s .^ val) .& CPSR_M) 0) as [E0|E0]; cbn [negb]; [|done].
    unfold switch_mode. rewrite bind_gets. unfold cpu_mode.
    assert (val .& CPSR_M = uncached_cpsr s .& CPSR_M) as ->; [|by rewrite Z.eqb_refl].
    apply Z.bits_inj'. intros i Hi. rewrite !Z.land_spec.
    assert (Z.testbit ((uncached_cpsr s .^ val) .& CPSR_M) i = false) as H by by rewrite E0, Z.bits_0.
    rewrite Z.land_spec, Z.lxor_spec in H.
    by destruct (Z.testbit CPSR_M i), (Z.testbit val i), (Z.testbit (uncached_cpsr s) i).
Qed.

Lemma cpsr_write_run env val mask :
  cpu_ok env -> fits 32 val -> mask_ok mask ->
  (if test mask CPSR_M then val .& CPSR_M else cpu_mode env) ∈ modes ->
  exists env', cpsr_write val mask env = Done (tt, env', []) /\ cpu_ok env' /\
    cpsr_read env' = (cpsr_read env .&~ mask) .| (val .& mask) /\
    cpu_mode env' = (if test mask CPSR_M then val .& CPSR_M else cpu_mode env) /\
    Forall (fun r => phys_value env' r = phys_value env r) phys_regs.
Proof.
  intros [Hf Hb Hw Hm] Hv Hk Hmode. pose proof Hk as (Hk32 & _ & _ & _ & _ & HkM).
  rewrite cpsr_write_eq. set (s := set_flags val mask env).
  assert (cpu_mode s = cpu_mode env) as Es by (unfold cpu_mode, s; by rewrite set_flags_uncached).
  destruct (switch_mode_run s (if test mask CPSR_M then val .& CPSR_M else cpu_mode env)) as (s1 & E1 & Hs1 & Hb1 & HV & HW1).
  { by apply set_flags_banks. } { by rewrite Es. } { done. }
  unfold write_rest. rewrite bind_gets.
  erewrite bind_silent by (rewrite write_switch by done; rewrite Es; exact E1). unfold modify.
  eexists. split; [reflexivity|]. set (env' := upd _ _ _).
  assert (cpu_mode env' = if test mask CPSR_M then val .& CPSR_M else cpu_mode env) as Em.
  { unfold cpu_mode. change (uncached_cpsr env') with
      ((uncached_cpsr s1 .&~ (mask .&~ CACHED_CPSR_BITS)) .| (val .& (mask .&~ CACHED_CPSR_BITS))).
    destruct Hs1 as (?&?&?&?&?&?&?&->). change (uncached_cpsr (upd _ _ _)) with (uncached_cpsr s).
    unfold s. rewrite set_flags_uncached. by rewrite mode_bits. }
  assert (forall r, value_in (cpu_mode env') env' r = value_in (cpu_mode env') s1 r) as Ev.
  { intros r. by destruct r. }
  assert (flags_ok env') as Hf'.
  { pose proof (set_flags_ok val mask env Hv Hf) as [Fu Fc ? ? ? ? ? ? ?]. destruct Hs1 as (?&?&?&?&?&?&?&->).
    constructor; try assumption.
    - change (fits 32 ((uncached_cpsr s .&~ (mask .&~ CACHED_CPSR_BITS)) .| (val .& (mask .&~ CACHED_CPSR_BITS)))).
      apply fits_lor; [lia|by apply fits_ldiff|]. apply fits_land; [lia|done|]. apply Z.ldiff_nonneg. left. apply Hk32.
    - change (((uncached_cpsr s .&~ (mask .&~ CACHED_CPSR_BITS)) .| (val .& (mask .&~ CACHED_CPSR_BITS))) .& CACHED_CPSR_BITS = 0).
      apply Z.bits_inj'. intros i Hi. rewrite Z.bits_0, Z.land_spec.
      destruct (Z.testbit CACHED_CPSR_BITS i) eqn:Ec; [|by rewrite andb_false_r].
      rewrite Z.lor_spec, Z.ldiff_spec, Z.land_spec, Z.ldiff_spec, Ec.
      rewrite (land_zero_bit (uncached_cpsr s) _ _ Fc Ec). cbn. by rewrite !andb_false_r. }
  split; [constructor|split; [|split]].
  - done.
  - exact Hb1.
  - apply HW1. by apply set_flags_words.
  - by rewrite Em.
  - apply word_eq; [by apply cpsr_read_fits| |].
    { apply fits_lor; [lia|apply fits_ldiff; [lia|by apply cpsr_read_fits]|]. apply fits_land; [lia|done|apply Hk32]. }
    intros i Hi. rewrite cpsr_read_bit by done.
    rewrite Z.lor_spec, Z.ldiff_spec, Z.land_spec, cpsr_read_bit by done.
    assert (cpsr_bit env' i = if Z.testbit mask i then Z.testbit val i else cpsr_bit env i) as ->.
    { destruct Hs1 as (?&?&?&?&?&?&?&->). rewrite <- (written_bits val mask env _ i Hv Hk Hf eq_refl Hi).
      rewrite <- (set_flags_uncached val mask env). reflexivity. }
    destruct (Z.testbit mask i); cbn; by rewrite ?andb_false_r, ?andb_true_r, ?orb_false_r.
  - done.
  - apply Forall_forall. intros r Hr. rewrite Forall_forall in HV. unfold phys_value at 1. rewrite Ev, Em.
    rewrite HV by done. unfold phys_value. rewrite Es. apply set_flags_value.
Qed.

(** C12.  [cpsr_write] replaces exactly the bits of the mask: the status register
    reads as the old one with the bits of the mask taken from the value, the
    processor is in the mode it says, and every register of every bank keeps its
    value, whichever list of the state it has moved to. *)
Theorem cpsr_write_spec env val mask :
  cpu_ok env -> fits 32 val -> mask_ok mask ->
  (if test mask CPSR_M then val .& CPSR_M else cpu_mode env) ∈ modes ->
  exists env', cpsr_write val mask env = Done (tt, env', []) /\ cpu_ok env' /\
    cpsr_read env' = (cpsr_read env .&~ mask) .| (val .& mask) /\
    cpu_mode env' = (if test mask CPSR_M then val .& CPSR_M else cpu_mode env) /\
    Forall (fun r => phys_value env' r = phys_value env r) phys_regs.
Proof. apply cpsr_write_run. Qed.

(** ** Registers of other modes *)

#[export] Instance phys_reg_eq_dec : EqDecision phys_reg.
Proof. solve_decision. Defined.

(** [r] is set to [v] and nothing else changes. *)
Definition only_set (env env' : CPUARMState) (p : phys_reg) (v : Z) : Prop :=
  same_but_banks env env' /\
  Forall (fun r => phys_value env' r = if decide (r = p) then Some v else phys_value env r) phys_regs.

Lemma reg_name_range mode n p : reg_name mode n = Some p -> n ∈ [0; 1; 2; 3; 4; 5; 6; 7; 8; 9; 10; 11; 12; 13; 14; 15].
Proof.
  unfold reg_name. intros H. assert (0 <= n <= 15) as Hn by (revert H; zcases; done).
  change (n ∈ seqZ 0 16). apply elem_of_seqZ. lia.
Qed.

Section OtherModes.
Context (env : CPUARMState) (Hb : banks_ok env) (Hm : cpu_mode env ∈ modes).

(** Outside of user and system mode, the user's registers are read and written
    where they are.  The program counter has no copy: the translator never asks
    for it, and in fast interrupt mode its number would be out of range. *)
Lemma get_user_reg_value n p :
  bank_number (cpu_mode env) <> Some 0 -> n <> 15 -> reg_name ARM_CPU_MODE_USR n = Some p ->
  exists v, get_user_reg n env = Done (v, env, []) /\ phys_value env p = Some v.
Proof.
  intros H0 H15 Hp. pose proof (reg_name_range _ _ _ Hp) as Hn. unfold get_user_reg, phys_value.
  rewrite bind_gets. unfold id. set (m := cpu_mode env) in *. clearbody m.
  destruct Hb as (L1 & L2 & L3 & L4 & L5 & L6). open_env env.
  explode regs_. explode bspsr_. explode br13_. explode br14_. explode usr_. explode fiq_.
  unfold modes in Hm. cases_in Hm; try done.
  all: cases_in Hn; try done; injection Hp as <-; eexists; (split; [vm_compute; reflexivity|reflexivity]).
Qed.

Lemma set_user_reg_value n p v :
  bank_number (cpu_mode env) <> Some 0 -> n <> 15 -> reg_name ARM_CPU_MODE_USR n = Some p ->
  exists env', set_user_reg n v env = Done (tt, env', []) /\ only_set env env' p v.
Proof.
  intros H0 H15 Hp. pose proof (reg_name_range _ _ _ Hp) as Hn. unfold set_user_reg, only_set.
  rewrite bind_gets. unfold id, phys_value.
  assert (forall env', same_but_banks env env' -> cpu_mode env' = cpu_mode env) as Hmode.
  { by intros env' (?&?&?&?&?&?&?&->). }
  enough (exists env', (if n =? 13 then l <- lift (aset 0 v (banked_r13 env)) ;; modify (fun s => s <| banked_r13 := l |>)
    else if n =? 14 then l <- lift (aset 0 v (banked_r14 env)) ;; modify (fun s => s <| banked_r14 := l |>)
    else if (8 <=? n) && (cpu_mode env =? ARM_CPU_MODE_FIQ) then
      l <- lift (aset (n - 8) v (usr_regs env)) ;; modify (fun s => s <| usr_regs := l |>)
    else set_reg n v) env = Done (tt, env', []) /\ same_but_banks env env' /\
    Forall (fun r => value_in (cpu_mode env) env' r = if decide (r = p) then Some v else value_in (cpu_mode env) env r) phys_regs)
    as (env' & E & Hs & HF).
  { exists env'. by rewrite (Hmode env'). }
  set (m := cpu_mode env) in *. clearbody m. clear Hmode.
  destruct Hb as (L1 & L2 & L3 & L4 & L5 & L6). open_env env.
  explode regs_. explode bspsr_. explode br13_. explode br14_. explode usr_. explode fiq_.
  unfold modes in Hm. cases_in Hm; try done.
  all: cases_in Hn; try done.
  all: injection Hp as <-. all: eexists. all: (split; [vm_compute; reflexivity|]). all: split; [by repeat eexists|].
  all: repeat (apply Forall_cons; split; [reflexivity|]); by apply Forall_nil.
Qed.
End OtherModes.

(** ** An example: the processor after reset, and entering fast interrupt mode *)
Module ArmDemo.
Definition cp15_zero : cp15_state :=
  mk_cp15 0 0 (zeros 16) 0 0 (zeros 8) (zeros 8) 0 0 0 0 0 0 0 0xffffc000 0 0 0 0 0 (zeros 8)
    0 0 0 0 0 0 0 0 0 0 0 0 0 0 0.
Definition float_zero : float_status := mk_float_status 0 0 0 0 0.
Definition env0 : CPUARMState :=
  mk_env (seqZ 100 16) 0x1d3 0 (zeros 6) (seqZ 200 6) (seqZ 300 6) (seqZ 400 5) (seqZ 500 5)
    0 0 0 1 0 0 0 0 cp15_zero (mk_v7m 0 0 0 0 0 0 0) 0 0 0
    (mk_vfp (zeros 32) (zeros 16) 0 0 float_zero float_zero) (mk_iwmmxt (zeros 16) (zeros 16))
    0 0 0 (replicate 2 (replicate 256 (mk_tlb 0 0 0 0))) (replicate 2 (zeros 256)) 0 0 0 0.

Lemma env0_ok : cpu_ok env0.
Proof. split; [by vm_compute|by vm_compute|by repeat constructor|by repeat constructor]. Qed.

(** All the bits of the register are replaced: the processor is in fast interrupt
    mode with its own registers, in Thumb state, with the flags Z and C. *)
Lemma cpsr_write_witness :
  exists env', cpsr_write 0x600000f1 0xffffffff env0 = Done (tt, env', []) /\ cpsr_read env' = 0x600000f1 /\
    aget (regs env') 8 = Some 500 /\ aget (regs env') 13 = Some 205.
Proof.
  destruct (cpsr_write_spec env0 0x600000f1 0xffffffff) as (env' & E & _ & Hr & _);
    [exact env0_ok|by vm_compute|by vm_compute; intuition|by repeat constructor|].
  exists env'. split; [exact E|]. split; [rewrite Hr; by vm_compute|].
  vm_compute in E. injection E as <-. by split.
Defined.
End ArmDemo.
