(* ===== verification/ArmAlu.v ===== *)
(** * ArmAlu: arithmetic of the ARM processor ([target-arm/helper.c],
    [target-arm/op_helper.c], [target-arm/op_addsub.h], [host-utils.h])

    The helpers that translated code calls for arithmetic with flags, shifts by a
    register, saturation, arithmetic on the halfwords and bytes of a word, and
    single instructions.

    The references compute with unbounded integers: a sum of unsigned and of
    signed readings as in the architecture's [AddWithCarry], shifts as products
    and quotients, saturation as a clamp, and parallel operations lane by lane. *)
From S2P Require Import Prelude Words ArmCpu.

Definition SIGNBIT := 0x80000000.

(** ** Flags *)

Definition set_result (v : Z) : cpu unit := modify (fun s => s <| NF := v |> <| ZF := v |>).
Definition set_carry (c : bool) : cpu unit := modify (fun s => s <| CF := bool_Z c |>).
Definition set_overflow (v : Z) : cpu unit := modify (fun s => s <| VF := v |>).

Definition add_cc (a b : Z) : cpu Z :=
  let result := u32 (a + b) in
  set_result result ;;; set_carry (result <? a) ;;;
  set_overflow (((a .^ b) .^ 0xffffffff) .& (a .^ result)) ;;; ret result.

Definition adc_cc (a b : Z) : cpu Z :=
  c <- gets CF ;;
  let result := if c =? 0 then u32 (a + b) else u32 (a + b + 1) in
  set_carry (if c =? 0 then result <? a else result <=? a) ;;;
  set_overflow (((a .^ b) .^ 0xffffffff) .& (a .^ result)) ;;;
  set_result result ;;; ret result.

Definition sub_cc (a b : Z) : cpu Z :=
  let result := u32 (a - b) in
  set_result result ;;; set_carry (b <=? a) ;;;
  set_overflow ((a .^ b) .& (a .^ result)) ;;; ret result.

Definition sbc_cc (a b : Z) : cpu Z :=
  c <- gets CF ;;
  let result := if c =? 0 then u32 (a - b - 1) else u32 (a - b) in
  set_carry (if c =? 0 then b <? a else b <=? a) ;;;
  set_overflow ((a .^ b) .& (a .^ result)) ;;;
  set_result result ;;; ret result.

(** ** Shifts by a register: only its low byte counts *)

Definition shl (x i : Z) : Z :=
  let shift := i .& 0xff in if 32 <=? shift then 0 else u32 (x << shift).
Definition shr (x i : Z) : Z :=
  let shift := i .& 0xff in if 32 <=? shift then 0 else x >> shift.
Definition sar (x i : Z) : Z :=
  let shift := i .& 0xff in u32 (sgn 32 x >> (if 32 <=? shift then 31 else shift)).

Definition shl_cc (x i : Z) : cpu Z :=
  let shift := i .& 0xff in
  if 32 <=? shift then set_carry (if shift =? 32 then test x 1 else false) ;;; ret 0
  else if negb (shift =? 0) then set_carry (test (x >> (32 - shift)) 1) ;;; ret (u32 (x << shift))
  else ret x.
Definition shr_cc (x i : Z) : cpu Z :=
  let shift := i .& 0xff in
  if 32 <=? shift then set_carry (if shift =? 32 then test (x >> 31) 1 else false) ;;; ret 0
  else if negb (shift =? 0) then set_carry (test (x >> (shift - 1)) 1) ;;; ret (x >> shift)
  else ret x.
Definition sar_cc (x i : Z) : cpu Z :=
  let shift := i .& 0xff in
  if 32 <=? shift then set_carry (test (x >> 31) 1) ;;; ret (u32 (sgn 32 x >> 31))
  else if negb (shift =? 0) then set_carry (test (x >> (shift - 1)) 1) ;;; ret (u32 (sgn 32 x >> shift))
  else ret x.
Definition ror_cc (x i : Z) : cpu Z :=
  let shift1 := i .& 0xff in
  let shift := shift1 .& 0x1f in
  if shift =? 0 then
    when (negb (shift1 =? 0)) (set_carry (test (x >> 31) 1)) ;;; ret x
  else set_carry (test (x >> (shift - 1)) 1) ;;; ret ((x >> shift) .| u32 (x << (32 - shift))).

(** ** Saturation, with the sticky flag *)

Definition set_q : cpu unit := modify (fun s => s <| QF := 1 |>).

(** [~(((int32_t)a >> 31) ^ SIGNBIT)]: the limit on the side of [a]. *)
Definition limit_of (a : Z) : Z := u32 (Z.lnot (u32 (sgn 32 a >> 31) .^ SIGNBIT)).

Definition add_setq (a b : Z) : cpu Z :=
  let res := u32 (a + b) in
  when (test (res .^ a) SIGNBIT && negb (test (a .^ b) SIGNBIT)) set_q ;;; ret res.
Definition add_saturate (a b : Z) : cpu Z :=
  let res := u32 (a + b) in
  if test (res .^ a) SIGNBIT && negb (test (a .^ b) SIGNBIT) then set_q ;;; ret (limit_of a) else ret res.
Definition sub_saturate (a b : Z) : cpu Z :=
  let res := u32 (a - b) in
  if test (res .^ a) SIGNBIT && test (a .^ b) SIGNBIT then set_q ;;; ret (limit_of a) else ret res.
Definition double_saturate (x : Z) : cpu Z :=
  let val := sgn 32 x in
  if 0x40000000 <=? val then set_q ;;; ret (u32 (Z.lnot SIGNBIT))
  else if val <=? sgn 32 0xc0000000 then set_q ;;; ret SIGNBIT
  else ret (u32 (val << 1)).
Definition add_usaturate (a b : Z) : cpu Z :=
  let res := u32 (a + b) in
  if res <? a then set_q ;;; ret 0xffffffff else ret res.
Definition sub_usaturate (a b : Z) : cpu Z :=
  let res := u32 (a - b) in
  if a <? res then set_q ;;; ret 0 else ret res.

Definition do_ssat (val shift : Z) : cpu Z :=
  let top := val >> shift in
  let mask := u32 (u32 (1 << shift) - 1) in
  if 0 <? top then set_q ;;; ret mask
  else if top <? -1 then set_q ;;; ret (u32 (Z.lnot mask))
  else ret (u32 val).
(** The comparison of an [int] that is not negative with an [unsigned]. *)
Definition do_usat (val shift : Z) : cpu Z :=
  let max := u32 (u32 (1 << shift) - 1) in
  if val <? 0 then set_q ;;; ret 0
  else if max <? u32 val then set_q ;;; ret max
  else ret (u32 val).

Definition ssat (x shift : Z) : cpu Z := do_ssat (sgn 32 x) shift.
Definition usat (x shift : Z) : cpu Z := do_usat (sgn 32 x) shift.
Definition ssat16 (x shift : Z) : cpu Z :=
  lo <- do_ssat (sgn 16 x) shift ;;
  hi <- do_ssat (sgn 32 x >> 16) shift ;;
  ret (u16 lo .| u32 (hi << 16)).
Definition usat16 (x shift : Z) : cpu Z :=
  lo <- do_usat (sgn 16 x) shift ;;
  hi <- do_usat (sgn 32 x >> 16) shift ;;
  ret (u16 lo .| u32 (hi << 16)).

(** ** Parallel addition and subtraction

    One text, [op_addsub.h], is included once for every way of adding: a lane
    operator gives the value of a lane, which [RESULT] cuts to its width, and
    whether the lane's [GE] flags are set. *)

Definition lane_op := Z -> Z -> Z * bool.
Record lane_ops := mk_lane_ops { ADD16 : lane_op; SUB16 : lane_op; ADD8 : lane_op; SUB8 : lane_op }.

Definition RESULT (res val n width : Z) : Z := res .| u32 (wrap width val << (n * width)).

(** [OP16(a, b, n)] and [OP8(a, b, n)] on the result and the flags so far. *)
Definition do16 (f : lane_op) (a b n : Z) (acc : Z * Z) : Z * Z :=
  let '(v, g) := f a b in
  (RESULT acc.1 v n 16, if g : bool then acc.2 .| (3 << (n * 2)) else acc.2).
Definition do8 (f : lane_op) (a b n : Z) (acc : Z * Z) : Z * Z :=
  let '(v, g) := f a b in
  (RESULT acc.1 v n 8, if g : bool then acc.2 .| (1 << n) else acc.2).

Section AddSub.
Context (o : lane_ops).
Definition add16 (a b : Z) : Z * Z := do16 (ADD16 o) (a >> 16) (b >> 16) 1 (do16 (ADD16 o) a b 0 (0, 0)).
Definition sub16 (a b : Z) : Z * Z := do16 (SUB16 o) (a >> 16) (b >> 16) 1 (do16 (SUB16 o) a b 0 (0, 0)).
Definition add8 (a b : Z) : Z * Z :=
  do8 (ADD8 o) (a >> 24) (b >> 24) 3 (do8 (ADD8 o) (a >> 16) (b >> 16) 2
    (do8 (ADD8 o) (a >> 8) (b >> 8) 1 (do8 (ADD8 o) a b 0 (0, 0)))).
Definition sub8 (a b : Z) : Z * Z :=
  do8 (SUB8 o) (a >> 24) (b >> 24) 3 (do8 (SUB8 o) (a >> 16) (b >> 16) 2
    (do8 (SUB8 o) (a >> 8) (b >> 8) 1 (do8 (SUB8 o) a b 0 (0, 0)))).
Definition subaddx (a b : Z) : Z * Z := do16 (SUB16 o) (a >> 16) b 1 (do16 (ADD16 o) a (b >> 16) 0 (0, 0)).
Definition addsubx (a b : Z) : Z * Z := do16 (ADD16 o) (a >> 16) b 1 (do16 (SUB16 o) a (b >> 16) 0 (0, 0)).
End AddSub.

(** Signed saturating arithmetic. *)
Definition add16_sat (a b : Z) : Z :=
  let res := u16 (a + b) in
  if test (res .^ a) 0x8000 && negb (test (a .^ b) 0x8000) then if test a 0x8000 then 0x8000 else 0x7fff else res.
Definition sub16_sat (a b : Z) : Z :=
  let res := u16 (a - b) in
  if test (res .^ a) 0x8000 && test (a .^ b) 0x8000 then if test a 0x8000 then 0x8000 else 0x7fff else res.
Definition add8_sat (a b : Z) : Z :=
  let res := u8 (a + b) in
  if test (res .^ a) 0x80 && negb (test (a .^ b) 0x80) then if test a 0x80 then 0x80 else 0x7f else res.
Definition sub8_sat (a b : Z) : Z :=
  let res := u8 (a - b) in
  if test (res .^ a) 0x80 && test (a .^ b) 0x80 then if test a 0x80 then 0x80 else 0x7f else res.
(** Unsigned saturating arithmetic. *)
Definition add16_usat (a b : Z) : Z := let res := u16 (a + b) in if res <? a then 0xffff else res.
Definition sub16_usat (a b : Z) : Z := if b <? a then u16 (a - b) else 0.
Definition add8_usat (a b : Z) : Z := let res := u8 (a + b) in if res <? a then 0xff else res.
Definition sub8_usat (a b : Z) : Z := if b <? a then u8 (a - b) else 0.

(** Arguments are cut to the width of the parameters; only two of the six ways
    give flags. *)
Definition no_ge16 (f : Z -> Z -> Z) : lane_op := fun a b => (f (u16 a) (u16 b), false).
Definition no_ge8 (f : Z -> Z -> Z) : lane_op := fun a b => (f (u8 a) (u8 b), false).
Definition q_ops := mk_lane_ops (no_ge16 add16_sat) (no_ge16 sub16_sat) (no_ge8 add8_sat) (no_ge8 sub8_sat).
Definition uq_ops := mk_lane_ops (no_ge16 add16_usat) (no_ge16 sub16_usat) (no_ge8 add8_usat) (no_ge8 sub8_usat).

(** Signed modulo arithmetic. *)
Definition SARITH16 (op : Z -> Z -> Z) : lane_op := fun a b => let sum := op (sgn 16 a) (sgn 16 b) in (sum, 0 <=? sum).
Definition SARITH8 (op : Z -> Z -> Z) : lane_op := fun a b => let sum := op (sgn 8 a) (sgn 8 b) in (sum, 0 <=? sum).
Definition s_ops := mk_lane_ops (SARITH16 Z.add) (SARITH16 Z.sub) (SARITH8 Z.add) (SARITH8 Z.sub).

(** Unsigned modulo arithmetic. *)
Definition u_ops := mk_lane_ops
  (fun a b => let sum := u32 (u16 a + u16 b) in (sum, sum >> 16 =? 1))
  (fun a b => let sum := u32 (u16 a - u16 b) in (sum, sum >> 16 =? 0))
  (fun a b => let sum := u32 (u8 a + u8 b) in (sum, sum >> 8 =? 1))
  (fun a b => let sum := u32 (u8 a - u8 b) in (sum, sum >> 8 =? 0)).

(** Halved signed and unsigned arithmetic. *)
Definition sh_ops := mk_lane_ops
  (fun a b => ((sgn 16 a + sgn 16 b) >> 1, false)) (fun a b => ((sgn 16 a - sgn 16 b) >> 1, false))
  (fun a b => ((sgn 8 a + sgn 8 b) >> 1, false)) (fun a b => ((sgn 8 a - sgn 8 b) >> 1, false)).
Definition uh_ops := mk_lane_ops
  (fun a b => (u32 (u16 a + u16 b) >> 1, false)) (fun a b => (u32 (u16 a - u16 b) >> 1, false))
  (fun a b => (u32 (u8 a + u8 b) >> 1, false)) (fun a b => (u32 (u8 a - u8 b) >> 1, false)).

(** ** Single instructions *)

Definition sxtb16 (x : Z) : Z := u16 (sgn 8 x) .| u32 (sgn 8 (x >> 16) << 16).
Definition uxtb16 (x : Z) : Z := u16 (u8 x) .| u32 (u8 (x >> 16) << 16).

(** The search without a compiler's builtin: [n] zeroes at the top are counted
    and shifted out. *)
Definition drop_zeroes (mask n : Z) (s : Z * Z) : Z * Z :=
  let '(cnt, val) := s in if negb (test val mask) then (cnt + n, u32 (val << n)) else (cnt, val).
Definition clz32 (val : Z) : Z :=
  let '(cnt, val) := drop_zeroes 0x80000000 1 (drop_zeroes 0xc0000000 2 (drop_zeroes 0xf0000000 4
    (drop_zeroes 0xff000000 8 (drop_zeroes 0xffff0000 16 (0, val))))) in
  if negb (test val 0x80000000) then cnt + 1 else cnt.
Definition clz (x : Z) : Z := clz32 x.

Definition INT_MIN := - 2 ^ 31.
(** Division of [int]s, which truncates. *)
Definition sdiv (num den : Z) : Z :=
  if den =? 0 then 0 else if (num =? INT_MIN) && (den =? -1) then INT_MIN else Z.quot num den.
Definition udiv (num den : Z) : Z := if den =? 0 then 0 else num / den.

Definition rbit (x : Z) : Z :=
  let x := ((x .& 0xff000000) >> 24) .| ((x .& 0x00ff0000) >> 8) .| u32 ((x .& 0x0000ff00) << 8) .| u32 ((x .& 0x000000ff) << 24) in
  let x := ((x .& 0xf0f0f0f0) >> 4) .| u32 ((x .& 0x0f0f0f0f) << 4) in
  ((x .& 0x88888888) >> 3) .| ((x .& 0x44444444) >> 1) .| u32 ((x .& 0x22222222) << 1) .| u32 ((x .& 0x11111111) << 3).

Definition abs (x : Z) : Z := if sgn 32 x <? 0 then u32 (- x) else x.

Definition do_usad (a b : Z) : Z := if b <? a then u8 (a - b) else u8 (b - a).
Definition usad8 (a b : Z) : Z :=
  let sum := do_usad (u8 a) (u8 b) in
  let sum := u32 (sum + do_usad (u8 (a >> 8)) (u8 (b >> 8))) in
  let sum := u32 (sum + do_usad (u8 (a >> 16)) (u8 (b >> 16))) in
  u32 (sum + do_usad (u8 (a >> 24)) (u8 (b >> 24))).

Definition sel_flags (flags a b : Z) : Z :=
  let mask := 0 in
  let mask := if test flags 1 then mask .| 0xff else mask in
  let mask := if test flags 2 then mask .| 0xff00 else mask in
  let mask := if test flags 4 then mask .| 0xff0000 else mask in
  let mask := if test flags 8 then mask .| 0xff000000 else mask in
  (a .& mask) .| (b .&~ mask).

(** The high word of a product with a bit for the rest, for the flags. *)
Definition logicq_cc (val : Z) : Z := u32 (u32 (val >> 32) .| bool_Z (negb (val =? 0))).

(** ** Words as signed and unsigned integers *)

Definition clamp (lo hi z : Z) : Z := if z <? lo then lo else if hi <? z then hi else z.
(** The signed values of a width. *)
Definition holds_signed (w s : Z) : bool := (- 2 ^ (w - 1) <=? s) && (s <? 2 ^ (w - 1)).
Definition clamp_signed (w s : Z) : Z := clamp (- 2 ^ (w - 1)) (2 ^ (w - 1) - 1) s.
Definition clamp_unsigned (w s : Z) : Z := clamp 0 (2 ^ w - 1) s.

Section Widths.
Context (w : Z) (Hw : 0 < w).
Abbreviation top := (2 ^ (w - 1)).
Abbreviation sign z := (Z.testbit z (w - 1)).

Lemma top_double : 2 ^ w = 2 * top /\ 0 < top.
Proof. split; [|lia]. replace w with (Z.succ (w - 1)) at 1 by lia. by rewrite Z.pow_succ_r by lia. Qed.

Lemma top_bit z : fits w z -> sign z = (top <=? z).
Proof.
  intros Hz. pose proof top_double as [Hd Hp]. unfold fits in Hz. rewrite Z.testbit_odd, Z.shiftr_div_pow2 by lia.
  destruct (Z.leb_spec top z).
  - assert (z / top = 1) as ->; [|done]. symmetry. apply (Z.div_unique z top 1 (z - top)); lia.
  - by rewrite Z.div_small by lia.
Qed.

Lemma sgn_cases z : fits w z -> sgn w z = if z <? top then z else z - 2 ^ w.
Proof. intros Hz. unfold sgn. by rewrite wrap_fits. Qed.

Lemma wrap_cases z : - 2 ^ w <= z < 2 * 2 ^ w ->
  wrap w z = if z <? 0 then z + 2 ^ w else if z <? 2 ^ w then z else z - 2 ^ w.
Proof.
  intros Hz. unfold wrap. destruct (Z.ltb_spec z 0); [|destruct (Z.ltb_spec z (2 ^ w))].
  - symmetry. apply (Z.mod_unique z (2 ^ w) (-1)); lia.
  - apply Z.mod_small. lia.
  - symmetry. apply (Z.mod_unique z (2 ^ w) 1); lia.
Qed.

Ltac by_cases :=
  pose proof top_double as [Hd Hp]; unfold fits, holds_signed, clamp_signed, clamp_unsigned, clamp in *;
  rewrite ?Hd in *;
  repeat match goal with |- context [if ?a <? ?b then _ else _] => destruct (Z.ltb_spec a b) end;
  repeat match goal with
  | |- context [?a <=? ?b] => destruct (Z.leb_spec a b); cbn [xorb andb negb]
  | |- context [?a <? ?b] => destruct (Z.ltb_spec a b); cbn [xorb andb negb]
  end; try done; exfalso; lia.

(** A sum overflows when operands of one sign have a result of the other. *)
Lemma add_overflow a b c : fits w a -> fits w b -> 0 <= c <= 1 ->
  xorb (sign (wrap w (a + b + c))) (sign a) && negb (xorb (sign a) (sign b)) = negb (holds_signed w (sgn w a + sgn w b + c)).
Proof.
  intros Ha Hb Hc. rewrite !top_bit, !sgn_cases by (done || (apply fits_wrap; lia)).
  rewrite wrap_cases by (unfold fits in *; lia). by_cases.
Qed.
Lemma sub_overflow a b c : fits w a -> fits w b -> 0 <= c <= 1 ->
  xorb (sign (wrap w (a - b - c))) (sign a) && xorb (sign a) (sign b) = negb (holds_signed w (sgn w a - sgn w b - c)).
Proof.
  intros Ha Hb Hc. rewrite !top_bit, !sgn_cases by (done || (apply fits_wrap; lia)).
  rewrite wrap_cases by (unfold fits in *; lia). by_cases.
Qed.

Lemma wrap_sgn a b c : fits w a -> fits w b -> wrap w (sgn w a + sgn w b + c) = wrap w (a + b + c).
Proof.
  intros Ha Hb. rewrite !sgn_cases by done. unfold wrap.
  destruct (a <? top), (b <? top).
  - done.
  - replace (a + (b - 2 ^ w) + c) with (a + b + c + (-1) * 2 ^ w) by lia. by rewrite Z.mod_add by lia.
  - replace (a - 2 ^ w + b + c) with (a + b + c + (-1) * 2 ^ w) by lia. by rewrite Z.mod_add by lia.
  - replace (a - 2 ^ w + (b - 2 ^ w) + c) with (a + b + c + (-2) * 2 ^ w) by lia. by rewrite Z.mod_add by lia.
Qed.
Lemma wrap_sgn_sub a b c : fits w a -> fits w b -> wrap w (sgn w a - sgn w b - c) = wrap w (a - b - c).
Proof.
  intros Ha Hb. rewrite !sgn_cases by done. unfold wrap.
  destruct (a <? top), (b <? top).
  - done.
  - replace (a - (b - 2 ^ w) - c) with (a - b - c + 1 * 2 ^ w) by lia. by rewrite Z.mod_add by lia.
  - replace (a - 2 ^ w - b - c) with (a - b - c + (-1) * 2 ^ w) by lia. by rewrite Z.mod_add by lia.
  - f_equal. lia.
Qed.

(** Saturating to the limit on the side of the first operand. *)
Lemma add_saturates a b : fits w a -> fits w b ->
  (if xorb (sign (wrap w (a + b))) (sign a) && negb (xorb (sign a) (sign b)) then if sign a then top else top - 1 else wrap w (a + b)) =
  wrap w (clamp_signed w (sgn w a + sgn w b)).
Proof.
  intros Ha Hb. pose proof (add_overflow a b 0 Ha Hb ltac:(lia)) as Ho. pose proof (wrap_sgn a b 0 Ha Hb) as Hs.
  rewrite !Z.add_0_r in *. rewrite Ho, <- Hs. rewrite (top_bit a), !sgn_cases by done. clear Ho Hs.
  pose proof top_double as [Hd Hp]. unfold holds_signed, clamp_signed, clamp, fits in *.
  destruct (Z.ltb_spec a top), (Z.ltb_spec b top); try lia;
  repeat match goal with
  | |- context [?a <=? ?b] => destruct (Z.leb_spec a b); cbn [andb negb]; try lia
  | |- context [?a <? ?b] => destruct (Z.ltb_spec a b); cbn [andb negb]; try lia
  end; try done.
  all: rewrite wrap_cases by lia; zcases.
Qed.
Lemma sub_saturates a b : fits w a -> fits w b ->
  (if xorb (sign (wrap w (a - b))) (sign a) && xorb (sign a) (sign b) then if sign a then top else top - 1 else wrap w (a - b)) =
  wrap w (clamp_signed w (sgn w a - sgn w b)).
Proof.
  intros Ha Hb. pose proof (sub_overflow a b 0 Ha Hb ltac:(lia)) as Ho. pose proof (wrap_sgn_sub a b 0 Ha Hb) as Hs.
  rewrite !Z.sub_0_r in *. rewrite Ho, <- Hs. rewrite (top_bit a), !sgn_cases by done. clear Ho Hs.
  pose proof top_double as [Hd Hp]. unfold holds_signed, clamp_signed, clamp, fits in *.
  destruct (Z.ltb_spec a top), (Z.ltb_spec b top); try lia;
  repeat match goal with
  | |- context [?a <=? ?b] => destruct (Z.leb_spec a b); cbn [andb negb]; try lia
  | |- context [?a <? ?b] => destruct (Z.ltb_spec a b); cbn [andb negb]; try lia
  end; try done.
  all: rewrite wrap_cases by lia; zcases.
Qed.
End Widths.

(** ** Arithmetic with flags *)

(** The sum of the architecture: a word, the carry out, and the overflow. *)
Definition AddWithCarry (x y c : Z) : Z * bool * bool :=
  let unsigned_sum := x + y + c in
  let signed_sum := sgn 32 x + sgn 32 y + c in
  let result := u32 unsigned_sum in
  (result, negb (result =? unsigned_sum), negb (sgn 32 result =? signed_sum)).

Inductive arith := Add | Adc | Sub | Sbc.
Definition arith_cc (op : arith) : Z -> Z -> cpu Z :=
  match op with Add => add_cc | Adc => adc_cc | Sub => sub_cc | Sbc => sbc_cc end.
Definition arith_spec (op : arith) (c a b : Z) : Z * bool * bool :=
  match op with
  | Add => AddWithCarry a b 0
  | Adc => AddWithCarry a b c
  | Sub => AddWithCarry a (u32 (Z.lnot b)) 1
  | Sbc => AddWithCarry a (u32 (Z.lnot b)) c
  end.

(** The flags of the status register. *)
Definition nzcv (n z c v : bool) : Z :=
  (bool_Z n << 31) .| (bool_Z z << 30) .| (bool_Z c << 29) .| (bool_Z v << 28).

Lemma flags_written env r c v : flags_ok env -> fits 32 r -> 0 <= v ->
  let env' := env <| NF := r |> <| ZF := r |> <| CF := bool_Z c |> <| VF := v |> in
  flags_ok env' /\
  cpsr_read env' = (cpsr_read env .&~ CPSR_NZCV) .| nzcv (Z.testbit r 31) (r =? 0) c (Z.testbit v 31).
Proof.
  intros Hok Hr Hv env'. assert (flags_ok env') as Hok'.
  { destruct Hok. constructor; try assumption; [apply Hr|]. by destruct c. }
  split; [done|]. apply word_eq.
  - by apply cpsr_read_fits.
  - apply fits_lor; [lia|apply fits_ldiff; [lia|by apply cpsr_read_fits]|].
    by destruct (Z.testbit r 31), (r =? 0), c, (Z.testbit v 31); vm_compute.
  - intros i Hi. rewrite cpsr_read_bit by done. rewrite Z.lor_spec, Z.ldiff_spec, cpsr_read_bit by done.
    assert (Z.testbit (nzcv (Z.testbit r 31) (r =? 0) c (Z.testbit v 31)) i =
      switch i [ (on 31, Z.testbit r 31); (on 30, r =? 0); (on 29, c); (on 28, Z.testbit v 31) ] false) as ->.
    { destruct (Z.testbit r 31), (r =? 0), c, (Z.testbit v 31); revert i Hi; each_bit; reflexivity. }
    revert i Hi. each_bit. all: pick_bit. all: cbn [Z.testbit]. all: rewrite ?andb_false_r, ?andb_true_r, ?orb_false_r; try done.
    by destruct c.
Qed.

Lemma signed_exact w s : 0 < w -> (sgn w (wrap w s) =? s) = holds_signed w s.
Proof.
  intros Hw. pose proof (top_double w Hw) as [Hd Hp]. assert (fits w (wrap w s)) as Hf by (apply fits_wrap; lia).
  rewrite sgn_cases by done. unfold holds_signed. destruct (_ && _) eqn:Eh.
  - apply andb_true_iff in Eh as [H1%Z.leb_le H2%Z.ltb_lt]. apply Z.eqb_eq.
    rewrite (wrap_cases w) by lia. zcases.
  - apply Z.eqb_neq. intros Es. apply andb_false_iff in Eh. unfold fits in Hf.
    destruct (Z.ltb_spec (wrap w s) (2 ^ (w - 1))); destruct Eh as [H1%Z.leb_gt|H1%Z.ltb_ge]; lia.
Qed.

Lemma lnot_word b : fits 32 b -> u32 (Z.lnot b) = 2 ^ 32 - 1 - b.
Proof. intros Hb. unfold fits in Hb. rewrite (wrap_cases 32) by (unfold Z.lnot; lia). unfold Z.lnot. zcases. Qed.
Lemma lnot_signed b : fits 32 b -> sgn 32 (u32 (Z.lnot b)) = -1 - sgn 32 b.
Proof.
  intros Hb. rewrite lnot_word by done. assert (fits 32 (2 ^ 32 - 1 - b)) as Hf by (unfold fits in *; lia).
  rewrite !sgn_cases by (done || lia). unfold fits in *. change (2 ^ (32 - 1)) with 0x80000000. change (2 ^ 32) with 0x100000000 in *. zcases.
Qed.

(** The flags of a sum and of a difference are those of the reference. *)
Lemma add_flags a b c : fits 32 a -> fits 32 b -> 0 <= c <= 1 ->
  let r := u32 (a + b + c) in
  AddWithCarry a b c = (r, if c =? 0 then r <? a else r <=? a, Z.testbit (((a .^ b) .^ 0xffffffff) .& (a .^ r)) 31).
Proof.
  intros Ha Hb Hc r. unfold AddWithCarry. fold r. f_equal; [f_equal|].
  - unfold r. unfold fits in *. rewrite (wrap_cases 32) by lia. change (2 ^ 32) with 0x100000000 in *.
    destruct (Z.eqb_spec c 0); zcases.
  - rewrite Z.land_spec, !Z.lxor_spec. change (Z.testbit 0xffffffff 31) with true.
    pose proof (add_overflow 32 ltac:(lia) a b c Ha Hb Hc) as Ho. change (32 - 1) with 31 in Ho. fold r in Ho.
    assert (r = u32 (sgn 32 a + sgn 32 b + c)) as Er by (unfold r; by rewrite (wrap_sgn 32)).
    rewrite Er at 1. rewrite signed_exact, <- Ho by lia.
    by destruct (Z.testbit r 31), (Z.testbit a 31), (Z.testbit b 31).
Qed.

Lemma sub_flags a b c : fits 32 a -> fits 32 b -> 0 <= c <= 1 ->
  let r := u32 (a - b - (1 - c)) in
  AddWithCarry a (u32 (Z.lnot b)) c = (r, if c =? 0 then b <? a else b <=? a, Z.testbit ((a .^ b) .& (a .^ r)) 31).
Proof.
  intros Ha Hb Hc r. unfold AddWithCarry. rewrite lnot_word, <- lnot_word, lnot_signed by done. rewrite lnot_word by done.
  assert (u32 (a + (2 ^ 32 - 1 - b) + c) = r) as Er.
  { unfold r. replace (a + (2 ^ 32 - 1 - b) + c) with (a - b - (1 - c) + 1 * 2 ^ 32) by lia. unfold wrap. by rewrite Z.mod_add by lia. }
  rewrite Er. f_equal; [f_equal|].
  - rewrite <- Er. unfold fits in *. rewrite (wrap_cases 32) by lia. change (2 ^ 32) with 0x100000000 in *.
    destruct (Z.eqb_spec c 0); zcases.
  - rewrite Z.land_spec, !Z.lxor_spec.
    pose proof (sub_overflow 32 ltac:(lia) a b (1 - c) Ha Hb ltac:(lia)) as Ho. change (32 - 1) with 31 in Ho. fold r in Ho.
    replace (sgn 32 a + (-1 - sgn 32 b) + c) with (sgn 32 a - sgn 32 b - (1 - c)) by lia.
    assert (r = u32 (sgn 32 a - sgn 32 b - (1 - c))) as Er' by (unfold r; by rewrite (wrap_sgn_sub 32)).
    rewrite Er' at 1. rewrite signed_exact, <- Ho by lia.
    by destruct (Z.testbit r 31), (Z.testbit a 31), (Z.testbit b 31).
Qed.

(** C16.  Addition and subtraction, with and without carry, are the architecture's
    AddWithCarry: the result and the flags N, Z, C and V are those of the sums of
    the unsigned and of the signed readings, and the rest of the status register
    and the registers stay. *)
Theorem arith_is_AddWithCarry op a b env :
  flags_ok env -> fits 32 a -> fits 32 b ->
  let '(r, c, v) := arith_spec op (CF env) a b in
  exists env', arith_cc op a b env = Done (r, env', []) /\ flags_ok env' /\ regs env' = regs env /\
    cpsr_read env' = (cpsr_read env .&~ CPSR_NZCV) .| nzcv (Z.testbit r 31) (r =? 0) c v.
Proof.
  intros Hok Ha Hb. assert (CF env = 0 \/ CF env = 1) as HC by (pose proof (ok_cf _ Hok) as Hc; unfold fits in Hc; change (2 ^ 1) with 2 in Hc; lia).
  assert (0 <= a .^ b) as Hx by (apply (fits_nonneg 32), fits_lxor; [lia|done..]).
  assert (forall r, fits 32 r -> 0 <= (((a .^ b) .^ 0xffffffff) .& (a .^ r)) /\ 0 <= ((a .^ b) .& (a .^ r))) as Hv.
  { intros r Hr. split; apply Z.land_nonneg; right; apply (fits_nonneg 32), fits_lxor; (lia || done). }
  assert (forall z, fits 32 (u32 z)) as Hr by (intros z; by apply fits_wrap).
  assert (forall r c v, fits 32 r -> 0 <= v ->
    let env' := env <| NF := r |> <| ZF := r |> <| CF := bool_Z c |> <| VF := v |> in
    flags_ok env' /\ regs env' = regs env /\
    cpsr_read env' = (cpsr_read env .&~ CPSR_NZCV) .| nzcv (Z.testbit r 31) (r =? 0) c (Z.testbit v 31)) as Hflags.
  { intros r c v Hr' Hv' env'. by destruct (flags_written env r c v Hok Hr' Hv'). }
  destruct op; cbn [arith_spec arith_cc].
  - rewrite add_flags by (done || lia). rewrite Z.add_0_r. cbn [Z.eqb].
    eexists. split; [reflexivity|]. by apply Hflags; [|apply Hv].
  - rewrite add_flags by (done || lia).
    assert (adc_cc a b env = Done (u32 (a + b + CF env),
      env <| NF := u32 (a + b + CF env) |> <| ZF := u32 (a + b + CF env) |>
          <| CF := bool_Z (if CF env =? 0 then u32 (a + b + CF env) <? a else u32 (a + b + CF env) <=? a) |>
          <| VF := ((a .^ b) .^ 0xffffffff) .& (a .^ u32 (a + b + CF env)) |>, [])) as ->.
    { unfold adc_cc. rewrite bind_gets. destruct HC as [->| ->]; rewrite ?Z.add_0_r; reflexivity. }
    eexists. split; [reflexivity|]. by apply Hflags; [|apply Hv].
  - rewrite sub_flags by (done || lia). rewrite Z.sub_0_r. cbn [Z.eqb].
    eexists. split; [reflexivity|]. by apply Hflags; [|apply Hv].
  - rewrite sub_flags by (done || lia).
    assert (sbc_cc a b env = Done (u32 (a - b - (1 - CF env)),
      env <| NF := u32 (a - b - (1 - CF env)) |> <| ZF := u32 (a - b - (1 - CF env)) |>
          <| CF := bool_Z (if CF env =? 0 then b <? a else b <=? a) |>
          <| VF := (a .^ b) .& (a .^ u32 (a - b - (1 - CF env))) |>, [])) as ->.
    { unfold sbc_cc. rewrite bind_gets. destruct HC as [->| ->]; rewrite ?Z.sub_0_r; reflexivity. }
    eexists. split; [reflexivity|]. by apply Hflags; [|apply Hv].
Qed.

(** ** Shifts *)

Inductive shift_kind := LSL | LSR | ASR | ROR.

(** A shift by [n] places with its carry out; for [n = 0] the carry stays. *)
Definition Shift_C (k : shift_kind) (x n : Z) (carry_in : bool) : Z * bool :=
  if n =? 0 then (x, carry_in)
  else
    match k with
    | LSL => ((x * 2 ^ n) mod 2 ^ 32, Z.odd (x * 2 ^ n / 2 ^ 32))
    | LSR => (x / 2 ^ n, Z.odd (x / 2 ^ (n - 1)))
    | ASR => ((sgn 32 x / 2 ^ n) mod 2 ^ 32, Z.odd (sgn 32 x / 2 ^ (n - 1)))
    | ROR => let m := n mod 32 in
             let r := x / 2 ^ m + x mod 2 ^ m * 2 ^ (32 - m) in
             (if m =? 0 then x else r, Z.odd ((if m =? 0 then x else r) / 2 ^ 31))
    end.
Definition shift_cc (k : shift_kind) : Z -> Z -> cpu Z :=
  match k with LSL => shl_cc | LSR => shr_cc | ASR => sar_cc | ROR => ror_cc end.

Lemma low_byte i : i .& 0xff = i mod 256.
Proof. change 0xff with (2 ^ 8 - 1). by rewrite land_ones. Qed.
Lemma test_1_odd x : test x 1 = Z.odd x.
Proof. change 1 with (1 << 0). rewrite test_odd by lia. by rewrite Z.div_1_r. Qed.

Lemma odd_bit z k : 0 <= k -> Z.odd (z / 2 ^ k) = Z.testbit z k.
Proof. intros Hk. by rewrite Z.testbit_odd, Z.shiftr_div_pow2. Qed.
Lemma bit_test x k : 0 <= k -> test (x >> k) 1 = Z.testbit x k.
Proof. intros Hk. by rewrite test_1_odd, Z.testbit_odd. Qed.

Lemma big_shift x n : fits 32 x -> 32 <= n -> x / 2 ^ n = 0.
Proof.
  intros Hx Hn. unfold fits in Hx. apply Z.div_small. assert (2 ^ 32 <= 2 ^ n) by (apply Z.pow_le_mono_r; lia). lia.
Qed.

Lemma lsl_value x n : 0 <= n -> (x * 2 ^ n) mod 2 ^ 32 = if 32 <=? n then 0 else u32 (x << n).
Proof.
  intros Hn. destruct (Z.leb_spec 32 n); [|by rewrite Z.shiftl_mul_pow2].
  replace (2 ^ n) with (2 ^ (n - 32) * 2 ^ 32) by (rewrite <- Z.pow_add_r by lia; f_equal; lia).
  rewrite Z.mul_assoc. apply Z.mod_mul. lia.
Qed.
Lemma lsl_carry x n : 0 < n -> Z.odd (x * 2 ^ n / 2 ^ 32) =
  if 32 <=? n then (if n =? 32 then test x 1 else false) else test (x >> (32 - n)) 1.
Proof.
  intros Hn. rewrite odd_bit, Z.mul_pow2_bits by lia. destruct (Z.leb_spec 32 n).
  - destruct (Z.eqb_spec n 32) as [->|]; [by rewrite test_1_odd, Z.bit0_odd|]. apply Z.testbit_neg_r. lia.
  - by rewrite bit_test by lia.
Qed.
Lemma lsr_carry x n : fits 32 x -> 0 < n -> Z.odd (x / 2 ^ (n - 1)) =
  if 32 <=? n then (if n =? 32 then test (x >> 31) 1 else false) else test (x >> (n - 1)) 1.
Proof.
  intros Hx Hn. rewrite odd_bit by lia. destruct (Z.leb_spec 32 n); [|by rewrite bit_test by lia].
  destruct (Z.eqb_spec n 32) as [->|]; [by rewrite bit_test|]. apply (fits_high 32); [done|lia].
Qed.

(** The signed reading has the bits of the word, and its sign above them. *)
Lemma sgn_bit x i : fits 32 x -> 0 <= i -> Z.testbit (sgn 32 x) i = if i <? 32 then Z.testbit x i else Z.testbit x 31.
Proof.
  intros Hx Hi. pose proof (top_bit 32 ltac:(lia) x Hx) as Ht. change (32 - 1) with 31 in Ht. rewrite Ht.
  rewrite sgn_cases by done. change (32 - 1) with 31. destruct (Z.ltb_spec x (2 ^ 31)) as [Hlt|Hge]; destruct (Z.leb_spec (2 ^ 31) x); try lia.
  - destruct (Z.ltb_spec i 32); [done|]. by apply (fits_high 32).
  - destruct (Z.ltb_spec i 32) as [Hs|Hb].
    + replace (x - 2 ^ 32) with (x + - 2 ^ 32) by lia.
      assert (wrap 32 (x + - 2 ^ 32) = x) as E.
      { rewrite (wrap_cases 32) by (unfold fits in *; lia). unfold fits in *. zcases. }
      rewrite <- E at 2. by rewrite testbit_wrap, (proj2 (Z.ltb_lt i 32)) by lia.
    + rewrite Z.testbit_odd, Z.shiftr_div_pow2 by lia. assert ((x - 2 ^ 32) / 2 ^ i = -1) as ->; [|done].
      assert (2 ^ 32 <= 2 ^ i) by (apply Z.pow_le_mono_r; lia). unfold fits in Hx.
      symmetry. apply (Z.div_unique _ _ (-1) (x - 2 ^ 32 + 2 ^ i)); lia.
Qed.
Lemma asr_value x n : fits 32 x -> 0 <= n -> sgn 32 x / 2 ^ n = if 32 <=? n then sgn 32 x >> 31 else sgn 32 x >> n.
Proof.
  intros Hx Hn. rewrite <- Z.shiftr_div_pow2 by done. destruct (Z.leb_spec 32 n); [|done].
  apply Z.bits_inj'. intros i Hi. rewrite !Z.shiftr_spec, !sgn_bit by (done || lia). destruct (Z.ltb_spec (i + n) 32); [lia|].
  destruct (Z.ltb_spec (i + 31) 32); [|done]. by replace (i + 31) with 31 by lia.
Qed.
Lemma asr_carry x n : fits 32 x -> 0 < n -> Z.odd (sgn 32 x / 2 ^ (n - 1)) =
  if 32 <=? n then test (x >> 31) 1 else test (x >> (n - 1)) 1.
Proof.
  intros Hx Hn. rewrite odd_bit, sgn_bit by (done || lia). destruct (Z.leb_spec 32 n); rewrite bit_test by lia; destruct (Z.ltb_spec (n - 1) 32); try done; [|lia].
  by replace (n - 1) with 31 by lia.
Qed.

Lemma ror_value x m : fits 32 x -> 0 < m < 32 ->
  x / 2 ^ m + x mod 2 ^ m * 2 ^ (32 - m) = (x >> m) .| u32 (x << (32 - m)).
Proof.
  intros Hx Hm. assert (0 <= x) as Hx0 by apply Hx. rewrite Z.lor_comm, Z.shiftr_div_pow2, Z.shiftl_mul_pow2 by lia.
  assert (u32 (x * 2 ^ (32 - m)) = x mod 2 ^ m * 2 ^ (32 - m)) as ->.
  { unfold wrap. assert (2 ^ 32 = 2 ^ m * 2 ^ (32 - m)) as -> by (rewrite <- Z.pow_add_r by lia; f_equal; lia). apply Z.mul_mod_distr_r; lia. }
  rewrite lor_add; [lia|lia|]. unfold fits in Hx. split; [by apply Z.div_pos; lia|]. apply Z.div_lt_upper_bound; [lia|].
  rewrite <- Z.pow_add_r by lia. replace (m + (32 - m)) with 32 by lia. lia.
Qed.
(** The shifts of the code, with the carry as an option: [None] is unchanged. *)
Lemma shift_run k x i env :
  fits 32 x -> 0 <= i -> fits 1 (CF env) ->
  let '(r, c) := Shift_C k x (i mod 256) (negb (CF env =? 0)) in
  shift_cc k x i env = Done (r, env <| CF := bool_Z c |>, []).
Proof.
  intros Hx Hi Hc. assert (0 <= i mod 256 < 256) as Hn by (apply Z.mod_pos_bound; lia).
  assert (env <| CF := bool_Z (negb (CF env =? 0)) |> = env) as Hsame.
  { assert (bool_Z (negb (CF env =? 0)) = CF env) as ->; [|by destruct env].
    unfold fits in Hc. change (2 ^ 1) with 2 in Hc. destruct (Z.eqb_spec (CF env) 0); unfold bool_Z; cbn; lia. }
  unfold Shift_C. destruct (Z.eqb_spec (i mod 256) 0) as [E0|E0].
  { rewrite Hsame. destruct k; unfold shift_cc, shl_cc, shr_cc, sar_cc, ror_cc; by rewrite low_byte, E0. }
  set (n := i mod 256) in *.
  destruct k; unfold shift_cc, shl_cc, shr_cc, sar_cc, ror_cc; rewrite low_byte; fold n.
  - rewrite lsl_value, lsl_carry by lia. destruct (Z.leb_spec 32 n); [done|].
    by destruct (Z.eqb_spec n 0).
  - rewrite lsr_carry by (done || lia). destruct (Z.leb_spec 32 n); [by rewrite big_shift by (done || lia)|].
    rewrite <- (Z.shiftr_div_pow2 x n) by lia. by destruct (Z.eqb_spec n 0).
  - rewrite asr_value, asr_carry by (done || lia). destruct (Z.leb_spec 32 n); [done|].
    by destruct (Z.eqb_spec n 0).
  - assert (n .& 31 = n mod 32) as -> by (change 31 with (2 ^ 5 - 1); by rewrite land_ones).
    assert (0 <= n mod 32 < 32) as Hm by (apply Z.mod_pos_bound; lia). set (m := n mod 32) in *.
    destruct (Z.eqb_spec m 0) as [Em|Em].
    + rewrite odd_bit, bit_test by lia. by destruct (Z.eqb_spec n 0).
    + rewrite ror_value by (done || lia). rewrite odd_bit, !bit_test by lia. unfold set_carry, modify. cbn [bind ret app].
      do 4 f_equal. rewrite Z.lor_spec, Z.shiftr_spec, testbit_wrap, Z.shiftl_spec by lia.
      replace (31 - (32 - m)) with (m - 1) by lia. rewrite (fits_high 32 x (31 + m)) by (done || lia). done.
Qed.

(** C13.  A shift by a register is the architecture's: by the low byte of the
    register, however large, with the carry out the last bit that is shifted out;
    a shift by nothing leaves the carry. *)
Theorem shifts_are_Shift_C k x i env :
  flags_ok env -> fits 32 x -> 0 <= i ->
  let '(r, c) := Shift_C k x (i mod 256) (negb (CF env =? 0)) in
  shift_cc k x i env = Done (r, env <| CF := bool_Z c |>, []) /\
  match k with LSL => shl x i = r | LSR => shr x i = r | ASR => sar x i = r | ROR => True end.
Proof.
  intros Hok Hx Hi. pose proof (shift_run k x i env Hx Hi (ok_cf _ Hok)) as Hrun.
  assert (0 <= i mod 256 < 256) as Hn by (apply Z.mod_pos_bound; lia).
  destruct (Shift_C k x (i mod 256) (negb (CF env =? 0))) as [r c] eqn:Es. split; [exact Hrun|].
  assert (r = if i mod 256 =? 0 then x else (Shift_C k x (i mod 256) true).1) as ->.
  { revert Es. unfold Shift_C. destruct (_ =? 0); [by intros [= <- _]|]. by destruct k; intros [= <- _]. }
  unfold Shift_C, shl, shr, sar. rewrite low_byte. assert (0 <= x) as Hx0 by apply Hx.
  destruct (Z.eqb_spec (i mod 256) 0) as [->|E0]; [destruct k; try done|destruct k; cbn [fst]; try done].
  - by rewrite Z.shiftl_0_r, wrap_fits.
  - change (32 <=? 0) with false. cbv iota. rewrite Z.shiftr_0_r. unfold sgn. rewrite (wrap_fits 32 x) by done.
    destruct (x <? _); [by apply wrap_fits|]. unfold wrap. replace (x - 2 ^ 32) with (x + (-1) * 2 ^ 32) by lia.
    rewrite Z.mod_add by lia. by apply wrap_fits.
  - by rewrite lsl_value by lia.
  - destruct (Z.leb_spec 32 (i mod 256)); [by rewrite big_shift|by rewrite Z.shiftr_div_pow2 by lia].
  - rewrite asr_value by (done || lia). by destruct (32 <=? i mod 256).
Qed.

(** ** Saturation *)

Definition sticky (exact : bool) (env : CPUARMState) : CPUARMState := if exact then env else env <| QF := 1 |>.

Inductive saturating := QADD | QSUB | UQADD | UQSUB | SSAT | USAT.
Definition saturating_helper (k : saturating) : Z -> Z -> cpu Z :=
  match k with
  | QADD => add_saturate | QSUB => sub_saturate | UQADD => add_usaturate | UQSUB => sub_usaturate | SSAT => ssat | USAT => usat
  end.
(** The integer that is to be saturated, and the limits; the second operand of
    the last two is a number of bits. *)
Definition exact_value (k : saturating) (a b : Z) : Z :=
  match k with
  | QADD => sgn 32 a + sgn 32 b | QSUB => sgn 32 a - sgn 32 b | UQADD => a + b | UQSUB => a - b | SSAT | USAT => sgn 32 a
  end.
Definition limits (k : saturating) (b : Z) : Z * Z :=
  match k with
  | QADD | QSUB => (- 2 ^ 31, 2 ^ 31 - 1) | UQADD | UQSUB => (0, 2 ^ 32 - 1)
  | SSAT => (- 2 ^ b, 2 ^ b - 1) | USAT => (0, 2 ^ b - 1)
  end.

Lemma sign_test z : test z SIGNBIT = Z.testbit z 31.
Proof. by apply (test_true_bit z 31). Qed.

Lemma limit_value a : fits 32 a -> limit_of a = if Z.testbit a 31 then 0x80000000 else 0x7fffffff.
Proof.
  intros Ha. pose proof (top_bit 32 ltac:(lia) a Ha) as Ht. change (32 - 1) with 31 in Ht. rewrite Ht.
  unfold limit_of. rewrite sgn_cases by done. change (32 - 1) with 31. rewrite Z.shiftr_div_pow2 by lia. unfold fits in Ha.
  destruct (Z.ltb_spec a (2 ^ 31)), (Z.leb_spec (2 ^ 31) a); try lia.
  - by rewrite Z.div_small by lia.
  - assert ((a - 2 ^ 32) / 2 ^ 31 = -1) as ->; [|done]. symmetry. apply (Z.div_unique _ _ (-1) (a - 2 ^ 31)); lia.
Qed.

Lemma in_limits lo hi z : (lo <=? z) && (z <=? hi) = true -> clamp lo hi z = z.
Proof. intros [H1%Z.leb_le H2%Z.leb_le]%andb_true_iff. unfold clamp. zcases. Qed.

Lemma sgn_range x : fits 32 x -> - 2 ^ 31 <= sgn 32 x < 2 ^ 31.
Proof. intros Hx. rewrite sgn_cases by done. unfold fits in Hx. change (32 - 1) with 31. zcases. Qed.

Lemma ones_word n : 0 <= n < 32 -> u32 (u32 (1 << n) - 1) = 2 ^ n - 1 /\ 0 < 2 ^ n <= 2 ^ 31.
Proof.
  intros Hn. rewrite Z.shiftl_1_l. assert (2 ^ n <= 2 ^ 31) by (apply Z.pow_le_mono_r; lia). assert (0 < 2 ^ n) by lia.
  rewrite (wrap_fits 32 (2 ^ n)) by (unfold fits; lia). split; [|done]. apply wrap_fits. unfold fits. lia.
Qed.

Lemma do_ssat_run v n env : 0 <= n < 32 ->
  do_ssat v n env = Done (u32 (clamp (- 2 ^ n) (2 ^ n - 1) v), sticky ((- 2 ^ n <=? v) && (v <=? 2 ^ n - 1)) env, []).
Proof.
  intros Hn. destruct (ones_word n Hn) as [E Hp]. unfold do_ssat. rewrite E.
  rewrite Z.shiftr_div_pow2 by lia. pose proof (Z.div_mod v (2 ^ n) ltac:(lia)). pose proof (Z.mod_pos_bound v (2 ^ n) ltac:(lia)).
  set (q := v / 2 ^ n) in *. clearbody q. unfold clamp. destruct (Z.ltb_spec 0 q).
  - assert (2 ^ n <= v) by nia. zcases. by rewrite (wrap_fits 32 (2 ^ n - 1)) by (unfold fits; lia).
  - destruct (Z.ltb_spec q (-1)).
    + assert (v < - 2 ^ n) by nia. zcases. unfold Z.lnot. by replace (Z.pred (- (2 ^ n - 1))) with (- 2 ^ n) by lia.
    + assert (- 2 ^ n <= v < 2 ^ n) by nia. zcases. done.
Qed.

Lemma do_usat_run v n env : 0 <= n < 32 -> - 2 ^ 31 <= v < 2 ^ 31 ->
  do_usat v n env = Done (u32 (clamp 0 (2 ^ n - 1) v), sticky ((0 <=? v) && (v <=? 2 ^ n - 1)) env, []).
Proof.
  intros Hn Hv. destruct (ones_word n Hn) as [E Hp]. unfold do_usat. rewrite E. unfold clamp.
  destruct (Z.ltb_spec v 0); [zcases; done|]. rewrite (wrap_fits 32 v) by (unfold fits; lia).
  destruct (Z.ltb_spec (2 ^ n - 1) v); zcases; by rewrite ?wrap_fits by (unfold fits; lia).
Qed.

(** Saturating instructions give the nearest value within their limits, and
    set the sticky flag exactly when the value had to be changed. *)
Theorem saturation_is_clamp k a b env :
  fits 32 a -> fits 32 b -> (k = SSAT \/ k = USAT -> b < 32) ->
  let '(lo, hi) := limits k b in
  let s := exact_value k a b in
  saturating_helper k a b env = Done (u32 (clamp lo hi s), sticky ((lo <=? s) && (s <=? hi)) env, []).
Proof.
  intros Ha Hb Hs. assert (forall s, holds_signed 32 s = ((- 2 ^ 31 <=? s) && (s <=? 2 ^ 31 - 1))) as Hh.
  { intros s. unfold holds_signed. change (32 - 1) with 31. f_equal. zcases. }
  destruct k; cbn [limits exact_value saturating_helper].
  - pose proof (add_saturates 32 ltac:(lia) a b Ha Hb) as E. pose proof (add_overflow 32 ltac:(lia) a b 0 Ha Hb ltac:(lia)) as Ho.
    rewrite !Z.add_0_r in Ho. change (32 - 1) with 31 in *. rewrite <- Hh. unfold clamp_signed in E. change (32 - 1) with 31 in E. rewrite <- E.
    unfold add_saturate. rewrite !sign_test, !Z.lxor_spec, limit_value by done. rewrite Ho.
    by destruct (holds_signed 32 _), (Z.testbit a 31).
  - pose proof (sub_saturates 32 ltac:(lia) a b Ha Hb) as E. pose proof (sub_overflow 32 ltac:(lia) a b 0 Ha Hb ltac:(lia)) as Ho.
    rewrite !Z.sub_0_r in Ho. change (32 - 1) with 31 in *. rewrite <- Hh. unfold clamp_signed in E. change (32 - 1) with 31 in E. rewrite <- E.
    unfold sub_saturate. rewrite !sign_test, !Z.lxor_spec, limit_value by done. rewrite Ho.
    by destruct (holds_signed 32 _), (Z.testbit a 31).
  - unfold add_usaturate, clamp. unfold fits in *. rewrite (wrap_cases 32 (a + b)) by lia.
    destruct (Z.ltb_spec (a + b) 0), (Z.ltb_spec (a + b) (2 ^ 32)), (Z.ltb_spec (2 ^ 32 - 1) (a + b)), (Z.leb_spec 0 (a + b)),
      (Z.leb_spec (a + b) (2 ^ 32 - 1)); try lia; zcases; try done.
    by rewrite wrap_fits by (unfold fits; lia).
  - unfold sub_usaturate, clamp. unfold fits in *. rewrite (wrap_cases 32 (a - b)) by lia.
    destruct (Z.ltb_spec (a - b) 0), (Z.ltb_spec (a - b) (2 ^ 32)), (Z.ltb_spec (2 ^ 32 - 1) (a - b)), (Z.leb_spec 0 (a - b)),
      (Z.leb_spec (a - b) (2 ^ 32 - 1)); try lia; zcases; try done.
    by rewrite wrap_fits by (unfold fits; lia).
  - apply do_ssat_run. unfold fits in Hb. split; [lia|]. by apply Hs; left.
  - apply do_usat_run; [|by apply sgn_range]. unfold fits in Hb. split; [lia|]. by apply Hs; right.
Qed.

(** Doubling, the first step of the instructions that add a doubled value, gives
    the nearest value; the sticky flag is also set for the least value that fits. *)
Theorem double_saturate_run x env :
  fits 32 x ->
  let s := 2 * sgn 32 x in
  double_saturate x env =
    Done (u32 (clamp_signed 32 s), sticky (holds_signed 32 s && negb (s =? - 2 ^ 31)) env, []).
Proof.
  intros Hx s. unfold double_saturate. pose proof (sgn_range x Hx) as Hr. unfold s. set (v := sgn 32 x) in *. clearbody v.
  unfold clamp_signed, clamp, holds_signed. change (sgn 32 0xc0000000) with (- 2 ^ 30). change 0x40000000 with (2 ^ 30).
  change (32 - 1) with 31. rewrite Z.shiftl_mul_pow2, Z.mul_comm by lia. change (2 ^ 1) with 2.
  destruct (Z.leb_spec (2 ^ 30) v), (Z.leb_spec v (- 2 ^ 30)), (Z.ltb_spec (2 * v) (- 2 ^ 31)), (Z.ltb_spec (2 ^ 31 - 1) (2 * v)),
    (Z.leb_spec (- 2 ^ 31) (2 * v)), (Z.ltb_spec (2 * v) (2 ^ 31)), (Z.eqb_spec (2 * v) (- 2 ^ 31)); try lia; try done.
  all: try (by assert (2 * v = - 2 ^ 31) as -> by lia).
Qed.

Lemma add_setq_run a b env : fits 32 a -> fits 32 b ->
  add_setq a b env = Done (u32 (a + b), sticky (holds_signed 32 (sgn 32 a + sgn 32 b)) env, []).
Proof.
  intros Ha Hb. pose proof (add_overflow 32 ltac:(lia) a b 0 Ha Hb ltac:(lia)) as Ho. rewrite !Z.add_0_r in Ho. change (32 - 1) with 31 in *.
  unfold add_setq. rewrite !sign_test, !Z.lxor_spec, Ho. by destruct (holds_signed 32 _).
Qed.

(** ** Parallel addition and subtraction, lane by lane *)

Definition lane (w n x : Z) : Z := x / 2 ^ (w * n) mod 2 ^ w.

Inductive parallel := PQ | PUQ | PS | PU | PSH | PUH.
Definition ops_of (p : parallel) : lane_ops :=
  match p with PQ => q_ops | PUQ => uq_ops | PS => s_ops | PU => u_ops | PSH => sh_ops | PUH => uh_ops end.

(** The sum or difference of two lanes, read as the kind of arithmetic does. *)
Definition lane_sum (p : parallel) (w : Z) (sub : bool) (x y : Z) : Z :=
  let read := match p with PQ | PS | PSH => sgn w | _ => fun z => z end in
  if sub then read x - read y else read x + read y.
Definition lane_value (p : parallel) (w s : Z) : Z :=
  match p with
  | PQ => wrap w (clamp_signed w s)
  | PUQ => clamp_unsigned w s
  | PS | PU => wrap w s
  | PSH | PUH => wrap w (s / 2)
  end.
(** The flag: no borrow, or a carry, or a sum that is not negative. *)
Definition lane_ge (p : parallel) (w : Z) (sub : bool) (s : Z) : bool :=
  match p with PS => 0 <=? s | PU => if sub then 0 <=? s else 2 ^ w <=? s | _ => false end.

Definition op_of (o : lane_ops) (w : Z) (sub : bool) : lane_op :=
  if w =? 16 then (if sub then SUB16 o else ADD16 o) else (if sub then SUB8 o else ADD8 o).

Lemma sgn_wrap_word w z : 0 < w -> sgn w (wrap w z) = sgn w z.
Proof. intros Hw. unfold sgn. by rewrite wrap_wrap by lia. Qed.

Lemma test_top w z : 0 < w -> fits w z -> test z (2 ^ (w - 1)) = Z.testbit z (w - 1).
Proof. intros Hw Hz. rewrite <- Z.shiftl_1_l. apply (test_true_bit z (w - 1)). lia. Qed.

(** The operators of both widths are instances of one text. *)
Definition sat_add (w a b : Z) : Z :=
  let res := wrap w (a + b) in let m := 2 ^ (w - 1) in
  if test (res .^ a) m && negb (test (a .^ b) m) then if test a m then m else m - 1 else res.
Definition sat_sub (w a b : Z) : Z :=
  let res := wrap w (a - b) in let m := 2 ^ (w - 1) in
  if test (res .^ a) m && test (a .^ b) m then if test a m then m else m - 1 else res.
Definition usat_add (w a b : Z) : Z := let res := wrap w (a + b) in if res <? a then 2 ^ w - 1 else res.
Definition usat_sub (w a b : Z) : Z := if b <? a then wrap w (a - b) else 0.

Section Lanes.
Context (w x y : Z) (Hw : 0 < w <= 16) (Hx : fits w x) (Hy : fits w y).

Lemma sat_add_value : sat_add w x y = wrap w (clamp_signed w (sgn w x + sgn w y)).
Proof.
  unfold sat_add. rewrite <- add_saturates by (done || lia).
  rewrite !test_top by (done || lia || (apply fits_lxor; (lia || done || (apply fits_wrap; lia)))). by rewrite !Z.lxor_spec.
Qed.
Lemma sat_sub_value : sat_sub w x y = wrap w (clamp_signed w (sgn w x - sgn w y)).
Proof.
  unfold sat_sub. rewrite <- sub_saturates by (done || lia).
  rewrite !test_top by (done || lia || (apply fits_lxor; (lia || done || (apply fits_wrap; lia)))). by rewrite !Z.lxor_spec.
Qed.
Lemma usat_add_value : usat_add w x y = clamp_unsigned w (x + y).
Proof. unfold usat_add, clamp_unsigned, clamp. unfold fits in *. rewrite wrap_cases by lia. zcases. Qed.
Lemma usat_sub_value : usat_sub w x y = clamp_unsigned w (x - y).
Proof. unfold usat_sub, clamp_unsigned, clamp. unfold fits in *. rewrite wrap_cases by lia. zcases. Qed.

Lemma narrow : 2 ^ w <= 2 ^ 16.
Proof. apply Z.pow_le_mono_r; lia. Qed.

Lemma word_add : u32 (x + y) = x + y.
Proof. pose proof narrow. unfold fits in *. apply wrap_fits. unfold fits. lia. Qed.
Lemma word_add_carry : (u32 (x + y) >> w =? 1) = (2 ^ w <=? x + y).
Proof.
  rewrite word_add, Z.shiftr_div_pow2 by lia. unfold fits in *. destruct (Z.leb_spec (2 ^ w) (x + y)).
  - apply Z.eqb_eq. symmetry. apply (Z.div_unique _ _ 1 (x + y - 2 ^ w)); lia.
  - by rewrite Z.div_small by lia.
Qed.
Lemma word_sub_borrow : (u32 (x - y) >> w =? 0) = (0 <=? x - y).
Proof.
  pose proof narrow. unfold fits in *. rewrite (wrap_cases 32), Z.shiftr_div_pow2 by lia.
  destruct (Z.leb_spec 0 (x - y)); destruct (Z.ltb_spec (x - y) 0); try lia.
  - destruct (Z.ltb_spec (x - y) (2 ^ 32)); [|lia]. by rewrite Z.div_small by lia.
  - apply Z.eqb_neq. intros E. apply Z.div_small_iff in E; lia.
Qed.
Lemma wrap_word z : wrap w (u32 z) = wrap w z.
Proof. apply wrap_wrap. lia. Qed.
Lemma wrap_half z : - 2 ^ 32 <= z < 2 ^ 32 -> wrap w (u32 z >> 1) = wrap w (z / 2).
Proof.
  intros Hz. rewrite (wrap_cases 32), Z.shiftr_div_pow2 by lia. change (2 ^ 1) with 2. destruct (Z.ltb_spec z 0); [|destruct (Z.ltb_spec z (2 ^ 32)); [done|lia]].
  replace (z + 2 ^ 32) with (z + 2 ^ 31 * 2) by lia. rewrite Z.div_add by lia. unfold wrap.
  replace (2 ^ 31) with (2 ^ (31 - w) * 2 ^ w) by (rewrite <- Z.pow_add_r by lia; f_equal; lia). by apply Z.mod_add; lia.
Qed.
End Lanes.

Lemma clamp_fits w z : 0 <= w -> fits w (clamp_unsigned w z).
Proof. intros Hw. unfold clamp_unsigned, clamp, fits. zcases. Qed.

(** A lane operator computes the value of its lane. *)
Lemma lane_operator p w sub a b : w = 16 \/ w = 8 ->
  let s := lane_sum p w sub (wrap w a) (wrap w b) in
  wrap w (op_of (ops_of p) w sub a b).1 = lane_value p w s /\ (op_of (ops_of p) w sub a b).2 = lane_ge p w sub s.
Proof.
  intros Hw s. assert (0 < w <= 16) as Hw0 by lia. unfold s. clear s.
  assert (fits w (wrap w a)) as Ha by (apply fits_wrap; lia). assert (fits w (wrap w b)) as Hb by (apply fits_wrap; lia).
  pose proof (narrow w Hw0) as Hn.
  destruct p, sub; cbn [lane_sum lane_value lane_ge]; rewrite ?sgn_wrap_word by lia.
  all: destruct Hw as [-> | ->]; cbn [op_of ops_of Z.eqb Pos.eqb].
  all: split; [|try reflexivity].
  all: try reflexivity.
  all: try (apply wrap_word; lia).
  all: try (by apply word_sub_borrow). all: try (by apply word_add_carry).
  all: try (by (apply wrap_half; [lia|unfold fits in *; lia])).
  all: try (apply f_equal; by apply Z.shiftr_div_pow2).
  1-4: rewrite <- (sgn_wrap_word _ a), <- (sgn_wrap_word _ b) by lia.
  - change (SUB16 q_ops a b).1 with (sat_sub 16 (u16 a) (u16 b)). by rewrite sat_sub_value, wrap_wrap.
  - change (SUB8 q_ops a b).1 with (sat_sub 8 (u8 a) (u8 b)). by rewrite sat_sub_value, wrap_wrap.
  - change (ADD16 q_ops a b).1 with (sat_add 16 (u16 a) (u16 b)). by rewrite sat_add_value, wrap_wrap.
  - change (ADD8 q_ops a b).1 with (sat_add 8 (u8 a) (u8 b)). by rewrite sat_add_value, wrap_wrap.
  - change (SUB16 uq_ops a b).1 with (usat_sub 16 (u16 a) (u16 b)). rewrite usat_sub_value by done. by apply wrap_fits, clamp_fits.
  - change (SUB8 uq_ops a b).1 with (usat_sub 8 (u8 a) (u8 b)). rewrite usat_sub_value by done. by apply wrap_fits, clamp_fits.
  - change (ADD16 uq_ops a b).1 with (usat_add 16 (u16 a) (u16 b)). rewrite usat_add_value by done. by apply wrap_fits, clamp_fits.
  - change (ADD8 uq_ops a b).1 with (usat_add 8 (u8 a) (u8 b)). rewrite usat_add_value by done. by apply wrap_fits, clamp_fits.
Qed.

Inductive simd := Add16 | Sub16 | Add8 | Sub8 | SubAddX | AddSubX.
Definition simd_helper (op : simd) : lane_ops -> Z -> Z -> Z * Z :=
  match op with
  | Add16 => add16 | Sub16 => sub16 | Add8 => add8 | Sub8 => sub8 | SubAddX => subaddx | AddSubX => addsubx
  end.
Definition lane_width (op : simd) : Z := match op with Add8 | Sub8 => 8 | _ => 16 end.
(** Whether a lane is subtracted, and from which lane its second operand comes. *)
Definition subtracts (op : simd) (n : Z) : bool :=
  match op with Add16 | Add8 => false | Sub16 | Sub8 => true | SubAddX => n =? 1 | AddSubX => n =? 0 end.
Definition other_lane (op : simd) (n : Z) : Z := match op with SubAddX | AddSubX => 1 - n | _ => n end.

Lemma result_first v w : 0 < w <= 16 -> RESULT 0 v 0 w = wrap w v.
Proof.
  intros Hw. unfold RESULT. rewrite Z.lor_0_l, Z.mul_0_l, Z.shiftl_0_r. apply wrap_fits.
  apply (fits_weaken w); [lia|]. apply fits_wrap. lia.
Qed.
Lemma result_next acc v n w : 0 < w -> 0 <= n -> w * (n + 1) <= 32 -> fits (n * w) acc ->
  RESULT acc v n w = acc + wrap w v * 2 ^ (n * w) /\ fits ((n + 1) * w) (acc + wrap w v * 2 ^ (n * w)).
Proof.
  intros Hw Hn Hmax Hacc. unfold RESULT. assert (fits w (wrap w v)) as Hv by (apply fits_wrap; lia).
  rewrite Z.shiftl_mul_pow2 by nia. set (x := wrap w v) in *. clearbody x.
  assert (2 ^ ((n + 1) * w) = 2 ^ w * 2 ^ (n * w)) as Ep by (rewrite <- Z.pow_add_r by nia; f_equal; lia).
  assert (0 < 2 ^ (n * w)) as Hp by (apply Z.pow_pos_nonneg; nia). set (q := 2 ^ (n * w)) in *. unfold fits in *.
  assert (0 <= acc + x * q < 2 ^ w * q) as Hb by nia.
  assert (2 ^ w * q <= 2 ^ 32) as Hle by (rewrite <- Ep; apply Z.pow_le_mono_r; nia).
  rewrite wrap_fits by (unfold fits; nia). split; [|by rewrite Ep].
  rewrite Z.lor_comm. unfold q. rewrite lor_add; [lia|nia|exact Hacc].
Qed.

Lemma pack_halves v0 v1 : RESULT (RESULT 0 v0 0 16) v1 1 16 = u16 v0 + u16 v1 * 2 ^ 16.
Proof. rewrite result_first by lia. by edestruct (result_next (u16 v0) v1 1 16) as [-> _]; [| | |apply (fits_wrap 16)|]. Qed.
Lemma pack_bytes v0 v1 v2 v3 :
  RESULT (RESULT (RESULT (RESULT 0 v0 0 8) v1 1 8) v2 2 8) v3 3 8 = u8 v0 + u8 v1 * 2 ^ 8 + u8 v2 * 2 ^ 16 + u8 v3 * 2 ^ 24.
Proof.
  rewrite result_first by lia.
  edestruct (result_next (u8 v0) v1 1 8) as [-> F1]; [lia|lia|lia|by apply (fits_wrap 8)|].
  edestruct (result_next _ v2 2 8 ltac:(lia) ltac:(lia) ltac:(lia) F1) as [-> F2].
  by edestruct (result_next _ v3 3 8 ltac:(lia) ltac:(lia) ltac:(lia) F2) as [-> _].
Qed.

Lemma lane_shift w n x : 0 <= w * n -> lane w n x = wrap w (x >> (w * n)).
Proof. intros Hn. unfold lane, wrap. by rewrite Z.shiftr_div_pow2. Qed.

(** A word of two halfwords, and of four bytes. *)
Lemma halves_of x0 x1 : fits 16 x0 -> fits 16 x1 -> let r := x0 + x1 * 2 ^ 16 in
  fits 32 r /\ lane 16 0 r = x0 /\ lane 16 1 r = x1.
Proof. unfold fits, lane. cbn. intros H0 H1. split; [lia|]. split; Z.div_mod_to_equations; lia. Qed.
Lemma bytes_of x0 x1 x2 x3 : fits 8 x0 -> fits 8 x1 -> fits 8 x2 -> fits 8 x3 ->
  let r := x0 + x1 * 2 ^ 8 + x2 * 2 ^ 16 + x3 * 2 ^ 24 in
  fits 32 r /\ lane 8 0 r = x0 /\ lane 8 1 r = x1 /\ lane 8 2 r = x2 /\ lane 8 3 r = x3.
Proof. unfold fits, lane. cbn. intros H0 H1 H2 H3. split; [lia|]. split_and!; Z.div_mod_to_equations; lia. Qed.
(** The flags of the lanes so far: [w / 8] equal bits for every lane. *)
Definition lane_bits (w n : Z) (g : bool) : Z := if g then wrap (w / 8) (-1) << (n * (w / 8)) else 0.

Lemma do16_run f a b n acc : do16 f a b n acc = (RESULT acc.1 (f a b).1 n 16, acc.2 .| lane_bits 16 n (f a b).2).
Proof. unfold do16. destruct (f a b) as [v [|]]; cbn [fst snd lane_bits]; [done|]. by rewrite Z.lor_0_r. Qed.
Lemma do8_run f a b n acc : do8 f a b n acc = (RESULT acc.1 (f a b).1 n 8, acc.2 .| lane_bits 8 n (f a b).2).
Proof. unfold do8. destruct (f a b) as [v [|]]; cbn [fst snd lane_bits]; [|by rewrite Z.lor_0_r].
  change (8 / 8) with 1. by rewrite Z.mul_1_r.
Qed.

Lemma lane_of_shift p w sub n m a b : w = 16 \/ w = 8 -> 0 <= n -> 0 <= m ->
  let s := lane_sum p w sub (lane w n a) (lane w m b) in
  let r := op_of (ops_of p) w sub (a >> (w * n)) (b >> (w * m)) in
  wrap w r.1 = lane_value p w s /\ r.2 = lane_ge p w sub s.
Proof. intros Hw Hn Hm s r. unfold s. rewrite !lane_shift by lia. by apply lane_operator. Qed.

Definition lane_spec (p : parallel) (op : simd) (a b n : Z) : Z :=
  lane_sum p (lane_width op) (subtracts op n) (lane (lane_width op) n a) (lane (lane_width op) (other_lane op n) b).

Lemma halves_op p op a b : lane_width op = 16 ->
  let v n := lane_value p 16 (lane_spec p op a b n) in
  let g n := lane_ge p 16 (subtracts op n) (lane_spec p op a b n) in
  simd_helper op (ops_of p) a b = (v 0 + v 1 * 2 ^ 16, lane_bits 16 0 (g 0) .| lane_bits 16 1 (g 1)).
Proof.
  intros Hw v g. unfold v, g, lane_spec. rewrite Hw.
  edestruct (lane_of_shift p 16 (subtracts op 0) 0 (other_lane op 0) a b) as [<- <-]; [by left|done|by destruct op|].
  edestruct (lane_of_shift p 16 (subtracts op 1) 1 (other_lane op 1) a b) as [<- <-]; [by left|done|by destruct op|].
  rewrite <- pack_halves.
  destruct op; try discriminate; cbn [simd_helper subtracts other_lane]; unfold add16, sub16, subaddx, addsubx; rewrite !do16_run; done.
Qed.
Lemma bytes_op p op a b : lane_width op = 8 ->
  let v n := lane_value p 8 (lane_spec p op a b n) in
  let g n := lane_ge p 8 (subtracts op n) (lane_spec p op a b n) in
  simd_helper op (ops_of p) a b = (v 0 + v 1 * 2 ^ 8 + v 2 * 2 ^ 16 + v 3 * 2 ^ 24,
    lane_bits 8 0 (g 0) .| lane_bits 8 1 (g 1) .| lane_bits 8 2 (g 2) .| lane_bits 8 3 (g 3)).
Proof.
  intros Hw v g. unfold v, g, lane_spec. rewrite Hw.
  edestruct (lane_of_shift p 8 (subtracts op 0) 0 (other_lane op 0) a b) as [<- <-]; [by right|done|by destruct op|].
  edestruct (lane_of_shift p 8 (subtracts op 1) 1 (other_lane op 1) a b) as [<- <-]; [by right|done|by destruct op|].
  edestruct (lane_of_shift p 8 (subtracts op 2) 2 (other_lane op 2) a b) as [<- <-]; [by right|done|by destruct op|].
  edestruct (lane_of_shift p 8 (subtracts op 3) 3 (other_lane op 3) a b) as [<- <-]; [by right|done|by destruct op|].
  rewrite <- pack_bytes.
  destruct op; try discriminate; cbn [simd_helper subtracts other_lane]; unfold add8, sub8; rewrite !do8_run; done.
Qed.

Lemma lane_value_fits p w s : 0 <= w -> fits w (lane_value p w s).
Proof. intros Hw. destruct p; cbn [lane_value]; (by apply fits_wrap) || (by apply clamp_fits). Qed.

Lemma half_flags g0 g1 : let ge := lane_bits 16 0 g0 .| lane_bits 16 1 g1 in
  fits 4 ge /\ forall i, 0 <= i < 2 -> Z.testbit ge (0 + i) = g0 /\ Z.testbit ge (2 + i) = g1.
Proof.
  split; [by destruct g0, g1; vm_compute|]. intros i Hi.
  assert (i = 0 \/ i = 1) as [-> | ->] by lia; by destruct g0, g1.
Qed.
Lemma byte_flags g0 g1 g2 g3 : let ge := lane_bits 8 0 g0 .| lane_bits 8 1 g1 .| lane_bits 8 2 g2 .| lane_bits 8 3 g3 in
  fits 4 ge /\ Z.testbit ge 0 = g0 /\ Z.testbit ge 1 = g1 /\ Z.testbit ge 2 = g2 /\ Z.testbit ge 3 = g3.
Proof. split; [by destruct g0, g1, g2, g3; vm_compute|]. by destruct g0, g1, g2, g3. Qed.

(** Parallel addition and subtraction work lane by lane: every lane of the
    result is the saturated, wrapped or halved sum or difference of the lanes of
    the operands, crossed for the mixed forms, and its flags [GE] tell the carry,
    the missing borrow or the sign of that lane alone. *)
Theorem parallel_is_lanewise p op a b :
  let '(r, ge) := simd_helper op (ops_of p) a b in
  let w := lane_width op in
  fits 32 r /\ fits 4 ge /\
  forall n, 0 <= n < 32 / w ->
    let s := lane_sum p w (subtracts op n) (lane w n a) (lane w (other_lane op n) b) in
    lane w n r = lane_value p w s /\
    forall i, 0 <= i < w / 8 -> Z.testbit ge (w / 8 * n + i) = lane_ge p w (subtracts op n) s.
Proof.
  assert (lane_width op = 16 \/ lane_width op = 8) as [Hw|Hw] by (destruct op; auto).
  - rewrite halves_op by done. unfold lane_spec. rewrite Hw.
    edestruct halves_of as (Hr & H0 & H1); [by apply lane_value_fits; lia..|]. edestruct half_flags as (Hg & Hb).
    split; [exact Hr|]. split; [exact Hg|]. intros n Hn. change (32 / 16) with 2 in Hn. cbv zeta.
    assert (n = 0 \/ n = 1) as [-> | ->] by lia; (split; [assumption|]); intros i Hi; by destruct (Hb i Hi).
  - rewrite bytes_op by done. unfold lane_spec. rewrite Hw.
    edestruct bytes_of as (Hr & H0 & H1 & H2 & H3); [by apply lane_value_fits; lia..|]. edestruct byte_flags as (Hg & Hb0 & Hb1 & Hb2 & Hb3).
    split; [exact Hr|]. split; [exact Hg|]. intros n Hn. change (32 / 8) with 4 in Hn. cbv zeta. change (8 / 8) with 1.
    assert (n = 0 \/ n = 1 \/ n = 2 \/ n = 3) as [-> |[-> |[-> | ->]]] by lia; (split; [assumption|]); intros i Hi; assert (i = 0) as -> by lia; assumption.
Qed.

(** ** Single instructions *)

(** The masks of [clz32] select the [n] highest bits. *)
Lemma high_test val n : 0 <= n <= 32 -> fits 32 val ->
  test val (2 ^ 32 - 2 ^ (32 - n)) = (2 ^ (32 - n) <=? val).
Proof.
  intros Hn Hv. unfold test. rewrite high_bits by (done || lia). unfold fits in Hv.
  assert (0 < 2 ^ (32 - n)) by lia. destruct (Z.leb_spec (2 ^ (32 - n)) val) as [Hle|Hlt].
  - apply negb_true_iff, Z.eqb_neq. pose proof (Z.div_le_lower_bound val (2 ^ (32 - n)) 1 ltac:(lia) ltac:(lia)). nia.
  - by rewrite Z.div_small by lia.
Qed.

(** A word shifted to the left until nothing is lost by [n] more places. *)
Definition shifted_out (x n : Z) (s : Z * Z) : Prop :=
  let '(cnt, val) := s in 0 <= cnt /\ val = x * 2 ^ cnt /\ 2 ^ (32 - n) <= val < 2 ^ 32.

Lemma clz_step x n mask s : 0 < n <= 16 -> mask = 2 ^ 32 - 2 ^ (32 - n) -> shifted_out x (2 * n) s ->
  shifted_out x n (drop_zeroes mask n s).
Proof.
  intros Hn ->. unfold drop_zeroes. destruct s as [cnt val]. intros (Hc & -> & Hlo & Hhi).
  rewrite high_test by (unfold fits; lia). destruct (Z.leb_spec (2 ^ (32 - n)) (x * 2 ^ cnt)) as [Hle|Hlt]; cbn [negb].
  - split; [done|]. split; [done|]. lia.
  - rewrite Z.shiftl_mul_pow2 by lia.
    assert (2 ^ (32 - n) * 2 ^ n = 2 ^ 32) as E1 by (rewrite <- Z.pow_add_r by lia; f_equal; lia).
    assert (2 ^ (32 - 2 * n) * 2 ^ n = 2 ^ (32 - n)) as E2 by (rewrite <- Z.pow_add_r by lia; f_equal; lia).
    assert (0 < 2 ^ n) by lia.
    rewrite wrap_fits by (unfold fits; nia). split; [lia|]. split; [rewrite Z.pow_add_r by lia; ring|]. nia.
Qed.

(** The count of leading zeroes. *)
Lemma clz32_value x : fits 32 x -> clz32 x = if x =? 0 then 32 else 31 - Z.log2 x.
Proof.
  intros Hx. destruct (Z.eqb_spec x 0) as [->|Hnz]; [done|]. unfold fits in Hx.
  assert (shifted_out x 32 (0, x)) as H0 by (split; [done|]; split; [lia|]; change (2 ^ (32 - 32)) with 1; lia).
  apply (clz_step x 16 0xffff0000), (clz_step x 8 0xff000000), (clz_step x 4 0xf0000000),
    (clz_step x 2 0xc0000000), (clz_step x 1 0x80000000) in H0; try done; try lia.
  unfold clz32. destruct (drop_zeroes _ 1 _) as [cnt val]. destruct H0 as (Hc & -> & Hlo & Hhi).
  change 0x80000000 with (2 ^ 32 - 2 ^ (32 - 1)). rewrite high_test by (unfold fits; lia).
  destruct (Z.leb_spec (2 ^ (32 - 1)) (x * 2 ^ cnt)); [cbn [negb]|lia].
  pose proof (Z.log2_mul_pow2 x cnt ltac:(lia) Hc) as El.
  pose proof (Z.log2_unique (x * 2 ^ cnt) 31 ltac:(lia) ltac:(split; [done|exact Hhi])). lia.
Qed.

(** Reversal of the bits. *)
Lemma rbit_bit x i : 0 <= i < 32 -> Z.testbit (rbit x) i = Z.testbit x (31 - i).
Proof.
  unfold rbit. cbv zeta. set (y := (_ .| u32 ((x .& 0xff) << 24))).
  set (z := ((y .& 0xf0f0f0f0) >> 4) .| _).
  assert (forall i, 0 <= i < 32 -> Z.testbit y i = Z.testbit x (8 * (3 - i / 8) + i mod 8)) as Hy.
  { unfold y. each_bit. all: bit_eval; reflexivity. }
  assert (forall i, 0 <= i < 32 -> Z.testbit z i = Z.testbit y (4 * (2 * (i / 8) + 1 - i / 4 mod 2) + i mod 4)) as Hz.
  { unfold z. clearbody y. each_bit. all: bit_eval; reflexivity. }
  assert (forall i, 0 <= i < 32 -> Z.testbit z i = Z.testbit x (8 * (3 - i / 8) + 4 * (1 - i / 4 mod 2) + i mod 4)) as Hz'.
  { intros j Hj. rewrite Hz, Hy by (Z.div_mod_to_equations; lia). f_equal. Z.div_mod_to_equations; lia. }
  clear Hy Hz. clearbody z. revert i. each_bit. all: bit_eval; rewrite Hz' by lia; reflexivity.
Qed.

(** The sum of the differences of the bytes. *)
Lemma do_usad_value a b : fits 8 a -> fits 8 b -> do_usad a b = Z.abs (a - b).
Proof. unfold do_usad. unfold fits. intros Ha Hb. destruct (Z.ltb_spec b a); rewrite wrap_fits by (unfold fits; lia); lia. Qed.
Lemma usad8_value a b :
  usad8 a b = Z.abs (lane 8 0 a - lane 8 0 b) + Z.abs (lane 8 1 a - lane 8 1 b) +
    Z.abs (lane 8 2 a - lane 8 2 b) + Z.abs (lane 8 3 a - lane 8 3 b).
Proof.
  assert (forall p q r s, fits 8 p -> fits 8 q -> fits 8 r -> fits 8 s -> u32 (u32 (u32 (p + q) + r) + s) = p + q + r + s) as Hsum.
  { unfold fits. intros p q r s Hp Hq Hr Hs.
    rewrite (wrap_fits 32 (p + q)), (wrap_fits 32 (p + q + r)), (wrap_fits 32 (p + q + r + s)) by (unfold fits; lia). done. }
  assert (forall x y, fits 8 (Z.abs (u8 x - u8 y))) as Hd.
  { intros x y. assert (fits 8 (u8 x)) as Hx by by apply fits_wrap. assert (fits 8 (u8 y)) as Hy by by apply fits_wrap.
    unfold fits in *. lia. }
  unfold usad8. cbv zeta. rewrite !do_usad_value, Hsum by (done || by apply fits_wrap). rewrite !lane_shift by lia.
  change (8 * 0) with 0. by rewrite !Z.shiftr_0_r.
Qed.

(** Selection of bytes by the flags of a parallel operation. *)
Lemma sel_flags_bit flags a b i : 0 <= i < 32 ->
  Z.testbit (sel_flags flags a b) i = if Z.testbit flags (i / 8) then Z.testbit a i else Z.testbit b i.
Proof.
  unfold sel_flags. cbv zeta.
  change (test flags 1) with (test flags (bit 0)). change (test flags 2) with (test flags (bit 1)).
  change (test flags 4) with (test flags (bit 2)). change (test flags 8) with (test flags (bit 3)).
  rewrite !test_true_bit by lia. revert i.
  destruct (Z.testbit flags 0) eqn:E0, (Z.testbit flags 1) eqn:E1, (Z.testbit flags 2) eqn:E2, (Z.testbit flags 3) eqn:E3; each_bit.
  all: match goal with |- context [?n / 8] => let v := eval vm_compute in (n / 8) in change (n / 8) with v end.
  all: rewrite ?E0, ?E1, ?E2, ?E3; bit_eval; reflexivity.
Qed.

(** A word with the sign and the zero of a double word. *)
Lemma logicq_cc_flags v : fits 64 v ->
  fits 32 (logicq_cc v) /\ Z.testbit (logicq_cc v) 31 = Z.testbit v 63 /\ (logicq_cc v = 0 <-> v = 0).
Proof.
  intros Hv. unfold logicq_cc. split; [by apply fits_wrap|].
  assert (fits 32 (v >> 32)) as Hs by (unfold fits in *; rewrite Z.shiftr_div_pow2 by lia; Z.div_mod_to_equations; lia).
  rewrite (wrap_fits 32 (v >> 32)) by done.
  rewrite wrap_fits by (apply fits_lor; [lia|done|]; by destruct (v =? 0)).
  split; [|].
  - rewrite Z.lor_spec, Z.shiftr_spec by lia. change (31 + 32) with 63. destruct (v =? 0); cbn; by rewrite orb_false_r.
  - rewrite Z.lor_eq_0_iff. split; [|by intros ->]. intros [_ H]. by destruct (Z.eqb_spec v 0).
Qed.

(** Division truncates; division by zero gives zero, and the quotient that does
    not fit wraps around. *)
Lemma sdiv_value a b : - 2 ^ 31 <= a < 2 ^ 31 -> - 2 ^ 31 <= b < 2 ^ 31 ->
  - 2 ^ 31 <= sdiv a b < 2 ^ 31 /\ u32 (sdiv a b) = if b =? 0 then 0 else u32 (Z.quot a b).
Proof.
  intros Ha Hb. unfold sdiv, INT_MIN. destruct (Z.eqb_spec b 0) as [->|Hnz]; [done|].
  destruct (Z.eqb_spec a (- 2 ^ 31)) as [->|]; cbn [andb].
  - destruct (Z.eqb_spec b (-1)) as [->|]; [done|]. split; [|done].
    pose proof (Z.quot_rem (- 2 ^ 31) b Hnz). pose proof (Z.rem_bound_abs (- 2 ^ 31) b Hnz). pose proof (Z.rem_sign_nz (- 2 ^ 31) b Hnz).
    assert (2 <= b \/ b <= -2 \/ b = 1) as [?|[?| ->]] by lia; [nia|nia|done].
  - split; [|done]. pose proof (Z.quot_rem a b Hnz). pose proof (Z.rem_bound_abs a b Hnz).
    assert (Z.abs (Z.quot a b) <= Z.abs a) by (rewrite <- Z.quot_abs by done; rewrite Z.quot_div_nonneg by lia; apply Z.div_le_upper_bound; nia). lia.
Qed.

(** Extension of two bytes to halfwords. *)
Lemma high_half v : u32 (v << 16) = u16 v * 2 ^ 16.
Proof.
  rewrite Z.shiftl_mul_pow2 by lia. unfold wrap. change (2 ^ 32) with (2 ^ 16 * 2 ^ 16). by apply Z.mul_mod_distr_r.
Qed.
Lemma extend_halves v0 v1 : let r := u16 v0 .| u32 (v1 << 16) in fits 32 r /\ lane 16 0 r = u16 v0 /\ lane 16 1 r = u16 v1.
Proof.
  assert (fits 16 (u16 v0)) as H0 by by apply fits_wrap. assert (fits 16 (u16 v1)) as H1 by by apply fits_wrap.
  rewrite high_half, Z.lor_comm, lor_add, Z.add_comm by (done || lia). by apply halves_of.
Qed.
Lemma sgn_lane n x : 0 <= n -> sgn 8 (x >> (8 * n)) = sgn 8 (lane 8 n x).
Proof. intros Hn. rewrite lane_shift by lia. by rewrite sgn_wrap_word. Qed.
Lemma sxtb16_halves x : fits 32 (sxtb16 x) /\
  lane 16 0 (sxtb16 x) = u16 (sgn 8 (lane 8 0 x)) /\ lane 16 1 (sxtb16 x) = u16 (sgn 8 (lane 8 2 x)).
Proof. unfold sxtb16. rewrite <- !sgn_lane by lia. apply extend_halves. Qed.
Lemma uxtb16_halves x : fits 32 (uxtb16 x) /\ lane 16 0 (uxtb16 x) = lane 8 0 x /\ lane 16 1 (uxtb16 x) = lane 8 2 x.
Proof.
  unfold uxtb16. destruct (extend_halves (u8 x) (u8 (x >> 16))) as (Hf & -> & ->). split; [done|].
  rewrite !lane_shift by lia. change (8 * 0) with 0. rewrite Z.shiftr_0_r.
  by split; apply wrap_fits, (fits_weaken 8), fits_wrap.
Qed.

(** Saturation of both halfwords; the flag is set when either does not fit. *)
Lemma sat16_run (f : Z -> cpu Z) lo hi x env :
  (forall v env, - 2 ^ 31 <= v < 2 ^ 31 -> f v env = Done (u32 (clamp lo hi v), sticky ((lo <=? v) && (v <=? hi)) env, [])) ->
  fits 32 x ->
  let v0 := sgn 16 (lane 16 0 x) in let v1 := sgn 16 (lane 16 1 x) in
  exists r, (l <- f (sgn 16 x) ;; h <- f (sgn 32 x >> 16) ;; ret (u16 l .| u32 (h << 16))) env =
    Done (r, sticky ((lo <=? v1) && (v1 <=? hi)) (sticky ((lo <=? v0) && (v0 <=? hi)) env), []) /\
    fits 32 r /\ lane 16 0 r = u16 (clamp lo hi v0) /\ lane 16 1 r = u16 (clamp lo hi v1).
Proof.
  intros Hf Hx v0 v1.
  assert (sgn 16 x = v0) as -> by (unfold v0; rewrite lane_shift, sgn_wrap_word by lia; done).
  assert (sgn 32 x >> 16 = v1) as ->.
  { unfold v1. rewrite lane_shift, sgn_wrap_word by lia. change (16 * 1) with 16. rewrite !Z.shiftr_div_pow2 by lia.
    unfold sgn. rewrite (wrap_fits 32 x) by done. unfold fits in Hx. unfold wrap. change (2 ^ (32 - 1)) with 0x80000000. change (2 ^ (16 - 1)) with 0x8000.
    change (2 ^ 32) with 0x100000000 in *. change (2 ^ 16) with 0x10000.
    destruct (Z.ltb_spec x 0x80000000), (Z.ltb_spec (x / 0x10000 mod 0x10000) 0x8000); Z.div_mod_to_equations; lia. }
  assert (forall n z, n = 16 -> - 2 ^ 31 <= sgn n z < 2 ^ 31) as Hr.
  { intros n z ->. unfold sgn. assert (fits 16 (u16 z)) as Hz by by apply fits_wrap. unfold fits in Hz. zcases. }
  exists (u16 (u32 (clamp lo hi v0)) .| u32 (u32 (clamp lo hi v1) << 16)). unfold bind. rewrite !Hf by (by apply Hr).
  split; [done|]. destruct (extend_halves (u32 (clamp lo hi v0)) (u32 (clamp lo hi v1))) as (H0 & H1 & H2).
  split; [done|]. rewrite H1, H2. by split; apply wrap_wrap.
Qed.
Lemma ssat16_run x n env : 0 <= n < 16 -> fits 32 x ->
  let v0 := sgn 16 (lane 16 0 x) in let v1 := sgn 16 (lane 16 1 x) in
  let ok v := (- 2 ^ n <=? v) && (v <=? 2 ^ n - 1) in
  exists r, ssat16 x n env = Done (r, sticky (ok v1) (sticky (ok v0) env), []) /\
    fits 32 r /\ lane 16 0 r = u16 (clamp (- 2 ^ n) (2 ^ n - 1) v0) /\ lane 16 1 r = u16 (clamp (- 2 ^ n) (2 ^ n - 1) v1).
Proof. intros Hn Hx. apply (sat16_run (fun v => do_ssat v n)); [|done]. intros v e _. apply do_ssat_run. lia. Qed.
Lemma usat16_run x n env : 0 <= n < 16 -> fits 32 x ->
  let v0 := sgn 16 (lane 16 0 x) in let v1 := sgn 16 (lane 16 1 x) in
  let ok v := (0 <=? v) && (v <=? 2 ^ n - 1) in
  exists r, usat16 x n env = Done (r, sticky (ok v1) (sticky (ok v0) env), []) /\
    fits 32 r /\ lane 16 0 r = u16 (clamp 0 (2 ^ n - 1) v0) /\ lane 16 1 r = u16 (clamp 0 (2 ^ n - 1) v1).
Proof. intros Hn Hx. apply (sat16_run (fun v => do_usat v n)); [|done]. intros v e Hv. apply do_usat_run; [lia|done]. Qed.

(** ** The hypotheses can hold *)

Module AluDemo.
Import ArmDemo.

(** The carry is set: 1 - 2 - 0 is -1, negative, with a borrow. *)
Definition env1 : CPUARMState := env0 <| CF := 1 |>.
Lemma env1_flags : flags_ok env1.
Proof. split; by vm_compute. Qed.

Lemma arith_witness :
  exists env', sbc_cc 1 2 env1 = Done (0xffffffff, env', []) /\
    cpsr_read env' = (cpsr_read env1 .&~ CPSR_NZCV) .| CPSR_N.
Proof.
  destruct (arith_is_AddWithCarry Sbc 1 2 env1) as (env' & E & _ & _ & Hr); [exact env1_flags|by vm_compute..|].
  exists env'. split; [exact E|exact Hr].
Defined.

(** By 33 places: nothing is left, and the carry is clear; by 32 it is the last bit. *)
Lemma shift_witness :
  shl_cc 0xffffffff 33 env1 = Done (0, env1 <| CF := 0 |>, []) /\
  shl_cc 0xffffffff 32 env1 = Done (0, env1 <| CF := 1 |>, []) /\
  sar_cc 0x80000000 0x1ff env1 = Done (0xffffffff, env1 <| CF := 1 |>, []).
Proof.
  split; [|split].
  - by apply (shifts_are_Shift_C LSL 0xffffffff 33 env1); [exact env1_flags|by vm_compute|].
  - by apply (shifts_are_Shift_C LSL 0xffffffff 32 env1); [exact env1_flags|by vm_compute|].
  - by apply (shifts_are_Shift_C ASR 0x80000000 0x1ff env1); [exact env1_flags|by vm_compute|].
Defined.

Lemma saturation_witness :
  add_saturate 0x7fffffff 1 env1 = Done (0x7fffffff, env1 <| QF := 1 |>, []) /\
  usat 0xfffffffe 5 env1 = Done (0, env1 <| QF := 1 |>, []) /\
  ssat 0xfffffffe 5 env1 = Done (0xfffffffe, env1, []).
Proof.
  split; [|split].
  - apply (saturation_is_clamp QADD 0x7fffffff 1 env1); [by vm_compute..|]. by intros [?|?].
  - apply (saturation_is_clamp USAT 0xfffffffe 5 env1); [by vm_compute..|]. done.
  - apply (saturation_is_clamp SSAT 0xfffffffe 5 env1); [by vm_compute..|]. done.
Defined.
End AluDemo.
