(* ===== verification/ArmNeon.v ===== *)
(** * ArmNeon: integer vector instructions ([target-arm/neon_helper.c])

    A register of a vector is worked on 32 bits at a time, as four bytes, two
    halfwords or a word, and 64-bit elements one by one.  A macro of the code
    unpacks the elements, applies one text ([NEON_FN]) to each and packs the
    results; the elements of 32 and 64 bits have functions of their own where the
    text would overflow.

    The reference computes with unbounded integers: the exact result of every
    element, clamped to its type where the instruction saturates, and cut to its
    width otherwise.  Where the C code overflows a signed integer, the model is
    [Undef]; the theorems say exactly when. *)
From stdpp Require Import list.
From S2P Require Import Prelude Words ArmCpu ArmAlu.

Inductive vtype := S8 | U8 | S16 | U16 | S32 | U32 | S64 | U64.
#[export] Instance vtype_dec : EqDecision vtype.
Proof. solve_decision. Defined.
Definition size (t : vtype) : Z :=
  match t with S8 | U8 => 8 | S16 | U16 => 16 | S32 | U32 => 32 | S64 | U64 => 64 end.
Definition signed (t : vtype) : bool := match t with S8 | S16 | S32 | S64 => true | _ => false end.

(** The conversion of an integer to a type. *)
Definition conv (t : vtype) (x : Z) : Z := if signed t then sgn (size t) x else wrap (size t) x.

(** [int] arithmetic, which must not overflow. *)
Definition int_result (z : Z) : cpu Z := if (- 2 ^ 31 <=? z) && (z <? 2 ^ 31) then ret z else undef.

Definition SIGNBIT64 := 1 << 63.

(** [SET_QC]: an assignment to the whole status register. *)
Definition set_qc : cpu unit :=
  modify (fun s => s <| vfp ::= fun v => v <| xregs ::= <[Z.to_nat ARM_VFP_FPSCR := CPSR_Q]> |> |>).

(** ** Vectors of elements *)

(** [NEON_UNPACK] and [NEON_PACK], on a little-endian host. *)
Definition elem (t : vtype) (x n : Z) : Z := conv t (x >> (size t * n)).
Fixpoint pack (w : Z) (l : list Z) : Z :=
  match l with
  | [] => 0
  | x :: r => wrap w x .| (pack w r << w)
  end.
Definition elems (t : vtype) : list Z := seqZ 0 (32 / size t).

(** [NEON_DO1], [NEON_DO2], [NEON_DO4]: the assignments to the destination. *)
Fixpoint do_lanes (f : Z -> cpu Z) (l : list Z) : cpu (list Z) :=
  match l with
  | [] => ret []
  | n :: l' => d <- f n ;; ds <- do_lanes f l' ;; ret (d :: ds)
  end.
Definition NEON_VOP (t : vtype) (fn : Z -> Z -> cpu Z) (arg1 arg2 : Z) : cpu Z :=
  ds <- do_lanes (fun n => fn (elem t arg1 n) (elem t arg2 n)) (elems t) ;; ret (pack (size t) ds).
Definition NEON_VOP1 (t : vtype) (fn : Z -> cpu Z) (arg : Z) : cpu Z :=
  ds <- do_lanes (fun n => fn (elem t arg n)) (elems t) ;; ret (pack (size t) ds).
(** [NEON_PDO2], [NEON_PDO4]: the pairs of the first operand, then of the second. *)
Definition NEON_POP (t : vtype) (fn : Z -> Z -> cpu Z) (arg1 arg2 : Z) : cpu Z :=
  let half := 32 / size t / 2 in
  let pair n := if n <? half then fn (elem t arg1 (2 * n)) (elem t arg1 (2 * n + 1))
                else fn (elem t arg2 (2 * (n - half))) (elem t arg2 (2 * (n - half) + 1)) in
  ds <- do_lanes pair (elems t) ;; ret (pack (size t) ds).

(** ** Saturating addition and subtraction *)

(** [NEON_USAT] and [NEON_SSAT], for addition and for subtraction. *)
Definition usat_fn (op : Z -> Z -> Z) (over : Z) (t : vtype) (src1 src2 : Z) : cpu Z :=
  let tmp := u32 (op src1 src2) in
  if negb (tmp =? conv t tmp) then set_qc ;;; ret over else ret tmp.
Definition ssat_fn (op : Z -> Z -> Z) (up : Z -> bool) (t : vtype) (src1 src2 : Z) : cpu Z :=
  let tmp := sgn 32 (op src1 src2) in
  if negb (tmp =? conv t tmp) then
    set_qc ;;; ret (if up src2 then (1 << (size t - 1)) - 1 else 1 << (size t - 1))
  else ret tmp.
Definition neon_qadd_u8 := NEON_VOP U8 (usat_fn Z.add (-1) U8).
Definition neon_qadd_u16 := NEON_VOP U16 (usat_fn Z.add (-1) U16).
Definition neon_qadd_s8 := NEON_VOP S8 (ssat_fn Z.add (fun y => 0 <? y) S8).
Definition neon_qadd_s16 := NEON_VOP S16 (ssat_fn Z.add (fun y => 0 <? y) S16).
Definition neon_qsub_u8 := NEON_VOP U8 (usat_fn Z.sub 0 U8).
Definition neon_qsub_u16 := NEON_VOP U16 (usat_fn Z.sub 0 U16).
Definition neon_qsub_s8 := NEON_VOP S8 (ssat_fn Z.sub (fun y => y <? 0) S8).
Definition neon_qsub_s16 := NEON_VOP S16 (ssat_fn Z.sub (fun y => y <? 0) S16).

Definition neon_qadd_u32 (a b : Z) : cpu Z :=
  let res := u32 (a + b) in if res <? a then set_qc ;;; ret (u32 (Z.lnot 0)) else ret res.
Definition neon_qadd_u64 (src1 src2 : Z) : cpu Z :=
  let res := u64 (src1 + src2) in if res <? src1 then set_qc ;;; ret (u64 (Z.lnot 0)) else ret res.
Definition neon_qadd_s32 (a b : Z) : cpu Z :=
  let res := u32 (a + b) in
  if test (res .^ a) SIGNBIT && negb (test (a .^ b) SIGNBIT) then
    set_qc ;;; ret (u32 (Z.lnot (u32 (sgn 32 a >> 31) .^ SIGNBIT)))
  else ret res.
Definition neon_qadd_s64 (src1 src2 : Z) : cpu Z :=
  let res := u64 (src1 + src2) in
  if test (res .^ src1) SIGNBIT64 && negb (test (src1 .^ src2) SIGNBIT64) then
    set_qc ;;; ret (u64 (sgn 64 src1 >> 63) .^ u64 (Z.lnot SIGNBIT64))
  else ret res.
Definition neon_qsub_u32 (a b : Z) : cpu Z :=
  let res := u32 (a - b) in if a <? res then set_qc ;;; ret 0 else ret res.
Definition neon_qsub_u64 (src1 src2 : Z) : cpu Z :=
  if src1 <? src2 then set_qc ;;; ret 0 else ret (u64 (src1 - src2)).
Definition neon_qsub_s32 (a b : Z) : cpu Z :=
  let res := u32 (a - b) in
  if test (res .^ a) SIGNBIT && test (a .^ b) SIGNBIT then
    set_qc ;;; ret (u32 (Z.lnot (u32 (sgn 32 a >> 31) .^ SIGNBIT)))
  else ret res.
Definition neon_qsub_s64 (src1 src2 : Z) : cpu Z :=
  let res := u64 (src1 - src2) in
  if test (res .^ src1) SIGNBIT64 && test (src1 .^ src2) SIGNBIT64 then
    set_qc ;;; ret (u64 (sgn 64 src1 >> 63) .^ u64 (Z.lnot SIGNBIT64))
  else ret res.

(** ** Halving *)

Definition hadd_fn (src1 src2 : Z) : cpu Z := ret ((src1 + src2) >> 1).
Definition rhadd_fn (src1 src2 : Z) : cpu Z := ret ((src1 + src2 + 1) >> 1).
Definition hsub_fn (src1 src2 : Z) : cpu Z := ret ((src1 - src2) >> 1).
Definition neon_hadd_s8 := NEON_VOP S8 hadd_fn.
Definition neon_hadd_u8 := NEON_VOP U8 hadd_fn.
Definition neon_hadd_s16 := NEON_VOP S16 hadd_fn.
Definition neon_hadd_u16 := NEON_VOP U16 hadd_fn.
Definition neon_rhadd_s8 := NEON_VOP S8 rhadd_fn.
Definition neon_rhadd_u8 := NEON_VOP U8 rhadd_fn.
Definition neon_rhadd_s16 := NEON_VOP S16 rhadd_fn.
Definition neon_rhadd_u16 := NEON_VOP U16 rhadd_fn.
Definition neon_hsub_s8 := NEON_VOP S8 hsub_fn.
Definition neon_hsub_u8 := NEON_VOP U8 hsub_fn.
Definition neon_hsub_s16 := NEON_VOP S16 hsub_fn.
Definition neon_hsub_u16 := NEON_VOP U16 hsub_fn.

(** Operands are registers; [src1] and [src2] of the signed functions are [int32_t]. *)
Definition neon_hadd_s32 (a b : Z) : cpu Z :=
  let src1 := sgn 32 a in let src2 := sgn 32 b in
  dest <- int_result ((src1 >> 1) + (src2 >> 1)) ;;
  dest <- (if test (src1 .& src2) 1 then int_result (dest + 1) else ret dest) ;; ret (u32 dest).
Definition neon_hadd_u32 (src1 src2 : Z) : cpu Z :=
  let dest := u32 ((src1 >> 1) + (src2 >> 1)) in
  ret (if test (src1 .& src2) 1 then u32 (dest + 1) else dest).
Definition neon_rhadd_s32 (a b : Z) : cpu Z :=
  let src1 := sgn 32 a in let src2 := sgn 32 b in
  dest <- int_result ((src1 >> 1) + (src2 >> 1)) ;;
  dest <- (if test (src1 .| src2) 1 then int_result (dest + 1) else ret dest) ;; ret (u32 dest).
Definition neon_rhadd_u32 (src1 src2 : Z) : cpu Z :=
  let dest := u32 ((src1 >> 1) + (src2 >> 1)) in
  ret (if test (src1 .| src2) 1 then u32 (dest + 1) else dest).
Definition neon_hsub_s32 (a b : Z) : cpu Z :=
  let src1 := sgn 32 a in let src2 := sgn 32 b in
  dest <- int_result ((src1 >> 1) - (src2 >> 1)) ;;
  dest <- (if test (Z.lnot src1 .& src2) 1 then int_result (dest - 1) else ret dest) ;; ret (u32 dest).
Definition neon_hsub_u32 (src1 src2 : Z) : cpu Z :=
  let dest := u32 ((src1 >> 1) - (src2 >> 1)) in
  ret (if test (Z.lnot src1 .& src2) 1 then u32 (dest - 1) else dest).

(** ** Comparisons, minimum, maximum, absolute difference *)

(** [~0] as an [int]. *)
Definition mask_of (b : bool) : Z := if b then -1 else 0.
Definition cgt_fn (src1 src2 : Z) : cpu Z := ret (mask_of (src2 <? src1)).
Definition cge_fn (src1 src2 : Z) : cpu Z := ret (mask_of (src2 <=? src1)).
Definition tst_fn (src1 src2 : Z) : cpu Z := ret (mask_of (test src1 src2)).
Definition ceq_fn (src1 src2 : Z) : cpu Z := ret (mask_of (src1 =? src2)).
Definition min_fn (src1 src2 : Z) : cpu Z := ret (if src1 <? src2 then src1 else src2).
Definition max_fn (src1 src2 : Z) : cpu Z := ret (if src2 <? src1 then src1 else src2).
(** Smaller elements are subtracted as [int], too; those of [uint32_t] cannot overflow. *)
Definition abd_fn (t : vtype) (src1 src2 : Z) : cpu Z :=
  let d := if src2 <? src1 then src1 - src2 else src2 - src1 in
  match t with U32 => ret d | _ => int_result d end.
Definition neon_cgt_s8 := NEON_VOP S8 cgt_fn.
Definition neon_cgt_u8 := NEON_VOP U8 cgt_fn.
Definition neon_cgt_s16 := NEON_VOP S16 cgt_fn.
Definition neon_cgt_u16 := NEON_VOP U16 cgt_fn.
Definition neon_cgt_s32 := NEON_VOP S32 cgt_fn.
Definition neon_cgt_u32 := NEON_VOP U32 cgt_fn.
Definition neon_cge_s8 := NEON_VOP S8 cge_fn.
Definition neon_cge_u8 := NEON_VOP U8 cge_fn.
Definition neon_cge_s16 := NEON_VOP S16 cge_fn.
Definition neon_cge_u16 := NEON_VOP U16 cge_fn.
Definition neon_cge_s32 := NEON_VOP S32 cge_fn.
Definition neon_cge_u32 := NEON_VOP U32 cge_fn.
Definition neon_min_s8 := NEON_VOP S8 min_fn.
Definition neon_min_u8 := NEON_VOP U8 min_fn.
Definition neon_min_s16 := NEON_VOP S16 min_fn.
Definition neon_min_u16 := NEON_VOP U16 min_fn.
Definition neon_min_s32 := NEON_VOP S32 min_fn.
Definition neon_min_u32 := NEON_VOP U32 min_fn.
Definition neon_max_s8 := NEON_VOP S8 max_fn.
Definition neon_max_u8 := NEON_VOP U8 max_fn.
Definition neon_max_s16 := NEON_VOP S16 max_fn.
Definition neon_max_u16 := NEON_VOP U16 max_fn.
Definition neon_max_s32 := NEON_VOP S32 max_fn.
Definition neon_max_u32 := NEON_VOP U32 max_fn.
Definition neon_pmin_s8 := NEON_POP S8 min_fn.
Definition neon_pmin_u8 := NEON_POP U8 min_fn.
Definition neon_pmin_s16 := NEON_POP S16 min_fn.
Definition neon_pmin_u16 := NEON_POP U16 min_fn.
Definition neon_pmax_s8 := NEON_POP S8 max_fn.
Definition neon_pmax_u8 := NEON_POP U8 max_fn.
Definition neon_pmax_s16 := NEON_POP S16 max_fn.
Definition neon_pmax_u16 := NEON_POP U16 max_fn.
Definition neon_abd_s8 := NEON_VOP S8 (abd_fn S8).
Definition neon_abd_u8 := NEON_VOP U8 (abd_fn U8).
Definition neon_abd_s16 := NEON_VOP S16 (abd_fn S16).
Definition neon_abd_u16 := NEON_VOP U16 (abd_fn U16).
Definition neon_abd_s32 := NEON_VOP S32 (abd_fn S32).
Definition neon_abd_u32 := NEON_VOP U32 (abd_fn U32).
Definition neon_tst_u8 := NEON_VOP U8 tst_fn.
Definition neon_tst_u16 := NEON_VOP U16 tst_fn.
Definition neon_tst_u32 := NEON_VOP U32 tst_fn.
Definition neon_ceq_u8 := NEON_VOP U8 ceq_fn.
Definition neon_ceq_u16 := NEON_VOP U16 ceq_fn.
Definition neon_ceq_u32 := NEON_VOP U32 ceq_fn.

(** ** Addition, subtraction, multiplication *)

(** The top bits of the elements are added apart, so that no carry leaves an element. *)
Definition neon_add_u8 (a b : Z) : cpu Z :=
  let mask := (a .^ b) .& 0x80808080 in
  ret (u32 ((a .& u32 (Z.lnot 0x80808080)) + (b .& u32 (Z.lnot 0x80808080))) .^ mask).
Definition neon_add_u16 (a b : Z) : cpu Z :=
  let mask := (a .^ b) .& 0x80008000 in
  ret (u32 ((a .& u32 (Z.lnot 0x80008000)) + (b .& u32 (Z.lnot 0x80008000))) .^ mask).
Definition add_fn (src1 src2 : Z) : cpu Z := ret (src1 + src2).
Definition sub_fn (src1 src2 : Z) : cpu Z := ret (src1 - src2).
(** Elements are promoted to [int]. *)
Definition mul_fn (src1 src2 : Z) : cpu Z := int_result (src1 * src2).
Definition neon_padd_u8 := NEON_POP U8 add_fn.
Definition neon_padd_u16 := NEON_POP U16 add_fn.
Definition neon_sub_u8 := NEON_VOP U8 sub_fn.
Definition neon_sub_u16 := NEON_VOP U16 sub_fn.
Definition neon_mul_u8 := NEON_VOP U8 mul_fn.
Definition neon_mul_u16 := NEON_VOP U16 mul_fn.

(** ** Shifts by a signed number of bits *)

Section Shifts.
Context (t : vtype).
Abbreviation w := (size t).

Definition shl_u_fn (src1 src2 : Z) : cpu Z :=
  let tmp := sgn 8 src2 in
  if (w <=? tmp) || (tmp <=? - w) then ret 0
  else if tmp <? 0 then ret (src1 >> (- tmp)) else ret (src1 << tmp).
Definition shl_s_fn (src1 src2 : Z) : cpu Z :=
  let tmp := sgn 8 src2 in
  if w <=? tmp then ret 0 else if tmp <=? - w then ret (src1 >> (w - 1))
  else if tmp <? 0 then ret (src1 >> (- tmp)) else ret (src1 << tmp).
Definition rshl_s_fn (src1 src2 : Z) : cpu Z :=
  let tmp := sgn 8 src2 in
  if (w <=? tmp) || (tmp <=? - w) then ret 0
  else if tmp <? 0 then ret ((src1 + (1 << (-1 - tmp))) >> (- tmp)) else ret (src1 << tmp).
Definition rshl_u_fn (src1 src2 : Z) : cpu Z :=
  let tmp := sgn 8 src2 in
  if (w <=? tmp) || (tmp <? - w) then ret 0 else if tmp =? - w then ret (src1 >> (- tmp - 1))
  else if tmp <? 0 then ret ((src1 + (1 << (-1 - tmp))) >> (- tmp)) else ret (src1 << tmp).

(** Left shifts that saturate: unsigned, and signed, where the limit is stored,
    and reduced by one ([dest--]) for a positive element. *)
Definition saturate_u : cpu Z := set_qc ;;; ret (-1).
Definition saturate_s (src1 : Z) : cpu Z :=
  set_qc ;;;
  let dest := conv t (1 << (w - 1)) in
  if 0 <? src1 then int_result (dest - 1) else ret dest.
Definition left_u (src1 tmp : Z) : cpu Z :=
  let dest := conv t (src1 << tmp) in
  if negb (dest >> tmp =? src1) then saturate_u else ret dest.
Definition left_s (src1 tmp : Z) : cpu Z :=
  let dest := conv t (src1 << tmp) in
  if negb (dest >> tmp =? src1) then saturate_s src1 else ret dest.

Definition qshl_u_fn (src1 src2 : Z) : cpu Z :=
  let tmp := sgn 8 src2 in
  if w <=? tmp then if negb (src1 =? 0) then saturate_u else ret 0
  else if tmp <=? - w then ret 0
  else if tmp <? 0 then ret (src1 >> (- tmp)) else left_u src1 tmp.
Definition qshl_s_fn (src1 src2 : Z) : cpu Z :=
  let tmp := sgn 8 src2 in
  if w <=? tmp then if negb (src1 =? 0) then saturate_s src1 else ret src1
  else if tmp <=? - w then ret (src1 >> 31)
  else if tmp <? 0 then ret (src1 >> (- tmp)) else left_s src1 tmp.
Definition qshlu_fn (src1 src2 : Z) : cpu Z :=
  if test src1 (1 << (w - 1)) then set_qc ;;; ret 0 else qshl_u_fn src1 src2.
Definition qrshl_u_fn (src1 src2 : Z) : cpu Z :=
  let tmp := sgn 8 src2 in
  if w <=? tmp then if negb (src1 =? 0) then saturate_u else ret 0
  else if tmp <? - w then ret 0 else if tmp =? - w then ret (src1 >> (w - 1))
  else if tmp <? 0 then ret ((src1 + (1 << (-1 - tmp))) >> (- tmp)) else left_u src1 tmp.
Definition qrshl_s_fn (src1 src2 : Z) : cpu Z :=
  let tmp := sgn 8 src2 in
  if w <=? tmp then if negb (src1 =? 0) then saturate_s src1 else ret 0
  else if tmp <=? - w then ret 0
  else if tmp <? 0 then ret ((src1 + (1 << (-1 - tmp))) >> (- tmp)) else left_s src1 tmp.
End Shifts.

Definition neon_shl_u8 := NEON_VOP U8 (shl_u_fn U8).
Definition neon_shl_u16 := NEON_VOP U16 (shl_u_fn U16).
Definition neon_shl_u32 := NEON_VOP U32 (shl_u_fn U32).
Definition neon_shl_s8 := NEON_VOP S8 (shl_s_fn S8).
Definition neon_shl_s16 := NEON_VOP S16 (shl_s_fn S16).
Definition neon_shl_s32 := NEON_VOP S32 (shl_s_fn S32).
Definition neon_rshl_s8 := NEON_VOP S8 (rshl_s_fn S8).
Definition neon_rshl_s16 := NEON_VOP S16 (rshl_s_fn S16).
Definition neon_rshl_u8 := NEON_VOP U8 (rshl_u_fn U8).
Definition neon_rshl_u16 := NEON_VOP U16 (rshl_u_fn U16).
Definition neon_qshl_u8 := NEON_VOP U8 (qshl_u_fn U8).
Definition neon_qshl_u16 := NEON_VOP U16 (qshl_u_fn U16).
Definition neon_qshl_u32 := NEON_VOP U32 (qshl_u_fn U32).
Definition neon_qshl_s8 := NEON_VOP S8 (qshl_s_fn S8).
Definition neon_qshl_s16 := NEON_VOP S16 (qshl_s_fn S16).
Definition neon_qshl_s32 := NEON_VOP S32 (qshl_s_fn S32).
Definition neon_qshlu_s8 := NEON_VOP U8 (qshlu_fn U8).
Definition neon_qshlu_s16 := NEON_VOP U16 (qshlu_fn U16).
Definition neon_qrshl_u8 := NEON_VOP U8 (qrshl_u_fn U8).
Definition neon_qrshl_u16 := NEON_VOP U16 (qrshl_u_fn U16).
Definition neon_qrshl_s8 := NEON_VOP S8 (qrshl_s_fn S8).
Definition neon_qrshl_s16 := NEON_VOP S16 (qrshl_s_fn S16).

(** The functions of 32- and 64-bit elements; [shift] is the low byte, signed. *)
Definition neon_shl_u64 (val shiftop : Z) : cpu Z :=
  let shift := sgn 8 shiftop in
  if (64 <=? shift) || (shift <=? -64) then ret 0
  else if shift <? 0 then ret (val >> (- shift)) else ret (u64 (val << shift)).
Definition neon_shl_s64 (valop shiftop : Z) : cpu Z :=
  let shift := sgn 8 shiftop in
  let val := sgn 64 valop in
  if 64 <=? shift then ret 0 else if shift <=? -64 then ret (u64 (val >> 63))
  else if shift <? 0 then ret (u64 (val >> (- shift))) else ret (u64 (val << shift)).
Definition neon_rshl_s32 (valop shiftop : Z) : cpu Z :=
  let val := sgn 32 valop in
  let shift := sgn 8 shiftop in
  if (32 <=? shift) || (shift <=? -32) then ret 0
  else if shift <? 0 then ret (u32 ((val + (1 << (-1 - shift))) >> (- shift))) else ret (u32 (val << shift)).
Definition neon_rshl_u32 (val shiftop : Z) : cpu Z :=
  let shift := sgn 8 shiftop in
  if (32 <=? shift) || (shift <? -32) then ret 0 else if shift =? -32 then ret (val >> 31)
  else if shift <? 0 then ret (u32 (u64 (val + (1 << (-1 - shift))) >> (- shift))) else ret (u32 (val << shift)).

(** The rounding of 64 bits: the element but for the last bit to go, which is
    added; [over] is the result where the addition would overflow. *)
Definition INT64_MAX := 2 ^ 63 - 1.
Definition UINT64_MAX := 2 ^ 64 - 1.
Definition round64 (max over val shift : Z) : Z :=
  let val := val >> (- shift - 1) in
  if val =? max then over else (val + 1) >> 1.
Definition neon_rshl_s64 (valop shiftop : Z) : cpu Z :=
  let shift := sgn 8 shiftop in
  let val := sgn 64 valop in
  if (64 <=? shift) || (shift <=? -64) then ret 0
  else if shift <? 0 then ret (u64 (round64 INT64_MAX 0x4000000000000000 val shift)) else ret (u64 (val << shift)).
Definition neon_rshl_u64 (val shiftop : Z) : cpu Z :=
  let shift := sgn 8 shiftop in
  if (64 <=? shift) || (shift <? -64) then ret 0 else if shift =? -64 then ret (val >> 63)
  else if shift <? 0 then ret (round64 UINT64_MAX 0x8000000000000000 val shift) else ret (u64 (val << shift)).

(** [(val >> 63) ^ ~SIGNBIT64] and the like: the limit on the side of [val]. *)
Definition limit_s (w : Z) (val : Z) : Z := wrap w (val >> (w - 1)) .^ wrap w (Z.lnot (1 << (w - 1))).
Definition neon_qshl_u64 (val shiftop : Z) : cpu Z :=
  let shift := sgn 8 shiftop in
  if 64 <=? shift then if negb (val =? 0) then set_qc ;;; ret (u64 (Z.lnot 0)) else ret val
  else if shift <=? -64 then ret 0
  else if shift <? 0 then ret (val >> (- shift))
  else
    let tmp := val in
    let val := u64 (val << shift) in
    if negb (val >> shift =? tmp) then set_qc ;;; ret (u64 (Z.lnot 0)) else ret val.
Definition neon_qshl_s64 (valop shiftop : Z) : cpu Z :=
  let shift := sgn 8 shiftop in
  let val := sgn 64 valop in
  if 64 <=? shift then if negb (val =? 0) then set_qc ;;; ret (limit_s 64 val) else ret (u64 val)
  else if shift <=? -64 then ret (u64 (val >> 63))
  else if shift <? 0 then ret (u64 (val >> (- shift)))
  else
    let tmp := val in
    let val := sgn 64 (val << shift) in
    if negb (val >> shift =? tmp) then set_qc ;;; ret (limit_s 64 tmp) else ret (u64 val).
Definition neon_qshlu_s32 (valop shiftop : Z) : cpu Z :=
  if sgn 32 valop <? 0 then set_qc ;;; ret 0 else neon_qshl_u32 valop shiftop.
Definition neon_qshlu_s64 (valop shiftop : Z) : cpu Z :=
  if sgn 64 valop <? 0 then set_qc ;;; ret 0 else neon_qshl_u64 valop shiftop.
Definition neon_qrshl_u32 (val shiftop : Z) : cpu Z :=
  let shift := sgn 8 shiftop in
  if 32 <=? shift then if negb (val =? 0) then set_qc ;;; ret (u32 (Z.lnot 0)) else ret 0
  else if shift <? -32 then ret 0 else if shift =? -32 then ret (val >> 31)
  else if shift <? 0 then ret (u32 (u64 (val + (1 << (-1 - shift))) >> (- shift)))
  else
    let dest := u32 (val << shift) in
    if negb (dest >> shift =? val) then set_qc ;;; ret (u32 (Z.lnot 0)) else ret dest.
Definition neon_qrshl_u64 (val shiftop : Z) : cpu Z :=
  let shift := sgn 8 shiftop in
  if 64 <=? shift then if negb (val =? 0) then set_qc ;;; ret (u64 (Z.lnot 0)) else ret val
  else if shift <? -64 then ret 0 else if shift =? -64 then ret (val >> 63)
  else if shift <? 0 then ret (round64 UINT64_MAX 0x8000000000000000 val shift)
  else
    let tmp := val in
    let val := u64 (val << shift) in
    if negb (val >> shift =? tmp) then set_qc ;;; ret (u64 (Z.lnot 0)) else ret val.
Definition neon_qrshl_s32 (valop shiftop : Z) : cpu Z :=
  let val := sgn 32 valop in
  let shift := sgn 8 shiftop in
  if 32 <=? shift then if negb (val =? 0) then set_qc ;;; ret (limit_s 32 val) else ret 0
  else if shift <=? -32 then ret 0
  else if shift <? 0 then ret (u32 ((val + (1 << (-1 - shift))) >> (- shift)))
  else
    let dest := sgn 32 (val << shift) in
    if negb (dest >> shift =? val) then set_qc ;;; ret (limit_s 32 val) else ret (u32 dest).
Definition neon_qrshl_s64 (valop shiftop : Z) : cpu Z :=
  let shift := sgn 8 shiftop in
  let val := sgn 64 valop in
  if 64 <=? shift then if negb (val =? 0) then set_qc ;;; ret (limit_s 64 val) else ret (u64 val)
  else if shift <=? -64 then ret 0
  else if shift <? 0 then ret (u64 (round64 INT64_MAX 0x4000000000000000 val shift))
  else
    let tmp := val in
    let val := sgn 64 (val << shift) in
    if negb (val >> shift =? tmp) then set_qc ;;; ret (limit_s 64 tmp) else ret (u64 val).

(** ** One operand *)

Definition abs_fn (src : Z) : cpu Z := ret (if src <? 0 then - src else src).
Definition neon_abs_s8 := NEON_VOP1 S8 abs_fn.
Definition neon_abs_s16 := NEON_VOP1 S16 abs_fn.

(** [for (n = w; x; n--) x >>= 1], which takes at most [w] turns. *)
Fixpoint clz_loop (fuel : nat) (n x : Z) : Z :=
  match fuel with
  | O => n
  | S fuel' => if x =? 0 then n else clz_loop fuel' (n - 1) (x >> 1)
  end.
Definition do_clz8 (x : Z) : Z := clz_loop 8 8 (u8 x).
Definition do_clz16 (x : Z) : Z := clz_loop 16 16 (u16 x).
Definition neon_clz_u8 := NEON_VOP1 U8 (fun src => ret (do_clz8 src)).
Definition neon_clz_u16 := NEON_VOP1 U16 (fun src => ret (do_clz16 src)).
Definition neon_cls_s8 := NEON_VOP1 S8 (fun src => ret (do_clz8 (if src <? 0 then Z.lnot src else src) - 1)).
Definition neon_cls_s16 := NEON_VOP1 S16 (fun src => ret (do_clz16 (if src <? 0 then Z.lnot src else src) - 1)).
Definition neon_cls_s32 (x : Z) : cpu Z :=
  let x := if sgn 32 x <? 0 then u32 (Z.lnot x) else x in ret (u32 (clz_loop 32 32 x - 1)).
Definition neon_cnt_u8 (x : Z) : cpu Z :=
  let x := u32 ((x .& 0x55555555) + ((x >> 1) .& 0x55555555)) in
  let x := u32 ((x .& 0x33333333) + ((x >> 2) .& 0x33333333)) in
  ret (u32 ((x .& 0x0f0f0f0f) + ((x >> 4) .& 0x0f0f0f0f))).

(** [DO_QABS8], [DO_QNEG8] and those of 16 bits. *)
Definition qabs_fn (t : vtype) (x : Z) : cpu Z :=
  if x =? - (1 << (size t - 1)) then set_qc ;;; ret ((1 << (size t - 1)) - 1)
  else ret (if x <? 0 then - x else x).
Definition qneg_fn (t : vtype) (x : Z) : cpu Z :=
  if x =? - (1 << (size t - 1)) then set_qc ;;; ret ((1 << (size t - 1)) - 1) else ret (- x).
Definition neon_qabs_s8 := NEON_VOP1 S8 (qabs_fn S8).
Definition neon_qneg_s8 := NEON_VOP1 S8 (qneg_fn S8).
Definition neon_qabs_s16 := NEON_VOP1 S16 (qabs_fn S16).
Definition neon_qneg_s16 := NEON_VOP1 S16 (qneg_fn S16).
Definition neon_qabs_s32 (x : Z) : cpu Z :=
  if x =? SIGNBIT then set_qc ;;; ret (u32 (Z.lnot SIGNBIT))
  else ret (if sgn 32 x <? 0 then u32 (- x) else x).
Definition neon_qneg_s32 (x : Z) : cpu Z :=
  if x =? SIGNBIT then set_qc ;;; ret (u32 (Z.lnot SIGNBIT)) else ret (u32 (- x)).

(** ** Doubling multiplication, the high half *)

(** [NEON_QDMULH16] and [NEON_QDMULH32]: [h] is the size of an element, [tmp] an
    unsigned integer of twice that size. *)
Definition qdmulh_fn (h : Z) (round : bool) (src1 src2 : Z) : cpu Z :=
  let w := 2 * h in
  let sign := 1 << (w - 1) in
  let tmp := wrap w (src1 * src2) in
  tmp <- (if test (tmp .^ wrap w (tmp << 1)) sign then set_qc ;;; ret ((tmp >> (w - 1)) .^ wrap w (Z.lnot sign))
          else ret (wrap w (tmp << 1))) ;;
  tmp <- (if round : bool then
            let old := sgn w tmp in
            let tmp := wrap w (tmp + (1 << (h - 1))) in
            if sgn w tmp <? old then set_qc ;;; ret (sign - 1) else ret tmp
          else ret tmp) ;;
  ret (tmp >> h).
Definition neon_qdmulh_s16 := NEON_VOP S16 (qdmulh_fn 16 false).
Definition neon_qrdmulh_s16 := NEON_VOP S16 (qdmulh_fn 16 true).
Definition neon_qdmulh_s32 := NEON_VOP S32 (qdmulh_fn 32 false).
Definition neon_qrdmulh_s32 := NEON_VOP S32 (qdmulh_fn 32 true).

(** ** Polynomial multiplication *)

(** The mask of the bytes of [op1] that are odd, with [m] in the element [k] bits
    wide that belongs to each. *)
Definition poly_mask (op1 m k : Z) : Z :=
  (if test op1 1 then m else 0) .| (if test op1 (1 << 8) then m << k else 0) .|
  (if test op1 (1 << 16) then m << (2 * k) else 0) .| (if test op1 (1 << 24) then m << (3 * k) else 0).

(** A byte is zero after eight turns. *)
Fixpoint mul_p8_loop (fuel : nat) (op1 op2 result : Z) : Z :=
  match fuel with
  | O => result
  | S fuel' =>
      if op1 =? 0 then result
      else mul_p8_loop fuel' ((op1 >> 1) .& 0x7f7f7f7f) (u32 (op2 << 1) .& 0xfefefefe) (result .^ (op2 .& poly_mask op1 0xff 8))
  end.
Definition neon_mul_p8 (op1 op2 : Z) : cpu Z := ret (mul_p8_loop 8 op1 op2 0).
Fixpoint mull_p8_loop (fuel : nat) (op1 op2ex result : Z) : Z :=
  match fuel with
  | O => result
  | S fuel' =>
      if op1 =? 0 then result
      else mull_p8_loop fuel' ((op1 >> 1) .& 0x7f7f7f7f) (u64 (op2ex << 1)) (result .^ (op2ex .& poly_mask op1 0xffff 16))
  end.
Definition neon_mull_p8 (op1 op2 : Z) : Z :=
  let op2ex := (op2 .& 0xff) .| ((op2 .& 0xff00) << 8) .| ((op2 .& 0xff0000) << 16) .| ((op2 .& 0xff000000) << 24) in
  mull_p8_loop 8 op1 op2ex 0.

(** ** Computing with the saturation flag *)

Definition qc_env (exact : bool) (env : CPUARMState) : CPUARMState :=
  if exact then env else env <| vfp ::= fun v => v <| xregs ::= <[Z.to_nat ARM_VFP_FPSCR := CPSR_Q]> |> |>.

Lemma qc_twice a b env : qc_env a (qc_env b env) = qc_env (b && a) env.
Proof.
  destruct a, b; try done. unfold qc_env, upd. cbn. destruct env as [? ? ? ? ? ? ? ? ? ? ? ? ? ? ? ? ? ? ? ? ? v]. cbn. destruct v. cbn.
  by rewrite list_insert_insert_eq.
Qed.

(** A computation that assigns [d], is defined if [def] says so, and sets the flag
    unless [ok] says it does not. *)
Definition runs {A} (m : cpu A) (def : bool) (d : A) (ok : bool) : Prop :=
  forall env, m env = if def then Done (d, qc_env ok env, []) else Undef.
(** The same, for the low [w] bits of what is assigned. *)
Definition assigns (w : Z) (m : cpu Z) (def : bool) (v : Z) (ok : bool) : Prop :=
  exists d, wrap w d = v /\ runs m def d ok.

Lemma runs_ret {A} (x : A) : runs (ret x) true x true.
Proof. done. Qed.
Lemma runs_qc {A} (x : A) : runs (set_qc ;;; ret x) true x false.
Proof. done. Qed.
Lemma runs_if {A} (b : bool) (x y : A) : runs (if b then set_qc ;;; ret x else ret y) true (if b then x else y) (negb b).
Proof. by destruct b. Qed.
Lemma runs_bind {A B} (m : cpu A) (f : A -> cpu B) d1 x ok1 d2 y ok2 :
  runs m d1 x ok1 -> runs (f x) d2 y ok2 -> runs (bind m f) (d1 && d2) y (ok1 && ok2).
Proof.
  intros H1 H2 env. destruct d1; cbn [andb].
  - erewrite bind_Done by apply H1. rewrite H2. rewrite qc_twice. by destruct d2.
  - unfold bind. by rewrite H1.
Qed.
Lemma runs_int z : runs (int_result z) ((- 2 ^ 31 <=? z) && (z <? 2 ^ 31)) z true.
Proof. intros env. unfold int_result. by destruct (_ && _). Qed.

Lemma do_lanes_run w f def v ok l :
  (forall n, n ∈ l -> assigns w (f n) (def n) (v n) (ok n)) ->
  exists ds, map (wrap w) ds = map v l /\ runs (do_lanes f l) (forallb def l) ds (forallb ok l).
Proof.
  induction l as [|n l IH]; intros Hf; [by exists []|].
  destruct (Hf n) as (d & Hd & Hr); [left|]. destruct IH as (ds & Hds & Hrs); [intros m Hm; apply Hf; by right|].
  exists (d :: ds). split; [cbn; by rewrite Hd, Hds|]. cbn [do_lanes forallb].
  rewrite <- (andb_true_r (forallb def l)), <- (andb_true_r (forallb ok l)).
  eapply runs_bind; [exact Hr|]. eapply runs_bind; [exact Hrs|]. apply runs_ret.
Qed.

(** ** Packed elements *)

Lemma pack_wrap w l : 0 <= w -> pack w l = pack w (map (wrap w) l).
Proof. intros Hw. induction l as [|x l IH]; [done|]. cbn. by rewrite wrap_wrap, <- IH by lia. Qed.

Lemma pack_add w x l : 0 <= w -> pack w (x :: l) = wrap w x + 2 ^ w * pack w l.
Proof.
  intros Hw. cbn [pack]. rewrite Z.lor_comm, Z.shiftl_mul_pow2 by done. rewrite lor_add by (done || by apply fits_wrap). lia.
Qed.

Lemma pack_fits w l : 0 <= w -> fits (w * zlen l) (pack w l).
Proof.
  intros Hw. induction l as [|x l IH]; [change (zlen []) with 0; by rewrite Z.mul_0_r|]. rewrite pack_add by done.
  assert (zlen (x :: l) = zlen l + 1) as -> by (unfold zlen; cbn [length]; lia).
  rewrite Z.mul_add_distr_l, Z.mul_1_r. assert (0 <= zlen l) by (unfold zlen; lia).
  pose proof (fits_wrap w x Hw) as Hx. unfold fits in *. rewrite Z.pow_add_r by nia. nia.
Qed.

Lemma lane_pack w l n x : 0 < w -> aget l n = Some x -> lane w n (pack w l) = wrap w x.
Proof.
  intros Hw. revert n. induction l as [|y l IH]; intros n Hn; [by apply aget_bounds in Hn; unfold zlen in Hn; cbn in Hn; lia|].
  pose proof (aget_bounds _ _ _ Hn) as Hb. rewrite pack_add by lia. pose proof (fits_wrap w y ltac:(lia)) as Hy. unfold lane.
  destruct (Z.eq_dec n 0) as [->|Hne].
  - injection Hn as ->. rewrite Z.mul_0_r, Z.pow_0_r, Z.div_1_r. rewrite Z.mul_comm, Z.mod_add by lia. by apply Z.mod_small.
  - assert (aget l (n - 1) = Some x) as Hn'.
    { unfold aget in *. destruct (Z.ltb_spec n 0), (Z.ltb_spec (n - 1) 0); try lia. replace (Z.to_nat n) with (S (Z.to_nat (n - 1))) in Hn by lia. done. }
    rewrite <- (IH _ Hn'). unfold lane. replace (w * n) with (w + w * (n - 1)) by lia. rewrite Z.pow_add_r by nia.
    rewrite <- Z.div_div by (apply Z.pow_nonzero || apply Z.pow_pos_nonneg; nia). rewrite Z.add_comm, Z.mul_comm, Z.div_add_l by lia. by rewrite (Z.div_small (wrap w y)), Z.add_0_r by exact Hy.
Qed.

(** What a vector instruction leaves: [v n] in every element. *)
Definition packed (w : Z) (l : list Z) (v : Z -> Z) (r : Z) : Prop :=
  fits (w * zlen l) r /\ forall n, n ∈ l -> lane w n r = wrap w (v n).

Lemma pack_lanes w l v ds : 0 < w -> l = seqZ 0 (zlen l) -> map (wrap w) ds = map v l -> (forall n, n ∈ l -> wrap w (v n) = v n) ->
  packed w l v (pack w ds).
Proof.
  intros Hw Hl Hds Hv. assert (zlen ds = zlen l) as Elen by (unfold zlen; apply (f_equal length) in Hds; rewrite !length_map in Hds; lia).
  split; [rewrite <- Elen; apply pack_fits; lia|]. intros n Hn. rewrite pack_wrap, Hds by lia.
  pose proof Hn as Hb. rewrite Hl in Hb. apply elem_of_seqZ in Hb.
  assert (aget l n = Some n) as Hget.
  { rewrite Hl. unfold aget. destruct (Z.ltb_spec n 0); [lia|]. apply lookup_seqZ. lia. }
  apply lane_pack; [done|]. unfold aget in *. destruct (n <? 0); [done|]. by rewrite list_lookup_fmap, Hget.
Qed.

Lemma elems_seq t : elems t = seqZ 0 (zlen (elems t)).
Proof. by destruct t. Qed.
Lemma size_pos t : 0 < size t.
Proof. by destruct t. Qed.

Lemma vop_run t (g : Z -> cpu Z) def v ok :
  (forall n, n ∈ elems t -> assigns (size t) (g n) (def n) (v n) (ok n)) ->
  exists r, packed (size t) (elems t) v r /\
    runs (ds <- do_lanes g (elems t) ;; ret (pack (size t) ds)) (forallb def (elems t)) r (forallb ok (elems t)).
Proof.
  intros Hg. destruct (do_lanes_run _ _ _ _ _ _ Hg) as (ds & Hds & Hr). exists (pack (size t) ds). split.
  - apply pack_lanes; [apply size_pos|apply elems_seq|done|]. intros n Hn. destruct (Hg n Hn) as (d & <- & _). apply wrap_wrap. pose proof (size_pos t). lia.
  - rewrite <- (andb_true_r (forallb def _)), <- (andb_true_r (forallb ok _)). eapply runs_bind; [exact Hr|]. apply runs_ret.
Qed.

(** ** The reference *)

Inductive vop :=
  | VQADD | VQSUB | VHADD | VRHADD | VHSUB | VCGT | VCGE | VTST | VCEQ | VMIN | VMAX | VABD | VADD | VSUB | VMUL
  | VSHL | VRSHL | VQSHL | VQSHLU | VQRSHL | VQDMULH | VQRDMULH.

Definition lowest (t : vtype) : Z := if signed t then - 2 ^ (size t - 1) else 0.
Definition highest (t : vtype) : Z := if signed t then 2 ^ (size t - 1) - 1 else 2 ^ size t - 1.
Definition within (t : vtype) (z : Z) : bool := (lowest t <=? z) && (z <=? highest t).
Definition unsigned (t : vtype) : vtype := match t with S8 => U8 | S16 => U16 | S32 => U32 | S64 => U64 | _ => t end.

(** Multiplied by a power of two, rounded down or to the nearest. *)
Definition shifted (x n : Z) : Z := if 0 <=? n then x * 2 ^ n else x / 2 ^ (- n).
Definition shifted_round (x n : Z) : Z := if 0 <=? n then x * 2 ^ n else (x + 2 ^ (- n - 1)) / 2 ^ (- n).

(** The exact result for two elements. *)
Definition exact (op : vop) (t : vtype) (x y : Z) : Z :=
  match op with
  | VQADD | VADD => x + y | VQSUB | VSUB => x - y | VMUL => x * y
  | VHADD => (x + y) / 2 | VRHADD => (x + y + 1) / 2 | VHSUB => (x - y) / 2
  | VCGT => mask_of (y <? x) | VCGE => mask_of (y <=? x) | VTST => mask_of (test x y) | VCEQ => mask_of (x =? y)
  | VMIN => Z.min x y | VMAX => Z.max x y | VABD => Z.abs (x - y)
  | VSHL | VQSHL | VQSHLU => shifted x (sgn 8 y) | VRSHL | VQRSHL => shifted_round x (sgn 8 y)
  | VQDMULH => 2 * x * y / 2 ^ size t | VQRDMULH => (2 * x * y + 2 ^ (size t - 1)) / 2 ^ size t
  end.
Definition saturates (op : vop) : bool :=
  match op with VQADD | VQSUB | VQSHL | VQSHLU | VQRSHL | VQDMULH | VQRDMULH => true | _ => false end.
(** The type of the result. *)
Definition result_type (op : vop) (t : vtype) : vtype := match op with VQSHLU => unsigned t | _ => t end.

Definition vexact (op : vop) (t : vtype) (x y : Z) : bool :=
  negb (saturates op) || within (result_type op t) (exact op t x y).
Definition vvalue (op : vop) (t : vtype) (x y : Z) : Z :=
  let e := exact op t x y in let t' := result_type op t in
  wrap (size t) (if saturates op then clamp (lowest t') (highest t') e else e).
(** Where the C code overflows an [int]. *)
Definition vdefined (op : vop) (t : vtype) (x y : Z) : bool :=
  match op, t with
  | VABD, S32 => Z.abs (x - y) <? 2 ^ 31
  | VMUL, U16 => x * y <? 2 ^ 31
  | VQSHL, S32 => shifted x (sgn 8 y) <? 2 ^ 31
  | _, _ => true
  end.

(** The functions of the code. *)
Definition vhelper (op : vop) (t : vtype) : option (Z -> Z -> cpu Z) :=
  match op, t with
  | VQADD, U8 => Some neon_qadd_u8 | VQADD, U16 => Some neon_qadd_u16 | VQADD, S8 => Some neon_qadd_s8 | VQADD, S16 => Some neon_qadd_s16
  | VQADD, U32 => Some neon_qadd_u32 | VQADD, U64 => Some neon_qadd_u64 | VQADD, S32 => Some neon_qadd_s32 | VQADD, S64 => Some neon_qadd_s64
  | VQSUB, U8 => Some neon_qsub_u8 | VQSUB, U16 => Some neon_qsub_u16 | VQSUB, S8 => Some neon_qsub_s8 | VQSUB, S16 => Some neon_qsub_s16
  | VQSUB, U32 => Some neon_qsub_u32 | VQSUB, U64 => Some neon_qsub_u64 | VQSUB, S32 => Some neon_qsub_s32 | VQSUB, S64 => Some neon_qsub_s64
  | VHADD, S8 => Some neon_hadd_s8 | VHADD, U8 => Some neon_hadd_u8 | VHADD, S16 => Some neon_hadd_s16 | VHADD, U16 => Some neon_hadd_u16
  | VHADD, S32 => Some neon_hadd_s32 | VHADD, U32 => Some neon_hadd_u32
  | VRHADD, S8 => Some neon_rhadd_s8 | VRHADD, U8 => Some neon_rhadd_u8 | VRHADD, S16 => Some neon_rhadd_s16 | VRHADD, U16 => Some neon_rhadd_u16
  | VRHADD, S32 => Some neon_rhadd_s32 | VRHADD, U32 => Some neon_rhadd_u32
  | VHSUB, S8 => Some neon_hsub_s8 | VHSUB, U8 => Some neon_hsub_u8 | VHSUB, S16 => Some neon_hsub_s16 | VHSUB, U16 => Some neon_hsub_u16
  | VHSUB, S32 => Some neon_hsub_s32 | VHSUB, U32 => Some neon_hsub_u32
  | VCGT, S8 => Some neon_cgt_s8 | VCGT, U8 => Some neon_cgt_u8 | VCGT, S16 => Some neon_cgt_s16 | VCGT, U16 => Some neon_cgt_u16
  | VCGT, S32 => Some neon_cgt_s32 | VCGT, U32 => Some neon_cgt_u32
  | VCGE, S8 => Some neon_cge_s8 | VCGE, U8 => Some neon_cge_u8 | VCGE, S16 => Some neon_cge_s16 | VCGE, U16 => Some neon_cge_u16
  | VCGE, S32 => Some neon_cge_s32 | VCGE, U32 => Some neon_cge_u32
  | VTST, U8 => Some neon_tst_u8 | VTST, U16 => Some neon_tst_u16 | VTST, U32 => Some neon_tst_u32
  | VCEQ, U8 => Some neon_ceq_u8 | VCEQ, U16 => Some neon_ceq_u16 | VCEQ, U32 => Some neon_ceq_u32
  | VMIN, S8 => Some neon_min_s8 | VMIN, U8 => Some neon_min_u8 | VMIN, S16 => Some neon_min_s16 | VMIN, U16 => Some neon_min_u16
  | VMIN, S32 => Some neon_min_s32 | VMIN, U32 => Some neon_min_u32
  | VMAX, S8 => Some neon_max_s8 | VMAX, U8 => Some neon_max_u8 | VMAX, S16 => Some neon_max_s16 | VMAX, U16 => Some neon_max_u16
  | VMAX, S32 => Some neon_max_s32 | VMAX, U32 => Some neon_max_u32
  | VABD, S8 => Some neon_abd_s8 | VABD, U8 => Some neon_abd_u8 | VABD, S16 => Some neon_abd_s16 | VABD, U16 => Some neon_abd_u16
  | VABD, S32 => Some neon_abd_s32 | VABD, U32 => Some neon_abd_u32
  | VADD, U8 => Some neon_add_u8 | VADD, U16 => Some neon_add_u16 | VSUB, U8 => Some neon_sub_u8 | VSUB, U16 => Some neon_sub_u16
  | VMUL, U8 => Some neon_mul_u8 | VMUL, U16 => Some neon_mul_u16
  | VSHL, U8 => Some neon_shl_u8 | VSHL, U16 => Some neon_shl_u16 | VSHL, U32 => Some neon_shl_u32 | VSHL, U64 => Some neon_shl_u64
  | VSHL, S8 => Some neon_shl_s8 | VSHL, S16 => Some neon_shl_s16 | VSHL, S32 => Some neon_shl_s32 | VSHL, S64 => Some neon_shl_s64
  | VRSHL, U8 => Some neon_rshl_u8 | VRSHL, U16 => Some neon_rshl_u16 | VRSHL, U32 => Some neon_rshl_u32 | VRSHL, U64 => Some neon_rshl_u64
  | VRSHL, S8 => Some neon_rshl_s8 | VRSHL, S16 => Some neon_rshl_s16 | VRSHL, S32 => Some neon_rshl_s32 | VRSHL, S64 => Some neon_rshl_s64
  | VQSHL, U8 => Some neon_qshl_u8 | VQSHL, U16 => Some neon_qshl_u16 | VQSHL, U32 => Some neon_qshl_u32 | VQSHL, U64 => Some neon_qshl_u64
  | VQSHL, S8 => Some neon_qshl_s8 | VQSHL, S16 => Some neon_qshl_s16 | VQSHL, S32 => Some neon_qshl_s32 | VQSHL, S64 => Some neon_qshl_s64
  | VQSHLU, S8 => Some neon_qshlu_s8 | VQSHLU, S16 => Some neon_qshlu_s16 | VQSHLU, S32 => Some neon_qshlu_s32 | VQSHLU, S64 => Some neon_qshlu_s64
  | VQRSHL, U8 => Some neon_qrshl_u8 | VQRSHL, U16 => Some neon_qrshl_u16 | VQRSHL, U32 => Some neon_qrshl_u32 | VQRSHL, U64 => Some neon_qrshl_u64
  | VQRSHL, S8 => Some neon_qrshl_s8 | VQRSHL, S16 => Some neon_qrshl_s16 | VQRSHL, S32 => Some neon_qrshl_s32 | VQRSHL, S64 => Some neon_qrshl_s64
  | VQDMULH, S16 => Some neon_qdmulh_s16 | VQDMULH, S32 => Some neon_qdmulh_s32
  | VQRDMULH, S16 => Some neon_qrdmulh_s16 | VQRDMULH, S32 => Some neon_qrdmulh_s32
  | _, _ => None
  end.

(** ** Conversions *)

Section Conversions.
Context (t : vtype).
Abbreviation w := (size t).

Lemma half_size : 2 ^ w = 2 * 2 ^ (w - 1) /\ 0 < 2 ^ (w - 1).
Proof. by destruct t. Qed.

Lemma conv_wrap z : wrap w (conv t z) = wrap w z.
Proof.
  pose proof (size_pos t). unfold conv. destruct (signed t); [|apply wrap_wrap; lia]. unfold sgn. destruct (_ <? _); [apply wrap_wrap; lia|].
  unfold wrap. replace (z mod 2 ^ w - 2 ^ w) with (z mod 2 ^ w + (-1) * 2 ^ w) by lia. rewrite Z.mod_add by lia. apply Z.mod_mod. lia.
Qed.

Lemma conv_within z : within t (conv t z) = true.
Proof.
  pose proof (size_pos t). pose proof half_size as [Hh Hp]. pose proof (fits_wrap w z ltac:(lia)) as Hz. unfold within, conv, lowest, highest, sgn, fits in *.
  destruct (signed t); [destruct (Z.ltb_spec (wrap w z) (2 ^ (w - 1)))|]; apply andb_true_iff; rewrite !Z.leb_le; lia.
Qed.

Lemma within_range z : within t z = true <-> lowest t <= z <= highest t.
Proof. unfold within. rewrite andb_true_iff, !Z.leb_le. done. Qed.

Lemma conv_id z : within t z = true -> conv t z = z.
Proof.
  pose proof half_size as [Hh Hp]. pose proof (size_pos t). rewrite within_range. unfold conv, lowest, highest, sgn. destruct (signed t); intros Hz.
  - rewrite wrap_cases by lia. destruct (Z.ltb_spec z 0); [zcases|]. destruct (Z.ltb_spec z (2 ^ w)); [zcases|lia].
  - apply Z.mod_small. lia.
Qed.

Lemma conv_eq z : (z =? conv t z) = within t z.
Proof.
  destruct (within t z) eqn:E; [rewrite conv_id by done; apply Z.eqb_refl|]. apply Z.eqb_neq. intros Ez. by rewrite Ez, conv_within in E.
Qed.

Lemma conv_int z : size t <= 16 -> conv t (u32 z) = conv t z.
Proof. intros Hw. unfold conv, sgn. by rewrite wrap_wrap by (pose proof (size_pos t); lia). Qed.
Lemma conv_sgn32 z : size t <= 16 -> conv t (sgn 32 z) = conv t z.
Proof.
  intros Hw. unfold conv. pose proof (size_pos t). assert (wrap w (sgn 32 z) = wrap w z) as E; [|unfold sgn at 1; rewrite E; done].
  unfold sgn. destruct (_ <? _); [apply wrap_wrap; lia|].
  unfold wrap. replace (z mod 2 ^ 32 - 2 ^ 32) with (z mod 2 ^ 32 + (- 2 ^ (32 - w)) * 2 ^ w).
  2: { assert (2 ^ 32 = 2 ^ (32 - w) * 2 ^ w) by (rewrite <- Z.pow_add_r by lia; f_equal; lia). lia. }
  rewrite Z.mod_add by lia. pose proof (wrap_wrap w 32 z ltac:(lia)) as Hww. exact Hww.
Qed.
End Conversions.

(** The types of at most sixteen bits, whose operations are in [int]. *)
Definition small (t : vtype) : bool := size t <=? 16.

Lemma int_bounds t x : small t = true -> within t x = true -> - 2 ^ 15 <= x < 2 ^ 16.
Proof. rewrite within_range. unfold small, lowest, highest. by destruct t; cbn; intros; try lia. Qed.

Lemma assigns_if w (b : bool) x y v ok : b = negb ok -> wrap w (if b then x else y) = v ->
  assigns w (if b then set_qc ;;; ret x else ret y) true v ok.
Proof. intros -> <-. exists (if negb ok then x else y). split; [done|]. by destruct ok. Qed.
Lemma assigns_ret w x v : wrap w x = v -> assigns w (ret x) true v true.
Proof. intros <-. by exists x. Qed.
Lemma assigns_int w x v def : ((- 2 ^ 31 <=? x) && (x <? 2 ^ 31)) = def -> wrap w x = v -> assigns w (int_result x) def v true.
Proof. intros <- <-. exists x. split; [done|]. apply runs_int. Qed.

(** ** The texts for small elements *)

Definition lane_ok (op : vop) (t : vtype) (fn : Z -> Z -> cpu Z) : Prop := forall x y,
  within t x = true -> within t y = true -> assigns (size t) (fn x y) (vdefined op t x y) (vvalue op t x y) (vexact op t x y).

Ltac ranges :=
  repeat match goal with H : within _ _ = true |- _ => apply within_range in H end;
  cbn [lowest highest signed size] in *.
(** An operation at its types. *)
Ltac lane_start :=
  intros x y Hx Hy; unfold vdefined, vvalue, vexact; cbn [exact saturates result_type negb orb]; cbv zeta.
Ltac bounds :=
  let plain a b := match constr:((a, b)) with context [match _ with _ => _ end] => fail 1 | _ => idtac end in
  repeat match goal with
  | |- context [?a <? ?b] => plain a b; destruct (Z.ltb_spec a b); cbn [negb andb orb]
  | |- context [?a <=? ?b] => plain a b; destruct (Z.leb_spec a b); cbn [negb andb orb]
  end; try done; try (exfalso; lia).
Ltac lane_limits := unfold within, clamp; cbn [lowest highest signed size]; bounds; try (f_equal; lia).

Lemma usat_lane t : small t = true -> signed t = false ->
  lane_ok VQADD t (usat_fn Z.add (-1) t) /\ lane_ok VQSUB t (usat_fn Z.sub 0 t).
Proof.
  intros Hs Hu. destruct t; try done; unfold usat_fn; (split; lane_start; ranges).
  all: rewrite (wrap_cases 32) by lia; rewrite conv_eq; apply assigns_if; lane_limits.
Qed.

Lemma sgn_int z : - 2 ^ 31 <= z < 2 ^ 31 -> sgn 32 z = z.
Proof. intros Hz. apply (conv_id S32). apply within_range. cbn [lowest highest signed size]. lia. Qed.

Lemma ssat_lane t : small t = true -> signed t = true ->
  lane_ok VQADD t (ssat_fn Z.add (fun y => 0 <? y) t) /\ lane_ok VQSUB t (ssat_fn Z.sub (fun y => y <? 0) t).
Proof.
  intros Hs Hu. destruct t; try done; unfold ssat_fn; (split; lane_start; ranges).
  all: rewrite sgn_int by lia; rewrite conv_eq; apply assigns_if; lane_limits.
Qed.

Lemma halving_lane t : small t = true -> lane_ok VHADD t hadd_fn /\ lane_ok VRHADD t rhadd_fn /\ lane_ok VHSUB t hsub_fn.
Proof. intros _. split_and!; lane_start; apply assigns_ret; by rewrite shiftr_div. Qed.

Lemma compare_lane t : lane_ok VCGT t cgt_fn /\ lane_ok VCGE t cge_fn /\ lane_ok VTST t tst_fn /\ lane_ok VCEQ t ceq_fn.
Proof. split_and!; lane_start; by apply assigns_ret. Qed.

Lemma choice_lane t : lane_ok VMIN t min_fn /\ lane_ok VMAX t max_fn.
Proof. split; lane_start; apply assigns_ret; f_equal; zcases. Qed.

Lemma abd_lane t : size t <= 32 -> lane_ok VABD t (abd_fn t).
Proof.
  intros Hs. destruct t; try done; lane_start; ranges; unfold abd_fn; cbv zeta.
  6: { apply assigns_ret. f_equal. zcases. }
  all: apply assigns_int; [|f_equal; zcases].
  all: destruct (Z.ltb_spec y x); bounds.
Qed.

Lemma sub_lane t : small t = true -> lane_ok VSUB t sub_fn.
Proof. intros _. lane_start. by apply assigns_ret. Qed.
Lemma mul_lane t : small t = true -> signed t = false -> lane_ok VMUL t mul_fn.
Proof.
  intros Hs Hu. destruct t; try done; lane_start; ranges; unfold mul_fn.
  all: apply assigns_int; [|done]; assert (0 <= x * y) by nia; assert (x * y <= 65535 * 65535) by nia.
  - assert (x * y <= 255 * 255) by nia. bounds.
  - bounds.
Qed.

(** ** Shifted elements *)

Lemma shiftl_mul x n : 0 <= n -> x << n = x * 2 ^ n.
Proof. apply Z.shiftl_mul_pow2. Qed.

Lemma neg_small_div x q : - q <= x < 0 -> x / q = -1.
Proof. intros Hx. symmetry. apply (Z.div_unique _ _ _ (x + q)); lia. Qed.

Section Shifted.
Context (t : vtype) (x : Z) (Hx : within t x = true).
Abbreviation w := (size t).

Lemma shifted_left n : 0 <= n -> x << n = shifted x n.
Proof. intros Hn. unfold shifted. destruct (Z.leb_spec 0 n); [by apply Z.shiftl_mul_pow2|lia]. Qed.
Lemma shifted_right n : n < 0 -> x >> (- n) = shifted x n.
Proof. intros Hn. unfold shifted. destruct (Z.leb_spec 0 n); [lia|]. apply shiftr_div. lia. Qed.
Lemma rounded_left n : 0 <= n -> shifted_round x n = shifted x n.
Proof. intros Hn. unfold shifted_round, shifted. by destruct (Z.leb_spec 0 n); [|lia]. Qed.
Lemma rounded_right n : n < 0 -> (x + (1 << (-1 - n))) >> (- n) = shifted_round x n.
Proof.
  intros Hn. unfold shifted_round. destruct (Z.leb_spec 0 n); [lia|]. rewrite shiftr_div by lia. rewrite Z.shiftl_1_l.
  by replace (-1 - n) with (- n - 1) by lia.
Qed.

Lemma pow_over n : w <= n -> 2 ^ n = 2 ^ (n - w) * 2 ^ w /\ 0 < 2 ^ (n - w).
Proof. intros Hn. pose proof (size_pos t). split; [|lia]. rewrite <- Z.pow_add_r by lia. f_equal. lia. Qed.

Lemma shifted_out n : w <= n -> wrap w (shifted x n) = 0.
Proof.
  intros Hn. pose proof (size_pos t). destruct (pow_over n Hn) as [E _]. unfold shifted. destruct (Z.leb_spec 0 n); [|lia].
  unfold wrap. rewrite E, Z.mul_assoc. apply Z.mod_mul. lia.
Qed.

Lemma size_bound : - 2 ^ (w - 1) <= x <= 2 ^ w - 1 /\ (signed t = false -> 0 <= x) /\ (signed t = true -> x < 2 ^ (w - 1)).
Proof. pose proof (proj1 (within_range t x) Hx) as Hr. pose proof (half_size t) as [Hd Hp]. unfold lowest, highest in Hr. destruct (signed t); split_and!; intros; try done; lia. Qed.

(** Shifted right by a word or more, only the sign is left. *)
Lemma shifted_sign n : n <= - w -> shifted x n = if signed t then x >> (w - 1) else 0.
Proof.
  intros Hn. destruct size_bound as (Hb & Hu & Hs). pose proof (half_size t) as [Hd Hp]. pose proof (size_pos t).
  unfold shifted. destruct (Z.leb_spec 0 n); [lia|]. destruct (pow_over (- n) ltac:(lia)) as [E Hq].
  destruct (signed t); [|apply Z.div_small; nia]. specialize (Hs eq_refl). rewrite shiftr_div by lia. destruct (Z.le_gt_cases 0 x).
  - by rewrite !Z.div_small by nia.
  - by rewrite !neg_small_div by nia.
Qed.

Lemma rounded_out n : n <= - w -> (signed t = false -> n < - w) -> shifted_round x n = 0.
Proof.
  intros Hn Hne. destruct size_bound as (Hb & Hu & Hs). pose proof (half_size t) as [Hd Hp]. pose proof (size_pos t).
  unfold shifted_round. destruct (Z.leb_spec 0 n); [lia|]. destruct (pow_over (- n) ltac:(lia)) as [E Hq].
  assert (2 ^ (- n) = 2 * 2 ^ (- n - 1)) as E2 by (rewrite <- (Z.pow_succ_r 2) by lia; f_equal; lia).
  apply Z.div_small. destruct (signed t) eqn:Es; [specialize (Hs eq_refl); nia|]. specialize (Hu eq_refl). specialize (Hne eq_refl).
  assert (2 ^ w <= 2 ^ (- n - 1)) by (apply Z.pow_le_mono_r; lia). lia.
Qed.
Lemma rounded_word : signed t = false -> shifted_round x (- w) = x >> (w - 1).
Proof.
  intros Es. destruct size_bound as (Hb & Hu & _). specialize (Hu Es). pose proof (half_size t) as [Hd Hp]. pose proof (size_pos t).
  unfold shifted_round. destruct (Z.leb_spec 0 (- w)); [lia|]. rewrite Z.opp_involutive, shiftr_div by lia. rewrite Hd in *.
  destruct (Z.lt_ge_cases x (2 ^ (w - 1))).
  - by rewrite !Z.div_small by lia.
  - transitivity 1; [symmetry; apply (Z.div_unique _ _ 1 (x - 2 ^ (w - 1)))|apply (Z.div_unique _ _ 1 (x - 2 ^ (w - 1)))]; lia.
Qed.

(** Shifting right never leaves the type. *)
Lemma shifted_within n : n < 0 -> within t (shifted x n) = true /\ within t (shifted_round x n) = true.
Proof.
  intros Hn. destruct size_bound as (Hb & Hu & Hs). pose proof (half_size t) as [Hd Hp]. pose proof (proj1 (within_range t x) Hx) as Hr.
  rewrite !within_range. unfold shifted, shifted_round. destruct (Z.leb_spec 0 n); [lia|].
  assert (2 ^ (- n) = 2 * 2 ^ (- n - 1)) as E2 by (rewrite <- (Z.pow_succ_r 2) by lia; f_equal; lia).
  assert (0 < 2 ^ (- n - 1)) as Hq by lia. rewrite E2. set (q := 2 ^ (- n - 1)) in *. clearbody q.
  pose proof (Z.div_mod x (2 * q) ltac:(lia)). pose proof (Z.mod_pos_bound x (2 * q) ltac:(lia)).
  pose proof (Z.div_mod (x + q) (2 * q) ltac:(lia)). pose proof (Z.mod_pos_bound (x + q) (2 * q) ltac:(lia)).
  unfold lowest, highest in *. destruct (signed t); nia.
Qed.

(** Shifting left and back shows whether the result is in the type. *)
Lemma conv_step z : exists k, conv t z = z + k * 2 ^ w.
Proof.
  pose proof (size_pos t). pose proof (Z.div_mod z (2 ^ w) ltac:(lia)). unfold conv, sgn, wrap. destruct (signed t); [destruct (_ <? _)|].
  - exists (- (z / 2 ^ w)). lia.
  - exists (- (z / 2 ^ w) - 1). lia.
  - exists (- (z / 2 ^ w)). lia.
Qed.
Lemma shifted_back n : 0 <= n < w -> (conv t (x << n) >> n =? x) = within t (shifted x n).
Proof.
  intros Hn. rewrite shifted_left by lia. unfold shifted. destruct (Z.leb_spec 0 n); [|lia].
  set (z := x * 2 ^ n). destruct (within t z) eqn:E.
  - rewrite conv_id, shiftr_div by (done || lia). unfold z. rewrite Z.div_mul by lia. apply Z.eqb_refl.
  - apply Z.eqb_neq. intros Ex. destruct (conv_step z) as [k Hk]. rewrite shiftr_div, Hk in Ex by lia. unfold z in Ex.
    assert (2 ^ w = 2 ^ (w - n) * 2 ^ n) as Ew by (rewrite <- Z.pow_add_r by lia; f_equal; lia). rewrite Ew in Ex.
    replace (x * 2 ^ n + k * (2 ^ (w - n) * 2 ^ n)) with ((x + k * 2 ^ (w - n)) * 2 ^ n) in Ex by lia. rewrite Z.div_mul in Ex by lia.
    assert (0 < 2 ^ (w - n)) by lia. assert (k = 0) as -> by nia. rewrite Z.add_0_r in Hk. by rewrite <- Hk, conv_within in E.
Qed.

(** A shift to the left that leaves the type goes past the limit on the side of
    the element. *)
Lemma shifted_limit n : 0 <= n -> within t (shifted x n) = false ->
  x <> 0 /\ clamp (lowest t) (highest t) (shifted x n) = if 0 <? x then highest t else lowest t.
Proof.
  intros Hn. pose proof (proj1 (within_range t x) Hx) as Hr. unfold shifted. destruct (Z.leb_spec 0 n); [|lia].
  assert (1 <= 2 ^ n) by lia. set (q := 2 ^ n) in *. clearbody q.
  unfold within. intros Ho. apply andb_false_iff in Ho. rewrite !Z.leb_gt in Ho. pose proof (half_size t) as [Hd Hp].
  assert (lowest t <= 0 <= highest t) by (unfold lowest, highest; destruct (signed t); lia).
  split; [intros ->; lia|]. unfold clamp. destruct (Z.ltb_spec 0 x); destruct Ho; zcases; nia.
Qed.
Lemma shifted_far n : w <= n -> within t (shifted x n) = (x =? 0).
Proof.
  intros Hn. pose proof (size_pos t). destruct (pow_over n Hn) as [E Hq]. unfold shifted. destruct (Z.leb_spec 0 n); [|lia].
  pose proof (half_size t) as [Hd Hp]. destruct (Z.eqb_spec x 0) as [->|Hne]; unfold within, lowest, highest.
  - rewrite Z.mul_0_l. destruct (signed t); apply andb_true_iff; rewrite !Z.leb_le; lia.
  - rewrite E. destruct (signed t); apply andb_false_iff; rewrite !Z.leb_gt; nia.
Qed.
End Shifted.

(** ** The texts of shifts *)

(** The cases of the number of bits. *)
Ltac shift_cases :=
  repeat match goal with
  | |- context [?a <=? ?b] => destruct (Z.leb_spec a b); cbn [negb andb orb]
  | |- context [sgn 8 ?y <? ?b] => destruct (Z.ltb_spec (sgn 8 y) b); cbn [negb andb orb]
  | |- context [sgn 8 ?y =? ?b] => destruct (Z.eqb_spec (sgn 8 y) b); cbn [negb andb orb]
  end; try lia.

Lemma shl_u_lane t : signed t = false -> lane_ok VSHL t (shl_u_fn t).
Proof.
  intros Hu. lane_start. pose proof (size_pos t). unfold shl_u_fn. cbv zeta. shift_cases; apply assigns_ret.
  - by rewrite (shifted_out t).
  - rewrite (shifted_sign t) by done. by rewrite Hu.
  - by rewrite shifted_right.
  - by rewrite shifted_left.
Qed.
Lemma shl_s_lane t : signed t = true -> lane_ok VSHL t (shl_s_fn t).
Proof.
  intros Hu. lane_start. pose proof (size_pos t). unfold shl_s_fn. cbv zeta. shift_cases; apply assigns_ret.
  - by rewrite (shifted_out t).
  - rewrite (shifted_sign t) by done. by rewrite Hu.
  - by rewrite shifted_right.
  - by rewrite shifted_left.
Qed.

Lemma rshl_s_lane t : signed t = true -> lane_ok VRSHL t (rshl_s_fn t).
Proof.
  intros Hu. lane_start. pose proof (size_pos t). unfold rshl_s_fn. cbv zeta. shift_cases; apply assigns_ret.
  - by rewrite rounded_left, (shifted_out t) by lia.
  - rewrite (rounded_out t) by (done || lia || congruence). done.
  - by rewrite rounded_right.
  - by rewrite rounded_left, shifted_left by lia.
Qed.

Lemma rshl_u_lane t : signed t = false -> lane_ok VRSHL t (rshl_u_fn t).
Proof.
  intros Hu. lane_start. pose proof (size_pos t). unfold rshl_u_fn. cbv zeta. shift_cases; try apply assigns_ret.
  - by rewrite rounded_left, (shifted_out t) by lia.
  - rewrite (rounded_out t) by (done || lia || congruence). done.
  - rewrite e, (rounded_word t) by done. f_equal. f_equal. lia.
  - by rewrite rounded_right.
  - by rewrite rounded_left, shifted_left by lia.
Qed.

(** The exact result and its limits, for a shift by [n] bits to the left, and to
    the right, where nothing saturates. *)
Lemma in_limits_type t z : within t z = true -> clamp (lowest t) (highest t) z = z.
Proof. rewrite within_range. intros Hz. unfold clamp. zcases. Qed.

Lemma left_u_assigns t x n : signed t = false -> within t x = true -> 0 <= n < size t ->
  assigns (size t) (left_u t x n) true (wrap (size t) (clamp (lowest t) (highest t) (shifted x n))) (within t (shifted x n)).
Proof.
  intros Hu Hx Hn. unfold left_u, saturate_u. cbv zeta. rewrite shifted_back by done. apply assigns_if; [done|].
  destruct (within t (shifted x n)) eqn:E; cbn [negb].
  - rewrite in_limits_type by done. rewrite conv_wrap. by rewrite shifted_left by lia.
  - destruct (shifted_limit t x Hx n) as [Hne ->]; [lia|done|]. pose proof (proj1 (within_range t x) Hx) as Hr.
    unfold lowest, highest in *. rewrite Hu in *. destruct (Z.ltb_spec 0 x); [|lia]. by destruct t.
Qed.

Lemma far_u_assigns t x n : signed t = false -> within t x = true -> size t <= n ->
  assigns (size t) (if negb (x =? 0) then saturate_u else ret 0) true
    (wrap (size t) (clamp (lowest t) (highest t) (shifted x n))) (within t (shifted x n)).
Proof.
  intros Hu Hx Hn. pose proof (size_pos t). unfold saturate_u. pose proof (shifted_far t x Hx n Hn) as Hf. rewrite Hf. apply assigns_if; [done|].
  destruct (Z.eqb_spec x 0) as [->|Hne]; cbn [negb].
  - unfold shifted. destruct (Z.leb_spec 0 n); [|lia]. rewrite Z.mul_0_l, in_limits_type; [by destruct t|by destruct t].
  - destruct (shifted_limit t x Hx n) as [_ ->]; [lia|done|]. pose proof (proj1 (within_range t x) Hx) as Hr.
    unfold lowest, highest in *. rewrite Hu in *. destruct (Z.ltb_spec 0 x); [|lia]. by destruct t.
Qed.

Lemma qshl_u_lane t : signed t = false -> lane_ok VQSHL t (qshl_u_fn t).
Proof.
  intros Hu. assert (forall x y, vdefined VQSHL t x y = true) as Hd by (by destruct t). intros x y Hx Hy. rewrite Hd.
  unfold vvalue, vexact. cbn [exact saturates result_type negb orb]. cbv zeta. pose proof (size_pos t). unfold qshl_u_fn. cbv zeta.
  destruct (Z.leb_spec (size t) (sgn 8 y)); [by apply far_u_assigns|].
  destruct (Z.leb_spec (sgn 8 y) (- size t)); [|destruct (Z.ltb_spec (sgn 8 y) 0); [|by apply left_u_assigns]].
  all: destruct (shifted_within t x Hx (sgn 8 y) ltac:(lia)) as [E _]; rewrite E, in_limits_type by done; apply assigns_ret.
  - rewrite (shifted_sign t) by done. by rewrite Hu.
  - by rewrite shifted_right.
Qed.

Lemma qrshl_u_lane t : signed t = false -> lane_ok VQRSHL t (qrshl_u_fn t).
Proof.
  intros Hu. lane_start. pose proof (size_pos t). unfold qrshl_u_fn. cbv zeta.
  destruct (Z.leb_spec (size t) (sgn 8 y)); [rewrite rounded_left by lia; by apply far_u_assigns|].
  destruct (Z.ltb_spec (sgn 8 y) 0).
  2: { rewrite rounded_left by lia. destruct (Z.ltb_spec (sgn 8 y) (- size t)), (Z.eqb_spec (sgn 8 y) (- size t)); try lia. by apply left_u_assigns. }
  destruct (shifted_within t x Hx (sgn 8 y) ltac:(lia)) as [_ E]; rewrite E, in_limits_type by done.
  shift_cases; apply assigns_ret.
  - by rewrite (rounded_out t) by (done || lia).
  - by rewrite e, (rounded_word t).
  - by rewrite rounded_right.
Qed.

(** Signed elements: where [dest--] overflows. *)
Definition limit_defined (t : vtype) (z : Z) : bool := match t with S32 => z <? 2 ^ 31 | _ => true end.

Lemma saturate_s_assigns t x z : signed t = true -> size t <= 32 -> within t x = true -> within t z = false ->
  x <> 0 -> clamp (lowest t) (highest t) z = (if 0 <? x then highest t else lowest t) ->
  assigns (size t) (saturate_s t x) (limit_defined t z) (wrap (size t) (clamp (lowest t) (highest t) z)) false.
Proof.
  intros Hs Hw Hx Hz Hne Hc. rewrite Hc. assert ((0 <? x) = (highest t <? z)) as Hside.
  { unfold within in Hz. unfold clamp in Hc. apply andb_false_iff in Hz. rewrite !Z.leb_gt in Hz. revert Hc.
    assert (lowest t < highest t) by (by destruct t). destruct (Z.ltb_spec 0 x), (Z.ltb_spec z (lowest t)), (Z.ltb_spec (highest t) z); intros; first [done|exfalso; lia]. }
  unfold saturate_s. cbv zeta. destruct (Z.ltb_spec 0 x) as [Hp|Hp].
  - symmetry in Hside. apply Z.ltb_lt in Hside. destruct t; try done; [exists (-129)|exists (-32769)|exists (2 ^ 31 - 1)]; try done.
    split; [done|]. intros env. cbn [limit_defined highest signed size] in *. destruct (Z.ltb_spec z (2 ^ 31)); [lia|done].
  - symmetry in Hside. apply Z.ltb_ge in Hside. eexists. split; [|intros env; assert (limit_defined t z = true) as ->; [|reflexivity]].
    + destruct t; done.
    + destruct t; try done. cbn [limit_defined highest signed size] in *. apply Z.ltb_lt. lia.
Qed.

Lemma limit_defined_within t z : within t z = true -> limit_defined t z = true.
Proof. rewrite within_range. intros Hz. destruct t; try done. cbn [limit_defined highest lowest signed size] in *. apply Z.ltb_lt. lia. Qed.

Lemma left_s_assigns t x n : signed t = true -> size t <= 32 -> within t x = true -> 0 <= n < size t ->
  assigns (size t) (left_s t x n) (limit_defined t (shifted x n)) (wrap (size t) (clamp (lowest t) (highest t) (shifted x n)))
    (within t (shifted x n)).
Proof.
  intros Hs Hw Hx Hn. unfold left_s. cbv zeta. rewrite shifted_back by done. destruct (within t (shifted x n)) eqn:E; cbn [negb].
  - rewrite limit_defined_within, in_limits_type by done. apply assigns_ret. rewrite conv_wrap. by rewrite shifted_left by lia.
  - destruct (shifted_limit t x Hx n) as [Hne Hc]; [lia|done|]. by apply saturate_s_assigns.
Qed.

Lemma far_s_assigns t x n : signed t = true -> size t <= 32 -> within t x = true -> size t <= n ->
  assigns (size t) (if negb (x =? 0) then saturate_s t x else ret 0) (limit_defined t (shifted x n))
    (wrap (size t) (clamp (lowest t) (highest t) (shifted x n))) (within t (shifted x n)).
Proof.
  intros Hs Hw Hx Hn. pose proof (size_pos t). pose proof (shifted_far t x Hx n Hn) as Hf. rewrite Hf. destruct (Z.eqb_spec x 0) as [->|Hne]; cbn [negb].
  - unfold shifted in *. destruct (Z.leb_spec 0 n); [|lia]. rewrite Z.mul_0_l in *. rewrite limit_defined_within, in_limits_type by done. by apply assigns_ret.
  - destruct (shifted_limit t x Hx n) as [_ Hc]; [lia|done|]. by apply saturate_s_assigns.
Qed.

Lemma qshl_s_lane t : signed t = true -> size t <= 32 -> lane_ok VQSHL t (qshl_s_fn t).
Proof.
  intros Hs Hw x y Hx Hy. assert (vdefined VQSHL t x y = limit_defined t (shifted x (sgn 8 y))) as -> by (by destruct t).
  unfold vvalue, vexact. cbn [exact saturates result_type negb orb]. cbv zeta. pose proof (size_pos t). unfold qshl_s_fn. cbv zeta.
  destruct (Z.leb_spec (size t) (sgn 8 y)).
  { assert ((if negb (x =? 0) then saturate_s t x else ret x) = (if negb (x =? 0) then saturate_s t x else ret 0)) as -> by (by destruct (Z.eqb_spec x 0) as [->|]).
    by apply far_s_assigns. }
  destruct (Z.leb_spec (sgn 8 y) (- size t)); [|destruct (Z.ltb_spec (sgn 8 y) 0); [|by apply left_s_assigns]].
  all: destruct (shifted_within t x Hx (sgn 8 y) ltac:(lia)) as [E _]; rewrite E, limit_defined_within, in_limits_type by done; apply assigns_ret.
  - rewrite (shifted_sign t) by done. rewrite Hs. f_equal. destruct (size_bound t x Hx) as (Hb & _ & Hb'). specialize (Hb' Hs).
    assert (2 ^ (size t - 1) <= 2 ^ 31) by (apply Z.pow_le_mono_r; lia). rewrite !shiftr_div by lia. destruct (Z.le_gt_cases 0 x).
    + by rewrite !Z.div_small by lia.
    + by rewrite !neg_small_div by lia.
  - by rewrite shifted_right.
Qed.

Lemma qrshl_s_lane t : small t = true -> signed t = true -> lane_ok VQRSHL t (qrshl_s_fn t).
Proof.
  intros Hsm Hs. assert (size t <= 32) as Hw by (by destruct t). assert (forall z, limit_defined t z = true) as Hd by (by destruct t).
  lane_start. pose proof (size_pos t). unfold qrshl_s_fn. cbv zeta.
  destruct (Z.leb_spec (size t) (sgn 8 y)); [rewrite rounded_left by lia; rewrite <- (Hd (shifted x (sgn 8 y))); by apply far_s_assigns|].
  destruct (Z.ltb_spec (sgn 8 y) 0).
  2: { rewrite rounded_left by lia. destruct (Z.leb_spec (sgn 8 y) (- size t)); [lia|]. rewrite <- (Hd (shifted x (sgn 8 y))). by apply left_s_assigns. }
  destruct (shifted_within t x Hx (sgn 8 y) ltac:(lia)) as [_ E]; rewrite E, in_limits_type by done.
  destruct (Z.leb_spec (sgn 8 y) (- size t)); apply assigns_ret.
  - by rewrite (rounded_out t) by (done || lia || congruence).
  - by rewrite rounded_right.
Qed.

(** Unsigned saturation of signed elements; the text sees their bits. *)
Lemma sgn_low t y : sgn 8 (wrap (size t) y) = sgn 8 y.
Proof. unfold sgn. by rewrite wrap_wrap by (by destruct t). Qed.

Lemma shifted_neg x n : x < 0 -> shifted x n < 0.
Proof. intros Hx. unfold shifted. destruct (Z.leb_spec 0 n); [nia|]. apply Z.div_lt_upper_bound; lia. Qed.

Lemma negative_clamps t x n : x < 0 -> within (unsigned t) (shifted x n) = false /\
  clamp (lowest (unsigned t)) (highest (unsigned t)) (shifted x n) = 0.
Proof.
  intros Hx. pose proof (shifted_neg x n Hx). unfold within, clamp. assert (lowest (unsigned t) = 0) as -> by (by destruct t).
  destruct (Z.ltb_spec (shifted x n) 0), (Z.leb_spec 0 (shifted x n)); lia || done.
Qed.

Lemma top_sign t x : signed t = true -> within t x = true -> test (wrap (size t) x) (1 << (size t - 1)) = (x <? 0).
Proof.
  intros Hs Hx. pose proof (size_pos t). pose proof (half_size t) as [Hd Hp]. destruct (size_bound t x Hx) as (Hb & _ & Hb'). specialize (Hb' Hs).
  rewrite Z.shiftl_1_l, test_top, top_bit by (done || (apply fits_wrap; lia) || lia). rewrite wrap_cases by lia. bounds.
Qed.

Lemma qshlu_lane t x y : small t = true -> signed t = true -> within t x = true ->
  assigns (size t) (qshlu_fn (unsigned t) (wrap (size t) x) (wrap (size t) y)) true (vvalue VQSHLU t x y) (vexact VQSHLU t x y).
Proof.
  intros Hsm Hs Hx. unfold qshlu_fn, vvalue, vexact. cbn [exact saturates result_type negb orb]. cbv zeta.
  assert (size (unsigned t) = size t) as Esz by (by destruct t). rewrite Esz, top_sign by done. destruct (Z.ltb_spec x 0).
  - destruct (negative_clamps t x (sgn 8 y)) as [-> ->]; [done|]. by exists 0.
  - assert (within (unsigned t) x = true) as Hxu.
    { apply within_range. apply within_range in Hx. by destruct t; cbn in *; lia. }
    assert (wrap (size t) x = x) as ->.
    { apply conv_id in Hxu. unfold conv in Hxu. rewrite Esz in Hxu. by destruct t. }
    assert (within (unsigned t) (wrap (size t) y) = true) as Hyu.
    { rewrite <- (conv_within (unsigned t) y). unfold conv. rewrite Esz. by destruct t. }
    destruct (qshl_u_lane (unsigned t) ltac:(by destruct t) x (wrap (size t) y) Hxu Hyu) as (d & Hd & Hr).
    exists d. unfold vvalue, vexact in *. cbn [exact saturates result_type negb orb] in *. rewrite sgn_low, Esz in *. split; [exact Hd|].
    assert (vdefined VQSHL (unsigned t) x (wrap (size t) y) = true) as Et by (by destruct t). rewrite Et in Hr. exact Hr.
Qed.

(** ** Doubling multiplication *)

Lemma wrap_high h w z : 0 < h -> w = 2 * h -> wrap h (wrap w z >> h) = wrap h (z / 2 ^ h).
Proof.
  intros Hh ->. rewrite shiftr_div by lia. unfold wrap. pose proof (Z.div_mod z (2 ^ (2 * h)) ltac:(lia)) as E.
  rewrite E at 2. replace (2 ^ (2 * h)) with (2 ^ h * 2 ^ h) at 2 by (rewrite <- Z.pow_add_r by lia; f_equal; lia).
  replace (2 ^ h * 2 ^ h * (z / 2 ^ (2 * h)) + z mod 2 ^ (2 * h)) with (z mod 2 ^ (2 * h) + (2 ^ h * (z / 2 ^ (2 * h))) * 2 ^ h) by lia.
  rewrite Z.div_add by lia. rewrite (Z.mul_comm (2 ^ h)). by rewrite Z.mod_add by lia.
Qed.

(** The products that can be doubled. *)
Lemma product_bound B x y : 0 < B -> - B <= x <= B - 1 -> - B <= y <= B - 1 ->
  (x = - B /\ y = - B) \/ (- (B * B) <= x * y <= B * B - B).
Proof. intros HB Hx Hy. destruct (Z.eq_dec x (- B)) as [->|], (Z.eq_dec y (- B)) as [->|]; [by left|right; nia..]. Qed.

Lemma doubled_sign w p : 1 < w -> - 2 ^ (w - 2) <= p < 2 ^ (w - 2) ->
  test (wrap w p .^ wrap w (wrap w p << 1)) (1 << (w - 1)) = false /\ wrap w (wrap w p << 1) = wrap w (2 * p).
Proof.
  intros Hw Hp. assert (2 ^ w = 4 * 2 ^ (w - 2) /\ 2 ^ (w - 1) = 2 * 2 ^ (w - 2)) as [E1 E2].
  { split; [replace w with (2 + (w - 2)) at 1 by lia; by rewrite Z.pow_add_r by lia|]. rewrite <- (Z.pow_succ_r 2) by lia. f_equal. lia. }
  assert (wrap w (wrap w p << 1) = wrap w (2 * p)) as Ed.
  { rewrite Z.shiftl_mul_pow2 by lia. change (2 ^ 1) with 2. unfold wrap. rewrite Zmult_mod_idemp_l. by rewrite Z.mul_comm. }
  split; [|done]. rewrite Ed, Z.shiftl_1_l, test_top by (lia || (apply fits_lxor; [lia| |]; apply fits_wrap; lia)).
  rewrite Z.lxor_spec, !top_bit by (lia || (apply fits_wrap; lia)). rewrite !wrap_cases by lia. bounds.
Qed.

Lemma qdmulh_value t h x y : signed t = true -> h = size t -> 16 <= h -> within t x = true -> within t y = true ->
  (x = - 2 ^ (h - 1) /\ y = - 2 ^ (h - 1)) \/
  (assigns h (qdmulh_fn h false x y) true (wrap h (2 * x * y / 2 ^ h)) true /\
   assigns h (qdmulh_fn h true x y) true (wrap h ((2 * x * y + 2 ^ (h - 1)) / 2 ^ h)) true /\
   within t (2 * x * y / 2 ^ h) = true /\ within t ((2 * x * y + 2 ^ (h - 1)) / 2 ^ h) = true).
Proof.
  intros Hs Hh Hb Hx Hy. pose proof (half_size t) as [Hd Hp]. rewrite <- Hh in Hd, Hp. rewrite !within_range in *. unfold lowest, highest in *. rewrite Hs, <- Hh in *.
  destruct (product_bound (2 ^ (h - 1)) x y) as [|Hxy]; [lia..|by left|right].
  assert (2 ^ (2 * h - 2) = 2 ^ (h - 1) * 2 ^ (h - 1)) as Eq by (rewrite <- Z.pow_add_r by lia; f_equal; lia).
  assert (2 ^ (2 * h - 1) = 2 * 2 ^ (2 * h - 2)) as Eq1 by (rewrite <- (Z.pow_succ_r 2) by lia; f_equal; lia).
  assert (2 ^ (2 * h) = 2 * 2 ^ (2 * h - 1)) as Eq2 by (rewrite <- (Z.pow_succ_r 2) by lia; f_equal; lia).
  set (B := 2 ^ (h - 1)) in *. replace (2 * x * y) with (2 * (x * y)) by lia. remember (x * y) as p eqn:Hprod in *.
  destruct (doubled_sign (2 * h) p) as [Et Ed]; [lia|lia|].
  assert (sgn (2 * h) (wrap (2 * h) (2 * p)) = 2 * p) as Eold.
  { unfold sgn. rewrite wrap_wrap, wrap_cases by lia. zcases. }
  assert (sgn (2 * h) (wrap (2 * h) (wrap (2 * h) (2 * p) + (1 << (h - 1)))) = 2 * p + B) as Enew.
  { rewrite Z.shiftl_1_l. fold B. assert (wrap (2 * h) (wrap (2 * h) (2 * p) + B) = wrap (2 * h) (2 * p + B)) as -> by (unfold wrap; by rewrite Z.add_mod_idemp_l by lia).
    unfold sgn. rewrite wrap_wrap, wrap_cases by lia. zcases. }
  split; [|split; [|split]].
  - exists (wrap (2 * h) (2 * p) >> h). split; [apply wrap_high; lia|]. intros env. unfold qdmulh_fn. cbv zeta. rewrite <- Hprod. rewrite Et, Ed. done.
  - exists (wrap (2 * h) (2 * p + B) >> h). split; [apply wrap_high; lia|]. intros env. unfold qdmulh_fn. cbv zeta. rewrite <- Hprod. rewrite Et, Ed.
    rewrite !bind_ret. rewrite Eold, Enew. destruct (Z.ltb_spec (2 * p + B) (2 * p)); [lia|]. rewrite bind_ret. unfold ret. cbn [qc_env]. do 3 f_equal.
    rewrite Z.shiftl_1_l. fold B. f_equal. unfold wrap. by rewrite Z.add_mod_idemp_l by lia.
  - pose proof (Z.div_mod (2 * p) (2 ^ h) ltac:(lia)). pose proof (Z.mod_pos_bound (2 * p) (2 ^ h) ltac:(lia)). nia.
  - pose proof (Z.div_mod (2 * p + B) (2 ^ h) ltac:(lia)). pose proof (Z.mod_pos_bound (2 * p + B) (2 ^ h) ltac:(lia)). nia.
Qed.

Lemma qdmulh_lane t : signed t = true -> 16 <= size t <= 32 ->
  lane_ok VQDMULH t (qdmulh_fn (size t) false) /\ lane_ok VQRDMULH t (qdmulh_fn (size t) true).
Proof.
  intros Hs Hsz. split; lane_start; (assert (- 2 ^ (size t - 1) <= x /\ - 2 ^ (size t - 1) <= y) as Hb by (destruct (size_bound t x Hx), (size_bound t y Hy); lia)).
  all: destruct (qdmulh_value t (size t) x y Hs eq_refl ltac:(lia) Hx Hy) as [[-> ->]|(H1 & H2 & H3 & H4)].
  1: destruct t; try (done || (cbn [size] in Hsz; lia)); [exists 32767|exists (2 ^ 31 - 1)]; (split; [done|]); intros env; reflexivity.
  2: destruct t; try (done || (cbn [size] in Hsz; lia)); [exists 32767|exists (2 ^ 31 - 1)]; (split; [done|]); intros env.
  2-3: match goal with |- _ = Done (?d, _, _) => transitivity (Done (d, qc_env false (qc_env false env), @nil cpu_event)) end; [reflexivity|by rewrite qc_twice].
  - by rewrite H3, in_limits_type.
  - by rewrite H4, in_limits_type.
Qed.

(** ** Arithmetic on packed elements at once *)

Section PackOps.
Context (w : Z) (Hw : 0 < w).

(** An operation on bits works on every element. *)
Lemma pack_bits (op : Z -> Z -> Z) (bop : bool -> bool -> bool) l m :
  (forall a b i, 0 <= i -> Z.testbit (op a b) i = bop (Z.testbit a i) (Z.testbit b i)) -> bop false false = false ->
  Forall (fits w) l -> Forall (fits w) m -> length l = length m ->
  op (pack w l) (pack w m) = pack w (zip_with op l m) /\ Forall (fits w) (zip_with op l m).
Proof.
  intros Hop Hff Hl. revert m. induction Hl as [|x l Hx Hl IH]; intros m Hm Hlen; destruct Hm as [|y m Hy Hm]; try done.
  - split; [|done]. cbn. apply Z.bits_inj'. intros i Hi. by rewrite Hop, Z.bits_0.
  - injection Hlen as Hlen. destruct (IH m Hm Hlen) as [E Hf].
    assert (fits w (op x y)) as Hxy.
    { assert (forall i, w <= i -> Z.testbit (op x y) i = false) as Hhigh by (intros i Hi; rewrite Hop by lia; by rewrite (fits_high w x), (fits_high w y) by (done || lia)).
      replace (op x y) with (wrap w (op x y)); [apply fits_wrap; lia|]. apply Z.bits_inj'. intros i Hi. rewrite testbit_wrap by lia.
      destruct (Z.ltb_spec i w); [done|]. by rewrite Hhigh. }
    split; [|by constructor]. cbn [pack zip_with]. rewrite !wrap_fits, <- E by done. apply Z.bits_inj'. intros i Hi.
    rewrite Hop, !Z.lor_spec, !Z.shiftl_spec by done. destruct (Z.lt_ge_cases i w).
    + rewrite !(Z.testbit_neg_r _ (i - w)) by lia. rewrite !orb_false_r. by rewrite Hop.
    + rewrite (fits_high w x), (fits_high w y), (fits_high w (op x y)) by (done || lia). cbn [orb]. by rewrite Hop by lia.
Qed.

(** A sum or difference works on every element if none of them leaves its place. *)
Lemma pack_sum l m : Forall (fits w) l -> Forall (fits w) m -> length l = length m -> Forall (fits w) (zip_with Z.add l m) ->
  pack w l + pack w m = pack w (zip_with Z.add l m).
Proof.
  intros Hl. revert m. induction Hl as [|x l Hx Hl IH]; intros m Hm Hlen Hs; destruct Hm as [|y m Hy Hm]; try done.
  injection Hlen as Hlen. cbn [zip_with] in *. apply Forall_cons in Hs as [Hxy Hs]. rewrite !pack_add by lia. rewrite <- IH by done. rewrite !wrap_fits by done. lia.
Qed.
Lemma pack_diff l m : Forall (fits w) l -> Forall (fits w) m -> length l = length m -> Forall (fits w) (zip_with Z.sub l m) ->
  pack w l - pack w m = pack w (zip_with Z.sub l m).
Proof.
  intros Hl. revert m. induction Hl as [|x l Hx Hl IH]; intros m Hm Hlen Hs; destruct Hm as [|y m Hy Hm]; try done.
  injection Hlen as Hlen. cbn [zip_with] in *. apply Forall_cons in Hs as [Hxy Hs]. rewrite !pack_add by lia. rewrite <- IH by done. rewrite !wrap_fits by done. lia.
Qed.

(** A word is its elements. *)
Lemma lane_fits n x : fits w (lane w n x).
Proof. apply Z.mod_pos_bound. lia. Qed.
Lemma pack_of_lanes x (k : nat) i : 0 <= i -> x / 2 ^ (w * i) mod 2 ^ (w * Z.of_nat k) = pack w (map (fun n => lane w n x) (seqZ i (Z.of_nat k))).
Proof.
  revert i. induction k as [|k IH]; intros i Hi; [rewrite Z.mul_0_r; apply Z.mod_1_r|].
  replace (Z.of_nat (S k)) with (Z.succ (Z.of_nat k)) by lia. rewrite seqZ_cons, Z.pred_succ by lia. cbn [map].
  rewrite pack_add by lia. rewrite <- IH by lia. rewrite wrap_fits by apply lane_fits. unfold lane.
  replace (w * Z.succ (Z.of_nat k)) with (w + w * Z.of_nat k) by lia. rewrite Z.pow_add_r by nia.
  assert (0 < 2 ^ (w * i)) by (apply Z.pow_pos_nonneg; nia). assert (0 < 2 ^ (w * Z.of_nat k)) by (apply Z.pow_pos_nonneg; nia).
  rewrite Z.rem_mul_r by lia. f_equal. f_equal. rewrite Z.div_div by lia. f_equal. f_equal. rewrite <- Z.pow_add_r by nia. f_equal. lia.
Qed.
Lemma word_lanes x (k : nat) : fits (w * Z.of_nat k) x -> x = pack w (map (fun n => lane w n x) (seqZ 0 (Z.of_nat k))).
Proof. intros Hx. rewrite <- pack_of_lanes by lia. rewrite Z.mul_0_r, Z.div_1_r. symmetry. by apply Z.mod_small. Qed.
End PackOps.

(** The top bit is added by an exclusive or. *)
Lemma lxor_top w s : 0 < w -> fits w s -> s .^ 2 ^ (w - 1) = wrap w (s + 2 ^ (w - 1)).
Proof.
  intros Hw Hs. pose proof (top_double w Hw) as [Hd Hp]. unfold fits in Hs.
  assert (forall r, 0 <= r < 2 ^ (w - 1) -> r .^ 2 ^ (w - 1) = r + 2 ^ (w - 1)) as Hlow.
  { intros r Hr. rewrite <- Z.add_nocarry_lxor; [done|]. apply Z.bits_inj'. intros i Hi. rewrite Z.land_spec, Z.bits_0.
    destruct (Z.eq_dec i (w - 1)) as [->|Hne]; [|rewrite Z.pow2_bits_false by lia; apply andb_false_r].
    rewrite (fits_high (w - 1) r) by (unfold fits; lia || lia). done. }
  rewrite wrap_cases by lia. destruct (Z.ltb_spec (s + 2 ^ (w - 1)) 0); [lia|]. destruct (Z.ltb_spec (s + 2 ^ (w - 1)) (2 ^ w)).
  - apply Hlow. lia.
  - replace s with ((s - 2 ^ (w - 1)) .^ 2 ^ (w - 1)) at 1 by (rewrite Hlow by lia; lia).
    rewrite Z.lxor_assoc, Z.lxor_nilpotent, Z.lxor_0_r. lia.
Qed.

Lemma land_top w z : 0 < w -> z .& 2 ^ (w - 1) = if Z.testbit z (w - 1) then 2 ^ (w - 1) else 0.
Proof.
  intros Hw. apply Z.bits_inj'. intros i Hi. rewrite Z.land_spec. destruct (Z.eq_dec i (w - 1)) as [->|Hne].
  - rewrite Z.pow2_bits_true by lia. rewrite andb_true_r. destruct (Z.testbit z (w - 1)); [by rewrite Z.pow2_bits_true by lia|by rewrite Z.bits_0].
  - rewrite Z.pow2_bits_false by lia. rewrite andb_false_r. destruct (Z.testbit z (w - 1)); [by rewrite Z.pow2_bits_false by lia|by rewrite Z.bits_0].
Qed.
Lemma low_part w x : 0 < w -> fits w x -> x .& (2 ^ (w - 1) - 1) = if Z.testbit x (w - 1) then x - 2 ^ (w - 1) else x.
Proof.
  intros Hw Hx. pose proof (top_double w Hw) as [Hd Hp]. rewrite top_bit, land_ones by (done || lia). unfold fits in Hx. destruct (Z.leb_spec (2 ^ (w - 1)) x).
  - symmetry. apply (Z.mod_unique _ _ 1); lia.
  - apply Z.mod_small. lia.
Qed.

(** The element of a sum, and of a difference, whose top bit is done apart. *)
Lemma add_element w x y : 0 < w -> fits w x -> fits w y -> let m := 2 ^ (w - 1) in
  fits w ((x .& (m - 1)) + (y .& (m - 1))) /\ ((x .& (m - 1)) + (y .& (m - 1))) .^ ((x .^ y) .& m) = wrap w (x + y).
Proof.
  intros Hw Hx Hy m. unfold m. pose proof (top_double w Hw) as [Hd Hp]. rewrite !low_part, land_top, Z.lxor_spec by done.
  pose proof (top_bit w Hw x Hx) as Tx. pose proof (top_bit w Hw y Hy) as Ty. unfold fits in *.
  destruct (Z.testbit x (w - 1)), (Z.testbit y (w - 1)); cbn [xorb]; symmetry in Tx, Ty; rewrite ?Z.leb_le, ?Z.leb_gt in *; (split; [lia|]).
  - rewrite Z.lxor_0_r, wrap_cases by lia. zcases.
  - rewrite lxor_top by (unfold fits; lia). f_equal. lia.
  - rewrite lxor_top by (unfold fits; lia). f_equal. lia.
  - rewrite Z.lxor_0_r, wrap_cases by lia. zcases.
Qed.
Lemma sub_element w x y : 0 < w -> fits w x -> fits w y -> let m := 2 ^ (w - 1) in
  fits w ((x .| m) - (y .& (m - 1))) /\ ((x .| m) - (y .& (m - 1))) .^ ((x .^ (2 ^ w - 1 - y)) .& m) = wrap w (x - y).
Proof.
  intros Hw Hx Hy m. unfold m. pose proof (top_double w Hw) as [Hd Hp].
  assert (x .| 2 ^ (w - 1) = if Z.testbit x (w - 1) then x else x + 2 ^ (w - 1)) as Eo.
  { destruct (Z.testbit x (w - 1)) eqn:Ex.
    - apply Z.bits_inj'. intros i Hi. rewrite Z.lor_spec. destruct (Z.eq_dec i (w - 1)) as [->|Hne]; [by rewrite Ex|].
      rewrite Z.pow2_bits_false by lia. apply orb_false_r.
    - rewrite <- (Z.add_lor_land x). assert (x .& 2 ^ (w - 1) = 0) as ->; [by rewrite land_top, Ex|lia]. }
  rewrite Eo, low_part, land_top, Z.lxor_spec by done.
  assert (fits w (2 ^ w - 1 - y)) as Hn by (unfold fits in *; lia).
  pose proof (top_bit w Hw x Hx) as Tx. pose proof (top_bit w Hw y Hy) as Ty. pose proof (top_bit w Hw _ Hn) as Tn. unfold fits in *.
  destruct (Z.testbit x (w - 1)), (Z.testbit y (w - 1)), (Z.testbit (2 ^ w - 1 - y) (w - 1)); cbn [xorb]; symmetry in Tx, Ty, Tn;
    rewrite ?Z.leb_le, ?Z.leb_gt in *; try (exfalso; lia); (split; [lia|]).
  all: rewrite ?Z.lxor_0_r; try rewrite lxor_top by (unfold fits; lia); rewrite !wrap_cases by lia; zcases.
Qed.

(** Words whose elements are given, and constants with equal elements. *)
Section Words.
Context (w : Z) (Hw : 0 < w) (k : nat).
Abbreviation width := (w * Z.of_nat k).
Abbreviation places := (seqZ 0 (Z.of_nat k)).

(** [x] has the elements [v]. *)
Definition made (x : Z) (v : Z -> Z) : Prop := x = pack w (map v places) /\ forall n, n ∈ places -> fits w (v n).

Lemma made_word x : fits width x -> made x (fun n => lane w n x).
Proof. intros Hx. split; [by apply word_lanes|]. intros n _. by apply lane_fits. Qed.
Lemma made_const x v : fits w v -> x = pack w (map (fun _ => v) places) -> made x (fun _ => v).
Proof. done. Qed.

Lemma zip_map (op : Z -> Z -> Z) f g l : zip_with op (map f l) (map g l) = map (fun n : Z => op (f n) (g n)) l.
Proof. induction l as [|x l IH]; [done|]. cbn. by rewrite IH. Qed.
Lemma made_forall v : (forall n, n ∈ places -> fits w (v n)) -> Forall (fits w) (map v places).
Proof. intros Hv. apply Forall_map, Forall_forall. exact Hv. Qed.

Lemma made_bits (op : Z -> Z -> Z) bop x y f g :
  (forall a b i, 0 <= i -> Z.testbit (op a b) i = bop (Z.testbit a i) (Z.testbit b i)) -> bop false false = false ->
  made x f -> made y g -> made (op x y) (fun n => op (f n) (g n)).
Proof.
  intros Hop Hff [-> Hf] [-> Hg]. destruct (pack_bits w Hw op bop (map f places) (map g places)) as [E HF];
    [done|done|by apply made_forall|by apply made_forall|by rewrite !length_map|].
  rewrite zip_map in *. split; [done|]. intros n Hn. rewrite Forall_map, Forall_forall in HF. by apply (HF n).
Qed.
Lemma made_land x y f g : made x f -> made y g -> made (x .& y) (fun n => f n .& g n).
Proof. apply (made_bits Z.land andb); [|done]. intros. apply Z.land_spec. Qed.
Lemma made_lor x y f g : made x f -> made y g -> made (x .| y) (fun n => f n .| g n).
Proof. apply (made_bits Z.lor orb); [|done]. intros. apply Z.lor_spec. Qed.
Lemma made_lxor x y f g : made x f -> made y g -> made (x .^ y) (fun n => f n .^ g n).
Proof. apply (made_bits Z.lxor xorb); [|done]. intros. apply Z.lxor_spec. Qed.
Lemma made_sum x y f g : made x f -> made y g -> (forall n, n ∈ places -> fits w (f n + g n)) -> made (x + y) (fun n => f n + g n).
Proof.
  intros [-> Hf] [-> Hg] Hs. split; [|done]. rewrite (pack_sum w Hw); [by rewrite zip_map|by apply made_forall..|by rewrite !length_map|rewrite zip_map; by apply made_forall].
Qed.
Lemma made_diff x y f g : made x f -> made y g -> (forall n, n ∈ places -> fits w (f n - g n)) -> made (x - y) (fun n => f n - g n).
Proof.
  intros [-> Hf] [-> Hg] Hs. split; [|done]. rewrite (pack_diff w Hw); [by rewrite zip_map|by apply made_forall..|by rewrite !length_map|rewrite zip_map; by apply made_forall].
Qed.

Lemma made_fits x f : made x f -> fits width x.
Proof. intros [-> _]. pose proof (pack_fits w (map f places) ltac:(lia)) as Hp. unfold zlen in Hp. rewrite length_map, length_seqZ in Hp. by rewrite Z2Nat.id in Hp by lia. Qed.
Lemma made_lane x f n : made x f -> n ∈ places -> lane w n x = f n.
Proof.
  intros [-> Hf] Hn. pose proof Hn as Hb. apply elem_of_seqZ in Hb. rewrite (lane_pack w _ n (f n)); [by apply wrap_fits, Hf|done|].
  unfold aget. destruct (Z.ltb_spec n 0); [lia|]. rewrite list_lookup_fmap, lookup_seqZ_lt by lia. cbn. do 2 f_equal. lia.
Qed.
Lemma made_ext x f g : (forall n, n ∈ places -> f n = g n) -> made x f -> made x g.
Proof.
  intros He [-> Hf]. split; [|intros n Hn; rewrite <- He by done; by apply Hf]. f_equal. apply list_fmap_ext. intros i n Hn. apply He. by eapply list_elem_of_lookup_2.
Qed.

(** Sums and differences of all elements at once. *)
Lemma made_add a b ml mt : fits width a -> fits width b -> made ml (fun _ => 2 ^ (w - 1) - 1) -> made mt (fun _ => 2 ^ (w - 1)) ->
  made (wrap width ((a .& ml) + (b .& ml)) .^ ((a .^ b) .& mt)) (fun n => wrap w (lane w n a + lane w n b)).
Proof.
  intros Ha Hb Hl Ht. pose proof (made_word a Ha) as Ma. pose proof (made_word b Hb) as Mb.
  pose proof (made_land _ _ _ _ Ma Hl) as M1. pose proof (made_land _ _ _ _ Mb Hl) as M2. pose proof (made_land _ _ _ _ (made_lxor _ _ _ _ Ma Mb) Ht) as M3.
  assert (forall n, let x := lane w n a in let y := lane w n b in let m := 2 ^ (w - 1) in
    fits w ((x .& (m - 1)) + (y .& (m - 1))) /\ ((x .& (m - 1)) + (y .& (m - 1))) .^ ((x .^ y) .& m) = wrap w (x + y)) as He.
  { intros n. by apply add_element; [|apply lane_fits..]. }
  pose proof (made_sum _ _ _ _ M1 M2 (fun n _ => proj1 (He n))) as M4. rewrite (wrap_fits _ _ (made_fits _ _ M4)).
  eapply made_ext; [|exact (made_lxor _ _ _ _ M4 M3)]. intros n _. apply He.
Qed.
Lemma made_sub a b ml mt nb : fits width a -> fits width b -> made ml (fun _ => 2 ^ (w - 1) - 1) -> made mt (fun _ => 2 ^ (w - 1)) ->
  made nb (fun n => 2 ^ w - 1 - lane w n b) ->
  made (wrap width ((a .| mt) - (b .& ml)) .^ ((a .^ nb) .& mt)) (fun n => wrap w (lane w n a - lane w n b)).
Proof.
  intros Ha Hb Hl Ht Hn. pose proof (made_word a Ha) as Ma. pose proof (made_word b Hb) as Mb.
  pose proof (made_lor _ _ _ _ Ma Ht) as M1. pose proof (made_land _ _ _ _ Mb Hl) as M2. pose proof (made_land _ _ _ _ (made_lxor _ _ _ _ Ma Hn) Ht) as M3.
  assert (forall n, let x := lane w n a in let y := lane w n b in let m := 2 ^ (w - 1) in
    fits w ((x .| m) - (y .& (m - 1))) /\ ((x .| m) - (y .& (m - 1))) .^ ((x .^ (2 ^ w - 1 - y)) .& m) = wrap w (x - y)) as He.
  { intros n. by apply sub_element; [|apply lane_fits..]. }
  pose proof (made_diff _ _ _ _ M1 M2 (fun n _ => proj1 (He n))) as M4. rewrite (wrap_fits _ _ (made_fits _ _ M4)).
  eapply made_ext; [|exact (made_lxor _ _ _ _ M4 M3)]. intros n _. apply He.
Qed.
End Words.

(** ** Elements of 32 and 64 bits *)

Definition word_ok (op : vop) (t : vtype) (h : Z -> Z -> cpu Z) : Prop := forall a b,
  fits (size t) a -> fits (size t) b ->
  runs (h a b) (vdefined op t (conv t a) (conv t b)) (vvalue op t (conv t a) (conv t b)) (vexact op t (conv t a) (conv t b)).

Ltac word_start :=
  intros a b Ha Hb; unfold vdefined, vvalue, vexact; cbn [exact saturates result_type negb orb size] in *; cbv zeta.

Lemma runs_cond {A} (b ok : bool) (x y v : A) : b = negb ok -> (if b then x else y) = v ->
  runs (if b then set_qc ;;; ret x else ret y) true v ok.
Proof. intros -> <-. by destruct ok. Qed.

Lemma conv_u t a : signed t = false -> fits (size t) a -> conv t a = a.
Proof. intros Hu Ha. unfold conv. rewrite Hu. by apply wrap_fits. Qed.
Lemma conv_s t a : signed t = true -> conv t a = sgn (size t) a.
Proof. intros Hs. unfold conv. by rewrite Hs. Qed.

Ltac word_limits := lane_limits; rewrite ?wrap_fits; unfold fits; try done; try lia.

Lemma qadd_u_word : word_ok VQADD U32 neon_qadd_u32 /\ word_ok VQADD U64 neon_qadd_u64.
Proof.
  split; word_start; rewrite !conv_u by done; unfold neon_qadd_u32, neon_qadd_u64; cbv zeta; unfold fits in *; rewrite wrap_cases by lia.
  all: apply runs_cond; word_limits.
Qed.
Lemma qsub_u_word : word_ok VQSUB U32 neon_qsub_u32 /\ word_ok VQSUB U64 neon_qsub_u64.
Proof.
  split; word_start; rewrite !conv_u by done; unfold neon_qsub_u32, neon_qsub_u64; cbv zeta; unfold fits in *.
  - rewrite wrap_cases by lia. apply runs_cond; word_limits.
  - apply runs_cond; word_limits.
Qed.

(** The limit on the side of an operand. *)
Lemma limit_s_value t x : 32 <= size t -> signed t = true -> within t x = true ->
  limit_s (size t) x = if x <? 0 then 2 ^ (size t - 1) else 2 ^ (size t - 1) - 1.
Proof.
  intros Hw Hs Hx. destruct (size_bound t x Hx) as (Hb & _ & Hb'). specialize (Hb' Hs). pose proof (size_pos t).
  unfold limit_s. rewrite shiftr_div by lia. destruct (Z.ltb_spec x 0).
  - rewrite neg_small_div by lia. by destruct t.
  - rewrite Z.div_small by lia. by destruct t.
Qed.

Section SignedWords.
Context (t : vtype) (Hw : 32 <= size t) (Hs : signed t = true).
Abbreviation w := (size t).

(** The overflow test of the code, and the limit it gives. *)
Lemma add_overflows a b : fits w a -> fits w b ->
  let o := test (wrap w (a + b) .^ a) (1 << (w - 1)) && negb (test (a .^ b) (1 << (w - 1))) in
  o = negb (within t (conv t a + conv t b)) /\
  (if o then limit_s w (conv t a) else wrap w (a + b)) = wrap w (clamp (lowest t) (highest t) (conv t a + conv t b)).
Proof.
  intros Ha Hb o. pose proof (size_pos t) as Hp. rewrite limit_s_value, !conv_s by (done || apply conv_within). unfold o.
  rewrite !Z.shiftl_1_l, !test_top by (lia || (apply fits_lxor; (lia || done || (apply fits_wrap; lia)))). rewrite !Z.lxor_spec.
  pose proof (add_overflow w Hp a b 0 Ha Hb ltac:(lia)) as Ho. pose proof (add_saturates w Hp a b Ha Hb) as Hsat. rewrite !Z.add_0_r in Ho.
  unfold clamp_signed, holds_signed in *. unfold within, lowest, highest. rewrite Hs.
  assert (forall z, (z <=? 2 ^ (w - 1) - 1) = (z <? 2 ^ (w - 1))) as El by (intros z; bounds).
  split; [by rewrite Ho, El|]. rewrite <- Hsat. rewrite (top_bit w Hp a Ha), sgn_cases by (done || lia). unfold fits in Ha.
  pose proof (half_size t) as [Hd Hq]. match goal with |- (if ?c then _ else _) = _ => destruct c end; [|done]. destruct (Z.ltb_spec a (2 ^ (w - 1))), (Z.leb_spec (2 ^ (w - 1)) a); try lia.
  all: zcases.
Qed.
Lemma sub_overflows a b : fits w a -> fits w b ->
  let o := test (wrap w (a - b) .^ a) (1 << (w - 1)) && test (a .^ b) (1 << (w - 1)) in
  o = negb (within t (conv t a - conv t b)) /\
  (if o then limit_s w (conv t a) else wrap w (a - b)) = wrap w (clamp (lowest t) (highest t) (conv t a - conv t b)).
Proof.
  intros Ha Hb o. pose proof (size_pos t) as Hp. rewrite limit_s_value, !conv_s by (done || apply conv_within). unfold o.
  rewrite !Z.shiftl_1_l, !test_top by (lia || (apply fits_lxor; (lia || done || (apply fits_wrap; lia)))). rewrite !Z.lxor_spec.
  pose proof (sub_overflow w Hp a b 0 Ha Hb ltac:(lia)) as Ho. pose proof (sub_saturates w Hp a b Ha Hb) as Hsat. rewrite !Z.sub_0_r in Ho.
  unfold clamp_signed, holds_signed in *. unfold within, lowest, highest. rewrite Hs.
  assert (forall z, (z <=? 2 ^ (w - 1) - 1) = (z <? 2 ^ (w - 1))) as El by (intros z; bounds).
  split; [by rewrite Ho, El|]. rewrite <- Hsat. rewrite (top_bit w Hp a Ha), sgn_cases by (done || lia). unfold fits in Ha.
  pose proof (half_size t) as [Hd Hq]. match goal with |- (if ?c then _ else _) = _ => destruct c end; [|done]. destruct (Z.ltb_spec a (2 ^ (w - 1))), (Z.leb_spec (2 ^ (w - 1)) a); try lia.
  all: zcases.
Qed.
End SignedWords.

Lemma limit32 a : fits 32 a -> u32 (Z.lnot (u32 (sgn 32 a >> 31) .^ SIGNBIT)) = limit_s 32 (conv S32 a).
Proof.
  intros Ha. change (u32 (Z.lnot (u32 (sgn 32 a >> 31) .^ SIGNBIT))) with (limit_of a). rewrite limit_value by done.
  rewrite (limit_s_value S32) by (done || apply conv_within). rewrite conv_s by done. cbn [size]. rewrite sgn_cases by done.
  pose proof (top_bit 32 ltac:(lia) a Ha) as T. change (32 - 1) with 31 in *. rewrite T. unfold fits in Ha. bounds.
Qed.

Lemma qadd_s_word : (word_ok VQADD S32 neon_qadd_s32 /\ word_ok VQADD S64 neon_qadd_s64) /\
  word_ok VQSUB S32 neon_qsub_s32 /\ word_ok VQSUB S64 neon_qsub_s64.
Proof.
  split_and!; word_start; unfold neon_qadd_s32, neon_qadd_s64, neon_qsub_s32, neon_qsub_s64; cbv zeta; rewrite ?limit32 by done; apply runs_cond.
  1-2: by apply (add_overflows S32). 1-2: by apply (add_overflows S64). 1-2: by apply (sub_overflows S32). all: by apply (sub_overflows S64).
Qed.

(** Halving without a wider integer. *)
Lemma test_odd_land x y : test (x .& y) 1 = Z.odd x && Z.odd y.
Proof. rewrite test_1_odd, <- !Z.bit0_odd. apply Z.land_spec. Qed.
Lemma test_odd_lor x y : test (x .| y) 1 = Z.odd x || Z.odd y.
Proof. rewrite test_1_odd, <- !Z.bit0_odd. apply Z.lor_spec. Qed.
Lemma test_odd_lnot x y : test (Z.lnot x .& y) 1 = negb (Z.odd x) && Z.odd y.
Proof. rewrite test_odd_land. f_equal. rewrite <- !Z.bit0_odd. by apply Z.lnot_spec. Qed.

Lemma halves_sum x y :
  (x + y) / 2 = (x >> 1) + (y >> 1) + (if Z.odd x && Z.odd y then 1 else 0) /\
  (x + y + 1) / 2 = (x >> 1) + (y >> 1) + (if Z.odd x || Z.odd y then 1 else 0) /\
  (x - y) / 2 = (x >> 1) - (y >> 1) - (if negb (Z.odd x) && Z.odd y then 1 else 0).
Proof.
  rewrite !shiftr_div by done. change (2 ^ 1) with 2. pose proof (Zmod_odd x) as Mx. pose proof (Zmod_odd y) as My.
  pose proof (Z.div_mod x 2 ltac:(lia)) as Dx. pose proof (Z.div_mod y 2 ltac:(lia)) as Dy. set (p := x / 2) in *. set (q := y / 2) in *. clearbody p q.
  destruct (Z.odd x), (Z.odd y); cbn [andb orb negb]; rewrite Mx in Dx; rewrite My in Dy; subst x y; (split; [|split]); symmetry.
  all: first [apply (Z.div_unique _ _ _ 0); lia | apply (Z.div_unique _ _ _ 1); lia].
Qed.

Lemma int_result_ok z : - 2 ^ 31 <= z < 2 ^ 31 -> int_result z = ret z.
Proof. intros Hz. unfold int_result. bounds. Qed.

Lemma half_range x : - 2 ^ 31 <= x < 2 ^ 31 -> - 2 ^ 30 <= x >> 1 < 2 ^ 30.
Proof. rewrite shiftr_div by done. intros Hx. Z.div_mod_to_equations. lia. Qed.

Lemma signed_word a : - 2 ^ 31 <= sgn 32 a < 2 ^ 31.
Proof. pose proof (conv_within S32 a) as Hr. apply within_range in Hr. cbn [lowest highest signed size] in Hr. rewrite conv_s in Hr by done. cbn [size] in Hr. change (32 - 1) with 31 in Hr. lia. Qed.

Lemma halving_s_word : word_ok VHADD S32 neon_hadd_s32 /\ word_ok VRHADD S32 neon_rhadd_s32 /\ word_ok VHSUB S32 neon_hsub_s32.
Proof.
  split_and!; word_start; rewrite !conv_s by done; cbn [size].
  all: pose proof (half_range _ (signed_word a)); pose proof (half_range _ (signed_word b)); destruct (halves_sum (sgn 32 a) (sgn 32 b)) as (E1 & E2 & E3).
  all: intros env; cbn [qc_env]; unfold neon_hadd_s32, neon_rhadd_s32, neon_hsub_s32; cbv zeta.
  - rewrite int_result_ok, bind_ret, test_odd_land by lia. rewrite E1. destruct (_ && _); [rewrite int_result_ok by lia|rewrite Z.add_0_r]; by rewrite bind_ret.
  - rewrite int_result_ok, bind_ret, test_odd_lor by lia. rewrite E2. destruct (_ || _); [rewrite int_result_ok by lia|rewrite Z.add_0_r]; by rewrite bind_ret.
  - rewrite int_result_ok, bind_ret, test_odd_lnot by lia. rewrite E3.
    destruct (Z.odd (sgn 32 a)) eqn:Oa, (Z.odd (sgn 32 b)) eqn:Ob; cbn [andb negb]; rewrite ?Z.sub_0_r; try by rewrite bind_ret.
    rewrite int_result_ok; [by rewrite bind_ret|].
    rewrite !shiftr_div in * by done. change (2 ^ 1) with 2 in *. pose proof (signed_word a). pose proof (signed_word b). Z.div_mod_to_equations. lia.
Qed.

Lemma wrap_step w z c : wrap w (wrap w z + c) = wrap w (z + c).
Proof. unfold wrap. by rewrite Zplus_mod_idemp_l. Qed.

Lemma halving_u_word : word_ok VHADD U32 neon_hadd_u32 /\ word_ok VRHADD U32 neon_rhadd_u32 /\ word_ok VHSUB U32 neon_hsub_u32.
Proof.
  split_and!; word_start; rewrite !conv_u by done; destruct (halves_sum a b) as (E1 & E2 & E3).
  all: intros env; cbn [qc_env]; unfold neon_hadd_u32, neon_rhadd_u32, neon_hsub_u32, ret; cbv zeta; do 3 f_equal.
  - rewrite test_odd_land, E1. destruct (_ && _); [apply wrap_step|by rewrite Z.add_0_r].
  - rewrite test_odd_lor, E2. destruct (_ || _); [apply wrap_step|by rewrite Z.add_0_r].
  - rewrite test_odd_lnot, E3. destruct (negb _ && _); [|by rewrite Z.sub_0_r]. rewrite <- !Z.add_opp_r. by rewrite wrap_step.
Qed.

(** Shifts of words. *)
Lemma sgn_conv t b : sgn 8 (conv t b) = sgn 8 b.
Proof.
  assert (u8 (conv t b) = u8 b) as E; [|unfold sgn; by rewrite E].
  rewrite <- (wrap_wrap 8 (size t)) by (by destruct t). rewrite conv_wrap. apply wrap_wrap. by destruct t.
Qed.

Lemma within_wrap t z : signed t = false -> within t z = true -> wrap (size t) z = z.
Proof. intros Hu Hz. apply conv_id in Hz. unfold conv in Hz. by rewrite Hu in Hz. Qed.

Lemma round64_value max over x n : n < 0 -> over = (max + 1) >> 1 -> round64 max over x n = shifted_round x n.
Proof.
  intros Hn Ho. unfold round64. cbv zeta.
  assert ((if x >> (- n - 1) =? max then over else (x >> (- n - 1) + 1) >> 1) = (x >> (- n - 1) + 1) >> 1) as ->.
  { destruct (Z.eqb_spec (x >> (- n - 1)) max) as [->|]; done. }
  unfold shifted_round. destruct (Z.leb_spec 0 n); [lia|]. rewrite !shiftr_div by lia. change (2 ^ 1) with 2.
  replace (2 ^ (- n)) with (2 ^ (- n - 1) * 2) by (rewrite Z.mul_comm, <- (Z.pow_succ_r 2) by lia; f_equal; lia).
  rewrite <- Z.div_div by lia. f_equal. replace (x + 2 ^ (- n - 1)) with (x + 1 * 2 ^ (- n - 1)) by lia. by rewrite Z.div_add by lia.
Qed.

Lemma runs_eq {A} (x y : A) : x = y -> runs (ret x) true y true.
Proof. by intros ->. Qed.

(** The low byte and the operand are read once. *)
Ltac shift_start :=
  word_start; rewrite !sgn_conv;
  match goal with |- context [conv ?t ?x] => pose proof (conv_within t x) as Hx; try rewrite (conv_u t x) in * by done end.

Lemma shl_word : word_ok VSHL U64 neon_shl_u64 /\ word_ok VSHL S64 neon_shl_s64.
Proof.
  split.
  - shift_start. unfold neon_shl_u64. cbv zeta. shift_cases; apply runs_eq.
    + by rewrite (shifted_out U64).
    + by rewrite (shifted_sign U64).
    + rewrite shifted_right by done. symmetry. apply (within_wrap U64); [done|]. by apply shifted_within.
    + by rewrite shifted_left.
  - shift_start. rewrite conv_s in * by done. cbn [size] in *. unfold neon_shl_s64. cbv zeta. shift_cases; apply runs_eq.
    + by rewrite (shifted_out S64).
    + by rewrite (shifted_sign S64).
    + by rewrite shifted_right.
    + by rewrite shifted_left.
Qed.

Lemma rshl_s_word : word_ok VRSHL S32 neon_rshl_s32 /\ word_ok VRSHL S64 neon_rshl_s64.
Proof.
  split; shift_start; rewrite conv_s in * by done; cbn [size] in *; unfold neon_rshl_s32, neon_rshl_s64; cbv zeta; shift_cases; apply runs_eq.
  - by rewrite rounded_left, (shifted_out S32) by (cbn [size]; lia).
  - by rewrite (rounded_out S32).
  - by rewrite rounded_right.
  - by rewrite rounded_left, shifted_left by lia.
  - by rewrite rounded_left, (shifted_out S64) by (cbn [size]; lia).
  - by rewrite (rounded_out S64).
  - by rewrite round64_value.
  - by rewrite rounded_left, shifted_left by lia.
Qed.

Lemma rounded_u32 x n : within U32 x = true -> -32 < n < 0 -> u32 (u64 (x + (1 << (-1 - n))) >> (- n)) = u32 (shifted_round x n).
Proof.
  intros Hx Hn. apply within_range in Hx. cbn [lowest highest signed size] in Hx. rewrite <- rounded_right by lia. do 2 f_equal. apply wrap_fits.
  rewrite Z.shiftl_1_l. assert (2 ^ (-1 - n) <= 2 ^ 31) by (apply Z.pow_le_mono_r; lia). unfold fits. lia.
Qed.

Lemma rshl_u_word : word_ok VRSHL U32 neon_rshl_u32 /\ word_ok VRSHL U64 neon_rshl_u64.
Proof.
  split; shift_start; unfold neon_rshl_u32, neon_rshl_u64; cbv zeta; shift_cases; apply runs_eq.
  - by rewrite rounded_left, (shifted_out U32) by (cbn [size]; lia).
  - by rewrite (rounded_out U32) by (done || cbn [size]; lia).
  - rewrite e, (rounded_word U32) by done. symmetry. apply (within_wrap U32); [done|]. rewrite <- (rounded_word U32) by done. by apply shifted_within.
  - apply rounded_u32; [done|lia].
  - by rewrite rounded_left, shifted_left by lia.
  - by rewrite rounded_left, (shifted_out U64) by (cbn [size]; lia).
  - by rewrite (rounded_out U64) by (done || cbn [size]; lia).
  - rewrite e, (rounded_word U64) by done. symmetry. apply (within_wrap U64); [done|]. rewrite <- (rounded_word U64) by done. by apply shifted_within.
  - rewrite round64_value by done. symmetry. apply (within_wrap U64); [done|]. by apply shifted_within.
  - by rewrite rounded_left, shifted_left by lia.
Qed.

(** Saturating shifts of words. *)
Section SaturatingWords.
Context (t : vtype) (x n : Z) (Hx : within t x = true).
Abbreviation w := (size t).
Abbreviation clamped := (wrap w (clamp (lowest t) (highest t) (shifted x n))).

Lemma saturated_u : signed t = false -> 0 <= n -> within t (shifted x n) = false -> wrap w (Z.lnot 0) = clamped.
Proof.
  intros Hu Hn Ho. destruct (shifted_limit t x Hx n Hn Ho) as [Hne ->]. pose proof (proj1 (within_range t x) Hx) as Hr.
  unfold lowest, highest in *. rewrite Hu in *. destruct (Z.ltb_spec 0 x); [|lia]. by destruct t.
Qed.
Lemma left_u_word : signed t = false -> 0 <= n < w ->
  runs (if negb (wrap w (x << n) >> n =? x) then set_qc ;;; ret (wrap w (Z.lnot 0)) else ret (wrap w (x << n))) true clamped (within t (shifted x n)).
Proof.
  intros Hu Hn. pose proof (shifted_back t x n Hn) as Hb. unfold conv in Hb. rewrite Hu in Hb. rewrite Hb. apply runs_cond; [done|].
  destruct (within t (shifted x n)) eqn:E; cbn [negb]; [|by apply saturated_u; [|lia|]]. by rewrite in_limits_type, shifted_left by (done || lia).
Qed.
Lemma far_u_word v : signed t = false -> w <= n -> (x = 0 -> v = 0) ->
  runs (if negb (x =? 0) then set_qc ;;; ret (wrap w (Z.lnot 0)) else ret v) true clamped (within t (shifted x n)).
Proof.
  intros Hu Hn Hv. pose proof (size_pos t). pose proof (shifted_far t x Hx n Hn) as Hf. rewrite Hf. apply runs_cond; [done|].
  destruct (Z.eqb_spec x 0) as [E|Hne]; cbn [negb]; [|apply saturated_u; done || lia].
  rewrite Hv by done. unfold shifted. destruct (Z.leb_spec 0 n); [|lia]. by rewrite E, Z.mul_0_l, in_limits_type by (by destruct t); destruct t.
Qed.

Lemma saturated_s : signed t = true -> 32 <= w -> 0 <= n -> within t (shifted x n) = false -> limit_s w x = clamped.
Proof.
  intros Hs Hw Hn Ho. destruct (shifted_limit t x Hx n Hn Ho) as [Hne ->]. rewrite limit_s_value by done. unfold lowest, highest. rewrite Hs.
  destruct (Z.ltb_spec 0 x), (Z.ltb_spec x 0); try lia; by destruct t.
Qed.
Lemma left_s_word : signed t = true -> 32 <= w -> 0 <= n < w ->
  runs (if negb (sgn w (x << n) >> n =? x) then set_qc ;;; ret (limit_s w x) else ret (wrap w (sgn w (x << n)))) true clamped (within t (shifted x n)).
Proof.
  intros Hs Hw Hn. pose proof (shifted_back t x n Hn) as Hb. rewrite conv_s in Hb by done. rewrite Hb. apply runs_cond; [done|].
  destruct (within t (shifted x n)) eqn:E; cbn [negb]; [|by apply saturated_s; [| |lia|]]. rewrite in_limits_type by done.
  rewrite <- conv_s, conv_wrap by done. by rewrite shifted_left by lia.
Qed.
Lemma far_s_word v : signed t = true -> 32 <= w -> w <= n -> (x = 0 -> v = 0) ->
  runs (if negb (x =? 0) then set_qc ;;; ret (limit_s w x) else ret v) true clamped (within t (shifted x n)).
Proof.
  intros Hs Hw Hn Hv. pose proof (size_pos t). pose proof (shifted_far t x Hx n Hn) as Hf. rewrite Hf. apply runs_cond; [done|].
  destruct (Z.eqb_spec x 0) as [E|Hne]; cbn [negb]; [|apply saturated_s; done || lia].
  rewrite Hv by done. unfold shifted. destruct (Z.leb_spec 0 n); [|lia]. by rewrite E, Z.mul_0_l, in_limits_type by (by destruct t); destruct t.
Qed.

(** To the right nothing saturates. *)
Lemma right_word (z : Z) (m : cpu Z) v : within t z = true -> runs m true v true -> v = wrap w z ->
  runs m true (wrap w (clamp (lowest t) (highest t) z)) (within t z).
Proof. intros Hz Hm ->. by rewrite Hz, in_limits_type. Qed.
End SaturatingWords.

Lemma qshl_u64_word a b : fits 64 a ->
  runs (neon_qshl_u64 a b) true (u64 (clamp 0 (2 ^ 64 - 1) (shifted a (sgn 8 b)))) (within U64 (shifted a (sgn 8 b))).
Proof.
  intros Ha. assert (within U64 a = true) as Hx by (apply within_range; unfold fits in Ha; cbn [lowest highest signed size]; lia).
  unfold neon_qshl_u64. cbv zeta. set (n := sgn 8 b).
  destruct (Z.leb_spec 64 n); [by apply (far_u_word U64)|]. destruct (Z.ltb_spec n 0).
  2: { destruct (Z.leb_spec n (-64)); [lia|]. by apply (left_u_word U64). }
  destruct (shifted_within U64 a Hx n) as [E _]; [done|]. destruct (Z.leb_spec n (-64)).
  - apply (right_word U64 _ _ 0); [done|done|]. by rewrite (shifted_sign U64).
  - apply (right_word U64 _ _ (shifted a n)); [done|by rewrite shifted_right|]. symmetry. by apply (within_wrap U64).
Qed.

Lemma qshl_word : word_ok VQSHL U64 neon_qshl_u64 /\ word_ok VQSHL S64 neon_qshl_s64.
Proof.
  split; shift_start; [by apply qshl_u64_word|]. rewrite conv_s in * by done. cbn [size] in *.
  unfold neon_qshl_s64. cbv zeta. set (x := sgn 64 a) in *. set (n := sgn 8 b).
  destruct (Z.leb_spec 64 n); [apply (far_s_word S64); done || by intros ->|]. destruct (Z.ltb_spec n 0).
  2: { destruct (Z.leb_spec n (-64)); [lia|]. by apply (left_s_word S64). }
  destruct (shifted_within S64 x Hx n) as [E _]; [done|]. destruct (Z.leb_spec n (-64)).
  - apply (right_word S64 _ _ (u64 (x >> 63))); [done|done|]. by rewrite (shifted_sign S64).
  - apply (right_word S64 _ _ (u64 (shifted x n))); [done|by rewrite shifted_right|done].
Qed.

Lemma qrshl_u_word : word_ok VQRSHL U32 neon_qrshl_u32 /\ word_ok VQRSHL U64 neon_qrshl_u64.
Proof.
  split; shift_start; unfold neon_qrshl_u32, neon_qrshl_u64; cbv zeta; set (n := sgn 8 b).
  - destruct (Z.leb_spec 32 n); [rewrite rounded_left by lia; by apply (far_u_word U32)|]. destruct (Z.ltb_spec n 0).
    2: { rewrite rounded_left by lia. destruct (Z.ltb_spec n (-32)), (Z.eqb_spec n (-32)); try lia. by apply (left_u_word U32). }
    destruct (shifted_within U32 a Hx n) as [_ E]; [done|]. destruct (Z.ltb_spec n (-32)); [|destruct (Z.eqb_spec n (-32)) as [En|]].
    + apply (right_word U32 _ _ 0); [done|done|]. by rewrite (rounded_out U32) by (done || cbn [size]; lia).
    + rewrite En in *. pose proof (rounded_word U32 a Hx eq_refl) as Er. change (- size U32) with (-32) in Er. rewrite Er in *.
      apply (right_word U32 _ _ (a >> 31)); [done|done|]. symmetry. by apply (within_wrap U32).
    + apply (right_word U32 _ _ (u32 (shifted_round a n))); [done| |done]. apply runs_eq, rounded_u32; [done|lia].
  - destruct (Z.leb_spec 64 n); [rewrite rounded_left by lia; by apply (far_u_word U64)|]. destruct (Z.ltb_spec n 0).
    2: { rewrite rounded_left by lia. destruct (Z.ltb_spec n (-64)), (Z.eqb_spec n (-64)); try lia. by apply (left_u_word U64). }
    destruct (shifted_within U64 a Hx n) as [_ E]; [done|]. destruct (Z.ltb_spec n (-64)); [|destruct (Z.eqb_spec n (-64)) as [En|]].
    + apply (right_word U64 _ _ 0); [done|done|]. by rewrite (rounded_out U64) by (done || cbn [size]; lia).
    + rewrite En in *. pose proof (rounded_word U64 a Hx eq_refl) as Er. change (- size U64) with (-64) in Er. rewrite Er in *.
      apply (right_word U64 _ _ (a >> 63)); [done|done|]. symmetry. by apply (within_wrap U64).
    + apply (right_word U64 _ _ (shifted_round a n)); [done|by rewrite round64_value|]. symmetry. by apply (within_wrap U64).
Qed.

Lemma qrshl_s_word : word_ok VQRSHL S32 neon_qrshl_s32 /\ word_ok VQRSHL S64 neon_qrshl_s64.
Proof.
  split; shift_start; rewrite conv_s in * by done; cbn [size] in *; unfold neon_qrshl_s32, neon_qrshl_s64; cbv zeta;
    [set (x := sgn 32 a) in *|set (x := sgn 64 a) in *]; set (n := sgn 8 b).
  - destruct (Z.leb_spec 32 n); [rewrite rounded_left by lia; by apply (far_s_word S32)|]. destruct (Z.ltb_spec n 0).
    2: { rewrite rounded_left by lia. destruct (Z.leb_spec n (-32)); [lia|]. by apply (left_s_word S32). }
    destruct (shifted_within S32 x Hx n) as [_ E]; [done|]. destruct (Z.leb_spec n (-32)).
    + apply (right_word S32 _ _ 0); [done|done|]. by rewrite (rounded_out S32).
    + apply (right_word S32 _ _ (u32 (shifted_round x n))); [done|by rewrite rounded_right|done].
  - destruct (Z.leb_spec 64 n); [rewrite rounded_left by lia; apply (far_s_word S64); done || by intros ->|]. destruct (Z.ltb_spec n 0).
    2: { rewrite rounded_left by lia. destruct (Z.leb_spec n (-64)); [lia|]. by apply (left_s_word S64). }
    destruct (shifted_within S64 x Hx n) as [_ E]; [done|]. destruct (Z.leb_spec n (-64)).
    + apply (right_word S64 _ _ 0); [done|done|]. by rewrite (rounded_out S64).
    + apply (right_word S64 _ _ (u64 (shifted_round x n))); [done|by rewrite round64_value|done].
Qed.

(** ** Whole registers *)

Lemma vop_lanes op t fn a b : lane_ok op t fn ->
  exists r, packed (size t) (elems t) (fun n => vvalue op t (elem t a n) (elem t b n)) r /\
    runs (NEON_VOP t fn a b) (forallb (fun n => vdefined op t (elem t a n) (elem t b n)) (elems t)) r
      (forallb (fun n => vexact op t (elem t a n) (elem t b n)) (elems t)).
Proof. intros Hfn. apply vop_run. intros n _. apply Hfn; apply conv_within. Qed.

Lemma vvalue_fits op t x y : fits (size t) (vvalue op t x y).
Proof. unfold vvalue. cbv zeta. pose proof (size_pos t). destruct (saturates op); apply fits_wrap; lia. Qed.

(** A register of one element. *)
Lemma one_element t r v : packed (size t) [0] (fun _ => v) r -> fits (size t) v -> r = v.
Proof.
  intros [Hf Hl] Hv. specialize (Hl 0 ltac:(left)). unfold lane in Hl. rewrite Z.mul_0_r, Z.pow_0_r, Z.div_1_r in Hl.
  change (zlen [0]) with 1 in Hf. rewrite Z.mul_1_r in Hf. rewrite (Z.mod_small r), wrap_fits in Hl by done. done.
Qed.
Lemma elem_0 t a : elem t a 0 = conv t a.
Proof. unfold elem. by rewrite Z.mul_0_r, Z.shiftr_0_r. Qed.

Lemma vop_word op fn : lane_ok op U32 fn -> word_ok op U32 (NEON_VOP U32 fn).
Proof.
  intros Hfn a b Ha Hb. destruct (vop_lanes op U32 fn a b Hfn) as (r & Hp & Hr). change (elems U32) with [0] in *.
  cbn [forallb] in Hr. rewrite !andb_true_r, !elem_0 in Hr. rewrite <- (one_element U32 r (vvalue op U32 (conv U32 a) (conv U32 b))); [done| |apply vvalue_fits].
  destruct Hp as [Hf Hl]. split; [done|]. intros n Hn. rewrite Hl by done. apply list_elem_of_singleton in Hn as ->. by rewrite !elem_0.
Qed.

Lemma conv_nonneg t a : signed t = true -> fits (size t) a -> 0 <= sgn (size t) a -> sgn (size t) a = a.
Proof. intros Hs Ha. pose proof (half_size t). rewrite sgn_cases by done. unfold fits in Ha. zcases. Qed.

Lemma qshlu_word : word_ok VQSHLU S32 neon_qshlu_s32 /\ word_ok VQSHLU S64 neon_qshlu_s64.
Proof.
  split; word_start; rewrite !sgn_conv, conv_s by done; cbn [size unsigned]; unfold neon_qshlu_s32, neon_qshlu_s64.
  - destruct (Z.ltb_spec (sgn 32 a) 0).
    + destruct (negative_clamps S32 (sgn 32 a) (sgn 8 b)) as [E1 E2]; [done|]. cbn [unsigned] in E1, E2. rewrite E1, E2. apply runs_qc.
    + pose proof (conv_nonneg S32 a eq_refl Ha ltac:(done)) as En. cbn [size] in En. rewrite En. pose proof (vop_word VQSHL (qshl_u_fn U32) (qshl_u_lane U32 eq_refl) a b Ha Hb) as Hr.
      unfold vvalue, vexact, vdefined in Hr. cbn [exact saturates result_type negb orb] in Hr. by rewrite sgn_conv, conv_u in Hr.
  - destruct (Z.ltb_spec (sgn 64 a) 0).
    + destruct (negative_clamps S64 (sgn 64 a) (sgn 8 b)) as [E1 E2]; [done|]. cbn [unsigned] in E1, E2. rewrite E1, E2. apply runs_qc.
    + pose proof (conv_nonneg S64 a eq_refl Ha ltac:(done)) as En. cbn [size] in En. rewrite En. by apply qshl_u64_word.
Qed.

(** Elements added at once. *)
Lemma add_word t a b h : (t = U8 /\ h = neon_add_u8) \/ (t = U16 /\ h = neon_add_u16) -> fits 32 a -> fits 32 b ->
  exists r, packed (size t) (elems t) (fun n => vvalue VADD t (elem t a n) (elem t b n)) r /\ runs (h a b) true r true.
Proof.
  intros Ht Ha Hb.
  assert (exists k ml mt, elems t = seqZ 0 (Z.of_nat k) /\ size t * Z.of_nat k = 32 /\
    made (size t) k ml (fun _ => 2 ^ (size t - 1) - 1) /\ made (size t) k mt (fun _ => 2 ^ (size t - 1)) /\
    h a b = ret (u32 ((a .& ml) + (b .& ml)) .^ ((a .^ b) .& mt))) as (k & ml & mt & Hk & Hw & Ml & Mt & ->).
  { destruct Ht as [[-> ->]|[-> ->]]; [exists 4%nat, 0x7f7f7f7f, 0x80808080|exists 2%nat, 0x7fff7fff, 0x80008000].
    all: split_and!; try done; intros n _; unfold fits; cbn; lia. }
  rewrite <- Hw in Ha, Hb. pose proof (made_add (size t) (size_pos t) k a b ml mt Ha Hb Ml Mt) as Hm. rewrite Hw in Hm.
  eexists. split; [|apply runs_ret]. rewrite Hk. split.
  - pose proof (made_fits _ (size_pos t) _ _ _ Hm) as Hf. unfold zlen. rewrite length_seqZ, Z2Nat.id by lia. exact Hf.
  - intros n Hn. rewrite (made_lane _ (size_pos t) _ _ _ _ Hm Hn). unfold vvalue, exact, elem. cbn [saturates]. cbv zeta.
    apply elem_of_seqZ in Hn. pose proof (size_pos t). rewrite !lane_shift, wrap_wrap by nia.
    assert (signed t = false) as Hu by (by destruct Ht as [[-> _]|[-> _]]). unfold conv. rewrite Hu. done.
Qed.

(** The register an instruction works on at once. *)
Definition reg_size (t : vtype) : Z := Z.max 32 (size t).
Definition velems (t : vtype) : list Z := seqZ 0 (reg_size t / size t).

Lemma lanes_helper op t fn h a b : size t <= 32 -> h = NEON_VOP t fn -> lane_ok op t fn ->
  exists r, packed (size t) (velems t) (fun n => vvalue op t (elem t a n) (elem t b n)) r /\
    runs (h a b) (forallb (fun n => vdefined op t (elem t a n) (elem t b n)) (velems t)) r
      (forallb (fun n => vexact op t (elem t a n) (elem t b n)) (velems t)).
Proof.
  intros Hsz -> Hfn. assert (velems t = elems t) as -> by (destruct t; try done; cbn [size] in Hsz; lia). by apply vop_lanes.
Qed.

Lemma word_helper op t h a b : 32 <= size t -> word_ok op t h -> fits (reg_size t) a -> fits (reg_size t) b ->
  exists r, packed (size t) (velems t) (fun n => vvalue op t (elem t a n) (elem t b n)) r /\
    runs (h a b) (forallb (fun n => vdefined op t (elem t a n) (elem t b n)) (velems t)) r
      (forallb (fun n => vexact op t (elem t a n) (elem t b n)) (velems t)).
Proof.
  intros Hsz Hh Ha Hb. assert (velems t = [0] /\ reg_size t = size t) as [-> Hr] by (destruct t; try done; cbn [size] in Hsz; lia). rewrite Hr in *.
  exists (vvalue op t (conv t a) (conv t b)). cbn [forallb]. rewrite !andb_true_r, !elem_0. split; [|by apply Hh].
  split; [change (zlen [0]) with 1; rewrite Z.mul_1_r; apply vvalue_fits|]. intros n Hn. apply list_elem_of_singleton in Hn as ->. rewrite !elem_0.
  pose proof (vvalue_fits op t (conv t a) (conv t b)) as Hf. unfold lane. rewrite Z.mul_0_r, Z.pow_0_r, Z.div_1_r. unfold wrap. by rewrite !Z.mod_small.
Qed.

Lemma qshlu_helper t h a b : (t = S8 /\ h = neon_qshlu_s8) \/ (t = S16 /\ h = neon_qshlu_s16) ->
  exists r, packed (size t) (velems t) (fun n => vvalue VQSHLU t (elem t a n) (elem t b n)) r /\
    runs (h a b) true r (forallb (fun n => vexact VQSHLU t (elem t a n) (elem t b n)) (velems t)).
Proof.
  intros Ht. assert (velems t = elems (unsigned t) /\ size (unsigned t) = size t /\ small t = true /\ signed t = true /\
    h = NEON_VOP (unsigned t) (qshlu_fn (unsigned t)) /\ forall z n, elem (unsigned t) z n = wrap (size t) (elem t z n)) as (-> & Es & Hsm & Hs & -> & He).
  { destruct Ht as [[-> ->]|[-> ->]]; split_and!; try done; intros z n; symmetry; [apply (conv_wrap S8)|apply (conv_wrap S16)]. }
  destruct (vop_run (unsigned t) (fun n => qshlu_fn (unsigned t) (elem (unsigned t) a n) (elem (unsigned t) b n)) (fun _ => true)
    (fun n => vvalue VQSHLU t (elem t a n) (elem t b n)) (fun n => vexact VQSHLU t (elem t a n) (elem t b n))) as (r & Hp & Hr).
  { intros n _. rewrite !He, Es. apply qshlu_lane; [done|done|apply conv_within]. }
  exists r. rewrite Es in Hp. split; [exact Hp|]. by destruct Ht as [[-> _]|[-> _]].
Qed.

(** The lemma for the text of an instruction. *)
Ltac lane_lemma :=
  first [by apply usat_lane | by apply ssat_lane | by apply halving_lane | by apply compare_lane | by apply choice_lane
        | by apply abd_lane | by apply sub_lane | by apply mul_lane | by apply shl_u_lane | by apply shl_s_lane
        | by apply rshl_u_lane | by apply rshl_s_lane | by apply qshl_u_lane | by apply qshl_s_lane
        | by apply qrshl_u_lane | by apply qrshl_s_lane | by apply (qdmulh_lane S16) | by apply (qdmulh_lane S32)].
Ltac word_lemma :=
  first [apply qadd_u_word | apply qsub_u_word | apply qadd_s_word | apply halving_s_word | apply halving_u_word | apply shl_word
        | apply rshl_s_word | apply rshl_u_word | apply qshl_word | apply qshlu_word | apply qrshl_u_word | apply qrshl_s_word].

(** C21.  Every instruction that works element by element gives, in each element, the
    exact result of the elements of its operands, clamped to the type where it
    saturates and cut to the width otherwise; the flag is set exactly when an
    element had to be clamped.  It is undefined exactly where an [int] overflows. *)
Theorem vector_is_elementwise op t h a b :
  vhelper op t = Some h -> fits (reg_size t) a -> fits (reg_size t) b ->
  exists r, packed (size t) (velems t) (fun n => vvalue op t (elem t a n) (elem t b n)) r /\
    forall env, h a b env =
      if forallb (fun n => vdefined op t (elem t a n) (elem t b n)) (velems t)
      then Done (r, qc_env (forallb (fun n => vexact op t (elem t a n) (elem t b n)) (velems t)) env, [])
      else Undef.
Proof.
  intros Hh Ha Hb.
  destruct op, t; try discriminate Hh; injection Hh as <-;
    first [ eapply lanes_helper; [cbn [size]; lia|reflexivity|lane_lemma]
          | apply word_helper; [cbn [size]; lia|word_lemma|done|done]
          | by apply qshlu_helper; auto
          | by apply add_word; auto ].
Qed.

(** ** Pairs of elements *)

Definition pair_helper (op : vop) (t : vtype) : option (Z -> Z -> cpu Z) :=
  match op, t with
  | VADD, U8 => Some neon_padd_u8 | VADD, U16 => Some neon_padd_u16
  | VMIN, S8 => Some neon_pmin_s8 | VMIN, U8 => Some neon_pmin_u8 | VMIN, S16 => Some neon_pmin_s16 | VMIN, U16 => Some neon_pmin_u16
  | VMAX, S8 => Some neon_pmax_s8 | VMAX, U8 => Some neon_pmax_u8 | VMAX, S16 => Some neon_pmax_s16 | VMAX, U16 => Some neon_pmax_u16
  | _, _ => None
  end.

(** The elements of both operands one after the other. *)
Definition joined (t : vtype) (a b n : Z) : Z := let k := 32 / size t in if n <? k then elem t a n else elem t b (n - k).

Theorem pairs_are_combined op t h a b : pair_helper op t = Some h ->
  exists r, packed (size t) (elems t) (fun n => vvalue op t (joined t a b (2 * n)) (joined t a b (2 * n + 1))) r /\ runs (h a b) true r true.
Proof.
  intros Hh.
  assert (exists fn, h = NEON_POP t fn /\ (forall x y, assigns (size t) (fn x y) true (vvalue op t x y) true) /\ forall n, n ∈ elems t ->
    (if n <? 32 / size t / 2 then fn (elem t a (2 * n)) (elem t a (2 * n + 1))
     else fn (elem t b (2 * (n - 32 / size t / 2))) (elem t b (2 * (n - 32 / size t / 2) + 1))) = fn (joined t a b (2 * n)) (joined t a b (2 * n + 1)))
    as (fn & -> & Hfn & Hpair).
  { destruct op, t; try discriminate Hh; injection Hh as <-; eexists; (split; [reflexivity|]); (split; [intros x y; apply assigns_ret; unfold vvalue; cbn; f_equal; zcases|]).
    all: intros n Hn; unfold elems in Hn; apply elem_of_seqZ in Hn; cbn [size] in *; unfold joined; cbn [size]; cbv zeta.
    all: change (32 / 8 / 2) with 2; change (32 / 16 / 2) with 1; change (32 / 8) with 4 in *; change (32 / 16) with 2 in *.
    all: bounds; f_equal; f_equal; lia. }
  destruct (vop_run t (fun n => fn (joined t a b (2 * n)) (joined t a b (2 * n + 1))) (fun _ => true)
    (fun n => vvalue op t (joined t a b (2 * n)) (joined t a b (2 * n + 1))) (fun _ => true)) as (r & Hp & Hr); [intros n _; apply Hfn|].
  exists r. split; [exact Hp|]. assert (forall l, forallb (fun _ : Z => true) l = true) as Hall by (induction l; done). rewrite !Hall in Hr.
  intros env. rewrite <- (Hr env). unfold NEON_POP. cbv zeta. f_equal. clear Hp Hr.
  assert (forall l, (forall n, n ∈ l -> n ∈ elems t) -> do_lanes (fun n =>
    if n <? 32 / size t / 2 then fn (elem t a (2 * n)) (elem t a (2 * n + 1))
     else fn (elem t b (2 * (n - 32 / size t / 2))) (elem t b (2 * (n - 32 / size t / 2) + 1))) l =
    do_lanes (fun n => fn (joined t a b (2 * n)) (joined t a b (2 * n + 1))) l) as Hl; [|by rewrite Hl].
  induction l as [|n l IH]; intros Hin; [done|]. cbn [do_lanes]. rewrite Hpair by (apply Hin; left). by rewrite IH by (intros m Hm; apply Hin; by right).
Qed.

(** ** One operand *)

Lemma clz_loop_value fuel n x : fits (Z.of_nat fuel) x -> clz_loop fuel n x = n - (if x =? 0 then 0 else Z.log2 x + 1).
Proof.
  revert n x. induction fuel as [|f IH]; intros n x Hx; cbn [clz_loop].
  - unfold fits in Hx. cbn in Hx. assert (x = 0) as -> by lia. cbn. lia.
  - destruct (Z.eqb_spec x 0) as [|Hne]; [lia|]. rewrite IH.
    + rewrite shiftr_div by done. change (2 ^ 1) with 2. unfold fits in Hx. destruct (Z.eqb_spec (x / 2) 0) as [E|E].
      * assert (x = 1) as -> by (Z.div_mod_to_equations; lia). cbn. lia.
      * assert (Z.log2 x = Z.log2 (x / 2) + 1) as ->; [|lia]. pose proof (Z.div_pos x 2 ltac:(lia) ltac:(lia)) as Hp.
        assert (x = 2 * (x / 2) \/ x = 2 * (x / 2) + 1) as [Ex|Ex] by (Z.div_mod_to_equations; lia); rewrite Ex at 1.
        -- rewrite Z.log2_double by lia. lia.
        -- rewrite Z.log2_succ_double by lia. lia.
    + replace (Z.of_nat (S f)) with (Z.of_nat f + 1) in Hx by lia. unfold fits in *. rewrite Z.pow_add_r in Hx by lia. rewrite shiftr_div by done.
      change (2 ^ 1) with 2 in *. Z.div_mod_to_equations. lia.
Qed.

(** Zero bits above the highest one, and bits after the sign that are like it. *)
Definition leading_zeros (w x : Z) : Z := w - (if x =? 0 then 0 else Z.log2 x + 1).
Definition leading_signs (w x : Z) : Z := leading_zeros w (if x <? 0 then -1 - x else x) - 1.

Inductive vop1 := VABS | VCLZ | VCLS | VQABS | VQNEG.
Definition helper1 (op : vop1) (t : vtype) : option (Z -> cpu Z) :=
  match op, t with
  | VABS, S8 => Some neon_abs_s8 | VABS, S16 => Some neon_abs_s16
  | VCLZ, U8 => Some neon_clz_u8 | VCLZ, U16 => Some neon_clz_u16
  | VCLS, S8 => Some neon_cls_s8 | VCLS, S16 => Some neon_cls_s16 | VCLS, S32 => Some neon_cls_s32
  | VQABS, S8 => Some neon_qabs_s8 | VQABS, S16 => Some neon_qabs_s16 | VQABS, S32 => Some neon_qabs_s32
  | VQNEG, S8 => Some neon_qneg_s8 | VQNEG, S16 => Some neon_qneg_s16 | VQNEG, S32 => Some neon_qneg_s32
  | _, _ => None
  end.
Definition exact1 (op : vop1) (t : vtype) (x : Z) : Z :=
  match op with
  | VABS | VQABS => Z.abs x | VQNEG => - x | VCLZ => leading_zeros (size t) x | VCLS => leading_signs (size t) x
  end.
Definition value1 (op : vop1) (t : vtype) (x : Z) : Z :=
  wrap (size t) (match op with VQABS | VQNEG => clamp (lowest t) (highest t) (exact1 op t x) | _ => exact1 op t x end).
Definition ok1 (op : vop1) (t : vtype) (x : Z) : bool :=
  match op with VQABS | VQNEG => within t (exact1 op t x) | _ => true end.

Definition lane1_ok (op : vop1) (t : vtype) (fn : Z -> cpu Z) : Prop := forall x,
  within t x = true -> assigns (size t) (fn x) true (value1 op t x) (ok1 op t x).

Lemma vop1_lanes op t fn a : lane1_ok op t fn ->
  exists r, packed (size t) (elems t) (fun n => value1 op t (elem t a n)) r /\
    runs (NEON_VOP1 t fn a) true r (forallb (fun n => ok1 op t (elem t a n)) (elems t)).
Proof.
  intros Hfn. destruct (vop_run t (fun n => fn (elem t a n)) (fun _ => true) (fun n => value1 op t (elem t a n)) (fun n => ok1 op t (elem t a n))) as (r & Hp & Hr).
  { intros n _. apply Hfn, conv_within. }
  exists r. split; [exact Hp|]. assert (forall l, forallb (fun _ : Z => true) l = true) as Hall by (induction l; done). by rewrite Hall in Hr.
Qed.

Lemma qsign_lane t : small t = true -> signed t = true -> lane1_ok VQABS t (qabs_fn t) /\ lane1_ok VQNEG t (qneg_fn t).
Proof.
  intros Hsm Hs. split; intros x Hx; unfold value1, ok1, qabs_fn, qneg_fn; cbn [exact1]; cbv zeta; destruct t; try done; ranges.
  all: rewrite Z.shiftl_1_l; apply assigns_if; unfold within, clamp; cbn [lowest highest signed size] in *.
  all: match goal with |- context [?y =? ?z] => destruct (Z.eqb_spec y z) end; bounds; try (f_equal; lia).
Qed.

Lemma flip_sign t x : signed t = true -> within t x = true -> fits (size t) (if x <? 0 then Z.lnot x else x).
Proof.
  intros Hs Hx. destruct (size_bound t x Hx) as (Hb & _ & Hb'). specialize (Hb' Hs). pose proof (half_size t) as [Hd Hp].
  unfold fits, Z.lnot. destruct (Z.ltb_spec x 0); lia.
Qed.

Lemma clz8_value x : do_clz8 x = leading_zeros 8 (u8 x).
Proof. unfold do_clz8. by rewrite clz_loop_value by (by apply fits_wrap). Qed.
Lemma clz16_value x : do_clz16 x = leading_zeros 16 (u16 x).
Proof. unfold do_clz16. by rewrite clz_loop_value by (by apply fits_wrap). Qed.

Lemma lnot_sub x : Z.lnot x = -1 - x.
Proof. unfold Z.lnot. lia. Qed.

Lemma abs_lane t : lane1_ok VABS t abs_fn.
Proof. intros x Hx. apply assigns_ret. unfold value1. cbn [exact1]. f_equal. zcases. Qed.
Lemma clz_lane : lane1_ok VCLZ U8 (fun src => ret (do_clz8 src)) /\ lane1_ok VCLZ U16 (fun src => ret (do_clz16 src)).
Proof.
  split; intros x Hx; apply assigns_ret; unfold value1; cbn [exact1 size]; f_equal; [rewrite clz8_value|rewrite clz16_value]; f_equal.
  - by apply (within_wrap U8).
  - by apply (within_wrap U16).
Qed.
Lemma cls_lane : lane1_ok VCLS S8 (fun src => ret (do_clz8 (if src <? 0 then Z.lnot src else src) - 1)) /\
  lane1_ok VCLS S16 (fun src => ret (do_clz16 (if src <? 0 then Z.lnot src else src) - 1)).
Proof.
  split; intros x Hx; apply assigns_ret; unfold value1, leading_signs; cbn [exact1 size]; unfold leading_signs; f_equal; f_equal.
  - pose proof (flip_sign S8 x eq_refl Hx) as Hf. rewrite clz8_value, (wrap_fits 8) by exact Hf. f_equal. rewrite lnot_sub. done.
  - pose proof (flip_sign S16 x eq_refl Hx) as Hf. rewrite clz16_value, (wrap_fits 16) by exact Hf. f_equal. rewrite lnot_sub. done.
Qed.

Definition word1_ok (op : vop1) (h : Z -> cpu Z) : Prop := forall a,
  fits 32 a -> runs (h a) true (value1 op S32 (sgn 32 a)) (ok1 op S32 (sgn 32 a)).

Lemma sign_word a : fits 32 a -> sgn 32 a = if a <? 2 ^ 31 then a else a - 2 ^ 32.
Proof. intros Ha. by rewrite sgn_cases. Qed.

Lemma cls_s32_word : word1_ok VCLS neon_cls_s32.
Proof.
  intros a Ha. unfold neon_cls_s32, value1, ok1. cbn [exact1 size]. cbv zeta. apply runs_eq. f_equal. unfold leading_signs. f_equal.
  assert ((if sgn 32 a <? 0 then u32 (Z.lnot a) else a) = if sgn 32 a <? 0 then -1 - sgn 32 a else sgn 32 a) as ->.
  { rewrite sign_word by done. unfold fits in Ha. rewrite lnot_sub, wrap_cases by lia. bounds; lia. }
  rewrite clz_loop_value; [done|]. pose proof (signed_word a). unfold fits. change (Z.of_nat 32) with 32. zcases.
Qed.
Lemma qsign_s32_word : word1_ok VQABS neon_qabs_s32 /\ word1_ok VQNEG neon_qneg_s32.
Proof.
  split; intros a Ha; unfold neon_qabs_s32, neon_qneg_s32, value1, ok1; cbn [exact1 size]; cbv zeta; rewrite sign_word by done; unfold fits in Ha.
  all: change SIGNBIT with (2 ^ 31); apply runs_cond; unfold within, clamp; cbn [lowest highest signed size]; change (32 - 1) with 31.
  all: destruct (Z.eqb_spec a (2 ^ 31)) as [->|Hne]; [done|].
  all: bounds.
  all: rewrite !wrap_cases by lia; zcases.
Qed.

Lemma word1_helper op h a : word1_ok op h -> fits 32 a ->
  exists r, packed 32 (elems S32) (fun n => value1 op S32 (elem S32 a n)) r /\ runs (h a) true r (forallb (fun n => ok1 op S32 (elem S32 a n)) (elems S32)).
Proof.
  intros Hh Ha. change (elems S32) with [0]. cbn [forallb]. rewrite andb_true_r, elem_0. change (conv S32 a) with (sgn 32 a).
  exists (value1 op S32 (sgn 32 a)). split; [|by apply Hh]. assert (fits 32 (value1 op S32 (sgn 32 a))) as Hf by (by apply (fits_wrap 32)).
  split; [exact Hf|]. intros n Hn. apply list_elem_of_singleton in Hn as ->. rewrite elem_0. change (conv S32 a) with (sgn 32 a).
  unfold lane. rewrite Z.mul_0_r, Z.pow_0_r, Z.div_1_r. unfold wrap. by rewrite !Z.mod_small.
Qed.

Theorem single_operand_is_elementwise op t h a : helper1 op t = Some h -> fits 32 a ->
  exists r, packed (size t) (elems t) (fun n => value1 op t (elem t a n)) r /\ runs (h a) true r (forallb (fun n => ok1 op t (elem t a n)) (elems t)).
Proof.
  intros Hh Ha. destruct op, t; try discriminate Hh; injection Hh as <-.
  all: first [apply vop1_lanes; first [apply abs_lane|apply clz_lane|apply cls_lane|by apply qsign_lane]
    |apply word1_helper; [first [apply cls_s32_word|apply qsign_s32_word]|done]].
Qed.

(** ** Bits of elements *)

Lemma lane_bit w n x i : 0 <= w -> 0 <= n -> 0 <= i -> Z.testbit (lane w n x) i = (i <? w) && Z.testbit x (w * n + i).
Proof.
  intros Hw Hn Hi. unfold lane. change (x / 2 ^ (w * n) mod 2 ^ w) with (wrap w (x / 2 ^ (w * n))). rewrite testbit_wrap by done. f_equal.
  rewrite <- shiftr_div by nia. rewrite Z.shiftr_spec by done. f_equal. lia.
Qed.

Section ShiftedWords.
Context (w : Z) (Hw : 0 < w) (k : nat).
Abbreviation width := (w * Z.of_nat k).
Abbreviation places := (seqZ 0 (Z.of_nat k)).

Lemma made_intro x f : fits width x -> (forall n, n ∈ places -> lane w n x = f n) -> made w k x f.
Proof. intros Hx Hf. eapply made_ext; [exact Hf|]. by apply made_word. Qed.

(** Bits moved between elements are masked out. *)
Lemma made_shr x j M m : fits width x -> 0 <= j -> made w k M (fun _ => m) -> (forall i, Z.testbit m i = true -> i + j < w) ->
  made w k ((x >> j) .& M) (fun n => (lane w n x >> j) .& m).
Proof.
  intros Hx Hj HM Hm. apply made_intro.
  { apply fits_land; [nia|by apply fits_shiftr|]. by apply (fits_nonneg width), (made_fits w Hw k M (fun _ => m)). }
  intros n Hn. pose proof (made_lane w Hw k M (fun _ => m) n HM Hn) as Em. apply elem_of_seqZ in Hn. apply Z.bits_inj'. intros i Hi.
  rewrite lane_bit, !Z.land_spec by lia. rewrite !Z.shiftr_spec by nia. rewrite lane_bit by lia.
  assert (Z.testbit m i = (i <? w) && Z.testbit M (w * n + i)) as Ei by (rewrite <- Em; apply lane_bit; lia).
  replace (w * n + (i + j)) with (w * n + i + j) by lia. destruct (Z.testbit m i) eqn:Eb.
  - specialize (Hm i Eb). symmetry in Ei. apply andb_true_iff in Ei as [-> ->]. destruct (Z.ltb_spec (i + j) w); [|lia]. by rewrite !andb_true_r.
  - rewrite andb_false_r. destruct (i <? w); [|done]. cbn [andb] in *. by rewrite <- Ei, andb_false_r.
Qed.
Lemma made_shl x j M m : fits width x -> 0 <= j -> made w k M (fun _ => m) -> (forall i, Z.testbit m i = true -> j <= i) ->
  made w k (wrap width (x << j) .& M) (fun n => (lane w n x << j) .& m).
Proof.
  intros Hx Hj HM Hm. apply made_intro.
  { apply fits_land; [nia|apply fits_wrap; nia|]. by apply (fits_nonneg width), (made_fits w Hw k M (fun _ => m)). }
  intros n Hn. pose proof (made_lane w Hw k M (fun _ => m) n HM Hn) as Em. apply elem_of_seqZ in Hn. apply Z.bits_inj'. intros i Hi.
  rewrite lane_bit, !Z.land_spec by lia. rewrite testbit_wrap, !Z.shiftl_spec by nia.
  assert (Z.testbit m i = (i <? w) && Z.testbit M (w * n + i)) as Ei by (rewrite <- Em; apply lane_bit; lia).
  destruct (Z.testbit m i) eqn:Eb.
  - specialize (Hm i Eb). symmetry in Ei. apply andb_true_iff in Ei as [Hiw%Z.ltb_lt ->]. rewrite lane_bit by lia.
    destruct (Z.ltb_spec i w), (Z.ltb_spec (i - j) w), (Z.ltb_spec (w * n + i) width); try nia. cbn [andb]. rewrite !andb_true_r. f_equal. lia.
  - rewrite andb_false_r. destruct (i <? w); [|done]. cbn [andb] in *. by rewrite <- Ei, andb_false_r.
Qed.
End ShiftedWords.

(** The bits of a small constant. *)
Lemma small_bits c (P : Z -> Prop) : fits 8 c -> (forall i, i ∈ [0; 1; 2; 3; 4; 5; 6; 7] -> Z.testbit c i = true -> P i) -> forall i, Z.testbit c i = true -> P i.
Proof.
  intros Hc HP i Hi. assert (0 <= i < 8) as Hb.
  { destruct (Z.lt_ge_cases i 0) as [|H0]; [by rewrite Z.testbit_neg_r in Hi by done|]. destruct (Z.lt_ge_cases i 8); [done|]. by rewrite (fits_high 8) in Hi by (done || lia). }
  apply HP; [|done]. change [0; 1; 2; 3; 4; 5; 6; 7] with (seqZ 0 8). apply elem_of_seqZ. lia.
Qed.

(** ** Counting bits *)

Fixpoint bit_count (fuel : nat) (x : Z) : Z :=
  match fuel with O => 0 | S f => bool_Z (Z.odd x) + bit_count f (x >> 1) end.

Definition count_step (m j v : Z) : Z := (v .& m) + ((v >> j) .& m).

Lemma made_count x M m j f : made 8 4 x f -> made 8 4 M (fun _ => m) -> 0 <= j -> (forall i, Z.testbit m i = true -> i + j < 8) ->
  (forall v, fits 8 v -> fits 8 (count_step m j v)) ->
  made 8 4 (u32 ((x .& M) + ((x >> j) .& M))) (fun n => count_step m j (f n)).
Proof.
  intros Hx HM Hj Hm Hs. pose proof (made_fits 8 ltac:(lia) 4 x f Hx) as Hf.
  pose proof (made_land 8 ltac:(lia) 4 _ _ _ _ Hx HM) as M1. pose proof (made_shr 8 ltac:(lia) 4 x j M m Hf Hj HM Hm) as M2.
  assert (made 8 4 ((x >> j) .& M) (fun n => (f n >> j) .& m)) as M3.
  { eapply made_ext; [|exact M2]. intros n Hn. cbv beta. by rewrite (made_lane 8 ltac:(lia) 4 x f n Hx Hn). }
  assert (forall n, n ∈ seqZ 0 (Z.of_nat 4) -> fits 8 ((f n .& m) + ((f n >> j) .& m))) as Hfits by (intros n Hn; apply Hs; by apply Hx).
  pose proof (made_sum 8 ltac:(lia) 4 _ _ _ _ M1 M3 Hfits) as M4. rewrite (wrap_fits 32) by exact (made_fits 8 ltac:(lia) 4 _ _ M4). exact M4.
Qed.

(** All bytes. *)
Lemma every_byte (P : Z -> bool) : forallb P (seqZ 0 256) = true -> forall v, fits 8 v -> P v = true.
Proof. intros Hall v Hv. rewrite forallb_forall in Hall. apply Hall. apply list_elem_of_In, elem_of_seqZ. exact Hv. Qed.

Lemma cnt_u8_value x : fits 32 x -> exists r, neon_cnt_u8 x = ret r /\ packed 8 (elems U8) (fun n => bit_count 8 (lane 8 n x)) r.
Proof.
  intros Hx. eexists. split; [reflexivity|].
  assert (forall v, fits 8 v -> (fun v => (count_step 0x55 1 v <? 256) && (count_step 0x33 2 v <? 256) && (count_step 0x0f 4 v <? 256) &&
    (0 <=? count_step 0x55 1 v) && (0 <=? count_step 0x33 2 v) && (0 <=? count_step 0x0f 4 v) &&
    (count_step 0x0f 4 (count_step 0x33 2 (count_step 0x55 1 v)) =? bit_count 8 v)) v = true) as Hall by (by apply every_byte).
  cbv beta in Hall. setoid_rewrite andb_true_iff in Hall. repeat setoid_rewrite andb_true_iff in Hall. setoid_rewrite Z.ltb_lt in Hall. setoid_rewrite Z.leb_le in Hall. setoid_rewrite Z.eqb_eq in Hall.
  assert (made 8 4 x (fun n => lane 8 n x)) as M0 by (by apply made_word).
  assert (forall c, fits 8 c -> made 8 4 (pack 8 (map (fun _ => c) (seqZ 0 4))) (fun _ => c)) as Mc by done.
  pose proof (made_count x 0x55555555 0x55 1 _ M0 (Mc 0x55 ltac:(done)) ltac:(lia)) as M1.
  pose proof (fun H1 H2 => made_count _ 0x33333333 0x33 2 _ (M1 H1 H2) (Mc 0x33 ltac:(done)) ltac:(lia)) as M2.
  pose proof (fun H1 H2 H3 H4 => made_count _ 0x0f0f0f0f 0x0f 4 _ (M2 H1 H2 H3 H4) (Mc 0x0f ltac:(done)) ltac:(lia)) as M3. clear M1 M2.
  match type of M3 with forall _ _ _ _ _ _, made 8 4 ?r _ => assert (made 8 4 r (fun n => bit_count 8 (lane 8 n x))) as M4 end.
  { eapply made_ext; [|apply M3]; [intros n Hn; cbv beta; by destruct (Hall (lane 8 n x) ltac:(apply lane_fits; lia)) as [_ E]|..].
    2,4,6: intros v Hv; destruct (Hall v Hv) as ((((((? & ?) & ?) & ?) & ?) & ?) & _); by split. all: apply small_bits; [done|]; intros i Hi; repeat (apply elem_of_cons in Hi as [->|Hi]; [done|]); by apply elem_of_nil in Hi. }
  split; [exact (made_fits 8 ltac:(lia) 4 _ _ M4)|]. intros n Hn. rewrite (wrap_fits 8 (bit_count 8 _)); [exact (made_lane 8 ltac:(lia) 4 _ _ n M4 Hn)|by apply M4].
Qed.

(** ** Polynomials over two elements *)

(** The product of polynomials whose coefficients are bits. *)
Fixpoint polymul (fuel : nat) (x y : Z) : Z :=
  match fuel with O => 0 | S f => (if Z.odd x then y else 0) .^ polymul f (x >> 1) (y << 1) end.

Lemma polymul_0 fuel y : polymul fuel 0 y = 0.
Proof. revert y. induction fuel as [|f IH]; intros y; [done|]. cbn [polymul]. change (Z.odd 0) with false. cbv iota. rewrite Z.lxor_0_l. apply IH. Qed.

Lemma wrap_lxor w a b : 0 <= w -> wrap w (a .^ b) = wrap w a .^ wrap w b.
Proof.
  intros Hw. apply Z.bits_inj'. intros i Hi. rewrite Z.lxor_spec, !testbit_wrap, Z.lxor_spec by lia. by destruct (i <? w).
Qed.
Lemma wrap_shl w y n : 0 <= w -> 0 <= n -> wrap w (wrap w y << n) = wrap w (y << n).
Proof. intros Hw Hn. rewrite !shiftl_mul by done. unfold wrap. by rewrite Z.mul_mod_idemp_l by lia. Qed.
Lemma polymul_wrap w fuel x y : 0 <= w -> wrap w (polymul fuel x (wrap w y)) = wrap w (polymul fuel x y).
Proof.
  intros Hw. revert x y. induction fuel as [|f IH]; intros x y; [done|]. cbn [polymul]. rewrite !wrap_lxor by done. f_equal.
  - destruct (Z.odd x); [|done]. apply wrap_wrap. lia.
  - rewrite <- (IH _ (wrap w y << 1)), <- (IH _ (y << 1)). by rewrite wrap_shl.
Qed.

Lemma bit_odd w n x : 0 < w -> 0 <= n -> Z.odd (lane w n x) = Z.testbit x (w * n).
Proof. intros Hw Hn. rewrite <- Z.bit0_odd, lane_bit by lia. destruct (Z.ltb_spec 0 w); [|lia]. cbn [andb]. f_equal. lia. Qed.

(** The mask has all bits of the elements that belong to odd bytes. *)
Lemma poly_mask_made op1 f m k : (m = 0xff /\ k = 8) \/ (m = 0xffff /\ k = 16) -> made 8 4 op1 f ->
  made k 4 (poly_mask op1 m k) (fun n => if Z.odd (f n) then m else 0).
Proof.
  intros Hmk Hf. assert (forall n, n ∈ seqZ 0 (Z.of_nat 4) -> Z.odd (f n) = Z.testbit op1 (8 * n)) as Eo.
  { intros n Hn. rewrite <- (made_lane 8 ltac:(lia) 4 _ _ n Hf Hn). apply elem_of_seqZ in Hn. apply bit_odd; lia. }
  apply (made_ext k 4 _ (fun n => if Z.testbit op1 (8 * n) then m else 0)); [intros n Hn; by rewrite Eo|]. split.
  - unfold poly_mask. change 1 with (bit 0) at 1. rewrite !test_true_bit by lia.
    change (map (fun n => if Z.testbit op1 (8 * n) then m else 0) (seqZ 0 (Z.of_nat 4))) with
      [if Z.testbit op1 0 then m else 0; if Z.testbit op1 8 then m else 0; if Z.testbit op1 16 then m else 0; if Z.testbit op1 24 then m else 0].
    destruct Hmk as [[-> ->]|[-> ->]]; destruct (Z.testbit op1 0), (Z.testbit op1 8), (Z.testbit op1 16), (Z.testbit op1 24); reflexivity.
  - intros n _. destruct Hmk as [[-> ->]|[-> ->]]; destruct (Z.testbit _ _); unfold fits; lia.
Qed.

Lemma land_full w x : 0 <= w -> fits w x -> x .& (2 ^ w - 1) = x.
Proof. intros Hw Hx. rewrite land_ones by done. by apply Z.mod_small. Qed.
Lemma masked w (b : bool) y : 0 <= w -> fits w y -> y .& (if b then 2 ^ w - 1 else 0) = if b then y else 0.
Proof. intros Hw Hy. destruct b; [by apply land_full|apply Z.land_0_r]. Qed.

Lemma odd_0 f op1 : made 8 4 op1 f -> op1 = 0 -> forall n, n ∈ seqZ 0 (Z.of_nat 4) -> f n = 0.
Proof. intros Hf -> n Hn. rewrite <- (made_lane 8 ltac:(lia) 4 _ _ n Hf Hn). unfold lane. by rewrite Z.div_0_l by (apply elem_of_seqZ in Hn; apply Z.pow_nonzero; lia). Qed.

Lemma halved_bytes op1 f : made 8 4 op1 f -> made 8 4 ((op1 >> 1) .& 0x7f7f7f7f) (fun n => f n >> 1).
Proof.
  intros Hf. eapply made_ext; [|apply (made_shr 8 ltac:(lia) 4 op1 1 0x7f7f7f7f 0x7f); [exact (made_fits 8 ltac:(lia) 4 _ _ Hf)|lia|by split|]].
  - intros n Hn. cbv beta. rewrite (made_lane 8 ltac:(lia) 4 _ _ n Hf Hn). apply (land_full 7); [done|]. apply Hf in Hn.
    rewrite shiftr_div by done. unfold fits in *. change (2 ^ 1) with 2. Z.div_mod_to_equations. lia.
  - apply small_bits; [done|]. intros i Hi. repeat (apply elem_of_cons in Hi as [->|Hi]; [done|]). by apply elem_of_nil in Hi.
Qed.

Lemma mul_p8_loop_made fuel : forall op1 op2 result f g h, made 8 4 op1 f -> made 8 4 op2 g -> made 8 4 result h ->
  made 8 4 (mul_p8_loop fuel op1 op2 result) (fun n => h n .^ u8 (polymul fuel (f n) (g n))).
Proof.
  induction fuel as [|fuel IH]; intros op1 op2 result f g h Hf Hg Hh; cbn [mul_p8_loop].
  { eapply made_ext; [|exact Hh]. intros n _. cbn. by rewrite Z.lxor_0_r. }
  destruct (Z.eqb_spec op1 0) as [E0|_].
  { eapply made_ext; [|exact Hh]. intros n Hn. cbv beta. rewrite (odd_0 f op1) by done. rewrite polymul_0. by rewrite Z.lxor_0_r. }
  assert (made 8 4 (u32 (op2 << 1) .& 0xfefefefe) (fun n => u8 (g n << 1))) as Hg'.
  { eapply made_ext; [|apply (made_shl 8 ltac:(lia) 4 op2 1 0xfefefefe 0xfe); [exact (made_fits 8 ltac:(lia) 4 _ _ Hg)|lia|by split|]].
    - intros n Hn. cbv beta. rewrite (made_lane 8 ltac:(lia) 4 _ _ n Hg Hn). apply Z.bits_inj'. intros i Hi. rewrite testbit_wrap by done.
      change 0xfe with (Z.ones 7 << 1). rewrite Z.land_spec, !Z.shiftl_spec by done. destruct (Z.eq_dec i 0) as [->|]; [by rewrite !Z.testbit_neg_r by done|].
      rewrite Z.testbit_ones_nonneg by lia. rewrite andb_comm. f_equal. bounds.
    - apply small_bits; [done|]. intros i Hi. repeat (apply elem_of_cons in Hi as [->|Hi]; [done|]). by apply elem_of_nil in Hi. }
  pose proof (made_lxor 8 ltac:(lia) 4 _ _ _ _ Hh (made_land 8 ltac:(lia) 4 _ _ _ _ Hg (poly_mask_made op1 f 0xff 8 ltac:(by left) Hf))) as Hh'.
  eapply made_ext; [|exact (IH _ _ _ _ _ _ (halved_bytes op1 f Hf) Hg' Hh')]. intros n Hn. cbv beta.
  rewrite (masked 8) by (done || by apply Hg). rewrite polymul_wrap by done. cbn [polymul]. rewrite wrap_lxor by done. rewrite Z.lxor_assoc. do 2 f_equal.
  destruct (Z.odd (f n)); [|done]. symmetry. apply wrap_fits. by apply Hg.
Qed.

Lemma mull_p8_loop_made fuel : (fuel <= 8)%nat -> forall op1 op2 result f g h, made 8 4 op1 f -> made 16 4 op2 g -> made 16 4 result h ->
  (forall n, n ∈ seqZ 0 (Z.of_nat 4) -> fits (16 - Z.of_nat fuel) (g n)) ->
  made 16 4 (mull_p8_loop fuel op1 op2 result) (fun n => h n .^ polymul fuel (f n) (g n)).
Proof.
  induction fuel as [|fuel IH]; intros Hfuel op1 op2 result f g h Hf Hg Hh Hsmall; cbn [mull_p8_loop].
  { eapply made_ext; [|exact Hh]. intros n _. cbn. by rewrite Z.lxor_0_r. }
  destruct (Z.eqb_spec op1 0) as [E0|_].
  { eapply made_ext; [|exact Hh]. intros n Hn. cbv beta. rewrite (odd_0 f op1) by done. rewrite polymul_0. by rewrite Z.lxor_0_r. }
  assert (forall n, n ∈ seqZ 0 (Z.of_nat 4) -> g n << 1 = g n + g n /\ fits (16 - Z.of_nat fuel) (g n + g n)) as Hdbl.
  { intros n Hn. pose proof (Hsmall n Hn) as Hs. rewrite shiftl_mul by done. change (2 ^ 1) with 2. split; [lia|].
    replace (16 - Z.of_nat fuel) with (Z.succ (16 - Z.of_nat (S fuel))) by lia. unfold fits in *. rewrite Z.pow_succ_r by lia. lia. }
  assert (made 16 4 (u64 (op2 << 1)) (fun n => g n << 1)) as Hg'.
  { assert (op2 << 1 = op2 + op2) as -> by (rewrite shiftl_mul by done; change (2 ^ 1) with 2; lia).
    pose proof (made_sum 16 ltac:(lia) 4 _ _ _ _ Hg Hg) as Hsum. rewrite (wrap_fits 64).
    - eapply made_ext; [|apply Hsum]; intros n Hn; cbv beta; destruct (Hdbl n Hn) as [E Hs]; [done|]. apply (fits_weaken (16 - Z.of_nat fuel)); [lia|done].
    - apply (made_fits 16 ltac:(lia) 4 _ (fun n => g n + g n)), Hsum. intros n Hn. destruct (Hdbl n Hn) as [_ Hs]. apply (fits_weaken (16 - Z.of_nat fuel)); [lia|done]. }
  pose proof (made_lxor 16 ltac:(lia) 4 _ _ _ _ Hh (made_land 16 ltac:(lia) 4 _ _ _ _ Hg (poly_mask_made op1 f 0xffff 16 ltac:(by right) Hf))) as Hh'.
  eapply made_ext; [|apply (IH ltac:(lia) _ _ _ _ _ _ (halved_bytes op1 f Hf) Hg' Hh')].
  - intros n Hn. cbv beta. rewrite (masked 16) by (done || by apply Hg). cbn [polymul]. by rewrite Z.lxor_assoc.
  - intros n Hn. cbv beta. destruct (Hdbl n Hn) as [-> Hs]. exact Hs.
Qed.

Lemma byte_at b m n : fits 32 b -> 0 <= n < 4 -> m = 0xff << (8 * n) -> b .& m = lane 8 n b << (8 * n).
Proof.
  intros Hb Hn ->. apply Z.bits_inj'. intros i Hi. change 0xff with (Z.ones 8). rewrite Z.land_spec, !Z.shiftl_spec by done.
  destruct (Z.lt_ge_cases i (8 * n)) as [Hlt|Hge]; [by rewrite !(Z.testbit_neg_r _ (i - 8 * n)), andb_false_r by lia|].
  rewrite Z.testbit_ones_nonneg, lane_bit by lia. rewrite andb_comm. do 2 f_equal. lia.
Qed.
Lemma spread_bytes b : fits 32 b ->
  made 16 4 ((b .& 0xff) .| ((b .& 0xff00) << 8) .| ((b .& 0xff0000) << 16) .| ((b .& 0xff000000) << 24)) (fun n => lane 8 n b).
Proof.
  intros Hb. split; [|intros n Hn; apply (fits_weaken 8); [done|apply lane_fits; lia]].
  rewrite (byte_at b 0xff 0), (byte_at b 0xff00 1), (byte_at b 0xff0000 2), (byte_at b 0xff000000 3) by (done || lia).
  change (seqZ 0 (Z.of_nat 4)) with [0; 1; 2; 3]. cbn [map pack].
  assert (forall n, 0 <= n < 4 -> wrap 16 (lane 8 n b) = lane 8 n b) as E by (intros n Hn; apply wrap_fits, (fits_weaken 8); [done|apply lane_fits; lia]).
  rewrite !E by lia. rewrite Z.shiftl_0_l, Z.lor_0_r, !Z.shiftl_lor, !Z.shiftl_shiftl by lia. change (8 * 0) with 0. rewrite Z.shiftl_0_r. by rewrite !Z.lor_assoc.
Qed.

(** Polynomial products, byte by byte, of eight and of sixteen bits. *)
Theorem polynomial_products a b : fits 32 a -> fits 32 b ->
  (exists r, neon_mul_p8 a b = ret r /\ packed 8 (elems U8) (fun n => polymul 8 (lane 8 n a) (lane 8 n b)) r) /\
  fits 64 (neon_mull_p8 a b) /\ forall n, 0 <= n < 4 -> lane 16 n (neon_mull_p8 a b) = polymul 8 (lane 8 n a) (lane 8 n b).
Proof.
  intros Ha Hb. assert (made 8 4 a (fun n => lane 8 n a)) as Ma by (by apply made_word). assert (made 8 4 b (fun n => lane 8 n b)) as Mb by (by apply made_word).
  split; [eexists; split; [reflexivity|]|].
  - pose proof (mul_p8_loop_made 8 _ _ 0 _ _ (fun _ => 0) Ma Mb ltac:(by split)) as M.
    split; [exact (made_fits 8 ltac:(lia) 4 _ _ M)|]. intros n Hn. rewrite (made_lane 8 ltac:(lia) 4 _ _ n M Hn). apply Z.lxor_0_l.
  - pose proof (mull_p8_loop_made 8 ltac:(lia) _ _ 0 _ _ (fun _ => 0) Ma (spread_bytes b Hb) ltac:(by split) ltac:(intros n Hn; apply elem_of_seqZ in Hn; apply lane_fits; lia)) as M.
    split; [exact (made_fits 16 ltac:(lia) 4 _ _ M)|]. intros n Hn. unfold neon_mull_p8. rewrite (made_lane 16 ltac:(lia) 4 _ _ n M) by (by apply elem_of_seqZ). apply Z.lxor_0_l.
Qed.

(** ** Concrete instructions *)

Module NeonDemo.
Import ArmDemo.

(** The environment after an instruction that saturated. *)
Definition env_qc : CPUARMState := qc_env false env0.

Lemma neon_witness :
  (exists r, packed 8 (velems U8) (fun n => vvalue VQADD U8 (elem U8 0xff102030 n) (elem U8 0x05010203 n)) r /\
    neon_qadd_u8 0xff102030 0x05010203 env0 = Done (r, env_qc, [])) /\
  neon_qadd_u8 0xff102030 0x05010203 env0 = Done (0xff112233, env_qc, []) /\
  (exists r, packed 32 (velems S32) (fun n => vvalue VQSHL S32 (elem S32 0x40000000 n) (elem S32 1 n)) r /\
    neon_qshl_s32 0x40000000 1 env0 = Undef).
Proof.
  split_and!.
  - destruct (vector_is_elementwise VQADD U8 neon_qadd_u8 0xff102030 0x05010203) as (r & Hp & Hr); [reflexivity|by split|by split|].
    exists r. split; [exact Hp|]. rewrite Hr. reflexivity.
  - vm_compute. reflexivity.
  - destruct (vector_is_elementwise VQSHL S32 neon_qshl_s32 0x40000000 1) as (r & Hp & Hr); [reflexivity|by split|by split|].
    exists r. split; [exact Hp|]. rewrite Hr. reflexivity.
Defined.

(** The flag replaces the rest of the status register, such as the rounding mode. *)
Definition FPSCR_RZ := 3 << 22.
Definition env_rz : CPUARMState :=
  env0 <| vfp ::= fun v => v <| xregs ::= <[Z.to_nat ARM_VFP_FPSCR := FPSCR_RZ]> |> |>.
Definition status (env : CPUARMState) : option Z := xregs (vfp env) !! Z.to_nat ARM_VFP_FPSCR.
Example rounding_mode_lost :
  status env_rz = Some FPSCR_RZ /\
  exists env, neon_qadd_u32 0xffffffff 1 env_rz = Done (0xffffffff, env, []) /\ status env = Some CPSR_Q.
Proof. split; [reflexivity|]. eexists. split; vm_compute; reflexivity. Qed.

Example abd_overflows : neon_abd_s32 0x80000000 1 env0 = Undef.
Proof. vm_compute. reflexivity. Qed.
Example mul_overflows : neon_mul_u16 0xffff 0xffff env0 = Undef.
Proof. vm_compute. reflexivity. Qed.
Example pairs : neon_padd_u8 0x04030201 0x0f0e0d0c env0 = Done (0x1d190703, env0, []).
Proof. vm_compute. reflexivity. Qed.
Example squares : neon_mull_p8 0xff 0xff = 0x5555.
Proof. vm_compute. reflexivity. Qed.
End NeonDemo.
