(* ===== verification/ArmNeonWide.v ===== *)
(** * ArmNeonWide: vector instructions between widths ([target-arm/neon_helper.c])

    Instructions that narrow the elements of a 64-bit register to those of a word,
    or widen those of a word; sums, differences and products of wide elements; and
    the instructions that interleave the elements of two registers.

    The reference is again a function of the elements: the element of the result
    is the exact value, clamped or cut to its width. *)
From stdpp Require Import list.
From S2P Require Import Prelude Words ArmCpu ArmAlu ArmNeon.

(** ** Narrowing *)

Definition neon_narrow_u8 (x : Z) : cpu Z :=
  ret ((x .& 0xff) .| ((x >> 8) .& 0xff00) .| ((x >> 16) .& 0xff0000) .| ((x >> 24) .& 0xff000000)).
Definition neon_narrow_u16 (x : Z) : cpu Z := ret ((x .& 0xffff) .| ((x >> 16) .& 0xffff0000)).
Definition neon_narrow_high_u8 (x : Z) : cpu Z :=
  ret (((x >> 8) .& 0xff) .| ((x >> 16) .& 0xff00) .| ((x >> 24) .& 0xff0000) .| ((x >> 32) .& 0xff000000)).
Definition neon_narrow_high_u16 (x : Z) : cpu Z := ret (((x >> 16) .& 0xffff) .| ((x >> 32) .& 0xffff0000)).
Definition neon_narrow_round_high_u8 (x : Z) : cpu Z :=
  let x := x .& 0xff80ff80ff80ff80 in
  let x := u64 (x + 0x0080008000800080) in
  ret (((x >> 8) .& 0xff) .| ((x >> 16) .& 0xff00) .| ((x >> 24) .& 0xff0000) .| ((x >> 32) .& 0xff000000)).
Definition neon_narrow_round_high_u16 (x : Z) : cpu Z :=
  let x := x .& 0xffff8000ffff8000 in
  let x := u64 (x + 0x0000800000008000) in
  ret (((x >> 16) .& 0xffff) .| ((x >> 32) .& 0xffff0000)).

(** [SAT8] of the three functions; it is used for the bits 0, 16, 32 and 48. *)
Definition unarrow_sat8_at (x n res : Z) : cpu Z :=
  let s := u16 (x >> n) in
  if test s 0x8000 then set_qc ;;; ret res
  else d <- (if 0xff <? s then set_qc ;;; ret 0xff else ret (u8 s)) ;; ret (res .| (d << (n / 2))).
Definition narrow_sat_u8_at (x n res : Z) : cpu Z :=
  let s := u16 (x >> n) in
  d <- (if 0xff <? s then set_qc ;;; ret 0xff else ret (u8 s)) ;; ret (res .| (d << (n / 2))).
Definition narrow_sat_s8_at (x n res : Z) : cpu Z :=
  let s := sgn 16 (x >> n) in
  d <- (if negb (s =? sgn 8 s) then set_qc ;;; ret (u8 ((s >> 15) .^ 0x7f)) else ret (u8 s)) ;; ret (res .| (d << (n / 2))).
Definition at_all (SAT8 : Z -> Z -> cpu Z) : cpu Z :=
  res <- SAT8 0 0 ;; res <- SAT8 16 res ;; res <- SAT8 32 res ;; SAT8 48 res.
Definition neon_unarrow_sat8 (x : Z) : cpu Z := at_all (unarrow_sat8_at x).
Definition neon_narrow_sat_u8 (x : Z) : cpu Z := at_all (narrow_sat_u8_at x).
Definition neon_narrow_sat_s8 (x : Z) : cpu Z := at_all (narrow_sat_s8_at x).

Definition unarrow16 (low : Z) : cpu Z :=
  if test low 0x80000000 then set_qc ;;; ret 0 else if 0xffff <? low then set_qc ;;; ret 0xffff else ret low.
Definition neon_unarrow_sat16 (x : Z) : cpu Z :=
  low <- unarrow16 (u32 x) ;; high <- unarrow16 (u32 (x >> 32)) ;; ret (low .| u32 (high << 16)).
Definition narrow16_u (low : Z) : cpu Z := if 0xffff <? low then set_qc ;;; ret 0xffff else ret low.
Definition neon_narrow_sat_u16 (x : Z) : cpu Z :=
  low <- narrow16_u (u32 x) ;; high <- narrow16_u (u32 (x >> 32)) ;; ret (low .| u32 (high << 16)).
Definition narrow16_s (low : Z) : cpu Z :=
  if negb (low =? sgn 16 low) then set_qc ;;; ret ((low >> 31) .^ 0x7fff) else ret low.
Definition neon_narrow_sat_s16 (x : Z) : cpu Z :=
  low <- narrow16_s (sgn 32 x) ;; high <- narrow16_s (sgn 32 (x >> 32)) ;; ret (u16 low .| u32 (high << 16)).
Definition neon_unarrow_sat32 (x : Z) : cpu Z :=
  if test x 0x8000000000000000 then set_qc ;;; ret 0
  else if 0xffffffff <? x then set_qc ;;; ret 0xffffffff else ret (u32 x).
Definition neon_narrow_sat_u32 (x : Z) : cpu Z :=
  if 0xffffffff <? x then set_qc ;;; ret 0xffffffff else ret (u32 x).
Definition neon_narrow_sat_s32 (x : Z) : cpu Z :=
  if negb (sgn 64 x =? sgn 32 x) then set_qc ;;; ret (u32 ((sgn 64 x >> 63) .^ 0x7fffffff)) else ret (u32 x).

(** ** Widening *)

Definition neon_widen_u8 (x : Z) : Z :=
  u8 x .| (u8 (x >> 8) << 16) .| (u8 (x >> 16) << 32) .| (u8 (x >> 24) << 48).
Definition neon_widen_s8 (x : Z) : Z :=
  u16 (sgn 8 x) .| (u16 (sgn 8 (x >> 8)) << 16) .| (u16 (sgn 8 (x >> 16)) << 32) .| (u16 (sgn 8 (x >> 24)) << 48).
Definition neon_widen_u16 (x : Z) : Z := u16 x .| (u16 (x >> 16) << 32).
Definition neon_widen_s16 (x : Z) : Z :=
  let high := u64 (sgn 16 (x >> 16)) in u32 (sgn 16 x) .| u64 (high << 32).

(** ** Wide elements *)

Definition neon_addl_u16 (a b : Z) : Z :=
  let mask := (a .^ b) .& 0x8000800080008000 in
  u64 ((a .& u64 (Z.lnot 0x8000800080008000)) + (b .& u64 (Z.lnot 0x8000800080008000))) .^ mask.
Definition neon_addl_u32 (a b : Z) : Z :=
  let mask := (a .^ b) .& 0x8000000080000000 in
  u64 ((a .& u64 (Z.lnot 0x8000000080000000)) + (b .& u64 (Z.lnot 0x8000000080000000))) .^ mask.
Definition neon_paddl_u16 (a b : Z) : Z :=
  let tmp := u64 ((a .& 0x0000ffff0000ffff) + ((a >> 16) .& 0x0000ffff0000ffff)) in
  let tmp2 := u64 ((b .& 0xffff0000ffff0000) + (u64 (b << 16) .& 0xffff0000ffff0000)) in
  (tmp .& 0xffff) .| ((tmp >> 16) .& 0xffff0000) .| (u64 (tmp2 << 16) .& 0xffff00000000) .| (tmp2 .& 0xffff000000000000).
Definition neon_paddl_u32 (a b : Z) : Z :=
  let low := u32 (a + (a >> 32)) in let high := u32 (b + (b >> 32)) in u64 (low + (high << 32)).
Definition neon_subl_u16 (a b : Z) : Z :=
  let mask := (a .^ u64 (Z.lnot b)) .& 0x8000800080008000 in
  u64 ((a .| 0x8000800080008000) - (b .& u64 (Z.lnot 0x8000800080008000))) .^ mask.
Definition neon_subl_u32 (a b : Z) : Z :=
  let mask := (a .^ u64 (Z.lnot b)) .& 0x8000000080000000 in
  u64 ((a .| 0x8000000080000000) - (b .& u64 (Z.lnot 0x8000000080000000))) .^ mask.
Definition neon_negl_u16 (x : Z) : Z :=
  u16 (- x) .| (u16 (- (x >> 16)) << 16) .| (u16 (- (x >> 32)) << 32) .| (u16 (- (x >> 48)) << 48).
Definition neon_negl_u32 (x : Z) : Z := u32 (- x) .| (u32 (- (x >> 32)) << 32).
Definition neon_negl_u64 (x : Z) : Z := u64 (- x).

(** The addition of 32-bit elements, whose text is that of [neon_qadd_s32] but for
    the place of the complement. *)
Definition add_saturate_s32 (x y : Z) : cpu Z :=
  let low := u32 (x + y) in
  if test (low .^ x) SIGNBIT && negb (test (x .^ y) SIGNBIT) then
    set_qc ;;; ret (u32 (sgn 32 x >> 31) .^ u32 (Z.lnot SIGNBIT))
  else ret low.
Definition neon_addl_saturate_s32 (a b : Z) : cpu Z :=
  low <- add_saturate_s32 (u32 a) (u32 b) ;;
  high <- add_saturate_s32 (u32 (a >> 32)) (u32 (b >> 32)) ;; ret (low .| (high << 32)).
Definition neon_addl_saturate_s64 (a b : Z) : cpu Z :=
  let result := u64 (a + b) in
  if test (result .^ a) SIGNBIT64 && negb (test (a .^ b) SIGNBIT64) then
    set_qc ;;; ret (u64 (sgn 64 a >> 63) .^ u64 (Z.lnot SIGNBIT64))
  else ret result.

(** ** Absolute differences and products of narrow elements *)

Definition DO_ABD (t : vtype) (x y : Z) : cpu Z := d <- abd_fn t (conv t x) (conv t y) ;; ret (u64 d).
(** The elements are multiplied as the wider type; [uint16_t] is promoted to [int]. *)
Definition DO_MULL (type1 type2 : vtype) (x y : Z) : cpu Z :=
  let tmp_x := conv type1 x in let tmp_y := conv type1 y in
  let p := conv type2 tmp_x * conv type2 tmp_y in
  p <- (match type2 with U16 => int_result p | _ => ret (conv type2 p) end) ;; ret (conv type2 p).
(** The functions that combine four and two elements. *)
Definition do4 (DO : Z -> Z -> cpu Z) (a b : Z) : cpu Z :=
  result <- DO a b ;;
  tmp <- DO (a >> 8) (b >> 8) ;; let result := result .| u64 (tmp << 16) in
  tmp <- DO (a >> 16) (b >> 16) ;; let result := result .| u64 (tmp << 32) in
  tmp <- DO (a >> 24) (b >> 24) ;; ret (result .| u64 (tmp << 48)).
Definition do2 (DO : Z -> Z -> cpu Z) (a b : Z) : cpu Z :=
  result <- DO a b ;; tmp <- DO (a >> 16) (b >> 16) ;; ret (result .| u64 (tmp << 32)).
Definition neon_abdl_u16 := do4 (DO_ABD U8).
Definition neon_abdl_s16 := do4 (DO_ABD S8).
Definition neon_abdl_u32 := do2 (DO_ABD U16).
Definition neon_abdl_s32 := do2 (DO_ABD S16).
Definition neon_abdl_u64 := DO_ABD U32.
Definition neon_abdl_s64 := DO_ABD S32.
Definition neon_mull_u8 := do4 (DO_MULL U8 U16).
Definition neon_mull_s8 := do4 (DO_MULL S8 U16).
Definition neon_mull_u16 := do2 (DO_MULL U16 U32).
Definition neon_mull_s16 := do2 (DO_MULL S16 U32).

(** ** Interleaving *)

(** [env->vfp.regs], 64-bit registers. *)
Definition get_d (n : Z) : cpu Z := s <- gets (fun s => vfp_regs (vfp s)) ;; lift (aget s n).
Definition set_d (n v : Z) : cpu unit :=
  s <- gets (fun s => vfp_regs (vfp s)) ;; r <- lift (aset n v s) ;;
  modify (fun s => s <| vfp ::= fun v => v <| vfp_regs := r |> |>).
Definition ELEM (V N SIZE : Z) : Z := (V >> (N * SIZE)) .& ((1 << SIZE) - 1).
(** [e0 | (e1 << w) | (e2 << 2 * w) | ...] *)
Fixpoint ors (w p : Z) (l : list Z) : Z :=
  match l with [] => 0 | e :: r => (e << p) .| ors w (p + w) r end.

(** One register on either side: read, then written, that of the second operand first. *)
Definition with_pair (rd rm : Z) (f : Z -> Z -> Z * Z) : cpu unit :=
  zm <- get_d rm ;; zd <- get_d rd ;; let '(d0, m0) := f zd zm in set_d rm m0 ;;; set_d rd d0.
Definition neon_unzip8 (rd rm : Z) : cpu unit := with_pair rd rm (fun zd zm =>
  (ors 8 0 [ELEM zd 0 8; ELEM zd 2 8; ELEM zd 4 8; ELEM zd 6 8; ELEM zm 0 8; ELEM zm 2 8; ELEM zm 4 8; ELEM zm 6 8],
   ors 8 0 [ELEM zd 1 8; ELEM zd 3 8; ELEM zd 5 8; ELEM zd 7 8; ELEM zm 1 8; ELEM zm 3 8; ELEM zm 5 8; ELEM zm 7 8])).
Definition neon_unzip16 (rd rm : Z) : cpu unit := with_pair rd rm (fun zd zm =>
  (ors 16 0 [ELEM zd 0 16; ELEM zd 2 16; ELEM zm 0 16; ELEM zm 2 16],
   ors 16 0 [ELEM zd 1 16; ELEM zd 3 16; ELEM zm 1 16; ELEM zm 3 16])).
Definition neon_zip8 (rd rm : Z) : cpu unit := with_pair rd rm (fun zd zm =>
  (ors 8 0 [ELEM zd 0 8; ELEM zm 0 8; ELEM zd 1 8; ELEM zm 1 8; ELEM zd 2 8; ELEM zm 2 8; ELEM zd 3 8; ELEM zm 3 8],
   ors 8 0 [ELEM zd 4 8; ELEM zm 4 8; ELEM zd 5 8; ELEM zm 5 8; ELEM zd 6 8; ELEM zm 6 8; ELEM zd 7 8; ELEM zm 7 8])).
Definition neon_zip16 (rd rm : Z) : cpu unit := with_pair rd rm (fun zd zm =>
  (ors 16 0 [ELEM zd 0 16; ELEM zm 0 16; ELEM zd 1 16; ELEM zm 1 16],
   ors 16 0 [ELEM zd 2 16; ELEM zm 2 16; ELEM zd 3 16; ELEM zm 3 16])).

(** Two registers on either side. *)
Definition with_quads (rd rm : Z) (f : Z -> Z -> Z -> Z -> Z * Z * Z * Z) : cpu unit :=
  zm0 <- get_d rm ;; zm1 <- get_d (rm + 1) ;; zd0 <- get_d rd ;; zd1 <- get_d (rd + 1) ;;
  let '(d0, d1, m0, m1) := f zd0 zd1 zm0 zm1 in
  set_d rm m0 ;;; set_d (rm + 1) m1 ;;; set_d rd d0 ;;; set_d (rd + 1) d1.
Definition neon_qunzip8 (rd rm : Z) : cpu unit := with_quads rd rm (fun zd0 zd1 zm0 zm1 =>
  (ors 8 0 [ELEM zd0 0 8; ELEM zd0 2 8; ELEM zd0 4 8; ELEM zd0 6 8; ELEM zd1 0 8; ELEM zd1 2 8; ELEM zd1 4 8; ELEM zd1 6 8],
   ors 8 0 [ELEM zm0 0 8; ELEM zm0 2 8; ELEM zm0 4 8; ELEM zm0 6 8; ELEM zm1 0 8; ELEM zm1 2 8; ELEM zm1 4 8; ELEM zm1 6 8],
   ors 8 0 [ELEM zd0 1 8; ELEM zd0 3 8; ELEM zd0 5 8; ELEM zd0 7 8; ELEM zd1 1 8; ELEM zd1 3 8; ELEM zd1 5 8; ELEM zd1 7 8],
   ors 8 0 [ELEM zm0 1 8; ELEM zm0 3 8; ELEM zm0 5 8; ELEM zm0 7 8; ELEM zm1 1 8; ELEM zm1 3 8; ELEM zm1 5 8; ELEM zm1 7 8])).
Definition neon_qunzip16 (rd rm : Z) : cpu unit := with_quads rd rm (fun zd0 zd1 zm0 zm1 =>
  (ors 16 0 [ELEM zd0 0 16; ELEM zd0 2 16; ELEM zd1 0 16; ELEM zd1 2 16],
   ors 16 0 [ELEM zm0 0 16; ELEM zm0 2 16; ELEM zm1 0 16; ELEM zm1 2 16],
   ors 16 0 [ELEM zd0 1 16; ELEM zd0 3 16; ELEM zd1 1 16; ELEM zd1 3 16],
   ors 16 0 [ELEM zm0 1 16; ELEM zm0 3 16; ELEM zm1 1 16; ELEM zm1 3 16])).
Definition neon_qunzip32 (rd rm : Z) : cpu unit := with_quads rd rm (fun zd0 zd1 zm0 zm1 =>
  (ors 32 0 [ELEM zd0 0 32; ELEM zd1 0 32], ors 32 0 [ELEM zm0 0 32; ELEM zm1 0 32],
   ors 32 0 [ELEM zd0 1 32; ELEM zd1 1 32], ors 32 0 [ELEM zm0 1 32; ELEM zm1 1 32])).
Definition neon_qzip8 (rd rm : Z) : cpu unit := with_quads rd rm (fun zd0 zd1 zm0 zm1 =>
  (ors 8 0 [ELEM zd0 0 8; ELEM zm0 0 8; ELEM zd0 1 8; ELEM zm0 1 8; ELEM zd0 2 8; ELEM zm0 2 8; ELEM zd0 3 8; ELEM zm0 3 8],
   ors 8 0 [ELEM zd0 4 8; ELEM zm0 4 8; ELEM zd0 5 8; ELEM zm0 5 8; ELEM zd0 6 8; ELEM zm0 6 8; ELEM zd0 7 8; ELEM zm0 7 8],
   ors 8 0 [ELEM zd1 0 8; ELEM zm1 0 8; ELEM zd1 1 8; ELEM zm1 1 8; ELEM zd1 2 8; ELEM zm1 2 8; ELEM zd1 3 8; ELEM zm1 3 8],
   ors 8 0 [ELEM zd1 4 8; ELEM zm1 4 8; ELEM zd1 5 8; ELEM zm1 5 8; ELEM zd1 6 8; ELEM zm1 6 8; ELEM zd1 7 8; ELEM zm1 7 8])).
Definition neon_qzip16 (rd rm : Z) : cpu unit := with_quads rd rm (fun zd0 zd1 zm0 zm1 =>
  (ors 16 0 [ELEM zd0 0 16; ELEM zm0 0 16; ELEM zd0 1 16; ELEM zm0 1 16],
   ors 16 0 [ELEM zd0 2 16; ELEM zm0 2 16; ELEM zd0 3 16; ELEM zm0 3 16],
   ors 16 0 [ELEM zd1 0 16; ELEM zm1 0 16; ELEM zd1 1 16; ELEM zm1 1 16],
   ors 16 0 [ELEM zd1 2 16; ELEM zm1 2 16; ELEM zd1 3 16; ELEM zm1 3 16])).
Definition neon_qzip32 (rd rm : Z) : cpu unit := with_quads rd rm (fun zd0 zd1 zm0 zm1 =>
  (ors 32 0 [ELEM zd0 0 32; ELEM zm0 0 32], ors 32 0 [ELEM zd0 1 32; ELEM zm0 1 32],
   ors 32 0 [ELEM zd1 0 32; ELEM zm1 0 32], ors 32 0 [ELEM zd1 1 32; ELEM zm1 1 32])).

(** ** Fields of a word *)

Lemma masked_field w p x m : 0 <= w -> 0 <= p -> m = Z.ones w << p -> x .& m = wrap w (x >> p) << p.
Proof.
  intros Hw Hp ->. apply Z.bits_inj'. intros i Hi. rewrite Z.land_spec, !Z.shiftl_spec by done.
  destruct (Z.lt_ge_cases i p) as [Hlt|Hge]; [by rewrite !(Z.testbit_neg_r _ (i - p)), andb_false_r by lia|].
  rewrite testbit_wrap, Z.shiftr_spec by lia. replace (i - p + p) with i by lia. rewrite andb_comm. f_equal.
  destruct (Z.ltb_spec (i - p) w); [apply Z.ones_spec_low; lia|apply Z.ones_spec_high; lia].
Qed.

Lemma wrap_of_lane w v n d x : 0 <= w -> 0 <= d -> 0 <= n -> d + w <= v -> wrap w (x >> (v * n + d)) = wrap w (lane v n x >> d).
Proof.
  intros Hw Hd Hn Hv. apply Z.bits_inj'. intros i Hi. rewrite !testbit_wrap by done. destruct (Z.ltb_spec i w); [|done]. cbn [andb].
  rewrite !Z.shiftr_spec, lane_bit by nia. destruct (Z.ltb_spec (i + d) v); [|lia]. cbn [andb]. f_equal. lia.
Qed.
Lemma lane_conv t n x : 0 <= n -> wrap (size t) (elem t x n) = lane (size t) n x.
Proof. intros Hn. unfold elem. rewrite conv_wrap. unfold lane, wrap. rewrite shiftr_div; [done|]. pose proof (size_pos t). nia. Qed.

Lemma ors4 w v0 v1 v2 v3 : 0 <= w -> fits w v0 -> fits w v1 -> fits w v2 -> fits w v3 ->
  v0 .| (v1 << w) .| (v2 << (2 * w)) .| (v3 << (3 * w)) = pack w [v0; v1; v2; v3].
Proof.
  intros Hw H0 H1 H2 H3. cbn [pack]. rewrite !wrap_fits by done. rewrite Z.shiftl_0_l, Z.lor_0_r, !Z.shiftl_lor, !Z.shiftl_shiftl by lia.
  rewrite !Z.lor_assoc. repeat f_equal; lia.
Qed.
Lemma ors2 w v0 v1 : 0 <= w -> fits w v0 -> fits w v1 -> v0 .| (v1 << w) = pack w [v0; v1].
Proof. intros Hw H0 H1. cbn [pack]. rewrite !wrap_fits by done. by rewrite Z.shiftl_0_l, Z.lor_0_r. Qed.
Lemma pack1 w v0 : fits w v0 -> v0 = pack w [v0].
Proof. intros H0. cbn [pack]. by rewrite Z.shiftl_0_l, Z.lor_0_r, wrap_fits. Qed.

Lemma half_shifted_out w v0 : 0 <= w -> wrap (2 * w) (v0 << w) = wrap w v0 << w.
Proof.
  intros Hw. apply Z.bits_inj'. intros i Hi. rewrite testbit_wrap, !Z.shiftl_spec by lia.
  destruct (Z.lt_ge_cases i w); [by rewrite !(Z.testbit_neg_r _ (i - w)), andb_false_r by lia|]. rewrite testbit_wrap by lia.
  f_equal. destruct (Z.ltb_spec i (2 * w)), (Z.ltb_spec (i - w) w); lia.
Qed.

(** The elements of a word that was packed. *)
Lemma pack_packed w (k : nat) v r : 0 < w -> r = pack w (map v (seqZ 0 (Z.of_nat k))) -> (forall n, 0 <= n < Z.of_nat k -> fits w (v n)) ->
  packed w (seqZ 0 (Z.of_nat k)) v r.
Proof.
  intros Hw -> Hv. assert (made w k (pack w (map v (seqZ 0 (Z.of_nat k)))) v) as M by (split; [done|]; intros n Hn; apply Hv; apply elem_of_seqZ in Hn; lia).
  split; [unfold zlen; rewrite length_seqZ, Z2Nat.id by lia; exact (made_fits w Hw k _ _ M)|].
  intros n Hn. rewrite (made_lane w Hw k _ _ n M Hn). symmetry. apply wrap_fits. apply elem_of_seqZ in Hn. apply Hv. lia.
Qed.

(** ** The reference of the narrowing instructions *)

Inductive narrowing := VMOVN | VADDHN | VRADDHN | VQMOVN | VQMOVUN.
Definition half (t : vtype) : vtype :=
  match t with S16 => S8 | U16 => U8 | S32 => S16 | U32 => U16 | S64 => S32 | U64 => U32 | _ => t end.
(** The type of the results. *)
Definition narrow_type (op : narrowing) (t : vtype) : vtype := match op with VQMOVUN => half (unsigned t) | _ => half t end.
Definition narrowed (op : narrowing) (t : vtype) (v : Z) : Z :=
  let t' := narrow_type op t in
  match op with
  | VMOVN => v | VADDHN => v / 2 ^ size t' | VRADDHN => (v + 2 ^ (size t' - 1)) / 2 ^ size t'
  | VQMOVN | VQMOVUN => clamp (lowest t') (highest t') v
  end.
Definition narrow_exact (op : narrowing) (t : vtype) (v : Z) : bool :=
  match op with VQMOVN | VQMOVUN => within (narrow_type op t) v | _ => true end.
(** The elements of a 64-bit register. *)
Definition wide_elems (t : vtype) : list Z := seqZ 0 (64 / size t).
Definition narrow_helper (op : narrowing) (t : vtype) : option (Z -> cpu Z) :=
  match op, t with
  | VMOVN, U16 => Some neon_narrow_u8 | VMOVN, U32 => Some neon_narrow_u16
  | VADDHN, U16 => Some neon_narrow_high_u8 | VADDHN, U32 => Some neon_narrow_high_u16
  | VRADDHN, U16 => Some neon_narrow_round_high_u8 | VRADDHN, U32 => Some neon_narrow_round_high_u16
  | VQMOVN, U16 => Some neon_narrow_sat_u8 | VQMOVN, U32 => Some neon_narrow_sat_u16 | VQMOVN, U64 => Some neon_narrow_sat_u32
  | VQMOVN, S16 => Some neon_narrow_sat_s8 | VQMOVN, S32 => Some neon_narrow_sat_s16 | VQMOVN, S64 => Some neon_narrow_sat_s32
  | VQMOVUN, S16 => Some neon_unarrow_sat8 | VQMOVUN, S32 => Some neon_unarrow_sat16 | VQMOVUN, S64 => Some neon_unarrow_sat32
  | _, _ => None
  end.

Definition narrow_ok (op : narrowing) (t : vtype) (h : Z -> cpu Z) : Prop := forall x, fits 64 x ->
  exists r, packed (size (half t)) (wide_elems t) (fun n => narrowed op t (elem t x n)) r /\
    runs (h x) true r (forallb (fun n => narrow_exact op t (elem t x n)) (wide_elems t)).

(** A result put together from fields that are the wrapped references. *)
Lemma narrow_made op t h (k : nat) (d : Z -> Z -> Z) : wide_elems t = seqZ 0 (Z.of_nat k) ->
  (forall x, fits 64 x -> runs (h x) true (pack (size (half t)) (map (d x) (seqZ 0 (Z.of_nat k)))) (forallb (fun n => narrow_exact op t (elem t x n)) (wide_elems t))) ->
  (forall x n, fits 64 x -> 0 <= n < Z.of_nat k -> d x n = wrap (size (half t)) (narrowed op t (elem t x n))) -> narrow_ok op t h.
Proof.
  intros Hk Hr Hd x Hx. eexists. split; [|by apply Hr]. rewrite Hk.
  assert (0 < size (half t)) as Hs by apply size_pos.
  destruct (pack_packed (size (half t)) k (d x) _ Hs eq_refl) as [Hf Hl]; [intros n Hn; rewrite Hd by done; apply fits_wrap; lia|].
  split; [exact Hf|]. intros n Hn. rewrite Hl by done. apply elem_of_seqZ in Hn. rewrite Hd by (done || lia). apply wrap_wrap. lia.
Qed.

(** ** Taking fields of wide elements *)

Lemma gather4 w s x m0 m1 m2 m3 : 0 < w -> 0 <= s ->
  m0 = Z.ones w -> m1 = Z.ones w << w -> m2 = Z.ones w << (2 * w) -> m3 = Z.ones w << (3 * w) ->
  ((x >> s) .& m0) .| ((x >> (w + s)) .& m1) .| ((x >> (2 * w + s)) .& m2) .| ((x >> (3 * w + s)) .& m3) =
  pack w (map (fun n => wrap w (x >> (2 * w * n + s))) (seqZ 0 (Z.of_nat 4))).
Proof.
  intros Hw Hs H0 H1 H2 H3. rewrite (masked_field w 0 _ m0), (masked_field w w _ m1), (masked_field w (2 * w) _ m2), (masked_field w (3 * w) _ m3) by (rewrite ?Z.shiftl_0_r; done || lia).
  rewrite Z.shiftl_0_r, !Z.shiftr_shiftr by lia. rewrite ors4 by (lia || apply fits_wrap; lia). change (seqZ 0 (Z.of_nat 4)) with [0; 1; 2; 3]. cbn [map].
  f_equal. repeat match goal with |- _ :: _ = _ :: _ => apply (f_equal2 cons) end; try done; do 2 f_equal; lia.
Qed.
Lemma gather2 w s x m0 m1 : 0 < w -> 0 <= s -> m0 = Z.ones w -> m1 = Z.ones w << w ->
  ((x >> s) .& m0) .| ((x >> (w + s)) .& m1) = pack w (map (fun n => wrap w (x >> (2 * w * n + s))) (seqZ 0 (Z.of_nat 2))).
Proof.
  intros Hw Hs H0 H1. rewrite (masked_field w 0 _ m0), (masked_field w w _ m1) by (rewrite ?Z.shiftl_0_r; done || lia).
  rewrite Z.shiftl_0_r, !Z.shiftr_shiftr by lia. rewrite ors2 by (lia || apply fits_wrap; lia). change (seqZ 0 (Z.of_nat 2)) with [0; 1]. cbn [map].
  f_equal. repeat match goal with |- _ :: _ = _ :: _ => apply (f_equal2 cons) end; try done; do 2 f_equal; lia.
Qed.

Lemma elem_unsigned t n x : signed t = false -> 0 <= n -> elem t x n = lane (size t) n x.
Proof.
  intros Hu Hn. rewrite <- lane_conv by done. unfold elem, conv. rewrite Hu. rewrite wrap_wrap; [done|]. pose proof (size_pos t). lia.
Qed.
Lemma field_value t s n x : signed t = false -> 0 <= s -> 0 <= n -> let w := size (half t) in s + w <= size t ->
  wrap w (x >> (size t * n + s)) = wrap w (elem t x n / 2 ^ s).
Proof.
  intros Hu Hs Hn w Hw. pose proof (size_pos (half t)). rewrite wrap_of_lane by (unfold w in *; lia). by rewrite elem_unsigned, shiftr_div.
Qed.

Lemma movn_ok : narrow_ok VMOVN U16 neon_narrow_u8 /\ narrow_ok VMOVN U32 neon_narrow_u16.
Proof.
  split.
  - apply (narrow_made _ _ _ 4 (fun x n => wrap 8 (x >> (16 * n + 0)))); [done| |].
    + intros x Hx. unfold neon_narrow_u8. rewrite <- (Z.shiftr_0_r x) at 1. exact (runs_eq _ _ (gather4 8 0 x 0xff 0xff00 0xff0000 0xff000000 ltac:(done) ltac:(done) eq_refl eq_refl eq_refl eq_refl)).
    + intros x n Hx Hn. rewrite (field_value U16 0) by (done || lia). cbn [narrowed]. by rewrite Z.pow_0_r, Z.div_1_r.
  - apply (narrow_made _ _ _ 2 (fun x n => wrap 16 (x >> (32 * n + 0)))); [done| |].
    + intros x Hx. unfold neon_narrow_u16. rewrite <- (Z.shiftr_0_r x) at 1. exact (runs_eq _ _ (gather2 16 0 x 0xffff 0xffff0000 ltac:(done) ltac:(done) eq_refl eq_refl)).
    + intros x n Hx Hn. rewrite (field_value U32 0) by (done || lia). cbn [narrowed]. by rewrite Z.pow_0_r, Z.div_1_r.
Qed.
Lemma addhn_ok : narrow_ok VADDHN U16 neon_narrow_high_u8 /\ narrow_ok VADDHN U32 neon_narrow_high_u16.
Proof.
  split.
  - apply (narrow_made _ _ _ 4 (fun x n => wrap 8 (x >> (16 * n + 8)))); [done| |].
    + intros x Hx. exact (runs_eq _ _ (gather4 8 8 x 0xff 0xff00 0xff0000 0xff000000 ltac:(done) ltac:(done) eq_refl eq_refl eq_refl eq_refl)).
    + intros x n Hx Hn. by rewrite (field_value U16 8) by (done || lia).
  - apply (narrow_made _ _ _ 2 (fun x n => wrap 16 (x >> (32 * n + 16)))); [done| |].
    + intros x Hx. exact (runs_eq _ _ (gather2 16 16 x 0xffff 0xffff0000 ltac:(done) ltac:(done) eq_refl eq_refl)).
    + intros x n Hx Hn. by rewrite (field_value U32 16) by (done || lia).
Qed.

(** The rounding constants are added to all elements at once; a carry out of an
    element does not get past the low bits of the next one, which are masked. *)
Lemma halves_rounded h j e : 1 < h -> 0 <= e < h -> (h * j + e + h) / (2 * h) = (j + 1) / 2.
Proof.
  intros Hh He. replace (h * j + e + h) with (h * (j + 1) + e) by lia. rewrite (Z.mul_comm 2 h), <- Z.div_div by lia.
  rewrite (Z.mul_comm h (j + 1)), Z.div_add_l by lia. by rewrite (Z.div_small e), Z.add_0_r.
Qed.

Lemma round_carry w (k : nat) n x M C : 1 < w -> 0 <= n < Z.of_nat k -> fits (2 * w * Z.of_nat k) x ->
  made (2 * w) k M (fun _ => 2 ^ (2 * w) - 2 ^ (w - 1)) -> made (2 * w) k C (fun _ => 2 ^ (w - 1)) ->
  wrap w (wrap (2 * w * Z.of_nat k) ((x .& M) + C) >> (2 * w * n + w)) = wrap w ((lane (2 * w) n x + 2 ^ (w - 1)) / 2 ^ w).
Proof.
  intros Hw Hn Hx HM HC. assert (n ∈ seqZ 0 (Z.of_nat k)) as Hin by (apply elem_of_seqZ; lia).
  pose proof (made_land (2 * w) ltac:(lia) k _ _ _ _ (made_word (2 * w) ltac:(lia) k x Hx) HM) as HX.
  pose proof (made_lane (2 * w) ltac:(lia) k _ _ n HX Hin) as EX. pose proof (made_lane (2 * w) ltac:(lia) k _ _ n HC Hin) as EC. cbv beta in EX, EC.
  set (X := x .& M) in *. set (h := 2 ^ (w - 1)) in *.
  assert (1 < h) as Hh by (unfold h; change 1 with (2 ^ 0); apply Z.pow_lt_mono_r; lia).
  assert (2 ^ w = 2 * h) as Eh by (unfold h; rewrite <- Z.pow_succ_r by lia; f_equal; lia).
  assert (wrap w (wrap (2 * w * Z.of_nat k) (X + C) >> (2 * w * n + w)) = wrap w ((X + C) >> (2 * w * n + w))) as ->.
  { apply Z.bits_inj'. intros i Hi. rewrite !testbit_wrap by lia. destruct (Z.ltb_spec i w); [|done]. cbn [andb]. rewrite !Z.shiftr_spec, testbit_wrap by nia.
    destruct (Z.ltb_spec (i + (2 * w * n + w)) (2 * w * Z.of_nat k)); [done|nia]. }
  rewrite shiftr_div, Z.pow_add_r by nia. set (T := 2 ^ (2 * w * n)) in *. assert (0 < T) as HT by (apply Z.pow_pos_nonneg; nia).
  rewrite <- Z.div_div by (try apply Z.pow_nonzero; nia). set (L := lane (2 * w) n x) in *.
  assert (L .& (2 ^ (2 * w) - h) = h * (L / h)) as EL.
  { assert (fits (2 * w) L) as HL by (apply lane_fits; lia). assert (2 ^ (2 * w) - h = Z.ones (w + 1) << (w - 1)) as ->.
    { rewrite shiftl_mul, Z.ones_equiv by lia. fold h. rewrite <- Z.sub_1_r, Z.mul_sub_distr_r. unfold h. rewrite <- Z.pow_add_r by lia. replace (w + 1 + (w - 1)) with (2 * w) by lia. lia. }
    rewrite (masked_field (w + 1) (w - 1)) by (done || lia). rewrite shiftl_mul, shiftr_div by lia. fold h. rewrite Z.mul_comm. f_equal. apply wrap_fits. unfold fits in *.
    assert (2 ^ (2 * w) = 2 ^ (w + 1) * h) as E2 by (unfold h; rewrite <- Z.pow_add_r by lia; f_equal; lia). split; [apply Z.div_pos; lia|apply Z.div_lt_upper_bound; lia]. }
  rewrite EL in EX. unfold lane in EX, EC. fold T in EX, EC.
  pose proof (Z.div_mod X T ltac:(lia)) as DX. pose proof (Z.div_mod C T ltac:(lia)) as DC.
  pose proof (Z.mod_pos_bound X T HT). pose proof (Z.mod_pos_bound C T HT).
  pose proof (Z.div_mod (X / T) (2 ^ (2 * w)) ltac:(apply Z.pow_nonzero; lia)) as QX. pose proof (Z.div_mod (C / T) (2 ^ (2 * w)) ltac:(apply Z.pow_nonzero; lia)) as QC.
  rewrite EX in QX. rewrite EC in QC. set (c := (X mod T + C mod T) / T).
  assert (0 <= c < 2) as Hc by (unfold c; split; [apply Z.div_pos; lia|apply Z.div_lt_upper_bound; lia]).
  assert ((X + C) / T = X / T + C / T + c) as ->.
  { rewrite DX at 1. rewrite DC at 1. replace (T * (X / T) + X mod T + (T * (C / T) + C mod T)) with ((X mod T + C mod T) + (X / T + C / T) * T) by lia.
    rewrite Z.div_add by lia. unfold c. lia. }
  rewrite QX, QC. assert (2 ^ (2 * w) = 2 * h * (2 ^ w)) as -> by (rewrite <- Eh, <- Z.pow_add_r by lia; f_equal; lia). rewrite Eh.
  set (q1 := X / T / _). set (q2 := C / T / _).
  replace (2 * h * (2 * h) * q1 + h * (L / h) + (2 * h * (2 * h) * q2 + h) + c) with ((h * (L / h) + c + h) + ((q1 + q2) * (2 * h)) * (2 * h)) by lia.
  rewrite Z.div_add by lia. rewrite (halves_rounded h (L / h) c) by lia.
  assert ((L + h) / (2 * h) = (L / h + 1) / 2) as ->.
  { rewrite (Z.div_mod L h) at 1 by lia. apply halves_rounded; [done|]. apply Z.mod_pos_bound. lia. }
  unfold wrap. rewrite Eh. apply Z.mod_add. lia.
Qed.

Lemma raddhn_ok : narrow_ok VRADDHN U16 neon_narrow_round_high_u8 /\ narrow_ok VRADDHN U32 neon_narrow_round_high_u16.
Proof.
  split.
  - apply (narrow_made _ _ _ 4 (fun x n => wrap 8 (u64 ((x .& 0xff80ff80ff80ff80) + 0x0080008000800080) >> (16 * n + 8)))); [done| |].
    + intros x Hx. exact (runs_eq _ _ (gather4 8 8 _ 0xff 0xff00 0xff0000 0xff000000 ltac:(done) ltac:(done) eq_refl eq_refl eq_refl eq_refl)).
    + intros x n Hx Hn. etransitivity; [exact (round_carry 8 4 n x 0xff80ff80ff80ff80 0x0080008000800080 ltac:(done) Hn Hx ltac:(by split) ltac:(by split))|]. by rewrite (elem_unsigned U16) by (done || lia).
  - apply (narrow_made _ _ _ 2 (fun x n => wrap 16 (u64 ((x .& 0xffff8000ffff8000) + 0x0000800000008000) >> (32 * n + 16)))); [done| |].
    + intros x Hx. exact (runs_eq _ _ (gather2 16 16 _ 0xffff 0xffff0000 ltac:(done) ltac:(done) eq_refl eq_refl)).
    + intros x n Hx Hn. etransitivity; [exact (round_carry 16 2 n x 0xffff8000ffff8000 0x0000800000008000 ltac:(done) Hn Hx ltac:(by split) ltac:(by split))|]. by rewrite (elem_unsigned U32) by (done || lia).
Qed.

(** ** Narrowing with saturation *)

Lemma at_all_run (f : Z -> Z -> cpu Z) (d : Z -> Z) ok :
  (forall n res, 0 <= n < 4 -> runs (f (16 * n) res) true (res .| (d n << (8 * n))) (ok n)) -> (forall n, 0 <= n < 4 -> fits 8 (d n)) ->
  runs (at_all f) true (pack 8 (map d (seqZ 0 (Z.of_nat 4)))) (forallb ok (seqZ 0 (Z.of_nat 4))).
Proof.
  intros Hf Hd. change (seqZ 0 (Z.of_nat 4)) with [0; 1; 2; 3]. cbn [map forallb]. rewrite andb_true_r.
  rewrite <- ors4 by (done || apply Hd; lia). unfold at_all.
  pose proof (Hf 0 0 ltac:(lia)) as H0. change (16 * 0) with 0 in H0. change (8 * 0) with 0 in H0. rewrite Z.lor_0_l, Z.shiftl_0_r in H0.
  eapply (runs_bind _ _ true _ _ true); [exact H0|]. eapply (runs_bind _ _ true _ _ true); [exact (Hf 1 _ ltac:(lia))|].
  eapply (runs_bind _ _ true _ _ true); [exact (Hf 2 _ ltac:(lia))|]. exact (Hf 3 _ ltac:(lia)).
Qed.

(** The bits of an element put at their place. *)
Lemma place_run (m : cpu Z) d ok n res : runs m true d ok -> runs (d <- m ;; ret (res .| (d << (16 * n / 2)))) true (res .| (d << (8 * n))) ok.
Proof.
  intros Hm. replace (16 * n / 2) with (8 * n) by (replace (16 * n) with (8 * n * 2) by lia; by rewrite Z.div_mul).
  rewrite <- (andb_true_r ok). by eapply (runs_bind _ _ true _ _ true); [exact Hm|apply runs_ret].
Qed.

Lemma elem_within t x n : within t (elem t x n) = true.
Proof. apply conv_within. Qed.
(** The sign of an element. *)
Lemma sign_of w z : 0 < w -> test (wrap w z) (2 ^ (w - 1)) = (sgn w z <? 0).
Proof.
  intros Hw. pose proof (fits_wrap w z ltac:(lia)) as Hf. pose proof (top_double w Hw) as [Hd Hp].
  rewrite test_top, (top_bit w Hw) by (done || lia). unfold sgn. unfold fits in Hf. bounds.
Qed.

(** Clamping, as the code writes it. *)
Ltac limits := unfold within, clamp; cbn [lowest highest signed size unsigned half narrow_type]; bounds; try (f_equal; lia).
Ltac range H := apply within_range in H; cbn [lowest highest signed size] in H.

Lemma above_run hi m v : 0 <= v -> hi = 2 ^ m - 1 -> 0 <= m ->
  runs (if hi <? v then set_qc ;;; ret hi else ret (wrap m v)) true (clamp 0 hi v) ((0 <=? v) && (v <=? hi)).
Proof.
  intros Hv -> Hm. apply runs_cond; [bounds|]. unfold clamp. destruct (Z.ltb_spec (2 ^ m - 1) v); [bounds|]. rewrite wrap_fits by (unfold fits; lia). bounds.
Qed.

(** The sign of a signed integer, in all bits. *)
Lemma sign_bits t s : signed t = true -> within t s = true -> s >> (size t - 1) = if s <? 0 then -1 else 0.
Proof.
  intros Ht Hs. pose proof (half_size t) as [Hd Hp]. pose proof (size_pos t). range Hs. unfold lowest, highest in Hs. rewrite Ht in Hs.
  rewrite shiftr_div by lia. destruct (Z.ltb_spec s 0); [symmetry; apply (Z.div_unique _ _ _ (s + 2 ^ (size t - 1))); lia|apply Z.div_small; lia].
Qed.
Lemma around_run (t : vtype) (cut : Z -> Z) s : signed t = true -> signed (half t) = true -> within t s = true ->
  runs (if negb (s =? conv (half t) s) then set_qc ;;; ret (cut ((s >> (size t - 1)) .^ highest (half t))) else ret (cut s)) true
    (cut (clamp (lowest (half t)) (highest (half t)) s)) (within (half t) s).
Proof.
  intros Ht Hh Hs. rewrite conv_eq. apply runs_cond; [done|]. rewrite (sign_bits t) by done.
  destruct (within (half t) s) eqn:E; cbn [negb].
  - apply within_range in E. f_equal. unfold clamp. bounds.
  - f_equal. assert (~ (lowest (half t) <= s <= highest (half t))) as Hn by (intros Hin; apply within_range in Hin; congruence).
    destruct t; try done; cbn [half lowest highest signed size] in *; unfold clamp; bounds.
Qed.

Lemma test_sign t z : test (wrap (size t) z) (2 ^ (size t - 1)) = (sgn (size t) z <? 0).
Proof. apply sign_of, size_pos. Qed.
Lemma unsigned_value w z : 0 < w -> (sgn w z <? 0) = false -> wrap w z = sgn w z.
Proof. intros Hw Hs. pose proof (fits_wrap w z ltac:(lia)) as Hf. unfold sgn, fits in *. apply Z.ltb_ge in Hs. destruct (_ <? _); lia. Qed.

(** Negative elements are clamped to zero. *)
Lemma below_run w (hi m : Z) z : 0 < w -> hi = 2 ^ m - 1 -> 0 <= m ->
  runs (if test (wrap w z) (2 ^ (w - 1)) then set_qc ;;; ret 0 else if hi <? wrap w z then set_qc ;;; ret hi else ret (wrap m (wrap w z))) true
    (clamp 0 hi (sgn w z)) ((0 <=? sgn w z) && (sgn w z <=? hi)).
Proof.
  intros Hw Hhi Hm. assert (0 <= hi) by (pose proof (Z.pow_pos_nonneg 2 m ltac:(lia) Hm); lia). rewrite sign_of by done. destruct (sgn w z <? 0) eqn:E.
  - pose proof E as El. apply Z.ltb_lt in El. assert (clamp 0 hi (sgn w z) = 0) as -> by (unfold clamp; by rewrite E).
    destruct (Z.leb_spec 0 (sgn w z)); [lia|]. apply runs_qc.
  - rewrite unsigned_value by done. apply Z.ltb_ge in E. by apply (above_run hi m).
Qed.

Lemma narrow_sat8_ok :
  narrow_ok VQMOVN U16 neon_narrow_sat_u8 /\ narrow_ok VQMOVN S16 neon_narrow_sat_s8 /\ narrow_ok VQMOVUN S16 neon_unarrow_sat8.
Proof.
  assert (forall z, fits 8 (clamp 0 255 z)) as Hc by (intros z; unfold fits, clamp; bounds; lia).
  split_and!.
  - apply (narrow_made _ _ _ 4 (fun x n => clamp 0 255 (elem U16 x n))); [done| |intros x n Hx Hn; symmetry; apply (wrap_fits 8), Hc].
    intros x Hx. apply at_all_run; [|intros n Hn; apply Hc]. intros n res Hn. apply place_run.
    pose proof (elem_within U16 x n) as Hw. range Hw. apply (above_run 255 8 (elem U16 x n)); [lia|done|done].
  - apply (narrow_made _ _ _ 4 (fun x n => u8 (clamp (-128) 127 (elem S16 x n)))); [done| |done].
    intros x Hx. apply at_all_run; [|intros n Hn; by apply fits_wrap]. intros n res Hn. apply place_run.
    exact (around_run S16 (fun z => u8 z) (elem S16 x n) eq_refl eq_refl (elem_within S16 x n)).
  - apply (narrow_made _ _ _ 4 (fun x n => clamp 0 255 (elem S16 x n))); [done| |intros x n Hx Hn; symmetry; apply (wrap_fits 8), Hc].
    intros x Hx. apply at_all_run; [|intros n Hn; apply Hc]. intros n res Hn.
    pose proof (below_run 16 255 8 (x >> (16 * n)) ltac:(done) eq_refl ltac:(done)) as Hb. change (sgn 16 (x >> (16 * n))) with (elem S16 x n) in *.
    unfold unarrow_sat8_at. cbv zeta. change (2 ^ (16 - 1)) with 0x8000 in Hb. change (u16 (x >> (16 * n))) with (wrap 16 (x >> (16 * n))).
    destruct (test (wrap 16 (x >> (16 * n))) 0x8000) eqn:Et; [|by apply place_run].
    change 0x8000 with (2 ^ (16 - 1)) in Et. rewrite sign_of in Et by done. change (sgn 16 (x >> (16 * n))) with (elem S16 x n) in Et.
    assert (clamp 0 255 (elem S16 x n) = 0) as -> by (unfold clamp; by rewrite Et). rewrite Z.shiftl_0_l, Z.lor_0_r.
    unfold narrow_exact, within. cbn [narrow_type unsigned half lowest signed]. rewrite <- Z.ltb_ge in *. apply Z.ltb_lt in Et. destruct (Z.leb_spec 0 (elem S16 x n)); [lia|]. apply runs_qc.
Qed.

Lemma above_word hi m v : 0 <= v -> hi = 2 ^ m - 1 -> 0 <= m ->
  runs (if hi <? v then set_qc ;;; ret hi else ret v) true (clamp 0 hi v) ((0 <=? v) && (v <=? hi)).
Proof. intros Hv -> Hm. apply runs_cond; [bounds|]. unfold clamp. bounds. Qed.
Lemma below_word w (hi m : Z) z : 0 < w -> hi = 2 ^ m - 1 -> 0 <= m ->
  runs (if test (wrap w z) (2 ^ (w - 1)) then set_qc ;;; ret 0 else if hi <? wrap w z then set_qc ;;; ret hi else ret (wrap w z)) true
    (clamp 0 hi (sgn w z)) ((0 <=? sgn w z) && (sgn w z <=? hi)).
Proof.
  intros Hw -> Hm. pose proof (Z.pow_pos_nonneg 2 m ltac:(lia) Hm). rewrite sign_of by done. destruct (sgn w z <? 0) eqn:E.
  - pose proof E as El. apply Z.ltb_lt in El. assert (clamp 0 (2 ^ m - 1) (sgn w z) = 0) as -> by (unfold clamp; by rewrite E).
    destruct (Z.leb_spec 0 (sgn w z)); [lia|]. apply runs_qc.
  - rewrite unsigned_value by done. apply Z.ltb_ge in E. by apply (above_word _ m).
Qed.

(** Two halves of a result. *)
Lemma halves_ok op t (one : Z -> cpu Z) (cv g : Z -> Z) : size t = 32 ->
  (forall z, runs (one (cv z)) true (narrowed op t (conv t z)) (narrow_exact op t (conv t z))) ->
  (forall z, g (narrowed op t (conv t z)) = wrap 16 (narrowed op t (conv t z))) ->
  narrow_ok op t (fun x => low <- one (cv x) ;; high <- one (cv (x >> 32)) ;; ret (g low .| u32 (high << 16))).
Proof.
  intros Ht Hone Hg. assert (wide_elems t = seqZ 0 (Z.of_nat 2) /\ size (half t) = 16) as [Ew Es] by (destruct t; done).
  apply (narrow_made _ _ _ 2 (fun x n => wrap 16 (narrowed op t (elem t x n)))); [done| |by rewrite Es].
  intros x Hx. rewrite Ew, Es. change (seqZ 0 (Z.of_nat 2)) with [0; 1]. cbn [map forallb]. rewrite andb_true_r.
  assert (elem t x 0 = conv t x /\ elem t x 1 = conv t (x >> 32)) as [-> ->] by (unfold elem; rewrite Ht, Z.mul_0_r, Z.shiftr_0_r; done).
  rewrite <- ors2 by (done || by apply fits_wrap). rewrite <- (andb_true_r (narrow_exact op t (conv t (x >> 32)))).
  eapply (runs_bind _ _ true _ _ true); [apply Hone|]. eapply (runs_bind _ _ true _ _ true); [apply Hone|].
  apply runs_eq. rewrite Hg. f_equal. apply (half_shifted_out 16). done.
Qed.

Lemma narrow_sat16_ok :
  narrow_ok VQMOVN U32 neon_narrow_sat_u16 /\ narrow_ok VQMOVN S32 neon_narrow_sat_s16 /\ narrow_ok VQMOVUN S32 neon_unarrow_sat16.
Proof.
  assert (forall z, clamp 0 65535 z = wrap 16 (clamp 0 65535 z)) as Hc by (intros z; symmetry; apply wrap_fits; unfold fits, clamp; bounds; lia).
  split_and!.
  - apply (halves_ok VQMOVN U32 narrow16_u (fun z => u32 z) (fun z => z)); [done| |intros z; apply Hc].
    intros z. apply (above_word 65535 16); [|done..]. by apply fits_wrap.
  - apply (halves_ok VQMOVN S32 narrow16_s (fun z => sgn 32 z) (fun z => u16 z)); [done| |done].
    intros z. exact (around_run S32 (fun z => z) (conv S32 z) eq_refl eq_refl (conv_within S32 z)).
  - apply (halves_ok VQMOVUN S32 unarrow16 (fun z => u32 z) (fun z => z)); [done| |intros z; apply Hc].
    intros z. by apply (below_word 32 65535 16).
Qed.

(** A single element. *)
Lemma single_ok op t h : size t = 64 -> (forall x, fits 64 x -> runs (h x) true (u32 (narrowed op t (conv t x))) (narrow_exact op t (conv t x))) -> narrow_ok op t h.
Proof.
  intros Ht Hh. assert (wide_elems t = seqZ 0 (Z.of_nat 1) /\ size (half t) = 32) as [Ew Es] by (destruct t; done).
  apply (narrow_made _ _ _ 1 (fun x n => wrap 32 (narrowed op t (elem t x n)))); [done| |by rewrite Es].
  intros x Hx. rewrite Ew, Es. change (seqZ 0 (Z.of_nat 1)) with [0]. cbn [map forallb]. rewrite andb_true_r, elem_0.
  rewrite <- pack1 by (by apply fits_wrap). by apply Hh.
Qed.
Lemma narrow_sat32_ok :
  narrow_ok VQMOVN U64 neon_narrow_sat_u32 /\ narrow_ok VQMOVN S64 neon_narrow_sat_s32 /\ narrow_ok VQMOVUN S64 neon_unarrow_sat32.
Proof.
  assert (forall z, clamp 0 0xffffffff z = u32 (clamp 0 0xffffffff z)) as Hc by (intros z; symmetry; apply wrap_fits; unfold fits, clamp; bounds; lia).
  split_and!; apply single_ok; try done; intros x Hx.
  - assert (conv U64 x = x) as -> by (by apply (wrap_fits 64)). change (u32 (narrowed VQMOVN U64 x)) with (u32 (clamp 0 0xffffffff x)). rewrite <- Hc. apply (above_run 0xffffffff 32); [|done..]. by apply (fits_nonneg 64).
  - assert (u32 x = u32 (conv S64 x)) as E by (rewrite <- (wrap_wrap 32 64 (conv S64 x)), <- (wrap_wrap 32 64 x) by lia; f_equal; symmetry; apply (conv_wrap S64)).
    unfold neon_narrow_sat_s32. rewrite E. assert (sgn 32 x = conv S32 (conv S64 x)) as -> by (unfold conv at 1; cbn [signed size]; unfold sgn at 1; rewrite E; done).
    exact (around_run S64 (fun z => u32 z) (conv S64 x) eq_refl eq_refl (conv_within S64 x)).
  - change (u32 (narrowed VQMOVUN S64 (conv S64 x))) with (u32 (clamp 0 0xffffffff (sgn 64 x))). rewrite <- Hc.
    pose proof (below_run 64 0xffffffff 32 x ltac:(done) eq_refl ltac:(done)) as Hb. by rewrite (wrap_fits 64) in Hb.
Qed.

(** Every narrowing instruction gives in each element of a word the element of the
    register: its low half, its high half, truncated or rounded, or its value clamped
    to the type of the result, where the flag tells that a value was clamped. *)
Theorem narrowing_is_elementwise op t h x : narrow_helper op t = Some h -> fits 64 x ->
  exists r, packed (size (half t)) (wide_elems t) (fun n => narrowed op t (elem t x n)) r /\
    forall env, h x env = Done (r, qc_env (forallb (fun n => narrow_exact op t (elem t x n)) (wide_elems t)) env, []).
Proof.
  intros Hh Hx. destruct op, t; try discriminate Hh; injection Hh as <-.
  all: first [by apply movn_ok|by apply addhn_ok|by apply raddhn_ok|by apply narrow_sat8_ok|by apply narrow_sat16_ok|by apply narrow_sat32_ok].
Qed.

(** ** Widening, and sums of wide elements *)

Definition widen_helper (t : vtype) : option (Z -> Z) :=
  match t with U8 => Some neon_widen_u8 | S8 => Some neon_widen_s8 | U16 => Some neon_widen_u16 | S16 => Some neon_widen_s16 | _ => None end.
(** Every element is extended by zeros or by its sign. *)
Lemma widening_is_elementwise t h x : widen_helper t = Some h -> packed (2 * size t) (elems t) (elem t x) (h x).
Proof.
  intros Hh. assert (forall n, fits (2 * size t) (wrap (2 * size t) (elem t x n))) as Hf by (intros n; apply fits_wrap; pose proof (size_pos t); lia).
  assert (forall k, elems t = seqZ 0 (Z.of_nat k) -> h x = pack (2 * size t) (map (fun n => wrap (2 * size t) (elem t x n)) (seqZ 0 (Z.of_nat k))) -> packed (2 * size t) (elems t) (elem t x) (h x)) as Hp.
  { intros k -> E. pose proof (size_pos t). destruct (pack_packed (2 * size t) k (fun n => wrap (2 * size t) (elem t x n)) _ ltac:(lia) E) as [Hr Hl]; [done|].
    split; [done|]. intros n Hn. rewrite Hl by done. apply wrap_wrap. lia. }
  assert (elem t x 0 = conv t x) as E0 by apply elem_0.
  assert (forall w v z, 0 <= w <= v -> wrap v (wrap w z) = wrap w z) as Hwv by (intros w v z Hv; apply wrap_fits, (fits_weaken w); [lia|apply fits_wrap; lia]).
  destruct t; try discriminate Hh; injection Hh as <-; cbn [size] in *.
  - apply (Hp 4%nat); [done|]. change (seqZ 0 (Z.of_nat 4)) with [0; 1; 2; 3]. cbn [map]. rewrite <- ors4, E0 by (done || apply Hf). done.
  - apply (Hp 4%nat); [done|]. change (seqZ 0 (Z.of_nat 4)) with [0; 1; 2; 3]. cbn [map]. rewrite <- ors4, E0 by (done || apply Hf).
    unfold elem, conv. cbn [signed size]. rewrite !Hwv by done. done.
  - apply (Hp 2%nat); [done|]. change (seqZ 0 (Z.of_nat 2)) with [0; 1]. cbn [map]. rewrite <- ors2, E0 by (done || apply Hf).
    unfold neon_widen_s16. cbv zeta. rewrite (half_shifted_out 32), wrap_wrap by done. done.
  - apply (Hp 2%nat); [done|]. change (seqZ 0 (Z.of_nat 2)) with [0; 1]. cbn [map]. rewrite <- ors2, E0 by (done || apply Hf).
    unfold elem, conv. cbn [signed size]. rewrite !Hwv by done. done.
Qed.

Inductive wide_op := VADDL | VSUBL.
Definition wide_helper (op : wide_op) (t : vtype) : option (Z -> Z -> Z) :=
  match op, t with
  | VADDL, U16 => Some neon_addl_u16 | VADDL, U32 => Some neon_addl_u32
  | VSUBL, U16 => Some neon_subl_u16 | VSUBL, U32 => Some neon_subl_u32 | _, _ => None
  end.
Definition wide_exact (op : wide_op) (x y : Z) : Z := match op with VADDL => x + y | VSUBL => x - y end.

Lemma made_packed w (k : nat) r f v : 0 < w -> made w k r f -> (forall n, 0 <= n < Z.of_nat k -> f n = wrap w (v n)) -> packed w (seqZ 0 (Z.of_nat k)) v r.
Proof.
  intros Hw M Hv. split; [unfold zlen; rewrite length_seqZ, Z2Nat.id by lia; exact (made_fits w Hw k _ _ M)|].
  intros n Hn. rewrite (made_lane w Hw k _ _ n M Hn). apply elem_of_seqZ in Hn. apply Hv. lia.
Qed.

Lemma made_lnot w (k : nat) b : 0 < w -> fits (w * Z.of_nat k) b -> made w k (wrap (w * Z.of_nat k) (Z.lnot b)) (fun n => 2 ^ w - 1 - lane w n b).
Proof.
  intros Hw Hb. apply made_intro; [done|apply fits_wrap; nia|]. intros n Hn. apply elem_of_seqZ in Hn. apply Z.bits_inj'. intros i Hi.
  pose proof (lane_fits w Hw n b) as Hl. rewrite lane_bit, testbit_wrap, Z.lnot_spec by nia.
  assert (2 ^ w - 1 - lane w n b = wrap w (Z.lnot (lane w n b))) as ->.
  { unfold wrap, fits, Z.lnot in *. replace (Z.pred (- lane w n b)) with (2 ^ w - 1 - lane w n b + (-1) * 2 ^ w) by lia. rewrite Z.mod_add by lia. symmetry. apply Z.mod_small. lia. }
  rewrite testbit_wrap, Z.lnot_spec, lane_bit by lia. destruct (Z.ltb_spec i w); [|done]. destruct (Z.ltb_spec (w * n + i) (w * Z.of_nat k)); [|nia]. done.
Qed.

Lemma wide_sums_are_elementwise op t h a b : wide_helper op t = Some h -> fits 64 a -> fits 64 b ->
  packed (size t) (wide_elems t) (fun n => wide_exact op (elem t a n) (elem t b n)) (h a b).
Proof.
  intros Hh Ha Hb. destruct op, t; try discriminate Hh; injection Hh as <-; cbn [size wide_exact].
  - apply (made_packed 16 4 _ _ _ ltac:(done) (made_add 16 ltac:(done) 4 a b 0x7fff7fff7fff7fff 0x8000800080008000 Ha Hb ltac:(by split) ltac:(by split))).
    intros n Hn. rewrite !elem_unsigned by (done || lia). done.
  - apply (made_packed 32 2 _ _ _ ltac:(done) (made_add 32 ltac:(done) 2 a b 0x7fffffff7fffffff 0x8000000080000000 Ha Hb ltac:(by split) ltac:(by split))).
    intros n Hn. rewrite !elem_unsigned by (done || lia). done.
  - apply (made_packed 16 4 _ _ _ ltac:(done) (made_sub 16 ltac:(done) 4 a b 0x7fff7fff7fff7fff 0x8000800080008000 _ Ha Hb ltac:(by split) ltac:(by split) (made_lnot 16 4 b ltac:(done) Hb))).
    intros n Hn. rewrite !elem_unsigned by (done || lia). done.
  - apply (made_packed 32 2 _ _ _ ltac:(done) (made_sub 32 ltac:(done) 2 a b 0x7fffffff7fffffff 0x8000000080000000 _ Ha Hb ltac:(by split) ltac:(by split) (made_lnot 32 2 b ltac:(done) Hb))).
    intros n Hn. rewrite !elem_unsigned by (done || lia). done.
Qed.

(** Any word packed from wrapped values. *)
Lemma wrapped_packed w (k : nat) r d : 0 < w -> r = pack w (map (fun n => wrap w (d n)) (seqZ 0 (Z.of_nat k))) -> packed w (seqZ 0 (Z.of_nat k)) d r.
Proof.
  intros Hw E. destruct (pack_packed w k (fun n => wrap w (d n)) _ Hw E) as [Hr Hl]; [intros n Hn; apply fits_wrap; lia|].
  split; [done|]. intros n Hn. rewrite Hl by done. apply wrap_wrap. lia.
Qed.

Definition neg_helper (t : vtype) : option (Z -> Z) :=
  match t with U16 => Some neon_negl_u16 | U32 => Some neon_negl_u32 | U64 => Some neon_negl_u64 | _ => None end.
Lemma wrap_opp w z : 0 < w -> wrap w (- z) = wrap w (- wrap w z).
Proof.
  intros Hw. unfold wrap. pose proof (Z.pow_pos_nonneg 2 w ltac:(lia) ltac:(lia)). rewrite (Z.div_mod z (2 ^ w)) at 1 by lia.
  replace (- (2 ^ w * (z / 2 ^ w) + z mod 2 ^ w)) with (- (z mod 2 ^ w) + (- (z / 2 ^ w)) * 2 ^ w) by lia. apply Z.mod_add. lia.
Qed.
Lemma negation_is_elementwise t h x : neg_helper t = Some h -> packed (size t) (wide_elems t) (fun n => - elem t x n) (h x).
Proof.
  intros Hh.
  assert (forall n, wrap (size t) (- (x >> (size t * n))) = wrap (size t) (- elem t x n)) as Hv.
  { intros n. pose proof (size_pos t). rewrite (wrap_opp _ (elem t x n)) by done. unfold elem. rewrite conv_wrap. by apply wrap_opp. }
  destruct t; try discriminate Hh; injection Hh as <-; cbn [size] in *.
  - apply (wrapped_packed 16 4); [done|]. change (seqZ 0 (Z.of_nat 4)) with [0; 1; 2; 3]. cbn [map]. rewrite <- !Hv. rewrite <- ors4 by (done || by apply fits_wrap).
    change (16 * 0) with 0. by rewrite Z.shiftr_0_r.
  - apply (wrapped_packed 32 2); [done|]. change (seqZ 0 (Z.of_nat 2)) with [0; 1]. cbn [map]. rewrite <- !Hv. rewrite <- ors2 by (done || by apply fits_wrap).
    change (32 * 0) with 0. by rewrite Z.shiftr_0_r.
  - apply (wrapped_packed 64 1); [done|]. change (seqZ 0 (Z.of_nat 1)) with [0]. cbn [map]. rewrite <- !Hv. rewrite <- pack1 by (by apply fits_wrap).
    change (64 * 0) with 0. by rewrite Z.shiftr_0_r.
Qed.

(** ** Saturating sums of wide elements *)

Lemma add_saturate_word x y : fits 32 x -> fits 32 y ->
  runs (add_saturate_s32 x y) true (u32 (clamp (lowest S32) (highest S32) (sgn 32 x + sgn 32 y))) (within S32 (sgn 32 x + sgn 32 y)).
Proof.
  intros Hx Hy. destruct qadd_s_word as [[Hw _] _]. pose proof (Hw x y Hx Hy) as Hq. unfold neon_qadd_s32, add_saturate_s32 in *. cbv zeta in *.
  assert (u32 (Z.lnot (u32 (sgn 32 x >> 31) .^ SIGNBIT)) = u32 (sgn 32 x >> 31) .^ u32 (Z.lnot SIGNBIT)) as <-; [|exact Hq].
  assert (sgn 32 x >> 31 = if sgn 32 x <? 0 then -1 else 0) as -> by exact (sign_bits S32 (sgn 32 x) eq_refl (conv_within S32 x)). by destruct (_ <? 0).
Qed.

Definition wide_sat_helper (t : vtype) : option (Z -> Z -> cpu Z) :=
  match t with S32 => Some neon_addl_saturate_s32 | S64 => Some neon_addl_saturate_s64 | _ => None end.
(** Sums of wide elements are clamped, one by one. *)
Lemma wide_saturation_is_elementwise t h a b : wide_sat_helper t = Some h -> fits 64 a -> fits 64 b ->
  exists r, packed (size t) (wide_elems t) (fun n => clamp (lowest t) (highest t) (elem t a n + elem t b n)) r /\
    runs (h a b) true r (forallb (fun n => within t (elem t a n + elem t b n)) (wide_elems t)).
Proof.
  intros Hh Ha Hb.
  destruct t; try discriminate Hh; injection Hh as <-; eexists.
  - split; [by apply (wrapped_packed 32 2)|]. change (seqZ 0 (Z.of_nat 2)) with [0; 1]. change (wide_elems S32) with [0; 1]. cbn [map forallb]. rewrite andb_true_r.
    rewrite <- ors2 by (done || by apply fits_wrap). rewrite !elem_0. change (elem S32 a 1) with (conv S32 (a >> 32)). change (elem S32 b 1) with (conv S32 (b >> 32)).
    assert (forall z, conv S32 z = sgn 32 (u32 z)) as E by (intros z; symmetry; apply (sgn_wrap_word 32); done). rewrite !E.
    eapply (runs_bind _ _ true _ _ true); [apply add_saturate_word; by apply fits_wrap|].
    rewrite <- (andb_true_r (within S32 (sgn 32 (u32 (a >> 32)) + _))). eapply (runs_bind _ _ true _ _ true); [apply add_saturate_word; by apply fits_wrap|].
    by apply runs_ret.
  - split; [by apply (wrapped_packed 64 1)|]. change (seqZ 0 (Z.of_nat 1)) with [0]. change (wide_elems S64) with [0]. cbn [map forallb]. rewrite andb_true_r, !elem_0, <- pack1 by (by apply fits_wrap).
    destruct qadd_s_word as [[_ Hw] _]. exact (Hw a b Ha Hb).
Qed.

(** ** Pairs of wide elements *)

(** The sums of neighbours, first those of [a], then those of [b]. *)
Lemma neighbour_sums a : fits 64 a -> let s := (a .& 0x0000ffff0000ffff) + ((a >> 16) .& 0x0000ffff0000ffff) in
  made 32 2 s (fun n => lane 16 (2 * n) a + lane 16 (2 * n + 1) a).
Proof.
  intros Ha s. pose proof (made_word 32 ltac:(done) 2 a Ha) as Ma. pose proof (made_land 32 ltac:(done) 2 a 0x0000ffff0000ffff _ (fun _ => 0xffff) Ma ltac:(by split)) as M1. unfold s.
  pose proof (made_shr 32 ltac:(done) 2 a 16 0x0000ffff0000ffff 0xffff Ha ltac:(done) ltac:(by split)) as M2.
  assert (forall n, 0 <= n < 2 -> lane 32 n a .& 0xffff = lane 16 (2 * n) a /\ (lane 32 n a >> 16) .& 0xffff = lane 16 (2 * n + 1) a) as E.
  { intros n Hn. split; apply Z.bits_inj'; intros i Hi; rewrite Z.land_spec, ?Z.shiftr_spec, !lane_bit by lia; change 0xffff with (Z.ones 16); rewrite Z.testbit_ones_nonneg by lia.
    - destruct (Z.ltb_spec i 32), (Z.ltb_spec i 16); try lia; cbn [andb]; rewrite ?andb_true_r, ?andb_false_r; try done. f_equal. lia.
    - destruct (Z.ltb_spec (i + 16) 32), (Z.ltb_spec i 16); try lia; cbn [andb]; rewrite ?andb_true_r, ?andb_false_r; try done. f_equal. lia. }
  eapply made_ext; [|apply (made_sum 32 ltac:(done) 2 _ _ _ _ M1 (M2 ltac:(intros i Hi; destruct (Z.lt_ge_cases i 16); [lia|]; by rewrite (fits_high 16) in Hi by (done || lia))))].
  - intros n Hn. apply elem_of_seqZ in Hn. cbv beta. destruct (E n ltac:(lia)) as [-> ->]. done.
  - intros n Hn. apply elem_of_seqZ in Hn. cbv beta. destruct (E n ltac:(lia)) as [-> ->]. pose proof (lane_fits 16 ltac:(done) (2 * n) a). pose proof (lane_fits 16 ltac:(done) (2 * n + 1) a). unfold fits in *. lia.
Qed.

Definition pair_elem (t : vtype) (a b n : Z) : Z :=
  let k := 64 / size t / 2 in
  if n <? k then elem t a (2 * n) + elem t a (2 * n + 1) else elem t b (2 * (n - k)) + elem t b (2 * (n - k) + 1).
Definition pair_sum_helper (t : vtype) : option (Z -> Z -> Z) :=
  match t with U16 => Some neon_paddl_u16 | U32 => Some neon_paddl_u32 | _ => None end.

Lemma wrap_shiftl w z n : 0 <= n <= w -> wrap w (z << n) = wrap (w - n) z << n.
Proof.
  intros Hn. apply Z.bits_inj'. intros i Hi. rewrite testbit_wrap, !Z.shiftl_spec by lia.
  destruct (Z.lt_ge_cases i n); [by rewrite !(Z.testbit_neg_r _ (i - n)), andb_false_r by lia|]. rewrite testbit_wrap by lia.
  f_equal. destruct (Z.ltb_spec i w), (Z.ltb_spec (i - n) (w - n)); lia.
Qed.
Lemma cut_field w v z n : 0 <= w -> 0 <= n -> n + w <= v -> wrap w (wrap v z >> n) = wrap w (z >> n).
Proof.
  intros Hw Hn Hv. apply Z.bits_inj'. intros i Hi. rewrite !testbit_wrap by done. destruct (Z.ltb_spec i w); [|done]. cbn [andb].
  rewrite !Z.shiftr_spec, testbit_wrap by lia. destruct (Z.ltb_spec (i + n) v); [done|lia].
Qed.

Lemma mask_up b M n : 0 <= n -> b .& (M << n) = ((b >> n) .& M) << n.
Proof.
  intros Hn. apply Z.bits_inj'. intros i Hi. rewrite Z.land_spec, !Z.shiftl_spec by lia.
  destruct (Z.lt_ge_cases i n); [by rewrite !(Z.testbit_neg_r _ (i - n)), andb_false_r by lia|]. rewrite Z.land_spec, Z.shiftr_spec by lia. do 2 f_equal. lia.
Qed.
Lemma mask_shifted v b M n : 0 <= n <= v -> fits (v - n) M -> wrap v (b << n) .& (M << n) = (b .& M) << n.
Proof.
  intros Hn HM. rewrite wrap_shiftl, <- Z.shiftl_land by done. f_equal. apply Z.bits_inj'. intros i Hi. rewrite !Z.land_spec, testbit_wrap by lia.
  destruct (Z.ltb_spec i (v - n)); [done|]. by rewrite (fits_high (v - n) M), !andb_false_r by (done || lia).
Qed.

(** A sum of neighbours is in the low half of its place. *)
Lemma neighbour_sum_at a n : fits 64 a -> 0 <= n < 2 ->
  wrap 16 (((a .& 0x0000ffff0000ffff) + ((a >> 16) .& 0x0000ffff0000ffff)) >> (32 * n)) = wrap 16 (elem U16 a (2 * n) + elem U16 a (2 * n + 1)).
Proof.
  intros Ha Hn. pose proof (wrap_of_lane 16 32 n 0) as Hw. rewrite <- (Z.add_0_r (32 * n)), Hw, Z.shiftr_0_r by lia.
  rewrite (made_lane 32 ltac:(done) 2 _ _ n (neighbour_sums a Ha)) by (apply elem_of_seqZ; lia). by rewrite !(elem_unsigned U16) by (done || lia).
Qed.

Lemma pair_sums_u16 a b : fits 64 a -> fits 64 b ->
  neon_paddl_u16 a b = pack 16 (map (fun n => wrap 16 (pair_elem U16 a b n)) (seqZ 0 (Z.of_nat 4))).
Proof.
  intros Ha Hb. pose proof (made_fits 32 ltac:(done) 2 _ _ (neighbour_sums a Ha)) as Fa.
  pose proof (neighbour_sum_at a 0 Ha ltac:(done)) as A0. pose proof (neighbour_sum_at a 1 Ha ltac:(done)) as A1.
  pose proof (neighbour_sum_at b 0 Hb ltac:(done)) as B0. pose proof (neighbour_sum_at b 1 Hb ltac:(done)) as B1.
  unfold neon_paddl_u16. cbv zeta. rewrite (wrap_fits 64 ((a .& _) + _)) by exact Fa.
  set (A := (a .& 0x0000ffff0000ffff) + _) in *. set (B := (b .& 0x0000ffff0000ffff) + ((b >> 16) .& _)) in *.
  assert ((b .& 0xffff0000ffff0000) + (u64 (b << 16) .& 0xffff0000ffff0000) = B << 16) as ->.
  { change 0xffff0000ffff0000 with (0x0000ffff0000ffff << 16). rewrite mask_up, mask_shifted by (done || by split). unfold B. rewrite !shiftl_mul by done. lia. }
  rewrite (masked_field 16 0 A), (masked_field 16 16 (A >> 16)), (masked_field 16 32 (u64 _)), (masked_field 16 48 (u64 _)) by done.
  rewrite (cut_field 16 64 _ 32), (cut_field 16 64 _ 48), !Z.shiftr_shiftl_r by done. change (32 - 16) with 16. change (48 - 16) with 32.
  rewrite (cut_field 16 64 _ 16), Z.shiftr_shiftl_r, Z.shiftr_shiftr by done. change (16 - 16) with (32 * 0). change (16 + 16) with (32 * 1). change 32 with (32 * 1) at 4.
  change (seqZ 0 (Z.of_nat 4)) with [0; 1; 2; 3]. cbn [map]. rewrite <- ors4 by (done || by apply fits_wrap). rewrite Z.shiftl_0_r.
  change (A >> 0) with (A >> (32 * 0)). by rewrite A0, A1, B0, B1.
Qed.
Lemma pair_sums_u32 a b : neon_paddl_u32 a b = pack 32 (map (fun n => wrap 32 (pair_elem U32 a b n)) (seqZ 0 (Z.of_nat 2))).
Proof.
  change (seqZ 0 (Z.of_nat 2)) with [0; 1]. cbn [map]. rewrite !pack_add by done. change (pack 32 []) with 0. rewrite Z.mul_0_r, Z.add_0_r, !wrap_wrap by done.
  assert (forall x, u32 (x + (x >> 32)) = wrap 32 (elem U32 x 0 + elem U32 x 1)) as E.
  { intros x. rewrite elem_0. change (elem U32 x 1) with (u32 (x >> 32)). change (conv U32 x) with (u32 x). unfold wrap. by rewrite <- Z.add_mod. }
  unfold neon_paddl_u32. cbv zeta. rewrite !E. change (pair_elem U32 a b 0) with (elem U32 a 0 + elem U32 a 1). change (pair_elem U32 a b 1) with (elem U32 b 0 + elem U32 b 1).
  pose proof (fits_wrap 32 (elem U32 a 0 + elem U32 a 1) ltac:(done)). pose proof (fits_wrap 32 (elem U32 b 0 + elem U32 b 1) ltac:(done)). unfold fits in *.
  rewrite shiftl_mul by done. rewrite wrap_fits; [lia|unfold fits; lia].
Qed.

(** Neighbouring elements are added, those of the first register in the low half. *)
Lemma pair_sums t h a b : pair_sum_helper t = Some h -> fits 64 a -> fits 64 b -> packed (size t) (wide_elems t) (pair_elem t a b) (h a b).
Proof.
  intros Hh Ha Hb. destruct t; try discriminate Hh; injection Hh as <-.
  - apply (wrapped_packed 16 4); [done|by apply pair_sums_u16].
  - apply (wrapped_packed 32 2); [done|by apply pair_sums_u32].
Qed.

(** ** Differences and products that are twice as wide *)

Inductive long_op := VABDL | VMULL.
Definition long_helper (op : long_op) (t : vtype) : option (Z -> Z -> cpu Z) :=
  match op, t with
  | VABDL, U8 => Some neon_abdl_u16 | VABDL, S8 => Some neon_abdl_s16 | VABDL, U16 => Some neon_abdl_u32
  | VABDL, S16 => Some neon_abdl_s32 | VABDL, U32 => Some neon_abdl_u64 | VABDL, S32 => Some neon_abdl_s64
  | VMULL, U8 => Some neon_mull_u8 | VMULL, S8 => Some neon_mull_s8 | VMULL, U16 => Some neon_mull_u16 | VMULL, S16 => Some neon_mull_s16
  | _, _ => None
  end.
Definition long_exact (op : long_op) (x y : Z) : Z := match op with VABDL => Z.abs (x - y) | VMULL => x * y end.
(** Where the C code overflows an [int]: products of two negative bytes, which it
    computes as [uint16_t], and differences of words. *)
Definition long_defined (op : long_op) (t : vtype) (x y : Z) : bool :=
  match op, t with
  | VABDL, S32 => Z.abs (x - y) <? 2 ^ 31
  | VMULL, S8 => negb ((x <? 0) && (y <? 0))
  | _, _ => true
  end.

Definition one_ok (op : long_op) (t : vtype) (DO : Z -> Z -> cpu Z) : Prop := forall x y,
  runs (DO x y) (long_defined op t (conv t x) (conv t y)) (wrap (2 * size t) (long_exact op (conv t x) (conv t y))) true.

Lemma abdl_one t : size t <= 32 -> one_ok VABDL t (DO_ABD t).
Proof.
  intros Ht x y. unfold DO_ABD. pose proof (conv_within t x) as Hx. pose proof (conv_within t y) as Hy. set (p := conv t x) in *. set (q := conv t y) in *. clearbody p q.
  rewrite <- (andb_true_r (long_defined _ _ _ _)), <- (andb_true_r true). eapply runs_bind.
  - assert (abd_fn t p q = (let d := Z.abs (p - q) in match t with U32 => ret d | _ => int_result d end)) as ->.
    { unfold abd_fn. assert ((if q <? p then p - q else q - p) = Z.abs (p - q)) as ->; [|done]. destruct (Z.ltb_spec q p); lia. }
    assert (((- 2 ^ 31 <=? Z.abs (p - q)) && (Z.abs (p - q) <? 2 ^ 31)) = true \/ t = U32 \/ t = S32) as Hi.
    { destruct t; auto; left; ranges; try (cbn [size] in Ht; lia); apply andb_true_iff; rewrite Z.leb_le, Z.ltb_lt; lia. }
    instantiate (1 := Z.abs (p - q)). destruct t; cbn [long_defined]; cbv zeta; try apply runs_ret; try (cbn [size] in Ht; lia).
    all: intros env; rewrite (runs_int _ env). all: try (destruct Hi as [->|[?|?]]; done).
    assert ((- 2 ^ 31 <=? Z.abs (p - q)) = true) as -> by (apply Z.leb_le; lia). done.
  - apply runs_eq. cbn [long_exact]. assert (fits (2 * size t) (Z.abs (p - q))) as Hf.
    { unfold fits. split; [lia|]. destruct t; ranges; try (cbn [size] in Ht; lia); lia. }
    rewrite !wrap_fits; [done|done|]. apply (fits_weaken (2 * size t)); [pose proof (size_pos t); lia|done].
Qed.

(** Only two negative bytes, as halfwords, have a product beyond an [int]. *)
Lemma signs_int p q : - 2 ^ 7 <= p <= 2 ^ 7 - 1 -> - 2 ^ 7 <= q <= 2 ^ 7 - 1 ->
  let u z := if z <? 0 then z + 2 ^ 16 else if z <? 2 ^ 16 then z else z - 2 ^ 16 in
  ((- 2 ^ 31 <=? u p * u q) && (u p * u q <? 2 ^ 31)) = negb ((p <? 0) && (q <? 0)).
Proof.
  intros Hp Hq u. unfold u. destruct (Z.ltb_spec p 0), (Z.ltb_spec q 0); cbn [negb andb].
  - apply andb_false_iff. right. apply Z.ltb_ge. nia.
  - destruct (Z.ltb_spec q (2 ^ 16)); [|lia]. apply andb_true_iff. rewrite Z.leb_le, Z.ltb_lt. nia.
  - destruct (Z.ltb_spec p (2 ^ 16)); [|lia]. apply andb_true_iff. rewrite Z.leb_le, Z.ltb_lt. nia.
  - destruct (Z.ltb_spec p (2 ^ 16)), (Z.ltb_spec q (2 ^ 16)); try lia. apply andb_true_iff. rewrite Z.leb_le, Z.ltb_lt. nia.
Qed.
Lemma mull_one t t2 : t2 = (match t with U8 | S8 => U16 | _ => U32 end) -> size t <= 16 -> one_ok VMULL t (DO_MULL t t2).
Proof.
  intros -> Ht x y. unfold DO_MULL. cbv zeta. pose proof (conv_within t x) as Hx. pose proof (conv_within t y) as Hy. set (p := conv t x) in *. set (q := conv t y) in *. clearbody p q.
  assert (forall w, 0 < w -> wrap w (wrap w p * wrap w q) = wrap w (p * q)) as Em.
  { intros w Hw. unfold wrap. rewrite <- Z.mul_mod; [done|]. apply Z.pow_nonzero; lia. }
  rewrite <- (andb_true_r (long_defined _ _ _ _)), <- (andb_true_r true). destruct t; try (cbn [size] in Ht; lia); cbn [size long_exact long_defined]; ranges.
  - eapply (runs_bind _ _ _ (u16 p * u16 q)); [|apply runs_eq; exact (Em 16 ltac:(done))]. intros env. change (conv U16 p) with (u16 p). change (conv U16 q) with (u16 q).
    rewrite (runs_int _ env). assert (((- 2 ^ 31 <=? u16 p * u16 q) && (u16 p * u16 q <? 2 ^ 31)) = negb ((p <? 0) && (q <? 0))) as ->; [|reflexivity].
    rewrite !(wrap_cases 16) by lia. by apply signs_int.
  - eapply (runs_bind _ _ _ (u16 p * u16 q)); [|apply runs_eq; exact (Em 16 ltac:(done))]. intros env. change (conv U16 p) with (u16 p). change (conv U16 q) with (u16 q).
    rewrite (runs_int _ env). rewrite !wrap_fits by (unfold fits; lia). assert (((- 2 ^ 31 <=? p * q) && (p * q <? 2 ^ 31)) = true) as ->; [|reflexivity].
    apply andb_true_iff. rewrite Z.leb_le, Z.ltb_lt. nia.
  - eapply (runs_bind _ _ true (u32 (u32 p * u32 q)) true); [apply runs_ret|]. apply runs_eq. change (u32 (u32 (u32 p * u32 q)) = wrap 32 (p * q)). rewrite wrap_wrap by lia. by apply Em.
  - eapply (runs_bind _ _ true (u32 (u32 p * u32 q)) true); [apply runs_ret|]. apply runs_eq. change (u32 (u32 (u32 p * u32 q)) = wrap 32 (p * q)). rewrite wrap_wrap by lia. by apply Em.
Qed.

(** The products and differences of all elements. *)
Lemma do4_run (DO : Z -> Z -> cpu Z) a b def v :
  (forall n, 0 <= n < 4 -> runs (DO (a >> (8 * n)) (b >> (8 * n))) (def n) (wrap 16 (v n)) true) ->
  runs (do4 DO a b) (forallb def (seqZ 0 (Z.of_nat 4))) (pack 16 (map (fun n => wrap 16 (v n)) (seqZ 0 (Z.of_nat 4)))) true.
Proof.
  intros Hr. change (seqZ 0 (Z.of_nat 4)) with [0; 1; 2; 3]. cbn [map forallb]. rewrite <- ors4 by (done || by apply fits_wrap).
  pose proof (Hr 0 ltac:(lia)) as H0. change (8 * 0) with 0 in H0. rewrite !Z.shiftr_0_r in H0. unfold do4.
  assert (forall n s, 0 <= s <= 48 -> u64 (wrap 16 (v n) << s) = wrap 16 (v n) << s) as E.
  { intros n s Hs. apply wrap_fits. apply (fits_weaken (16 + s)); [lia|]. apply fits_shiftl; [lia|lia|by apply fits_wrap]. }
  eapply (runs_bind _ _ _ _ true _ _ true); [exact H0|]. eapply (runs_bind _ _ _ _ true _ _ true); [exact (Hr 1 ltac:(lia))|]. cbv zeta.
  eapply (runs_bind _ _ _ _ true _ _ true); [exact (Hr 2 ltac:(lia))|]. eapply (runs_bind _ _ _ _ true _ _ true); [exact (Hr 3 ltac:(lia))|].
  rewrite !E by lia. apply runs_ret.
Qed.
Lemma do2_run (DO : Z -> Z -> cpu Z) a b def v :
  (forall n, 0 <= n < 2 -> runs (DO (a >> (16 * n)) (b >> (16 * n))) (def n) (wrap 32 (v n)) true) ->
  runs (do2 DO a b) (forallb def (seqZ 0 (Z.of_nat 2))) (pack 32 (map (fun n => wrap 32 (v n)) (seqZ 0 (Z.of_nat 2)))) true.
Proof.
  intros Hr. change (seqZ 0 (Z.of_nat 2)) with [0; 1]. cbn [map forallb]. rewrite <- ors2 by (done || by apply fits_wrap).
  pose proof (Hr 0 ltac:(lia)) as H0. change (16 * 0) with 0 in H0. rewrite !Z.shiftr_0_r in H0. unfold do2.
  eapply (runs_bind _ _ _ _ true _ _ true); [exact H0|]. eapply (runs_bind _ _ _ _ true _ _ true); [exact (Hr 1 ltac:(lia))|].
  apply runs_eq. f_equal. apply wrap_fits. apply (fits_shiftl 32 _ 32); [done|done|by apply fits_wrap].
Qed.

(** Differences and products that are as wide as they need to be: no result is
    cut, and the C code is defined unless an [int] overflows. *)
Theorem long_is_elementwise op t h a b : long_helper op t = Some h -> fits 32 a -> fits 32 b ->
  exists r, packed (2 * size t) (elems t) (fun n => long_exact op (elem t a n) (elem t b n)) r /\
    forall env, h a b env = if forallb (fun n => long_defined op t (elem t a n) (elem t b n)) (elems t) then Done (r, env, []) else Undef.
Proof.
  intros Hh Ha Hb.
  assert (forall k DO d4, elems t = seqZ 0 (Z.of_nat k) -> h = d4 DO -> one_ok op t DO ->
    (forall def v, (forall n, 0 <= n < Z.of_nat k -> runs (DO (a >> (size t * n)) (b >> (size t * n))) (def n) (wrap (2 * size t) (v n)) true) ->
      runs (d4 DO a b) (forallb def (seqZ 0 (Z.of_nat k))) (pack (2 * size t) (map (fun n => wrap (2 * size t) (v n)) (seqZ 0 (Z.of_nat k)))) true) ->
    exists r, packed (2 * size t) (elems t) (fun n => long_exact op (elem t a n) (elem t b n)) r /\
      runs (h a b) (forallb (fun n => long_defined op t (elem t a n) (elem t b n)) (elems t)) r true) as Hd.
  { intros k DO d4 -> -> Ho Hr. eexists. split; [apply (wrapped_packed (2 * size t) k); [pose proof (size_pos t); lia|done]|].
    apply (Hr (fun n => long_defined op t (elem t a n) (elem t b n)) (fun n => long_exact op (elem t a n) (elem t b n))). intros n Hn. apply Ho. }
  destruct op, t; try discriminate Hh; injection Hh as <-.
  all: first [eapply (Hd 4%nat _ do4); [done|reflexivity|first [by apply abdl_one|by apply mull_one]|exact (do4_run _ a b)]
    |eapply (Hd 2%nat _ do2); [done|reflexivity|first [by apply abdl_one|by apply mull_one]|exact (do2_run _ a b)]
    |eapply (Hd 1%nat _ (fun d => d)); [done|reflexivity|by apply abdl_one|]].
  all: intros def v Hv; change (seqZ 0 (Z.of_nat 1)) with [0]; cbn [map forallb]; rewrite andb_true_r; cbn [size]; change (2 * 32) with 64.
  all: rewrite <- pack1 by (by apply fits_wrap); pose proof (Hv 0 ltac:(done)) as H0; cbn [size] in H0; change (32 * 0) with 0 in H0; rewrite !Z.shiftr_0_r in H0; exact H0.
Qed.

(** ** Interleaving and its inverse *)

Lemma ELEM_lane V n w : 0 < w -> 0 <= n -> ELEM V n w = lane w n V.
Proof.
  intros Hw Hn. unfold ELEM. rewrite Z.shiftl_1_l, land_ones, shiftr_div by nia. unfold lane. by rewrite (Z.mul_comm n w).
Qed.
Lemma ors_pack w p l : 0 <= w -> 0 <= p -> Forall (fits w) l -> ors w p l = pack w l << p.
Proof.
  intros Hw Hp Hl. revert p Hp. induction Hl as [|e l He Hl IH]; intros p Hp; cbn [ors pack]; [by rewrite Z.shiftl_0_l|].
  rewrite IH, wrap_fits, Z.shiftl_lor, Z.shiftl_shiftl by (done || lia). do 2 f_equal. lia.
Qed.
Lemma ELEM_ors w l n e : 0 < w -> Forall (fits w) l -> aget l n = Some e -> ELEM (ors w 0 l) n w = e.
Proof.
  intros Hw Hl He. rewrite ELEM_lane by (try apply aget_bounds in He; lia). rewrite ors_pack, Z.shiftl_0_r by (done || lia).
  rewrite (lane_pack w l n e) by done. apply wrap_fits. by eapply Forall_aget.
Qed.
Lemma ELEM_fits V n w : 0 < w -> 0 <= n -> fits w (ELEM V n w).
Proof. intros Hw Hn. rewrite ELEM_lane by done. by apply lane_fits. Qed.
Lemma ors_word w (k : nat) z : 0 < w -> fits (w * Z.of_nat k) z -> ors w 0 (map (fun n => ELEM z n w) (seqZ 0 (Z.of_nat k))) = z.
Proof.
  intros Hw Hz. assert (map (fun n => ELEM z n w) (seqZ 0 (Z.of_nat k)) = map (fun n => lane w n z) (seqZ 0 (Z.of_nat k))) as ->.
  { apply list_fmap_ext. intros i n Hn. apply lookup_seqZ in Hn. apply ELEM_lane; lia. }
  rewrite ors_pack by (lia || (apply Forall_map, Forall_forall; intros n Hn; by apply lane_fits)). rewrite Z.shiftl_0_r. symmetry. by apply word_lanes.
Qed.

(** Registers. *)
Lemma regs_ext (l l' : list Z) : length l = length l' -> (forall n, aget l n = aget l' n) -> l = l'.
Proof.
  intros Hlen Hl. apply list_eq. intros i. specialize (Hl (Z.of_nat i)). unfold aget in Hl. destruct (Z.ltb_spec (Z.of_nat i) 0); [lia|]. by rewrite Nat2Z.id in Hl.
Qed.
Definition set_regs (env : CPUARMState) (r : list Z) : CPUARMState := env <| vfp ::= fun v => v <| vfp_regs := r |> |>.
Definition d_regs (env : CPUARMState) : list Z := vfp_regs (vfp env).
Lemma d_regs_set env r : d_regs (set_regs env r) = r.
Proof. done. Qed.
Lemma set_regs_twice env r r' : set_regs (set_regs env r) r' = set_regs env r'.
Proof. by destruct env as [? ? ? ? ? ? ? ? ? ? ? ? ? ? ? ? ? ? ? ? ? [] ? ? ? ? ? ? ? ? ? ?]. Qed.
Lemma set_regs_same env : set_regs env (d_regs env) = env.
Proof. by destruct env as [? ? ? ? ? ? ? ? ? ? ? ? ? ? ? ? ? ? ? ? ? [] ? ? ? ? ? ? ? ? ? ?]. Qed.
Lemma get_d_run n v env : aget (d_regs env) n = Some v -> get_d n env = Done (v, env, []).
Proof. unfold get_d, d_regs, bind, gets, lift. intros E. cbn. by rewrite E. Qed.
Lemma set_d_run n v env : 0 <= n < zlen (d_regs env) -> exists l, set_d n v env = Done (tt, set_regs env l, []) /\ aset n v (d_regs env) = Some l.
Proof.
  intros Hn. exists (<[Z.to_nat n := v]> (d_regs env)). rewrite (aset_Some _ n v) by done. split; [|done].
  unfold set_d, bind, gets, lift. cbn. by rewrite (aset_Some _ n v).
Qed.

Lemma with_pair_run env rd rm f zd zm : rd <> rm -> aget (d_regs env) rd = Some zd -> aget (d_regs env) rm = Some zm ->
  exists l, with_pair rd rm f env = Done (tt, set_regs env l, []) /\ length l = length (d_regs env) /\
    aget l rd = Some (f zd zm).1 /\ aget l rm = Some (f zd zm).2 /\ forall n, n <> rd -> n <> rm -> aget l n = aget (d_regs env) n.
Proof.
  intros Hne Hd Hm. unfold with_pair. erewrite bind_Done by (by apply get_d_run). erewrite bind_Done by (by apply get_d_run).
  destruct (f zd zm) as [d0 m0]. destruct (set_d_run rm m0 env) as (l1 & E1 & A1); [by apply (aget_bounds _ _ zm)|]. erewrite bind_Done by exact E1.
  pose proof (aset_length _ _ _ _ A1) as L1. destruct (set_d_run rd d0 (set_regs env l1)) as (l2 & E2 & A2); rewrite ?d_regs_set in *.
  { apply aget_bounds in Hd. unfold zlen in *. by rewrite L1. }
  exists l2. rewrite E2, set_regs_twice. split_and!; [done|by rewrite (aset_length _ _ _ _ A2)|by apply (aget_aset_eq l1)| |].
  - rewrite (aget_aset_ne _ _ _ _ _ Hne A2). by apply (aget_aset_eq (d_regs env)).
  - intros n H1 H2. rewrite (aget_aset_ne l1 rd n d0 l2) by done. by rewrite (aget_aset_ne (d_regs env) rm n m0 l1) by done.
Qed.

Lemma with_quads_run env rd rm f zd0 zd1 zm0 zm1 : rd <> rm -> rd + 1 <> rm -> rm + 1 <> rd ->
  aget (d_regs env) rd = Some zd0 -> aget (d_regs env) (rd + 1) = Some zd1 -> aget (d_regs env) rm = Some zm0 -> aget (d_regs env) (rm + 1) = Some zm1 ->
  let '(d0, d1, m0, m1) := f zd0 zd1 zm0 zm1 in
  exists l, with_quads rd rm f env = Done (tt, set_regs env l, []) /\ length l = length (d_regs env) /\
    aget l rd = Some d0 /\ aget l (rd + 1) = Some d1 /\ aget l rm = Some m0 /\ aget l (rm + 1) = Some m1 /\
    forall n, n ∉ [rd; rd + 1; rm; rm + 1] -> aget l n = aget (d_regs env) n.
Proof.
  intros N1 N2 N3 D0 D1 M0 M1. unfold with_quads. destruct (f zd0 zd1 zm0 zm1) as [[[d0 d1] m0] m1] eqn:Ef. repeat (erewrite bind_Done by (by apply get_d_run)). rewrite Ef.
  destruct (set_d_run rm m0 env) as (l1 & E1 & A1); [by apply (aget_bounds _ _ zm0)|]. erewrite bind_Done by exact E1. pose proof (aset_length _ _ _ _ A1) as L1.
  destruct (set_d_run (rm + 1) m1 (set_regs env l1)) as (l2 & E2 & A2); rewrite ?d_regs_set in *; [unfold zlen; rewrite L1; by apply (aget_bounds _ _ zm1)|].
  erewrite bind_Done by exact E2. pose proof (aset_length _ _ _ _ A2) as L2. rewrite set_regs_twice.
  destruct (set_d_run rd d0 (set_regs env l2)) as (l3 & E3 & A3); rewrite ?d_regs_set in *; [unfold zlen; rewrite L2, L1; by apply (aget_bounds _ _ zd0)|].
  erewrite bind_Done by exact E3. pose proof (aset_length _ _ _ _ A3) as L3. rewrite set_regs_twice.
  destruct (set_d_run (rd + 1) d1 (set_regs env l3)) as (l4 & E4 & A4); rewrite ?d_regs_set in *; [unfold zlen; rewrite L3, L2, L1; by apply (aget_bounds _ _ zd1)|].
  exists l4. rewrite E4, set_regs_twice. pose proof (aset_length _ _ _ _ A4) as L4.
  pose proof (fun n H => aget_aset_ne _ _ n _ _ H A1) as K1. pose proof (fun n H => aget_aset_ne _ _ n _ _ H A2) as K2.
  pose proof (fun n H => aget_aset_ne _ _ n _ _ H A3) as K3. pose proof (fun n H => aget_aset_ne _ _ n _ _ H A4) as K4.
  apply aget_aset_eq in A1, A2, A3, A4. split_and!; [done|lia| | | | |].
  - by rewrite K4 by lia.
  - done.
  - by rewrite K4, K3, K2 by lia.
  - by rewrite K4, K3 by lia.
  - intros n Hn. rewrite !not_elem_of_cons in Hn. rewrite K4, K3, K2, K1 by naive_solver. done.
Qed.

(** One undoes the other. *)
Definition undoes2 (f g : Z -> Z -> Z * Z) : Prop := forall zd zm, fits 64 zd -> fits 64 zm ->
  g (f zd zm).1 (f zd zm).2 = (zd, zm).
Definition undoes4 (f g : Z -> Z -> Z -> Z -> Z * Z * Z * Z) : Prop := forall zd0 zd1 zm0 zm1, fits 64 zd0 -> fits 64 zd1 -> fits 64 zm0 -> fits 64 zm1 ->
  let '(d0, d1, m0, m1) := f zd0 zd1 zm0 zm1 in g d0 d1 m0 m1 = (zd0, zd1, zm0, zm1).

(** Registers and operands of an instruction: distinct, and pairs start at an even one. *)
Definition regs_ok (env : CPUARMState) : Prop := zlen (d_regs env) = 32 /\ Forall (fits 64) (d_regs env).

Lemma pair_undone env rd rm f g : regs_ok env -> 0 <= rd < 32 -> 0 <= rm < 32 -> rd <> rm -> undoes2 f g ->
  (with_pair rd rm f ;;; with_pair rd rm g) env = Done (tt, env, []).
Proof.
  intros [Hlen Hfit] Hrd Hrm Hne Hu. destruct (aget_Some (d_regs env) rd) as [zd Hd]; [lia|]. destruct (aget_Some (d_regs env) rm) as [zm Hm]; [lia|].
  destruct (with_pair_run env rd rm f zd zm Hne Hd Hm) as (l & E & Hl & Ld & Lm & Lo). erewrite bind_Done by exact E.
  destruct (with_pair_run (set_regs env l) rd rm g _ _ Hne Ld Lm) as (l' & E' & Hl' & Ld' & Lm' & Lo'). rewrite E', set_regs_twice. rewrite d_regs_set in *.
  rewrite Hu in Ld', Lm' by (by eapply Forall_aget). assert (l' = d_regs env) as ->; [|by rewrite set_regs_same].
  apply regs_ext; [lia|]. intros n. destruct (Z.eq_dec n rd) as [->|H1]; [by rewrite Ld', Hd|]. destruct (Z.eq_dec n rm) as [->|H2]; [by rewrite Lm', Hm|].
  by rewrite Lo', Lo.
Qed.
Lemma quads_undone env rd rm f g : regs_ok env -> 0 <= rd < 31 -> 0 <= rm < 31 -> rd <> rm -> rd + 1 <> rm -> rm + 1 <> rd -> undoes4 f g ->
  (with_quads rd rm f ;;; with_quads rd rm g) env = Done (tt, env, []).
Proof.
  intros [Hlen Hfit] Hrd Hrm N1 N2 N3 Hu.
  destruct (aget_Some (d_regs env) rd) as [zd0 D0]; [lia|]. destruct (aget_Some (d_regs env) (rd + 1)) as [zd1 D1]; [lia|].
  destruct (aget_Some (d_regs env) rm) as [zm0 M0]; [lia|]. destruct (aget_Some (d_regs env) (rm + 1)) as [zm1 M1]; [lia|].
  pose proof (with_quads_run env rd rm f _ _ _ _ N1 N2 N3 D0 D1 M0 M1) as Hf.
  pose proof (Hu zd0 zd1 zm0 zm1 ltac:(by eapply Forall_aget) ltac:(by eapply Forall_aget) ltac:(by eapply Forall_aget) ltac:(by eapply Forall_aget)) as Hz.
  destruct (f zd0 zd1 zm0 zm1) as [[[d0 d1] m0] m1]. destruct Hf as (l & E & Hl & A0 & A1 & B0 & B1 & Lo). erewrite bind_Done by exact E.
  pose proof (with_quads_run (set_regs env l) rd rm g _ _ _ _ N1 N2 N3 A0 A1 B0 B1) as Hg. rewrite Hz in Hg.
  destruct Hg as (l' & E' & Hl' & A0' & A1' & B0' & B1' & Lo'). rewrite E', set_regs_twice. rewrite d_regs_set in *.
  assert (l' = d_regs env) as ->; [|by rewrite set_regs_same]. apply regs_ext; [lia|]. intros n.
  destruct (decide (n ∈ [rd; rd + 1; rm; rm + 1])) as [Hin|Hout]; [|by rewrite Lo', Lo].
  repeat (apply elem_of_cons in Hin as [->|Hin]; [congruence|]). by apply elem_of_nil in Hin.
Qed.

(** The instructions. *)
Inductive zip_form := Zip8 | Zip16 | QZip8 | QZip16 | QZip32.
Definition zip_of (z : zip_form) : Z -> Z -> cpu unit :=
  match z with Zip8 => neon_zip8 | Zip16 => neon_zip16 | QZip8 => neon_qzip8 | QZip16 => neon_qzip16 | QZip32 => neon_qzip32 end.
Definition unzip_of (z : zip_form) : Z -> Z -> cpu unit :=
  match z with Zip8 => neon_unzip8 | Zip16 => neon_unzip16 | QZip8 => neon_qunzip8 | QZip16 => neon_qunzip16 | QZip32 => neon_qunzip32 end.
Definition zip_width (z : zip_form) : Z := match z with Zip8 | QZip8 => 8 | Zip16 | QZip16 => 16 | QZip32 => 32 end.
(** The registers of an operand. *)
Definition operand (z : zip_form) (r : Z) : list Z := match z with Zip8 | Zip16 => [r] | _ => [r; r + 1] end.
Definition operands_ok (z : zip_form) (rd rm : Z) : Prop :=
  match z with
  | Zip8 | Zip16 => 0 <= rd < 32 /\ 0 <= rm < 32 /\ rd <> rm
  | _ => 0 <= rd < 31 /\ 0 <= rm < 31 /\ rd <> rm /\ rd + 1 <> rm /\ rm + 1 <> rd
  end.
(** Element [p] of the elements of some registers. *)
Definition element_at (w : Z) (env : CPUARMState) (rs : list Z) (p : Z) : option Z :=
  match aget rs (p / (64 / w)) with
  | Some r => match aget (d_regs env) r with Some v => Some (lane w (p mod (64 / w)) v) | None => None end
  | None => None
  end.

Ltac elements :=
  repeat (erewrite ELEM_ors; [|done|repeat constructor; apply ELEM_fits; done|reflexivity]).
Ltac whole_word :=
  lazymatch goal with
  | |- ors 8 0 _ = ?z => by apply (ors_word 8 8 z)
  | |- ors 16 0 _ = ?z => by apply (ors_word 16 4 z)
  | |- ors 32 0 _ = ?z => by apply (ors_word 32 2 z)
  end.

Lemma zip_undone2 z rd rm env : (z = Zip8 \/ z = Zip16) -> regs_ok env -> operands_ok z rd rm ->
  (zip_of z rd rm ;;; unzip_of z rd rm) env = Done (tt, env, []) /\ (unzip_of z rd rm ;;; zip_of z rd rm) env = Done (tt, env, []).
Proof.
  intros Hz Henv Hop. destruct Hz as [-> | ->]; destruct Hop as (H1 & H2 & H3); split; apply pair_undone; try done.
  all: intros zd zm Hd Hm; cbn [fst snd]; elements; apply (f_equal2 pair).
  all: whole_word.
Qed.
Lemma zip_undone4 z rd rm env : (z = QZip8 \/ z = QZip16 \/ z = QZip32) -> regs_ok env -> operands_ok z rd rm ->
  (zip_of z rd rm ;;; unzip_of z rd rm) env = Done (tt, env, []) /\ (unzip_of z rd rm ;;; zip_of z rd rm) env = Done (tt, env, []).
Proof.
  intros Hz Henv Hop. destruct Hz as [-> | [-> | ->]]; destruct Hop as (H1 & H2 & H3 & H4 & H5); split; apply quads_undone; try done.
  all: intros zd0 zd1 zm0 zm1 Hd0 Hd1 Hm0 Hm1; cbn [fst snd]; elements; apply (f_equal2 pair); [apply (f_equal2 pair); [apply (f_equal2 pair)|]|].
  all: whole_word.
Qed.

(** Interleaving the elements of two operands and taking them apart undo each other:
    whatever is done first, all registers are as they were. *)
Theorem zip_and_unzip_undo z rd rm env : regs_ok env -> operands_ok z rd rm ->
  (zip_of z rd rm ;;; unzip_of z rd rm) env = Done (tt, env, []) /\ (unzip_of z rd rm ;;; zip_of z rd rm) env = Done (tt, env, []).
Proof. intros. destruct z; first [by apply zip_undone2; auto|by apply zip_undone4; auto]. Qed.

(** The elements of a register that was put together. *)
Lemma lane_ors w l n e : 0 < w -> Forall (fits w) l -> aget l n = Some e -> lane w n (ors w 0 l) = e.
Proof. intros Hw Hl He. rewrite <- ELEM_lane by (try apply aget_bounds in He; lia). by apply (ELEM_ors w l n e). Qed.

(** Element [p] of some registers, one after the other. *)
Definition element (w : Z) (zs : list Z) (p : Z) : option Z :=
  match aget zs (p / (64 / w)) with Some v => Some (lane w (p mod (64 / w)) v) | None => None end.
Lemma element_at_regs w env rs zs p : Forall2 (fun r v => aget (d_regs env) r = Some v) rs zs -> element_at w env rs p = element w zs p.
Proof.
  intros Hr. unfold element_at, element. unfold aget at 1 3. destruct (_ <? 0); [done|]. destruct (rs !! _) as [r|] eqn:Er.
  - destruct (Forall2_lookup_l _ _ _ _ _ Hr Er) as (v & -> & ->). done.
  - apply lookup_ge_None in Er. rewrite (Forall2_length _ _ _ Hr) in Er. by rewrite lookup_ge_None_2.
Qed.
Definition interleaves (w : Z) (ds ms zs : list Z) : Prop :=
  forall p, p ∈ seqZ 0 (64 / w * zlen zs) -> element w zs p = element w (if Z.even p then ds else ms) (p / 2).

Ltac quotients :=
  repeat match goal with
  | |- context [?a / ?b] => let v := eval vm_compute in (a / b) in change (a / b) with v
  | |- context [?a mod ?b] => let v := eval vm_compute in (a mod b) in change (a mod b) with v
  end.
Ltac place_values :=
  repeat match goal with |- context [aget ?l ?n] => let v := eval hnf in (aget l n) in change (aget l n) with v end; cbv iota.
Ltac every_place :=
  let p := fresh "p" in let Hp := fresh "Hp" in
  intros p Hp; match type of Hp with _ ∈ ?l => let v := eval vm_compute in l in change l with v in Hp end;
  repeat (apply elem_of_cons in Hp as [->|Hp];
    [unfold element; cbn [Z.even]; quotients; place_values; f_equal; rewrite <- ?ELEM_lane by done; elements; try done|]);
  try by apply elem_of_nil in Hp.
(** A pair, and two pairs, of registers that an instruction leaves. *)
Lemma pair_places w env rd rm f zd zm : rd <> rm -> aget (d_regs env) rd = Some zd -> aget (d_regs env) rm = Some zm ->
  interleaves w [zd] [zm] [(f zd zm).1; (f zd zm).2] ->
  exists env', with_pair rd rm f env = Done (tt, env', []) /\ forall p, p ∈ seqZ 0 (64 / w * zlen ([rd] ++ [rm])) ->
    element_at w env' ([rd] ++ [rm]) p = element_at w env (if Z.even p then [rd] else [rm]) (p / 2).
Proof.
  intros Hne Hd Hm Hi. destruct (with_pair_run env rd rm f zd zm Hne Hd Hm) as (l & E & Hl & Ld & Lm & _).
  exists (set_regs env l). split; [done|]. intros p Hp. rewrite (element_at_regs w (set_regs env l) _ [(f zd zm).1; (f zd zm).2]) by (by repeat constructor).
  rewrite (Hi p Hp). destruct (Z.even p); symmetry; apply element_at_regs; by repeat constructor.
Qed.
Lemma quads_places w env rd rm f zd0 zd1 zm0 zm1 : rd <> rm -> rd + 1 <> rm -> rm + 1 <> rd ->
  aget (d_regs env) rd = Some zd0 -> aget (d_regs env) (rd + 1) = Some zd1 -> aget (d_regs env) rm = Some zm0 -> aget (d_regs env) (rm + 1) = Some zm1 ->
  (let '(d0, d1, m0, m1) := f zd0 zd1 zm0 zm1 in interleaves w [zd0; zd1] [zm0; zm1] [d0; d1; m0; m1]) ->
  exists env', with_quads rd rm f env = Done (tt, env', []) /\ forall p, p ∈ seqZ 0 (64 / w * zlen ([rd; rd + 1] ++ [rm; rm + 1])) ->
    element_at w env' ([rd; rd + 1] ++ [rm; rm + 1]) p = element_at w env (if Z.even p then [rd; rd + 1] else [rm; rm + 1]) (p / 2).
Proof.
  intros N1 N2 N3 D0 D1 M0 M1 Hi. pose proof (with_quads_run env rd rm f _ _ _ _ N1 N2 N3 D0 D1 M0 M1) as Hf.
  destruct (f zd0 zd1 zm0 zm1) as [[[d0 d1] m0] m1]. destruct Hf as (l & E & Hl & A0 & A1 & B0 & B1 & _).
  exists (set_regs env l). split; [done|]. intros p Hp. rewrite (element_at_regs w (set_regs env l) _ [d0; d1; m0; m1]) by (by repeat constructor).
  rewrite (Hi p Hp). destruct (Z.even p); symmetry; apply element_at_regs; by repeat constructor.
Qed.

(** The elements of the first operand are in the even places, those of the second in
    the odd ones, over all registers of both. *)
Theorem zip_interleaves z rd rm env : regs_ok env -> operands_ok z rd rm ->
  exists env', zip_of z rd rm env = Done (tt, env', []) /\ forall p, p ∈ seqZ 0 (64 / zip_width z * zlen (operand z rd ++ operand z rm)) ->
    element_at (zip_width z) env' (operand z rd ++ operand z rm) p =
    element_at (zip_width z) env (if Z.even p then operand z rd else operand z rm) (p / 2).
Proof.
  intros [Hlen _] Hop. destruct z; cbn [operands_ok operand zip_width zip_of] in *.
  1, 2: destruct Hop as (H1 & H2 & Hne); destruct (aget_Some (d_regs env) rd) as [zd Hd]; [lia|]; destruct (aget_Some (d_regs env) rm) as [zm Hm]; [lia|];
    eapply pair_places; [done|exact Hd|exact Hm|cbn [fst snd]; every_place].
  all: destruct Hop as (H1 & H2 & N1 & N2 & N3); destruct (aget_Some (d_regs env) rd) as [zd0 D0]; [lia|]; destruct (aget_Some (d_regs env) (rd + 1)) as [zd1 D1]; [lia|];
    destruct (aget_Some (d_regs env) rm) as [zm0 M0]; [lia|]; destruct (aget_Some (d_regs env) (rm + 1)) as [zm1 M1]; [lia|];
    eapply quads_places; [done|done|done|exact D0|exact D1|exact M0|exact M1|every_place].
Qed.

(** ** Concrete instructions *)

Module WideDemo.
Import ArmDemo.

(** The low register of each operand has its number, in every byte. *)
Definition env_d : CPUARMState := set_regs env0 (map (fun n => n * 0x0101010101010101) (seqZ 0 32)).
Lemma env_d_ok : regs_ok env_d.
Proof. split; [by vm_compute|]. by repeat constructor. Qed.

Lemma zip_witness :
  (neon_zip8 1 2 ;;; neon_unzip8 1 2) env_d = Done (tt, env_d, []) /\
  (neon_qunzip16 2 4 ;;; neon_qzip16 2 4) env_d = Done (tt, env_d, []) /\
  exists env', neon_zip8 1 2 env_d = Done (tt, env', []) /\ aget (d_regs env') 1 = Some 0x0201020102010201.
Proof.
  split; [|split].
  - apply (zip_and_unzip_undo Zip8 1 2 env_d env_d_ok). by split_and!.
  - apply (zip_and_unzip_undo QZip16 2 4 env_d env_d_ok). by split_and!.
  - eexists. split; [vm_compute; reflexivity|]. vm_compute. reflexivity.
Defined.

Lemma narrow_witness :
  exists r, neon_narrow_sat_s8 0x7fff00fe8000ff85 env0 = Done (r, qc_env false env0, []) /\ lane 8 0 r = 0x85 /\ lane 8 1 r = 0x80 /\ lane 8 2 r = 0x7f.
Proof.
  destruct (narrowing_is_elementwise VQMOVN S16 neon_narrow_sat_s8 0x7fff00fe8000ff85) as (r & [_ Hl] & Hr); [reflexivity|by split|].
  exists r. split; [rewrite Hr; reflexivity|]. split; [|split]; rewrite Hl by (apply elem_of_seqZ; vm_compute; split; congruence); reflexivity.
Defined.

Lemma long_witness :
  (exists r, neon_mull_s8 0x00007f80 0x0000807f env0 = Done (r, env0, []) /\ lane 16 0 r = 0xc080) /\ neon_mull_s8 0xff 0xff env0 = Undef.
Proof.
  split.
  - destruct (long_is_elementwise VMULL S8 neon_mull_s8 0x00007f80 0x0000807f) as (r & [_ Hl] & Hr); [reflexivity|by split|by split|].
    exists r. split; [rewrite Hr; reflexivity|]. rewrite Hl by (apply elem_of_seqZ; vm_compute; split; congruence). reflexivity.
  - destruct (long_is_elementwise VMULL S8 neon_mull_s8 0xff 0xff) as (r & _ & Hr); [reflexivity|by split|by split|]. rewrite Hr. reflexivity.
Defined.
End WideDemo.
