(* ===== verification/ArmMmu.v ===== *)
(** * ArmMmu: address translation of the ARM processor ([target-arm/helper.c])

    Translation tables of the fifth and the sixth architecture version and the
    protection regions of the processors without a translation unit.  The tables
    are in physical memory, which is read through Memory.v: a machine is a
    processor with its memory.

    The reference [translate_v6] decodes descriptors into records, computes
    addresses by division, and permissions as a table; the walk of the code is
    proved to be this function for tables in RAM. *)
From S2P Require Import Prelude Words ArmCpu Memory.

Definition PAGE_READ := 1.
Definition PAGE_WRITE := 2.
Definition PAGE_EXEC := 4.
Definition PAGE_RW := PAGE_READ .| PAGE_WRITE.

(** ** A processor with its memory *)

Record machine F W := mk_machine { env : CPUARMState; mem : memory_state F W }.
Arguments mk_machine {F W}.
Arguments env {F W}.
Arguments mem {F W}.
#[export] Instance eta_machine F W : Eta (machine F W) := fun s => mk_machine (env s) (mem s).

Inductive machine_event (E : Type) := InCpu (e : cpu_event) | InMemory (e : mem_event E).
Arguments InCpu {E}.
Arguments InMemory {E}.

(** Access types: loads, stores, instruction fetches. *)
Definition access_load := 0.
Definition access_store := 1.
Definition access_fetch := 2.

(** A fault status, or a physical address with its protection and page size. *)
Definition translation : Type := Z + Z * Z * Z.

(** [check_ap]: the protection flags, zero if the access is not permitted. *)
Definition check_ap (e : CPUARMState) (ap domain access_type : Z) (is_user : bool) : option Z :=
  let prot_ro := if access_type =? access_store then 0 else PAGE_READ in
  if domain =? 3 then Some PAGE_RW
  else switch ap
    [ (on 0, Some (if access_type =? access_store then 0
                   else switch ((c1_sys (cp15 e) >> 8) .& 3)
                          [ (on 1, if is_user then 0 else PAGE_READ); (on 2, PAGE_READ) ] 0));
      (on 1, Some (if is_user then 0 else PAGE_RW));
      (on 2, Some (if is_user then prot_ro else PAGE_RW));
      (on 3, Some PAGE_RW);
      (on 4, Some 0);
      (on 5, Some (if is_user then 0 else prot_ro));
      (on 6, Some prot_ro);
      (on 7, Some (if arm_feature e ARM_FEATURE_V7 then prot_ro else 0)) ] None.

Definition get_level1_table_address (e : CPUARMState) (address : Z) : Z :=
  let table := if test address (c2_mask (cp15 e)) then c2_base1 (cp15 e) .& 0xffffc000
               else c2_base0 (cp15 e) .& c2_base_mask (cp15 e) in
  table .| ((address >> 18) .& 0x3ffc).

Section Mmu.
Context {F W E : Type} `{IoDevices F W E}.
Abbreviation machM := (dev (machine F W) (machine_event E)).

Definition in_cpu {A} (m : cpu A) : machM A := zoom env (fun e s => s <| env := e |>) InCpu m.
Definition in_memory {A} (m : dev (memory_state F W) (mem_event E) A) : machM A :=
  zoom mem (fun e s => s <| mem := e |>) InMemory m.
Definition or_abort {A} (o : option A) : machM A := match o with Some a => ret a | None => hw_error end.

(** The end of both walks: [code] is the fault if the access is not permitted. *)
Definition get_phys_addr_v5 (e : CPUARMState) (address access_type : Z) (is_user : bool) : machM translation :=
  let table := get_level1_table_address e address in
  desc <- in_memory (ldl_phys table) ;;
  let type := desc .& 3 in
  let domain := (c3 (cp15 e) >> ((desc >> 4) .& 0x1e)) .& 3 in
  let fault code := ret (inl (code .| (domain << 4))) in
  let finish phys_addr ap code page_size :=
    prot <- or_abort (check_ap e ap domain access_type is_user) ;;
    if prot =? 0 then fault code else ret (inr (phys_addr, prot .| PAGE_EXEC, page_size)) in
  if type =? 0 then fault 5
  else if (domain =? 0) || (domain =? 2) then fault (if type =? 2 then 9 else 11)
  else if type =? 2 then
    finish ((desc .& 0xfff00000) .| (address .& 0x000fffff)) ((desc >> 10) .& 3) 13 (1024 * 1024)
  else
    let table := if type =? 1 then (desc .& 0xfffffc00) .| ((address >> 10) .& 0x3fc)
                 else (desc .& 0xfffff000) .| ((address >> 8) .& 0xffc) in
    desc <- in_memory (ldl_phys table) ;;
    switch (desc .& 3)
      [ (on 0, fault 7);
        (on 1, finish ((desc .& 0xffff0000) .| (address .& 0xffff)) ((desc >> (4 + ((address >> 13) .& 6))) .& 3) 15 0x10000);
        (on 2, finish ((desc .& 0xfffff000) .| (address .& 0xfff)) ((desc >> (4 + ((address >> 13) .& 6))) .& 3) 15 0x1000);
        (on 3,
          if type =? 1 then
            if arm_feature e ARM_FEATURE_XSCALE then
              finish ((desc .& 0xfffff000) .| (address .& 0xfff)) ((desc >> 4) .& 3) 15 0x400
            else fault 7
          else finish ((desc .& 0xfffffc00) .| (address .& 0x3ff)) ((desc >> 4) .& 3) 15 0x400) ] hw_error.

Definition get_phys_addr_v6 (e : CPUARMState) (address access_type : Z) (is_user : bool) : machM translation :=
  let table := get_level1_table_address e address in
  desc <- in_memory (ldl_phys table) ;;
  let type := desc .& 3 in
  if type =? 0 then ret (inl (5 .| (0 << 4)))
  else
    let domain := if (type =? 2) && test desc (1 << 18) then 0 else (desc >> 4) .& 0x1e in
    let domain := (c3 (cp15 e) >> domain) .& 3 in
    let fault code := ret (inl (code .| (domain << 4))) in
    let finish phys_addr ap xn code page_size :=
      if domain =? 3 then ret (inr (phys_addr, PAGE_RW .| PAGE_EXEC, page_size))
      else if xn && (access_type =? access_fetch) then fault code
      else if test (c1_sys (cp15 e)) (1 << 29) && (ap .& 1 =? 0) then fault (if code =? 15 then 6 else 3)
      else
        prot <- or_abort (check_ap e ap domain access_type is_user) ;;
        if prot =? 0 then fault code
        else ret (inr (phys_addr, if xn then prot else prot .| PAGE_EXEC, page_size)) in
    if (domain =? 0) || (domain =? 2) then fault (if type =? 2 then 9 else 11)
    else if type =? 2 then
      let '(phys_addr, page_size) :=
        if test desc (1 << 18) then ((desc .& 0xff000000) .| (address .& 0x00ffffff), 0x1000000)
        else ((desc .& 0xfff00000) .| (address .& 0x000fffff), 0x100000) in
      finish phys_addr (((desc >> 10) .& 3) .| ((desc >> 13) .& 4)) (test desc (1 << 4)) 13 page_size
    else
      let table := (desc .& 0xfffffc00) .| ((address >> 10) .& 0x3fc) in
      desc <- in_memory (ldl_phys table) ;;
      let ap := ((desc >> 4) .& 3) .| ((desc >> 7) .& 4) in
      switch (desc .& 3)
        [ (on 0, fault 7);
          (on 1, finish ((desc .& 0xffff0000) .| (address .& 0xffff)) ap (test desc (1 << 15)) 15 0x10000);
          (on_any [2; 3], finish ((desc .& 0xfffff000) .| (address .& 0xfff)) ap (test desc 1) 15 0x1000) ] hw_error.

(** The highest region that holds the address: [n] is one more than its number. *)
Fixpoint mpu_region (n : nat) (e : CPUARMState) (address : Z) : machM nat :=
  match n with
  | O => ret 0%nat
  | S n' =>
      base <- lift (aget (c6_region (cp15 e)) (Z.of_nat n')) ;;
      let mask := u32 ((u32 (1 << ((base >> 1) .& 0x1f)) << 1) - 1) in
      if base .& 1 =? 0 then mpu_region n' e address
      else if (base .^ address) .&~ mask =? 0 then ret n else mpu_region n' e address
  end.

Definition get_phys_addr_mpu (e : CPUARMState) (address access_type : Z) (is_user : bool) : machM (Z + Z * Z) :=
  n <- mpu_region 8 e address ;;
  match n with
  | O => ret (inl 2)
  | S n =>
      let mask := if access_type =? access_fetch then c5_insn (cp15 e) else c5_data (cp15 e) in
      let allow prot := ret (inr (address, prot .| PAGE_EXEC)) in
      switch ((mask >> (Z.of_nat n * 4)) .& 0xf)
        [ (on 0, ret (inl 1));
          (on 1, if is_user then ret (inl 1) else allow PAGE_RW);
          (on 2, allow (if is_user then PAGE_READ else PAGE_RW));
          (on 3, allow PAGE_RW);
          (on 5, if is_user then ret (inl 1) else allow PAGE_READ);
          (on 6, allow PAGE_READ) ] (ret (inl 1))
  end.

(** The fast context switch extension moves the lowest 32 megabytes. *)
Definition fcse_address (e : CPUARMState) (address : Z) : Z :=
  if address <? 0x02000000 then u32 (address + c13_fcse (cp15 e)) else address.

Definition get_phys_addr (address access_type : Z) (is_user : bool) : machM translation :=
  e <- gets env ;;
  let address := fcse_address e address in
  if c1_sys (cp15 e) .& 1 =? 0 then ret (inr (address, PAGE_RW .| PAGE_EXEC, TARGET_PAGE_SIZE))
  else if arm_feature e ARM_FEATURE_MPU then
    r <- get_phys_addr_mpu e address access_type is_user ;;
    ret (match r with inl code => inl code | inr (phys, prot) => inr (phys, prot, TARGET_PAGE_SIZE) end)
  else if test (c1_sys (cp15 e)) (1 << 23) then get_phys_addr_v6 e address access_type is_user
  else get_phys_addr_v5 e address access_type is_user.

(** For the debugger and the translator: -1 if there is no translation. *)
Definition cpu_get_phys_page_debug (addr : Z) : machM Z :=
  r <- get_phys_addr addr access_load false ;;
  ret (match r with inl _ => u32 (-1) | inr (phys_addr, _, _) => phys_addr end).
End Mmu.

(** ** The reference *)

Record perms := mk_perms { can_read : bool; can_write : bool; can_fetch : bool }.
Definition permits (p : perms) (access : Z) : bool :=
  if access =? access_store then can_write p else if access =? access_fetch then can_fetch p else can_read p.
Definition prot_flags (p : perms) : Z :=
  (if can_read p then PAGE_READ else 0) + (if can_write p then PAGE_WRITE else 0) + (if can_fetch p then PAGE_EXEC else 0).

(** What the access permission bits of a descriptor allow; instructions may be
    fetched from what may be read. *)
Definition ap_perms (e : CPUARMState) (ap : Z) (is_user : bool) : perms :=
  let ro b := mk_perms b false b in
  let rw b := mk_perms b b b in
  match ap with
  | 0 => match (c1_sys (cp15 e) / 2 ^ 8) mod 4 with 1 => ro (negb is_user) | 2 => ro true | _ => ro false end
  | 1 => rw (negb is_user)
  | 2 => if is_user then ro true else rw true
  | 3 => rw true
  | 5 => ro (negb is_user)
  | 6 => ro true
  | 7 => ro (arm_feature e ARM_FEATURE_V7)
  | _ => ro false
  end.

(** The entries of the two levels of tables. *)
Inductive l1_entry :=
  | L1Fault
  | L1Table (table domain : Z)
  | L1Section (frame size_log domain ap : Z) (xn : bool).
Definition decode_l1 (d : Z) : l1_entry :=
  let domain := (d / 2 ^ 5) mod 16 in
  let ap := 4 * ((d / 2 ^ 15) mod 2) + (d / 2 ^ 10) mod 4 in
  let xn := Z.odd (d / 2 ^ 4) in
  match d mod 4 with
  | 0 => L1Fault
  | 2 => if Z.odd (d / 2 ^ 18) then L1Section (d / 2 ^ 24) 24 0 ap xn else L1Section (d / 2 ^ 20) 20 domain ap xn
  | _ => L1Table (d / 2 ^ 10) domain
  end.

Inductive l2_entry :=
  | L2Fault
  | L2Page (frame size_log ap : Z) (xn : bool).
Definition decode_l2 (d : Z) : l2_entry :=
  let ap := 4 * ((d / 2 ^ 9) mod 2) + (d / 2 ^ 4) mod 4 in
  match d mod 4 with
  | 0 => L2Fault
  | 1 => L2Page (d / 2 ^ 16) 16 ap (Z.odd (d / 2 ^ 15))
  | _ => L2Page (d / 2 ^ 12) 12 ap (Z.odd d)
  end.

(** The address of the first entry: addresses above the first [2^(32-N)] bytes
    are translated by the second table. *)
Definition l1_address (e : CPUARMState) (va : Z) : Z :=
  let n := c2_control (cp15 e) in
  if va <? 2 ^ (32 - n) then c2_base0 (cp15 e) / 2 ^ (14 - n) * 2 ^ (14 - n) + 4 * (va / 2 ^ 20)
  else c2_base1 (cp15 e) / 2 ^ 14 * 2 ^ 14 + 4 * (va / 2 ^ 20).

(** The masks go with the control register. *)
Definition ttbcr_ok (e : CPUARMState) : Prop :=
  0 <= c2_control (cp15 e) < 8 /\ c2_mask (cp15 e) = u32 (- 2 ^ (32 - c2_control (cp15 e))) /\
  c2_base_mask (cp15 e) = u32 (- 2 ^ (14 - c2_control (cp15 e))) /\
  fits 32 (c2_base0 (cp15 e)) /\ fits 32 (c2_base1 (cp15 e)).

(** Access to a domain: 0 and 2 none, 1 by permissions, 3 unchecked. *)
Definition domain_access (e : CPUARMState) (domain : Z) : Z := (c3 (cp15 e) / 2 ^ (2 * domain)) mod 4.
Definition checked (access : Z) : bool := negb ((access =? 0) || (access =? 2)).

(** The status the code reports has the access to the domain where the
    architecture has the number of the domain. *)
Definition status (code access : Z) : translation := inl (code + 16 * access).

(** The end of a walk: a frame of [2^size_log] bytes; [code] is the permission
    fault of its level, [af] its access flag fault. *)
Definition frame_v6 (e : CPUARMState) (va kind : Z) (is_user : bool) (dacr frame size_log ap : Z) (xn : bool)
    (code af : Z) : translation :=
  let pa := frame * 2 ^ size_log + va mod 2 ^ size_log in
  let p := ap_perms e ap is_user in
  let p := mk_perms (can_read p) (can_write p) (can_fetch p && negb xn) in
  if dacr =? 3 then inr (pa, 7, 2 ^ size_log)
  else if xn && (kind =? access_fetch) then status code dacr
  else if Z.odd (c1_sys (cp15 e) / 2 ^ 29) && Z.even ap then status af dacr
  else if permits p kind then inr (pa, prot_flags p, 2 ^ size_log) else status code dacr.

(** [rd] is the memory, as far as it is known. *)
Definition translate_v6 (rd : Z -> option Z) (e : CPUARMState) (va kind : Z) (is_user : bool) : option translation :=
  d ← rd (l1_address e va);
  match decode_l1 d with
  | L1Fault => Some (status 5 0)
  | L1Section frame size_log domain ap xn =>
      let a := domain_access e domain in
      Some (if checked a then frame_v6 e va kind is_user a frame size_log ap xn 13 3 else status 9 a)
  | L1Table table domain =>
      let a := domain_access e domain in
      if checked a then
        d ← rd (table * 2 ^ 10 + 4 * ((va / 2 ^ 12) mod 256));
        Some (match decode_l2 d with
              | L2Fault => status 7 a
              | L2Page frame size_log ap xn => frame_v6 e va kind is_user a frame size_log ap xn 15 6
              end)
      else Some (status 11 a)
  end.

Lemma domain_bits e d : (c3 (cp15 e) >> ((d >> 4) .& 0x1e)) .& 3 = domain_access e ((d / 2 ^ 5) mod 16).
Proof.
  unfold domain_access. assert ((d >> 4) .& 0x1e = 2 * ((d / 2 ^ 5) mod 16)) as ->.
  { change 0x1e with (Z.ones 4 << 1). rewrite Z.mul_comm. change 2 with (2 ^ 1) at 2. change 16 with (2 ^ 4).
    rewrite <- Z.shiftl_mul_pow2, <- Z.land_ones, <- shiftr_div by lia.
    apply Z.bits_inj'. intros i Hi. rewrite Z.land_spec, !Z.shiftl_spec by lia.
    destruct (Z.lt_ge_cases i 1); [rewrite !(Z.testbit_neg_r _ (i - 1)) by lia; apply andb_false_r|].
    rewrite Z.land_spec, !Z.shiftr_spec by lia. do 2 f_equal. lia. }
  assert (0 <= (d / 2 ^ 5) mod 16) by (by apply Z.mod_pos_bound).
  change 3 with (2 ^ 2 - 1). by rewrite land_ones, shiftr_div by lia.
Qed.

Lemma l1_address_eq e va : ttbcr_ok e -> fits 32 va -> get_level1_table_address e va = l1_address e va.
Proof.
  intros (Hn & Hm & Hb & H0 & H1) Hva. unfold get_level1_table_address, l1_address. rewrite Hm, Hb.
  set (n := c2_control (cp15 e)) in *. clearbody n.
  assert (u32 (- 2 ^ (14 - n)) = 2 ^ 32 - 2 ^ (14 - n)) as ->.
  { unfold wrap. symmetry. apply (Z.mod_unique _ _ (-1)); [|lia].
    pose proof (Z.pow_le_mono_r 2 (14 - n) 14 ltac:(lia) ltac:(lia)). lia. }
  assert (test va (u32 (- 2 ^ (32 - n))) = negb (va <? 2 ^ (32 - n))) as ->.
  { unfold test. f_equal. destruct (Z.eq_dec n 0) as [->|Hn0].
    - change (u32 (- 2 ^ (32 - 0))) with 0. rewrite Z.land_0_r. change (2 ^ (32 - 0)) with (2 ^ 32).
      unfold fits in Hva. destruct (Z.ltb_spec va (2 ^ 32)); [done|lia].
    - assert (u32 (- 2 ^ (32 - n)) = 2 ^ 32 - 2 ^ (32 - n)) as ->.
      { unfold wrap. symmetry. apply (Z.mod_unique _ _ (-1)); [|lia].
        pose proof (Z.pow_le_mono_r 2 (32 - n) 31 ltac:(lia) ltac:(lia)). lia. }
      rewrite high_bits by (done || lia). assert (0 < 2 ^ (32 - n)) by lia. unfold fits in Hva.
      destruct (Z.ltb_spec va (2 ^ (32 - n))); [by rewrite Z.div_small by lia|].
      apply Z.eqb_neq. assert (1 <= va / 2 ^ (32 - n)) by (by apply Z.div_le_lower_bound; lia). nia. }
  change 0x3ffc with (2 ^ (12 + 2) - 4). rewrite index_bits by lia. change (18 + 2) with 20.
  assert (0 <= va / 2 ^ 20 < 2 ^ 12) as Hi.
  { split; [apply Z.div_pos; [apply Hva|lia]|]. apply Z.div_lt_upper_bound; [lia|]. apply Hva. }
  rewrite (Z.mod_small (va / 2 ^ 20)) by done.
  destruct (Z.ltb_spec va (2 ^ (32 - n))) as [Hlt|Hge]; cbn [negb].
  - rewrite (high_bits 32) by (done || lia). apply lor_add; [lia|]. split; [lia|].
    assert (va / 2 ^ 20 < 2 ^ (12 - n)) as Hlt'.
    { apply Z.div_lt_upper_bound; [lia|]. rewrite <- Z.pow_add_r by lia. by replace (20 + (12 - n)) with (32 - n) by lia. }
    replace (14 - n) with (2 + (12 - n)) by lia. rewrite Z.pow_add_r by lia. lia.
  - change 0xffffc000 with (2 ^ 32 - 2 ^ 14). rewrite (high_bits 32) by (done || lia). apply lor_add; lia.
Qed.

Lemma l1_address_aligned e va : ttbcr_ok e -> l1_address e va mod 4 = 0.
Proof.
  intros (Hn & _). unfold l1_address. set (n := c2_control (cp15 e)) in *. clearbody n.
  destruct (va <? _).
  - replace (2 ^ (14 - n)) with (2 ^ (12 - n) * 4) by (change 4 with (2 ^ 2); rewrite <- Z.pow_add_r by lia; f_equal; lia).
    rewrite Z.mul_assoc, (Z.mul_comm 4), <- Z.mul_add_distr_r. by apply Z.mod_mul.
  - change (2 ^ 14) with (2 ^ 12 * 4). rewrite Z.mul_assoc, (Z.mul_comm 4), <- Z.mul_add_distr_r. by apply Z.mod_mul.
Qed.

(** ** Permissions *)

Lemma in_range_cases n x : 0 <= x < Z.of_nat n -> x ∈ seqZ 0 (Z.of_nat n).
Proof. intros. apply elem_of_seqZ. lia. Qed.

Lemma check_ap_spec e ap a kind u :
  0 <= ap < 8 -> a <> 3 -> 0 <= kind < 3 ->
  check_ap e ap a kind u = Some (if permits (ap_perms e ap u) kind
    then (if can_read (ap_perms e ap u) then 1 else 0) + (if can_write (ap_perms e ap u) then 2 else 0) else 0).
Proof.
  intros Hap Ha Hk. unfold check_ap. destruct (Z.eqb_spec a 3); [done|].
  assert ((c1_sys (cp15 e) >> 8) .& 3 = (c1_sys (cp15 e) / 2 ^ 8) mod 4) as ->.
  { change 3 with (2 ^ 2 - 1). by rewrite land_ones, shiftr_div by lia. }
  set (sr := (c1_sys (cp15 e) / 2 ^ 8) mod 4).
  assert (0 <= sr < 4) as Hsr by (by apply Z.mod_pos_bound).
  apply (in_range_cases 8) in Hap. apply (in_range_cases 3) in Hk. apply (in_range_cases 4) in Hsr.
  unfold ap_perms. fold sr. clearbody sr.
  vm_compute in Hap, Hk, Hsr. cases_in Hap. all: cases_in Hk; try reflexivity; try (destruct u; reflexivity).
  all: try (unfold permits; cbn; by destruct (arm_feature e ARM_FEATURE_V7)).
  all: cases_in Hsr; try reflexivity; destruct u; reflexivity.
Qed.

(** ** Tables in RAM *)
Section Walks.
Context {F W E : Type} `{IoDevices F W E}.
Implicit Types s : memory_state F W.

(** The aligned word at an address of RAM. *)
Definition ram_word s (a v : Z) : Prop :=
  a mod 4 = 0 /\ exists off d, ram_region s a 4 off /\ zlen d = 4 /\ le_value d = v /\
    forall j b, aget d j = Some b -> in_ram s (off + j) b.

(** [rd] is true of the memory. *)
Definition reads s (rd : Z -> option Z) : Prop := forall a v, rd a = Some v -> ram_word s a v /\ fits 32 v.

Lemma order_reads s s' rd : same_but_order s s' -> reads s rd -> reads s' rd.
Proof.
  intros Hso Hr a v Ha. destruct (Hr a v Ha) as [(Hal & off & d & Hreg & Hd & Hv & Hb) Hf]. split; [|done].
  split; [done|]. exists off, d. split; [by apply (order_region s)|]. split; [done|]. split; [done|].
  intros j b Hj. rewrite (order_in_ram s s') by done. by apply Hb.
Qed.

Lemma list_eq_aget (d d' : list Z) :
  zlen d = zlen d' -> (forall j v v', aget d j = Some v -> aget d' j = Some v' -> v = v') -> d = d'.
Proof.
  intros Hl He. apply list_eq. intros i. destruct (d !! i) as [v|] eqn:Ev.
  - assert (i < length d')%nat as Hi by (apply lookup_lt_Some in Ev; unfold zlen in Hl; lia).
    destruct (lookup_lt_is_Some_2 d' i Hi) as [v' Ev']. rewrite Ev'. f_equal.
    assert (forall (l : list Z) x, l !! i = Some x -> aget l (Z.of_nat i) = Some x) as Hg.
    { intros l x Hx. unfold aget. destruct (Z.ltb_spec (Z.of_nat i) 0); [lia|]. by rewrite Nat2Z.id. }
    apply (He (Z.of_nat i)); by apply Hg.
  - symmetry. apply lookup_ge_None_2. apply lookup_ge_None_1 in Ev. unfold zlen in Hl. lia.
Qed.

Lemma aligned_page a : a mod 4 = 0 -> page_offset a + 4 <= TARGET_PAGE_SIZE.
Proof.
  intros Ha. rewrite page_offset_eq. change TARGET_PAGE_SIZE with 1024.
  pose proof (Z.mod_pos_bound a 1024 ltac:(lia)). assert ((a mod 1024) mod 4 = 0); [|Z.div_mod_to_equations; lia].
  change 1024 with (4 * 256). rewrite Z.rem_mul_r by lia. rewrite Ha. rewrite Z.add_0_l, Z.mul_comm. by apply Z.mod_mul.
Qed.

Lemma ldl_word s a v :
  ram_ok s -> ram_word s a v -> exists s', ldl_phys a s = Done (v, s', []) /\ same_but_order s s'.
Proof.
  intros Hok (Hal & off & d & Hreg & Hd & Hv & Hb).
  destruct (ld_phys_run 2 s a off Hok Hreg) as (d' & s' & Ed & Hso & Hd' & Hb'); [by apply aligned_page|].
  exists s'. split; [|done]. unfold ldl_phys. rewrite Ed. do 3 f_equal.
  rewrite <- Hv. f_equal. apply list_eq_aget; [by rewrite Hd, Hd'|]. intros j x x' Hx Hx'.
  eapply (in_ram_unique s); [done|by apply Hb'|by apply Hb].
Qed.

Lemma in_memory_run {A} (m : dev (memory_state F W) (mem_event E) A) (s : machine F W) a m' :
  m (mem s) = Done (a, m', []) -> in_memory m s = Done (a, s <| mem := m' |>, []).
Proof. intros Em. unfold in_memory, zoom. by rewrite Em. Qed.

(** The descriptors as the code takes them apart. *)
Lemma section_fields d va :
  fits 32 d ->
  (d .& 0xfff00000) .| (va .& 0x000fffff) = d / 2 ^ 20 * 2 ^ 20 + va mod 2 ^ 20 /\
  (d .& 0xff000000) .| (va .& 0x00ffffff) = d / 2 ^ 24 * 2 ^ 24 + va mod 2 ^ 24 /\
  (d .& 0xffff0000) .| (va .& 0xffff) = d / 2 ^ 16 * 2 ^ 16 + va mod 2 ^ 16 /\
  (d .& 0xfffff000) .| (va .& 0xfff) = d / 2 ^ 12 * 2 ^ 12 + va mod 2 ^ 12 /\
  (d .& 0xfffffc00) .| (va .& 0x3ff) = d / 2 ^ 10 * 2 ^ 10 + va mod 2 ^ 10.
Proof.
  intros Hd. split_and!; [apply (join_bits d va 20)|apply (join_bits d va 24)|apply (join_bits d va 16)|
    apply (join_bits d va 12)|apply (join_bits d va 10)]; done || lia.
Qed.

Lemma coarse_index d va :
  fits 32 d -> (d .& 0xfffffc00) .| ((va >> 10) .& 0x3fc) = d / 2 ^ 10 * 2 ^ 10 + 4 * ((va / 2 ^ 12) mod 256).
Proof.
  intros Hd. change 0x3fc with (2 ^ (8 + 2) - 4). rewrite index_bits by lia.
  change 0xfffffc00 with (2 ^ 32 - 2 ^ 10). rewrite (high_bits 32) by (done || lia).
  change (2 ^ 8) with 256. change (10 + 2) with 12. apply lor_add; [lia|].
  pose proof (Z.mod_pos_bound (va / 2 ^ 12) 256 ltac:(lia)). lia.
Qed.

Lemma status_eq code a : 0 <= code < 16 -> code .| (a << 4) = code + 16 * a.
Proof.
  intros Hc. rewrite Z.lor_comm, Z.shiftl_mul_pow2 by lia. rewrite lor_add by lia. lia.
Qed.

Lemma domain_access_bound e d : 0 <= domain_access e d < 4.
Proof. by apply Z.mod_pos_bound. Qed.

Lemma finish_v6 e va kind u a d k ap xn code (s : machine F W) r :
  0 <= kind < 3 -> 0 <= ap < 8 -> 0 <= code < 16 -> 0 <= k -> code = 13 \/ code = 15 ->
  frame_v6 e va kind u a (d / 2 ^ k) k ap xn code (if code =? 15 then 6 else 3) = r ->
  (if a =? 3 then ret (inr (d / 2 ^ k * 2 ^ k + va mod 2 ^ k, PAGE_RW .| PAGE_EXEC, 2 ^ k))
   else if xn && (kind =? access_fetch) then ret (inl (code .| (a << 4)))
   else if Z.odd (c1_sys (cp15 e) / 2 ^ 29) && (ap .& 1 =? 0) then ret (inl ((if code =? 15 then 6 else 3) .| (a << 4)))
   else
     prot <- or_abort (check_ap e ap a kind u) ;;
     if prot =? 0 then ret (inl (code .| (a << 4)))
     else ret (inr (d / 2 ^ k * 2 ^ k + va mod 2 ^ k, if xn then prot else prot .| PAGE_EXEC, 2 ^ k))) s =
  Done (r, s, @nil (machine_event E)).
Proof.
  intros Hkind Hap Hcode Hk Hc <-. unfold frame_v6. cbv zeta.
  destruct (Z.eqb_spec a 3) as [|Ha]; [done|].
  destruct (xn && (kind =? access_fetch)) eqn:Ex; [unfold status; by rewrite status_eq|].
  assert ((ap .& 1 =? 0) = Z.even ap) as ->.
  { change 1 with (2 ^ 1 - 1). rewrite land_ones by lia. by rewrite Zeven_mod. }
  destruct (_ && Z.even ap); [unfold status; rewrite status_eq; [done|by destruct Hc as [-> | ->]]|].
  rewrite check_ap_spec by done. cbn [or_abort]. rewrite bind_ret. set (p := ap_perms e ap u).
  assert (permits (mk_perms (can_read p) (can_write p) (can_fetch p && negb xn)) kind = permits p kind) as ->.
  { unfold permits. cbn [can_read can_write can_fetch]. destruct (kind =? access_store); [done|].
    destruct (kind =? access_fetch); [|done]. destruct xn; [done|]. by rewrite andb_true_r. }
  assert (can_fetch p = can_read p /\ (can_write p = true -> can_read p = true)) as [Hf Hw].
  { unfold p, ap_perms. clear. destruct ap as [|[[]|[]|]|]; cbn; try done; repeat case_match; done. }
  unfold prot_flags. cbn [can_read can_write can_fetch]. rewrite Hf.
  destruct (permits p kind) eqn:Ep; [|cbn; unfold status; by rewrite status_eq].
  assert (can_read p = true) as Hr.
  { unfold permits in Ep. rewrite Hf in Ep. repeat case_match; auto. }
  rewrite Hr. by destruct (can_write p), xn.
Qed.

Lemma leaf_v6 e va kind u a d (s : machine F W) r :
  0 <= kind < 3 -> fits 32 d ->
  Some match decode_l2 d with
       | L2Fault => status 7 a
       | L2Page frame k ap xn => frame_v6 e va kind u a frame k ap xn 15 6
       end = Some r ->
  (let finish phys_addr ap xn code page_size :=
      if a =? 3 then ret (inr (phys_addr, PAGE_RW .| PAGE_EXEC, page_size))
      else if xn && (kind =? access_fetch) then ret (inl (code .| (a << 4)))
      else if Z.odd (c1_sys (cp15 e) / 2 ^ 29) && (ap .& 1 =? 0) then ret (inl ((if code =? 15 then 6 else 3) .| (a << 4)))
      else
        prot <- or_abort (check_ap e ap a kind u) ;;
        if prot =? 0 then ret (inl (code .| (a << 4)))
        else ret (inr (phys_addr, if xn then prot else prot .| PAGE_EXEC, page_size)) in
   let ap := ((d >> 4) .& 3) .| ((d >> 7) .& 4) in
   switch (d .& 3)
     [ (on 0, ret (inl (7 .| (a << 4))));
       (on 1, finish ((d .& 0xffff0000) .| (va .& 0xffff)) ap (test d (1 << 15)) 15 0x10000);
       (on_any [2; 3], finish ((d .& 0xfffff000) .| (va .& 0xfff)) ap (test d 1) 15 0x1000) ] hw_error) s =
  Done (r, s, @nil (machine_event E)).
Proof.
  intros Hk Hd [= <-]. cbv zeta. assert (d .& 3 = d mod 4) as -> by (change 3 with (2 ^ 2 - 1); by rewrite land_ones by lia).
  destruct (section_fields d va Hd) as (_ & _ & F16 & F12 & _). rewrite F16, F12, three_bits, test_odd by lia.
  assert (test d 1 = Z.odd d) as -> by (change 1 with (1 << 0); by rewrite test_odd, Z.div_1_r by lia).
  pose proof (Z.mod_pos_bound d 4 ltac:(lia)) as Hb. unfold decode_l2. cbv zeta. change (7 + 2) with 9.
  assert (0 <= 4 * ((d / 2 ^ 9) mod 2) + (d / 2 ^ 4) mod 4 < 8) as Hap.
  { pose proof (Z.mod_pos_bound (d / 2 ^ 9) 2 ltac:(lia)). pose proof (Z.mod_pos_bound (d / 2 ^ 4) 4 ltac:(lia)). lia. }
  assert (d mod 4 = 0 \/ d mod 4 = 1 \/ d mod 4 = 2 \/ d mod 4 = 3) as [E0|[E0|E0]] by lia; [..|destruct E0 as [E0|E0]].
  all: rewrite E0.
  - unfold status. cbn. by rewrite status_eq.
  - apply (finish_v6 e va kind u a d 16); auto; lia.
  - apply (finish_v6 e va kind u a d 12); auto; lia.
  - apply (finish_v6 e va kind u a d 12); auto; lia.
Qed.

(** The walk through the tables of the sixth version is the reference. *)
Theorem walk_v6 e va kind u rd r (s : machine F W) :
  ram_ok (mem s) -> reads (mem s) rd -> ttbcr_ok e -> fits 32 va -> 0 <= kind < 3 ->
  translate_v6 rd e va kind u = Some r ->
  exists m', get_phys_addr_v6 e va kind u s = Done (r, s <| mem := m' |>, []) /\ same_but_order (mem s) m'.
Proof.
  intros Hok Hr Ht Hva Hk. unfold translate_v6. destruct (rd (l1_address e va)) as [d|] eqn:Ed; [|done].
  cbn [mbind option_bind]. destruct (Hr _ _ Ed) as [Hw Hd].
  destruct (ldl_word _ _ _ Hok Hw) as (m1 & E1 & Hso).
  unfold get_phys_addr_v6. rewrite l1_address_eq by done. cbv zeta.
  erewrite bind_silent by (apply in_memory_run; exact E1).
  set (s1 := s <| mem := m1 |>).
  assert (d .& 3 = d mod 4) as -> by (change 3 with (2 ^ 2 - 1); by rewrite land_ones by lia).
  pose proof (Z.mod_pos_bound d 4 ltac:(lia)) as Hb.
  destruct (section_fields d va Hd) as (F20 & F24 & F16 & F12 & F10).
  assert (forall n, 0 <= (d / 2 ^ n) mod 2 < 2) as Hodd by (intros; by apply Z.mod_pos_bound).
  assert (forall n, 0 <= (d / 2 ^ n) mod 4 < 4) as Hfour by (intros; by apply Z.mod_pos_bound).
  unfold decode_l1. cbv zeta. rewrite !test_odd by lia.
  assert ((c3 (cp15 e) >> 0) .& 3 = domain_access e 0) as Hdom0.
  { unfold domain_access. change 3 with (2 ^ 2 - 1). by rewrite land_ones, shiftr_div by lia. }
  assert (d mod 4 = 0 \/ d mod 4 = 2 \/ (d mod 4 = 1 \/ d mod 4 = 3)) as [E0|[E2|E3]] by lia.
  - rewrite E0. intros [= <-]. by exists m1.
  - rewrite E2. change (2 =? 0) with false. change (2 =? 2) with true. cbn [andb]. cbv iota.
    destruct (Z.odd (d / 2 ^ 18)).
    + rewrite Hdom0. set (a := domain_access e 0). intros [= <-]. exists m1. split; [|done]. unfold checked.
      destruct ((a =? 0) || (a =? 2)); cbn [negb]; [unfold status; by rewrite status_eq|].
      rewrite F24, three_bits by lia. apply (finish_v6 e va kind u a d 24); auto; try lia. specialize (Hodd (13 + 2)); specialize (Hfour 10); lia.
    + rewrite domain_bits. set (a := domain_access e _). intros [= <-]. exists m1. split; [|done]. unfold checked.
      destruct ((a =? 0) || (a =? 2)); cbn [negb]; [unfold status; by rewrite status_eq|].
      rewrite F20, three_bits by lia. apply (finish_v6 e va kind u a d 20); auto; try lia. specialize (Hodd (13 + 2)); specialize (Hfour 10); lia.
  - assert ((d mod 4 =? 0) = false /\ (d mod 4 =? 2) = false) as [-> ->] by lia. cbn [andb]. cbv iota.
    assert (forall A (x0 x2 y : A), match d mod 4 with 0 => x0 | 2 => x2 | _ => y end = y) as Hmatch.
    { intros. by destruct E3 as [-> | ->]. }
    rewrite Hmatch, domain_bits. set (a := domain_access e _). unfold checked.
    destruct ((a =? 0) || (a =? 2)); cbn [negb].
    { intros [= <-]. exists m1. split; [|done]. unfold status. by rewrite status_eq. }
    destruct (rd (d / 2 ^ 10 * 2 ^ 10 + 4 * ((va / 2 ^ 12) mod 256))) as [d2|] eqn:Ed2; [|done]. cbn [mbind option_bind].
    destruct (Hr _ _ Ed2) as [_ Hd2]. rewrite coarse_index by done.
    destruct (order_reads _ _ _ Hso Hr _ _ Ed2) as [Hw2 _].
    destruct (ldl_word _ _ _ (order_ok _ _ Hso Hok) Hw2) as (m2 & E2 & Hso2).
    intros Er. exists m2. split; [|by apply (order_trans _ m1)].
    erewrite bind_silent by (apply in_memory_run; exact E2).
    assert (s1 <| mem := m2 |> = s <| mem := m2 |>) as -> by done.
    apply (leaf_v6 e va kind u a d2); done.
Qed.
End Walks.

(** ** What one translation says about others *)

(** The protection [prot] allows an access. *)
Definition allows (prot kind : Z) : bool :=
  test prot (if kind =? access_store then PAGE_WRITE else if kind =? access_fetch then PAGE_EXEC else PAGE_READ).

Lemma allows_flags p kind : 0 <= kind < 3 -> allows (prot_flags p) kind = permits p kind.
Proof.
  intros Hk. apply (in_range_cases 3) in Hk. vm_compute in Hk. destruct p as [r w x]. unfold allows, permits, prot_flags.
  cbn [can_read can_write can_fetch]. cases_in Hk; by destruct r, w, x.
Qed.

Lemma frame_v6_others e va va' kind kind' u a frame k ap xn code af pa prot size :
  10 <= k -> va / 2 ^ 10 = va' / 2 ^ 10 -> 0 <= kind' < 3 ->
  frame_v6 e va kind u a frame k ap xn code af = inr (pa, prot, size) ->
  frame_v6 e va' kind' u a frame k ap xn code af =
  if allows prot kind' then inr (pa - va + va', prot, size) else status code a.
Proof.
  intros Hk Hva Hk'. unfold frame_v6. cbv zeta.
  assert (frame * 2 ^ k + va mod 2 ^ k - va + va' = frame * 2 ^ k + va' mod 2 ^ k) as Hpa.
  { assert (va / 2 ^ k = va' / 2 ^ k) as Hq.
    { replace (2 ^ k) with (2 ^ 10 * 2 ^ (k - 10)) by (rewrite <- Z.pow_add_r by lia; f_equal; lia).
      rewrite <- !Z.div_div by lia. by rewrite Hva. }
    pose proof (Z.div_mod va (2 ^ k) ltac:(lia)). pose proof (Z.div_mod va' (2 ^ k) ltac:(lia)). lia. }
  destruct (a =? 3).
  { intros [= <- <- <-]. rewrite Hpa. apply (in_range_cases 3) in Hk'. vm_compute in Hk'. by cases_in Hk'. }
  destruct (xn && (kind =? access_fetch)); [done|]. destruct (_ && Z.even ap); [by destruct (_ && _)|].
  set (p := mk_perms _ _ _). destruct (permits p kind); [|done]. intros [= <- <- <-].
  rewrite Hpa, allows_flags by done. destruct (xn && (kind' =? access_fetch)) eqn:Ex; [|done].
  apply andb_true_iff in Ex as [-> Ex]. unfold permits, p. cbn [can_fetch]. rewrite Ex, andb_false_r.
  by destruct (Z.eqb_spec kind' access_store) as [->|].
Qed.

(** A translation of one access to a page of a kilobyte, the unit the
    translation buffer keeps, decides all accesses to this page. *)
Theorem translation_covers_page rd e va va' kind kind' u pa prot size :
  0 <= c2_control (cp15 e) < 8 -> va / 2 ^ 10 = va' / 2 ^ 10 -> 0 <= kind' < 3 ->
  translate_v6 rd e va kind u = Some (inr (pa, prot, size)) ->
  exists r, translate_v6 rd e va' kind' u = Some r /\
    if allows prot kind' then r = inr (pa - va + va', prot, size) else exists code, r = inl code.
Proof.
  intros Hn Hva Hk'. unfold translate_v6.
  assert (forall n, 10 <= n -> va / 2 ^ n = va' / 2 ^ n) as Hq.
  { intros n Hle. replace (2 ^ n) with (2 ^ 10 * 2 ^ (n - 10)) by (rewrite <- Z.pow_add_r by lia; f_equal; lia).
    rewrite <- !Z.div_div by lia. by rewrite Hva. }
  assert (l1_address e va' = l1_address e va) as ->.
  { unfold l1_address. rewrite (Hq 20) by lia. set (n := c2_control (cp15 e)) in *.
    assert ((va' <? 2 ^ (32 - n)) = (va <? 2 ^ (32 - n))) as ->; [|done].
    specialize (Hq (32 - n) ltac:(lia)). assert (0 < 2 ^ (32 - n)) by lia.
    destruct (Z.ltb_spec va' (2 ^ (32 - n))), (Z.ltb_spec va (2 ^ (32 - n))); try done; exfalso.
    - assert (1 <= va / 2 ^ (32 - n)) by (apply Z.div_le_lower_bound; lia).
      assert (va' / 2 ^ (32 - n) < 1) by (apply Z.div_lt_upper_bound; lia). lia.
    - assert (1 <= va' / 2 ^ (32 - n)) by (apply Z.div_le_lower_bound; lia).
      assert (va / 2 ^ (32 - n) < 1) by (apply Z.div_lt_upper_bound; lia). lia. }
  destruct (rd (l1_address e va)) as [d|]; [|done]. cbn [mbind option_bind].
  assert (forall a frame k ap xn code af, 10 <= k ->
    frame_v6 e va kind u a frame k ap xn code af = inr (pa, prot, size) ->
    exists r, Some (frame_v6 e va' kind' u a frame k ap xn code af) = Some r /\
      if allows prot kind' then r = inr (pa - va + va', prot, size) else exists code, r = inl code) as Hframe.
  { intros a frame k ap xn code af Hle Hf. eexists. split; [reflexivity|].
    rewrite (frame_v6_others _ _ _ _ _ _ _ _ _ _ _ _ _ _ _ _ Hle Hva Hk' Hf).
    destruct (allows prot kind'); [done|by eexists]. }
  unfold decode_l1. destruct (d mod 4) as [|[[]|[]|]|]; try done; try (destruct (checked _); [|done]).
  all: rewrite <- ?(Hq 12) by lia.
  all: try (destruct (Z.odd (d / 2 ^ 18)); destruct (checked _); try done; intros [= Hf]; by eapply Hframe).
  all: destruct (rd _) as [d2|]; [|done]; cbn [mbind option_bind]; destruct (decode_l2 d2) as [|frame k ap xn] eqn:E2; [done|].
  all: assert (10 <= k) as Hle by (revert E2; unfold decode_l2; repeat case_match; intros [= <- <- <- <-]; lia).
  all: intros [= Hf]; by eapply Hframe.
Qed.
