(* ===== verification/ArmTlb.v ===== *)
(** * ArmTlb: the translation buffer and virtual memory accesses ([exec.c],
    [softmmu_template.h], [softmmu_header.h], [target-arm/helper.c],
    [target-arm/op_helper.c])

    The buffer keeps one entry for every 256th page of a kilobyte and for every
    mode.  An access looks its page up, fills the entry from the translation
    tables when it is not there, and reads RAM directly or calls the handler of
    an I/O zone.  Pages larger than a kilobyte are remembered as one region that
    covers them all; invalidating an address in it empties the buffer.

    A host pointer to RAM is written as the RAM address it stands for.  A fault
    leaves through [longjmp]: it is the value [None].  Breakpoints and
    watchpoints, instruction counting and the jump cache of the translator are
    not modelled; finding the guest's program counter again ([cpu_restore_state])
    is part of translated code. *)
From S2P Require Import Prelude Words ArmCpu Memory ArmMmu.

Definition TLB_INVALID_MASK := 1 << 3.
Definition TLB_NOTDIRTY := 1 << 4.
Definition TLB_MMIO := 1 << 5.
Definition MMU_USER_IDX := 1.
Definition TLB_NONE := u32 (-1).

(** ** Invalidation *)

Definition s_cputlb_empty_entry : CPUTLBEntry := mk_tlb TLB_NONE TLB_NONE TLB_NONE (u64 (-1)).

Definition tlb_flush (flush_global : Z) : cpu unit :=
  modify (fun s => s <| tlb_table := replicate (Z.to_nat NB_MMU_MODES) (replicate (Z.to_nat CPU_TLB_SIZE) s_cputlb_empty_entry) |>
                     <| tlb_flush_addr := TLB_NONE |> <| tlb_flush_mask := 0 |>).

(** [addr & (TARGET_PAGE_MASK | TLB_INVALID_MASK)]: the page of an entry's
    address, or something that is no page if the entry is invalid. *)
Definition entry_page (t : Z) : Z := t .& u32 (Z.lnot (TARGET_PAGE_SIZE - 1) .| TLB_INVALID_MASK).

Definition tlb_flush_entry (e : CPUTLBEntry) (addr : Z) : CPUTLBEntry :=
  if (addr =? entry_page (addr_read e)) || (addr =? entry_page (addr_write e)) || (addr =? entry_page (addr_code e))
  then s_cputlb_empty_entry else e.

Definition tlb_index (addr : Z) : Z := (addr >> TARGET_PAGE_BITS) .& (CPU_TLB_SIZE - 1).

(** A change of the entry for a page in one mode, and in all. *)
Definition upd_entry (mmu_idx addr : Z) (f : CPUTLBEntry -> CPUTLBEntry) : cpu unit :=
  t <- gets tlb_table ;;
  l <- lift (aget t mmu_idx) ;;
  e <- lift (aget l (tlb_index addr)) ;;
  l <- lift (aset (tlb_index addr) (f e) l) ;;
  t <- lift (aset mmu_idx l t) ;;
  modify (fun s => s <| tlb_table := t |>).

Definition tlb_flush_page (addr : Z) : cpu unit :=
  s <- gets id ;;
  if addr .& tlb_flush_mask s =? tlb_flush_addr s then tlb_flush 1
  else
    let addr := page_base addr in
    for_up 0 (Z.to_nat NB_MMU_MODES) (fun mmu_idx => upd_entry mmu_idx addr (fun e => tlb_flush_entry e addr)).

(** [while (((tlb_flush_addr ^ vaddr) & mask) != 0) mask <<= 1]. *)
Fixpoint widen (fuel : nat) (x mask : Z) : option Z :=
  if x .& mask =? 0 then Some mask
  else match fuel with O => None | S fuel' => widen fuel' x (u32 (mask << 1)) end.

Definition tlb_add_large_page (vaddr size : Z) : cpu unit :=
  s <- gets id ;;
  let mask := u32 (Z.lnot (size - 1)) in
  if tlb_flush_addr s =? TLB_NONE then
    modify (fun s => s <| tlb_flush_addr := vaddr .& mask |> <| tlb_flush_mask := mask |>)
  else
    mask <- lift (widen 32 (tlb_flush_addr s .^ vaddr) (mask .& tlb_flush_mask s)) ;;
    modify (fun s => s <| tlb_flush_addr ::= fun a => a .& mask |> <| tlb_flush_mask := mask |>).

Definition tlb_set_dirty1 (e : CPUTLBEntry) (vaddr : Z) : CPUTLBEntry :=
  if addr_write e =? vaddr .| TLB_NOTDIRTY then e <| addr_write := vaddr |> else e.
Definition tlb_set_dirty (vaddr : Z) : cpu unit :=
  let vaddr := page_base vaddr in
  for_up 0 (Z.to_nat NB_MMU_MODES) (fun mmu_idx => upd_entry mmu_idx vaddr (fun e => tlb_set_dirty1 e vaddr)).

(** ** Filling *)
Section Tlb.
Context {F W E : Type} `{IoDevices F W E}.
Abbreviation machM := (dev (machine F W) (machine_event E)).

(** An entry is made of a page descriptor and the state of the dirty map. *)
Definition page_descriptor (paddr : Z) : machM (Z * Z) :=
  p <- in_memory (find_page (paddr >> TARGET_PAGE_BITS)) ;;
  ret (match p with None => (IO_MEM_UNASSIGNED, paddr) | Some d => (phys_offset d, region_offset d) end).
Definition is_dirty (ram_addr : Z) : machM bool :=
  d <- gets (fun s => phys_dirty (mem s)) ;; f <- lift (aget d (ram_addr >> TARGET_PAGE_BITS)) ;; ret (f =? 0xff).

Definition tlb_set_page (vaddr paddr prot mmu_idx size : Z) : machM unit :=
  (if size =? TARGET_PAGE_SIZE then ret tt else in_cpu (tlb_add_large_page vaddr size)) ;;;
  let* (pd, region) := page_descriptor paddr in
  let address := if (IO_MEM_ROM <? page_offset pd) && negb (test pd IO_MEM_ROMD) then vaddr .| TLB_MMIO else vaddr in
  b <- in_memory (qemu_get_ram_ptr (page_base pd)) ;;
  let iotlb_ :=
    if page_offset pd <=? IO_MEM_ROM then
      page_base pd .| (if page_offset pd =? IO_MEM_RAM then IO_MEM_NOTDIRTY else IO_MEM_ROM)
    else page_offset pd + region in
  w <- (if negb (test prot PAGE_WRITE) then ret TLB_NONE
        else if (page_offset pd =? IO_MEM_ROM) || test pd IO_MEM_ROMD then ret (address .| TLB_MMIO)
        else if page_offset pd =? IO_MEM_RAM then
          d <- is_dirty pd ;; ret (if d : bool then address else address .| TLB_NOTDIRTY)
        else ret address) ;;
  in_cpu (
    t <- gets iotlb ;; l <- lift (aget t mmu_idx) ;;
    l <- lift (aset (tlb_index vaddr) (u32 (u32 iotlb_ - vaddr)) l) ;; t <- lift (aset mmu_idx l t) ;;
    modify (fun s => s <| iotlb := t |>) ;;;
    upd_entry mmu_idx vaddr (fun _ =>
      mk_tlb (if test prot PAGE_READ then address else TLB_NONE) w
        (if test prot PAGE_EXEC then address else TLB_NONE) (u64 (page_base pd - vaddr)))).

(** [true] when a translation was entered; otherwise the fault is recorded. *)
Definition cpu_arm_handle_mmu_fault (address access_type mmu_idx : Z) : machM bool :=
  r <- get_phys_addr address access_type (mmu_idx =? MMU_USER_IDX) ;;
  match r with
  | inr (phys_addr, prot, page_size) =>
      tlb_set_page (address .&~ 0x3ff) (phys_addr .&~ 0x3ff) prot mmu_idx page_size ;;; ret true
  | inl code =>
      in_cpu (modify (fun s =>
        if access_type =? access_fetch then
          s <| cp15 ::= fun c => c <| c5_insn := code |> <| c6_insn := address |> |> <| exception_index := EXCP_PREFETCH_ABORT |>
        else
          s <| cp15 ::= fun c =>
              c <| c5_data := if (access_type =? access_store) && arm_feature s ARM_FEATURE_V6 then code .| (1 << 11) else code |>
                <| c6_data := address |> |>
            <| exception_index := EXCP_DATA_ABORT |>)) ;;; ret false
  end.

(** [tlb_fill]; after a fault [cpu_loop_exit] leaves for the processor loop. *)
Definition tlb_fill (addr access_type mmu_idx : Z) : machM bool := cpu_arm_handle_mmu_fault addr access_type mmu_idx.

(** ** Loads *)

Definition data_size (w : nat) : Z := Z.of_nat (width_bytes w).
Definition tlb_entry (addr mmu_idx : Z) : machM (CPUTLBEntry * Z) :=
  e <- gets env ;;
  t <- lift (aget (tlb_table e) mmu_idx) ;; x <- lift (aget t (tlb_index addr)) ;;
  t <- lift (aget (iotlb e) mmu_idx) ;; io <- lift (aget t (tlb_index addr)) ;; ret (x, io).

(** A load through a host pointer: the block it points into, which stays where
    it is in the list. *)
Definition ld_raw (w : nat) (p : Z) : machM Z :=
  l <- gets (fun s => blocks (mem s)) ;;
  b <- lift (fst <$> take_block p l) ;;
  d <- lift (slice (u64 (p - offset b)) (data_size w) (host b)) ;; ret (le_value d).

(** [io_readb] to [io_readq]: eight bytes are two accesses. *)
Definition io_handler (physaddr : Z) : Z := (physaddr >> IO_MEM_SHIFT) .& (IO_MEM_NB_ENTRIES - 1).
Definition io_ld (w : nat) (physaddr addr : Z) : machM Z :=
  let index := io_handler physaddr in
  let pa := u32 (page_base physaddr + addr) in
  fuel <- gets (fun s => io_fuel (mem s)) ;;
  match w with
  | 3%nat =>
      lo <- in_memory (io_read fuel index 2 pa) ;; hi <- in_memory (io_read fuel index 2 (u32 (pa + 4))) ;;
      ret (lo .| (hi << 32))
  | _ => in_memory (io_read fuel index w pa)
  end.

(** [slow_ld]: all cases, accesses across two pages included.  A turn either
    fills the entry it needs, or splits an access in two aligned ones. *)
Fixpoint slow_ld (fuel : nat) (w : nat) (kind addr mmu_idx : Z) : machM (option Z) :=
  match fuel with
  | O => undef
  | S fuel' =>
      let* (x, io) := tlb_entry addr mmu_idx in
      let tlb_addr := if kind =? access_fetch then addr_code x else addr_read x in
      let unaligned :=
        let addr1 := addr .&~ (data_size w - 1) in
        let addr2 := u32 (addr1 + data_size w) in
        r1 <- slow_ld fuel' w kind addr1 mmu_idx ;;
        match r1 with
        | None => ret None
        | Some res1 =>
            r2 <- slow_ld fuel' w kind addr2 mmu_idx ;;
            ret (match r2 with
                 | None => None
                 | Some res2 =>
                     let shift := (addr .& (data_size w - 1)) * 8 in
                     Some (wrap (8 * data_size w) ((res1 >> shift) .| (res2 << (8 * data_size w - shift))))
                 end)
        end in
      if page_base addr =? entry_page tlb_addr then
        if negb (page_offset tlb_addr =? 0) then
          if negb (addr .& (data_size w - 1) =? 0) then unaligned
          else v <- io_ld w io addr ;; ret (Some v)
        else if TARGET_PAGE_SIZE <=? page_offset addr + data_size w - 1 then unaligned
        else v <- ld_raw w (u64 (addr + addend x)) ;; ret (Some v)
      else
        ok <- tlb_fill addr kind mmu_idx ;;
        if ok : bool then slow_ld fuel' w kind addr mmu_idx else ret None
  end.

(** [__ld]: its own look-up, then [slow_ld] for what is not aligned. *)
Fixpoint ld_mmu (fuel : nat) (w : nat) (kind addr mmu_idx : Z) : machM (option Z) :=
  match fuel with
  | O => undef
  | S fuel' =>
      let* (x, io) := tlb_entry addr mmu_idx in
      let tlb_addr := if kind =? access_fetch then addr_code x else addr_read x in
      if page_base addr =? entry_page tlb_addr then
        if negb (page_offset tlb_addr =? 0) then
          if negb (addr .& (data_size w - 1) =? 0) then slow_ld 4 w kind addr mmu_idx
          else v <- io_ld w io addr ;; ret (Some v)
        else if TARGET_PAGE_SIZE <=? page_offset addr + data_size w - 1 then slow_ld 4 w kind addr mmu_idx
        else v <- ld_raw w (u64 (addr + addend x)) ;; ret (Some v)
      else
        ok <- tlb_fill addr kind mmu_idx ;;
        if ok : bool then ld_mmu fuel' w kind addr mmu_idx else ret None
  end.

(** The load of the translated code: an aligned access that hits reads RAM. *)
Definition cpu_mmu_index (e : CPUARMState) : Z := if cpu_mode e =? ARM_CPU_MODE_USR then 1 else 0.
Definition ld_virt (w : nat) (kind addr mmu_idx : Z) : machM (option Z) :=
  let* (x, io) := tlb_entry addr mmu_idx in
  let tlb_addr := if kind =? access_fetch then addr_code x else addr_read x in
  if tlb_addr =? page_base addr .| (addr .& (data_size w - 1)) then
    v <- ld_raw w (u64 (addr + addend x)) ;; ret (Some v)
  else ld_mmu 2 w kind addr mmu_idx.
Definition ldl_code (addr : Z) : machM (option Z) := e <- gets env ;; ld_virt 2 access_fetch addr (cpu_mmu_index e).
Definition lduw_code (addr : Z) : machM (option Z) := e <- gets env ;; ld_virt 1 access_fetch addr (cpu_mmu_index e).
End Tlb.

(** ** The region of large pages *)

(** The mask of blocks of [2^k] bytes. *)
Definition block_mask (k : Z) : Z := 2 ^ 32 - 2 ^ k.

Lemma land_block_mask x k : 0 <= k <= 32 -> fits 32 x -> x .& block_mask k = x / 2 ^ k * 2 ^ k.
Proof. intros. by apply (high_bits 32). Qed.

Lemma size_mask j : 0 <= j <= 32 -> u32 (Z.lnot (2 ^ j - 1)) = block_mask j.
Proof.
  intros Hj. replace (Z.lnot (2 ^ j - 1)) with (- 2 ^ j) by (unfold Z.lnot; lia). unfold wrap, block_mask.
  pose proof (Z.pow_le_mono_r 2 j 32 ltac:(lia) ltac:(lia)). symmetry. apply (Z.mod_unique _ _ (-1)); lia.
Qed.

Lemma block_mask_fits k : 0 <= k <= 32 -> fits 32 (block_mask k).
Proof. intros Hk. unfold fits, block_mask. pose proof (Z.pow_le_mono_r 2 k 32 ltac:(lia) ltac:(lia)). lia. Qed.

Lemma block_mask_shl k : 0 <= k < 32 -> u32 (block_mask k << 1) = block_mask (k + 1).
Proof.
  intros Hk. unfold block_mask, wrap. rewrite Z.shiftl_mul_pow2 by lia. rewrite Z.pow_add_r by lia.
  pose proof (Z.pow_le_mono_r 2 k 31 ltac:(lia) ltac:(lia)). symmetry. apply (Z.mod_unique _ _ 1); lia.
Qed.

Lemma block_mask_land j k : 0 <= j <= 32 -> 0 <= k <= 32 -> block_mask j .& block_mask k = block_mask (Z.max j k).
Proof.
  intros Hj Hk. rewrite land_block_mask by (auto using block_mask_fits). unfold block_mask.
  destruct (Z.max_spec j k) as [[Hlt ->]|[Hle ->]].
  - assert (2 ^ 32 - 2 ^ j = (2 ^ (32 - k) - 1) * 2 ^ k + (2 ^ k - 2 ^ j)) as ->.
    { rewrite Z.mul_sub_distr_r, <- Z.pow_add_r by lia. replace (32 - k + k) with 32 by lia. lia. }
    rewrite Z.div_add_l by lia. pose proof (Z.pow_le_mono_r 2 j k ltac:(lia) ltac:(lia)).
    rewrite (Z.div_small (2 ^ k - 2 ^ j)) by lia. rewrite Z.add_0_r, Z.mul_sub_distr_r, <- Z.pow_add_r by lia.
    replace (32 - k + k) with 32 by lia. lia.
  - assert (2 ^ 32 - 2 ^ j = (2 ^ (32 - k) - 2 ^ (j - k)) * 2 ^ k) as ->.
    { rewrite Z.mul_sub_distr_r, <- !Z.pow_add_r by lia. do 2 f_equal; [|f_equal]; lia. }
    by rewrite Z.div_mul by lia.
Qed.

Lemma same_block_wider x y j k : 0 <= j <= k -> x / 2 ^ j = y / 2 ^ j -> x / 2 ^ k = y / 2 ^ k.
Proof.
  intros Hj Hxy. replace (2 ^ k) with (2 ^ j * 2 ^ (k - j)) by (rewrite <- Z.pow_add_r by lia; f_equal; lia).
  rewrite <- !Z.div_div by lia. by rewrite Hxy.
Qed.

Lemma lxor_block x y k : 0 <= k -> (x .^ y) / 2 ^ k = 0 <-> x / 2 ^ k = y / 2 ^ k.
Proof.
  intros Hk. rewrite <- !shiftr_div, Z.shiftr_lxor by done. apply Z.lxor_eq_0_iff.
Qed.

(** The loop ends with the smallest region around both. *)
Lemma widen_spec fuel x k :
  fits 32 x -> 0 <= k <= 32 -> 32 - k <= Z.of_nat fuel ->
  exists k', widen fuel x (block_mask k) = Some (block_mask k') /\ k <= k' <= 32 /\ x / 2 ^ k' = 0.
Proof.
  intros Hx. revert k. induction fuel as [|fuel IH]; intros k Hk Hf; cbn [widen].
  all: rewrite land_block_mask by done; destruct (Z.eqb_spec (x / 2 ^ k * 2 ^ k) 0) as [E0|E0].
  all: try (exists k; split; [done|]; split; [lia|]; apply Z.mul_eq_0 in E0 as [->|E0]; [done|lia]).
  - exfalso. assert (k = 32) as -> by lia. rewrite Z.div_small in E0 by done. done.
  - destruct (Z.eq_dec k 32) as [->|Hne]; [exfalso; by rewrite Z.div_small in E0|].
    rewrite block_mask_shl by lia. destruct (IH (k + 1)) as (k' & Ew & Hk' & Hz); [lia..|].
    exists k'. split; [done|]. split; [lia|done].
Qed.

(** The region: nothing, or a block of [2^k] bytes. *)
Definition region_is (e : CPUARMState) (r : option (Z * Z)) : Prop :=
  match r with
  | None => tlb_flush_addr e = TLB_NONE /\ tlb_flush_mask e = 0
  | Some (k, b) => 10 <= k <= 32 /\ 0 <= b /\ fits 32 (b * 2 ^ k) /\
                   tlb_flush_addr e = b * 2 ^ k /\ tlb_flush_mask e = block_mask k
  end.
Definition in_region (r : option (Z * Z)) (size va : Z) : Prop :=
  match r with None => False | Some (k, b) => exists j, size = 2 ^ j /\ 0 <= j <= k /\ va / 2 ^ k = b end.

Lemma in_region_wider k b k' b' size va :
  k <= k' -> b * 2 ^ k / 2 ^ k' = b' -> 0 <= k -> in_region (Some (k, b)) size va -> in_region (Some (k', b')) size va.
Proof.
  intros Hk Hb Hk0 (j & -> & Hj & Hva). exists j. split; [done|]. split; [lia|]. rewrite <- Hb, <- Hva.
  replace (2 ^ k') with (2 ^ k * 2 ^ (k' - k)) by (rewrite <- Z.pow_add_r by lia; f_equal; lia).
  rewrite <- !Z.div_div by lia. by rewrite Z.div_mul by lia.
Qed.

Lemma block_number_fits x k : fits 32 x -> 0 <= k -> 0 <= x / 2 ^ k /\ fits 32 (x / 2 ^ k * 2 ^ k).
Proof.
  unfold fits. intros Hx Hk. assert (0 <= x / 2 ^ k) by (by apply Z.div_pos; lia). split; [done|].
  pose proof (Z.mul_div_le x (2 ^ k) ltac:(lia)). lia.
Qed.

(** A large page joins the region, which only grows. *)
Lemma add_large_page_run e r va j :
  region_is e r -> fits 32 va -> 10 < j <= 32 ->
  exists a m r', tlb_add_large_page va (2 ^ j) e = Done (tt, e <| tlb_flush_addr := a |> <| tlb_flush_mask := m |>, []) /\
    region_is (e <| tlb_flush_addr := a |> <| tlb_flush_mask := m |>) r' /\ in_region r' (2 ^ j) va /\
    forall size y, in_region r size y -> in_region r' size y.
Proof.
  intros Hr Hva Hj. unfold tlb_add_large_page. rewrite bind_gets. unfold id. rewrite size_mask by lia.
  destruct r as [[k b]|].
  - destruct Hr as (Hk & Hb & Hfit & Ea & Em). rewrite Ea, Em.
    assert ((b * 2 ^ k =? TLB_NONE) = false) as ->.
    { apply Z.eqb_neq. change TLB_NONE with (2 ^ 32 - 1). intros Eq.
      assert ((b * 2 ^ k) mod 2 = (2 ^ 32 - 1) mod 2) as E2 by by rewrite Eq.
      replace (b * 2 ^ k) with (b * 2 ^ (k - 1) * 2) in E2 by (rewrite <- Z.mul_assoc; change 2 with (2 ^ 1) at 2; rewrite <- Z.pow_add_r by lia; do 2 f_equal; lia).
      rewrite Z.mod_mul in E2 by lia. done. }
    rewrite block_mask_land by lia.
    destruct (widen_spec 32 (b * 2 ^ k .^ va) (Z.max j k)) as (k' & Ew & Hk' & Hz); [by apply fits_lxor; (done || lia)|lia|lia|].
    apply lxor_block in Hz; [|lia]. destruct (block_number_fits (b * 2 ^ k) k' Hfit ltac:(lia)) as [Hb' Hfit'].
    rewrite Ew. run. do 2 eexists. exists (Some (k', b * 2 ^ k / 2 ^ k')). split; [reflexivity|]. split; [|split].
    + split; [lia|]. split; [done|]. split; [done|]. split; [|done].
      change (tlb_flush_addr e .& block_mask k' = b * 2 ^ k / 2 ^ k' * 2 ^ k'). rewrite Ea. by apply land_block_mask; [lia|].
    + exists j. split; [done|]. split; [lia|]. by rewrite Hz.
    + intros size y Hy. apply (in_region_wider k b k'); [lia|reflexivity|lia|exact Hy].
  - destruct Hr as (-> & _). cbn [Z.eqb]. rewrite Z.eqb_refl. rewrite land_block_mask by (done || lia).
    destruct (block_number_fits va j Hva ltac:(lia)) as [Hb' Hfit'].
    do 2 eexists. exists (Some (j, va / 2 ^ j)). split; [reflexivity|]. split; [|split; [|done]].
    + split; [lia|]. by split_and!.
    + exists j. split; [done|]. split; [lia|done].
Qed.

(** ** Entries *)

Definition entry_of (e : CPUARMState) (mmu i : Z) : option CPUTLBEntry := t ← aget (tlb_table e) mmu; aget t i.
Definition table_shape (e : CPUARMState) : Prop :=
  zlen (tlb_table e) = NB_MMU_MODES /\ Forall (fun t => zlen t = CPU_TLB_SIZE) (tlb_table e) /\
  zlen (iotlb e) = NB_MMU_MODES /\ Forall (fun t => zlen t = CPU_TLB_SIZE) (iotlb e).

(** The entry translates the page of [va] for a kind of access. *)
Definition addr_of (x : CPUTLBEntry) (kind : Z) : Z :=
  if kind =? access_fetch then addr_code x else if kind =? access_store then addr_write x else addr_read x.
Definition hits (x : CPUTLBEntry) (kind va : Z) : Prop := page_base va = entry_page (addr_of x kind).

Lemma tlb_index_bound a : 0 <= tlb_index a < CPU_TLB_SIZE.
Proof. unfold tlb_index. change (CPU_TLB_SIZE - 1) with (2 ^ 8 - 1). rewrite land_ones by lia. by apply Z.mod_pos_bound. Qed.

Lemma page_base_block a : page_base a = a / 2 ^ 10 * 2 ^ 10.
Proof. rewrite page_base_eq. change TARGET_PAGE_SIZE with (2 ^ 10). lia. Qed.

Lemma same_page a b : page_base a = page_base b <-> a / 2 ^ 10 = b / 2 ^ 10.
Proof. rewrite !page_base_block. lia. Qed.

Lemma tlb_index_page a b : page_base a = page_base b -> tlb_index a = tlb_index b.
Proof. rewrite same_page. unfold tlb_index. intros Hp. by rewrite !shiftr_div by done; change (2 ^ TARGET_PAGE_BITS) with (2 ^ 10); rewrite Hp. Qed.

Lemma page_base_idem a : page_base (page_base a) = page_base a.
Proof. rewrite !page_base_block. by rewrite Z.div_mul by lia. Qed.

(** The mark of an invalid entry is not in any page address. *)
Lemma not_page_none va : page_base va <> entry_page TLB_NONE.
Proof.
  intros Eq. assert (Z.testbit (page_base va) 3 = Z.testbit (entry_page TLB_NONE) 3) as Hb by by rewrite Eq.
  change (Z.testbit (entry_page TLB_NONE) 3) with true in Hb. unfold page_base in Hb. rewrite Z.ldiff_spec in Hb.
  change (Z.testbit (TARGET_PAGE_SIZE - 1) 3) with true in Hb. by rewrite andb_false_r in Hb.
Qed.

Lemma empty_hits_nothing kind va : ~ hits s_cputlb_empty_entry kind va.
Proof. unfold hits, addr_of, s_cputlb_empty_entry. cbn. intros Eq. apply (not_page_none va). by repeat case_match. Qed.

(** Tables of [n] entries for each mode. *)
Definition modes_of {A} (n : Z) (t : list (list A)) : Prop := zlen t = NB_MMU_MODES /\ Forall (fun l => zlen l = n) t.
Definition get2 {A} (t : list (list A)) (m i : Z) : option A := l ← aget t m; aget l i.

Lemma set2 {A} n (t : list (list A)) m i :
  modes_of n t -> 0 <= m < NB_MMU_MODES -> 0 <= i < n ->
  exists l x, aget t m = Some l /\ aget l i = Some x /\ forall v, exists l' t',
    aset i v l = Some l' /\ aset m l' t = Some t' /\ modes_of n t' /\
    forall m' i', get2 t' m' i' = if decide (m' = m /\ i' = i) then Some v else get2 t m' i'.
Proof.
  intros [H1 H2] Hm Hi. destruct (aget_Some t m) as [l El]; [lia|].
  assert (zlen l = n) as Hl by apply (Forall_aget (fun t => zlen t = n) _ _ _ H2 El).
  destruct (aget_Some l i) as [x Ex]; [lia|]. exists l, x. split; [done|]. split; [done|]. intros v.
  destruct (aset i v l) as [l'|] eqn:El'; [|by rewrite aset_Some in El' by lia].
  destruct (aset m l' t) as [t'|] eqn:Et; [|by rewrite aset_Some in Et by lia].
  exists l', t'. split; [done|]. split; [done|]. split.
  - split; [unfold zlen in *; by rewrite (aset_length _ _ _ _ Et)|].
    apply (Forall_aset _ _ _ _ _ H2) in Et; [exact Et|]. unfold zlen in *. by rewrite (aset_length _ _ _ _ El').
  - intros m' i'. unfold get2. destruct (decide _) as [[-> ->]|Hne].
    + rewrite (aget_aset_eq _ _ _ _ Et). cbn. by rewrite (aget_aset_eq _ _ _ _ El').
    + destruct (decide (m' = m)) as [->|Hmm]; [|by rewrite (aget_aset_ne _ _ _ _ _ (not_eq_sym Hmm) Et)].
      rewrite (aget_aset_eq _ _ _ _ Et), El. cbn. apply (aget_aset_ne l i i' v l'); [|done]. intros <-. tauto.
Qed.

Lemma upd_entry_run e mmu a f :
  table_shape e -> 0 <= mmu < NB_MMU_MODES ->
  exists t, upd_entry mmu a f e = Done (tt, e <| tlb_table := t |>, []) /\ table_shape (e <| tlb_table := t |>) /\
    forall m i, entry_of (e <| tlb_table := t |>) m i =
      if decide (m = mmu /\ i = tlb_index a) then f <$> entry_of e m i else entry_of e m i.
Proof.
  intros (H1 & H2 & H3) Hm.
  destruct (set2 _ _ mmu (tlb_index a) (conj H1 H2) Hm (tlb_index_bound a)) as (l & x & El & Ex & Hset).
  destruct (Hset (f x)) as (l' & t & El' & Et & [H1' H2'] & Hget). exists t. split; [|split; [exact (conj H1' (conj H2' H3))|]].
  - unfold upd_entry. rewrite bind_gets, El. run. rewrite Ex. run. rewrite El'. run. by rewrite Et.
  - intros m i. change (entry_of (e <| tlb_table := t |>) m i) with (get2 t m i). rewrite Hget.
    destruct (decide _) as [[-> ->]|]; [|done]. unfold entry_of. by rewrite El; cbn; rewrite Ex.
Qed.

(** ** Invalidating a page *)

(** [size_of] is the size of the page an entry was made from: entries lie where
    their address belongs, and those of large pages in the region. *)
Definition pages_ok (e : CPUARMState) (r : option (Z * Z)) (size_of : Z -> Z -> Z -> Z) : Prop :=
  forall mmu i x kind va, entry_of e mmu i = Some x -> fits 32 va -> 0 <= kind < 3 -> hits x kind va ->
    tlb_index va = i /\ (size_of mmu kind va = TARGET_PAGE_SIZE \/ in_region r (size_of mmu kind va) va).

Lemma flushed_hits x a kind va : hits (tlb_flush_entry x a) kind va -> tlb_flush_entry x a = x /\ page_base va <> a.
Proof.
  unfold tlb_flush_entry. destruct (_ || _) eqn:Eq; [intros Hm; by apply empty_hits_nothing in Hm|].
  intros Hm. split; [done|]. intros <-. apply orb_false_iff in Eq as [Eq E3]. apply orb_false_iff in Eq as [E1 E2].
  apply Z.eqb_neq in E1, E2, E3. unfold hits, addr_of in Hm. repeat case_match; done.
Qed.

Lemma entry_of_mode e mmu i x : table_shape e -> entry_of e mmu i = Some x -> mmu = 0 \/ mmu = 1.
Proof.
  intros (H1 & _) Hx. unfold entry_of in Hx. destruct (aget (tlb_table e) mmu) eqn:El; [|done].
  assert (0 <= mmu < NB_MMU_MODES); [|unfold NB_MMU_MODES in *; lia]. rewrite <- H1.
  unfold aget in El. destruct (Z.ltb_spec mmu 0); [done|]. apply lookup_lt_Some in El. unfold zlen. lia.
Qed.

Lemma empty_entry e mmu i x :
  entry_of (e <| tlb_table := replicate (Z.to_nat NB_MMU_MODES) (replicate (Z.to_nat CPU_TLB_SIZE) s_cputlb_empty_entry) |>) mmu i = Some x ->
  x = s_cputlb_empty_entry.
Proof.
  unfold entry_of, aget. destruct (mmu <? 0); [done|].
  change (tlb_table _) with (replicate (Z.to_nat NB_MMU_MODES) (replicate (Z.to_nat CPU_TLB_SIZE) s_cputlb_empty_entry)).
  destruct (_ !! _) as [t|] eqn:Et; [|done]. apply lookup_replicate in Et as [-> _]. cbn [mbind option_bind].
  destruct (i <? 0); [done|]. intros Hx. by apply lookup_replicate in Hx as [-> _].
Qed.

(** A change of the entries of one page in all modes. *)
Lemma all_modes_run e a f :
  table_shape e ->
  exists t, for_up 0 (Z.to_nat NB_MMU_MODES) (fun mmu_idx => upd_entry mmu_idx a f) e = Done (tt, e <| tlb_table := t |>, []) /\
    table_shape (e <| tlb_table := t |>) /\
    forall m i, entry_of (e <| tlb_table := t |>) m i = if decide (i = tlb_index a) then f <$> entry_of e m i else entry_of e m i.
Proof.
  intros Hs. change (Z.to_nat NB_MMU_MODES) with 2%nat. cbn [for_up].
  destruct (upd_entry_run e 0 a f Hs) as (t1 & E1 & Hs1 & Hx1); [done|].
  destruct (upd_entry_run _ 1 a f Hs1) as (t2 & E2 & Hs2 & Hx2); [done|].
  exists t2. split; [|split; [exact Hs2|]].
  { rewrite (bind_silent _ _ _ _ _ E1). by rewrite (bind_silent _ _ _ _ _ E2). }
  intros m i. change (e <| tlb_table := t2 |>) with (e <| tlb_table := t1 |> <| tlb_table := t2 |>). rewrite Hx2, Hx1.
  destruct (entry_of e m i) as [x|] eqn:Ex; [|by repeat destruct (decide _)].
  apply (entry_of_mode _ _ _ _ Hs) in Ex. repeat destruct (decide _); (done || lia).
Qed.

(** Invalidating an address removes every entry whose page holds it, in all
    modes and for all kinds of access, however large the page is; other entries
    stay or are dropped, and none is added. *)
Theorem flush_page_complete e r size_of a :
  table_shape e -> region_is e r -> pages_ok e r size_of -> fits 32 a ->
  exists e' r', tlb_flush_page a e = Done (tt, e', []) /\ table_shape e' /\ region_is e' r' /\
    (r' = r \/ forall m i kind va x, entry_of e' m i = Some x -> ~ hits x kind va) /\
    iotlb e' = iotlb e /\ (exists t f m, e' = e <| tlb_table := t |> <| tlb_flush_addr := f |> <| tlb_flush_mask := m |>) /\
    forall mmu i x kind va, entry_of e' mmu i = Some x -> fits 32 va -> 0 <= kind < 3 -> hits x kind va ->
      entry_of e mmu i = Some x /\ va / size_of mmu kind va <> a / size_of mmu kind va.
Proof.
  intros Hs Hr Hp Ha. unfold tlb_flush_page. rewrite bind_gets. unfold id.
  destruct (Z.eqb_spec (a .& tlb_flush_mask e) (tlb_flush_addr e)) as [Ein|Eout].
  - assert (forall m i kind va x, entry_of (e <| tlb_table := replicate (Z.to_nat NB_MMU_MODES) (replicate (Z.to_nat CPU_TLB_SIZE) s_cputlb_empty_entry) |>) m i = Some x ->
      ~ hits x kind va) as Hempty.
    { intros m i kind va x Hx. apply empty_entry in Hx as ->. apply empty_hits_nothing. }
    eexists _, None. split; [reflexivity|]. split.
    { destruct Hs as (_ & _ & H3). split; [done|]. split; [|done]. by repeat constructor. }
    split; [done|]. split; [by right|]. split; [done|]. split; [by do 3 eexists|].
    intros mmu i x kind va Hx _ _ Hm. by apply (Hempty mmu i kind va) in Hx.
  - cbv zeta. destruct (all_modes_run e (page_base a) (fun x => tlb_flush_entry x (page_base a)) Hs) as (t & Et & Hs' & Hx).
    exists (e <| tlb_table := t |>), r. split; [exact Et|]. split; [exact Hs'|]. split; [by destruct r as [[]|]|].
    split; [by left|]. split; [done|]. split; [exists t, (tlb_flush_addr e), (tlb_flush_mask e); by destruct e|].
    intros mmu i x kind va Hi Hva Hk Hm. rewrite Hx in Hi.
    rewrite (tlb_index_page (page_base a) a) in Hi by apply page_base_idem.
    assert (entry_of e mmu i = Some x /\ (i = tlb_index a -> page_base va <> page_base a)) as [Hi' Hne].
    { destruct (decide (i = tlb_index a)); [|done]. destruct (entry_of e mmu i) as [y|]; [|done]. injection Hi as <-.
      apply flushed_hits in Hm as [-> Hne]. done. }
    split; [done|]. destruct (Hp _ _ _ _ _ Hi' Hva Hk Hm) as (Hidx & [Hsz|Hreg]) => Heq.
    + rewrite Hsz in Heq. change TARGET_PAGE_SIZE with (2 ^ 10) in Heq. apply same_page in Heq.
      apply Hne; [|done]. by rewrite <- Hidx; apply tlb_index_page.
    + destruct r as [[k b]|]; [|done]. destruct Hr as (Hk' & _ & _ & Ea & Em), Hreg as (j & Ej & Hj & Hb).
      rewrite Ej in Heq. apply (same_block_wider _ _ j k) in Heq; [|lia].
      apply Eout. rewrite Ea, Em, land_block_mask by (done || lia). by rewrite <- Heq, Hb.
Qed.
