(* ===== verification/ArmVirt.v ===== *)
(** * ArmVirt: what the translation buffer promises ([exec.c],
    [softmmu_template.h], [target-arm/helper.c])

    The buffer is coherent with a translation if every entry is the one the
    translation would make.  Filling keeps it coherent; a load of any kind then
    reads the RAM at the translated address, whatever the buffer held, or reports
    the fault the translation has; and invalidating an address makes the buffer
    coherent with tables that were changed for its page. *)
From stdpp Require Import strings.
From S2P Require Import Prelude Words ArmCpu Memory ArmMmu ArmTlb.

Definition io_of (e : CPUARMState) (mmu i : Z) : option Z := t ← aget (iotlb e) mmu; aget t i.

(** ** The translation a buffer is to be coherent with *)

Definition view := Z -> Z -> bool -> option translation.

(** One translation decides its kilobyte, and pages have a size. *)
Record view_ok (tr : view) : Prop := {
  view_page va va' kind kind' u pa prot size :
    fits 32 va -> fits 32 va' -> 0 <= kind < 3 -> 0 <= kind' < 3 -> page_base va = page_base va' ->
    tr va kind u = Some (inr (pa, prot, size)) ->
    exists r, tr va' kind' u = Some r /\
      if allows prot kind' then r = inr (pa - va + va', prot, size) else exists code, r = inl code;
  view_size va kind u pa prot size :
    fits 32 va -> 0 <= kind < 3 -> tr va kind u = Some (inr (pa, prot, size)) ->
    fits 32 pa /\ page_offset pa = page_offset va /\ allows prot kind = true /\ exists j, size = 2 ^ j /\ 10 <= j <= 32
}.

(** The part of the processor that is the buffer, and the rest. *)
Definition same_but_buffer (e e' : CPUARMState) : Prop :=
  exists t io a m, e' = e <| tlb_table := t |> <| iotlb := io |> <| tlb_flush_addr := a |> <| tlb_flush_mask := m |>.

Lemma buffer_refl e : same_but_buffer e e.
Proof. exists (tlb_table e), (iotlb e), (tlb_flush_addr e), (tlb_flush_mask e). by destruct e. Qed.
Lemma buffer_trans e1 e2 e3 : same_but_buffer e1 e2 -> same_but_buffer e2 e3 -> same_but_buffer e1 e3.
Proof. intros (t & io & a & m & ->) (t' & io' & a' & m' & ->). by exists t', io', a', m'. Qed.

Lemma page_parts v : v = page_base v + page_offset v.
Proof. rewrite page_base_eq. pose proof (page_split v) as Hs. by rewrite shiftr_div in Hs by done. Qed.

Section Coherence.
Context {F W E : Type} `{IoDevices F W E}.
Implicit Types s : machine F W.
Abbreviation machM := (dev (machine F W) (machine_event E)).

Definition same_machine s s' : Prop := same_but_buffer (env s) (env s') /\ same_but_order (mem s) (mem s').

Lemma machine_refl s : same_machine s s.
Proof. split; [apply buffer_refl|apply order_refl]. Qed.
Lemma machine_trans s1 s2 s3 : same_machine s1 s2 -> same_machine s2 s3 -> same_machine s1 s3.
Proof. intros [Hb Ho] [Hb' Ho']. split; [by eapply buffer_trans|by eapply order_trans]. Qed.

(** [tr] is what the code computes on the machine. *)
Definition translates s (tr : view) : Prop :=
  forall s' va kind u r, same_machine s s' -> fits 32 va -> 0 <= kind < 3 -> tr va kind u = Some r ->
    exists m', get_phys_addr va kind u s' = Done (r, s' <| mem := m' |>, @nil (machine_event E)) /\ same_but_order (mem s') m'.

Lemma same_translates s s' tr : same_machine s s' -> translates s tr -> translates s' tr.
Proof. intros Hm Ht s2 va kind u r Hs. apply Ht. by eapply machine_trans. Qed.

(** ** Entries *)

(** What the page table says about the page of an address. *)
Definition descriptor (m : memory_state F W) (pa : Z) : Z * Z :=
  match phys_page_find (page_base pa >> TARGET_PAGE_BITS) (l1_phys_map m) with
  | None => (IO_MEM_UNASSIGNED, page_base pa)
  | Some d => (phys_offset d, region_offset d)
  end.

(** The entry for a virtual page. *)
Definition load_address (pd va : Z) : Z := if reads_io pd then va .| TLB_MMIO else va.
Definition store_address (pd va : Z) (dirty : bool) : Z :=
  if (page_offset pd =? IO_MEM_ROM) || test pd IO_MEM_ROMD then load_address pd va .| TLB_MMIO
  else if page_offset pd =? IO_MEM_RAM then if dirty then load_address pd va else load_address pd va .| TLB_NOTDIRTY
  else load_address pd va.
Definition made_entry (pd va prot : Z) (dirty : bool) : CPUTLBEntry :=
  mk_tlb (if test prot PAGE_READ then load_address pd va else TLB_NONE)
    (if test prot PAGE_WRITE then store_address pd va dirty else TLB_NONE)
    (if test prot PAGE_EXEC then load_address pd va else TLB_NONE) (u64 (page_base pd - va)).
Definition made_io (pd region va : Z) : Z :=
  u32 (u32 (if page_offset pd <=? IO_MEM_ROM then
              page_base pd .| (if page_offset pd =? IO_MEM_RAM then IO_MEM_NOTDIRTY else IO_MEM_ROM)
            else page_offset pd + region) - va).

(** Every entry that translates a page is the one its translation makes. *)
Definition coherent s (tr : view) (r : option (Z * Z)) : Prop :=
  table_shape (env s) /\ region_is (env s) r /\
  forall mmu i x va kind, fits 32 va -> 0 <= kind < 3 ->
    entry_of (env s) mmu i = Some x -> page_base va = entry_page (addr_of x kind) ->
    tlb_index va = i /\ exists pa prot size dirty,
      tr va kind (mmu =? MMU_USER_IDX) = Some (inr (pa, prot, size)) /\
      (size = TARGET_PAGE_SIZE \/ in_region r size va) /\
      x = made_entry (descriptor (mem s) pa).1 (page_base va) prot dirty /\
      io_of (env s) mmu i = Some (made_io (descriptor (mem s) pa).1 (descriptor (mem s) pa).2 (page_base va)).

Lemma order_descriptor m m' pa : same_but_order m m' -> descriptor m' pa = descriptor m pa.
Proof. by intros (l & -> & _). Qed.

(** What the marks of an entry do not hide. *)
Lemma marked_page va f : fits 32 va -> f .& u32 (Z.lnot (TARGET_PAGE_SIZE - 1) .| TLB_INVALID_MASK) = 0 ->
  entry_page (page_base va .| f) = page_base va.
Proof.
  intros Hva Hf. unfold entry_page. rewrite Z.land_lor_distr_l, Hf, Z.lor_0_r.
  assert (u32 (Z.lnot (TARGET_PAGE_SIZE - 1) .| TLB_INVALID_MASK) = block_mask 10 .| 8) as -> by reflexivity.
  rewrite Z.land_lor_distr_r, land_block_mask; [|done|].
  - rewrite <- page_base_block, page_base_idem.
    assert (page_base va .& 8 = 0) as ->; [|apply Z.lor_0_r].
    unfold page_base. apply Z.bits_inj'. intros i Hi. rewrite Z.land_spec, Z.ldiff_spec, Z.bits_0.
    destruct (Z.eq_dec i 3) as [->|Hne]; [apply andb_false_intro1, andb_false_r|].
    change 8 with (2 ^ 3). rewrite Z.pow2_bits_false by done. apply andb_false_r.
  - pose proof (page_split va). rewrite page_base_block. apply (block_number_fits va 10); [done|lia].
Qed.

Lemma entry_page_base va : fits 32 va -> entry_page (page_base va) = page_base va.
Proof. intros Hva. rewrite <- (Z.lor_0_r (page_base va)) at 1. by apply marked_page. Qed.

Lemma page_base_offset va : page_offset (page_base va) = 0.
Proof. rewrite page_offset_eq, page_base_block. change TARGET_PAGE_SIZE with (2 ^ 10). by apply Z.mod_mul. Qed.

Lemma load_address_page pd va : fits 32 va -> entry_page (load_address pd (page_base va)) = page_base va.
Proof.
  intros Hva. unfold load_address. destruct (reads_io pd); [by apply marked_page|by apply entry_page_base].
Qed.

Lemma store_address_page pd va d : fits 32 va -> entry_page (store_address pd (page_base va) d) = page_base va.
Proof.
  intros Hva. pose proof (load_address_page pd va Hva) as Hl. unfold store_address.
  destruct (_ || _); [|destruct (_ =? _); [destruct d|]]; try done.
  all: unfold load_address; destruct (reads_io pd); rewrite <- ?Z.lor_assoc; by apply marked_page.
Qed.

(** The address of a made entry for an access: the page, unless it is not allowed. *)
Lemma made_entry_page pd va prot dirty kind :
  fits 32 va -> 0 <= kind < 3 ->
  entry_page (addr_of (made_entry pd (page_base va) prot dirty) kind) =
  if allows prot kind then page_base va else entry_page TLB_NONE.
Proof.
  intros Hva Hk. apply (in_range_cases 3) in Hk. vm_compute in Hk. unfold allows, addr_of, made_entry.
  cases_in Hk; cbn [addr_read addr_write addr_code].
  - change (0 =? access_store) with false. change (0 =? access_fetch) with false. cbv iota.
    destruct (test prot PAGE_READ); [by apply load_address_page|done].
  - change (1 =? access_store) with true. change (1 =? access_fetch) with false. cbv iota.
    destruct (test prot PAGE_WRITE); [by apply store_address_page|done].
  - change (2 =? access_store) with false. change (2 =? access_fetch) with true. cbv iota.
    destruct (test prot PAGE_EXEC); [by apply load_address_page|done].
Qed.

(** Reading through a host pointer. *)
Lemma ld_raw_run w off s :
  ram_ok (mem s) -> 0 <= off -> page_offset off + data_size w <= TARGET_PAGE_SIZE -> (exists v, in_ram (mem s) off v) ->
  exists d, ld_raw w off s = Done (le_value d, s, @nil (machine_event E)) /\ zlen d = data_size w /\
    forall j v, aget d j = Some v -> in_ram (mem s) (off + j) v.
Proof.
  intros (Hok & Hd & Hdirty) Ho Hpage (v0 & b & Hb & Hh & _).
  assert (block_ok b) as Hbok by (rewrite Forall_forall in Hok; by apply Hok).
  pose proof (page_in_block b off (data_size w) Hbok Hh Hpage) as Hin.
  pose proof Hbok as (Hb0 & _ & _ & _ & Hbe & Hlen). assert (0 <= data_size w) as Hw by (unfold data_size; lia).
  destruct (take_block_spec off (blocks (mem s)) b) as (r & Et & _); [done|unfold holds in Hh; lia|done..|].
  assert (u64 (off - offset b) = off - offset b) as Hu by (apply wrap_fits; unfold fits, holds in *; lia).
  exists (take (Z.to_nat (data_size w)) (drop (Z.to_nat (off - offset b)) (host b))).
  assert (slice (off - offset b) (data_size w) (host b) =
    Some (take (Z.to_nat (data_size w)) (drop (Z.to_nat (off - offset b)) (host b)))) as Es.
  { apply slice_Some; unfold holds in Hh; lia. }
  split; [|split; [by apply (slice_length _ _ _ _ Es)|]].
  - unfold ld_raw. rewrite bind_gets. rewrite (bind_lift _ _ _ b) by (by rewrite Et). rewrite Hu, Es. by run.
  - intros j v Hj. pose proof (aget_bounds _ _ _ Hj) as Hjb. rewrite (slice_length _ _ _ _ Es) in Hjb.
    exists b. split; [done|]. split; [unfold holds in *; lia|].
    revert Hj. unfold aget. destruct (Z.ltb_spec j 0); [lia|]. rewrite lookup_take_lt by lia. rewrite lookup_drop.
    unfold holds in Hh. replace (Z.to_nat (off - offset b) + Z.to_nat j)%nat with (Z.to_nat (off + j - offset b)) by lia.
    by destruct (Z.ltb_spec (off + j - offset b) 0); [lia|].
Qed.
(** ** Filling *)

(** A page is remembered as part of the region unless it is a kilobyte. *)
Lemma large_page_run s r va j :
  region_is (env s) r -> table_shape (env s) -> fits 32 va -> 10 <= j <= 32 ->
  exists e' r', (if 2 ^ j =? TARGET_PAGE_SIZE then ret tt else in_cpu (tlb_add_large_page (page_base va) (2 ^ j))) s =
      Done (tt, s <| env := e' |>, @nil (machine_event E)) /\
    same_but_buffer (env s) e' /\ tlb_table e' = tlb_table (env s) /\ iotlb e' = iotlb (env s) /\ region_is e' r' /\
    (2 ^ j = TARGET_PAGE_SIZE \/ in_region r' (2 ^ j) va) /\
    forall size y, in_region r size y -> in_region r' size y.
Proof.
  intros Hr Hs Hva Hj. destruct (Z.eqb_spec (2 ^ j) TARGET_PAGE_SIZE) as [Ej|Ej].
  - exists (env s), r. split; [by destruct s|]. split; [apply buffer_refl|]. split; [done|]. split; [done|]. split; [done|].
    split; [by left|done].
  - assert (j <> 10) as Hj10 by (intros ->; done).
    assert (fits 32 (page_base va)) as Hpb.
    { rewrite page_base_block. apply (block_number_fits va 10); [done|lia]. }
    destruct (add_large_page_run (env s) r (page_base va) j Hr Hpb) as (a & m & r' & Ea & Hr' & Hin & Hmono); [lia|].
    eexists _, r'. split; [unfold in_cpu; erewrite zoom_silent by exact Ea; reflexivity|].
    split; [exists (tlb_table (env s)), (iotlb (env s)), a, m; by destruct (env s)|]. split; [done|]. split; [done|].
    split; [done|]. split; [|done]. right. destruct r' as [[k b]|]; [|done].
    destruct Hin as (j' & Ej' & Hj' & Hb). exists j'. split; [done|]. split; [done|].
    apply Z.pow_inj_r in Ej'; [|lia..]. subst j'. rewrite <- Hb. apply (same_block_wider _ _ 10 k); [lia|].
    apply same_page. symmetry. apply page_base_idem.
Qed.

(** The entries of a page, written. *)
Lemma fill_entry_run s mmu va io x :
  table_shape (env s) -> 0 <= mmu < NB_MMU_MODES ->
  exists e', in_cpu (t <- gets iotlb ;; l <- lift (aget t mmu) ;; l <- lift (aset (tlb_index va) io l) ;; t <- lift (aset mmu l t) ;;
      modify (fun e : CPUARMState => e <| iotlb := t |>) ;;; upd_entry mmu va (fun _ => x)) s = Done (tt, s <| env := e' |>, @nil (machine_event E)) /\
    same_but_buffer (env s) e' /\ table_shape e' /\ (forall r, region_is (env s) r -> region_is e' r) /\
    (forall m i, entry_of e' m i = if decide (m = mmu /\ i = tlb_index va) then Some x else entry_of (env s) m i) /\
    (forall m i, io_of e' m i = if decide (m = mmu /\ i = tlb_index va) then Some io else io_of (env s) m i).
Proof.
  intros (H1 & H2 & H3 & H4) Hm.
  destruct (set2 _ _ mmu (tlb_index va) (conj H3 H4) Hm (tlb_index_bound va)) as (l & io0 & El & _ & Hset).
  destruct (Hset io) as (l' & t & El' & Et & [H3' H4'] & Hio). set (e1 := (env s) <| iotlb := t |>).
  assert (table_shape e1) as Hs1 by done.
  destruct (upd_entry_run e1 mmu va (fun _ => x) Hs1 Hm) as (t2 & E2 & Hs2 & Hx).
  exists (e1 <| tlb_table := t2 |>). split.
  { unfold in_cpu. erewrite zoom_silent; [reflexivity|]. rewrite bind_gets, El. run. rewrite El'. run. rewrite Et. run. exact E2. }
  split; [exists t2, t, (tlb_flush_addr (env s)), (tlb_flush_mask (env s)); unfold e1; by destruct (env s)|].
  split; [done|]. split; [done|]. split.
  - intros m i. rewrite Hx. destruct (decide _) as [[-> ->]|]; [|done].
    destruct (set2 _ _ mmu (tlb_index va) (conj H1 H2) Hm (tlb_index_bound va)) as (l0 & x0 & El0 & Ex0 & _).
    unfold entry_of. change (tlb_table e1) with (tlb_table (env s)). by rewrite El0; cbn; rewrite Ex0.
  - exact Hio.
Qed.

Lemma dirty_known s pd : ram_ok (mem s) -> (exists v, in_ram (mem s) (page_base pd) v) ->
  exists d, is_dirty pd s = Done (d, s, @nil (machine_event E)) /\
    (d = true -> aget (phys_dirty (mem s)) (pd >> TARGET_PAGE_BITS) = Some 0xff).
Proof.
  intros (Hok & _ & Hdirty) (v & b & Hb & Hh & _). rewrite Forall_forall in Hok, Hdirty.
  specialize (Hok b Hb) as (H0 & _). specialize (Hdirty b Hb). unfold holds in Hh.
  destruct (aget_Some (phys_dirty (mem s)) (pd >> TARGET_PAGE_BITS)) as [f Ef].
  { pose proof (page_split pd). pose proof (page_offset_bound pd). rewrite page_base_block in Hh.
    rewrite shiftr_div in * by done. change (2 ^ TARGET_PAGE_BITS) with (2 ^ 10) in *. change TARGET_PAGE_SIZE with 1024 in *. lia. }
  exists (f =? 0xff). split; [unfold is_dirty; rewrite bind_gets, Ef; by run|]. rewrite Ef. by intros ->%Z.eqb_eq.
Qed.

(** An entry that lets stores pass without a note is for a page that is dirty
    already, and so are all entries. *)
Definition entry_tracked (m : memory_state F W) (x : CPUTLBEntry) : Prop :=
  page_offset (addr_write x) = 0 -> aget (phys_dirty m) (u64 (addr_write x + addend x) >> TARGET_PAGE_BITS) = Some 0xff.
Definition writes_tracked s : Prop :=
  forall mmu i x, entry_of (env s) mmu i = Some x -> entry_tracked (mem s) x.

Lemma marked_offset va f : page_offset (page_base va .| f) = page_offset f.
Proof.
  unfold page_offset, page_base. apply Z.bits_inj'. intros i Hi. rewrite !Z.land_spec, Z.lor_spec, Z.ldiff_spec.
  by destruct (Z.testbit va i), (Z.testbit f i), (Z.testbit (TARGET_PAGE_SIZE - 1) i).
Qed.

Lemma page_number a : page_base a >> TARGET_PAGE_BITS = a >> TARGET_PAGE_BITS.
Proof. rewrite !shiftr_div by done. rewrite page_base_block. change (2 ^ TARGET_PAGE_BITS) with (2 ^ 10). by rewrite Z.div_mul by lia. Qed.

Lemma made_tracked (m : memory_state F W) pd va prot d :
  page_offset pd = IO_MEM_RAM -> 0 <= page_base pd < 2 ^ 64 -> (d = true -> aget (phys_dirty m) (pd >> TARGET_PAGE_BITS) = Some 0xff) ->
  entry_tracked m (made_entry pd (page_base va) prot d).
Proof.
  intros Eram Hpd Hd. unfold entry_tracked, made_entry. cbn [addr_write addend]. destruct (test prot PAGE_WRITE); [|done].
  unfold store_address, load_address, reads_io. rewrite Eram. change (IO_MEM_ROM <? IO_MEM_RAM) with false.
  change (IO_MEM_RAM =? IO_MEM_ROM) with false. change (IO_MEM_RAM =? IO_MEM_RAM) with true. cbn [andb orb].
  destruct (test pd IO_MEM_ROMD); [by rewrite marked_offset|]. destruct d; [|by rewrite marked_offset]. intros _.
  assert (u64 (page_base va + u64 (page_base pd - page_base va)) = page_base pd) as ->.
  { unfold wrap. rewrite Zplus_mod_idemp_r. rewrite Z.mod_small; lia. }
  rewrite page_number. by apply Hd.
Qed.

(** A translation is entered where it belongs, and the buffer stays coherent. *)
Lemma set_page_run s tr r mmu va kind pa prot size :
  view_ok tr -> coherent s tr r -> ram_ok (mem s) -> fits 32 va -> 0 <= kind < 3 -> 0 <= mmu < NB_MMU_MODES ->
  tr va kind (mmu =? MMU_USER_IDX) = Some (inr (pa, prot, size)) ->
  (exists v, in_ram (mem s) (page_base (descriptor (mem s) pa).1) v) -> 0 <= page_base (descriptor (mem s) pa).1 ->
  exists s' r' x, tlb_set_page (page_base va) (page_base pa) prot mmu size s = Done (tt, s', @nil (machine_event E)) /\
    same_machine s s' /\ coherent s' tr r' /\
    entry_of (env s') mmu (tlb_index va) = Some x /\ page_base va = entry_page (addr_of x kind) /\
    (page_offset (descriptor (mem s) pa).1 = IO_MEM_RAM -> page_base (descriptor (mem s) pa).1 < 2 ^ 64 -> writes_tracked s -> writes_tracked s').
Proof.
  intros Htr (Hs & Hr & Hent) Hok Hva Hk Hm Et Hram Hpd0.
  destruct (view_size _ Htr _ _ _ _ _ _ Hva Hk Et) as (Hpa & Hoff & Hall & j & Ej & Hj). subst size.
  destruct (large_page_run s r va j Hr Hs Hva Hj) as (e1 & r' & E1 & Hb1 & Ht1 & Hio1 & Hr1 & Hin & Hmono).
  unfold tlb_set_page. rewrite (bind_silent _ _ _ _ _ E1). set (s1 := s <| env := e1 |>).
  destruct (descriptor (mem s) pa) as [pd region] eqn:Edesc. cbn [fst snd] in *.
  assert (page_descriptor (page_base pa) s1 = Done ((pd, region), s1, @nil (machine_event E))) as Epd.
  { unfold page_descriptor. erewrite bind_silent by (apply in_memory_run; unfold find_page; by run).
    unfold descriptor in Edesc. unfold ret. change (mem s1) with (mem s). destruct (phys_page_find _ _); rewrite Edesc; by destruct s. }
  rewrite (bind_silent _ _ _ _ _ Epd).
  destruct Hram as (v & b & Hb & Hh & Hv).
  destruct (get_ram_ptr_run (E := E) (mem s1) (page_base pd) b) as (l & Eptr & Hp); [done..|].
  erewrite bind_silent by (apply in_memory_run; exact Eptr). set (m2 := (mem s1) <| blocks := b :: l |>). set (s2 := s1 <| mem := m2 |>).
  assert (same_but_order (mem s) m2) as Hso by (by exists (b :: l)).
  set (address := if (IO_MEM_ROM <? page_offset pd) && negb (test pd IO_MEM_ROMD) then page_base va .| TLB_MMIO else page_base va).
  assert (address = load_address pd (page_base va)) as -> by done.
  destruct (dirty_known s2 pd) as (d & Ed & Hdirty).
  { by apply (order_ok (mem s)). }
  { exists v. apply (order_in_ram (mem s) m2); [done|]. by exists b. }
  set (w := if test prot PAGE_WRITE then store_address pd (page_base va) d else TLB_NONE).
  erewrite (bind_silent _ _ s2 w s2).
  2: { unfold w, store_address. destruct (test prot PAGE_WRITE); [|done]. cbn [negb].
       destruct (_ || _); [done|]. destruct (page_offset pd =? IO_MEM_RAM); [|done]. rewrite (bind_silent _ _ _ _ _ Ed). by destruct d. }
  assert (tlb_index (page_base va) = tlb_index va) as Eidx by (apply tlb_index_page, page_base_idem).
  assert (table_shape (env s2)) as Hs2 by (unfold table_shape; change (env s2) with e1; by rewrite Ht1, Hio1).
  edestruct (fill_entry_run s2 mmu (page_base va)) as (e3 & E3 & Hb3 & Hs3 & Hr3 & Hx3 & Hi3); [done|done|].
  rewrite E3. rewrite Eidx in Hx3, Hi3. clear E3.
  set (x := mk_tlb _ w _ _) in *. assert (x = made_entry pd (page_base va) prot d) as Ex by done.
  exists (s2 <| env := e3 |>), r', x. split; [done|].
  split; [split; [by eapply buffer_trans|done]|]. split; [|split].
  - split; [done|]. split; [by apply Hr3|]. intros mmu' i' x' va' kind' Hva' Hk' Hx' Hpage.
    change (env (s2 <| env := e3 |>)) with e3 in *. change (mem (s2 <| env := e3 |>)) with m2.
    rewrite Hx3 in Hx'. rewrite Hi3. destruct (decide _) as [[-> ->]|Hne].
    + injection Hx' as <-. rewrite Ex, made_entry_page in Hpage by done.
      destruct (allows prot kind') eqn:Ea; [|by apply not_page_none in Hpage].
      split; [by apply tlb_index_page|].
      destruct (view_page _ Htr _ va' _ kind' _ _ _ _ Hva Hva' Hk Hk' (eq_sym Hpage) Et) as (r2 & Er2 & Hr2).
      rewrite Ea in Hr2. subst r2. exists (pa - va + va'), prot, (2 ^ j), d. split; [done|]. split.
      { destruct Hin as [Hin|Hin]; [by left|right]. destruct r' as [[k c]|]; [|done]. destruct Hin as (j' & Ej' & Hj' & Hc).
        exists j'. split; [done|]. split; [done|]. rewrite <- Hc. apply (same_block_wider _ _ 10 k); [destruct Hr1; lia|]. by apply same_page. }
      assert (descriptor m2 (pa - va + va') = (pd, region)) as ->.
      { rewrite (order_descriptor (mem s)) by done. unfold descriptor in *.
        assert (page_base (pa - va + va') = page_base pa) as ->; [|done].
        rewrite !page_base_eq in *. rewrite !page_offset_eq in Hoff. change TARGET_PAGE_SIZE with 1024 in *.
        clear -Hoff Hpage. Z.div_mod_to_equations. lia. }
      by rewrite Hpage.
    + assert (entry_of e1 mmu' i' = entry_of (env s) mmu' i') as He by (unfold entry_of; by rewrite Ht1).
      assert (io_of e1 mmu' i' = io_of (env s) mmu' i') as Hi by (unfold io_of; by rewrite Hio1).
      change (env s2) with e1 in *. rewrite He in Hx'. rewrite Hi.
      destruct (Hent _ _ _ _ _ Hva' Hk' Hx' Hpage) as (Hidx & pa' & prot' & size' & d' & Et' & Hsz & Hx'' & Hio').
      split; [done|]. exists pa', prot', size', d'. rewrite (order_descriptor (mem s)) by done.
      split; [done|]. split; [|done]. destruct Hsz; [by left|right; by apply Hmono].
  - change (entry_of e3 mmu (tlb_index va) = Some x). rewrite Hx3. by rewrite decide_True.
  - split; [by rewrite Ex, made_entry_page, Hall|]. intros Eram Hlt Hw mmu' i' x' Hx'.
    change (env (s2 <| env := e3 |>)) with e3 in Hx'. change (mem (s2 <| env := e3 |>)) with m2. rewrite Hx3 in Hx'.
    destruct (decide _); [injection Hx' as <-; rewrite Ex; by apply made_tracked|].
    change (env s2) with e1 in Hx'. assert (entry_of e1 mmu' i' = entry_of (env s) mmu' i') as He by (unfold entry_of; by rewrite Ht1).
    rewrite He in Hx'. by apply (Hw _ _ _ Hx').
Qed.
(** ** Loads *)

Lemma tlb_entry_run s va mmu :
  table_shape (env s) -> 0 <= mmu < NB_MMU_MODES ->
  exists x io, tlb_entry va mmu s = Done ((x, io), s, @nil (machine_event E)) /\
    entry_of (env s) mmu (tlb_index va) = Some x /\ io_of (env s) mmu (tlb_index va) = Some io.
Proof.
  intros (H1 & H2 & H3 & H4) Hm.
  destruct (set2 _ _ mmu (tlb_index va) (conj H1 H2) Hm (tlb_index_bound va)) as (l & x & El & Ex & _).
  destruct (set2 _ _ mmu (tlb_index va) (conj H3 H4) Hm (tlb_index_bound va)) as (l' & io & El' & Eio & _).
  exists x, io. split; [|split; [unfold entry_of; rewrite El; exact Ex|unfold io_of; rewrite El'; exact Eio]].
  unfold tlb_entry. rewrite bind_gets, El. run. rewrite Ex. run. rewrite El'. run. rewrite Eio. by run.
Qed.

Lemma data_size_bound w : (w < 4)%nat -> 0 < data_size w /\ exists k, data_size w = 2 ^ k /\ 0 <= k <= 3.
Proof.
  intros Hw. assert (data_size w = 2 ^ Z.of_nat w) as -> by (unfold data_size, width_bytes; by rewrite Nat2Z.inj_pow).
  split; [lia|]. exists (Z.of_nat w). split; [done|lia].
Qed.

Lemma aligned_within va w : (w < 4)%nat -> va mod data_size w = 0 ->
  va .& (data_size w - 1) = 0 /\ page_offset va + data_size w <= TARGET_PAGE_SIZE.
Proof.
  intros Hw Hal. destruct (data_size_bound w Hw) as (Hp & k & Ek & Hk). split.
  - rewrite Ek, land_ones by lia. by rewrite <- Ek.
  - rewrite page_offset_eq. change TARGET_PAGE_SIZE with (2 ^ 10).
    assert (2 ^ 10 = data_size w * 2 ^ (10 - k)) as Em by (rewrite Ek, <- Z.pow_add_r by lia; f_equal; lia).
    pose proof (Z.mod_pos_bound va (2 ^ 10) ltac:(lia)). assert ((va mod 2 ^ 10) mod data_size w = 0) as Hz.
    { rewrite Em, Z.rem_mul_r by lia. rewrite Hal, Z.add_0_l, Z.mul_comm. apply Z.mod_mul. lia. }
    set (y := va mod 2 ^ 10) in *. clearbody y. rewrite Em in *. set (q := 2 ^ (10 - k)) in *. clearbody q.
    pose proof (Z.div_mod y (data_size w) ltac:(lia)) as Hy. assert (y / data_size w < q) by (apply Z.div_lt_upper_bound; lia).
    pose proof (Z.mul_le_mono_nonneg_l (y / data_size w + 1) q (data_size w) ltac:(lia) ltac:(lia)) as Hq.
    rewrite Z.mul_add_distr_l in Hq. lia.
Qed.

(** What RAM says about its page. *)
Lemma ram_descriptor (m : memory_state F W) pa n off :
  ram_ok m -> ram_region m pa n off -> 0 < n ->
  let pd := (descriptor m pa).1 in
  page_offset pd = IO_MEM_RAM /\ test pd IO_MEM_ROMD = false /\ page_base pd + page_offset pa = off /\
  0 <= page_base pd /\ off < 2 ^ 64 /\ (exists v, in_ram m off v) /\ exists v, in_ram m (page_base pd) v.
Proof.
  intros Hok Hr Hn. pose proof Hr as (Hpa & _ & Ho & Hbytes).
  destruct (Hbytes 0) as [(d & Hd & Hram & Hromd & Hoff) Hv]; [lia|]. rewrite !Z.add_0_r in *. unfold descriptor.
  assert (page_base pa >> TARGET_PAGE_BITS = pa >> TARGET_PAGE_BITS) as ->.
  { rewrite !shiftr_div by done. rewrite page_base_block. change (2 ^ TARGET_PAGE_BITS) with (2 ^ 10). by rewrite Z.div_mul by lia. }
  unfold page_target, assigned in Hd. destruct (phys_page_find _ _) as [d'|]; [|done]. cbn [mbind option_bind] in Hd.
  destruct (_ =? _) in Hd; [done|]. injection Hd as ->. cbn [fst]. split; [done|]. split; [done|]. split; [done|].
  pose proof (page_split (page_base (phys_offset d))) as Hps. pose proof (page_offset_bound pa).
  pose proof (page_base_offset (phys_offset d)) as Hpb.
  assert (0 <= page_base (phys_offset d)) as Hpb0.
  { rewrite Hpb in Hps. change TARGET_PAGE_SIZE with 1024 in *. lia. }
  split; [done|]. split; [|split; [done|]].
  - destruct Hv as (v & b & Hb & Hh & _). destruct Hok as (Hok & _). rewrite Forall_forall in Hok.
    destruct (Hok b Hb) as (_ & _ & _ & _ & Hend & _). unfold holds in Hh. lia.
  - by apply (ram_page_base m _ pa off).
Qed.

(** An entry that hits a page of RAM leads to it. *)
Lemma hit_run s tr r w kind va mmu x pa prot size off :
  coherent s tr r -> ram_ok (mem s) -> (w < 4)%nat -> 0 <= kind < 3 -> kind <> access_store -> fits 32 va ->
  va mod data_size w = 0 -> 0 <= mmu < NB_MMU_MODES ->
  tr va kind (mmu =? MMU_USER_IDX) = Some (inr (pa, prot, size)) -> page_offset pa = page_offset va ->
  ram_region (mem s) pa (data_size w) off ->
  entry_of (env s) mmu (tlb_index va) = Some x -> page_base va = entry_page (addr_of x kind) ->
  (if kind =? access_fetch then addr_code x else addr_read x) = page_base va /\
  exists d, ld_raw w (u64 (va + addend x)) s = Done (le_value d, s, @nil (machine_event E)) /\ zlen d = data_size w /\
    forall j v, aget d j = Some v -> in_ram (mem s) (off + j) v.
Proof.
  intros (_ & _ & Hent) Hok Hw Hk Hns Hva Hal Hm Et Hoff Hreg Hx Hpage.
  destruct (data_size_bound w Hw) as [Hd0 _]. destruct (aligned_within va w Hw Hal) as [_ Hwithin].
  destruct (ram_descriptor _ _ _ _ Hok Hreg Hd0) as (Hram & Hromd & Eoff & Hpb0 & Hlt & Hv & _).
  destruct (Hent _ _ _ _ _ Hva Hk Hx Hpage) as (_ & pa' & prot' & size' & d & Et' & _ & Ex & _).
  rewrite Et in Et'. injection Et' as <- <- <-. set (pd := (descriptor (mem s) pa).1) in *.
  assert (load_address pd (page_base va) = page_base va) as Hload.
  { unfold load_address, reads_io. by rewrite Hram. }
  split.
  - rewrite Ex, made_entry_page in Hpage by done. destruct (allows prot kind) eqn:Ea; [|by apply not_page_none in Hpage].
    rewrite Ex. unfold made_entry. cbn [addr_code addr_read]. rewrite Hload. unfold allows in Ea.
    destruct (Z.eqb_spec kind access_store); [done|]. by destruct (kind =? access_fetch); rewrite Ea.
  - pose proof (page_parts va). pose proof (page_offset_bound pa). assert (u64 (va + addend x) = off) as ->.
    { rewrite Ex. cbn [addend made_entry]. unfold wrap. rewrite Zplus_mod_idemp_r. rewrite Z.mod_small; lia. }
    apply ld_raw_run; [done|lia| |done].
    assert (page_offset off = page_offset va) as ->; [|done].
    rewrite <- Hoff, <- Eoff. rewrite page_offset_eq, page_base_block. change TARGET_PAGE_SIZE with (2 ^ 10).
    rewrite Z.add_comm, Z.mod_add by lia. apply Z.mod_small. apply page_offset_bound.
Qed.

(** What a fault leaves in the processor. *)
Definition reports (e : CPUARMState) (kind va code : Z) : Prop :=
  if kind =? access_fetch then
    c5_insn (cp15 e) = code /\ c6_insn (cp15 e) = va /\ exception_index e = EXCP_PREFETCH_ABORT
  else c5_data (cp15 e) = (if (kind =? access_store) && arm_feature e ARM_FEATURE_V6 then code .| (1 << 11) else code) /\
    c6_data (cp15 e) = va /\ exception_index e = EXCP_DATA_ABORT.

(** Filling: an entry that hits, or a fault that is reported. *)
Lemma tlb_fill_run s tr r mmu va kind t :
  view_ok tr -> translates s tr -> coherent s tr r -> ram_ok (mem s) -> fits 32 va ->
  0 <= kind < 3 -> 0 <= mmu < NB_MMU_MODES ->
  tr va kind (mmu =? MMU_USER_IDX) = Some t ->
  match t with
  | inr (pa, _, _) => forall n off, ram_region (mem s) pa n off -> 0 < n ->
      exists s' r' x, tlb_fill va kind mmu s = Done (true, s', @nil (machine_event E)) /\
        same_machine s s' /\ coherent s' tr r' /\
        entry_of (env s') mmu (tlb_index va) = Some x /\ page_base va = entry_page (addr_of x kind) /\
        (writes_tracked s -> writes_tracked s')
  | inl code => exists s', tlb_fill va kind mmu s = Done (false, s', @nil (machine_event E)) /\
      reports (env s') kind va code /\ same_but_order (mem s) (mem s')
  end.
Proof.
  intros Htr Ht Hc Hok Hva Hk Hm Et.
  destruct (Ht s va kind (mmu =? MMU_USER_IDX) t (machine_refl s) Hva Hk Et) as (m' & Eg & Hso).
  unfold tlb_fill, cpu_arm_handle_mmu_fault. destruct t as [code|[[pa prot] size]].
  - eexists. split; [rewrite (bind_silent _ _ _ _ _ Eg); erewrite bind_silent by (unfold in_cpu; by erewrite zoom_silent by reflexivity); reflexivity|].
    split; [|done]. unfold reports. destruct (Z.eqb_spec kind access_fetch); [done|].
    split; [|done]. done.
  - intros n off Hreg Hn. rewrite (bind_silent _ _ _ _ _ Eg). set (s1 := s <| mem := m' |>).
    assert (same_machine s s1) as Hs1 by (split; [apply buffer_refl|done]).
    assert (coherent s1 tr r) as Hc1.
    { destruct Hc as (? & ? & Hent). split; [done|]. split; [done|]. intros mmu' i x va' kind' Hva' Hk' Hx Hp.
      change (mem s1) with m'. destruct (Hent _ _ _ _ _ Hva' Hk' Hx Hp) as (? & pa' & prot' & size' & d & ?).
      split; [done|]. exists pa', prot', size', d. by rewrite (order_descriptor (mem s)). }
    apply (order_ok _ _ Hso) in Hok. apply (order_region _ _ _ _ _ Hso) in Hreg.
    destruct (ram_descriptor m' pa n off Hok Hreg Hn) as (Hram & _ & Eoff & Hpd0 & Hlt & _ & Hv).
    destruct (set_page_run s1 tr r mmu va kind pa prot size Htr Hc1 Hok Hva Hk Hm Et Hv Hpd0) as (s2 & r2 & x & E2 & Hs2 & Hc2 & Hx & Hpage & Hw).
    exists s2, r2, x. split; [by erewrite bind_silent by exact E2|]. split; [by eapply machine_trans|].
    split; [done|]. split; [done|]. split; [done|]. intros Hw0. apply Hw; [done| |].
    + pose proof (page_offset_bound pa). change (mem s1) with m'. lia.
    + intros mmu' i x' Hx'. unfold entry_tracked. change (mem s1) with m'. destruct Hso as (l & -> & _). exact (Hw0 mmu' i x' Hx').
Qed.

Lemma same_region s s' pa n off : same_machine s s' -> ram_region (mem s) pa n off -> ram_region (mem s') pa n off.
Proof. intros [_ Hso]. by apply order_region. Qed.

(** C7.  A load through a coherent buffer, whatever the buffer holds, is a load of the
    RAM at the translated address; without a translation, it reports the fault. *)
Theorem load_through_buffer s tr r w mmu va kind t :
  view_ok tr -> translates s tr -> coherent s tr r -> ram_ok (mem s) ->
  (w < 4)%nat -> fits 32 va -> va mod data_size w = 0 ->
  0 <= kind < 3 -> kind <> access_store -> 0 <= mmu < NB_MMU_MODES ->
  tr va kind (mmu =? MMU_USER_IDX) = Some t ->
  match t with
  | inr (pa, _, _) => forall off, ram_region (mem s) pa (data_size w) off ->
      exists d s' r', ld_virt w kind va mmu s = Done (Some (le_value d), s', @nil (machine_event E)) /\
        zlen d = data_size w /\ (forall j v, aget d j = Some v -> in_ram (mem s) (off + j) v) /\
        same_machine s s' /\ coherent s' tr r'
  | inl code => exists s', ld_virt w kind va mmu s = Done (None, s', @nil (machine_event E)) /\
      reports (env s') kind va code /\ same_but_order (mem s) (mem s')
  end.
Proof.
  intros Htr Ht Hc Hok Hw Hva Hal Hk Hns Hm Et.
  pose proof Hc as (Hs & _ & Hent). destruct (tlb_entry_run s va mmu Hs Hm) as (x & io & Ex & Hx & _).
  destruct (data_size_bound w Hw) as [Hd0 _]. destruct (aligned_within va w Hw Hal) as [Hlow Hwithin].
  assert ((if kind =? access_fetch then addr_code x else addr_read x) = addr_of x kind) as Eaddr.
  { unfold addr_of. by destruct (Z.eqb_spec kind access_store). }
  pose proof (tlb_fill_run s tr r mmu va kind t Htr Ht Hc Hok Hva Hk Hm Et) as Hfill.
  unfold ld_virt. rewrite (bind_silent _ _ _ _ _ Ex). rewrite Eaddr, Hlow, Z.lor_0_r.
  destruct (Z.eqb_spec (page_base va) (entry_page (addr_of x kind))) as [Hhit|Hmiss].
  - destruct (Hent _ _ _ _ _ Hva Hk Hx Hhit) as (_ & pa & prot & size & dirty & Et' & _).
    rewrite Et in Et'. injection Et' as ->. intros off Hreg.
    destruct (view_size _ Htr _ _ _ _ _ _ Hva Hk Et) as (_ & Hoff & _).
    destruct (hit_run s tr r w kind va mmu x pa prot size off Hc Hok Hw Hk Hns Hva Hal Hm Et Hoff Hreg Hx Hhit) as (Ea & d & Ed & Hd & Hb).
    exists d, s, r. rewrite <- Eaddr, Ea, Z.eqb_refl. split; [by rewrite (bind_silent _ _ _ _ _ Ed)|].
    split; [done|]. split; [done|]. split; [apply machine_refl|done].
  - destruct (Z.eqb_spec (addr_of x kind) (page_base va)) as [Eq|_].
    { exfalso. apply Hmiss. by rewrite Eq, entry_page_base. }
    cbn [ld_mmu]. rewrite (bind_silent _ _ _ _ _ Ex). rewrite Eaddr.
    destruct (Z.eqb_spec (page_base va) (entry_page (addr_of x kind))) as [|_]; [done|].
    destruct t as [code|[[pa prot] size]].
    + destruct Hfill as (s' & Ef & Hrep). exists s'. split; [by rewrite (bind_silent _ _ _ _ _ Ef)|done].
    + intros off Hreg. destruct (Hfill _ off Hreg Hd0) as (s1 & r1 & x1 & Ef & Hs1 & Hc1 & Hx1 & Hhit & _).
      rewrite (bind_silent _ _ _ _ _ Ef). pose proof Hc1 as (Hsh1 & _).
      destruct (tlb_entry_run s1 va mmu Hsh1 Hm) as (x1' & io1 & Ex1 & Hx1' & _).
      assert (x1' = x1) as -> by congruence. rewrite (bind_silent _ _ _ _ _ Ex1).
      destruct (view_size _ Htr _ _ _ _ _ _ Hva Hk Et) as (_ & Hoff & _).
      assert (ram_ok (mem s1)) as Hok1 by (destruct Hs1 as [_ Hso]; by apply (order_ok _ _ Hso)).
      destruct (hit_run s1 tr r1 w kind va mmu x1 pa prot size off Hc1 Hok1 Hw Hk Hns Hva Hal Hm Et Hoff) as (Ea & d & Ed & Hd & Hb);
        [by apply (same_region s)|done|done|].
      exists d, s1, r1. rewrite Ea, entry_page_base, Z.eqb_refl, page_base_offset by done.
      change (negb (0 =? 0)) with false. cbv iota.
      destruct (Z.leb_spec TARGET_PAGE_SIZE (page_offset va + data_size w - 1)); [lia|].
      split; [by rewrite (bind_silent _ _ _ _ _ Ed)|]. split; [done|]. split; [|done].
      intros j v Hj. destruct Hs1 as [_ Hso]. apply (order_in_ram _ _ _ _ Hso). by apply Hb.
Qed.
End Coherence.

(** ** The view of the processor *)

(** With the translation unit off, addresses are physical; for the processors
    with translation tables of the sixth version, the reference. *)
Definition regime (rd : Z -> option Z) (e : CPUARMState) : view := fun va kind u =>
  let a := fcse_address e va in
  if c1_sys (cp15 e) .& 1 =? 0 then Some (inr (a, PAGE_RW .| PAGE_EXEC, TARGET_PAGE_SIZE))
  else if arm_feature e ARM_FEATURE_MPU then None
  else if test (c1_sys (cp15 e)) (1 << 23) then translate_v6 rd e a kind u else None.

(** Control registers as their writes leave them. *)
Definition control_ok (e : CPUARMState) : Prop :=
  ttbcr_ok e /\ fits 32 (c13_fcse (cp15 e)) /\ c13_fcse (cp15 e) mod TARGET_PAGE_SIZE = 0.

Lemma fcse_page e va : control_ok e -> fits 32 va ->
  fits 32 (fcse_address e va) /\ fcse_address e va mod 2 ^ 10 = va mod 2 ^ 10 /\
  forall va', fits 32 va' -> va / 2 ^ 10 = va' / 2 ^ 10 -> fcse_address e va' = fcse_address e va - va + va'.
Proof.
  intros (_ & Hf & Hm) Hva. change TARGET_PAGE_SIZE with 1024 in Hm. unfold fcse_address, fits in *.
  assert (forall x, 0 <= x < 2 ^ 32 -> u32 (x + c13_fcse (cp15 e)) = u32 (x / 1024 * 1024 + c13_fcse (cp15 e)) + x mod 1024) as Hx.
  { intros x Hx. unfold wrap. set (c := c13_fcse (cp15 e)) in *. clearbody c. Z.div_mod_to_equations. lia. }
  change (2 ^ 10) with 1024. split; [|split].
  - destruct (Z.ltb_spec va 0x02000000); [apply Z.mod_pos_bound; lia|done].
  - destruct (Z.ltb_spec va 0x02000000); [|done]. unfold wrap. set (c := c13_fcse (cp15 e)) in *. clearbody c. clear Hx.
    Z.div_mod_to_equations. lia.
  - intros va' Hva' Hq. assert ((va' <? 0x02000000) = (va <? 0x02000000)) as ->.
    { destruct (Z.ltb_spec va' 0x02000000), (Z.ltb_spec va 0x02000000); try done; exfalso; Z.div_mod_to_equations; lia. }
    destruct (va <? 0x02000000); [|lia]. rewrite (Hx va), (Hx va') by done. rewrite Hq. Z.div_mod_to_equations. lia.
Qed.

Lemma frame_v6_size e va kind u a d k ap xn code af pa prot size :
  10 <= k <= 32 -> fits 32 d -> frame_v6 e va kind u a (d / 2 ^ k) k ap xn code af = inr (pa, prot, size) -> 0 <= kind < 3 ->
  fits 32 pa /\ pa mod 2 ^ 10 = va mod 2 ^ 10 /\ allows prot kind = true /\ size = 2 ^ k.
Proof.
  intros Hk Hd Hf Hkind. assert (pa = d / 2 ^ k * 2 ^ k + va mod 2 ^ k) as Hpa.
  { revert Hf. unfold frame_v6, status. cbv zeta. repeat case_match; congruence. }
  assert (0 < 2 ^ k) by lia. pose proof (Z.mod_pos_bound va (2 ^ k) ltac:(lia)). pose proof (Z.div_mod d (2 ^ k) ltac:(lia)).
  split; [|split; [|split]].
  - destruct (block_number_fits d k Hd ltac:(lia)) as [Hq _]. unfold fits in *. subst pa.
    assert (d / 2 ^ k < 2 ^ (32 - k)) as Hlt.
    { apply Z.div_lt_upper_bound; [lia|]. rewrite <- Z.pow_add_r by lia. replace (k + (32 - k)) with 32 by lia. lia. }
    assert (2 ^ 32 = 2 ^ (32 - k) * 2 ^ k) as -> by (rewrite <- Z.pow_add_r by lia; f_equal; lia). nia.
  - subst pa. assert (2 ^ k = 2 ^ 10 * 2 ^ (k - 10)) as Ek by (rewrite <- Z.pow_add_r by lia; f_equal; lia).
    rewrite Ek at 2. rewrite (Z.mul_comm (2 ^ 10)), Z.mul_assoc, Z.add_comm, Z.mod_add by lia.
    rewrite Ek, Z.rem_mul_r by lia. rewrite Z.mul_comm, Z.mod_add by lia. by apply Z.mod_mod.
  - revert Hf. unfold frame_v6. cbv zeta. destruct (a =? 3).
    { intros [= <- <- <-]. apply (in_range_cases 3) in Hkind. vm_compute in Hkind. by cases_in Hkind. }
    destruct (xn && _); [done|]. destruct (_ && Z.even ap); [done|]. set (p := mk_perms _ _ _).
    destruct (permits p kind) eqn:Ep; [|done]. intros [= <- <- <-]. by rewrite allows_flags.
  - revert Hf. unfold frame_v6, status. cbv zeta. repeat case_match; congruence.
Qed.

(** Every translation of the walk is the end of one frame. *)
Lemma translate_frame rd e va kind u t :
  translate_v6 rd e va kind u = Some (inr t) -> (forall a v, rd a = Some v -> fits 32 v) ->
  exists a d k ap xn code af, fits 32 d /\ 10 <= k <= 32 /\ frame_v6 e va kind u a (d / 2 ^ k) k ap xn code af = inr t.
Proof.
  intros Et Hrd. unfold translate_v6, status in Et. destruct (rd (l1_address e va)) as [d|] eqn:Ed; [|done]. cbn [mbind option_bind] in Et.
  pose proof (Hrd _ _ Ed) as Hd. unfold decode_l1 in Et. cbv zeta in Et.
  destruct (d mod 4) as [|[[]|[]|]|]; try done; try (destruct (Z.odd (d / 2 ^ 18)));
    destruct (checked _); try done.
  all: try (injection Et as Et; do 7 eexists; split; [exact Hd|]; split; [|exact Et]; lia).
  all: match goal with Et : mbind _ ?o = Some _ |- _ => destruct o as [d2|] eqn:Ed2; [|done] end; cbn [mbind option_bind] in Et; apply Hrd in Ed2.
  all: unfold decode_l2 in Et; cbv zeta in Et; destruct (d2 mod 4) as [|[[]|[]|]|]; cbv beta iota in Et; try done.
  all: injection Et as Et; do 7 eexists; split; [exact Ed2|]; split; [|exact Et]; lia.
Qed.

(** The view is as a buffer needs it. *)
Lemma regime_ok rd e : control_ok e -> (forall a v, rd a = Some v -> fits 32 v) -> view_ok (regime rd e).
Proof.
  intros Hc Hrd. split.
  - intros va va' kind kind' u pa prot size Hva Hva' Hk Hk' Hp Et. apply same_page in Hp.
    destruct (fcse_page e va Hc Hva) as (_ & _ & Hd). specialize (Hd va' Hva' Hp). unfold regime in *.
    destruct (_ =? 0).
    + injection Et as <- <- <-. eexists. split; [reflexivity|].
      assert (allows (PAGE_RW .| PAGE_EXEC) kind' = true) as ->; [|by rewrite Hd].
      apply (in_range_cases 3) in Hk'. vm_compute in Hk'. by cases_in Hk'.
    + destruct (arm_feature _ _); [done|]. destruct (test _ _); [|done].
      assert (fcse_address e va / 2 ^ 10 = fcse_address e va' / 2 ^ 10) as Hq.
      { destruct (fcse_page e va Hc Hva) as (_ & Hm & _). rewrite Hd. change (2 ^ 10) with 1024 in *.
        clear -Hm Hp. Z.div_mod_to_equations. lia. }
      destruct (translation_covers_page _ _ _ _ _ kind' _ _ _ _ (proj1 (proj1 Hc)) Hq Hk' Et) as (r & Er & Hr).
      exists r. split; [done|]. destruct (allows prot kind'); [|done]. rewrite Hr. do 3 f_equal. lia.
  - intros va kind u pa prot size Hva Hk Et. destruct (fcse_page e va Hc Hva) as (Hf & Hm & _). unfold regime in Et.
    rewrite !page_offset_eq. change TARGET_PAGE_SIZE with (2 ^ 10). destruct (_ =? 0).
    + injection Et as <- <- <-. split; [done|]. split; [done|].
      split; [apply (in_range_cases 3) in Hk; vm_compute in Hk; by cases_in Hk|by exists 10].
    + destruct (arm_feature _ _); [done|]. destruct (test _ _); [|done].
      destruct (translate_frame _ _ _ _ _ _ Et Hrd) as (a & d & k & ap & xn & code & af & Hd & Hkk & Ef).
      destruct (frame_v6_size _ _ _ _ _ _ _ _ _ _ _ _ _ _ Hkk Hd Ef Hk) as (Hpa & Ho & Ha & Hs).
      split; [done|]. split; [by rewrite Ho|]. split; [done|by exists k].
Qed.

Lemma regime_buffer rd e e' va kind u : same_but_buffer e e' -> regime rd e' va kind u = regime rd e va kind u.
Proof. by intros (t & io & a & m & ->). Qed.

(** The code computes it. *)
Lemma regime_translates {F W E} `{IoDevices F W E} (s : machine F W) rd :
  ram_ok (mem s) -> reads (mem s) rd -> control_ok (env s) -> translates s (regime rd (env s)).
Proof.
  intros Hok Hrd Hc s' va kind u r [Hb Ho] Hva Hk. rewrite <- (regime_buffer rd (env s) (env s')) by done.
  assert (control_ok (env s')) as Hc' by (by destruct Hb as (t & io & a & m & ->)).
  destruct (fcse_page (env s') va Hc' Hva) as (Hf & _). unfold regime, get_phys_addr.
  rewrite bind_gets. destruct (_ =? 0).
  { intros [= <-]. exists (mem s'). split; [by destruct s'|apply order_refl]. }
  destruct (arm_feature _ _); [done|]. destruct (test _ _); [|done]. intros Et.
  apply (walk_v6 _ _ _ _ rd); [by apply (order_ok _ _ Ho)|by apply (order_reads (mem s))|apply Hc'|done|done|done].
Qed.

(** C37.  For tables in RAM the code's translation of every access is the
    reference: the walk over decoded entries, with addresses by division and
    permissions from a table; nothing but the order of the RAM blocks changes. *)
Theorem translation_is_reference {F W E} `{IoDevices F W E} (s : machine F W) rd va kind u r :
  ram_ok (mem s) -> reads (mem s) rd -> control_ok (env s) -> fits 32 va -> 0 <= kind < 3 ->
  regime rd (env s) va kind u = Some r ->
  exists m', get_phys_addr va kind u s = Done (r, s <| mem := m' |>, @nil (machine_event E)) /\ same_but_order (mem s) m'.
Proof. intros Hok Hrd Hc. apply (regime_translates s rd Hok Hrd Hc s), machine_refl. Qed.

(** ** Invalidation *)
Section Invalidation.
Context {F W E : Type} `{IoDevices F W E}.
Implicit Types s : machine F W.

(** An empty buffer is coherent with everything. *)
Lemma flushed_coherent s tr g : table_shape (env s) ->
  exists e', tlb_flush g (env s) = Done (tt, e', []) /\ same_but_buffer (env s) e' /\ coherent (s <| env := e' |>) tr None.
Proof.
  intros (_ & _ & H3). eexists. split; [reflexivity|]. split; [by exists (replicate 2 (replicate 256 s_cputlb_empty_entry)), (iotlb (env s)), TLB_NONE, 0; destruct (env s)|].
  split; [split; [done|split; [by repeat constructor|done]]|]. split; [done|].
  intros mmu i x va kind _ _ Hx Hp. exfalso. apply (empty_entry (env s)) in Hx as ->. by apply (empty_hits_nothing kind va).
Qed.

Lemma invalidation_run s tr tr' r a :
  coherent s tr r -> fits 32 a ->
  (forall va kind u pa prot size, fits 32 va -> 0 <= kind < 3 -> tr va kind u = Some (inr (pa, prot, size)) ->
     va / size <> a / size -> tr' va kind u = tr va kind u) ->
  exists e' r', tlb_flush_page a (env s) = Done (tt, e', []) /\ same_but_buffer (env s) e' /\ coherent (s <| env := e' |>) tr' r'.
Proof.
  intros (Hs & Hr & Hent) Ha Hsame.
  set (size_of := fun mmu kind va => match tr va kind (mmu =? MMU_USER_IDX) with Some (inr (_, _, size)) => size | _ => 0 end).
  destruct (flush_page_complete (env s) r size_of a Hs Hr) as (e' & r' & Ef & Hs' & Hr' & Hcase & Hio & Heq & Hflush); [|done|].
  { intros mmu i x kind va Hx Hva Hk Hm. destruct (Hent _ _ _ _ _ Hva Hk Hx Hm) as (Hi & pa & prot & size & d & Et & Hsz & _).
    split; [done|]. unfold size_of. by rewrite Et. }
  exists e', r'. split; [done|]. split.
  { destruct Heq as (t & f & m & ->). exists t, (iotlb (env s)), f, m. by destruct (env s). }
  split; [done|]. split; [done|].
  intros mmu i x va kind Hva Hk Hx Hm. destruct Hcase as [->|Hnone]; [|by apply (Hnone mmu i kind va) in Hx].
  destruct (Hflush _ _ _ _ _ Hx Hva Hk Hm) as (Hx0 & Hne).
  destruct (Hent _ _ _ _ _ Hva Hk Hx0 Hm) as (Hi & pa & prot & size & d & Et & Hsz & Ex & Eio). unfold size_of in Hne. rewrite Et in Hne.
  split; [done|]. exists pa, prot, size, d. split; [by rewrite (Hsame _ _ _ _ _ _ Hva Hk Et Hne)|]. split; [done|]. split; [done|].
  change (io_of e' mmu i = Some (made_io (descriptor (mem s) pa).1 (descriptor (mem s) pa).2 (page_base va))). unfold io_of. by rewrite Hio.
Qed.

(** C10.  Tables may be changed for the page of an address: once the address is
    invalidated, the buffer is coherent with the new tables. *)
Theorem invalidation_restores s tr tr' r a :
  coherent s tr r -> fits 32 a ->
  (forall va kind u pa prot size, fits 32 va -> 0 <= kind < 3 -> tr va kind u = Some (inr (pa, prot, size)) ->
     va / size <> a / size -> tr' va kind u = tr va kind u) ->
  exists e' r', tlb_flush_page a (env s) = Done (tt, e', []) /\ coherent (s <| env := e' |>) tr' r'.
Proof.
  intros Hc Ha Hsame. destruct (invalidation_run s tr tr' r a Hc Ha Hsame) as (e' & r' & Ef & _ & Hc'). by exists e', r'.
Qed.
End Invalidation.

(** ** An example: a page table in twenty kilobytes of RAM *)
Module MmuDemo.
Import MemoryDemo ArmDemo.
Abbreviation demo_machine := (machine Z (Z * Z * Z)).

(** RAM from address 0 on. *)
Lemma flat_ram (ram : list Z) k :
  zlen ram = 1024 * k -> 0 < k <= 2 ^ 20 ->
  exists m : demo_state, ram_ok m /\ (forall a n, 0 <= a -> 0 <= n -> a + n <= zlen ram -> ram_region m a n a) /\
    (forall x v, aget ram x = Some v -> in_ram m x v) /\ (forall y, 0 <= y < k -> aget (phys_dirty m) y = Some 0xff) /\
    forall y, page_index y -> k <= y -> page_target m y = None.
Proof.
  intros Hlen Hk. assert (TARGET_PAGE_ALIGN (zlen ram) = zlen ram) as Ha.
  { unfold TARGET_PAGE_ALIGN. rewrite page_base_eq. change TARGET_PAGE_SIZE with 1024.
    rewrite wrap_fits by (unfold fits; lia). rewrite Hlen. Z.div_mod_to_equations. lia. }
  pose proof (ram_alloc_disjoint (E := Empty_set) started "ram" (zlen ram) ram) as Ht. rewrite Ha in Ht.
  destruct Ht as (off & s1 & E & Hok & Hm & Ho & Hpo & _ & Hin); [by repeat constructor|lia|change (last_ram_offset _) with 0; unfold ULONG_MAX; lia|done|].
  assert (off = 0 /\ forall y, 0 <= y < k -> aget (phys_dirty s1) y = Some 0xff) as [-> Hdirty].
  { revert E. unfold qemu_ram_alloc_from_ptr. rewrite bind_gets. change (existsb _ _) with false. cbv iota zeta.
    change (find_ram_offset _ _) with 0. destruct (splice _ _ _) as [d|] eqn:Es; [run|discriminate]. intros [= <- <-]. split; [done|].
    intros y Hy. change (aget d y = Some 0xff). rewrite (aget_splice _ _ _ _ y Es) by (done || lia). rewrite Ha, Hlen, !shiftr_div by done.
    change (2 ^ TARGET_PAGE_BITS) with 1024. rewrite Z.mul_comm, Z.div_mul by lia. change (0 / 1024) with 0.
    unfold zlen. rewrite length_replicate, decide_True by lia. unfold aget. destruct (Z.ltb_spec (y - 0) 0); [lia|]. apply lookup_replicate_2. lia. }
  assert (forall x v, aget ram x = Some v -> in_ram s1 x v) as Hget.
  { intros x v Hx. apply Hin. left. rewrite Z.sub_0_r. split; [|done]. by apply aget_bounds in Hx. }
  assert (forall j, 0 <= j < zlen ram -> exists v, in_ram s1 (0 + j) v) as Hbytes.
  { intros j Hj. destruct (aget_Some ram j Hj) as [v Hv]. exists v. by apply Hget. }
  assert (forall y, page_target s1 y = None) as Hfree.
  { intros y. destruct Hm as (Hm & _). unfold page_target. rewrite Hm. exact (blank_pages y). }
  destruct (ram_region_mapped (E := Empty_set) s1 0 (zlen ram) 0) as (s2 & _ & Hok2 & Hext2 & _ & Hr2 & Hother2);
    [by apply (same_map_ok _ _ Hm), started_ok|done|done|change TARGET_PAGE_SIZE with 1024; lia|lia|done|done|rewrite Ha; lia|done|done|].
  destruct Hext2 as (_ & _ & Hb2 & Hd2 & _). exists s2. split; [unfold ram_ok; by rewrite Hb2, Hd2|]. split.
  - intros a n Ha0 Hn Hend. rewrite <- (Z.add_0_l a). apply (ram_region_sub s2 0 (zlen ram)); done || lia.
  - split; [|split; [by rewrite Hd2|]].
    + intros x v Hx. destruct (Hget x v Hx) as (b & Hb & Hv). exists b. by rewrite Hb2.
    + intros y Hy Hky. rewrite Hother2; [apply Hfree|done|]. change 0 with (TARGET_PAGE_SIZE * 0). rewrite region_page_iff by lia.
      rewrite Hlen. change TARGET_PAGE_SIZE with 1024. replace (1024 * k + 1024 - 1) with (1023 + k * 1024) by lia. rewrite Z.div_add by done. change (1023 / 1024) with 0. lia.
Qed.

Lemma flat_word (m : demo_state) (ram : list Z) a v :
  (forall a n, 0 <= a -> 0 <= n -> a + n <= zlen ram -> ram_region m a n a) ->
  (forall x v, aget ram x = Some v -> in_ram m x v) ->
  0 <= a -> a + 4 <= zlen ram -> a mod 4 = 0 -> slice a 4 ram = Some (le_bytes 4 v) -> le_value (le_bytes 4 v) = v ->
  ram_word m a v.
Proof.
  intros Hreg Hin Ha Hend Hal Hs Hv. split; [done|]. exists a, (le_bytes 4 v). split; [by apply Hreg|].
  split; [done|]. split; [done|]. intros j b Hj. apply Hin. pose proof (aget_bounds _ _ _ Hj) as Hjb.
  assert (zlen (le_bytes 4 v) = 4) as Hd by done. rewrite <- Hj. set (d := le_bytes 4 v) in *. clearbody d. revert Hs. unfold slice. zcases; [|done]. intros [= <-]. unfold aget.
  destruct (Z.ltb_spec j 0), (Z.ltb_spec (a + j) 0); try lia.
  rewrite Hd in Hjb. rewrite lookup_take_lt by lia. rewrite lookup_drop. f_equal. lia.
Qed.

(** A first level table at 0x4000, whose first entry is the second level table at
    0x1000; its fourth entry maps 0x3000 to 0x2000, the fifth is a fault. *)
Definition word_at (a v : Z) (ram : list Z) : list Z := default [] (splice a (le_bytes 4 v) ram).
Definition ram : list Z :=
  word_at 0x4000 0x1001 (word_at 0x100c 0x2032 (word_at 0x2004 0x12345678 (zeros (Z.to_nat 0x5000)))).
Definition tables (a : Z) : option Z :=
  if a =? 0x4000 then Some 0x1001 else if a =? 0x100c then Some 0x2032 else if a =? 0x1010 then Some 0 else None.
Definition env1 : CPUARMState :=
  env0 <| cp15 ::= fun c => c <| c1_sys := 1 .| (1 << 23) |> <| c2_base0 := 0x4000 |> <| c3 := 1 |> |>
       <| tlb_table := replicate 2 (replicate 256 s_cputlb_empty_entry) |> <| tlb_flush_addr := TLB_NONE |>.

Lemma tables_fit a v : tables a = Some v -> fits 32 v.
Proof. unfold tables. repeat case_match; intros Hv; try done; injection Hv as <-; by vm_compute. Qed.
Lemma env1_control : control_ok env1.
Proof. split; [split; vm_compute; intuition discriminate|by vm_compute]. Qed.
Definition demo_view : view := regime tables env1.
Lemma demo_view_ok : view_ok demo_view.
Proof. exact (regime_ok tables env1 env1_control tables_fit). Qed.

(** A machine with these tables and an empty buffer. *)
Lemma demo_machine_ok :
  exists s : demo_machine, ram_ok (mem s) /\ env s = env1 /\ reads (mem s) tables /\
    translates (E := Empty_set) s demo_view /\ coherent s demo_view None /\
    ram_region (mem s) 0x2004 4 0x2004 /\ (forall x v, aget ram x = Some v -> in_ram (mem s) x v) /\
    (forall y, 0 <= y < 20 -> aget (phys_dirty (mem s)) y = Some 0xff) /\ (forall y, page_index y -> 20 <= y -> page_target (mem s) y = None) /\
    ram_region (mem s) 0 0x5000 0.
Proof.
  destruct (flat_ram ram 20) as (m & Hok & Hreg & Hin & Hdirty & Hfree); [by vm_compute|lia|].
  set (s := mk_machine env1 m : demo_machine). exists s.
  assert (reads m tables) as Hr.
  { intros a v Hv. split; [|by apply (tables_fit a)]. apply (flat_word m ram); [done|done|..];
      unfold tables in Hv; repeat case_match; try done; injection Hv as <-; repeat match goal with H : (_ =? _) = true |- _ => apply Z.eqb_eq in H as -> end;
      by vm_compute. }
  split; [done|]. split; [done|]. split; [done|].
  split; [exact (regime_translates (E := Empty_set) s tables Hok Hr env1_control)|]. split; [|split; [|split; [done|split; [done|split; [done|by apply Hreg]]]]].
  - destruct (flushed_coherent s demo_view 1) as (e & Ee & _ & He); [by repeat constructor|].
    injection Ee as <-. exact He.
  - apply Hreg; [done|done|by vm_compute].
Qed.

(** The word at 0x3004 is the one at 0x2004; at 0x4000 there is a translation
    fault, and so it is reported. *)
Lemma load_witness :
  exists s : demo_machine,
    (exists s', ld_virt (E := Empty_set) 2 access_load 0x3004 0 s = Done (Some 0x12345678, s', [])) /\
    exists s', ld_virt (E := Empty_set) 2 access_load 0x4000 0 s = Done (None, s', []) /\
      reports (env s') access_load 0x4000 0x17.
Proof.
  destruct demo_machine_ok as (s & Hok & _ & _ & Ht & Hcoh & Hreg & Hin & _). exists s.
  assert (fits 32 0x3004 /\ fits 32 0x4000) as [F1 F2] by (split; by vm_compute).
  assert (0 <= access_load < 3) as K1 by done. assert (access_load <> access_store) as K2 by done.
  assert (0 <= 0 < NB_MMU_MODES) as K3 by done. assert (2 < 4)%nat as K5 by lia.
  split.
  - assert (demo_view 0x3004 access_load (0 =? MMU_USER_IDX) = Some (inr (0x2004, 7, 0x1000))) as Ev by (by vm_compute).
    destruct (load_through_buffer (E := Empty_set) s demo_view None 2 0 0x3004 access_load _ demo_view_ok Ht Hcoh Hok K5 F1 eq_refl K1 K2 K3 Ev
      0x2004 Hreg) as (d & s' & r' & E & Hd & Hb & _).
    exists s'. assert (d = le_bytes 4 0x12345678) as ->; [|exact E].
    apply list_eq_aget; [done|]. intros j v v' Hv Hv'. apply (in_ram_unique (mem s) (0x2004 + j)); [done|by apply Hb|].
    apply Hin. pose proof (aget_bounds _ _ _ Hv') as Hj. change (zlen (le_bytes 4 0x12345678)) with 4 in Hj. rewrite <- Hv'.
    assert (j = 0 \/ j = 1 \/ j = 2 \/ j = 3) as [->|[->|[->| ->]]] by lia; by vm_compute.
  - assert (demo_view 0x4000 access_load (0 =? MMU_USER_IDX) = Some (inl 0x17)) as Ev by (by vm_compute).
    destruct (load_through_buffer (E := Empty_set) s demo_view None 2 0 0x4000 access_load _ demo_view_ok Ht Hcoh Hok K5 F2 eq_refl K1 K2 K3 Ev)
      as (s' & E & Hrep & _).
    by exists s'.
Defined.

(** A store by the user to the same page. *)
Lemma translation_witness :
  exists (s : demo_machine) m',
    get_phys_addr (E := Empty_set) 0x3004 access_store true s = Done (inr (0x2004, 7, 0x1000), s <| mem := m' |>, []).
Proof.
  destruct demo_machine_ok as (s & Hok & He & Hr & _). exists s. assert (fits 32 0x3004) as F1 by (by vm_compute).
  assert (0 <= access_store < 3) as K1 by done. pose proof env1_control as Hc. rewrite <- He in Hc.
  assert (regime tables (env s) 0x3004 access_store true = Some (inr (0x2004, 7, 0x1000))) as Ev by (rewrite He; by vm_compute).
  destruct (translation_is_reference (E := Empty_set) s tables 0x3004 access_store true _ Hok Hr Hc F1 K1 Ev) as (m' & E & _).
  by exists m'.
Defined.

Lemma third_page va kind u pa prot size :
  va / 0x1000 = 3 -> demo_view va kind u = Some (inr (pa, prot, size)) -> size = 0x1000.
Proof.
  intros Hva. unfold demo_view, regime. change (c1_sys (cp15 env1) .& 1 =? 0) with false. change (arm_feature env1 ARM_FEATURE_MPU) with false.
  change (test (c1_sys (cp15 env1)) (1 << 23)) with true. cbv iota.
  assert (fcse_address env1 va = va) as ->.
  { unfold fcse_address. change (c13_fcse (cp15 env1)) with 0. rewrite Z.add_0_r.
    destruct (Z.ltb_spec va 0x02000000); [|done]. apply wrap_fits. unfold fits. Z.div_mod_to_equations. lia. }
  unfold translate_v6. assert (l1_address env1 va = 0x4000) as ->.
  { unfold l1_address. change (c2_control (cp15 env1)) with 0. change (c2_base0 (cp15 env1)) with 0x4000.
    assert (va / 2 ^ 20 = 0) as -> by (change (2 ^ 20) with (0x1000 * 2 ^ 8); rewrite <- Z.div_div by lia; by rewrite Hva).
    destruct (Z.ltb_spec va (2 ^ (32 - 0))); [done|]. change (2 ^ (32 - 0)) with (2 ^ 32) in *. Z.div_mod_to_equations. lia. }
  change (2 ^ 12) with 0x1000. rewrite Hva. change (tables 0x4000) with (Some 0x1001). cbn [mbind option_bind].
  change (decode_l1 0x1001) with (L1Table 4 0). cbv iota zeta. change (checked (domain_access env1 0)) with true. cbv iota.
  change (tables (4 * 2 ^ 10 + 4 * (3 mod 256))) with (Some 0x2032). cbn [mbind option_bind].
  change (decode_l2 0x2032) with (L2Page 2 12 3 false). cbv iota. intros [= Hf]. revert Hf.
  unfold frame_v6, status. cbv zeta. change (2 ^ 12) with 0x1000. repeat case_match; congruence.
Qed.

(** Once 0x3004 is in the buffer, its page is taken away and the address
    invalidated. *)
Lemma invalidation_witness :
  exists (s s' : demo_machine) e' r',
    tlb_fill (E := Empty_set) 0x3004 access_load 0 s = Done (true, s', []) /\
    tlb_flush_page 0x3000 (env s') = Done (tt, e', []) /\
    coherent (s' <| env := e' |>) (fun va kind u => if va / 0x1000 =? 3 then None else demo_view va kind u) r'.
Proof.
  destruct demo_machine_ok as (s & Hok & _ & _ & Ht & Hcoh & Hreg & _).
  assert (fits 32 0x3004 /\ fits 32 0x3000) as [F1 F2] by (split; by vm_compute).
  assert (0 <= access_load < 3) as K1 by done.
  assert (0 <= 0 < NB_MMU_MODES) as K3 by done.
  assert (demo_view 0x3004 access_load (0 =? MMU_USER_IDX) = Some (inr (0x2004, 7, 0x1000))) as Ev by (by vm_compute).
  destruct (tlb_fill_run (E := Empty_set) s demo_view None 0 0x3004 access_load _ demo_view_ok Ht Hcoh Hok F1 K1 K3 Ev 4 0x2004 Hreg ltac:(lia))
    as (s' & r' & x & E & _ & Hcoh' & _).
  destruct (invalidation_restores s' demo_view (fun va kind u => if va / 0x1000 =? 3 then None else demo_view va kind u) r' 0x3000 Hcoh' F2)
    as (e' & r'' & Ef & Hc).
  { intros va kind u pa prot size _ _ Et Hne. destruct (Z.eqb_spec (va / 0x1000) 3) as [H3|]; [|done].
    rewrite (third_page _ _ _ _ _ _ H3 Et), H3 in Hne. done. }
  by exists s, s', e', r''.
Defined.
End MmuDemo.
