(* ===== verification/ArmStore.v ===== *)
(** * ArmStore: stores through the translation buffer ([softmmu_template.h],
    [softmmu_header.h], [exec.c])

    A store goes straight to RAM only if the entry of its page says the page is
    dirty. Otherwise it goes to a handler, which throws away the translated code
    the bytes belong to, writes them, marks the page, and lets later stores to the
    page pass. The cache of translated code is a parameter: whether the page
    has to stay protected after an invalidation.

    Stores refine stores to the RAM at the translated address, and none to a page
    with translated code is missed. *)
From stdpp Require Import strings.
From S2P Require Import Prelude Words ArmCpu Memory ArmMmu ArmTlb ArmVirt.

(** What invalidating the code of [len] bytes at a RAM address leaves: [false] when
    the page had code and has none any more. *)
Class CodeCache (W : Type) := code_left : W -> Z -> Z -> bool.

Section Store.
Context {F W E : Type} `{IoDevices F W E} `{CodeCache W}.
Abbreviation machM := (dev (machine F W) (machine_event E)).
Implicit Types s : machine F W.

(** ** The dirty map *)

Definition cpu_physical_memory_get_dirty_flags (ram_addr : Z) : machM Z :=
  d <- gets (fun s => phys_dirty (mem s)) ;; lift (aget d (ram_addr >> TARGET_PAGE_BITS)).
Definition cpu_physical_memory_set_dirty_flags (ram_addr flags : Z) : machM unit :=
  f <- cpu_physical_memory_get_dirty_flags ram_addr ;;
  d <- gets (fun s => phys_dirty (mem s)) ;;
  d <- lift (aset (ram_addr >> TARGET_PAGE_BITS) (f .| flags) d) ;;
  modify (fun s => s <| mem ::= fun m => m <| phys_dirty := d |> |>).

(** [tb_invalidate_phys_page_fast] on behalf of a store: when the last code is
    gone, later stores to the page need not be noticed. *)
Definition tlb_unprotect_code_phys (ram_addr : Z) : machM unit := cpu_physical_memory_set_dirty_flags ram_addr CODE_DIRTY_FLAG.
Definition tb_invalidate_phys_page_fast (start len : Z) : machM unit :=
  emit (InMemory (MemInvalidate start (u64 (start + len)))) ;;;
  w <- gets (fun s => world (mem s)) ;;
  when (negb (code_left w start len)) (tlb_unprotect_code_phys start).

(** [notdirty_mem_writeb] to [notdirty_mem_writel]; [vaddr] is [mem_io_vaddr]. *)
Definition notdirty_mem_write (w : nat) (ram_addr val vaddr : Z) : machM unit :=
  dirty_flags <- cpu_physical_memory_get_dirty_flags ram_addr ;;
  dirty_flags <- (if negb (test dirty_flags CODE_DIRTY_FLAG) then
    tb_invalidate_phys_page_fast ram_addr (data_size w) ;;; cpu_physical_memory_get_dirty_flags ram_addr
    else ret dirty_flags) ;;
  in_memory (ram_store ram_addr (le_bytes (width_bytes w) val)) ;;;
  let dirty_flags := dirty_flags .| (0xff .&~ CODE_DIRTY_FLAG) in
  cpu_physical_memory_set_dirty_flags ram_addr dirty_flags ;;;
  when (dirty_flags =? 0xff) (in_cpu (tlb_set_dirty vaddr)).

(** ** Stores *)

(** [io_writeb] to [io_writeq]: the handler for clean pages is registered for its
    zone by [io_mem_init]; eight bytes are two accesses. *)
Definition io_st1 (w : nat) (index pa val addr : Z) : machM unit :=
  if index =? IO_MEM_NOTDIRTY >> IO_MEM_SHIFT then notdirty_mem_write w pa val addr
  else fuel <- gets (fun s => io_fuel (mem s)) ;; in_memory (io_write fuel index w pa val).
Definition io_st (w : nat) (physaddr val addr : Z) : machM unit :=
  let index := io_handler physaddr in
  let pa := u32 (page_base physaddr + addr) in
  match w with
  | 3%nat => io_st1 2 index pa (u32 val) addr ;;; io_st1 2 index (u32 (pa + 4)) (u32 (val >> 32)) addr
  | _ => io_st1 w index pa val addr
  end.

(** A store through a host pointer; the block stays where it is in the list. *)
Fixpoint store_block (p : Z) (d : list Z) (l : list RAMBlock) : option (list RAMBlock) :=
  match l with
  | [] => None
  | b :: r =>
      if u64 (p - offset b) <? blength b then h ← splice (u64 (p - offset b)) d (host b); Some (b <| host := h |> :: r)
      else r' ← store_block p d r; Some (b :: r')
  end.
Definition st_raw (w : nat) (p val : Z) : machM unit :=
  l <- gets (fun s => blocks (mem s)) ;;
  l <- lift (store_block p (le_bytes (width_bytes w) val) l) ;;
  modify (fun s => s <| mem ::= fun m => m <| blocks := l |> |>).

(** Stores of [n] bytes from the last one down, until one faults. *)
Fixpoint st_bytes (stb : Z -> Z -> machM bool) (n : nat) (addr val : Z) : machM bool :=
  match n with
  | O => ret true
  | S i =>
      ok <- stb (u32 (addr + Z.of_nat i)) (u8 (val >> (8 * Z.of_nat i))) ;;
      if ok : bool then st_bytes stb i addr val else ret false
  end.

(** [slow_st]: [false] after a fault. *)
Fixpoint slow_st (fuel : nat) (w : nat) (addr val mmu_idx : Z) : machM bool :=
  match fuel with
  | O => undef
  | S fuel' =>
      let* (x, io) := tlb_entry addr mmu_idx in
      let tlb_addr := addr_write x in
      let unaligned := st_bytes (fun a v => slow_st fuel' 0 a v mmu_idx) (width_bytes w) addr val in
      if page_base addr =? entry_page tlb_addr then
        if negb (page_offset tlb_addr =? 0) then
          if negb (addr .& (data_size w - 1) =? 0) then unaligned
          else io_st w io val addr ;;; ret true
        else if TARGET_PAGE_SIZE <=? page_offset addr + data_size w - 1 then unaligned
        else st_raw w (u64 (addr + addend x)) val ;;; ret true
      else
        ok <- tlb_fill addr access_store mmu_idx ;;
        if ok : bool then slow_st fuel' w addr val mmu_idx else ret false
  end.

(** [__st]. *)
Fixpoint st_mmu (fuel : nat) (w : nat) (addr val mmu_idx : Z) : machM bool :=
  match fuel with
  | O => undef
  | S fuel' =>
      let* (x, io) := tlb_entry addr mmu_idx in
      let tlb_addr := addr_write x in
      if page_base addr =? entry_page tlb_addr then
        if negb (page_offset tlb_addr =? 0) then
          if negb (addr .& (data_size w - 1) =? 0) then slow_st 4 w addr val mmu_idx
          else io_st w io val addr ;;; ret true
        else if TARGET_PAGE_SIZE <=? page_offset addr + data_size w - 1 then slow_st 4 w addr val mmu_idx
        else st_raw w (u64 (addr + addend x)) val ;;; ret true
      else
        ok <- tlb_fill addr access_store mmu_idx ;;
        if ok : bool then st_mmu fuel' w addr val mmu_idx else ret false
  end.

(** The store of the translated code. *)
Definition st_virt (w : nat) (addr val mmu_idx : Z) : machM bool :=
  let* (x, io) := tlb_entry addr mmu_idx in
  if addr_write x =? page_base addr .| (addr .& (data_size w - 1)) then
    st_raw w (u64 (addr + addend x)) val ;;; ret true
  else st_mmu 2 w addr val mmu_idx.

(** ** Protecting translated code *)

Definition tlb_reset_dirty_range (x : CPUTLBEntry) (start length : Z) : CPUTLBEntry :=
  if page_offset (addr_write x) =? IO_MEM_RAM then
    let addr := u64 (page_base (addr_write x) + addend x) in
    if u64 (addr - start) <? length then x <| addr_write := page_base (addr_write x) .| TLB_NOTDIRTY |> else x
  else x.

(** [cpu_physical_memory_reset_dirty] for pages of one block: clearing flags, and
    every entry that lets stores to them pass. *)
Fixpoint mask_dirty (n : nat) (i mask : Z) (d : list Z) : option (list Z) :=
  match n with
  | O => Some d
  | S n' => f ← aget d i; d' ← aset i (f .& mask) d; mask_dirty n' (i + 1) mask d'
  end.
Definition cpu_physical_memory_reset_dirty (start end_ dirty_flags : Z) : machM unit :=
  let start := page_base start in
  let end_ := TARGET_PAGE_ALIGN end_ in
  let length := u64 (end_ - start) in
  if length =? 0 then ret tt
  else
    d <- gets (fun s => phys_dirty (mem s)) ;;
    d <- lift (mask_dirty (Z.to_nat (length >> TARGET_PAGE_BITS)) (start >> TARGET_PAGE_BITS) (u8 (Z.lnot dirty_flags)) d) ;;
    modify (fun s => s <| mem ::= fun m => m <| phys_dirty := d |> |>) ;;;
    l <- gets (fun s => blocks (mem s)) ;;
    b1 <- or_abort (fst <$> take_block start l) ;; b2 <- or_abort (fst <$> take_block (u64 (end_ - 1)) l) ;;
    if negb (offset b1 =? offset b2) then hw_error
    else modify (fun s => s <| env ::= fun e : CPUARMState => e <| tlb_table ::=
      map (map (fun x => tlb_reset_dirty_range x start length)) |> |>).
Definition tlb_protect_code (ram_addr : Z) : machM unit :=
  cpu_physical_memory_reset_dirty ram_addr (u64 (ram_addr + TARGET_PAGE_SIZE)) CODE_DIRTY_FLAG.
End Store.

(** ** Stores to RAM *)

Section StoreFacts.
Context {F W E : Type} `{IoDevices F W E} `{CodeCache W}.
Abbreviation machM := (dev (machine F W) (machine_event E)).
Implicit Types s : machine F W.

(** A store in place is the store that moves the block to the front, but for the
    order of the blocks. *)
Lemma store_take x d l b r h :
  take_block x l = Some (b, r) -> splice (u64 (x - offset b)) d (host b) = Some h ->
  exists l', store_block x d l = Some l' /\ l' ≡ₚ (b <| host := h |>) :: r.
Proof.
  revert r. induction l as [|c l IH]; intros r Et Es; cbn [take_block store_block] in *; [done|].
  destruct (_ <? _); [injection Et as -> ->; rewrite Es; by eexists|].
  destruct (take_block x l) as [[b' r']|]; [|done]. injection Et as -> <-.
  destruct (IH r' eq_refl Es) as (l' & -> & Hp). cbn. eexists. split; [done|]. rewrite Hp. apply Permutation_swap.
Qed.

Lemma store_block_run (m : memory_state F W) x d :
  ram_ok m -> 0 <= x -> page_offset x + zlen d <= TARGET_PAGE_SIZE -> (exists v, in_ram m x v) ->
  exists l, store_block x d (blocks m) = Some l /\ ram_ok (m <| blocks := l |>) /\ written_at m (m <| blocks := l |>) x d.
Proof.
  intros Hok Hx Hpage Hin. destruct (ram_store_run (E := E) m x d Hok Hx Hpage Hin) as (l2 & E2 & Hok2 & Hw2).
  destruct Hin as (v & b & Hb & Hh & _). destruct Hok as (Hall & Hd & Hdirty).
  assert (block_ok b) as Hbok by (rewrite Forall_forall in Hall; by apply Hall).
  destruct (take_block_spec x (blocks m) b Hall) as (r & Et & _); [|done..|].
  { destruct Hbok as (?&?&?&?&?&?). unfold holds in Hh. lia. }
  unfold ram_store, qemu_get_ram_ptr in E2. rewrite bind_assoc, bind_gets in E2. unfold id in E2. rewrite Et in E2.
  rewrite bind_assoc, bind_modify, bind_ret in E2.
  destruct (splice (u64 (x - offset b)) d (host b)) as [h|] eqn:Es; [|done]. cbn in E2.
  destruct (store_take x d (blocks m) b r h Et Es) as (l & El & Hp). exists l. split; [done|].
  assert (l2 = b <| host := h |> :: r) as -> by (by injection E2).
  assert (same_but_order (m <| blocks := b <| host := h |> :: r |>) (m <| blocks := l |>)) as Hso by (by exists l).
  split; [by apply (order_ok _ _ Hso)|]. intros y v'. rewrite (order_in_ram _ _ _ _ Hso). apply Hw2.
Qed.

Lemma zlen_le_bytes n v : zlen (le_bytes n v) = Z.of_nat n.
Proof. unfold zlen. by rewrite length_le_bytes. Qed.

(** A store through a host pointer. *)
Lemma st_raw_run w off val s :
  ram_ok (mem s) -> 0 <= off -> page_offset off + data_size w <= TARGET_PAGE_SIZE -> (exists v, in_ram (mem s) off v) ->
  exists l, st_raw w off val s = Done (tt, s <| mem ::= fun m => m <| blocks := l |> |>, @nil (machine_event E)) /\
    ram_ok ((mem s) <| blocks := l |>) /\ written_at (mem s) ((mem s) <| blocks := l |>) off (le_bytes (width_bytes w) val).
Proof.
  intros Hok Ho Hp Hin. destruct (store_block_run (mem s) off (le_bytes (width_bytes w) val)) as (l & El & H1 & H2); [done|done|by rewrite zlen_le_bytes|done|].
  exists l. split; [|done]. unfold st_raw. rewrite bind_gets, El. by run.
Qed.

(** The dirty map. *)
Definition dirty_at (m : memory_state F W) (a : Z) : option Z := aget (phys_dirty m) (a >> TARGET_PAGE_BITS).

Lemma get_flags_run s a f : dirty_at (mem s) a = Some f ->
  cpu_physical_memory_get_dirty_flags a s = Done (f, s, @nil (machine_event E)).
Proof. unfold dirty_at, cpu_physical_memory_get_dirty_flags. intros Hf. rewrite bind_gets, Hf. by run. Qed.

Lemma set_flags_run s a f g : dirty_at (mem s) a = Some f ->
  exists d, cpu_physical_memory_set_dirty_flags a g s = Done (tt, s <| mem ::= fun m => m <| phys_dirty := d |> |>, @nil (machine_event E)) /\
    length d = length (phys_dirty (mem s)) /\
    forall b, dirty_at ((mem s) <| phys_dirty := d |>) b = if decide (b >> TARGET_PAGE_BITS = a >> TARGET_PAGE_BITS) then Some (f .| g) else dirty_at (mem s) b.
Proof.
  intros Hf. unfold cpu_physical_memory_set_dirty_flags. rewrite (bind_silent _ _ _ _ _ (get_flags_run s a f Hf)). rewrite bind_gets.
  unfold dirty_at in *. rewrite (aset_Some _ _ _ (aget_bounds _ _ _ Hf)). eexists. split; [by run|]. split; [apply length_insert|].
  intros b. pose proof (aset_Some (phys_dirty (mem s)) _ (f .| g) (aget_bounds _ _ _ Hf)) as Hset.
  destruct (decide _) as [->|Hne]; [by apply (aget_aset_eq _ _ _ _ Hset)|]. apply (aget_aset_ne _ _ _ _ _ (not_eq_sym Hne) Hset).
Qed.

(** ** Entries for stores *)

(** What the second table holds for a page of RAM leads back to it. *)
Lemma notdirty_io pd region va :
  page_offset pd = IO_MEM_RAM -> fits 32 (page_base pd) -> fits 32 va ->
  let io := made_io pd region (page_base va) in
  io_handler io = IO_MEM_NOTDIRTY >> IO_MEM_SHIFT /\ u32 (page_base io + va) = u32 (page_base pd + page_offset va).
Proof.
  intros Eram Hpd Hva io. unfold io, made_io. rewrite Eram. change (IO_MEM_RAM <=? IO_MEM_ROM) with true. change (IO_MEM_RAM =? IO_MEM_RAM) with true. cbv iota.
  assert (page_base pd .| IO_MEM_NOTDIRTY = page_base pd + 24) as ->.
  { rewrite page_base_block. by apply lor_add. }
  rewrite page_base_block in Hpd. rewrite !page_base_block, page_offset_eq. change TARGET_PAGE_SIZE with (2 ^ 10).
  set (p := pd / 2 ^ 10) in *. set (v := va / 2 ^ 10).
  assert (fits 22 p) as Hp by (unfold fits in *; lia).
  rewrite (wrap_fits 32 (p * 2 ^ 10 + 24)) by (unfold fits in *; lia).
  assert (u32 (p * 2 ^ 10 + 24 - v * 2 ^ 10) = wrap 22 (p - v) * 2 ^ 10 + 24) as ->.
  { unfold wrap. replace (p * 2 ^ 10 + 24 - v * 2 ^ 10) with (24 + (p - v) * 2 ^ 10) by lia.
    change (2 ^ 32) with (2 ^ 10 * 2 ^ 22). rewrite Z.rem_mul_r by lia. rewrite Z.mod_add, Z.div_add by lia. change (24 mod 2 ^ 10) with 24. change (24 / 2 ^ 10) with 0. rewrite Z.add_0_l. lia. }
  split.
  - unfold io_handler. change (IO_MEM_NB_ENTRIES - 1) with (2 ^ 7 - 1). rewrite land_ones, shiftr_div by done.
    change (2 ^ IO_MEM_SHIFT) with (2 ^ 3). replace (wrap 22 (p - v) * 2 ^ 10 + 24) with ((wrap 22 (p - v) * 2 ^ 7 + 3) * 2 ^ 3) by lia.
    rewrite Z.div_mul by lia. by rewrite Z.add_comm, Z.mod_add by lia.
  - rewrite Z.div_add_l by lia. change (24 / 2 ^ 10) with 0. rewrite Z.add_0_r.
    pose proof (Z.div_mod va (2 ^ 10) ltac:(lia)) as Hdm. fold v in Hdm. unfold wrap.
    replace ((p - v) mod 2 ^ 22 * 2 ^ 10) with (((p - v) * 2 ^ 10) mod 2 ^ 32).
    2: { change (2 ^ 32) with (2 ^ 22 * 2 ^ 10). by rewrite Z.mul_mod_distr_r by lia. }
    rewrite Z.add_mod_idemp_l by lia. f_equal. lia.
Qed.

(** An entry that hits for a store to RAM: it leads there directly if it says the
    page is dirty, and to the handler otherwise. *)
Lemma store_hit s tr r va mmu x io pa prot size n off :
  coherent s tr r -> ram_ok (mem s) -> fits 32 va -> 0 <= mmu < NB_MMU_MODES ->
  tr va access_store (mmu =? MMU_USER_IDX) = Some (inr (pa, prot, size)) -> page_offset pa = page_offset va ->
  ram_region (mem s) pa n off -> 0 < n -> off < 2 ^ 32 ->
  entry_of (env s) mmu (tlb_index va) = Some x -> io_of (env s) mmu (tlb_index va) = Some io ->
  page_base va = entry_page (addr_write x) ->
  exists dirty, addr_write x = (if dirty : bool then page_base va else page_base va .| TLB_NOTDIRTY) /\
    u64 (va + addend x) = off /\ io_handler io = IO_MEM_NOTDIRTY >> IO_MEM_SHIFT /\ u32 (page_base io + va) = off /\
    u64 (page_base va + addend x) >> TARGET_PAGE_BITS = off >> TARGET_PAGE_BITS /\ page_offset off = page_offset va.
Proof.
  intros (_ & _ & Hent) Hok Hva Hm Et Hoff Hreg Hn Hlt Hx Hio Hpage.
  destruct (ram_descriptor _ _ _ _ Hok Hreg Hn) as (Hram & Hromd & Eoff & Hpb0 & _ & _ & _).
  destruct (Hent _ _ _ _ access_store Hva ltac:(done) Hx Hpage) as (_ & pa' & prot' & size' & d & Et' & _ & Ex & Eio).
  rewrite Et in Et'. injection Et' as <- <- <-. set (pd := (descriptor (mem s) pa).1) in *.
  assert (io = made_io pd (descriptor (mem s) pa).2 (page_base va)) as Eio' by congruence.
  pose proof (page_parts va) as Hparts. pose proof (page_offset_bound pa) as Hb. rewrite Hoff in Eoff, Hb.
  destruct (notdirty_io pd (descriptor (mem s) pa).2 va Hram) as [H1 H2]; [unfold fits; lia|done|]. rewrite <- Eio' in H1, H2.
  assert (page_offset off = page_offset va) as Epo.
  { rewrite <- Eoff. rewrite page_offset_eq, page_base_block. change TARGET_PAGE_SIZE with (2 ^ 10) in *.
    rewrite Z.add_comm, Z.mod_add by lia. by apply Z.mod_small. }
  exists d. split; [|split; [|split; [done|split; [|split; [|done]]]]].
  - rewrite Ex in Hpage |- *. change (addr_write (made_entry pd (page_base va) prot d)) with (addr_of (made_entry pd (page_base va) prot d) access_store) in Hpage.
    rewrite made_entry_page in Hpage by done. destruct (allows prot access_store) eqn:Ea; [|by apply not_page_none in Hpage].
    unfold allows in Ea. change (access_store =? access_store) with true in Ea. cbn [made_entry addr_write]. rewrite Ea.
    unfold store_address, load_address, reads_io. rewrite Hram, Hromd. by destruct d.
  - rewrite Ex. cbn [addend made_entry]. unfold wrap. rewrite Zplus_mod_idemp_r. rewrite Z.mod_small; lia.
  - rewrite H2, Eoff. apply wrap_fits. unfold fits. lia.
  - rewrite Ex. cbn [addend made_entry]. assert (u64 (page_base va + u64 (page_base pd - page_base va)) = page_base pd) as ->.
    { unfold wrap. rewrite Zplus_mod_idemp_r. rewrite Z.mod_small; lia. }
    rewrite <- (page_number off). f_equal. pose proof (page_parts off). lia.
Qed.

(** ** What stores do to the buffer *)

(** The buffer does not depend on the contents of memory. *)
Lemma coherent_mem s s' tr r :
  env s' = env s -> l1_phys_map (mem s') = l1_phys_map (mem s) -> coherent s tr r -> coherent s' tr r.
Proof.
  intros Ee Em (Hs & Hr & Hent). unfold coherent. rewrite Ee. split; [done|]. split; [done|].
  intros mmu i x va kind Hva Hk Hx Hp. destruct (Hent _ _ _ _ _ Hva Hk Hx Hp) as (Hi & pa & prot & size & d & Ht & Hsz & Hxd & Hio).
  split; [done|]. exists pa, prot, size, d. unfold descriptor in *. by rewrite Em.
Qed.

(** The translations of an address for both modes lead to one place. *)
Definition one_address (tr : view) : Prop :=
  forall va u u' pa prot size pa' prot' size',
    tr va access_store u = Some (inr (pa, prot, size)) -> tr va access_store u' = Some (inr (pa', prot', size')) -> pa = pa'.

Lemma set_dirty_entry x va :
  fits 32 va -> forall kind, entry_page (addr_of (tlb_set_dirty1 x (page_base va)) kind) = entry_page (addr_of x kind).
Proof.
  intros Hva kind. unfold tlb_set_dirty1, addr_of. destruct (Z.eqb_spec (addr_write x) (page_base va .| TLB_NOTDIRTY)) as [E0|]; [|done].
  unfold upd. cbn. destruct (kind =? access_fetch); [done|]. destruct (kind =? access_store); [|done].
  rewrite E0, entry_page_base by done. symmetry. by apply marked_page.
Qed.

Lemma set_dirty_made pd va va' prot d :
  fits 32 va -> fits 32 va' ->
  exists d', tlb_set_dirty1 (made_entry pd (page_base va') prot d) (page_base va) = made_entry pd (page_base va') prot d'.
Proof.
  intros Hva Hva'. unfold tlb_set_dirty1. destruct (Z.eqb_spec (addr_write (made_entry pd (page_base va') prot d)) (page_base va .| TLB_NOTDIRTY)) as [E0|]; [|by exists d].
  exists true. pose proof E0 as Eo. apply (f_equal page_offset) in Eo. rewrite marked_offset in Eo.
  pose proof E0 as Ep. apply (f_equal entry_page) in Ep. rewrite marked_page in Ep by done.
  unfold made_entry in *. cbn [addr_write] in *. destruct (test prot PAGE_WRITE); [|done].
  rewrite store_address_page in Ep by done. unfold upd. cbn. f_equal. rewrite <- Ep.
  clear E0 Ep. unfold store_address, load_address in *. destruct (_ || _) eqn:Erom.
  { destruct (reads_io pd); rewrite <- ?Z.lor_assoc, marked_offset in Eo; done. }
  destruct (page_offset pd =? IO_MEM_RAM) eqn:Eram.
  - assert (reads_io pd = false) as -> by (unfold reads_io; by rewrite (proj1 (Z.eqb_eq _ _) Eram)). done.
  - destruct (reads_io pd); [by rewrite marked_offset in Eo|by rewrite page_base_offset in Eo].
Qed.

Definition with_table s t : machine F W := mk_machine ((env s) <| tlb_table := t |>) (mem s).

Lemma tlb_set_dirty_run s tr r va :
  fits 32 va -> coherent s tr r ->
  exists t, in_cpu (tlb_set_dirty va) s = Done (tt, with_table s t, @nil (machine_event E)) /\ coherent (with_table s t) tr r /\
    forall m i, entry_of (env (with_table s t)) m i =
      if decide (i = tlb_index va) then (fun x => tlb_set_dirty1 x (page_base va)) <$> entry_of (env s) m i else entry_of (env s) m i.
Proof.
  intros Hva (Hs & Hr & Hent).
  destruct (all_modes_run (env s) (page_base va) (fun x => tlb_set_dirty1 x (page_base va)) Hs) as (t & Et & Hs' & Hx).
  rewrite (tlb_index_page (page_base va) va) in Hx by apply page_base_idem.
  exists t. split; [unfold in_cpu, tlb_set_dirty; cbv zeta; by erewrite zoom_silent by exact Et|]. split; [|exact Hx].
  split; [exact Hs'|]. split; [by destruct r as [[]|]|]. intros mmu i x' va' kind Hva' Hk Hx' Hp.
  change (env (with_table s t)) with ((env s) <| tlb_table := t |>) in Hx'. rewrite Hx in Hx'.
  change (io_of (env (with_table s t)) mmu i) with (io_of (env s) mmu i). change (mem (with_table s t)) with (mem s).
  destruct (decide (i = tlb_index va)) as [->|]; [|by apply (Hent _ _ _ _ _ Hva' Hk Hx' Hp)].
  destruct (entry_of (env s) mmu (tlb_index va)) as [x|] eqn:Ex; [|done]. injection Hx' as <-.
  rewrite set_dirty_entry in Hp by done.
  destruct (Hent _ _ _ _ _ Hva' Hk Ex Hp) as (Hidx & pa & prot & size & d & Ht & Hsz & Hxd & Hio).
  split; [done|]. destruct (set_dirty_made (descriptor (mem s) pa).1 va va' prot d Hva Hva') as [d' Ed].
  exists pa, prot, size, d'. split; [done|]. split; [done|]. split; [|done]. by rewrite Hxd, Ed.
Qed.

(** A page that is dirty may be marked in the buffer. *)
Lemma set_dirty_tracked s tr r t va u pa prot size n off :
  fits 32 va -> coherent s tr r -> one_address tr -> ram_ok (mem s) -> tr va access_store u = Some (inr (pa, prot, size)) ->
  page_offset pa = page_offset va -> ram_region (mem s) pa n off -> 0 < n -> off < 2 ^ 32 ->
  dirty_at (mem s) off = Some 0xff ->
  (forall m i, entry_of (env (with_table s t)) m i =
      if decide (i = tlb_index va) then (fun x => tlb_set_dirty1 x (page_base va)) <$> entry_of (env s) m i else entry_of (env s) m i) ->
  writes_tracked s -> writes_tracked (with_table s t).
Proof.
  intros Hva Hc Hone Hok Et Hoff Hreg Hn Hlt Hdirty Hx Hw mmu i x' Hx'. rewrite Hx in Hx'. change (mem (with_table s t)) with (mem s).
  destruct (decide (i = tlb_index va)) as [->|]; [|by apply (Hw _ _ _ Hx')].
  destruct (entry_of (env s) mmu (tlb_index va)) as [x|] eqn:Ex; [|done]. injection Hx' as <-.
  unfold tlb_set_dirty1. destruct (Z.eqb_spec (addr_write x) (page_base va .| TLB_NOTDIRTY)) as [E0|]; [|by apply (Hw _ _ _ Ex)].
  intros _. unfold upd. cbn [addr_write addend].
  assert (page_base va = entry_page (addr_of x access_store)) as Hp.
  { unfold addr_of. cbn. rewrite E0. symmetry. by apply marked_page. }
  pose proof Hc as (Hs & _ & Hent). destruct (Hent _ _ _ _ access_store Hva ltac:(done) Ex Hp) as (_ & pa' & prot' & size' & d & Et' & _).
  pose proof (Hone _ _ _ _ _ _ _ _ _ Et Et') as <-.
  assert (0 <= mmu < NB_MMU_MODES) as Hm by (apply (entry_of_mode _ _ _ _ Hs) in Ex; unfold NB_MMU_MODES; lia).
  destruct (tlb_entry_run (E := E) s va mmu Hs Hm) as (x1 & io & _ & Ex1 & Eio). assert (x1 = x) as -> by congruence.
  destruct (store_hit s tr r va mmu x io pa prot' size' n off Hc Hok Hva Hm Et' Hoff Hreg Hn Hlt Ex Eio Hp) as (_ & _ & _ & _ & _ & Epage & _).
  rewrite Epage. exact Hdirty.
Qed.

(** ** The handler for clean pages *)

Definition marked (f : Z) : Prop := f .& (0xff .&~ CODE_DIRTY_FLAG) = 0xff .&~ CODE_DIRTY_FLAG.

(** Only the contents of memory and the dirty map change. *)
Definition same_map (m m' : memory_state F W) : Prop := l1_phys_map m' = l1_phys_map m.

Definition invalidations (f off len : Z) : list (machine_event E) :=
  if test f CODE_DIRTY_FLAG then [] else [InMemory (MemInvalidate off (u64 (off + len)))].

(** The page of [off] has been written: its flags say so, no flag is lost, and
    other pages keep theirs. *)
Definition page_marked (m m' : memory_state F W) (off : Z) : Prop :=
  exists f f', dirty_at m off = Some f /\ dirty_at m' off = Some f' /\ marked f' /\ f' .& f = f /\
    forall b, b >> TARGET_PAGE_BITS <> off >> TARGET_PAGE_BITS -> dirty_at m' b = dirty_at m b.

Lemma dirty_length_ok (m : memory_state F W) d : length d = length (phys_dirty m) -> ram_ok m -> ram_ok (m <| phys_dirty := d |>).
Proof. intros Hl (H1 & H2 & H3). split; [done|]. split; [done|]. unfold zlen in *. change (phys_dirty (m <| phys_dirty := d |>)) with d. by rewrite Hl. Qed.

Lemma region_written (m m' : memory_state F W) x d a n off :
  same_map m m' -> written_at m m' x d -> ram_region m a n off -> ram_region m' a n off.
Proof.
  intros Hm Hw (Ha & Hb & Ho & Hr). split; [done|]. split; [done|]. split; [done|]. intros j Hj. destruct (Hr j Hj) as [Hd [v Hv]]. split.
  - unfold page_target in *. unfold same_map in Hm. by rewrite Hm.
  - assert (exists v', if decide (x <= off + j < x + zlen d) then aget d (off + j - x) = Some v' else in_ram m (off + j) v') as [v' Hv'].
    { destruct (decide _); [apply aget_Some; lia|by exists v]. }
    exists v'. by apply Hw.
Qed.

(** Invalidating code on behalf of a store. *)
Lemma invalidate_run s off len f :
  dirty_at (mem s) off = Some f -> test f CODE_DIRTY_FLAG = false ->
  exists d f1, tb_invalidate_phys_page_fast (E := E) off len s =
      Done (tt, s <| mem ::= fun m => m <| phys_dirty := d |> |>, [InMemory (MemInvalidate off (u64 (off + len)))]) /\
    length d = length (phys_dirty (mem s)) /\ (f1 = f \/ f1 = f .| CODE_DIRTY_FLAG) /\
    forall b, dirty_at ((mem s) <| phys_dirty := d |>) b = if decide (b >> TARGET_PAGE_BITS = off >> TARGET_PAGE_BITS) then Some f1 else dirty_at (mem s) b.
Proof.
  intros Hf Htest. unfold tb_invalidate_phys_page_fast.
  destruct (code_left (world (mem s)) off len) eqn:El.
  - exists (phys_dirty (mem s)), f. split; [|split; [done|split; [by left|]]].
    + erewrite bind_Done by reflexivity. rewrite bind_gets, El. cbn. by destruct s as [e []].
    + intros b. unfold dirty_at in *. change (phys_dirty ((mem s) <| phys_dirty := phys_dirty (mem s) |>)) with (phys_dirty (mem s)). destruct (decide _) as [->|]; done.
  - destruct (set_flags_run s off f CODE_DIRTY_FLAG Hf) as (d & Ed & Hl & Hd). exists d, (f .| CODE_DIRTY_FLAG).
    split; [|split; [done|split; [by right|done]]].
    erewrite bind_Done by reflexivity. rewrite bind_gets, El. cbn [negb when]. unfold tlb_unprotect_code_phys. by rewrite Ed.
Qed.

(** The first half of the handler: the flags it goes on with. *)
Lemma flags_run w s off f :
  dirty_at (mem s) off = Some f ->
  exists d f1, (dirty_flags <- cpu_physical_memory_get_dirty_flags (E := E) off ;;
      if negb (test dirty_flags CODE_DIRTY_FLAG) then tb_invalidate_phys_page_fast off (data_size w) ;;; cpu_physical_memory_get_dirty_flags off
      else ret dirty_flags) s = Done (f1, s <| mem ::= fun m => m <| phys_dirty := d |> |>, invalidations f off (data_size w)) /\
    length d = length (phys_dirty (mem s)) /\ (f1 = f \/ test f CODE_DIRTY_FLAG = false /\ f1 = f .| CODE_DIRTY_FLAG) /\
    forall b, dirty_at ((mem s) <| phys_dirty := d |>) b = if decide (b >> TARGET_PAGE_BITS = off >> TARGET_PAGE_BITS) then Some f1 else dirty_at (mem s) b.
Proof.
  intros Hf. rewrite (bind_silent _ _ _ _ _ (get_flags_run s off f Hf)). unfold invalidations. destruct (test f CODE_DIRTY_FLAG) eqn:Et; cbn [negb].
  - exists (phys_dirty (mem s)), f. split; [by destruct s as [e []]|]. split; [done|]. split; [by left|].
    intros b. unfold dirty_at in *. change (phys_dirty ((mem s) <| phys_dirty := phys_dirty (mem s) |>)) with (phys_dirty (mem s)). destruct (decide _) as [->|]; done.
  - destruct (invalidate_run s off (data_size w) f Hf Et) as (d & f1 & Ed & Hl & Hf1 & Hd). exists d, f1.
    split; [|split; [done|split; [|done]]].
    + erewrite bind_Done by exact Ed. rewrite (get_flags_run _ off f1); [done|]. change (mem (s <| mem ::= fun m => m <| phys_dirty := d |> |>)) with ((mem s) <| phys_dirty := d |>). rewrite Hd. by rewrite decide_True.
    + destruct Hf1; [by left|by right].
Qed.

Lemma marked_lor f : marked (f .| (0xff .&~ CODE_DIRTY_FLAG)).
Proof. unfold marked. rewrite Z.land_lor_distr_l, Z.land_diag. apply Z.bits_inj'. intros i Hi. rewrite Z.lor_spec, Z.land_spec. by destruct (Z.testbit f i), (Z.testbit _ i). Qed.
Lemma land_lor_absorb a b : (a .| b) .& a = a.
Proof. apply Z.bits_inj'. intros i Hi. rewrite Z.land_spec, Z.lor_spec. by destruct (Z.testbit a i), (Z.testbit b i). Qed.
Lemma lor_absorb a b : a .| (a .| b) = a .| b.
Proof. by rewrite Z.lor_assoc, Z.lor_diag. Qed.

(** The handler writes the bytes, after the code they belong to is gone, and the
    buffer stays coherent and tracked. *)
Lemma notdirty_run s tr r w va u val pa prot size off f :
  coherent s tr r -> one_address tr -> ram_ok (mem s) -> writes_tracked s ->
  (w < 3)%nat -> fits 32 va -> page_offset off + data_size w <= TARGET_PAGE_SIZE ->
  tr va access_store u = Some (inr (pa, prot, size)) -> page_offset pa = page_offset va ->
  ram_region (mem s) pa (data_size w) off -> off < 2 ^ 32 -> dirty_at (mem s) off = Some f ->
  exists s', notdirty_mem_write w off val va s = Done (tt, s', invalidations f off (data_size w)) /\
    written_at (mem s) (mem s') off (le_bytes (width_bytes w) val) /\ ram_ok (mem s') /\ page_marked (mem s) (mem s') off /\
    coherent s' tr r /\ writes_tracked s' /\ (exists t, env s' = (env s) <| tlb_table := t |>) /\ same_map (mem s) (mem s').
Proof.
  intros Hc Hone Hok Htk Hw Hva Hpage Et Hoff Hreg Hlt Hf.
  destruct (data_size_bound w ltac:(lia)) as [Hd0 _]. pose proof Hreg as (_ & _ & Ho & Hbytes).
  destruct (Hbytes 0 ltac:(lia)) as [_ Hin]. rewrite Z.add_0_r in Hin.
  destruct (flags_run w s off f Hf) as (d1 & f1 & E1 & Hl1 & Hf1 & Hd1).
  set (s1 := s <| mem ::= fun m => m <| phys_dirty := d1 |> |>) in *.
  assert (ram_ok (mem s1)) as Hok1 by by apply dirty_length_ok.
  destruct (ram_store_run (E := E) (mem s1) off (le_bytes (width_bytes w) val) Hok1 Ho) as (l2 & E2 & Hok2 & Hw2); [by rewrite zlen_le_bytes|exact Hin|].
  set (s2 := s1 <| mem := (mem s1) <| blocks := l2 |> |>).
  set (g := f1 .| (0xff .&~ CODE_DIRTY_FLAG)).
  assert (dirty_at (mem s2) off = Some f1) as Hf2 by (change (dirty_at ((mem s) <| phys_dirty := d1 |>) off = Some f1); rewrite Hd1; by rewrite decide_True).
  destruct (set_flags_run s2 off f1 g Hf2) as (d3 & E3 & Hl3 & Hd3). unfold g in Hd3 at 1. rewrite lor_absorb in Hd3. fold g in Hd3.
  set (s3 := s2 <| mem ::= fun m => m <| phys_dirty := d3 |> |>) in *.
  assert (notdirty_mem_write w off val va s =
    match when (g =? 0xff) (in_cpu (tlb_set_dirty va)) s3 with
    | Done (b, s4, e2) => Done (b, s4, invalidations f off (data_size w) ++ e2) | HwError => HwError | Undef => Undef
    end) as Erun.
  { unfold notdirty_mem_write. rewrite <- (bind_assoc (cpu_physical_memory_get_dirty_flags off) (fun dirty_flags =>
      if negb (test dirty_flags CODE_DIRTY_FLAG) then tb_invalidate_phys_page_fast off (data_size w) ;;; cpu_physical_memory_get_dirty_flags off
      else ret dirty_flags)). erewrite bind_Done by exact E1. fold s1.
    erewrite bind_silent by (apply in_memory_run; exact E2). fold s2. cbv zeta. fold g. by rewrite (bind_silent _ _ _ _ _ E3). }
  assert (written_at (mem s) (mem s3) off (le_bytes (width_bytes w) val)) as Hw3 by exact Hw2.
  assert (ram_ok (mem s3)) as Hok3 by (by apply dirty_length_ok).
  assert (dirty_at (mem s3) off = Some g) as Hg by (change (dirty_at ((mem s2) <| phys_dirty := d3 |>) off = Some g); rewrite Hd3; by rewrite decide_True).
  assert (page_marked (mem s) (mem s3) off) as Hm3.
  { exists f, g. split; [done|]. split; [done|]. split; [apply marked_lor|]. split.
    - unfold g. destruct Hf1 as [->|[_ ->]]; rewrite <- ?Z.lor_assoc; apply land_lor_absorb.
    - intros b Hb. change (dirty_at ((mem s2) <| phys_dirty := d3 |>) b = dirty_at (mem s) b). rewrite Hd3, decide_False by done.
      change (dirty_at ((mem s) <| phys_dirty := d1 |>) b = dirty_at (mem s) b). by rewrite Hd1, decide_False. }
  assert (coherent s3 tr r) as Hc3 by (by apply (coherent_mem s)).
  assert (writes_tracked s3) as Htk3.
  { intros m i x Hx Hplain. specialize (Htk m i x Hx Hplain). destruct Hm3 as (f0 & f0' & Ef0 & Ef0' & _ & _ & Hrest).
    destruct (decide (u64 (addr_write x + addend x) >> TARGET_PAGE_BITS = off >> TARGET_PAGE_BITS)) as [Ep|Hne].
    - rewrite Ep in *. assert (f = 0xff) as -> by (unfold dirty_at in Hf; congruence).
      assert (g = 0xff) as Eg by (unfold g; by destruct Hf1 as [->|[? _]]). unfold dirty_at in Hg. by rewrite Hg, Eg.
    - pose proof (Hrest _ Hne) as Hr. unfold dirty_at in Hr. by rewrite Hr. }
  rewrite Erun. destruct (Z.eqb_spec g 0xff) as [Eg|_]; cbn [when].
  - destruct (tlb_set_dirty_run s3 tr r va Hva Hc3) as (t & E4 & Hc4 & Hx4). rewrite E4. cbv iota. rewrite app_nil_r.
    exists (with_table s3 t). split; [done|]. split; [done|]. split; [done|]. split; [done|]. split; [done|]. split; [|split; [by exists t|done]].
    apply (set_dirty_tracked s3 tr r t va u pa prot size (data_size w) off); try done.
    + by apply (region_written (mem s) _ off (le_bytes (width_bytes w) val)).
    + by rewrite Hg, Eg.
  - exists s3. unfold ret. cbv iota. rewrite app_nil_r. split; [done|]. split; [done|]. split; [done|]. split; [done|]. split; [done|]. split; [done|].
    split; [exists (tlb_table (env s)); by destruct s as [[] ]|done].
Qed.

(** ** Stores *)

(** What a store of [d] at the RAM address [off] leaves: the bytes, the mark, a
    buffer that is as good as before, and the rest of the processor. *)
Record stored s s' (off : Z) (d : list Z) (tr : view) (r : option (Z * Z)) : Prop := {
  st_written : written_at (mem s) (mem s') off d; st_ram : ram_ok (mem s');
  st_marked : page_marked (mem s) (mem s') off; st_map : same_map (mem s) (mem s');
  st_coherent : coherent s' tr r; st_tracked : writes_tracked s'; st_env : same_but_buffer (env s) (env s')
}.

(** One turn of a store whose entry hits. *)
Definition st_hit (w : nat) (x : CPUTLBEntry) (io addr val : Z) (unaligned : machM bool) : machM bool :=
  if negb (page_offset (addr_write x) =? 0) then
    if negb (addr .& (data_size w - 1) =? 0) then unaligned
    else io_st w io val addr ;;; ret true
  else if TARGET_PAGE_SIZE <=? page_offset addr + data_size w - 1 then unaligned
  else st_raw w (u64 (addr + addend x)) val ;;; ret true.

Lemma st_hit_run s tr r w va mmu x io val pa prot size off f un :
  coherent s tr r -> one_address tr -> ram_ok (mem s) -> writes_tracked s ->
  (w < 3)%nat -> fits 32 va -> va mod data_size w = 0 -> 0 <= mmu < NB_MMU_MODES ->
  tr va access_store (mmu =? MMU_USER_IDX) = Some (inr (pa, prot, size)) -> page_offset pa = page_offset va ->
  ram_region (mem s) pa (data_size w) off -> off < 2 ^ 32 -> dirty_at (mem s) off = Some f ->
  entry_of (env s) mmu (tlb_index va) = Some x -> io_of (env s) mmu (tlb_index va) = Some io ->
  page_base va = entry_page (addr_write x) ->
  exists s', st_hit w x io va val un s = Done (true, s', invalidations f off (data_size w)) /\
    stored s s' off (le_bytes (width_bytes w) val) tr r /\
    (addr_write x = page_base va -> st_raw (E := E) w (u64 (va + addend x)) val s = Done (tt, s', []) /\ invalidations f off (data_size w) = []).
Proof.
  intros Hc Hone Hok Htk Hw Hva Hal Hm Et Hoff Hreg Hlt Hf Hx Hio Hp.
  destruct (data_size_bound w ltac:(lia)) as [Hd0 _]. destruct (aligned_within va w ltac:(lia) Hal) as [Hlow Hwithin].
  destruct (store_hit s tr r va mmu x io pa prot size (data_size w) off Hc Hok Hva Hm Et Hoff Hreg Hd0 Hlt Hx Hio Hp)
    as (dirty & Eaw & Eraw & Eh & Epa & Epage & Epo).
  pose proof Hreg as (_ & _ & Ho & Hbytes). destruct (Hbytes 0 ltac:(lia)) as [_ Hin]. rewrite Z.add_0_r in Hin.
  unfold st_hit. rewrite Hlow. destruct dirty.
  - assert (page_offset (addr_write x) = 0) as Hplain by (rewrite Eaw; apply page_base_offset).
    rewrite Hplain. cbn [negb Z.eqb]. destruct (Z.leb_spec TARGET_PAGE_SIZE (page_offset va + data_size w - 1)); [lia|].
    assert (f = 0xff) as ->.
    { pose proof (Htk _ _ _ Hx Hplain) as H2. rewrite Eaw, Epage in H2. unfold dirty_at in Hf. congruence. }
    destruct (st_raw_run w off val s Hok Ho) as (l & El & Hok' & Hw'); [by rewrite Epo|done|]. rewrite Eraw.
    eexists. split; [by rewrite (bind_silent _ _ _ _ _ El)|]. split; [|by intros _].
    constructor; [exact Hw'|exact Hok'| |done| | |].
    + exists 0xff, 0xff. by split_and!.
    + by apply (coherent_mem s).
    + intros m i x' Hx'. exact (Htk m i x' Hx').
    + apply buffer_refl.
  - assert (page_offset (addr_write x) <> 0) as Hn by (rewrite Eaw, marked_offset; done).
    destruct (Z.eqb_spec (page_offset (addr_write x)) 0); [done|]. cbn [negb Z.eqb].
    destruct (notdirty_run s tr r w va (mmu =? MMU_USER_IDX) val pa prot size off f) as (s' & En & H1 & H2 & H3 & H4 & H5 & (t & H6) & H7); try done.
    { by rewrite Epo. }
    exists s'. split; [|split].
    + assert (io_st w io val va = io_st1 w (io_handler io) (u32 (page_base io + va)) val va) as -> by (unfold io_st; destruct w as [|[|[|[|]]]]; (done || lia)).
      unfold io_st1. rewrite Eh, Epa, Z.eqb_refl. erewrite bind_Done by exact En. unfold ret. cbv iota. by rewrite app_nil_r.
    + constructor; try done. rewrite H6. exists t, (iotlb (env s)), (tlb_flush_addr (env s)), (tlb_flush_mask (env s)). by destruct (env s).
    + intros Eq. by rewrite Eq, page_base_offset in Hn.
Qed.

(** Filling the buffer first does not matter. *)
Lemma stored_after s s1 s2 off d tr r :
  same_but_buffer (env s) (env s1) -> same_but_order (mem s) (mem s1) -> stored s1 s2 off d tr r -> stored s s2 off d tr r.
Proof.
  intros Hbuf Hso [H1 H2 H3 H4 H5 H6 H7]. constructor; try done.
  - intros y v. etransitivity; [apply H1|]. destruct (decide _); [done|]. apply (order_in_ram _ _ _ _ Hso).
  - destruct Hso as (l & El & _). destruct H3 as (f0 & f0' & E0 & E0' & E3 & E4 & E5). exists f0, f0'. rewrite El in E0, E5. by split_and!.
  - destruct Hso as (l & El & _). unfold same_map in *. by rewrite H4, El.
  - by eapply buffer_trans.
Qed.

(** A store that has no translation. *)
Lemma store_fault s tr r w mmu va val code :
  view_ok tr -> translates s tr -> coherent s tr r -> ram_ok (mem s) ->
  (w < 3)%nat -> fits 32 va -> va mod data_size w = 0 -> 0 <= mmu < NB_MMU_MODES ->
  tr va access_store (mmu =? MMU_USER_IDX) = Some (inl code) ->
  exists s', st_virt w va val mmu s = Done (false, s', @nil (machine_event E)) /\
    reports (env s') access_store va code /\ same_but_order (mem s) (mem s').
Proof.
  intros Htr Ht Hc Hok Hw Hva Hal Hm Et. pose proof Hc as (Hs & _ & Hent).
  destruct (tlb_entry_run (E := E) s va mmu Hs Hm) as (x & io & Ex & Hx & Hio). destruct (aligned_within va w ltac:(lia) Hal) as [Hlow _].
  assert (page_base va <> entry_page (addr_write x)) as Hmiss.
  { intros Hhit. destruct (Hent _ _ _ _ access_store Hva ltac:(done) Hx Hhit) as (_ & pa & prot & size & dirty & Et' & _). congruence. }
  unfold st_virt. rewrite (bind_silent _ _ _ _ _ Ex). rewrite Hlow, Z.lor_0_r.
  destruct (Z.eqb_spec (addr_write x) (page_base va)) as [Eq|_].
  { exfalso. apply Hmiss. by rewrite Eq, entry_page_base. }
  cbn [st_mmu]. rewrite (bind_silent _ _ _ _ _ Ex).
  destruct (Z.eqb_spec (page_base va) (entry_page (addr_write x))) as [|_]; [done|].
  destruct (tlb_fill_run s tr r mmu va access_store _ Htr Ht Hc Hok Hva ltac:(done) Hm Et) as (s' & Ef & Hrep).
  exists s'. split; [by rewrite (bind_silent _ _ _ _ _ Ef)|done].
Qed.

(** A store that has a translation to RAM. *)
Lemma store_run s tr r w mmu va val pa prot size off f :
  view_ok tr -> one_address tr -> translates s tr -> coherent s tr r -> ram_ok (mem s) -> writes_tracked s ->
  (w < 3)%nat -> fits 32 va -> va mod data_size w = 0 -> 0 <= mmu < NB_MMU_MODES ->
  tr va access_store (mmu =? MMU_USER_IDX) = Some (inr (pa, prot, size)) ->
  ram_region (mem s) pa (data_size w) off -> off < 2 ^ 32 -> dirty_at (mem s) off = Some f ->
  exists s' r', st_virt w va val mmu s = Done (true, s', invalidations f off (data_size w)) /\
    stored s s' off (le_bytes (width_bytes w) val) tr r'.
Proof.
  intros Htr Hone Ht Hc Hok Htk Hw Hva Hal Hm Et Hreg Hlt Hf. assert (0 <= access_store < 3) as K by done.
  pose proof Hc as (Hs & _). destruct (tlb_entry_run (E := E) s va mmu Hs Hm) as (x & io & Ex & Hx & Hio).
  destruct (aligned_within va w ltac:(lia) Hal) as [Hlow _]. destruct (data_size_bound w ltac:(lia)) as [Hd0 _].
  destruct (view_size _ Htr _ _ _ _ _ _ Hva K Et) as (_ & Hoff & _).
  unfold st_virt. rewrite (bind_silent _ _ _ _ _ Ex). rewrite Hlow, Z.lor_0_r.
  destruct (Z.eqb_spec (page_base va) (entry_page (addr_write x))) as [Hhit|Hmiss].
  - destruct (st_hit_run s tr r w va mmu x io val pa prot size off f (slow_st 4 w va val mmu) Hc Hone Hok Htk Hw Hva Hal Hm Et Hoff Hreg Hlt Hf Hx Hio Hhit) as (s' & Eh & Hst & Hraw).
    exists s', r. split; [|done]. destruct (Z.eqb_spec (addr_write x) (page_base va)) as [Eq|_].
    + destruct (Hraw Eq) as [Er Einv]. by rewrite Einv, (bind_silent _ _ _ _ _ Er).
    + cbn [st_mmu]. rewrite (bind_silent _ _ _ _ _ Ex). rewrite (proj2 (Z.eqb_eq _ _) Hhit). exact Eh.
  - destruct (Z.eqb_spec (addr_write x) (page_base va)) as [Eq|_].
    { exfalso. apply Hmiss. by rewrite Eq, entry_page_base. }
    cbn [st_mmu]. rewrite (bind_silent _ _ _ _ _ Ex).
    destruct (Z.eqb_spec (page_base va) (entry_page (addr_write x))) as [|_]; [done|].
    destruct (tlb_fill_run s tr r mmu va access_store _ Htr Ht Hc Hok Hva ltac:(done) Hm Et _ off Hreg Hd0) as (s1 & r1 & x1 & Ef & Hs1 & Hc1 & Hx1 & Hhit & Htk1).
    rewrite (bind_silent _ _ _ _ _ Ef). pose proof Hc1 as (Hsh1 & _).
    destruct (tlb_entry_run (E := E) s1 va mmu Hsh1 Hm) as (x1' & io1 & Ex1 & Hx1' & Hio1).
    assert (x1' = x1) as -> by congruence. rewrite (bind_silent _ _ _ _ _ Ex1). pose proof Hs1 as [Hbuf Hso].
    assert (dirty_at (mem s1) off = Some f) as Hf1 by (destruct Hso as (l & -> & _); exact Hf).
    destruct (st_hit_run s1 tr r1 w va mmu x1 io1 val pa prot size off f (slow_st 4 w va val mmu) Hc1 Hone (order_ok _ _ Hso Hok) (Htk1 Htk) Hw Hva Hal Hm Et Hoff
      (same_region s _ _ _ _ Hs1 Hreg) Hlt Hf1 Hx1 Hio1 Hhit) as (s' & Eh & Hst & _).
    change (addr_of x1 access_store) with (addr_write x1) in Hhit. rewrite (proj2 (Z.eqb_eq _ _) Hhit).
    exists s', r1. split; [exact Eh|]. by apply (stored_after s s1).
Qed.

(** C20.  A store through a coherent buffer, whatever the buffer holds, stores to the
    RAM at the translated address and nowhere else; the page is marked, the cache of
    translated code is told if the page may have code, and the buffer stays coherent
    and hides no later store; without a translation the fault is reported and
    nothing is stored. *)
Theorem store_through_buffer s tr r w mmu va val t :
  view_ok tr -> one_address tr -> translates s tr -> coherent s tr r -> ram_ok (mem s) -> writes_tracked s ->
  (w < 3)%nat -> fits 32 va -> va mod data_size w = 0 -> 0 <= mmu < NB_MMU_MODES ->
  tr va access_store (mmu =? MMU_USER_IDX) = Some t ->
  match t with
  | inr (pa, _, _) => forall off f, ram_region (mem s) pa (data_size w) off -> off < 2 ^ 32 -> dirty_at (mem s) off = Some f ->
      exists s' r', st_virt w va val mmu s = Done (true, s', invalidations f off (data_size w)) /\
        stored s s' off (le_bytes (width_bytes w) val) tr r'
  | inl code => exists s', st_virt w va val mmu s = Done (false, s', @nil (machine_event E)) /\
      reports (env s') access_store va code /\ same_but_order (mem s) (mem s')
  end.
Proof.
  intros Htr Hone Ht Hc Hok Htk Hw Hva Hal Hm Et. destruct t as [code|[[pa prot] size]].
  { by apply (store_fault s tr r). }
  intros off f Hreg Hlt Hf. by apply (store_run s tr r w mmu va val pa prot size off f).
Qed.
End StoreFacts.

(** ** Protecting translated code *)

Section Protect.
Context {F W E : Type} `{IoDevices F W E} `{CodeCache W}.
Implicit Types s : machine F W.

(** Pages are RAM, or something whose accesses are marked in the buffer. *)
Definition pages_marked (m : memory_state F W) : Prop := forall pa, fits 32 pa ->
  let pd := (descriptor m pa).1 in
  page_offset pd = IO_MEM_RAM \/ IO_MEM_ROM <= page_offset pd \/ test pd IO_MEM_ROMD = true.

Lemma store_address_plain pd v d :
  page_offset pd = IO_MEM_RAM \/ IO_MEM_ROM <= page_offset pd \/ test pd IO_MEM_ROMD = true ->
  page_offset (store_address pd (page_base v) d) = 0 ->
  store_address pd (page_base v) d = page_base v /\ forall d', store_address pd (page_base v) d' = if d' : bool then page_base v else page_base v .| TLB_NOTDIRTY.
Proof.
  intros Hpd. unfold store_address, load_address. destruct (_ || _) eqn:Erom.
  { destruct (reads_io pd); rewrite <- ?Z.lor_assoc, marked_offset; done. }
  apply orb_false_iff in Erom as [Erom Eromd]. apply Z.eqb_neq in Erom. unfold reads_io. rewrite Eromd, andb_true_r.
  destruct Hpd as [Hpd|[Hpd|Hpd]]; [| |congruence].
  - rewrite Hpd. change (IO_MEM_ROM <? IO_MEM_RAM) with false. change (IO_MEM_RAM =? IO_MEM_RAM) with true. cbv iota.
    destruct d; [|by rewrite marked_offset]. intros _. split; [done|]. by intros [].
  - destruct (Z.ltb_spec IO_MEM_ROM (page_offset pd)); [|lia].
    destruct (Z.eqb_spec (page_offset pd) IO_MEM_RAM) as [E0|]; [rewrite E0 in *; done|]. by rewrite marked_offset.
Qed.

Lemma reset_made pd va prot d start len :
  page_offset pd = IO_MEM_RAM \/ IO_MEM_ROM <= page_offset pd \/ test pd IO_MEM_ROMD = true ->
  exists d', tlb_reset_dirty_range (made_entry pd (page_base va) prot d) start len = made_entry pd (page_base va) prot d'.
Proof.
  intros Hpd. unfold tlb_reset_dirty_range.
  destruct (Z.eqb_spec (page_offset (addr_write (made_entry pd (page_base va) prot d))) IO_MEM_RAM) as [E0|]; [|by exists d].
  cbv zeta. destruct (_ <? _); [|by exists d]. exists false. unfold made_entry in *. cbn [addr_write] in *.
  destruct (test prot PAGE_WRITE); [|done]. destruct (store_address_plain pd va d Hpd E0) as [Ep Ed].
  unfold upd. cbn. f_equal. rewrite (Ed false), Ep. by rewrite page_base_idem.
Qed.

Lemma reset_page x start len kind : entry_page (addr_of (tlb_reset_dirty_range x start len) kind) = entry_page (addr_of x kind).
Proof.
  unfold tlb_reset_dirty_range. destruct (Z.eqb_spec (page_offset (addr_write x)) IO_MEM_RAM) as [E0|]; [|done].
  cbv zeta. destruct (_ <? _); [|done]. unfold addr_of, upd. cbn. destruct (kind =? access_fetch); [done|].
  destruct (kind =? access_store); [|done].
  assert (addr_write x = page_base (addr_write x)) as E1 by (rewrite (page_parts (addr_write x)) at 1; change IO_MEM_RAM with 0 in E0; lia).
  rewrite <- E1. unfold entry_page. by rewrite Z.land_lor_distr_l, Z.lor_0_r.
Qed.

Definition reset_table start len s : machine F W :=
  mk_machine ((env s) <| tlb_table ::= map (map (fun x => tlb_reset_dirty_range x start len)) |>) (mem s).

Lemma entry_of_map (f : CPUTLBEntry -> CPUTLBEntry) e m i : entry_of (e <| tlb_table ::= map (map f) |>) m i = f <$> entry_of e m i.
Proof.
  unfold entry_of. change (tlb_table (e <| tlb_table ::= map (map f) |>)) with (map (map f) (tlb_table e)). unfold aget.
  destruct (m <? 0); [done|]. rewrite list_lookup_fmap. destruct (tlb_table e !! Z.to_nat m) as [t|]; [|done]. cbn.
  destruct (i <? 0); [done|]. by rewrite list_lookup_fmap.
Qed.

Lemma map_shape (f : CPUTLBEntry -> CPUTLBEntry) e : table_shape e -> table_shape (e <| tlb_table ::= map (map f) |>).
Proof.
  intros (H1 & H2 & H3 & H4). unfold table_shape, zlen in *. change (tlb_table (e <| tlb_table ::= map (map f) |>)) with (map (map f) (tlb_table e)).
  split; [by rewrite length_map|]. split; [|done]. apply Forall_map. eapply Forall_impl; [exact H2|]. intros t Ht. cbn. by rewrite length_map.
Qed.

Lemma reset_coherent s tr r start len : view_ok tr -> pages_marked (mem s) -> coherent s tr r -> coherent (reset_table start len s) tr r.
Proof.
  intros Htr Hpages (Hs & Hr & Hent). split; [by apply map_shape|]. split; [by destruct r as [[]|]|].
  intros mmu i x' va kind Hva Hk Hx' Hp. unfold reset_table in Hx'. cbn [env] in Hx'. rewrite entry_of_map in Hx'.
  destruct (entry_of (env s) mmu i) as [x|] eqn:Ex; [|done]. injection Hx' as <-. rewrite reset_page in Hp.
  destruct (Hent _ _ _ _ _ Hva Hk Ex Hp) as (Hi & pa & prot & size & d & Ht & Hsz & Hxd & Hio). split; [done|].
  destruct (reset_made (descriptor (mem s) pa).1 va prot d start len (Hpages pa (proj1 (view_size _ Htr _ _ _ _ _ _ Hva Hk Ht)))) as [d' Ed]. exists pa, prot, size, d'.
  split; [done|]. split; [done|]. split; [|exact Hio]. cbn [mem reset_table]. by rewrite Hxd, Ed.
Qed.

(** Masking the flags of one page. *)
Lemma mask_one (m : memory_state F W) a mask f :
  dirty_at m a = Some f ->
  exists d, mask_dirty 1 (a >> TARGET_PAGE_BITS) mask (phys_dirty m) = Some d /\ length d = length (phys_dirty m) /\
    forall b, dirty_at (m <| phys_dirty := d |>) b = if decide (b >> TARGET_PAGE_BITS = a >> TARGET_PAGE_BITS) then Some (f .& mask) else dirty_at m b.
Proof.
  unfold dirty_at. intros Hf. cbn [mask_dirty]. rewrite Hf. cbn.
  pose proof (aset_Some (phys_dirty m) _ (f .& mask) (aget_bounds _ _ _ Hf)) as Hset. rewrite Hset. cbn.
  eexists. split; [done|]. split; [apply length_insert|]. intros b.
  destruct (decide _) as [->|Hne]; [by apply (aget_aset_eq _ _ _ _ Hset)|]. apply (aget_aset_ne _ _ _ _ _ (not_eq_sym Hne) Hset).
Qed.

Lemma page_next off : page_offset off = 0 -> 0 <= off < 2 ^ 32 ->
  page_base off = off /\ TARGET_PAGE_ALIGN (u64 (off + TARGET_PAGE_SIZE)) = off + TARGET_PAGE_SIZE /\
  u64 (off + TARGET_PAGE_SIZE - off) = TARGET_PAGE_SIZE /\ u64 (off + TARGET_PAGE_SIZE - 1) = off + 1023.
Proof.
  intros Ho Hb. pose proof (page_parts off) as Hp. rewrite Ho, Z.add_0_r in Hp. rewrite page_base_block in Hp.
  unfold TARGET_PAGE_ALIGN. rewrite !page_base_block. change TARGET_PAGE_SIZE with 1024 in *.
  rewrite (wrap_fits 64 (off + 1024)) by (unfold fits; lia). rewrite !wrap_fits by (unfold fits; lia). split; [lia|]. split; [|lia].
  rewrite Hp at 1. replace (off / 2 ^ 10 * 2 ^ 10 + 1024 + 1024 - 1) with (1023 + (off / 2 ^ 10 + 1) * 2 ^ 10) by lia.
  rewrite Z.div_add by lia. change (1023 / 2 ^ 10) with 0. lia.
Qed.

(** After the reset, an entry that lets stores pass leads to another page. *)
Lemma reset_passes x off :
  page_offset off = 0 -> 0 <= off < 2 ^ 32 ->
  let x' := tlb_reset_dirty_range x off TARGET_PAGE_SIZE in page_offset (addr_write x') = 0 ->
  x' = x /\ u64 (addr_write x + addend x) >> TARGET_PAGE_BITS <> off >> TARGET_PAGE_BITS.
Proof.
  intros Ho Hb. cbv zeta. unfold tlb_reset_dirty_range. change IO_MEM_RAM with 0.
  destruct (Z.eqb_spec (page_offset (addr_write x)) 0) as [E0|]; [|done].
  assert (page_base (addr_write x) = addr_write x) as -> by (rewrite (page_parts (addr_write x)) at 2; lia).
  cbv zeta. destruct (Z.ltb_spec (u64 (u64 (addr_write x + addend x) - off)) TARGET_PAGE_SIZE) as [|Hout].
  - intros Hn. unfold upd in Hn. cbn in Hn.
    assert (page_base (addr_write x) = addr_write x) as Epb by (rewrite (page_parts (addr_write x)) at 2; lia).
    rewrite <- Epb, marked_offset in Hn. done.
  - intros _. split; [done|]. intros Eq. set (y := u64 (addr_write x + addend x)) in *.
    assert (fits 64 y) as Hy by (by apply fits_wrap).
    assert (page_base y = off) as Epb.
    { rewrite (page_parts off), Ho, Z.add_0_r. apply same_page. rewrite !shiftr_div in Eq by done. exact Eq. }
    pose proof (page_parts y) as Hpy. pose proof (page_offset_bound y) as Hby. rewrite wrap_fits in Hout by (unfold fits in *; lia). lia.
Qed.

(** Once code on a page is protected, no entry lets a store to the page pass. *)
Lemma protect_run s tr r off f :
  view_ok tr -> pages_marked (mem s) -> coherent s tr r -> ram_ok (mem s) -> writes_tracked s ->
  page_offset off = 0 -> 0 <= off < 2 ^ 32 -> (exists v, in_ram (mem s) off v) -> dirty_at (mem s) off = Some f -> fits 8 f ->
  exists t d s', s' = mk_machine ((env s) <| tlb_table := t |>) ((mem s) <| phys_dirty := d |>) /\
    tlb_protect_code off s = Done (tt, s', @nil (machine_event E)) /\ coherent s' tr r /\ ram_ok (mem s') /\ writes_tracked s' /\
    dirty_at (mem s') off = Some (f .&~ CODE_DIRTY_FLAG) /\
    (forall b, b >> TARGET_PAGE_BITS <> off >> TARGET_PAGE_BITS -> dirty_at (mem s') b = dirty_at (mem s) b) /\
    forall m i x, entry_of (env s') m i = Some x -> page_offset (addr_write x) = 0 ->
      u64 (addr_write x + addend x) >> TARGET_PAGE_BITS <> off >> TARGET_PAGE_BITS.
Proof.
  intros Htr Hpages Hc Hok Htk Hoff Hoff0 Hin Hf Hf8. pose proof Hin as (v & b & Hb & Hh & _).
  pose proof Hok as (Hall & Hdis & Hdirty). assert (block_ok b) as Hbok by (rewrite Forall_forall in Hall; by apply Hall).
  assert (off + 1024 <= offset b + blength b) as Hend by (apply page_in_block; [done|done|change TARGET_PAGE_SIZE with 1024; lia]).
  destruct (take_block_spec off (blocks (mem s)) b Hall) as (r1 & Et1 & _); [lia|done|done|done|].
  destruct (take_block_spec (off + 1023) (blocks (mem s)) b Hall) as (r2 & Et2 & _); [lia|done|unfold holds in *; lia|done|].
  destruct (page_next off Hoff Hoff0) as (Epb & Eend & Elen & Elast).
  destruct (mask_one (mem s) off (u8 (Z.lnot CODE_DIRTY_FLAG)) f Hf) as (d & Ed & Hl & Hd).
  set (s1 := s <| mem ::= fun m => m <| phys_dirty := d |> |> : machine F W).
  eexists _, d, (reset_table off TARGET_PAGE_SIZE s1). split; [reflexivity|]. split; [|split_and!].
  - unfold tlb_protect_code, cpu_physical_memory_reset_dirty. cbv zeta. rewrite Epb, Eend, Elen, Elast.
    change (TARGET_PAGE_SIZE =? 0) with false. change (Z.to_nat (TARGET_PAGE_SIZE >> TARGET_PAGE_BITS)) with 1%nat. cbv iota.
    rewrite bind_gets, Ed. cbn [lift]. rewrite bind_ret, bind_modify, bind_gets. fold s1. change (blocks (mem s1)) with (blocks (mem s)).
    rewrite Et1, Et2. cbn [fmap option_fmap option_map fst or_abort]. rewrite !bind_ret. by rewrite Z.eqb_refl.
  - apply reset_coherent; [done| |by apply (coherent_mem s)]. exact Hpages.
  - by apply dirty_length_ok.
  - intros m i x' Hx'. unfold reset_table in Hx'. cbn [env] in Hx'. rewrite entry_of_map in Hx'.
    change (env s1) with (env s) in Hx'. destruct (entry_of (env s) m i) as [x|] eqn:Ex; [|done]. injection Hx' as <-. intros Hp.
    destruct (reset_passes x off Hoff Hoff0 Hp) as [Exx Hne]. rewrite Exx in Hp |- *. change (dirty_at ((mem s) <| phys_dirty := d |>) (u64 (addr_write x + addend x)) = Some 0xff).
    rewrite Hd, decide_False by done. apply (Htk _ _ _ Ex Hp).
  - change (dirty_at ((mem s) <| phys_dirty := d |>) off = Some (f .&~ CODE_DIRTY_FLAG)). rewrite Hd, decide_True by done. f_equal.
    apply Z.bits_inj'. intros i Hi. rewrite Z.land_spec, Z.ldiff_spec, testbit_wrap by lia.
    destruct (Z.ltb_spec i 8); [by rewrite Z.lnot_spec|]. by rewrite (fits_high 8 f) by (done || lia).
  - intros b' Hb'. change (dirty_at ((mem s) <| phys_dirty := d |>) b' = dirty_at (mem s) b'). by rewrite Hd, decide_False.
  - intros m i x' Hx' Hp. unfold reset_table in Hx'. cbn [env] in Hx'. rewrite entry_of_map in Hx'.
    destruct (entry_of (env s1) m i) as [x|] eqn:Ex; [|done]. injection Hx' as <-.
    destruct (reset_passes x off Hoff Hoff0 Hp) as [Exx Hne]. by rewrite Exx.
Qed.

(** The translation of an address does not depend on who stores. *)
Lemma regime_one_address rd e : one_address (regime rd e).
Proof.
  intros va u u' pa prot size pa' prot' size'. unfold regime. destruct (_ =? 0); [congruence|].
  destruct (arm_feature _ _); [done|]. destruct (test _ _); [|done]. unfold translate_v6.
  destruct (rd _) as [d|]; [|done]. cbn [mbind option_bind].
  assert (forall dacr frame j ap xn c af v p1 q1 w1 p2 q2 w2,
    frame_v6 e v access_store u dacr frame j ap xn c af = inr (p1, q1, w1) ->
    frame_v6 e v access_store u' dacr frame j ap xn c af = inr (p2, q2, w2) -> p1 = p2) as Hframe.
  { intros *. unfold frame_v6, status. cbv zeta. intros H1 H2. by repeat case_match; simplify_eq. }
  destruct (decode_l1 d) as [|table dom|frame j dom ap xn]; [done|..]; cbv zeta; (destruct (checked _); [|done]).
  - destruct (rd _) as [d2|]; [|done]. cbn [mbind option_bind]. destruct (decode_l2 d2); [done|].
    intros [= H1] [= H2]. eapply Hframe; [exact H1|exact H2].
  - intros [= H1] [= H2]. eapply Hframe; [exact H1|exact H2].
Qed.

(** Code that is translated and protected is thrown away by every store to its
    page, whatever the buffer held when it was translated. *)
Theorem protected_store_noticed s rd r page f w mmu va val pa prot size off :
  let tr := regime rd (env s) in
  ram_ok (mem s) -> reads (mem s) rd -> control_ok (env s) -> pages_marked (mem s) -> coherent s tr r -> writes_tracked s ->
  page_offset page = 0 -> 0 <= page < 2 ^ 32 -> (exists v, in_ram (mem s) page v) -> dirty_at (mem s) page = Some f -> fits 8 f ->
  (w < 3)%nat -> fits 32 va -> va mod data_size w = 0 -> 0 <= mmu < NB_MMU_MODES ->
  tr va access_store (mmu =? MMU_USER_IDX) = Some (inr (pa, prot, size)) ->
  ram_region (mem s) pa (data_size w) off -> off < 2 ^ 32 -> off >> TARGET_PAGE_BITS = page >> TARGET_PAGE_BITS ->
  exists s1 s2 r2, tlb_protect_code page s = Done (tt, s1, @nil (machine_event E)) /\
    st_virt w va val mmu s1 = Done (true, s2, [InMemory (MemInvalidate off (u64 (off + data_size w)))]) /\
    stored s1 s2 off (le_bytes (width_bytes w) val) tr r2.
Proof.
  intros tr Hok Hrd Hctl Hpages Hc Htk Hpo Hp Hin Hf Hf8 Hw Hva Hal Hm Et Hreg Hlt Hpage.
  assert (view_ok tr) as Htr by (apply regime_ok; [done|intros a v Ha; by apply (Hrd a v)]).
  destruct (protect_run s tr r page f Htr Hpages Hc Hok Htk Hpo Hp Hin Hf Hf8) as (t & d & s1 & Es & E1 & Hc1 & Hok1 & Htk1 & Hf1 & _).
  assert (same_but_buffer (env s) (env s1)) as Hbuf.
  { rewrite Es. exists t, (iotlb (env s)), (tlb_flush_addr (env s)), (tlb_flush_mask (env s)). by destruct (env s). }
  assert (translates s1 tr) as Ht1.
  { intros s' va' kind u t' Hs' Hva' Hk Et'. unfold tr in Et'. rewrite <- (regime_buffer rd (env s) (env s1)) in Et' by done.
    refine (regime_translates s1 rd Hok1 _ _ s' va' kind u t' Hs' Hva' Hk Et'); rewrite Es; [exact Hrd|exact Hctl]. }
  assert (dirty_at (mem s1) off = Some (f .&~ CODE_DIRTY_FLAG)) as Hf1' by (unfold dirty_at in *; by rewrite Hpage).
  destruct (store_run s1 tr r w mmu va val pa prot size off (f .&~ CODE_DIRTY_FLAG)) as (s2 & r2 & E2 & Hst); try done.
  { apply regime_one_address. }
  { rewrite Es. exact Hreg. }
  exists s1, s2, r2. split; [exact E1|]. split; [|exact Hst]. rewrite E2. unfold invalidations.
  assert (test (f .&~ CODE_DIRTY_FLAG) CODE_DIRTY_FLAG = false) as ->; [|done].
  unfold test. assert ((f .&~ CODE_DIRTY_FLAG) .& CODE_DIRTY_FLAG = 0) as ->; [|done].
  apply Z.bits_inj'. intros i Hi. rewrite Z.land_spec, Z.ldiff_spec, Z.bits_0. destruct (Z.testbit f i), (Z.testbit CODE_DIRTY_FLAG i); done.
Qed.
End Protect.

(** ** A machine *)

Module StoreDemo.
Import MemoryDemo ArmDemo MmuDemo.

(** Code is left wherever it is asked about. *)
#[local] Instance code : CodeCache (Z * Z * Z) := fun _ _ _ => true.

Lemma demo_tracked (s : demo_machine) : env s = env1 -> writes_tracked s.
Proof.
  intros He mmu i x Hx Hplain. exfalso. rewrite He in Hx. unfold entry_of in Hx. change (tlb_table env1) with (replicate 2 (replicate 256 s_cputlb_empty_entry)) in Hx.
  unfold aget in Hx. destruct (mmu <? 0); [done|]. destruct (replicate 2 _ !! _) as [t|] eqn:Et; [|done]. cbn [mbind option_bind] in Hx.
  destruct (i <? 0); [done|]. apply lookup_replicate in Et as [-> _]. apply lookup_replicate in Hx as [-> _]. by vm_compute in Hplain.
Qed.

Lemma demo_region (s : demo_machine) : ram_region (mem s) 0x2004 4 0x2004 -> exists v, in_ram (mem s) 0x2004 v.
Proof. intros (_ & _ & _ & Hb). by apply (Hb 0). Qed.

(** A word stored at 0x3004 arrives at 0x2004; a store to 0x4000 faults. *)
Lemma store_witness :
  exists s : demo_machine,
    (exists s', st_virt (E := Empty_set) 2 0x3004 0xcafe 0 s = Done (true, s', []) /\ in_ram (mem s') 0x2004 0xfe) /\
    exists s', st_virt (E := Empty_set) 2 0x4000 0xcafe 0 s = Done (false, s', []) /\ reports (env s') access_store 0x4000 0x17.
Proof.
  destruct demo_machine_ok as (s & Hok & He & _ & Ht & Hcoh & Hreg & _ & Hdirty & _). exists s.
  pose proof (demo_tracked s He) as Htk. pose proof (regime_one_address tables env1) as Hone.
  assert (fits 32 0x3004 /\ fits 32 0x4000) as [F1 F2] by (split; by vm_compute).
  assert (0 <= 0 < NB_MMU_MODES) as K3 by done. assert (2 < 3)%nat as K5 by lia.
  split.
  - assert (demo_view 0x3004 access_store (0 =? MMU_USER_IDX) = Some (inr (0x2004, 7, 0x1000))) as Ev by (by vm_compute).
    destruct (store_through_buffer (E := Empty_set) s demo_view None 2 0 0x3004 0xcafe _ demo_view_ok Hone Ht Hcoh Hok Htk K5 F1 eq_refl K3 Ev
      0x2004 0xff Hreg ltac:(done) (Hdirty 8 ltac:(lia))) as (s' & r' & E & Hst).
    exists s'. split; [exact E|]. apply (st_written _ _ _ _ _ _ Hst). by vm_compute.
  - assert (demo_view 0x4000 access_store (0 =? MMU_USER_IDX) = Some (inl 0x17)) as Ev by (by vm_compute).
    destruct (store_through_buffer (E := Empty_set) s demo_view None 2 0 0x4000 0xcafe _ demo_view_ok Hone Ht Hcoh Hok Htk K5 F2 eq_refl K3 Ev)
      as (s' & E & Hrep & _).
    by exists s'.
Defined.

Lemma demo_pages (s : demo_machine) : (forall y, page_index y -> 20 <= y -> page_target (mem s) y = None) -> 
  ram_region (mem s) 0 0x5000 0 -> ram_ok (mem s) -> pages_marked (mem s).
Proof.
  intros Hfree Hreg Hok pa Hpa. cbv zeta. destruct (Z.lt_ge_cases pa 0x5000).
  - left. unfold fits in Hpa. destruct (ram_descriptor (mem s) pa 1 pa Hok) as (Hr & _); [|done|done].
    rewrite <- (Z.add_0_l pa). apply (ram_region_sub (mem s) 0 0x5000 0 pa 1); [done|lia|lia|lia].
  - right. left. unfold descriptor.
    assert (page_index (page_base pa >> TARGET_PAGE_BITS) /\ 20 <= page_base pa >> TARGET_PAGE_BITS) as [Hi Hk].
    { rewrite page_number. unfold page_index. rewrite shiftr_div by done. change (2 ^ (_ - _)) with (2 ^ 22). change (2 ^ TARGET_PAGE_BITS) with 1024. unfold fits in Hpa.
      Z.div_mod_to_equations. lia. }
    specialize (Hfree _ Hi Hk). unfold page_target, assigned in Hfree. destruct (phys_page_find _ _) as [d|]; [|done].
    cbn [mbind option_bind] in Hfree. destruct (Z.eqb_spec (phys_offset d) IO_MEM_UNASSIGNED) as [E0|]; [|done]. cbn [fst]. by rewrite E0.
Qed.
(** Code at 0x2000 that is protected is noticed by the store to 0x3004. *)
Lemma protected_demo :
  exists s s1 s2 : demo_machine, tlb_protect_code (E := Empty_set) 0x2000 s = Done (tt, s1, []) /\
    st_virt 2 0x3004 0xcafe 0 s1 = Done (true, s2, [InMemory (MemInvalidate 0x2004 0x2008)]).
Proof.
  destruct demo_machine_ok as (s & Hok & He & Hrd & _ & Hcoh & Hreg & _ & Hdirty & Hfree & Hall).
  pose proof (demo_tracked s He) as Htk. pose proof (demo_pages s Hfree Hall Hok) as Hpages.
  assert (exists v, in_ram (mem s) 0x2000 v) as Hin by (destruct Hall as (_ & _ & _ & Hb); by apply (Hb 0x2000)).
  assert (0 <= 0 < NB_MMU_MODES) as K3 by done. assert (2 < 3)%nat as K5 by lia. pose proof env1_control as Hctl.
  assert (regime tables env1 0x3004 access_store (0 =? MMU_USER_IDX) = Some (inr (0x2004, 7, 0x1000))) as Ev by (by vm_compute).
  change demo_view with (regime tables env1) in Hcoh. rewrite <- He in Hctl, Ev, Hcoh.
  assert (fits 32 0x3004 /\ fits 8 0xff) as [F1 F2] by (split; by vm_compute).
  destruct (protected_store_noticed (E := Empty_set) s tables None 0x2000 0xff 2 0 0x3004 0xcafe 0x2004 7 0x1000 0x2004 Hok Hrd Hctl Hpages Hcoh Htk
    eq_refl ltac:(done) Hin (Hdirty 8 ltac:(lia)) F2 K5 F1 eq_refl K3 Ev Hreg ltac:(done) eq_refl) as (s1 & s2 & r2 & E1 & E2 & _).
  by exists s, s1, s2.
Qed.
End StoreDemo.
