(* ===== verification/ArmExcp.v ===== *)
(** * ArmExcp: exceptions and interrupts ([target-arm/helper.c],
    [target-arm/cpu.h], [hw/arm_pic.c], [exec.c], [cpu-exec.c])

    Entering an exception saves the status register and the return address in
    the bank of the new mode, masks interrupts and jumps to a vector.  Interrupt
    lines set bits of [interrupt_request], which the loop of [cpu_exec] looks at
    between two blocks of translated code.  The microcontroller profile keeps
    its registers on the stack instead, and leaves priorities to its interrupt
    controller.

    Translated code, the microcontroller's interrupt controller and semihosting
    are an interface, [ArmServices].  A [longjmp] to the processor loop is the
    value [None].  The debugger is not attached. *)
From S2P Require Import Prelude Words ArmCpu Memory ArmMmu ArmTlb.

Definition ARMV7M_EXCP_MEM := 4.
Definition ARMV7M_EXCP_USAGE := 6.
Definition ARMV7M_EXCP_SVC := 11.
Definition ARMV7M_EXCP_DEBUG := 12.
Definition EXCP_INTERRUPT := 0x10000.
Definition EXCP_HLT := 0x10001.
Definition EXCP_DEBUG := 0x10002.
Definition EXCP_HALTED := 0x10003.
Definition ARM_PIC_CPU_IRQ := 0.
Definition ARM_PIC_CPU_FIQ := 1.

(** ** The status register of the microcontroller profile *)

Definition xpsr_read (env : CPUARMState) : Z :=
  let z := if ZF env =? 0 then 1 else 0 in
  (NF env .& 0x80000000) .| (z << 30) .| u32 (CF env << 29) .| ((VF env .& 0x80000000) >> 3) .| u32 (QF env << 27)
  .| u32 (thumb env << 24) .| ((condexec_bits env .& 3) << 25) .| ((condexec_bits env .& 0xfc) << 8)
  .| exception (v7m env).

Definition xpsr_write (val mask : Z) : cpu unit :=
  when (test mask CPSR_NZCV) (modify (fun s =>
    s <| ZF := CPSR_Z .&~ val |> <| NF := val |> <| CF := (val >> 29) .& 1 |>
      <| VF := u32 (val << 3) .& 0x80000000 |>)) ;;;
  when (test mask CPSR_Q) (modify (fun s => s <| QF := bool_Z (test val CPSR_Q) |>)) ;;;
  when (test mask (1 << 24)) (modify (fun s => s <| thumb := bool_Z (test val (1 << 24)) |>)) ;;;
  when (test mask CPSR_IT_0_1) (modify (fun s =>
    s <| condexec_bits ::= fun x => (x .&~ 3) .| ((val >> 25) .& 3) |>)) ;;;
  when (test mask CPSR_IT_2_7) (modify (fun s =>
    s <| condexec_bits ::= fun x => (x .& 3) .| ((val >> 8) .& 0xfc) |>)) ;;;
  when (test mask 0x1ff) (modify (fun s => s <| v7m ::= fun v => v <| exception := val .& 0x1ff |> |>)).

Definition switch_v7m_sp (process : Z) : cpu unit :=
  v <- gets v7m ;;
  if current_sp v =? process then ret tt
  else
    sp <- get_reg 13 ;;
    modify (fun s => s <| v7m ::= fun v => v <| other_sp := sp |> |>) ;;;
    set_reg 13 (other_sp v) ;;;
    modify (fun s => s <| v7m ::= fun v => v <| current_sp := process |> |>).

(** ** Entering an exception *)

(** The common end of [do_interrupt]. *)
Definition enter (new_mode addr mask offset : Z) : cpu unit :=
  c <- gets cp15 ;;
  let addr := if test (c1_sys c) (1 << 13) then u32 (addr + 0xffff0000) else addr in
  switch_mode new_mode ;;;
  modify (fun s => s <| spsr := cpsr_read s |> <| condexec_bits := 0 |>
                     <| uncached_cpsr ::= fun u => ((u .&~ CPSR_M) .| new_mode) .| mask |>
                     <| thumb := bool_Z (test (c1_sys (cp15 s)) (1 << 30)) |>) ;;;
  pc <- get_reg 15 ;;
  set_reg 14 (u32 (pc + offset)) ;;;
  set_reg 15 addr ;;;
  modify (fun s => s <| interrupt_request ::= fun r => r .| CPU_INTERRUPT_EXITTB |>).

(** ** Interrupt lines *)

Definition cpu_interrupt (mask : Z) : cpu unit := modify (fun s => s <| interrupt_request ::= fun r => r .| mask |>).
Definition cpu_reset_interrupt (mask : Z) : cpu unit := modify (fun s => s <| interrupt_request ::= fun r => r .&~ mask |>).
Definition cpu_exit : cpu unit := modify (fun s => s <| exit_request := 1 |>).

Definition arm_pic_cpu_handler (irq level : Z) : cpu unit :=
  switch irq
    [ (on ARM_PIC_CPU_IRQ, if negb (level =? 0) then cpu_interrupt CPU_INTERRUPT_HARD else cpu_reset_interrupt CPU_INTERRUPT_HARD);
      (on ARM_PIC_CPU_FIQ, if negb (level =? 0) then cpu_interrupt CPU_INTERRUPT_FIQ else cpu_reset_interrupt CPU_INTERRUPT_FIQ) ]
    hw_error.

Definition cpu_has_work (env : CPUARMState) : bool :=
  test (interrupt_request env) (CPU_INTERRUPT_FIQ .| CPU_INTERRUPT_HARD .| CPU_INTERRUPT_EXITTB).

(** What is not modelled: semihosting, the interrupt controller of the
    microcontroller profile, and blocks of translated code. *)
Class ArmServices (F W E : Type) `{IoDevices F W E} := {
  semihosting_enabled : bool;
  do_arm_semihosting : dev (machine F W) (machine_event E) Z;
  armv7m_nvic_set_pending : Z -> dev (machine F W) (machine_event E) unit;
  armv7m_nvic_acknowledge_irq : dev (machine F W) (machine_event E) Z;
  armv7m_nvic_complete_irq : Z -> dev (machine F W) (machine_event E) unit;
  run_block : dev (machine F W) (machine_event E) (option unit)
}.

Section Exceptions.
Context {F W E : Type} `{ArmServices F W E}.
Abbreviation machM := (dev (machine F W) (machine_event E)).

(** Going on after a part that may have left by [longjmp]. *)
Definition unless_left {A B} (m : machM (option A)) (k : A -> machM (option B)) : machM (option B) :=
  r <- m ;; match r with None => ret None | Some a => k a end.
Definition finish (m : machM unit) : machM (option unit) := m ;;; ret (Some tt).

Definition v7m_push (val : Z) : machM unit :=
  sp <- in_cpu (get_reg 13) ;; in_cpu (set_reg 13 (u32 (sp - 4))) ;;; in_memory (stl_phys (u32 (sp - 4)) val).
Definition v7m_pop : machM Z :=
  sp <- in_cpu (get_reg 13) ;; v <- in_memory (ldl_phys sp) ;; in_cpu (set_reg 13 (u32 (sp + 4))) ;;; ret v.
Definition pop_to (n : Z) : machM unit := v <- v7m_pop ;; in_cpu (set_reg n v).
Definition push_from (n : Z) : machM unit := v <- in_cpu (get_reg n) ;; v7m_push v.

Definition do_v7m_exception_exit : machM unit :=
  type <- in_cpu (get_reg 15) ;;
  e <- gets env ;;
  (if negb (exception (v7m e) =? 0) then armv7m_nvic_complete_irq (exception (v7m e)) else ret tt) ;;;
  in_cpu (switch_v7m_sp (bool_Z (test type 4))) ;;;
  pop_to 0 ;;; pop_to 1 ;;; pop_to 2 ;;; pop_to 3 ;;; pop_to 12 ;;; pop_to 14 ;;; pop_to 15 ;;;
  xpsr <- v7m_pop ;;
  in_cpu (xpsr_write xpsr 0xfffffdff ;;;
          when (test xpsr 0x200) (sp <- get_reg 13 ;; set_reg 13 (sp .| 4))).

(** An interrupt of the microcontroller profile: [xpsr] and [lr] are those of
    the interrupted program. *)
Definition stack_frame (xpsr lr : Z) : machM unit :=
  sp <- in_cpu (get_reg 13) ;;
  (if test sp 4 then in_cpu (set_reg 13 (u32 (sp - 4))) else ret tt) ;;;
  v7m_push (if test sp 4 then xpsr .| 0x200 else xpsr) ;;;
  push_from 15 ;;; push_from 14 ;;; push_from 12 ;;; push_from 3 ;;; push_from 2 ;;; push_from 1 ;;; push_from 0 ;;;
  in_cpu (switch_v7m_sp 0 ;;;
          modify (fun s => s <| uncached_cpsr ::= fun u => u .&~ CPSR_IT |>) ;;;
          set_reg 14 lr) ;;;
  e <- gets env ;;
  addr <- in_memory (ldl_phys (u32 (vecbase (v7m e) + exception (v7m e) * 4))) ;;
  in_cpu (set_reg 15 (addr .& 0xfffffffe) ;;; modify (fun s => s <| thumb := addr .& 1 |>)).

Definition do_interrupt_v7m : machM (option unit) :=
  e <- gets env ;;
  let xpsr := xpsr_read e in
  let lr := 0xfffffff1 .| (if current_sp (v7m e) =? 0 then 0 else 4) .| (if exception (v7m e) =? 0 then 8 else 0) in
  let skip := pc <- in_cpu (get_reg 15) ;; in_cpu (set_reg 15 (u32 (pc + 2))) in
  switch (exception_index e)
    [ (on EXCP_UDEF, finish (armv7m_nvic_set_pending ARMV7M_EXCP_USAGE));
      (on EXCP_SWI, finish (skip ;;; armv7m_nvic_set_pending ARMV7M_EXCP_SVC));
      (on_any [EXCP_PREFETCH_ABORT; EXCP_DATA_ABORT], finish (armv7m_nvic_set_pending ARMV7M_EXCP_MEM));
      (on EXCP_BKPT,
        unless_left
          (if semihosting_enabled then
             pc <- in_cpu (get_reg 15) ;;
             unless_left (lduw_code pc) (fun nr => ret (Some ((nr .& 0xff) =? 0xab)))
           else ret (Some false))
          (fun semi : bool =>
             if semi then finish (skip ;;; r <- do_arm_semihosting ;; in_cpu (set_reg 0 r))
             else finish (armv7m_nvic_set_pending ARMV7M_EXCP_DEBUG)));
      (on EXCP_IRQ,
        finish (n <- armv7m_nvic_acknowledge_irq ;;
                in_cpu (modify (fun s => s <| v7m ::= fun v => v <| exception := n |> |>)) ;;; stack_frame xpsr lr));
      (on EXCP_EXCEPTION_EXIT, finish do_v7m_exception_exit) ] hw_error.

(** Whether an exception is a call of the host: from privileged modes only. *)
Definition semihosting_call (e : CPUARMState) : machM (option bool) :=
  let privileged := negb (cpu_mode e =? ARM_CPU_MODE_USR) in
  if negb semihosting_enabled then ret (Some false)
  else if exception_index e =? EXCP_SWI then
    pc <- in_cpu (get_reg 15) ;;
    if negb (thumb e =? 0) then
      unless_left (lduw_code (u32 (pc - 2))) (fun v => ret (Some ((v .& 0xff =? 0xab) && privileged)))
    else unless_left (ldl_code (u32 (pc - 4))) (fun v => ret (Some ((v .& 0xffffff =? 0x123456) && privileged)))
  else if (exception_index e =? EXCP_BKPT) && negb (thumb e =? 0) then
    pc <- in_cpu (get_reg 15) ;;
    unless_left (lduw_code pc) (fun v => ret (Some ((v .& 0xff =? 0xab) && privileged)))
  else ret (Some false).

Definition do_interrupt : machM (option unit) :=
  e <- gets env ;;
  if IS_M e then do_interrupt_v7m
  else
    unless_left (semihosting_call e) (fun semi : bool =>
      if semi then
        finish (
          (if exception_index e =? EXCP_BKPT then
             pc <- in_cpu (get_reg 15) ;; in_cpu (set_reg 15 (u32 (pc + 2)))
           else ret tt) ;;;
          r <- do_arm_semihosting ;; in_cpu (set_reg 0 r))
      else
        switch (exception_index e)
          [ (on EXCP_UDEF, finish (in_cpu (enter ARM_CPU_MODE_UND 0x04 CPSR_I (if negb (thumb e =? 0) then 2 else 4))));
            (on EXCP_SWI, finish (in_cpu (enter ARM_CPU_MODE_SVC 0x08 CPSR_I 0)));
            (on_any [EXCP_BKPT; EXCP_PREFETCH_ABORT], finish (in_cpu (enter ARM_CPU_MODE_ABT 0x0c (CPSR_A .| CPSR_I) 4)));
            (on EXCP_DATA_ABORT, finish (in_cpu (enter ARM_CPU_MODE_ABT 0x10 (CPSR_A .| CPSR_I) 8)));
            (on EXCP_IRQ, finish (in_cpu (enter ARM_CPU_MODE_IRQ 0x18 (CPSR_A .| CPSR_I) 4)));
            (on EXCP_FIQ, finish (in_cpu (enter ARM_CPU_MODE_FIQ 0x1c (CPSR_A .| CPSR_I .| CPSR_F) 4))) ] hw_error).

(** ** The processor loop *)

Definition set_exception (n : Z) : machM unit := in_cpu (modify (fun s => s <| exception_index := n |>)).
Definition leave_with (n : Z) : machM (option unit) := set_exception n ;;; ret None.
Definition take (n : Z) : machM (option unit) := set_exception n ;;; do_interrupt.

(** The part of a turn before a block is run: [request] is the value of
    [interrupt_request] at its beginning. *)
Definition take_fiq (request : Z) : machM (option unit) :=
  e <- gets env ;;
  if test request CPU_INTERRUPT_FIQ && negb (test (uncached_cpsr e) CPSR_F) then take EXCP_FIQ else ret (Some tt).
Definition take_irq (request : Z) : machM (option unit) :=
  e <- gets env ;;
  pc <- in_cpu (get_reg 15) ;;
  if test request CPU_INTERRUPT_HARD && ((IS_M e && (pc <? 0xfffffff0)) || negb (test (uncached_cpsr e) CPSR_I))
  then take EXCP_IRQ else ret (Some tt).
Definition answer_requests (request : Z) : machM (option unit) :=
  if request =? 0 then ret (Some tt)
  else if test request CPU_INTERRUPT_DEBUG then
    in_cpu (cpu_reset_interrupt CPU_INTERRUPT_DEBUG) ;;; leave_with EXCP_DEBUG
  else if test request CPU_INTERRUPT_HALT then
    in_cpu (cpu_reset_interrupt CPU_INTERRUPT_HALT ;;; modify (fun s => s <| halted := 1 |>)) ;;; leave_with EXCP_HLT
  else
    unless_left (take_fiq request) (fun _ => unless_left (take_irq request) (fun _ =>
      finish (in_cpu (cpu_reset_interrupt CPU_INTERRUPT_EXITTB)))).
Definition check_exit : machM (option unit) :=
  e <- gets env ;;
  if negb (exit_request e =? 0) then
    in_cpu (modify (fun s => s <| exit_request := 0 |>)) ;;; leave_with EXCP_INTERRUPT
  else ret (Some tt).
Definition check_interrupts : machM (option unit) :=
  request <- gets (fun s => interrupt_request (env s)) ;;
  unless_left (answer_requests request) (fun _ => check_exit).

(** [cpu_exec]: the result is the exception that left the loop.  A turn is one
    block in the inner loop, or one look at [exception_index] in the outer, to
    which [longjmp] leads; [fuel] counts turns. *)
Fixpoint cpu_loop (fuel : nat) (inner : bool) : machM (option Z) :=
  match fuel with
  | O => ret None
  | S fuel' =>
      if inner then
        r <- unless_left check_interrupts (fun _ => run_block) ;;
        cpu_loop fuel' (bool_decide (r = Some tt))
      else
        e <- gets env ;;
        if EXCP_INTERRUPT <=? exception_index e then ret (Some (exception_index e))
        else
          r <- (if 0 <=? exception_index e then unless_left do_interrupt (fun _ => finish (set_exception (-1)))
                else ret (Some tt)) ;;
          cpu_loop fuel' (bool_decide (r = Some tt))
  end.
Definition cpu_exec (fuel : nat) (exit_pending : bool) : machM (option Z) :=
  e <- gets env ;;
  if negb (halted e =? 0) && negb (cpu_has_work e) then ret (Some EXCP_HALTED)
  else
    in_cpu (modify (fun s => s <| halted := 0 |>) ;;;
            when exit_pending (modify (fun s => s <| exit_request := 1 |>)) ;;;
            modify (fun s => s <| exception_index := -1 |>)) ;;;
    cpu_loop fuel false.
End Exceptions.

(** ** What entering an exception does *)

(** The new mode, the vector, the masks and the distance of the return address. *)
Record exception_kind := mk_kind { to_mode : Z; vector : Z; masks : Z; link_offset : Z }.
Definition exception_of (n : Z) (in_thumb : bool) : option exception_kind :=
  switch n
    [ (on EXCP_UDEF, Some (mk_kind ARM_CPU_MODE_UND 0x04 CPSR_I (if in_thumb then 2 else 4)));
      (on EXCP_SWI, Some (mk_kind ARM_CPU_MODE_SVC 0x08 CPSR_I 0));
      (on_any [EXCP_BKPT; EXCP_PREFETCH_ABORT], Some (mk_kind ARM_CPU_MODE_ABT 0x0c (CPSR_A .| CPSR_I) 4));
      (on EXCP_DATA_ABORT, Some (mk_kind ARM_CPU_MODE_ABT 0x10 (CPSR_A .| CPSR_I) 8));
      (on EXCP_IRQ, Some (mk_kind ARM_CPU_MODE_IRQ 0x18 (CPSR_A .| CPSR_I) 4));
      (on EXCP_FIQ, Some (mk_kind ARM_CPU_MODE_FIQ 0x1c (CPSR_A .| CPSR_I .| CPSR_F) 4)) ] None.

(** The modes of exceptions, with their banks. *)
Definition exception_modes : list (Z * Z) :=
  [(ARM_CPU_MODE_SVC, 1); (ARM_CPU_MODE_ABT, 2); (ARM_CPU_MODE_UND, 3); (ARM_CPU_MODE_IRQ, 4); (ARM_CPU_MODE_FIQ, 5)].

(** The status register an exception starts with. *)
Definition entry_cpsr (e : CPUARMState) (mode mask : Z) : Z :=
  (cpsr_read e .&~ (CPSR_M .| CPSR_T .| CPSR_IT)) .| mode .| mask .|
  (if test (c1_sys (cp15 e)) (1 << 30) then CPSR_T else 0).

(** A register after the entry. *)
Definition entry_value (e : CPUARMState) (bank pc k v : Z) (r : phys_reg) : option Z :=
  if decide (r = Saved bank) then Some (cpsr_read e)
  else if decide (r = Lr bank) then Some (u32 (pc + k))
  else if decide (r = Low 15) then Some v
  else phys_value e r.

Lemma same_banks_read e e' : same_but_banks e e' -> cpsr_read e' = cpsr_read e.
Proof. by intros (?&?&?&?&?&?&?&->). Qed.

(** The processor at the end of the entry, the banks being switched. *)
Definition entered (e : CPUARMState) (m mask : Z) (r : list Z) : CPUARMState :=
  e <| spsr := cpsr_read e |> <| condexec_bits := 0 |>
    <| uncached_cpsr ::= fun u => ((u .&~ CPSR_M) .| m) .| mask |>
    <| thumb := bool_Z (test (c1_sys (cp15 e)) (1 << 30)) |> <| regs := r |>
    <| interrupt_request ::= fun x => x .| CPU_INTERRUPT_EXITTB |>.

Lemma entered_flags e m mask r :
  flags_ok e -> fits 5 m -> mask .& 0x1c0 = mask -> fits 9 mask -> flags_ok (entered e m mask r).
Proof.
  intros [Fu Fc ? ? ? ? ? ? ?] Hm Hk Hk9. constructor; try assumption.
  - change (fits 32 (((uncached_cpsr e .&~ CPSR_M) .| m) .| mask)). apply fits_lor; [lia| |by apply (fits_weaken 9)].
    apply fits_lor; [lia|by apply fits_ldiff|by apply (fits_weaken 5)].
  - change ((((uncached_cpsr e .&~ CPSR_M) .| m) .| mask) .& CACHED_CPSR_BITS = 0).
    rewrite !Z.land_lor_distr_l. rewrite <- Hk, <- (Z.mod_small m (2 ^ 5)), <- land_ones by (done || lia).
    rewrite <- !Z.land_assoc. change (0x1c0 .& CACHED_CPSR_BITS) with 0. change ((2 ^ 5 - 1) .& CACHED_CPSR_BITS) with 0.
    rewrite !Z.land_0_r, !Z.lor_0_r. apply Z.bits_inj'. intros i Hi. rewrite Z.land_spec, Z.ldiff_spec, Z.bits_0.
    destruct (Z.testbit CACHED_CPSR_BITS i) eqn:Ec; [|by rewrite andb_false_r].
    by rewrite (land_zero_bit _ _ _ Fc Ec).
  - change (fits 1 (bool_Z (test (c1_sys (cp15 e)) (1 << 30)))). by destruct (test _ _).
  - by change (fits 8 0).
Qed.

Lemma entered_read e m mask r :
  flags_ok e -> fits 5 m -> mask .& 0x1c0 = mask -> fits 9 mask ->
  cpsr_read (entered e m mask r) = entry_cpsr e m mask.
Proof.
  intros Hf Hm Hk Hk9. pose proof (entered_flags e m mask r Hf Hm Hk Hk9) as Hf'.
  assert (forall i, 5 <= i -> Z.testbit m i = false) as Bm by (intros; apply (fits_high 5); [done|lia]).
  assert (forall i, Z.testbit 0x1c0 i = false -> Z.testbit mask i = false) as Bk.
  { intros i Hi. by rewrite <- Hk, Z.land_spec, Hi, andb_false_r. }
  apply word_eq.
  - by apply cpsr_read_fits.
  - unfold entry_cpsr. apply fits_lor; [lia| |by destruct (test _ _)].
    apply fits_lor; [lia| |by apply (fits_weaken 9)]. apply fits_lor; [lia| |by apply (fits_weaken 5)].
    apply fits_ldiff; [lia|by apply cpsr_read_fits].
  - intros i Hi. rewrite cpsr_read_bit by done. unfold entry_cpsr.
    rewrite !Z.lor_spec, Z.ldiff_spec, cpsr_read_bit by done.
    assert (uncached_cpsr (entered e m mask r) = ((uncached_cpsr e .&~ CPSR_M) .| m) .| mask) as Eu by done.
    assert (Z.testbit (if test (c1_sys (cp15 e)) (1 << 30) then CPSR_T else 0) i =
      (i =? 5) && Z.testbit (thumb (entered e m mask r)) 0) as ->.
    { change (thumb (entered e m mask r)) with (bool_Z (test (c1_sys (cp15 e)) (1 << 30))). destruct (test _ _); cbn [bool_Z].
      - rewrite andb_true_r. change CPSR_T with (2 ^ 5). rewrite Z.pow2_bits_eqb by done. apply Z.eqb_sym.
      - rewrite Z.bits_0. by rewrite andb_false_r. }
    revert i Hi. each_bit. all: pick_bit.
    all: rewrite ?Eu, ?Z.lor_spec, ?Z.ldiff_spec.
    all: repeat match goal with
      | |- context [Z.testbit (CPSR_M .| CPSR_T .| CPSR_IT) ?i] =>
          let v := eval vm_compute in (Z.testbit (CPSR_M .| CPSR_T .| CPSR_IT) i) in change (Z.testbit (CPSR_M .| CPSR_T .| CPSR_IT) i) with v
      | |- context [Z.testbit CPSR_M ?i] => let v := eval vm_compute in (Z.testbit CPSR_M i) in change (Z.testbit CPSR_M i) with v
      end.
    all: rewrite ?Bm by lia. all: try rewrite Bk by done. all: cbn [negb andb orb Z.eqb Pos.eqb].
    all: rewrite ?andb_false_r, ?andb_true_r, ?orb_false_r, ?orb_false_l; try done.
Qed.

Definition vector_of (e : CPUARMState) (a : Z) : Z := if test (c1_sys (cp15 e)) (1 << 13) then u32 (a + 0xffff0000) else a.

Lemma mode_after u m mask : fits 5 m -> mask .& 0x1c0 = mask -> (((u .&~ CPSR_M) .| m) .| mask) .& CPSR_M = m.
Proof.
  intros Hm Hk. rewrite !Z.land_lor_distr_l. rewrite <- Hk, <- Z.land_assoc. change (0x1c0 .& CPSR_M) with 0.
  rewrite Z.land_0_r, Z.lor_0_r. change CPSR_M with (2 ^ 5 - 1). rewrite (land_ones m) by lia. rewrite (Z.mod_small m) by done.
  assert ((u .&~ (2 ^ 5 - 1)) .& (2 ^ 5 - 1) = 0) as ->; [|done].
  apply Z.bits_inj'. intros i Hi. rewrite Z.land_spec, Z.ldiff_spec, Z.bits_0. by destruct (Z.testbit u i), (Z.testbit (2 ^ 5 - 1) i).
Qed.

Lemma exception_mode m b : (m, b) ∈ exception_modes ->
  m ∈ modes /\ bank_number m = Some b /\ fits 5 m /\ b ∈ banks.
Proof.
  unfold exception_modes, modes, banks. intros Hm.
  repeat (apply elem_of_cons in Hm as [[= -> ->]|Hm]); [..|by apply not_elem_of_nil in Hm].
  all: split; [by repeat constructor|]; split; [done|]; split; [done|by repeat constructor].
Qed.

(** A fact about the members of a constant list. *)
Ltac members H :=
  vm_compute in H; repeat (apply elem_of_cons in H as [H|H]; [first [discriminate H | simplify_eq; lia]|]);
  by apply not_elem_of_nil in H.

(** Two registers written after the banks are switched. *)
Lemma entered_values e m b mask r1 pc k v r :
  banks_ok e -> (m, b) ∈ exception_modes -> fits 5 m -> mask .& 0x1c0 = mask ->
  aset 14 (u32 (pc + k)) (regs e) = Some r1 -> aset 15 v r1 = Some r ->
  Forall (fun p => value_in m (entered e m mask r) p =
    if decide (p = Saved b) then Some (cpsr_read e) else if decide (p = Lr b) then Some (u32 (pc + k))
    else if decide (p = Low 15) then Some v else value_in m e p) phys_regs.
Proof.
  intros Hb Hm _ _ H1 H2. assert (forall n, n <> 14 -> n <> 15 -> aget r n = aget (regs e) n) as Hother.
  { intros n H14 H15. rewrite (aget_aset_ne _ _ _ _ _ (not_eq_sym H15) H2). by apply (aget_aset_ne _ _ _ _ _ (not_eq_sym H14) H1). }
  assert (aget r 14 = Some (u32 (pc + k))) as H14.
  { rewrite (aget_aset_ne r1 15 14 v r) by done. by apply (aget_aset_eq _ _ _ _ H1). }
  assert (aget r 15 = Some v) as H15 by by apply (aget_aset_eq _ _ _ _ H2).
  destruct (exception_mode m b Hm) as (_ & Hbank & _). unfold value_in. rewrite Hbank.
  change (regs (entered e m mask r)) with r. change (spsr (entered e m mask r)) with (cpsr_read e).
  repeat match goal with |- context [?f (entered e m mask r)] => change (f (entered e m mask r)) with (f e) end.
  apply Forall_forall. intros p Hp.
  assert (forall n, p = Low n -> n <> 14) as Hlow by (intros n ->; members Hp).
  assert (forall f n, p = High f n -> n <> 14 /\ n <> 15) as Hhigh by (intros f n ->; members Hp).
  destruct p as [n|f n|c|c|c]; cbv beta iota.
  - rewrite !decide_False by done. destruct (decide (Low n = Low 15)) as [[= ->]|Hn]; [done|]. apply Hother; [by apply Hlow|congruence].
  - rewrite !decide_False by done. destruct (Hhigh f n eq_refl). destruct (Bool.eqb _ _); [by apply Hother|done].
  - rewrite !decide_False by done. case_bool_decide; [by apply Hother|done].
  - rewrite (decide_False (P := Lr c = Saved b)) by done. rewrite (decide_False (P := Lr c = Low 15)) by done.
    destruct (decide (Lr c = Lr b)) as [[= ->]|Hn]; [by rewrite bool_decide_true|].
    rewrite bool_decide_false by congruence. done.
  - rewrite (decide_False (P := Saved c = Lr b)) by done. rewrite (decide_False (P := Saved c = Low 15)) by done.
    destruct (decide (Saved c = Saved b)) as [[= ->]|Hn]; [by rewrite bool_decide_true|].
    rewrite bool_decide_false by congruence. done.
Qed.

Lemma set_two_regs {B} m n a b (k : unit -> cpu B) (s : CPUARMState) r1 r :
  aset m a (regs s) = Some r1 -> aset n b r1 = Some r ->
  bind (set_reg m a) (fun _ => bind (set_reg n b) k) s = k tt (s <| regs := r |>).
Proof.
  intros R1 R2. unfold set_reg. rewrite bind_assoc, bind_gets, R1. run. change (regs (upd _ _ _)) with r1. rewrite R2. run.
  by destruct s.
Qed.

(** Entering an exception: the new mode has the old status register and the
    return address, and every other register keeps its value. *)
Lemma enter_run e m b a mask k pc :
  cpu_ok e -> (m, b) ∈ exception_modes -> mask .& 0x1c0 = mask -> fits 9 mask -> fits 32 a ->
  aget (regs e) 15 = Some pc ->
  exists e', enter m a mask k e = Done (tt, e', []) /\ cpu_ok e' /\ cpu_mode e' = m /\
    cpsr_read e' = entry_cpsr e m mask /\
    Forall (fun r => phys_value e' r = entry_value e b pc k (vector_of e a) r) phys_regs /\
    exists e1 r, same_but_banks e e1 /\ e' = entered e1 m mask r.
Proof.
  intros [Hf Hb Hw Hmode] Hm Hk Hk9 Ha Hpc. destruct (exception_mode m b Hm) as (Hmm & Hbank & Hm5 & _).
  destruct (switch_mode_run e m Hb Hmode Hmm) as (e1 & E1 & Hs1 & Hb1 & HV & HW). specialize (HW Hw).
  assert (cp15 e1 = cp15 e /\ flags_ok e1 /\ entry_cpsr e1 m mask = entry_cpsr e m mask /\ cpsr_read e1 = cpsr_read e) as (Ec & Hf1 & Ee & Er).
  { pose proof (same_banks_read _ _ Hs1) as Er. assert (cp15 e1 = cp15 e) as Ec by (by destruct Hs1 as (?&?&?&?&?&?&?&->)).
    split; [done|]. split; [destruct Hs1 as (?&?&?&?&?&?&?&->); by destruct Hf|]. split; [|done]. unfold entry_cpsr. by rewrite Er, Ec. }
  rewrite Forall_forall in HV. assert (aget (regs e1) 15 = Some pc) as Hpc1.
  { rewrite <- Hpc. apply (HV (Low 15)). by repeat constructor. }
  destruct Hb1 as (H16 & Hb1).
  destruct (aset 14 (u32 (pc + k)) (regs e1)) as [r1|] eqn:R1; [|by rewrite aset_Some in R1 by lia].
  assert (zlen r1 = 16) as H16' by (unfold zlen in *; by rewrite (aset_length _ _ _ _ R1)).
  destruct (aset 15 (vector_of e a) r1) as [r|] eqn:R2; [|by rewrite aset_Some in R2 by lia].
  assert (cpu_mode (entered e1 m mask r) = m) as Em.
  { unfold cpu_mode. change (uncached_cpsr (entered e1 m mask r)) with (((uncached_cpsr e1 .&~ CPSR_M) .| m) .| mask). by apply mode_after. }
  exists (entered e1 m mask r). split; [|split; [constructor|split; [done|split; [|split]]]].
  - unfold enter. rewrite bind_gets. fold (vector_of e a). rewrite (bind_silent _ _ _ _ _ E1). rewrite bind_modify.
    match goal with |- bind _ _ ?x = _ => set (s2 := x) end. rewrite (bind_silent (get_reg 15) _ s2 pc s2) by (unfold get_reg; rewrite bind_gets; change (regs s2) with (regs e1); by rewrite Hpc1).
    by rewrite (set_two_regs _ _ _ _ _ s2 r1 r R1 R2).
  - by apply entered_flags.
  - split; [|exact Hb1]. change (zlen r = 16). unfold zlen in *. by rewrite (aset_length _ _ _ _ R2).
  - unfold words_ok in *. change (Forall (fits 32) (cpsr_read e1 :: r ++ (banked_spsr e1 ++ banked_r13 e1 ++ banked_r14 e1 ++ usr_regs e1 ++ fiq_regs e1))).
    apply Forall_cons in HW as [_ HW]. apply Forall_app in HW as [HR HB]. apply Forall_cons. split; [by apply cpsr_read_fits|].
    apply Forall_app. split; [|done]. refine (Forall_aset _ _ _ _ _ (Forall_aset _ _ _ _ _ HR _ R1) _ R2); [by apply fits_wrap|].
    unfold vector_of. destruct (test _ _); [by apply fits_wrap|done].
  - by rewrite Em.
  - rewrite entered_read by done. done.
  - pose proof (entered_values e1 m b mask r1 pc k (vector_of e a) r ltac:(by split) Hm Hm5 Hk R1 R2) as HE.
    rewrite Forall_forall in HE. apply Forall_forall. intros p Hp. unfold phys_value at 1. rewrite Em, HE by done.
    unfold entry_value. rewrite Er. by rewrite HV.
  - by exists e1, r.
Qed.

Section Delivery.
Context {F W E : Type} `{ArmServices F W E}.
Implicit Types s : machine F W.

(** What an exception leaves alone, and the request to look up the next block. *)
Definition same_control (e e' : CPUARMState) : Prop :=
  features e' = features e /\ cp15 e' = cp15 e /\ exception_index e' = exception_index e /\ exit_request e' = exit_request e /\
  halted e' = halted e /\ interrupt_request e' = interrupt_request e .| CPU_INTERRUPT_EXITTB.

Lemma exception_kind_ok n t k :
  exception_of n t = Some k ->
  exists b, bank_number (to_mode k) = Some b /\ (to_mode k, b) ∈ exception_modes /\
    masks k .& 0x1c0 = masks k /\ fits 9 (masks k) /\ fits 32 (vector k).
Proof.
  intros Hk. unfold exception_of, switch, on, on_any in Hk. repeat case_match; try done; injection Hk as <-.
  all: eexists; split; [reflexivity|]; split; [by repeat constructor|]; by split_and!.
Qed.

(** An exception that is not a call of the host enters the mode it belongs to:
    the old status register and the return address are in the new bank, the
    program goes on at the vector, and all other registers keep their values. *)
Theorem exception_entry s k pc :
  cpu_ok (env s) -> IS_M (env s) = false -> semihosting_enabled = false ->
  exception_of (exception_index (env s)) (negb (thumb (env s) =? 0)) = Some k -> aget (regs (env s)) 15 = Some pc ->
  exists e' b, do_interrupt s = Done (Some tt, s <| env := e' |>, @nil (machine_event E)) /\
    bank_number (to_mode k) = Some b /\ cpu_ok e' /\ cpu_mode e' = to_mode k /\
    cpsr_read e' = entry_cpsr (env s) (to_mode k) (masks k) /\
    Forall (fun r => phys_value e' r = entry_value (env s) b pc (link_offset k) (vector_of (env s) (vector k)) r) phys_regs /\
    same_control (env s) e'.
Proof.
  intros Hok HM Hsemi Hk Hpc. destruct (exception_kind_ok _ _ _ Hk) as (b & Hb & Hm & Hk1 & Hk2 & Hv).
  destruct (enter_run (env s) (to_mode k) b (vector k) (masks k) (link_offset k) pc Hok Hm Hk1 Hk2 Hv Hpc)
    as (e' & E1 & Hok' & Hmode & Hread & Hvals & e1 & r & (?&?&?&?&?&?&?&->) & He').
  exists e', b. split; [|split_and!; try done; by rewrite He'].
  assert (finish (in_cpu (enter (to_mode k) (vector k) (masks k) (link_offset k))) s =
    Done (Some tt, s <| env := e' |>, @nil (machine_event E))) as Ef.
  { unfold finish. erewrite bind_silent; [reflexivity|]. unfold in_cpu. erewrite zoom_silent; [reflexivity|exact E1]. }
  unfold do_interrupt. rewrite bind_gets, HM. unfold unless_left at 1. unfold semihosting_call. rewrite Hsemi. cbn [negb]. run.
  rewrite <- Ef. unfold exception_of, switch, on, on_any in Hk |- *. repeat case_match; try done; by injection Hk as <-.
Qed.

(** The return from an exception ([gen_exception_return]): the status register
    comes back from the bank. *)
Definition exception_return : cpu unit := sp <- gets spsr ;; cpsr_write sp 0xffffffff.

(** C32.  An exception and the return from it leave the status register and every
    register as they were, but for the program counter and the bank that the
    exception used. *)
Theorem exception_round_trip s k pc :
  cpu_ok (env s) -> IS_M (env s) = false -> semihosting_enabled = false ->
  exception_of (exception_index (env s)) (negb (thumb (env s) =? 0)) = Some k -> aget (regs (env s)) 15 = Some pc ->
  exists e' b, unless_left do_interrupt (fun _ => finish (in_cpu exception_return)) s =
      Done (Some tt, s <| env := e' |>, @nil (machine_event E)) /\
    bank_number (to_mode k) = Some b /\ cpu_ok e' /\ cpsr_read e' = cpsr_read (env s) /\
    Forall (fun r => r <> Saved b -> r <> Lr b -> r <> Low 15 -> phys_value e' r = phys_value (env s) r) phys_regs.
Proof.
  intros Hok HM Hsemi Hk Hpc.
  destruct (exception_entry s k pc Hok HM Hsemi Hk Hpc) as (e1 & b & E1 & Hb & Hok1 & Hmode & Hread & Hvals & _).
  destruct (exception_kind_ok _ _ _ Hk) as (b' & Hb' & Hm & _). assert (b' = b) as -> by congruence.
  rewrite Forall_forall in Hvals. destruct (exception_mode _ _ Hm) as (_ & _ & _ & Hbanks).
  assert (spsr e1 = cpsr_read (env s)) as Hsp.
  { assert (Saved b ∈ phys_regs) as Hin.
    { unfold phys_regs. rewrite !elem_of_app. right. right. right. right. right. by apply list_elem_of_fmap_2. }
    pose proof (Hvals _ Hin) as Hs. unfold phys_value, value_in in Hs. rewrite Hmode, Hb, bool_decide_true in Hs by done.
    unfold entry_value in Hs. rewrite decide_True in Hs by done. by injection Hs. }
  destruct Hok as [Hf Hbk Hw Hmd].
  destruct (cpsr_write_run e1 (cpsr_read (env s)) 0xffffffff) as (e2 & E2 & Hok2 & Hread2 & _ & Hvals2).
  { done. } { by apply cpsr_read_fits. } { by vm_compute; intuition. }
  { change (test 0xffffffff CPSR_M) with true. cbv iota. by rewrite cpsr_mode. }
  exists e2, b. split; [|split; [done|split; [done|split]]].
  - unfold unless_left, finish. rewrite (bind_silent _ _ _ _ _ E1). erewrite bind_silent; [reflexivity|].
    unfold in_cpu. erewrite zoom_silent; [reflexivity|].
    unfold exception_return. rewrite bind_gets. change (env (s <| env := e1 |>)) with e1. rewrite Hsp. exact E2.
  - rewrite Hread2. apply word_eq; [| |intros i Hi].
    + apply fits_lor; [lia|apply fits_ldiff; [lia|by apply cpsr_read_fits; destruct Hok1]|]. apply fits_land; [lia|by apply cpsr_read_fits|lia].
    + by apply cpsr_read_fits.
    + rewrite Z.lor_spec, Z.ldiff_spec, Z.land_spec. change 0xffffffff with (Z.ones 32).
      rewrite Z.ones_spec_low by lia. cbn. by rewrite andb_false_r, andb_true_r.
  - apply Forall_forall. intros r Hr N1 N2 N3. rewrite Forall_forall in Hvals2. rewrite Hvals2, Hvals by done.
    unfold entry_value. by rewrite !decide_False.
Qed.

(** The interrupt a turn takes: fast ones first. *)
Definition due (e : CPUARMState) : option Z :=
  if test (interrupt_request e) CPU_INTERRUPT_FIQ && negb (test (uncached_cpsr e) CPSR_F) then Some EXCP_FIQ
  else if test (interrupt_request e) CPU_INTERRUPT_HARD && negb (test (uncached_cpsr e) CPSR_I) then Some EXCP_IRQ
  else None.

Lemma irq_masked e : flags_ok e -> test (uncached_cpsr e) CPSR_I = Z.testbit (cpsr_read e) 7.
Proof. intros Hf. rewrite cpsr_read_bit by done. change CPSR_I with (bit 7). by rewrite test_true_bit. Qed.

Lemma cpu_ok_index e n : cpu_ok e -> cpu_ok (e <| exception_index := n |>).
Proof. intros [[] Hb Hw Hm]. split; [constructor; assumption|exact Hb|exact Hw|exact Hm]. Qed.

Definition without_exittb (e : CPUARMState) : CPUARMState :=
  e <| interrupt_request ::= fun r => r .&~ CPU_INTERRUPT_EXITTB |>.
Lemma without_exittb_ok e : cpu_ok e -> cpu_ok (without_exittb e).
Proof. intros [[] Hb Hw Hm]. split; [constructor; assumption|exact Hb|exact Hw|exact Hm]. Qed.
Lemma without_exittb_value e r : phys_value (without_exittb e) r = phys_value e r.
Proof. by destruct r. Qed.

Lemma no_request e : interrupt_request e = 0 -> without_exittb e = e.
Proof. intros E0. unfold without_exittb. destruct e as [? ? ? ? ? ? ? ? ? ? ? ? ? ? ? ? ? ? ? ? ? ? ? ? ir ? ? ? ? ? ? ?]. change (ir = 0) in E0. by subst ir. Qed.

(** The pending exception is not part of the registers. *)
Lemma index_read e n : cpsr_read (e <| exception_index := n |>) = cpsr_read e.
Proof. unfold cpsr_read. by destruct e. Qed.
Lemma index_entry_cpsr e n m k : entry_cpsr (e <| exception_index := n |>) m k = entry_cpsr e m k.
Proof. unfold entry_cpsr. rewrite index_read. by destruct e. Qed.
Lemma index_entry_value e n b pc k v r : entry_value (e <| exception_index := n |>) b pc k v r = entry_value e b pc k v r.
Proof. unfold entry_value. rewrite index_read. by destruct e, r. Qed.

(** Taking an interrupt, as far as it is asked for. *)
Lemma take_run s n k pc :
  cpu_ok (env s) -> IS_M (env s) = false -> semihosting_enabled = false -> aget (regs (env s)) 15 = Some pc ->
  (forall t, exception_of n t = Some k) ->
  exists e' b, take n s = Done (Some tt, s <| env := e' |>, @nil (machine_event E)) /\
    bank_number (to_mode k) = Some b /\ cpu_ok e' /\ cpu_mode e' = to_mode k /\
    cpsr_read e' = entry_cpsr (env s) (to_mode k) (masks k) /\
    Forall (fun r => phys_value e' r = entry_value (env s) b pc (link_offset k) (vector_of (env s) (vector k)) r) phys_regs /\
    same_control ((env s) <| exception_index := n |>) e'.
Proof.
  intros Hok HM Hsemi Hpc Hk. set (e1 := (env s) <| exception_index := n |>).
  destruct (exception_entry (s <| env := e1 |>) k pc) as (e' & b & E1 & Hrest); [by apply cpu_ok_index|done|done|apply Hk|done|].
  exists e', b. unfold take, set_exception.
  erewrite bind_silent by (unfold in_cpu; erewrite zoom_silent; reflexivity). split; [exact E1|].
  destruct Hrest as (Hb & Hok' & Hmode & Hread & Hvals & Hctl). change (env (s <| env := e1 |>)) with e1 in *.
  unfold e1 in Hread, Hvals. rewrite index_entry_cpsr in Hread.
  assert (vector_of ((env s) <| exception_index := n |>) (vector k) = vector_of (env s) (vector k)) as Ev by (by destruct (env s)).
  rewrite Ev in Hvals. by split_and!.
Qed.

(** What the answer to the requests leaves. *)
Definition answered (e e' : CPUARMState) (pc : Z) : Prop :=
  cpu_ok e' /\ interrupt_request e' = interrupt_request e .&~ CPU_INTERRUPT_EXITTB /\
  match due e with
  | None => cpsr_read e' = cpsr_read e /\ Forall (fun r => phys_value e' r = phys_value e r) phys_regs
  | Some n => exists k b, exception_of n false = Some k /\ bank_number (to_mode k) = Some b /\ cpu_mode e' = to_mode k /\
      cpsr_read e' = entry_cpsr e (to_mode k) (masks k) /\
      Forall (fun r => phys_value e' r = entry_value e b pc (link_offset k) (vector_of e (vector k)) r) phys_regs
  end.

Lemma clear_run s : finish (in_cpu (cpu_reset_interrupt CPU_INTERRUPT_EXITTB)) s =
  Done (Some tt, s <| env := without_exittb (env s) |>, @nil (machine_event E)).
Proof. unfold finish. erewrite bind_silent; [reflexivity|]. by unfold in_cpu; erewrite zoom_silent. Qed.

Lemma no_exittb r : (r .| CPU_INTERRUPT_EXITTB) .&~ CPU_INTERRUPT_EXITTB = r .&~ CPU_INTERRUPT_EXITTB.
Proof.
  apply Z.bits_inj'. intros i Hi. rewrite !Z.ldiff_spec, Z.lor_spec. by destruct (Z.testbit r i), (Z.testbit CPU_INTERRUPT_EXITTB i).
Qed.

(** An interrupt taken, and the request to look the next block up answered. *)
Lemma taken_answered s n k b pc e1 :
  due (env s) = Some n -> (forall t, exception_of n t = Some k) -> bank_number (to_mode k) = Some b -> cpu_ok e1 ->
  cpu_mode e1 = to_mode k -> cpsr_read e1 = entry_cpsr (env s) (to_mode k) (masks k) ->
  Forall (fun r => phys_value e1 r = entry_value (env s) b pc (link_offset k) (vector_of (env s) (vector k)) r) phys_regs ->
  same_control ((env s) <| exception_index := n |>) e1 ->
  exit_request (without_exittb e1) = exit_request (env s) /\ answered (env s) (without_exittb e1) pc.
Proof.
  intros Hdue Hk Hb Hok1 Hmode Hread Hvals (_ & _ & _ & Hx & _ & Hr). split; [exact Hx|].
  split; [by apply without_exittb_ok|]. split.
  - change (interrupt_request (without_exittb e1)) with (interrupt_request e1 .&~ CPU_INTERRUPT_EXITTB). rewrite Hr. apply no_exittb.
  - rewrite Hdue. exists k, b. by split_and!.
Qed.

Lemma pc_run s pc : aget (regs (env s)) 15 = Some pc -> in_cpu (get_reg 15) s = Done (pc, s, @nil (machine_event E)).
Proof. intros Hpc. unfold in_cpu, zoom, get_reg. rewrite bind_gets, Hpc. by destruct s. Qed.

Lemma entry_pc e' e b pc k v : Forall (fun r => phys_value e' r = entry_value e b pc k v r) phys_regs ->
  aget (regs e') 15 = Some v.
Proof. intros Hv. rewrite Forall_forall in Hv. apply (Hv (Low 15)). by repeat constructor. Qed.

Lemma answer_run s pc :
  cpu_ok (env s) -> IS_M (env s) = false -> semihosting_enabled = false -> aget (regs (env s)) 15 = Some pc ->
  test (interrupt_request (env s)) CPU_INTERRUPT_DEBUG = false -> test (interrupt_request (env s)) CPU_INTERRUPT_HALT = false ->
  exists e', answer_requests (interrupt_request (env s)) s = Done (Some tt, s <| env := e' |>, @nil (machine_event E)) /\
    exit_request e' = exit_request (env s) /\ answered (env s) e' pc.
Proof.
  intros Hok HM Hsemi Hpc Hdebug Hhalt. unfold answer_requests. set (request := interrupt_request (env s)) in *.
  assert (due (env s) = None -> exit_request (without_exittb (env s)) = exit_request (env s) /\
    answered (env s) (without_exittb (env s)) pc) as Hnone.
  { intros Hdue. split; [done|]. split; [by apply without_exittb_ok|]. split; [done|]. rewrite Hdue. split; [done|]. by apply Forall_forall. }
  destruct (Z.eqb_spec request 0) as [H0'|H0'].
  - exists (without_exittb (env s)). split; [|apply Hnone; unfold due; by fold request; rewrite H0'].
    rewrite no_request by done. by destruct s.
  - rewrite Hdebug, Hhalt. unfold unless_left, take_fiq. rewrite bind_assoc, bind_gets.
    destruct (test request CPU_INTERRUPT_FIQ && negb (test (uncached_cpsr (env s)) CPSR_F)) eqn:Ef.
    + assert (due (env s) = Some EXCP_FIQ) as Hdue by (unfold due; by fold request; rewrite Ef).
      edestruct (take_run s EXCP_FIQ) as (e1 & b & E1 & Hb & Hok1 & Hmode & Hread & Hvals & Hctl); [done..|].
      rewrite (bind_silent _ _ _ _ _ E1). unfold take_irq. rewrite bind_assoc, bind_gets, bind_assoc.
      pose proof (entry_pc _ _ _ _ _ _ Hvals) as Hpc1. change (regs e1) with (regs (env (s <| env := e1 |>))) in Hpc1.
      rewrite (bind_silent _ _ _ _ _ (pc_run _ _ Hpc1)).
      change (env (s <| env := e1 |>)) with e1.
      assert (IS_M e1 = false) as -> by (destruct Hctl as (Hfeat & _); unfold IS_M, arm_feature in *; by rewrite Hfeat).
      rewrite irq_masked, Hread by apply Hok1. cbn [andb orb].
      assert (Z.testbit (entry_cpsr (env s) (to_mode _) (masks _)) 7 = true) as ->.
      { unfold entry_cpsr. cbn [masks to_mode]. rewrite !Z.lor_spec. apply orb_true_intro. left. apply orb_true_intro. by right. }
      cbn [negb]. rewrite andb_false_r. run. rewrite clear_run.
      eexists. split; [reflexivity|]. by eapply (taken_answered s).
    + run. unfold take_irq. rewrite bind_assoc, bind_gets, bind_assoc. rewrite (bind_silent _ _ _ _ _ (pc_run s pc Hpc)).
      rewrite HM. cbn [andb orb].
      destruct (test request CPU_INTERRUPT_HARD && negb (test (uncached_cpsr (env s)) CPSR_I)) eqn:Ei.
      * assert (due (env s) = Some EXCP_IRQ) as Hdue by (unfold due; by fold request; rewrite Ef, Ei).
        edestruct (take_run s EXCP_IRQ) as (e1 & b & E1 & Hb & Hok1 & Hmode & Hread & Hvals & Hctl); [done..|].
        rewrite (bind_silent _ _ _ _ _ E1), clear_run. eexists. split; [reflexivity|]. by eapply (taken_answered s).
      * run. rewrite clear_run. eexists. split; [reflexivity|]. apply Hnone. unfold due. by fold request; rewrite Ef, Ei.
Qed.

(** C35.  Before a block of code is run, the interrupt that is due is taken, and
    only that one: a fast interrupt that is not masked, or else a normal one.  The
    processor is then in the mode and at the vector of the interrupt, with the
    old status and the return address in its bank; without an interrupt that is
    due, status and registers are as before. *)
Theorem interrupts_delivered s pc :
  cpu_ok (env s) -> IS_M (env s) = false -> semihosting_enabled = false -> aget (regs (env s)) 15 = Some pc ->
  test (interrupt_request (env s)) CPU_INTERRUPT_DEBUG = false -> test (interrupt_request (env s)) CPU_INTERRUPT_HALT = false ->
  exit_request (env s) = 0 ->
  exists e', check_interrupts s = Done (Some tt, s <| env := e' |>, @nil (machine_event E)) /\ answered (env s) e' pc.
Proof.
  intros Hok HM Hsemi Hpc Hdebug Hhalt Hexit. unfold check_interrupts. rewrite bind_gets.
  destruct (answer_run s pc Hok HM Hsemi Hpc Hdebug Hhalt) as (e' & Ea & Hx & Hrest).
  exists e'. split; [|exact Hrest]. unfold unless_left. rewrite (bind_silent _ _ _ _ _ Ea).
  unfold check_exit. rewrite bind_gets. change (env (s <| env := e' |>)) with e'. by rewrite Hx, Hexit.
Qed.
End Delivery.

(** ** An example: the interrupt line is raised while user code runs *)
Module ExcpDemo.
Import MemoryDemo ArmDemo.
#[export] Instance demo_services : ArmServices Z (Z * Z * Z) Empty_set := {
  semihosting_enabled := false; do_arm_semihosting := ret 0; armv7m_nvic_set_pending _ := ret tt;
  armv7m_nvic_acknowledge_irq := ret 0; armv7m_nvic_complete_irq _ := ret tt; run_block := ret (Some tt)
}.
Abbreviation demo_machine := (machine Z (Z * Z * Z)).

(** User mode, the carry flag set, high vectors; the line of interrupts is up. *)
Definition env_user : CPUARMState :=
  env0 <| uncached_cpsr := 0x10 |> <| CF := 1 |> <| cp15 ::= fun c => c <| c1_sys := 1 << 13 |> |>
       <| interrupt_request := CPU_INTERRUPT_HARD .| CPU_INTERRUPT_EXITTB |>.
Definition user : demo_machine := mk_machine env_user blank.

Lemma env_user_ok : cpu_ok env_user.
Proof. split; [by vm_compute|by vm_compute|by repeat constructor|by repeat constructor]. Qed.

Lemma interrupt_witness :
  exists e', check_interrupts user = Done (Some tt, user <| env := e' |>, []) /\ cpsr_read e' = 0x20000192 /\
    phys_value e' (Saved 4) = Some 0x20000010 /\ phys_value e' (Lr 4) = Some 119 /\ phys_value e' (Low 15) = Some 0xffff0018 /\
    phys_value e' (Sp 0) = Some 113 /\ interrupt_request e' = CPU_INTERRUPT_HARD.
Proof.
  destruct (interrupts_delivered (E := Empty_set) user 115) as (e' & Ec & _ & Hr & Hdue);
    [exact env_user_ok|done|done|done|done|done|done|].
  exists e'. split; [exact Ec|]. change (due (env user)) with (Some EXCP_IRQ) in Hdue.
  destruct Hdue as (k & b & Hk & Hb & _ & Hread & Hvals). injection Hk as <-. injection Hb as <-.
  rewrite Forall_forall in Hvals. split; [rewrite Hread; by vm_compute|].
  assert (forall r, r ∈ phys_regs -> phys_value e' r = entry_value (env user) 4 115 4 (vector_of (env user) 0x18) r) as Hv by exact Hvals.
  split; [rewrite Hv by (by repeat constructor); by vm_compute|].
  split; [rewrite Hv by (by repeat constructor); by vm_compute|].
  split; [rewrite Hv by (by repeat constructor); by vm_compute|].
  split; [rewrite Hv by (by repeat constructor); by vm_compute|]. rewrite Hr. by vm_compute.
Defined.

(** A data abort of this program, and the return from it. *)
Definition aborting : demo_machine := mk_machine (env_user <| exception_index := EXCP_DATA_ABORT |>) blank.

Lemma entry_witness :
  exists e' b, do_interrupt aborting = Done (Some tt, aborting <| env := e' |>, []) /\ cpu_mode e' = ARM_CPU_MODE_ABT /\
    phys_value e' (Lr b) = Some 123.
Proof.
  destruct (exception_entry (E := Empty_set) aborting (mk_kind ARM_CPU_MODE_ABT 0x10 (CPSR_A .| CPSR_I) 8) 115)
    as (e' & b & Ee & Hb & _ & Hm & _ & Hvals & _); [apply cpu_ok_index, env_user_ok|done|done|done|done|].
  exists e', b. split; [exact Ee|]. split; [exact Hm|]. injection Hb as <-. rewrite Forall_forall in Hvals.
  rewrite Hvals by (by repeat constructor). by vm_compute.
Defined.

Lemma round_trip_witness :
  exists e', unless_left do_interrupt (fun _ => finish (in_cpu exception_return)) aborting =
      Done (Some tt, aborting <| env := e' |>, []) /\ cpsr_read e' = 0x20000010 /\ phys_value e' (Sp 0) = Some 113.
Proof.
  destruct (exception_round_trip (E := Empty_set) aborting (mk_kind ARM_CPU_MODE_ABT 0x10 (CPSR_A .| CPSR_I) 8) 115)
    as (e' & b & Ee & Hb & _ & Hr & Hvals); [apply cpu_ok_index, env_user_ok|done|done|done|done|].
  exists e'. split; [exact Ee|]. split; [rewrite Hr; by vm_compute|]. injection Hb as <-. rewrite Forall_forall in Hvals.
  assert (Sp 0 ∈ phys_regs) as Hin by (by repeat constructor). rewrite (Hvals (Sp 0) Hin); by vm_compute.
Defined.
End ExcpDemo.
