(* ===== verification/ArmCp15.v ===== *)
(** * ArmCp15: system control ([target-arm/helper.c])

    Processor models and reset, the registers of the system control coprocessor,
    handlers of other coprocessors, and the system registers of the
    microcontroller profile.

    Writes decide what the translation buffer may keep: the table of encodings
    [kept_bits] says what a register returns, and every write leaves the buffer
    coherent with the translation afterwards, but for the bases of the translation
    tables, whose changes the guest follows by an invalidation.

    The image in memory that a microcontroller starts from is an argument. *)
From stdpp Require Import strings.
From S2P Require Import Prelude Words ArmCpu Memory ArmMmu ArmTlb ArmVirt ArmExcp.

(** ** Processor models *)
Definition ARM_CPUID_ARM1026 := 0x4106a262.
Definition ARM_CPUID_ARM926 := 0x41069265.
Definition ARM_CPUID_ARM946 := 0x41059461.
Definition ARM_CPUID_TI915T := 0x54029152.
Definition ARM_CPUID_TI925T := 0x54029252.
Definition ARM_CPUID_PXA250 := 0x69052100.
Definition ARM_CPUID_PXA255 := 0x69052d00.
Definition ARM_CPUID_PXA260 := 0x69052903.
Definition ARM_CPUID_PXA261 := 0x69052d05.
Definition ARM_CPUID_PXA262 := 0x69052d06.
Definition ARM_CPUID_PXA270_A0 := 0x69054110.
Definition ARM_CPUID_PXA270_A1 := 0x69054111.
Definition ARM_CPUID_PXA270_B0 := 0x69054112.
Definition ARM_CPUID_PXA270_B1 := 0x69054113.
Definition ARM_CPUID_PXA270_C0 := 0x69054114.
Definition ARM_CPUID_PXA270_C5 := 0x69054117.
Definition ARM_CPUID_ARM1136 := 0x4117b363.
Definition ARM_CPUID_ARM1136_R2 := 0x4107b362.
Definition ARM_CPUID_ARM11MPCORE := 0x410fb022.
Definition ARM_CPUID_CORTEXA8 := 0x410fc080.
Definition ARM_CPUID_CORTEXA9 := 0x410fc090.
Definition ARM_CPUID_CORTEXM3 := 0x410fc231.
Definition ARM_CPUID_ANY := 0xffffffff.

Definition cortexa9_cp15_c0_c1 : list Z := [0x1031; 0x11; 0x000; 0; 0x00100103; 0x20000000; 0x01230000; 0x00002111].
Definition cortexa9_cp15_c0_c2 : list Z := [0x00101111; 0x13112111; 0x21232041; 0x11112131; 0x00111142; 0; 0; 0].
Definition cortexa8_cp15_c0_c1 : list Z := [0x1031; 0x11; 0x400; 0; 0x31100003; 0x20000000; 0x01202000; 0x11].
Definition cortexa8_cp15_c0_c2 : list Z := [0x00101111; 0x12112111; 0x21232031; 0x11112131; 0x00111142; 0; 0; 0].
Definition mpcore_cp15_c0_c1 : list Z := [0x111; 0x1; 0; 0x2; 0x01100103; 0x10020302; 0x01222000; 0].
Definition mpcore_cp15_c0_c2 : list Z := [0x00100011; 0x12002111; 0x11221011; 0x01102131; 0x141; 0; 0; 0].
Definition arm1136_cp15_c0_c1 : list Z := [0x111; 0x1; 0x2; 0x3; 0x01130003; 0x10030302; 0x01222110; 0].
Definition arm1136_cp15_c0_c2 : list Z := [0x00140011; 0x12002111; 0x11231111; 0x01102131; 0x141; 0; 0; 0].

Definition set_feature (feature : Z) : cpu unit := modify (fun s => s <| features ::= fun f => f .| u32 (1 << feature) |>).
Fixpoint set_features (l : list Z) : cpu unit :=
  match l with [] => ret tt | f :: l' => set_feature f ;;; set_features l' end.

Definition put_cp15 (f : cp15_state -> cp15_state) : cpu unit := modify (fun s => s <| cp15 ::= f |>).
Definition set_xreg (n v : Z) : cpu unit :=
  l <- gets (fun s => xregs (vfp s)) ;; l <- lift (aset n v l) ;; modify (fun s => s <| vfp ::= fun p => p <| xregs := l |> |>).
Definition set_ccsid (l : list Z) : cpu unit :=
  t <- gets (fun s => c0_ccsid (cp15 s)) ;; t <- lift (splice 0 l t) ;; put_cp15 (fun c => c <| c0_ccsid := t |>).

Definition cpu_reset_model_id (id : Z) : cpu unit :=
  put_cp15 (fun c => c <| c0_cpuid := id |>) ;;;
  switch id
    [ (on ARM_CPUID_ARM926,
        set_feature ARM_FEATURE_VFP ;;; set_xreg ARM_VFP_FPSID 0x41011090 ;;;
        put_cp15 (fun c => c <| c0_cachetype := 0x1dd20d2 |> <| c1_sys := 0x00090078 |>));
      (on ARM_CPUID_ARM946,
        set_feature ARM_FEATURE_MPU ;;;
        put_cp15 (fun c => c <| c0_cachetype := 0x0f004006 |> <| c1_sys := 0x00000078 |>));
      (on ARM_CPUID_ARM1026,
        set_features [ARM_FEATURE_VFP; ARM_FEATURE_AUXCR] ;;; set_xreg ARM_VFP_FPSID 0x410110a0 ;;;
        put_cp15 (fun c => c <| c0_cachetype := 0x1dd20d2 |> <| c1_sys := 0x00090078 |>));
      (on_any [ARM_CPUID_ARM1136_R2; ARM_CPUID_ARM1136],
        set_features [ARM_FEATURE_V6; ARM_FEATURE_VFP; ARM_FEATURE_AUXCR] ;;;
        set_xreg ARM_VFP_FPSID 0x410120b4 ;;; set_xreg ARM_VFP_MVFR0 0x11111111 ;;; set_xreg ARM_VFP_MVFR1 0x00000000 ;;;
        put_cp15 (fun c => c <| c0_c1 := arm1136_cp15_c0_c1 |> <| c0_c2 := arm1136_cp15_c0_c2 |>
                             <| c0_cachetype := 0x1dd20d2 |> <| c1_sys := 0x00050078 |>));
      (on ARM_CPUID_ARM11MPCORE,
        set_features [ARM_FEATURE_V6; ARM_FEATURE_V6K; ARM_FEATURE_VFP; ARM_FEATURE_AUXCR] ;;;
        set_xreg ARM_VFP_FPSID 0x410120b4 ;;; set_xreg ARM_VFP_MVFR0 0x11111111 ;;; set_xreg ARM_VFP_MVFR1 0x00000000 ;;;
        put_cp15 (fun c => c <| c0_c1 := mpcore_cp15_c0_c1 |> <| c0_c2 := mpcore_cp15_c0_c2 |> <| c0_cachetype := 0x1dd20d2 |>));
      (on ARM_CPUID_CORTEXA8,
        set_features [ARM_FEATURE_V6; ARM_FEATURE_V6K; ARM_FEATURE_V7; ARM_FEATURE_AUXCR; ARM_FEATURE_THUMB2;
                      ARM_FEATURE_VFP; ARM_FEATURE_VFP3; ARM_FEATURE_NEON; ARM_FEATURE_THUMB2EE] ;;;
        set_xreg ARM_VFP_FPSID 0x410330c0 ;;; set_xreg ARM_VFP_MVFR0 0x11110222 ;;; set_xreg ARM_VFP_MVFR1 0x00011100 ;;;
        put_cp15 (fun c => c <| c0_c1 := cortexa8_cp15_c0_c1 |> <| c0_c2 := cortexa8_cp15_c0_c2 |>
                             <| c0_cachetype := 0x82048004 |> <| c0_clid := (1 << 27) .| (2 << 24) .| 3 |>) ;;;
        set_ccsid [0xe007e01a; 0x2007e01a; 0xf0000000] ;;;
        put_cp15 (fun c => c <| c1_sys := 0x00c50078 |>));
      (on ARM_CPUID_CORTEXA9,
        set_features [ARM_FEATURE_V6; ARM_FEATURE_V6K; ARM_FEATURE_V7; ARM_FEATURE_AUXCR; ARM_FEATURE_THUMB2;
                      ARM_FEATURE_VFP; ARM_FEATURE_VFP3; ARM_FEATURE_VFP_FP16; ARM_FEATURE_NEON; ARM_FEATURE_THUMB2EE;
                      ARM_FEATURE_V7MP] ;;;
        set_xreg ARM_VFP_FPSID 0x41034000 ;;; set_xreg ARM_VFP_MVFR0 0x11110222 ;;; set_xreg ARM_VFP_MVFR1 0x01111111 ;;;
        put_cp15 (fun c => c <| c0_c1 := cortexa9_cp15_c0_c1 |> <| c0_c2 := cortexa9_cp15_c0_c2 |>
                             <| c0_cachetype := 0x80038003 |> <| c0_clid := (1 << 27) .| (1 << 24) .| 3 |>) ;;;
        set_ccsid [0xe00fe015; 0x200fe015] ;;;
        put_cp15 (fun c => c <| c1_sys := 0x00c50078 |>));
      (on ARM_CPUID_CORTEXM3,
        set_features [ARM_FEATURE_V6; ARM_FEATURE_THUMB2; ARM_FEATURE_V7; ARM_FEATURE_M; ARM_FEATURE_DIV]);
      (on ARM_CPUID_ANY,
        set_features [ARM_FEATURE_V6; ARM_FEATURE_V6K; ARM_FEATURE_V7; ARM_FEATURE_THUMB2; ARM_FEATURE_VFP;
                      ARM_FEATURE_VFP3; ARM_FEATURE_VFP_FP16; ARM_FEATURE_NEON; ARM_FEATURE_THUMB2EE; ARM_FEATURE_DIV;
                      ARM_FEATURE_V7MP]);
      (on_any [ARM_CPUID_TI915T; ARM_CPUID_TI925T],
        set_feature ARM_FEATURE_OMAPCP ;;;
        put_cp15 (fun c => c <| c0_cpuid := ARM_CPUID_TI925T |> <| c0_cachetype := 0x5109149 |> <| c1_sys := 0x00000070 |>
                             <| c15_i_max := 0x000 |> <| c15_i_min := 0xff0 |>));
      (on_any [ARM_CPUID_PXA250; ARM_CPUID_PXA255; ARM_CPUID_PXA260; ARM_CPUID_PXA261; ARM_CPUID_PXA262],
        set_feature ARM_FEATURE_XSCALE ;;;
        put_cp15 (fun c => c <| c0_cachetype := 0xd172172 |> <| c1_sys := 0x00000078 |>));
      (on_any [ARM_CPUID_PXA270_A0; ARM_CPUID_PXA270_A1; ARM_CPUID_PXA270_B0; ARM_CPUID_PXA270_B1; ARM_CPUID_PXA270_C0;
               ARM_CPUID_PXA270_C5],
        set_features [ARM_FEATURE_XSCALE; ARM_FEATURE_IWMMXT] ;;;
        (l <- gets (fun s => cregs (iwmmxt s)) ;; l <- lift (aset ARM_IWMMXT_wCID (0x69051000 .| 0x51) l) ;;
         modify (fun s => s <| iwmmxt ::= fun w => w <| cregs := l |> |>)) ;;;
        put_cp15 (fun c => c <| c0_cachetype := 0xd172172 |> <| c1_sys := 0x00000078 |>)) ] hw_error.

(** [memset] up to the fields that a reset preserves. *)
Definition float_zero : float_status := mk_float_status 0 0 0 0 0.
Definition cleared (env : CPUARMState) : CPUARMState :=
  mk_env (zeros 16) 0 0 (zeros 6) (zeros 6) (zeros 6) (zeros 5) (zeros 5) 0 0 0 0 0 0 0 0
    (mk_cp15 0 0 (zeros 16) 0 0 (zeros 8) (zeros 8) 0 0 0 0 0 0 0 0 0 0 0 0 0 (zeros 8) 0 0 0 0 0 0 0 0 0 0 0 0 0 0 0)
    (mk_v7m 0 0 0 0 0 0 0) 0 0 0
    (mk_vfp (zeros 32) (zeros 16) 0 0 float_zero float_zero) (mk_iwmmxt (zeros 16) (zeros 16)) 0 0 0
    (replicate 2 (replicate 256 (mk_tlb 0 0 0 0))) (replicate 2 (zeros 256)) 0 0 (exception_index env) (cpu_index env).

(** [rom] is what [rom_ptr] finds at address 0. *)
Definition cpu_reset (rom : option (list Z)) : cpu unit :=
  id <- gets (fun s => c0_cpuid (cp15 s)) ;;
  modify cleared ;;;
  when (negb (id =? 0)) (cpu_reset_model_id id) ;;;
  modify (fun s => s <| uncached_cpsr := ARM_CPU_MODE_SVC .| CPSR_A .| CPSR_F .| CPSR_I |>) ;;;
  m <- gets IS_M ;;
  when m (
    modify (fun s => s <| uncached_cpsr ::= fun u => u .&~ CPSR_I |>) ;;;
    match rom with
    | None => ret tt
    | Some rom =>
        sp <- lift (slice 0 4 rom) ;; set_reg 13 (le_value sp) ;;;
        pc <- lift (slice 4 4 rom) ;;
        let pc := le_value pc in
        modify (fun s => s <| thumb := pc .& 1 |>) ;;; set_reg 15 (pc .&~ 1)
    end) ;;;
  set_xreg ARM_VFP_FPEXC 0 ;;;
  put_cp15 (fun c => c <| c2_base_mask := 0xffffc000 |>) ;;;
  modify (fun s => s <| vfp ::= fun p => p <| standard_fp_status ::= fun f =>
    f <| flush_to_zero := 1 |> <| flush_inputs_to_zero := 1 |> <| default_nan_mode := 1 |> |> |>) ;;;
  tlb_flush 1.

(** ** Registers of coprocessor 15 *)

Definition insn_crn (insn : Z) : Z := (insn >> 16) .& 0xf.
Definition insn_op1 (insn : Z) : Z := (insn >> 21) .& 7.
Definition insn_op2 (insn : Z) : Z := (insn >> 5) .& 7.
Definition insn_crm (insn : Z) : Z := insn .& 0xf.

(** Permission bits of the protection regions: two bits each, or four. *)
Definition simple_mpu_ap_bits (val : Z) : Z :=
  foldl (fun ret i => ret .| ((val >> i) .& u32 (3 << i))) 0 [0; 2; 4; 6; 8; 10; 12; 14].
Definition extended_mpu_ap_bits (val : Z) : Z :=
  foldl (fun ret i => ret .| u32 ((val .& u32 (3 << i)) << i)) 0 [0; 2; 4; 6; 8; 10; 12; 14].

Definition has (feature : Z) : cpu bool := gets (fun s => arm_feature s feature).
(** The OMAP cores ignore [op2] of some registers. *)
Definition omap_op2 (op2 : Z) : cpu Z := omap <- has ARM_FEATURE_OMAPCP ;; ret (if omap : bool then 0 else op2).
Definition tb_flush : cpu unit := emit TbFlush.

Definition set_c0 (op1 op2 crm val : Z) : cpu unit :=
  xscale <- has ARM_FEATURE_XSCALE ;; omap <- has ARM_FEATURE_OMAPCP ;; v7 <- has ARM_FEATURE_V7 ;;
  if xscale || omap then ret tt
  else if v7 && (op1 =? 2) && (crm =? 0) && (op2 =? 0) then put_cp15 (fun c => c <| c0_cssel := val .& 0xf |>)
  else hw_error.

Definition set_c1 (op2 crm val : Z) : cpu unit :=
  op2 <- omap_op2 op2 ;; xscale <- has ARM_FEATURE_XSCALE ;;
  switch op2
    [ (on 0, when (negb xscale || (crm =? 0)) (put_cp15 (fun c => c <| c1_sys := val |>)) ;;; tlb_flush 1);
      (on 1, when xscale (put_cp15 (fun c => c <| c1_xscaleauxcr := val |>)));
      (on 2,
        if xscale then hw_error
        else
          old <- gets (fun s => c1_coproc (cp15 s)) ;;
          when (negb (old =? val)) (put_cp15 (fun c => c <| c1_coproc := val |>) ;;; tb_flush)) ] hw_error.

Definition set_c2 (op2 val : Z) : cpu unit :=
  mpu <- has ARM_FEATURE_MPU ;;
  if mpu : bool then
    switch op2
      [ (on 0, put_cp15 (fun c => c <| c2_data := val |>));
        (on 1, put_cp15 (fun c => c <| c2_insn := val |>)) ] hw_error
  else
    switch op2
      [ (on 0, put_cp15 (fun c => c <| c2_base0 := val |>));
        (on 1, put_cp15 (fun c => c <| c2_base1 := val |>));
        (on 2,
          let val := val .& 7 in
          put_cp15 (fun c => c <| c2_control := val |> <| c2_mask := u32 (Z.lnot (0xffffffff >> val)) |>
                               <| c2_base_mask := u32 (Z.lnot (0x3fff >> val)) |>)) ] hw_error.

Definition set_c3 (val : Z) : cpu unit := put_cp15 (fun c => c <| c3 := val |>) ;;; tlb_flush 1.

Definition set_c5 (op2 val : Z) : cpu unit :=
  op2 <- omap_op2 op2 ;; mpu <- has ARM_FEATURE_MPU ;;
  let simple := if mpu : bool then extended_mpu_ap_bits val else val in
  switch op2
    [ (on 0, put_cp15 (fun c => c <| c5_data := simple |>));
      (on 1, put_cp15 (fun c => c <| c5_insn := simple |>));
      (on 2, if negb mpu then hw_error else put_cp15 (fun c => c <| c5_data := val |>));
      (on 3, if negb mpu then hw_error else put_cp15 (fun c => c <| c5_insn := val |>)) ] hw_error.

Definition set_c6 (op2 crm val : Z) : cpu unit :=
  mpu <- has ARM_FEATURE_MPU ;;
  if mpu : bool then
    if 8 <=? crm then hw_error
    else
      l <- gets (fun s => c6_region (cp15 s)) ;; l <- lift (aset crm val l) ;;
      put_cp15 (fun c => c <| c6_region := l |>)
  else
    op2 <- omap_op2 op2 ;;
    switch op2
      [ (on 0, put_cp15 (fun c => c <| c6_data := val |>));
        (on_any [1; 2], put_cp15 (fun c => c <| c6_insn := val |>)) ] hw_error.

Definition set_c8 (op2 val : Z) : cpu unit :=
  switch op2
    [ (on 0, tlb_flush 0);
      (on 1, tlb_flush_page (page_base val));
      (on 2, tlb_flush (bool_Z (val =? 0)));
      (on 3, tlb_flush 1) ] hw_error.

Definition set_c9 (op1 op2 crm val : Z) : cpu unit :=
  omap <- has ARM_FEATURE_OMAPCP ;;
  if omap : bool then ret tt
  else
    switch crm
      [ (on 0,
          switch op1
            [ (on 0,
                switch op2
                  [ (on 0, put_cp15 (fun c => c <| c9_data := val |>));
                    (on 1, put_cp15 (fun c => c <| c9_insn := val |>)) ] hw_error);
              (on 1, ret tt) ] hw_error);
        (on 1, hw_error) ] hw_error.

Definition set_c13 (op2 val : Z) : cpu unit :=
  c <- gets cp15 ;; mpu <- has ARM_FEATURE_MPU ;;
  switch op2
    [ (on 0, when (negb (c13_fcse c =? val)) (tlb_flush 1) ;;; put_cp15 (fun c => c <| c13_fcse := val |>));
      (on 1,
        when (negb (c13_context c =? val) && negb mpu) (tlb_flush 0) ;;;
        put_cp15 (fun c => c <| c13_context := val |>)) ] hw_error.

Definition set_c15 (op2 crm val : Z) : cpu unit :=
  c <- gets cp15 ;; xscale <- has ARM_FEATURE_XSCALE ;; omap <- has ARM_FEATURE_OMAPCP ;;
  if xscale : bool then
    if (op2 =? 0) && (crm =? 1) then
      when (negb (c15_cpar c =? val .& 0x3fff)) (tb_flush ;;; put_cp15 (fun c => c <| c15_cpar := val .& 0x3fff |>))
    else hw_error
  else
    when omap
      (switch crm
         [ (on 0, ret tt);
           (on 1, put_cp15 (fun c => c <| c15_ticonfig := val .& 0xe7 |>
                                      <| c0_cpuid := if test val (1 << 5) then ARM_CPUID_TI915T else ARM_CPUID_TI925T |>));
           (on 2, put_cp15 (fun c => c <| c15_i_max := val |>));
           (on 3, put_cp15 (fun c => c <| c15_i_min := val |>));
           (on 4, put_cp15 (fun c => c <| c15_threadid := val .& 0xffff |>));
           (on 8, cpu_interrupt CPU_INTERRUPT_HALT) ] hw_error).

Section Cp15.
Context {F W E : Type} `{IoDevices F W E}.
Abbreviation machM := (dev (machine F W) (machine_event E)).

(** The result of a translation in the physical address register. *)
Definition par_of (v7 : bool) (r : translation) : Z :=
  match r with
  | inr (phys_addr, _, page_size) =>
      if (page_size =? 1 << 24) && v7 then (phys_addr .& 0xff000000) .| (1 << 1) else phys_addr .& 0xfffff000
  | inl code =>
      ((code .& (10 << 1)) >> 5) .| ((code .& (12 << 1)) >> 6) .| ((code .& 0xf) << 1) .| 1
  end.

(** Cache control: there are no caches, but addresses can be translated. *)
Definition set_c7 (op1 op2 crm val : Z) : machM unit :=
  in_cpu (put_cp15 (fun c => c <| c15_i_max := 0x000 |> <| c15_i_min := 0xff0 |>)) ;;;
  if negb (op1 =? 0) then hw_error
  else
    e <- gets env ;;
    let v7 := arm_feature e ARM_FEATURE_V7 in
    if arm_feature e ARM_FEATURE_V6K then
      switch crm
        [ (on 4, in_cpu (put_cp15 (fun c => c <| c7_par := val .& (if v7 then 0xfffff6ff else 0xfffff1ff) |>)));
          (on 8,
            if test op2 4 then hw_error
            else
              r <- get_phys_addr val (op2 .& 1) (test op2 2) ;;
              in_cpu (put_cp15 (fun c => c <| c7_par := par_of v7 r |>))) ] (ret tt)
    else ret tt.

Definition set_cp15 (insn val : Z) : machM unit :=
  let op1 := insn_op1 insn in
  let op2 := insn_op2 insn in
  let crm := insn_crm insn in
  switch (insn_crn insn)
    [ (on 0, in_cpu (set_c0 op1 op2 crm val));
      (on 1, in_cpu (set_c1 op2 crm val));
      (on 2, in_cpu (set_c2 op2 val));
      (on 3, in_cpu (set_c3 val));
      (on 4, hw_error);
      (on 5, in_cpu (set_c5 op2 val));
      (on 6, in_cpu (set_c6 op2 crm val));
      (on 7, set_c7 op1 op2 crm val);
      (on 8, in_cpu (set_c8 op2 val));
      (on 9, in_cpu (set_c9 op1 op2 crm val));
      (on 10, ret tt);
      (on 12, hw_error);
      (on 13, in_cpu (set_c13 op2 val));
      (on 14, hw_error);
      (on 15, in_cpu (set_c15 op2 crm val)) ] (ret tt).
End Cp15.

(** *** Reading *)

Definition get_c0 (op1 op2 crm : Z) : cpu Z :=
  e <- gets id ;;
  let c := cp15 e in
  let v6 := arm_feature e ARM_FEATURE_V6 in
  let v7 := arm_feature e ARM_FEATURE_V7 in
  switch op1
    [ (on 0,
        switch crm
          [ (on 0,
              switch op2
                [ (on 0, ret (c0_cpuid c));
                  (on 1, ret (c0_cachetype c));
                  (on_any [2; 3], ret 0);
                  (on 5,
                    if v7 || (c0_cpuid c =? ARM_CPUID_ARM11MPCORE) then
                      ret (u32 (if arm_feature e ARM_FEATURE_V7MP then cpu_index e .| (1 << 31) else cpu_index e))
                    else hw_error) ] hw_error);
            (on 1, if negb v6 then hw_error else lift (aget (c0_c1 c) op2));
            (on 2, if negb v6 then hw_error else lift (aget (c0_c2 c) op2));
            (on_range 3 7, ret 0) ] hw_error);
      (on 1,
        if negb v6 || negb (crm =? 0) then hw_error
        else if negb v7 then ret 0
        else
          switch op2
            [ (on 0, lift (aget (c0_ccsid c) (c0_cssel c)));
              (on 1, ret (c0_clid c));
              (on 7, ret 0) ] hw_error);
      (on 2, if negb (op2 =? 0) || negb (crm =? 0) then hw_error else ret (c0_cssel c)) ] hw_error.

Definition get_c1 (op2 : Z) : cpu Z :=
  op2 <- omap_op2 op2 ;;
  e <- gets id ;;
  let c := cp15 e in
  switch op2
    [ (on 0, ret (c1_sys c));
      (on 1,
        if arm_feature e ARM_FEATURE_XSCALE then ret (c1_xscaleauxcr c)
        else if negb (arm_feature e ARM_FEATURE_AUXCR) then hw_error
        else
          switch (c0_cpuid c)
            [ (on ARM_CPUID_ARM1026, ret 1);
              (on_any [ARM_CPUID_ARM1136; ARM_CPUID_ARM1136_R2], ret 7);
              (on ARM_CPUID_ARM11MPCORE, ret 1);
              (on ARM_CPUID_CORTEXA8, ret 2);
              (on ARM_CPUID_CORTEXA9, ret 0) ] hw_error);
      (on 2, if arm_feature e ARM_FEATURE_XSCALE then hw_error else ret (c1_coproc c)) ] hw_error.

Definition get_c2 (op2 : Z) : cpu Z :=
  e <- gets id ;;
  let c := cp15 e in
  if arm_feature e ARM_FEATURE_MPU then
    switch op2 [ (on 0, ret (c2_data c)); (on 1, ret (c2_insn c)) ] hw_error
  else
    switch op2 [ (on 0, ret (c2_base0 c)); (on 1, ret (c2_base1 c)); (on 2, ret (c2_control c)) ] hw_error.

Definition get_c5 (op2 : Z) : cpu Z :=
  op2 <- omap_op2 op2 ;;
  e <- gets id ;;
  let c := cp15 e in
  let mpu := arm_feature e ARM_FEATURE_MPU in
  switch op2
    [ (on 0, ret (if mpu then simple_mpu_ap_bits (c5_data c) else c5_data c));
      (on 1, ret (if mpu then simple_mpu_ap_bits (c5_data c) else c5_insn c));
      (on 2, if negb mpu then hw_error else ret (c5_data c));
      (on 3, if negb mpu then hw_error else ret (c5_insn c)) ] hw_error.

Definition get_c6 (op2 crm : Z) : cpu Z :=
  e <- gets id ;;
  let c := cp15 e in
  let v6 := arm_feature e ARM_FEATURE_V6 in
  if arm_feature e ARM_FEATURE_MPU then
    if 8 <=? crm then hw_error else lift (aget (c6_region c) crm)
  else
    op2 <- omap_op2 op2 ;;
    switch op2
      [ (on 0, ret (c6_data c));
        (on 1, ret (if v6 then 0 else c6_insn c));
        (on 2, if v6 then ret (c6_insn c) else hw_error) ] hw_error.

(** A read for its effect on caches only clears the zero flag. *)
Definition get_c7 (op1 op2 crm : Z) : cpu Z :=
  e <- gets id ;;
  if (crm =? 4) && (op1 =? 0) && (op2 =? 0) then ret (c7_par (cp15 e))
  else modify (fun s => s <| ZF := 0 |>) ;;; ret 0.

Definition get_c9 (op1 op2 crm : Z) : cpu Z :=
  e <- gets id ;;
  let c := cp15 e in
  switch op1
    [ (on 0,
        if arm_feature e ARM_FEATURE_OMAPCP then ret 0
        else switch op2 [ (on 0, ret (c9_data c)); (on 1, ret (c9_insn c)) ] hw_error);
      (on 1, if negb (crm =? 0) then hw_error else ret 0) ] hw_error.

Definition get_c13 (op2 : Z) : cpu Z :=
  e <- gets id ;;
  switch op2 [ (on 0, ret (c13_fcse (cp15 e))); (on 1, ret (c13_context (cp15 e))) ] hw_error.

Definition get_c15 (op2 crm : Z) : cpu Z :=
  e <- gets id ;;
  let c := cp15 e in
  if arm_feature e ARM_FEATURE_XSCALE then
    if (op2 =? 0) && (crm =? 1) then ret (c15_cpar c) else hw_error
  else if arm_feature e ARM_FEATURE_OMAPCP then
    switch crm
      [ (on 0, ret 0);
        (on 1, ret (c15_ticonfig c));
        (on 2, ret (c15_i_max c));
        (on 3, ret (c15_i_min c));
        (on 4, ret (c15_threadid c));
        (on 8, ret 0) ] hw_error
  else ret 0.

Definition get_cp15 (insn : Z) : cpu Z :=
  let op1 := insn_op1 insn in
  let op2 := insn_op2 insn in
  let crm := insn_crm insn in
  switch (insn_crn insn)
    [ (on 0, get_c0 op1 op2 crm);
      (on 1, get_c1 op2);
      (on 2, get_c2 op2);
      (on 3, gets (fun s => c3 (cp15 s)));
      (on 4, hw_error);
      (on 5, get_c5 op2);
      (on 6, get_c6 op2 crm);
      (on 7, get_c7 op1 op2 crm);
      (on 8, hw_error);
      (on 9, get_c9 op1 op2 crm);
      (on 10, ret 0);
      (on_any [11; 12], hw_error);
      (on 13, get_c13 op2);
      (on 14, hw_error);
      (on 15, get_c15 op2 crm) ] hw_error.

(** ** Other coprocessors *)

(** The handlers a device has put in front of a coprocessor: they get the four
    fields of the instruction that name a register. *)
Record coprocessor (St Ev : Type) := mk_coprocessor {
  cp_read : option (Z -> Z -> Z -> dev St Ev Z);
  cp_write : option (Z -> Z -> Z -> Z -> dev St Ev unit)
}.
Arguments mk_coprocessor {St Ev}.
Arguments cp_read {St Ev}.
Arguments cp_write {St Ev}.

Section Coprocessors.
Context {St Ev : Type}.
Implicit Types cps : list (coprocessor St Ev).

Definition insn_cp (insn : Z) : Z := (insn >> 8) .& 0xf.

Definition set_cp cps (insn val : Z) : dev St Ev unit :=
  c <- lift (aget cps (insn_cp insn)) ;;
  match cp_write c with
  | Some f => f (insn_op2 insn) (insn_crn insn) (insn_crm insn) val
  | None => ret tt
  end.
Definition get_cp cps (insn : Z) : dev St Ev Z :=
  c <- lift (aget cps (insn_cp insn)) ;;
  match cp_read c with
  | Some f => f (insn_op2 insn) (insn_crn insn) (insn_crm insn)
  | None => ret 0
  end.

Definition cpu_arm_set_cp_io cps (cpnum : Z) (c : coprocessor St Ev) : outcome (list (coprocessor St Ev)) :=
  if (cpnum <? 0) || (14 <? cpnum) then HwError
  else match aset cpnum c cps with Some l => Done l | None => Undef end.
End Coprocessors.

(** ** System registers of the microcontroller profile *)

Definition v7m_mrs (reg : Z) : cpu Z :=
  e <- gets id ;;
  let process := negb (current_sp (v7m e) =? 0) in
  switch reg
    [ (on 0, ret (xpsr_read e .& 0xf8000000));
      (on 1, ret (xpsr_read e .& 0xf80001ff));
      (on 2, ret (xpsr_read e .& 0xff00fc00));
      (on 3, ret (xpsr_read e .& 0xff00fdff));
      (on 5, ret (xpsr_read e .& 0x000001ff));
      (on 6, ret (xpsr_read e .& 0x0700fc00));
      (on 7, ret (xpsr_read e .& 0x0700edff));
      (on 8, if process then ret (other_sp (v7m e)) else get_reg 13);
      (on 9, if process then get_reg 13 else ret (other_sp (v7m e)));
      (on 16, ret (bool_Z (test (uncached_cpsr e) CPSR_I)));
      (on 17, ret (bool_Z (test (uncached_cpsr e) CPSR_F)));
      (on_any [18; 19], ret (basepri (v7m e)));
      (on 20, ret (control (v7m e))) ] hw_error.

Definition put_v7m (f : v7m_state -> v7m_state) : cpu unit := modify (fun s => s <| v7m ::= f |>).
Definition put_mask (m val : Z) : cpu unit :=
  modify (fun s => s <| uncached_cpsr ::= fun u => if test val 1 then u .| m else u .&~ m |>).

Definition v7m_msr (reg val : Z) : cpu unit :=
  e <- gets id ;;
  let process := negb (current_sp (v7m e) =? 0) in
  switch reg
    [ (on_any [0; 1], xpsr_write val 0xf8000000);
      (on_any [2; 3], xpsr_write val 0xfe00fc00);
      (on 5, ret tt);
      (on_any [6; 7], xpsr_write val 0x0600fc00);
      (on 8, if process then put_v7m (fun v => v <| other_sp := val |>) else set_reg 13 val);
      (on 9, if process then set_reg 13 val else put_v7m (fun v => v <| other_sp := val |>));
      (on 16, put_mask CPSR_I val);
      (on 17, put_mask CPSR_F val);
      (on 18, put_v7m (fun v => v <| basepri := val .& 0xff |>));
      (on 19,
        let val := val .& 0xff in
        when (negb (val =? 0) && ((val <? basepri (v7m e)) || (basepri (v7m e) =? 0))) (put_v7m (fun v => v <| basepri := val |>)));
      (on 20,
        put_v7m (fun v => v <| control := val .& 3 |>) ;;;
        switch_v7m_sp (bool_Z (test val 2))) ] hw_error.

(** ** What a register returns *)

(** The bits that a register keeps, for the registers that are read as they were
    written; [None] for the others. *)
Definition kept_bits (e : CPUARMState) (insn : Z) : option Z :=
  let has f := arm_feature e f in
  let op1 := insn_op1 insn in
  let crm := insn_crm insn in
  let op2 := insn_op2 insn in
  let word := Some 0xffffffff in
  let omap := has ARM_FEATURE_OMAPCP in
  let op2' := if omap then 0 else op2 in
  switch (insn_crn insn)
    [ (on 0, if negb (has ARM_FEATURE_XSCALE) && negb omap && has ARM_FEATURE_V7 && (op1 =? 2) && (crm =? 0) && (op2 =? 0)
             then Some 0xf else None);
      (on 1, switch op2'
        [ (on 0, if negb (has ARM_FEATURE_XSCALE) || (crm =? 0) then word else None);
          (on 1, if has ARM_FEATURE_XSCALE then word else None);
          (on 2, if has ARM_FEATURE_XSCALE then None else word) ] None);
      (on 2, switch op2 [ (on_any [0; 1], word); (on 2, if has ARM_FEATURE_MPU then None else Some 7) ] None);
      (on 3, word);
      (on 5, switch op2'
        [ (on 0, if has ARM_FEATURE_MPU then Some 0xffff else word);
          (on 1, if has ARM_FEATURE_MPU then None else word);
          (on_any [2; 3], if has ARM_FEATURE_MPU then word else None) ] None);
      (on 6, if has ARM_FEATURE_MPU then (if 8 <=? crm then None else word)
             else switch op2'
               [ (on 0, word); (on 1, if has ARM_FEATURE_V6 then None else word); (on 2, if has ARM_FEATURE_V6 then word else None) ] None);
      (on 7, if has ARM_FEATURE_V6K && (op1 =? 0) && (crm =? 4) && (op2 =? 0)
             then Some (if has ARM_FEATURE_V7 then 0xfffff6ff else 0xfffff1ff) else None);
      (on 9, if negb omap && (op1 =? 0) && (crm =? 0) then switch op2 [ (on_any [0; 1], word) ] None else None);
      (on 13, switch op2 [ (on_any [0; 1], word) ] None);
      (on 15, if has ARM_FEATURE_XSCALE then (if (op2 =? 0) && (crm =? 1) then Some 0x3fff else None)
              else if omap then switch crm [ (on 1, Some 0xe7); (on_any [2; 3], word); (on 4, Some 0xffff) ] None
              else None) ] None.

Lemma extended_bit val i : 0 <= i < 32 ->
  Z.testbit (extended_mpu_ap_bits val) i = (i mod 4 <? 2) && Z.testbit val (i / 4 * 2 + i mod 4).
Proof. revert i. unfold extended_mpu_ap_bits. cbn [foldl]. each_bit. all: bit_eval; done. Qed.
Lemma simple_bit val i : 0 <= i < 32 ->
  Z.testbit (simple_mpu_ap_bits val) i = (i <? 16) && Z.testbit val (i / 2 * 4 + i mod 2).
Proof. revert i. unfold simple_mpu_ap_bits. cbn [foldl]. each_bit. all: bit_eval; done. Qed.

(** The two formats of permissions hold the same. *)
Lemma ap_bits_round_trip val : 0 <= val -> simple_mpu_ap_bits (extended_mpu_ap_bits val) = val .& 0xffff.
Proof.
  intros Hv. apply word_eq.
  - unfold simple_mpu_ap_bits. cbn [foldl]. repeat (apply fits_lor; [lia| |apply fits_land_const; [lia|by vm_compute|]]).
      { by vm_compute. }
    all: apply Z.shiftr_nonneg; unfold extended_mpu_ap_bits; cbn [foldl];
      repeat (apply Z.lor_nonneg; split; [|apply (fits_nonneg 32), fits_wrap; lia]); done.
  - by apply fits_land_const.
  - intros i Hi. rewrite simple_bit by done. revert i Hi. each_bit.
    all: match goal with |- (?b && Z.testbit ?y ?j) = ?r =>
      let b' := eval vm_compute in b in let k := eval vm_compute in j in change (b' && Z.testbit y k = r) end.
    all: rewrite ?andb_true_l, ?andb_false_l, ?extended_bit by done; bit_eval; done.
Qed.

(** An operation that returns, with what holds then. *)
Definition returns {St Ev A} (m : dev St Ev A) (Q : A -> St -> Prop) (s : St) : Prop :=
  exists a s' es, m s = Done (a, s', es) /\ Q a s'.

Section Returns.
Context {St Ev : Type}.
Lemma returns_ret {A} (a : A) (Q : A -> St -> Prop) s : Q a s -> returns (ret a : dev St Ev A) Q s.
Proof. intros HQ. by exists a, s, []. Qed.
Lemma returns_bind {A B} (m : dev St Ev A) (k : A -> dev St Ev B) Q s :
  returns m (fun a s' => returns (k a) Q s') s -> returns (bind m k) Q s.
Proof.
  intros (a & s' & es & Em & b & s'' & es' & Ek & HQ). exists b, s'', (es ++ es'). split; [|done].
  unfold bind. by rewrite Em, Ek.
Qed.
Lemma returns_gets {A} (f : St -> A) (Q : A -> St -> Prop) s : Q (f s) s -> returns (gets f : dev St Ev A) Q s.
Proof. intros HQ. by exists (f s), s, []. Qed.
Lemma returns_modify (f : St -> St) (Q : unit -> St -> Prop) s : Q tt (f s) -> returns (modify f : dev St Ev unit) Q s.
Proof. intros HQ. by exists tt, (f s), []. Qed.
Lemma returns_emit (e : Ev) (Q : unit -> St -> Prop) s : Q tt s -> returns (emit e) Q s.
Proof. intros HQ. by exists tt, s, [e]. Qed.
Lemma returns_lift {A} (o : option A) (Q : A -> St -> Prop) s a : o = Some a -> Q a s -> returns (lift o : dev St Ev A) Q s.
Proof. intros -> HQ. by exists a, s, []. Qed.
Lemma returns_when (b : bool) (m : dev St Ev unit) (Q : unit -> St -> Prop) s :
  (if b then returns m Q s else Q tt s) -> returns (when b m) Q s.
Proof. destruct b; [done|]. intros HQ. by exists tt, s, []. Qed.
End Returns.

Lemma returns_in_cpu {F W E A} (m : cpu A) (Q : A -> machine F W -> Prop) s :
  returns m (fun a e => Q a (s <| env := e |>)) (env s) -> returns (in_cpu m : dev (machine F W) (machine_event E) A) Q s.
Proof.
  intros (a & e & es & Em & HQ). exists a, (s <| env := e |>), (map InCpu es). split; [|done].
  unfold in_cpu. by erewrite zoom_Done by exact Em.
Qed.

(** Conditions on features that are known are decided. *)
Ltac decide_known :=
  unfold id;
  repeat match goal with
  | |- context [env (@upd ?R ?T ?p ?i (fun _ => ?e) ?x)] => change (env (@upd R T p i (fun _ => e) x)) with e
  | |- context [arm_feature (@upd ?R ?T ?p ?i ?g ?x) ?f] =>
      change (arm_feature (@upd R T p i g x) f) with (arm_feature x f)
  end;
  repeat match goal with
  | H : ?b = true |- context [?b] => rewrite H
  | H : ?b = false |- context [?b] => rewrite H
  end; cbn [Z.eqb Pos.eqb orb andb negb]; rewrite ?orb_true_r; cbv iota.
(** A step of an operation. *)
Ltac returns_step :=
  lazymatch goal with
  | |- returns (bind _ _) _ _ => apply returns_bind
  | |- returns (gets _) _ _ => apply returns_gets
  | |- returns (modify _) _ _ => apply returns_modify
  | |- returns (emit _) _ _ => apply returns_emit
  | |- returns (ret _) _ _ => apply returns_ret
  | |- returns (in_cpu _) _ _ => apply returns_in_cpu
  | |- returns (lift _) _ _ => eapply returns_lift; [eassumption|]
  | |- returns (when _ _) _ _ => apply returns_when
  | |- returns hw_error _ _ => fail
  | |- returns (if ?b then _ else _) _ _ => destruct b eqn:?
  | |- (if ?b then _ else _) => destruct b eqn:?
  | |- returns _ _ _ => progress unfold put_cp15, tlb_flush, tb_flush, has, omap_op2, cpu_interrupt
  end; cbn beta iota; decide_known.
Ltac returns_steps := decide_known; repeat returns_step.

(** A register in a state is what was written to it. *)
Definition reads_back (set : cpu unit) (get : cpu Z) (e : CPUARMState) (v : Z) : Prop :=
  returns set (fun _ e' => returns get (fun v' e'' => v' = v /\ e'' = e') e') e.

Lemma field_range x k : 0 <= k <= 4 -> 0 <= x .& (2 ^ k - 1) < 2 ^ k.
Proof. intros Hk. rewrite land_ones by lia. apply Z.mod_pos_bound. lia. Qed.

Lemma land_word val : fits 32 val -> val .& 0xffffffff = val.
Proof. intros Hv. change 0xffffffff with (2 ^ 32 - 1). rewrite land_ones by done. by apply wrap_fits. Qed.

Ltac cp_cases :=
  unfold switch, on, on_any, on_range, existsb; intros Hm; 
  repeat match type of Hm with
  | context [(if ?b then _ else _) =? _] => destruct b eqn:?
  | context [if ?b then _ else _] => destruct b eqn:?; cbn [Z.eqb Pos.eqb orb andb negb] in *; try discriminate
  end; try discriminate Hm; injection Hm as <-;
  repeat match goal with
  | H : _ && _ = true |- _ => apply andb_true_iff in H as [? ?]
  | H : _ || _ = true |- _ => apply orb_true_iff in H as [H|H]
  | H : false = true |- _ => discriminate H
  | H : negb _ = true |- _ => apply negb_true_iff in H
  | H : (?x =? _) = true |- _ => is_var x; apply Z.eqb_eq in H; subst x
  end.

Tactic Notation "reads" reference(set) reference(get) :=
  intros Hn; unfold kept_bits; rewrite Hn; cbn [switch on on_any Z.eqb Pos.eqb existsb orb];
  match type of Hn with insn_crn ?i = _ => generalize (insn_op1 i) (insn_op2 i) (insn_crm i) end;
  intros op1 op2 crm; unfold reads_back, set, get;
  cp_cases; intros; rewrite ?land_word by done; returns_steps.

(** The value is there, or it was before. *)
Ltac kept :=
  try done;
  try match goal with H : negb (_ =? _) = false |- _ => apply negb_false_iff, Z.eqb_eq in H; by rewrite H end.

Section ReadsBack.
Context (e : CPUARMState) (insn val m : Z) (Hv : fits 32 val) (Hr : zlen (c6_region (cp15 e)) = 8).
Abbreviation op1 := (insn_op1 insn).
Abbreviation op2 := (insn_op2 insn).
Abbreviation crm := (insn_crm insn).

Lemma c0_reads_back : insn_crn insn = 0 -> kept_bits e insn = Some m ->
  reads_back (set_c0 op1 op2 crm val) (get_c0 op1 op2 crm) e (val .& m).
Proof. reads set_c0 get_c0. all: kept. Qed.
Lemma c1_reads_back : insn_crn insn = 1 -> kept_bits e insn = Some m ->
  reads_back (set_c1 op2 crm val) (get_c1 op2) e (val .& m).
Proof. reads set_c1 get_c1. all: kept. Qed.
Lemma c2_reads_back : insn_crn insn = 2 -> kept_bits e insn = Some m ->
  reads_back (set_c2 op2 val) (get_c2 op2) e (val .& m).
Proof. reads set_c2 get_c2. all: kept. Qed.
Lemma c3_reads_back : insn_crn insn = 3 -> kept_bits e insn = Some m ->
  reads_back (set_c3 val) (gets (fun s => c3 (cp15 s))) e (val .& m).
Proof. reads set_c3 set_c3. all: kept. Qed.
Lemma c5_reads_back : insn_crn insn = 5 -> kept_bits e insn = Some m ->
  reads_back (set_c5 op2 val) (get_c5 op2) e (val .& m).
Proof. reads set_c5 get_c5. all: kept. all: split; [|done]; apply ap_bits_round_trip, Hv. Qed.
Lemma c6_reads_back : insn_crn insn = 6 -> kept_bits e insn = Some m -> 0 <= insn_crm insn ->
  reads_back (set_c6 op2 crm val) (get_c6 op2 crm) e (val .& m).
Proof.
  reads set_c6 get_c6. all: kept.
  all: match goal with H : (8 <=? _) = false |- _ => apply Z.leb_gt in H end.
  all: eapply returns_lift; [apply aset_Some; lia|]; returns_steps; try done.
  all: eapply returns_lift; [eapply aget_aset_eq, aset_Some; lia|done].
Qed.
Lemma c9_reads_back : insn_crn insn = 9 -> kept_bits e insn = Some m ->
  reads_back (set_c9 op1 op2 crm val) (get_c9 op1 op2 crm) e (val .& m).
Proof. reads set_c9 get_c9. all: kept. Qed.
Lemma c13_reads_back : insn_crn insn = 13 -> kept_bits e insn = Some m ->
  reads_back (set_c13 op2 val) (get_c13 op2) e (val .& m).
Proof. reads set_c13 get_c13. all: kept. Qed.
Lemma c15_reads_back : insn_crn insn = 15 -> kept_bits e insn = Some m ->
  reads_back (set_c15 op2 crm val) (get_c15 op2 crm) e (val .& m).
Proof. reads set_c15 get_c15. all: kept. Qed.

Lemma c7_reads_back {F W E} `{IoDevices F W E} (s : machine F W) :
  env s = e -> insn_crn insn = 7 -> kept_bits e insn = Some m ->
  returns (set_c7 op1 op2 crm val : dev (machine F W) (machine_event E) unit)
    (fun _ s' => returns (get_c7 op1 op2 crm) (fun v e' => v = val .& m /\ e' = env s') (env s')) s.
Proof.
  intros <-. reads set_c7 get_c7.
  all: done.
Qed.
End ReadsBack.


(** ** Writes and the translation buffer *)

(** What the translation depends on, besides the memory. *)
Definition translation_state (e : CPUARMState) :=
  let c := cp15 e in
  (features e, c1_sys c, (c2_base0 c, c2_base1 c, c2_control c, c2_mask c, c2_base_mask c), c3 c, c13_fcse c).
Definition buffer_of (e : CPUARMState) := (tlb_table e, tlb_flush_addr e, tlb_flush_mask e, iotlb e).
Definition empty_buffer (io : list (list Z)) :=
  (replicate (Z.to_nat NB_MMU_MODES) (replicate (Z.to_nat CPU_TLB_SIZE) s_cputlb_empty_entry), TLB_NONE, 0, io).

Lemma regime_state rd e e' va kind u :
  translation_state e' = translation_state e -> regime rd e' va kind u = regime rd e va kind u.
Proof.
  intros [= E1 E2 E3 E4 E5 E6 E7 E8 E9].
  unfold regime, translate_v6, fcse_address, l1_address, domain_access, frame_v6, ap_perms, arm_feature. by rewrite E1, E2, E3, E4, E5, E8, E9.
Qed.
Lemma control_state e e' : translation_state e' = translation_state e -> control_ok e -> control_ok e'.
Proof. intros [= E1 E2 E3 E4 E5 E6 E7 E8 E9]. unfold control_ok, ttbcr_ok. by rewrite E3, E4, E5, E6, E7, E9. Qed.

(** After a write either the buffer is empty, or neither it nor the translation
    has changed. *)
Definition consistent (e e' : CPUARMState) : Prop :=
  control_ok e' /\
  (buffer_of e' = empty_buffer (iotlb e) \/ buffer_of e' = buffer_of e /\ translation_state e' = translation_state e).

Section Writes.
Context (e : CPUARMState) (Hc : control_ok e) (Hr : zlen (c6_region (cp15 e)) = 8) (op1 op2 crm val : Z).
Abbreviation wr m := (wp m (fun _ e' _ => consistent e e') e).

Ltac writes :=
  unfold put_cp15, tlb_flush, tb_flush, omap_op2, has, cpu_interrupt; wp_steps;
  try (split; [done|]; first [by left|by right]).

Lemma c0_write : wr (set_c0 op1 op2 crm val).
Proof. unfold set_c0. writes. Qed.
Lemma c1_write : wr (set_c1 op2 crm val).
Proof. unfold set_c1. writes. Qed.
Lemma c3_write : wr (set_c3 val).
Proof. unfold set_c3. writes. Qed.
Lemma c5_write : wr (set_c5 op2 val).
Proof. unfold set_c5. writes. Qed.
Lemma c9_write : wr (set_c9 op1 op2 crm val).
Proof. unfold set_c9. writes. Qed.
Lemma c15_write : wr (set_c15 op2 crm val).
Proof. unfold set_c15. writes. Qed.
Lemma c6_write : 0 <= crm -> wr (set_c6 op2 crm val).
Proof.
  intros Hcrm. unfold set_c6. writes. eapply wp_lift; [apply aset_Some; zcases|]. writes.
Qed.
Lemma c13_write : fits 32 val -> (op2 = 0 -> val mod TARGET_PAGE_SIZE = 0) -> wr (set_c13 op2 val).
Proof.
  intros Hv Hz. unfold set_c13. writes.
  all: match goal with H : on 0 op2 = true |- _ => apply Z.eqb_eq in H end.
  - split; [split; [apply Hc|split; [exact Hv|by apply Hz]]|by left].
  - match goal with H : negb _ = false |- _ => apply negb_false_iff, Z.eqb_eq in H as E end.
    assert (e <| cp15 ::= fun c => c <| c13_fcse := val |> |> = e) as -> by (rewrite <- E; destruct e as [? ? ? ? ? ? ? ? ? ? ? ? ? ? ? ? []]; done).
    split; [exact Hc|by right].
Qed.

Lemma ttbcr_masks n : 0 <= n < 8 ->
  u32 (Z.lnot (0xffffffff >> n)) = u32 (- 2 ^ (32 - n)) /\ u32 (Z.lnot (0x3fff >> n)) = u32 (- 2 ^ (14 - n)).
Proof. intros Hn. apply (in_range_cases 8) in Hn. vm_compute in Hn. by cases_in Hn. Qed.

(** The bases of the tables: the buffer does not follow. *)
Lemma c2_write : fits 32 val ->
  wp (set_c2 op2 val) (fun _ e' _ => control_ok e' /\ buffer_of e' = buffer_of e) e.
Proof.
  intros Hv. unfold set_c2. writes.
  all: split; [|done]; destruct Hc as ((T1 & T2 & T3 & T4 & T5) & T6).
  1-4: split; [|exact T6]; split; [exact T1|]; split; [exact T2|]; split; [exact T3|]; by split.
  pose proof (field_range val 3 ltac:(lia)) as Hn. destruct (ttbcr_masks _ Hn) as [E1 E2].
  split; [|exact T6]. split; [exact Hn|]. split; [exact E1|]. split; [exact E2|]. by split.
Qed.
End Writes.

Section Coherent.
Context {F W E : Type} `{IoDevices F W E}.
Implicit Types s : machine F W.

(** A buffer stays coherent where the translation stays the same. *)
Lemma coherent_same s s' tr tr' r :
  buffer_of (env s') = buffer_of (env s) -> same_but_order (mem s) (mem s') -> (forall va kind u, tr' va kind u = tr va kind u) ->
  coherent s tr r -> coherent s' tr' r.
Proof.
  intros [= E1 E2 E3 E4] Ho Htr (Hs & Hr & Hent). unfold coherent, table_shape, region_is, entry_of, io_of in *.
  rewrite E1, E2, E3, E4. split; [exact Hs|]. split; [exact Hr|]. intros mmu i x va kind Hva Hk Hx Hp.
  destruct (Hent _ _ _ _ _ Hva Hk Hx Hp) as (Hi & pa & prot & size & d & Et & Hrest). split; [done|].
  exists pa, prot, size, d. by rewrite Htr, (order_descriptor (mem s)).
Qed.

Lemma coherent_empty s s' tr tr' r :
  buffer_of (env s') = empty_buffer (iotlb (env s)) -> coherent s tr r -> coherent s' tr' None.
Proof.
  intros Hb (Hs & _). destruct (flushed_coherent (mk_machine (env s) (mem s')) tr' 1 Hs) as (e' & Ee & _ & He).
  assert (buffer_of e' = empty_buffer (iotlb (env s))) as Ee' by (by injection Ee as <-). clear Ee.
  revert He. apply coherent_same; [by rewrite Hb|exact (order_refl (mem s'))|done].
Qed.

Lemma consistent_coherent s e' rd r :
  consistent (env s) e' -> coherent s (regime rd (env s)) r ->
  exists r', coherent (s <| env := e' |>) (regime rd e') r'.
Proof.
  intros [_ [Hb|[Hb Ht]]] Hcoh.
  - exists None. by eapply coherent_empty.
  - exists r. revert Hcoh. apply coherent_same; [done|exact (order_refl (mem s))|]. intros. by apply regime_state.
Qed.
End Coherent.

(** The address a write asks to be translated has a translation in the regime. *)
Definition known (rd : Z -> option Z) (e : CPUARMState) (insn val : Z) : Prop :=
  insn_crn insn = 7 -> insn_crm insn = 8 -> regime rd e val (insn_op2 insn .& 1) (test (insn_op2 insn) 2) <> None.

Section Cp15Coherent.
Context {F W E : Type} `{IoDevices F W E}.
Implicit Types s : machine F W.

(** What a write leaves; the regime is the one before it if the write moved the
    translation tables. *)
Definition write_done rd (moved : bool) s s' : Prop :=
  control_ok (env s') /\ ram_ok (mem s') /\ reads (mem s') rd /\
  exists r', coherent s' (regime rd (if moved then env s else env s')) r'.

Lemma wp_in_cpu {A} (m : cpu A) (Q : A -> machine F W -> list (machine_event E) -> Prop) s :
  wp m (fun a e es => Q a (s <| env := e |>) (map InCpu es)) (env s) -> wp (in_cpu m) Q s.
Proof. unfold wp, in_cpu, zoom. by destruct (m (env s)) as [[[a e] es]| |]. Qed.

Lemma plain_write rd r (m : cpu unit) s :
  ram_ok (mem s) -> reads (mem s) rd -> coherent s (regime rd (env s)) r ->
  wp m (fun _ e' _ => consistent (env s) e') (env s) ->
  wp (in_cpu m : dev (machine F W) (machine_event E) unit) (fun _ s' _ => write_done rd false s s') s.
Proof.
  intros Hok Hrd Hcoh Hm. apply wp_in_cpu. eapply wp_mono; [exact Hm|]. intros [] e' es Hcons.
  split; [apply Hcons|]. split; [done|]. split; [done|]. by eapply consistent_coherent.
Qed.

Lemma same_done rd r s s' :
  control_ok (env s) -> ram_ok (mem s) -> reads (mem s) rd -> coherent s (regime rd (env s)) r ->
  buffer_of (env s') = buffer_of (env s) -> translation_state (env s') = translation_state (env s) ->
  same_but_order (mem s) (mem s') -> write_done rd false s s'.
Proof.
  intros Hc Hok Hrd Hcoh Hb Ht Ho. split; [by apply (control_state (env s))|]. split; [by apply (order_ok (mem s))|].
  split; [by apply (order_reads (mem s))|]. exists r. revert Hcoh. apply coherent_same; [done|done|]. intros. by apply regime_state.
Qed.

Lemma c8_write rd r op2 val s :
  control_ok (env s) -> ram_ok (mem s) -> reads (mem s) rd -> coherent s (regime rd (env s)) r -> fits 32 val ->
  wp (in_cpu (set_c8 op2 val) : dev (machine F W) (machine_event E) unit) (fun _ s' _ => write_done rd false s s') s.
Proof.
  intros Hc Hok Hrd Hcoh Hv. apply wp_in_cpu. unfold set_c8, tlb_flush. wp_steps.
  1,3,4: split; [exact Hc|]; split; [exact Hok|]; split; [exact Hrd|]; exists None; refine (coherent_empty s _ _ _ _ _ Hcoh); reflexivity.
  destruct (invalidation_run s (regime rd (env s)) (regime rd (env s)) r (page_base val)) as (e' & r' & Ef & Hb & Hcoh');
    [done| |done|].
  { rewrite page_base_block. apply (block_number_fits val 10); [done|lia]. }
  unfold wp; rewrite Ef. assert (translation_state e' = translation_state (env s)) as Ht by (by destruct Hb as (t & io & a & m & ->)).
  split; [by apply (control_state (env s))|]. split; [done|]. split; [done|]. exists r'.
  revert Hcoh'. apply coherent_same; [done|apply order_refl|]. intros. by apply regime_state.
Qed.

Lemma c7_write rd r op1 op2 crm val s :
  control_ok (env s) -> ram_ok (mem s) -> reads (mem s) rd -> coherent s (regime rd (env s)) r -> fits 32 val ->
  (crm = 8 -> regime rd (env s) val (op2 .& 1) (test op2 2) <> None) ->
  wp (set_c7 op1 op2 crm val : dev (machine F W) (machine_event E) unit) (fun _ s' _ => write_done rd false s s') s.
Proof.
  intros Hc Hok Hrd Hcoh Hv Hknown. unfold set_c7, put_cp15. apply wp_bind, wp_in_cpu, wp_modify.
  set (s1 := s <| env := _ |>). wp_steps.
  all: try (by apply (same_done rd r)).
  all: try (apply wp_in_cpu, wp_modify; apply (same_done rd r); try done; apply order_refl).
  all: try (apply (same_done rd r); try done; apply order_refl).
  match goal with H : on 8 crm = true |- _ => apply Z.eqb_eq, Hknown in H as Hk end.
  assert (control_ok (env s1)) as Hc1 by exact Hc.
  rewrite <- (regime_state rd (env s) (env s1)) in Hk by done.
  destruct (regime rd (env s1) val (op2 .& 1) (test op2 2)) as [t|] eqn:Et; [|done].
  assert (0 <= op2 .& 1 < 3) as Hk1 by (pose proof (field_range op2 1 ltac:(lia)); change (2 ^ 1 - 1) with 1 in *; lia).
  destruct (regime_translates s1 rd Hok Hrd Hc1 s1 val _ _ t (machine_refl s1) Hv Hk1 Et) as (m' & Eg & Ho).
  unfold wp at 1; rewrite Eg. apply wp_in_cpu, wp_modify. by apply (same_done rd r).
Qed.

End Cp15Coherent.

(** A fault of a translation: only the low bits of the status are kept, since the
    other two groups are masked with [10 << 1] and [12 << 1], and then shifted
    out. *)
Lemma par_fault v7 code : fits 12 code -> par_of v7 (inl code) = 2 * (code mod 16) + 1.
Proof.
  intros Hc. unfold par_of. assert (0 <= code) as H0 by apply Hc.
  assert (forall m n, 0 <= m < 2 ^ n -> (code .& m) >> n = 0) as Hz.
  { intros m n Hm. assert (0 <= n) as Hn by (destruct (Z.lt_ge_cases n 0); [rewrite Z.pow_neg_r in Hm; lia|done]).
    rewrite shiftr_div by done. apply Z.div_small. change (fits n (code .& m)). apply fits_land_const; [done|exact Hm|done]. }
  rewrite !Hz by done. change 0xf with (2 ^ 4 - 1). rewrite land_ones by lia.
  rewrite Z.shiftl_mul_pow2, !Z.lor_0_l, lor_add by lia. change (2 ^ 4) with 16. lia.
Qed.

(** ** Reset *)

Definition model_ids : list Z :=
  [ARM_CPUID_ARM926; ARM_CPUID_ARM946; ARM_CPUID_ARM1026; ARM_CPUID_ARM1136; ARM_CPUID_ARM1136_R2; ARM_CPUID_ARM11MPCORE;
   ARM_CPUID_CORTEXA8; ARM_CPUID_CORTEXA9; ARM_CPUID_ANY; ARM_CPUID_TI925T; ARM_CPUID_PXA250; ARM_CPUID_PXA255;
   ARM_CPUID_PXA260; ARM_CPUID_PXA261; ARM_CPUID_PXA262; ARM_CPUID_PXA270_A0; ARM_CPUID_PXA270_A1; ARM_CPUID_PXA270_B0;
   ARM_CPUID_PXA270_B1; ARM_CPUID_PXA270_C0; ARM_CPUID_PXA270_C5].

(** The registers a model starts with leave the translation off. *)
Definition fresh_control (id : Z) (c : cp15_state) : Prop :=
  c0_cpuid c = id /\ c1_sys c .& 1 = 0 /\ c2_control c = 0 /\ c2_mask c = 0 /\ c2_base0 c = 0 /\ c2_base1 c = 0 /\
  c13_fcse c = 0 /\ zlen (c6_region c) = 8.

Lemma model_state env id : id ∈ model_ids ->
  exists e, cpu_reset_model_id id (cleared env) = Done (tt, e, []) /\
    e = (cleared env) <| features := features e |> <| vfp := vfp e |> <| iwmmxt := iwmmxt e |> <| cp15 := cp15 e |> /\
    IS_M e = false /\ zlen (xregs (vfp e)) = 16 /\ fresh_control id (cp15 e).
Proof.
  intros Hid. unfold model_ids in Hid. cases_in Hid.
  all: eexists; split; [vm_compute; reflexivity|]; split; [reflexivity|]; split; [reflexivity|]; split; [reflexivity|]; by repeat split.
Qed.

Lemma model_run env id : id ∈ model_ids ->
  exists f v w c, cpu_reset_model_id id (cleared env) =
      Done (tt, (cleared env) <| features := f |> <| vfp := v |> <| iwmmxt := w |> <| cp15 := c |>, []) /\
    test f (1 << ARM_FEATURE_M) = false /\ zlen (xregs v) = 16 /\ fresh_control id c.
Proof.
  intros Hid. destruct (model_state env id Hid) as (e & E & He & Hrest).
  exists (features e), (vfp e), (iwmmxt e), (cp15 e). rewrite <- He. by split.
Qed.


(** ** What writes leave alone *)

(** A processor with protection regions keeps what it has translated when a
    region or its permissions change. *)
Lemma region_write_stale (e : CPUARMState) op2 crm val :
  arm_feature e ARM_FEATURE_MPU = true -> zlen (c6_region (cp15 e)) = 8 -> 0 <= crm ->
  wp (set_c6 op2 crm val) (fun _ e' _ => buffer_of e' = buffer_of e) e /\
  wp (set_c5 op2 val) (fun _ e' _ => buffer_of e' = buffer_of e) e.
Proof.
  intros Hm Hr Hcrm. unfold set_c6, set_c5, put_cp15, omap_op2, has. split; wp_steps; try done.
  eapply wp_lift; [apply aset_Some; zcases|]. by wp_steps.
Qed.

(** The permissions of instructions read as those of data. *)
Lemma region_permissions_read (e : CPUARMState) :
  arm_feature e ARM_FEATURE_MPU = true -> arm_feature e ARM_FEATURE_OMAPCP = false ->
  get_c5 1 e = Done (simple_mpu_ap_bits (c5_data (cp15 e)), e, []).
Proof. intros Hm Ho. unfold get_c5, omap_op2, has. run. rewrite Ho. run. unfold id. by rewrite Hm. Qed.

(** ** Handlers and system registers *)

(** A handler is called for its coprocessor, and for no other. *)
Lemma handler_reached {St Ev} (cps cps' : list (coprocessor St Ev)) n c insn val s :
  cpu_arm_set_cp_io cps n c = Done cps' ->
  set_cp cps' insn val s =
    (if insn_cp insn =? n then match cp_write c with
      | Some f => f (insn_op2 insn) (insn_crn insn) (insn_crm insn) val | None => ret tt end
    else set_cp cps insn val) s.
Proof.
  unfold cpu_arm_set_cp_io. destruct (_ || _); [done|]. destruct (aset n c cps) as [l|] eqn:El; [|done]. intros [= <-].
  unfold set_cp. destruct (Z.eqb_spec (insn_cp insn) n) as [->|Hne].
  - erewrite (aget_aset_eq cps) by exact El. by rewrite (bind_lift _ _ _ c).
  - by erewrite (aget_aset_ne cps) by eauto.
Qed.

(** The registers of the microcontroller profile that mask interrupts. *)
Definition v7m_kept (reg : Z) : option Z :=
  switch reg [ (on_any [16; 17], Some 1); (on 18, Some 0xff) ] None.

Lemma set_bit_reads u val n : 0 <= n -> bool_Z (test (if test val 1 then u .| bit n else u .&~ bit n) (bit n)) = val .& 1.
Proof.
  intros Hn. rewrite test_true_bit by done. change 1 with (bit 0) at 1. rewrite test_true_bit by done.
  change (val .& 1) with (val .& Z.ones 1). rewrite Z.land_ones by done. change (2 ^ 1) with 2.
  assert (val mod 2 = bool_Z (Z.testbit val 0)) as -> by (rewrite Z.bit0_mod; by destruct (Z.testbit val 0)).
  destruct (Z.testbit val 0); rewrite ?Z.lor_spec, ?Z.ldiff_spec, ?testbit_bit, Z.eqb_refl by done; by rewrite ?orb_true_r, ?andb_false_r.
Qed.

Lemma v7m_reads_back e reg val m :
  v7m_kept reg = Some m ->
  returns (v7m_msr reg val) (fun _ e' => returns (v7m_mrs reg) (fun v e'' => v = val .& m /\ e'' = e') e') e.
Proof.
  unfold v7m_kept, v7m_msr, v7m_mrs. cp_cases.
  all: cbn [Z.eqb Pos.eqb orb]; cbv iota; unfold put_v7m, put_mask; returns_steps.
  - split; [|done]. by apply (set_bit_reads _ val 7).
  - split; [|done]. by apply (set_bit_reads _ val 6).
  - done.
Qed.

(** ** Examples *)
Module Cp15Demo.
Import MemoryDemo ArmDemo MmuDemo.

(** The control register of the translation tables keeps three bits. *)
Definition ttbcr_insn : Z := (2 << 16) .| (2 << 5).


End Cp15Demo.
