(* ===== verification/ArmState.v ===== *)
(** * ArmState: saving and loading the ARM processor, and the status register of
    its floating point unit ([target-arm/machine.c], [target-arm/helper.c],
    [exec.c])

    The registers go to the stream in the order of the code, with one word for the
    status register, whose flags are kept apart in the processor. What the
    processor does not have, by its features, is not in the stream.

    The status register of the floating point unit is kept in five places: a
    register, two fields for vectors, and the settings and flags of the library
    that computes ([float_status]). *)
From S2P Require Import Prelude Words Savevm ArmCpu ArmTlb.

(** ** Writing *)

Definition CPU_SAVE_VERSION := 3.

(** The upper word of a double first. *)
Definition put_double (d : Z) : stream := qemu_put_be32 (d >> 32) ++ qemu_put_be32 d.
Definition put_pair (p : Z * Z) : stream := let '(a, b) := p in qemu_put_be32 a ++ qemu_put_be32 b.
Definition put_bank (b : Z * (Z * Z)) : stream := let '(s, r) := b in qemu_put_be32 s ++ put_pair r.

Definition save_cp15 (c : cp15_state) : stream :=
  flat_map qemu_put_be32
    [c0_cpuid c; c0_cachetype c; c0_cssel c; c1_sys c; c1_coproc c; c1_xscaleauxcr c;
     c2_base0 c; c2_base1 c; c2_control c; c2_mask c; c2_base_mask c; c2_data c; c2_insn c; c3 c; c5_insn c; c5_data c] ++
  flat_map qemu_put_be32 (c6_region c) ++
  flat_map qemu_put_be32
    [c6_insn c; c6_data c; c7_par c; c9_insn c; c9_data c; c13_fcse c; c13_context c;
     c13_tls1 c; c13_tls2 c; c13_tls3 c; c15_cpar c].

Definition save_vfp (vfp3 : bool) (v : vfp_state) : stream :=
  flat_map put_double (take 16 (vfp_regs v)) ++ flat_map qemu_put_be32 (xregs v) ++
  qemu_put_sbe32s (vec_len v) ++ qemu_put_sbe32s (vec_stride v) ++
  (if vfp3 then flat_map put_double (take 16 (drop 16 (vfp_regs v))) else []).

Definition save_iwmmxt (w : iwmmxt_state) : stream :=
  flat_map qemu_put_be64 (iwmmxt_regs w) ++ flat_map qemu_put_be32 (cregs w).

Definition save_v7m (v : v7m_state) : stream :=
  qemu_put_be32 (other_sp v) ++ qemu_put_be32 (vecbase v) ++ qemu_put_be32 (basepri v) ++
  qemu_put_be32 (control v) ++ qemu_put_sbe32s (current_sp v) ++ qemu_put_sbe32s (exception v).

(** What depends on the features. *)
Definition save_optional (env : CPUARMState) : stream :=
  let has f := arm_feature env f in
  (if has ARM_FEATURE_VFP then save_vfp (has ARM_FEATURE_VFP3) (vfp env) else []) ++
  (if has ARM_FEATURE_IWMMXT then save_iwmmxt (iwmmxt env) else []) ++
  (if has ARM_FEATURE_M then save_v7m (v7m env) else []) ++
  (if has ARM_FEATURE_THUMB2EE then qemu_put_be32 (teecr env) ++ qemu_put_be32 (teehbr env) else []).

Definition cpu_save (env : CPUARMState) : stream :=
  flat_map qemu_put_be32 (regs env) ++ qemu_put_be32 (cpsr_read env) ++ qemu_put_be32 (spsr env) ++
  flat_map put_bank (zip (banked_spsr env) (zip (banked_r13 env) (banked_r14 env))) ++
  flat_map put_pair (zip (usr_regs env) (fiq_regs env)) ++
  save_cp15 (cp15 env) ++ qemu_put_be32 (features env) ++ save_optional env.

(** ** Reading *)

Definition get_double : loader Z :=
  upper <- qemu_get_be32 ;; lower <- qemu_get_be32 ;; ret (u64 (upper << 32) .| lower).

(** The status register, without a change of the registers: the mode is there
    before the flags are written. *)
Definition load_cpsr (val : Z) (env : CPUARMState) : loader CPUARMState := fun f =>
  match cpsr_write val 0xffffffff (env <| uncached_cpsr := val .& CPSR_M |>) with
  | Done (_, env', _) => Done (env', f, [])
  | HwError => HwError
  | Undef => Undef
  end.

Definition load_cp15 (c : cp15_state) : loader cp15_state :=
  a0 <- qemu_get_be32 ;; a1 <- qemu_get_be32 ;; a2 <- qemu_get_be32 ;; a3 <- qemu_get_be32 ;;
  a4 <- qemu_get_be32 ;; a5 <- qemu_get_be32 ;; a6 <- qemu_get_be32 ;; a7 <- qemu_get_be32 ;;
  a8 <- qemu_get_be32 ;; a9 <- qemu_get_be32 ;; a10 <- qemu_get_be32 ;; a11 <- qemu_get_be32 ;;
  a12 <- qemu_get_be32 ;; a13 <- qemu_get_be32 ;; a14 <- qemu_get_be32 ;; a15 <- qemu_get_be32 ;;
  region <- get_many 8 qemu_get_be32 ;;
  b0 <- qemu_get_be32 ;; b1 <- qemu_get_be32 ;; b2 <- qemu_get_be32 ;; b3 <- qemu_get_be32 ;;
  b4 <- qemu_get_be32 ;; b5 <- qemu_get_be32 ;; b6 <- qemu_get_be32 ;; b7 <- qemu_get_be32 ;;
  b8 <- qemu_get_be32 ;; b9 <- qemu_get_be32 ;; b10 <- qemu_get_be32 ;;
  ret (c <| c0_cpuid := a0 |> <| c0_cachetype := a1 |> <| c0_cssel := a2 |>
         <| c1_sys := a3 |> <| c1_coproc := a4 |> <| c1_xscaleauxcr := a5 |>
         <| c2_base0 := a6 |> <| c2_base1 := a7 |> <| c2_control := a8 |> <| c2_mask := a9 |>
         <| c2_base_mask := a10 |> <| c2_data := a11 |> <| c2_insn := a12 |> <| c3 := a13 |>
         <| c5_insn := a14 |> <| c5_data := a15 |> <| c6_region := region |>
         <| c6_insn := b0 |> <| c6_data := b1 |> <| c7_par := b2 |> <| c9_insn := b3 |> <| c9_data := b4 |>
         <| c13_fcse := b5 |> <| c13_context := b6 |> <| c13_tls1 := b7 |> <| c13_tls2 := b8 |> <| c13_tls3 := b9 |>
         <| c15_cpar := b10 |>).

(** The second sixteen doubles are read into the places of the first. *)
Definition load_vfp (vfp3 : bool) (v : vfp_state) : loader vfp_state :=
  d <- get_many 16 get_double ;; x <- get_many 16 qemu_get_be32 ;;
  len <- qemu_get_sbe32s ;; stride <- qemu_get_sbe32s ;;
  let v := v <| vfp_regs ::= fun r => d ++ drop 16 r |> <| xregs := x |> <| vec_len := len |> <| vec_stride := stride |> in
  if vfp3 then d <- get_many 16 get_double ;; ret (v <| vfp_regs ::= fun r => d ++ drop 16 r |>) else ret v.

Definition load_iwmmxt (w : iwmmxt_state) : loader iwmmxt_state :=
  r <- get_many 16 qemu_get_be64 ;; c <- get_many 16 qemu_get_be32 ;;
  ret (w <| iwmmxt_regs := r |> <| cregs := c |>).

Definition load_v7m (v : v7m_state) : loader v7m_state :=
  a <- qemu_get_be32 ;; b <- qemu_get_be32 ;; c <- qemu_get_be32 ;; d <- qemu_get_be32 ;;
  e <- qemu_get_sbe32s ;; x <- qemu_get_sbe32s ;;
  ret (v <| other_sp := a |> <| vecbase := b |> <| basepri := c |> <| control := d |>
         <| current_sp := e |> <| exception := x |>).

Definition if_has {A} (b : bool) (g : A -> loader A) (a : A) : loader A := if b then g a else ret a.

Definition load_optional (env : CPUARMState) : loader (Z * CPUARMState) :=
  let has x := arm_feature env x in
  v <- if_has (has ARM_FEATURE_VFP) (load_vfp (has ARM_FEATURE_VFP3)) (vfp env) ;;
  w <- if_has (has ARM_FEATURE_IWMMXT) load_iwmmxt (iwmmxt env) ;;
  m <- if_has (has ARM_FEATURE_M) load_v7m (v7m env) ;;
  t <- if_has (has ARM_FEATURE_THUMB2EE) (fun _ => get_pair qemu_get_be32 qemu_get_be32) (teecr env, teehbr env) ;;
  ret (0, env <| vfp := v |> <| iwmmxt := w |> <| v7m := m |> <| teecr := t.1 |> <| teehbr := t.2 |>).

Definition cpu_load (env : CPUARMState) (version_id : Z) : loader (Z * CPUARMState) :=
  if negb (version_id =? CPU_SAVE_VERSION) then ret (- EINVAL, env) else
  r <- get_many 16 qemu_get_be32 ;;
  val <- qemu_get_be32 ;;
  env <- load_cpsr val (env <| regs := r |>) ;;
  s <- qemu_get_be32 ;;
  banks <- get_many 6 (get_pair qemu_get_be32 (get_pair qemu_get_be32 qemu_get_be32)) ;;
  high <- get_many 5 (get_pair qemu_get_be32 qemu_get_be32) ;;
  c <- load_cp15 (cp15 env) ;;
  f <- qemu_get_be32 ;;
  let env := env <| spsr := s |> <| banked_spsr := banks.*1 |> <| banked_r13 := banks.*2.*1 |>
                 <| banked_r14 := banks.*2.*2 |> <| usr_regs := high.*1 |> <| fiq_regs := high.*2 |>
                 <| cp15 := c |> <| features := f |> in
  load_optional env.

(** The part that all processors have in common ([exec.c]). *)
Definition cpu_common_save (env : CPUARMState) : stream :=
  qemu_put_be32 (halted env) ++ qemu_put_be32 (interrupt_request env).
Definition cpu_common_post_load : cpu unit :=
  modify (fun s => s <| interrupt_request ::= fun r => r .&~ 0x01 |>) ;;; tlb_flush 1.
Definition cpu_common_load (env : CPUARMState) : loader CPUARMState :=
  h <- qemu_get_be32 ;; i <- qemu_get_be32 ;; ret (env <| halted := h |> <| interrupt_request := i |>).

(** ** The status register of the floating point unit *)

Definition float_round_nearest_even := 0.
Definition float_round_down := 1.
Definition float_round_up := 2.
Definition float_round_to_zero := 3.
Definition float_flag_invalid := 1.
Definition float_flag_divbyzero := 4.
Definition float_flag_overflow := 8.
Definition float_flag_underflow := 16.
Definition float_flag_inexact := 32.
Definition float_flag_input_denormal := 64.

Definition vfp_exceptbits_from_host (host_bits : Z) : Z :=
  let put m b acc := if test host_bits m then acc .| b else acc in
  put float_flag_input_denormal 0x80 (put float_flag_inexact 0x10 (put float_flag_underflow 8
    (put float_flag_overflow 4 (put float_flag_divbyzero 2 (put float_flag_invalid 1 0))))).
Definition vfp_exceptbits_to_host (target_bits : Z) : Z :=
  let put b m acc := if test target_bits b then acc .| m else acc in
  put 0x80 float_flag_input_denormal (put 0x10 float_flag_inexact (put 8 float_flag_underflow
    (put 4 float_flag_overflow (put 2 float_flag_divbyzero (put 1 float_flag_invalid 0))))).

Definition vfp_get_fpscr : cpu Z :=
  p <- gets vfp ;;
  x <- lift (aget (xregs p) ARM_VFP_FPSCR) ;;
  let fpscr := (x .& 0xffc8ffff) .| u32 (vec_len p << 16) .| u32 (vec_stride p << 20) in
  let i := float_exception_flags (fp_status p) .| float_exception_flags (standard_fp_status p) in
  ret (fpscr .| vfp_exceptbits_from_host i).

Definition rounding_mode (i : Z) : Z :=
  switch i
    [ (on 0, float_round_nearest_even); (on 1, float_round_up); (on 2, float_round_down);
      (on 3, float_round_to_zero) ] i.

Definition set_status (f : float_status -> float_status) : cpu unit :=
  modify (fun s => s <| vfp ::= fun p => p <| fp_status ::= f |> |>).

Definition vfp_set_fpscr (val : Z) : cpu unit :=
  p <- gets vfp ;;
  old <- lift (aget (xregs p) ARM_VFP_FPSCR) ;;
  x <- lift (aset ARM_VFP_FPSCR (val .& 0xffc8ffff) (xregs p)) ;;
  modify (fun s => s <| vfp ::= fun p => p <| xregs := x |>
    <| vec_len := (val >> 16) .& 7 |> <| vec_stride := (val >> 20) .& 3 |> |>) ;;;
  let changed := old .^ val in
  when (test changed (3 << 22)) (set_status (fun f => f <| float_rounding_mode := rounding_mode ((val >> 22) .& 3) |>)) ;;;
  when (test changed (1 << 24)) (
    set_status (fun f => f <| flush_to_zero := bool_Z (test val (1 << 24)) |>) ;;;
    set_status (fun f => f <| flush_inputs_to_zero := bool_Z (test val (1 << 24)) |>)) ;;;
  when (test changed (1 << 25)) (set_status (fun f => f <| default_nan_mode := bool_Z (test val (1 << 25)) |>)) ;;;
  set_status (fun f => f <| float_exception_flags := vfp_exceptbits_to_host val |>) ;;;
  modify (fun s => s <| vfp ::= fun p => p <| standard_fp_status ::= fun f => f <| float_exception_flags := 0 |> |> |>).

(** ** What is saved is loaded *)

(** The fields that are written have their widths, and arrays their lengths. *)
Definition cp15_words (c : cp15_state) : list Z :=
  [c0_cpuid c; c0_cachetype c; c0_cssel c; c1_sys c; c1_coproc c; c1_xscaleauxcr c;
   c2_base0 c; c2_base1 c; c2_control c; c2_mask c; c2_base_mask c; c2_data c; c2_insn c; c3 c; c5_insn c; c5_data c] ++
  c6_region c ++
  [c6_insn c; c6_data c; c7_par c; c9_insn c; c9_data c; c13_fcse c; c13_context c;
   c13_tls1 c; c13_tls2 c; c13_tls3 c; c15_cpar c].
Definition signed_int (v : Z) : Prop := - 2 ^ 31 <= v < 2 ^ 31.
Record saved_ok (env : CPUARMState) : Prop := {
  ok_cp15_words : Forall (fits 32) (cp15_words (cp15 env)); ok_regions : length (c6_region (cp15 env)) = 8%nat;
  ok_features : fits 32 (features env);
  ok_doubles : Forall (fits 64) (vfp_regs (vfp env)); ok_double_count : length (vfp_regs (vfp env)) = 32%nat;
  ok_xregs : Forall (fits 32) (xregs (vfp env)); ok_xreg_count : length (xregs (vfp env)) = 16%nat;
  ok_vec_len : signed_int (vec_len (vfp env)); ok_vec_stride : signed_int (vec_stride (vfp env));
  ok_wregs : Forall (fits 64) (iwmmxt_regs (iwmmxt env)); ok_wreg_count : length (iwmmxt_regs (iwmmxt env)) = 16%nat;
  ok_cregs : Forall (fits 32) (cregs (iwmmxt env)); ok_creg_count : length (cregs (iwmmxt env)) = 16%nat;
  ok_v7m : Forall (fits 32) [other_sp (v7m env); vecbase (v7m env); basepri (v7m env); control (v7m env)];
  ok_v7m_ints : signed_int (current_sp (v7m env)) /\ signed_int (exception (v7m env));
  ok_tee : fits 32 (teecr env) /\ fits 32 (teehbr env)
}.

(** The fields that are not written stay those of the loading processor. *)
Definition loaded_cp15 (c c0 : cp15_state) : cp15_state :=
  c <| c0_ccsid := c0_ccsid c0 |> <| c0_clid := c0_clid c0 |> <| c0_c1 := c0_c1 c0 |> <| c0_c2 := c0_c2 c0 |>
    <| c15_ticonfig := c15_ticonfig c0 |> <| c15_i_max := c15_i_max c0 |> <| c15_i_min := c15_i_min c0 |>
    <| c15_threadid := c15_threadid c0 |>.
Definition loaded_vfp (vfp3 : bool) (v v0 : vfp_state) : vfp_state :=
  v <| vfp_regs := (if vfp3 then drop 16 (vfp_regs v) else take 16 (vfp_regs v)) ++ drop 16 (vfp_regs v0) |>
    <| fp_status := fp_status v0 |> <| standard_fp_status := standard_fp_status v0 |>.
Definition loaded_v7m (v v0 : v7m_state) : v7m_state := v <| pending_exception := pending_exception v0 |>.

Ltac each_word := repeat match goal with H : Forall _ (_ :: _) |- _ => apply Forall_cons in H as [? H] end.

Lemma load_cp15_saved c c0 r :
  Forall (fits 32) (cp15_words c) -> length (c6_region c) = 8%nat ->
  load_cp15 c0 (save_cp15 c ++ r) = Done (loaded_cp15 c c0, r, []).
Proof.
  intros HF Hn. unfold cp15_words in HF. rewrite !Forall_app in HF. destruct HF as (Ha & Hr & Hb).
  unfold save_cp15, load_cp15. cbn [flat_map]. rewrite <- !app_assoc, !app_nil_l.
  each_word.
  do 16 (eapply loader_step; [by apply get_put_be32|]).
  eapply loader_step; [by apply get_words|].
  do 11 (eapply loader_step; [by apply get_put_be32|]).
  by destruct c, c0.
Qed.

Lemma get_put_double d r : fits 64 d -> get_double (put_double d ++ r) = Done (d, r, []).
Proof. apply get_put_be64. Qed.
Lemma get_doubles n l r : length l = n -> Forall (fits 64) l ->
  get_many n get_double (flat_map put_double l ++ r) = Done (l, r, []).
Proof. intros <- H. apply get_many_put. eapply Forall_impl; [exact H|]. intros x Hx r'. by apply get_put_double. Qed.

Lemma load_vfp_saved vfp3 v v0 r :
  Forall (fits 64) (vfp_regs v) -> length (vfp_regs v) = 32%nat -> Forall (fits 32) (xregs v) -> length (xregs v) = 16%nat ->
  signed_int (vec_len v) -> signed_int (vec_stride v) ->
  load_vfp vfp3 v0 (save_vfp vfp3 v ++ r) = Done (loaded_vfp vfp3 v v0, r, []).
Proof.
  intros Hd Hn Hx Hm Hl Hs. unfold save_vfp, load_vfp. rewrite <- !app_assoc.
  eapply loader_step; [apply get_doubles; [by rewrite length_take, Hn|by apply Forall_take]|].
  eapply loader_step; [by apply get_words|].
  do 2 (eapply loader_step; [by apply get_put_sbe32s|]). cbv zeta. unfold loaded_vfp.
  assert (length (drop 16 (vfp_regs v)) = 16%nat) as Hdrop by (by rewrite length_drop, Hn).
  destruct vfp3; [|by destruct v, v0].
  rewrite (take_ge (drop 16 _)) by lia.
  eapply loader_step; [apply get_doubles; [done|by apply Forall_drop]|].
  unfold ret. do 3 f_equal. destruct v, v0. cbn in *. unfold upd. cbn. f_equal. f_equal.
  rewrite drop_app_ge, length_take, Hn by (rewrite length_take; lia). done.
Qed.

Lemma load_iwmmxt_saved w w0 r :
  Forall (fits 64) (iwmmxt_regs w) -> length (iwmmxt_regs w) = 16%nat -> Forall (fits 32) (cregs w) -> length (cregs w) = 16%nat ->
  load_iwmmxt w0 (save_iwmmxt w ++ r) = Done (w, r, []).
Proof.
  intros H1 H2 H3 H4. unfold save_iwmmxt, load_iwmmxt. rewrite <- !app_assoc.
  eapply loader_step; [rewrite <- H2; by apply get_many_put, Forall_be64|]. eapply loader_step; [by apply get_words|]. by destruct w, w0.
Qed.

Lemma load_v7m_saved v v0 r :
  Forall (fits 32) [other_sp v; vecbase v; basepri v; control v] -> signed_int (current_sp v) -> signed_int (exception v) ->
  load_v7m v0 (save_v7m v ++ r) = Done (loaded_v7m v v0, r, []).
Proof.
  intros HF H1 H2. unfold save_v7m, load_v7m. rewrite <- !app_assoc. each_word.
  do 4 (eapply loader_step; [by apply get_put_be32|]). do 2 (eapply loader_step; [by apply get_put_sbe32s|]). by destruct v, v0.
Qed.

Lemma if_has_saved {A} (b : bool) (g : A -> loader A) (a a' : A) w r :
  (b = true -> g a (w ++ r) = Done (a', r, [])) ->
  if_has b g a ((if b then w else []) ++ r) = Done (if b then a' else a, r, []).
Proof. destruct b; cbn; [auto|done]. Qed.

(** The status register in a processor whose registers are those of its mode. *)
Definition loaded_status (val : Z) (env : CPUARMState) : CPUARMState :=
  (set_flags val 0xffffffff (env <| uncached_cpsr := val .& CPSR_M |>)) <| uncached_cpsr := val .&~ CACHED_CPSR_BITS |>.

Lemma upd_uncached f g (s : CPUARMState) : f (uncached_cpsr s) = g (uncached_cpsr s) -> s <| uncached_cpsr ::= f |> = s <| uncached_cpsr ::= g |>.
Proof. intros E. destruct s. unfold upd. cbn in *. by rewrite E. Qed.

Lemma all_bits_ok : mask_ok 0xffffffff.
Proof. by vm_compute; intuition. Qed.

Lemma merge_mode val : fits 32 val ->
  ((val .& CPSR_M) .&~ (0xffffffff .&~ CACHED_CPSR_BITS)) .| (val .& (0xffffffff .&~ CACHED_CPSR_BITS)) = val .&~ CACHED_CPSR_BITS.
Proof.
  intros Hv.
  apply Z.bits_inj'. intros i Hi. rewrite Z.lor_spec, !Z.ldiff_spec, !Z.land_spec, Z.ldiff_spec.
  destruct (Z.lt_ge_cases i 32).
  - assert (Z.testbit 0xffffffff i = true) as -> by (revert i Hi H; intros i Hi Hlt; apply (Z.ones_spec_low 32); lia).
    assert (Z.testbit CPSR_M i = true -> Z.testbit CACHED_CPSR_BITS i = false) as Hm.
    { intros Hm. assert (Z.testbit (CPSR_M .& CACHED_CPSR_BITS) i = false) as H2 by (change (CPSR_M .& CACHED_CPSR_BITS) with 0; by rewrite Z.bits_0).
      rewrite Z.land_spec, Hm in H2. done. }
    destruct (Z.testbit val i), (Z.testbit CPSR_M i), (Z.testbit CACHED_CPSR_BITS i); try done; by specialize (Hm eq_refl).
  - by rewrite (fits_high 32 val i) by (done || lia).
Qed.

Lemma load_cpsr_run val env f : fits 32 val -> load_cpsr val env f = Done (loaded_status val env, f, []).
Proof.
  intros Hv. unfold load_cpsr. rewrite cpsr_write_eq. unfold write_rest. rewrite bind_gets, set_flags_uncached.
  set (e := env <| uncached_cpsr := val .& CPSR_M |>). change (uncached_cpsr e) with (val .& CPSR_M).
  assert (((val .& CPSR_M) .^ val) .& 0xffffffff .& CPSR_M = 0) as E0.
  { apply Z.bits_inj'. intros i Hi. rewrite Z.bits_0, !Z.land_spec, Z.lxor_spec, Z.land_spec.
    by destruct (Z.testbit val i), (Z.testbit CPSR_M i), (Z.testbit 0xffffffff i). }
  unfold test at 1. rewrite E0. cbn [negb Z.eqb when]. rewrite bind_ret. unfold modify, loaded_status. fold e. do 3 f_equal.
  apply upd_uncached. rewrite set_flags_uncached. change (uncached_cpsr e) with (val .& CPSR_M). cbv beta.
  by apply merge_mode.
Qed.

Lemma cached_mode : CPSR_M .& CACHED_CPSR_BITS = 0.
Proof. done. Qed.
Lemma uncached_flags_ok u s : flags_ok s -> fits 32 u -> u .& CACHED_CPSR_BITS = 0 -> flags_ok (s <| uncached_cpsr := u |>).
Proof. intros [] Hu Hc. destruct s. by constructor. Qed.

Lemma loaded_status_ok val env : fits 32 val -> flags_ok env ->
  flags_ok (loaded_status val env) /\ cpsr_read (loaded_status val env) = val.
Proof.
  intros Hv Hok. set (e := env <| uncached_cpsr := val .& CPSR_M |>).
  assert (flags_ok e) as He.
  { apply uncached_flags_ok; [done|by apply fits_land|]. by rewrite <- Z.land_assoc, cached_mode, Z.land_0_r. }
  assert (flags_ok (loaded_status val env)) as Hl.
  { apply uncached_flags_ok; [by apply set_flags_ok|by apply fits_ldiff|].
    apply Z.bits_inj'. intros i Hi. rewrite Z.bits_0, Z.land_spec, Z.ldiff_spec.
    by destruct (Z.testbit val i), (Z.testbit CACHED_CPSR_BITS i). }
  split; [done|]. apply word_eq; [by apply cpsr_read_fits|done|]. intros i Hi. rewrite cpsr_read_bit by done.
  unfold loaded_status. fold e. rewrite (written_bits val 0xffffffff e (val .&~ CACHED_CPSR_BITS)); try done.
  - change 0xffffffff with (Z.ones 32). by rewrite Z.ones_spec_low.
  - exact all_bits_ok.
  - change (uncached_cpsr e) with (val .& CPSR_M). symmetry. by apply merge_mode.
Qed.

Lemma loader_stay {A B} (g : loader A) (k : A -> loader B) f a res :
  g f = Done (a, f, []) -> k a f = res -> bind g k f = res.
Proof. apply (loader_step g k []). Qed.

(** The processor that is loaded: with the registers, and with the rest. *)
Definition loaded_optional (e env : CPUARMState) : CPUARMState :=
  let has f := arm_feature env f in
  let tee := if has ARM_FEATURE_THUMB2EE then (teecr env, teehbr env) else (teecr e, teehbr e) in
  e <| vfp := if has ARM_FEATURE_VFP then loaded_vfp (has ARM_FEATURE_VFP3) (vfp env) (vfp e) else vfp e |>
    <| iwmmxt := if has ARM_FEATURE_IWMMXT then iwmmxt env else iwmmxt e |>
    <| v7m := if has ARM_FEATURE_M then loaded_v7m (v7m env) (v7m e) else v7m e |>
    <| teecr := tee.1 |> <| teehbr := tee.2 |>.
Definition loaded_core (e env : CPUARMState) : CPUARMState :=
  e <| spsr := spsr env |> <| banked_spsr := banked_spsr env |> <| banked_r13 := banked_r13 env |>
    <| banked_r14 := banked_r14 env |> <| usr_regs := usr_regs env |> <| fiq_regs := fiq_regs env |>
    <| cp15 := loaded_cp15 (cp15 env) (cp15 e) |> <| features := features env |>.
Definition loaded (env0 env : CPUARMState) : CPUARMState :=
  loaded_optional (loaded_core (loaded_status (cpsr_read env) (env0 <| regs := regs env |>)) env) env.

Lemma loaded_status_rest val env :
  cp15 (loaded_status val env) = cp15 env /\ vfp (loaded_status val env) = vfp env /\ iwmmxt (loaded_status val env) = iwmmxt env /\
  v7m (loaded_status val env) = v7m env /\ teecr (loaded_status val env) = teecr env /\ teehbr (loaded_status val env) = teehbr env.
Proof. unfold loaded_status, set_flags. by destruct_tests. Qed.

Lemma banks_lengths env : banks_ok env ->
  length (regs env) = 16%nat /\ length (banked_spsr env) = 6%nat /\ length (banked_r13 env) = 6%nat /\
  length (banked_r14 env) = 6%nat /\ length (usr_regs env) = 5%nat /\ length (fiq_regs env) = 5%nat.
Proof. unfold banks_ok, zlen. lia. Qed.

Lemma load_optional_saved e env r : saved_ok env -> features e = features env ->
  load_optional e (save_optional env ++ r) = Done ((0, loaded_optional e env), r, []).
Proof.
  intros [] Ef. unfold load_optional, save_optional, arm_feature. rewrite Ef. cbv zeta. rewrite <- !app_assoc.
  eapply loader_step; [apply if_has_saved; intros _; by apply load_vfp_saved|].
  eapply loader_step; [apply if_has_saved; intros _; by apply load_iwmmxt_saved|].
  eapply loader_step; [apply if_has_saved; intros _; by destruct ok_v7m_ints0; apply load_v7m_saved|].
  eapply loader_step; [|reflexivity].
  apply if_has_saved; intros _. destruct ok_tee0. unfold get_pair. rewrite <- app_assoc.
  do 2 (eapply loader_step; [by apply get_put_be32|]). done.
Qed.

Lemma cpu_load_run env env0 r : cpu_ok env -> saved_ok env ->
  cpu_load env0 CPU_SAVE_VERSION (cpu_save env ++ r) = Done ((0, loaded env0 env), r, []).
Proof.
  intros [Hf Hb Hw _] Hok. destruct (banks_lengths env Hb) as (L1 & L2 & L3 & L4 & L5 & L6).
  unfold words_ok in Hw. apply Forall_cons in Hw as [Hs Hw]. rewrite !Forall_app in Hw. destruct Hw as (W1 & W2 & W3 & W4 & W5 & W6).
  pose proof (cpsr_read_fits env Hf) as Hc. unfold cpu_load, cpu_save. rewrite <- !app_assoc.
  change (negb (CPU_SAVE_VERSION =? CPU_SAVE_VERSION)) with false. cbv iota.
  eapply loader_step; [by apply get_words|]. eapply loader_step; [by apply get_put_be32|].
  eapply loader_stay; [by apply load_cpsr_run|]. unfold loaded. generalize (loaded_status (cpsr_read env) (env0 <| regs := regs env |>)). intros e.
  eapply loader_step; [by apply get_put_be32|].
  eapply loader_step.
  { apply (get_put_pairs 6 (banked_spsr env) (zip (banked_r13 env) (banked_r14 env)) qemu_put_be32 put_pair); [done|by rewrite length_zip_with; lia|by apply Forall_be32|].
    by apply reads_pairs; apply Forall_be32. }
  eapply loader_step; [by apply (get_put_pairs 5 (usr_regs env) (fiq_regs env) qemu_put_be32 qemu_put_be32); [| |apply Forall_be32..]|].
  eapply loader_step; [apply load_cp15_saved; apply Hok|]. eapply loader_step; [apply get_put_be32, Hok|].
  cbv zeta. rewrite !snd_zip, !fst_zip by (rewrite ?length_zip_with; lia).
  fold (loaded_core e env). by apply load_optional_saved.
Qed.

(** Each field of the loaded processor. *)
Lemma loaded_flags e env : let e' := loaded_optional (loaded_core e env) env in
  (flags_ok e -> flags_ok e') /\ cpsr_read e' = cpsr_read e /\ cpu_mode e' = cpu_mode e /\ regs e' = regs e.
Proof. destruct e. split; [|done]. intros []. by constructor. Qed.
Lemma loaded_banks e env : let e' := loaded_optional (loaded_core e env) env in
  spsr e' = spsr env /\ banked_spsr e' = banked_spsr env /\ banked_r13 e' = banked_r13 env /\ banked_r14 e' = banked_r14 env /\
  usr_regs e' = usr_regs env /\ fiq_regs e' = fiq_regs env.
Proof. by destruct e. Qed.
Lemma loaded_features e env : let e' := loaded_optional (loaded_core e env) env in
  let has f := arm_feature env f in
  features e' = features env /\ cp15 e' = loaded_cp15 (cp15 env) (cp15 e) /\
  vfp e' = (if has ARM_FEATURE_VFP then loaded_vfp (has ARM_FEATURE_VFP3) (vfp env) (vfp e) else vfp e) /\
  (has ARM_FEATURE_IWMMXT = true -> iwmmxt e' = iwmmxt env) /\
  (has ARM_FEATURE_M = true -> v7m e' = loaded_v7m (v7m env) (v7m e)) /\
  (has ARM_FEATURE_THUMB2EE = true -> teecr e' = teecr env /\ teehbr e' = teehbr env).
Proof.
  destruct e. cbv zeta. split; [done|]. split; [done|]. split; [done|].
  unfold loaded_optional. split; [|split]; intros E; rewrite E; done.
Qed.


(** ** The status register of the floating point unit reads back *)

(** The settings of the library are those of the register. *)
Record settings (x : Z) (f : float_status) : Prop := {
  set_rounding : float_rounding_mode f = rounding_mode ((x >> 22) .& 3);
  set_flush : flush_to_zero f = bool_Z (Z.testbit x 24); set_flush_in : flush_inputs_to_zero f = bool_Z (Z.testbit x 24);
  set_nan : default_nan_mode f = bool_Z (Z.testbit x 25)
}.
Definition fp_ok (env : CPUARMState) : Prop :=
  exists x, aget (xregs (vfp env)) ARM_VFP_FPSCR = Some x /\ fits 32 x /\ settings x (fp_status (vfp env)).

Lemma or_if (c : bool) acc b : (if c then acc .| b else acc) = acc .| (if c then b else 0).
Proof. destruct c; [done|]. by rewrite Z.lor_0_r. Qed.
Lemma if_bit (c : bool) b i : Z.testbit (if c then b else 0) i = c && Z.testbit b i.
Proof. destruct c; [done|]. by rewrite Z.bits_0. Qed.

Lemma from_host_bits h i : 0 <= i < 32 -> Z.testbit (vfp_exceptbits_from_host h) i =
  switch i [ (on 0, Z.testbit h 0); (on 1, Z.testbit h 2); (on 2, Z.testbit h 3); (on 3, Z.testbit h 4);
             (on 4, Z.testbit h 5); (on 7, Z.testbit h 6) ] false.
Proof.
  unfold vfp_exceptbits_from_host. cbv zeta beta. rewrite !or_if, Z.lor_0_l.
  change float_flag_invalid with (bit 0). change float_flag_divbyzero with (bit 2). change float_flag_overflow with (bit 3).
  change float_flag_underflow with (bit 4). change float_flag_inexact with (bit 5). change float_flag_input_denormal with (bit 6).
  rewrite !test_true_bit by lia. revert i. each_bit.
  all: rewrite ?Z.lor_spec, ?if_bit; pick_bit; bit_eval; reflexivity.
Qed.
Lemma to_host_bits v : let h := vfp_exceptbits_to_host v in
  Z.testbit h 0 = Z.testbit v 0 /\ Z.testbit h 2 = Z.testbit v 1 /\ Z.testbit h 3 = Z.testbit v 2 /\
  Z.testbit h 4 = Z.testbit v 3 /\ Z.testbit h 5 = Z.testbit v 4 /\ Z.testbit h 6 = Z.testbit v 7.
Proof.
  unfold vfp_exceptbits_to_host. cbv zeta beta. rewrite !or_if, Z.lor_0_l.
  change (test v 0x80) with (test v (bit 7)). change (test v 0x10) with (test v (bit 4)). change (test v 8) with (test v (bit 3)).
  change (test v 4) with (test v (bit 2)). change (test v 2) with (test v (bit 1)). change (test v 1) with (test v (bit 0)).
  rewrite !test_true_bit by lia.
  split_and!; rewrite !Z.lor_spec, !if_bit; bit_eval; reflexivity.
Qed.

(** What the register reads as, from its parts. *)
Lemma fpscr_parts v :
  fits 32 v ->
  (v .& 0xffc8ffff .& 0xffc8ffff) .| u32 (((v >> 16) .& 7) << 16) .| u32 (((v >> 20) .& 3) << 20) .|
    vfp_exceptbits_from_host (vfp_exceptbits_to_host v .| 0) = v.
Proof.
  intros Hv. rewrite Z.lor_0_r. destruct (to_host_bits v) as (E0 & E1 & E2 & E3 & E4 & E5).
  set (h := vfp_exceptbits_to_host v) in *. clearbody h.
  assert (fits 32 (vfp_exceptbits_from_host h)) as Hh.
  { unfold vfp_exceptbits_from_host. cbv zeta beta. rewrite !or_if, Z.lor_0_l. repeat apply fits_lor; try lia; by destruct (test h _). }
  apply word_eq; [|done|].
  - repeat apply fits_lor; try lia; try (by apply fits_wrap); [|done]. by repeat apply fits_land.
  - intros i Hi. rewrite Z.lor_spec, from_host_bits by done. revert i Hi. each_bit.
    all: pick_bit; rewrite ?E0, ?E1, ?E2, ?E3, ?E4, ?E5; bit_eval; rewrite ?orb_diag; reflexivity.
Qed.

Lemma changed_bits x v k : 0 <= k -> test (x .^ v) (1 << k) = xorb (Z.testbit x k) (Z.testbit v k).
Proof. intros Hk. change (1 << k) with (bit k). by rewrite test_true_bit, Z.lxor_spec. Qed.
Lemma changed_mode x v : test (x .^ v) (3 << 22) = false -> (x >> 22) .& 3 = (v >> 22) .& 3.
Proof.
  unfold test. intros H%negb_false_iff%Z.eqb_eq. apply Z.bits_inj'. intros i Hi. rewrite !Z.land_spec, !Z.shiftr_spec by done.
  destruct (Z.testbit 3 i) eqn:E3; [|by rewrite !andb_false_r].
  pose proof (land_zero_bit _ _ (i + 22) H ltac:(rewrite Z.shiftl_spec by lia; by replace (i + 22 - 22) with i by lia)) as Hx.
  rewrite Z.lxor_spec in Hx. by destruct (Z.testbit x (i + 22)), (Z.testbit v (i + 22)).
Qed.
Lemma kept_setting x k : 22 <= k <= 25 -> Z.testbit (x .& 0xffc8ffff) k = Z.testbit x k.
Proof. intros Hk. rewrite Z.land_spec. assert (k = 22 \/ k = 23 \/ k = 24 \/ k = 25) as [-> |[-> |[-> | ->]]] by lia; by rewrite andb_true_r. Qed.
Lemma kept_mode x : fits 32 x -> ((x .& 0xffc8ffff) >> 22) .& 3 = (x >> 22) .& 3.
Proof.
  intros Hx. apply word_eq; [apply fits_land; [lia|apply fits_shiftr; [lia|by apply fits_land]|done]|apply fits_land; [lia|by apply fits_shiftr; [lia|]|done]|].
  each_bit. all: bit_eval; reflexivity.
Qed.

(** The settings after a write: those that change are set, and the others were
    those of the register already. *)
Lemma settings_written x v f : fits 32 v -> settings x f ->
  let f1 := if test (x .^ v) (3 << 22) then f <| float_rounding_mode := rounding_mode ((v >> 22) .& 3) |> else f in
  let b := bool_Z (test v (1 << 24)) in
  let f2 := if test (x .^ v) (1 << 24) then f1 <| flush_to_zero := b |> <| flush_inputs_to_zero := b |> else f1 in
  let f3 := if test (x .^ v) (1 << 25) then f2 <| default_nan_mode := bool_Z (test v (1 << 25)) |> else f2 in
  forall fl, settings (v .& 0xffc8ffff) (f3 <| float_exception_flags := fl |>).
Proof.
  intros Hv [Hr Hf Hi Hn] f1 b f2 f3 fl.
  assert (forall k, 0 <= k -> test v (1 << k) = Z.testbit v k) as Hb by (intros k Hk; change (1 << k) with (bit k); by apply test_true_bit).
  assert (forall k, 0 <= k -> test (x .^ v) (1 << k) = false -> Z.testbit x k = Z.testbit v k) as Hs.
  { intros k Hk. rewrite changed_bits by done. by destruct (Z.testbit x k), (Z.testbit v k). }
  unfold f3, f2, f1, b. rewrite !Hb by lia.
  constructor; rewrite ?kept_mode, ?kept_setting by (done || lia).
  - destruct (test (x .^ v) (3 << 22)) eqn:E; destruct (test (x .^ v) (1 << 24)), (test (x .^ v) (1 << 25)); try done;
      by rewrite <- (changed_mode x v E), <- Hr.
  - destruct (test (x .^ v) (1 << 24)) eqn:E; destruct (test (x .^ v) (3 << 22)), (test (x .^ v) (1 << 25)); try done;
      by rewrite <- (Hs 24), <- Hf.
  - destruct (test (x .^ v) (1 << 24)) eqn:E; destruct (test (x .^ v) (3 << 22)), (test (x .^ v) (1 << 25)); try done;
      by rewrite <- (Hs 24), <- Hi.
  - destruct (test (x .^ v) (1 << 25)) eqn:E; destruct (test (x .^ v) (3 << 22)), (test (x .^ v) (1 << 24)); try done;
      by rewrite <- (Hs 25), <- Hn.
Qed.

(** Writing the status register of the floating point unit and reading it gives
    the word that was written, whatever it is; the library is set to the rounding,
    flushing and NaN handling it says, with its flags. *)
Theorem fpscr_reads_back v env :
  fp_ok env -> fits 32 v ->
  exists p, let env' := env <| vfp := p |> in
    vfp_set_fpscr v env = Done (tt, env', []) /\ vfp_get_fpscr env' = Done (v, env', []) /\ fp_ok env' /\
    settings v (fp_status p) /\ float_exception_flags (fp_status p) = vfp_exceptbits_to_host v /\
    vfp_regs p = vfp_regs (vfp env).
Proof.
  intros (x & Hx & Hx32 & Hs) Hv. set (y := v .& 0xffc8ffff).
  pose proof (settings_written x v _ Hv Hs (vfp_exceptbits_to_host v)) as Hw. cbv zeta in Hw. fold y in Hw.
  assert (exists l, aset ARM_VFP_FPSCR y (xregs (vfp env)) = Some l /\ aget l ARM_VFP_FPSCR = Some y) as (l & Hl & Hget).
  { eexists. split; [apply aset_Some; by eapply aget_bounds|]. eapply aget_aset_eq, aset_Some. by eapply aget_bounds. }
  unfold vfp_set_fpscr, set_status. rewrite bind_gets. erewrite bind_lift by done. erewrite bind_lift by done. rewrite bind_modify. cbv zeta.
  match type of Hw with settings _ ?g => exists ((vfp env) <| xregs := l |> <| vec_len := (v >> 16) .& 7 |> <| vec_stride := (v >> 20) .& 3 |>
    <| fp_status := g |> <| standard_fp_status ::= fun q : float_status => q <| float_exception_flags := 0 |> |>); set (fs := g) in * end.
  assert (float_exception_flags fs = vfp_exceptbits_to_host v) as Hfl by done.
  split; [by unfold fs; destruct (test (x .^ v) (3 << 22)), (test (x .^ v) (1 << 24)), (test (x .^ v) (1 << 25)); destruct env|].
  clearbody fs. split; [|split; [|split; [|done]]].
  - unfold vfp_get_fpscr. rewrite bind_gets. erewrite bind_lift by exact Hget. unfold ret. do 3 f_equal.
    etransitivity; [|exact (fpscr_parts v Hv)]. by rewrite <- Hfl.
  - exists y. split; [done|]. split; [|done]. by apply fits_land.
  - destruct Hw as [H1 H2 H3 H4]. unfold y in *. rewrite kept_mode in H1 by done. rewrite kept_setting in H2, H3, H4 by lia. by constructor.
Qed.

(** The common part: halted processors stay so, and the buffer is empty. *)
Lemma cpu_common_loads_back env env0 r : fits 32 (halted env) -> fits 32 (interrupt_request env) ->
  exists env', cpu_common_load env0 (cpu_common_save env ++ r) = Done (env', r, []) /\
    exists env'', cpu_common_post_load env' = Done (tt, env'', []) /\
      halted env'' = halted env /\ interrupt_request env'' = interrupt_request env .&~ 1 /\
      tlb_table env'' = replicate (Z.to_nat NB_MMU_MODES) (replicate (Z.to_nat CPU_TLB_SIZE) s_cputlb_empty_entry).
Proof.
  intros H1 H2. exists (env0 <| halted := halted env |> <| interrupt_request := interrupt_request env |>).
  unfold cpu_common_load, cpu_common_save. rewrite <- app_assoc. split.
  - eapply loader_step; [by apply get_put_be32|]. by eapply loader_step; [by apply get_put_be32|].
  - by eexists.
Qed.

(** ** The hypotheses can hold, and what does not come back *)

Module StateDemo.
Import ArmDemo.

(** A processor with a floating point unit of thirty-two registers, rounding to zero. *)
Definition saver : CPUARMState :=
  env0 <| features := (1 << ARM_FEATURE_VFP) .| (1 << ARM_FEATURE_VFP3) |>
       <| vfp := mk_vfp (seqZ 100 32) (<[1%nat := 3 << 22]> (zeros 16)) 0 0 (mk_float_status 3 0 0 0 0) float_zero |>.

Lemma saver_ok : cpu_ok saver /\ saved_ok saver /\ flags_ok env0.
Proof.
  split; [|split; [|exact (ok_flags _ env0_ok)]].
  - destruct env0_ok as [[] ? ? ?]. constructor; [by constructor|done..].
  - constructor; try done; try (by repeat constructor).
Qed.


(** The unit rounded to zero, and says so still; the library rounds to nearest. *)
Lemma rounding_lost :
  exists env', cpu_load env0 CPU_SAVE_VERSION (cpu_save saver) = Done ((0, env'), [], []) /\
    fp_ok saver /\ vfp_get_fpscr env' = Done (3 << 22, env', []) /\ float_rounding_mode (fp_status (vfp env')) = float_round_nearest_even.
Proof.
  destruct saver_ok as (H1 & H2 & H3). exists (loaded env0 saver). split.
  - rewrite <- (app_nil_r (cpu_save saver)). by apply cpu_load_run.
  - split; [|split]; [|vm_compute; reflexivity|vm_compute; reflexivity].
    exists (3 << 22). split; [done|]. split; [done|]. by constructor.
Qed.

Lemma fpscr_witness :
  exists p, vfp_set_fpscr 0x03c7009f saver = Done (tt, saver <| vfp := p |>, []) /\
    vfp_get_fpscr (saver <| vfp := p |>) = Done (0x03c7009f, saver <| vfp := p |>, []).
Proof.
  assert (fp_ok saver) as H by (exists (3 << 22); split; [done|]; split; [done|]; by constructor).
  destruct (fpscr_reads_back 0x03c7009f saver H) as (p & E1 & E2 & _); [by vm_compute|].
  exists p. split; [exact E1|exact E2].
Defined.
End StateDemo.
