(* ===== verification/Cdma.v ===== *)
(** * Cdma: the DMA controller of the S5L8930 and its AES engine
    ([hw/s5l8930.c], [hw/s5l8930.h])

    Channels 5 to 8 move the flash controller's FIFO to memory along a chain of
    segment descriptors, deciphering it on the way; channels 1 and 2 feed the
    AES engine.  Guest memory (and the registers mapped into it, which a read
    can change) is the interface [GuestMemory]; OpenSSL and the host's file
    system are the interface [CryptoHost].  Messages on [stderr] are left out;
    [size_t] has 64 bits. *)
From S2P Require Import Prelude Host.

Definition MAX_CDMA_CHAN := 37%nat.
Definition AESUID := 0.
Definition AESGID := 1.
Definition AESCustom := 2.
Definition AES_256 := 2.
Definition AES_192 := 1.
Definition AES_128 := 0.

Definition key_uid : list Z :=
  [0x01; 0x23; 0x45; 0x67; 0x89; 0xAB; 0xCD; 0xEF; 0x01; 0x23; 0x45; 0x67; 0x89; 0xAB; 0xCD; 0xEF].
Definition kernKey435 : list Z :=
  [0x16; 0x52; 0xc8; 0x59; 0x14; 0x19; 0x0a; 0x2a; 0x99; 0x99; 0x70; 0x42; 0x8a; 0x9e; 0xa0; 0x3e;
   0x7a; 0xbc; 0x6c; 0x2b; 0x36; 0xf9; 0x74; 0xd7; 0x26; 0x75; 0x8e; 0x2b; 0x95; 0x93; 0xcc; 0xdd].
Definition kernIV435_init : list Z :=
  [0x80; 0xf4; 0xc7; 0x0d; 0x2a; 0x18; 0xf3; 0xe4; 0x5e; 0xbb; 0xe4; 0x4f; 0x9e; 0x61; 0x21; 0xeb].
Definition deviceKey435 : list Z :=
  [0xc6; 0x99; 0xaf; 0xb2; 0x5b; 0x70; 0x74; 0xe1; 0x55; 0x05; 0x40; 0xc7; 0x15; 0x28; 0xb9; 0xa0;
   0x93; 0x78; 0x95; 0x8b; 0xfd; 0xce; 0x8f; 0xf1; 0x74; 0xa2; 0x88; 0x94; 0x19; 0x35; 0x6f; 0x30].
Definition deviceIV435_init : list Z :=
  [0x2a; 0x3c; 0x0a; 0x12; 0xcb; 0xfc; 0xfd; 0xa5; 0x64; 0xd3; 0x38; 0xe0; 0x68; 0xa8; 0xf3; 0xd1].

(** A descriptor as read from memory; [iv] are its last sixteen bytes. *)
Record segmentBuffer := mk_segment { seg_address : Z; seg_flags : Z; seg_buffer : Z; seg_size : Z; seg_iv : list Z }.
Definition sizeof_segmentBuffer := 32.

Definition segment_of_bytes (bs : list Z) : segmentBuffer :=
  mk_segment (le_value (take 4 bs)) (le_value (take 4 (drop 4 bs))) (le_value (take 4 (drop 8 bs)))
    (le_value (take 4 (drop 12 bs))) (take 16 (drop 16 bs)).

Inductive cdma_event :=
  | CdmaIrq (channel : Z) (level : bool)
  | CdmaDump (data : list Z).

Section Cdma.
Context {M K : Type} `{GuestMemory M} `{CryptoHost K}.

Record s5l8930_cdma_s := mk_cdma {
  size : list Z; segptr : list Z; status : list Z; dmaAesSetup : list Z; config : list Z; creg : list Z;
  mstatus : Z; aesOperation : Z; dmaSegment : list (option segmentBuffer); decryptKey : K;
  ivec : list Z; custkey : list Z; keyLen : Z; keyType : Z;
  (** which interrupt lines are connected *)
  irqs : list bool;
  (** the static variables of the file, and guest memory *)
  d_counter : Z; kernIV435 : list Z; deviceIV435 : list Z;
  memory : M
}.

#[export] Instance eta_cdma : Eta s5l8930_cdma_s := fun s =>
  mk_cdma (size s) (segptr s) (status s) (dmaAesSetup s) (config s) (creg s) (mstatus s)
    (aesOperation s) (dmaSegment s) (decryptKey s) (ivec s) (custkey s) (keyLen s) (keyType s) (irqs s)
    (d_counter s) (kernIV435 s) (deviceIV435 s) (memory s).

Abbreviation cdmaM := (dev s5l8930_cdma_s cdma_event).

(** [a[i]] and [a[i] = v] for an array [a] of the state. *)
Definition geta {A} (a : s5l8930_cdma_s -> list A) (i : Z) : cdmaM A :=
  s <- gets id ;; lift (aget (a s) i).

Definition mem_read (a n : Z) : cdmaM (list Z) :=
  s <- gets id ;;
  let (bs, m) := phys_read a n (memory s) in
  modify (fun s => s <| memory := m |>) ;;; ret bs.
Definition mem_write (a : Z) (bs : list Z) : cdmaM unit :=
  modify (fun s => s <| memory ::= phys_write a bs |>).

(** Driving the line of a channel; a null [qemu_irq] is ignored. *)
Definition set_irq (ch : Z) (level : bool) : cdmaM unit :=
  c <- geta irqs ch ;; when c (emit (CdmaIrq ch level)).

Definition set_status (ch v : Z) : cdmaM unit :=
  s <- gets id ;; a <- lift (aset ch v (status s)) ;; modify (fun s => s <| status := a |>).

(** [dmaSegment[ch]->...]: a null pointer when no descriptor was loaded. *)
Definition segment (ch : Z) : cdmaM segmentBuffer :=
  o <- geta dmaSegment ch ;; lift o.

(** [fopen], [fwrite] and [fclose] of a dump; a failed [fopen] is not checked. *)
Definition dump (data : list Z) : cdmaM unit := if aes_dump_opens then emit (CdmaDump data) else undef.

(** The key words as the bytes of the array. *)
Definition custkey_bytes (s : s5l8930_cdma_s) : list Z := flat_map (le_bytes 4) (custkey s).

Definition buffer_zero (buf : list Z) (n : Z) : option bool :=
  b ← slice 0 n buf; Some (forallb (Z.eqb 0) b).

(** With the key of the registers and the IV of [ivec], which it updates. *)
Definition do_aes_crypto (inBuf outBuf : list Z) (n operation : Z) : cdmaM (list Z) :=
  modify (fun s => s <| decryptKey ::= AES_set_decrypt_key (custkey_bytes s) (keyLen s) |>) ;;;
  s <- gets id ;;
  r <- lift (cbc_into outBuf inBuf n (decryptKey s) (ivec s) operation) ;;
  modify (fun s => s <| ivec := r.2 |>) ;;;
  ret r.1.

Definition s5l8930_cdma_read (addr : Z) : cdmaM Z :=
  let channel_reg := addr >> 12 in
  switch (addr .& 0xff)
    [ (on 0x0, geta status channel_reg);
      (on 0x4, geta config channel_reg);
      (on 0x8, geta creg channel_reg);
      (on 0xc, geta size channel_reg);
      (on 0x10, gets mstatus);
      (on 0x14, ret 0) ]
    (ret 0).

(** The key schedule for the key type the setup word selected. *)
Definition set_engine_key : cdmaM unit :=
  s <- gets id ;;
  if keyType s =? AESUID then
    modify (fun s => s <| decryptKey ::= AES_set_decrypt_key key_uid 128 |>)
  else if keyType s =? AESGID then ret tt
  else when (keyType s =? AESCustom)
    (modify (fun s => s <| decryptKey ::= AES_set_decrypt_key (custkey_bytes s) (keyLen s) |>)).

(** The ciphering, with the keys and chaining values of the two special sizes;
    [AES_cbc_encrypt] updates the latter. *)
Definition engine_cipher (n : Z) (aesInBuf : list Z) : cdmaM (list Z) :=
  let aesOutBuf := zeros (Z.to_nat n) in
  if n =? 0x5e42c0 then
    modify (fun s => s <| decryptKey ::= AES_set_decrypt_key kernKey435 (keyLen s) |>) ;;;
    s <- gets id ;;
    r <- lift (cbc_into aesOutBuf aesInBuf n (decryptKey s) (kernIV435 s) (aesOperation s)) ;;
    modify (fun s => s <| kernIV435 := r.2 |>) ;;; ret r.1
  else if n =? 0xe9a0 then
    modify (fun s => s <| decryptKey ::= AES_set_decrypt_key deviceKey435 (keyLen s) |>) ;;;
    s <- gets id ;;
    r <- lift (cbc_into aesOutBuf aesInBuf n (decryptKey s) (deviceIV435 s) (aesOperation s)) ;;
    modify (fun s => s <| deviceIV435 := r.2 |>) ;;; ret r.1
  else
    s <- gets id ;;
    r <- lift (cbc_into aesOutBuf aesInBuf n (decryptKey s) (zeros 16) (aesOperation s)) ;; ret r.1.

(** The transfer of the AES engine ([case 2] of the start). *)
Definition aes_transfer (ch : Z) : cdmaM unit :=
  sg <- segment ch ;;
  let n := seg_size sg in
  set_engine_key ;;;
  s1 <- segment 1 ;;
  aesInBuf <- mem_read (seg_buffer s1) n ;;
  dump aesInBuf ;;;
  aesOutBuf <- engine_cipher n aesInBuf ;;
  s <- gets id ;;
  when (keyType s =? AESCustom) (dump (custkey_bytes s)) ;;;
  dump aesOutBuf ;;;
  modify (fun s => s <| d_counter ::= fun x => u32 (x + 1) |>) ;;;
  mem_write (seg_buffer sg) aesOutBuf ;;;
  modify (fun s => s <| ivec := zeros 16 |> <| keyLen := 0 |> <| keyType := 0 |> <| aesOperation := 0 |>).

(** [for(i = 0; i < n; i++) cpu_physical_memory_read(creg, inBuf+off+i, 1)] *)
Fixpoint fifo_bytes (reg off : Z) (n : nat) (inBuf : list Z) : cdmaM (list Z) :=
  match n with
  | O => ret inBuf
  | S n' =>
      b <- mem_read reg 1 ;;
      inBuf <- lift (splice off b inBuf) ;;
      fifo_bytes reg (off + 1) n' inBuf
  end.

(** The first loop: along the chain from [nextSeg], the segments' bytes are
    read from the FIFO, up to the channel's size.  [None]: out of fuel. *)
Fixpoint gather (fuel : nat) (ch nextSeg : Z) (inBuf : list Z) (got : Z) : cdmaM (option (list Z * Z)) :=
  match fuel with
  | O => ret None
  | S fuel' =>
      bs <- mem_read nextSeg sizeof_segmentBuffer ;;
      let segBuf := segment_of_bytes bs in
      total <- geta size ch ;;
      if test (seg_flags segBuf) 3 && (total <? got + seg_size segBuf) then ret (Some (inBuf, got))
      else
        r <- (if test (seg_flags segBuf) 3 then
                reg <- geta creg ch ;;
                inBuf <- fifo_bytes reg got (Z.to_nat (seg_size segBuf)) inBuf ;;
                ret (inBuf, got + seg_size segBuf)
              else ret (inBuf, got)) ;;
        let nextSeg := seg_address segBuf in
        if negb (nextSeg =? 0) && (r.2 <? total) then gather fuel' ch nextSeg r.1 r.2 else ret (Some r)
  end.

(** The second loop: the output buffer is spread over the segments' buffers.
    On the even channels ("meta") the first bytes are also printed. *)
Fixpoint scatter (fuel : nat) (ch nextSeg : Z) (outBuf : list Z) (soffset : Z) : cdmaM bool :=
  match fuel with
  | O => ret false
  | S fuel' =>
      bs <- mem_read nextSeg sizeof_segmentBuffer ;;
      let segBuf := segment_of_bytes bs in
      if negb (test (seg_flags segBuf) 2) then ret true
      else
        when (negb (test ch 1)) (_ <- lift (slice 0 (seg_size segBuf) outBuf) ;; ret tt) ;;;
        d <- lift (slice soffset (seg_size segBuf) outBuf) ;;
        mem_write (seg_buffer segBuf) d ;;;
        if test (seg_flags segBuf) 1
        then scatter fuel' ch (seg_address segBuf) outBuf (u32 (soffset + seg_size segBuf))
        else ret true
  end.

(** The transfer of a flash channel ([case 5] to [8] of the start). *)
Definition h2fmi_transfer (fuel : nat) (ch : Z) : cdmaM bool :=
  cfg <- geta config ch ;;
  if test cfg 0x2 then ret true
  else
    sg <- segment ch ;;
    firstSeg <- (if test (seg_flags sg) 1 then geta segptr ch
                 else modify (fun s => s <| ivec := seg_iv sg |>) ;;; ret (seg_address sg)) ;;
    total <- geta size ch ;;
    let inBuf := zeros (Z.to_nat (u32 (total + 4))) in
    let outBuf := zeros (Z.to_nat (u32 (total + 4))) in
    g <- gather fuel ch firstSeg inBuf 0 ;;
    match g with
    | None => ret false
    | Some (inBuf, got) =>
        zero <- (if test (seg_flags sg) 1 then ret true else lift (buffer_zero inBuf total)) ;;
        outBuf <- (if (zero : bool)
                   then d <- lift (slice 0 got inBuf) ;; lift (splice 0 d outBuf)
                   else do_aes_crypto inBuf outBuf total AES_DECRYPT) ;;
        done <- scatter fuel ch firstSeg outBuf 0 ;;
        if negb done then ret false
        else
          s <- gets id ;;
          a <- lift (aset ch 0 (size s)) ;;
          modify (fun s => s <| size := a |>) ;;;
          st <- geta status ch ;;
          set_status ch ((st .&~ (bit 19 .| bit 18)) .| 0x80000) ;;;
          modify (fun s => s <| mstatus ::= fun m => m .| bit ch |> <| ivec := zeros 16 |>) ;;;
          set_irq ch true ;;;
          ret true
    end.

(** A write of the status register: acknowledge, then start. *)
Definition cdma_write_status (fuel : nat) (ch value : Z) : cdmaM bool :=
  st <- geta status ch ;;
  value <- (if test value 0x80000 && test st 0x80000
            then set_irq ch false ;;;
                 modify (fun s => s <| mstatus ::= fun m => m .&~ bit ch |>) ;;;
                 ret (value .&~ bit 19)
            else ret value) ;;
  if test value 1 && on_range 5 8 ch then h2fmi_transfer fuel ch
  else
    when (test value 1 && (ch =? 2)) (aes_transfer ch) ;;;
    set_status ch value ;;;
    ret true.

(** A write of the segment pointer loads the descriptor it points to. *)
Definition write_segptr (ch value : Z) : cdmaM unit :=
  when (negb (value =? 0))
    (when (ch =? 1)
       (s <- geta dmaAesSetup ch ;; modify (fun st => st <| aesOperation := (s >> 16) .& 1 |>)) ;;;
     _ <- geta dmaSegment ch ;;
     bs <- mem_read value sizeof_segmentBuffer ;;
     s <- gets id ;;
     a <- lift (aset ch (Some (segment_of_bytes bs)) (dmaSegment s)) ;;
     modify (fun s => s <| dmaSegment := a |>) ;;;
     s <- gets id ;;
     a <- lift (aset ch value (segptr s)) ;;
     modify (fun s => s <| segptr := a |>)).

Definition s5l8930_cdma_write (fuel : nat) (addr value : Z) : cdmaM bool :=
  let channel_reg := addr >> 12 in
  switch (addr .& 0xff)
    [ (on 0x0, cdma_write_status fuel channel_reg value);
      (on 0x4, s <- gets id ;; a <- lift (aset channel_reg value (config s)) ;;
               modify (fun s => s <| config := a |>) ;;; ret true);
      (on 0x8, s <- gets id ;; a <- lift (aset channel_reg value (creg s)) ;;
               modify (fun s => s <| creg := a |>) ;;; ret true);
      (on 0xc, s <- gets id ;; a <- lift (aset channel_reg value (size s)) ;;
               modify (fun s => s <| size := a |>) ;;; ret true);
      (on 0x10, modify (fun s => s <| mstatus := value |>) ;;; ret true);
      (on 0x14, write_segptr channel_reg value ;;; ret true) ]
    (ret true).

(** The four flash channels are connected (again, by the IOP). *)
Definition replaceCDMAIRQHandlers (dma5 dma6 dma7 dma8 : bool) : cdmaM unit :=
  s <- gets id ;;
  a <- lift (aset 5 dma5 (irqs s)) ;; a <- lift (aset 6 dma6 a) ;;
  a <- lift (aset 7 dma7 a) ;; a <- lift (aset 8 dma8 a) ;;
  modify (fun s => s <| irqs := a |>).

Definition s5l8930_cdma_init (dma5 dma6 dma7 dma8 : bool) (m : M) : s5l8930_cdma_s :=
  let z := zeros MAX_CDMA_CHAN in
  mk_cdma z z z z z z 0 0 (replicate MAX_CDMA_CHAN None) AES_no_key (zeros 16) (zeros 8) 0 0
    (replicate 5 false ++ [dma5; dma6; dma7; dma8] ++ replicate 28 false)
    0 kernIV435_init deviceIV435_init m.

(** ** The AES registers *)
Definition s5l8930_cdma_aes_read (addr : Z) : cdmaM Z :=
  let channel_reg := addr >> 12 in
  switch (addr .& 0xff)
    [ (on 0x0, geta dmaAesSetup channel_reg);
      (on_range 0x10 0x1c, geta ivec (((addr .& 0xff) - 0x10) / 4));
      (on_range 0x20 0x3c, geta custkey (((addr .& 0xff) - 0x20) / 4)) ]
    (ret 0).

(** The key selection of a setup word. *)
Definition select_key (setup : Z) : Z * Z :=
  if test (setup >> 20) 1 then
    (AESCustom, switch ((setup >> 18) .& 0x2) [ (on AES_256, 256); (on AES_192, 192); (on AES_128, 128) ] 128)
  else if test (setup >> 21) 1 then (AESGID, 256)
  else (AESUID, 256).

Definition s5l8930_cdma_aes_write (addr value : Z) : cdmaM unit :=
  let channel_reg := addr >> 12 in
  switch (addr .& 0xff)
    [ (on 0x0,
         s <- gets id ;; a <- lift (aset channel_reg value (dmaAesSetup s)) ;;
         modify (fun s => s <| dmaAesSetup := a |>) ;;;
         let (t, l) := select_key value in
         modify (fun s => s <| keyType := t |> <| keyLen := l |>));
      (on_range 0x10 0x1c,
         s <- gets id ;; a <- lift (aset (((addr .& 0xff) - 0x10) / 4) (u8 value) (ivec s)) ;;
         modify (fun s => s <| ivec := a |>));
      (on_range 0x20 0x3c,
         s <- gets id ;; a <- lift (aset (((addr .& 0xff) - 0x20) / 4) value (custkey s)) ;;
         modify (fun s => s <| custkey := a |>)) ]
    (ret tt).
End Cdma.

(** ** Running the parts on a given state *)
Section Running.
Context {M K : Type} `{GuestMemory M} `{CryptoHost K}.
Implicit Types s : s5l8930_cdma_s (M := M) (K := K).

Lemma geta_eq {A} (a : s5l8930_cdma_s (M := M) (K := K) -> list A) i s v :
  aget (a s) i = Some v -> geta a i s = Done (v, s, []).
Proof. intros E. unfold geta. run. unfold id. by rewrite E. Qed.

Lemma with_memory_same s : s <| memory := memory s |> = s.
Proof. by destruct s. Qed.

Lemma mem_read_eq a n s bs m :
  phys_read a n (memory s) = (bs, m) -> mem_read a n s = Done (bs, s <| memory := m |>, []).
Proof. intros E. unfold mem_read. run. unfold id. by rewrite E. Qed.

Lemma mem_read_same a n s bs :
  phys_read a n (memory s) = (bs, memory s) -> mem_read a n s = Done (bs, s, []).
Proof. intros E. rewrite <- (with_memory_same s) at 2. by apply mem_read_eq. Qed.

(** [n] bytes read one at a time from a register of the memory map. *)
Fixpoint pull (reg : Z) (n : nat) (m : M) : list Z * M :=
  match n with
  | O => ([], m)
  | S n' => let (b, m1) := phys_read reg 1 m in let (r, m2) := pull reg n' m1 in (b ++ r, m2)
  end.

(** The writes of the second loop, in order. *)
Fixpoint scattered (sgs : list segmentBuffer) (d : list Z) (m : M) : M :=
  match sgs with
  | [] => m
  | sg :: r =>
      let n := Z.to_nat (seg_size sg) in
      scattered r (drop n d) (phys_write (seg_buffer sg) (take n d) m)
  end.

Definition total_size (sgs : list segmentBuffer) : Z := foldr (fun sg n => seg_size sg + n) 0 sgs.

(** A chain of data segments from an address on: each but the last says that
    another follows, all have data. *)
Fixpoint chain (desc : Z -> option segmentBuffer) (a : Z) (sgs : list segmentBuffer) : Prop :=
  match sgs with
  | [] => False
  | sg :: r =>
      desc a = Some sg /\ test (seg_flags sg) 2 = true /\ 0 < seg_size sg /\
      match r with
      | [] => test (seg_flags sg) 1 = false
      | _ => test (seg_flags sg) 1 = true /\ seg_address sg <> 0 /\ chain desc (seg_address sg) r
      end
  end.

(** A memory in which the descriptors [desc] can be read, without effect, as
    long as only the register [reg] is read, which yields a byte each time, and
    only the buffers of the descriptors are written. *)
Class ChainMemory (I : M -> Prop) (desc : Z -> option segmentBuffer) (reg : Z) := {
  chain_desc a sg m : I m -> desc a = Some sg ->
    exists bs, phys_read a sizeof_segmentBuffer m = (bs, m) /\ segment_of_bytes bs = sg;
  chain_fifo m : I m -> exists b m', phys_read reg 1 m = ([b], m') /\ I m';
  chain_write a sg d m : I m -> desc a = Some sg -> zlen d = seg_size sg -> I (phys_write (seg_buffer sg) d m)
}.

Section Chain.
Context (I : M -> Prop) (desc : Z -> option segmentBuffer) (reg : Z) `{!ChainMemory I desc reg}.

Lemma pull_ok n m : I m -> exists d m', pull reg n m = (d, m') /\ length d = n /\ I m'.
Proof.
  revert m. induction n as [|n IH]; intros m Hm; [by exists [], m|].
  destruct (chain_fifo m Hm) as (b & m1 & E & Hm1). destruct (IH m1 Hm1) as (d & m2 & E2 & Hl & Hm2).
  exists (b :: d), m2. cbn [pull]. rewrite E, E2. cbn. by rewrite Hl.
Qed.

Lemma pull_add n k m d1 m1 d2 m2 :
  pull reg n m = (d1, m1) -> pull reg k m1 = (d2, m2) -> pull reg (n + k) m = (d1 ++ d2, m2).
Proof.
  revert m d1. induction n as [|n IH]; intros m d1 E1 E2; cbn [pull Nat.add] in *; [by injection E1 as <- <-|].
  destruct (phys_read reg 1 m) as [b ma]. destruct (pull reg n ma) as [r mb] eqn:Er.
  injection E1 as <- <-. rewrite (IH _ _ Er E2). by rewrite app_assoc.
Qed.

Lemma fifo_bytes_eq n off inBuf s pre post :
  I (memory s) -> inBuf = pre ++ post -> zlen pre = off -> (n <= length post)%nat ->
  let (d, m') := pull reg n (memory s) in
  fifo_bytes reg off n inBuf s = Done (pre ++ d ++ drop n post, s <| memory := m' |>, []).
Proof.
  revert off inBuf s pre post. induction n as [|n IH]; intros off inBuf s pre post HI Hbuf Hoff Hn; cbn [pull].
  { cbn [fifo_bytes]. rewrite with_memory_same. by rewrite Hbuf. }
  destruct (chain_fifo _ HI) as (b & m1 & E & Hm1). rewrite E.
  destruct post as [|x post]; [cbn in Hn; lia|].
  set (s1 := s <| memory := m1 |>).
  specialize (IH (off + 1) (pre ++ b :: post) s1 (pre ++ [b]) post).
  change (memory s1) with m1 in IH. destruct (pull reg n m1) as [d m2].
  cbn [fifo_bytes]. rewrite (bind_silent _ _ _ _ _ (mem_read_eq _ _ _ _ _ E)).
  rewrite splice_Some by (unfold zlen in *; rewrite ?Hbuf, ?length_app; cbn; lia).
  rewrite Hbuf. unfold zlen in Hoff.
  rewrite take_app_length' by lia. rewrite (drop_app_ge pre) by (cbn; lia).
  replace (Z.to_nat off + length [b] - length pre)%nat with 1%nat by (cbn; lia). cbn [drop app].
  run. fold s1. rewrite drop_0, IH; [|done|by rewrite <- app_assoc|rewrite ?length_app; unfold zlen; rewrite length_app; cbn; lia|
    cbn in Hn; lia].
  rewrite <- !app_assoc. reflexivity.
Qed.

Lemma total_size_pos a sgs : chain desc a sgs -> 0 < total_size sgs.
Proof.
  revert a. induction sgs as [|sg r IH]; intros a; [done|]. cbn [chain total_size foldr].
  intros (_ & _ & Hp & Hr). destruct r as [|sg2 r]; [cbn; lia|].
  destruct Hr as (_ & _ & Hc). specialize (IH _ Hc). unfold total_size in IH. lia.
Qed.

Lemma test_3_of_2 x : test x 2 = true -> test x 3 = true.
Proof.
  unfold test. rewrite !negb_true_iff, !Z.eqb_neq. intros H2 H3. apply H2.
  apply Z.bits_inj'. intros n Hn. rewrite Z.land_spec, Z.bits_0.
  assert (Z.testbit (x .& 3) n = false) as Hb by (by rewrite H3, Z.bits_0). rewrite Z.land_spec in Hb.
  destruct (Z.testbit x n); [|done]. cbn in *.
  destruct (Z.eq_dec n 1) as [->|]; [done|]. change 2 with (2 ^ 1). apply Z.pow2_bits_false. lia.
Qed.

(** The first loop over a chain reads all its bytes from the register. *)
Lemma gather_eq fuel ch a sgs s d0 post :
  I (memory s) -> chain desc a sgs -> (length sgs <= fuel)%nat ->
  aget (size s) ch = Some (zlen d0 + total_size sgs) -> aget (creg s) ch = Some reg ->
  total_size sgs <= zlen post ->
  exists d m', pull reg (Z.to_nat (total_size sgs)) (memory s) = (d, m') /\
    gather fuel ch a (d0 ++ post) (zlen d0) s
    = Done (Some (d0 ++ d ++ drop (length d) post, zlen d0 + total_size sgs), s <| memory := m' |>, []) /\
    zlen d = total_size sgs /\ I m'.
Proof.
  revert a sgs s d0 post. induction fuel as [|fuel IH]; intros a sgs s d0 post HI Hch Hf Hsz Hcr Hpost;
    [destruct sgs; [done|cbn in Hf; lia]|].
  destruct sgs as [|sg r]; [done|]. pose proof (total_size_pos _ _ Hch) as Hpos.
  cbn [chain] in Hch. destruct Hch as (Hd & H2 & Hp & Hr).
  assert (total_size (sg :: r) = seg_size sg + total_size r) as Ht by done.
  assert (0 <= total_size r) as Hr0.
  { destruct r; [cbn; lia|]. destruct Hr as (_ & _ & Hc). pose proof (total_size_pos _ _ Hc). lia. }
  destruct (chain_desc a sg (memory s) HI Hd) as (bs & Ebs & Esg).
  set (n := Z.to_nat (seg_size sg)).
  destruct (pull_ok n (memory s) HI) as (d1 & m1 & E1 & Hl1 & HI1).
  pose proof (fifo_bytes_eq n (zlen d0) (d0 ++ post) s d0 post HI eq_refl eq_refl) as Hfifo.
  rewrite E1 in Hfifo. unfold zlen in Hpost, Hfifo.
  assert (gather (S fuel) ch a (d0 ++ post) (zlen d0) s
    = (if negb (seg_address sg =? 0) && (zlen (d0 ++ d1) <? zlen d0 + total_size (sg :: r))
       then gather fuel ch (seg_address sg) ((d0 ++ d1) ++ drop n post) (zlen (d0 ++ d1))
       else ret (Some ((d0 ++ d1) ++ drop n post, zlen (d0 ++ d1)))) (s <| memory := m1 |>)) as Estep.
  { cbn [gather]. rewrite (bind_silent _ _ _ _ _ (mem_read_same _ _ _ _ Ebs)), Esg.
    rewrite (bind_silent _ _ _ _ _ (geta_eq size ch s _ Hsz)), (test_3_of_2 _ H2). cbn [andb].
    destruct (Z.ltb_spec (zlen d0 + total_size (sg :: r)) (zlen d0 + seg_size sg)); [lia|].
    rewrite bind_assoc, (bind_silent _ _ _ _ _ (geta_eq creg ch s _ Hcr)). fold n. unfold zlen at 1.
    rewrite bind_assoc, (bind_silent _ _ _ _ _ (Hfifo ltac:(lia))). run. cbn [fst snd].
    assert (zlen d0 + seg_size sg = zlen (d0 ++ d1)) as -> by (unfold zlen; rewrite length_app; lia).
    by rewrite app_assoc. }
  assert (zlen (d0 ++ d1) = zlen d0 + seg_size sg) as Hlen by (unfold zlen; rewrite length_app; lia).
  destruct r as [|sg2 r].
  - exists d1, m1. replace (total_size [sg]) with (seg_size sg) in * by (cbn; lia). fold n.
    split; [done|]. split; [|split; [unfold zlen; lia|done]]. rewrite Estep.
    replace (zlen (d0 ++ d1) <? zlen d0 + seg_size sg) with false by lia. rewrite andb_false_r.
    rewrite Hlen, <- app_assoc, Hl1. reflexivity.
  - destruct Hr as (_ & Hne & Hc). set (s1 := s <| memory := m1 |>) in *.
    destruct (IH (seg_address sg) (sg2 :: r) s1 (d0 ++ d1) (drop n post)) as (d2 & m2 & E2 & Eg & Hl2 & HI2);
      [done|done|cbn in Hf |- *; lia|..].
    { change (size s1) with (size s). rewrite Hsz, Hlen, Ht. f_equal. lia. }
    { done. }
    { unfold zlen. rewrite length_drop. lia. }
    exists (d1 ++ d2), m2. rewrite Ht, Z2Nat.inj_add by lia. split; [by apply pull_add with m1|].
    split; [|split; [unfold zlen in *; rewrite length_app; lia|done]].
    rewrite Estep. pose proof (total_size_pos _ _ Hc).
    replace (seg_address sg =? 0) with false by lia.
    replace (zlen (d0 ++ d1) <? _) with true by lia. cbn [negb andb]. rewrite Eg.
    rewrite length_app, <- drop_drop, Hl1, <- !app_assoc. do 3 f_equal. rewrite Hlen. do 2 f_equal. lia.
Qed.

(** The second loop over a chain writes the output buffer piece by piece. *)
Lemma scatter_eq fuel ch a sgs s pre d post :
  I (memory s) -> chain desc a sgs -> (length sgs <= fuel)%nat -> zlen d = total_size sgs ->
  zlen pre + zlen d + zlen post < 2 ^ 32 ->
  scatter fuel ch a (pre ++ d ++ post) (zlen pre) s
  = Done (true, s <| memory := scattered sgs d (memory s) |>, []).
Proof.
  revert a sgs s pre d. induction fuel as [|fuel IH]; intros a sgs s pre d HI Hch Hf Hl H32;
    [destruct sgs; [done|cbn in Hf; lia]|].
  destruct sgs as [|sg r]; [done|]. cbn [chain] in Hch. destruct Hch as (Hd & H2 & Hp & Hr).
  assert (0 <= total_size r) as Hr0.
  { destruct r; [cbn; lia|]. destruct Hr as (_ & _ & Hc). pose proof (total_size_pos _ _ Hc). lia. }
  change (total_size (sg :: r)) with (seg_size sg + total_size r) in Hl.
  destruct (chain_desc a sg (memory s) HI Hd) as (bs & Ebs & Esg).
  set (n := Z.to_nat (seg_size sg)). set (buf := pre ++ d ++ post).
  assert (zlen buf = zlen pre + zlen d + zlen post) as Hbuf by (unfold zlen, buf; rewrite !length_app; lia).
  unfold zlen in *.
  assert (slice (Z.of_nat (length pre)) (seg_size sg) buf = Some (take n d)) as Hsl.
  { rewrite slice_Some by (unfold zlen in *; lia). f_equal. unfold buf.
    rewrite drop_app_length' by lia. fold n. rewrite take_app_le by lia. done. }
  assert (exists x, slice 0 (seg_size sg) buf = Some x) as [x Hx].
  { rewrite slice_Some by (unfold zlen in *; lia). eauto. }
  set (m1 := phys_write (seg_buffer sg) (take n d) (memory s)).
  assert (I m1) as HI1.
  { apply (chain_write a); [done|done|]. unfold zlen. rewrite length_take. lia. }
  assert (scatter (S fuel) ch a buf (Z.of_nat (length pre)) s
    = (if test (seg_flags sg) 1
       then scatter fuel ch (seg_address sg) buf (u32 (Z.of_nat (length pre) + seg_size sg))
       else ret true) (s <| memory := m1 |>)) as Estep.
  { cbn [scatter]. rewrite (bind_silent _ _ _ _ _ (mem_read_same _ _ _ _ Ebs)), Esg, H2. cbn [negb].
    rewrite Hx. rewrite (bind_silent _ _ s tt s) by (by destruct (test ch 1)).
    rewrite Hsl. run. unfold mem_write. by rewrite bind_modify. }
  rewrite Estep. cbn [scattered]. fold n m1. destruct r as [|sg2 r]; [by rewrite Hr|].
  destruct Hr as (H1 & _ & Hc). rewrite H1, wrap_fits by (unfold fits; lia).
  specialize (IH (seg_address sg) (sg2 :: r) (s <| memory := m1 |>) (pre ++ take n d) (drop n d)).
  unfold zlen in IH. rewrite length_app, length_take, length_drop in IH.
  replace (Z.of_nat (length pre) + seg_size sg) with (Z.of_nat (length pre + n `min` length d)) by lia.
  unfold buf. rewrite <- (take_drop n d) at 1. rewrite <- app_assoc, app_assoc.
  rewrite IH; [reflexivity|done|done|cbn in Hf |- *; lia|lia|lia].
Qed.
End Chain.
End Running.

(** ** A flash channel's transfer *)
Section Transfer.
Context {M K : Type} `{GuestMemory M} `{CryptoHost K}.
Implicit Types s : s5l8930_cdma_s (M := M) (K := K).

Context `{!CbcLength (K := K)}.

(** What the bytes of the FIFO become: unchanged when the channel's descriptor
    says so or when all are zero, else deciphered with the key registers and the
    descriptor's IV. *)
Definition transfer_key s : K := AES_set_decrypt_key (custkey_bytes s) (keyLen s) (decryptKey s).
Definition plain s (sg : segmentBuffer) (d : list Z) : list Z :=
  if test (seg_flags sg) 1 || forallb (Z.eqb 0) d then d
  else (AES_cbc_encrypt d (transfer_key s) (seg_iv sg) AES_DECRYPT).1.

(** Between the two loops. *)
Lemma decipher_eq s sg d total (pad : list Z) :
  zlen d = total -> (test (seg_flags sg) 1 = false -> ivec s = seg_iv sg) -> length pad = 4%nat ->
  exists k iv,
    (zero <- (if test (seg_flags sg) 1 then ret true else lift (buffer_zero (d ++ pad) total)) ;;
     if (zero : bool)
     then o <- lift (slice 0 total (d ++ pad)) ;; lift (splice 0 o (zeros (Z.to_nat total) ++ pad))
     else do_aes_crypto (d ++ pad) (zeros (Z.to_nat total) ++ pad) total AES_DECRYPT) s
    = Done (plain s sg d ++ pad, s <| decryptKey := k |> <| ivec := iv |>, []) /\
    zlen (plain s sg d) = total.
Proof.
  intros Hl Hiv Hpad. assert (slice 0 total (d ++ pad) = Some d) as Hsl.
  { rewrite slice_Some by (unfold zlen in *; rewrite ?length_app; lia). rewrite drop_0.
    by rewrite take_app_length' by (unfold zlen in Hl; lia). }
  assert (forall o, zlen o = total -> splice 0 o (zeros (Z.to_nat total) ++ pad) = Some (o ++ pad)) as Hsp.
  { intros o Ho. rewrite splice_Some by (unfold zlen, zeros in *; rewrite ?length_app, ?length_replicate; lia).
    change (Z.to_nat 0) with 0%nat. rewrite take_0. cbn [app]. f_equal. f_equal.
    apply drop_app_length'. unfold zeros, zlen in *. rewrite length_replicate. lia. }
  assert (s = s <| decryptKey := decryptKey s |> <| ivec := ivec s |>) as Hs by (by destruct s).
  unfold plain, buffer_zero. rewrite Hsl. destruct (test (seg_flags sg) 1) eqn:Ef; cbn [orb].
  - exists (decryptKey s), (ivec s). rewrite bind_ret, bind_lift with (a := d) by done.
    rewrite Hsp, <- Hs by done. done.
  - cbn [mbind option_bind]. destruct (forallb (Z.eqb 0) d) eqn:Ez.
    + exists (decryptKey s), (ivec s). rewrite bind_lift with (a := true) by done.
      rewrite bind_lift with (a := d) by done. by rewrite Hsp, <- Hs by done.
    + rewrite bind_lift with (a := false) by done. unfold do_aes_crypto. run. unfold id.
      set (s1 := s <| decryptKey ::= _ |>). change (decryptKey s1) with (transfer_key s).
      change (ivec s1) with (ivec s). rewrite (Hiv eq_refl). unfold cbc_into. rewrite Hsl. cbn [mbind option_bind].
      pose proof (cbc_decrypt_length d (transfer_key s) (seg_iv sg)) as Hlen.
      destruct (AES_cbc_encrypt d (transfer_key s) (seg_iv sg) AES_DECRYPT) as [o iv'] eqn:Ecbc.
      cbn [fst] in *. exists (transfer_key s), iv'. rewrite Hsp by (unfold zlen in *; lia).
      cbn [mbind option_bind]. run. cbn [fst snd]. split; [done|unfold zlen in *; lia].
Qed.

(** The end of a transfer. *)
Lemma finish_eq s ch n0 st line :
  aget (size s) ch = Some n0 -> aget (status s) ch = Some st -> aget (irqs s) ch = Some line ->
  exists s', (s0 <- gets id ;;
     a <- lift (aset ch 0 (size s0)) ;;
     modify (fun s => s <| size := a |>) ;;;
     st <- geta status ch ;;
     set_status ch ((st .&~ (bit 19 .| bit 18)) .| 0x80000) ;;;
     modify (fun s => s <| mstatus ::= fun m => m .| bit ch |> <| ivec := zeros 16 |>) ;;;
     set_irq ch true ;;;
     ret true) s = Done (true, s', if (line : bool) then [CdmaIrq ch true] else []) /\
    memory s' = memory s /\ aget (size s') ch = Some 0 /\
    aget (status s') ch = Some ((st .&~ (bit 19 .| bit 18)) .| 0x80000) /\
    mstatus s' = mstatus s .| bit ch /\ ivec s' = zeros 16 /\
    dmaSegment s' = dmaSegment s /\ segptr s' = segptr s /\ config s' = config s /\ creg s' = creg s.
Proof.
  intros Hsz Hst Hline. pose proof (aget_bounds _ _ _ Hsz) as Hb1. pose proof (aget_bounds _ _ _ Hst) as Hb2.
  destruct (aset ch 0 (size s)) as [a1|] eqn:E1; [|by rewrite aset_Some in E1].
  set (v := (st .&~ (bit 19 .| bit 18)) .| 0x80000).
  destruct (aset ch v (status s)) as [a2|] eqn:E2; [|by rewrite aset_Some in E2].
  exists (s <| size := a1 |> <| status := a2 |> <| mstatus ::= fun m => m .| bit ch |> <| ivec := zeros 16 |>).
  split; [|split; [done|split; [exact (aget_aset_eq _ _ _ _ E1)|split; [exact (aget_aset_eq _ _ _ _ E2)|done]]]].
  run. unfold id. rewrite E1. run. set (s1 := s <| size := a1 |>).
  rewrite (bind_silent _ _ _ _ _ (geta_eq status ch s1 st Hst)). fold v. unfold set_status. run. unfold id.
  change (status s1) with (status s). rewrite E2. run. set (s2 := _ <| ivec := zeros 16 |>).
  unfold set_irq. rewrite bind_assoc, (bind_silent _ _ _ _ _ (geta_eq irqs ch s2 line Hline)).
  by destruct line.
Qed.

Context (I : M -> Prop) (desc : Z -> option segmentBuffer) (reg : Z) `{!ChainMemory I desc reg}.

(** A start of a flash channel is its transfer. *)
Lemma start_flash_eq fuel s ch value st :
  5 <= ch <= 8 -> test value 1 = true -> test value 0x80000 && test st 0x80000 = false ->
  aget (status s) ch = Some st ->
  s5l8930_cdma_write fuel (ch << 12) value s = h2fmi_transfer fuel ch s.
Proof.
  intros Hch Hv Hack Hst. unfold s5l8930_cdma_write. rewrite Z.shiftr_shiftl_l by lia.
  change (12 - 12) with 0. rewrite Z.shiftl_0_r.
  assert ((ch << 12) .& 0xff = 0) as ->.
  { apply Z.bits_inj'. intros i Hi. rewrite Z.land_spec, Z.shiftl_spec, Z.bits_0 by done.
    destruct (Z.lt_ge_cases i 12); [by rewrite Z.testbit_neg_r by lia|]. change 0xff with (Z.ones 8).
    rewrite Z.ones_spec_high by lia. apply andb_false_r. }
  cbv zeta. pick 0%nat. unfold cdma_write_status. rewrite (bind_silent _ _ _ _ _ (geta_eq status ch s st Hst)), Hack.
  rewrite bind_ret, Hv. by replace (on_range 5 8 ch) with true by (unfold on_range; lia).
Qed.

(** The whole transfer. *)
Lemma flash_transfer_run fuel s ch sg sgs total st cfg line :
  I (memory s) -> 5 <= ch <= 8 ->
  aget (status s) ch = Some st -> aget (config s) ch = Some cfg -> test cfg 0x2 = false ->
  aget (dmaSegment s) ch = Some (Some sg) -> aget (size s) ch = Some total ->
  aget (creg s) ch = Some reg -> aget (irqs s) ch = Some line ->
  (exists first, chain desc first sgs /\
     if test (seg_flags sg) 1 then aget (segptr s) ch = Some first else seg_address sg = first) ->
  total = total_size sgs -> total + 4 < 2 ^ 32 -> (length sgs <= fuel)%nat ->
  exists d m s', pull reg (Z.to_nat total) (memory s) = (d, m) /\ zlen d = total /\
    h2fmi_transfer fuel ch s = Done (true, s', if (line : bool) then [CdmaIrq ch true] else []) /\
    memory s' = scattered sgs (plain s sg d) m /\
    aget (size s') ch = Some 0 /\
    aget (status s') ch = Some ((st .&~ (bit 19 .| bit 18)) .| 0x80000) /\
    mstatus s' = mstatus s .| bit ch /\ ivec s' = zeros 16 /\
    dmaSegment s' = dmaSegment s /\ segptr s' = segptr s /\ config s' = config s /\ creg s' = creg s.
Proof.
  intros HI Hch Hst Hcfg Hrd Hsg Hsz Hcr Hline (first & Hc & Hfirst) -> H32 Hf.
  pose proof (total_size_pos desc first sgs Hc) as Hpos. set (total := total_size sgs) in *.
  (* the state with the IV of the descriptor *)
  set (s1 := if test (seg_flags sg) 1 then s else s <| ivec := seg_iv sg |>).
  assert (forall A (f : s5l8930_cdma_s -> A), (forall v, f (s <| ivec := v |>) = f s) -> f s1 = f s) as Hs1.
  { intros A f Hfv. unfold s1. by destruct (test (seg_flags sg) 1). }
  set (buf := zeros (Z.to_nat total) ++ zeros 4).
  assert (zeros (Z.to_nat (u32 (total + 4))) = buf) as Hbuf.
  { rewrite wrap_fits by (unfold fits; lia). unfold buf, zeros. rewrite <- replicate_add. f_equal. lia. }
  destruct (gather_eq I desc reg fuel ch first sgs s1 [] buf) as (d & m & Epull & Eg & Hd & HIm);
    [by rewrite (Hs1 _ memory)|done|done|rewrite (Hs1 _ size) by done; exact Hsz|
     by rewrite (Hs1 _ creg)|fold total; unfold buf, zlen, zeros; rewrite length_app, !length_replicate; lia|].
  rewrite (Hs1 _ memory) in Epull by done. fold total in Epull, Eg, Hd. cbn [app] in Eg.
  change (zlen [] + total) with total in Eg. change (zlen (@nil Z)) with 0 in Eg.
  assert (drop (length d) buf = zeros 4) as Hdrop.
  { unfold buf. apply drop_app_length'. unfold zeros, zlen in *. rewrite length_replicate. lia. }
  rewrite Hdrop in Eg. set (s2 := s1 <| memory := m |>) in *.
  destruct (decipher_eq s2 sg d total (zeros 4)) as (k & iv & Edec & Hlp); [done| |done|].
  { intros E1. unfold s2, s1. by rewrite E1. }
  assert (plain s2 sg d = plain s sg d) as Hplain by (unfold s2, s1, plain; by destruct (test (seg_flags sg) 1)).
  rewrite Hplain in *. set (p := plain s sg d) in *. set (s3 := s2 <| decryptKey := k |> <| ivec := iv |>) in *.
  pose proof (scatter_eq I desc reg fuel ch first sgs s3 [] p (zeros 4) HIm Hc Hf Hlp) as Esc.
  cbn [app] in Esc. change (zlen (@nil Z)) with 0 in Esc. change (zlen (zeros 4)) with 4 in Esc.
  specialize (Esc ltac:(fold total in Hlp; lia)). set (s4 := s3 <| memory := _ |>) in Esc.
  destruct (finish_eq s4 ch total st line) as (s' & Efin & Hfin);
    [exact (eq_trans (f_equal (fun l => aget l ch) (Hs1 _ size (fun _ => eq_refl))) Hsz)
    |exact (eq_trans (f_equal (fun l => aget l ch) (Hs1 _ status (fun _ => eq_refl))) Hst)
    |exact (eq_trans (f_equal (fun l => aget l ch) (Hs1 _ irqs (fun _ => eq_refl))) Hline)|].
  exists d, m, s'. split; [done|]. split; [done|]. split.
  - unfold h2fmi_transfer. rewrite (bind_silent _ _ _ _ _ (geta_eq config ch s cfg Hcfg)), Hrd.
    unfold segment. rewrite bind_assoc, (bind_silent _ _ _ _ _ (geta_eq dmaSegment ch s (Some sg) Hsg)). run.
    rewrite (bind_silent _ _ s first s1).
    2: { unfold s1. destruct (test (seg_flags sg) 1); [by apply geta_eq|]. by rewrite <- Hfirst. }
    rewrite (bind_silent _ _ s1 total s1) by (apply geta_eq; by rewrite (Hs1 _ size)). cbv zeta. rewrite Hbuf.
    rewrite (bind_silent _ _ _ _ _ Eg), <- bind_assoc. unfold buf at 1. rewrite (bind_silent _ _ _ _ _ Edec).
    rewrite (bind_silent _ _ _ _ _ Esc). cbn [negb]. exact Efin.
  - destruct Hfin as (-> & Hz & Hst' & -> & Hiv & -> & -> & -> & ->).
    split_and!; try done; [exact (f_equal (fun x => x .| bit ch) (Hs1 _ mstatus (fun _ => eq_refl)))|..].
    all: match goal with |- ?f _ = _ => exact (Hs1 _ f (fun _ => eq_refl)) end.
Qed.

(** C33: A flash channel moves its chain.  When a read is started on one of the
    channels 5 to 8, with its first descriptor loaded and a chain of data
    segments in memory whose sizes add up to the channel's size, the write
    finishes (one turn of each loop per segment).  Exactly that many bytes are
    read from the channel's register; unless the descriptor says so or all of
    them are zero they are deciphered in CBC mode with the key registers and
    the descriptor's IV; and the result is written to the buffers of the
    segments in the order of the chain.  The channel's size is then zero, its
    interrupt is flagged in both status registers and raised if its line is
    connected, and the IV registers are cleared. *)
Theorem flash_channel_transfer fuel s ch value sg sgs total st cfg line :
  I (memory s) -> 5 <= ch <= 8 -> test value 1 = true -> test value 0x80000 && test st 0x80000 = false ->
  aget (status s) ch = Some st -> aget (config s) ch = Some cfg -> test cfg 0x2 = false ->
  aget (dmaSegment s) ch = Some (Some sg) -> aget (size s) ch = Some total ->
  aget (creg s) ch = Some reg -> aget (irqs s) ch = Some line ->
  (exists first, chain desc first sgs /\
     if test (seg_flags sg) 1 then aget (segptr s) ch = Some first else seg_address sg = first) ->
  total = total_size sgs -> total + 4 < 2 ^ 32 -> (length sgs <= fuel)%nat ->
  exists d m s', pull reg (Z.to_nat total) (memory s) = (d, m) /\ zlen d = total /\
    s5l8930_cdma_write fuel (ch << 12) value s = Done (true, s', if (line : bool) then [CdmaIrq ch true] else []) /\
    memory s' = scattered sgs (plain s sg d) m /\
    aget (size s') ch = Some 0 /\
    aget (status s') ch = Some ((st .&~ (bit 19 .| bit 18)) .| 0x80000) /\
    mstatus s' = mstatus s .| bit ch /\ ivec s' = zeros 16 /\
    dmaSegment s' = dmaSegment s /\ segptr s' = segptr s /\ config s' = config s /\ creg s' = creg s.
Proof.
  intros HI Hch Hv Hack Hst **. rewrite (start_flash_eq fuel s ch value st) by done.
  by apply flash_transfer_run with cfg.
Qed.
End Transfer.

(** ** The AES engine *)
Section Engine.
Context {M K : Type} `{GuestMemory M} `{CryptoHost K}.
Implicit Types s : s5l8930_cdma_s (M := M) (K := K).

(** The key schedule and the chaining value of a transfer of [n] bytes. *)
Definition selected_key s : K :=
  if keyType s =? AESUID then AES_set_decrypt_key key_uid 128 (decryptKey s)
  else if keyType s =? AESCustom then AES_set_decrypt_key (custkey_bytes s) (keyLen s) (decryptKey s)
  else decryptKey s.
Definition engine_key s (n : Z) : K :=
  if n =? 0x5e42c0 then AES_set_decrypt_key kernKey435 (keyLen s) (selected_key s)
  else if n =? 0xe9a0 then AES_set_decrypt_key deviceKey435 (keyLen s) (selected_key s)
  else selected_key s.
Definition engine_iv s (n : Z) : list Z :=
  if n =? 0x5e42c0 then kernIV435 s else if n =? 0xe9a0 then deviceIV435 s else zeros 16.

Lemma set_engine_key_eq s :
  set_engine_key s = Done (tt, s <| decryptKey := selected_key s |>, []).
Proof.
  unfold set_engine_key, selected_key. run. unfold id.
  destruct (keyType s =? AESUID) eqn:E0; [done|].
  destruct (Z.eqb_spec (keyType s) AESGID) as [E1|E1].
  - rewrite E1. change (AESGID =? AESCustom) with false. unfold ret. by destruct s.
  - destruct (keyType s =? AESCustom); [done|]. unfold when, ret. by destruct s.
Qed.

(** With the key already selected. *)
Lemma engine_cipher_eq s inp n :
  let key := if n =? 0x5e42c0 then AES_set_decrypt_key kernKey435 (keyLen s) (decryptKey s)
             else if n =? 0xe9a0 then AES_set_decrypt_key deviceKey435 (keyLen s) (decryptKey s)
             else decryptKey s in
  let r := AES_cbc_encrypt inp key (engine_iv s n) (aesOperation s) in
  zlen inp = n -> zlen r.1 = n ->
  exists k iv1 iv2, engine_cipher n inp s
    = Done (r.1, s <| decryptKey := k |> <| kernIV435 := iv1 |> <| deviceIV435 := iv2 |>, []).
Proof.
  intros key r Hi Ho. unfold engine_cipher, engine_iv in *.
  destruct (n =? 0x5e42c0); [|destruct (n =? 0xe9a0)].
  - exists key, r.2, (deviceIV435 s). run. unfold id. rewrite cbc_into_eq by done. by destruct s.
  - exists key, (kernIV435 s), r.2. run. unfold id. rewrite cbc_into_eq by done. by destruct s.
  - exists key, (kernIV435 s), (deviceIV435 s). run. unfold id. rewrite cbc_into_eq by done. by destruct s.
Qed.

Lemma dump_eq d s : aes_dump_opens = true -> dump d s = Done (tt, s, [CdmaDump d]).
Proof. intros E. unfold dump. by rewrite E. Qed.

Lemma segment_eq ch s sg : aget (dmaSegment s) ch = Some (Some sg) -> segment ch s = Done (sg, s, []).
Proof. intros E. unfold segment. by rewrite (bind_silent _ _ _ _ _ (geta_eq _ _ _ _ E)). Qed.

Lemma no_dump_irq c l (ds : list (list Z)) : CdmaIrq c l ∉ map CdmaDump ds.
Proof. intros Hin. apply list_elem_of_fmap in Hin as (? & ? & _). done. Qed.

(** C34: The AES engine moves and ciphers one buffer.  Starting channel 2 with
    the descriptors of channels 1 and 2 loaded reads as many bytes as channel
    2's descriptor says from channel 1's buffer, runs them through AES-CBC in
    the direction taken from channel 1's setup, with the key the setup selected
    (the fixed UID key, the key registers, or the last schedule for the GID
    key; two sizes have keys and chaining values of their own), and writes the
    result to channel 2's buffer.  Key selection, direction and IV registers
    are cleared, the status register holds what was written, and no interrupt
    is raised. *)
Theorem aes_engine_transfer fuel s value g1 g2 st inp m1 :
  let n := seg_size g2 in
  let o := (AES_cbc_encrypt inp (engine_key s n) (engine_iv s n) (aesOperation s)).1 in
  aget (dmaSegment s) 1 = Some (Some g1) -> aget (dmaSegment s) 2 = Some (Some g2) ->
  aget (status s) 2 = Some st -> test value 1 = true -> test value 0x80000 && test st 0x80000 = false ->
  aes_dump_opens = true ->
  phys_read (seg_buffer g1) n (memory s) = (inp, m1) -> zlen inp = n -> zlen o = n ->
  exists s' es, s5l8930_cdma_write fuel 0x2000 value s = Done (true, s', es) /\
    memory s' = phys_write (seg_buffer g2) o m1 /\
    aget (status s') 2 = Some value /\ keyLen s' = 0 /\ keyType s' = 0 /\ aesOperation s' = 0 /\
    ivec s' = zeros 16 /\ custkey s' = custkey s /\ dmaSegment s' = dmaSegment s /\
    forall c l, CdmaIrq c l ∉ es.
Proof.
  intros n o Hg1 Hg2 Hst Hv Hack Hdump Hmem Hli Hlo.
  destruct (aset 2 value (status s)) as [a|] eqn:Ea; [|by rewrite aset_Some in Ea by by eapply aget_bounds].
  set (sk := s <| decryptKey := selected_key s |>). set (sm := sk <| memory := m1 |>).
  destruct (engine_cipher_eq sm inp n) as (k & iv1 & iv2 & Ec); [done|exact Hlo|].
  change (AES_cbc_encrypt inp _ (engine_iv sm n) (aesOperation sm)).1 with o in Ec.
  set (sc := sm <| decryptKey := k |> <| kernIV435 := iv1 |> <| deviceIV435 := iv2 |>) in Ec.
  set (keys := if keyType s =? AESCustom then [custkey_bytes s] else []).
  set (s' := sc <| d_counter ::= fun x => u32 (x + 1) |> <| memory ::= phys_write (seg_buffer g2) o |>
     <| ivec := zeros 16 |> <| keyLen := 0 |> <| keyType := 0 |> <| aesOperation := 0 |>).
  exists (s' <| status := a |>), (map CdmaDump ([inp] ++ keys ++ [o])).
  split; [|split_and!; try done; [exact (aget_aset_eq _ _ _ _ Ea)|intros c l; apply no_dump_irq]].
  unfold s5l8930_cdma_write. change (0x2000 .& 0xff) with 0. change (0x2000 >> 12) with 2. cbv zeta. pick 0%nat.
  unfold cdma_write_status. rewrite (bind_silent _ _ _ _ _ (geta_eq status 2 s st Hst)), Hack, bind_ret, Hv.
  change (on_range 5 8 2) with false. change (2 =? 2) with true. cbn [andb when].
  assert (aes_transfer 2 s = Done (tt, s', map CdmaDump ([inp] ++ keys ++ [o]))) as Et.
  { unfold aes_transfer. rewrite (bind_silent _ _ _ _ _ (segment_eq 2 s g2 Hg2)). cbv zeta. fold n.
    rewrite (bind_silent _ _ _ _ _ (set_engine_key_eq s)). fold sk.
    rewrite (bind_silent _ _ _ _ _ (segment_eq 1 sk g1 Hg1)).
    rewrite (bind_silent _ _ _ _ _ (mem_read_eq _ _ sk _ _ Hmem)). fold sm.
    rewrite (bind_Done _ _ _ _ _ _ (dump_eq inp sm Hdump)), (bind_silent _ _ _ _ _ Ec). run. unfold id.
    change (keyType sc) with (keyType s). change (custkey_bytes sc) with (custkey_bytes s).
    rewrite (bind_Done _ _ sc tt sc (map CdmaDump keys)).
    2: { unfold keys. destruct (keyType s =? AESCustom); [by apply dump_eq|done]. }
    rewrite (bind_Done _ _ _ _ _ _ (dump_eq o sc Hdump)). unfold mem_write. run. rewrite map_app, map_app. done. }
  rewrite (bind_Done _ _ _ _ _ _ Et). unfold set_status. run. unfold id.
  change (status s') with (status s). rewrite Ea. run. unfold ret. by rewrite app_nil_r.
Qed.
End Engine.

(** ** Register accesses *)
Section Registers.
Context {M K : Type} `{GuestMemory M} `{CryptoHost K}.
Implicit Types s : s5l8930_cdma_s (M := M) (K := K).

(** Memory reads return as many bytes as asked for. *)
Class MemoryBytes := {
  phys_read_bytes a n m : 0 <= n -> zlen (phys_read a n m).1 = n /\ Forall (fits 8) (phys_read a n m).1
}.

Definition channel_words (l : list Z) : Prop := length l = MAX_CDMA_CHAN /\ Forall (fits 32) l.

Definition segment_ok (o : option segmentBuffer) : Prop :=
  match o with
  | None => True
  | Some g => Forall (fits 32) [seg_address g; seg_flags g; seg_buffer g; seg_size g] /\
              length (seg_iv g) = 16%nat /\ Forall (fits 8) (seg_iv g)
  end.

(** The types of the fields; the key length is never 192. *)
Definition cdma_ok s : Prop :=
  Forall channel_words [size s; segptr s; status s; dmaAesSetup s; config s; creg s] /\
  fits 32 (mstatus s) /\ In (aesOperation s) [0; 1] /\
  (length (dmaSegment s) = MAX_CDMA_CHAN /\ Forall segment_ok (dmaSegment s)) /\
  (length (ivec s) = 16%nat /\ Forall (fits 8) (ivec s)) /\
  (length (custkey s) = 8%nat /\ Forall (fits 32) (custkey s)) /\
  In (keyLen s) [0; 128; 256] /\ In (keyType s) [AESUID; AESGID; AESCustom] /\
  length (irqs s) = MAX_CDMA_CHAN.

(** A write that starts one of the transfers. *)
Definition starts (addr value : Z) : bool :=
  (addr .& 0xff =? 0) && test value 1 && on_any [2; 5; 6; 7; 8] (addr >> 12).

Lemma wp_geta {A} (a : s5l8930_cdma_s -> list A) i v (Q : A -> _ -> list cdma_event -> Prop) s :
  aget (a s) i = Some v -> Q v s [] -> wp (geta a i) Q s.
Proof. intros E HQ. unfold wp. by rewrite (geta_eq _ _ _ _ E). Qed.

Lemma channel_get l i : channel_words l -> 0 <= i < 16 -> exists v, aget l i = Some v /\ fits 32 v.
Proof.
  intros [Hl Hf] Hi. destruct (aget_Some l i) as [v Hv]; [unfold zlen; rewrite Hl; change (Z.of_nat MAX_CDMA_CHAN) with 37; lia|].
  exists v. split; [done|]. by eapply Forall_aget.
Qed.

Lemma channel_set l i v :
  channel_words l -> 0 <= i < 16 -> fits 32 v -> exists l', aset i v l = Some l' /\ channel_words l'.
Proof.
  intros [Hl Hf] Hi Hv. destruct (aset i v l) as [l'|] eqn:E.
  - exists l'. split; [done|]. split; [by rewrite (aset_length _ _ _ _ E)|by eapply Forall_aset].
  - rewrite aset_Some in E by (unfold zlen; rewrite Hl; change (Z.of_nat MAX_CDMA_CHAN) with 37; lia). done.
Qed.

Lemma channel_of addr : 0 <= addr < 0x10000 -> 0 <= addr >> 12 < 16.
Proof.
  intros Ha. rewrite Z.shiftr_div_pow2 by lia. split; [apply Z.div_pos; lia|apply Z.div_lt_upper_bound; lia].
Qed.

Lemma read_ok addr s :
  cdma_ok s -> 0 <= addr < 0x10000 ->
  exists v, s5l8930_cdma_read addr s = Done (v, s, []) /\ fits 32 v.
Proof.
  intros (Hw & Hm & _) Ha. pose proof (channel_of addr Ha) as Hch.
  rewrite !Forall_cons in Hw. destruct Hw as (H1 & H2 & H3 & H4 & H5 & H6 & _).
  unfold s5l8930_cdma_read. cbv zeta. cbn [switch].
  destruct (on 0x0 _); [|destruct (on 0x4 _); [|destruct (on 0x8 _); [|destruct (on 0xc _)]]].
  - destruct (channel_get _ _ H3 Hch) as (v & E & Hv). exists v. by rewrite (geta_eq _ _ _ _ E).
  - destruct (channel_get _ _ H5 Hch) as (v & E & Hv). exists v. by rewrite (geta_eq _ _ _ _ E).
  - destruct (channel_get _ _ H6 Hch) as (v & E & Hv). exists v. by rewrite (geta_eq _ _ _ _ E).
  - destruct (channel_get _ _ H1 Hch) as (v & E & Hv). exists v. by rewrite (geta_eq _ _ _ _ E).
  - destruct (on 0x10 _); [by exists (mstatus s)|]. exists 0. by destruct (on 0x14 _).
Qed.

Lemma index_of x lo n : lo <= x <= lo + 4 * n - 4 -> 0 <= (x - lo) / 4 < n.
Proof. intros Hr. split; [apply Z.div_pos; lia|apply Z.div_lt_upper_bound; lia]. Qed.

Lemma aes_read_ok addr s :
  cdma_ok s -> 0 <= addr < 0x10000 ->
  exists v, s5l8930_cdma_aes_read addr s = Done (v, s, []) /\ fits 32 v.
Proof.
  intros (Hw & _ & _ & _ & [Hi1 Hi2] & [Hc1 Hc2] & _) Ha. pose proof (channel_of addr Ha) as Hch.
  rewrite !Forall_cons in Hw. destruct Hw as (_ & _ & _ & H4 & _).
  unfold s5l8930_cdma_aes_read. cbv zeta. cbn [switch]. destruct (on 0x0 _).
  { destruct (channel_get _ _ H4 Hch) as (v & E & Hv). exists v. by rewrite (geta_eq _ _ _ _ E). }
  destruct (on_range 0x10 0x1c _) eqn:E1; [|destruct (on_range 0x20 0x3c _) eqn:E2; [|by exists 0]].
  - unfold on_range in E1. destruct (aget_Some (ivec s) ((addr .& 0xff - 0x10) / 4)) as [v Hv].
    { unfold zlen. rewrite Hi1. pose proof (index_of (addr .& 0xff) 0x10 4). lia. }
    exists v. rewrite (geta_eq _ _ _ _ Hv). split; [done|].
    apply (fits_weaken 8); [lia|]. by eapply (Forall_aget (fits 8)).
  - unfold on_range in E2. destruct (aget_Some (custkey s) ((addr .& 0xff - 0x20) / 4)) as [v Hv].
    { unfold zlen. rewrite Hc1. pose proof (index_of (addr .& 0xff) 0x20 8). lia. }
    exists v. rewrite (geta_eq _ _ _ _ Hv). split; [done|]. by eapply Forall_aget.
Qed.

Lemma select_key_ok v : let r := select_key v in In r.1 [AESUID; AESGID; AESCustom] /\ In r.2 [0; 128; 256].
Proof.
  unfold select_key. destruct (test (v >> 20) 1).
  - cbn [fst snd]. split; [cbn; tauto|]. cbn [switch]. unfold on.
    assert ((v >> 18) .& 2 = 0 \/ (v >> 18) .& 2 = 2) as [-> | ->]; [|cbn; tauto..].
    destruct (Z.testbit (v >> 18) 1) eqn:E; [right|left]; apply Z.bits_inj'; intros i Hi;
      rewrite Z.land_spec; change 2 with (2 ^ 1); rewrite Z.pow2_bits_eqb by lia;
      destruct (Z.eqb_spec 1 i) as [<-|]; rewrite ?E, ?andb_false_r, ?Z.bits_0; done.
  - destruct (test (v >> 21) 1); cbn; tauto.
Qed.

(** Replacing one of the word arrays, or the loaded descriptors. *)
Ltac ok_update Hok :=
  let Hw := fresh in let Hr := fresh in
  destruct Hok as [Hw Hr]; rewrite !Forall_cons in Hw;
  destruct Hw as (? & ? & ? & ? & ? & ? & _);
  split; [rewrite !Forall_cons; split_and!; try done; by apply Forall_nil|exact Hr].

Lemma ok_size s l : cdma_ok s -> channel_words l -> cdma_ok (s <| size := l |>).
Proof. intros Hok Hl. ok_update Hok. Qed.
Lemma ok_segptr s l : cdma_ok s -> channel_words l -> cdma_ok (s <| segptr := l |>).
Proof. intros Hok Hl. ok_update Hok. Qed.
Lemma ok_status s l : cdma_ok s -> channel_words l -> cdma_ok (s <| status := l |>).
Proof. intros Hok Hl. ok_update Hok. Qed.
Lemma ok_setup s l : cdma_ok s -> channel_words l -> cdma_ok (s <| dmaAesSetup := l |>).
Proof. intros Hok Hl. ok_update Hok. Qed.
Lemma ok_config s l : cdma_ok s -> channel_words l -> cdma_ok (s <| config := l |>).
Proof. intros Hok Hl. ok_update Hok. Qed.
Lemma ok_creg s l : cdma_ok s -> channel_words l -> cdma_ok (s <| creg := l |>).
Proof. intros Hok Hl. ok_update Hok. Qed.

Lemma ok_words s :
  cdma_ok s -> channel_words (size s) /\ channel_words (segptr s) /\ channel_words (status s) /\
               channel_words (dmaAesSetup s) /\ channel_words (config s) /\ channel_words (creg s).
Proof. intros [Hw _]. rewrite !Forall_cons in Hw. naive_solver. Qed.

Lemma set_status_ok s ch v :
  cdma_ok s -> 0 <= ch < 16 -> fits 32 v ->
  exists s', set_status ch v s = Done (tt, s', []) /\ cdma_ok s'.
Proof.
  intros Hok Hch Hv. destruct (channel_set (status s) ch v) as (l & E & Hl); [by apply ok_words|done|done|].
  exists (s <| status := l |>). split; [|by apply ok_status].
  unfold set_status. run. unfold id. by rewrite E.
Qed.

(** A status write that starts nothing. *)
Lemma cdma_write_status_ok fuel s ch v :
  cdma_ok s -> 0 <= ch < 16 -> fits 32 v -> test v 1 && on_any [2; 5; 6; 7; 8] ch = false ->
  exists s' es, cdma_write_status fuel ch v s = Done (true, s', es) /\ cdma_ok s'.
Proof.
  intros Hok Hch Hv Hn. destruct (channel_get (status s) ch) as (st & Est & _); [by apply ok_words|done|].
  assert (exists line, aget (irqs s) ch = Some line) as [line Hline].
  { apply aget_Some. destruct Hok as (_ & _ & _ & _ & _ & _ & _ & _ & Hi). unfold zlen. rewrite Hi.
    change (Z.of_nat MAX_CDMA_CHAN) with 37. lia. }
  set (ack := test v 0x80000 && test st 0x80000).
  set (v1 := if ack then v .&~ bit 19 else v).
  set (s1 := if ack then s <| mstatus ::= fun m => m .&~ bit ch |> else s).
  set (es := if ack && line then [CdmaIrq ch false] else []).
  assert (cdma_ok s1) as Hok1.
  { unfold s1. destruct ack; [|done]. destruct Hok as (Hw & Hm & Hr). split; [exact Hw|]. split; [|exact Hr].
    change (fits 32 (mstatus s .&~ bit ch)). auto with width. }
  assert (fits 32 v1) as Hv1 by (unfold v1; destruct ack; [auto with width|done]).
  destruct (set_status_ok s1 ch v1 Hok1 Hch Hv1) as (s' & E & Hok').
  exists s', es. split; [|done]. unfold cdma_write_status.
  rewrite (bind_silent _ _ _ _ _ (geta_eq status ch s st Est)). fold ack.
  rewrite (bind_Done _ _ s v1 s1 es).
  2: { unfold v1, s1, es. destruct ack; [|done]. unfold set_irq.
       rewrite bind_assoc, (bind_silent _ _ _ _ _ (geta_eq irqs ch s line Hline)). by destruct line. }
  assert (test v1 1 = test v 1) as Ht.
  { unfold v1, test. destruct ack; [|done]. do 2 f_equal. apply Z.bits_inj'. intros i Hi.
    rewrite !Z.land_spec, Z.ldiff_spec. destruct (Z.eq_dec i 0) as [->|Hne].
    - change (Z.testbit (bit 19) 0) with false. by rewrite andb_true_r.
    - change 1 with (2 ^ 0). rewrite Z.pow2_bits_false by lia. by rewrite !andb_false_r. }
  rewrite Ht. unfold on_any in Hn. cbn [existsb] in Hn.
  replace (test v 1 && on_range 5 8 ch) with false.
  2: { unfold on_range. destruct (test v 1); [cbn [andb] in *; lia|done]. }
  replace (test v 1 && (ch =? 2)) with false by (destruct (test v 1); [cbn [andb] in *; lia|done]).
  cbn [when]. rewrite bind_ret, (bind_silent _ _ _ _ _ E). unfold ret. by rewrite app_nil_r.
Qed.

Lemma segment_of_bytes_ok bs : zlen bs = 32 -> Forall (fits 8) bs -> segment_ok (Some (segment_of_bytes bs)).
Proof.
  intros Hl Hf. unfold zlen in Hl.
  assert (forall n, (n + 4 <= 32)%nat -> fits 32 (le_value (take 4 (drop n bs)))) as Hle.
  { intros n Hn. replace 32 with (8 * zlen (take 4 (drop n bs))) at 1
      by (unfold zlen; rewrite length_take, length_drop; lia).
    by apply le_value_fits, Forall_take, Forall_drop. }
  split; [|split].
  - pose proof (Hle 0%nat) as H0'. rewrite drop_0 in H0'. repeat apply Forall_cons_2; [..|by apply Forall_nil].
    + apply H0'. lia. + apply (Hle 4%nat). lia. + apply (Hle 8%nat). lia. + apply (Hle 12%nat). lia.
  - change (length (take 16 (drop 16 bs)) = 16%nat). rewrite length_take, length_drop. lia.
  - change (Forall (fits 8) (take 16 (drop 16 bs))). by apply Forall_take, Forall_drop.
Qed.

Lemma ok_segment s l :
  cdma_ok s -> length l = MAX_CDMA_CHAN -> Forall segment_ok l -> cdma_ok (s <| dmaSegment := l |>).
Proof. intros (H1 & H2 & H3 & H4 & H5) Hl Hf. exact (conj H1 (conj H2 (conj H3 (conj (conj Hl Hf) H5)))). Qed.

Lemma ok_operation s x : cdma_ok s -> In x [0; 1] -> cdma_ok (s <| aesOperation := x |>).
Proof. intros (H1 & H2 & H3 & H5) Hx. exact (conj H1 (conj H2 (conj Hx H5))). Qed.

Lemma land_1_bit x : In (x .& 1) [0; 1].
Proof.
  change 1 with (Z.ones 1) at 1. rewrite Z.land_ones by lia. change (2 ^ 1) with 2.
  pose proof (Z.mod_pos_bound x 2 ltac:(lia)). cbn. lia.
Qed.

Lemma write_segptr_ok s ch v `{!MemoryBytes} :
  cdma_ok s -> 0 <= ch < 16 -> fits 32 v ->
  exists s', write_segptr ch v s = Done (tt, s', []) /\ cdma_ok s'.
Proof.
  intros Hok Hch Hv. unfold write_segptr. destruct (v =? 0); cbn [negb when]; [by exists s|].
  destruct (channel_get (dmaAesSetup s) ch) as (su & Esu & _); [by apply ok_words|done|].
  set (s1 := if ch =? 1 then s <| aesOperation := (su >> 16) .& 1 |> else s).
  assert (cdma_ok s1) as Hok1.
  { unfold s1. destruct (ch =? 1); [|done]. apply ok_operation; [done|apply land_1_bit]. }
  rewrite (bind_silent _ _ s tt s1).
  2: { unfold s1. destruct (ch =? 1); [|done]. cbn [when]. by rewrite (bind_silent _ _ _ _ _ (geta_eq _ _ _ _ Esu)). }
  destruct Hok1 as (Hw & Hm & Hop & [Hsl Hsf] & Hr) eqn:Hok1'. clear Hok1'.
  destruct (aget_Some (dmaSegment s1) ch) as [o Ho].
  { unfold zlen. rewrite Hsl. change (Z.of_nat MAX_CDMA_CHAN) with 37. lia. }
  rewrite (bind_silent _ _ _ _ _ (geta_eq _ _ _ _ Ho)).
  destruct (phys_read_bytes v sizeof_segmentBuffer (memory s1)) as [Hbl Hbf]; [done|].
  destruct (phys_read v sizeof_segmentBuffer (memory s1)) as [bs m] eqn:Em.
  rewrite (bind_silent _ _ _ _ _ (mem_read_eq _ _ _ _ _ Em)). run. unfold id.
  pose proof (segment_of_bytes_ok bs Hbl Hbf) as Hg.
  destruct (aset ch (Some (segment_of_bytes bs)) (dmaSegment s1)) as [l|] eqn:El.
  2: { rewrite aset_Some in El by by eapply aget_bounds. done. }
  change (dmaSegment (s1 <| memory := m |>)) with (dmaSegment s1). rewrite El. run.
  set (s2 := s1 <| memory := m |> <| dmaSegment := l |>).
  assert (cdma_ok s2) as Hok2.
  { apply (ok_segment (s1 <| memory := m |>)).
    - exact (conj Hw (conj Hm (conj Hop (conj (conj Hsl Hsf) Hr)))).
    - by rewrite (aset_length _ _ _ _ El).
    - by eapply Forall_aset. }
  destruct (channel_set (segptr s2) ch v) as (l2 & E2 & Hl2); [by apply ok_words|done|done|].
  exists (s2 <| segptr := l2 |>). split; [|by apply ok_segptr]. unfold id. by rewrite E2.
Qed.

(** The registers of the DMA controller and the AES engine are safe.  On
    well-typed registers, with memory reads that return the bytes asked for,
    every read of either register file is defined, has no effect and returns a
    word; every write that does not start a transfer is defined and keeps the
    registers well typed; so does every write of the AES registers, whatever
    the setup word.  In particular the key length is never 192 bits. *)
Theorem cdma_registers_keep_ok `{!MemoryBytes} fuel s addr value :
  cdma_ok s -> 0 <= addr < 0x10000 -> fits 32 value ->
  (exists v, s5l8930_cdma_read addr s = Done (v, s, []) /\ fits 32 v) /\
  (exists v, s5l8930_cdma_aes_read addr s = Done (v, s, []) /\ fits 32 v) /\
  (starts addr value = false ->
   exists s' es, s5l8930_cdma_write fuel addr value s = Done (true, s', es) /\ cdma_ok s') /\
  exists s', s5l8930_cdma_aes_write addr value s = Done (tt, s', []) /\ cdma_ok s'.
Proof.
  intros Hok Ha Hv. split; [by apply read_ok|]. split; [by apply aes_read_ok|].
  pose proof (channel_of addr Ha) as Hch. destruct (ok_words s Hok) as (W1 & W2 & W3 & W4 & W5 & W6).
  split.
  - intros Hn. unfold starts in Hn. unfold s5l8930_cdma_write. cbv zeta. cbn [switch].
    change (on 0x0 (addr .& 0xff)) with (addr .& 0xff =? 0). destruct (addr .& 0xff =? 0).
    { by apply cdma_write_status_ok. }
    destruct (on 0x4 _); [|destruct (on 0x8 _); [|destruct (on 0xc _); [|destruct (on 0x10 _); [|destruct (on 0x14 _)]]]].
    + destruct (channel_set _ _ value W5 Hch Hv) as (l & E & Hl). exists (s <| config := l |>), [].
      split; [|by apply ok_config]. run. unfold id. by rewrite E.
    + destruct (channel_set _ _ value W6 Hch Hv) as (l & E & Hl). exists (s <| creg := l |>), [].
      split; [|by apply ok_creg]. run. unfold id. by rewrite E.
    + destruct (channel_set _ _ value W1 Hch Hv) as (l & E & Hl). exists (s <| size := l |>), [].
      split; [|by apply ok_size]. run. unfold id. by rewrite E.
    + exists (s <| mstatus := value |>), []. split; [done|].
      destruct Hok as (Hw & _ & Hr). exact (conj Hw (conj Hv Hr)).
    + destruct (write_segptr_ok s _ value Hok Hch Hv) as (s' & E & Hok'). exists s', [].
      split; [|done]. by rewrite (bind_silent _ _ _ _ _ E).
    + by exists s, [].
  - unfold s5l8930_cdma_aes_write. cbv zeta. cbn [switch]. destruct (on 0x0 _).
    { destruct (channel_set _ _ value W4 Hch Hv) as (l & E & Hl). run. unfold id. rewrite E. run.
      destruct (select_key_ok value) as [Hk1 Hk2]. destruct (select_key value) as [t k]. cbn [fst snd] in *.
      eexists. split; [reflexivity|].
      destruct (ok_setup s l Hok Hl) as (Hw & Hm & Hop & Hs & Hi & Hc & _ & _ & Hq).
      exact (conj Hw (conj Hm (conj Hop (conj Hs (conj Hi (conj Hc (conj Hk2 (conj Hk1 Hq)))))))). }
    destruct Hok as (Hw & Hm & Hop & Hs & [Hi1 Hi2] & [Hc1 Hc2] & Hr).
    destruct (on_range 0x10 0x1c _) eqn:E1; [|destruct (on_range 0x20 0x3c _) eqn:E2].
    + unfold on_range in E1. pose proof (index_of (addr .& 0xff) 0x10 4 ltac:(lia)) as Hi.
      destruct (aset ((addr .& 0xff - 0x10) / 4) (u8 value) (ivec s)) as [l|] eqn:El.
      2: { rewrite aset_Some in El; [done|unfold zlen; rewrite Hi1; lia]. }
      exists (s <| ivec := l |>). run. unfold id. rewrite El. split; [done|].
      pose proof (aset_length _ _ _ _ El) as Hl. rewrite Hi1 in Hl.
      assert (Forall (fits 8) l) as Hlf by (eapply Forall_aset; [exact Hi2|by apply fits_wrap|exact El]).
      exact (conj Hw (conj Hm (conj Hop (conj Hs (conj (conj Hl Hlf) (conj (conj Hc1 Hc2) Hr)))))).
    + unfold on_range in E2. pose proof (index_of (addr .& 0xff) 0x20 8 ltac:(lia)) as Hi.
      destruct (aset ((addr .& 0xff - 0x20) / 4) value (custkey s)) as [l|] eqn:El.
      2: { rewrite aset_Some in El; [done|unfold zlen; rewrite Hc1; lia]. }
      exists (s <| custkey := l |>). run. unfold id. rewrite El. split; [done|].
      pose proof (aset_length _ _ _ _ El) as Hl. rewrite Hc1 in Hl.
      assert (Forall (fits 32) l) as Hlf by (eapply Forall_aset; [exact Hc2|exact Hv|exact El]).
      exact (conj Hw (conj Hm (conj Hop (conj Hs (conj (conj Hi1 Hi2) (conj (conj Hl Hlf) Hr)))))).
    + exists s. split; [done|].
      exact (conj Hw (conj Hm (conj Hop (conj Hs (conj (conj Hi1 Hi2) (conj (conj Hc1 Hc2) Hr)))))).
Qed.
End Registers.

(** ** Witnesses and findings *)
Module CdmaDemo.

(** A memory of bytes from address 0 on, and a FIFO register at 0x1000; a
    cipher that adds the first key byte without carry. *)
Record mem := mk_mem { ram : list Z; fifo : list Z }.

Definition take_bytes (n : Z) (l : list Z) : list Z := map u8 (take (Z.to_nat n) (l ++ zeros (Z.to_nat n))).

#[export] Instance demo_memory : GuestMemory mem := {
  phys_read a n m :=
    if a =? 0x1000 then (take_bytes n (fifo m), mk_mem (ram m) (drop (Z.to_nat n) (fifo m)))
    else (take_bytes n (drop (Z.to_nat a) (ram m)), m);
  phys_write a d m := mk_mem (default (ram m) (splice a d (ram m))) (fifo m)
}.

#[export] Instance demo_crypto : CryptoHost (list Z) := {
  AES_no_key := [];
  AES_set_decrypt_key key bits old := if bits =? 128 then key else old;
  AES_cbc_encrypt d key iv enc := (map (fun b => b .^ nth 0 key 0) d, iv);
  aes_dump_opens := true
}.

#[export] Instance demo_cbc : CbcLength (K := list Z).
Proof. split. intros. apply length_map. Qed.

#[export] Instance demo_bytes : MemoryBytes (M := mem).
Proof.
  split. intros a n m Hn.
  assert (forall l, zlen (take_bytes n l) = n /\ Forall (fits 8) (take_bytes n l)) as Hb.
  { intros l. unfold take_bytes, zlen, zeros. rewrite length_map, length_take, length_app, length_replicate.
    split; [lia|]. apply Forall_map. apply Forall_true. intros x. apply fits_wrap. lia. }
  cbn. destruct (a =? 0x1000); apply Hb.
Qed.

(** Two segments: three bytes to 0x80, two bytes to 0x90. *)
Definition g1 := mk_segment 0x40 3 0x80 3 (zeros 16).
Definition g2 := mk_segment 0 2 0x90 2 (zeros 16).
Definition desc (a : Z) : option segmentBuffer :=
  if a =? 0x20 then Some g1 else if a =? 0x40 then Some g2 else None.
Definition bytes_of (g : segmentBuffer) : list Z :=
  le_bytes 4 (seg_address g) ++ le_bytes 4 (seg_flags g) ++ le_bytes 4 (seg_buffer g) ++
  le_bytes 4 (seg_size g) ++ seg_iv g.
Definition table : list Z := zeros 32 ++ bytes_of g1 ++ bytes_of g2.

Definition holds_table (m : mem) : Prop := exists rest, ram m = table ++ rest /\ length rest = 160%nat.

#[export] Instance demo_chain : ChainMemory holds_table desc 0x1000.
Proof.
  split.
  - intros a sg m (rest & Hr & Hl) Hd. unfold desc in Hd. cbn [phys_read demo_memory]. rewrite Hr.
    destruct (Z.eqb_spec a 0x20) as [->|]; [|destruct (Z.eqb_spec a 0x40) as [->|]; [|done]];
      injection Hd as <-; eexists; split; reflexivity.
  - intros m (rest & Hr & Hl). cbn [phys_read demo_memory]. cbn [Z.eqb Pos.eqb].
    destruct (fifo m) as [|b f]; do 2 eexists; (split; [reflexivity|by exists rest]).
  - intros a sg d m (rest & Hr & Hl) Hd Hn.
    assert (exists k, seg_buffer sg = 96 + k /\ 0 <= k /\ k + seg_size sg <= 160) as (k & -> & Hk0 & Hk).
    { unfold desc in Hd. destruct (a =? 0x20); [injection Hd as <-; exists 32; cbn; lia|].
      destruct (a =? 0x40); [injection Hd as <-; exists 48; cbn; lia|done]. }
    unfold holds_table. cbn [phys_write demo_memory ram]. rewrite Hr. unfold zlen in *.
    assert (length table = 96%nat) as Ht by reflexivity.
    rewrite splice_Some by (unfold zlen; rewrite ?length_app; lia). cbn [default].
    exists (take (Z.to_nat k) rest ++ d ++ drop (Z.to_nat k + length d) rest).
    rewrite take_app_ge, drop_app_ge by lia. rewrite Ht, <- !app_assoc. split.
    + f_equal. replace (Z.to_nat (96 + k) - 96)%nat with (Z.to_nat k) by lia.
      by replace (Z.to_nat (96 + k) + length d - 96)%nat with (Z.to_nat k + length d)%nat by lia.
    + rewrite !length_app, length_take, length_drop. lia.
Qed.

(** A controller with channel 5 set up for the chain, deciphering. *)
Definition demo_cdma : s5l8930_cdma_s (M := mem) (K := list Z) :=
  let m := mk_mem (table ++ zeros 160) [1; 2; 3; 4; 5; 6] in
  let s := s5l8930_cdma_init true true true true m in
  s <| size ::= <[5%nat := 5]> |> <| creg ::= <[5%nat := 0x1000]> |>
    <| dmaSegment ::= <[5%nat := Some (mk_segment 0x20 0 0 0 (zeros 16))]> |>
    <| custkey ::= <[0%nat := 0xf0]> |> <| keyLen := 128 |>.

Lemma flash_channel_witness :
  exists s', s5l8930_cdma_write 2 0x5000 1 demo_cdma = Done (true, s', [CdmaIrq 5 true]) /\
    slice 0x80 3 (ram (memory s')) = Some [0xf1; 0xf2; 0xf3] /\
    slice 0x90 2 (ram (memory s')) = Some [0xf4; 0xf5] /\ fifo (memory s') = [6].
Proof.
  destruct (flash_channel_transfer holds_table desc 0x1000 2 demo_cdma 5 1
    (mk_segment 0x20 0 0 0 (zeros 16)) [g1; g2] 5 0 0 true)
    as (d & m & s' & Ep & _ & E & Hm & _);
    [by exists (zeros 160)|lia|done..| |done|done|done|].
  - exists 0x20. split; [|done]. repeat split; done.
  - exists s'. split; [exact E|]. vm_compute in Ep. injection Ep as <- <-. rewrite Hm.
    split; [|split]; vm_compute; reflexivity.
Defined.

Lemma aes_engine_witness :
  exists s' es, s5l8930_cdma_write 0 0x2000 1
    (demo_cdma <| keyType := AESCustom |> <| dmaSegment ::= <[1%nat := Some (mk_segment 0 0 0x20 4 [])]> |>
       <| dmaSegment ::= <[2%nat := Some (mk_segment 0 0 0xa0 4 [])]> |>) = Done (true, s', es) /\
    slice 0xa0 4 (ram (memory s')) = Some [0xb0; 0xf0; 0xf0; 0xf0].
Proof.
  set (s := demo_cdma <| keyType := _ |> <| dmaSegment ::= _ |> <| dmaSegment ::= _ |>).
  destruct (aes_engine_transfer 0 s 1 (mk_segment 0 0 0x20 4 []) (mk_segment 0 0 0xa0 4 []) 0
    [0x40; 0; 0; 0] (memory s)) as (s' & es & E & Hm & _); [vm_compute; reflexivity..|].
  exists s', es. split; [exact E|]. rewrite Hm. vm_compute. reflexivity.
Defined.

Lemma demo_cdma_ok : cdma_ok demo_cdma.
Proof.
  assert (Forall channel_words [size demo_cdma; segptr demo_cdma; status demo_cdma; dmaAesSetup demo_cdma;
    config demo_cdma; creg demo_cdma]) as Hw.
  { repeat apply Forall_cons_2; [..|by apply Forall_nil]; (split; [reflexivity|]);
      apply (bool_decide_unpack _); vm_compute; exact I. }
  split; [exact Hw|]. split; [done|]. split; [cbn; tauto|].
  split; [split; [reflexivity|]|split; [split; [reflexivity|]|split; [split; [reflexivity|]|]]].
  - repeat (apply Forall_cons_2; [first [exact I|split; [|split; [reflexivity|]];
      apply (bool_decide_unpack _); vm_compute; exact I]|]). apply Forall_nil_2.
  - apply (bool_decide_unpack _); vm_compute; exact I.
  - apply (bool_decide_unpack _); vm_compute; exact I.
  - split; [cbn; tauto|]. split; [cbn; tauto|reflexivity].
Qed.

Lemma cdma_registers_witness :
  starts 0x5004 3 = false /\
  exists s' es, s5l8930_cdma_write 0 0x5004 3 demo_cdma = Done (true, s', es) /\ cdma_ok s'.
Proof.
  split; [reflexivity|].
  destruct (cdma_registers_keep_ok 0 demo_cdma 0x5004 3 demo_cdma_ok ltac:(lia) ltac:(done))
    as (_ & _ & Hw & _).
  exact (Hw eq_refl).
Defined.

(** Starting a channel before a descriptor was loaded dereferences null. *)
Lemma cdma_start_null :
  s5l8930_cdma_write 1 0x6000 1 demo_cdma = Undef /\ s5l8930_cdma_write 1 0x2000 1 demo_cdma = Undef.
Proof. split; vm_compute; reflexivity. Qed.

(** A segment without data bits that is its own successor: the first loop does
    not end. *)
Definition cyclic_cdma : s5l8930_cdma_s (M := mem) (K := list Z) :=
  demo_cdma <| memory := mk_mem (zeros 32 ++ bytes_of (mk_segment 0x20 0 0 0 (zeros 16)) ++ zeros 160) [] |>.

Lemma cdma_cyclic_chain fuel : gather fuel 5 0x20 (zeros 9) 0 cyclic_cdma = Done (None, cyclic_cdma, []).
Proof.
  induction fuel as [|fuel IH]; [done|]. cbn [gather].
  rewrite (bind_silent _ _ _ (bytes_of (mk_segment 0x20 0 0 0 (zeros 16))) cyclic_cdma) by (vm_compute; reflexivity).
  set (g := segment_of_bytes _). vm_compute in g. unfold g.
  rewrite (bind_silent _ _ _ 5 cyclic_cdma) by (vm_compute; reflexivity).
  change (test _ 3) with false. cbn [andb]. rewrite bind_ret. exact IH.
Qed.

(** The second loop is bounded by the descriptors only: a data segment larger
    than what was read is copied from beyond the output buffer. *)
Lemma cdma_scatter_overrun :
  s5l8930_cdma_write 4 0x5000 1
    (demo_cdma <| memory := mk_mem (zeros 32 ++ bytes_of (mk_segment 0x40 3 0x80 5 (zeros 16)) ++
                                    bytes_of (mk_segment 0 2 0x90 8 (zeros 16)) ++ zeros 160) [] |>) = Undef.
Proof. vm_compute. reflexivity. Qed.

(** A 192-bit key cannot be selected: its code is masked away. *)
Lemma aes_192_unreachable : select_key (bit 20 .| (AES_192 << 18)) = (AESCustom, 128).
Proof. reflexivity. Qed.

(** The sixteen bytes of the IV cannot be loaded through its four registers:
    each stores one byte. *)
Lemma aes_iv_truncated :
  exists s', (s5l8930_cdma_aes_write 0x10 0x44332211 ;;; s5l8930_cdma_aes_read 0x10) demo_cdma
    = Done (0x11, s', []).
Proof. eexists. vm_compute. reflexivity. Qed.
End CdmaDemo.
