(* ===== verification/H2fmi.v ===== *)
(** * H2fmi: the NAND flash controller of the S5L8930 ([hw/s5l8930_h2fmi.c])

    Commands read pages of image files into FIFO buffers, which the guest (or
    the DMA controller) drains through data registers.  The block layer is the
    interface [BlockLayer]; the bytes a [realloc] adds are indeterminate and
    come from it too.  Messages on [stderr] are left out, but for the twelve
    bytes of meta data the code reads to print them. *)
From S2P Require Import Prelude.

Definition H2FMI_MAX_CHIPS := 16.
Definition H2FMI_CHIPID_LENGTH := 8.
Definition ENOMEM := 12.
Definition EINVAL := 22.

Definition NAND_CMD_READID := 0x90.
Definition NAND_CMD_READ0 := 0x00.
Definition NAND_CMD_READSTART := 0x30.
Definition NAND_CMD_ERASE := 0x60.

Definition H2FMI_ECCFMT := 0x0.
Definition H2FMI_CCMD := 0x4.
Definition H2FMI_CCMDSTS := 0x8.
Definition H2FMI_CSTS := 0xC.
Definition H2FMI_CREQ := 0x10.
Definition H2FMI_DATA0 := 0x14.
Definition H2FMI_DATA1 := 0x18.
Definition H2FMI_CDMASTS := 0x1C.
Definition H2FMI_PAGEFMT := 0x34.
Definition H2FMI_TIMING := 0x8.
Definition H2FMI_CHIP_MASK := 0xC.
Definition H2FMI_NREQ := 0x10.
Definition H2FMI_NCMD := 0x14.
Definition H2FMI_ADDR0 := 0x18.
Definition H2FMI_ADDR1 := 0x1C.
Definition H2FMI_NSTS := 0x44.
Definition H2FMI_STATUS := 0x48.
Definition H2FMI_ECCBUF := 0xC.
Definition H2FMI_ECCSTS := 0x10.

(** ** The descrambling table: every 763rd value of a generator *)
Definition hash_step (val : Z) : Z := u32 (u32 (0x19660D * val) + 0x3C6EF35F).

Fixpoint nand_hash (n : nat) (val : Z) : list Z :=
  match n with
  | O => []
  | S n' => let val := Nat.iter 762 hash_step (hash_step val) in val :: nand_hash n' val
  end.
Definition initNandHash : list Z := nand_hash 256 0x50F4546A.

(** ** The block layer

    [bdrv_open] returns its result and the opened device; [bdrv_pread] its
    result and the bytes it has put at the start of the buffer.  [heap_bytes]
    are the bytes of memory that was not written yet. *)
Class BlockLayer (B : Type) := {
  bdrv_closed : B;
  bdrv_open : list Z -> Z * B;
  bdrv_pread : B -> Z -> Z -> Z * list Z;
  heap_bytes : Z -> list Z
}.

(** ** Buffers *)
Record h2fmi_buffer := mk_buffer { ptr : option (list Z); rd : Z; written : Z; bsize : Z }.

#[export] Instance eta_buffer : Eta h2fmi_buffer := fun b =>
  mk_buffer (ptr b) (rd b) (written b) (bsize b).

Inductive h2fmi_event := H2fmiIrq (level : bool) | H2fmiClose (ce : Z).

(** Nothing is visible of an operation on a buffer. *)
Abbreviation bufM := (dev h2fmi_buffer Empty_set).

Definition h2fmi_buffer_alloc (sz : Z) : bufM Z :=
  if sz =? 0 then modify (fun b => b <| ptr := None |>) ;;; ret 0
  else
    modify (fun b => b <| ptr := Some (zeros (Z.to_nat sz)) |> <| rd := 0 |> <| written := 0 |> <| bsize := sz |>) ;;;
    ret 0.

Definition h2fmi_buffer_clear : bufM unit := modify (fun b => b <| rd := 0 |> <| written := 0 |>).

(** The result: the number of bytes, and the bytes stored at the caller's
    pointer.  [read] advances by what was asked for, not by what was got. *)
Definition h2fmi_buffer_read (sz : Z) : bufM (Z * list Z) :=
  b <- gets id ;;
  match ptr b with
  | None => ret (0, [])
  | Some data =>
      if (written b =? 0) || (written b <=? rd b) then ret (0, [])
      else
        let amt := if written b - rd b <? sz then written b - rd b else sz in
        d <- lift (slice (rd b) amt data) ;;
        modify (fun b => b <| rd := u64 (rd b + sz) |>) ;;;
        ret (amt, d)
  end.

Section Buffers.
Context {B : Type} `{BlockLayer B}.

Definition h2fmi_buffer_realloc (sz : Z) : bufM Z :=
  b <- gets id ;;
  match ptr b with
  | None => ret 0
  | Some data =>
      if sz <? bsize b then ret 0
      else
        let n := (sz + 512 - 1) / 512 * 512 in
        modify (fun b => b <| ptr := Some (data ++ heap_bytes (n - zlen data)) |> <| bsize := n |>) ;;;
        ret 0
  end.

Definition h2fmi_buffer_write (d : list Z) : bufM Z :=
  let sz := zlen d in
  b <- gets id ;;
  match ptr b with
  | None =>
      _ <- h2fmi_buffer_alloc sz ;;
      b <- gets id ;;
      match ptr b with
      | None => modify (fun b => b <| written := sz |>) ;;; ret sz
      | Some data =>
          data <- lift (splice 0 d data) ;;
          modify (fun b => b <| ptr := Some data |> <| written := sz |>) ;;;
          ret sz
      end
  | Some _ =>
      when (bsize b <? written b + sz) (_ <- h2fmi_buffer_realloc (written b + sz) ;; ret tt) ;;;
      b <- gets id ;;
      data <- lift (ptr b) ;;
      data <- lift (splice (written b) d data) ;;
      modify (fun b => b <| ptr := Some data |> <| written := written b + sz |>) ;;;
      ret sz
  end.

(** The result is the index in the buffer of the mapped bytes; [None] is the
    null pointer of an empty mapping. *)
Definition h2fmi_buffer_map (sz : Z) : bufM (option Z) :=
  b <- gets id ;;
  match ptr b with
  | None =>
      _ <- h2fmi_buffer_alloc sz ;;
      modify (fun b => b <| written := sz |>) ;;;
      b <- gets id ;;
      ret (match ptr b with None => None | Some _ => Some 0 end)
  | Some _ =>
      when (bsize b <? written b + sz) (_ <- h2fmi_buffer_realloc (written b + sz) ;; ret tt) ;;;
      b <- gets id ;;
      modify (fun b => b <| written := written b + sz |>) ;;;
      ret (Some (written b))
  end.

(** A store of [d] at index [i] of the buffer's memory. *)
Definition poke (i : Z) (d : list Z) : bufM unit :=
  b <- gets id ;;
  data <- lift (ptr b) ;;
  data <- lift (splice i d data) ;;
  modify (fun b => b <| ptr := Some data |>).
Definition peek (i n : Z) : bufM (list Z) :=
  b <- gets id ;; data <- lift (ptr b) ;; lift (slice i n data).

(** ** The controller *)
Record h2fmi_state_t := mk_h2fmi {
  ce : list B; bitmap : Z; page_size : Z; meta_size : Z; ecc_shift : Z; ecc_stages : Z;
  eccfmt : Z; pagefmt : Z; timing : Z; addr : Z; chip : Z; nsts : Z; csts : Z; ests : Z;
  nstatus : Z; fmtn : Z;
  buf0 : h2fmi_buffer; buf1 : h2fmi_buffer; eccbuf : h2fmi_buffer;
  (** the static variables of the file *)
  iopEnabled : bool; h2fmi_hash_table : list Z
}.

#[export] Instance eta_h2fmi : Eta h2fmi_state_t := fun s =>
  mk_h2fmi (ce s) (bitmap s) (page_size s) (meta_size s) (ecc_shift s) (ecc_stages s) (eccfmt s)
    (pagefmt s) (timing s) (addr s) (chip s) (nsts s) (csts s) (ests s) (nstatus s) (fmtn s)
    (buf0 s) (buf1 s) (eccbuf s) (iopEnabled s) (h2fmi_hash_table s).

Abbreviation h2fmiM := (dev h2fmi_state_t h2fmi_event).

Definition no_event (e : Empty_set) : h2fmi_event := match e with end.
Definition on_buf0 {A} (m : bufM A) : h2fmiM A := zoom buf0 (fun b s => s <| buf0 := b |>) no_event m.
Definition on_buf1 {A} (m : bufM A) : h2fmiM A := zoom buf1 (fun b s => s <| buf1 := b |>) no_event m.
Definition on_eccbuf {A} (m : bufM A) : h2fmiM A := zoom eccbuf (fun b s => s <| eccbuf := b |>) no_event m.

(** [ffs]: one more than the position of the lowest set bit, 0 for zero. *)
Fixpoint lowest_bit (n : nat) (i x : Z) : Z :=
  match n with
  | O => 0
  | S n' => if Z.testbit x i then i + 1 else lowest_bit n' (i + 1) x
  end.
Definition ffs (x : Z) : Z := lowest_bit 32 0 x.

(** In a [uint8_t], so that no chip is 255. *)
Definition h2fmi_active_chip (s : h2fmi_state_t) : Z :=
  if chip s =? 0 then u8 (-1) else u8 (ffs (chip s) - 1).

(** The address is passed as an [int]. *)
Definition h2fmi_page_offset (s : h2fmi_state_t) (a : Z) : Z :=
  sgn 64 (u64 (H2FMI_CHIPID_LENGTH + u64 (u64 (sgn 32 a) * (1 + page_size s + meta_size s)))).

(** [bdrv_pread(&h2fmi->ce[i], offset, ..., n)]. *)
Definition pread (i offset n : Z) : h2fmiM (Z * list Z) :=
  s <- gets id ;; b <- lift (aget (ce s) i) ;; ret (bdrv_pread b offset n).

Definition h2fmi_do_ccmd (v : Z) : h2fmiM unit :=
  when (v =? 6) (on_buf0 h2fmi_buffer_clear ;;; on_buf1 h2fmi_buffer_clear).

Definition enableIOPH2fmi : h2fmiM unit := modify (fun s => s <| iopEnabled := true |>).

Definition h2fmi_do_readid (i : Z) : h2fmiM Z :=
  at_ <- on_buf0 (h2fmi_buffer_map H2FMI_CHIPID_LENGTH) ;;
  r <- pread i 0 H2FMI_CHIPID_LENGTH ;;
  a <- lift at_ ;;
  on_buf0 (poke a r.2) ;;;
  when (r.1 <=? 0) (on_buf0 h2fmi_buffer_clear) ;;;
  ret r.1.

Definition h2fmi_do_erase : h2fmiM Z := modify (fun s => s <| nstatus := 0x80 |>) ;;; ret 0.

(** The first three words of the meta data are descrambled in place. *)
Definition descramble (a : Z) : h2fmiM unit :=
  for_up 0 3 (fun i =>
    w <- on_buf1 (peek (a + 4 * i) 4) ;;
    s <- gets id ;;
    h <- lift (aget (h2fmi_hash_table s) (u32 (i + addr s) mod 256)) ;;
    on_buf1 (poke (a + 4 * i) (le_bytes 4 (le_value w .^ h)))).

(** The body of [h2fmi_do_read] up to its label [done]: the return value and
    the error code for the ECC buffer. *)
Definition read_page (i : Z) : h2fmiM (Z * Z) :=
  s <- gets id ;;
  let off := h2fmi_page_offset s (addr s) in
  m <- pread i off 1 ;;
  if m.1 <=? 0 then ret (m.1, 4)
  else
    marker <- lift (aget m.2 0) ;;
    if (marker =? 0) || (marker =? 48) then ret (m.1, 0xa)
    else
      data <- on_buf0 (h2fmi_buffer_map (page_size s)) ;;
      meta <- on_buf1 (h2fmi_buffer_map (u32 (meta_size s - 2))) ;;
      match data, meta with
      | Some data, Some meta =>
          r <- pread i (off + 1) (page_size s) ;;
          on_buf0 (poke data r.2) ;;;
          if r.1 <=? 0 then ret (r.1, 4)
          else
            r <- pread i (off + 1 + page_size s) (u32 (meta_size s - 2)) ;;
            on_buf1 (poke meta r.2) ;;;
            if r.1 <=? 0 then ret (r.1, 4)
            else
              _ <- on_buf1 (peek meta 12) ;;
              descramble meta ;;;
              _ <- on_buf1 (peek meta 12) ;;
              ret (r.1, 0)
      | _, _ => ret (m.1, 4)
      end.

Definition h2fmi_do_read (i : Z) : h2fmiM Z :=
  r <- read_page i ;;
  s <- gets id ;;
  for_up 0 (Z.to_nat (ecc_stages s)) (fun _ =>
    _ <- on_eccbuf (h2fmi_buffer_write (le_bytes 4 r.2)) ;; ret tt) ;;;
  ret r.1.

Definition h2fmi_do_single_ncmd (cmd : Z) : h2fmiM unit :=
  s <- gets id ;;
  let i := h2fmi_active_chip s in
  if (i <? 0) || (H2FMI_MAX_CHIPS <=? i) || negb (test (bitmap s) (bit i)) then ret tt
  else if cmd =? 0 then ret tt
  else
    switch cmd
      [ (on NAND_CMD_READID, _ <- h2fmi_do_readid i ;; ret tt);
        (on NAND_CMD_READSTART, _ <- h2fmi_do_read i ;; ret tt);
        (on NAND_CMD_ERASE,
           _ <- h2fmi_do_erase ;;
           modify (fun s => s <| nstatus ::= fun x => x .| 0x80 |>) ;;;
           when (iopEnabled s) (emit (H2fmiIrq true))) ]
      (ret tt).

(** The command bytes of a word, lowest first, until the rest is zero: four at
    most. *)
Fixpoint ncmd_bytes (n : nat) (v : Z) : h2fmiM unit :=
  match n with
  | O => ret tt
  | S n' => if v =? 0 then ret tt else h2fmi_do_single_ncmd (v .& 0xFF) ;;; ncmd_bytes n' (v >> 8)
  end.
Definition h2fmi_do_ncmd (v : Z) : h2fmiM unit := ncmd_bytes 4 v.

(** ** Registers *)
Definition raise_if_iop (level : bool) : h2fmiM unit :=
  s <- gets id ;; when (iopEnabled s) (emit (H2fmiIrq level)).

(** [h2fmi_buffer_read] into a variable that was zero. *)
Definition data0 (sz : Z) : h2fmiM Z := r <- on_buf0 (h2fmi_buffer_read sz) ;; ret (le_value r.2).
Definition data1 (sz : Z) : h2fmiM Z := r <- on_buf1 (h2fmi_buffer_read sz) ;; ret (le_value r.2).

Definition h2fmi_creadl (a : Z) : h2fmiM Z :=
  switch a
    [ (on H2FMI_CCMD, ret 0);
      (on H2FMI_CSTS, gets csts);
      (on H2FMI_CCMDSTS, ret 0);
      (on H2FMI_CDMASTS, ret 0x18);
      (on H2FMI_PAGEFMT, gets pagefmt);
      (on H2FMI_ECCFMT, gets eccfmt);
      (on H2FMI_DATA0, data0 4);
      (on H2FMI_DATA1, data1 4) ]
    (ret 0).
Definition h2fmi_creads (a : Z) : h2fmiM Z :=
  switch a [ (on H2FMI_DATA0, data0 2); (on H2FMI_DATA1, data1 2) ] (ret 0).
Definition h2fmi_creadb (a : Z) : h2fmiM Z :=
  switch a [ (on H2FMI_DATA0, data0 1); (on H2FMI_DATA1, data1 1) ] (ret 0).

Definition h2fmi_cwritel (a v : Z) : h2fmiM unit :=
  switch a
    [ (on H2FMI_CCMD,
         when (v =? 3) (modify (fun s => s <| csts ::= fun x => x .| 2 |>)) ;;;
         when (v =? 6) (modify (fun s => s <| addr := 0 |>)) ;;;
         h2fmi_do_ccmd v);
      (on H2FMI_CREQ, modify (fun s => s <| csts ::= fun x => x .| v |>) ;;; raise_if_iop true);
      (on H2FMI_CSTS, modify (fun s => s <| csts ::= fun x => x .&~ v |>) ;;; raise_if_iop false);
      (on H2FMI_DATA0, _ <- on_buf0 (h2fmi_buffer_write (le_bytes 4 v)) ;; ret tt);
      (on H2FMI_DATA1, _ <- on_buf1 (h2fmi_buffer_write (le_bytes 4 v)) ;; ret tt) ]
    (ret tt).

Definition h2fmi_nreadl (a : Z) : h2fmiM Z :=
  switch a
    [ (on H2FMI_CHIP_MASK, gets chip);
      (on H2FMI_NSTS, gets nsts);
      (on H2FMI_ADDR0, s <- gets id ;; ret (u32 (addr s << 16)));
      (on H2FMI_ADDR1, s <- gets id ;; ret (addr s >> 16));
      (on H2FMI_TIMING, gets timing);
      (on H2FMI_STATUS, gets nstatus) ]
    (ret 0).

Definition h2fmi_nwritel (a v : Z) : h2fmiM unit :=
  switch a
    [ (on H2FMI_CHIP_MASK, modify (fun s => s <| chip := v |>));
      (on H2FMI_NREQ,
         s <- gets id ;;
         when (negb (nstatus s =? 0) && (v =? 0)) (modify (fun s => s <| nstatus := v |>)) ;;;
         modify (fun s => s <| nsts ::= fun x => x .| v |>) ;;;
         raise_if_iop true);
      (on H2FMI_NSTS, modify (fun s => s <| nsts ::= fun x => x .&~ v |>) ;;; raise_if_iop false);
      (on H2FMI_NCMD, h2fmi_do_ncmd v);
      (on H2FMI_ADDR0, modify (fun s => s <| addr ::= fun x => (x .&~ 0xFFFF) .| (v >> 16) |>));
      (on H2FMI_ADDR1, modify (fun s => s <| addr ::= fun x => (x .& 0xFFFF) .| u32 (v << 16) |>));
      (on H2FMI_TIMING, modify (fun s => s <| timing := v |>));
      (on H2FMI_STATUS, modify (fun s => s <| nstatus := v |>)) ]
    (ret tt).

Definition h2fmi_ereadl (a : Z) : h2fmiM Z :=
  switch a
    [ (on H2FMI_ECCSTS, gets ests);
      (on H2FMI_ECCBUF, r <- on_eccbuf (h2fmi_buffer_read 4) ;; ret (le_value r.2)) ]
    (ret 0).

Definition h2fmi_ewritel (a v : Z) : h2fmiM unit :=
  switch a
    [ (on H2FMI_ECCSTS, modify (fun s => s <| ests ::= fun x => x .&~ v |>));
      (on H2FMI_ECCBUF, on_eccbuf h2fmi_buffer_clear) ]
    (ret tt).

(** ** The chips: a list of image files, "path;path;..." with an optional
    chip-enable number and comma before each path *)
Definition COMMA := 44.
Definition SEMICOLON := 59.

(** The [_ce] of the caller is a [uint32_t], passed as an [int]. *)
Definition h2fmi_add_chip (i : Z) (file : list Z) : h2fmiM Z :=
  if H2FMI_MAX_CHIPS <? i then ret (- EINVAL)
  else if i <? 0 then undef
  else
    s <- gets id ;;
    when (test (bitmap s) (bit i))
      (_ <- lift (aget (ce s) i) ;;
       emit (H2fmiClose i) ;;;
       modify (fun s => s <| bitmap ::= fun x => x .&~ bit i |>)) ;;;
    let (r, b) := bdrv_open file in
    s <- gets id ;;
    l <- lift (aset i b (ce s)) ;;
    modify (fun s => s <| ce := l |>) ;;;
    if negb (r =? 0) then ret r
    else modify (fun s => s <| bitmap ::= fun x => x .| bit i |>) ;;; ret 0.

(** [atoi]: white space, a sign, decimal digits; a result out of the range of
    [int] is undefined. *)
Definition is_space (c : Z) : bool := (c =? 32) || ((9 <=? c) && (c <=? 13)).
Fixpoint digits (acc : Z) (l : list Z) : Z :=
  match l with
  | [] => acc
  | c :: r => if (48 <=? c) && (c <=? 57) then digits (10 * acc + (c - 48)) r else acc
  end.
Fixpoint skip_space (l : list Z) : list Z :=
  match l with c :: r => if is_space c then skip_space r else l | [] => [] end.
Definition atoi (l : list Z) : option Z :=
  let v := match skip_space l with
           | c :: r => if c =? 45 then - digits 0 r else if c =? 43 then digits 0 r else digits 0 (c :: r)
           | [] => 0
           end in
  if (- 2 ^ 31 <=? v) && (v <? 2 ^ 31) then Some v else None.

(** The scan of [h2fmi_setup_chips]: [token] are the characters from [last] on
    (in reverse), [l] those from [ptr] to the end of the string. *)
Fixpoint scan_chips (l token : list Z) (i : Z) (hasce : bool) : h2fmiM Z :=
  match l with
  | [] => match token with [] => ret 0 | _ => h2fmi_add_chip (sgn 32 i) (rev token) end
  | c :: r =>
      if negb hasce && (c =? COMMA) then n <- lift (atoi (rev token)) ;; scan_chips r [] (u32 n) true
      else if c =? SEMICOLON then
        ret_ <- h2fmi_add_chip (sgn 32 i) (rev token) ;;
        if negb (ret_ =? 0) then ret ret_ else scan_chips r [] (u32 (i + 1)) false
      else scan_chips r (c :: token) i hasce
  end.
Definition h2fmi_setup_chips (paths : list Z) : h2fmiM Z := scan_chips paths [] 0 false.

(** [s5l8930_h2fmi_init] on the properties of the device; the result of opening
    the images is ignored. *)
Definition s5l8930_h2fmi_init (file : option (list Z)) (page meta shift fmt : Z) : outcome (h2fmi_state_t * list h2fmi_event) :=
  if 32 <=? shift then Undef
  else
    let b := mk_buffer None 0 0 0 in
    let s := mk_h2fmi (replicate 16 bdrv_closed) 0 page meta shift (page >> shift) 0 0 0 0 0 0 0 0 0 fmt
               b b b false initNandHash in
    match (match file with Some f => _ <- h2fmi_setup_chips f ;; ret tt | None => ret tt end) s with
    | Done (_, s', es) => Done (s', es)
    | HwError => HwError
    | Undef => Undef
    end.
End Buffers.

(** ** The buffers are byte queues *)
Section Queues.
Context {B : Type} `{BlockLayer B}.

(** The indeterminate bytes are bytes, as many as asked for. *)
Class HeapBytes := { heap_bytes_length n : 0 <= n -> zlen (heap_bytes n) = n }.
Context `{!HeapBytes}.

(** What is still to be read. *)
Definition unread (b : h2fmi_buffer) : list Z :=
  match ptr b with
  | Some data => take (Z.to_nat (written b - rd b)) (drop (Z.to_nat (rd b)) data)
  | None => []
  end.

(** A buffer that has not been read past its end. *)
Definition queue_ok (b : h2fmi_buffer) : Prop :=
  match ptr b with
  | None => True
  | Some data => zlen data = bsize b /\ 0 <= rd b <= written b /\ written b <= bsize b /\ bsize b < 2 ^ 63
  end.

Lemma unread_Some b data :
  ptr b = Some data -> queue_ok b ->
  data = take (Z.to_nat (rd b)) data ++ unread b ++ drop (Z.to_nat (written b)) data /\
  zlen (unread b) = written b - rd b.
Proof.
  unfold queue_ok, unread. intros ->. unfold zlen. intros (Hl & Hr & Hw & _). split.
  - rewrite <- (take_drop (Z.to_nat (rd b)) data) at 1. f_equal.
    rewrite <- (take_drop (Z.to_nat (written b - rd b)) (drop _ data)) at 1. f_equal.
    rewrite drop_drop. f_equal. lia.
  - rewrite length_take, length_drop. lia.
Qed.

(** A store inside of what is unread. *)
Lemma poke_run b i d pre mid post :
  queue_ok b -> ptr b <> None -> unread b = pre ++ mid ++ post -> zlen mid = zlen d -> i = rd b + zlen pre ->
  exists b', poke i d b = Done (tt, b', []) /\ queue_ok b' /\ ptr b' <> None /\
    unread b' = pre ++ d ++ post /\ rd b' = rd b /\ written b' = written b.
Proof.
  intros Hq Hp Hu Hd ->. destruct (ptr b) as [data|] eqn:Ep; [|done].
  destruct (unread_Some b data Ep Hq) as [Hdata Hlen]. unfold queue_ok in Hq. rewrite Ep in Hq.
  destruct Hq as (Hl & Hr & Hw & H63). rewrite Hu in Hdata, Hlen. unfold zlen in *.
  rewrite !length_app in Hlen. set (head := take (Z.to_nat (rd b)) data) in *.
  set (tail := drop (Z.to_nat (written b)) data) in *.
  assert (length head = Z.to_nat (rd b)) as Hh by (unfold head; rewrite length_take; lia).
  set (data' := head ++ (pre ++ d ++ post) ++ tail).
  assert (splice (rd b + Z.of_nat (length pre)) d data = Some data') as Hs.
  { rewrite splice_Some by (unfold zlen; lia). f_equal. rewrite Hdata. unfold data'.
    rewrite <- !app_assoc. rewrite (app_assoc head pre).
    rewrite take_app_length' by (rewrite length_app; lia).
    rewrite (app_assoc (head ++ pre) mid), drop_app_length' by (rewrite !length_app; lia).
    by rewrite <- !app_assoc. }
  exists (b <| ptr := Some data' |>). split; [|split; [|split; [done|split; [|done]]]].
  - unfold poke. run. unfold id. rewrite Ep. run. rewrite Hs. by run.
  - assert (length data' = length data) as Hl' by by apply splice_length in Hs.
    unfold queue_ok. change (ptr (b <| ptr := Some data' |>)) with (Some data'). unfold zlen. rewrite Hl'.
    exact (conj Hl (conj Hr (conj Hw H63))).
  - unfold unread. change (ptr (b <| ptr := Some data' |>)) with (Some data').
    change (take (Z.to_nat (written b - rd b)) (drop (Z.to_nat (rd b)) data') = pre ++ d ++ post).
    unfold data'. rewrite drop_app_length' by done. apply take_app_length'. rewrite !length_app. lia.
Qed.

Lemma peek_run b i n pre mid post :
  queue_ok b -> ptr b <> None -> unread b = pre ++ mid ++ post -> zlen mid = n -> i = rd b + zlen pre ->
  peek i n b = Done (mid, b, []).
Proof.
  intros Hq Hp Hu <- ->. destruct (ptr b) as [data|] eqn:Ep; [|done].
  destruct (unread_Some b data Ep Hq) as [Hdata Hlen]. unfold queue_ok in Hq. rewrite Ep in Hq.
  destruct Hq as (Hl & Hr & Hw & H63). rewrite Hu in Hdata, Hlen. unfold zlen in *.
  rewrite !length_app in Hlen. unfold peek. run. unfold id. rewrite Ep. run.
  rewrite slice_Some by (unfold zlen; lia). rewrite Hdata. rewrite <- !app_assoc.
  rewrite (app_assoc (take _ _) pre).
  rewrite drop_app_length' by (rewrite length_app, length_take; lia).
  by rewrite take_app_length' by lia.
Qed.

(** Reading takes from the front. *)
Lemma read_run b sz x y :
  queue_ok b -> unread b = x ++ y -> zlen x = sz -> 0 < sz ->
  exists b', h2fmi_buffer_read sz b = Done ((sz, x), b', []) /\ queue_ok b' /\ unread b' = y.
Proof.
  intros Hq Hu Hx Hsz. destruct (ptr b) as [data|] eqn:Ep.
  2: { unfold unread in Hu. rewrite Ep in Hu. destruct x; [unfold zlen in Hx; cbn in Hx; lia|done]. }
  pose proof (unread_Some b data Ep Hq) as [_ Hlen]. rewrite Hu in Hlen.
  pose proof (peek_run b (rd b) sz [] x y Hq ltac:(by rewrite Ep) Hu Hx ltac:(unfold zlen; cbn; lia)) as Hpk.
  unfold peek in Hpk. revert Hpk. run. unfold id. rewrite Ep. run. intros Hpk.
  assert (slice (rd b) sz data = Some x) as Hsl by (destruct (slice (rd b) sz data); [by injection Hpk as ->|done]).
  unfold queue_ok in Hq. rewrite Ep in Hq. destruct Hq as (Hl & Hr & Hw & H63).
  unfold zlen in *. rewrite length_app in Hlen.
  exists (b <| rd := rd b + sz |>). split; [|split].
  - unfold h2fmi_buffer_read. run. unfold id. rewrite Ep.
    replace ((written b =? 0) || (written b <=? rd b)) with false by lia.
    replace (if written b - rd b <? sz then written b - rd b else sz) with sz by (zcases; done).
    rewrite Hsl. run. rewrite wrap_fits by (unfold fits; lia). done.
  - unfold queue_ok. change (ptr (b <| rd := rd b + sz |>)) with (ptr b). rewrite Ep.
    split; [done|]. split; [|done]. change (0 <= rd b + sz <= written b). lia.
  - unfold unread in *. change (ptr (b <| rd := rd b + sz |>)) with (ptr b). rewrite Ep in *.
    change (take (Z.to_nat (written b - (rd b + sz))) (drop (Z.to_nat (rd b + sz)) data) = y).
    replace (Z.to_nat (rd b + sz)) with (Z.to_nat (rd b) + length x)%nat by lia.
    rewrite <- drop_drop. rewrite <- (drop_app_length x y), <- Hu.
    rewrite skipn_firstn_comm. f_equal. lia.
Qed.

Lemma set_ptr_same b p : ptr b = p -> b <| ptr := p |> = b.
Proof. intros <-. by destruct b. Qed.

(** How far a buffer is written. *)
Definition level (b : h2fmi_buffer) : Z := match ptr b with None => 0 | Some _ => written b end.

(** A fresh allocation. *)
Lemma alloc_run b sz :
  0 < sz -> h2fmi_buffer_alloc sz b = Done (0, mk_buffer (Some (zeros (Z.to_nat sz))) 0 0 sz, []).
Proof.
  intros Hsz. unfold h2fmi_buffer_alloc. destruct (Z.eqb_spec sz 0); [lia|]. run. by destruct b.
Qed.

(** Making room. *)
Lemma grow_run b sz data :
  queue_ok b -> ptr b = Some data -> 0 <= sz -> written b + sz < 2 ^ 62 ->
  exists b1 data1, (when (bsize b <? written b + sz) (_ <- h2fmi_buffer_realloc (written b + sz) ;; ret tt)) b
      = Done (tt, b1, []) /\ queue_ok b1 /\ ptr b1 = Some data1 /\ unread b1 = unread b /\
    rd b1 = rd b /\ written b1 = written b /\ written b + sz <= bsize b1.
Proof.
  intros Hq Ep Hsz H62. pose proof Hq as Hq'. unfold queue_ok in Hq'. rewrite Ep in Hq'.
  destruct Hq' as (Hl & Hr & Hw & H63). destruct (Z.ltb_spec (bsize b) (written b + sz)); cbn [when].
  2: { by exists b, data. }
  set (n := (written b + sz + 512 - 1) / 512 * 512).
  assert (written b + sz <= n < 2 ^ 63) as Hn by (unfold n; Z.div_mod_to_equations; lia).
  set (data1 := data ++ heap_bytes (n - zlen data)).
  assert (zlen data1 = n) as Hl1.
  { unfold data1, zlen. rewrite length_app. pose proof (heap_bytes_length (n - zlen data) ltac:(lia)).
    unfold zlen in *. lia. }
  exists (b <| ptr := Some data1 |> <| bsize := n |>), data1. split_and!; try done.
  - unfold h2fmi_buffer_realloc. run. unfold id. rewrite Ep.
    destruct (Z.ltb_spec (written b + sz) (bsize b)); [lia|]. by run.
  - unfold queue_ok. change (ptr (b <| ptr := Some data1 |> <| bsize := n |>)) with (Some data1).
    split; [exact Hl1|]. split; [exact Hr|]. change (written b <= n /\ n < 2 ^ 63). lia.
  - unfold unread. change (ptr (b <| ptr := Some data1 |> <| bsize := n |>)) with (Some data1). rewrite Ep.
    change (take (Z.to_nat (written b - rd b)) (drop (Z.to_nat (rd b)) data1)
            = take (Z.to_nat (written b - rd b)) (drop (Z.to_nat (rd b)) data)).
    unfold data1, zlen in *. rewrite drop_app_le by lia. apply take_app_le. rewrite length_drop. lia.
  - change (bsize (b <| ptr := Some data1 |> <| bsize := n |>)) with n. lia.
Qed.

(** The end of a buffer with room, extended. *)
Lemma extend_run b data sz d :
  queue_ok b -> ptr b = Some data -> 0 <= sz -> written b + sz <= bsize b -> zlen d = sz ->
  exists data', splice (written b) d data = Some data' /\
    queue_ok (b <| ptr := Some data' |> <| written := written b + sz |>) /\
    unread (b <| ptr := Some data' |> <| written := written b + sz |>) = unread b ++ d.
Proof.
  intros Hq Ep Hsz Hroom Hd. destruct (unread_Some b data Ep Hq) as [Hdata Hlen].
  unfold queue_ok in Hq. rewrite Ep in Hq. destruct Hq as (Hl & Hr & Hw & H63). unfold zlen in *.
  exists (take (Z.to_nat (written b)) data ++ d ++ drop (Z.to_nat (written b) + length d) data).
  rewrite splice_Some by (unfold zlen; lia). set (data' := _ ++ d ++ _). split; [done|]. split.
  - unfold queue_ok. change (ptr (b <| ptr := Some data' |> <| written := written b + sz |>)) with (Some data').
    assert (zlen data' = bsize b) as Hl'.
    { unfold data', zlen. rewrite !length_app, length_take, length_drop. lia. }
    split; [exact Hl'|]. change (0 <= rd b <= written b + sz /\ written b + sz <= bsize b /\ bsize b < 2 ^ 63). lia.
  - unfold unread at 1. change (ptr (b <| ptr := Some data' |> <| written := written b + sz |>)) with (Some data').
    change (take (Z.to_nat (written b + sz - rd b)) (drop (Z.to_nat (rd b)) data') = unread b ++ d).
    assert (take (Z.to_nat (written b)) data = take (Z.to_nat (rd b)) data ++ unread b) as Htk.
    { rewrite Hdata at 1. rewrite app_assoc. apply take_app_length'. rewrite length_app, length_take. lia. }
    unfold data'. rewrite Htk, <- !app_assoc. rewrite drop_app_length' by (rewrite length_take; lia).
    rewrite app_assoc. apply take_app_length'. rewrite length_app. lia.
Qed.

(** Writing appends. *)
Lemma write_run b d :
  queue_ok b -> 0 < zlen d -> level b + zlen d < 2 ^ 62 ->
  exists b', h2fmi_buffer_write d b = Done (zlen d, b', []) /\ queue_ok b' /\
    unread b' = unread b ++ d /\ level b' = level b + zlen d.
Proof.
  intros Hq Hd H62. unfold h2fmi_buffer_write, level in *. run. unfold id. destruct (ptr b) as [data|] eqn:Ep.
  - destruct (grow_run b (zlen d) data) as (b1 & data1 & E1 & Hq1 & Ep1 & Hu1 & _ & Hw1 & Hroom); [done|done|lia|done|].
    destruct (extend_run b1 data1 (zlen d) d) as (data' & Es & Hq' & Hu'); [done|done|lia|lia|done|].
    exists (b1 <| ptr := Some data' |> <| written := written b1 + zlen d |>).
    rewrite (bind_silent _ _ _ _ _ E1). run. unfold id. rewrite Ep1. run. rewrite Es. run.
    split; [done|]. split; [done|]. rewrite Hu', Hu1. split; [done|].
    change (written b1 + zlen d = written b + zlen d). lia.
  - rewrite (bind_silent _ _ _ _ _ (alloc_run b (zlen d) Hd)). run. unfold id. cbn [ptr].
    set (b0 := mk_buffer (Some (zeros (Z.to_nat (zlen d)))) 0 0 (zlen d)).
    assert (queue_ok b0) as Hq0.
    { unfold queue_ok. cbn. unfold zlen, zeros. rewrite length_replicate. unfold zlen in *. lia. }
    destruct (extend_run b0 (zeros (Z.to_nat (zlen d))) (zlen d) d) as (data' & Es & Hq' & Hu');
      [done|done|lia|cbn; lia|done|].
    change (written b0) with 0 in *. rewrite Es. run. exists (b0 <| ptr := Some data' |> <| written := 0 + zlen d |>).
    split; [done|]. split; [done|]. rewrite Hu'. split; [|done]. unfold unread. by rewrite Ep.
Qed.

(** Mapping appends bytes that the caller stores. *)
Lemma map_run b sz :
  queue_ok b -> 0 < sz -> level b + sz < 2 ^ 62 ->
  exists b' hole, h2fmi_buffer_map sz b = Done (Some (rd b' + zlen (unread b)), b', []) /\ queue_ok b' /\
    ptr b' <> None /\ unread b' = unread b ++ hole /\ zlen hole = sz.
Proof.
  intros Hq Hsz H62. unfold h2fmi_buffer_map, level in *. run. unfold id. destruct (ptr b) as [data|] eqn:Ep.
  - destruct (grow_run b sz data) as (b1 & data1 & E1 & Hq1 & Ep1 & Hu1 & Hr1 & Hw1 & Hroom); [done|done|lia|done|].
    destruct (unread_Some b1 data1 Ep1 Hq1) as [Hdata Hlen].
    pose proof Hq1 as Hq1'. unfold queue_ok in Hq1'. rewrite Ep1 in Hq1'. destruct Hq1' as (Hl & Hr & Hw & H63).
    set (hole := take (Z.to_nat sz) (drop (Z.to_nat (written b1)) data1)).
    assert (zlen hole = sz) as Hh by (unfold hole, zlen in *; rewrite length_take, length_drop; lia).
    destruct (extend_run b1 data1 sz hole) as (data' & Es & Hq' & Hu'); [done|done|lia|lia|done|].
    assert (data' = data1) as ->.
    { rewrite splice_Some in Es by lia. injection Es as <-. unfold zlen in *. assert (length hole = Z.to_nat sz) as -> by lia. unfold hole.
      replace (Z.to_nat (written b1) + _)%nat with (Z.to_nat sz + Z.to_nat (written b1))%nat by lia.
      rewrite <- (take_drop (Z.to_nat (written b1)) data1) at 4. f_equal.
      rewrite <- (take_drop (Z.to_nat sz) (drop (Z.to_nat (written b1)) data1)) at 2. f_equal.
      rewrite drop_drop. f_equal. lia. }
    assert (b1 <| ptr := Some data1 |> = b1) as Hsame by by apply set_ptr_same.
    rewrite Hsame in *. exists (b1 <| written := written b1 + sz |>), hole.
    rewrite (bind_silent _ _ _ _ _ E1). run. unfold id. rewrite <- Hu1. split_and!; try done.
    + unfold ret. do 4 f_equal. change (written b1 = rd b1 + zlen (unread b1)). lia.
    + change (ptr b1 <> None). by rewrite Ep1.
  - rewrite (bind_silent _ _ _ _ _ (alloc_run b sz Hsz)). run. unfold id. cbn [ptr].
    set (b0 := mk_buffer (Some (zeros (Z.to_nat sz))) 0 0 sz).
    assert (queue_ok b0) as Hq0 by (unfold queue_ok; cbn; unfold zlen, zeros; rewrite length_replicate; lia).
    exists (b0 <| written := sz |>), (zeros (Z.to_nat sz)).
    assert (unread b = []) as -> by (unfold unread; by rewrite Ep).
    assert (zlen (zeros (Z.to_nat sz)) = sz) as Hz by (unfold zlen, zeros; rewrite length_replicate; lia).
    split_and!; try done.
    + unfold queue_ok. cbn. split; [exact Hz|]. change (0 <= 0 <= sz /\ sz <= sz /\ sz < 2 ^ 63). lia.
    + unfold unread. change (take (Z.to_nat (sz - 0)) (drop 0 (zeros (Z.to_nat sz))) = [] ++ zeros (Z.to_nat sz)).
      rewrite drop_0, take_ge; [done|]. unfold zeros. rewrite length_replicate. lia.
Qed.
End Queues.

(** ** Reading a page *)
Section Pages.
Context {B : Type} `{BlockLayer B} `{!HeapBytes (B := B)}.
Abbreviation h2fmiM := (dev (h2fmi_state_t (B := B)) h2fmi_event).
Implicit Types s : h2fmi_state_t (B := B).

Lemma on_buf0_run {A} (m : bufM A) s a b :
  m (buf0 s) = Done (a, b, []) -> on_buf0 m s = Done (a, s <| buf0 := b |>, []).
Proof. intros E. exact (zoom_silent buf0 (fun b s => s <| buf0 := b |>) no_event m s a b E). Qed.
Lemma on_buf1_run {A} (m : bufM A) s a b :
  m (buf1 s) = Done (a, b, []) -> on_buf1 m s = Done (a, s <| buf1 := b |>, []).
Proof. intros E. exact (zoom_silent buf1 (fun b s => s <| buf1 := b |>) no_event m s a b E). Qed.
Lemma on_eccbuf_run {A} (m : bufM A) s a b :
  m (eccbuf s) = Done (a, b, []) -> on_eccbuf m s = Done (a, s <| eccbuf := b |>, []).
Proof. intros E. exact (zoom_silent eccbuf (fun b s => s <| eccbuf := b |>) no_event m s a b E). Qed.

Lemma on_buf1_peek s i n x :
  peek i n (buf1 s) = Done (x, buf1 s, []) -> on_buf1 (peek i n) s = Done (x, s, []).
Proof. intros E. rewrite (on_buf1_run _ _ _ _ E). do 2 f_equal. by destruct s. Qed.

(** What is stored for the addressed page of a chip. *)
Inductive page_state := Unreadable | Blank | Page (data meta : list Z).

Definition stored (b : B) s (p : page_state) : Prop :=
  let off := h2fmi_page_offset s (addr s) in
  match p with
  | Unreadable => exists r, r <= 0 /\ (bdrv_pread b off 1).1 = r
  | Blank => exists r m, 0 < r /\ bdrv_pread b off 1 = (r, [m]) /\ (m = 0 \/ m = 48)
  | Page data meta =>
      (exists r m, 0 < r /\ bdrv_pread b off 1 = (r, [m]) /\ m <> 0 /\ m <> 48) /\
      (exists r, 0 < r /\ bdrv_pread b (off + 1) (page_size s) = (r, data)) /\ zlen data = page_size s /\
      (exists r, 0 < r /\ bdrv_pread b (off + 1 + page_size s) (meta_size s - 2) = (r, meta)) /\
      zlen meta = meta_size s - 2
  end.

(** The word of the table a word of the meta data is scrambled with. *)
Definition scramble_word s (i : Z) : Z :=
  default 0 (aget (h2fmi_hash_table s) (u32 (i + addr s) mod 256)).
Definition unscramble s (i : Z) (w : list Z) : list Z := le_bytes 4 (le_value w .^ scramble_word s i).
Definition descrambled s (meta : list Z) : list Z :=
  unscramble s 0 (take 4 meta) ++ unscramble s 1 (take 4 (drop 4 meta)) ++
  unscramble s 2 (take 4 (drop 8 meta)) ++ drop 12 meta.

(** What a read command appends to the data, meta and ECC buffers. *)
Definition page_data (p : page_state) : list Z := match p with Page data _ => data | _ => [] end.
Definition page_meta s (p : page_state) : list Z := match p with Page _ meta => descrambled s meta | _ => [] end.
Definition page_code (p : page_state) : Z := match p with Unreadable => 4 | Blank => 0xa | Page _ _ => 0 end.

(** A controller whose buffers are in order and that has room for meta data of
    at least twelve bytes. *)
Definition ready s : Prop :=
  0 < page_size s < 2 ^ 31 /\ 14 <= meta_size s < 2 ^ 31 /\ 0 <= ecc_stages s < 2 ^ 32 /\
  length (h2fmi_hash_table s) = 256%nat /\
  (queue_ok (buf0 s) /\ level (buf0 s) < 2 ^ 61) /\ (queue_ok (buf1 s) /\ level (buf1 s) < 2 ^ 61) /\
  (queue_ok (eccbuf s) /\ level (eccbuf s) < 2 ^ 61).

Lemma pread_run s i b o n : aget (ce s) i = Some b -> pread i o n s = Done (bdrv_pread b o n, s, []).
Proof. intros E. unfold pread. run. unfold id. by rewrite E. Qed.

Lemma ecc_fill n lo d s :
  queue_ok (eccbuf s) -> 0 < zlen d -> level (eccbuf s) + Z.of_nat n * zlen d < 2 ^ 62 ->
  exists e, for_up lo n (fun _ => _ <- on_eccbuf (h2fmi_buffer_write d) ;; ret tt) s
      = Done (tt, s <| eccbuf := e |>, []) /\ queue_ok e /\
    unread e = unread (eccbuf s) ++ concat (replicate n d).
Proof.
  revert lo s. induction n as [|n IH]; intros lo s Hq Hd Hl; cbn [for_up].
  { exists (eccbuf s). cbn. rewrite app_nil_r. split; [|done]. unfold ret. do 2 f_equal. by destruct s. }
  destruct (write_run (eccbuf s) d Hq Hd) as (e1 & E1 & Hq1 & Hu1 & Hl1); [nia|].
  set (s1 := s <| eccbuf := e1 |>).
  destruct (IH (lo + 1) s1) as (e & E & Hqe & Hue); [done|done|change (eccbuf s1) with e1; nia|].
  exists e. change (eccbuf s1) with e1 in Hue. split; [|split; [done|by rewrite Hue, Hu1, <- app_assoc]].
  rewrite bind_assoc, (bind_silent _ _ _ _ _ (on_eccbuf_run _ _ _ _ E1)), bind_ret. exact E.
Qed.

(** One descrambling step on the meta buffer. *)
Lemma descramble_step s a i pre w post :
  queue_ok (buf1 s) -> ptr (buf1 s) <> None -> unread (buf1 s) = pre ++ w ++ post -> zlen w = 4 ->
  a + 4 * i = rd (buf1 s) + zlen pre -> length (h2fmi_hash_table s) = 256%nat ->
  exists b, (w <- on_buf1 (peek (a + 4 * i) 4) ;;
     s <- gets id ;;
     h <- lift (aget (h2fmi_hash_table s) (u32 (i + addr s) mod 256)) ;;
     on_buf1 (poke (a + 4 * i) (le_bytes 4 (le_value w .^ h)))) s = Done (tt, s <| buf1 := b |>, []) /\
    queue_ok b /\ ptr b <> None /\ unread b = pre ++ unscramble s i w ++ post /\ rd b = rd (buf1 s).
Proof.
  intros Hq Hp Hu Hw Ha Ht.
  destruct (aget_Some (h2fmi_hash_table s) (u32 (i + addr s) mod 256)) as [h Hh].
  { unfold zlen. rewrite Ht. pose proof (Z.mod_pos_bound (u32 (i + addr s)) 256). lia. }
  assert (unscramble s i w = le_bytes 4 (le_value w .^ h)) as Hun by (unfold unscramble, scramble_word; by rewrite Hh).
  destruct (poke_run (buf1 s) (a + 4 * i) (le_bytes 4 (le_value w .^ h)) pre w post)
    as (b & E & Hqb & Hpb & Hub & Hrb & _); [done|done|done|by rewrite Hw|done|].
  exists b. rewrite Hun. split; [|done].
  rewrite (bind_silent _ _ s w s) by (apply on_buf1_peek; by eapply peek_run). run. unfold id. rewrite Hh. run.
  by apply on_buf1_run.
Qed.

Lemma descramble_run s a pre meta :
  queue_ok (buf1 s) -> ptr (buf1 s) <> None -> unread (buf1 s) = pre ++ meta -> 12 <= zlen meta ->
  a = rd (buf1 s) + zlen pre -> length (h2fmi_hash_table s) = 256%nat ->
  exists b, descramble a s = Done (tt, s <| buf1 := b |>, []) /\ queue_ok b /\ ptr b <> None /\
    unread b = pre ++ descrambled s meta /\ rd b = rd (buf1 s).
Proof.
  intros Hq Hp Hu Hm Ha Ht. unfold zlen in Hm.
  set (w0 := take 4 meta). set (w1 := take 4 (drop 4 meta)). set (w2 := take 4 (drop 8 meta)).
  assert (meta = w0 ++ w1 ++ w2 ++ drop 12 meta) as Hmeta.
  { unfold w0, w1, w2. rewrite <- (take_drop 4 meta) at 1. f_equal.
    rewrite <- (take_drop 4 (drop 4 meta)) at 1. f_equal. rewrite drop_drop. change (4 + 4)%nat with 8%nat.
    rewrite <- (take_drop 4 (drop 8 meta)) at 1. by rewrite drop_drop. }
  assert (zlen w0 = 4 /\ zlen w1 = 4 /\ zlen w2 = 4) as (H0 & H1 & H2).
  { unfold w0, w1, w2, zlen. rewrite !length_take, !length_drop. lia. }
  remember (unscramble s) as u eqn:Hus.
  assert (forall i w, zlen (u i w) = 4) as Hu4 by by rewrite Hus.
  destruct (descramble_step s a 0 pre w0 (w1 ++ w2 ++ drop 12 meta)) as (b0 & E0 & Hq0 & Hp0 & Hu0 & Hr0);
    [done|done|by rewrite Hu, Hmeta at 1|done|lia|done|].
  rewrite <- Hus in Hu0. set (s0 := s <| buf1 := b0 |>) in *.
  destruct (descramble_step s0 a 1 (pre ++ u 0 w0) w1 (w2 ++ drop 12 meta)) as (b1 & E1 & Hq1 & Hp1 & Hu1 & Hr1);
    [done|done|change (buf1 s0) with b0; by rewrite Hu0, <- app_assoc|done
    |change (buf1 s0) with b0; rewrite Hr0; pose proof (Hu4 0 w0); unfold zlen in *; rewrite length_app; lia|done|].
  set (s1 := s0 <| buf1 := b1 |>) in *. change (unscramble s0) with (unscramble s) in Hu1. rewrite <- Hus in Hu1. change (buf1 s0) with b0 in Hr1.
  destruct (descramble_step s1 a 2 (pre ++ u 0 w0 ++ u 1 w1) w2 (drop 12 meta)) as (b2 & E2 & Hq2 & Hp2 & Hu2 & Hr2);
    [done|done|change (buf1 s1) with b1; by rewrite Hu1, <- !app_assoc|done
    |change (buf1 s1) with b1; rewrite Hr1, Hr0; pose proof (Hu4 0 w0); pose proof (Hu4 1 w1);
     unfold zlen in *; rewrite !length_app; lia|done|].
  change (unscramble s1) with (unscramble s) in Hu2. rewrite <- Hus in Hu2. exists b2. split_and!; try done.
  - unfold descramble. cbn [for_up]. rewrite (bind_silent _ _ _ _ _ E0). change (0 + 1) with 1.
    rewrite (bind_silent _ _ _ _ _ E1). change (1 + 1) with 2. by rewrite (bind_silent _ _ _ _ _ E2).
  - rewrite Hu2. unfold descrambled. fold w0 w1 w2. rewrite <- Hus. by rewrite <- !app_assoc.
  - rewrite Hr2. change (buf1 s1) with b1. by rewrite Hr1, Hr0.
Qed.

(** [read_page] appends to the data and the meta buffer, and to nothing else. *)
Lemma read_page_run s i b p :
  ready s -> aget (ce s) i = Some b -> stored b s p ->
  exists r b0 b1, read_page i s = Done ((r, page_code p), s <| buf0 := b0 |> <| buf1 := b1 |>, []) /\
    queue_ok b0 /\ queue_ok b1 /\ unread b0 = unread (buf0 s) ++ page_data p /\
    unread b1 = unread (buf1 s) ++ page_meta s p.
Proof.
  intros (Hps & Hms & Hec & Ht & (Hq0 & Hl0) & (Hq1 & Hl1) & _) Hb Hst.
  assert (s <| buf0 := buf0 s |> <| buf1 := buf1 s |> = s) as Hid by by destruct s.
  unfold read_page. run. unfold id. destruct p as [| |data meta]; cbn in Hst.
  - destruct Hst as (r & Hr & <-). exists (bdrv_pread b (h2fmi_page_offset s (addr s)) 1).1, (buf0 s), (buf1 s).
    rewrite (bind_silent _ _ _ _ _ (pread_run s i b _ _ Hb)), Hid. destruct (Z.leb_spec (bdrv_pread b (h2fmi_page_offset s (addr s)) 1).1 0); [|lia].
    split_and!; try done; by rewrite app_nil_r.
  - destruct Hst as (r & m & Hr & E & Hm). exists r, (buf0 s), (buf1 s).
    rewrite (bind_silent _ _ _ _ _ (pread_run s i b _ _ Hb)), Hid, E. cbn [fst snd].
    destruct (Z.leb_spec r 0); [lia|]. change (aget [m] 0) with (Some m). run.
    replace ((m =? 0) || (m =? 48)) with true by lia. split_and!; try done; by rewrite app_nil_r.
  - destruct Hst as ((r & m & Hr & E & Hm0 & Hm48) & (r2 & Hr2 & E2) & Hzd & (r3 & Hr3 & E3) & Hzm).
    rewrite (bind_silent _ _ _ _ _ (pread_run s i b _ _ Hb)), E. cbn [fst snd].
    destruct (Z.leb_spec r 0); [lia|]. change (aget [m] 0) with (Some m). run.
    replace ((m =? 0) || (m =? 48)) with false by lia.
    assert (u32 (meta_size s - 2) = meta_size s - 2) as Hu32 by (apply wrap_fits; unfold fits; lia).
    destruct (map_run (buf0 s) (page_size s)) as (c0 & h0 & Em0 & Hqc0 & Hpc0 & Huc0 & Hlc0); [done|lia|lia|].
    rewrite (bind_silent _ _ _ _ _ (on_buf0_run _ _ _ _ Em0)). set (s1 := s <| buf0 := c0 |>).
    destruct (map_run (buf1 s1) (meta_size s - 2)) as (c1 & h1 & Em1 & Hqc1 & Hpc1 & Huc1 & Hlc1); [done|lia| |].
    { change (buf1 s1) with (buf1 s). lia. }
    rewrite Hu32. rewrite (bind_silent _ _ _ _ _ (on_buf1_run _ _ _ _ Em1)). set (s2 := s1 <| buf1 := c1 |>).
    rewrite (bind_silent _ _ s2 _ s2 (pread_run s2 i b _ _ Hb)), E2. cbn [fst snd].
    destruct (poke_run c0 (rd c0 + zlen (unread (buf0 s))) data (unread (buf0 s)) h0 [])
      as (d0 & Ep0 & Hqd0 & Hpd0 & Hud0 & _); [done|done|by rewrite app_nil_r|lia|done|].
    rewrite (bind_silent _ _ s2 _ _ (on_buf0_run _ s2 _ _ Ep0)). set (s3 := s2 <| buf0 := d0 |>).
    destruct (Z.leb_spec r2 0); [lia|].
    rewrite (bind_silent _ _ s3 _ s3 (pread_run s3 i b _ _ Hb)), E3. cbn [fst snd].
    destruct (poke_run c1 (rd c1 + zlen (unread (buf1 s1))) meta (unread (buf1 s1)) h1 [])
      as (d1 & Ep1 & Hqd1 & Hpd1 & Hud1 & Hrd1 & _); [done|done|by rewrite app_nil_r|lia|done|].
    rewrite (bind_silent _ _ s3 _ _ (on_buf1_run _ s3 _ _ Ep1)). set (s4 := s3 <| buf1 := d1 |>).
    destruct (Z.leb_spec r3 0); [lia|]. rewrite app_nil_r in *. change (buf1 s1) with (buf1 s) in *.
    (* the first twelve bytes are there to print, before and after *)
    assert (forall c m', queue_ok c -> ptr c <> None -> unread c = unread (buf1 s) ++ m' -> 12 <= zlen m' ->
      rd c = rd c1 -> exists x, peek (rd c1 + zlen (unread (buf1 s))) 12 c = Done (x, c, [])) as Hpk.
    { intros c m' Hqc Hpc Huc Hlm Hrc. exists (take 12 m'). apply peek_run with (unread (buf1 s)) (drop 12 m');
        [done|done|by rewrite take_drop| |by rewrite Hrc]. unfold zlen in *. rewrite length_take. lia. }
    destruct (Hpk d1 meta) as (x & Ex); [done|done|done|lia|done|].
    rewrite (bind_silent _ _ s4 _ s4 (on_buf1_peek s4 _ _ _ Ex)).
    destruct (descramble_run s4 (rd c1 + zlen (unread (buf1 s))) (unread (buf1 s)) meta)
      as (d2 & Ed & Hqd2 & Hpd2 & Hud2 & Hrd2); [done|done|done|lia|by rewrite <- Hrd1|done|].
    rewrite (bind_silent _ _ _ _ _ Ed). set (s5 := s4 <| buf1 := d2 |>).
    change (descrambled s4 meta) with (descrambled s meta) in Hud2. change (buf1 s4) with d1 in Hrd2.
    destruct (Hpk d2 (descrambled s meta)) as (x' & Ex'); [done|done|done| |by rewrite Hrd2|].
    { unfold descrambled, unscramble, zlen. rewrite !length_app, !length_le_bytes. lia. }
    rewrite (bind_silent _ _ s5 _ s5 (on_buf1_peek s5 _ _ _ Ex')).
    by exists r3, d0, d2.
Qed.

(** ** Draining a data register *)

(** [n] reads of the first data register, each of [w] bytes. *)
Definition fifo_read (w : Z) : h2fmiM Z :=
  if w =? 1 then h2fmi_creadb H2FMI_DATA0 else if w =? 2 then h2fmi_creads H2FMI_DATA0 else h2fmi_creadl H2FMI_DATA0.
Fixpoint drain (w : Z) (n : nat) : h2fmiM (list Z) :=
  match n with
  | O => ret []
  | S n' => v <- fifo_read w ;; vs <- drain w n' ;; ret (le_bytes (Z.to_nat w) v ++ vs)
  end.

Lemma fifo_read_run s w x y :
  queue_ok (buf0 s) -> (w = 1 \/ w = 2 \/ w = 4) -> unread (buf0 s) = x ++ y -> zlen x = w ->
  exists b, fifo_read w s = Done (le_value x, s <| buf0 := b |>, []) /\ queue_ok b /\ unread b = y.
Proof.
  intros Hq Hw Hu Hx. destruct (read_run (buf0 s) w x y) as (b & E & Hqb & Hub); [done|done|done|lia|].
  exists b. split; [|done].
  assert (fifo_read w s = data0 w s) as -> by (destruct Hw as [-> | [-> | ->]]; done).
  unfold data0. rewrite (bind_silent _ _ _ _ _ (on_buf0_run _ _ _ _ E)). by run.
Qed.

Lemma drain_run w n s x y :
  queue_ok (buf0 s) -> (w = 1 \/ w = 2 \/ w = 4) -> Forall (fits 8) x ->
  unread (buf0 s) = x ++ y -> zlen x = w * Z.of_nat n ->
  exists b, drain w n s = Done (x, s <| buf0 := b |>, []) /\ queue_ok b /\ unread b = y.
Proof.
  intros Hq Hw. revert x s Hq. induction n as [|n IH]; intros x s Hq Hx Hu Hl; cbn [drain].
  { exists (buf0 s). destruct x; [|unfold zlen in Hl; cbn in Hl; lia]. unfold ret. split; [|done].
    do 2 f_equal. by destruct s. }
  unfold zlen in Hl. set (k := Z.to_nat w). assert (k <= length x)%nat as Hk by (unfold k; nia).
  destruct (fifo_read_run s w (take k x) (drop k x ++ y)) as (b1 & E1 & Hq1 & Hu1);
    [done|done|by rewrite app_assoc, take_drop|unfold zlen; rewrite length_take; unfold k in *; lia|].
  destruct (IH (drop k x) (s <| buf0 := b1 |>)) as (b & E & Hqb & Hub); try done.
  { by apply Forall_drop. }
  { unfold zlen. rewrite length_drop. unfold k in *. nia. }
  exists b. split; [|done]. rewrite (bind_silent _ _ _ _ _ E1), (bind_silent _ _ _ _ _ E).
  assert (le_bytes k (le_value (take k x)) = take k x) as Hlv.
  { replace k with (length (take k x)) at 1 by (rewrite length_take; lia).
    apply le_bytes_value. by apply Forall_take. }
  fold k. by rewrite Hlv, take_drop.
Qed.

Lemma ncmd_read_run s b p :
  ready s -> h2fmi_active_chip s < H2FMI_MAX_CHIPS -> test (bitmap s) (bit (h2fmi_active_chip s)) = true ->
  aget (ce s) (h2fmi_active_chip s) = Some b -> stored b s p ->
  exists s' r, h2fmi_do_read (h2fmi_active_chip s) s = Done (r, s', []) /\
    h2fmi_nwritel H2FMI_NCMD 0x3000 s = Done (tt, s', []) /\
    (queue_ok (buf0 s') /\ queue_ok (buf1 s') /\ queue_ok (eccbuf s')) /\
    unread (buf0 s') = unread (buf0 s) ++ page_data p /\
    unread (buf1 s') = unread (buf1 s) ++ page_meta s p /\
    unread (eccbuf s') = unread (eccbuf s) ++
      concat (replicate (Z.to_nat (ecc_stages s)) (le_bytes 4 (page_code p))).
Proof.
  intros Hr Hi Hbm Hb Hst. pose proof Hr as (_ & _ & Hec & _ & _ & _ & (Hqe & Hle)).
  destruct (read_page_run s _ b p Hr Hb Hst) as (r & b0 & b1 & E & Hq0 & Hq1 & Hu0 & Hu1).
  set (s1 := s <| buf0 := b0 |> <| buf1 := b1 |>) in *.
  destruct (ecc_fill (Z.to_nat (ecc_stages s)) 0 (le_bytes 4 (page_code p)) s1) as (e & Ee & Hqe' & Hue);
    [done|done| |].
  { change (eccbuf s1) with (eccbuf s). change (zlen (le_bytes 4 (page_code p))) with 4. lia. }
  exists (s1 <| eccbuf := e |>), r.
  assert (h2fmi_do_read (h2fmi_active_chip s) s = Done (r, s1 <| eccbuf := e |>, [])) as Ed.
  { unfold h2fmi_do_read. rewrite (bind_silent _ _ _ _ _ E). run. unfold id.
    change (ecc_stages s1) with (ecc_stages s). by rewrite (bind_silent _ _ _ _ _ Ee). }
  split; [done|]. split; [|done].
  assert (0 <= h2fmi_active_chip s) as H0.
  { unfold h2fmi_active_chip. destruct (chip s =? 0); apply (fits_wrap 8); lia. }
  change (h2fmi_nwritel H2FMI_NCMD 0x3000) with (h2fmi_do_ncmd 0x3000).
  unfold h2fmi_do_ncmd. cbn [ncmd_bytes]. change (0x3000 =? 0) with false. cbv iota.
  change (0x3000 .& 0xFF) with 0. change (0x3000 >> 8) with 0x30. change (0x30 =? 0) with false. cbv iota.
  change (0x30 .& 0xFF) with 0x30. change (0x30 >> 8) with 0. change (0 =? 0) with true. cbv iota.
  assert (forall c, h2fmi_do_single_ncmd c s = if c =? 0 then Done (tt, s, []) else
    switch c [ (on NAND_CMD_READID, _ <- h2fmi_do_readid (h2fmi_active_chip s) ;; ret tt);
       (on NAND_CMD_READSTART, _ <- h2fmi_do_read (h2fmi_active_chip s) ;; ret tt);
       (on NAND_CMD_ERASE, _ <- h2fmi_do_erase ;; modify (fun s => s <| nstatus ::= fun x => x .| 0x80 |>) ;;;
           when (iopEnabled s) (emit (H2fmiIrq true))) ] (ret tt) s) as Hc.
  { intros c. unfold h2fmi_do_single_ncmd. run. unfold id. rewrite Hbm. unfold H2FMI_MAX_CHIPS in *.
    replace ((h2fmi_active_chip s <? 0) || (16 <=? h2fmi_active_chip s) || negb true) with false by lia.
    by destruct (c =? 0). }
  rewrite (bind_silent _ _ _ _ _ (Hc 0)). rewrite (bind_ret_tt (h2fmi_do_single_ncmd 0x30)), Hc.
  change (48 =? 0) with false. cbv iota. cbn [switch]. change (on NAND_CMD_READID 48) with false. cbv iota.
  change (on NAND_CMD_READSTART 48) with true. cbv iota. by rewrite (bind_silent _ _ _ _ _ Ed).
Qed.

End Pages.

(** ** The list of image files *)
Section Chips.
Context {B : Type} `{BlockLayer B}.
Implicit Types s : h2fmi_state_t (B := B).

(** An entry of the list: perhaps the text of a chip number, and a path. *)
Record chip_entry := mk_entry { entry_ce : option (list Z); entry_path : list Z }.

Definition print_entry (e : chip_entry) : list Z :=
  match entry_ce e with Some t => t ++ [COMMA] ++ entry_path e | None => entry_path e end.
Fixpoint print_chips (l : list chip_entry) : list Z :=
  match l with
  | [] => []
  | [e] => print_entry e
  | e :: r => print_entry e ++ [SEMICOLON] ++ print_chips r
  end.

(** The chips of the entries: an entry without a number is the one after the
    entry before it. *)
Definition entry_index (i : Z) (e : chip_entry) : Z :=
  match entry_ce e with Some t => u32 (default 0 (atoi t)) | None => i end.
Fixpoint number (i : Z) (l : list chip_entry) : list (Z * list Z) :=
  match l with
  | [] => []
  | e :: r => (sgn 32 (entry_index i e), entry_path e) :: number (u32 (entry_index i e + 1)) r
  end.

Definition entry_ok (e : chip_entry) : Prop :=
  entry_path e <> [] /\ SEMICOLON ∉ entry_path e /\
  match entry_ce e with
  | Some t => COMMA ∉ t /\ SEMICOLON ∉ t /\ atoi t <> None
  | None => COMMA ∉ entry_path e
  end.

(** Chips added one after the other, up to the first that fails. *)
Fixpoint add_all (l : list (Z * list Z)) : dev (h2fmi_state_t (B := B)) h2fmi_event Z :=
  match l with
  | [] => ret 0
  | (i, f) :: r => e <- h2fmi_add_chip i f ;; if negb (e =? 0) then ret e else add_all r
  end.

(** Characters that separate nothing are collected. *)
Lemma scan_plain x l token i h s :
  SEMICOLON ∉ x -> h = true \/ COMMA ∉ x ->
  scan_chips (x ++ l) token i h s = scan_chips l (rev x ++ token) i h s.
Proof.
  revert token. induction x as [|c x IH]; intros token Hs Hc; [done|].
  rewrite not_elem_of_cons in Hs. destruct Hs as [Hcs Hs].
  cbn [app scan_chips]. replace (negb h && (c =? COMMA)) with false.
  - replace (c =? SEMICOLON) with false by (symmetry; apply Z.eqb_neq; congruence). cbn [rev]. rewrite <- app_assoc. apply IH; [done|].
    destruct Hc as [?|Hc]; [by left|]. right. rewrite not_elem_of_cons in Hc. by destruct Hc.
  - destruct h; [done|]. destruct Hc as [?|Hc]; [done|]. rewrite not_elem_of_cons in Hc. symmetry. apply Z.eqb_neq. by intros ->; destruct Hc.
Qed.

(** An entry is scanned up to its end. *)
Lemma scan_entry e l i s :
  entry_ok e ->
  scan_chips (print_entry e ++ l) [] i false s =
  scan_chips l (rev (entry_path e)) (entry_index i e) (if entry_ce e then true else false) s.
Proof.
  intros (_ & Hp & He). unfold print_entry, entry_index. destruct (entry_ce e) as [t|].
  - destruct He as (Ht & Hts & Ha). rewrite <- !app_assoc, scan_plain by auto. cbn [app scan_chips].
    change (negb false && (COMMA =? COMMA)) with true. cbv iota. rewrite app_nil_r, rev_involutive.
    destruct (atoi t) as [n|]; [|done]. run. cbn [default]. rewrite scan_plain by auto. by rewrite app_nil_r.
  - rewrite scan_plain by auto. by rewrite app_nil_r.
Qed.

Lemma scan_print l i s : Forall entry_ok l -> scan_chips (print_chips l) [] i false s = add_all (number i l) s.
Proof.
  intros Hl. revert i s. induction Hl as [|e l He Hl IH]; intros i s; [done|].
  destruct l as [|e' l].
  - cbn [print_chips]. rewrite <- (app_nil_r (print_entry e)), scan_entry by done. cbn [number add_all scan_chips].
    destruct (rev (entry_path e)) as [|c t] eqn:Er.
    { apply (f_equal (@rev Z)) in Er. rewrite rev_involutive in Er. by destruct He as [? _]. }
    rewrite <- Er, rev_involutive. unfold bind.
    destruct (h2fmi_add_chip _ _ s) as [[[r s1] es]| |]; [|done|done].
    destruct (Z.eqb_spec r 0) as [->|]; unfold ret; cbn; by rewrite app_nil_r.
  - change (print_chips (e :: e' :: l)) with (print_entry e ++ [SEMICOLON] ++ print_chips (e' :: l)).
    rewrite scan_entry by done. set (rest := print_chips (e' :: l)) in *. cbn [app scan_chips number add_all].
    replace (negb (if entry_ce e then true else false) && (SEMICOLON =? COMMA)) with false
      by by destruct (entry_ce e).
    change (SEMICOLON =? SEMICOLON) with true. cbv iota. rewrite rev_involutive. apply bind_ext. intros r s1.
    destruct (negb (r =? 0)); [done|]. apply IH.
Qed.

(** An image opened in a free place. *)
Lemma add_chip_run s i f :
  0 <= i < 16 -> length (ce s) = 16%nat -> Z.testbit (bitmap s) i = false -> (bdrv_open f).1 = 0 ->
  exists l, aset i (bdrv_open f).2 (ce s) = Some l /\
    h2fmi_add_chip i f s = Done (0, s <| ce := l |> <| bitmap := bitmap s .| bit i |>, []).
Proof.
  intros Hi Hl Hb Hf. destruct (bdrv_open f) as [r b] eqn:E. cbn in Hf. subst r.
  assert (exists l, aset i b (ce s) = Some l) as [l El].
  { rewrite aset_Some by (unfold zlen; rewrite Hl; lia). by eexists. }
  exists l. split; [done|]. unfold h2fmi_add_chip, H2FMI_MAX_CHIPS.
  replace (16 <? i) with false by lia. replace (i <? 0) with false by lia. run. unfold id.
  rewrite test_true_bit, Hb by lia. cbn [when]. run. rewrite E. run. unfold id. rewrite El. run. by destruct s.
Qed.

Definition opened s (i : Z) (f : list Z) : Prop :=
  aget (ce s) i = Some (bdrv_open f).2 /\ Z.testbit (bitmap s) i = true.

Lemma add_all_run l s :
  length (ce s) = 16%nat -> NoDup l.*1 ->
  Forall (fun c => 0 <= c.1 < 16 /\ Z.testbit (bitmap s) c.1 = false /\ (bdrv_open c.2).1 = 0) l ->
  exists s', add_all l s = Done (0, s', []) /\ (forall i f, (i, f) ∈ l -> opened s' i f) /\
    forall i, 0 <= i -> i ∉ l.*1 -> aget (ce s') i = aget (ce s) i /\ Z.testbit (bitmap s') i = Z.testbit (bitmap s) i.
Proof.
  revert s. induction l as [|[i f] l IH]; intros s Hl Hnd Hok; cbn [add_all].
  { exists s. split; [done|]. split; [|done]. intros i f Hin. by apply not_elem_of_nil in Hin. }
  apply Forall_cons in Hok. destruct Hok as [(Hi & Hb & Hf) Hok]. cbn [fst snd] in Hi, Hb, Hf.
  cbn [fmap list_fmap fst] in Hnd. apply NoDup_cons in Hnd. destruct Hnd as [Hni Hnd].
  destruct (add_chip_run s i f Hi Hl Hb Hf) as (c & Ec & E1).
  set (s1 := s <| ce := c |> <| bitmap := bitmap s .| bit i |>) in *.
  assert (forall j, 0 <= j -> Z.testbit (bitmap s1) j = Z.testbit (bitmap s) j || (j =? i)) as Hbit.
  { intros j Hj. change (bitmap s1) with (bitmap s .| bit i). rewrite Z.lor_spec. f_equal.
    unfold bit. rewrite Z.shiftl_spec by done. destruct (Z.eqb_spec j i) as [->|]; [by rewrite Z.sub_diag|].
    destruct (Z.lt_ge_cases j i); [by rewrite Z.testbit_neg_r by lia|].
    apply (Z.bits_above_log2 1); cbn; lia. }
  destruct (IH s1) as (s' & E & Hin & Hout); [change (ce s1) with c; by rewrite (aset_length _ _ _ _ Ec)|done| |].
  { rewrite Forall_forall in *. intros [j g] Hj. destruct (Hok _ Hj) as (Hj16 & Hjb & Hg). cbn [fst snd] in *.
    split; [done|]. split; [|done]. rewrite Hbit, Hjb by lia. destruct (Z.eqb_spec j i) as [->|]; [|done].
    destruct Hni. apply list_elem_of_fmap. by exists (i, g). }
  exists s'. split; [|split].
  - rewrite (bind_silent _ _ _ _ _ E1). exact E.
  - intros j g Hj. apply elem_of_cons in Hj. destruct Hj as [[= -> ->]|Hj]; [|by apply Hin].
    destruct (Hout i) as [H1 H2]; [lia|done|]. split; [rewrite H1; exact (aget_aset_eq _ _ _ _ Ec)|].
    rewrite H2, Hbit, Z.eqb_refl by lia. apply orb_true_r.
  - intros j Hj Hnj. cbn [fmap list_fmap fst] in Hnj. apply not_elem_of_cons in Hnj. destruct Hnj as [Hne Hnj].
    destruct (Hout j Hj Hnj) as [H1 H2]. rewrite H1, H2, Hbit by done. split.
    + apply (aget_aset_ne _ i j) with (2 := Ec). lia.
    + destruct (Z.eqb_spec j i); [done|]. apply orb_false_r.
Qed.

(** The list of image files is read as it is written: for entries whose
    paths hold no separator and whose chip numbers are numbers, setting up the
    chips of the printed list adds the entries one by one, an entry without a
    number following the one before it, and stops at the first that fails.
    When the chips are distinct, below 16 and free, and every image opens, the
    result is 0 and exactly these chips are present, each with its image. *)
Theorem chip_list_opened s l :
  Forall entry_ok l ->
  h2fmi_setup_chips (print_chips l) s = add_all (number 0 l) s /\
  (length (ce s) = 16%nat -> NoDup (number 0 l).*1 ->
   Forall (fun c => 0 <= c.1 < 16 /\ Z.testbit (bitmap s) c.1 = false /\ (bdrv_open c.2).1 = 0) (number 0 l) ->
   exists s', h2fmi_setup_chips (print_chips l) s = Done (0, s', []) /\
     (forall i f, (i, f) ∈ number 0 l -> opened s' i f) /\
     forall i, 0 <= i -> i ∉ (number 0 l).*1 ->
       aget (ce s') i = aget (ce s) i /\ Z.testbit (bitmap s') i = Z.testbit (bitmap s) i).
Proof.
  intros Hl. assert (h2fmi_setup_chips (print_chips l) s = add_all (number 0 l) s) as E by by apply scan_print.
  split; [done|]. intros Hc Hnd Hok. destruct (add_all_run _ s Hc Hnd Hok) as (s' & E' & Hin & Hout).
  exists s'. by rewrite E.
Qed.
End Chips.

(** ** A concrete controller *)
Module H2fmiDemo.

(** Two images, "a" with one page and "b" that is empty; other files cannot be opened. *)
Definition page_a : list Z := [1; 2; 3; 4; 5; 6; 7; 8; 9; 10; 11; 12; 13; 14; 15; 16].
Definition meta_a : list Z := [0x20; 0x21; 0x22; 0x23; 0x24; 0x25; 0x26; 0x27; 0x28; 0x29; 0x2A; 0x2B].
Definition image_a : list Z := [0xAD; 0xD7; 0x94; 0x95; 0; 0; 0; 0] ++ [49] ++ page_a ++ meta_a ++ [0; 0].
Definition open_image (f : list Z) : Z * list Z :=
  match f with [97] => (0, image_a) | [98] => (0, []) | _ => (-2, []) end.
Definition read_image (l : list Z) (off n : Z) : Z * list Z :=
  let d := take (Z.to_nat n) (drop (Z.to_nat off) l) in (zlen d, d).

#[local] Instance images : BlockLayer (list Z) :=
  { bdrv_closed := []; bdrv_open := open_image; bdrv_pread := read_image;
    heap_bytes n := replicate (Z.to_nat n) 0xAA }.
#[local] Instance images_heap : HeapBytes (B := list Z).
Proof. constructor. intros n Hn. cbn. unfold zlen. rewrite length_replicate. lia. Qed.

Definition blank_buffer := mk_buffer None 0 0 0.
Definition controller (meta : Z) (file : list Z) : h2fmi_state_t :=
  match s5l8930_h2fmi_init (Some file) 16 meta 3 0 with
  | Done (s, _) => s <| chip := 8 |>
  | _ => mk_h2fmi [] 0 0 0 0 0 0 0 0 0 0 0 0 0 0 0 blank_buffer blank_buffer blank_buffer false []
  end.

(** "3,a;b": chip 3 is "a" and chip 4 is "b". *)
Definition entries : list chip_entry := [mk_entry (Some [51]) [97]; mk_entry None [98]].
Definition demo : h2fmi_state_t := Eval vm_compute in controller 14 (print_chips entries).


Lemma chip_list_witness :
  exists s', h2fmi_setup_chips (print_chips entries)
      (mk_h2fmi (replicate 16 []) 0 16 14 3 2 0 0 0 0 0 0 0 0 0 0 blank_buffer blank_buffer blank_buffer false [])
    = Done (0, s', []) /\ opened s' 3 [97] /\ opened s' 4 [98].
Proof.
  destruct (chip_list_opened
    (mk_h2fmi (replicate 16 []) 0 16 14 3 2 0 0 0 0 0 0 0 0 0 0 blank_buffer blank_buffer blank_buffer false [])
    entries) as [_ Hok].
  - repeat constructor; unfold entry_ok; cbn; rewrite ?not_elem_of_cons; split_and?; try done;
      apply not_elem_of_nil.
  - destruct Hok as (s' & E & Hin & _).
    + reflexivity.
    + cbn. apply NoDup_cons. split; [|apply NoDup_singleton]. rewrite list_elem_of_singleton. done.
    + change (number 0 entries) with [(3, [97]); (4, [98])].
      repeat (apply Forall_cons; split; [split; [cbn; lia|by split]|]). by apply Forall_nil.
    + exists s'. split; [exact E|]. split; apply Hin; [by left|by right; left].
Defined.

(** The default [meta_size] of 12 leaves ten bytes of meta data, but the code
    prints and descrambles twelve: on a fresh buffer this is out of bounds. *)
Lemma default_meta_overflow : h2fmi_nwritel H2FMI_NCMD 0x3000 (controller 12 (print_chips entries)) = Undef.
Proof. vm_compute. reflexivity. Qed.

(** Chip number 16 passes the guard, which compares with [>]. *)
Lemma chip_16_overflow : h2fmi_add_chip (B := list Z) 16 [97] demo = Undef.
Proof. vm_compute. reflexivity. Qed.

(** A word read of a buffer that holds two bytes moves [read] past [written]:
    of the four bytes written next, two are lost. *)
Lemma short_read_skips :
  (_ <- h2fmi_buffer_write [1; 2] ;; _ <- h2fmi_buffer_read 4 ;; _ <- h2fmi_buffer_write [3; 4; 5; 6] ;;
   h2fmi_buffer_read 4) blank_buffer
  = Done ((2, [5; 6]), mk_buffer (Some ([1; 2; 3; 4; 5; 6] ++ replicate 506 0xAA)) 8 6 512, []).
Proof. vm_compute. reflexivity. Qed.
End H2fmiDemo.
