(* ===== verification/FlashPath.v ===== *)
(** * FlashPath: from a NAND page to guest memory

    The flash controller ([hw/s5l8930_h2fmi.c]) and the DMA controller
    ([hw/s5l8930.c]) meet in the memory map: a flash channel of the DMA reads
    the physical address of the controller's first data register, byte by byte.
    The address space here is RAM (any memory that satisfies the laws of a chain
    of descriptors) with that register at one address. *)
From S2P Require Import Prelude Host Cdma H2fmi.

Section FlashPath.
Context {R K B : Type} `{GuestMemory R} `{CryptoHost K} `{!CbcLength (K := K)}.
Context `{BlockLayer B} `{!HeapBytes (B := B)}.

(** The physical address of the data register. *)
Context (fifo_address : Z).

(** RAM and the flash controller behind the register. *)
Record board := mk_board { ram : R; flash : h2fmi_state_t (B := B) }.

(** Accesses of the data register reach the controller; all others are RAM's.
    A fault of the controller leaves the board as it is. *)
#[export] Instance board_memory : GuestMemory board := {
  phys_read a n m :=
    if (a =? fifo_address) && (n =? 1) then
      match h2fmi_creadb H2FMI_DATA0 (flash m) with
      | Done (v, f, _) => (le_bytes 1 v, mk_board (ram m) f)
      | _ => ([0], m)
      end
    else let (d, r) := phys_read a n (ram m) in (d, mk_board r (flash m));
  phys_write a d m := mk_board (phys_write a d (ram m)) (flash m)
}.

(** RAM that holds the descriptors [desc], and goes on holding them when the
    buffers they describe are written. *)
Class ChainRam (I : R -> Prop) (desc : Z -> option segmentBuffer) := {
  ram_desc a sg m : I m -> desc a = Some sg ->
    exists bs, phys_read a sizeof_segmentBuffer m = (bs, m) /\ segment_of_bytes bs = sg;
  ram_write a sg d m : I m -> desc a = Some sg -> zlen d = seg_size sg -> I (phys_write (seg_buffer sg) d m)
}.

Section Chain.
Context (I : R -> Prop) (desc : Z -> option segmentBuffer) `{!ChainRam I desc}.

Implicit Types (f : h2fmi_state_t (B := B)) (r : R).

Definition board_ok (m : board) : Prop := I (ram m) /\ queue_ok (buf0 (flash m)).

(** One byte, whatever the buffer holds. *)
Lemma fifo_byte f :
  queue_ok (buf0 f) -> exists v f', h2fmi_creadb H2FMI_DATA0 f = Done (v, f', []) /\ queue_ok (buf0 f').
Proof.
  intros Hq. change (h2fmi_creadb H2FMI_DATA0) with (fifo_read (B := B) 1).
  destruct (unread (buf0 f)) as [|x y] eqn:Eu.
  - exists 0, f. split; [|done].
    change (fifo_read 1) with (data0 (B := B) 1). unfold data0.
    rewrite (bind_silent _ _ f (0, []) f); [done|].
    assert (f <| buf0 := buf0 f |> = f) as Hf by by destruct f.
    rewrite <- Hf at 2. apply on_buf0_run. unfold h2fmi_buffer_read. run. unfold id.
    destruct (ptr (buf0 f)) as [data|] eqn:Ep; [|done].
    destruct (unread_Some _ _ Ep Hq) as [_ Hl]. rewrite Eu in Hl. unfold zlen in Hl. cbn in Hl.
    by replace ((written (buf0 f) =? 0) || (written (buf0 f) <=? rd (buf0 f))) with true by lia.
  - destruct (fifo_read_run f 1 [x] y) as (b & E & Hqb & _); [done|by left|by rewrite Eu|done|].
    by exists (le_value [x]), (f <| buf0 := b |>).
Qed.

#[export] Instance board_chain : ChainMemory board_ok desc fifo_address.
Proof.
  split.
  - intros a sg [r f] [Hr Hf] Hd. destruct (ram_desc a sg r Hr Hd) as (bs & E & Hs). exists bs.
    split; [|done]. cbn [phys_read board_memory ram flash]. change (sizeof_segmentBuffer =? 1) with false.
    rewrite andb_false_r, E. done.
  - intros [r f] [Hr Hf]. destruct (fifo_byte f Hf) as (v & f' & E & Hq). exists (u8 v), (mk_board r f').
    cbn [phys_read board_memory ram flash]. rewrite Z.eqb_refl. cbn [andb Z.eqb Pos.eqb]. rewrite E. by split.
  - intros a sg d [r f] [Hr Hf] Hd Hn. split; [|done]. by apply (ram_write a sg).
Qed.

(** Pulling the register drains the data buffer. *)
Lemma pull_drains n r f x y :
  queue_ok (buf0 f) -> Forall (fits 8) x -> unread (buf0 f) = x ++ y -> length x = n ->
  exists b, pull fifo_address n (mk_board r f) = (x, mk_board r (f <| buf0 := b |>)) /\ queue_ok b /\ unread b = y.
Proof.
  revert f x. induction n as [|n IH]; intros f x Hq Hx Hu Hl; destruct x as [|v x]; try done; cbn [pull].
  { exists (buf0 f). by assert (f <| buf0 := buf0 f |> = f) as -> by by destruct f. }
  apply Forall_cons in Hx. destruct Hx as [Hv Hx].
  destruct (fifo_read_run f 1 [v] (x ++ y)) as (b1 & E1 & Hq1 & Hu1); [done|by left|done|done|].
  destruct (IH (f <| buf0 := b1 |>) x) as (b & E & Hqb & Hub); [done|done|done|by injection Hl|].
  exists b. split; [|done]. cbn [phys_read board_memory ram flash]. rewrite Z.eqb_refl. cbn [andb Z.eqb Pos.eqb].
  change (h2fmi_creadb H2FMI_DATA0) with (fifo_read (B := B) 1). rewrite E1, E.
  assert (le_bytes 1 (le_value [v]) = [v]) as -> by (apply (le_bytes_value [v]); by apply Forall_singleton). done.
Qed.

Lemma scattered_ram sgs d r f : scattered sgs d (mk_board r f) = mk_board (scattered sgs d r) f.
Proof. revert d r. induction sgs as [|sg sgs IH]; intros d r; [done|]. cbn [scattered]. apply IH. Qed.

(** C38.  A page travels from its image file to guest memory.  The read command
    0x3000 on a controller that is in order and holds no unread data puts the
    page in the data buffer; a flash channel that is then started on a chain of
    segments of the page's size, its register pointed at the controller's data
    register, finishes: RAM holds the page - deciphered, if the descriptor asks
    for it and the page is not all zero - spread over the segments in the
    chain's order, the data buffer is empty again, the size of the channel is
    zero and its interrupt is raised if it is connected. *)
Theorem page_to_memory f b data meta :
  ready f -> h2fmi_active_chip f < H2FMI_MAX_CHIPS -> test (bitmap f) (bit (h2fmi_active_chip f)) = true ->
  aget (ce f) (h2fmi_active_chip f) = Some b -> stored b f (Page data meta) ->
  unread (buf0 f) = [] -> Forall (fits 8) data ->
  exists f1, h2fmi_nwritel H2FMI_NCMD 0x3000 f = Done (tt, f1, []) /\
    forall fuel s r ch value sg sgs st cfg line,
      memory s = mk_board r f1 -> I r -> 5 <= ch <= 8 ->
      test value 1 = true -> test value 0x80000 && test st 0x80000 = false ->
      aget (status s) ch = Some st -> aget (config s) ch = Some cfg -> test cfg 0x2 = false ->
      aget (dmaSegment s) ch = Some (Some sg) -> aget (size s) ch = Some (page_size f) ->
      aget (creg s) ch = Some fifo_address -> aget (irqs s) ch = Some line ->
      (exists first, chain desc first sgs /\
         if test (seg_flags sg) 1 then aget (segptr s) ch = Some first else seg_address sg = first) ->
      page_size f = total_size sgs -> (length sgs <= fuel)%nat ->
      exists s' f2, s5l8930_cdma_write (K := K) fuel (ch << 12) value s
          = Done (true, s', if (line : bool) then [CdmaIrq ch true] else []) /\
        memory s' = mk_board (scattered sgs (plain s sg data) r) f2 /\ unread (buf0 f2) = [] /\
        aget (size s') ch = Some 0 /\ mstatus s' = mstatus s .| bit ch.
Proof.
  intros Hr Hi Hbm Hb Hst Hu Hd.
  destruct (ncmd_read_run f b _ Hr Hi Hbm Hb Hst) as (f1 & _ & _ & E1 & (Hq0 & _) & Hu0 & _).
  rewrite Hu in Hu0. cbn [app page_data] in Hu0. exists f1. split; [done|].
  intros fuel s r ch value sg sgs st cfg line Hm HI Hch Hv Hack Hsts Hcfg Hrd Hsg Hsz Hcr Hln Hc Ht Hf.
  destruct Hr as ((Hp0 & Hp31) & _). destruct Hst as (_ & _ & Hld & _).
  destruct (flash_transfer_run board_ok desc fifo_address fuel s ch sg sgs (page_size f) st cfg line)
    as (d & m & s' & Ep & _ & E & Hm' & Hsz' & _ & Hms & _); try done; [by rewrite Hm|lia|].
  destruct (pull_drains (length data) r f1 data []) as (c & Epull & _ & Huc);
    [done|done|by rewrite app_nil_r|done|].
  replace (Z.to_nat (page_size f)) with (length data) in Ep by (unfold zlen in Hld; lia).
  rewrite Hm, Epull in Ep. injection Ep as <- <-.
  exists s', (f1 <| buf0 := c |>). rewrite (start_flash_eq fuel s ch value st) by done.
  rewrite Hm', scattered_ram. done.
Qed.
End Chain.
End FlashPath.

(** ** A concrete board *)
Module FlashPathDemo.
Import H2fmiDemo.

(** RAM as a list of bytes from address 0 on, and a cipher that adds the first
    key byte without carry. *)
Definition bytes_at (a n : Z) (l : list Z) : list Z := take (Z.to_nat n) (drop (Z.to_nat a) l).
#[local] Instance ram_memory : GuestMemory (list Z) := {
  phys_read a n m := (bytes_at a n m, m);
  phys_write a d m := default m (splice a d m)
}.
#[local] Existing Instances CdmaDemo.demo_crypto CdmaDemo.demo_cbc images images_heap.

(** The page goes to two segments, ten bytes to 0x80 and six to 0x90. *)
Definition g1 := mk_segment 0x40 3 0x80 10 (zeros 16).
Definition g2 := mk_segment 0 2 0x90 6 (zeros 16).
Definition desc (a : Z) : option segmentBuffer :=
  if a =? 0x20 then Some g1 else if a =? 0x40 then Some g2 else None.
Definition table : list Z := zeros 32 ++ CdmaDemo.bytes_of g1 ++ CdmaDemo.bytes_of g2.
Definition holds_table (m : list Z) : Prop := take 96 m = table /\ length m = 256%nat.

#[local] Instance ram_chain : ChainRam holds_table desc.
Proof.
  split.
  - intros a sg m [Ht Hl] Hd. cbn [phys_read ram_memory]. exists (bytes_at a 32 m). split; [done|].
    assert (forall k, (k <= 64)%nat -> take 32 (drop k m) = take 32 (drop k table)) as Hk.
    { intros k Hk. rewrite <- Ht, skipn_firstn_comm, take_take. f_equal. lia. }
    unfold desc in Hd. destruct (Z.eqb_spec a 0x20) as [->|]; [|destruct (Z.eqb_spec a 0x40) as [->|]; [|done]];
      injection Hd as <-; unfold bytes_at.
    + change (Z.to_nat 0x20) with 32%nat. rewrite (Hk 32%nat) by lia. reflexivity.
    + change (Z.to_nat 0x40) with 64%nat. change (Z.to_nat 32) with 32%nat. rewrite (Hk 64%nat) by lia. reflexivity.
  - intros a sg d m [Ht Hl] Hd Hn. cbn [phys_write ram_memory].
    assert (96 <= seg_buffer sg /\ seg_buffer sg + seg_size sg <= 256) as [Hlo Hhi].
    { unfold desc in Hd. destruct (a =? 0x20); [injection Hd as <-; cbn; lia|].
      destruct (a =? 0x40); [injection Hd as <-; cbn; lia|done]. }
    unfold zlen in Hn. destruct (splice (seg_buffer sg) d m) as [m'|] eqn:E; [|by split].
    change (holds_table m').
    split; [|by rewrite (splice_length _ _ _ _ E)]. rewrite <- Ht.
    rewrite splice_Some in E by (unfold zlen; lia). injection E as <-.
    rewrite take_app_le by (rewrite length_take; lia). rewrite take_take. f_equal. lia.
Qed.

(** Channel 5 set up for the chain, without deciphering, on the demo controller. *)
Definition demo_dma (f : h2fmi_state_t) : s5l8930_cdma_s (M := board (R := list Z) (B := list Z)) (K := list Z) :=
  let s := s5l8930_cdma_init true true true true (mk_board (table ++ zeros 160) f) in
  s <| size ::= <[5%nat := 16]> |> <| creg ::= <[5%nat := 0x81200014]> |> <| segptr ::= <[5%nat := 0x20]> |>
    <| dmaSegment ::= <[5%nat := Some g1]> |>.

Lemma page_to_memory_witness :
  exists f1 s', h2fmi_nwritel H2FMI_NCMD 0x3000 demo = Done (tt, f1, []) /\
    s5l8930_cdma_write (H := board_memory 0x81200014) 2 0x5000 1 (demo_dma f1) = Done (true, s', [CdmaIrq 5 true]) /\
    slice 0x80 10 (ram (memory s')) = Some [1; 2; 3; 4; 5; 6; 7; 8; 9; 10] /\
    slice 0x90 6 (ram (memory s')) = Some [11; 12; 13; 14; 15; 16].
Proof.
  destruct (page_to_memory (K := list Z) 0x81200014 holds_table desc demo image_a page_a meta_a)
    as (f1 & E1 & Hrun).
  - split_and!; reflexivity || (intros; discriminate) || vm_compute; congruence.
  - reflexivity.
  - reflexivity.
  - reflexivity.
  - split; [by exists 1, 49|]. split; [by exists 16|]. split; [reflexivity|]. split; [by exists 12|reflexivity].
  - reflexivity.
  - repeat constructor; unfold fits; lia.
  - destruct (Hrun 2%nat (demo_dma f1) (table ++ zeros 160) 5 1 g1 [g1; g2] 0 0 true)
      as (s' & f2 & E & Hm & _); [done..|lia|done|done|done|done|done|done|done|done|done| |done|cbn; lia|].
    + exists 0x20. split; [|done]. repeat split; done.
    + exists f1, s'. split; [exact E1|]. split; [exact E|]. rewrite Hm. split; vm_compute; reflexivity.
Defined.
End FlashPathDemo.
