(* ===== verification/IphoneEngines.v ===== *)
(** * IphoneEngines: the AES and SHA-1 engines of the first iPhone
    ([hw/iphone2g.c], [hw/iphone2g.h])

    Two register files.  The AES engine deciphers a buffer of guest memory into
    another with a key and an IV loaded through registers; the SHA-1 engine
    hashes a buffer of guest memory.  Guest memory and OpenSSL are interfaces
    (Host.v). *)
From S2P Require Import Prelude Host.

(** ** The AES engine *)
Module Aes.

Definition AES_GO := 0x4.
Definition AES_STATUS := 0xC.
Definition AES_KEYLEN := 0x14.
Definition AES_INSIZE := 0x18.
Definition AES_INADDR := 0x20.
Definition AES_OUTSIZE := 0x24.
Definition AES_OUTADDR := 0x28.
Definition AES_KEY_REG := 0x4C.
Definition AES_TYPE := 0x6C.
Definition AES_IV_REG := 0x74.
Definition AES_KEYSIZE := 0x20.
Definition AES_IVSIZE := 0x10.

(** [AESKeyType] *)
Definition AESCustom := 0.
Definition AESGID := 1.
Definition AESUID := 2.

Definition key_uid : list Z :=
  [0x01; 0x23; 0x45; 0x67; 0x89; 0xAB; 0xCD; 0xEF; 0x01; 0x23; 0x45; 0x67; 0x89; 0xAB; 0xCD; 0xEF].

Section Aes.
Context {M K : Type} `{GuestMemory M} `{CryptoHost K}.

Record aes_s := mk_aes {
  decryptKey : K; ivec : list Z; insize : Z; inaddr : Z; outsize : Z; outaddr : Z;
  keytype : Z; status : Z; operation : Z; keylen : Z; custkey : list Z;
  (** the static variable of [aes_write], and guest memory *)
  keylenop : Z; memory : M
}.

#[export] Instance eta_aes : Eta aes_s := fun s =>
  mk_aes (decryptKey s) (ivec s) (insize s) (inaddr s) (outsize s) (outaddr s) (keytype s) (status s)
    (operation s) (keylen s) (custkey s) (keylenop s) (memory s).

Abbreviation aesM := (dev aes_s Empty_set).

Definition aes_read (offset : Z) : aesM Z :=
  switch offset [ (on AES_STATUS, gets status) ] (ret 0).

Definition mem_read (a n : Z) : aesM (list Z) :=
  s <- gets id ;;
  let (bs, m) := phys_read a n (memory s) in
  modify (fun s => s <| memory := m |>) ;;; ret bs.

(** The words of an array of the state as bytes. *)
Definition word_bytes (ws : list Z) : list Z := flat_map (le_bytes 4) ws.

(** The key schedule for the key type; [false] for the group key. *)
Definition set_key : aesM bool :=
  s <- gets id ;;
  if keytype s =? AESGID then ret false
  else
    when (keytype s =? AESUID) (modify (fun s => s <| decryptKey ::= AES_set_decrypt_key key_uid (16 * 8) |>)) ;;;
    when (keytype s =? AESCustom)
      (modify (fun s => s <| decryptKey ::= AES_set_decrypt_key (word_bytes (custkey s)) (0x20 * 8) |>)) ;;;
    ret true.

(** [case AES_GO].  The input goes through a buffer of 0x1000 bytes on the
    stack. *)
Definition aes_go : aesM unit :=
  s <- gets id ;;
  bs <- mem_read (u32 (inaddr s - 0x80000000)) (insize s) ;;
  inbuf <- lift (splice 0 bs (zeros (Z.to_nat 0x1000))) ;;
  go <- set_key ;;
  if negb go then ret tt
  else
    s <- gets id ;;
    r <- lift (cbc_into (zeros (Z.to_nat (insize s))) inbuf (insize s) (decryptKey s)
                 (word_bytes (ivec s)) (operation s)) ;;
    modify (fun s => s <| memory ::= phys_write (u32 (outaddr s - 0x80000000)) r.1 |>) ;;;
    modify (fun s => s <| custkey := zeros 8 |> <| ivec := zeros 4 |>
                       <| keylenop := 0 |> <| outsize := insize s |> <| status := 0xf |>).

Definition or_into (i v : Z) (l : list Z) : option (list Z) := w ← aget l i; aset i (w .| v) l.

Definition aes_write (offset value : Z) : aesM unit :=
  switch offset
    [ (on AES_GO, aes_go);
      (on AES_KEYLEN,
         s <- gets id ;;
         when (keylenop s =? 1) (modify (fun s => s <| operation := value |>)) ;;;
         modify (fun s => s <| keylenop ::= fun k => u8 (k + 1) |> <| keylen := value |>));
      (on AES_INADDR, modify (fun s => s <| inaddr := value |>));
      (on AES_INSIZE, modify (fun s => s <| insize := value |>));
      (on AES_OUTSIZE, modify (fun s => s <| outsize := value |>));
      (on AES_OUTADDR, modify (fun s => s <| outaddr := value |>));
      (on AES_TYPE, modify (fun s => s <| keytype := value |>));
      (on_range AES_KEY_REG (AES_KEY_REG + AES_KEYSIZE - 1),
         s <- gets id ;;
         k <- lift (or_into ((offset - AES_KEY_REG) / 4) value (custkey s)) ;;
         modify (fun s => s <| custkey := k |>));
      (on_range AES_IV_REG (AES_IV_REG + AES_IVSIZE - 1),
         s <- gets id ;;
         v <- lift (or_into ((offset - AES_IV_REG) / 4) value (ivec s)) ;;
         modify (fun s => s <| ivec := v |>)) ]
    (ret tt).

(** [qemu_mallocz]; the registers' memory is guest memory [m]. *)
Definition aes_init (m : M) : aes_s := mk_aes AES_no_key (zeros 4) 0 0 0 0 0 0 0 0 (zeros 8) 0 m.
End Aes.
End Aes.

(** ** The SHA-1 engine *)
Module Sha.

Definition SHA_CONFIG := 0x0.
Definition SHA_RESET := 0x4.
Definition SHA_UNKSTAT := 0x7c.
Definition SHA_HRESULT := 0x84.
Definition SHA_INSIZE := 0x8c.

Section Sha.
Context {M : Type} `{GuestMemory M} `{ShaLibrary}.

Record sha1_status_s := mk_sha {
  config : Z; reset : Z; hresult : Z; insize : Z; unkstat : Z; hashout : list Z; memory : M
}.

#[export] Instance eta_sha : Eta sha1_status_s := fun s =>
  mk_sha (config s) (reset s) (hresult s) (insize s) (unkstat s) (hashout s) (memory s).

Abbreviation shaM := (dev sha1_status_s Empty_set).

Definition sha1_reset : shaM unit := modify (fun s => mk_sha 0 0 0 0 0 (zeros 0x14) (memory s)).

Definition sha1_read (offset : Z) : shaM Z :=
  switch offset
    [ (on SHA_CONFIG, gets config);
      (on SHA_RESET, ret 0);
      (on SHA_HRESULT, gets hresult);
      (on SHA_INSIZE, gets insize);
      (on_range 0x20 0x34, s <- gets id ;; d <- lift (slice (offset - 0x20) 4 (hashout s)) ;; ret (le_value d)) ]
    (ret 0).

Definition sha1_hash : shaM unit :=
  s <- gets id ;;
  if (hresult s =? 0) || (insize s =? 0) then ret tt
  else
    modify (fun s => s <| insize ::= fun n => u32 (n + 0x20) |>) ;;;
    s <- gets id ;;
    let (d, m) := phys_read (hresult s) (insize s) (memory s) in
    modify (fun s => s <| memory := m |> <| hashout := SHA1 d |>).

Definition sha1_write (offset value : Z) : shaM unit :=
  switch offset
    [ (on SHA_CONFIG,
         s <- gets id ;;
         if test value 0x2 && test (config s) 0x8 then sha1_hash
         else modify (fun s => s <| config := value |>));
      (on SHA_RESET, when (test value 1) sha1_reset);
      (on SHA_HRESULT, modify (fun s => s <| hresult := value |>));
      (on SHA_INSIZE, modify (fun s => s <| insize := value |>));
      (on SHA_UNKSTAT, modify (fun s => s <| unkstat := value |>)) ]
    (ret tt).

Definition sha1_init (m : M) : sha1_status_s := mk_sha 0 0 0 0 0 (zeros 0x14) m.
End Sha.
End Sha.

(** ** A request of the AES engine *)
Module AesRequest.
Import Aes.
Section Request.
Context {M K : Type} `{GuestMemory M} `{CryptoHost K}.
Implicit Types s : aes_s (M := M) (K := K).
Abbreviation aesM := (dev (aes_s (M := M) (K := K)) Empty_set).

(** Words written to consecutive registers from number [i] on. *)
Fixpoint write_words (base i : Z) (ws : list Z) : aesM unit :=
  match ws with
  | [] => ret tt
  | w :: r => aes_write (base + 4 * i) w ;;; write_words base (i + 1) r
  end.

(** What a driver writes to have [n] bytes at [src] processed into [dst]. *)
Definition request (type op src n dst : Z) (key iv : list Z) : aesM unit :=
  aes_write AES_KEYLEN 2 ;;; aes_write AES_KEYLEN op ;;; aes_write AES_TYPE type ;;;
  aes_write AES_INADDR src ;;; aes_write AES_INSIZE n ;;; aes_write AES_OUTADDR dst ;;;
  write_words AES_KEY_REG 0 key ;;; write_words AES_IV_REG 0 iv ;;; aes_write AES_GO 1.

(** Between requests the key and IV registers are clear. *)
Definition idle s : Prop := custkey s = zeros 8 /\ ivec s = zeros 4 /\ keylenop s = 0.

(** The key schedule of a request. *)
Definition engine_key (type : Z) (key : list Z) (old : K) : K :=
  if type =? AESUID then AES_set_decrypt_key key_uid 128 old
  else if type =? AESCustom then AES_set_decrypt_key (word_bytes key) 256 old
  else old.

Lemma or_into_zeros (pre : list Z) w n :
  or_into (zlen pre) w (pre ++ zeros (S n)) = Some (pre ++ [w] ++ zeros n).
Proof.
  unfold or_into, zlen. destruct (aget_Some (pre ++ zeros (S n)) (Z.of_nat (length pre))) as [v Ev].
  { unfold zlen, zeros. rewrite length_app, length_replicate. lia. }
  assert (v = 0) as ->.
  { unfold aget in Ev. destruct (Z.ltb_spec (Z.of_nat (length pre)) 0); [lia|]. rewrite Nat2Z.id in Ev.
    rewrite lookup_app_r in Ev by done. rewrite Nat.sub_diag in Ev. by injection Ev as <-. }
  rewrite Ev. cbn [mbind option_bind]. rewrite aset_Some.
  2: { unfold zlen, zeros. rewrite length_app, length_replicate. lia. }
  rewrite Nat2Z.id, insert_app_r_alt by done. rewrite Nat.sub_diag. reflexivity.
Qed.

Lemma zlen_zeros n : 0 <= n -> zlen (zeros (Z.to_nat n)) = n.
Proof. intros. unfold zlen, zeros. rewrite length_replicate. lia. Qed.

(** One word of the key, and of the IV. *)
Lemma key_write i v s l :
  0 <= i < 8 -> or_into i v (custkey s) = Some l ->
  aes_write (AES_KEY_REG + 4 * i) v s = Done (tt, s <| custkey := l |>, []).
Proof.
  intros Hi E. assert ((AES_KEY_REG + 4 * i - AES_KEY_REG) / 4 = i) as Hidx by (Z.div_mod_to_equations; lia).
  unfold aes_write. rewrite Hidx. cbn [switch]. unfold on, on_range, AES_GO, AES_KEYLEN, AES_INADDR, AES_INSIZE,
    AES_OUTSIZE, AES_OUTADDR, AES_TYPE, AES_KEY_REG, AES_KEYSIZE, AES_IV_REG, AES_IVSIZE.
  zcases; cbn [andb]; run; unfold id; by rewrite (bind_lift _ _ _ _ E).
Qed.

Lemma iv_write i v s l :
  0 <= i < 4 -> or_into i v (ivec s) = Some l ->
  aes_write (AES_IV_REG + 4 * i) v s = Done (tt, s <| ivec := l |>, []).
Proof.
  intros Hi E. assert ((AES_IV_REG + 4 * i - AES_IV_REG) / 4 = i) as Hidx by (Z.div_mod_to_equations; lia).
  unfold aes_write. rewrite Hidx. cbn [switch]. unfold on, on_range, AES_GO, AES_KEYLEN, AES_INADDR, AES_INSIZE,
    AES_OUTSIZE, AES_OUTADDR, AES_TYPE, AES_KEY_REG, AES_KEYSIZE, AES_IV_REG, AES_IVSIZE.
  zcases; cbn [andb]; run; unfold id; by rewrite (bind_lift _ _ _ _ E).
Qed.

Lemma write_key pre ws n s :
  zlen pre + zlen ws <= 8 -> custkey s = pre ++ zeros (length ws + n) ->
  write_words AES_KEY_REG (zlen pre) ws s = Done (tt, s <| custkey := pre ++ ws ++ zeros n |>, []).
Proof.
  revert pre s. induction ws as [|w ws IH]; intros pre s Hl Hk; cbn [write_words].
  { cbn [length Nat.add] in Hk. cbn [app]. rewrite <- Hk. unfold ret. do 2 f_equal. by destruct s. }
  unfold zlen in *. cbn [length] in *.
  rewrite (bind_silent _ _ _ _ _ (key_write (zlen pre) w s (pre ++ [w] ++ zeros (length ws + n))
    ltac:(unfold zlen; lia) ltac:(rewrite Hk; apply or_into_zeros))).
  specialize (IH (pre ++ [w]) (s <| custkey := pre ++ [w] ++ zeros (length ws + n) |>)).
  rewrite length_app in IH. cbn [length] in IH. replace (Z.of_nat (length pre + 1)) with (Z.of_nat (length pre) + 1) in IH by lia.
  rewrite IH; [|lia|by rewrite <- app_assoc]. by rewrite <- !app_assoc.
Qed.

Lemma write_iv pre ws n s :
  zlen pre + zlen ws <= 4 -> ivec s = pre ++ zeros (length ws + n) ->
  write_words AES_IV_REG (zlen pre) ws s = Done (tt, s <| ivec := pre ++ ws ++ zeros n |>, []).
Proof.
  revert pre s. induction ws as [|w ws IH]; intros pre s Hl Hk; cbn [write_words].
  { cbn [length Nat.add] in Hk. cbn [app]. rewrite <- Hk. unfold ret. do 2 f_equal. by destruct s. }
  unfold zlen in *. cbn [length] in *.
  rewrite (bind_silent _ _ _ _ _ (iv_write (zlen pre) w s (pre ++ [w] ++ zeros (length ws + n))
    ltac:(unfold zlen; lia) ltac:(rewrite Hk; apply or_into_zeros))).
  specialize (IH (pre ++ [w]) (s <| ivec := pre ++ [w] ++ zeros (length ws + n) |>)).
  rewrite length_app in IH. cbn [length] in IH. replace (Z.of_nat (length pre + 1)) with (Z.of_nat (length pre) + 1) in IH by lia.
  rewrite IH; [|lia|by rewrite <- app_assoc]. by rewrite <- !app_assoc.
Qed.

(** The start of a loaded engine. *)
Lemma go_run s d m o iv' v :
  keytype s <> AESGID -> 0 <= insize s <= 0x1000 ->
  phys_read (u32 (inaddr s - 0x80000000)) (insize s) (memory s) = (d, m) -> zlen d = insize s ->
  AES_cbc_encrypt d (engine_key (keytype s) (custkey s) (decryptKey s)) (word_bytes (ivec s)) (operation s) = (o, iv') ->
  zlen o = insize s ->
  exists s', aes_write AES_GO v s = Done (tt, s', []) /\ idle s' /\
    memory s' = phys_write (u32 (outaddr s - 0x80000000)) o m /\ status s' = 0xf /\ outsize s' = insize s.
Proof.
  intros Hg Hn Hrd Hd Hcbc Ho.
  set (s1 := s <| memory := m |>).
  set (s2 := s1 <| decryptKey := engine_key (keytype s) (custkey s) (decryptKey s) |>).
  exists (s2 <| memory ::= phys_write (u32 (outaddr s - 0x80000000)) o |> <| custkey := zeros 8 |> <| ivec := zeros 4 |>
             <| keylenop := 0 |> <| outsize := insize s |> <| status := 0xf |>).
  split; [|by split].
  change (aes_write AES_GO v) with (aes_go (M := M) (K := K)). unfold aes_go. run. unfold id.
  rewrite (bind_silent _ _ s d s1) by (unfold mem_read; run; unfold id; by rewrite Hrd).
  rewrite splice_Some by (rewrite ?zlen_zeros; lia).
  change (take (Z.to_nat 0) (zeros (Z.to_nat 0x1000))) with (@nil Z). cbn [app].
  set (inbuf := d ++ _). run.
  rewrite (bind_silent _ _ s1 true s2).
  2: { unfold set_key. run. unfold id. change (keytype s1) with (keytype s).
       destruct (Z.eqb_spec (keytype s) AESGID) as [|_]; [done|]. unfold s2, engine_key, AESUID, AESCustom.
       destruct (Z.eqb_spec (keytype s) 2) as [E2|_]; [rewrite E2; cbn [when]; run; by destruct s|].
       destruct (Z.eqb_spec (keytype s) 0); cbn [when]; run; by destruct s. }
  cbn [negb]. run. unfold id. change (insize s2) with (insize s).
  unfold cbc_into. rewrite slice_Some by (unfold inbuf, zlen in *; rewrite ?length_app; lia).
  assert (take (Z.to_nat (insize s)) (drop (Z.to_nat 0) inbuf) = d) as ->.
  { change (Z.to_nat 0) with 0%nat. rewrite drop_0. apply take_app_length'. unfold zlen in Hd. lia. }
  cbn [mbind option_bind]. change (decryptKey s2) with (engine_key (keytype s) (custkey s) (decryptKey s)).
  change (ivec s2) with (ivec s). change (operation s2) with (operation s). rewrite Hcbc.
  rewrite splice_Some by (rewrite ?zlen_zeros; lia).
  change (take (Z.to_nat 0) _) with (@nil Z). cbn [app].
  rewrite drop_ge by (pose proof (zlen_zeros (insize s) ltac:(lia)); unfold zlen in *; cbn; lia). rewrite app_nil_r. by run.
Qed.

End Request.
End AesRequest.

(** ** A request of the SHA-1 engine *)
Module ShaRequest.
Import Sha.
Section Request.
Context {M : Type} `{GuestMemory M} `{ShaLibrary}.
Implicit Types s : sha1_status_s (M := M).

(** [n] words of the result, read from consecutive registers. *)
Fixpoint read_result (offset : Z) (n : nat) : dev (sha1_status_s (M := M)) Empty_set (list Z) :=
  match n with
  | O => ret []
  | S n' => w <- sha1_read offset ;; ws <- read_result (offset + 4) n' ;; ret (le_bytes 4 w ++ ws)
  end.

Lemma result_word s i :
  length (hashout s) = 20%nat -> 0 <= i < 5 ->
  sha1_read (0x20 + 4 * i) s = Done (le_value (take 4 (drop (4 * Z.to_nat i) (hashout s))), s, []).
Proof.
  intros Hl Hi. unfold sha1_read. cbn [switch].
  unfold on, on_range, SHA_CONFIG, SHA_RESET, SHA_HRESULT, SHA_INSIZE. zcases; cbn [andb].
  run. unfold id. replace (0x20 + 4 * i - 0x20) with (4 * i) by lia. rewrite slice_Some by (unfold zlen; lia).
  run. replace (Z.to_nat (4 * i)) with (4 * Z.to_nat i)%nat by lia. done.
Qed.

Lemma result_words s n i :
  length (hashout s) = 20%nat -> Forall (fits 8) (hashout s) -> 0 <= i -> i + Z.of_nat n <= 5 ->
  read_result (0x20 + 4 * i) n s = Done (take (4 * n) (drop (4 * Z.to_nat i) (hashout s)), s, []).
Proof.
  intros Hl Hf. revert i. induction n as [|n IH]; intros i Hi Hn; cbn [read_result].
  { by rewrite Nat.mul_0_r, take_0. }
  rewrite (bind_silent _ _ _ _ _ (result_word s i Hl ltac:(lia))).
  replace (0x20 + 4 * i + 4) with (0x20 + 4 * (i + 1)) by lia.
  rewrite (bind_silent _ _ _ _ _ (IH (i + 1) ltac:(lia) ltac:(lia))). unfold ret. do 3 f_equal.
  set (l := hashout s) in *. set (w := take 4 (drop (4 * Z.to_nat i) l)).
  assert (le_bytes 4 (le_value w) = w) as ->.
  { replace 4%nat with (length w) at 1 by (unfold w; rewrite length_take, length_drop; lia).
    apply le_bytes_value, Forall_take, Forall_drop. done. }
  unfold w. replace (4 * Z.to_nat (i + 1))%nat with (4 * Z.to_nat i + 4)%nat by lia.
  rewrite <- drop_drop. set (r := drop (4 * Z.to_nat i) l).
  rewrite <- (take_drop 4 r) at 3. rewrite take_app_ge by (unfold r; rewrite length_take, length_drop; lia).
  f_equal. f_equal. unfold r. rewrite length_take, length_drop. lia.
Qed.

(** A hash that was asked for is that of the buffer and the 32 bytes after it,
    and can be read from the five result registers. *)
Lemma sha1_engine_hashes s a n d m :
  0 < a < 2 ^ 32 -> 0 < n -> n + 0x20 < 2 ^ 32 -> phys_read a (n + 0x20) (memory s) = (d, m) ->
  exists s', (sha1_write SHA_RESET 1 ;;; sha1_write SHA_CONFIG 8 ;;; sha1_write SHA_HRESULT a ;;;
      sha1_write SHA_INSIZE n ;;; sha1_write SHA_CONFIG 2) s = Done (tt, s', []) /\
    memory s' = m /\ read_result 0x20 5 s' = Done (SHA1 d, s', []).
Proof.
  intros Ha Hn H32 Hrd.
  exists (mk_sha 8 0 a (n + 0x20) 0 (SHA1 d) m). split; [|split; [done|]].
  - set (s1 := mk_sha 8 0 a n 0 (zeros 0x14) (memory s)).
    assert (sha1_write SHA_CONFIG 2 s1 = Done (tt, mk_sha 8 0 a (n + 0x20) 0 (SHA1 d) m, [])) as E.
    { unfold sha1_write. pick 0%nat. run. unfold id. change (test 2 0x2 && test (config s1) 0x8) with true.
      cbv iota. unfold sha1_hash. run. unfold id. change (hresult s1) with a. change (insize s1) with n.
      replace ((a =? 0) || (n =? 0)) with false by lia. run. unfold id.
      assert (s1 <| insize ::= fun n => u32 (n + 0x20) |> = mk_sha 8 0 a (n + 0x20) 0 (zeros 0x14) (memory s)) as ->.
      { change (mk_sha 8 0 a (u32 (n + 0x20)) 0 (zeros 0x14) (memory s) = mk_sha 8 0 a (n + 0x20) 0 (zeros 0x14) (memory s)).
        by rewrite wrap_fits by (unfold fits; lia). }
      cbn [hresult insize memory]. rewrite Hrd. reflexivity. }
    rewrite (bind_silent _ _ s tt (mk_sha 0 0 0 0 0 (zeros 0x14) (memory s))) by reflexivity.
    rewrite (bind_silent _ _ _ tt (mk_sha 8 0 0 0 0 (zeros 0x14) (memory s))) by reflexivity.
    rewrite (bind_silent _ _ _ tt (mk_sha 8 0 a 0 0 (zeros 0x14) (memory s))) by reflexivity.
    by rewrite (bind_silent _ _ _ tt s1) by reflexivity.
  - rewrite (result_words _ 5 0); [|exact (SHA1_length d)|exact (SHA1_fits d)|lia|lia].
    cbn [hashout]. change (4 * Z.to_nat 0)%nat with 0%nat. rewrite drop_0, take_ge; [done|].
    by rewrite SHA1_length.
Qed.
End Request.
End ShaRequest.

(** ** A concrete memory and library *)
Module EnginesDemo.
Import Aes AesRequest.

(** Memory is a list of bytes from address 0 on; the cipher adds the first key
    byte without carry. *)
Definition bytes_at (a n : Z) (l : list Z) : list Z := take (Z.to_nat n) (drop (Z.to_nat a) (l ++ zeros (Z.to_nat (a + n)))).
#[local] Instance demo_ram : GuestMemory (list Z) := {
  phys_read a n m := (bytes_at a n m, m);
  phys_write a d m := default m (splice a d m)
}.
#[local] Instance demo_cipher : CryptoHost (list Z) := {
  AES_no_key := [];
  AES_set_decrypt_key key bits old := key;
  AES_cbc_encrypt d key iv enc := (map (fun b => b .^ nth 0 key 0) d, iv);
  aes_dump_opens := false
}.
Definition demo_aes : aes_s := aes_init (M := list Z) (K := list Z) ([1; 2; 3; 4] ++ zeros 60).


(** The input buffer is on the stack and the size is not checked. *)
Lemma aes_input_overflow :
  aes_write AES_GO 1 (demo_aes <| insize := 0x1001 |> <| inaddr := 0x80000000 |>) = Undef.
Proof. vm_compute. reflexivity. Qed.

(** A request with the group key is abandoned with its key in the registers:
    the next key is combined with it. *)
Lemma aes_group_key_sticks :
  exists s' s'', request AESGID 0 0x80000000 4 0x80000010 [0xF0; 0; 0; 0; 0; 0; 0; 0] [0; 0; 0; 0] demo_aes
      = Done (tt, s', []) /\
    request AESCustom 0 0x80000000 4 0x80000010 [0x0F; 0; 0; 0; 0; 0; 0; 0] [0; 0; 0; 0] s'
      = Done (tt, s'', []) /\
    slice 16 4 (memory s'') = Some [0xFE; 0xFD; 0xFC; 0xFB].
Proof. do 2 eexists. split; [vm_compute; reflexivity|]. split; vm_compute; reflexivity. Qed.

(** The range of the result registers has one word too many. *)
Lemma sha1_result_overflow :
  Sha.sha1_read 0x34 (Sha.sha1_init (M := list Z) []) = Undef.
Proof. vm_compute. reflexivity. Qed.
End EnginesDemo.
