(* ===== verification/SocRegs.v ===== *)
(** * SocRegs: the plain register blocks of the two chips
    ([hw/s5l8900.c], [hw/s5l8930.c], [hw/iphone2g.c])

    Clock and power registers, identification, GPIO and buttons, the USB PHY and
    the (disabled) SHA-1 engine of the S5L8930.  Debug messages are left out. *)
From S2P Require Import Prelude Host.

(** ** Registers of the USB PHY, the same in both chips *)
Module UsbPhy.
Record usb_phy := mk_phy { usb_ophypwr : Z; usb_ophyclk : Z; usb_orstcon : Z; usb_ophytune : Z }.
#[export] Instance eta_phy : Eta usb_phy := fun s =>
  mk_phy (usb_ophypwr s) (usb_ophyclk s) (usb_orstcon s) (usb_ophytune s).
Abbreviation phyM := (dev usb_phy Empty_set).

Definition usb_phy_read (offset : Z) : phyM Z :=
  switch offset
    [ (on 0x0, gets usb_ophypwr); (on 0x4, gets usb_ophyclk); (on 0x8, gets usb_orstcon);
      (on 0x20, gets usb_ophytune) ]
    (ret 0).
Definition usb_phy_write (offset val : Z) : phyM unit :=
  switch offset
    [ (on 0x0, modify (fun s => s <| usb_ophypwr := val |>)); (on 0x4, modify (fun s => s <| usb_ophyclk := val |>));
      (on 0x8, modify (fun s => s <| usb_orstcon := val |>)); (on 0x20, modify (fun s => s <| usb_ophytune := val |>)) ]
    (ret tt).
Definition usb_phy_init : usb_phy := mk_phy 0 0 0 0.
End UsbPhy.

(** ** The S5L8900 *)
Module S5L8900Regs.
Definition CLOCK1_CONFIG0 := 0x0.
Definition CLOCK1_CONFIG1 := 0x4.
Definition CLOCK1_CONFIG2 := 0x8.
Definition CLOCK1_PLLLOCK := 0x40.
Definition CLOCK1_PLLMODE := 0x44.
Definition POWER_ID := 0x44.
Definition BUTTONS_HOLD := 0x1605.
Definition BUTTONS_HOME := 0x1600.
Definition BUTTONS_VOLUP := 0x1601.
Definition BUTTONS_VOLDOWN := 0x1602.

Record s5l8900_clk1_s := mk_clk1 {
  clk1_config0 : Z; clk1_config1 : Z; clk1_config2 : Z; clk1_pll1con : Z; clk1_pll2con : Z; clk1_pll3con : Z;
  clk1_plllock : Z; clk1_pllmode : Z
}.
Definition s5l8900_clk1_read (addr : Z) : dev s5l8900_clk1_s Empty_set Z :=
  switch addr
    [ (on CLOCK1_CONFIG0, gets clk1_config0); (on CLOCK1_CONFIG1, gets clk1_config1);
      (on CLOCK1_CONFIG2, gets clk1_config2); (on CLOCK1_PLLLOCK, ret 1); (on CLOCK1_PLLMODE, gets clk1_pllmode) ]
    (ret 0).
Definition s5l8900_clk1_write (addr value : Z) : dev s5l8900_clk1_s Empty_set unit := ret tt.
Definition s5l8900_clk_init : s5l8900_clk1_s := mk_clk1 0 0 0 0 0 0 0 0.

Definition s5l8900_sysic_read (addr : Z) : Z :=
  switch addr [ (on POWER_ID, u32 (2 << 0x18)); (on_any [0x7a; 0x7c], 1) ] 0.

(** The state word of the first bank of pins, which the buttons drive: the two
    volume buttons are low when pressed, the others high. *)
Definition s5l8900_gpio_read (addr : Z) : dev Z Empty_set Z :=
  switch addr [ (on 0x7a, ret 1); (on 0x2c4, gets id) ] (ret 0).
Definition s5l8900_gpio_init (gpio_state : Z) : Z :=
  (gpio_state .| bit (BUTTONS_VOLUP .& 0xf)) .| bit (BUTTONS_VOLDOWN .& 0xf).
Definition iphone2g_keyboard_event (keycode : Z) : dev Z Empty_set unit :=
  let set b := modify (fun g => g .| bit (b .& 0xf)) in
  let clear b := modify (fun g => g .&~ bit (b .& 0xf)) in
  switch keycode
    [ (on 0x36, set BUTTONS_HOME); (on 0xb6, clear BUTTONS_HOME);
      (on 0x01, set BUTTONS_HOLD); (on 0x81, clear BUTTONS_HOLD);
      (on 0x51, clear BUTTONS_VOLUP); (on 0xd1, set BUTTONS_VOLUP);
      (on 0x53, clear BUTTONS_VOLDOWN); (on 0xd3, set BUTTONS_VOLDOWN) ]
    (ret tt).

(** The chip identification patches guest memory, and its last register loads
    the two images of the host into it; a file that cannot be read is a crash. *)
Class BootImages := { kernelcache : option (list Z); ramdisk : option (list Z) }.
Section ChipId.
Context {M : Type} `{GuestMemory M} `{BootImages}.
Definition patch : dev M Empty_set unit := modify (phys_write 0x18022FA0 (le_bytes 4 0xffffffff)).
Definition s5l8900_chipid_read (addr : Z) : dev M Empty_set Z :=
  switch addr
    [ (on 0x04, patch ;;; ret 0xfffffffc);
      (on 0x8, ret 0x4);
      (on 0xc,
         patch ;;;
         k <- lift kernelcache ;; modify (phys_write 0x08000000 k) ;;;
         r <- lift ramdisk ;; modify (phys_write 0x9340000 r) ;;;
         ret 0) ]
    (ret 0).
End ChipId.
End S5L8900Regs.

(** ** The S5L8930 *)
Module S5L8930Regs.
Definition s5l8930_misc_sys_read (addr : Z) : Z := switch addr [ (on 0x104, 0); (on_any [0x144; 0x184], 3) ] 0.
Definition s5l8930_chipid_read (addr : Z) : Z :=
  switch addr [ (on 0x0, 0x31800587); (on 0x8, 0xf6a15b30); (on 0xc, 0x47002735) ] 0.
Definition s5l8930_gpio_read (addr : Z) : Z := switch addr [ (on 0xa0, 1); (on 0x9c, 1) ] 0.

(** *** Power manager *)
Record s5l8930_pmgr_s := mk_pmgr {
  armclk : Z; base0 : Z; base1 : Z; base2 : Z; nc0_ref0 : Z; medium0 : Z; medium1 : Z; hperf0 : Z; hperf1 : Z;
  hperf2clk : Z; vid1 : Z; audioclk : Z; lperf1 : Z; mipiclk : Z; prediv0 : Z; prediv1 : Z; prediv2 : Z;
  prediv3 : Z; prediv4 : Z; sdioclk : Z; cdma : Z; d4clk : Z
}.
#[export] Instance eta_pmgr : Eta s5l8930_pmgr_s := fun s =>
  mk_pmgr (armclk s) (base0 s) (base1 s) (base2 s) (nc0_ref0 s) (medium0 s) (medium1 s) (hperf0 s) (hperf1 s)
    (hperf2clk s) (vid1 s) (audioclk s) (lperf1 s) (mipiclk s) (prediv0 s) (prediv1 s) (prediv2 s)
    (prediv3 s) (prediv4 s) (sdioclk s) (cdma s) (d4clk s).

(** [audioclk] has no [break]: its write falls through to [mipiclk]. *)
Definition s5l8930_pmgr_write (addr value : Z) : dev s5l8930_pmgr_s Empty_set unit :=
  switch addr
    [ (on 0x40, modify (fun s => s <| armclk := value |>));
      (on 0x44, modify (fun s => s <| prediv0 := value |>));
      (on 0x48, modify (fun s => s <| prediv1 := value |>));
      (on 0x4c, modify (fun s => s <| prediv2 := value |>));
      (on 0x50, modify (fun s => s <| prediv3 := value |>));
      (on 0x54, modify (fun s => s <| prediv4 := value |>));
      (on 0x5c, modify (fun s => s <| vid1 := value |>));
      (on 0x60, modify (fun s => s <| nc0_ref0 := value |>));
      (on 0x68, modify (fun s => s <| medium0 := value |>));
      (on 0x70, modify (fun s => s <| base0 := value |>));
      (on 0x74, modify (fun s => s <| base1 := value |>));
      (on 0x78, modify (fun s => s <| base2 := value |>));
      (on 0x84, modify (fun s => s <| audioclk := value |>) ;;; modify (fun s => s <| mipiclk := value |>));
      (on 0x88, modify (fun s => s <| mipiclk := value |>));
      (on 0x90, modify (fun s => s <| hperf1 := value |>));
      (on 0x98, modify (fun s => s <| hperf0 := value |>));
      (on 0x9c, modify (fun s => s <| hperf2clk := value |>));
      (on 0xa0, modify (fun s => s <| cdma := value |>));
      (on 0xa8, modify (fun s => s <| lperf1 := value |>));
      (on 0xb0, modify (fun s => s <| sdioclk := value |>));
      (on 0xCC, modify (fun s => s <| medium1 := value |>));
      (on 0xd4, modify (fun s => s <| d4clk := value |>)) ]
    (ret tt).

Definition s5l8930_pmgr_read (addr : Z) : dev s5l8930_pmgr_s Empty_set Z :=
  switch addr
    [ (on 0x0, ret 0xa00187d1); (on 0x4, ret 0x380960); (on 0x8, ret 0x40000000); (on 0x10, ret 0xa0010559);
      (on 0x20, ret 0xa0008205);
      (on 0x40, gets armclk); (on 0x44, gets prediv0); (on 0x48, gets prediv1); (on 0x4c, gets prediv2);
      (on 0x50, gets prediv3); (on 0x54, gets prediv4); (on 0x5c, gets vid1); (on 0x60, gets nc0_ref0);
      (on 0x64, ret 0x30000000); (on 0x68, gets medium0); (on 0x70, gets base0); (on 0x74, gets base1);
      (on 0x78, gets base2); (on 0x84, gets audioclk); (on 0x88, gets mipiclk); (on 0x8c, ret 0xa0000006);
      (on 0x90, gets hperf1); (on 0x98, gets hperf0); (on 0x9c, gets hperf2clk); (on 0xa0, gets cdma);
      (on 0xa4, ret 0x90000000); (on 0xa8, gets lperf1); (on 0xac, ret 0x90000000); (on 0xb0, gets sdioclk);
      (on 0xb4, ret 0x90000000); (on 0xc4, ret 0x8000000c); (on 0xCC, gets medium1); (on 0xd4, gets d4clk) ]
    (ret 0x0).

Definition s5l8930_pmgr_reset (s : s5l8930_pmgr_s) : s5l8930_pmgr_s :=
  s <| armclk := 0x80000000 |> <| base0 := 0x80000002 |> <| base1 := 0x90000002 |> <| base2 := 0x80000004 |>
    <| medium0 := 0xa0000015 |> <| medium1 := 0x80000001 |> <| hperf0 := 0xa0000000 |> <| hperf1 := 0xa0000000 |>
    <| hperf2clk := 0xa0000000 |> <| lperf1 := 0xb0000000 |> <| prediv0 := 0x80000004 |> <| prediv1 := 0xa000000a |>
    <| prediv2 := 0xa0000001 |> <| prediv3 := 0x80000005 |> <| prediv4 := 0xa000000f |> <| nc0_ref0 := 0xa0000003 |>.
Definition s5l8930_pmgr_init : s5l8930_pmgr_s :=
  s5l8930_pmgr_reset (mk_pmgr 0 0 0 0 0 0 0 0 0 0 0 0 0 0 0 0 0 0 0 0 0 0).

(** *** The SHA-1 engine, whose hashing is commented out *)
Record sha1_status_s := mk_sha1 {
  status : Z; reset : Z; hresult : Z; inWordCnt : Z; unkstat : Z; hashIn : option (list Z); hashout : list Z
}.
#[export] Instance eta_sha1 : Eta sha1_status_s := fun s =>
  mk_sha1 (status s) (reset s) (hresult s) (inWordCnt s) (unkstat s) (hashIn s) (hashout s).
Abbreviation sha1M := (dev sha1_status_s Empty_set).

Definition sha1_blank : sha1_status_s := mk_sha1 0 0 0 0 0 None (zeros 0x14).
Definition sha1_reset : sha1M unit := modify (fun _ => sha1_blank).
Definition sha1_read (offset : Z) : sha1M Z :=
  switch offset
    [ (on_range 0x20 0x30,
         s <- gets id ;;
         d <- lift (slice (offset - 0x20) 4 (hashout s)) ;;
         when (offset =? 0x30) sha1_reset ;;;
         ret (le_value d)) ]
    (ret 0).
Definition sha1_write (offset value : Z) : sha1M unit :=
  switch offset
    [ (on_range 0x40 0x7c,
         s <- gets id ;;
         when (inWordCnt s =? 0) (modify (fun s => s <| hashIn := Some (zeros (Z.to_nat 0x10000)) |>)) ;;;
         if 0x10000 <=? inWordCnt s then ret tt
         else
           s <- gets id ;;
           b <- lift (hashIn s) ;;
           b <- lift (aset (inWordCnt s) value b) ;;
           modify (fun s => s <| hashIn := Some b |> <| inWordCnt ::= fun n => u32 (n + 1) |>)) ]
    (ret tt).

(** *** A read of the CE-ATA page raises the SDIO line *)
Definition unmapped_read (offset : Z) : dev unit bool Z := when (offset =? 0x110) (emit true) ;;; ret 0.
End S5L8930Regs.

(** ** What the register blocks promise *)
Module RegLaws.
Import UsbPhy S5L8900Regs S5L8930Regs.

(** The power manager's registers that can be written. *)
Definition pmgr_registers : list Z :=
  [0x40; 0x44; 0x48; 0x4c; 0x50; 0x54; 0x5c; 0x60; 0x68; 0x70; 0x74; 0x78; 0x84; 0x88; 0x90; 0x98; 0x9c; 0xa0;
   0xa8; 0xb0; 0xCC; 0xd4].

(** A written register reads back as written, and any other as before, but for
    the audio clock, which overwrites the MIPI clock. *)
Lemma pmgr_read_after_write a b s v :
  a ∈ pmgr_registers -> b ∈ pmgr_registers -> ~ (a = 0x84 /\ b = 0x88) ->
  exists s', s5l8930_pmgr_write a v s = Done (tt, s', []) /\
    s5l8930_pmgr_read b s' = if b =? a then Done (v, s', []) else
      match s5l8930_pmgr_read b s with Done (x, _, es) => Done (x, s', es) | o => o end.
Proof.
  assert (Forall (fun a => Forall (fun b => ~ (a = 0x84 /\ b = 0x88) ->
    exists s', s5l8930_pmgr_write a v s = Done (tt, s', []) /\
    s5l8930_pmgr_read b s' = if b =? a then Done (v, s', []) else
      match s5l8930_pmgr_read b s with Done (x, _, es) => Done (x, s', es) | o => o end)
    pmgr_registers) pmgr_registers) as Hall.
  { repeat (apply Forall_cons_2; [repeat (apply Forall_cons_2;
      [intros Hne; first [exfalso; apply Hne; by split|eexists; split; reflexivity]|]); apply Forall_nil_2|]).
    apply Forall_nil_2. }
  intros Ha Hb. rewrite Forall_forall in Hall. specialize (Hall a Ha). rewrite Forall_forall in Hall. by apply Hall.
Qed.

Lemma audio_clock_clobbers_mipi s v :
  exists s', s5l8930_pmgr_write 0x84 v s = Done (tt, s', []) /\ s5l8930_pmgr_read 0x88 s' = Done (v, s', []).
Proof. eexists. split; reflexivity. Qed.

(** The SHA-1 engine collects words within its buffer, and its result is zero
    whatever was written. *)
Definition sha1_ok (s : sha1_status_s) : Prop :=
  0 <= inWordCnt s <= 0x10000 /\ hashout s = zeros 0x14 /\
  (0 < inWordCnt s -> exists b, hashIn s = Some b /\ zlen b = 0x10000).

Lemma sha1_write_ok s offset value :
  sha1_ok s -> exists s', sha1_write offset value s = Done (tt, s', []) /\ sha1_ok s'.
Proof.
  intros (Hn & Hh & Hb). unfold sha1_write. cbn [switch].
  destruct (on_range 0x40 0x7c offset); [|by exists s]. run. unfold id.
  assert (exists s1 b, (when (inWordCnt s =? 0) (modify (fun s => s <| hashIn := Some (zeros (Z.to_nat 0x10000)) |>)) : sha1M unit) s
      = Done (tt, s1, []) /\ inWordCnt s1 = inWordCnt s /\ hashout s1 = zeros 0x14 /\ hashIn s1 = Some b /\
      zlen b = 0x10000) as (s1 & b & E1 & Hn1 & Hh1 & Hi1 & Hl).
  { destruct (Z.eqb_spec (inWordCnt s) 0); cbn [when].
    - eexists _, _. split; [reflexivity|]. split; [done|]. split; [done|]. split; [done|].
      unfold zlen, zeros. by rewrite length_replicate.
    - destruct Hb as (b & Hi & Hl); [lia|]. by exists s, b. }
  rewrite (bind_silent _ _ _ _ _ E1). destruct (Z.leb_spec 0x10000 (inWordCnt s)).
  - exists s1. split; [done|]. split; [lia|]. split; [done|]. intros _. by exists b.
  - run. unfold id. rewrite Hi1. run. destruct (aset (inWordCnt s1) value b) as [b'|] eqn:Eb.
    2: { rewrite aset_Some in Eb by lia. done. }
    run. eexists. split; [reflexivity|].
    assert (u32 (inWordCnt s1 + 1) = inWordCnt s + 1) as Hw by (rewrite Hn1; apply wrap_fits; unfold fits; lia).
    split; [|split; [exact Hh1|]].
    + change (0 <= u32 (inWordCnt s1 + 1) <= 0x10000). lia.
    + intros _. exists b'. split; [done|]. unfold zlen in *. by rewrite (aset_length _ _ _ _ Eb).
Qed.

Lemma sha1_read_zero s offset :
  sha1_ok s -> offset ∈ [0x20; 0x24; 0x28; 0x2c; 0x30] ->
  exists s', sha1_read offset s = Done (0, s', []) /\ sha1_ok s'.
Proof.
  intros Hs Ho. pose proof Hs as (_ & Hh & _).
  assert (sha1_ok sha1_blank) as Hb by (split; [done|split; [done|done]]).
  repeat (apply elem_of_cons in Ho; destruct Ho as [->|Ho]); [..|by apply not_elem_of_nil in Ho];
    unfold sha1_read; pick 0%nat; run; unfold id; rewrite Hh; run; [exists s|exists s|exists s|exists s|exists sha1_blank];
    by split.
Qed.

(** The buttons of the phone: a press shows in the bit of its pin, a release
    takes it back, and the other buttons are not touched. *)
Lemma button_press_release g down up :
  (down, up) ∈ [(0x36, 0xb6); (0x01, 0x81); (0x51, 0xd1); (0x53, 0xd3)] ->
  exists g1 g2, iphone2g_keyboard_event down g = Done (tt, g1, []) /\ iphone2g_keyboard_event up g1 = Done (tt, g2, []) /\
    exists n, 0 <= n < 32 /\ Z.testbit g1 n = negb (Z.testbit g2 n) /\
      forall i, 0 <= i -> i <> n -> Z.testbit g1 i = Z.testbit g i /\ Z.testbit g2 i = Z.testbit g i.
Proof.
  assert (forall n i, 0 <= n -> 0 <= i -> Z.testbit (bit n) i = (i =? n)) as Hbit.
  { intros n i Hn Hi. rewrite testbit_bit by done. apply Z.eqb_sym. }
  assert (forall n x i, 0 <= n -> 0 <= i -> Z.testbit (x .| bit n) i = Z.testbit x i || (i =? n)) as Hset
    by (intros; by rewrite Z.lor_spec, Hbit).
  assert (forall n x i, 0 <= n -> 0 <= i -> Z.testbit (x .&~ bit n) i = Z.testbit x i && negb (i =? n)) as Hclr
    by (intros; by rewrite Z.ldiff_spec, Hbit).
  assert (forall n, 0 <= n < 32 -> exists n', 0 <= n' < 32 /\
    Z.testbit (g .| bit n) n' = negb (Z.testbit ((g .| bit n) .&~ bit n) n') /\
    forall i, 0 <= i -> i <> n' -> Z.testbit (g .| bit n) i = Z.testbit g i /\
      Z.testbit ((g .| bit n) .&~ bit n) i = Z.testbit g i) as Hup.
  { intros n Hn. exists n. split; [done|]. rewrite Hclr, Hset, Z.eqb_refl by lia. split; [by destruct (Z.testbit g n)|].
    intros i Hi Hne. rewrite Hclr, Hset by lia. destruct (Z.eqb_spec i n); [done|]. by destruct (Z.testbit g i). }
  assert (forall n, 0 <= n < 32 -> exists n', 0 <= n' < 32 /\
    Z.testbit (g .&~ bit n) n' = negb (Z.testbit ((g .&~ bit n) .| bit n) n') /\
    forall i, 0 <= i -> i <> n' -> Z.testbit (g .&~ bit n) i = Z.testbit g i /\
      Z.testbit ((g .&~ bit n) .| bit n) i = Z.testbit g i) as Hdn.
  { intros n Hn. exists n. split; [done|]. rewrite Hset, Hclr, Z.eqb_refl by lia. split; [by destruct (Z.testbit g n)|].
    intros i Hi Hne. rewrite Hset, Hclr by lia. destruct (Z.eqb_spec i n); [done|]. by destruct (Z.testbit g i). }
  intros Hin. repeat (apply elem_of_cons in Hin; destruct Hin as [[= -> ->]|Hin]); [..|by apply not_elem_of_nil in Hin];
    do 2 eexists; (split; [reflexivity|]); (split; [reflexivity|]).
  - exact (Hup 0 ltac:(lia)).
  - exact (Hup 5 ltac:(lia)).
  - exact (Hdn 1 ltac:(lia)).
  - exact (Hdn 2 ltac:(lia)).
Qed.
End RegLaws.
