(* ===== verification/Interrupts.v ===== *)
(** * Interrupts: from a device's line to the CPU
    ([hw/s5l8900.c], [hw/s5l8930.c], [hw/s5l8930_iop.c], [hw/irq.c])

    Both chips build a chain of PL192 controllers: the first drives the CPU, each
    further one hangs off the one before.  Interrupt number [n] of the chip is
    input [n mod 32] of controller [n / 32].  The S5L8900 has two controllers,
    the S5L8930 and its I/O processor four each. *)
From S2P Require Import Prelude Pl192.

Definition S5L8900_VIC_N := 2%nat.
Definition S5L8930_VIC_N := 4%nat.
Definition S5L8930_ARM7_VIC_N := 4%nat.
Definition VIC_SIZE := 32.

(** [s->irq[n / VIC_SIZE][n % VIC_SIZE]] as a controller and an input of it. *)
Definition get_irq (n : Z) : nat * Z := (Z.to_nat (n / VIC_SIZE), n mod VIC_SIZE).

(** [qemu_set_irq] on such a line. *)
Definition set_line (n level : Z) : vicM unit := pl192_irq_handler (get_irq n).1 (get_irq n).2 level.

(** The controllers as the chips create them: number 0 with both CPU lines, then
    each further one, chained to the one before.  The instance numbers of the
    I/O processor start at 4. *)
Fixpoint more_vics (instance : Z) (j n : nat) : vicM unit :=
  match n with
  | O => ret tt
  | S n' =>
      (fun v => Done (tt, v ++ [pl192_init (instance + Z.of_nat j) 0], [])) ;;;
      pl192_chain (j - 1) j ;;;
      more_vics instance (S j) n'
  end.
Definition init_vics (instance : Z) (n : nat) : vicM unit :=
  (fun v => Done (tt, v ++ [pl192_init instance 2], [])) ;;; more_vics instance 1 (n - 1).

(** ** Lines that are inverted or split ([hw/irq.c])

    A line is what its handler does with a level; [None] is the null line. *)
Section Lines.
Context {St Ev : Type}.
Definition line := option (Z -> dev St Ev unit).
Definition qemu_set_irq (irq : line) (level : Z) : dev St Ev unit :=
  match irq with None => ret tt | Some h => h level end.
(** The inverter and the splitter call the handlers without a null check. *)
Definition qemu_notirq (irq : line) (level : Z) : dev St Ev unit :=
  h <- lift irq ;; h (if level =? 0 then 1 else 0).
Definition qemu_irq_invert (irq : line) : dev St Ev line :=
  qemu_set_irq irq 1 ;;; ret (Some (qemu_notirq irq)).
Definition qemu_splitirq (irq1 irq2 : line) (level : Z) : dev St Ev unit :=
  h1 <- lift irq1 ;; h1 level ;;; h2 <- lift irq2 ;; h2 level.
Definition qemu_irq_split (irq1 irq2 : line) : line := Some (qemu_splitirq irq1 irq2).
End Lines.

(** ** The chain *)

(** Controller [k] of a chain. *)
Definition linked (k : nat) (s : pl192_state) : Prop :=
  match k with
  | O => is_root s
  | S d => irq s = false /\ fiq s = false /\ daisy s = Some d
  end.
Definition chained (v : vics) : Prop := forall k s, v !! k = Some s -> linked k s.

(** What a controller has pending. *)
Definition pending (s : pl192_state) : Z := (rawintr s .| softint s) .& intenable s.

(** A controller that has nothing pending and serves nothing, and whose daisy
    input is not masked. *)
Definition calm (s : pl192_state) : Prop :=
  pending s = 0 /\ current s = PL192_NO_IRQ /\ priority s = 0x10 /\
  Z.testbit (sw_priority_mask s) (daisy_priority s) = true.

Definition calm_below (k : nat) (v : vics) : Prop := forall j s, (j < k)%nat -> v !! j = Some s -> calm s.

(** [v'] differs from [v] only below [k], where both are calm. *)
Definition same_above (k : nat) (v v' : vics) : Prop :=
  length v' = length v /\ chained v' /\ calm_below k v' /\ forall j, (k <= j)%nat -> v' !! j = v !! j.

(** Lowering the FIQ of a chained controller lowers that of the CPU. *)
Lemma lower_fiq fuel k v :
  chained v -> (k < length v)%nat -> (k < fuel)%nat ->
  pl192_lower fuel k true v = Done (tt, v, [VicFiq 0 false]).
Proof.
  revert k. induction fuel as [|fuel IH]; intros k Hc Hk Hf; [lia|].
  destruct (lookup_lt_is_Some_2 v k Hk) as [s Hs]. pose proof (Hc k s Hs) as Hl. cbn [pl192_lower].
  destruct k as [|d].
  - by rewrite <- (lower_root fuel 0 true v s Hs Hl).
  - destruct Hl as (Hi & Hq & Hd). rewrite (bind_vic_at _ _ _ _ Hs), Hi, Hq, Hd. cbn [andb negb when].
    run. apply IH; [done|lia|lia].
Qed.

Lemma chained_insert v k s s' : chained v -> v !! k = Some s -> (linked k s -> linked k s') -> chained (<[k := s']> v).
Proof.
  intros Hc Hs Hl j t Ht. apply list_lookup_insert_Some in Ht as [(-> & <- & _)|[_ Ht]]; [by apply Hl, Hc|by apply Hc].
Qed.

(** The second half of an update, after the FIQ. *)
Definition second_half (fuel k : nat) : vicM unit :=
  t <- vic_at k ;;
  if negb (irq_status t =? 0) || negb (daisy_input t =? 0) then
    h <- lift (pl192_priority_sorter t) ;;
    vic_upd k (fun s => s <| current_highest := h |>) ;;;
    a <- (if h <? PL192_INT_SOURCES then lift (aget (vect_addr t) h) else ret (daisy_vectaddr t)) ;;
    vic_upd k (fun s => s <| address := a |>) ;;;
    when (negb (h =? current t))
      (p <- (if h <? PL192_INT_SOURCES then lift (aget (vect_priority t) h) else ret 0) ;;
       if (h <? PL192_INT_SOURCES) && (priority t <=? p) then ret tt
       else if (h =? PL192_DAISY_IRQ) && (priority t <=? daisy_priority t) then ret tt
       else if h <=? PL192_DAISY_IRQ then pl192_raise fuel k false
       else pl192_lower fuel k false)
  else
    vic_upd k (fun s => s <| current_highest := PL192_NO_IRQ |>) ;;;
    pl192_lower fuel k false.

(** The first half of an update of a chained controller that raises no FIQ. *)
Lemma update_head fuel k v s :
  chained v -> v !! k = Some s -> (k < fuel)%nat -> pending s .& intselect s = 0 ->
  pl192_update (S fuel) k v
  = match second_half fuel k (<[k := recompute s]> v) with
    | Done (x, v', es) => Done (x, v', VicFiq 0 false :: es)
    | o => o
    end.
Proof.
  intros Hc Hs Hf Hp.
  change (pl192_update (S fuel) k) with (bind (vic_upd k recompute) (fun _ => t <- vic_at k ;;
     (if negb (fiq_status t =? 0) then pl192_raise fuel k true else pl192_lower fuel k true) ;;; second_half fuel k)).
  set (v1 := <[k := recompute s]> v).
  assert (v1 !! k = Some (recompute s)) as Hs1 by (apply list_lookup_insert_eq; eapply lookup_lt_Some; eauto).
  assert (chained v1) as Hc1 by (apply (chained_insert _ _ s); [done|done|by destruct k]).
  rewrite (bind_vic_upd _ _ _ _ _ Hs). fold v1. rewrite (bind_vic_at _ _ _ _ Hs1).
  change (fiq_status (recompute s)) with (pending s .& intselect s). rewrite Hp. cbn [Z.eqb negb].
  assert (pl192_lower fuel k true v1 = Done (tt, v1, [VicFiq 0 false])) as E.
  { apply lower_fiq; [done|by eapply lookup_lt_Some|done]. }
  rewrite (bind_Done _ _ _ _ _ _ E). by destruct (second_half fuel k v1) as [[[[] ?] ?]| |].
Qed.

(** What an update leaves in a controller whose winner is [h]. *)
Definition won (s : pl192_state) (h a : Z) : pl192_state := (recompute s) <| current_highest := h |> <| address := a |>.

Lemma won_chained v k s h a : chained v -> v !! k = Some s -> chained (<[k := won s h a]> v).
Proof. intros Hc Hs. apply (chained_insert _ _ s); [done|done|by destruct k]. Qed.

(** An update of an idle controller with a winner raises. *)
Lemma update_raises fuel k v s h a p :
  chained v -> v !! k = Some s -> (k < fuel)%nat -> pending s .& intselect s = 0 ->
  negb (irq_status (recompute s) =? 0) || negb (daisy_input s =? 0) = true ->
  pl192_priority_sorter (recompute s) = Some h -> 0 <= h <= PL192_DAISY_IRQ ->
  level_of s h = Some p -> p < 16 -> current s = PL192_NO_IRQ -> priority s = 0x10 ->
  (if h <? PL192_INT_SOURCES then aget (vect_addr s) h = Some a else a = daisy_vectaddr s) ->
  pl192_update (S fuel) k v =
  match pl192_raise fuel k false (<[k := won s h a]> v) with
  | Done (x, v', es) => Done (x, v', VicFiq 0 false :: es)
  | o => o
  end.
Proof.
  intros Hc Hs Hf Hp Hany Hsort Hh Hlv Hp16 Hcur Hpri Ha.
  rewrite (update_head fuel k v s Hc Hs Hf Hp). unfold second_half.
  set (s1 := recompute s) in *. set (v1 := <[k := s1]> v) in *.
  assert (v1 !! k = Some s1) as Hs1 by (apply list_lookup_insert_eq; eapply lookup_lt_Some; eauto).
  rewrite (bind_vic_at _ _ _ _ Hs1). change (daisy_input s1) with (daisy_input s). rewrite Hany, Hsort. run.
  rewrite (bind_vic_upd _ _ _ _ _ Hs1). set (s2 := s1 <| current_highest := h |>).
  assert (<[k := s2]> v1 !! k = Some s2) as Hs2 by (apply list_lookup_insert_eq; eapply lookup_lt_Some; eauto).
  assert ((if h <? PL192_INT_SOURCES then lift (aget (vect_addr s1) h) else ret (daisy_vectaddr s1) : vicM Z) = ret a) as ->.
  { change (vect_addr s1) with (vect_addr s). change (daisy_vectaddr s1) with (daisy_vectaddr s).
    destruct (h <? PL192_INT_SOURCES); [by rewrite Ha|by subst]. }
  rewrite bind_ret, (bind_vic_upd _ _ _ _ _ Hs2).
  assert (<[k := s2 <| address := a |>]> (<[k := s2]> v1) = <[k := won s h a]> v) as ->
    by (unfold v1; by rewrite !list_insert_insert_eq).
  change (current s1) with (current s). change (priority s1) with (priority s). rewrite Hcur, Hpri.
  change (vect_priority s1) with (vect_priority s). change (daisy_priority s1) with (daisy_priority s).
  unfold level_of, PL192_NO_IRQ, PL192_DAISY_IRQ, PL192_INT_SOURCES in *.
  replace (h =? 32 + 1) with false by lia. cbn [negb when].
  destruct (Z.ltb_spec h 32).
  - replace (h =? 32) with false in * by lia. rewrite Hlv. run. cbn [andb].
    replace (16 <=? p) with false by lia. by replace (h <=? 32) with true by lia.
  - replace (h =? 32) with true in * by lia. injection Hlv as ->. run. cbn [andb].
    replace (16 <=? p) with false by lia. by replace (h <=? 32) with true by lia.
Qed.

(** The only competitor wins. *)
Lemma sole_winner n k s i p :
  vic_ok n k s -> competes s i -> level_of s i = Some p -> Z.testbit (sw_priority_mask s) p = true ->
  (forall j, competes s j -> j = i) -> pl192_priority_sorter s = Some i.
Proof.
  intros Hok Hc Hl Hm Hu. destruct (sorter_correct n k s Hok) as (h & -> & [[_ Hno]|(q & (Hh & _) & _)]).
  - by destruct (Hno i p).
  - by rewrite (Hu h Hh).
Qed.

Lemma pending_status s : pending s = 0 -> irq_status (recompute s) = 0.
Proof. intros E. change (irq_status (recompute s)) with (pending s .&~ intselect s). by rewrite E. Qed.

Lemma won_ok n k s h a : vic_ok n k s -> 0 <= h <= PL192_NO_IRQ -> fits 32 a -> vic_ok n k (won s h a).
Proof. intros Hok Hh Ha. apply recompute_ok in Hok. destruct Hok. constructor; unfold upd; cbn in *; auto. Qed.

Lemma same_above_refl k v : chained v -> calm_below k v -> same_above k v v.
Proof. intros Hc Hb. exact (conj eq_refl (conj Hc (conj Hb (fun _ _ => eq_refl)))). Qed.

(** A change of a calm controller below [k] that leaves it calm. *)
Lemma same_above_step k d v v' s s' :
  v !! d = Some s -> (d < k)%nat -> calm s' -> linked d s' -> calm_below k v -> chained v ->
  same_above d (<[d := s']> v) v' -> same_above k v v'.
Proof.
  intros Hs Hd Hc Hl Hcb Hch (Hlen & Hch' & Hcb' & Heq). split_and!; [by rewrite Hlen, length_insert|done| |].
  - intros j t Hj Ht. destruct (Nat.lt_ge_cases j d); [by eapply Hcb'|]. rewrite Heq in Ht by done.
    apply list_lookup_insert_Some in Ht as [(-> & <- & _)|[_ Ht]]; [done|by eapply Hcb].
  - intros j Hj. rewrite Heq by lia. apply list_lookup_insert_ne. lia.
Qed.

(** Raising the IRQ of controller [k] of a chain that is calm below it raises
    the CPU's and passes the address on. *)
Lemma raise_up fuel n k v s :
  vics_ok n v -> chained v -> v !! k = Some s -> calm_below k v -> (2 * k + 1 <= fuel)%nat ->
  exists v' es r, pl192_raise fuel k false v = Done (tt, v', es ++ [VicIrq 0 true]) /\
    Forall (eq (VicFiq 0 false)) es /\ same_above k v v' /\ v' !! 0%nat = Some r /\ address r = address s.
Proof.
  revert fuel v s. induction k as [|d IH]; intros fuel v s Hv Hc Hs Hcalm Hf; (destruct fuel as [|fuel]; [lia|]).
  - exists v, [], s. rewrite (raise_root fuel 0 false v s Hs (Hc _ _ Hs)).
    pose proof (same_above_refl 0 v Hc Hcalm). by split_and!.
  - destruct fuel as [|fuel]; [lia|].
    pose proof (Hc _ _ Hs) as (Hi & Hq & Hd).
    assert (d < length v)%nat as Hlt by (apply lookup_lt_Some in Hs; lia).
    destruct (lookup_lt_is_Some_2 v d Hlt) as [t Ht]. pose proof (Hcalm d t ltac:(lia) Ht) as Hct.
    pose proof (vics_ok_lookup n v _ _ Hv Hs) as Hoks. pose proof (vics_ok_lookup n v _ _ Hv Ht) as Hokt.
    set (t1 := t <| daisy_vectaddr := address s |> <| daisy_callback := Some (S d) |> <| daisy_input := 1 |>).
    set (v1 := <[d := t1]> v).
    assert (vic_ok n d t1) as Hokt1.
    { assert (S d < n)%nat by (destruct Hv as [<- _]; by apply lookup_lt_Some in Hs).
      destruct Hokt, Hoks. constructor; unfold upd; cbn; try done; unfold fits; lia. }
    assert (vics_ok n v1) as Hv1 by by apply vics_ok_insert.
    assert (chained v1) as Hc1 by (apply (chained_insert _ _ t); [done|done|by destruct d]).
    assert (v1 !! d = Some t1) as Ht1 by (by apply list_lookup_insert_eq).
    destruct Hct as (Hp & Hcur & Hpri & Hmask).
    assert (pl192_priority_sorter (recompute t1) = Some PL192_DAISY_IRQ) as Hsort.
    { apply (sole_winner n d _ _ (daisy_priority t)); [by apply recompute_ok|by right|done|done|].
      intros j [[_ Hj]|[-> _]]; [|done]. rewrite (pending_status t1) in Hj by done. by rewrite Z.bits_0 in Hj. }
    set (t2 := won t1 PL192_DAISY_IRQ (address s)).
    set (v2 := <[d := t2]> v1).
    assert (vic_ok n d t2) as Hokt2.
    { apply won_ok; [done|done|]. by destruct Hoks. }
    destruct (IH fuel v2 t2) as (v' & es & r & E & Hes & Hsame & Hr & Hra);
      [by apply vics_ok_insert|by apply won_chained|by apply list_lookup_insert_eq; unfold v1; rewrite length_insert| |lia|].
    { intros j u Hj Hu. unfold v2, v1 in Hu. rewrite !list_lookup_insert_ne in Hu by lia. by apply (Hcalm j); [lia|]. }
    exists v', (VicFiq 0 false :: es), r. split; [|split; [by constructor|split; [|by split]]].
    + cbn [pl192_raise]. rewrite (bind_vic_at _ _ _ _ Hs), Hi, Hd.
      rewrite (bind_vic_upd _ _ _ _ _ Ht). fold t1 v1.
      rewrite (update_raises fuel d v1 t1 PL192_DAISY_IRQ (address s) (daisy_priority t));
        [fold t2 v2; by rewrite E|done|done|lia| | |done|done|done| |done|done|done].
      * change (pending t .& intselect t = 0). by rewrite Hp.
      * change (daisy_input t1) with 1. by rewrite orb_true_r.
      * destruct Hokt. unfold fits in *. lia.
    + apply (same_above_step _ d v v' t t2); [done|lia|done|pose proof (Hc d t Ht); by destruct d|done|done|].
      unfold v2, v1 in Hsame. by rewrite list_insert_insert_eq in Hsame.
Qed.

(** An update of a controller with nothing pending lowers. *)
Lemma update_lowers fuel k v s :
  chained v -> v !! k = Some s -> (k < fuel)%nat -> pending s = 0 -> daisy_input s = 0 ->
  pl192_update (S fuel) k v =
  match pl192_lower fuel k false (<[k := (recompute s) <| current_highest := PL192_NO_IRQ |>]> v) with
  | Done (x, v', es) => Done (x, v', VicFiq 0 false :: es)
  | o => o
  end.
Proof.
  intros Hc Hs Hf Hp Hd. rewrite (update_head fuel k v s Hc Hs Hf) by by rewrite Hp. unfold second_half.
  assert (<[k := recompute s]> v !! k = Some (recompute s)) as Hs1
    by (apply list_lookup_insert_eq; eapply lookup_lt_Some; eauto).
  rewrite (bind_vic_at _ _ _ _ Hs1), (pending_status s Hp).
  change (daisy_input (recompute s)) with (daisy_input s). rewrite Hd. cbn [Z.eqb negb orb].
  rewrite (bind_vic_upd _ _ _ _ _ Hs1). by rewrite list_insert_insert_eq.
Qed.

(** Lowering the IRQ of controller [k] of a chain that is calm below it lowers
    the CPU's. *)
Lemma lower_up fuel k v s :
  chained v -> v !! k = Some s -> calm_below k v -> (2 * k + 1 <= fuel)%nat ->
  exists v' es, pl192_lower fuel k false v = Done (tt, v', es ++ [VicIrq 0 false]) /\
    Forall (eq (VicFiq 0 false)) es /\ same_above k v v'.
Proof.
  revert fuel v s. induction k as [|d IH]; intros fuel v s Hc Hs Hcalm Hf; (destruct fuel as [|fuel]; [lia|]).
  - exists v, []. rewrite (lower_root fuel 0 false v s Hs (Hc _ _ Hs)).
    pose proof (same_above_refl 0 v Hc Hcalm). by split_and!.
  - destruct fuel as [|fuel]; [lia|].
    pose proof (Hc _ _ Hs) as (Hi & Hq & Hd).
    assert (d < length v)%nat as Hlt by (apply lookup_lt_Some in Hs; lia).
    destruct (lookup_lt_is_Some_2 v d Hlt) as [t Ht]. pose proof (Hcalm d t ltac:(lia) Ht) as Hct.
    set (t1 := t <| daisy_input := 0 |>). set (v1 := <[d := t1]> v).
    assert (chained v1) as Hc1 by (apply (chained_insert _ _ t); [done|done|by destruct d]).
    assert (v1 !! d = Some t1) as Ht1 by (by apply list_lookup_insert_eq).
    set (t2 := (recompute t1) <| current_highest := PL192_NO_IRQ |>). set (v2 := <[d := t2]> v1).
    assert (chained v2) as Hc2 by (apply (chained_insert _ _ t1); [done|done|by destruct d]).
    destruct (IH fuel v2 t2) as (v' & es & E & Hes & Hsame);
      [done|by apply list_lookup_insert_eq; unfold v1; rewrite length_insert| |lia|].
    { intros j u Hj Hu. unfold v2, v1 in Hu. rewrite !list_lookup_insert_ne in Hu by lia. by apply (Hcalm j); [lia|]. }
    exists v', (VicFiq 0 false :: es). split; [|split; [by constructor|]].
    + cbn [pl192_lower]. rewrite (bind_vic_at _ _ _ _ Hs), Hi, Hq, Hd. cbn [andb negb when]. run.
      rewrite (bind_vic_upd _ _ _ _ _ Ht). fold t1 v1.
      rewrite (update_lowers fuel d v1 t1); [fold t2 v2; by rewrite E|done|done|lia|by destruct Hct|done].
    + apply (same_above_step _ d v v' t t2); [done|lia|done|pose proof (Hc d t Ht); by destruct d|done|done|].
      unfold v2, v1 in Hsame. by rewrite list_insert_insert_eq in Hsame.
Qed.

Lemma testbit_line i j : 0 <= i -> 0 <= j -> Z.testbit (bit i) j = (j =? i).
Proof. intros. rewrite testbit_bit by done. apply Z.eqb_sym. Qed.

Section Delivery.
Context (s : pl192_state) (i : Z) (Hi : 0 <= i) (Hp : pending s = 0) (Hen : Z.testbit (intenable s) i = true)
  (Hsel : Z.testbit (intselect s) i = false).

Lemma source_quiet : Z.testbit (rawintr s) i = false /\ Z.testbit (softint s) i = false.
Proof.
  assert (Z.testbit (pending s) i = false) as H by by rewrite Hp, Z.bits_0.
  unfold pending in H. rewrite Z.land_spec, Z.lor_spec, Hen, andb_true_r in H. by apply orb_false_elim in H.
Qed.

(** The asserted line is what is pending then, and nothing once it is released. *)
Lemma pending_raised : pending (s <| rawintr := rawintr s .| bit i |>) = bit i.
Proof.
  apply Z.bits_inj'. intros m Hm. change (pending _) with (((rawintr s .| bit i) .| softint s) .& intenable s).
  rewrite Z.land_spec, !Z.lor_spec, testbit_line by done.
  assert (Z.testbit (pending s) m = false) as H by by rewrite Hp, Z.bits_0.
  unfold pending in H. rewrite Z.land_spec, Z.lor_spec in H.
  destruct (Z.eqb_spec m i) as [->|]; [rewrite Hen; by destruct (Z.testbit (rawintr s) i), (Z.testbit (softint s) i)|].
  by rewrite orb_false_r.
Qed.

Lemma pending_released : (((rawintr s .| bit i) .&~ bit i) .| softint s) .& intenable s = 0.
Proof.
  apply Z.bits_inj'. intros m Hm. rewrite Z.land_spec, Z.lor_spec, Z.ldiff_spec, Z.lor_spec, testbit_line, Z.bits_0 by done.
  assert (Z.testbit (pending s) m = false) as H by by rewrite Hp, Z.bits_0.
  unfold pending in H. rewrite Z.land_spec, Z.lor_spec in H.
  destruct (Z.eqb_spec m i) as [->|]; [destruct source_quiet as [_ ->]; by destruct (Z.testbit (rawintr s) i)|].
  rewrite orb_false_r. by rewrite andb_true_r.
Qed.

Lemma bit_not_fiq : bit i .& intselect s = 0.
Proof.
  apply Z.bits_inj'. intros m Hm. rewrite Z.land_spec, testbit_line, Z.bits_0 by done.
  destruct (Z.eqb_spec m i) as [->|]; [by rewrite Hsel|done].
Qed.

Lemma bit_is_irq : bit i .&~ intselect s = bit i.
Proof.
  apply Z.bits_inj'. intros m Hm. rewrite Z.ldiff_spec, testbit_line by done.
  destruct (Z.eqb_spec m i) as [->|]; [by rewrite Hsel|done].
Qed.

Lemma bit_nonzero : bit i <> 0.
Proof. intros E. assert (Z.testbit (bit i) i = true) as H by by rewrite testbit_line, Z.eqb_refl. by rewrite E, Z.bits_0 in H. Qed.
End Delivery.

Lemma vic_set_eq k f v s : v !! k = Some s ->
  bind (vic_upd k f) (fun _ => vic_update k) v = pl192_update (update_fuel v) k (<[k := f s]> v).
Proof. intros Hs. rewrite (bind_vic_upd _ _ _ _ _ Hs). unfold vic_update, update_fuel. by rewrite length_insert. Qed.

(** Asserting a line of controller [j]. *)
Lemma assert_line N v j i level s p a :
  vics_ok N v -> chained v -> calm_below (S j) v -> 0 <= i < 32 -> level <> 0 ->
  v !! j = Some s -> daisy_input s = 0 ->
  Z.testbit (intenable s) i = true -> Z.testbit (intselect s) i = false ->
  aget (vect_priority s) i = Some p -> Z.testbit (sw_priority_mask s) p = true -> aget (vect_addr s) i = Some a ->
  exists v' es r, pl192_irq_handler j i level v = Done (tt, v', es ++ [VicIrq 0 true]) /\
    Forall (eq (VicFiq 0 false)) es /\ v' !! 0%nat = Some r /\ address r = a /\
    chained v' /\ calm_below j v' /\ v' !! j = Some (won (s <| rawintr := rawintr s .| bit i |>) i a).
Proof.
  intros Hv Hc Hcalm Hi Hlev Hs Hd Hen Hsel Hp Hm Ha.
  destruct (Hcalm j s ltac:(lia) Hs) as (Hpend & Hcur & Hpri & Hmask).
  pose proof (vics_ok_lookup N v j s Hv Hs) as Hok. assert (j < length v)%nat as Hj by by eapply lookup_lt_Some.
  unfold pl192_irq_handler.
  destruct (Z.eqb_spec level 0) as [|_]; [done|]. cbn [negb].
  rewrite (vic_set_eq _ _ _ _ Hs).
  set (s1 := s <| rawintr := rawintr s .| bit i |>).
  change (s <| rawintr ::= fun x => x .| bit i |>) with s1. set (v1 := <[j := s1]> v).
  assert (v1 !! j = Some s1) as Hs1 by by apply list_lookup_insert_eq.
  assert (chained v1) as Hc1 by (apply (chained_insert _ _ s); [done|done|by destruct j]).
  assert (vic_ok N j s1) as Hok1.
  { pose proof (fits_bit 32 i ltac:(lia)). destruct Hok. constructor; unfold upd; cbn; try done. by apply fits_lor. }
  assert (irq_status (recompute s1) = bit i) as Hst.
  { change (pending s1 .&~ intselect s = bit i). unfold s1. rewrite pending_raised by (done || lia). apply bit_is_irq; done || lia. }
  assert (pl192_priority_sorter (recompute s1) = Some i) as Hsort.
  { apply (sole_winner N j _ _ p); [by apply recompute_ok| | |done|].
    - left. split; [done|]. rewrite Hst, testbit_line, Z.eqb_refl by lia. done.
    - rewrite level_of_source by done. exact Hp.
    - intros x [[Hx Hb]|[_ Hx]]; [|by destruct Hx].
      rewrite Hst, testbit_line in Hb by (unfold PL192_INT_SOURCES in *; lia). lia. }
  assert (p < 16) as Hp16.
  { destruct (ok_vect_priority _ _ _ Hok) as [_ Hf]. destruct (Forall_aget _ _ _ _ Hf Hp). lia. }
  assert (level_of s1 i = Some p) as Hlv by by rewrite level_of_source by done.
  assert (fits 32 a) as Hfa.
  { destruct (ok_vect_addr _ _ _ Hok) as [_ Hf]. by apply (Forall_aget _ _ _ _ Hf Ha). }
  assert (update_fuel v = S (2 * length v + 1)) as -> by (unfold update_fuel; lia).
  rewrite (update_raises _ j v1 s1 i a p); [|done|done|lia| | |done| |done|done|done|done|].
  2: { change (pending s1 .& intselect s = 0). unfold s1. rewrite pending_raised by (done || lia). apply bit_not_fiq; done || lia. }
  2: { rewrite Hst. pose proof (bit_nonzero i ltac:(lia)). by destruct (Z.eqb_spec (bit i) 0). }
  2: { unfold PL192_DAISY_IRQ, PL192_INT_SOURCES. lia. }
  2: { unfold PL192_INT_SOURCES. by destruct (Z.ltb_spec i 32); [|lia]. }
  set (s2 := won s1 i a). set (v2 := <[j := s2]> v1).
  assert (v2 !! j = Some s2) as Hs2 by (apply list_lookup_insert_eq; unfold v1; by rewrite length_insert).
  assert (calm_below j v2) as Hcb2.
  { intros k t Hk Ht. unfold v2, v1 in Ht. rewrite !list_lookup_insert_ne in Ht by lia. by apply (Hcalm k); [lia|]. }
  destruct (raise_up (2 * length v + 1) N j v2 s2) as (v3 & es & r & E & Hes & Hsame & Hr & Hra);
    [|by apply won_chained|done|done|lia|].
  { apply vics_ok_insert; [by apply vics_ok_insert|]. apply won_ok; [done| |done]. unfold PL192_NO_IRQ, PL192_INT_SOURCES. lia. }
  destruct Hsame as (_ & Hc3 & Hcb3 & Heq3).
  exists v3, (VicFiq 0 false :: es), r. rewrite E. split_and!; try done; [by constructor|by rewrite Heq3].
Qed.

(** Releasing the only line that was pending. *)
Lemma release_line v3 j i s2 :
  chained v3 -> calm_below j v3 -> v3 !! j = Some s2 -> daisy_input s2 = 0 ->
  current s2 = PL192_NO_IRQ -> priority s2 = 0x10 -> Z.testbit (sw_priority_mask s2) (daisy_priority s2) = true ->
  ((rawintr s2 .&~ bit i) .| softint s2) .& intenable s2 = 0 ->
  exists v'' es', pl192_irq_handler j i 0 v3 = Done (tt, v'', es' ++ [VicIrq 0 false]) /\
    Forall (eq (VicFiq 0 false)) es' /\ chained v'' /\ calm_below (S j) v''.
Proof.
  intros Hc3 Hcb3 Hs3 Hd Hcur Hpri Hmask Hq.
  unfold pl192_irq_handler. change (0 =? 0) with true. cbn [negb].
  rewrite (vic_set_eq _ _ _ _ Hs3). set (s4 := s2 <| rawintr ::= fun x => x .&~ bit i |>). set (v4 := <[j := s4]> v3).
  assert (j < length v3)%nat as Hj3 by by eapply lookup_lt_Some.
  assert (v4 !! j = Some s4) as Hs4 by by apply list_lookup_insert_eq.
  assert (chained v4) as Hc4 by (apply (chained_insert _ _ s2); [done|done|by destruct j]).
  assert (pending s4 = 0) as Hp4 by exact Hq.
  assert (update_fuel v3 = S (2 * length v3 + 1)) as -> by (unfold update_fuel; lia).
  rewrite (update_lowers _ j v4 s4) by (done || lia).
  set (s5 := (recompute s4) <| current_highest := PL192_NO_IRQ |>). set (v5 := <[j := s5]> v4).
  assert (v5 !! j = Some s5) as Hs5 by (apply list_lookup_insert_eq; unfold v4; by rewrite length_insert).
  destruct (lower_up (2 * length v3 + 1) j v5 s5) as (v6 & es' & E' & Hes' & Hl6 & Hc6 & Hcb6 & Heq6).
  { apply (chained_insert _ _ s4); [done|done|by destruct j]. }
  { done. }
  { intros k t Hk Ht. unfold v5, v4 in Ht. rewrite !list_lookup_insert_ne in Ht by lia. by apply (Hcb3 k). }
  { lia. }
  exists v6, (VicFiq 0 false :: es'). rewrite E'. split; [done|]. split; [by constructor|]. split; [done|].
  intros k t Hk Ht. destruct (Nat.eq_dec k j) as [->|]; [|apply (Hcb6 k); [lia|done]].
  rewrite Heq6, Hs5 in Ht by lia. injection Ht as <-. by split_and!.
Qed.

(** C40.  A device's line reaches the CPU, through however many chained
    controllers.  In a chip whose controllers up to that of line [n] are calm,
    with the line enabled as an IRQ and its priority unmasked, asserting the
    line ends with the CPU's IRQ line raised (before that only its FIQ line is
    driven, low); the first controller then offers the vector the driver set for
    the line, whose controller names it as the most urgent.  Releasing the line
    lowers the CPU's IRQ line again and leaves the chain calm. *)
Theorem line_reaches_cpu N v n j i level s p a :
  vics_ok N v -> chained v -> calm_below (S j) v -> get_irq n = (j, i) -> level <> 0 ->
  v !! j = Some s -> daisy_input s = 0 ->
  Z.testbit (intenable s) i = true -> Z.testbit (intselect s) i = false ->
  aget (vect_priority s) i = Some p -> Z.testbit (sw_priority_mask s) p = true -> aget (vect_addr s) i = Some a ->
  exists v' es r sj, set_line n level v = Done (tt, v', es ++ [VicIrq 0 true]) /\
    Forall (eq (VicFiq 0 false)) es /\
    v' !! 0%nat = Some r /\ address r = a /\ v' !! j = Some sj /\ current_highest sj = i /\
    exists v'' es', set_line n 0 v' = Done (tt, v'', es' ++ [VicIrq 0 false]) /\
      Forall (eq (VicFiq 0 false)) es' /\ chained v'' /\ calm_below (S j) v''.
Proof.
  intros Hv Hc Hcalm Hn Hlev Hs Hd Hen Hsel Hp Hm Ha.
  assert (0 <= i < 32) as Hi by (injection Hn as _ <-; apply Z.mod_pos_bound; unfold VIC_SIZE; lia).
  destruct (Hcalm j s ltac:(lia) Hs) as (Hpend & Hcur & Hpri & Hmask).
  unfold set_line. rewrite Hn. cbn [fst snd].
  destruct (assert_line N v j i level s p a) as (v' & es & r & E & Hes & Hr & Hra & Hc' & Hcb' & Hj); [done..|].
  destruct (release_line v' j i _ Hc' Hcb' Hj Hd Hcur Hpri Hmask (pending_released s i (proj1 Hi) Hpend Hen))
    as (v'' & es' & Hrel).
  exists v', es, r, (won (s <| rawintr := rawintr s .| bit i |>) i a).
  split_and!; try done. by exists v'', es'.
Qed.

(** ** As created *)
Definition created (instance : Z) (j : nat) : pl192_state :=
  match j with
  | O => pl192_init instance 2
  | S d => (pl192_init (instance + Z.of_nat j) 0) <| daisy := Some d |>
  end.

Lemma more_vics_run instance n v :
  (0 < length v)%nat ->
  more_vics instance (length v) n v = Done (tt, v ++ map (created instance) (seq (length v) n), []).
Proof.
  revert v. induction n as [|n IH]; intros v Hl; cbn [more_vics seq map]; [by rewrite app_nil_r|].
  destruct (length v) as [|d] eqn:El; [lia|].
  set (t := pl192_init (instance + Z.of_nat (S d)) 0).
  rewrite (bind_silent _ _ v tt (v ++ [t])) by done.
  assert ((v ++ [t]) !! S d = Some t) as Ht by (rewrite <- El; by rewrite lookup_app_r, Nat.sub_diag by done).
  unfold pl192_chain. rewrite (bind_vic_upd _ _ _ _ _ Ht).
  rewrite insert_app_r_alt, El, Nat.sub_diag by lia. cbn [list_insert insert].
  replace (S d - 1)%nat with d by lia.
  change (<[0%nat := t <| daisy := Some d |>]> [t]) with [t <| daisy := Some d |>].
  change (t <| daisy := Some d |>) with (created instance (S d)).
  specialize (IH (v ++ [created instance (S d)])). rewrite length_app, El, Nat.add_1_r in IH.
  rewrite IH by lia. by rewrite <- app_assoc.
Qed.

Lemma created_ok instance n j : (j < n)%nat -> vic_ok n j (created instance j).
Proof.
  intros Hj. destruct j as [|d]; cbn [created].
  - by constructor; try (split; [reflexivity|]; repeat constructor); repeat constructor.
  - constructor; cbn; try done; try lia; try (split; [reflexivity|]; repeat constructor); repeat constructor; done.
Qed.

(** The chips' controllers are chained, well formed and calm from the start. *)
Lemma init_vics_calm instance n :
  (0 < n)%nat ->
  exists v, init_vics instance n [] = Done (tt, v, []) /\ length v = n /\ vics_ok n v /\ chained v /\
    calm_below n v /\ forall j s, v !! j = Some s -> daisy_input s = 0.
Proof.
  intros Hn. set (v := map (created instance) (seq 0 n)). exists v.
  assert (length v = n) as Hlen by (unfold v; by rewrite length_map, length_seq).
  assert (forall j s, v !! j = Some s -> s = created instance j /\ (j < n)%nat) as Hget.
  { intros j s Hs. apply list_lookup_fmap_Some in Hs as (x & Hs & Hx). apply lookup_seq in Hx as [-> ?]. done. }
  split; [|split; [done|split; [split; [done|]|split; [|split]]]].
  - destruct n as [|n]; [lia|]. unfold init_vics. rewrite (bind_silent _ _ [] tt [created instance 0]) by done.
    replace (S n - 1)%nat with n by lia. exact (more_vics_run instance n [created instance 0] ltac:(cbn; lia)).
  - intros j s Hs. destruct (Hget j s Hs) as [-> Hj]. by apply created_ok.
  - intros j s Hs. destruct (Hget j s Hs) as [-> Hj]. by destruct j.
  - intros j s _ Hs. destruct (Hget j s Hs) as [-> Hj]. by destruct j.
  - intros j s Hs. destruct (Hget j s Hs) as [-> Hj]. by destruct j.
Qed.

(** ** A concrete chip *)
Module InterruptsDemo.

(** The S5L8930 with interrupt 0x35 (DMA channel 5) enabled, its vector set and
    its priority raised; it is input 21 of the second controller. *)
Definition setup : vicM unit :=
  init_vics 0 S5L8930_VIC_N ;;;
  pl192_write 1 (0x100 + 4 * 21) 0x40001234 ;;; pl192_write 1 (0x200 + 4 * 21) 3 ;;;
  pl192_write 1 PL192_INTENABLE (bit 21).
Definition chip : vics := Eval vm_compute in match setup [] with Done (_, v, _) => v | _ => [] end.

Lemma chip_ok : vics_ok 4 chip /\ chained chip /\ calm_below 4 chip.
Proof.
  split; [split; [done|]|split].
  - intros [|[|[|[|j]]]] s; [intros [= <-]..|done];
      by constructor; try (split; [reflexivity|]; repeat constructor); repeat constructor.
  - intros [|[|[|[|j]]]] s; [intros [= <-]..|done]; by repeat split.
  - intros [|[|[|[|j]]]] s _; [intros [= <-]..|done]; by repeat split.
Qed.

Lemma line_reaches_cpu_witness :
  exists v' es r, set_line 0x35 1 chip = Done (tt, v', es ++ [VicIrq 0 true]) /\
    v' !! 0%nat = Some r /\ address r = 0x40001234.
Proof.
  destruct chip_ok as (Hok & Hc & Hcalm).
  destruct (line_reaches_cpu 4 chip 0x35 1 21 1 (nth 1 chip (pl192_alloc 0)) 3 0x40001234)
    as (v' & es & r & sj & E & _ & Hr & Ha & _); [exact Hok|exact Hc| |reflexivity|lia|reflexivity..|].
  - intros j s Hj. apply Hcalm. lia.
  - exists v', es, r. split; [exact E|]. split; [exact Hr|exact Ha].
Defined.

(** The second UART of the S5L8900 is wired to the line of the first: when both
    assert it, one of them releasing it takes the other's request away. *)
Lemma shared_line_lost :
  match (init_vics 0 S5L8900_VIC_N ;;; set_line 24 1 ;;; set_line 24 1 ;;; set_line 24 0) [] with
  | Done (_, v, _) => option_map rawintr (v !! 0%nat) = Some 0
  | _ => False
  end.
Proof. vm_compute. reflexivity. Qed.
End InterruptsDemo.
