(* ===== verification/TcpUsbBus.v ===== *)
(** * TcpUsbBus: a USB device at the other end of a TCP connection
    ([hw/tcp_usb_bus.c])

    For every accepted connection a pass-through device is put on the USB bus of
    the machine.  A packet the host controller hands to the device becomes a
    request on the connection and is completed when its response comes back.
    Of the connection ([hw/tcp_usb.c]) the device sees whether it exists, is
    closed and has a request under way; the answer to a request, or the end of
    the connection, is taken to come after the call that makes the request. *)
From stdpp Require Import relations.
From S2P Require Import Prelude.

Definition USB_TOKEN_SETUP := 0x2d.
Definition USB_TOKEN_IN := 0x69.
Definition USB_TOKEN_OUT := 0xe1.
Definition USB_MSG_ATTACH := 0x100.
Definition USB_MSG_DETACH := 0x101.
Definition USB_MSG_RESET := 0x102.
Definition USB_RET_NODEV := -1.
Definition USB_RET_NAK := -2.
Definition USB_RET_STALL := -3.
Definition USB_RET_ASYNC := -5.
Definition USB_STATE_NOTATTACHED := 0.
Definition USB_STATE_ATTACHED := 1.
Definition USB_STATE_DEFAULT := 3.
Definition USB_REQ_SET_ADDRESS := 0x05.
Definition USB_DIR_IN := 0x80.
Definition tcp_usb_setup := bit 0.
Definition tcp_usb_reset := bit 1.
Definition tcp_usb_enumdone := bit 2.
Definition EBUSY := 16.

Record tcp_usb_header := mk_header { addr : Z; ep : Z; flags : Z; length_ : Z }.
#[export] Instance eta_header : Eta tcp_usb_header := fun h => mk_header (addr h) (ep h) (flags h) (length_ h).

(** A packet of the host controller; [packet_id] stands for its address. *)
Record USBPacket := mk_packet { packet_id : Z; pid : Z; devaddr : Z; devep : Z; len : Z; data : list Z }.

(** The connection as far as the device sees it. *)
Record connection := mk_connection { closed : bool; busy : bool }.

Record tcp_passthrough := mk_passthrough {
  (** of the embedded [USBDevice] *)
  state : Z; dev_addr : Z; remote_wakeup : Z; setup_buf : list Z; setup_len : Z; setup_index : Z;
  tcp : option connection; header : tcp_usb_header; packet : option Z; cancelled : bool
}.
#[export] Instance eta_passthrough : Eta tcp_passthrough := fun s =>
  mk_passthrough (state s) (dev_addr s) (remote_wakeup s) (setup_buf s) (setup_len s) (setup_index s)
    (tcp s) (header s) (packet s) (cancelled s).

(** What is visible: requests on the connection (with the packet whose memory
    they use), completed packets with their length, deferred packets, the
    device leaving the bus and the end of the connection. *)
Inductive bridge_event :=
  | BridgeRequest (h : tcp_usb_header) (p : option Z)
  | BridgeDefer (p : Z)
  | BridgeComplete (p len : Z)
  | BridgeDetach
  | BridgeCleanup.

Abbreviation bridgeM := (dev tcp_passthrough bridge_event).

(** [tcp_usb_request] on the device's connection, which must exist. *)
Definition tcp_usb_request (p : option Z) : bridgeM Z :=
  s <- gets id ;;
  c <- lift (tcp s) ;;
  if busy c then ret (- EBUSY)
  else
    modify (fun s => s <| tcp := Some (mk_connection (closed c) true) |>) ;;;
    emit (BridgeRequest (header s) p) ;;;
    ret 0.

(** The response: the connection is free again before the callback runs. *)
Definition passthrough_tcp (h : tcp_usb_header) : bridgeM Z :=
  if test (flags h) tcp_usb_reset then ret 0
  else
    s <- gets id ;;
    match packet s with
    | None => ret 0
    | Some p =>
        emit (BridgeComplete p (length_ h)) ;;;
        modify (fun s => s <| packet := None |> <| dev_addr := addr h |>) ;;;
        ret 0
    end.
Definition response (h : tcp_usb_header) : bridgeM Z :=
  s <- gets id ;;
  c <- lift (tcp s) ;;
  modify (fun s => s <| tcp := Some (mk_connection (closed c) false) |>) ;;;
  passthrough_tcp h.

Definition passthrough_cancel : bridgeM unit := modify (fun s => s <| cancelled := true |> <| packet := None |>).

Definition passthrough_closed : bridgeM unit :=
  s <- gets id ;;
  _ <- lift (tcp s) ;;
  modify (fun s => s <| tcp := None |>) ;;;
  emit BridgeCleanup ;;;
  emit BridgeDetach.

Definition passthrough_init : bridgeM Z := modify (fun s => s <| packet := None |>) ;;; ret 0.

Definition passthrough_reset : bridgeM unit :=
  s <- gets id ;;
  match tcp s with
  | None => ret tt
  | Some c =>
      if closed c then ret tt
      else
        modify (fun s => s <| packet := None |> <| header := mk_header 0 0 tcp_usb_reset 0 |>) ;;;
        _ <- tcp_usb_request None ;; ret tt
  end.

(** [usb_defer_packet] and the request; its failure stalls. *)
Definition defer_request (p : USBPacket) (h : tcp_usb_header -> tcp_usb_header) (refused : Z) : bridgeM Z :=
  modify (fun s => s <| header ::= h |>) ;;;
  emit (BridgeDefer (packet_id p)) ;;;
  r <- tcp_usb_request (Some (packet_id p)) ;;
  ret (if r <? 0 then refused else USB_RET_ASYNC).

Definition byte (l : list Z) (i : Z) : Z := default 0 (aget l i).

Definition do_token_setup (p : USBPacket) : bridgeM Z :=
  if negb (len p =? 8) then ret USB_RET_STALL
  else
    d <- lift (slice 0 8 (data p)) ;;
    modify (fun s => s <| setup_buf := d |> <| setup_len := (byte d 7 << 8) .| byte d 6 |> <| setup_index := 0 |>) ;;;
    s <- gets id ;;
    let request := (byte d 0 << 8) .| byte d 1 in
    defer_request p (fun _ => mk_header (dev_addr s) 0
      (if request =? USB_REQ_SET_ADDRESS then tcp_usb_setup .| tcp_usb_enumdone else tcp_usb_setup) 8)
      USB_RET_STALL.

(** The length of the header is a signed 16-bit field. *)
Definition do_token_in (p : USBPacket) : bridgeM Z :=
  s <- gets id ;;
  defer_request p (fun _ => mk_header (dev_addr s) (u8 (devep p .| USB_DIR_IN)) 0 (sgn 16 (setup_len s))) USB_RET_STALL.
Definition do_token_out (p : USBPacket) : bridgeM Z :=
  s <- gets id ;;
  defer_request p (fun _ => mk_header (dev_addr s) (u8 (devep p .& 0x7f)) 0 (sgn 16 (len p))) USB_RET_STALL.

Definition passthrough_packet (p : USBPacket) : bridgeM Z :=
  switch (pid p)
    [ (on USB_MSG_ATTACH, modify (fun s => s <| state := USB_STATE_ATTACHED |>) ;;; ret 0);
      (on USB_MSG_DETACH, modify (fun s => s <| state := USB_STATE_NOTATTACHED |>) ;;; ret 0);
      (on USB_MSG_RESET,
         modify (fun s => s <| remote_wakeup := 0 |> <| dev_addr := 0 |> <| state := USB_STATE_DEFAULT |>) ;;;
         passthrough_reset ;;; ret 0) ]
    (s <- gets id ;;
     if (state s <? USB_STATE_DEFAULT) || negb (devaddr p =? dev_addr s) then ret USB_RET_NODEV
     else
       match tcp s with
       | None => ret USB_RET_STALL
       | Some _ =>
           match packet s with
           | Some _ => ret USB_RET_NAK
           | None =>
               modify (fun s => s <| packet := Some (packet_id p) |>) ;;;
               switch (pid p)
                 [ (on USB_TOKEN_SETUP, do_token_setup p);
                   (on USB_TOKEN_IN, do_token_in p);
                   (on USB_TOKEN_OUT, do_token_out p) ]
                 (ret USB_RET_STALL)
           end
       end).

Definition passthrough_data (p : USBPacket) : bridgeM Z :=
  s <- gets id ;;
  match tcp s with
  | None => ret USB_RET_STALL
  | Some _ =>
      switch (pid p)
        [ (on USB_TOKEN_OUT, defer_request p (fun _ => mk_header (dev_addr s) (u8 (devep p .& 0x7f)) 0 (sgn 16 (len p))) USB_RET_NAK);
          (on USB_TOKEN_IN, defer_request p (fun _ => mk_header (dev_addr s) (u8 (devep p .| USB_DIR_IN)) 0 (sgn 16 (len p))) USB_RET_NAK) ]
        (ret USB_RET_STALL)
  end.

(** ** The server: one turn of its thread

    [accepted]: whether a connection came in, [bus]: whether the machine has a
    USB bus.  The device starts zeroed; leaving and joining the bus send it the
    corresponding messages. *)
Inductive turn := Retry | Stop | Plugged (s : tcp_passthrough) (es : list bridge_event).
Definition new_passthrough : tcp_passthrough :=
  mk_passthrough 0 0 0 (zeros 8) 0 0 (Some (mk_connection false false)) (mk_header 0 0 0 0) None false.
Definition tcp_bus_turn (accepted bus : bool) : turn :=
  if negb accepted then Retry
  else if negb bus then Stop
  else
    match (_ <- passthrough_init ;;
           _ <- passthrough_packet (mk_packet 0 USB_MSG_DETACH 0 0 0 []) ;;
           passthrough_packet (mk_packet 0 USB_MSG_ATTACH 0 0 0 [])) new_passthrough with
    | Done (_, s, es) => Plugged s es
    | _ => Stop
    end.

(** ** Packets are completed one at a time *)

(** What the host controller sees of a device. *)
Inductive seen := Accepted (p : Z) | Completed (p len : Z).

Record world := mk_world { device : tcp_passthrough; log : list seen }.

Definition accepted (r p : Z) : list seen := if r =? USB_RET_ASYNC then [Accepted p] else [].
Definition completions (es : list bridge_event) : list seen :=
  flat_map (fun e => match e with BridgeComplete p n => [Completed p n] | _ => [] end) es.

(** A token packet; a setup packet has eight bytes. *)
Definition is_token (p : USBPacket) : Prop :=
  (pid p = USB_TOKEN_SETUP /\ len p = 8 /\ length (data p) = 8%nat) \/ pid p = USB_TOKEN_IN \/ pid p = USB_TOKEN_OUT.

Definition bus_message (m : Z) : USBPacket := mk_packet 0 m 0 0 0 [].

(** The steps of a device on a bus whose controller hands it token packets,
    attaches, detaches and resets it, and of the connection.  A response is to
    the request under way, and says so; the bus is reset between packets, and
    the response to a reset is awaited. *)
Inductive bridge_step : world -> world -> Prop :=
  | step_packet w p r s es :
      is_token p ->
      (forall c, tcp (device w) = Some c -> packet (device w) = None -> busy c = false) ->
      passthrough_packet p (device w) = Done (r, s, es) ->
      bridge_step w (mk_world s (log w ++ completions es ++ accepted r (packet_id p)))
  | step_response w h r s es c :
      tcp (device w) = Some c -> busy c = true ->
      (test (flags h) tcp_usb_reset = true <-> packet (device w) = None) ->
      response h (device w) = Done (r, s, es) ->
      bridge_step w (mk_world s (log w ++ completions es))
  | step_message w m r s es :
      m ∈ [USB_MSG_ATTACH; USB_MSG_DETACH] ->
      passthrough_packet (bus_message m) (device w) = Done (r, s, es) ->
      bridge_step w (mk_world s (log w ++ completions es))
  | step_reset w r s es :
      packet (device w) = None ->
      passthrough_packet (bus_message USB_MSG_RESET) (device w) = Done (r, s, es) ->
      bridge_step w (mk_world s (log w ++ completions es))
  | step_closed w s es :
      passthrough_closed (device w) = Done (tt, s, es) ->
      bridge_step w (mk_world s (log w ++ completions es)).

(** Completed packets, each accepted right before. *)
Definition served (hist : list (Z * Z)) : list seen := flat_map (fun '(p, n) => [Accepted p; Completed p n]) hist.
Definition under_way (o : option Z) : list seen := match o with Some p => [Accepted p] | None => [] end.

(** A packet is under way only on a busy connection, as long as there is one. *)
Definition bridge_ok (w : world) : Prop :=
  (forall c p, tcp (device w) = Some c -> packet (device w) = Some p -> busy c = true) /\
  exists hist, log w = served hist ++ under_way (packet (device w)).

Lemma request_free s c p :
  tcp s = Some c -> busy c = false ->
  tcp_usb_request p s = Done (0, s <| tcp := Some (mk_connection (closed c) true) |>, [BridgeRequest (header s) p]).
Proof. intros Et Eb. unfold tcp_usb_request. run. unfold id. rewrite Et. run. by rewrite Eb. Qed.

Lemma defer_free s c p f ref :
  tcp s = Some c -> busy c = false ->
  defer_request p f ref s =
  Done (USB_RET_ASYNC, s <| header ::= f |> <| tcp := Some (mk_connection (closed c) true) |>,
        [BridgeDefer (packet_id p); BridgeRequest (f (header s)) (Some (packet_id p))]).
Proof.
  intros Et Eb. unfold defer_request. run. set (s1 := s <| header ::= f |>).
  rewrite (bind_Done _ _ s1 tt s1 [BridgeDefer (packet_id p)]) by done.
  by rewrite (bind_Done _ _ _ _ _ _ (request_free s1 c (Some (packet_id p)) Et Eb)).
Qed.

(** A token packet is refused without a trace, or becomes the one under way. *)
Lemma token_packet s p :
  is_token p -> (forall c, tcp s = Some c -> packet s = None -> busy c = false) ->
  (exists r, passthrough_packet p s = Done (r, s, []) /\ r <> USB_RET_ASYNC) \/
  (packet s = None /\ exists c c' s' es, tcp s = Some c /\
     passthrough_packet p s = Done (USB_RET_ASYNC, s', es) /\ completions es = [] /\
     packet s' = Some (packet_id p) /\ tcp s' = Some c' /\ busy c' = true).
Proof.
  intros Ht Hfree.
  assert (passthrough_packet p s = (s <- gets id ;;
     if (state s <? USB_STATE_DEFAULT) || negb (devaddr p =? dev_addr s) then ret USB_RET_NODEV
     else match tcp s with
       | None => ret USB_RET_STALL
       | Some _ => match packet s with
           | Some _ => ret USB_RET_NAK
           | None => modify (fun s => s <| packet := Some (packet_id p) |>) ;;;
               switch (pid p) [ (on USB_TOKEN_SETUP, do_token_setup p); (on USB_TOKEN_IN, do_token_in p);
                   (on USB_TOKEN_OUT, do_token_out p) ] (ret USB_RET_STALL)
           end
       end) s) as ->.
  { unfold passthrough_packet. cbn [switch]. unfold on, USB_MSG_ATTACH, USB_MSG_DETACH, USB_MSG_RESET.
    by destruct Ht as [(-> & _) | [-> | ->]]. }
  run. unfold id. destruct (_ || _); [left; by exists USB_RET_NODEV|].
  destruct (tcp s) as [c|] eqn:Et; [|left; by exists USB_RET_STALL].
  destruct (packet s) eqn:Ep; [left; by exists USB_RET_NAK|]. right. split; [done|].
  pose proof (Hfree c eq_refl eq_refl) as Hb. run.
  set (s1 := s <| packet := Some (packet_id p) |>).
  destruct Ht as [(Hp & Hl & Hd) | [Hp|Hp]]; rewrite Hp; [pick 0%nat|pick 1%nat|pick 2%nat].
  - unfold do_token_setup. rewrite Hl. change (negb (8 =? 8)) with false. cbv iota.
    rewrite slice_Some by (unfold zlen; lia). run. unfold id. set (s2 := _ <| setup_index := 0 |>).
    do 4 eexists. split; [done|]. split; [by apply (defer_free s2 c)|]. by split_and!.
  - unfold do_token_in. run. unfold id. do 4 eexists. split; [done|]. split; [by apply (defer_free s1 c)|]. by split_and!.
  - unfold do_token_out. run. unfold id. do 4 eexists. split; [done|]. split; [by apply (defer_free s1 c)|]. by split_and!.
Qed.

Lemma bridge_step_ok w w' : bridge_ok w -> bridge_step w w' -> bridge_ok w'.
Proof.
  intros [Hbusy [hist Hlog]] Hstep. destruct Hstep as
    [w p r s es Ht Hfree E|w h r s es c Et Eb Hh E|w m r s es Hm E|w r s es Hp E|w s es E].
  - destruct (token_packet (device w) p Ht Hfree) as [(r' & E' & Hr)|(Hn & c & c' & s' & es' & Et & E' & Hc & Hp & Et' & Eb)];
      rewrite E in E'; injection E' as -> -> ->.
    + split; [exact Hbusy|]. exists hist. cbn [log device completions flat_map app]. unfold accepted.
      destruct (Z.eqb_spec r' USB_RET_ASYNC); [done|]. by rewrite app_nil_r.
    + split; [intros c1 p1 H1 _; cbn [device] in H1; by rewrite Et' in H1; injection H1 as <-|].
      exists hist. cbn [log device]. rewrite Hc, Hlog, Hn, Hp. cbn [under_way app]. by rewrite app_nil_r.
  - unfold response in E. revert E. run. unfold id. rewrite Et. run.
    set (s1 := (device w) <| tcp := Some (mk_connection (closed c) false) |>). unfold passthrough_tcp.
    destruct (test (flags h) tcp_usb_reset) eqn:Er.
    + intros [= <- <- <-]. destruct Hh as [Hh _]. specialize (Hh eq_refl). split.
      * intros c1 p1 _ H1. change (packet (device w) = Some p1) in H1. by rewrite Hh in H1.
      * exists hist. cbn [log device completions flat_map]. by rewrite app_nil_r.
    + run. unfold id. change (packet s1) with (packet (device w)).
      destruct (packet (device w)) as [p|] eqn:Ep; [|by destruct Hh as [_ Hh]; specialize (Hh eq_refl)].
      rewrite (bind_Done _ _ s1 tt s1 [BridgeComplete p (length_ h)]) by done. run. intros [= <- <- <-].
      split; [done|]. exists (hist ++ [(p, length_ h)]). cbn [log device completions flat_map app under_way].
      change (packet _) with (@None Z). rewrite Hlog. unfold served. rewrite flat_map_app. cbn [flat_map under_way app].
      by rewrite app_nil_r, <- !app_assoc.
  - assert (es = [] /\ tcp s = tcp (device w) /\ packet s = packet (device w)) as (-> & Ht & Hp).
    { apply elem_of_cons in Hm as [->|Hm]; [|apply elem_of_cons in Hm as [->|Hm]; [|by apply not_elem_of_nil in Hm]];
        revert E; unfold passthrough_packet, bus_message; cbn [pid];
        [pick 0%nat|pick 1%nat]; run; by intros [= <- <- <-]. }
    split; cbn [log device]; [by rewrite Ht, Hp|]. exists hist. rewrite Hp. cbn. by rewrite app_nil_r.
  - revert E. unfold passthrough_packet, bus_message. cbn [pid]. pick 2%nat. run. unfold passthrough_reset.
    set (s1 := _ <| state := USB_STATE_DEFAULT |>). run. unfold id. change (tcp s1) with (tcp (device w)).
    assert (forall s', packet s' = None -> exists hist, log w ++ [] = served hist ++ under_way (packet s')) as Hl.
    { intros s' ->. exists hist. rewrite app_nil_r, Hlog, Hp. done. }
    destruct (tcp (device w)) as [c|] eqn:Et; [destruct (closed c)|].
    + run. intros [= <- <- <-]. split; [intros c1 p1 _ H1; change (packet (device w) = Some p1) in H1; by rewrite Hp in H1|by apply Hl].
    + run. set (s2 := _ <| header := _ |>). unfold tcp_usb_request. run. unfold id.
      change (tcp s2) with (tcp (device w)). rewrite Et. run. destruct (busy c).
      * run. intros [= <- <- <-]. split; [done|by apply Hl].
      * run. intros [= <- <- <-]. split; [done|by apply Hl].
    + run. intros [= <- <- <-]. split; [intros c1 p1 _ H1; change (packet (device w) = Some p1) in H1; by rewrite Hp in H1|by apply Hl].
  - revert E. unfold passthrough_closed. run. unfold id. destruct (tcp (device w)) as [c|] eqn:Et; [|done]. run.
    intros [= <- <-]. split; [done|]. exists hist. cbn [log device]. cbn. by rewrite app_nil_r.
Qed.


(** ** A concrete device *)
Module BridgeDemo.

Definition plugged : tcp_passthrough := Eval vm_compute in
  match tcp_bus_turn true true with Plugged s _ => s | _ => new_passthrough end.
(** Addressed and reset by its controller. *)
Definition ready : tcp_passthrough := plugged <| state := USB_STATE_DEFAULT |>.
Definition reset_done := mk_header 0 0 tcp_usb_reset 0.
Definition get_descriptor : USBPacket := mk_packet 1 USB_TOKEN_SETUP 0 0 8 [0x80; 6; 0; 1; 0; 0; 18; 0].
Definition read_in : USBPacket := mk_packet 2 USB_TOKEN_IN 0 0 8 (zeros 8).


(** A setup packet that is not eight bytes long is stalled but stays the
    device's packet: all later ones are refused as if it were busy. *)
Lemma short_setup_wedges :
  exists s', passthrough_packet (mk_packet 1 USB_TOKEN_SETUP 0 0 7 (zeros 7)) ready = Done (USB_RET_STALL, s', []) /\
    passthrough_packet get_descriptor s' = Done (USB_RET_NAK, s', []).
Proof. eexists. split; vm_compute; reflexivity. Qed.

(** After a packet was cancelled its request is still under way: the next
    packet is stalled, and then completed by the response to the first. *)
Lemma cancelled_response_completes_next :
  exists s1 s2 s3 es, passthrough_packet get_descriptor ready = Done (USB_RET_ASYNC, s1, es) /\
    (passthrough_cancel ;;; passthrough_packet read_in) s1 = Done (USB_RET_STALL, s2, [BridgeDefer 2]) /\
    response (mk_header 0 0 0 8) s2 = Done (0, s3, [BridgeComplete 2 8]).
Proof. do 4 eexists. split; [vm_compute; reflexivity|]. split; vm_compute; reflexivity. Qed.

(** A reset takes the packet under way from the device without completing it. *)
Lemma reset_loses_packet :
  exists s1 s2 es es', passthrough_packet get_descriptor ready = Done (USB_RET_ASYNC, s1, es) /\
    passthrough_packet (bus_message USB_MSG_RESET) s1 = Done (0, s2, es') /\
    packet s2 = None /\ completions es' = [].
Proof. do 4 eexists. split; [vm_compute; reflexivity|]. split; [vm_compute; reflexivity|]. by split. Qed.

(** An IN token asks for as many bytes as the last setup packet announced,
    whatever the size of its own buffer. *)
Lemma in_length_unchecked :
  exists s', passthrough_packet read_in (ready <| setup_len := 255 |>)
    = Done (USB_RET_ASYNC, s', [BridgeDefer 2; BridgeRequest (mk_header 0 0x80 0 255) (Some 2)]).
Proof. eexists. vm_compute. reflexivity. Qed.
End BridgeDemo.
