(* ===== verification/Iop.v ===== *)
(** * Iop: the I/O processor of the S5L8930 ([hw/s5l8930_iop.c])

    A second CPU with interrupt controllers of its own.  The main processor
    writes a start address and a control word; starting patches guest memory,
    moves the lines of the flash channels over to the controllers of the I/O
    processor and sends its CPU to the start address.  [run_on_cpu] returns after
    the function has run; the CPUs themselves are visible as requests to them. *)
From S2P Require Import Prelude Host Pl192 Interrupts.

Definition S5L8930_CDMA_CHANNEL5_IRQ := 0x35.
Definition S5L8930_CDMA_CHANNEL6_IRQ := 0x36.
Definition S5L8930_CDMA_CHANNEL7_IRQ := 0x37.
Definition S5L8930_CDMA_CHANNEL8_IRQ := 0x38.
Definition S5L8930_H2FMI_IRQ0 := 0x22.
Definition S5L8930_H2FMI_IRQ1 := 0x23.
Definition S5L8930_TIMER0_IRQ := 5.

Inductive iop_cpu := MainCpu | IopCpu.

(** Requests to the CPUs ([cpu_interrupt]), the new lines of the flash channels
    ([replaceCDMAIRQHandlers]) and the second line of the timer ([setTimerIRQ2]). *)
Inductive iop_event :=
  | IopHalt (c : iop_cpu)
  | IopExitTb (c : iop_cpu)
  | IopCdmaLines (l : list (nat * Z))
  | IopTimerLine (l : nat * Z).

Section Iop.
Context {M : Type} `{GuestMemory M}.

(** [pc] is register 15 of the I/O processor. *)
Record s5l8930_iop_s := mk_iop { status : Z; startaddr : Z; pc : Z; mem : M }.
#[export] Instance eta_iop : Eta s5l8930_iop_s := fun s => mk_iop (status s) (startaddr s) (pc s) (mem s).

Abbreviation iopM := (dev s5l8930_iop_s iop_event).

(** [s5l8930_iop_get_irq]: the lines are numbered as those of the main chain. *)
Definition s5l8930_iop_get_irq (n : Z) : nat * Z := get_irq n.

(** The patch of the power gates: two bytes at every even offset below 16. *)
Fixpoint patch_gates (addr : Z) (n : nat) (i : Z) : iopM unit :=
  match n with
  | O => ret tt
  | S n' => modify (fun s => s <| mem ::= phys_write (addr + i) [0x00; 0x20] |>) ;;; patch_gates addr n' (i + 2)
  end.

Definition do_iop_run : iopM unit :=
  patch_gates 0x40762790 8 0 ;;;
  emit (IopCdmaLines (map s5l8930_iop_get_irq [S5L8930_CDMA_CHANNEL5_IRQ; S5L8930_CDMA_CHANNEL6_IRQ;
    S5L8930_CDMA_CHANNEL7_IRQ; S5L8930_CDMA_CHANNEL8_IRQ])) ;;;
  modify (fun s => s <| pc := startaddr s |>) ;;;
  emit (IopExitTb IopCpu) ;;;
  emit (IopExitTb MainCpu).

Definition s5l8930_iop_write (offset value : Z) : iopM unit :=
  switch offset
    [ (on_any [0x18; 0x1c; 0x24], ret tt);
      (on 0x100,
         if test value 0x10 then modify (fun s => s <| status ::= fun x => x .| 0x2 |>)
         else
           when (test value 0x1) (emit (IopHalt MainCpu) ;;; do_iop_run) ;;;
           modify (fun s => s <| status := value |>));
      (on 0x110, modify (fun s => s <| startaddr := value |>)) ]
    (ret tt).

Definition s5l8930_iop_read (offset : Z) : iopM Z :=
  switch offset
    [ (on_any [0x18; 0x1c; 0x24], ret 0); (on 0x100, gets status); (on 0x110, gets startaddr) ]
    (ret 0).

Definition getH2FMI_IRQ_0 : nat * Z := s5l8930_iop_get_irq S5L8930_H2FMI_IRQ0.
Definition getH2FMI_IRQ_1 : nat * Z := s5l8930_iop_get_irq S5L8930_H2FMI_IRQ1.
(** The line is commented out. *)
Definition iopTriggerIRQ : iopM unit := ret tt.

(** The controllers are numbered from 4; the processor waits to be started. *)
Definition iop_vics : vicM unit := init_vics 4 S5L8930_ARM7_VIC_N.
Definition s5l8930_iop_init (m : M) : s5l8930_iop_s * list iop_event :=
  (mk_iop 0 0 0 m, [IopTimerLine (s5l8930_iop_get_irq S5L8930_TIMER0_IRQ); IopHalt IopCpu]).

(** ** Starting and stopping *)

(** The patch as one list of writes. *)
Definition gates_patched (m : M) : M :=
  fold_left (fun m i => phys_write (0x40762790 + i) [0x00; 0x20] m) [0; 2; 4; 6; 8; 10; 12; 14] m.

Lemma run_iop s :
  do_iop_run s = Done (tt, s <| mem := gates_patched (mem s) |> <| pc := startaddr s |>,
    [IopCdmaLines [(1%nat, 21); (1%nat, 22); (1%nat, 23); (1%nat, 24)]; IopExitTb IopCpu; IopExitTb MainCpu]).
Proof. reflexivity. Qed.

(** The control register: stopping only marks the status; starting halts the main
    processor, patches memory, hands the flash channels over and jumps to the
    start address; any other word is only kept. *)
Lemma control_written v s :
  s5l8930_iop_write 0x100 v s =
  if test v 0x10 then Done (tt, s <| status ::= fun x => x .| 0x2 |>, [])
  else if test v 0x1 then
    Done (tt, s <| mem := gates_patched (mem s) |> <| pc := startaddr s |> <| status := v |>,
      [IopHalt MainCpu; IopCdmaLines [(1%nat, 21); (1%nat, 22); (1%nat, 23); (1%nat, 24)];
       IopExitTb IopCpu; IopExitTb MainCpu])
  else Done (tt, s <| status := v |>, []).
Proof. unfold s5l8930_iop_write. pick 1%nat. by destruct (test v 0x10), (test v 0x1). Qed.

(** The processor runs where it was told to, wherever it was before. *)
Lemma starts_at_address a v s :
  test v 0x10 = false -> test v 0x1 = true ->
  exists s' es, (s5l8930_iop_write 0x110 a ;;; s5l8930_iop_write 0x100 v) s = Done (tt, s', es) /\
    pc s' = a /\ (s5l8930_iop_read 0x100) s' = Done (v, s', []) /\ (s5l8930_iop_read 0x110) s' = Done (a, s', []).
Proof.
  intros H1 H2. do 2 eexists. split; [|split; [|split]].
  - unfold bind at 1. change (s5l8930_iop_write 0x110 a s) with (Done (tt, s <| startaddr := a |>, @nil iop_event)).
    cbv iota beta. rewrite control_written, H1, H2. reflexivity.
  - done.
  - done.
  - done.
Qed.
End Iop.

(** The four controllers of the I/O processor form a chain of their own, every
    one of them calm. *)
Lemma iop_chain : exists v, iop_vics [] = Done (tt, v, []) /\ chained v /\ Forall calm v /\
  map instance v = [4; 5; 6; 7].
Proof.
  eexists. split; [vm_compute; reflexivity|]. split; [|split].
  - intros [|[|[|[|k]]]] s Hs; try (injection Hs as <-); done.
  - repeat (apply Forall_cons; split; [by split_and!|]). apply Forall_nil. done.
  - done.
Qed.
