(* ===== verification/Skin.v ===== *)
(** * Skin: buttons of the device window ([skin/skin_button.c], [skin/skin_button.h],
    [skin/skin_image.c], [skin/skinning.c])

    A skin draws a phone around the emulated screen.  Its buttons and keys are
    driven by the mouse and by keys of the host, show one of four pictures, and send
    scan codes to the keyboard handler of the machine, which is [kbd] here: it acts
    on [W], the world outside of the skin.  Switches ask the hardware for their
    state by callbacks.  What is painted is an event; pixels are not modelled. *)
From stdpp Require Import list.
From S2P Require Import Prelude SocRegs.

(** ** Data ([skin.h]) *)

Definition undefined := -1.
Definition off := 0.
Definition on_state := 1.
(** [SkinSwitchState]. *)
Definition unknown := -1.
Definition inactive := 0.
Definition active := 1.

Definition ESkinBtn_Idle := 0.
Definition ESkinBtn_Highlighted := 1.
Definition ESkinBtn_Active := 2.
Definition ESkinBtn_ActiveHighlighted := 3.
Definition ESkinBtn_forceredraw := 5.

Record SkinKey := mk_key {
  keycode : Z; mouseover : bool; mousedown : bool; keydown : bool;
  isswitch : bool; defaultstate : Z; state : Z; posx : Z; posy : Z; width : Z; height : Z
}.
#[export] Instance eta_key : Eta SkinKey := fun s =>
  mk_key (keycode s) (mouseover s) (mousedown s) (keydown s) (isswitch s) (defaultstate s) (state s) (posx s) (posy s) (width s) (height s).
Record SkinImage := mk_image { iposx : Z; iposy : Z; iwidth : Z; iheight : Z; linesize : Z }.
Record SkinArea := mk_area { ax : Z; ay : Z; awidth : Z; aheight : Z }.
(** [skin->ds] and the background. *)
Record SkinScreen := mk_screen { ds_width : Z; ds_height : Z; bytes_per_pixel : Z; background : option SkinImage }.

(** What the skin does outside of itself: [Paint] draws the image whose data start at
    an offset, cut to an area. *)
Inductive skin_event := KeyCode (c : Z) | Fill (a : SkinArea) | Paint (data : Z) (a : SkinArea) | DpyUpdate (a : SkinArea).

Definition skin_button_mouse_over (button : SkinKey) (x y : Z) : bool :=
  (posx button <? x) && (posy button <? y) && (x <? posx button + width button) && (y <? posy button + height button).

(** ** Geometry *)

Definition skin_overlaps (image : SkinImage) (area : SkinArea) : bool :=
  if iposx image + iwidth image <? ax area then false
  else if iposy image + iheight image <? ay area then false
  else if ax area + awidth area <? iposx image then false
  else if ay area + aheight area <? iposy image then false
  else true.

Definition skin_cliparea (image : SkinImage) (area : SkinArea) : SkinArea :=
  let imagex := iposx image + iwidth image in
  let imagey := iposy image + iheight image in
  let areax := ax area + awidth area in
  let areay := ay area + aheight area in
  let '(x, w) := if ax area <? iposx image then (iposx image, awidth area - (iposx image - ax area)) else (ax area, awidth area) in
  let '(y, h) := if ay area <? iposy image then (iposy image, aheight area - (iposy image - ay area)) else (ay area, aheight area) in
  mk_area x y (if imagex <? areax then imagex - x else w) (if imagey <? areay then imagey - y else h).

(** The position is stored in 16 bits. *)
Definition calculate_tooltip_position (s : SkinScreen) (button tooltip : SkinImage) : SkinImage :=
  let x := iposx button + iwidth button / 2 - iwidth tooltip / 2 in
  let y := iposy button + iheight button in
  let x := if x <? 0 then 2 else x in
  let y := if y <? 0 then 2 else y in
  let x := if ds_width s <? x + iwidth tooltip then ds_width s - (iwidth tooltip + 2) else x in
  let y := if ds_height s <? y + iheight tooltip then ds_height s - (iheight tooltip + 2) else y in
  mk_image (u16 x) (u16 y) (iwidth tooltip) (iheight tooltip) (linesize tooltip).

(** ** Buttons *)

Section Buttons.
Context {W : Type} (kbd : Z -> W -> W) (skin : SkinScreen).

Record skin_state := mk_state { key : SkinKey; world : W }.
#[local] Instance eta_skin : Eta skin_state := fun s => mk_state (key s) (world s).
Abbreviation skinM := (dev skin_state skin_event).

Definition kbd_put_keycode (c : Z) : skinM unit := modify (fun s => s <| world ::= kbd c |>) ;;; emit (KeyCode c).
Definition set_key (f : SkinKey -> SkinKey) : skinM unit := modify (fun s => s <| key ::= f |>).
(** Buttons whose code has the top bit send a prefix. *)
Definition put_press : skinM unit :=
  k <- gets (fun s => keycode (key s)) ;;
  if test k 0x80 then kbd_put_keycode 0xe0 ;;; kbd_put_keycode (k .& 0x7f) else kbd_put_keycode k.
Definition put_release : skinM unit :=
  k <- gets (fun s => keycode (key s)) ;;
  if test k 0x80 then kbd_put_keycode 0xe0 ;;; kbd_put_keycode k else kbd_put_keycode (k .| 0x80).

Definition skin_button_handle_mouse (mousebtn : bool) : skinM Z :=
  set_key (fun b => b <| mouseover := true |>) ;;;
  b <- gets key ;;
  if isswitch b then
    let newstate := state b in
    newstate <- (if negb mousebtn && mousedown b then
                   put_release ;;;
                   ret (if newstate =? ESkinBtn_Highlighted then ESkinBtn_ActiveHighlighted else ESkinBtn_Highlighted)
                 else ret newstate) ;;
    let newstate := if newstate =? ESkinBtn_Idle then ESkinBtn_Highlighted else newstate in
    let newstate := if newstate =? ESkinBtn_Active then ESkinBtn_ActiveHighlighted else newstate in
    set_key (fun b => b <| mousedown := mousebtn |>) ;;; ret newstate
  else
    when (mousebtn && negb (mousedown b)) put_press ;;;
    when (negb mousebtn && mousedown b) put_release ;;;
    set_key (fun b => b <| mousedown := mousebtn |>) ;;; ret ESkinBtn_Highlighted.

Definition skin_button_handle_mouseleave : skinM Z :=
  b <- gets key ;;
  if isswitch b then
    let newstate := if keydown b then ESkinBtn_Highlighted else ESkinBtn_Idle in
    set_key (fun b => b <| mousedown := false |>) ;;; set_key (fun b => b <| mouseover := false |>) ;;;
    ret (if (state b =? ESkinBtn_Active) || (state b =? ESkinBtn_ActiveHighlighted) then
           if negb (keydown b) then ESkinBtn_Active else ESkinBtn_ActiveHighlighted
         else newstate)
  else
    when (mousedown b) put_release ;;;
    set_key (fun b => b <| mousedown := false |>) ;;; set_key (fun b => b <| mouseover := false |>) ;;;
    ret (if keydown b then ESkinBtn_Highlighted else ESkinBtn_Idle).

Definition skin_button_handle_key (keypressed : bool) : skinM Z :=
  b <- gets key ;;
  set_key (fun b => b <| keydown := keypressed |>) ;;;
  let newstate := state b in
  let newstate :=
    if keypressed then
      switch (state b) [ (on ESkinBtn_Idle, ESkinBtn_Highlighted); (on ESkinBtn_Active, ESkinBtn_ActiveHighlighted) ] newstate
    else
      switch (state b)
        [ (on ESkinBtn_Highlighted, if mouseover b then newstate else ESkinBtn_Idle);
          (on ESkinBtn_ActiveHighlighted, if mouseover b then newstate else ESkinBtn_Active) ] newstate in
  ret (if negb keypressed && isswitch b then
         switch newstate
           [ (on_any [ESkinBtn_Idle; ESkinBtn_Highlighted], if mouseover b then ESkinBtn_ActiveHighlighted else ESkinBtn_Active);
             (on_any [ESkinBtn_Active; ESkinBtn_ActiveHighlighted], if mouseover b then ESkinBtn_Highlighted else ESkinBtn_Idle) ] newstate
       else newstate).

(** *** Switches of the hardware *)

(** The list [switchcb].  A second callback is allocated but never linked to it. *)
Definition qemu_skin_add_switchstate_callback (cb : Z -> W -> Z) (switchcb : list (Z -> W -> Z)) : list (Z -> W -> Z) :=
  match switchcb with [] => [cb] | _ => switchcb end.

(** The loop asks until one knows the state; it has moved on by then, if there is
    another one.  It returns the state and the callback it stands at. *)
Fixpoint ask (cbs : list (Z -> W -> Z)) (cb : Z -> W -> Z) (k : Z) (w : W) : Z * (Z -> W -> Z) :=
  let hwstate := cb k w in
  match cbs with
  | [] => (hwstate, cb)
  | next :: rest => if hwstate =? unknown then ask rest next k w else (hwstate, next)
  end.
Definition hardware_state (switchcb : list (Z -> W -> Z)) : skinM (Z * option (Z -> W -> Z)) :=
  s <- gets id ;;
  ret (match switchcb with
       | [] => (unknown, None)
       | cb :: rest => let '(hw, at_cb) := ask rest cb (keycode (key s)) (world s) in (hw, Some at_cb)
       end).
(** A switch that is not in its default state is pressed once. *)
Definition force_default (default hw_if : Z) (cb : option (Z -> W -> Z)) (hwstate : Z) : skinM Z :=
  b <- gets key ;;
  if (defaultstate b =? default) && (hwstate =? hw_if) then
    set_key (fun b => b <| defaultstate := undefined |>) ;;;
    kbd_put_keycode (keycode b .| 0x80) ;;;
    ask_again <- lift cb ;; w <- gets world ;; ret (ask_again (keycode b) w)
  else ret hwstate.
Definition skin_button_checkswitch (switchcb : list (Z -> W -> Z)) : skinM unit :=
  b <- gets key ;;
  when (isswitch b) (
    found <- hardware_state switchcb ;;
    hwstate <- force_default on_state inactive found.2 found.1 ;;
    hwstate <- force_default off active found.2 hwstate ;;
    when (hwstate =? inactive) (
      set_key (fun b => if state b =? ESkinBtn_Active then b <| state := ESkinBtn_Idle |> else b) ;;;
      set_key (fun b => if state b =? ESkinBtn_ActiveHighlighted then b <| state := ESkinBtn_Highlighted |> else b)) ;;;
    when (hwstate =? active) (
      set_key (fun b => if state b =? ESkinBtn_Idle then b <| state := ESkinBtn_Active |> else b) ;;;
      set_key (fun b => if state b =? ESkinBtn_Highlighted then b <| state := ESkinBtn_ActiveHighlighted |> else b)) ;;;
    b <- gets key ;;
    when ((hwstate =? unknown) && (defaultstate b =? off)) (set_key (fun b => b <| state := ESkinBtn_Idle |>))).

(** *** Drawing *)

(** The clipped area must fit the window, and a pixel must have two or four bytes. *)
Definition skin_draw_image (data : Z) (image : SkinImage) (area : SkinArea) : skinM bool :=
  let clip := skin_cliparea image area in
  if (bytes_per_pixel skin =? 2) || (bytes_per_pixel skin =? 4) then
    if (ax clip + awidth clip <=? ds_width skin) && (ay clip + aheight clip <=? ds_height skin) then
      emit (Paint data clip) ;;; ret true
    else ret false
  else ret false.
(** The picture of a state is below that of the one before. *)
Definition skin_draw_button (image : SkinImage) (newstate : Z) : skinM bool :=
  b <- gets key ;;
  if newstate =? state b then ret false
  else
    when (negb (newstate =? ESkinBtn_forceredraw)) (set_key (fun b => b <| state := newstate |>)) ;;;
    b <- gets key ;;
    let clip := mk_area (iposx image) (iposy image) (iwidth image) (iheight image) in
    emit (Fill clip) ;;;
    (match background skin with Some bg => (_ <- skin_draw_image 0 bg clip ;; ret tt) | None => ret tt end) ;;;
    skin_draw_image (linesize image * iheight image * state b) image clip.

(** A button's turn in [skin_mouse_event] and in [skin_key_handler]; tooltips are
    left out. *)
Definition redraw (image : SkinImage) (newstate : Z) : skinM unit :=
  drawn <- skin_draw_button image newstate ;;
  when drawn (emit (DpyUpdate (mk_area (iposx image) (iposy image) (iwidth image) (iheight image)))).
Definition skin_mouse_event (image : SkinImage) (mx my : Z) (lbutton : bool) : skinM unit :=
  b <- gets key ;;
  if skin_button_mouse_over b mx my then newstate <- skin_button_handle_mouse lbutton ;; redraw image newstate
  else newstate <- skin_button_handle_mouseleave ;; redraw image newstate.
Definition skin_key_event (image : SkinImage) (code : Z) : skinM unit :=
  b <- gets key ;;
  when (keycode b .& 0x7f =? code .& 0x7f) (newstate <- skin_button_handle_key (negb (test code 0x80)) ;; redraw image newstate).

(** Whatever happens to a button. *)
Inductive input := Mouse (mx my : Z) (lbutton : bool) | Key (code : Z) | Redraw.
Definition handle (image : SkinImage) (i : input) : skinM unit :=
  match i with
  | Mouse mx my l => skin_mouse_event image mx my l
  | Key c => skin_key_event image c
  | Redraw => redraw image ESkinBtn_forceredraw
  end.
Fixpoint handle_all (image : SkinImage) (l : list input) : skinM unit :=
  match l with [] => ret tt | i :: l' => handle image i ;;; handle_all image l' end.
End Buttons.

(** ** Rectangles *)

Definition in_area (a : SkinArea) (x y : Z) : Prop := ax a <= x < ax a + awidth a /\ ay a <= y < ay a + aheight a.
Definition image_area (i : SkinImage) : SkinArea := mk_area (iposx i) (iposy i) (iwidth i) (iheight i).

(** What is drawn of an image is what is both in it and in the area. *)
Lemma cliparea_is_intersection image area x y :
  in_area (skin_cliparea image area) x y <-> in_area (image_area image) x y /\ in_area area x y.
Proof.
  unfold skin_cliparea, in_area, image_area. cbv zeta.
  destruct (Z.ltb_spec (ax area) (iposx image)), (Z.ltb_spec (ay area) (iposy image)); cbn [ax ay awidth aheight];
    destruct (Z.ltb_spec (iposx image + iwidth image) (ax area + awidth area)), (Z.ltb_spec (iposy image + iheight image) (ay area + aheight area)); lia.
Qed.
Lemma overlaps_complete image area x y : in_area (image_area image) x y -> in_area area x y -> skin_overlaps image area = true.
Proof.
  unfold in_area, image_area, skin_overlaps. cbn [ax ay awidth aheight]. intros H1 H2.
  repeat match goal with |- context [?a <? ?b] => destruct (Z.ltb_spec a b); [lia|] end. done.
Qed.
(** A tooltip that fits, with two pixels to spare, is put into the window. *)
Lemma tooltip_inside s button tooltip : 0 <= iwidth tooltip -> 0 <= iheight tooltip ->
  iwidth tooltip + 2 <= ds_width s < 2 ^ 16 -> iheight tooltip + 2 <= ds_height s < 2 ^ 16 ->
  let t := calculate_tooltip_position s button tooltip in
  0 <= iposx t /\ iposx t + iwidth t <= ds_width s /\ 0 <= iposy t /\ iposy t + iheight t <= ds_height s.
Proof.
  intros Hw Hh HW HH. unfold calculate_tooltip_position. cbv zeta. cbn [iposx iposy iwidth iheight].
  set (x := iposx button + iwidth button / 2 - iwidth tooltip / 2). set (y := iposy button + iheight button).
  assert (forall p m d, 0 <= m -> m + 2 <= d < 2 ^ 16 ->
    let q := if p <? 0 then 2 else p in let r := if d <? q + m then d - (m + 2) else q in 0 <= u16 r /\ u16 r + m <= d) as Hp.
  { intros p m d Hm Hd q r. unfold r, q. destruct (Z.ltb_spec p 0); match goal with |- context [if ?a <? ?b then _ else _] => destruct (Z.ltb_spec a b) end; rewrite wrap_fits by (unfold fits; lia); lia. }
  destruct (Hp x (iwidth tooltip) (ds_width s) Hw HW). destruct (Hp y (iheight tooltip) (ds_height s) Hh HH). done.
Qed.

(** ** What a button does *)

Section ButtonLaws.
Context {W : Type} (kbd : Z -> W -> W) (skin : SkinScreen) (image : SkinImage).

(** The codes among some events, and what they do. *)
Fixpoint keycodes (es : list skin_event) : list Z :=
  match es with [] => [] | KeyCode c :: r => c :: keycodes r | _ :: r => keycodes r end.
Definition type_codes (cs : list Z) (w : W) : W := fold_left (fun w c => kbd c w) cs w.
Lemma keycodes_app a b : keycodes (a ++ b) = keycodes a ++ keycodes b.
Proof. induction a as [|[] a IH]; cbn; congruence. Qed.
Lemma type_codes_app a b w : type_codes (a ++ b) w = type_codes b (type_codes a w).
Proof. apply fold_left_app. Qed.

Definition press (k : Z) : list Z := if test k 0x80 then [0xe0; k .& 0x7f] else [k].
Definition release (k : Z) : list Z := if test k 0x80 then [0xe0; k] else [k .| 0x80].
(** The codes of a mouse event, and the picture shown after it. *)
Definition mouse_codes (b : SkinKey) (over l : bool) : list Z :=
  if over then
    if isswitch b then if negb l && mousedown b then release (keycode b) else []
    else if l && negb (mousedown b) then press (keycode b) else if negb l && mousedown b then release (keycode b) else []
  else if negb (isswitch b) && mousedown b then release (keycode b) else [].
Definition lit (st : Z) : bool := (st =? ESkinBtn_Highlighted) || (st =? ESkinBtn_ActiveHighlighted).
Definition is_active (st : Z) : bool := (st =? ESkinBtn_Active) || (st =? ESkinBtn_ActiveHighlighted).
Definition picture (active lit : bool) : Z :=
  match active, lit with
  | false, false => ESkinBtn_Idle | false, true => ESkinBtn_Highlighted
  | true, false => ESkinBtn_Active | true, true => ESkinBtn_ActiveHighlighted
  end.

(** A button that shows what it should: highlighted while the pointer is over it or its
    key is down; only a switch can be active; it is held only under the pointer. *)
Definition button_ok (b : SkinKey) : Prop :=
  exists a, state b = picture a (mouseover b || keydown b) /\ (isswitch b = false -> a = false) /\ (mousedown b = true -> mouseover b = true).

Lemma picture_kept a l : (picture a l =? ESkinBtn_forceredraw) = false.
Proof. by destruct a, l. Qed.
Lemma picture_inv a l : is_active (picture a l) = a /\ lit (picture a l) = l.
Proof. by destruct a, l. Qed.

(** A computation that types the codes [cs] and paints something. *)
Definition does {A} (m : dev (@skin_state W) skin_event A) (s : @skin_state W) (a : A) (s' : @skin_state W) (cs : list Z) : Prop :=
  exists es, m s = Done (a, s', es) /\ keycodes es = cs.
Lemma does_ret {A} (a : A) s : does (ret a) s a s [].
Proof. by exists []. Qed.
Lemma does_bind {A B} (m : dev _ _ A) (f : A -> dev _ _ B) s a s1 c1 b s2 c2 : does m s a s1 c1 -> does (f a) s1 b s2 c2 -> does (bind m f) s b s2 (c1 ++ c2).
Proof.
  intros (e1 & E1 & <-) (e2 & E2 & <-). exists (e1 ++ e2). rewrite keycodes_app. split; [|done]. erewrite bind_Done by exact E1. by rewrite E2.
Qed.
Lemma does_gets {A B} (g : @skin_state W -> A) (f : A -> dev _ _ B) s b s2 c2 : does (f (g s)) s b s2 c2 -> does (bind (gets g) f) s b s2 c2.
Proof. unfold does. by rewrite bind_gets. Qed.
Lemma does_set {B} (g : SkinKey -> SkinKey) (f : unit -> dev _ _ B) b w a s2 c2 : does (f tt) (mk_state (g b) w) a s2 c2 -> does (bind (set_key g) f) (mk_state b w) a s2 c2.
Proof. unfold does, set_key. by rewrite bind_modify. Qed.
Lemma does_paint {B} (e : skin_event) (f : unit -> dev _ _ B) s a s2 c2 : keycodes [e] = [] -> does (f tt) s a s2 c2 -> does (bind (emit e) f) s a s2 c2.
Proof. intros He Hf. apply (does_bind _ _ _ tt s [] a s2 c2); [by exists [e]|done]. Qed.

Lemma draw_image_does d i a s : exists r, does (skin_draw_image skin d i a) s r s [].
Proof.
  unfold skin_draw_image. cbv zeta. destruct (_ || _); [|by exists false; apply does_ret]. destruct (_ && _); [|by exists false; apply does_ret].
  exists true. apply does_paint; [done|apply does_ret].
Qed.
Lemma redraw_does newstate b w :
  does (redraw skin image newstate) (mk_state b w) tt (mk_state (b <| state := if newstate =? ESkinBtn_forceredraw then state b else newstate |>) w) [].
Proof.
  assert (forall r s a, does (when r (emit (DpyUpdate a))) s tt s []) as Hw by (intros [] s a; by eexists).
  set (b' := b <| state := _ |>). unfold redraw.
  assert (exists r, does (skin_draw_button skin image newstate) (mk_state b w) r (mk_state b' w) []) as (r & Hr); [|apply (does_bind _ _ _ _ _ [] _ _ [] Hr), Hw].
  unfold skin_draw_button. destruct (Z.eqb_spec newstate (state b)) as [E|Hne].
  - exists false. apply does_gets. cbn [key]. rewrite E, Z.eqb_refl. assert (b' = b) as ->; [|apply does_ret]. unfold b'. rewrite E. match goal with |- context [if ?c then state b else state b] => assert ((if c then state b else state b) = state b) as -> by (by destruct c) end. by destruct b.
  - destruct (draw_image_does (linesize image * iheight image * state b') image (image_area image) (mk_state b' w)) as [r Hr]. exists r.
    apply does_gets. cbn [key]. apply Z.eqb_neq in Hne as ->.
    apply (does_bind _ _ _ tt (mk_state b' w) [] _ _ []).
    { unfold b'. destruct (newstate =? ESkinBtn_forceredraw); [|by exists []]. assert (b <| state := state b |> = b) as -> by (by destruct b). apply does_ret. }
    apply does_gets. cbn [key]. apply does_paint; [done|]. apply (does_bind _ _ _ tt (mk_state b' w) [] _ _ []); [|exact Hr].
    destruct (background skin) as [bg|]; [|apply does_ret]. destruct (draw_image_does 0 bg (image_area image) (mk_state b' w)) as [r' Hr'].
    exact (does_bind _ (fun _ => ret tt) _ _ _ [] _ _ [] Hr' (does_ret tt _)).
Qed.

(** The keyboard handler, called for some codes. *)
Lemma kbd_does c b w : does (kbd_put_keycode kbd c) (mk_state b w) tt (mk_state b (kbd c w)) [c].
Proof. by exists [KeyCode c]. Qed.
Lemma press_does b w : does (put_press kbd) (mk_state b w) tt (mk_state b (type_codes (press (keycode b)) w)) (press (keycode b)).
Proof.
  unfold put_press, press. apply does_gets. cbn [key]. destruct (test (keycode b) 0x80); [|apply kbd_does].
  exact (does_bind _ _ _ _ _ [_] _ _ [_] (kbd_does _ _ _) (kbd_does _ _ _)).
Qed.
Lemma release_does b w : does (put_release kbd) (mk_state b w) tt (mk_state b (type_codes (release (keycode b)) w)) (release (keycode b)).
Proof.
  unfold put_release, release. apply does_gets. cbn [key]. destruct (test (keycode b) 0x80); [|apply kbd_does].
  exact (does_bind _ _ _ _ _ [_] _ _ [_] (kbd_does _ _ _) (kbd_does _ _ _)).
Qed.

(** A click that ends on a switch turns it over. *)
Definition turned (b : SkinKey) (over l : bool) : bool := over && isswitch b && negb l && mousedown b.
Definition after_mouse (b : SkinKey) (over l : bool) : SkinKey :=
  b <| mouseover := over |> <| mousedown := over && l |> <| state := picture (xorb (is_active (state b)) (turned b over l)) (over || keydown b) |>.

(** By cases on the flags of a button. *)
Ltac by_flags :=
  eexists; split; reflexivity.
Lemma handle_mouse_does b w l : button_ok b ->
  does (skin_button_handle_mouse kbd l) (mk_state b w) (state (after_mouse b true l))
    (mk_state (b <| mouseover := true |> <| mousedown := l |>) (type_codes (mouse_codes b true l) w)) (mouse_codes b true l).
Proof.
  intros (a & Hst & Hsw & Hmd). unfold after_mouse, turned, mouse_codes, press, release, skin_button_handle_mouse, put_press, put_release.
  destruct b as [k mo md kd [] df st px py wd ht]; cbn in Hst, Hsw, Hmd |- *; subst st; destruct md, l, a, mo, kd; try discriminate (Hsw eq_refl); try discriminate (Hmd eq_refl); try by_flags.
  all: destruct (test k 0x80) eqn:E; eexists; (split; [cbv -[test Z.land Z.lor]; rewrite ?E; reflexivity|reflexivity]).
Qed.
Lemma handle_leave_does b w l : button_ok b ->
  does (skin_button_handle_mouseleave kbd) (mk_state b w) (state (after_mouse b false l))
    (mk_state (b <| mouseover := false |> <| mousedown := false |>) (type_codes (mouse_codes b false l) w)) (mouse_codes b false l).
Proof.
  intros (a & Hst & Hsw & Hmd). unfold after_mouse, turned, mouse_codes, press, release, skin_button_handle_mouseleave, put_release.
  destruct b as [k mo md kd [] df st px py wd ht]; cbn in Hst, Hsw, Hmd |- *; subst st; destruct md, a, kd, mo; try discriminate (Hsw eq_refl); try by_flags.
  all: destruct (test k 0x80) eqn:E; eexists; (split; [cbv -[test Z.land Z.lor]; rewrite ?E; reflexivity|reflexivity]).
Qed.

(** One event of the mouse. *)
Lemma mouse_does b w mx my l : button_ok b -> let over := skin_button_mouse_over b mx my in
  does (skin_mouse_event kbd skin image mx my l) (mk_state b w) tt
    (mk_state (after_mouse b over l) (type_codes (mouse_codes b over l) w)) (mouse_codes b over l).
Proof.
  intros Hok over. unfold skin_mouse_event. apply does_gets. cbn [key]. fold over. rewrite <- (app_nil_r (mouse_codes b over l)) at 2.
  assert (forall b' w', (state (after_mouse b over l) =? ESkinBtn_forceredraw) = false /\
    (b' <| state := state (after_mouse b over l) |> = after_mouse b over l -> does (redraw skin image (state (after_mouse b over l))) (mk_state b' w') tt (mk_state (after_mouse b over l) w') [])) as Hr.
  { intros b' w'. assert ((state (after_mouse b over l) =? ESkinBtn_forceredraw) = false) as Hn by (destruct b; apply picture_kept).
    split; [done|]. intros <-. pose proof (redraw_does (state (after_mouse b over l)) b' w') as Hd. rewrite Hn in Hd. exact Hd. }
  destruct over eqn:Eo; eapply does_bind; [by apply handle_mouse_does| |by apply (handle_leave_does b w l)|]; apply Hr; by destruct b.
Qed.

(** One key of the host. *)
Definition after_key (b : SkinKey) (pressed : bool) : SkinKey :=
  b <| keydown := pressed |> <| state := picture (xorb (is_active (state b)) (negb pressed && isswitch b)) (mouseover b || pressed) |>.
Lemma handle_key_does b w pressed : button_ok b ->
  does (skin_button_handle_key pressed) (mk_state b w) (state (after_key b pressed)) (mk_state (b <| keydown := pressed |>) w) [].
Proof.
  intros (a & Hst & Hsw & Hmd). unfold after_key, skin_button_handle_key.
  destruct b as [k mo md kd [] df st px py wd ht]; cbn in Hst, Hsw, Hmd |- *; subst st; destruct pressed, a, kd, mo; try discriminate (Hsw eq_refl); by_flags.
Qed.
Definition same_code (b : SkinKey) (code : Z) : bool := keycode b .& 0x7f =? code .& 0x7f.
Lemma key_does b w code : button_ok b ->
  does (skin_key_event skin image code) (mk_state b w) tt
    (mk_state (if same_code b code then after_key b (negb (test code 0x80)) else b) w) [].
Proof.
  intros Hok. unfold skin_key_event. apply does_gets. cbn [key]. fold (same_code b code). destruct (same_code b code); [|apply does_ret]. cbn [when].
  set (p := negb (test code 0x80)). apply (does_bind _ _ _ _ _ [] _ _ [] (handle_key_does b w p Hok)).
  pose proof (redraw_does (state (after_key b p)) (b <| keydown := p |>) w) as Hd.
  assert ((state (after_key b p) =? ESkinBtn_forceredraw) = false) as Hn by (destruct b; apply picture_kept). rewrite Hn in Hd. exact Hd.
Qed.

(** ** Runs *)

Definition after (b : SkinKey) (i : input) : SkinKey :=
  match i with
  | Mouse mx my l => after_mouse b (skin_button_mouse_over b mx my) l
  | Key c => if same_code b c then after_key b (negb (test c 0x80)) else b
  | Redraw => b
  end.
Definition codes_of (b : SkinKey) (i : input) : list Z :=
  match i with Mouse mx my l => mouse_codes b (skin_button_mouse_over b mx my) l | _ => [] end.
Definition afters (l : list input) (b : SkinKey) : SkinKey := fold_left after l b.
Fixpoint codes (l : list input) (b : SkinKey) : list Z :=
  match l with [] => [] | i :: l' => codes_of b i ++ codes l' (after b i) end.

Lemma after_ok b i : button_ok b -> button_ok (after b i).
Proof.
  intros (a & Hst & Hsw & Hmd). destruct i as [mx my l|c|]; cbn [after]; [| |by exists a].
  - unfold after_mouse, turned. eexists. split; [reflexivity|]. rewrite Hst. destruct (picture_inv a (mouseover b || keydown b)) as [-> _]. split.
    + intros Hs. assert (isswitch b = false) as E by exact Hs. rewrite (Hsw E), E. by destruct (skin_button_mouse_over b mx my).
    + cbn. by destruct (skin_button_mouse_over b mx my).
  - destruct (same_code b c); [|by exists a]. unfold after_key. eexists. split; [reflexivity|]. rewrite Hst. destruct (picture_inv a (mouseover b || keydown b)) as [-> _]. split; [|exact Hmd].
    intros Hs. assert (isswitch b = false) as E by exact Hs. rewrite (Hsw E), E. by destruct (test c 0x80).
Qed.
Lemma handle_does b w i : button_ok b -> does (handle kbd skin image i) (mk_state b w) tt (mk_state (after b i) (type_codes (codes_of b i) w)) (codes_of b i).
Proof.
  intros Hok. destruct i as [mx my l|c|]; cbn [handle after codes_of]; [by apply mouse_does|by apply key_does|].
  pose proof (redraw_does ESkinBtn_forceredraw b w) as Hr. rewrite Z.eqb_refl in Hr. assert (b <| state := state b |> = b) as Eb by (by destruct b). by rewrite Eb in Hr.
Qed.
Lemma handle_all_does l b w : button_ok b ->
  does (handle_all kbd skin image l) (mk_state b w) tt (mk_state (afters l b) (type_codes (codes l b) w)) (codes l b) /\ button_ok (afters l b).
Proof.
  revert b w. induction l as [|i l IH]; intros b w Hok; [by split; [apply does_ret|]|]. cbn [handle_all codes afters fold_left]. rewrite type_codes_app.
  destruct (IH (after b i) (type_codes (codes_of b i) w) (after_ok b i Hok)) as [Hr Ho]. split; [|exact Ho]. eapply does_bind; [by apply handle_does|exact Hr].
Qed.

(** The mouse button is down on a button after the last event of the mouse. *)
Definition held (b : SkinKey) (l : list input) (h : bool) : bool :=
  fold_left (fun h i => match i with Mouse mx my lb => skin_button_mouse_over b mx my && lb | _ => h end) l h.
Lemma after_fixed b i : keycode (after b i) = keycode b /\ isswitch (after b i) = isswitch b /\
  forall x y, skin_button_mouse_over (after b i) x y = skin_button_mouse_over b x y.
Proof. destruct i as [mx my l|c|]; cbn [after]; [|destruct (same_code b c)|]; by destruct b. Qed.
Lemma after_mousedown b i : mousedown (after b i) = match i with Mouse mx my lb => skin_button_mouse_over b mx my && lb | _ => mousedown b end.
Proof. destruct i as [mx my l|c|]; cbn [after]; [by destruct b|destruct (same_code b c); by destruct b|done]. Qed.
Lemma afters_held l b b0 : (forall x y, skin_button_mouse_over b x y = skin_button_mouse_over b0 x y) -> mousedown (afters l b) = held b0 l (mousedown b).
Proof.
  revert b. induction l as [|i l IH]; intros b Hb; [done|]. destruct (after_fixed b i) as (_ & _ & Hf). cbn [afters held fold_left] in *.
  etransitivity; [apply (IH (after b i)); intros x y; by rewrite Hf|]. rewrite after_mousedown. by destruct i; rewrite ?Hb.
Qed.

(** A button types the press when it becomes held, and the release when it no longer is. *)
Lemma button_codes b i : isswitch b = false -> button_ok b ->
  codes_of b i = match mousedown b, mousedown (after b i) with false, true => press (keycode b) | true, false => release (keycode b) | _, _ => [] end.
Proof.
  intros Hs _. rewrite after_mousedown. destruct i as [mx my l|c|]; cbn [codes_of]; [|by destruct (mousedown b)..].
  unfold mouse_codes. rewrite Hs. by destruct (skin_button_mouse_over b mx my), l, (mousedown b).
Qed.

(** ** Switches and the hardware *)

Lemma lift_does {A B} (a : A) (f : A -> dev _ _ B) s b s2 c2 : does (f a) s b s2 c2 -> does (bind (lift (Some a)) f) s b s2 c2.
Proof. unfold does. by rewrite (bind_lift _ _ _ a). Qed.

(** What a check does to a state. *)
Definition synced (b : SkinKey) (hw : Z) : SkinKey := b <| state := picture (hw =? active) (lit (state b)) |>.
Definition conflict (b : SkinKey) (hw : Z) : bool :=
  ((defaultstate b =? on_state) && (hw =? inactive)) || ((defaultstate b =? off) && (hw =? active)).

Lemma force_does default hw_if cb b w hw : let c := (defaultstate b =? default) && (hw =? hw_if) in let code := keycode b .| 0x80 in
  does (force_default kbd default hw_if (Some cb) hw) (mk_state b w) (if c then cb (keycode b) (kbd code w) else hw)
    (mk_state (if c then b <| defaultstate := undefined |> else b) (if c then kbd code w else w)) (if c then [code] else []).
Proof.
  intros c code. unfold force_default. apply does_gets. cbn [key]. fold c. destruct c; [|apply does_ret]. apply does_set.
  apply (does_bind _ _ _ _ _ [_] _ _ [] (kbd_does _ _ _)). apply lift_does, does_gets, does_ret.
Qed.
(** The assignments at the end of a check. *)
Lemma sync_does b w hw : button_ok b -> (hw = inactive \/ hw = active) ->
  does (when (hw =? inactive) (
      set_key (fun b => if state b =? ESkinBtn_Active then b <| state := ESkinBtn_Idle |> else b) ;;;
      set_key (fun b => if state b =? ESkinBtn_ActiveHighlighted then b <| state := ESkinBtn_Highlighted |> else b)) ;;;
    when (hw =? active) (
      set_key (fun b => if state b =? ESkinBtn_Idle then b <| state := ESkinBtn_Active |> else b) ;;;
      set_key (fun b => if state b =? ESkinBtn_Highlighted then b <| state := ESkinBtn_ActiveHighlighted |> else b)) ;;;
    b <- gets key ;;
    when ((hw =? unknown) && (defaultstate b =? off)) (set_key (fun b => b <| state := ESkinBtn_Idle |>)))
    (mk_state b w) tt (mk_state (synced b hw) w) [].
Proof.
  intros (x & Hst & _ & _) Hhw. unfold synced. rewrite Hst. destruct (picture_inv x (mouseover b || keydown b)) as [_ ->].
  destruct b as [k mo md kd sw df st px py wd ht]. cbn in Hst |- *. subst st. destruct Hhw as [-> | ->], x, (mo || kd); by_flags.
Qed.
Lemma synced_ok b hw : isswitch b = true -> button_ok b -> button_ok (synced b hw).
Proof.
  intros Hs (x & Hst & _ & Hm). exists (hw =? active). unfold synced. rewrite Hst. destruct (picture_inv x (mouseover b || keydown b)) as [_ ->].
  split; [done|]. split; [|exact Hm]. intros Hf. assert (isswitch b = false) as E by exact Hf. congruence.
Qed.

(** Drawing a switch brings it in line with the hardware, whose answer counts; where a
    default says otherwise, the switch of the hardware is turned once, and asked again. *)
Lemma switch_follows_hardware b w cb : isswitch b = true -> button_ok b -> (forall w, cb (keycode b) w = inactive \/ cb (keycode b) w = active) ->
  let cs := if conflict b (cb (keycode b) w) then [keycode b .| 0x80] else [] in let w' := type_codes cs w in
  exists b', does (skin_button_checkswitch kbd [cb]) (mk_state b w) tt (mk_state b' w') cs /\ button_ok b' /\
    is_active (state b') = (cb (keycode b) w' =? active) /\ lit (state b') = lit (state b).
Proof.
  intros Hs Hok Hcb cs w'. set (c1 := (defaultstate b =? on_state) && (cb (keycode b) w =? inactive)).
  set (b1 := if c1 then b <| defaultstate := undefined |> else b). set (w1 := if c1 then kbd (keycode b .| 0x80) w else w).
  set (c2 := (defaultstate b1 =? off) && ((if c1 then cb (keycode b) w1 else cb (keycode b) w) =? active)).
  set (b2 := if c2 then b1 <| defaultstate := undefined |> else b1).
  assert (keycode b1 = keycode b /\ isswitch b1 = isswitch b /\ state b1 = state b) as (K1 & S1 & T1) by (unfold b1; by destruct c1).
  assert (isswitch b2 = isswitch b /\ state b2 = state b /\ button_ok b2) as (S2 & T2 & O2).
  { unfold b2, b1. destruct Hok as (x & Hx). split_and!; [by destruct c2, c1..|]. exists x. by destruct c2, c1. }
  assert (cb (keycode b) w1 = (if c1 then cb (keycode b) w1 else cb (keycode b) w)) as E1 by (unfold w1; by destruct c1).
  assert (cs = (if c1 then [keycode b .| 0x80] else []) ++ (if c2 then [keycode b1 .| 0x80] else []) /\ (if c2 then kbd (keycode b1 .| 0x80) w1 else w1) = w') as [Ecs Ew].
  { unfold w', cs, conflict. fold c1. unfold c2, b1, w1 in *. destruct c1 eqn:C1.
    - split; reflexivity.
    - cbv iota. destruct ((defaultstate b =? off) && (cb (keycode b) w =? active)) eqn:C2; by rewrite ?orb_true_r. }
  set (hw := if c2 then cb (keycode b1) (kbd (keycode b1 .| 0x80) w1) else (if c1 then cb (keycode b) w1 else cb (keycode b) w)).
  assert (hw = cb (keycode b) w') as Ehw by (unfold hw; rewrite <- Ew, K1; destruct c2; [done|by rewrite <- E1]).
  exists (synced b2 hw). split_and!.
  - unfold skin_button_checkswitch. apply does_gets. cbn [key]. rewrite Hs. cbn [when]. unfold hardware_state.
    assert (forall {A} (f : _ -> dev _ _ A) P s a s' c, does (f (cb (keycode b) w, Some cb)) (mk_state b w) a s' c -> P = f -> s = mk_state b w -> does (bind (s <- gets id ;; ret (let '(hw, at_cb) := ask [] cb (keycode (key s)) (world s) in (hw, Some at_cb))) P) s a s' c) as Hh.
    { intros A f P s a s' c Hf -> ->. unfold does. erewrite (bind_silent (s <- gets id ;; _)) by reflexivity. exact Hf. }
    eapply Hh; [|reflexivity|reflexivity]. cbn [fst snd]. rewrite Ecs. pose proof (force_does on_state inactive cb b w (cb (keycode b) w)) as F1. cbv zeta in F1. fold c1 in F1. fold b1 w1 in F1.
    pose proof (force_does off active cb b1 w1 (if c1 then cb (keycode b) w1 else cb (keycode b) w)) as F2. cbv zeta in F2. fold c2 in F2. rewrite Ew in F2. fold b2 hw in F2.
    assert ((if c1 then cb (keycode b) (kbd (keycode b .| 0x80) w) else cb (keycode b) w) = (if c1 then cb (keycode b) w1 else cb (keycode b) w)) as E0 by (unfold w1; by destruct c1).
    rewrite E0 in F1. eapply does_bind; [exact F1|]. rewrite <- (app_nil_r (if c2 then _ else _)). eapply does_bind; [exact F2|].
    apply sync_does; [done|]. rewrite Ehw. apply Hcb.
  - by apply synced_ok; [rewrite S2|].
  - rewrite <- Ehw. destruct O2 as (x & Hx & _). unfold synced. rewrite Hx. apply (picture_inv (hw =? active)).
  - rewrite <- T2. destruct O2 as (x & Hx & _). unfold synced. rewrite Hx. destruct (picture_inv x (mouseover b2 || keydown b2)) as [_ ->]. apply (picture_inv (hw =? active)).
Qed.

(** A second callback is never asked. *)
Lemma second_callback_ignored (cb cb' : Z -> W -> Z) l : qemu_skin_add_switchstate_callback cb' (qemu_skin_add_switchstate_callback cb l) = qemu_skin_add_switchstate_callback cb l.
Proof. by destruct l. Qed.
End ButtonLaws.

(** ** Buttons of the phone *)

Import S5L8900Regs.
(** The keyboard handler of the first iPhone, which replaces that of the skin. *)
Definition phone_kbd (c g : Z) : Z := match iphone2g_keyboard_event c g with Done (_, g', _) => g' | _ => g end.
(** Code, pin, and whether the pin is low while the button is pressed. *)
Definition phone_buttons : list (Z * Z * bool) := [(0x36, 0, false); (0x01, 5, false); (0x51, 1, true); (0x53, 2, true)].

Lemma phone_pins (k n : Z) (low : bool) (g : Z) : (k, n, low) ∈ phone_buttons ->
  0 <= n /\ type_codes phone_kbd (press k) g = (if low then g .&~ bit n else g .| bit n) /\
  type_codes phone_kbd (release k) g = (if low then g .| bit n else g .&~ bit n).
Proof.
  intros Hk. unfold phone_buttons in Hk. repeat (apply elem_of_cons in Hk as [[= -> -> ->]|Hk]; [by split_and!|]). by apply elem_of_nil in Hk.
Qed.
(** The level of a pin. *)
Definition pin_level (low held : bool) : bool := xorb low held.

Lemma set_pin g n v i : 0 <= n -> 0 <= i -> Z.testbit (if v : bool then g .| bit n else g .&~ bit n) i = if i =? n then v else Z.testbit g i.
Proof.
  intros Hn Hi. destruct v; [rewrite Z.lor_spec|rewrite Z.ldiff_spec]; rewrite testbit_bit, (Z.eqb_sym n i) by done; destruct (i =? n); cbn [negb]; rewrite ?orb_true_r, ?orb_false_r, ?andb_false_r, ?andb_true_r; done.
Qed.

Lemma phone_step b g i (k n : Z) (low : bool) : (k, n, low) ∈ phone_buttons -> keycode b = k -> isswitch b = false -> button_ok b -> Z.testbit g n = pin_level low (mousedown b) ->
  let g' := type_codes phone_kbd (codes_of b i) g in
  Z.testbit g' n = pin_level low (mousedown (after b i)) /\ forall j, 0 <= j -> j <> n -> Z.testbit g' j = Z.testbit g j.
Proof.
  intros Hk Hkb Hs Hok Hg g'. destruct (phone_pins k n low g Hk) as (Hn & Hp & Hr). unfold g'. rewrite button_codes by done. rewrite Hkb.
  destruct (mousedown b), (mousedown (after b i)); [by split|rewrite Hr|rewrite Hp|by split].
  - split; intros; rewrite set_pin by done.
    + rewrite Z.eqb_refl. by destruct low.
    + by destruct (Z.eqb_spec j n).
  - assert ((if low then g .&~ bit n else g .| bit n) = if negb low then g .| bit n else g .&~ bit n) as -> by (by destruct low). split; intros; rewrite set_pin by done.
    + rewrite Z.eqb_refl. by destruct low.
    + by destruct (Z.eqb_spec j n).
Qed.

Lemma phone_run l b g (k n : Z) (low : bool) : (k, n, low) ∈ phone_buttons -> keycode b = k -> isswitch b = false -> button_ok b -> Z.testbit g n = pin_level low (mousedown b) ->
  let g' := type_codes phone_kbd (codes l b) g in
  Z.testbit g' n = pin_level low (mousedown (afters l b)) /\ forall j, 0 <= j -> j <> n -> Z.testbit g' j = Z.testbit g j.
Proof.
  intros Hk. revert b g. induction l as [|i l IH]; intros b g Hkb Hs Hok Hg; [by split|]. cbn [codes afters fold_left]. rewrite type_codes_app.
  destruct (phone_step b g i k n low Hk Hkb Hs Hok Hg) as [H1 H2]. destruct (after_fixed b i) as (Fk & Fs & _).
  destruct (IH (after b i) (type_codes phone_kbd (codes_of b i) g)) as [H3 H4]; [by rewrite Fk|by rewrite Fs|by apply after_ok|done|].
  split; [exact H3|]. intros j Hj Hne. rewrite H4 by done. by apply H2.
Qed.


(** ** The hypotheses can hold *)

Module SkinDemo.
Definition screen0 : SkinScreen := mk_screen 400 600 4 None.
Definition home_image : SkinImage := mk_image 150 500 60 60 240.
Definition home : SkinKey := mk_key 0x36 false false false false 0 ESkinBtn_Idle 150 500 60 60.
Lemma home_ok : button_ok home.
Proof. by exists false. Qed.

(** The pointer moves in, presses, drags the button out, and comes back with it down. *)
Definition drag : list input := [Mouse 160 510 false; Mouse 161 511 true; Redraw; Mouse 10 10 true; Mouse 170 520 true].

(** A button redrawn while the state of the hardware is unknown and the default is off
    goes out although the pointer is over it. *)
Example redraw_goes_out :
  let b := mk_key 0x36 true false false true off ESkinBtn_Highlighted 150 500 60 60 in
  exists s es, skin_button_checkswitch phone_kbd [] (mk_state b 0) = Done (tt, s, es) /\ button_ok b /\ state (key s) = ESkinBtn_Idle.
Proof. do 2 eexists. split; [reflexivity|]. split; [by exists false|reflexivity]. Qed.
End SkinDemo.
